(* ===== verification/_CoqProject ===== *)
-Q . S2P
Prelude.v
Winmx.v
Mix.v
EncType2.v
EncType20.v
EncType80.v
EncType1.v
MerkleDamgard.v
Md5.v
Md4.v
Sha1.v
Os.v
Tiger.v
HashFd.v
Hasher.v
HasherThread.v
FstHash.v
FstCrypt.v
FstStubs.v
Huffman.v
He3.v
Upnp.v
UpnpRace.v
UpnpThread.v
Select.v
Rlimit.v
Inet.v
CString.v
Charset.v
Win32Lang.v
Bitstring.v
FileSize.v
WinOs.v
WinUname.v
Statfs.v
Zlib.v
Channels.v
Bzip2.v
Gzip.v
MagicLib.v
Wget.v
Sui.v
SuiClient.v
SuiKey.v
Gd.v
