(* ===== verification/Prelude.v ===== *)
(** * The C kernels of mldonkey, verified

    mldonkey is a peer-to-peer client written in OCaml around a set of C
    routines: the ciphers of the FastTrack network, the hash functions that
    identify files, packet obfuscation, compression, conversion of texts,
    waiting for descriptors, and the threads that hash, resolve names and ask
    the router to forward ports.  The C routines carry the state and the
    arithmetic; this library models them, definition by definition, and proves
    what they do.

    ** Conventions

    A C integer is a [Z], the wrap-around of its type written out ([u8], [u32],
    [s32], ...).  An array is a list; a read or a write outside of it is
    undefined behaviour in C and [None] here, in stdpp's option monad, so that
    a theorem that a function gives [Some] says that it stays inside its
    arrays.  A loop whose end is not structural takes fuel, and a theorem says
    that the fuel given is enough.  Memory is little-endian.

    ** Parts

    - [Prelude] (this file): machine integers, memory accesses ([rd], [wr],
      [blit], [sub_bytes]), counted loops, little-endian words, the tactics and
      the hint databases.
    - [Winmx]: [src/src/networks/opennap/winmx_xor_c.c], the packet
      obfuscation of WinMX.  [winmx_encode_ml] and [winmx_decode_ml] are
      inverse on packets of two bytes or more; one byte is lost.
    - [Mix]: what the three mixers of the FastTrack cipher share: the array
      accesses, [my_sin], [my_cos], [my_sqrt], the rotations, and the tactic
      that proves a generated body safe.
    - [EncType2], [EncType20], [EncType80]:
      [src/src/networks/fasttrack/enc_type_2.c], [enc_type_20.c],
      [enc_type_80.c], statement by statement and under the names of the
      source.  Each mixer ends on every key of 20 words and leaves 20 words.
    - [EncType1]: [enc_type_1.c], the cube of a 63-limb number modulo a fixed
      modulus: the limb loops, [big_mul], [big_mod] and its subtraction loop.
      The result is the remainder as long as no borrow is lost in
      [big_mod]; that the source can lose one is a theorem too.
    - [FstCrypt]: [fst_crypt.c] and its OCaml entry points [fst_crypt_ml.c].
      [fst_cipher_init] and [fst_cipher_clock] are total on well-formed
      ciphers, encryption and decryption are inverse, the packet header round
      trips, and the two ends of the handshake of [fasttrackServers.ml] and
      [fasttrackPandora.ml] agree.  It calls [EncType1], the mixers and [Md5].
    - [MerkleDamgard]: a class of incremental hash functions, the buffering
      contract that [Md5], [Md4] and [Sha1] share: a context represents the
      message fed so far, and [hash_pieces] follows for any instance.
    - [Md5]: [src/src/utils/lib/md5_c.c], [md5.h].  [Md4]: [md4.c], [md4.h],
      [md4_c.c].  [Sha1]: [sha1_c.c], [sha1_c.h].  In each, feeding a message
      in pieces gives the digest of the padded whole, as the RFC or FIPS 180-1
      defines it, and the definitions give the digests of the standard's test
      strings.
    - [Tiger]: [src/src/utils/lib/tiger.c], [tiger.h].  The compression
      function in its two variants, and the recursive tree hash, which is the
      THEX Merkle root of the leaves of 1024 bytes ([tree_string_thex]).
    - [Os]: [src/src/config/unix/os_stubs_c.c], [os_lseek] and [os_read] over
      the class [Syscalls], and what a readable file promises ([Readable]).
    - [HashFd]: the hashing entry points of [src/src/utils/lib/stubs_c.c]: the
      macro [ML_HASH] for any [IncrementalHash], and the tree hash of a file
      range.  However few bytes a read returns, the digest is that of the
      range; a read error inside [fread] is taken for the end of the file.
    - [Hasher]: [src/src/daemon/common/commonHasher_c.c] without threads, and
      the queue of [commonHasher.ml].  [queue_is_hashed]: every queue of
      readable jobs is hashed in a bounded number of ticks; two theorems tell
      what becomes of jobs that fail.
    - [HasherThread]: the same file with threads, a step relation that
      interleaves the queue with the hashing thread.  No interleaving reports
      a wrong digest ([threads_agree]) or leaves a job behind
      ([threads_drain]).
    - [FstHash]: [src/src/utils/lib/fst_hash.c], the hash of the FastTrack
      network, MD5 of the first chunk and CRC of samples, of a file and of its
      contents alike ([file_and_string_agree]), and its checksum.
    - [FstStubs]: [fst_crypt_ml.c] over a store, where OCaml holds pointers to
      ciphers: a checker of shapes for sequences of calls, and the theorem that
      the calls it accepts run and keep the store well formed.
    - [Huffman], [He3]: [src/src/networks/direct_connect/che3_c.c], the
      compression of the file lists of Direct Connect.  [Huffman] builds the
      tree and the codes and bounds their depth and total length; [He3] has the
      bit reader and writer, the encoder and the decoder.  Compression stays in
      its block, whatever the heap held; in a block of zeros it round trips for
      the lists it can encode, and the lists it cannot are characterised.
    - [Upnp]: [src/src/utils/net/upnp_stubs.c].  The tables of forwardings, the
      operations called from OCaml, and the two protocol machines
      [natpmpPulse] and [upnpPulse] over a router that is a parameter (the
      class [Router]); what each does when nothing comes between.
    - [UpnpRace]: the calls and the thread of the same file as programs over
      the shared tables, interleaved at every access: the reads and tests that
      the source makes outside of [g_mutex], and its sections inside.  Run
      alone a program is the operation of [Upnp] ([alone_call]);
      [tables_reachable] says what the tables keep, [empty_slot_dirtied] what
      the tests outside of the mutex allow.
    - [UpnpThread]: the start, the end and the cancellation of its thread,
      interleaved with the calls: no two threads are alive at a time
      ([one_thread]) unless a stop times out; the two races that lose or cancel
      a thread wrongly are runs ([thread_lost], [late_end_cancelled]).
    - [Select]: the waiting of [stubs_c.c].  The flags that [try_poll] and
      [try_select] leave on the tasks, whatever the condition of the
      descriptors, and when they are the same ([poll_select_agree]); both stay
      in their arrays and sets under the limits of [ml_getdtablesize].
    - [Rlimit]: [ml_getrlimit] and [ml_setrlimit] of [stubs_c.c], their wrappers
      in [unix2.ml], and the start of the daemon ([commonOptions.ml]), which
      raises the limit of open files on the table of [Select].
    - [Inet]: dotted addresses and the DNS job of [stubs_c.c].
    - [CString]: the functions of the C library on strings in buffers.
    - [Charset]: [src/src/utils/lib/charsetstubs.c]: UTF-8 validation against the
      encoding of characters, with the place where it stops, and conversion by
      iconv (the class [Iconv], with its promise [Converter]).  [Win32Lang]:
      the tables of languages of Windows in the same file; the name found fits
      its buffer.
    - [Bitstring]: [src/src/utils/bitstring/bitstring_c.c], [byteswap.h].
    - [FileSize]: [os_ftruncate] and [os_getfdsize] of [os_stubs_c.c].
    - [WinOs]: the files of [src/src/config/mingw/os_stubs_c.c].  A file of
      Windows, with its offsets in two words and its short reads, is
      [Os.Readable], so that what is proved of the hash entry points holds there
      ([windows_range_hashed]); what [os_ftruncate] does with the lengths and
      pointers that look like the error code; the sizes with a wrong sign.
    - [WinUname]: [os_uname] in the same file, a program over a buffer that is
      shown equal to a concatenation of texts and bounded ([uname_ok]).
    - [Statfs]: [statfs_statfs] of [stubs_c.c] on the unix systems, and the disk
      figures of [unix32.ml].
    - [Zlib]: [src/src/utils/cdk/zlibstubs.c] and the loops of [zlib.ml]
      ([compress_string], [uncompress_string2], [uncompress_string]): the round
      trip over any zlib ([Deflating], [Inflating]), and the empty string, on
      which they never end.
    - [Channels]: what the readers of [bzip2.ml] and [gzip.ml] share, a channel
      of OCaml read through a buffer, and what is left to read ([holds]).
    - [Bzip2]: the bzip2 stubs of [zlibstubs.c], the channels of [bzip2.ml], and
      the two functions of [src/src/networks/direct_connect/dcShared.ml] that
      write a file list and read one back ([bz2_roundtrip]).
    - [Gzip]: [gzip_string] of [zlib.ml], the reader of [gzip.ml] and
      [gz_extract] of [src/src/utils/lib/misc.ml]: the first is undone by the
      last, checksum and size included ([gzip_roundtrip]).
    - [MagicLib]: [src/src/utils/lib/magiclib_stub.c]: no cookie of libmagic is
      used before it is opened or after it is closed, and the messages of the
      system stay in their buffers, for either of the two [strerror_r].
    - [Wget]: [src/config/wget.c], the downloader of the build: its URLs, and the
      transfer of a file over a connection that is a parameter ([wget_saves]).
    - [Sui], [SuiClient], [SuiKey]: the secure identification of eDonkey.  [Sui]:
      the functions of mldonkey at the end of [src/src/utils/lib/CryptoPP.cc] and
      [CryptoPP_stubs.c], which sign and check the key, challenge and address
      that identify a client ([signature_accepted]).  [SuiClient]: the packets of
      [donkeyProtoClient.ml], their handlers in [donkeyClient.ml], and two
      clients with a connection each way, which verify each other under every
      interleaving ([identification_completes]); against an arbitrary peer, that
      nobody is verified without a signature ([verified_by_signature]), and the
      overflow that a long key causes ([peer_overflows]).  [SuiKey]: the private
      key of the options, which the hook of [donkeyGlobals.ml] checks, replaces
      and loads ([option_key_in_use]).
    - [Gd]: [src/src/utils/cdk/gdstubs.c] and the classes of [gd.ml].  The methods
      of an image are the functions of gd, and change nothing else
      ([drawing_refines]), in native code; three of the entry points of bytecode
      are wrong.  [find_color] is about the palette.

    ** Interfaces

    [MerkleDamgard.IncrementalHash] states what a hash function promises to
    its users; [Md5], [Md4] and [Sha1] are instances, [HashFd], [Hasher] and
    [HasherThread] its clients. [Os.Syscalls] is the operating system,
    [Os.Readable] the documented behaviour of [lseek] and [read] on a file;
    [disk] is a concrete one whose reads return as few bytes as one likes.
    [Select.Waiting], [Inet.Resolver], [Charset.Iconv], [FileSize.SizeCalls],
    [WinOs.Win32], [WinUname.Windows], [Rlimit.Rlimits], [Statfs.Filesystems],
    [Wget.Network], [Zlib.Zlib], [Bzip2.Bzlib], [Gzip.Crc],
    [Channels.Channel], [MagicLib.Libmagic], [Gd.GdLib] and [Sui.CryptoPP] are
    the other system calls and libraries; where something is relied on of
    them, a second class states it ([Select.Ready], [Charset.Converter],
    [FileSize.Sized], [WinOs.WinFile], [WinUname.Documented],
    [Rlimit.Unprivileged], [Wget.Serves], [Zlib.Deflating] and
    [Zlib.Inflating], [Bzip2.Compressing] and [Bzip2.Decompressing],
    [Gzip.RawInflating] and [Gzip.Crcs], [Channels.Delivers],
    [MagicLib.Fresh] and [MagicLib.Messages], [Gd.Palette], [Sui.Signs],
    [Sui.Quiet] and [SuiKey.Generates]) and a concrete instance satisfies it.
    [Upnp.Router] collects what libminiupnpc, libnatpmp and the clock are
    asked; no law is assumed of it, except by [map_upnp], which supposes that
    the gateway accepts.

    ** Bounds and fuel

    Hashed messages are shorter than 2 ^ 28 bytes per call and 2 ^ 61 in all
    for MD5, 2 ^ 32 per call for SHA-1, where the source's counters are exact.
    Hashing jobs are shorter than 2 ^ 50 bytes, so that the block size of
    their tree is reached by doubling in 54 steps. A read returns at least a
    byte before the end of the file, which bounds every reading loop by the
    bytes asked for. The subtraction loop of [big_mod] has fuel 8 and ends
    within four rounds. [my_sqrt] has fuel 17, one more than the odd numbers
    it can subtract from a byte. The loops over blocks take the length of the
    message as fuel. File lists are shorter than [fib 32] = 2178309 bytes
    where they are decoded, so that no code is longer than 29 bits;
    compression alone is bounded by the [int] size of its block. The samples
    of [FstHash] are at offsets that double from 2 ^ 20: 44 steps pass any
    size. The buffer of a conversion doubles at most 64 times. The loops of
    [zlib.ml] are step functions run for a number of steps: theorems say that
    some number is enough, or that none is. Where a stub takes a position or a
    length with [Int_val], 32 bits are cut out of it ([s32]): the theorems
    about the stubs of FastTrack and about bit strings are for positions below
    2 ^ 31, or for what is left after the cut. The loop over [strerror_r] has
    fuel 32: its [int] cannot double more than 24 times. Compressed strings
    are shorter than 2 ^ 29 bytes, since the stubs pass lengths as 32-bit
    integers; the fuel of [Bzip2] and [Gzip] is whatever the library needs,
    and theorems say that some is enough. Offsets in a file are below 2 ^ 63,
    or within the file ([Os.seekable]). The two loops of the downloader have
    as fuel more than the bytes of the answer; numbers of 32 bits have at most
    ten digits. The hook of the key calls itself once, so that its fuel is 2;
    signatures have at most 200 bytes, the limit that the stub gives for them.

    ** Not modelled

    The OCaml program around these routines, but for the loops over strings of
    [zlib.ml], the compressed files of [bzip2.ml], [gzip.ml] and their users,
    the queue of [commonHasher.ml], the handshake of FastTrack and the
    identification of eDonkey, the disk figures of [unix32.ml] and the limit
    of open files; [statfs] on Windows, which frees a string that belongs to
    OCaml; the writer of [gzip.ml] and zip archives; the vendored library in
    [CryptoPP.cc], which is a parameter of the model; of the extended protocol of
    eDonkey, everything but the version of identification that it announces;
    tray icons; the heap inspection of [heap_c.c], which walks the internals
    of the OCaml runtime; the indexer of [index.c], whose insertion copies
    through a pointer that nothing has set. In the modelled files: allocation
    failure (but in [MagicLib]), debugging output, the delay mutex and the
    sleeping of [upnp_stubs.c], a thread of it cancelled in the middle of a
    slot, the conversion of the timeout of [select]; in the hashing thread, the
    memory model of [volatile]. *)

From Stdlib Require Import ZArith Lia Bool.
From stdpp Require Import base option list numbers.

Local Open Scope Z_scope.

(** ** Machine integers

    A C integer is a [Z]; the wrap-around of an unsigned [w]-bit type is
    written out as a reduction modulo [2 ^ w]. *)

Definition u8 (z : Z) : Z := z mod 256.
Definition u16 (z : Z) : Z := z mod 65536.
Definition u32 (z : Z) : Z := z mod 4294967296.
Definition u64 (z : Z) : Z := z mod 18446744073709551616.

(** Two's complement reading of the low bits ([char], [int]). *)
Definition s8 (z : Z) : Z := (z + 128) mod 256 - 128.
Definition s32 (z : Z) : Z := (z + 2147483648) mod 4294967296 - 2147483648.

(** [word w z]: [z] is a value of the unsigned [w]-bit type. *)
Definition word (w z : Z) : Prop := 0 <= z < 2 ^ w.

#[export] Instance word_dec w z : Decision (word w z).
Proof. unfold word. apply _. Defined.

(** Rotations of 32-bit words; a count of 0 gives the word back. *)
Definition rol32 (v n : Z) : Z := u32 (Z.lor (Z.shiftl v n) (Z.shiftr v (32 - n))).
Definition ror32 (v n : Z) : Z := u32 (Z.lor (Z.shiftr v n) (Z.shiftl v (32 - n))).

(** C's truth value of a comparison. *)
Definition c_bool (b : bool) : Z := if b then 1 else 0.

(** ** Memory

    A C array is a list; a read or a write outside of it is undefined
    behaviour, the [None] of the option monad. *)

Definition rd (a : list Z) (i : Z) : option Z :=
  if 0 <=? i then a !! Z.to_nat i else None.

Definition wr (a : list Z) (i v : Z) : option (list Z) :=
  if (0 <=? i) && (i <? Z.of_nat (length a)) then Some (<[Z.to_nat i := v]> a) else None.

(** [memcpy (dst + off, src, length src)]. *)
Definition blit (dst : list Z) (off : Z) (src : list Z) : option (list Z) :=
  if (0 <=? off) && (off + Z.of_nat (length src) <=? Z.of_nat (length dst))
  then Some (take (Z.to_nat off) dst ++ src ++ drop (Z.to_nat off + length src) dst)
  else None.

(** The [n] bytes at [off], as [memcpy (_, src + off, n)] reads them. *)
Definition sub_bytes (src : list Z) (off n : Z) : option (list Z) :=
  if (0 <=? off) && (0 <=? n) && (off + n <=? Z.of_nat (length src))
  then Some (take (Z.to_nat n) (drop (Z.to_nat off) src))
  else None.

(** ** Counted loops *)

(** [for (i = lo; i < lo + n; i++) body] and its downward counterpart
    [for (i = hi; i > hi - n; i--) body]. *)
Fixpoint for_up {S} (n : nat) (i : Z) (body : Z -> S -> option S) (s : S) : option S :=
  match n with
  | O => Some s
  | Datatypes.S n' => s' ← body i s; for_up n' (i + 1) body s'
  end.

Fixpoint for_down {S} (n : nat) (i : Z) (body : Z -> S -> option S) (s : S) : option S :=
  match n with
  | O => Some s
  | Datatypes.S n' => s' ← body i s; for_down n' (i - 1) body s'
  end.

(** ** Little-endian words *)

Fixpoint le_bytes (n : nat) (z : Z) : list Z :=
  match n with
  | O => []
  | S n' => Z.land z 255 :: le_bytes n' (Z.shiftr z 8)
  end.

Fixpoint le_word (l : list Z) : Z :=
  match l with
  | [] => 0
  | b :: l' => Z.lor b (Z.shiftl (le_word l') 8)
  end.

(** ** Automation *)

Create HintDb word.
Create HintDb mem.

(** Case analysis on the boolean comparisons of the goal and hypotheses. *)
Ltac bdestr :=
  repeat match goal with
  | |- context [?a <=? ?b] => destruct (Z.leb_spec a b)
  | |- context [?a <? ?b] => destruct (Z.ltb_spec a b)
  | |- context [?a =? ?b] => destruct (Z.eqb_spec a b)
  | H : context [?a <=? ?b] |- _ => destruct (Z.leb_spec a b)
  | H : context [?a <? ?b] |- _ => destruct (Z.ltb_spec a b)
  | H : context [?a =? ?b] |- _ => destruct (Z.eqb_spec a b)
  end.

(** [lia] with the quotients and remainders of the goal, [nat] ones included. *)
Ltac dlia := zify; Z.div_mod_to_equations; lia.

(** Splits an equation [m ≫= k = Some r] into the step and the rest. *)
Ltac bind_inv :=
  repeat match goal with
  | H : mbind _ _ = Some _ |- _ => apply bind_Some in H as (? & ? & ?)
  | H : Some _ = Some _ |- _ => injection H as H; subst
  | H : None = Some _ |- _ => discriminate H
  | H : Some _ = None |- _ => discriminate H
  end.

Lemma some_bind {A B} (a : A) (f : A -> option B) : (Some a ≫= f) = f a.
Proof. done. Qed.

(** ** Ranges of the word operations *)

Lemma u8_range z : word 8 (u8 z).
Proof. apply Z.mod_pos_bound. lia. Qed.

Lemma u16_range z : word 16 (u16 z).
Proof. apply Z.mod_pos_bound. lia. Qed.

Lemma u32_range z : word 32 (u32 z).
Proof. apply Z.mod_pos_bound. lia. Qed.

Lemma u64_range z : word 64 (u64 z).
Proof. apply Z.mod_pos_bound. lia. Qed.

Lemma u8_id z : word 8 z -> u8 z = z.
Proof. intros. apply Z.mod_small, H. Qed.

Lemma u16_id z : word 16 z -> u16 z = z.
Proof. intros. apply Z.mod_small, H. Qed.

Lemma u32_id z : word 32 z -> u32 z = z.
Proof. intros. apply Z.mod_small, H. Qed.

Lemma s32_small z : - 2 ^ 31 <= z < 2 ^ 31 -> s32 z = z.
Proof. intros H. unfold s32. rewrite Z.mod_small; lia. Qed.

Lemma u64_id z : word 64 z -> u64 z = z.
Proof. intros. apply Z.mod_small, H. Qed.

(** A value of a [w]-bit type has no bit at [w] or above. *)
Lemma word_bits w z : 0 <= w -> word w z <-> 0 <= z /\ (forall i, w <= i -> Z.testbit z i = false).
Proof.
  intros Hw. split.
  - intros [H0 H]. split; [done|]. intros i Hi.
    destruct (Z.eq_dec z 0) as [->|Hz]; [apply Z.testbit_0_l|].
    apply Z.bits_above_log2; [lia|].
    assert (Z.log2 z < w); [|lia]. apply Z.log2_lt_pow2; lia.
  - intros [H0 Hb]. split; [done|].
    destruct (Z.eq_dec z 0) as [->|Hz]; [lia|].
    apply Z.log2_lt_pow2; [lia|].
    destruct (Z.lt_ge_cases (Z.log2 z) w); [done|].
    specialize (Hb (Z.log2 z) ltac:(lia)).
    rewrite Z.bit_log2 in Hb; [done|lia].
Qed.

Lemma word_lxor w a b : 0 <= w -> word w a -> word w b -> word w (Z.lxor a b).
Proof.
  intros Hw. rewrite !word_bits by done. intros [Ha Hab] [Hb Hbb]. split.
  - apply Z.lxor_nonneg. tauto.
  - intros i Hi. by rewrite Z.lxor_spec, Hab, Hbb.
Qed.

Lemma word_lor w a b : 0 <= w -> word w a -> word w b -> word w (Z.lor a b).
Proof.
  intros Hw. rewrite !word_bits by done. intros [Ha Hab] [Hb Hbb]. split.
  - apply Z.lor_nonneg. tauto.
  - intros i Hi. by rewrite Z.lor_spec, Hab, Hbb.
Qed.

Lemma word_land_l w a b : 0 <= w -> word w a -> word w (Z.land a b).
Proof.
  intros Hw. rewrite !word_bits by done. intros [Ha Hab]. split.
  - apply Z.land_nonneg. tauto.
  - intros i Hi. by rewrite Z.land_spec, Hab.
Qed.

Lemma word_land_r w a b : 0 <= w -> word w b -> word w (Z.land a b).
Proof. intros. rewrite Z.land_comm. by apply word_land_l. Qed.

Lemma word_shiftr w a n : 0 <= w -> 0 <= n -> word w a -> word w (Z.shiftr a n).
Proof.
  intros Hw Hn. rewrite !word_bits by done. intros [Ha Hab]. split.
  - by apply Z.shiftr_nonneg.
  - intros i Hi. rewrite Z.shiftr_spec by lia. apply Hab. lia.
Qed.

Lemma word_mono v w z : v <= w -> word v z -> word w z.
Proof.
  intros Hvw [H0 H]. split; [done|].
  destruct (Z.le_gt_cases 0 v).
  - apply Z.lt_le_trans with (2 ^ v); [done|]. apply Z.pow_le_mono_r; lia.
  - rewrite Z.pow_neg_r in H by lia. lia.
Qed.

Lemma word_c_bool w b : 1 <= w -> word w (c_bool b).
Proof.
  intros. apply word_mono with 1; [done|]. unfold word, c_bool. destruct b; lia.
Qed.

Lemma rol32_range v n : word 32 (rol32 v n).
Proof. apply u32_range. Qed.

Lemma ror32_range v n : word 32 (ror32 v n).
Proof. apply u32_range. Qed.

Lemma ror32_0 v : word 32 v -> ror32 v 0 = v.
Proof.
  intros H. unfold ror32. rewrite Z.shiftr_0_r. unfold u32.
  change 4294967296 with (2 ^ 32). rewrite <- Z.land_ones by lia.
  apply word_bits in H as [H0 Hb]; [|lia].
  apply Z.bits_inj'. intros i Hi. rewrite Z.land_spec, Z.lor_spec.
  rewrite Z.testbit_ones_nonneg by lia.
  destruct (Z.ltb_spec i 32).
  - rewrite Z.shiftl_spec_low by lia. by rewrite orb_false_r, andb_true_r.
  - by rewrite andb_false_r, Hb.
Qed.

Lemma lxor_cancel_r a b : Z.lxor (Z.lxor a b) b = a.
Proof. by rewrite Z.lxor_assoc, Z.lxor_nilpotent, Z.lxor_0_r. Qed.

#[export] Hint Resolve u8_range u16_range u32_range u64_range rol32_range ror32_range : word.
#[export] Hint Resolve word_lxor word_lor word_land_l word_shiftr word_c_bool : word.
#[export] Hint Extern 1 (0 <= _) => lia : word.
#[export] Hint Extern 1 (_ <= _) => lia : word.
#[export] Hint Extern 1 (word _ _) => (unfold word; lia) : word.

(** ** Lemmas on memory *)

Lemma rd_Some a i v : rd a i = Some v <-> 0 <= i /\ a !! Z.to_nat i = Some v.
Proof. unfold rd. destruct (Z.leb_spec 0 i); intuition (congruence || lia). Qed.

Lemma rd_nat a n : rd a (Z.of_nat n) = a !! n.
Proof. unfold rd. rewrite Nat2Z.id. by destruct (Z.leb_spec 0 (Z.of_nat n)); [|lia]. Qed.

Lemma rd_in a i : 0 <= i < Z.of_nat (length a) -> exists v, rd a i = Some v.
Proof.
  intros H. destruct (lookup_lt_is_Some_2 a (Z.to_nat i)) as [v Hv]; [lia|].
  exists v. apply rd_Some. split; [lia|done].
Qed.

Lemma rd_bound a i v : rd a i = Some v -> 0 <= i < Z.of_nat (length a).
Proof. intros [H0 H]%rd_Some. apply lookup_lt_Some in H. lia. Qed.

Lemma wr_Some a i v a' :
  wr a i v = Some a' <-> 0 <= i < Z.of_nat (length a) /\ a' = <[Z.to_nat i := v]> a.
Proof.
  unfold wr. destruct (Z.leb_spec 0 i), (Z.ltb_spec i (Z.of_nat (length a))); simpl;
    intuition (congruence || lia).
Qed.

Lemma wr_in a i v : 0 <= i < Z.of_nat (length a) -> wr a i v = Some (<[Z.to_nat i := v]> a).
Proof. intros. by apply wr_Some. Qed.

Lemma wr_length a i v a' : wr a i v = Some a' -> length a' = length a.
Proof. intros [_ ->]%wr_Some. apply length_insert. Qed.

Lemma rd_wr_eq a i v a' : wr a i v = Some a' -> rd a' i = Some v.
Proof.
  intros [H ->]%wr_Some. apply rd_Some. split; [lia|].
  apply list_lookup_insert_eq. lia.
Qed.

Lemma rd_wr_ne a i j v a' : wr a i v = Some a' -> i <> j -> rd a' j = rd a j.
Proof.
  intros [H ->]%wr_Some Hne. unfold rd. destruct (Z.leb_spec 0 j); [|done].
  apply list_lookup_insert_ne. lia.
Qed.

Lemma wr_wr_eq a i v w a' : wr a i v = Some a' -> wr a' i w = wr a i w.
Proof.
  intros [H ->]%wr_Some. unfold wr. rewrite length_insert.
  by rewrite list_insert_insert_eq.
Qed.

Lemma wr_rd_id a i v : rd a i = Some v -> wr a i v = Some a.
Proof.
  intros H. pose proof (rd_bound _ _ _ H). apply rd_Some in H as [_ H].
  rewrite wr_in by done. f_equal. by apply list_insert_id.
Qed.

Lemma wr_Forall P a i v a' : wr a i v = Some a' -> Forall P a -> P v -> Forall P a'.
Proof. intros [_ ->]%wr_Some. intros. by apply Forall_insert. Qed.

Lemma rd_Forall P a i v : rd a i = Some v -> Forall P a -> P v.
Proof. intros [_ H]%rd_Some HF. by eapply Forall_lookup_1. Qed.

#[export] Hint Resolve wr_length rd_wr_eq : mem.

(** ** Lemmas on loops *)

(** A loop keeps what its body keeps. *)
Lemma for_up_inv {S} (P : Z -> S -> Prop) body n i s s' :
  (forall j t t', i <= j < i + Z.of_nat n -> P j t -> body j t = Some t' -> P (j + 1) t') ->
  P i s -> for_up n i body s = Some s' -> P (i + Z.of_nat n) s'.
Proof.
  revert i s. induction n as [|n IH]; simpl; intros i s Hb Hi H.
  - bind_inv. by rewrite Z.add_0_r.
  - bind_inv. replace (i + Z.of_nat (Datatypes.S n)) with (i + 1 + Z.of_nat n) by lia.
    eapply IH; [|eapply Hb|]; [..|done|done|done]; [|lia].
    intros j t t' Hj. apply Hb. lia.
Qed.

(** A loop whose body never fails under its invariant does not fail. *)
Lemma for_up_total {S} (P : Z -> S -> Prop) body n i s :
  (forall j t, i <= j < i + Z.of_nat n -> P j t -> exists t', body j t = Some t' /\ P (j + 1) t') ->
  P i s -> exists s', for_up n i body s = Some s' /\ P (i + Z.of_nat n) s'.
Proof.
  revert i s. induction n as [|n IH]; simpl; intros i s Hb Hi.
  - exists s. by rewrite Z.add_0_r.
  - destruct (Hb i s ltac:(lia) Hi) as (t & -> & Ht). simpl.
    replace (i + Z.of_nat (Datatypes.S n)) with (i + 1 + Z.of_nat n) by lia.
    apply IH; [|done]. intros j u Hj. apply Hb. lia.
Qed.

Lemma for_up_snoc {S} n i (body : Z -> S -> option S) s :
  for_up (Datatypes.S n) i body s = s' ← for_up n i body s; body (i + Z.of_nat n) s'.
Proof.
  revert i s. induction n as [|n IH]; intros i s.
  - simpl. rewrite Z.add_0_r. by destruct (body i s).
  - change (for_up (Datatypes.S (Datatypes.S n)) i body s)
      with (s' ← body i s; for_up (Datatypes.S n) (i + 1) body s').
    change (for_up (Datatypes.S n) i body s)
      with (s' ← body i s; for_up n (i + 1) body s').
    destruct (body i s) as [t|]; cbn [mbind option_bind]; [|done].
    rewrite IH. by replace (i + 1 + Z.of_nat n) with (i + Z.of_nat (Datatypes.S n)) by lia.
Qed.

(** Running self-inverse steps backwards undoes them. *)
Lemma for_down_undo {S} (P : S -> Prop) f g n i s s' :
  (forall j t t', i <= j < i + Z.of_nat n -> P t -> f j t = Some t' -> P t' /\ g j t' = Some t) ->
  P s -> for_up n i f s = Some s' -> P s' /\ for_down n (i + Z.of_nat n - 1) g s' = Some s.
Proof.
  intros Hb. revert s'. induction n as [|n IH]; intros s' HP H; [simpl in *; by bind_inv|].
  rewrite for_up_snoc in H. bind_inv.
  edestruct IH as [HPx Hx]; [|done|done|].
  { intros j t t' Hj. apply Hb. lia. }
  edestruct Hb as [HP' Hg]; [|exact HPx|done|]; [lia|]. split; [done|].
  simpl. replace (i + Z.of_nat (Datatypes.S n) - 1) with (i + Z.of_nat n) by lia.
  by rewrite Hg.
Qed.

(** The two directions are mirror images. *)
Lemma for_down_mirror {S} n i (body : Z -> S -> option S) s :
  for_down n i body s = for_up n (- i) (fun j => body (- j)) s.
Proof.
  revert i s. induction n as [|n IH]; intros i s; [done|]. simpl.
  rewrite Z.opp_involutive. destruct (body i s) as [t|]; simpl; [|done].
  rewrite IH. by replace (- i + 1) with (- (i - 1)) by lia.
Qed.

Lemma for_up_mirror {S} n i (body : Z -> S -> option S) s :
  for_up n i body s = for_down n (- i) (fun j => body (- j)) s.
Proof.
  revert i s. induction n as [|n IH]; intros i s; [done|]. simpl.
  rewrite Z.opp_involutive. destruct (body i s) as [t|]; simpl; [|done].
  rewrite IH. by replace (- i - 1) with (- (i + 1)) by lia.
Qed.

Lemma for_up_undo {S} (P : S -> Prop) f g n i s s' :
  (forall j t t', i - Z.of_nat n < j <= i -> P t -> f j t = Some t' -> P t' /\ g j t' = Some t) ->
  P s -> for_down n i f s = Some s' -> P s' /\ for_up n (i - Z.of_nat n + 1) g s' = Some s.
Proof.
  intros Hb HP H. rewrite for_down_mirror in H. rewrite for_up_mirror.
  replace (- (i - Z.of_nat n + 1)) with (- i + Z.of_nat n - 1) by lia.
  eapply for_down_undo; [|done|exact H].
  intros j t t' Hj HPt Hf. simpl in Hf. eapply Hb; [lia|done|done].
Qed.

Lemma for_down_total {S} (P : Z -> S -> Prop) body n i s :
  (forall j t, i - Z.of_nat n < j <= i -> P j t -> exists t', body j t = Some t' /\ P (j - 1) t') ->
  P i s -> exists s', for_down n i body s = Some s' /\ P (i - Z.of_nat n) s'.
Proof.
  intros Hb Hi. rewrite for_down_mirror.
  destruct (for_up_total (fun j => P (- j)) (fun j => body (- j)) n (- i) s) as (s' & H & HP).
  - intros j t Hj Ht. destruct (Hb (- j) t) as (t' & Ht' & HP'); [lia|done|].
    exists t'. split; [done|]. by replace (- (j + 1)) with (- j - 1) by lia.
  - by rewrite Z.opp_involutive.
  - exists s'. split; [done|]. by replace (i - Z.of_nat n) with (- (- i + Z.of_nat n)) by lia.
Qed.

(** ** Copies *)

Lemma sub_bytes_in (src : list Z) (off n : nat) :
  (off + n <= length src)%nat ->
  sub_bytes src (Z.of_nat off) (Z.of_nat n) = Some (take n (drop off src)).
Proof.
  intros H. unfold sub_bytes. rewrite !Nat2Z.id.
  replace ((0 <=? Z.of_nat off) && (0 <=? Z.of_nat n)
           && (Z.of_nat off + Z.of_nat n <=? Z.of_nat (length src))) with true by lia.
  done.
Qed.

Lemma sub_bytes_0 (src : list Z) (n : nat) :
  (n <= length src)%nat -> sub_bytes src 0 (Z.of_nat n) = Some (take n src).
Proof. intros H. rewrite <- (drop_0 src) at 2. by apply (sub_bytes_in src 0). Qed.

(** A segment, and its first [k] elements. *)
Lemma segment_split {A} (l : list A) (p n k : nat) :
  (k <= n)%nat -> take n (drop p l) = take k (drop p l) ++ take (n - k) (drop (p + k) l).
Proof.
  intros Hk. rewrite <- drop_drop, <- skipn_firstn_comm.
  rewrite <- (take_drop k (take n (drop p l))) at 1. by rewrite take_take, Nat.min_l by lia.
Qed.

Lemma sub_bytes_length src off n l : sub_bytes src off n = Some l -> Z.of_nat (length l) = n.
Proof.
  unfold sub_bytes. destruct (_ && _) eqn:E; [|done]. intros [= <-].
  rewrite length_take, length_drop. lia.
Qed.

Lemma blit_in (dst : list Z) (off : nat) (src : list Z) :
  (off + length src <= length dst)%nat ->
  blit dst (Z.of_nat off) src = Some (take off dst ++ src ++ drop (off + length src) dst).
Proof.
  intros H. unfold blit. rewrite !Nat2Z.id.
  replace ((0 <=? Z.of_nat off) && (Z.of_nat off + Z.of_nat (length src) <=? Z.of_nat (length dst)))
    with true by lia.
  done.
Qed.

Lemma blit_length dst off src dst' : blit dst off src = Some dst' -> length dst' = length dst.
Proof.
  unfold blit. destruct (_ && _) eqn:E; [|done]. intros [= <-].
  rewrite !length_app, length_take, length_drop. lia.
Qed.

#[export] Hint Resolve sub_bytes_length blit_length : mem.

(** ** Writing in the middle *)

Lemma rd_mid (a r : list Z) v : rd (a ++ v :: r) (Z.of_nat (length a)) = Some v.
Proof. by rewrite rd_nat, list_lookup_middle. Qed.

Lemma wr_mid (a r : list Z) v x : wr (a ++ v :: r) (Z.of_nat (length a)) x = Some (a ++ x :: r).
Proof.
  rewrite wr_in by (rewrite length_app; simpl; lia). rewrite Nat2Z.id.
  by rewrite insert_app_r_alt, Nat.sub_diag by lia.
Qed.

(** [for (j = ...; k times; j++) a[j] = 0] *)
Lemma zero_loop k (a b : list Z) :
  (k <= length b)%nat ->
  for_up k (Z.of_nat (length a)) (fun j w => wr w j 0) (a ++ b) = Some (a ++ replicate k 0 ++ drop k b).
Proof.
  revert a b. induction k as [|k IH]; intros a b Hk; [by rewrite drop_0|].
  destruct b as [|x b]; simpl in Hk; [lia|]. cbn [for_up]. rewrite wr_mid. cbn [mbind option_bind].
  replace (Z.of_nat (length a) + 1) with (Z.of_nat (length (a ++ [0]))) by (rewrite length_app; simpl; lia).
  change (a ++ 0 :: b) with (a ++ [0] ++ b). rewrite app_assoc, IH by lia. by rewrite <- app_assoc.
Qed.

(** ** Typed arrays *)

(** A C array of [n] unsigned [w]-bit elements. *)
Definition arr (w : Z) (n : nat) (a : list Z) : Prop := length a = n /\ Forall (word w) a.

Lemma arr_rd w n a i : arr w n a -> 0 <= i < Z.of_nat n -> exists v, rd a i = Some v /\ word w v.
Proof.
  intros [Hl Hw] Hi. destruct (rd_in a i) as [v Hv]; [lia|]. exists v. split; [done|].
  by eapply rd_Forall.
Qed.

Lemma arr_wr w n a i v :
  arr w n a -> 0 <= i < Z.of_nat n -> word w v -> exists a', wr a i v = Some a' /\ arr w n a'.
Proof.
  intros [Hl Hw] Hi Hv. rewrite wr_in by lia. eexists. split; [done|].
  split; [by rewrite length_insert|]. by apply Forall_insert.
Qed.

Lemma arr_replicate w n v : word w v -> arr w n (replicate n v).
Proof. intros Hv. split; [by rewrite length_replicate|]. by apply Forall_replicate. Qed.

Lemma arr_sub w n a (off k : nat) :
  arr w n a -> (off + k <= n)%nat -> arr w k (take k (drop off a)).
Proof.
  intros [Hl Hw] Hk. split; [rewrite length_take, length_drop; lia|].
  by apply Forall_take, Forall_drop.
Qed.

Lemma arr_blit w n a (off : nat) src :
  arr w n a -> Forall (word w) src -> (off + length src <= n)%nat ->
  exists a', blit a (Z.of_nat off) src = Some a' /\ arr w n a'.
Proof.
  intros [Hl Hw] Hs Hk. rewrite blit_in by lia. eexists. split; [done|]. split.
  - rewrite !length_app, length_take, length_drop. lia.
  - repeat (apply Forall_app; split); auto using Forall_take, Forall_drop.
Qed.

(** A loop over the indices of an array whose body keeps it an array. *)
Lemma arr_loop w n k i (body : Z -> list Z -> option (list Z)) a :
  (forall j t, i <= j < i + Z.of_nat k -> arr w n t -> exists t', body j t = Some t' /\ arr w n t') ->
  arr w n a -> exists a', for_up k i body a = Some a' /\ arr w n a'.
Proof. intros Hb. apply (for_up_total (fun _ => arr w n)). intros j t Hj. by apply Hb. Qed.

Lemma le_bytes_length n z : length (le_bytes n z) = n.
Proof. revert z. induction n as [|n IH]; intros z; simpl; [done|]. by rewrite IH. Qed.

Lemma le_bytes_word n z : Forall (word 8) (le_bytes n z).
Proof.
  revert z. induction n as [|n IH]; intros z; simpl; constructor; [|apply IH].
  apply word_land_r; unfold word; lia.
Qed.

Lemma le_bytes_app n k z : le_bytes (n + k) z = le_bytes n z ++ le_bytes k (Z.shiftr z (8 * Z.of_nat n)).
Proof.
  revert z. induction n as [|n IH]; intros z; cbn [le_bytes app Nat.add].
  - by rewrite Z.shiftr_0_r.
  - f_equal. rewrite IH, Z.shiftr_shiftr by lia. do 3 f_equal. lia.
Qed.

Lemma le_bytes_mod n z : le_bytes n (z mod 2 ^ (8 * Z.of_nat n)) = le_bytes n z.
Proof.
  revert z. induction n as [|n IH]; intros z; [done|].
  change (le_bytes (S n) ?x) with (Z.land x 255 :: le_bytes n (Z.shiftr x 8)). f_equal.
  - apply Z.bits_inj'. intros i Hi. change 255 with (Z.ones 8).
    rewrite !Z.land_spec, Z.testbit_mod_pow2, Z.testbit_ones_nonneg by lia. bdestr; simpl; try lia.
    all: by rewrite ?andb_false_r.
  - rewrite <- (IH (Z.shiftr z 8)), <- (IH (Z.shiftr (z mod _) 8)). f_equal.
    apply Z.bits_inj'. intros i Hi.
    rewrite !Z.testbit_mod_pow2, !Z.shiftr_spec, Z.testbit_mod_pow2 by lia. bdestr; simpl; try lia.
    all: done.
Qed.

(** Reading back the bytes of a word. *)
Lemma le_word_bytes n z : le_word (le_bytes n z) = z mod 2 ^ (8 * Z.of_nat n).
Proof.
  revert z. induction n as [|n IH]; intros z; [by rewrite Z.mod_1_r|].
  change (le_word (le_bytes (S n) z))
    with (Z.lor (Z.land z 255) (Z.shiftl (le_word (le_bytes n (Z.shiftr z 8))) 8)).
  rewrite IH. apply Z.bits_inj'. intros i Hi. change 255 with (Z.ones 8).
  rewrite Z.lor_spec, Z.land_spec, Z.shiftl_spec, !Z.testbit_mod_pow2, Z.testbit_ones_nonneg by lia.
  destruct (Z.ltb_spec i 8).
  - rewrite (Z.testbit_neg_r _ (i - 8)), andb_false_r, orb_false_r, andb_true_r by lia.
    by destruct (Z.ltb_spec i (8 * Z.of_nat (S n))); [|lia].
  - rewrite Z.shiftr_spec, andb_false_r by lia. simpl.
    replace (i - 8 + 8) with i by lia. bdestr; simpl; try lia; done.
Qed.

Lemma le_word_range n l : length l = n -> Forall (word 8) l -> word (8 * Z.of_nat n) (le_word l).
Proof.
  intros <-. induction 1 as [|b l Hb _ IH]; [by unfold word; simpl; lia|]. simpl le_word.
  apply word_lor; [lia| |].
  - apply word_mono with 8; [simpl length; lia|done].
  - unfold word in *. rewrite Z.shiftl_mul_pow2 by lia.
    replace (8 * Z.of_nat (length (b :: l))) with (8 * Z.of_nat (length l) + 8) by (simpl; lia).
    rewrite Z.pow_add_r by lia. lia.
Qed.

(** A low part and a high part do not overlap: [|] is [+]. *)
Lemma lor_shiftl_add n b w : 0 <= n -> word n b -> Z.lor b (Z.shiftl w n) = b + 2 ^ n * w.
Proof.
  intros Hn Hb. apply word_bits in Hb as [_ Hb]; [|done].
  rewrite <- Z.lxor_lor.
  - rewrite <- Z.add_nocarry_lxor; [rewrite Z.shiftl_mul_pow2; lia|].
    apply Z.bits_inj'. intros i Hi. rewrite Z.land_spec, Z.bits_0.
    destruct (Z.ltb_spec i n); [rewrite Z.shiftl_spec_low, andb_false_r|rewrite Hb]; (done || lia).
  - apply Z.bits_inj'. intros i Hi. rewrite Z.land_spec, Z.bits_0.
    destruct (Z.ltb_spec i n); [rewrite Z.shiftl_spec_low, andb_false_r|rewrite Hb]; (done || lia).
Qed.

Lemma le_word_cons b l : word 8 b -> le_word (b :: l) = b + 256 * le_word l.
Proof. intros Hb. cbn [le_word]. by rewrite lor_shiftl_add by (lia || done). Qed.

Lemma le_word_app a b :
  Forall (word 8) a -> le_word (a ++ b) = le_word a + 256 ^ Z.of_nat (length a) * le_word b.
Proof.
  induction 1 as [|x a Hx _ IH]; [simpl; lia|]. cbn [app length].
  rewrite !le_word_cons, IH, Nat2Z.inj_succ, Z.pow_succ_r by (lia || done). lia.
Qed.

Lemma le_bytes_le_word n l : length l = n -> Forall (word 8) l -> le_bytes n (le_word l) = l.
Proof.
  intros <-. induction 1 as [|b l Hb _ IH]; [done|]. rewrite le_word_cons by done.
  cbn [length le_bytes]. change 255 with (Z.ones 8). unfold word in Hb.
  rewrite Z.land_ones, Z.shiftr_div_pow2 by lia. change (2 ^ 8) with 256 in *.
  replace ((b + 256 * le_word l) mod 256) with b by (Z.div_mod_to_equations; lia).
  replace ((b + 256 * le_word l) / 256) with (le_word l) by (Z.div_mod_to_equations; lia).
  by rewrite IH.
Qed.

(** A property of the bytes, checked one by one. *)
Lemma all_bytes (P : Z -> Prop) {dec : forall i, Decision (P i)} i :
  forallb (fun i => bool_decide (P i)) (seqZ 0 256) = true -> word 8 i -> P i.
Proof.
  rewrite forallb_forall. intros Hall Hi. apply (bool_decide_eq_true_1 (P i)), Hall.
  apply list_elem_of_In, elem_of_seqZ. unfold word in Hi. lia.
Qed.
