(* ===== verification/Winmx.v ===== *)
(** * The WinMX packet scrambler

    [src/networks/opennap/winmx_xor_c.c]: the two C stubs that scramble and
    unscramble an OpenNap/WinMX packet in place.  Both work on the OCaml
    string itself, modelled as the byte list [what]; [None] is an access
    outside of it. *)

From Stdlib Require Import ZArith Lia.
From stdpp Require Import base option list numbers.
From S2P Require Import Prelude.

Local Open Scope Z_scope.

Module Winmx.

(** [what[x] ^= what[x-1];] *)
Definition xor_prev (x : Z) (what : list Z) : option (list Z) :=
  a ← rd what x;
  b ← rd what (x - 1);
  wr what x (Z.lxor a b).

(** [if (counter != 4) what[0] ^= what[length-1]; else what[0] ^= (char)length;]
    The index [length-1] is computed on [unsigned int]. *)
Definition xor_head (length counter : Z) (what : list Z) : option (list Z) :=
  a ← rd what 0;
  b ← (if counter =? 4 then Some (u8 length) else rd what (u32 (length - 1)));
  wr what 0 (Z.lxor a b).

(** [for (counter = 4; counter >= 0; counter--)] around the head step and the
    upward chaining loop. *)
Definition winmx_encode_ml (what : list Z) (length : Z) : option (list Z) :=
  for_down 5 4
    (fun counter what =>
       what ← xor_head length counter what;
       for_up (Z.to_nat (s32 length - 1)) 1 xor_prev what)
    what.

(** [for (counter = 0; counter < 5; counter++)]: the downward loop first. *)
Definition winmx_decode_ml (what : list Z) (length : Z) : option (list Z) :=
  for_up 5 0
    (fun counter what =>
       let x := s32 (u32 (length - 1)) in
       what ← for_down (Z.to_nat x) x xor_prev what;
       xor_head length counter what)
    what.

(** ** Each elementary step is its own inverse *)

Section Steps.
Context (length : Z) (N : nat).
Hypothesis length_ok : 2 <= length < 2 ^ 31.
Hypothesis length_fits : length <= Z.of_nat N.

Let fits (what : list Z) : Prop := List.length what = N.

Lemma length_s32 : s32 length = length.
Proof. unfold s32. rewrite Z.mod_small; lia. Qed.

Lemma last_index : u32 (length - 1) = length - 1 /\ s32 (u32 (length - 1)) = length - 1.
Proof.
  assert (u32 (length - 1) = length - 1) as -> by (apply Z.mod_small; lia).
  split; [done|]. unfold s32. rewrite Z.mod_small; lia.
Qed.

Lemma xor_prev_undo x what what' :
  1 <= x < length -> fits what -> xor_prev x what = Some what' ->
  fits what' /\ xor_prev x what' = Some what.
Proof.
  unfold xor_prev, fits. intros Hx Hf H. bind_inv.
  match goal with H : wr _ _ _ = Some _ |- _ => rename H into Hw end.
  split; [by rewrite (wr_length _ _ _ _ Hw)|].
  rewrite (rd_wr_eq _ _ _ _ Hw), (rd_wr_ne _ _ (x - 1) _ _ Hw) by lia. simpl.
  match goal with H : rd what (x - 1) = _ |- _ => rewrite H end. simpl.
  rewrite lxor_cancel_r, (wr_wr_eq _ _ _ _ _ Hw). by apply wr_rd_id.
Qed.

Lemma xor_head_undo c what what' :
  fits what -> xor_head length c what = Some what' ->
  fits what' /\ xor_head length c what' = Some what.
Proof.
  unfold xor_head, fits. rewrite (proj1 last_index). intros Hf H. bind_inv.
  match goal with H : wr _ _ _ = Some _ |- _ => rename H into Hw end.
  split; [by rewrite (wr_length _ _ _ _ Hw)|].
  rewrite (rd_wr_eq _ _ _ _ Hw), (rd_wr_ne _ _ (length - 1) _ _ Hw) by lia. simpl.
  match goal with H : (if _ then _ else _) = _ |- _ => rewrite H end. simpl.
  rewrite lxor_cancel_r, (wr_wr_eq _ _ _ _ _ Hw). by apply wr_rd_id.
Qed.

Lemma xor_prev_total x what :
  1 <= x < length -> fits what -> exists what', xor_prev x what = Some what' /\ fits what'.
Proof.
  unfold fits. intros Hx Hf. unfold xor_prev.
  destruct (rd_in what x) as [a ->]; [lia|]. destruct (rd_in what (x - 1)) as [b ->]; [lia|].
  simpl. rewrite wr_in by lia. eexists. split; [done|]. by rewrite length_insert.
Qed.

Lemma xor_head_total c what :
  fits what -> exists what', xor_head length c what = Some what' /\ fits what'.
Proof.
  unfold fits. intros Hf. unfold xor_head. rewrite (proj1 last_index).
  destruct (rd_in what 0) as [a ->]; [lia|].
  destruct (rd_in what (length - 1)) as [b ->]; [lia|].
  destruct (c =? 4); simpl; rewrite wr_in by lia; eexists; (split; [done|]);
    by rewrite length_insert.
Qed.

(** One round of the encoder, undone by one round of the decoder. *)
Lemma round_undo c what what' :
  fits what ->
  (what ← xor_head length c what; for_up (Z.to_nat (s32 length - 1)) 1 xor_prev what) = Some what' ->
  fits what' /\
  (what ← for_down (Z.to_nat (s32 (u32 (length - 1)))) (s32 (u32 (length - 1))) xor_prev what';
   xor_head length c what) = Some what.
Proof.
  rewrite length_s32, (proj2 last_index). intros Hf H. bind_inv.
  destruct (xor_head_undo _ _ _ Hf H) as [Hf1 Hh].
  edestruct (for_down_undo fits xor_prev xor_prev) as [Hf2 Hd]; [|exact Hf1|eassumption|].
  { intros j t t' Hj. apply xor_prev_undo. lia. }
  split; [done|].
  replace (1 + Z.of_nat (Z.to_nat (length - 1)) - 1) with (length - 1) in Hd by lia.
  by rewrite Hd.
Qed.

Lemma round_total c what :
  fits what ->
  exists what',
    (what ← xor_head length c what; for_up (Z.to_nat (s32 length - 1)) 1 xor_prev what) = Some what'
    /\ fits what'.
Proof.
  intros Hf. destruct (xor_head_total c what Hf) as (w1 & -> & Hf1). simpl.
  rewrite length_s32.
  apply (for_up_total (fun _ => fits)); [|done].
  intros j t Hj Ht. apply xor_prev_total; [lia|done].
Qed.
End Steps.

(** C35: for a packet of at least two bytes the encoder runs inside the packet
    and the decoder restores every byte of it. *)
Theorem winmx_roundtrip (what : list Z) (length : Z) :
  2 <= length < 2 ^ 31 -> length <= Z.of_nat (List.length what) ->
  exists what', winmx_encode_ml what length = Some what' /\
    List.length what' = List.length what /\ winmx_decode_ml what' length = Some what.
Proof.
  intros Hl Hf.
  edestruct (for_down_total (fun _ (w : list Z) => List.length w = List.length what)) as (w' & He & Hw');
    [intros; by eapply round_total|done|].
  exists w'. split; [exact He|]. split; [done|].
  edestruct (for_up_undo (fun w : list Z => List.length w = List.length what))
    as [_ Hd]; [| |exact He|exact Hd]; [|done].
  intros j t t' _. by apply round_undo.
Qed.

Lemma winmx_roundtrip_witness :
  2 <= 5 < 2 ^ 31 /\
  exists what', winmx_encode_ml [72; 69; 76; 76; 79] 5 = Some what' /\
    List.length what' = 5%nat /\ winmx_decode_ml what' 5 = Some [72; 69; 76; 76; 79].
Proof. split; [lia|]. apply (winmx_roundtrip [72; 69; 76; 76; 79] 5); simpl; lia. Defined.

(** A packet of one byte is not recoverable: the encoder maps every byte
    to 0 ([what[0] ^= what[length-1]] is [what[0] ^= what[0]]). *)
Theorem winmx_single_byte_lost (b : Z) : winmx_encode_ml [b] 1 = Some [0].
Proof.
  cbv -[Z.lxor]. by rewrite !Z.lxor_nilpotent.
Qed.

End Winmx.
