(* ===== verification/Mix.v ===== *)
(** * The statement language of the FastTrack pad mixers

    [src/networks/fasttrack/enc_type_2.c], [enc_type_20.c] and [enc_type_80.c]
    are straight-line programs over a shared array [u32 pad[20]] and a local
    [u32 seed]: assignments, calls of one another, tests of a [branch] number
    and, in the last two, the early return [TRY(x)].  This file gives the
    meaning of each of these constructs as a function on the memory [pad] and
    the local [seed], so that the three files of mixers read like the C text;
    [None] is an access outside of the pad.  It then shows, once per
    construct, that memory safety and 32-bit ranges are kept. *)

From Stdlib Require Import ZArith Lia.
From stdpp Require Import base option list numbers.
From S2P Require Import Prelude.

Local Open Scope Z_scope.

(** ** The helper functions of [enc_type_20.c] and [enc_type_80.c]

    Both files hold the same text; the argument is an [unsigned char]. *)

Definition my_cos (i : Z) : Z := c_bool (122 <? (i * 39 + 61) mod 245).

Definition my_sin (i : Z) : Z := c_bool (144 <? (i * 46) mod 289).

(** [for (j = 0, k = 0; j++ <= i; j += ++k << 1); return k;] *)
Fixpoint my_sqrt_loop (fuel : nat) (i j k : Z) : option Z :=
  match fuel with
  | O => None
  | S fuel =>
      if j <=? i
      then let k := k + 1 in my_sqrt_loop fuel i (j + 1 + Z.shiftl k 1) k
      else Some k
  end.

(** At most 16 iterations for an [unsigned char]. *)
Definition my_sqrt (i : Z) : option Z := my_sqrt_loop 17 i 0 0.

(** ** Expressions *)

Definition expr := list Z -> Z -> option Z.

(** What can be assigned: a word of the pad or the local seed. *)
Inductive lval := PadAt (i : Z) | seed.

Definition cst (z : Z) : expr := fun _ _ => Some z.
Definition rv (l : lval) : expr :=
  match l with
  | PadAt i => fun pad _ => rd pad i
  | seed => fun _ sd => Some sd
  end.

Coercion cst : Z >-> expr.
Coercion rv : lval >-> expr.

Definition e_bin (f : Z -> Z -> Z) (a b : expr) : expr :=
  fun pad sd => x ← a pad sd; y ← b pad sd; Some (f x y).
Definition e_un (f : Z -> option Z) (a : expr) : expr :=
  fun pad sd => x ← a pad sd; f x.

Definition e_add := e_bin (fun x y => u32 (x + y)).
Definition e_sub := e_bin (fun x y => u32 (x - y)).
Definition e_mul := e_bin (fun x y => u32 (x * y)).
Definition e_mod := e_bin (fun x y => x mod y).
Definition e_and := e_bin Z.land.
Definition e_or := e_bin Z.lor.
Definition e_xor := e_bin Z.lxor.
Definition e_shl := e_bin (fun x y => u32 (Z.shiftl x y)).
Definition e_lt := e_bin (fun x y => c_bool (x <? y)).
Definition e_neg := e_un (fun x => Some (u32 (- x))).
Definition e_sin := e_un (fun x => Some (my_sin (u8 x))).
Definition e_cos := e_un (fun x => Some (my_cos (u8 x))).
Definition e_sqrt := e_un (fun x => my_sqrt (u8 x)).
(** [ROR] and [ROL] of [enc_type_2.c] and [enc_type_20.c]: macros that take
    the count modulo 32. *)
Definition ROR := e_bin (fun v n => ror32 v (Z.land n 0x1f)).
Definition ROL := e_bin (fun v n => rol32 v (Z.land n 0x1f)).

(** [c ? a : b] *)
Definition e_if (c a b : expr) : expr :=
  fun pad sd => x ← c pad sd; if x =? 0 then b pad sd else a pad sd.

(** ** Assignments: the assigned value, the pad and the seed after it *)

Definition asn := list Z -> Z -> option (Z * list Z * Z).

Definition assign (l : lval) (e : expr) : asn :=
  fun pad sd =>
    v ← e pad sd;
    match l with
    | PadAt i => pad' ← wr pad i v; Some (v, pad', sd)
    | seed => Some (v, pad, v)
    end.

(** [l op= e] *)
Definition assign_op (op : expr -> expr -> expr) (l : lval) (e : expr) : asn :=
  assign l (op l e).

Definition ROREQ (l : lval) (n : expr) : asn := assign l (ROR l n).
Definition ROLEQ (l : lval) (n : expr) : asn := assign l (ROL l n).

(** ** Statements and functions *)

Inductive outcome :=
  | Running (pad : list Z) (sd : Z)
  | Returned (pad : list Z).

Definition stm := list Z -> Z -> option outcome.

(** [void f (u32 *pad, u32 seed)] and [void f (u32 *pad)]. *)
Definition proc := list Z -> Z -> option (list Z).
Definition proc0 := list Z -> option (list Z).

Fixpoint block (l : list stm) : stm :=
  match l with
  | [] => fun pad sd => Some (Running pad sd)
  | st :: l => fun pad sd =>
      o ← st pad sd;
      match o with
      | Running pad' sd' => block l pad' sd'
      | Returned pad' => Some (Returned pad')
      end
  end.

Definition exec (a : asn) : stm :=
  fun pad sd => '(_, pad', sd') ← a pad sd; Some (Running pad' sd').

(** [#define TRY(x) if((x) & 1) return;] *)
Definition TRY (a : asn) : stm :=
  fun pad sd =>
    '(v, pad', sd') ← a pad sd;
    if Z.odd v then Some (Returned pad') else Some (Running pad' sd').

(** The argument is passed by value: the caller's [seed] is unchanged. *)
Definition call (f : proc) (e : expr) : stm :=
  fun pad sd => v ← e pad sd; pad' ← f pad v; Some (Running pad' sd).
Definition call0 (f : proc0) : stm :=
  fun pad sd => pad' ← f pad; Some (Running pad' sd).

Definition when (b : bool) (l : list stm) : stm := if b then block l else block [].
Definition when_e (c : expr) (l : list stm) : stm :=
  fun pad sd => x ← c pad sd; if x =? 0 then Some (Running pad sd) else block l pad sd.

(** [switch (branch) { case k: ...; break; ... }] with no default. *)
Definition case (k : Z) (l : list stm) : Z * list stm := (k, l).
Fixpoint switch (branch : Z) (cases : list (Z * list stm)) : stm :=
  match cases with
  | [] => block []
  | (k, l) :: cases => if branch =? k then block l else switch branch cases
  end.

Definition final (o : outcome) : list Z :=
  match o with Running pad _ => pad | Returned pad => pad end.

Definition body (l : list stm) : proc :=
  fun pad sd => o ← block l pad sd; Some (final o).
Definition body0 (l : list stm) : proc0 :=
  fun pad => o ← block l pad 0; Some (final o).
(** [int branch = e;] followed by the statements that test it. *)
Definition with_branch (e : expr) (k : Z -> list stm) : proc :=
  fun pad sd => b ← e pad sd; o ← block (k b) pad sd; Some (final o).

(** ** Notations: C's operators and assignments, with C's precedences *)

Module MixNotations.
  Declare Scope mix_scope.
  Delimit Scope mix_scope with mix.
  Bind Scope mix_scope with expr.
  Notation "'pad' [ i ]" := (PadAt i) (at level 0, i at level 200, format "pad [ i ]") : mix_scope.
  Notation "a * b" := (e_mul a b) : mix_scope.
  Notation "a % b" := (e_mod a b) (at level 40, left associativity) : mix_scope.
  Notation "a + b" := (e_add a b) : mix_scope.
  Notation "a - b" := (e_sub a b) : mix_scope.
  Notation "a << b" := (e_shl a b) (at level 54, left associativity) : mix_scope.
  Notation "a .< b" := (e_lt a b) (at level 60, no associativity) : mix_scope.
  Notation "a .& b" := (e_and a b) (at level 62, left associativity) : mix_scope.
  Notation "a .^ b" := (e_xor a b) (at level 64, left associativity) : mix_scope.
  Notation "a .| b" := (e_or a b) (at level 66, left associativity) : mix_scope.
  Notation "'IF' c 'THEN' a 'ELSE' b" := (e_if c a b)
    (at level 68, c at level 66, a at level 66, b at level 68) : mix_scope.
  Notation "l ::= e" := (assign l e) (at level 70) : mix_scope.
  Notation "l += e" := (assign_op e_add l e) (at level 70) : mix_scope.
  Notation "l -= e" := (assign_op e_sub l e) (at level 70) : mix_scope.
  Notation "l *= e" := (assign_op e_mul l e) (at level 70) : mix_scope.
  Notation "l &= e" := (assign_op e_and l e) (at level 70) : mix_scope.
  Notation "l |= e" := (assign_op e_or l e) (at level 70) : mix_scope.
  Notation "l ^= e" := (assign_op e_xor l e) (at level 70) : mix_scope.
End MixNotations.

(** ** Safety of the constructs

    A pad is 20 words.  A construct is safe when, on such a pad and a 32-bit
    seed, it has a result (no access outside of the pad) and leaves a pad of
    20 words and a 32-bit seed. *)

Definition pad_ok (pad : list Z) : Prop := length pad = 20%nat /\ Forall (word 32) pad.

Definition safe_e (e : expr) : Prop :=
  forall pad sd, pad_ok pad -> word 32 sd -> exists v, e pad sd = Some v /\ word 32 v.

Definition safe_a (a : asn) : Prop :=
  forall pad sd, pad_ok pad -> word 32 sd ->
  exists v pad' sd', a pad sd = Some (v, pad', sd') /\ pad_ok pad' /\ word 32 sd'.

Definition outcome_ok (o : outcome) : Prop :=
  match o with
  | Running pad sd => pad_ok pad /\ word 32 sd
  | Returned pad => pad_ok pad
  end.

Definition safe_s (st : stm) : Prop :=
  forall pad sd, pad_ok pad -> word 32 sd -> exists o, st pad sd = Some o /\ outcome_ok o.

Definition safe_p (f : proc) : Prop :=
  forall pad sd, pad_ok pad -> word 32 sd -> exists pad', f pad sd = Some pad' /\ pad_ok pad'.

Definition safe_p0 (f : proc0) : Prop :=
  forall pad, pad_ok pad -> exists pad', f pad = Some pad' /\ pad_ok pad'.

Definition lval_ok (l : lval) : bool :=
  match l with PadAt i => (0 <=? i) && (i <? 20) | seed => true end.

(** [my_sqrt] ends within its fuel and is the documented
    [floor(sqrt(i + 1))] on every [unsigned char]. *)
Lemma my_sqrt_table :
  forallb (fun i => bool_decide (my_sqrt i = Some (Z.sqrt (i + 1)))) (seqZ 0 256) = true.
Proof. vm_compute. reflexivity. Qed.

Lemma my_sqrt_floor i : word 8 i -> my_sqrt i = Some (Z.sqrt (i + 1)).
Proof.
  intros Hi. pose proof my_sqrt_table as H. rewrite forallb_forall in H.
  eapply bool_decide_eq_true_1, H. apply list_elem_of_In, elem_of_seqZ. exact Hi.
Qed.

Lemma my_sin_range i : word 32 (my_sin i).
Proof. by apply word_c_bool. Qed.

Lemma my_cos_range i : word 32 (my_cos i).
Proof. by apply word_c_bool. Qed.

#[export] Hint Resolve my_sin_range my_cos_range : word.

Section Safety.
Lemma safe_bin f a b :
  (forall x y, word 32 x -> word 32 y -> word 32 (f x y)) ->
  safe_e a -> safe_e b -> safe_e (e_bin f a b).
Proof.
  intros Hf Ha Hb pad sd Hp Hs.
  destruct (Ha pad sd Hp Hs) as (x & Hx & ?), (Hb pad sd Hp Hs) as (y & Hy & ?).
  exists (f x y). unfold e_bin. rewrite Hx. simpl. rewrite Hy. auto.
Qed.

Lemma safe_un f a :
  (forall x, word 32 x -> exists y, f x = Some y /\ word 32 y) -> safe_e a -> safe_e (e_un f a).
Proof.
  intros Hf Ha pad sd Hp Hs. destruct (Ha pad sd Hp Hs) as (x & Hx & Hr).
  unfold e_un. rewrite Hx. apply Hf, Hr.
Qed.

Lemma safe_cst z : word 32 z -> safe_e (cst z).
Proof. intros Hz pad sd _ _. by exists z. Qed.

Lemma safe_rv l : lval_ok l = true -> safe_e (rv l).
Proof.
  intros Hl pad sd [Hlen HF] Hs. destruct l as [i|]; [|by exists sd]. simpl in *.
  destruct (rd_in pad i) as [v Hv]; [rewrite Hlen; lia|].
  exists v. split; [done|]. by eapply rd_Forall.
Qed.

Lemma safe_mod a n : 0 < n < 2 ^ 32 -> safe_e a -> safe_e (e_mod a (cst n)).
Proof.
  intros Hn Ha pad sd Hp Hs. destruct (Ha pad sd Hp Hs) as (x & Hx & Hr).
  exists (x mod n). unfold e_mod, e_bin. rewrite Hx. split; [done|].
  pose proof (Z.mod_pos_bound x n). unfold word in *. lia.
Qed.

Lemma safe_if c a b : safe_e c -> safe_e a -> safe_e b -> safe_e (e_if c a b).
Proof.
  intros Hc Ha Hb pad sd Hp Hs. destruct (Hc pad sd Hp Hs) as (x & Hx & _).
  unfold e_if. rewrite Hx. simpl. destruct (x =? 0); [by apply Hb|by apply Ha].
Qed.

Lemma safe_sqrt a : safe_e a -> safe_e (e_sqrt a).
Proof.
  apply safe_un. intros x _. rewrite my_sqrt_floor by auto with word.
  eexists. split; [done|]. pose proof (u8_range x) as [H0 H1].
  pose proof (Z.sqrt_nonneg (u8 x + 1)). pose proof (Z.sqrt_le_lin (u8 x + 1)).
  unfold word. lia.
Qed.

Lemma safe_assign l e : lval_ok l = true -> safe_e e -> safe_a (assign l e).
Proof.
  intros Hl He pad sd Hp Hs. destruct (He pad sd Hp Hs) as (v & Hv & Hr).
  unfold assign. rewrite Hv. destruct l as [i|]; [|by exists v, pad, v].
  destruct Hp as [Hlen HF]. simpl in *. rewrite wr_in by (rewrite Hlen; lia).
  eexists _, _, sd. repeat split; [|by apply Forall_insert|apply Hs..].
  by rewrite length_insert.
Qed.

Lemma safe_exec a : safe_a a -> safe_s (exec a).
Proof.
  intros Ha pad sd Hp Hs. destruct (Ha pad sd Hp Hs) as (v & pad' & sd' & Hv & ?).
  unfold exec. rewrite Hv. by eexists.
Qed.

Lemma safe_TRY a : safe_a a -> safe_s (TRY a).
Proof.
  intros Ha pad sd Hp Hs. destruct (Ha pad sd Hp Hs) as (v & pad' & sd' & Hv & ? & ?).
  unfold TRY. rewrite Hv. simpl. by destruct (Z.odd v); eexists.
Qed.

Lemma safe_block l : Forall safe_s l -> safe_s (block l).
Proof.
  induction 1 as [|st l Hst _ IH]; intros pad sd Hp Hs; simpl.
  - by eexists.
  - destruct (Hst pad sd Hp Hs) as (o & Ho & Hok). rewrite Ho. simpl.
    destruct o as [pad' sd'|pad']; [by apply IH; apply Hok|by eexists].
Qed.

Lemma safe_call f e : safe_p f -> safe_e e -> safe_s (call f e).
Proof.
  intros Hf He pad sd Hp Hs. destruct (He pad sd Hp Hs) as (v & Hv & Hr).
  destruct (Hf pad v Hp Hr) as (pad' & Hf' & ?). unfold call. rewrite Hv. simpl.
  rewrite Hf'. by eexists.
Qed.

Lemma safe_call0 f : safe_p0 f -> safe_s (call0 f).
Proof.
  intros Hf pad sd Hp Hs. destruct (Hf pad Hp) as (pad' & Hf' & ?).
  unfold call0. rewrite Hf'. by eexists.
Qed.

Lemma safe_when b l : Forall safe_s l -> safe_s (when b l).
Proof. intros Hl. unfold when. destruct b; [by apply safe_block|by apply (safe_block [] (List.Forall_nil _))]. Qed.

Lemma safe_when_e c l : safe_e c -> Forall safe_s l -> safe_s (when_e c l).
Proof.
  intros Hc Hl pad sd Hp Hs. destruct (Hc pad sd Hp Hs) as (x & Hx & _).
  unfold when_e. rewrite Hx. simpl. destruct (x =? 0); [by eexists|by apply safe_block].
Qed.

Lemma safe_switch b cases : Forall (fun kl => Forall safe_s kl.2) cases -> safe_s (switch b cases).
Proof.
  induction 1 as [|[k l] cases Hl _ IH]; [by apply (safe_block [] (List.Forall_nil _))|]. simpl.
  destruct (b =? k); [by apply safe_block|done].
Qed.

Lemma safe_body l : Forall safe_s l -> safe_p (body l).
Proof.
  intros Hl pad sd Hp Hs. destruct (safe_block l Hl pad sd Hp Hs) as (o & Ho & Hok).
  unfold body. rewrite Ho. simpl. eexists. split; [done|].
  destruct o; simpl in *; tauto.
Qed.

Lemma safe_body0 l : Forall safe_s l -> safe_p0 (body0 l).
Proof. intros Hl pad Hp. apply (safe_body l Hl pad 0 Hp). unfold word. lia. Qed.

Lemma safe_with_branch e k : safe_e e -> (forall b, Forall safe_s (k b)) -> safe_p (with_branch e k).
Proof.
  intros He Hk pad sd Hp Hs. destruct (He pad sd Hp Hs) as (b & Hb & _).
  unfold with_branch. rewrite Hb. apply (safe_body (k b) (Hk b) pad sd Hp Hs).
Qed.
End Safety.

(** [mix_safe] proves the safety of a mixer, construct by construct; the
    mixers it calls are taken from the hint database [mix]. *)
Create HintDb mix.

Ltac word_cst := split; [discriminate|reflexivity].

Ltac mix_op := intros; auto with word.

Ltac mix_expr :=
  lazymatch goal with
  | |- safe_e (cst _) => apply safe_cst; word_cst
  | |- safe_e (rv _) => apply safe_rv; reflexivity
  | |- safe_e (e_mod _ _) => apply safe_mod; [split; reflexivity|mix_expr]
  | |- safe_e (e_if _ _ _) => apply safe_if; mix_expr
  | |- safe_e (e_sqrt _) => apply safe_sqrt; mix_expr
  | |- safe_e (e_sin _) => apply safe_un; [intros; eexists; split; [done|mix_op]|mix_expr]
  | |- safe_e (e_cos _) => apply safe_un; [intros; eexists; split; [done|mix_op]|mix_expr]
  | |- safe_e (e_neg _) => apply safe_un; [intros; eexists; split; [done|mix_op]|mix_expr]
  | |- safe_e (e_bin _ _ _) => apply safe_bin; [mix_op|mix_expr|mix_expr]
  | |- safe_e (e_un _ _) => apply safe_un; [intros; eexists; split; [done|mix_op]|mix_expr]
  | |- safe_e (?f _ _) => unfold f; apply safe_bin; [mix_op|mix_expr|mix_expr]
  | |- safe_e _ => assumption
  end.

Ltac head_of t := lazymatch t with ?f _ => head_of f | ?f => f end.

Ltac mix_asn :=
  lazymatch goal with
  | |- safe_a (assign _ _) => apply safe_assign; [reflexivity|mix_expr]
  | |- safe_a (assign_op _ _ _) => unfold assign_op; mix_asn
  | |- safe_a (ROREQ _ _) => unfold ROREQ; mix_asn
  | |- safe_a (ROLEQ _ _) => unfold ROLEQ; mix_asn
  | |- safe_a ?a => let h := head_of a in unfold h; mix_asn
  end.

Ltac mix_stm :=
  lazymatch goal with
  | |- Forall _ [] => apply Forall_nil_2
  | |- Forall _ (_ :: _) => apply Forall_cons_2; [mix_stm|mix_stm]
  | |- safe_s (exec _) => apply safe_exec; mix_asn
  | |- safe_s (TRY _) => apply safe_TRY; mix_asn
  | |- safe_s (when _ _) => apply safe_when; mix_stm
  | |- safe_s (when_e _ _) => apply safe_when_e; [mix_expr|mix_stm]
  | |- safe_s (call _ _) => apply safe_call; [solve [trivial with mix]|mix_expr]
  | |- safe_s (call0 _) => apply safe_call0; solve [trivial with mix]
  | |- safe_s (switch _ _) => apply safe_switch; mix_stm
  | |- Forall safe_s (snd (case _ ?l)) => change (Forall safe_s l); mix_stm
  end.

Ltac mix_safe :=
  lazymatch goal with
  | |- safe_p ?f => unfold f; first [apply safe_with_branch; [mix_expr|intros ?; mix_stm]
                                    |apply safe_body; mix_stm]
  | |- safe_p0 ?f => unfold f; apply safe_body0; mix_stm
  end.
