(* ===== verification/EncType2.v ===== *)
(** * FastTrack pad mixer 0x02

    [src/networks/fasttrack/enc_type_2.c], statement by statement: the
    [mix_minorN] macros, the 25 [mix_majorN] functions (callees first) and the
    entry point [enc_type_2].  The constructs are those of [Mix]. *)

From Stdlib Require Import ZArith Lia.
From stdpp Require Import base list.
From S2P Require Import Prelude Mix.
Import MixNotations.

Local Open Scope Z_scope.
Local Open Scope mix_scope.

Definition mix_minor20 : asn := ROREQ pad[12] (pad[14] * 0x3).
Definition mix_minor21 : asn := pad[12] *= pad[1] * 0x4b4f2e1.
Definition mix_minor22 : asn := pad[2] *= pad[10] + 0xfa1f1e0b.
Definition mix_minor23 : asn := pad[19] += pad[19] .^ 0x43b6b05.
Definition mix_minor24 : asn := pad[18] -= (ROR pad[4] 18).
Definition mix_minor25 : asn := pad[0] &= pad[10] + 0xfc9be92d.
Definition mix_minor26 : asn := pad[9] ^= pad[3] + 0xbe5fec7d.
Definition mix_minor27 : asn := pad[6] *= pad[15] .| 0x46afede0.
Definition mix_minor28 : asn := pad[17] -= pad[6] * 0x1b677cc8.
Definition mix_minor29 : asn := pad[14] &= pad[15] + 0xfc471d2b.
Definition mix_minor30 : asn := pad[19] += pad[16] + 0x24a7d94d.
Definition mix_minor31 : asn := pad[15] *= pad[0] .^ 0x48ad05f2.
Definition mix_minor32 : asn := pad[16] -= pad[4] - 0xbb834311.
Definition mix_minor33 : asn := pad[8] += (ROL pad[4] 26).
Definition mix_minor34 : asn := pad[13] *= pad[18] + 0xac048a2.
Definition mix_minor35 : asn := pad[16] &= pad[18] + 0xe832eb88.
Definition mix_minor36 : asn := pad[4] -= pad[1] - 0xe6f17893.
Definition mix_minor37 : asn := pad[6] *= pad[7] .| 0x17b60bb5.
Definition mix_minor38 : asn := pad[15] += (ROL pad[12] 16).
Definition mix_minor39 : asn := pad[6] &= pad[10] + 0xfd7af7e.
Definition mix_minor40 : asn := ROREQ pad[7] (pad[18] .& 2).
Definition mix_minor41 : asn := ROREQ pad[17] (pad[7] .^ 3).
Definition mix_minor42 : asn := pad[0] ^= pad[8] + 0xeee530d5.
Definition mix_minor43 : asn := pad[10] += pad[1] + 0xc484cfa2.
Definition mix_minor44 : asn := pad[16] += pad[5] .^ 0x19a836dc.
Definition mix_minor45 : asn := pad[17] += pad[7] + 0xd68a11c3.
Definition mix_minor46 : asn := pad[17] += (ROL pad[7] 19).
Definition mix_minor47 : asn := pad[18] -= pad[6] * 0x368eaf4e.
Definition mix_minor48 : asn := ROREQ pad[2] (pad[7] .^ 3).
Definition mix_minor49 : asn := pad[19] |= pad[5] + 0xda7c6c8e.
Definition mix_minor50 : asn := pad[6] *= (ROR pad[2] 12).
Definition mix_minor51 : asn := pad[14] += pad[18] + 0xf655a040.
Definition mix_minor52 : asn := pad[11] += pad[19] * 0x251df1bd.
Definition mix_minor53 : asn := pad[11] -= pad[0] .^ 0x51a859c.
Definition mix_minor54 : asn := pad[18] += pad[6] + 0xdcccfc5.
Definition mix_minor55 : asn := pad[16] -= pad[18] .^ 0x39848960.
Definition mix_minor56 : asn := pad[14] ^= pad[19] + 0x1a6f3b29.
Definition mix_minor57 : asn := pad[12] &= pad[5] + 0x4ef1335a.
Definition mix_minor58 : asn := pad[14] *= pad[13] + 0xdb61abf8.
Definition mix_minor59 : asn := pad[18] ^= pad[19] * 0x378f67.
Definition mix_minor60 : asn := pad[18] ^= pad[4] * 0x2dd2a2fe.
Definition mix_minor61 : asn := pad[16] -= pad[4] - 0xe357b476.
Definition mix_minor62 : asn := pad[6] *= pad[16] * 0x381203.
Definition mix_minor63 : asn := pad[10] |= (ROR pad[11] 24).
Definition mix_minor64 : asn := pad[10] ^= pad[5] + 0x147c80d5.
Definition mix_minor65 : asn := pad[16] ^= pad[3] * 0x27139980.
Definition mix_minor66 : asn := ROREQ pad[15] pad[17].
Definition mix_minor67 : asn := pad[14] &= (ROL pad[19] 6).
Definition mix_minor68 : asn := pad[8] *= pad[0] * 0x1a4c02dd.
Definition mix_minor69 : asn := pad[16] ^= pad[14] + 0xfddb63a2.

Definition mix_major19 : proc := body [
    exec (pad[3] ^= seed + 0xd2670e69);
    exec (seed ^= pad[2] .& 0x3bd91a6d);
    exec (seed += pad[12] + 0xe162a863);
    exec (pad[3] -= seed - 0x2f72a89a);
    exec (pad[11] ^= pad[3] .& 0x4053f57a);
    exec (seed *= pad[12] + 0xfe64a9df);
    exec (pad[6] ^= pad[14] .^ 0x6c235a3);
    exec (ROLEQ pad[11] (pad[7] + 0x1b));
    exec (pad[13] ^= pad[8] + 0xdf869976);
    exec (ROLEQ pad[4] (pad[12] + 0x1));
    exec (pad[9] += pad[13] .^ 0x3d475dc2);
    exec (pad[14] += (ROR seed 25));
    exec (pad[10] += seed .^ 0x222fef6f);
    exec (pad[12] ^= (ROR pad[19] 9));
    exec (pad[4] += pad[8] + 0x56d964ed);
    exec (pad[18] -= pad[7] - 0x132444b);
    exec (pad[0] ::= 0xd35add1b);
    exec (seed += pad[6] * 0x6fe2b2f);
    exec (pad[14] *= pad[1] + 0xacf6925);
    exec (pad[15] ^= (ROR seed 19));
    exec (pad[0] ::= 0xc0c8f110 - pad[15]);
    exec (seed ^= seed .| 0x2a57ebeb);
    exec (pad[12] -= (ROL seed 13));
    exec (seed |= pad[13] .& 0x15a66bda);
    exec (seed += pad[18] + 0x235ac102);
    exec (ROLEQ pad[8] (seed + 0xd));
    exec (pad[5] ^= pad[12] + 0x3bbb70fe);
    exec (seed &= pad[1] + 0xec51134a);
    exec (pad[19] ^= pad[11] * 0x87095a6);
    exec (pad[0] -= pad[5] .& 0xf43f6fb);
    exec (pad[15] += pad[4] + 0xea66f8dc);
    exec (pad[19] -= pad[7] - 0xd049cfd6);
    exec (pad[13] -= pad[0] .^ 0x253c86f9);
    exec (seed += pad[16] .| 0x520e84ba);
    exec (pad[10] -= (ROL pad[18] 23));
    exec (pad[18] += seed * 0x2ee5918a);
    exec (pad[7] &= pad[11] .^ 0xf0a32bc);
    exec (pad[0] -= seed .^ 0xfa89177);
    exec (pad[2] |= (ROL pad[9] 24));
    exec (pad[14] *= 0x1cb1574a);
    exec (ROREQ pad[10] (seed + 0xd));
    exec (pad[1] &= pad[11] + 0xef291170);
    exec (pad[6] += pad[19] .& 0x259a6745);
    exec (seed -= pad[2] .^ 0x10467b8);
    exec (pad[18] *= pad[9] + 0xdbff9c2b);
    exec (pad[16] += seed .^ 0x8d4c279);
    exec (pad[5] -= (ROR pad[10] 24)) ].

Definition mix_major20 : proc := body [
    exec (ROLEQ pad[14] (seed .& 0xe));
    exec (seed += pad[15] .^ 0xbf446ce);
    exec (seed += seed + 0xe227ea76);
    exec (pad[19] *= pad[15] * 0x50ee813);
    exec (ROREQ pad[19] (pad[10] + 0x1e));
    exec (pad[16] -= seed .& 0x372035b);
    exec (pad[18] |= pad[5] + 0xd9d1da08);
    exec (pad[5] += (ROL pad[11] 9));
    exec (ROREQ pad[8] (pad[0] * 0x3));
    exec (seed += pad[0] .^ 0x46d0b40);
    exec (pad[14] ^= pad[1] + 0xe8684fc);
    exec (seed -= pad[14] * 0x28f80128);
    exec (seed ^= (ROR pad[1] 10));
    exec (pad[19] *= pad[16] + 0xa0397f);
    exec (pad[13] += (ROL seed 17));
    exec (pad[4] -= pad[6] - 0x95670090);
    exec (ROLEQ pad[14] 24);
    exec (pad[0] *= 0xe6219a29);
    exec (pad[3] += pad[11] + 0xfa61efff);
    exec (pad[8] -= pad[10] - 0xda64c153);
    exec (pad[9] -= pad[8] - 0x22a4da90);
    exec (seed ::= (ROL 0xf2eafbc6 (pad[12] .^ 0x15)));
    exec (seed ^= pad[19] .| 0x2cd48d0d);
    exec (seed += pad[19] + 0xc6a5343a);
    exec (pad[13] -= seed - 0xc3172899);
    exec (pad[14] ^= (ROL pad[4] 11));
    exec (pad[19] ^= pad[14] .^ 0x274bf2e7);
    exec (pad[16] += pad[9] .^ 0x1448b87d);
    exec (seed &= pad[19] .^ 0x7c5e8091);
    exec (pad[15] -= seed - 0x2de973cc);
    exec (pad[17] *= pad[0] + 0x5cd4018);
    exec (pad[15] *= pad[7] .^ 0x1c718ec4);
    exec (ROREQ pad[4] (ROL pad[14] 31));
    exec (pad[6] -= pad[1] * 0x11e6e4aa);
    exec (pad[3] -= pad[14] - 0x20a45ef);
    exec (pad[14] &= pad[11] .^ 0x79362e5) ].

Definition mix_major17 : proc :=
  with_branch (seed .& 1) (fun branch => [
    exec (pad[5] -= pad[18] - 0x34b87873);
    exec (pad[17] -= pad[1] - 0x2051ec4);
    exec (pad[6] ^= pad[16] .^ 0x5c80bc7);
    exec (seed -= (ROR seed 26));
    exec (pad[5] *= pad[16] .| 0x154e9813);
    exec (pad[0] |= pad[5] + 0xbac2a47e);
    exec (pad[13] *= pad[9] .^ 0xbf263a6);
    exec (pad[9] |= (ROL pad[11] 23));
    exec (pad[16] *= pad[1] .& 0x1c28de84);
    exec (pad[6] ^= (ROR pad[2] 11));
    exec (pad[12] ^= (ROR pad[9] 24));
    exec (seed += seed + 0x2c5a0200);
    exec (pad[19] |= pad[12] + 0xa104f7f6);
    exec (pad[17] ^= pad[11] + 0xf51e9043);
    exec (pad[15] += seed + 0x37f1bc89);
    when (branch =? 0) [
      exec (pad[3] -= 0x2ae49a0);
      exec (pad[9] += 0xde755696);
      exec (mix_minor53);
      call mix_major19 pad[4] ];
    exec (seed += pad[5] .| 0x79ba9a48);
    exec (pad[4] -= pad[2] .^ 0x1ecdadba);
    exec (seed ^= pad[10] + 0xf01ca4cf);
    exec (seed ^= pad[8] + 0xf58222aa);
    exec (pad[8] |= pad[7] * 0x59c62257);
    exec (pad[7] ^= pad[7] .| 0x2d2750f0);
    exec (seed += pad[17] .| 0x1719d4f);
    exec (pad[19] *= pad[4] + 0xcec35bec);
    exec (pad[18] ^= pad[2] + 0xdc17a237);
    exec (pad[19] += pad[5] + 0xca0f8bc5);
    exec (seed += seed + 0xff282d98);
    exec (pad[0] += seed + 0x2a09f2a5);
    exec (pad[11] ^= pad[2] + 0x30e437d6);
    exec (pad[12] |= seed + 0xee36df26);
    exec (pad[15] &= seed + 0xc95e1442);
    when (branch =? 1) [
      exec (mix_minor27);
      exec (pad[9] += 0xd68c597b);
      exec (pad[9] += 0xdcb2dc4d);
      call mix_major20 pad[14] ];
    exec (pad[7] -= pad[17] .^ 0x72eeed7);
    exec (pad[17] *= pad[15] * 0x162a030d);
    exec (pad[7] &= pad[14] + 0xf0dd3ef3);
    exec (seed += pad[1]);
    exec (pad[2] ^= pad[13] .^ 0x2d9ceb17);
    exec (pad[7] &= seed .^ 0x176b1b8e);
    exec (pad[8] |= seed + 0xdab13e76);
    exec (pad[16] -= pad[12] - 0x2a74b8d4);
    exec (seed -= pad[4] - 0xcc1039a3);
    exec (seed -= pad[5] * 0x1239378b);
    exec (pad[0] ^= seed .^ 0xd9a5ac4);
    exec (pad[10] -= pad[1] .^ 0x346ff630);
    exec (pad[14] += pad[15] .^ 0x2f99340b);
    exec (pad[11] |= pad[7] + 0xd5881b85);
    exec (ROLEQ pad[9] (pad[16] * 0x19)) ]).

Definition mix_major16 : proc :=
  with_branch (pad[12] % 3) (fun branch => [
    exec (pad[7] ^= pad[7] + 0x1256f342);
    exec (pad[9] ^= (ROL pad[14] 9));
    exec (pad[0] += pad[13] .^ 0x4a20925);
    exec (ROREQ pad[13] (seed .| 0xb));
    exec (seed -= pad[10] - 0x2cd8307e);
    exec (ROREQ seed (pad[17] * 0x15));
    exec (pad[8] += pad[15] .| 0x11570bca);
    exec (seed &= pad[3] .^ 0x4c404c71);
    exec (seed += pad[10] .^ 0x85d82e);
    exec (pad[11] *= pad[6] .& 0xf076b8f);
    exec (pad[11] += seed + 0x26d0f98c);
    when (branch =? 0) [
      exec (mix_minor29);
      exec (mix_minor21);
      exec (mix_minor33);
      call mix_major19 pad[7] ];
    exec (pad[1] ^= (ROR seed 23));
    exec (pad[9] += seed + 0xf24cc80b);
    exec (ROLEQ pad[3] (pad[14] * 0x1d));
    exec (pad[19] += seed + 0x64922cc);
    exec (seed -= pad[0] - 0x1e0944e3);
    exec (ROREQ seed (seed * 0x1c));
    exec (seed *= pad[15] + 0x8d90c5a3);
    exec (pad[17] ^= seed .& 0xdd9bf1a);
    exec (pad[4] -= pad[6] - 0xd5bd8bc1);
    exec (seed += seed + 0x1226f462);
    exec (pad[17] ^= (ROL pad[13] 5));
    exec (ROLEQ pad[13] (seed .& 0x12));
    when (branch =? 2) [
      exec (mix_minor45);
      exec (pad[8] -= 0x3e5f74f5);
      exec (pad[11] += 0xee0e47c6);
      call mix_major20 seed ];
    exec (seed |= pad[9] .| 0x10b9b57a);
    exec (pad[0] += pad[10] + 0x477a65c2);
    exec (pad[8] |= pad[7] .^ 0x1b348ba1);
    exec (ROLEQ pad[16] (ROL pad[1] 8));
    exec (seed ^= pad[19] * 0xfa375c5);
    exec (ROREQ pad[11] (ROR pad[5] 13));
    exec (pad[7] ^= pad[19] + 0x64bd3f85);
    exec (pad[6] *= (ROR seed 25));
    exec (pad[5] += seed + 0xaeeb67de);
    exec (pad[19] |= (ROR pad[5] 22));
    exec (pad[0] += pad[6] + 0xe1f2872);
    when (branch =? 1) [
      exec (mix_minor53);
      exec (mix_minor27);
      exec (pad[9] += 0xd829ce84);
      call mix_major17 seed ];
    exec (seed |= pad[6] .| 0x40c95dca);
    exec (ROLEQ seed (pad[12] .^ 0x1));
    exec (pad[3] &= pad[8] + 0xed5ca98b);
    exec (pad[4] += seed + 0x92abec6e);
    exec (seed &= (ROR pad[13] 22));
    exec (pad[2] += pad[15] * 0xff635ec);
    exec (pad[6] ^= seed + 0x37343841);
    exec (pad[9] += pad[14] + 0xf8e12c69);
    exec (pad[14] -= (ROL pad[10] 20)) ]).

Definition mix_major15 : proc :=
  with_branch ((pad[12] .^ pad[15] .^ seed) .& 3) (fun branch => [
    exec (ROREQ pad[6] (pad[3] .^ 0x14));
    exec (pad[12] += seed .^ 0x9a94557);
    exec (pad[15] *= pad[6] .^ 0x2c63c7d7);
    exec (pad[4] -= pad[17] - 0x1565237b);
    exec (ROLEQ seed (pad[11] * 0x19));
    exec (seed -= pad[9] * 0x3471499e);
    exec (seed ^= pad[3] .^ 0x34293622);
    exec (pad[11] += seed + 0xbab1970a);
    exec (pad[7] |= pad[18] .& 0x2e7cbf50);
    when (branch =? 2) [
      exec (mix_minor28);
      exec (mix_minor53);
      exec (pad[8] += 0xabdd8689);
      call mix_major19 pad[11] ];
    exec (pad[16] &= pad[12] + 0xc178e538);
    exec (pad[14] |= pad[6] * 0xf7a199);
    exec (pad[9] += seed + 0x598a281);
    exec (seed ^= pad[0] + 0xf6c67dcd);
    exec (pad[14] += pad[12] * 0x2a688905);
    exec (ROREQ pad[16] (seed .| 0x9));
    exec (pad[10] += seed .| 0x4d8cb855);
    exec (pad[19] -= pad[9] - 0x32b94292);
    exec (ROREQ seed (pad[9] * 0x9));
    when (branch =? 1) [
      exec (pad[1] &= 0xbe845151);
      exec (mix_minor66);
      exec (pad[14] -= 0x77ab88ea);
      call mix_major20 seed ];
    exec (pad[6] &= (ROL pad[10] 28));
    exec (pad[16] += seed .^ 0x5aafcd4a);
    exec (pad[12] &= seed .^ 0x1c22a3b7);
    exec (pad[18] -= pad[4] * 0x358b021d);
    exec (pad[16] ^= pad[13] + 0xac30f7a);
    exec (ROLEQ seed (pad[17] .^ 0xe));
    exec (ROREQ seed (pad[1] + 0x2));
    exec (pad[18] -= seed - 0xee6e38da);
    when (branch =? 0) [
      exec (mix_minor31);
      exec (mix_minor31);
      exec (mix_minor52);
      call mix_major17 pad[9] ];
    exec (pad[2] += pad[16] .| 0x5cbeb00);
    exec (pad[7] -= (ROR seed 22));
    exec (pad[4] ^= seed + 0x1580fb54);
    exec (pad[17] -= (ROL pad[12] 25));
    exec (pad[16] += pad[8] .^ 0x1b3ea2);
    exec (pad[5] -= seed - 0x193cf230);
    exec (ROLEQ pad[18] (seed + 0x12));
    exec (seed -= pad[17] .& 0x66e0e812);
    exec (pad[12] ^= (ROL pad[7] 18));
    exec (pad[17] -= pad[13] - 0xb70d1a);
    when (branch =? 3) [
      exec (mix_minor46);
      exec (pad[1] &= 0x24c41868);
      exec (mix_minor24);
      call mix_major16 pad[17] ];
    exec (pad[6] += pad[1] + 0xdfef3914);
    exec (seed += (ROL pad[5] 29));
    exec (pad[18] -= pad[8] .| 0x456bd4b);
    exec (seed &= pad[13] + 0x123e07ad);
    exec (pad[0] ^= seed * 0x22af60a0);
    exec (pad[13] -= pad[12] - 0xf69f7aa2);
    exec (ROREQ pad[17] (seed .^ 0x1c));
    exec (pad[13] += pad[5] * 0x248bf14b);
    exec (pad[2] ^= (ROR seed 12)) ]).

Definition mix_major8 : proc :=
  with_branch ((pad[5] .^ pad[9] .^ pad[19]) % 5) (fun branch => [
    exec (pad[5] += pad[12] .^ 0xb6b4743);
    exec (seed *= pad[12] + 0x221bed03);
    exec (pad[3] *= pad[11] .^ 0x2663a394);
    exec (seed |= pad[4] .^ 0x4f1894);
    exec (pad[5] &= 0xad85e5da);
    exec (pad[17] &= seed + 0xd191e790);
    exec (seed += pad[1] * 0x1c634b75);
    when (branch =? 2) [
      exec (mix_minor34);
      exec (mix_minor25);
      exec (pad[8] -= 0x3dcc78c5);
      call mix_major19 pad[1] ];
    exec (pad[3] -= pad[6] .^ 0x1fdc8171);
    exec (pad[15] ^= pad[14] * 0xdc63a30);
    exec (ROLEQ pad[7] (seed + 0x8));
    exec (seed ^= pad[8] + 0xe4fb2084);
    exec (pad[6] -= seed - 0xb6a8bfd8);
    exec (seed *= (ROR pad[6] 1));
    exec (pad[13] *= (ROR pad[8] 31));
    exec (pad[18] ^= pad[15] + 0xa969bc16);
    when (branch =? 1) [
      exec (mix_minor25);
      exec (ROLEQ pad[10] 14);
      exec (mix_minor38);
      call mix_major20 pad[2] ];
    exec (ROREQ seed (pad[1] .& 0x6));
    exec (pad[8] -= pad[17] - 0xeba05ea0);
    exec (pad[16] += pad[19] + 0xe8427306);
    exec (pad[16] ^= pad[7] + 0x35f9fb28);
    exec (pad[13] += seed .& 0x16076281);
    exec (seed *= seed + 0xe43a6120);
    exec (pad[1] -= pad[3] - 0xd94074d);
    when (branch =? 3) [
      exec (pad[4] *= 0xdccff951);
      exec (mix_minor53);
      exec (mix_minor41);
      call mix_major17 pad[17] ];
    exec (ROREQ seed (pad[18] + 0x5));
    exec (pad[6] += seed + 0x126c7192);
    exec (pad[4] &= pad[9] .^ 0xe4c97d9);
    exec (seed ^= seed + 0x5246092);
    exec (pad[14] += pad[3] + 0x12466f7c);
    exec (pad[7] -= pad[19] - 0xe724e487);
    exec (seed -= pad[2] - 0xfffcc68a);
    exec (pad[2] -= pad[12] * 0xf8b6e25);
    when (branch =? 4) [
      exec (mix_minor36);
      exec (pad[17] ^= 0x5f26a27b);
      exec (pad[14] ^= 0x77f49770);
      call mix_major16 pad[12] ];
    exec (ROLEQ pad[3] (pad[6] .^ 0x11));
    exec (pad[4] += seed .& 0x3dd7da06);
    exec (pad[11] *= pad[8] + 0xb6484f2a);
    exec (seed ^= pad[8] .& 0x274e05b8);
    exec (pad[18] ^= pad[5] + 0x263032a4);
    exec (pad[16] ^= seed + 0x1a70ff38);
    when (branch =? 0) [
      exec (mix_minor37);
      exec (mix_minor22);
      exec (mix_minor45);
      call mix_major15 pad[10] ];
    exec (pad[4] += seed + 0x4a83a932);
    exec (ROLEQ pad[19] (pad[2] + 0x10));
    exec (ROLEQ pad[0] pad[19]);
    exec (seed += seed .^ 0x1bb7cdc3);
    exec (seed -= pad[4] - 0xf1efd9b1);
    exec (pad[11] ^= pad[1] .| 0x64a30a);
    exec (pad[1] -= pad[8] - 0x4cd3708);
    exec (pad[0] += seed + 0xf6d388b6);
    exec (pad[8] -= pad[1] - 0x4b8444f);
    exec (ROLEQ pad[7] (ROL seed 9));
    exec (ROREQ pad[17] (pad[10] + 0x1c)) ]).

Definition mix_major12 : proc :=
  with_branch ((pad[7] .^ pad[16] .^ seed) % 6) (fun branch => [
    exec (pad[18] &= pad[6] .& 0x104394c4);
    exec (seed *= seed + 0xe92519e2);
    exec (pad[4] += pad[19] + 0x46d5ad23);
    exec (pad[6] += pad[1] + 0x3fd0884);
    exec (seed ::= pad[9] * (seed + 0xc46fe68));
    exec (pad[9] ::= seed);
    when (branch =? 5) [
      exec (pad[8] += 0xb0568904);
      exec (mix_minor55);
      exec (mix_minor56);
      call mix_major19 pad[4] ];
    exec (pad[11] ^= pad[7] .^ 0x4453b1d7);
    exec (pad[4] ^= pad[12] + 0x187596ce);
    exec (pad[14] += pad[19] .^ 0x1ecd4347);
    exec (pad[17] &= pad[6] + 0xaa504a66);
    exec (pad[13] -= pad[7] - 0x2482f7ba);
    when (branch =? 2) [
      exec (ROLEQ pad[16] 27);
      exec (pad[3] += 0x8602040);
      exec (mix_minor37);
      call mix_major20 pad[18] ];
    exec (pad[5] *= pad[17] .| 0x14128b1f);
    exec (pad[5] &= pad[9] .| 0x8ae69ec);
    exec (seed ::= (pad[5] .| 0x25dcee2a) * 0xf7abca44);
    exec (pad[12] += pad[10] * 0x2b5c108a);
    exec (pad[19] -= pad[10] - 0x45d1e08);
    when (branch =? 1) [
      exec (mix_minor61);
      exec (pad[3] += 0x1704000);
      exec (pad[12] += 0x20e002a);
      call mix_major17 pad[7] ];
    exec (pad[5] -= pad[3] - 0x17a9626b);
    exec (seed += pad[8] + 0x55003f14);
    exec (pad[9] += (ROL pad[6] 31));
    exec (pad[2] |= (ROL pad[19] 13));
    exec (pad[19] ^= pad[15] .^ 0xfbf02d6);
    exec (pad[3] |= pad[18] * 0x279ed38c);
    exec (seed &= pad[19] .^ 0x234a2088);
    when (branch =? 0) [
      exec (mix_minor42);
      exec (pad[12] += 0x68468);
      exec (mix_minor55);
      call mix_major16 pad[14] ];
    exec (pad[4] += pad[9] + 0xd5555942);
    exec (pad[6] += pad[0] + 0xf6a829d0);
    exec (pad[2] += pad[17] * 0x6877a2b6);
    exec (seed |= pad[11] + 0x4f92882e);
    exec (pad[4] ^= seed + 0x2a0e1a7a);
    exec (seed *= seed * 0xba88b94);
    when (branch =? 3) [
      exec (pad[14] += 0x5a9acc8f);
      exec (mix_minor40);
      exec (mix_minor33);
      call mix_major15 seed ];
    exec (pad[8] -= pad[19] .^ 0x88fae5c);
    exec (seed -= seed .^ 0x6171e1a);
    exec (seed *= pad[0] .& 0x6369ab7c);
    exec (pad[2] ^= pad[12] .& 0x36b79ddb);
    exec (seed ^= seed + 0xff3ba490);
    when (branch =? 4) [
      exec (mix_minor42);
      exec (mix_minor39);
      exec (pad[8] += 0x9cf399e7);
      call mix_major8 pad[2] ];
    exec (seed ^= pad[9] * 0x2a0582f6);
    exec (pad[9] ^= pad[10] + 0xf71f2197);
    exec (pad[17] |= seed + 0x417b0639);
    exec (pad[6] ^= (ROR seed 17));
    exec (pad[15] -= pad[3] - 0x1935355);
    exec (pad[13] += pad[5] + 0x25393a1) ]).

Definition mix_major18 : proc :=
  with_branch ((pad[13] .^ pad[16] .^ pad[17]) % 7) (fun branch => [
    exec (pad[2] -= pad[9] - 0xe7e9ac84);
    exec (pad[7] &= seed + 0xd5e47036);
    exec (pad[7] ^= pad[18] .^ 0x5d5e7006);
    exec (seed += pad[6] .^ 0x16afd25f);
    exec (ROREQ pad[0] (pad[18] .| 0x1b));
    when (branch =? 4) [
      exec (mix_minor33);
      exec (ROLEQ pad[16] 12);
      exec (mix_minor39);
      call mix_major19 pad[17] ];
    exec (pad[1] *= pad[0] * 0x927384a);
    exec (seed ^= pad[6] * 0x2ac0b63c);
    exec (seed ^= pad[5] * 0xef44412);
    exec (seed -= (ROL pad[18] 22));
    when (branch =? 1) [
      exec (mix_minor37);
      exec (mix_minor23);
      exec (mix_minor35);
      call mix_major20 seed ];
    exec (pad[6] &= seed + 0x4d05da6a);
    exec (pad[13] *= pad[18] .^ 0xe2ba11c);
    exec (seed ^= pad[2] .^ 0x2e3d328f);
    exec (seed *= pad[1] .| 0x110c8a1);
    exec (ROLEQ pad[4] (ROR pad[6] 27));
    when (branch =? 0) [
      exec (pad[3] -= 0xab85f363);
      exec (mix_minor47);
      exec (ROLEQ pad[10] 12);
      call mix_major17 seed ];
    exec (pad[19] &= (ROR seed 8));
    exec (seed |= (ROR pad[19] 12));
    exec (seed += pad[14] * 0x2d8924b3);
    exec (pad[10] ^= pad[15] + 0xdcba6126);
    exec (seed += pad[16] .& 0xf72e29a);
    exec (pad[3] -= pad[18] .| 0x7614cfb);
    when (branch =? 6) [
      exec (mix_minor60);
      exec (pad[3] *= 0x23a0356c);
      exec (mix_minor33);
      call mix_major16 pad[9] ];
    exec (pad[19] &= pad[4] + 0xfe6ea18f);
    exec (pad[6] *= pad[7] .& 0x226185b2);
    exec (pad[0] += pad[4] .^ 0x35388017);
    exec (seed ^= pad[14] * 0x268d6eae);
    when (branch =? 3) [
      exec (pad[14] += 0x72559385);
      exec (pad[8] += 0xafa7ed31);
      exec (mix_minor26);
      call mix_major15 pad[0] ];
    exec (pad[15] += seed .^ 0xbf3b8c0);
    exec (ROREQ pad[10] (ROR pad[18] 25));
    exec (pad[19] |= seed .^ 0x61d2180);
    exec (pad[4] &= pad[19] + 0x588d79a3);
    when (branch =? 5) [
      exec (pad[11] += 0xa26a5e66);
      exec (pad[9] += 0xcdf889ea);
      exec (mix_minor69);
      call mix_major8 pad[8] ];
    exec (pad[0] += seed + 0x19039f88);
    exec (ROLEQ seed (ROR pad[7] 14));
    exec (pad[6] += pad[8] .^ 0x1f3dce4);
    exec (pad[17] *= pad[18] + 0x4f2cb877);
    exec (pad[6] &= pad[15] * 0x177f5d63);
    exec (ROLEQ pad[12] (ROL pad[16] 1));
    when (branch =? 2) [
      exec (mix_minor23);
      exec (mix_minor32);
      exec (pad[9] += 0xc3b96ef0);
      call mix_major12 pad[18] ];
    exec (pad[19] += pad[12] + 0xbe9fd027);
    exec (seed &= pad[2] * 0x3ec8c5cb);
    exec (pad[8] += pad[4] .& 0x48357b75);
    exec (ROLEQ pad[1] (pad[6] + 0x14));
    exec (pad[14] ^= pad[11] + 0x13c7dc0f);
    exec (pad[4] += (ROL seed 19));
    exec (pad[12] -= pad[2] - 0x15ea2e80);
    exec (pad[11] += pad[19] + 0xaff84c32);
    exec (pad[2] ^= pad[5] * 0x278991a8);
    exec (pad[14] += pad[2] + 0xf431b0d4) ]).

Definition mix_major6 : proc :=
  with_branch ((pad[3] .^ pad[5] .^ pad[18]) .& 7) (fun branch => [
    exec (pad[7] ^= pad[5] .^ 0x3610ff4);
    exec (pad[18] ^= (ROL pad[14] 19));
    exec (ROREQ pad[15] (pad[10] + 0xe));
    exec (seed ^= pad[1] + 0xa89a8207);
    exec (seed &= 0xecc2fa7d);
    when (branch =? 0) [
      exec (mix_minor54);
      exec (pad[4] *= 0x5141d713);
      exec (mix_minor62);
      call mix_major19 seed ];
    exec (pad[15] ^= pad[0] * 0x19dd786);
    exec (seed *= (ROL seed 12));
    exec (pad[17] &= seed .| 0x1249d1c);
    exec (pad[15] ^= pad[8] + 0x5e67551f);
    exec (seed += pad[0] * 0x320ea6ec);
    exec (seed ^= pad[19] + 0xee10c43d);
    when (branch =? 1) [
      exec (ROLEQ pad[19] 6);
      exec (pad[3] += 0x1600840);
      exec (mix_minor41);
      call mix_major20 pad[2] ];
    exec (ROREQ pad[15] (seed .^ 0x7));
    exec (pad[5] -= pad[14] * 0x54cc1685);
    exec (pad[12] -= seed - 0xf7d8f2fa);
    exec (pad[5] -= pad[10] - 0xf95da87e);
    exec (seed ^= (ROL pad[8] 18));
    when (branch =? 5) [
      exec (mix_minor53);
      exec (mix_minor23);
      exec (mix_minor60);
      call mix_major17 pad[16] ];
    exec (pad[19] += pad[2] .^ 0x4983faaa);
    exec (seed &= pad[6] .& 0x911ab6a);
    exec (pad[17] &= pad[2] + 0xfbb4acd7);
    exec (pad[5] += pad[13] + 0xf96465d3);
    exec (ROLEQ seed (pad[2] .| 0x19));
    exec (pad[9] += pad[2] .| 0x176f7fa2);
    when (branch =? 7) [
      exec (mix_minor53);
      exec (mix_minor67);
      exec (mix_minor38);
      call mix_major16 seed ];
    exec (ROREQ pad[4] (seed + 0x10));
    exec (seed |= pad[6] .^ 0x1ae616e0);
    exec (seed ^= pad[15] * 0x7f034);
    exec (ROREQ pad[14] (pad[2] + 0x3));
    when (branch =? 6) [
      exec (pad[14] -= 0xa630c9b5);
      exec (mix_minor33);
      exec (pad[8] -= 0xa8a2e592);
      call mix_major15 seed ];
    exec (pad[12] -= pad[10] .& 0x1311b0aa);
    exec (pad[14] ^= seed + 0xf5736e40);
    exec (pad[17] += (ROR pad[18] 15));
    exec (seed ^= pad[11] + 0x25e8d98c);
    exec (ROLEQ pad[0] (pad[14] .| 0x8));
    exec (pad[13] -= pad[3] .^ 0x2a68c40c);
    when (branch =? 3) [
      exec (mix_minor40);
      exec (pad[14] ^= 0x4e96c3d9);
      exec (pad[3] *= 0x7b9dddda);
      call mix_major8 pad[3] ];
    exec (pad[12] += (ROR seed 12));
    exec (ROLEQ pad[7] (pad[6] .& 0x9));
    exec (ROLEQ seed (seed * 0x4));
    exec (ROREQ seed (pad[16] .^ 0x4));
    exec (ROLEQ pad[6] (ROL pad[1] 11));
    when (branch =? 4) [
      exec (mix_minor31);
      exec (mix_minor31);
      exec (ROLEQ pad[16] 28);
      call mix_major12 pad[13] ];
    exec (pad[14] += (ROR pad[14] 9));
    exec (pad[3] *= pad[13] .& 0x24b1abab);
    exec (pad[3] -= pad[12] - 0x10decc67);
    exec (seed *= pad[15] .^ 0x194903b4);
    when (branch =? 2) [
      exec (mix_minor33);
      exec (mix_minor48);
      exec (mix_minor66);
      call mix_major18 pad[14] ];
    exec (pad[15] *= seed * 0x2ed0158e);
    exec (pad[14] += pad[3] + 0xc4d28c7c);
    exec (pad[11] -= pad[18] .^ 0x3e1bda7e);
    exec (pad[2] *= (ROL pad[13] 24)) ]).

Definition mix_major4 : proc :=
  with_branch ((pad[2] .^ pad[15] .^ seed) % 9) (fun branch => [
    exec (pad[14] += pad[15] + 0xd3892fe6);
    exec (pad[2] -= seed - 0xe600fde6);
    exec (pad[15] ^= pad[4] + 0x385e38e);
    exec (pad[18] |= seed + 0xc6189f52);
    when (branch =? 7) [
      exec (mix_minor43);
      exec (mix_minor24);
      exec (pad[3] += 0x9302800);
      call mix_major19 pad[1] ];
    exec (pad[11] &= pad[14] + 0x8f6f81a9);
    exec (ROLEQ pad[12] (ROR pad[6] 14));
    exec (seed -= (ROL pad[8] 14));
    exec (ROREQ pad[0] (ROR pad[11] 1));
    exec (pad[0] += pad[11] .^ 0x43cd4d14);
    when (branch =? 3) [
      exec (mix_minor22);
      exec (mix_minor48);
      exec (pad[4] *= 0x2a2e8718);
      call mix_major20 pad[14] ];
    exec (pad[3] -= pad[8] .^ 0x155c464);
    exec (pad[16] += pad[0] + 0xf8d647b6);
    exec (pad[2] ^= pad[4] .^ 0x11e3788d);
    when (branch =? 5) [
      exec (pad[5] += 0xc4115253);
      exec (mix_minor51);
      exec (mix_minor55);
      call mix_major17 pad[10] ];
    exec (seed |= (ROL seed 11));
    exec (pad[5] &= seed .^ 0x16984b90);
    exec (pad[16] += (ROR seed 29));
    exec (pad[0] += pad[15] + 0xc3e56f16);
    when (branch =? 2) [
      exec (mix_minor46);
      exec (ROLEQ pad[16] 7);
      exec (mix_minor40);
      call mix_major16 pad[1] ];
    exec (pad[5] &= pad[11] + 0xe57356e7);
    exec (pad[18] -= seed .^ 0x23f157f6);
    exec (seed -= pad[18] .& 0x155b7cc8);
    when (branch =? 1) [
      exec (mix_minor48);
      exec (pad[5] += 0x6d08d06);
      exec (mix_minor50);
      call mix_major15 seed ];
    exec (pad[8] |= pad[5] .| 0x21496d22);
    exec (seed -= pad[18] - 0x93b1543f);
    exec (pad[14] *= seed * 0x1db47609);
    exec (ROREQ pad[7] (pad[10] .^ 0x1a));
    exec (ROLEQ pad[7] (pad[18] + 0x1c));
    when (branch =? 0) [
      exec (mix_minor46);
      exec (ROLEQ pad[10] 4);
      exec (mix_minor59);
      call mix_major8 seed ];
    exec (pad[8] ^= (ROL pad[5] 3));
    exec (pad[6] ^= seed .^ 0x2c8ca15);
    exec (pad[13] += (ROL seed 13));
    when (branch =? 4) [
      exec (mix_minor61);
      exec (pad[3] *= 0x6c0de9fa);
      exec (mix_minor34);
      call mix_major12 pad[18] ];
    exec (pad[17] ^= pad[2] .& 0xa0962e5);
    exec (pad[3] *= seed .& 0xd505f52);
    exec (seed -= pad[15] .^ 0x15284f42);
    when (branch =? 8) [
      exec (mix_minor37);
      exec (mix_minor47);
      exec (pad[12] += 0x2108058);
      call mix_major18 pad[8] ];
    exec (pad[7] &= pad[2] + 0xf8df2963);
    exec (pad[6] *= seed * 0x256b9c9c);
    exec (pad[10] += pad[1] .| 0xda16d9b);
    exec (pad[9] *= pad[5] .^ 0x28b62e0c);
    when (branch =? 6) [
      exec (mix_minor35);
      exec (pad[14] ^= 0x8a0974b);
      exec (mix_minor37);
      call mix_major6 seed ];
    exec (pad[12] ^= pad[5] * 0x23779c9e);
    exec (pad[10] *= (ROR pad[19] 29));
    exec (pad[0] ^= pad[10] .^ 0x38a5f94);
    exec (seed += pad[15] + 0x1c82e95e);
    exec (ROLEQ pad[9] (pad[5] .^ 0x1d));
    exec (pad[12] += seed + 0xc0e4fa7d);
    exec (pad[17] ^= pad[7] .^ 0x141bbf98);
    exec (pad[9] ^= (ROR pad[18] 6));
    exec (pad[4] -= pad[13] .& 0x2373fe39);
    exec (pad[19] += (ROL seed 15)) ]).

Definition mix_major11 : proc :=
  with_branch ((pad[3] .^ pad[11] .^ pad[17]) % 10) (fun branch => [
    exec (pad[15] -= pad[0] .& 0x201c33b4);
    exec (pad[9] &= pad[4] .^ 0x4b5700f);
    exec (pad[14] *= seed - (pad[15] .| 0x1f564f3c) + 0xfe30d470);
    when (branch =? 2) [
      exec (mix_minor58);
      exec (pad[1] &= 0xdc0e2e53);
      exec (mix_minor65);
      call mix_major19 pad[1] ];
    exec (pad[3] ^= (ROL pad[7] 28));
    exec (seed ::= 0xb2363254);
    exec (pad[17] += 0x503fc4de);
    exec (pad[18] += pad[1] * 0xf14c9c);
    when (branch =? 6) [
      exec (mix_minor21);
      exec (mix_minor28);
      exec (mix_minor54);
      call mix_major20 pad[5] ];
    exec (pad[3] *= pad[0] + 0xaf4b1f37);
    exec (pad[11] *= pad[11] + 0x1d1cbc4e);
    exec (pad[13] ^= pad[1] + 0xf6c6f628);
    exec (pad[17] ^= pad[3] + 0x7f863fa);
    when (branch =? 4) [
      exec (pad[3] -= 0x7d6e042a);
      exec (mix_minor31);
      exec (pad[12] += 0x2048070);
      call mix_major17 seed ];
    exec (pad[11] += pad[4] .| 0x3b62a700);
    exec (pad[19] ^= 0xf3c3d3f0);
    exec (ROREQ seed (pad[10] + 0xe));
    exec (pad[16] |= (ROR pad[16] 10));
    exec (pad[7] *= pad[11] * 0x5053948);
    when (branch =? 3) [
      exec (mix_minor58);
      exec (pad[3] *= 0x34797b50);
      exec (mix_minor69);
      call mix_major16 pad[4] ];
    exec (pad[1] &= seed * 0x377e5649);
    exec (pad[18] += pad[2] .| 0x57a0b91);
    exec (ROLEQ pad[7] (seed + 0x7));
    exec (pad[4] -= (ROL pad[7] 2));
    when (branch =? 0) [
      exec (pad[1] &= 0x49102e08);
      exec (pad[12] += 0x20e0400);
      exec (mix_minor56);
      call mix_major15 pad[18] ];
    exec (seed *= seed + 0xfea6f980);
    exec (pad[18] += pad[2] * 0x33aaef75);
    exec (pad[2] ^= pad[12] + 0xda4bd31e);
    exec (seed -= pad[6] .| 0x107e370);
    exec (pad[17] -= seed - 0x191504c);
    when (branch =? 9) [
      exec (mix_minor48);
      exec (pad[4] ^= 0xccc8d5fc);
      exec (mix_minor41);
      call mix_major8 pad[14] ];
    exec (pad[3] += (ROL pad[15] 7));
    exec (pad[12] -= pad[10] - 0x18afd3db);
    exec (pad[5] += pad[12] + 0x1392be9b);
    exec (pad[5] -= pad[3] .^ 0xfd205d5);
    exec (pad[8] ^= seed .^ 0x9000ce9);
    when (branch =? 5) [
      exec (mix_minor51);
      exec (mix_minor24);
      exec (mix_minor32);
      call mix_major12 pad[19] ];
    exec (ROREQ pad[19] (seed + 0x19));
    exec (ROREQ pad[11] (pad[19] * 0x10));
    exec (seed ^= pad[12] .^ 0x534576d7);
    exec (ROLEQ pad[11] (pad[1] .^ 0x15));
    exec (pad[19] += pad[9] * 0x12af9c5);
    when (branch =? 8) [
      exec (mix_minor42);
      exec (mix_minor60);
      call mix_major18 pad[0] ];
    exec (ROLEQ pad[10] (seed * 0x14));
    exec (pad[1] -= (ROL pad[14] 19));
    exec (seed |= pad[16] + 0xed222733);
    exec (pad[16] &= pad[3] * 0x532f53a);
    exec (seed ^= pad[11] * 0x14718f9a);
    when (branch =? 1) [
      exec (mix_minor49);
      exec (mix_minor63);
      exec (pad[1] &= 0xc2c9d439);
      call mix_major6 pad[13] ];
    exec (pad[3] *= seed .| 0x1739a522);
    exec (seed *= pad[1] .| 0x4b09e3e);
    exec (pad[7] ^= pad[12] .^ 0x2a4ea48a);
    when (branch =? 7) [
      exec (mix_minor35);
      exec (mix_minor35);
      exec (pad[4] *= 0x9b2bcf2e);
      call mix_major4 seed ];
    exec (pad[19] -= seed - 0x1dc54aa) ]).

Definition mix_major22 : proc :=
  with_branch (seed % 11) (fun branch => [
    exec (pad[12] += seed .^ 0xc3115e);
    exec (pad[19] -= seed - 0x4f9d3712);
    exec (pad[16] &= pad[11] * 0x37e68d12);
    when (branch =? 1) [
      exec (mix_minor57);
      exec (pad[4] *= 0x6f2b88b5);
      call mix_major19 pad[7] ];
    exec (seed -= pad[18] .^ 0x4ea934da);
    exec (pad[1] &= pad[18] .^ 0x18a1ba1a);
    when (branch =? 0) [
      exec (pad[3] += 0x9302840);
      exec (pad[8] += 0x91520abe);
      exec (mix_minor37);
      call mix_major20 seed ];
    exec (pad[18] += pad[17] * 0x3bf23dc7);
    exec (pad[12] += pad[5] .^ 0x3537eae2);
    exec (pad[9] += pad[5] + 0xf4d4e1ee);
    exec (pad[11] -= (ROL pad[16] 22));
    when (branch =? 2) [
      exec (mix_minor67);
      exec (mix_minor67);
      exec (mix_minor37);
      call mix_major17 pad[16] ];
    exec (ROLEQ pad[17] pad[1]);
    exec (seed |= (ROR pad[5] 1));
    exec (pad[11] += seed + 0xf0871714);
    when (branch =? 3) [
      exec (mix_minor35);
      exec (mix_minor65);
      exec (pad[8] -= 0x265c0434);
      call mix_major16 pad[18] ];
    exec (seed &= 0x1b54f10);
    exec (pad[15] += pad[1] + 0xe9b29695);
    exec (pad[9] ^= pad[19] + 0xf9850900);
    when (branch =? 8) [
      exec (ROLEQ pad[10] 1);
      exec (pad[4] *= 0xb27c0ecb);
      exec (mix_minor61);
      call mix_major15 pad[11] ];
    exec (pad[0] += pad[6] + 0x224785);
    exec (pad[1] -= pad[9] * 0x602a9ff);
    when (branch =? 4) [
      exec (mix_minor53);
      exec (pad[3] += 0x9702000);
      exec (mix_minor26);
      call mix_major8 pad[10] ];
    exec (pad[14] += (ROL pad[5] 30));
    exec (pad[8] -= pad[12] * 0x223c8eff);
    exec (pad[3] += pad[11] * 0xc99e9b5);
    when (branch =? 7) [
      exec (mix_minor57);
      exec (mix_minor45);
      exec (mix_minor49);
      call mix_major12 pad[13] ];
    exec (seed *= pad[3] .^ 0xf8e252d);
    exec (pad[12] += seed .& 0xa58c765);
    when (branch =? 10) [
      exec (mix_minor39);
      exec (pad[14] ^= 0x4dfb7ee4);
      exec (mix_minor61);
      call mix_major18 pad[13] ];
    exec (pad[11] -= pad[3] .^ 0x59507436);
    exec (pad[10] ^= seed .^ 0x1082cbd7);
    when (branch =? 9) [
      exec (mix_minor50);
      exec (mix_minor53);
      exec (ROLEQ pad[10] 6);
      call mix_major6 pad[3] ];
    exec (ROREQ pad[8] (seed + 0x1));
    exec (pad[17] ^= pad[15] * 0x1627a9f4);
    when (branch =? 6) [
      exec (pad[0] += 0xc3649533);
      exec (mix_minor30);
      exec (mix_minor41);
      call mix_major4 seed ];
    exec (seed *= (ROL pad[11] 21));
    exec (pad[3] ^= pad[11] + 0x27d2e810);
    exec (pad[3] += pad[16] * 0x2bb9259f);
    when (branch =? 5) [
      exec (mix_minor40);
      exec (mix_minor63);
      exec (mix_minor61);
      call mix_major11 seed ];
    exec (pad[19] ^= pad[17] .^ 0x2b7f6e80);
    exec (pad[7] ^= (ROL pad[0] 24));
    exec (pad[4] ^= seed .| 0x334e9536);
    exec (pad[11] -= (ROL seed 19));
    exec (pad[12] ^= seed + 0xf8e5b64c);
    exec (pad[11] += pad[4] + 0x661bc871);
    exec (ROREQ pad[19] (pad[0] .& 0x9));
    exec (pad[15] += seed .& 0x7b85306);
    exec (pad[7] -= pad[12] - 0x1394a239);
    exec (pad[17] ^= pad[3] + 0x4d2d2d3c);
    exec (pad[12] -= pad[6] .& 0x312a10);
    exec (pad[13] |= pad[19] + 0xba345c89);
    exec (pad[13] *= seed + 0x2098c7b4);
    exec (pad[6] &= (ROL pad[10] 22));
    exec (pad[6] -= pad[12] .& 0x13175e3d) ]).

Definition mix_major5 : proc :=
  with_branch (pad[18] % 11) (fun branch => [
    exec (pad[5] |= pad[17] * 0x2e7a089);
    exec (pad[3] ^= pad[13] + 0x1fef7de0);
    exec (seed -= pad[16] .^ 0x8338b85);
    when (branch =? 0) [
      exec (pad[3] += 0x1000800);
      exec (pad[3] += 0x9102040);
      exec (mix_minor30);
      call mix_major20 pad[11] ];
    exec (seed *= 0x1cd19bfb);
    exec (pad[3] *= pad[12] + 0x15bdbb56);
    exec (pad[11] ^= seed + 0x374580a7);
    exec (pad[10] += seed .| 0x86941f3);
    when (branch =? 4) [
      exec (mix_minor32);
      exec (ROLEQ pad[10] 25);
      exec (mix_minor50);
      call mix_major17 pad[18] ];
    exec (pad[6] -= pad[16] .^ 0x11119dd6);
    exec (pad[13] += pad[18] + 0xcb82c76c);
    exec (pad[8] -= pad[1] .^ 0x3b98ae58);
    when (branch =? 9) [
      exec (mix_minor42);
      exec (mix_minor64);
      exec (mix_minor21);
      call mix_major16 pad[1] ];
    exec (pad[17] ^= pad[17] + 0xcfd5283);
    exec (pad[5] &= pad[13] + 0x539ef62);
    exec (pad[11] &= pad[14] .^ 0x639b87fe);
    when (branch =? 8) [
      exec (mix_minor22);
      exec (mix_minor59);
      exec (pad[14] += 0x73204792);
      call mix_major15 pad[18] ];
    exec (pad[12] -= seed .| 0x369e02e);
    exec (pad[6] *= pad[12] + 0xf0544c52);
    exec (seed += pad[5] + 0x8dcb06);
    exec (pad[12] -= seed .& 0x632ffca);
    when (branch =? 3) [
      exec (pad[5] += 0xc6ac8583);
      exec (mix_minor41);
      exec (pad[3] += 0x9004000);
      call mix_major8 pad[17] ];
    exec (pad[16] -= pad[6] * 0x345114ef);
    exec (ROREQ pad[10] (pad[11] * 0x10));
    exec (pad[0] += pad[4] .& 0x18b74e25);
    when (branch =? 7) [
      exec (pad[12] += 0x1a);
      exec (mix_minor53);
      exec (mix_minor47);
      call mix_major12 pad[15] ];
    exec (pad[2] -= pad[2] .^ 0x18f1b56);
    exec (ROLEQ pad[19] (pad[13] + 0x6));
    when (branch =? 6) [
      exec (pad[3] *= 0x27d3a148);
      exec (pad[4] *= 0xa24016a8);
      exec (pad[14] -= 0x3a2c78cf);
      call mix_major18 seed ];
    exec (ROREQ seed (pad[7] + 0x16));
    exec (ROLEQ seed (pad[14] + 0x11));
    when (branch =? 5) [
      exec (pad[3] *= 0x3713ed22);
      exec (mix_minor29);
      exec (mix_minor59);
      call mix_major6 pad[7] ];
    exec (seed -= pad[10] - 0xd26e6435);
    exec (ROLEQ pad[8] (pad[13] .^ 0x15));
    exec (pad[1] += pad[10] .^ 0x1da5a5e2);
    when (branch =? 2) [
      exec (mix_minor45);
      exec (mix_minor55);
      exec (ROLEQ pad[16] 13);
      call mix_major4 pad[10] ];
    exec (pad[7] |= seed * 0x1665683f);
    exec (pad[6] += pad[17] + 0xd3198985);
    exec (seed &= pad[1] * 0xb2490cd);
    when (branch =? 1) [
      exec (mix_minor50);
      exec (mix_minor45);
      exec (pad[8] += 0x749a003b);
      call mix_major11 pad[6] ];
    exec (pad[13] -= pad[3] .^ 0x49caa386);
    exec (pad[5] -= pad[7] - 0xca44ad);
    exec (seed += pad[14] .| 0xce2b27d);
    when (branch =? 10) [
      exec (mix_minor33);
      exec (mix_minor22);
      exec (pad[8] -= 0x7a3a25c3);
      call mix_major22 pad[11] ];
    exec (pad[15] += pad[6] + 0x9f72b74b);
    exec (pad[16] -= pad[3] - 0xaa1914c0);
    exec (seed -= (ROL seed 18));
    exec (pad[14] ^= pad[9] .^ 0x7a9f2d9);
    exec (pad[19] &= (ROL pad[3] 10));
    exec (seed *= pad[15] * 0xd49e9d9);
    exec (pad[4] += pad[2] .^ 0xc52d715);
    exec (pad[15] *= pad[11] * 0x300c07b6);
    exec (pad[4] ^= seed * 0x59c5268);
    exec (pad[7] -= seed - 0xf1ae26ce) ]).

Definition mix_major3 : proc :=
  with_branch ((pad[10] .^ pad[16] .^ seed) % 11) (fun branch => [
    exec (pad[12] *= pad[3] .& 0x19997dc0);
    exec (seed |= pad[0] + 0xd31e211);
    exec (pad[14] -= pad[0] - 0x7cfa160);
    when (branch =? 10) [
      exec (mix_minor48);
      exec (mix_minor46);
      exec (pad[14] -= 0x7f80fb4a);
      call mix_major17 pad[2] ];
    exec (pad[13] ::= (ROR pad[13] (seed + 0x6)));
    exec (pad[3] *= pad[12] + 0xfd1d773c);
    when (branch =? 3) [
      exec (mix_minor37);
      exec (mix_minor39);
      exec (pad[17] ^= 0x1d4f264d);
      call mix_major16 pad[12] ];
    exec (seed |= seed + 0xd10c7a44);
    exec (seed += pad[0] + 0xf3754e81);
    exec (seed ^= pad[16] .^ 0x21d2a427);
    when (branch =? 1) [
      exec (mix_minor38);
      exec (pad[12] += 0x208846a);
      exec (mix_minor31);
      call mix_major15 pad[11] ];
    exec (pad[16] |= pad[4] .| 0x599c0b2);
    exec (ROLEQ seed (pad[0] + 0x1d));
    exec (pad[3] &= pad[6] .^ 0x1d86d59a);
    exec (pad[0] ^= pad[10] .^ 0x22d79e78);
    when (branch =? 9) [
      exec (mix_minor45);
      exec (ROLEQ pad[16] 14);
      exec (mix_minor45);
      call mix_major8 pad[16] ];
    exec (ROLEQ pad[15] (pad[9] + 0x2));
    exec (seed += (ROL seed 13) + (pad[4] .^ 0x17568f8b));
    exec (pad[3] -= pad[9] .^ 0x1b7d211b);
    when (branch =? 7) [
      exec (mix_minor35);
      exec (pad[14] ^= 0x7adc7a3f);
      exec (mix_minor64);
      call mix_major12 seed ];
    exec (pad[14] *= pad[10] .^ 0x25da4024);
    exec (pad[3] += pad[19] .^ 0x195596e2);
    when (branch =? 8) [
      exec (mix_minor37);
      exec (mix_minor60);
      exec (pad[8] -= 0x75c7234e);
      call mix_major18 seed ];
    exec (pad[3] ^= (ROR pad[4] 11));
    exec (pad[19] ^= pad[2] .& 0x142c74fa);
    exec (pad[7] ::= 0x3de4cf2b);
    exec (seed ^= pad[5] * 0x1195dbf3);
    when (branch =? 5) [
      exec (mix_minor51);
      exec (mix_minor51);
      exec (mix_minor28);
      call mix_major6 pad[9] ];
    exec (pad[12] *= pad[14] * 0x25bf72d4);
    exec (seed += (ROL pad[11] 2));
    when (branch =? 0) [
      exec (mix_minor28);
      exec (mix_minor20);
      exec (mix_minor41);
      call mix_major4 seed ];
    exec (pad[7] += seed + 0xfbd89057);
    exec (pad[12] -= seed - 0xfec898a3);
    exec (seed *= seed + 0xe6d9d0ce);
    exec (pad[2] *= pad[0] * 0x25d5927e);
    when (branch =? 6) [
      exec (mix_minor41);
      exec (mix_minor35);
      exec (pad[0] += 0x8a388c73);
      call mix_major11 pad[3] ];
    exec (seed -= seed .^ 0x7951f14a);
    exec (seed *= pad[19] .^ 0x159fa550);
    exec (pad[9] -= seed * 0x1b0d12a6);
    when (branch =? 4) [
      exec (mix_minor58);
      exec (mix_minor26);
      exec (mix_minor26);
      call mix_major22 seed ];
    exec (pad[12] += pad[4] .| 0xf2ff1db);
    exec (pad[12] ^= pad[2] .& 0xac8676c);
    exec (pad[7] -= seed * 0x1a41598b);
    exec (pad[17] *= pad[14] .& 0x36ff2c0);
    when (branch =? 2) [
      exec (mix_minor60);
      exec (mix_minor67);
      exec (mix_minor44);
      call mix_major5 pad[11] ];
    exec (pad[19] ^= pad[11] + 0xe311654d);
    exec (pad[18] ^= pad[16] * 0x1267cd78);
    exec (pad[16] &= seed .^ 0x1c8b2015);
    exec (pad[16] *= pad[16] .| 0xc26f29a);
    exec (pad[14] &= pad[10] + 0xcec46d19);
    exec (pad[8] -= pad[8] .^ 0xc03874d) ]).

Definition mix_major14 : proc :=
  with_branch ((pad[6] .^ pad[8] .^ pad[15]) % 11) (fun branch => [
    exec (pad[14] &= seed .^ 0x1c0b5143);
    exec (pad[17] *= pad[5] + 0x4ef38b53);
    exec (pad[15] ^= (ROR pad[16] 8));
    when (branch =? 4) [
      exec (pad[4] ^= 0x82254dc0);
      exec (mix_minor36);
      exec (mix_minor47);
      call mix_major16 pad[10] ];
    exec (seed ^= pad[17] .& 0x3b118c17);
    exec (ROREQ seed (pad[7] * 0xb));
    exec (pad[5] -= (ROR pad[12] 5));
    when (branch =? 10) [
      exec (pad[14] -= 0x7b59f866);
      exec (pad[3] -= 0x6bfee72c);
      exec (pad[3] += 0x1704040);
      call mix_major15 seed ];
    exec (seed ^= pad[10] + 0xe81a232b);
    exec (pad[18] |= pad[2] + 0xef9e8d77);
    exec (pad[3] += pad[4] + 0xce3d3234);
    when (branch =? 5) [
      exec (mix_minor27);
      exec (mix_minor38);
      exec (mix_minor20);
      call mix_major8 pad[0] ];
    exec (seed *= (ROR seed 15));
    exec (seed &= pad[7] + 0x358107b);
    exec (pad[12] += (ROL pad[3] 20));
    when (branch =? 3) [
      exec (mix_minor20);
      exec (pad[17] ^= 0xde7b4629);
      exec (pad[4] ^= 0x5cfc1b41);
      call mix_major12 seed ];
    exec (seed += seed + 0xddcb6fb3);
    exec (seed ^= pad[4] * 0x2a5c35ea);
    exec (pad[4] -= pad[3] - 0x3b4034a1);
    exec (pad[11] &= pad[19] .| 0x2856103);
    when (branch =? 1) [
      exec (mix_minor21);
      exec (mix_minor56);
      exec (mix_minor25);
      call mix_major18 pad[16] ];
    exec (pad[7] |= seed + 0x2d3d686);
    exec (seed &= pad[15] .& 0x316de5b2);
    when (branch =? 7) [
      exec (mix_minor20);
      exec (mix_minor33);
      exec (pad[14] ^= 0x1e127778);
      call mix_major6 pad[15] ];
    exec (seed ^= pad[17] .^ 0x3e8999a9);
    exec (seed += seed + 0x4d77c09e);
    exec (pad[6] *= pad[10] + 0xd1650ad7);
    exec (pad[7] *= pad[3] .& 0xade0835);
    when (branch =? 0) [
      exec (mix_minor26);
      exec (mix_minor28);
      exec (mix_minor67);
      call mix_major4 pad[3] ];
    exec (pad[9] -= pad[15] .^ 0x32bd1767);
    exec (pad[12] ^= pad[3] + 0x74289e8a);
    exec (pad[9] ^= pad[5] + 0xd55d1b86);
    exec (seed &= pad[12] * 0x13b7b134);
    when (branch =? 8) [
      exec (mix_minor35);
      exec (mix_minor30);
      exec (mix_minor21);
      call mix_major11 pad[2] ];
    exec (seed += seed + 0xda1b9ad7);
    exec (pad[6] -= pad[18] * 0x452ad09);
    exec (pad[4] += seed .^ 0x4895c9e2);
    when (branch =? 9) [
      exec (mix_minor49);
      exec (mix_minor49);
      exec (mix_minor46);
      call mix_major22 pad[16] ];
    exec (seed ^= seed + 0xf8ecf928);
    exec (ROREQ pad[18] (pad[5] + 0xd));
    when (branch =? 6) [
      exec (mix_minor55);
      exec (mix_minor69);
      exec (mix_minor67);
      call mix_major5 pad[8] ];
    exec (seed *= 0x34b70af0);
    exec (pad[5] -= (ROL pad[19] 23));
    when (branch =? 2) [
      exec (mix_minor46);
      exec (mix_minor47);
      exec (mix_minor47);
      call mix_major3 pad[18] ];
    exec (pad[8] *= (ROR pad[5] 2));
    exec (pad[17] += pad[8] .& 0x15595f);
    exec (ROREQ pad[19] (pad[7] + 0x1));
    exec (pad[9] -= seed * 0x539f549);
    exec (pad[0] *= pad[8] .^ 0x10549d01);
    exec (pad[11] -= pad[4] .^ 0x1cd38676);
    exec (pad[12] += (ROR seed 16));
    exec (pad[17] ^= pad[15] + 0x266b587);
    exec (pad[17] -= (ROR pad[0] 29));
    exec (pad[3] -= pad[13] - 0x2669d0a1) ]).

Definition mix_major9 : proc :=
  with_branch ((pad[1] .^ pad[15] .^ pad[19]) % 11) (fun branch => [
    exec (pad[19] |= pad[18] + 0xe56713bc);
    exec (pad[12] |= pad[8] + 0xefc639fe);
    when (branch =? 2) [
      exec (mix_minor40);
      exec (mix_minor26);
      exec (mix_minor65);
      call mix_major15 seed ];
    exec (pad[4] ^= pad[18] + 0xf20ff41d);
    exec (ROLEQ seed (seed + 0xb));
    when (branch =? 5) [
      exec (mix_minor28);
      exec (mix_minor35);
      exec (ROLEQ pad[19] 20);
      call mix_major8 seed ];
    exec (pad[2] ^= (ROR seed 1));
    exec (pad[10] *= seed + 0x3842b736);
    when (branch =? 4) [
      exec (mix_minor21);
      exec (mix_minor28);
      exec (pad[3] -= 0x524e81e6);
      call mix_major12 pad[13] ];
    exec (pad[5] ^= pad[4] .^ 0x224deca3);
    exec (pad[9] += pad[15] .& 0xe43bfd6);
    exec (pad[12] += pad[18] .| 0x24e2f424);
    when (branch =? 1) [
      exec (mix_minor43);
      exec (pad[8] += 0x6afab397);
      exec (pad[11] += 0x573a6da7);
      call mix_major18 pad[0] ];
    exec (pad[11] *= pad[10] + 0xf0b1e409);
    exec (pad[9] *= pad[5] + 0x13bcdf0b);
    exec (pad[5] += 0x2961fc0);
    exec (pad[6] *= pad[11] + 0xe91b219c);
    when (branch =? 7) [
      exec (mix_minor29);
      exec (mix_minor41);
      exec (mix_minor28);
      call mix_major6 0xefc5f81f ];
    exec (pad[1] *= pad[1] + 0xff4abdb4);
    exec (seed ::= 0x6f850fff);
    exec (pad[13] += (ROR pad[10] 27));
    exec (pad[10] += pad[3] + 0xea05fa03);
    when (branch =? 10) [
      exec (mix_minor24);
      exec (mix_minor31);
      exec (ROLEQ pad[16] 20);
      call mix_major4 seed ];
    exec (pad[19] ::= pad[19] + 0xe8b6d37d - pad[2]);
    exec (seed ^= pad[12] * 0xa95c314);
    when (branch =? 8) [
      exec (mix_minor64);
      exec (pad[4] ^= 0xa54ee16);
      exec (mix_minor54);
      call mix_major11 pad[11] ];
    exec (seed += pad[11] .& 0x346472bf);
    exec (seed &= pad[15] * 0xbeb977c);
    exec (seed += pad[2] .^ 0x33dd726a);
    exec (pad[19] &= seed .^ 0x13220e);
    when (branch =? 6) [
      exec (mix_minor63);
      exec (mix_minor54);
      exec (mix_minor43);
      call mix_major22 pad[2] ];
    exec (seed *= seed + 0x13a371f7);
    exec (ROLEQ pad[0] (seed * 0x2));
    exec (ROLEQ seed (pad[15] * 0xf));
    exec (pad[12] += pad[11] .| 0x15477725);
    when (branch =? 3) [
      exec (mix_minor56);
      exec (pad[14] ^= 0x66bd03a9);
      exec (mix_minor55);
      call mix_major5 pad[9] ];
    exec (pad[16] += pad[8] + 0xb2878320);
    exec (pad[0] += pad[11] * 0x128142d3);
    exec (ROREQ pad[13] (seed + 0x9));
    when (branch =? 0) [
      exec (mix_minor33);
      exec (mix_minor69);
      exec (mix_minor58);
      call mix_major3 pad[17] ];
    exec (ROREQ pad[13] (pad[4] + 0x1a));
    exec (seed |= seed + 0xb401ddcd);
    exec (ROREQ seed (pad[16] + 0x17));
    exec (seed += pad[11] .^ 0x14302fce);
    when (branch =? 9) [
      exec (mix_minor30);
      exec (mix_minor47);
      exec (pad[14] -= 0x979badcc);
      call mix_major14 pad[17] ];
    exec (pad[7] += pad[2] .& 0x2104615d);
    exec (pad[6] |= (ROL pad[4] 21));
    exec (pad[16] -= seed * 0x144af0fa);
    exec (seed ^= pad[9] * 0x1d7178c2);
    exec (seed *= 0x3564b1fd);
    exec (pad[16] -= (ROR seed 11));
    exec (pad[8] ^= pad[19] * 0x383ae479);
    exec (pad[11] += seed + 0xc4759a85);
    exec (pad[9] ^= pad[11] + 0x35e01882);
    exec (pad[10] &= pad[0] .^ 0x105d6dd1) ]).

Definition mix_major10 : proc :=
  with_branch (pad[5] % 11) (fun branch => [
    exec (pad[17] ^= seed + 0x2277a712);
    exec (pad[19] *= pad[8] + 0xe6c6654e);
    exec (ROREQ pad[6] (pad[1] .^ 0x1b));
    when (branch =? 3) [
      exec (pad[8] += 0x8c1d03c3);
      exec (pad[4] ^= 0x112c3767);
      exec (mix_minor43);
      call mix_major8 pad[1] ];
    exec (pad[0] *= seed + 0x22e5f53d);
    exec (pad[6] -= pad[14] - 0xf7f0c308);
    when (branch =? 6) [
      exec (pad[1] &= 0x548aed34);
      exec (mix_minor33);
      exec (mix_minor28);
      call mix_major12 pad[2] ];
    exec (seed += pad[9] + 0xafa2e81);
    exec (pad[15] *= pad[17] + 0xfd2839c0);
    exec (pad[14] -= pad[6] - 0x30bd8dc6);
    exec (pad[2] += pad[7] .^ 0x1edb75c4);
    when (branch =? 4) [
      exec (mix_minor67);
      exec (mix_minor49);
      exec (mix_minor29);
      call mix_major18 seed ];
    exec (pad[2] ::= 0x2cfa7327);
    exec (pad[7] -= pad[8] - 0xf2bf5a7);
    exec (ROREQ pad[11] (pad[6] .| 0x15));
    exec (pad[2] ^= (ROL pad[10] 24));
    when (branch =? 2) [
      exec (ROLEQ pad[19] 19);
      exec (mix_minor41);
      exec (mix_minor26);
      call mix_major6 seed ];
    exec (pad[16] ^= (ROL pad[5] 29));
    exec (ROLEQ pad[8] (ROL pad[8] 19));
    when (branch =? 0) [
      exec (pad[8] += 0xabc0d876);
      exec (pad[1] &= 0x2002d891);
      exec (mix_minor51);
      call mix_major4 seed ];
    exec (pad[13] *= seed .& 0x9aee05b);
    exec (ROLEQ pad[18] (pad[0] + 0x9));
    when (branch =? 5) [
      exec (mix_minor37);
      exec (mix_minor52);
      exec (mix_minor65);
      call mix_major11 pad[5] ];
    exec (pad[16] += seed + 0x15c7f2a);
    exec (pad[0] += pad[8] .| 0xc568bd);
    exec (seed += (ROR pad[11] 25));
    when (branch =? 10) [
      exec (mix_minor29);
      exec (pad[14] += 0x7bef2ee1);
      exec (mix_minor55);
      call mix_major22 seed ];
    exec (pad[11] &= pad[0] .| 0x3c992378);
    exec (seed ^= pad[2] .^ 0x1ebdf827);
    exec (seed ^= pad[16] .& 0x1a8092b);
    exec (pad[4] ^= pad[2] + 0xf6a7c14d);
    when (branch =? 7) [
      exec (pad[3] += 0x706840);
      exec (pad[3] += 0x1400840);
      exec (mix_minor68);
      call mix_major5 pad[5] ];
    exec (seed |= pad[1] + 0xbd4eb37a);
    exec (seed *= pad[15] .^ 0xe476c17);
    when (branch =? 9) [
      exec (mix_minor41);
      exec (pad[14] += 0x52aaba85);
      exec (mix_minor68);
      call mix_major3 pad[19] ];
    exec (pad[0] -= pad[4] .& 0x55d63dde);
    exec (pad[14] += pad[19] + 0xfa050d42);
    exec (pad[12] &= pad[0] + 0x9ff4339);
    exec (pad[15] ^= pad[12] + 0xccdc186);
    when (branch =? 8) [
      exec (mix_minor25);
      exec (mix_minor31);
      exec (mix_minor43);
      call mix_major14 pad[12] ];
    exec (ROREQ pad[10] (pad[11] + 0x1b));
    exec (pad[5] ^= pad[15] + 0x130fea4);
    exec (seed ^= pad[19] + 0xdf1438e7);
    when (branch =? 1) [
      exec (mix_minor20);
      exec (mix_minor54);
      exec (mix_minor35);
      call mix_major9 seed ];
    exec (pad[11] += pad[3] .^ 0x30f43d2);
    exec (pad[13] -= pad[16] * 0x485950f);
    exec (pad[15] *= pad[1] + 0xa295d0d);
    exec (seed ^= pad[0] * 0x68f4b257);
    exec (pad[12] &= pad[8] + 0xe49d7359);
    exec (pad[7] -= pad[2] * 0x16a7a0b6);
    exec (seed &= pad[13] + 0x18727e9f);
    exec (pad[14] &= (ROL seed 3));
    exec (pad[19] -= pad[6] .^ 0x13892cf5) ]).

Definition mix_major2 : proc :=
  with_branch (pad[9] % 11) (fun branch => [
    exec (pad[0] |= seed .| 0x4d9f89df);
    exec (seed -= seed .& 0x10691818);
    exec (pad[15] &= (ROR pad[15] 18));
    when (branch =? 2) [
      exec (mix_minor63);
      exec (mix_minor62);
      exec (mix_minor43);
      call mix_major12 pad[9] ];
    exec (seed |= pad[7] .^ 0x1f11181f);
    exec (ROREQ pad[17] (pad[18] + 0x18));
    exec (pad[3] &= pad[18] + 0xc18379a4);
    exec (pad[8] += pad[2] + 0x8845990);
    when (branch =? 8) [
      exec (ROLEQ pad[10] 6);
      exec (mix_minor64);
      exec (mix_minor69);
      call mix_major18 seed ];
    exec (seed *= (ROL pad[7] 30));
    exec (ROREQ pad[14] (seed .^ 0x1));
    exec (pad[3] -= pad[3] .^ 0x1a11c1c);
    when (branch =? 3) [
      exec (mix_minor48);
      exec (pad[3] -= 0x833e3d40);
      exec (mix_minor61);
      call mix_major6 seed ];
    exec (pad[5] += seed + 0xbdf50793);
    exec (seed -= pad[6] .^ 0x341c6ce5);
    exec (seed ^= pad[14] .| 0x11712ba);
    exec (pad[4] -= seed - 0x1df0f08c);
    when (branch =? 4) [
      exec (mix_minor44);
      exec (mix_minor41);
      exec (mix_minor64);
      call mix_major4 pad[2] ];
    exec (seed *= pad[15] + 0xd8a810b1);
    exec (pad[0] -= pad[7] - 0x8e4e3c5);
    exec (pad[9] -= seed .^ 0x13f1a8da);
    when (branch =? 7) [
      exec (mix_minor20);
      exec (mix_minor47);
      exec (mix_minor57);
      call mix_major11 pad[12] ];
    exec (pad[14] ^= seed + 0xf2dd8a98);
    exec (pad[14] |= pad[3] .& 0xb51383c);
    when (branch =? 1) [
      exec (mix_minor36);
      exec (mix_minor27);
      exec (mix_minor47);
      call mix_major22 pad[9] ];
    exec (pad[0] -= pad[2] - 0x16bda446);
    exec (pad[2] -= pad[0] .^ 0x3576dfb9);
    when (branch =? 9) [
      exec (mix_minor26);
      exec (mix_minor32);
      exec (mix_minor49);
      call mix_major5 pad[9] ];
    exec (pad[5] -= pad[6] .| 0x1720cf3);
    exec (pad[16] ^= pad[19] .^ 0x2dfed60);
    exec (seed *= pad[12] + 0xffcf5d22);
    exec (seed += pad[11] .^ 0x26b4296);
    when (branch =? 6) [
      exec (mix_minor55);
      exec (ROLEQ pad[19] 15);
      exec (ROLEQ pad[10] 26);
      call mix_major3 seed ];
    exec (ROREQ seed (ROL seed 11));
    exec (seed -= (ROL pad[17] 25));
    exec (pad[4] += pad[3] .^ 0x125c14db);
    when (branch =? 0) [
      exec (pad[14] += 0x7de14a07);
      exec (pad[4] *= 0x13ca26ac);
      exec (mix_minor41);
      call mix_major14 pad[9] ];
    exec (pad[9] |= (ROR pad[15] 31));
    exec (seed -= pad[19] - 0xfde54451);
    exec (ROREQ pad[9] (pad[11] .| 0x3));
    exec (pad[18] ^= seed .^ 0x22da8ee3);
    when (branch =? 10) [
      exec (mix_minor46);
      exec (mix_minor28);
      exec (mix_minor69);
      call mix_major9 pad[2] ];
    exec (ROREQ pad[2] (pad[9] + 0xf));
    exec (ROREQ pad[5] (pad[18] .& 0x13));
    exec (pad[5] -= pad[1] .^ 0x2822999);
    when (branch =? 5) [
      exec (pad[12] += 0x108072);
      exec (pad[8] += 0xaf45f1d7);
      exec (mix_minor61);
      call mix_major10 pad[9] ];
    exec (pad[1] += (ROR seed 24));
    exec (pad[6] += pad[4] .| 0x161d3ea);
    exec (pad[9] += seed + 0xc2e590c);
    exec (seed -= seed .^ 0x125deacd);
    exec (pad[7] &= pad[17] .^ 0x10b015bf);
    exec (pad[17] ::= 0x1bb396c0);
    exec (pad[9] *= pad[1] .& 0x7a04e3e);
    exec (seed += pad[16] .| 0x16cf1fa2);
    exec (seed *= pad[14] * 0x1d5ac40e);
    exec (pad[4] ^= seed + 0xf27819a7) ]).

Definition mix_major7 : proc :=
  with_branch ((pad[3] .^ pad[6] .^ seed) % 11) (fun branch => [
    exec (pad[8] += seed * 0x25d21c70);
    exec (seed += (ROR pad[13] 26));
    exec (pad[15] += (ROR pad[0] 18));
    when (branch =? 1) [
      exec (mix_minor45);
      exec (ROLEQ pad[16] 24);
      exec (ROLEQ pad[16] 18);
      call mix_major18 pad[9] ];
    exec (seed += pad[4] .^ 0x214bbbb);
    exec (ROLEQ pad[5] (seed * 0x1d));
    exec (pad[17] -= pad[18] .| 0x1102e01a);
    exec (pad[19] += pad[12] + 0xf1e0cc5a);
    when (branch =? 0) [
      exec (pad[4] *= 0x73b12006);
      exec (mix_minor49);
      exec (mix_minor43);
      call mix_major6 pad[13] ];
    exec (pad[8] |= seed * 0x33ff2ce9);
    exec (pad[4] *= seed + 0x2fe45acf);
    exec (pad[3] ^= (ROR seed 13));
    exec (seed ^= pad[12] .& 0x2e2ac892);
    when (branch =? 7) [
      exec (mix_minor59);
      exec (mix_minor69);
      exec (mix_minor41);
      call mix_major4 pad[15] ];
    exec (seed *= (ROL pad[14] 1));
    exec (seed ^= seed + 0x7a3b4f0e);
    exec (pad[5] += pad[11] .^ 0x5f050ce6);
    when (branch =? 2) [
      exec (mix_minor46);
      exec (mix_minor45);
      exec (mix_minor24);
      call mix_major11 pad[17] ];
    exec (pad[9] -= pad[11] .& 0x524788df);
    exec (seed += pad[3] + (ROR pad[17] 18) + 0x17b2d86);
    exec (pad[12] |= pad[17] .^ 0xd2348b5);
    when (branch =? 4) [
      exec (mix_minor60);
      exec (mix_minor56);
      exec (mix_minor64);
      call mix_major22 seed ];
    exec (pad[4] += pad[0] .^ 0x3ca6760a);
    exec (ROREQ pad[10] (pad[12] .& 0x1e));
    exec (pad[12] -= seed .^ 0x32b59495);
    exec (pad[11] -= pad[7] .^ 0xcc6cef3);
    when (branch =? 9) [
      exec (mix_minor51);
      exec (mix_minor51);
      exec (mix_minor46);
      call mix_major5 pad[6] ];
    exec (pad[18] -= seed .^ 0x42ce4263);
    exec (pad[8] ^= pad[15] + 0xfc1ccf0a);
    exec (pad[4] *= pad[2] + 0xdc6ebf0);
    when (branch =? 8) [
      exec (mix_minor34);
      exec (mix_minor33);
      exec (mix_minor35);
      call mix_major3 pad[19] ];
    exec (pad[14] ^= pad[17] + 0x29e0bfe6);
    exec (pad[2] ^= pad[0] + 0xc0a98770);
    exec (pad[6] += (ROL pad[11] 15));
    when (branch =? 10) [
      exec (mix_minor43);
      exec (mix_minor38);
      exec (ROLEQ pad[10] 8);
      call mix_major14 seed ];
    exec (seed += pad[18] - pad[5] + 0xff5138a0);
    when (branch =? 6) [
      exec (ROLEQ pad[19] 22);
      exec (mix_minor32);
      exec (pad[14] ^= 0x3ccf037);
      call mix_major9 seed ];
    exec (ROREQ pad[3] (pad[17] .& 0xa));
    exec (pad[3] ^= pad[7] * 0x36e7ec8);
    when (branch =? 3) [
      exec (mix_minor41);
      exec (pad[17] ^= 0xeeea146c);
      exec (mix_minor64);
      call mix_major10 seed ];
    exec (ROREQ pad[10] (pad[19] * 0x19));
    exec (pad[14] *= pad[12] + 0xd914afe4);
    when (branch =? 5) [
      exec (mix_minor22);
      exec (mix_minor57);
      exec (mix_minor44);
      call mix_major2 pad[18] ];
    exec (pad[8] -= pad[7] .^ 0x1609874e);
    exec (pad[10] ^= pad[4] .| 0x1e171635);
    exec (pad[6] -= pad[16] - 0x19b93371) ]).

Definition mix_major21 : proc :=
  with_branch ((pad[2] .^ pad[11] .^ pad[15]) % 11) (fun branch => [
    exec (ROREQ pad[13] (seed .| 0x1e));
    exec (seed -= pad[6] - 0x67e07c3f);
    exec (seed ^= seed * 0x157052aa);
    when (branch =? 1) [
      exec (mix_minor22);
      exec (mix_minor62);
      exec (mix_minor63);
      call mix_major6 seed ];
    exec (ROLEQ pad[6] (ROR pad[6] 11));
    exec (pad[19] += seed * 0x2437b7c7);
    when (branch =? 6) [
      exec (pad[8] -= 0x383b7a6c);
      exec (mix_minor28);
      exec (pad[14] -= 0xd8799ad3);
      call mix_major4 pad[2] ];
    exec (pad[3] += pad[12] + 0xf9430940);
    exec (pad[11] -= pad[6]);
    when (branch =? 5) [
      exec (mix_minor40);
      exec (mix_minor41);
      exec (mix_minor66);
      call mix_major11 pad[8] ];
    exec (pad[0] += pad[14] .| 0x27c78ea);
    exec (pad[18] -= seed .& 0x6b2cc678);
    exec (ROREQ pad[15] (pad[11] .& 0xa));
    when (branch =? 4) [
      exec (mix_minor67);
      exec (mix_minor26);
      exec (mix_minor21);
      call mix_major22 seed ];
    exec (seed ^= (ROR pad[18] 2));
    exec (pad[10] += pad[15] * 0x42515298);
    exec (pad[19] += pad[2] .^ 0x2a15668a);
    when (branch =? 7) [
      exec (ROLEQ pad[19] 21);
      exec (mix_minor30);
      exec (mix_minor58);
      call mix_major5 pad[11] ];
    exec (pad[6] -= seed - 0xe28d6e07);
    exec (pad[1] &= pad[3] + 0x8a7848d);
    exec (pad[10] *= pad[17] + 0xf76061aa);
    when (branch =? 0) [
      exec (mix_minor29);
      exec (pad[17] ^= 0x3d87b641);
      exec (mix_minor60);
      call mix_major3 pad[12] ];
    exec (pad[6] += (ROR pad[1] 8));
    exec (pad[1] *= pad[2] .| 0x16a41bdf);
    when (branch =? 8) [
      exec (mix_minor68);
      exec (pad[9] += 0xb8c1b4ce);
      exec (pad[4] ^= 0x5c2840a0);
      call mix_major14 pad[3] ];
    exec (pad[0] -= pad[4] - 0x21889c31);
    exec (seed *= seed .^ 0x14a9f943);
    exec (pad[5] |= pad[13] + 0x5c58f04e);
    exec (pad[19] ^= pad[14] + 0x49437c23);
    when (branch =? 2) [
      exec (mix_minor22);
      exec (mix_minor30);
      exec (mix_minor29);
      call mix_major9 pad[13] ];
    exec (pad[9] |= pad[6] .^ 0x360a1ff0);
    exec (pad[13] &= pad[14] * 0x810027b);
    exec (seed += seed + 0x3053624);
    when (branch =? 3) [
      exec (mix_minor20);
      exec (mix_minor38);
      exec (mix_minor27);
      call mix_major10 pad[17] ];
    exec (seed -= pad[1] - 0xc7af02f5);
    exec (seed &= 0xc11a9b11);
    exec (pad[6] ^= pad[12] + 0xac2e6058);
    exec (pad[12] ^= pad[17] + 0xd87e9f50);
    when (branch =? 10) [
      exec (mix_minor37);
      exec (mix_minor29);
      exec (mix_minor31);
      call mix_major2 pad[6] ];
    exec (ROLEQ pad[9] (pad[7] .^ 0x1));
    exec (seed += pad[14] .^ 0xff63c7c);
    when (branch =? 9) [
      exec (pad[14] ^= 0x491ed97d);
      exec (mix_minor22);
      exec (mix_minor40);
      call mix_major7 pad[5] ];
    exec (pad[9] ^= pad[6] .^ 0x132ee304);
    exec (pad[12] *= pad[14] + 0x11e0a175);
    exec (pad[14] -= seed .^ 0x267e2568);
    exec (ROLEQ pad[0] (ROL pad[3] 11));
    exec (pad[8] ^= pad[6] .^ 0xe173238);
    exec (pad[0] *= pad[6] + 0xee9e5b6a);
    exec (pad[9] |= pad[15] * 0x1fe0f470);
    exec (ROLEQ pad[2] (pad[2] + 0x9));
    exec (pad[16] ^= pad[14] * 0x1b4bf87b);
    exec (pad[16] &= pad[10] + 0x2383020a);
    exec (pad[15] += pad[7] + 0xeb32d6f9);
    exec (pad[15] ^= (ROL pad[16] 17));
    exec (pad[16] += seed .| 0x20914367) ]).

Definition mix_major13 : proc :=
  with_branch ((pad[1] .^ pad[12] .^ pad[18]) % 11) (fun branch => [
    exec (pad[7] *= seed + 0xfd2296dd);
    exec (seed *= pad[9] + 0x10ce1e6b);
    exec (pad[13] |= pad[14] .& 0xe7aa887);
    when (branch =? 9) [
      exec (mix_minor61);
      exec (pad[3] += 0x1702840);
      exec (mix_minor34);
      call mix_major4 pad[15] ];
    exec (pad[19] += pad[17] + 0x44864e65);
    exec (pad[2] -= pad[10] - 0x456501d3);
    exec (pad[11] ^= pad[17] + 0xe91158ed);
    when (branch =? 6) [
      exec (mix_minor41);
      exec (mix_minor46);
      exec (mix_minor27);
      call mix_major11 pad[8] ];
    exec (pad[13] -= seed - 0xffeafe84);
    exec (pad[3] ^= pad[10] .& 0x5898bbff);
    exec (seed -= pad[17] .^ 0xb4b5ddd);
    exec (pad[5] &= seed + 0xf2a69347);
    when (branch =? 7) [
      exec (pad[11] += 0x28b81);
      exec (mix_minor55);
      exec (mix_minor38);
      call mix_major22 pad[19] ];
    exec (pad[8] += pad[11] + 0x35a3f082);
    exec (pad[15] &= seed + 0xf0918e1c);
    when (branch =? 8) [
      exec (pad[12] += 0x2180072);
      exec (mix_minor48);
      exec (mix_minor39);
      call mix_major5 seed ];
    exec (seed -= pad[12] - 0x1e87b29e);
    exec (seed ^= pad[0] + 0x9b993250);
    exec (pad[13] ^= pad[17] * 0xb083b2b);
    when (branch =? 5) [
      exec (mix_minor68);
      exec (mix_minor58);
      exec (mix_minor52);
      call mix_major3 pad[14] ];
    exec (ROLEQ pad[1] (pad[0] .^ 0x1a));
    exec (pad[5] ^= pad[11] * 0x17321349);
    exec (seed ^= pad[3] + 0xffce689b);
    exec (pad[4] *= seed + 0x2570be6e);
    when (branch =? 10) [
      exec (pad[14] -= 0xb271fe0e);
      exec (mix_minor57);
      exec (mix_minor20);
      call mix_major14 pad[6] ];
    exec (pad[15] *= 0x2d42b937);
    exec (pad[4] *= seed + 0xf544478e);
    exec (pad[0] += pad[9] .^ 0x4dc36a);
    exec (pad[0] -= seed - 0x10bb4f25);
    when (branch =? 3) [
      exec (mix_minor39);
      exec (mix_minor26);
      exec (pad[0] += 0x8fc063b5);
      call mix_major9 pad[15] ];
    exec (pad[19] &= (ROR pad[3] 14));
    exec (pad[17] *= seed * 0x18575b09);
    exec (pad[1] |= seed * 0x50ebe77);
    exec (seed += pad[6] .| 0x4d24003d);
    when (branch =? 4) [
      exec (pad[14] -= 0x3b677863);
      exec (mix_minor29);
      exec (mix_minor22);
      call mix_major10 pad[9] ];
    exec (pad[15] &= pad[0] + 0xf770857b);
    exec (ROREQ pad[0] (seed * 0xd));
    exec (seed -= seed .| 0x2576a843);
    when (branch =? 0) [
      exec (mix_minor49);
      exec (mix_minor41);
      exec (pad[3] += 0x8306000);
      call mix_major2 pad[8] ];
    exec (pad[1] += seed * 0x2994c8c);
    exec (pad[16] ^= pad[6] + 0xfe25a480);
    exec (pad[3] *= pad[11] * 0x1e333f7b);
    exec (ROREQ pad[7] (pad[17] .^ 0x1a));
    when (branch =? 2) [
      exec (mix_minor51);
      exec (pad[8] -= 0xfbb3cb07);
      exec (pad[4] ^= 0x214ff68b);
      call mix_major7 pad[1] ];
    exec (pad[13] ^= pad[18] + 0x149e5b40);
    exec (pad[0] += pad[19] + 0x541a494);
    when (branch =? 1) [
      exec (mix_minor38);
      exec (mix_minor28);
      exec (mix_minor50);
      call mix_major21 seed ];
    exec (pad[2] -= seed - 0x16deeae);
    exec (pad[9] -= pad[0] .^ 0x1120ce2d);
    exec (pad[13] ^= pad[7] .^ 0x2a74ac2a);
    exec (pad[12] &= pad[9] + 0xdab80c67);
    exec (pad[14] -= seed * 0x2776477);
    exec (pad[4] -= pad[19] * 0x2f2e21d0);
    exec (pad[19] -= pad[3] - 0xe78ae13d);
    exec (seed -= seed .^ 0x434c0d3a);
    exec (seed -= pad[2] - 0x11f70706);
    exec (ROREQ seed (pad[16] + 0x9));
    exec (pad[13] += seed * 0x2a0d21c3) ]).

Definition mix_major24 : proc :=
  with_branch ((pad[17] .^ pad[8] .^ pad[10]) % 11) (fun branch => [
    exec (seed *= pad[7]);
    exec (seed ^= pad[0] .^ 0x13a77c41);
    exec (ROLEQ pad[2] (pad[3] + 0x10));
    when (branch =? 1) [
      exec (mix_minor27);
      exec (mix_minor59);
      exec (mix_minor22);
      call mix_major11 pad[12] ];
    exec (seed ^= seed + 0xf4135aef);
    exec (ROLEQ seed (pad[6] + 0x9));
    exec (pad[14] += (ROL pad[13] 25));
    exec (pad[16] ^= pad[8] + 0x19454e81);
    when (branch =? 10) [
      exec (mix_minor63);
      exec (mix_minor32);
      exec (mix_minor29);
      call mix_major22 pad[8] ];
    exec (pad[3] *= seed + 0xcb4ea17e);
    exec (ROLEQ pad[17] (pad[17] .^ 0x14));
    exec (seed -= pad[11] * 0x2c0fd99b);
    when (branch =? 3) [
      exec (mix_minor57);
      exec (mix_minor63);
      exec (mix_minor25);
      call mix_major5 seed ];
    exec (pad[12] += pad[19] + 0x7e55995);
    exec (pad[14] -= pad[13] * 0x3dd1a491);
    exec (pad[4] |= pad[8] .& 0x162b97ec);
    exec (pad[8] += pad[3] + 0xc3000fb6);
    when (branch =? 6) [
      exec (mix_minor48);
      exec (pad[8] += 0x9cd4867c);
      exec (pad[14] += 0x79cdbac7);
      call mix_major3 pad[9] ];
    exec (pad[13] += pad[8] .^ 0x2a161224);
    exec (pad[10] += pad[1] * 0xc693c6b);
    exec (pad[4] *= pad[10] + 0xecde6b96);
    when (branch =? 9) [
      exec (mix_minor40);
      exec (ROLEQ pad[10] 18);
      exec (mix_minor40);
      call mix_major14 pad[13] ];
    exec (pad[8] *= (ROR pad[13] 25));
    exec (pad[17] ^= (ROR pad[14] 24));
    exec (seed &= pad[4] + 0x1c938114);
    when (branch =? 2) [
      exec (pad[4] ^= 0xc25fdd85);
      exec (mix_minor42);
      exec (mix_minor27);
      call mix_major9 seed ];
    exec (pad[0] *= seed + 0xc328858);
    exec (seed += pad[15] .| 0x137d6d8);
    exec (pad[3] -= pad[9] - 0xae4f0ae);
    when (branch =? 0) [
      exec (mix_minor45);
      exec (mix_minor24);
      exec (mix_minor51);
      call mix_major10 pad[3] ];
    exec (seed *= pad[10] + 0xe55615);
    exec (pad[15] |= seed .| 0x120d32e3);
    exec (ROLEQ seed (pad[15] .^ 0xc));
    exec (ROREQ pad[6] pad[7]);
    when (branch =? 7) [
      exec (mix_minor23);
      exec (mix_minor57);
      exec (mix_minor55);
      call mix_major2 pad[17] ];
    exec (pad[3] -= pad[4] .| 0x2587388f);
    exec (pad[2] += pad[4] + 0xffda87c9);
    exec (seed -= (ROR pad[2] 17));
    exec (pad[1] += pad[6] * 0x34aabe3a);
    when (branch =? 4) [
      exec (mix_minor30);
      exec (mix_minor46);
      exec (mix_minor57);
      call mix_major7 pad[16] ];
    exec (pad[17] ^= pad[13] .^ 0x3d17e55a);
    exec (pad[15] *= pad[14] + 0xdaf5121);
    when (branch =? 5) [
      exec (mix_minor57);
      exec (mix_minor60);
      exec (mix_minor61);
      call mix_major21 seed ];
    exec (ROLEQ pad[6] (pad[17] * 0x14));
    exec (pad[6] += pad[15] .^ 0x14819516);
    when (branch =? 8) [
      exec (pad[8] -= 0x7b22975e);
      exec (mix_minor50);
      exec (mix_minor56);
      call mix_major13 pad[5] ];
    exec (pad[8] |= pad[14] + 0xc735f228);
    exec (ROREQ pad[7] (pad[17] + 0x1e));
    exec (seed *= pad[10] * 0x340d3ff2);
    exec (pad[16] *= pad[14] + 0x57a8d4b3);
    exec (pad[6] -= pad[1] - 0x534be48e);
    exec (pad[2] ^= pad[9] * 0xd695251);
    exec (pad[12] ^= pad[7]);
    exec (pad[1] += pad[17] + 0xf022cb99);
    exec (pad[4] += seed .| 0x2954ac20);
    exec (pad[7] *= seed .^ 0x1b904466);
    exec (pad[2] -= seed * 0x31fef0e1) ]).

Definition mix_major23 : proc :=
  with_branch (seed % 11) (fun branch => [
    exec (seed &= (ROL pad[5] 11));
    exec (pad[18] -= (ROR seed 23));
    exec (pad[19] += seed + 0xb42a2f00);
    when (branch =? 5) [
      exec (pad[17] ^= 0x33db0465);
      exec (mix_minor62);
      exec (mix_minor33);
      call mix_major22 pad[2] ];
    exec (pad[0] += pad[12] + 0x71507fd7);
    exec (seed += pad[19] + 0x9a68096);
    when (branch =? 6) [
      exec (mix_minor64);
      exec (mix_minor47);
      exec (mix_minor62);
      call mix_major5 pad[10] ];
    exec (pad[0] += pad[2] + 0x238788d8);
    exec (ROREQ pad[3] (pad[15] + 0x16));
    exec (pad[10] -= pad[9] - 0xdf1e2fab);
    when (branch =? 3) [
      exec (mix_minor50);
      exec (pad[4] ^= 0x3f348b71);
      exec (mix_minor44);
      call mix_major3 seed ];
    exec (seed ^= (ROL seed 27));
    exec (seed -= (ROR pad[11] 23));
    when (branch =? 7) [
      exec (mix_minor48);
      exec (mix_minor51);
      exec (pad[3] -= 0xf2da1eb7);
      call mix_major14 pad[15] ];
    exec (pad[18] += pad[10] + 0x13ba6066);
    exec (pad[11] -= pad[10] - 0xd44a337d);
    exec (pad[17] &= pad[3] + 0xad722336);
    when (branch =? 4) [
      exec (pad[3] *= 0x1e952879);
      exec (mix_minor55);
      exec (mix_minor52);
      call mix_major9 pad[8] ];
    exec (pad[7] -= (ROL seed 15));
    exec (seed |= pad[6] + 0x45d2e311);
    exec (seed ^= pad[7] + 0xd196f18f);
    exec (ROLEQ pad[7] (seed .^ 0x8));
    when (branch =? 8) [
      exec (mix_minor55);
      exec (mix_minor64);
      exec (pad[3] += 0x704000);
      call mix_major10 pad[13] ];
    exec (pad[6] += pad[18] * 0x413db8c1);
    exec (pad[0] ^= pad[19] + 0x2be41642);
    exec (pad[4] *= (ROR pad[9] 18));
    when (branch =? 10) [
      exec (mix_minor26);
      exec (mix_minor47);
      exec (mix_minor59);
      call mix_major2 seed ];
    exec (ROLEQ seed (pad[6] * 0x13));
    exec (pad[17] *= pad[3] .& 0x9262077);
    exec (pad[13] ^= pad[14] + 0xfa8ae5a0);
    when (branch =? 1) [
      exec (mix_minor65);
      exec (mix_minor21);
      exec (mix_minor24);
      call mix_major7 pad[13] ];
    exec (ROREQ seed (ROL pad[2] 17));
    exec (pad[13] -= pad[8] - 0xffd58fe8);
    exec (pad[8] += pad[6] .^ 0x1d606322);
    when (branch =? 9) [
      exec (mix_minor52);
      exec (mix_minor26);
      exec (pad[3] += 0x404840);
      call mix_major21 pad[10] ];
    exec (pad[16] += pad[19] + 0xe3a240f7);
    exec (seed ^= (ROR pad[14] 3));
    when (branch =? 0) [
      exec (mix_minor43);
      exec (pad[3] -= 0xa9fe8c6d);
      exec (pad[0] += 0xe9a284bb);
      call mix_major13 pad[4] ];
    exec (pad[18] ^= pad[7] .| 0x196e1a4c);
    exec (seed += pad[18] .^ 0xffcac8f);
    exec (pad[1] ^= pad[0] .^ 0xb09adec);
    when (branch =? 2) [
      exec (mix_minor53);
      exec (mix_minor39);
      exec (mix_minor67);
      call mix_major24 pad[11] ];
    exec (pad[14] *= pad[2] + 0x328852b1);
    exec (pad[8] ^= pad[15] .& 0x1e0a37a);
    exec (pad[3] *= (ROL seed 13));
    exec (pad[6] ^= pad[18] + 0xc9c48b38);
    exec (ROLEQ pad[2] (pad[14] + 0x1d));
    exec (seed ^= (ROR pad[10] 13));
    exec (pad[12] ^= pad[8] + 0xef774f5b);
    exec (ROREQ seed (pad[14] + 0x3));
    exec (seed += seed .^ 0x58f00a07);
    exec (pad[9] ^= seed .^ 0x5483deb2);
    exec (pad[14] |= pad[0] * 0x2c63f116);
    exec (pad[3] += pad[10] .^ 0xa051af);
    exec (seed -= pad[0] - 0xfdb247f0);
    exec (pad[2] -= seed - 0xf9432db1) ]).

Definition mix_major1 : proc :=
  with_branch ((pad[6] .^ pad[9] .^ pad[12]) % 11) (fun branch => [
    exec (pad[5] += pad[3] .& 0x24398ab);
    exec (seed += pad[3] - pad[18] + 0x45e6c9d4);
    when (branch =? 2) [
      exec (mix_minor26);
      exec (mix_minor58);
      exec (mix_minor67);
      call mix_major5 pad[19] ];
    exec (seed ^= pad[14] + 0xc0fd80ba);
    exec (pad[12] -= pad[1] * 0xe99b672);
    exec (pad[15] ^= pad[0] + 0xca70bf60);
    when (branch =? 1) [
      exec (pad[4] ^= 0x15e7d1d6);
      exec (mix_minor44);
      exec (mix_minor26);
      call mix_major3 pad[11] ];
    exec (seed += seed .^ 0x17339c6);
    exec (pad[15] += pad[7] * 0x15f0a011);
    exec (pad[4] &= pad[17] + 0x1b597286);
    exec (pad[17] *= pad[15] .& 0x389e630b);
    when (branch =? 3) [
      exec (mix_minor44);
      exec (mix_minor25);
      exec (mix_minor63);
      call mix_major14 pad[3] ];
    exec (pad[18] ^= pad[19] .^ 0x31a138ce);
    exec (pad[16] &= seed * 0x271fe1f1);
    exec (ROREQ pad[7] (pad[16] .^ 0x9));
    when (branch =? 5) [
      exec (pad[12] += 0x108440);
      exec (pad[14] -= 0xf9b7e88d);
      exec (mix_minor64);
      call mix_major9 seed ];
    exec (pad[2] *= (ROR pad[6] 31));
    exec (seed -= pad[14] - 0xfee822a8);
    exec (seed *= pad[5] * 0x9dfbe4);
    exec (seed += pad[13] + 0xfd2ead2f);
    when (branch =? 9) [
      exec (mix_minor60);
      exec (mix_minor42);
      exec (pad[14] += 0x723398ff);
      call mix_major10 pad[18] ];
    exec (pad[7] += pad[17] + 0x2b29baf9);
    exec (ROREQ pad[2] (ROL pad[0] 25));
    when (branch =? 6) [
      exec (mix_minor46);
      exec (ROLEQ pad[19] 18);
      exec (mix_minor41);
      call mix_major2 pad[4] ];
    exec (pad[12] &= pad[16] + 0x2223fa4b);
    exec (seed -= pad[5] * 0x282f40d5);
    exec (seed &= (ROR pad[18] 16));
    when (branch =? 8) [
      exec (mix_minor46);
      exec (pad[9] += 0xd0b27d9c);
      exec (ROLEQ pad[10] 22);
      call mix_major7 seed ];
    exec (pad[17] += pad[7] + 0xf9ac8515);
    exec (pad[7] += pad[10] + 0xf9b69577);
    when (branch =? 4) [
      exec (pad[3] *= 0x2da1cfcf);
      exec (mix_minor54);
      exec (pad[12] += 0x80410);
      call mix_major21 pad[13] ];
    exec (pad[7] += pad[13] .^ 0x6d56f7f);
    exec (pad[8] -= seed - 0x8c8d3d9c);
    when (branch =? 7) [
      exec (mix_minor24);
      exec (mix_minor33);
      exec (mix_minor42);
      call mix_major13 pad[4] ];
    exec (pad[5] -= pad[12] - 0x4d2bd380);
    exec (pad[1] -= seed - 0xfcee8aad);
    exec (pad[18] *= pad[1] * 0x696c0);
    exec (pad[8] *= pad[4] + 0xdc2745dc);
    when (branch =? 10) [
      exec (mix_minor58);
      exec (mix_minor25);
      exec (mix_minor36);
      call mix_major24 pad[2] ];
    exec (pad[18] ^= pad[7] + 0xd9de0ed7);
    exec (ROREQ pad[11] (pad[6] + 0x11));
    exec (pad[19] += pad[18] + 0xb295dc);
    when (branch =? 0) [
      exec (mix_minor41);
      exec (mix_minor30);
      exec (mix_minor64);
      call mix_major23 seed ];
    exec (pad[15] -= seed .| 0x58eafd);
    exec (ROREQ pad[5] (pad[12] * 0x6));
    exec (pad[2] += pad[19] + 0xf42fd441);
    exec (pad[12] *= pad[2] .| 0x10d913b8);
    exec (pad[1] ^= pad[11] + 0x2039d1f9);
    exec (pad[15] += (ROR pad[2] 3));
    exec (pad[11] += pad[1] + 0x55f96491);
    exec (pad[4] *= pad[15] .& 0x864fe18);
    exec (pad[18] *= pad[18] + 0xf5eb4571) ]).

Definition mix_major0 : proc :=
  with_branch ((pad[15] .^ pad[19] .^ seed) % 11) (fun branch => [
    exec (pad[6] *= pad[8] * 0x1bb4a70d);
    exec (pad[12] += pad[14] + 0xe087bd96);
    exec (seed &= pad[13] .| 0x39367989);
    when (branch =? 7) [
      exec (mix_minor30);
      exec (mix_minor41);
      exec (mix_minor45);
      call mix_major3 pad[19] ];
    exec (pad[14] -= (ROR seed 31));
    exec (pad[8] ^= seed .& 0x8e30c76);
    exec (pad[3] *= pad[12] .^ 0xd05f635);
    exec (pad[10] += pad[10] + 0xa92dc43a);
    when (branch =? 0) [
      exec (pad[0] += 0xde3b3b9a);
      exec (mix_minor46);
      exec (pad[3] += 0x8600800);
      call mix_major14 pad[5] ];
    exec (seed += pad[17] + 0xff92b824);
    exec (pad[1] += pad[3] .^ 0x62c448c0);
    exec (pad[8] ^= pad[3] .^ 0x43c25efd);
    exec (pad[9] ^= (ROL pad[9] 16));
    when (branch =? 5) [
      exec (mix_minor53);
      exec (pad[3] += 0x8502040);
      exec (mix_minor54);
      call mix_major9 pad[5] ];
    exec (pad[3] -= pad[2] - 0xef553b21);
    exec (pad[18] += pad[13] + 0x3b26991e);
    when (branch =? 4) [
      exec (mix_minor39);
      exec (mix_minor42);
      exec (mix_minor35);
      call mix_major10 pad[7] ];
    exec (pad[12] += pad[11] .& 0x4be050d);
    exec (pad[17] ^= (ROR seed 8));
    exec (ROREQ pad[8] (pad[16] + 0x17));
    exec (pad[12] *= pad[8] + 0xf3910fa);
    when (branch =? 2) [
      exec (mix_minor58);
      exec (mix_minor59);
      exec (mix_minor38);
      call mix_major2 seed ];
    exec (pad[8] += seed + 0x4088eb5f);
    exec (pad[5] &= pad[7] .^ 0x1387a250);
    exec (pad[2] |= pad[1] .^ 0x47f3a78b);
    exec (pad[17] |= pad[10] * 0x1d208465);
    when (branch =? 1) [
      exec (mix_minor39);
      exec (mix_minor49);
      exec (mix_minor50);
      call mix_major7 pad[9] ];
    exec (pad[1] -= seed .& 0x4be5deac);
    exec (pad[4] += pad[15] .& 0x3496b61a);
    when (branch =? 10) [
      exec (mix_minor55);
      exec (mix_minor61);
      exec (pad[8] += 0x82e5ca1);
      call mix_major21 pad[8] ];
    exec (ROREQ seed (seed * 0x10));
    exec (pad[13] &= pad[12] + 0x6b465da);
    when (branch =? 3) [
      exec (mix_minor27);
      exec (pad[8] += 0x370c574);
      exec (pad[0] += 0xc484fc90);
      call mix_major13 pad[11] ];
    exec (pad[16] |= pad[14] + 0xff7068bf);
    exec (pad[7] &= pad[19] .^ 0x1e569f2b);
    exec (pad[12] += pad[15] * 0x49f90b6a);
    when (branch =? 6) [
      exec (pad[17] ^= 0x8ade6faa);
      exec (mix_minor26);
      exec (mix_minor59);
      call mix_major24 pad[7] ];
    exec (pad[6] -= pad[18] * 0xb0223a7);
    exec (pad[19] -= pad[4] * 0x4f4bc59);
    exec (pad[17] += pad[3] + 0x19da7ccb);
    exec (pad[17] -= seed .& 0x3a423827);
    when (branch =? 9) [
      exec (mix_minor67);
      exec (mix_minor29);
      exec (pad[3] += 0x506840);
      call mix_major23 seed ];
    exec (seed += pad[11] + 0xea268d79);
    exec (seed ^= pad[11] + 0x7b41453);
    when (branch =? 8) [
      exec (pad[11] += 0xe199e061);
      exec (mix_minor34);
      exec (mix_minor30);
      call mix_major1 seed ];
    exec (pad[0] ^= pad[2] .^ 0x361eddb9);
    exec (pad[0] += seed + 0xc3201c46);
    exec (ROREQ pad[4] (pad[4] + 0x19));
    exec (pad[8] *= pad[16] + 0xf6c0ea7);
    exec (ROREQ pad[11] (pad[18] * 0x13));
    exec (pad[2] |= pad[4] .| 0x5747f7c);
    exec (seed ^= pad[3] * 0x336a3c4f);
    exec (pad[9] ^= pad[8] + 0x5ff3732);
    exec (pad[9] ^= seed + 0x2b702a62);
    exec (pad[1] *= pad[1] + 0xfa4e2f52) ]).

Definition enc_type_2 : proc := body [ call mix_major0 seed ].

(** ** Every mixer is memory safe and keeps a pad of 32-bit words *)

Lemma safe_mix_major19 : safe_p mix_major19.
Proof. mix_safe. Qed.
#[export] Hint Resolve safe_mix_major19 : mix.

Lemma safe_mix_major20 : safe_p mix_major20.
Proof. mix_safe. Qed.
#[export] Hint Resolve safe_mix_major20 : mix.

Lemma safe_mix_major17 : safe_p mix_major17.
Proof. mix_safe. Qed.
#[export] Hint Resolve safe_mix_major17 : mix.

Lemma safe_mix_major16 : safe_p mix_major16.
Proof. mix_safe. Qed.
#[export] Hint Resolve safe_mix_major16 : mix.

Lemma safe_mix_major15 : safe_p mix_major15.
Proof. mix_safe. Qed.
#[export] Hint Resolve safe_mix_major15 : mix.

Lemma safe_mix_major8 : safe_p mix_major8.
Proof. mix_safe. Qed.
#[export] Hint Resolve safe_mix_major8 : mix.

Lemma safe_mix_major12 : safe_p mix_major12.
Proof. mix_safe. Qed.
#[export] Hint Resolve safe_mix_major12 : mix.

Lemma safe_mix_major18 : safe_p mix_major18.
Proof. mix_safe. Qed.
#[export] Hint Resolve safe_mix_major18 : mix.

Lemma safe_mix_major6 : safe_p mix_major6.
Proof. mix_safe. Qed.
#[export] Hint Resolve safe_mix_major6 : mix.

Lemma safe_mix_major4 : safe_p mix_major4.
Proof. mix_safe. Qed.
#[export] Hint Resolve safe_mix_major4 : mix.

Lemma safe_mix_major11 : safe_p mix_major11.
Proof. mix_safe. Qed.
#[export] Hint Resolve safe_mix_major11 : mix.

Lemma safe_mix_major22 : safe_p mix_major22.
Proof. mix_safe. Qed.
#[export] Hint Resolve safe_mix_major22 : mix.

Lemma safe_mix_major5 : safe_p mix_major5.
Proof. mix_safe. Qed.
#[export] Hint Resolve safe_mix_major5 : mix.

Lemma safe_mix_major3 : safe_p mix_major3.
Proof. mix_safe. Qed.
#[export] Hint Resolve safe_mix_major3 : mix.

Lemma safe_mix_major14 : safe_p mix_major14.
Proof. mix_safe. Qed.
#[export] Hint Resolve safe_mix_major14 : mix.

Lemma safe_mix_major9 : safe_p mix_major9.
Proof. mix_safe. Qed.
#[export] Hint Resolve safe_mix_major9 : mix.

Lemma safe_mix_major10 : safe_p mix_major10.
Proof. mix_safe. Qed.
#[export] Hint Resolve safe_mix_major10 : mix.

Lemma safe_mix_major2 : safe_p mix_major2.
Proof. mix_safe. Qed.
#[export] Hint Resolve safe_mix_major2 : mix.

Lemma safe_mix_major7 : safe_p mix_major7.
Proof. mix_safe. Qed.
#[export] Hint Resolve safe_mix_major7 : mix.

Lemma safe_mix_major21 : safe_p mix_major21.
Proof. mix_safe. Qed.
#[export] Hint Resolve safe_mix_major21 : mix.

Lemma safe_mix_major13 : safe_p mix_major13.
Proof. mix_safe. Qed.
#[export] Hint Resolve safe_mix_major13 : mix.

Lemma safe_mix_major24 : safe_p mix_major24.
Proof. mix_safe. Qed.
#[export] Hint Resolve safe_mix_major24 : mix.

Lemma safe_mix_major23 : safe_p mix_major23.
Proof. mix_safe. Qed.
#[export] Hint Resolve safe_mix_major23 : mix.

Lemma safe_mix_major1 : safe_p mix_major1.
Proof. mix_safe. Qed.
#[export] Hint Resolve safe_mix_major1 : mix.

Lemma safe_mix_major0 : safe_p mix_major0.
Proof. mix_safe. Qed.
#[export] Hint Resolve safe_mix_major0 : mix.

Lemma safe_enc_type_2 : safe_p enc_type_2.
Proof. mix_safe. Qed.

(** On every key of 20 words and every seed the mixer ends, inside the
    pad, and leaves 20 words. *)
Theorem enc_type_2_in_bounds pad sd :
  pad_ok pad -> word 32 sd -> exists pad', enc_type_2 pad sd = Some pad' /\ pad_ok pad'.
Proof. exact (safe_enc_type_2 pad sd). Qed.

Lemma enc_type_2_in_bounds_witness :
  pad_ok (replicate 20 0xdeadbeef) /\ word 32 0x12345678 /\
  exists pad', enc_type_2 (replicate 20 0xdeadbeef) 0x12345678 = Some pad' /\ pad_ok pad'.
Proof.
  assert (H : pad_ok (replicate 20 0xdeadbeef)) by (split; [done|]; repeat constructor; unfold word; lia).
  assert (Hs : word 32 0x12345678) by (unfold word; lia).
  split; [exact H|]. split; [exact Hs|]. exact (enc_type_2_in_bounds _ _ H Hs).
Defined.
