(* ===== verification/EncType20.v ===== *)
(** * FastTrack pad mixer 0x20

    [src/networks/fasttrack/enc_type_20.c], statement by statement: the
    [minor_N] macros and functions, the [major_N] functions (callees first),
    [mix] and the entry point [enc_type_20].  The constructs are those of
    [Mix]. *)

From Stdlib Require Import ZArith Lia.
From stdpp Require Import base list.
From S2P Require Import Prelude Mix.
Import MixNotations.

Local Open Scope Z_scope.
Local Open Scope mix_scope.

Definition minor_1 (x : expr) : asn := pad[8] += (IF (e_sin (x .& 255)) THEN 0x4f0cf8d ELSE x).
Definition minor_2 (x : expr) : asn := pad[2] += (IF pad[2] .< 0x36def3e1 THEN pad[2] ELSE x).
Definition minor_3 : asn := pad[10] ^= (ROL pad[1] 20).
Definition minor_4 : asn := pad[16] -= pad[6].
Definition minor_5 : asn := pad[10] -= pad[9] * 0x55.
Definition minor_6 : asn := ROLEQ pad[0] (pad[19] .^ 0xc).
Definition minor_7 : asn := pad[17] += pad[8] * 0xf6084c92.
Definition minor_8 : asn := pad[12] ^= pad[10] .& 0x28acec82.
Definition minor_9 (x : expr) : asn := pad[12] *= (IF pad[12] .< 0x12d7bed THEN pad[12] ELSE x).
Definition minor_10 (x : expr) : asn := pad[18] += (IF pad[5] .< 0xfd0aa3f THEN pad[5] ELSE x).
Definition minor_12 (x : expr) : asn := pad[11] &= (IF (e_cos pad[18]) THEN 0x146a49cc ELSE x).
Definition minor_13 : asn := pad[2] &= (IF (e_cos pad[2]) THEN 0x7ebbfde ELSE pad[11]).
Definition minor_17 : asn := pad[19] ^= pad[7] * 0x3a.
Definition minor_19 : asn := ROLEQ pad[6] (ROR pad[8] 14).
Definition minor_20 : asn := pad[0] &= (ROR pad[18] 31).
Definition minor_22 : asn := ROREQ pad[3] (pad[11] .^ 0x7).
Definition minor_26 : asn := pad[0] |= (IF (e_cos pad[1]) THEN 0x56e0e99 ELSE pad[8]).
Definition minor_27 : asn := pad[18] += (IF (e_cos pad[15]) THEN 0x10d11d00 ELSE pad[9]).
Definition minor_28 : asn := pad[10] -= (IF (e_cos pad[15]) THEN 0x268cca84 ELSE pad[9]).
Definition minor_29 : asn := pad[3] -= (IF (e_cos pad[6]) THEN 0x2031618a ELSE pad[8]).
Definition minor_30 : asn := ROLEQ pad[1] (IF (e_sin pad[5]) THEN 4 ELSE pad[6]).
Definition minor_31 (x : expr) : asn := ROREQ pad[17] (IF (e_sin pad[6]) THEN 29 ELSE x).
Definition minor_32 (x : expr) : asn := pad[15] ^= (IF (e_sin pad[14]) THEN 0x40a33fd4 ELSE x).
Definition minor_34 : asn := pad[7] ^= (e_sqrt pad[11]).
Definition minor_35 : asn := pad[5] += (e_sqrt pad[7]).

Definition minor_36 : proc0 := body0 [
    exec (pad[3] ^= pad[11] * 0xeef27425);
    exec (pad[3] += (e_sqrt pad[0]));
    exec (pad[15] *= pad[1] .^ 0xd89b4a);
    exec (ROREQ pad[16] (pad[16] .& 0x11));
    exec (pad[18] *= pad[19] + 0xa0d8c0cf);
    exec (pad[7] *= (IF pad[0] .< 0x6765080e THEN pad[0] ELSE pad[18]));
    when_e (pad[5] .< 0xe848f43c) [
      exec (ROLEQ pad[9] pad[5]) ];
    exec (pad[2] ^= (IF pad[5] .< 0xa0d8c0cf THEN pad[5] ELSE pad[9] - 0xe848f43c));
    exec (ROLEQ pad[12] (ROL (pad[9] - 0xe848f43c) 11)) ].

Definition minor_37 : proc0 := body0 [
    exec (ROLEQ pad[2] (pad[7] + 0x1b));
    exec (pad[2] ^= pad[9] * 0x7941955);
    exec (pad[2] -= 0x796fa0af);
    exec (pad[3] *= (IF (e_sin pad[19]) THEN 0x5ea67f83 ELSE pad[5]));
    exec (pad[4] -= pad[4] .^ 0x692c9ef9);
    exec (pad[10] += pad[1] .^ 0xc43baf0b);
    exec (pad[12] *= pad[7] - 0xc43baf0b);
    exec (pad[13] ^= 0xd);
    exec (pad[17] ^= pad[17] - 0x1259dbb);
    exec (ROREQ pad[17] 10);
    exec (pad[18] += pad[0] .^ 0x3cf1856) ].

Definition major_23 : proc :=
  with_branch (seed .& 1) (fun branch => [
    exec (pad[4] += pad[8] - 0x16f911e4);
    exec (pad[9] ^= pad[2] * 11);
    exec (pad[10] ^= (IF pad[7] .< 0x402226f THEN pad[7] ELSE pad[2]));
    exec (seed |= pad[17] - 0x1e97aeb);
    exec (seed |= (IF pad[14] .< 0xf3b1e0b3 THEN pad[14] ELSE pad[5]));
    when (branch =? 0) [
      exec (pad[7] &= pad[13] .^ 0x21aaf758);
      exec (minor_32 0x640f077d);
      call0 minor_37 ];
    exec (pad[1] -= pad[19] * 0x64);
    exec (pad[1] += seed - 0x18d1b90);
    exec (pad[7] -= pad[3] .^ 0x44de1958);
    exec (pad[11] ^= (ROL pad[2] 9));
    exec (pad[17] += (ROL pad[12] 27));
    when (branch =? 0) [
      TRY (minor_9 0xdc306f47);
      exec (pad[9] ^= pad[7] * 0x44);
      call0 minor_36 ];
    exec (ROREQ pad[7] pad[13]) ]).

Definition major_24 : proc :=
  with_branch ((pad[2] .^ seed .^ pad[7]) % 3) (fun branch => [
    exec (seed *= (IF (e_cos seed) THEN 0x6be8f94 ELSE seed));
    exec (pad[2] ^= pad[2] + 0x3786364b);
    exec (ROLEQ pad[17] (seed - 0x10));
    when (branch =? 0) [
      exec (minor_35);
      exec (minor_27);
      call0 minor_37 ];
    exec (pad[5] += (IF (e_sin pad[16]) THEN 0x3af2a8e2 ELSE pad[16]));
    when (branch =? 0) [
      TRY minor_5;
      exec (pad[2] *= pad[3] + 0xd6863a6);
      call0 minor_36 ];
    exec (pad[13] ^= (IF (e_cos pad[16]) THEN 0xf6951daa ELSE pad[1]));
    exec (pad[18] |= pad[17] .& 0x6361a322);
    when (branch =? 1) [
      exec (pad[13] *= (ROR pad[3] 5) * 0xb25cb20f);
      call major_23 pad[15] ] ]).

Definition major_19 : proc :=
  with_branch ((pad[18] .^ pad[6] .^ pad[15]) .& 3) (fun branch => [
    exec (seed *= pad[15] * 0x3c02927);
    exec (ROREQ seed (seed * 0x7));
    when (branch =? 0) [
      exec (pad[12] += pad[6] .^ 0x211f5e40);
      exec (pad[9] ^= 0x6b4bfbe3);
      call0 minor_37 ];
    exec (seed ^= pad[6] .^ 0xc1fcda0);
    exec (pad[5] -= (IF (e_cos pad[6]) THEN 0xb9269bb0 ELSE pad[10]));
    when (branch =? 0) [
      exec (pad[9] ^= 0x703e6c86);
      exec (pad[16] += 0xbb78136d);
      call0 minor_36 ];
    exec (seed *= pad[19] + 0x11500e47);
    exec (pad[3] ^= (ROL pad[4] 20));
    when (branch =? 3) [
      exec (pad[2] ^= pad[15] << 5);
      exec (pad[19] ^= pad[15] .^ 0x3574ed3);
      call major_23 pad[15] ];
    exec (pad[13] -= (e_sqrt seed));
    exec (ROREQ seed (IF (e_cos seed) THEN 7 ELSE pad[10]));
    exec (pad[16] ::= pad[15] * pad[16] * 0x4a);
    when (branch =? 1) [
      exec (pad[7] ^= 0xb3bb63f);
      exec (pad[4] -= pad[17] .^ 0x2217cf47);
      call major_24 seed ] ]).

Definition major_25 : proc :=
  with_branch ((pad[7] .^ pad[2] .^ seed) % 5) (fun branch => [
    exec (pad[2] -= 0x31b8a51 .& seed);
    when (branch =? 3) [
      exec (pad[2] ^= (IF (e_sin pad[13]) THEN 0xfd08092 ELSE pad[10]));
      exec (pad[9] &= 0x49a7e0c7);
      call0 minor_37 ];
    exec (pad[1] &= (ROR seed 29));
    exec (ROLEQ pad[12] (IF (e_cos pad[1]) THEN 27 ELSE pad[5]));
    when (branch =? 2) [
      TRY minor_4;
      exec (pad[2] ^= (IF (e_sin pad[13]) THEN 0xfd08092 ELSE pad[10]));
      call0 minor_36 ];
    exec (ROREQ seed (e_sqrt seed));
    exec (seed ^= 0xc63d7671 * seed);
    exec (pad[17] += pad[19] * 0x7a);
    when (branch =? 0) [
      exec (pad[10] += 0x8958821);
      exec (pad[18] *= pad[10] + 0x466e09cf);
      call major_23 pad[10] ];
    exec (ROREQ pad[18] (IF (e_cos pad[6]) THEN 0x11 ELSE pad[1]));
    when (branch =? 4) [
      TRY minor_7;
      exec (pad[9] ^= 0x3480eee);
      call major_24 seed ];
    exec (pad[10] -= (e_sqrt seed));
    exec (pad[11] &= seed * 0x3f);
    when (branch =? 0) [
      exec (pad[18] *= pad[10] + 0x466e09cf);
      exec (pad[13] *= 0x6ff7af6a);
      call major_19 pad[17] ];
    exec (ROLEQ pad[1] (pad[15] + 0x19)) ]).

Definition major_17 : proc :=
  with_branch ((pad[8] .^ pad[7] .^ pad[12]) % 6) (fun branch => [
    exec (pad[1] |= pad[4] .^ 0x10104d4);
    when (branch =? 3) [
      exec (minor_20);
      exec (ROREQ pad[9] 12);
      call0 minor_37 ];
    exec (seed ::= ((seed .^ 0x1ea9da8) + seed) * pad[18] * 0xd);
    when (branch =? 0) [
      TRY (minor_1 0x10381ff0);
      exec (pad[2] *= pad[3] + 0xd6863a6);
      call0 minor_36 ];
    exec (pad[14] += pad[12] * 0x19);
    exec (pad[2] -= (e_sqrt pad[5]));
    when (branch =? 4) [
      exec (pad[16] += 0x81063b22);
      exec (pad[9] ^= pad[7] * 0x44);
      call major_23 seed ];
    exec (pad[6] &= pad[4] - 0x679dca37);
    exec (pad[1] ^= pad[16] + 0x988db31);
    when (branch =? 0) [
      exec (pad[7] ^= 0xa98896dd);
      TRY minor_3;
      call major_24 pad[6] ];
    exec (pad[6] += (ROR seed 10));
    exec (seed -= (IF pad[0] .< 0x29ea2cb6 THEN pad[0] ELSE pad[3]));
    when (branch =? 2) [
      exec (minor_35);
      exec (pad[12] ^= pad[15] - 0xf5cfde0);
      call major_19 seed ];
    exec (seed *= (e_sqrt seed));
    exec (pad[5] *= (IF (e_cos seed) THEN 0x211af3c8 ELSE pad[19]));
    when (branch =? 5) [
      exec (minor_28);
      exec (pad[13] *= 0xa02fe00);
      call major_25 pad[13] ] ]).

Definition major_4 : proc :=
  with_branch (pad[6] % 7) (fun branch => [
    exec (seed ^= (ROL pad[3] 18));
    when (branch =? 6) [
      exec (pad[6] += pad[19] - 0x3f5675d6);
      TRY minor_5;
      call0 minor_37 ];
    exec (pad[15] += seed * 0x32);
    exec (pad[5] += 0xc93495e4 - pad[14]);
    when (branch =? 2) [
      TRY (minor_10 0x10db4a9d);
      exec (pad[6] += 0xfe07af0e - pad[3]);
      call0 minor_36 ];
    exec (pad[12] *= (IF (e_cos pad[14]) THEN 0xf5a79f2a ELSE pad[17]));
    when (branch =? 0) [
      exec (minor_17);
      exec (pad[9] |= pad[7] .^ 0x2a19119f);
      call major_23 pad[8] ];
    exec (pad[6] &= pad[7] .| 0xe02b5b1a);
    exec (pad[11] ^= (IF (e_cos pad[0]) THEN 0x3a2c762b ELSE seed));
    when (branch =? 4) [
      TRY minor_3;
      TRY (ROREQ pad[1] 0x1c);
      call major_24 seed ];
    exec (pad[3] -= (e_sqrt pad[9]));
    when (branch =? 5) [
      exec (pad[6] ^= 0x47a791f);
      exec (pad[0] += pad[18] .^ 0x4ac16b8d);
      call major_19 pad[18] ];
    exec (seed &= (IF (e_cos pad[7]) THEN 0xcdef2bf0 ELSE pad[3]));
    exec (pad[0] -= pad[15] * 0x43);
    when (branch =? 1) [
      exec (minor_19);
      exec (pad[6] ^= 0x424d4b7d);
      call major_25 pad[3] ];
    exec (pad[1] -= (ROR pad[18] 19));
    exec (pad[17] ^= (IF (e_sin pad[14]) THEN 0x69eaf2fd ELSE pad[16]));
    when (branch =? 0) [
      exec (pad[3] -= pad[0] .^ 0x185f3b0d);
      exec (pad[2] *= pad[3] + 0xd6863a6);
      call major_17 pad[14] ] ]).

Definition major_18 : proc :=
  with_branch ((pad[14] .^ pad[11] .^ pad[17]) .& 7) (fun branch => [
    exec (pad[11] ^= (ROR pad[13] 21));
    when (branch =? 5) [
      exec (pad[6] += pad[19] - 0x3f5675d6);
      exec (pad[9] ^= 0x94d017f);
      call0 minor_37 ];
    exec (ROREQ pad[3] (pad[16] * 0xf));
    when (branch =? 2) [
      exec (pad[5] += pad[0] .^ 0x3e17add3);
      exec (minor_34);
      call0 minor_36 ];
    exec (pad[11] -= (e_sqrt pad[9]));
    exec (pad[12] += 0x17267c5b - pad[11]);
    when (branch =? 3) [
      exec (minor_31 0xb);
      exec (pad[7] &= pad[13] .^ 0x21aaf758);
      call major_23 pad[0] ];
    exec (pad[17] ^= seed .^ 0x35eddea4);
    when (branch =? 0) [
      exec (pad[10] += 0x3409139c);
      exec (pad[19] ^= (IF (e_cos pad[9]) THEN 0x57337b8 ELSE pad[14]));
      call major_24 pad[6] ];
    exec (pad[6] *= pad[17] + 0xb89b51c);
    when (branch =? 1) [
      exec (pad[6] += 0xfe07af0e - pad[3]);
      TRY (minor_2 0x90254266);
      call major_19 pad[6] ];
    exec (pad[19] ^= (IF pad[3] .< 0x5755f00e THEN pad[3] ELSE pad[1]));
    exec (pad[15] ^= pad[12] * 0x17);
    when (branch =? 7) [
      exec (pad[13] *= (ROR pad[3] 5));
      exec (pad[13] *= (ROR pad[3] 5));
      call major_25 pad[9] ];
    exec (pad[10] += 0x395f1d29 - seed);
    when (branch =? 0) [
      exec (pad[12] += 0x2272516f);
      exec (pad[13] *= 0x48e3e7ac);
      call major_17 pad[16] ];
    exec (ROLEQ pad[1] (ROL pad[8] 20));
    exec (seed -= pad[9] .^ 0xc9c0bd95);
    when (branch =? 6) [
      TRY (minor_2 0x10b4eaef);
      exec (pad[12] += 0x222fe8f5);
      call major_4 seed ];
    exec (ROLEQ pad[18] (pad[7] .& 0x11)) ]).

Definition major_15 : proc :=
  with_branch ((pad[17] .^ seed .^ pad[19]) % 9) (fun branch => [
    exec (ROREQ pad[19] (pad[19] + 0xa));
    when (branch =? 4) [
      exec (minor_19);
      exec (pad[6] ^= 0xf4c1a1c8);
      call0 minor_37 ];
    exec (pad[5] ^= seed + 0x1ff8749d);
    when (branch =? 5) [
      exec (ROREQ pad[4] 0x19);
      exec (pad[9] += (ROL pad[4] 9));
      call0 minor_36 ];
    exec (pad[13] ^= pad[15] + 0x19ad9d3);
    when (branch =? 0) [
      exec (pad[14] |= pad[3] .^ 0x4345732);
      exec (minor_26);
      call major_23 pad[13] ];
    exec (ROREQ pad[3] (e_sqrt pad[9]));
    when (branch =? 1) [
      exec (pad[16] += 0x188ae78f);
      exec (pad[2] ^= pad[15] << 5);
      call major_24 pad[12] ];
    exec (seed ^= pad[12] .^ 0x82494ea7);
    when (branch =? 0) [
      exec (pad[14] |= pad[3] .^ 0x4345732);
      exec (pad[7] &= 0x97ea531);
      call major_19 pad[6] ];
    exec (ROLEQ pad[0] (0x82494ea7 .& seed));
    when (branch =? 7) [
      exec (minor_20);
      TRY (minor_9 0xd3d79cb4);
      call major_25 pad[6] ];
    exec (pad[18] ^= pad[9] - 0x5606038);
    when (branch =? 3) [
      exec (pad[13] += (IF pad[15] .< 0x137bffeb THEN pad[15] ELSE pad[11]));
      exec (pad[16] += 0x6a07a3d0);
      call major_17 pad[8] ];
    exec (pad[9] |= (IF (e_sin pad[7]) THEN 0x3ec62d23 ELSE pad[6]));
    when (branch =? 2) [
      exec (pad[18] *= pad[10] + 0x466e09cf);
      TRY minor_6;
      call major_4 pad[1] ];
    when (branch =? 6) [
      exec (minor_27);
      exec (minor_22);
      call major_18 pad[0] ] ]).

Definition major_3 : proc :=
  with_branch ((pad[5] .^ seed .^ pad[12]) % 10) (fun branch => [
    exec (seed *= pad[6] .| 0x4723b25);
    when (branch =? 0) [
      exec (minor_22);
      TRY minor_5;
      call0 minor_37 ];
    exec (pad[2] -= pad[4] * 0xd);
    when (branch =? 5) [
      exec (pad[7] ^= 0x414517ea);
      exec (minor_29);
      call0 minor_36 ];
    exec (seed += pad[12] * 0x19);
    when (branch =? 1) [
      exec (pad[13] += (IF pad[15] .< 0x137bffeb THEN pad[15] ELSE pad[11]));
      exec (minor_19);
      call major_23 seed ];
    exec (seed += pad[7] + 0xbd42ff0);
    when (branch =? 2) [
      exec (minor_29);
      exec (pad[16] += 0x1f5b0c59);
      call major_24 seed ];
    exec (pad[15] -= pad[0] .^ 0x16bee8c4);
    when (branch =? 4) [
      TRY minor_7;
      exec (minor_28);
      call major_19 seed ];
    exec (pad[18] ^= pad[11] + 0x9fd1847f);
    when (branch =? 6) [
      exec (pad[6] += pad[19] - 0x3f5675d6);
      exec (pad[6] += pad[19] - 0x3f5675d6);
      call major_25 seed ];
    exec (ROLEQ pad[14] pad[19]);
    when (branch =? 8) [
      exec (minor_30);
      exec (pad[12] += pad[6] + 0x21d7bf61);
      call major_17 seed ];
    exec (ROREQ pad[0] (pad[13] * 0x13));
    when (branch =? 9) [
      TRY (minor_2 0x70da1d6f);
      exec (minor_29);
      call major_4 seed ];
    when (branch =? 7) [
      exec (minor_22);
      TRY minor_3;
      call major_18 pad[5] ];
    when (branch =? 3) [
      exec (minor_17);
      exec (pad[2] ^= pad[15] << 5);
      call major_15 pad[19] ] ]).

Definition major_21 : proc :=
  with_branch ((pad[1] .^ pad[0] .^ pad[16]) % 11) (fun branch => [
    when (branch =? 2) [
      exec (pad[2] *= pad[3] + 0xd6863a6);
      exec (pad[12] ^= pad[15] - 0xf5cfde0);
      call0 minor_37 ];
    exec (pad[5] -= seed);
    when (branch =? 8) [
      exec (pad[16] += 0x2b058ae8);
      exec (pad[6] += 0xfe07af0e - pad[3]);
      call0 minor_36 ];
    exec (pad[17] ^= (ROL pad[18] 28));
    when (branch =? 4) [
      exec (pad[2] *= pad[3] + 0xd6863a6);
      exec (minor_32 0x79fb5201);
      call major_23 pad[7] ];
    exec (pad[0] ^= (e_sqrt pad[12]));
    when (branch =? 0) [
      exec (pad[19] ^= pad[15] .^ 0x3574ed3);
      TRY minor_5;
      call major_24 pad[2] ];
    exec (pad[10] ^= seed * 0x6c);
    when (branch =? 9) [
      exec (pad[2] ^= (IF (e_sin pad[13]) THEN 0xfd08092 ELSE pad[10]));
      exec (minor_32 0x6ddf8c10);
      call major_19 pad[10] ];
    exec (pad[8] -= (IF (e_cos pad[12]) THEN 0x8759908e ELSE seed));
    when (branch =? 7) [
      exec (minor_19);
      exec (minor_29);
      call major_25 pad[1] ];
    exec (seed ^= (IF (e_sin seed) THEN 0x2c99fade ELSE pad[14]));
    when (branch =? 1) [
      TRY (minor_12 0x3fcf3163);
      exec (pad[9] ^= pad[7] * 0x44);
      call major_17 seed ];
    exec (pad[15] += (IF (e_cos pad[11]) THEN 0x1bec01f ELSE seed));
    when (branch =? 5) [
      exec (pad[13] *= 0x1bd5157f);
      exec (pad[6] += pad[19] - 0x3f5675d6);
      call major_4 pad[15] ];
    exec (ROREQ pad[1] (0x80d9edac * pad[16]));
    when (branch =? 0) [
      TRY (minor_10 0xfde30e03);
      exec (pad[9] |= pad[7] .^ 0x2a19119f);
      call major_18 seed ];
    exec (pad[7] &= pad[15] * 0xa8f285);
    when (branch =? 10) [
      exec (pad[7] ^= 0xef011757);
      exec (ROREQ pad[9] 9);
      call major_15 pad[13] ];
    when (branch =? 3) [
      exec (pad[12] += pad[6] + 0x21d7bf61);
      exec (pad[6] += pad[19] - 0x3f5675d6);
      call major_3 pad[10] ];
    exec (pad[3] *= (IF (e_sin pad[8]) THEN 0x5b51fb19 ELSE pad[2]));
    when (branch =? 6) [
      exec (pad[9] += (ROL pad[4] 9));
      exec (minor_22);
      call0 minor_37 ];
    exec (pad[11] ^= pad[17] * 0x44) ]).

Definition major_16 : proc :=
  with_branch ((pad[11] .^ seed .^ pad[5]) % 12) (fun branch => [
    when (branch =? 5) [
      exec (pad[2] *= pad[3] + 0xd6863a6);
      exec (minor_22);
      call0 minor_37 ];
    exec (pad[4] ^= seed - 0xafd4eac);
    when (branch =? 2) [
      TRY minor_5;
      exec (pad[0] += pad[18] .^ 0x4ac16b8d);
      call0 minor_36 ];
    exec (pad[15] -= 0xafd4eac .^ seed);
    when (branch =? 0) [
      TRY (minor_2 0x80e3e69e);
      exec (ROREQ pad[9] 12);
      call major_23 pad[4] ];
    exec (pad[8] ^= (e_sqrt pad[16]));
    when (branch =? 3) [
      exec (pad[9] ^= 0x8e61a4f);
      exec (pad[13] -= pad[1]);
      call major_24 seed ];
    when (branch =? 10) [
      exec (pad[6] += pad[19] - 0x3f5675d6);
      exec (pad[13] *= 0xa02fe00);
      call major_19 pad[6] ];
    when (branch =? 4) [
      TRY minor_8;
      TRY minor_5;
      call major_25 pad[0] ];
    exec (pad[8] ^= pad[15] * 0x5f);
    when (branch =? 0) [
      exec (minor_32 0x6191efec);
      exec (pad[13] += (IF pad[15] .< 0x137bffeb THEN pad[15] ELSE pad[11]));
      call major_17 pad[9] ];
    exec (seed -= seed .& 0x179da692);
    exec (pad[6] &= (IF (e_sin seed) THEN 0xcc35b823 ELSE pad[14]));
    when (branch =? 9) [
      exec (pad[6] += 0xfe07af0e - pad[3]);
      exec (pad[0] += pad[18] .^ 0x4ac16b8d);
      call major_4 pad[0] ];
    when (branch =? 6) [
      exec (pad[7] |= 0xa885099);
      exec (pad[9] ^= 0xdd34e6b);
      call major_18 seed ];
    when (branch =? 7) [
      exec (pad[12] += 0x5e6f4861);
      exec (pad[18] -= pad[13] .^ 0x154abcdf);
      call major_15 pad[14] ];
    exec (pad[10] += pad[1] + 0x217f7a00);
    when (branch =? 1) [
      exec (pad[0] += pad[18] .^ 0x4ac16b8d);
      exec (minor_27);
      call major_3 pad[17] ];
    exec (pad[5] &= (ROR pad[0] 14));
    when (branch =? 8) [
      exec (pad[2] *= pad[3] + 0xd6863a6);
      exec (pad[9] ^= pad[7] * 0x44);
      call major_21 pad[13] ];
    when (branch =? 11) [
      exec (minor_30);
      exec (pad[13] += (IF pad[15] .< 0x137bffeb THEN pad[15] ELSE pad[11]));
      call0 minor_37 ];
    exec (pad[12] |= (ROL pad[7] 14)) ]).

Definition major_1 : proc :=
  with_branch ((pad[17] .^ pad[4] .^ pad[13]) % 13) (fun branch => [
    when (branch =? 9) [
      exec (pad[7] |= 0x3e73450d);
      exec (minor_31 0x9);
      call0 minor_36 ];
    exec (pad[11] &= pad[19] .& 0x170b54ed);
    when (branch =? 10) [
      exec (pad[12] ^= pad[15] - 0xf5cfde0);
      exec (minor_27);
      call major_23 pad[8] ];
    exec (ROREQ pad[1] (IF pad[14] .< 0x164d8d96 THEN pad[14] ELSE pad[4]));
    when (branch =? 12) [
      TRY (minor_1 0xc0948cf0);
      exec (minor_28);
      call major_24 pad[18] ];
    when (branch =? 0) [
      exec (pad[12] ^= pad[15] - 0xf5cfde0);
      exec (minor_31 0x15);
      call major_19 pad[12] ];
    exec (ROLEQ pad[6] (pad[13] .^ 0x2));
    when (branch =? 6) [
      TRY (ROREQ pad[1] 0x4);
      exec (pad[9] ^= pad[7] * 0x44);
      call major_25 seed ];
    when (branch =? 3) [
      exec (pad[2] ^= (IF (e_sin pad[13]) THEN 0xfd08092 ELSE pad[10]));
      exec (pad[13] *= (ROR pad[3] 5));
      call major_17 pad[15] ];
    when (branch =? 0) [
      exec (minor_19);
      exec (pad[13] *= (ROR pad[3] 5));
      call major_4 pad[8] ];
    exec (seed += (IF (e_sin seed) THEN 0x160df35d ELSE seed));
    exec (seed &= pad[19] .| 0xe00682c6);
    when (branch =? 1) [
      exec (pad[7] &= pad[13] .^ 0x21aaf758);
      exec (pad[9] |= pad[7] .^ 0x2a19119f);
      call major_18 pad[12] ];
    exec (pad[16] += (IF (e_sin seed) THEN 0xe00682c6 ELSE pad[7]));
    when (branch =? 2) [
      exec (pad[13] += (IF pad[15] .< 0x137bffeb THEN pad[15] ELSE pad[11]));
      exec (pad[19] ^= (IF (e_cos pad[9]) THEN 0x57337b8 ELSE pad[14]));
      call major_15 seed ];
    when (branch =? 7) [
      exec (pad[4] -= pad[17] .^ 0x2217cf47);
      exec (pad[13] *= (ROR pad[3] 5));
      call major_3 pad[14] ];
    when (branch =? 4) [
      exec (pad[19] ^= (IF (e_cos pad[9]) THEN 0x57337b8 ELSE pad[14]));
      exec (minor_34);
      call major_21 pad[18] ];
    exec (pad[5] *= (e_sqrt pad[9]));
    when (branch =? 11) [
      exec (ROREQ pad[4] 0x2);
      exec (minor_32 0x8517ae30);
      call major_16 pad[4] ];
    exec (pad[13] &= pad[18] - 0xeb6dee4);
    when (branch =? 5) [
      exec (minor_30);
      TRY minor_3;
      call0 minor_36 ];
    when (branch =? 8) [
      exec (pad[7] |= 0x7de964ed);
      TRY minor_4;
      call major_23 pad[3] ] ]).

Definition major_14 : proc :=
  with_branch ((pad[8] .^ seed .^ pad[11]) % 14) (fun branch => [
    when (branch =? 0) [
      TRY (minor_1 0xe32bdca0);
      exec (minor_30);
      call major_23 pad[19] ];
    exec (seed -= seed .^ 0xf74450ff);
    when (branch =? 1) [
      exec (minor_32 0x788c78a4);
      exec (pad[13] -= pad[1]);
      call major_24 seed ];
    exec (pad[13] -= (IF (e_cos pad[3]) THEN 0xf74450ff ELSE pad[4]));
    when (branch =? 9) [
      exec (pad[9] |= pad[7] .^ 0x2a19119f);
      exec (ROREQ pad[9] 11);
      call major_19 seed ];
    exec (pad[9] ^= pad[6] * 0x59);
    when (branch =? 7) [
      exec (minor_26);
      exec (pad[6] += 0xfe07af0e - pad[3]);
      call major_25 pad[11] ];
    when (branch =? 8) [
      exec (pad[13] -= pad[1]);
      exec (pad[4] ^= 0xb949718c);
      call major_17 pad[7] ];
    exec (pad[1] ^= (IF (e_sin seed) THEN 0xc90f1504 ELSE pad[17]));
    when (branch =? 13) [
      exec (pad[9] &= 0x59d432be);
      exec (pad[18] -= pad[13] .^ 0x154abcdf);
      call major_4 pad[4] ];
    exec (pad[17] += (IF pad[13] .< 0xac24eb8 THEN pad[13] ELSE pad[9]));
    when (branch =? 5) [
      exec (pad[4] ^= 0x3bcc51a7);
      exec (pad[12] += 0x4ec6cf36);
      call major_18 pad[1] ];
    exec (seed |= (ROR pad[18] 11));
    when (branch =? 3) [
      exec (minor_20);
      exec (pad[5] -= pad[15]);
      call major_15 pad[0] ];
    exec (pad[4] += seed + 0xf65efbd);
    when (branch =? 10) [
      TRY minor_5;
      exec (pad[2] *= pad[3] + 0xd6863a6);
      call major_3 pad[5] ];
    when (branch =? 11) [
      exec (pad[7] &= 0xdf76eba8);
      TRY minor_6;
      call major_21 seed ];
    exec (pad[4] ^= (ROL pad[8] 22));
    when (branch =? 6) [
      TRY (minor_10 0xec30bd82);
      exec (pad[2] *= pad[3] + 0xd6863a6);
      call major_16 pad[13] ];
    exec (seed *= pad[6] + 0x6bbeb974);
    when (branch =? 2) [
      exec (pad[18] *= pad[10] + 0x466e09cf);
      exec (pad[2] *= pad[3] + 0xd6863a6);
      call major_1 pad[6] ];
    exec (pad[16] -= pad[2] * 0x65a10fa8);
    when (branch =? 12) [
      exec (pad[19] ^= pad[15] .^ 0x3574ed3);
      exec (ROREQ pad[9] 15);
      call major_23 pad[14] ];
    exec (ROREQ pad[13] (e_sqrt seed));
    when (branch =? 4) [
      exec (minor_19);
      exec (minor_17);
      call major_24 pad[0] ];
    when (branch =? 0) [
      exec (pad[7] ^= 0xc9d1f4a2);
      exec (minor_26);
      call major_19 seed ];
    exec (pad[12] -= (IF (e_sin pad[10]) THEN 0x2818ae3c ELSE seed)) ]).

Definition major_6 : proc :=
  with_branch (pad[17] % 15) (fun branch => [
    when (branch =? 0) [
      exec (pad[13] += (IF pad[15] .< 0x137bffeb THEN pad[15] ELSE pad[11]));
      exec (pad[13] *= 0x22dd951f);
      call major_24 pad[8] ];
    exec (pad[11] -= (IF (e_sin pad[9]) THEN 0xe205322c ELSE pad[7]));
    when (branch =? 13) [
      TRY (ROREQ pad[1] 0x4);
      exec (pad[12] ^= pad[15] - 0xf5cfde0);
      call major_19 pad[0] ];
    exec (pad[10] -= pad[6] .^ 0x1289de2);
    when (branch =? 8) [
      exec (ROREQ pad[9] 10);
      TRY minor_13;
      call major_25 pad[4] ];
    when (branch =? 5) [
      exec (pad[13] *= 0x6a94c749);
      exec (pad[18] -= pad[13] .^ 0x154abcdf);
      call major_17 seed ];
    exec (ROLEQ pad[16] (e_sqrt pad[17]));
    when (branch =? 2) [
      exec (pad[16] += 0x3f147441);
      call major_4 pad[16] ];
    exec (pad[9] += (e_sqrt pad[3]));
    when (branch =? 14) [
      exec (ROREQ pad[9] 15);
      exec (pad[13] -= pad[1]);
      call major_18 seed ];
    exec (seed ::= pad[6] .^ seed .^ 0x202ab323);
    when (branch =? 9) [
      exec (pad[5] += pad[0] .^ 0x3e17add3);
      exec (pad[4] -= pad[17] .^ 0x2217cf47);
      call major_15 pad[8] ];
    when (branch =? 6) [
      exec (pad[2] *= pad[3] + 0xd6863a6);
      exec (pad[6] += pad[19] - 0x3f5675d6);
      call major_3 pad[16] ];
    exec (pad[15] ^= (e_sqrt pad[10]));
    when (branch =? 1) [
      TRY (minor_2 0xb30d40d0);
      exec (pad[10] *= pad[10] - 0x5eae6bf);
      call major_21 pad[13] ];
    exec (pad[0] -= pad[11] .^ 0x1284af29);
    when (branch =? 4) [
      exec (pad[5] += pad[0] .^ 0x3e17add3);
      exec (minor_29);
      call major_16 pad[17] ];
    exec (ROLEQ seed (pad[11] * 0x10));
    when (branch =? 11) [
      exec (pad[9] ^= 0x1d8f33a6);
      TRY (minor_9 0x13ee15c3);
      call major_1 pad[19] ];
    when (branch =? 0) [
      TRY minor_3;
      exec (pad[19] ^= (IF (e_cos pad[9]) THEN 0x57337b8 ELSE pad[14]));
      call major_14 pad[16] ];
    exec (pad[9] |= pad[9] .^ 0x2ad7629);
    when (branch =? 10) [
      TRY (ROREQ pad[1] 0xc);
      TRY (minor_9 0xe8869877);
      call major_24 seed ];
    exec (pad[4] *= pad[12] * 0x4a237369);
    when (branch =? 12) [
      exec (pad[9] += (ROL pad[4] 9));
      TRY minor_7;
      call major_19 pad[5] ];
    when (branch =? 7) [
      exec (pad[14] |= pad[3] .^ 0x4345732);
      TRY (minor_9 0xdd1ca541);
      call major_25 pad[1] ];
    exec (seed *= pad[4] + 0x76e5a087);
    when (branch =? 3) [
      TRY minor_5;
      TRY (minor_1 0x62f4d3c4);
      call major_17 seed ] ]).

Definition major_9 : proc :=
  with_branch (pad[8] .& 15) (fun branch => [
    when (branch =? 10) [
      exec (minor_29);
      exec (pad[7] &= pad[13] .^ 0x21aaf758);
      call major_19 pad[0] ];
    when (branch =? 3) [
      exec (pad[16] += 0x45e88961);
      TRY minor_8;
      call major_25 pad[15] ];
    when (branch =? 8) [
      TRY minor_6;
      exec (minor_22);
      call major_17 pad[2] ];
    exec (pad[8] |= pad[9] * 0x6a);
    when (branch =? 0) [
      exec (pad[7] &= 0x30004a24);
      exec (pad[9] ^= pad[7] * 0x44);
      call major_4 pad[11] ];
    when (branch =? 14) [
      exec (pad[13] += (IF pad[15] .< 0x137bffeb THEN pad[15] ELSE pad[11]));
      TRY minor_7;
      call major_18 pad[13] ];
    exec (pad[10] &= pad[6] - 0x1286a10);
    when (branch =? 12) [
      exec (pad[9] += (ROL pad[4] 9));
      TRY minor_4;
      call major_15 pad[17] ];
    when (branch =? 2) [
      TRY minor_8;
      exec (minor_20);
      call major_3 pad[13] ];
    exec (seed |= seed + 0x20029bc7);
    exec (ROREQ pad[14] (ROL seed 8));
    when (branch =? 9) [
      exec (pad[7] &= pad[13] .^ 0x21aaf758);
      exec (minor_26);
      call major_21 pad[5] ];
    exec (seed += 0x176cf052 - pad[12]);
    when (branch =? 15) [
      exec (pad[12] ^= pad[15] - 0xf5cfde0);
      exec (pad[13] *= 0xa02fe00);
      call major_16 seed ];
    when (branch =? 1) [
      exec (pad[13] *= (ROR pad[3] 5));
      exec (pad[19] ^= (IF (e_cos pad[9]) THEN 0x57337b8 ELSE pad[14]));
      call major_1 pad[17] ];
    exec (ROLEQ pad[8] (pad[4] .| 0xf));
    when (branch =? 5) [
      exec (pad[9] ^= pad[7] * 0x44);
      exec (pad[7] &= 0x1df23f52);
      call major_14 pad[6] ];
    when (branch =? 4) [
      exec (pad[5] -= pad[15]);
      exec (pad[6] ^= 0x851242df);
      call major_6 seed ];
    exec (pad[13] *= pad[2] * 0x65);
    when (branch =? 0) [
      exec (pad[14] |= pad[3] .^ 0x4345732);
      exec (pad[13] += (IF pad[15] .< 0x137bffeb THEN pad[15] ELSE pad[11]));
      call major_19 pad[10] ];
    when (branch =? 6) [
      exec (minor_29);
      exec (minor_22);
      call major_25 seed ];
    exec (pad[11] |= (ROR pad[17] 29));
    when (branch =? 13) [
      exec (pad[10] *= pad[10] - 0x5eae6bf);
      exec (pad[16] += 0x5e01d54b);
      call major_17 pad[18] ];
    exec (pad[17] &= seed * 0x30);
    when (branch =? 7) [
      exec (minor_27);
      TRY (minor_12 0x65ec261);
      call major_4 pad[0] ];
    when (branch =? 11) [
      exec (pad[14] |= pad[3] .^ 0x4345732);
      exec (pad[0] += pad[18] .^ 0x4ac16b8d);
      call major_18 pad[16] ];
    exec (pad[13] |= pad[3] * 0x3e) ]).

Definition major_2 : proc :=
  with_branch (pad[10] .& 15) (fun branch => [
    when (branch =? 5) [
      exec (minor_27);
      exec (pad[7] &= pad[13] .^ 0x21aaf758);
      call major_25 pad[0] ];
    exec (pad[0] -= seed * 0x36);
    when (branch =? 13) [
      exec (pad[2] *= pad[3] + 0xd6863a6);
      exec (pad[6] += 0xfe07af0e - pad[3]);
      call major_17 seed ];
    when (branch =? 12) [
      exec (pad[6] ^= 0x9374c368);
      exec (pad[7] &= 0xc45b99ee);
      call major_4 pad[14] ];
    exec (pad[7] -= pad[8] .| 0x1a1a9407);
    when (branch =? 6) [
      exec (ROREQ pad[9] 12);
      exec (pad[3] -= pad[0] .^ 0x185f3b0d);
      call major_18 pad[14] ];
    exec (pad[2] += pad[0] + 0x19259d5);
    when (branch =? 8) [
      exec (pad[9] ^= pad[7] * 0x44);
      exec (pad[2] ^= pad[15] << 5);
      call major_15 seed ];
    when (branch =? 11) [
      exec (minor_34);
      exec (pad[3] -= pad[0] .^ 0x185f3b0d);
      call major_3 pad[15] ];
    exec (pad[16] &= seed - 0x1badcb5);
    when (branch =? 15) [
      exec (pad[14] |= pad[3] .^ 0x4345732);
      exec (ROREQ pad[4] 0x1);
      call major_21 pad[3] ];
    exec (pad[5] -= (IF (e_cos pad[4]) THEN 0xffcdb92f ELSE pad[14]));
    when (branch =? 1) [
      exec (pad[13] -= pad[1]);
      exec (pad[7] |= 0x45e184c5);
      call major_16 pad[9];
      TRY (minor_1 0x149a97a0);
      TRY (minor_10 0xd87d888e);
      call major_1 pad[9] ];
    exec (pad[5] *= pad[8] + 0xffcdb92f);
    when (branch =? 4) [
      TRY (minor_10 0x130aa218);
      exec (pad[13] *= (ROR pad[3] 5));
      call major_14 pad[6] ];
    exec (ROLEQ pad[1] (IF pad[15] .< 0xbdc3f45b THEN pad[15] ELSE pad[9]));
    when (branch =? 14) [
      exec (minor_30);
      exec (pad[13] *= 0x7f0d5ead);
      call major_6 pad[5] ];
    when (branch =? 0) [
      exec (pad[6] += pad[19] - 0x3f5675d6);
      TRY minor_5;
      call major_9 seed ];
    exec (pad[6] += pad[3] * 0x79);
    when (branch =? 9) [
      exec (pad[9] &= 0x3eb4ed97);
      exec (minor_30);
      call major_25 pad[6] ];
    exec (pad[16] ^= (IF (e_cos pad[7]) THEN 0x2d36f243 ELSE pad[13]));
    when (branch =? 0) [
      exec (pad[0] += pad[18] .^ 0x4ac16b8d);
      exec (minor_28);
      call major_17 pad[2] ];
    when (branch =? 7) [
      exec (pad[10] += 0x8958821);
      TRY (minor_1 0x115e64d4);
      call major_4 pad[19] ];
    exec (pad[14] &= pad[3] .^ 0xb8eb772d);
    when (branch =? 10) [
      exec (pad[13] -= pad[1]);
      exec (pad[2] ^= pad[15] << 5);
      call major_18 pad[8] ];
    exec (ROREQ pad[1] (pad[12] * 0x5));
    when (branch =? 3) [
      exec (pad[2] ^= (IF (e_sin pad[13]) THEN 0xfd08092 ELSE pad[10]));
      exec (pad[2] ^= (IF (e_sin pad[13]) THEN 0xfd08092 ELSE pad[10]));
      call major_15 pad[15] ];
    when (branch =? 2) [
      exec (pad[7] &= 0x5cf54b9a);
      exec (pad[13] *= 0xa02fe00);
      call major_3 pad[14] ];
    exec (pad[12] ^= (IF (e_sin pad[0]) THEN 0x96d5a5a4 ELSE pad[5])) ]).

Definition major_5 : proc :=
  with_branch ((pad[13] .^ pad[6] .^ pad[16]) .& 15) (fun branch => [
    when (branch =? 7) [
      exec (minor_20);
      exec (pad[9] += (ROL pad[4] 9));
      call major_17 pad[15] ];
    exec (pad[2] ^= pad[15] - 0xe09f62af);
    when (branch =? 15) [
      exec (minor_31 0x7);
      exec (pad[9] |= pad[7] .^ 0x2a19119f);
      call major_4 pad[10] ];
    when (branch =? 14) [
      exec (pad[9] ^= 0x19b844e);
      exec (pad[5] -= pad[15]);
      call major_18 seed ];
    exec (pad[5] += pad[8] * 0x49);
    when (branch =? 4) [
      exec (pad[14] |= pad[3] .^ 0x4345732);
      TRY minor_8;
      call major_15 pad[19] ];
    when (branch =? 1) [
      exec (minor_27);
      exec (minor_17);
      call major_3 pad[4] ];
    exec (seed += (IF pad[16] .< 0x4dfe57f8 THEN pad[16] ELSE pad[17]));
    when (branch =? 2) [
      exec (pad[13] *= 0x7ae310dc);
      exec (pad[12] ^= pad[15] - 0xf5cfde0);
      call major_21 pad[11];
      exec (pad[13] *= (ROR pad[3] 5));
      exec (minor_20);
      call major_16 pad[10] ];
    exec (pad[5] += pad[6] + 0xd5c1b299);
    when (branch =? 10) [
      exec (pad[19] ^= (IF (e_cos pad[9]) THEN 0x57337b8 ELSE pad[14]));
      exec (pad[9] |= pad[7] .^ 0x2a19119f);
      call major_1 pad[10] ];
    when (branch =? 12) [
      exec (pad[16] += 0x203fdf50);
      exec (minor_20);
      call major_14 pad[8] ];
    exec (pad[1] += (IF (e_sin seed) THEN 0xbabd3794 ELSE seed));
    when (branch =? 6) [
      exec (pad[4] ^= 0xca8e79ab);
      exec (pad[13] -= pad[1]);
      call major_6 pad[14] ];
    when (branch =? 3) [
      exec (pad[13] += (IF pad[15] .< 0x137bffeb THEN pad[15] ELSE pad[11]));
      exec (pad[2] ^= pad[15] << 5);
      call major_9 seed ];
    exec (pad[3] |= (IF (e_cos pad[3]) THEN 0xbabd3794 ELSE pad[17]));
    when (branch =? 9) [
      exec (minor_17);
      exec (pad[5] -= pad[15]);
      call major_2 seed ];
    when (branch =? 13) [
      exec (ROREQ pad[4] 0x2);
      exec (pad[4] -= pad[17] .^ 0x2217cf47);
      call major_17 seed ];
    exec (seed ^= pad[2] * 0xb25bcc4d);
    when (branch =? 11) [
      exec (pad[19] += 0x12b9e29d - pad[12]);
      exec (pad[7] &= pad[13] .^ 0x21aaf758);
      call major_4 pad[17] ];
    when (branch =? 0) [
      exec (pad[12] ^= pad[15] - 0xf5cfde0);
      exec (minor_31 0x7);
      call major_18 seed ];
    exec (pad[8] += 0xf1030e9c - pad[12]);
    when (branch =? 5) [
      exec (pad[6] ^= 0xea99e155);
      exec (pad[19] += 0x12b9e29d - pad[12]);
      call major_15 seed ];
    when (branch =? 8) [
      exec (pad[7] &= 0x710c48e8);
      exec (pad[2] *= pad[3] + 0xd6863a6);
      call major_3 pad[17] ];
    exec (pad[15] += 0xa8f341c7 - pad[1]);
    when (branch =? 0) [
      exec (pad[2] *= pad[3] + 0xd6863a6);
      exec (pad[3] -= pad[0] .^ 0x185f3b0d);
      call major_21 seed ];
    when (branch =? 1) [
      TRY minor_3;
      exec (pad[12] *= pad[12]);
      call major_16 pad[12] ];
    exec (pad[6] *= pad[5] * 0x1d) ]).

Definition major_12 : proc :=
  with_branch ((pad[7] .^ seed .^ pad[18]) .& 15) (fun branch => [
    when (branch =? 15) [
      TRY minor_7;
      exec (pad[13] += (IF pad[15] .< 0x137bffeb THEN pad[15] ELSE pad[11]));
      call major_4 pad[17] ];
    exec (pad[8] |= seed + 0xe43fc6b);
    when (branch =? 1) [
      exec (minor_32 0x979304f6);
      exec (minor_26);
      call major_18 pad[6] ];
    when (branch =? 8) [
      exec (minor_20);
      TRY (minor_12 0xf7131053);
      call major_15 pad[13] ];
    exec (pad[19] ^= seed * 0x4b);
    when (branch =? 1) [
      exec (pad[13] *= 0x85695585);
      exec (pad[13] *= 0x2c9514d7);
      call major_3 pad[17] ];
    when (branch =? 10) [
      exec (pad[9] |= pad[7] .^ 0x2a19119f);
      TRY (minor_1 0x433a0094);
      call major_21 pad[8] ];
    exec (pad[1] ^= pad[14] * 0x16);
    when (branch =? 0) [
      exec (pad[13] *= 0x136644be);
      TRY minor_6;
      call major_16 pad[14] ];
    exec (pad[7] |= seed .^ 0xe857063);
    when (branch =? 4) [
      exec (pad[18] -= pad[13] .^ 0x154abcdf);
      exec (pad[12] += 0xf894616a);
      call major_1 pad[6] ];
    when (branch =? 9) [
      TRY minor_3;
      exec (pad[7] &= 0x3b887f26);
      call major_14 pad[7] ];
    exec (ROREQ pad[6] (pad[9] * 0x8413f1b6));
    when (branch =? 3) [
      TRY (minor_9 0xcd88ea76);
      TRY minor_8;
      call major_6 pad[19] ];
    when (branch =? 13) [
      exec (ROREQ pad[9] 5);
      TRY (ROREQ pad[1] 0x8);
      call major_9 pad[1] ];
    exec (pad[6] -= (IF pad[17] .< 0x417e2f7b THEN pad[17] ELSE pad[19]));
    when (branch =? 5) [
      exec (pad[9] |= pad[7] .^ 0x2a19119f);
      exec (minor_19);
      call major_2 pad[1] ];
    when (branch =? 12) [
      exec (pad[13] -= pad[1]);
      exec (pad[0] += pad[6] * 0x3c);
      call major_5 pad[7] ];
    exec (pad[6] |= (e_sqrt seed));
    when (branch =? 2) [
      exec (pad[2] ^= pad[15] << 5);
      exec (pad[7] &= pad[13] .^ 0x21aaf758);
      call major_4 seed ];
    exec (pad[2] ^= pad[8] + 0x3e85747b);
    when (branch =? 0) [
      exec (minor_20);
      exec (pad[9] &= 0x5a61aa8d);
      call major_18 pad[14] ];
    when (branch =? 11) [
      exec (pad[6] += 0xfe07af0e - pad[3]);
      exec (minor_32 0xbf47f027);
      call major_15 pad[3] ];
    exec (pad[2] &= seed);
    when (branch =? 3) [
      exec (pad[13] *= 0xc9cf079);
      exec (pad[18] -= pad[13] .^ 0x154abcdf);
      call major_3 pad[4] ];
    when (branch =? 7) [
      exec (pad[12] ^= pad[15] - 0xf5cfde0);
      TRY minor_4;
      call major_21 pad[14] ];
    exec (seed += pad[9] - 0xbc1b5d9);
    when (branch =? 14) [
      TRY minor_8;
      exec (pad[9] ^= pad[7] * 0x44);
      call major_16 seed ];
    exec (pad[18] += pad[11] * 0x5b);
    when (branch =? 2) [
      exec (pad[7] &= pad[13] .^ 0x21aaf758);
      exec (minor_17);
      call major_1 pad[1] ];
    when (branch =? 6) [
      exec (pad[2] ^= pad[15] << 5);
      exec (pad[18] -= pad[13] .^ 0x154abcdf);
      call major_14 seed ];
    exec (pad[4] ^= pad[4] - 0xe87fd622) ]).

Definition major_11 : proc :=
  with_branch ((pad[6] .^ seed .^ pad[14]) .& 15) (fun branch => [
    when (branch =? 2) [
      exec (pad[19] ^= pad[15] .^ 0x3574ed3);
      exec (pad[13] -= pad[1]);
      call major_18 pad[0] ];
    when (branch =? 0) [
      exec (pad[7] ^= 0x414517ea);
      TRY minor_4;
      call major_15 pad[13] ];
    exec (pad[14] &= seed * 0x3f);
    when (branch =? 10) [
      exec (minor_19);
      exec (pad[9] &= 0x38063558);
      call major_3 pad[10] ];
    when (branch =? 15) [
      exec (minor_34);
      exec (pad[12] += 0x5c1481dd);
      call major_21 pad[11] ];
    exec (ROREQ pad[10] (pad[14] * 0x13));
    when (branch =? 8) [
      exec (pad[19] ^= (IF (e_cos pad[9]) THEN 0x57337b8 ELSE pad[14]));
      exec (pad[12] ^= pad[15] - 0xf5cfde0);
      call major_16 seed ];
    when (branch =? 4) [
      exec (pad[3] -= pad[0] .^ 0x185f3b0d);
      exec (pad[6] ^= 0xa8115127);
      call major_1 pad[5] ];
    exec (pad[11] ^= seed - 0x3c17609c);
    when (branch =? 1) [
      exec (pad[12] += pad[6] .^ 0x211f5e40);
      exec (minor_29);
      call major_14 seed ];
    when (branch =? 7) [
      exec (ROREQ pad[9] 11);
      TRY minor_3;
      call major_6 pad[11] ];
    exec (pad[14] += (IF (e_sin pad[9]) THEN 0x2d3f1771 ELSE pad[11]));
    when (branch =? 5) [
      TRY minor_8;
      exec (pad[0] += pad[18] .^ 0x4ac16b8d);
      call major_9 pad[9] ];
    when (branch =? 2) [
      exec (pad[12] *= 0xf44cb55);
      exec (minor_31 0x1f);
      call major_2 pad[13] ];
    when (branch =? 1) [
      exec (pad[9] &= 0x3f34e168);
      exec (pad[18] *= pad[10] + 0x466e09cf);
      call major_5 seed ];
    exec (pad[18] &= pad[17] + 0x21012257);
    when (branch =? 14) [
      exec (pad[6] += 0xfe07af0e - pad[3]);
      TRY (minor_2 0x51f9a91a);
      call major_12 pad[14] ];
    when (branch =? 12) [
      exec (pad[14] |= pad[3] .^ 0x4345732);
      exec (pad[16] += 0x485c892b);
      call major_18 pad[12] ];
    exec (pad[19] &= pad[10] .^ 0x6fc516d5);
    when (branch =? 6) [
      TRY minor_5;
      exec (pad[12] += pad[6] .^ 0x211f5e40);
      call major_15 pad[13] ];
    when (branch =? 11) [
      TRY minor_6;
      exec (minor_28);
      call major_3 seed ];
    exec (pad[8] ^= pad[11] * 0x7b);
    when (branch =? 4) [
      exec (pad[2] *= pad[3] + 0xd6863a6);
      exec (minor_26);
      call major_21 pad[4] ];
    when (branch =? 3) [
      exec (pad[19] ^= pad[15] .^ 0x3574ed3);
      exec (minor_17);
      call major_16 pad[9] ];
    exec (pad[0] += pad[13] + 0x88a77a94);
    when (branch =? 0) [
      TRY (minor_2 0xf10f9d87);
      exec (pad[12] ^= pad[15] - 0xf5cfde0);
      call major_1 pad[15] ];
    when (branch =? 9) [
      exec (pad[13] -= pad[1]);
      exec (pad[2] ^= (IF (e_sin pad[13]) THEN 0xfd08092 ELSE pad[10]));
      call major_14 pad[18] ];
    exec (seed *= pad[8] - 0x44260e37);
    when (branch =? 3) [
      exec (minor_26);
      exec (pad[10] += 0x8958821);
      call major_6 pad[8] ];
    when (branch =? 13) [
      exec (pad[0] += pad[18] .^ 0x4ac16b8d);
      exec (pad[7] ^= 0x129d6c5e);
      call major_9 seed ];
    exec (pad[2] &= (ROL pad[19] 14)) ]).

Definition major_13 : proc :=
  with_branch ((pad[4] .^ seed .^ pad[18]) .& 15) (fun branch => [
    when (branch =? 12) [
      exec (minor_29);
      exec (pad[9] |= pad[7] .^ 0x2a19119f);
      call major_15 pad[11] ];
    when (branch =? 4) [
      exec (ROREQ pad[9] 10);
      exec (pad[12] ^= pad[15] - 0xf5cfde0);
      call major_3 seed ];
    exec (seed ^= pad[1] * 0x6c);
    when (branch =? 1) [
      TRY (minor_12 0xad86172c);
      exec (pad[12] ^= pad[15] - 0xf5cfde0);
      call major_21 pad[7] ];
    when (branch =? 9) [
      exec (pad[0] += pad[6] * 0x3c);
      exec (pad[9] &= 0xa2cc0e51);
      call major_16 pad[10] ];
    exec (pad[11] += pad[8] - 0xef3b680);
    when (branch =? 5) [
      exec (minor_20);
      exec (pad[2] ^= (IF (e_sin pad[13]) THEN 0xfd08092 ELSE pad[10]));
      call major_1 seed ];
    when (branch =? 2) [
      exec (pad[12] += 0x1f3bc7f4);
      exec (pad[9] += (ROL pad[4] 9));
      call major_14 pad[3] ];
    exec (pad[19] -= seed .^ 0x42b04005);
    when (branch =? 8) [
      TRY minor_13;
      exec (pad[0] += pad[18] .^ 0x4ac16b8d);
      call major_6 pad[2] ];
    when (branch =? 3) [
      TRY minor_13;
      exec (minor_17);
      call major_9 seed ];
    exec (pad[0] += (e_sqrt pad[16]));
    when (branch =? 11) [
      exec (pad[12] ^= pad[15] - 0xf5cfde0);
      exec (ROREQ pad[4] 0x19);
      call major_2 pad[19] ];
    when (branch =? 13) [
      TRY minor_4;
      exec (minor_26);
      call major_5 pad[7] ];
    exec (seed += pad[17] .| 0xead7ac4a);
    when (branch =? 1) [
      TRY (minor_1 0xd3280a0);
      exec (pad[7] ^= 0x3eb9d37);
      call major_12 pad[12] ];
    when (branch =? 14) [
      exec (minor_28);
      exec (minor_31 0x1f);
      call major_11 seed ];
    exec (ROREQ pad[2] (IF pad[15] .< 0x3f2998c THEN pad[15] ELSE seed));
    when (branch =? 5) [
      TRY (minor_12 0x2dd0e73);
      exec (minor_26);
      call major_15 seed ];
    when (branch =? 3) [
      TRY (minor_9 0x21602b81);
      exec (pad[13] *= 0x52fa4a96);
      call major_3 seed ];
    exec (pad[4] += pad[2] .^ 0x1579499);
    when (branch =? 10) [
      TRY minor_7;
      exec (pad[5] += pad[0] .^ 0x3e17add3);
      call major_21 pad[5] ];
    when (branch =? 0) [
      TRY minor_5;
      exec (pad[0] += pad[6] * 0x3c);
      call major_16 pad[8] ];
    exec (seed -= pad[2] * 0x74);
    when (branch =? 0) [
      exec (pad[13] -= pad[1]);
      exec (pad[19] ^= pad[15] .^ 0x3574ed3);
      call major_1 seed ];
    when (branch =? 15) [
      exec (pad[9] &= 0x334ce7cf);
      TRY (minor_10 0xbcbc7bb);
      call major_14 seed ];
    exec (pad[10] -= pad[10] .| 0xae9eedbf);
    when (branch =? 6) [
      TRY minor_3;
      TRY minor_6;
      call major_6 pad[11] ];
    when (branch =? 4) [
      exec (pad[2] ^= (IF (e_sin pad[13]) THEN 0xfd08092 ELSE pad[10]));
      exec (pad[13] *= 0x9f7e2a0);
      call major_9 pad[19] ];
    exec (seed += pad[17] .^ 0xae9eedbf);
    when (branch =? 7) [
      TRY minor_8;
      exec (pad[18] *= pad[10] + 0x466e09cf);
      call major_2 pad[8] ];
    when (branch =? 2) [
      TRY minor_3;
      exec (pad[9] |= pad[7] .^ 0x2a19119f);
      call major_5 pad[18] ];
    exec (pad[16] -= (IF pad[11] .< 0x1e7d86ee THEN pad[11] ELSE seed)) ]).

Definition major_22 : proc :=
  with_branch ((pad[5] .^ pad[0] .^ seed) .& 15) (fun branch => [
    when (branch =? 3) [
      TRY minor_6;
      exec (minor_31 0x13);
      call major_3 seed ];
    when (branch =? 0) [
      exec (pad[6] ^= 0x6066818c);
      exec (pad[13] -= pad[1]);
      call major_21 pad[2] ];
    exec (pad[14] ^= (ROL pad[16] 22));
    when (branch =? 12) [
      exec (pad[10] += 0x830ba927);
      exec (minor_32 0x6f3a3876);
      call major_16 pad[8] ];
    when (branch =? 1) [
      exec (minor_34);
      exec (pad[16] += 0x1bc7b861);
      call major_1 pad[6] ];
    exec (pad[12] ^= (IF pad[11] .< 0x521b2180 THEN pad[11] ELSE pad[9]));
    when (branch =? 1) [
      exec (minor_31 0x12);
      exec (pad[0] += pad[6] * 0x3c);
      call major_14 pad[15] ];
    when (branch =? 8) [
      TRY minor_5;
      exec (pad[18] *= pad[10] + 0x466e09cf);
      call major_6 pad[13] ];
    when (branch =? 4) [
      exec (pad[9] += (ROL pad[4] 9));
      exec (pad[2] *= pad[3] + 0xd6863a6);
      call major_9 pad[16] ];
    exec (pad[18] &= (e_sqrt pad[9]));
    when (branch =? 5) [
      TRY minor_4;
      exec (pad[2] ^= pad[15] << 5);
      call major_2 pad[2] ];
    when (branch =? 6) [
      exec (pad[2] *= pad[3] + 0xd6863a6);
      exec (pad[6] += 0xfe07af0e - pad[3]);
      call major_5 pad[14] ];
    exec (pad[18] -= pad[16] * 0x77);
    when (branch =? 9) [
      exec (pad[4] ^= 0xa09619f7);
      exec (ROREQ pad[4] 0x19);
      call major_12 pad[10] ];
    when (branch =? 10) [
      exec (pad[12] ^= pad[15] - 0xf5cfde0);
      exec (pad[13] *= 0x6cd0251e);
      call major_11 pad[0] ];
    when (branch =? 6) [
      exec (pad[2] *= pad[3] + 0xd6863a6);
      exec (ROREQ pad[4] 0x1a);
      call major_13 seed ];
    exec (pad[13] ^= 0x4930de03 .^ seed);
    when (branch =? 2) [
      exec (pad[10] += 0x6467451);
      exec (pad[4] -= pad[17] .^ 0x2217cf47);
      call major_3 pad[2] ];
    when (branch =? 7) [
      exec (pad[4] -= pad[17] .^ 0x2217cf47);
      exec (pad[0] += pad[18] .^ 0x4ac16b8d);
      call major_21 pad[0] ];
    exec (pad[6] -= (e_sqrt pad[10]));
    when (branch =? 3) [
      TRY (minor_9 0x5b9d1f9);
      exec (pad[10] += 0x8958821);
      call major_16 pad[8] ];
    when (branch =? 4) [
      exec (pad[13] -= pad[1]);
      exec (pad[13] *= 0x72494c9c);
      call major_1 seed ];
    when (branch =? 13) [
      exec (pad[12] += pad[6] + 0x21d7bf61);
      exec (pad[13] *= (ROR pad[3] 5));
      call major_14 pad[2] ];
    exec (seed -= (ROR pad[8] 17));
    when (branch =? 15) [
      exec (pad[19] += 0x12b9e29d - pad[12]);
      exec (pad[0] += pad[6] * 0x3c);
      call major_6 pad[4] ];
    when (branch =? 2) [
      exec (pad[19] ^= (IF (e_cos pad[9]) THEN 0x57337b8 ELSE pad[14]));
      exec (minor_20);
      call major_9 pad[16] ];
    exec (ROREQ pad[14] (seed - 0x3b46a63f));
    when (branch =? 11) [
      exec (pad[19] ^= (IF (e_cos pad[9]) THEN 0x57337b8 ELSE pad[14]));
      exec (pad[9] += (ROL pad[4] 9));
      call major_2 pad[9] ];
    when (branch =? 5) [
      exec (pad[19] += 0x12b9e29d - pad[12]);
      TRY minor_4;
      call major_5 pad[6] ];
    when (branch =? 0) [
      exec (minor_20);
      exec (pad[6] ^= 0xa9c74969);
      call major_12 pad[14] ];
    exec (pad[8] ^= (ROR seed 6));
    when (branch =? 14) [
      exec (pad[12] += 0x49fc5980);
      exec (pad[3] -= pad[0] .^ 0x185f3b0d);
      call major_11 seed ];
    exec (pad[0] += (IF (e_sin pad[0]) THEN 0x9bcd446 ELSE pad[14])) ]).

Definition major_8 : proc :=
  with_branch ((pad[2] .^ seed .^ pad[17]) .& 15) (fun branch => [
    when (branch =? 7) [
      exec (pad[13] -= pad[1]);
      exec (minor_26);
      call major_21 seed ];
    when (branch =? 0) [
      exec (minor_35);
      TRY (minor_2 0xe0b52e33);
      call major_16 pad[15] ];
    exec (seed -= (ROR pad[2] 6));
    when (branch =? 5) [
      exec (pad[4] ^= 0x9aa940f);
      exec (pad[5] += pad[0] .^ 0x3e17add3);
      call major_1 pad[12] ];
    when (branch =? 1) [
      exec (minor_22);
      exec (minor_17);
      call major_14 pad[1] ];
    exec (pad[12] -= pad[17] * 0x74);
    when (branch =? 1) [
      exec (pad[12] += pad[6] + 0x21d7bf61);
      exec (pad[13] *= (ROR pad[3] 5));
      call major_6 pad[5] ];
    when (branch =? 14) [
      exec (pad[4] ^= 0x91ac407e);
      TRY minor_7;
      call major_9 seed ];
    exec (pad[3] ^= pad[7] + 0x137c9f7d);
    when (branch =? 0) [
      exec (pad[7] &= pad[13] .^ 0x21aaf758);
      exec (pad[2] ^= pad[15] << 5);
      call major_2 pad[5] ];
    when (branch =? 4) [
      exec (pad[10] += 0x8958821);
      exec (pad[16] += 0x3d2948e4);
      call major_5 pad[4] ];
    when (branch =? 3) [
      exec (pad[3] -= pad[0] .^ 0x185f3b0d);
      exec (pad[9] |= pad[7] .^ 0x2a19119f);
      call major_12 pad[12] ];
    exec (pad[11] += (IF pad[17] .< 0xc9a31cd6 THEN pad[17] ELSE pad[4]));
    when (branch =? 4) [
      exec (pad[9] ^= 0x1c686298);
      exec (pad[12] ^= pad[15] - 0xf5cfde0);
      call major_11 pad[9] ];
    when (branch =? 13) [
      exec (pad[7] |= 0x378d3869);
      TRY minor_13;
      call major_13 pad[13] ];
    exec (seed *= pad[12] + 0xbd99f684);
    when (branch =? 7) [
      exec (pad[6] += pad[19] - 0x3f5675d6);
      exec (pad[19] ^= (IF (e_cos pad[9]) THEN 0x57337b8 ELSE pad[14]));
      call major_22 seed ];
    when (branch =? 8) [
      exec (pad[13] *= 0x1dcee48b);
      exec (minor_30);
      call major_21 seed ];
    exec (pad[10] += 0xaa3373fc - pad[6]);
    when (branch =? 5) [
      exec (minor_31 0xe);
      TRY (minor_1 0xbc90d50);
      call major_16 seed ];
    when (branch =? 15) [
      exec (pad[9] |= pad[7] .^ 0x2a19119f);
      exec (pad[0] += pad[18] .^ 0x4ac16b8d);
      call major_1 seed ];
    when (branch =? 6) [
      exec (minor_34);
      exec (pad[2] ^= (IF (e_sin pad[13]) THEN 0xfd08092 ELSE pad[10]));
      call major_14 seed ];
    exec (seed ^= (IF pad[11] .< 0xa4dda95a THEN pad[11] ELSE pad[2]));
    when (branch =? 6) [
      exec (pad[16] += 0x1a36972b);
      exec (minor_17);
      call major_6 pad[5] ];
    when (branch =? 12) [
      TRY (minor_12 0xb6571d3f);
      exec (pad[0] += pad[6] * 0x3c);
      call major_9 pad[9] ];
    exec (seed *= pad[14] + 0x9baa8db);
    when (branch =? 9) [
      TRY (minor_9 0xe378a0ed);
      exec (pad[5] += pad[0] .^ 0x3e17add3);
      call major_2 pad[8] ];
    when (branch =? 11) [
      TRY (minor_10 0xbd149bd9);
      exec (minor_32 0x6476f303);
      call major_5 seed ];
    exec (pad[17] += (e_sqrt pad[12]));
    when (branch =? 10) [
      exec (pad[13] *= 0xa02fe00);
      exec (pad[12] += pad[6] + 0x21d7bf61);
      call major_12 pad[19] ];
    when (branch =? 3) [
      exec (pad[13] *= 0x111b84cd);
      exec (minor_30);
      call major_11 pad[2] ];
    exec (pad[7] ^= pad[9] * 0x27219096);
    when (branch =? 2) [
      exec (pad[6] += pad[19] - 0x3f5675d6);
      exec (pad[16] += 0xfe49a900);
      call major_13 pad[15];
      TRY minor_6;
      exec (pad[19] ^= (IF (e_cos pad[9]) THEN 0x57337b8 ELSE pad[14]));
      call major_22 pad[19] ];
    exec (ROLEQ pad[2] (0x6c0798b3 .^ seed)) ]).

Definition major_10 : proc :=
  with_branch ((pad[4] .^ pad[12] .^ pad[17]) .& 15) (fun branch => [
    when (branch =? 9) [
      TRY (minor_12 0x9febcd24);
      exec (pad[7] &= 0x259cf308);
      call major_16 pad[14] ];
    when (branch =? 4) [
      exec (pad[6] ^= 0xa7e6f9b9);
      exec (pad[10] *= pad[10] - 0x5eae6bf);
      call major_1 pad[2] ];
    exec (pad[9] += (IF pad[11] .< 0x3d7f80c THEN pad[11] ELSE pad[9]));
    when (branch =? 2) [
      exec (pad[12] += pad[6] + 0x21d7bf61);
      exec (pad[14] |= pad[3] .^ 0x4345732);
      call major_9 pad[1] ];
    when (branch =? 6) [
      TRY (minor_10 0xece6bfa0);
      exec (pad[14] |= pad[3] .^ 0x4345732);
      call major_14 seed ];
    when (branch =? 8) [
      TRY minor_7;
      exec (pad[18] *= pad[10] + 0x466e09cf);
      call major_6 pad[12] ];
    exec (pad[10] *= (IF (e_cos seed) THEN 0x16b578ee ELSE pad[2]));
    when (branch =? 6) [
      exec (minor_19);
      exec (minor_29);
      call major_2 pad[10] ];
    when (branch =? 13) [
      exec (pad[9] ^= pad[7] * 0x44);
      exec (minor_35);
      call major_5 pad[10] ];
    exec (pad[17] += seed * 0x4d);
    when (branch =? 1) [
      exec (minor_26);
      exec (pad[19] ^= (IF (e_cos pad[9]) THEN 0x57337b8 ELSE pad[14]));
      call major_12 seed;
      exec (pad[19] ^= pad[15] .^ 0x3574ed3);
      exec (pad[10] += 0x9f2550bd);
      call major_13 seed ];
    when (branch =? 14) [
      TRY minor_8;
      exec (minor_31 0x7);
      call major_11 pad[19] ];
    exec (ROLEQ seed (pad[7] * 0xd));
    when (branch =? 12) [
      exec (pad[9] &= 0x2f23cdc6);
      exec (pad[10] *= pad[10] - 0x5eae6bf);
      call major_22 pad[2] ];
    when (branch =? 3) [
      exec (minor_28);
      exec (minor_26);
      call major_8 pad[4];
      exec (pad[12] *= pad[12]);
      TRY minor_6;
      call major_16 pad[18] ];
    exec (pad[4] += (IF (e_sin pad[0]) THEN 0x1873296 ELSE pad[1]));
    when (branch =? 10) [
      exec (minor_26);
      TRY minor_13;
      call major_1 pad[8] ];
    when (branch =? 4) [
      exec (pad[12] *= 0xf44cb55);
      exec (pad[16] += 0x75a864cf);
      call major_14 pad[4] ];
    exec (pad[12] += 0x1c0bd6db - pad[11]);
    when (branch =? 2) [
      exec (pad[13] *= 0x17b441db);
      TRY (minor_12 0x8951503f);
      call major_9 pad[19] ];
    when (branch =? 7) [
      TRY minor_7;
      exec (minor_26);
      call major_6 pad[14] ];
    when (branch =? 11) [
      exec (pad[0] += pad[6] * 0x3c);
      exec (pad[4] -= pad[17] .^ 0x2217cf47);
      call major_2 pad[8] ];
    exec (pad[18] -= pad[6] * 0x2c);
    when (branch =? 0) [
      exec (pad[13] *= 0x1855aabc);
      TRY minor_3;
      call major_12 seed ];
    when (branch =? 5) [
      exec (pad[18] *= pad[10] + 0x466e09cf);
      exec (pad[9] ^= pad[7] * 0x44);
      call major_11 pad[10] ];
    when (branch =? 7) [
      exec (pad[18] *= pad[10] + 0x466e09cf);
      exec (minor_29);
      call major_5 pad[15] ];
    exec (pad[6] ^= pad[16] .^ 0x354e354d);
    when (branch =? 0) [
      TRY minor_8;
      exec (minor_22);
      call major_8 pad[8] ];
    when (branch =? 5) [
      exec (pad[6] += 0xfe07af0e - pad[3]);
      exec (pad[13] *= 0xa02fe00);
      call major_16 pad[10] ];
    when (branch =? 8) [
      exec (pad[14] |= pad[3] .^ 0x4345732);
      exec (minor_32 0x8a0e1ad7);
      call major_22 pad[8] ];
    when (branch =? 15) [
      exec (pad[9] |= pad[7] .^ 0x2a19119f);
      exec (minor_28);
      call major_13 seed ];
    exec (pad[3] += pad[13] + 0x3ba9c809) ]).

Definition major_7 : proc :=
  with_branch ((pad[10] .^ pad[11] .^ pad[18]) .& 15) (fun branch => [
    when (branch =? 3) [
      exec (minor_27);
      TRY (minor_2 0x54bcde17);
      call major_1 pad[14] ];
    when (branch =? 9) [
      exec (pad[7] &= pad[13] .^ 0x21aaf758);
      exec (pad[13] -= pad[1]);
      call major_14 pad[12] ];
    exec (pad[8] |= 0xc6ef5e80 + pad[1]);
    when (branch =? 2) [
      exec (pad[6] += pad[19] - 0x3f5675d6);
      exec (pad[6] += 0xfe07af0e - pad[3]);
      call major_6 pad[16] ];
    when (branch =? 5) [
      exec (pad[5] -= pad[15]);
      exec (pad[16] += 0x3fa3dc2f);
      call major_9 pad[5] ];
    when (branch =? 1) [
      exec (pad[13] += (IF pad[15] .< 0x137bffeb THEN pad[15] ELSE pad[11]));
      exec (pad[14] |= pad[3] .^ 0x4345732);
      call major_2 pad[3] ];
    exec (pad[15] -= 0xc6ef5e80 + pad[19]);
    when (branch =? 4) [
      exec (pad[2] ^= pad[15] << 5);
      exec (minor_28);
      call major_5 pad[7] ];
    when (branch =? 1) [
      exec (pad[0] += pad[6] * 0x3c);
      exec (minor_31 0x15);
      call major_12 pad[16] ];
    when (branch =? 9) [
      exec (pad[5] += pad[0] .^ 0x3e17add3);
      exec (pad[9] &= 0x4bd89b02);
      call major_11 pad[19] ];
    exec (seed -= pad[0] .^ 0x3b61016b);
    when (branch =? 4) [
      exec (pad[5] -= pad[15]);
      TRY (minor_9 0x1984a749);
      call major_13 pad[3] ];
    when (branch =? 3) [
      exec (pad[9] += (ROL pad[4] 9));
      exec (minor_28);
      call major_22 pad[4] ];
    when (branch =? 7) [
      TRY minor_3;
      exec (minor_31 0xd);
      call major_8 pad[5] ];
    exec (ROLEQ pad[11] (pad[10] .^ 0x1a));
    when (branch =? 8) [
      exec (pad[18] -= pad[13] .^ 0x154abcdf);
      exec (pad[19] += 0x12b9e29d - pad[12]);
      call major_10 seed ];
    when (branch =? 14) [
      exec (pad[19] += 0x12b9e29d - pad[12]);
      exec (ROREQ pad[9] 3);
      call major_1 seed ];
    exec (seed -= pad[14] * 0xc02e189f);
    when (branch =? 0) [
      exec (pad[6] ^= 0x94eaa20d);
      exec (minor_27);
      call major_14 pad[6] ];
    when (branch =? 13) [
      exec (pad[12] += 0x2ac57dfa);
      exec (pad[2] ^= pad[15] << 5);
      call major_6 pad[4] ];
    when (branch =? 8) [
      exec (pad[18] *= pad[10] + 0x466e09cf);
      exec (pad[13] -= pad[1]);
      call major_9 seed ];
    exec (pad[4] += 0xa207344d - seed);
    when (branch =? 12) [
      TRY (minor_2 0x80a1da17);
      exec (pad[13] *= 0xa02fe00);
      call major_2 pad[3] ];
    when (branch =? 2) [
      exec (pad[13] *= 0x6aa5cc8c);
      exec (pad[6] ^= 0xaefb322);
      call major_5 pad[9] ];
    when (branch =? 0) [
      exec (minor_31 0xb);
      exec (pad[5] += pad[0] .^ 0x3e17add3);
      call major_12 pad[5] ];
    exec (seed ^= pad[18] .^ 0xe6830c9);
    when (branch =? 6) [
      exec (pad[9] |= pad[7] .^ 0x2a19119f);
      exec (pad[7] &= pad[13] .^ 0x21aaf758);
      call major_11 seed ];
    when (branch =? 7) [
      exec (pad[3] -= pad[0] .^ 0x185f3b0d);
      TRY (minor_2 0xb11da063);
      call major_13 pad[3] ];
    when (branch =? 15) [
      exec (minor_34);
      exec (pad[4] ^= 0x41e634f6);
      call major_22 pad[17] ];
    exec (pad[0] ^= (IF (e_sin seed) THEN 0x8b50cd51 ELSE pad[8]));
    when (branch =? 11) [
      exec (minor_28);
      exec (pad[2] ^= pad[15] << 5);
      call major_8 seed ];
    when (branch =? 5) [
      exec (pad[9] += (ROL pad[4] 9));
      exec (pad[7] &= pad[13] .^ 0x21aaf758);
      call major_10 pad[16] ];
    exec (seed += pad[1] * 0x3e);
    when (branch =? 6) [
      exec (minor_34);
      exec (ROREQ pad[4] 0x9);
      call major_1 pad[12] ];
    when (branch =? 10) [
      exec (minor_22);
      exec (pad[12] ^= pad[15] - 0xf5cfde0);
      call major_14 seed ];
    exec (pad[1] ^= pad[2] .& 0x3b627777) ]).

Definition mix : proc :=
  with_branch ((pad[5] .^ pad[9] .^ pad[19]) .& 15) (fun branch => [
    switch branch [
      case 0 [
        exec (pad[2] ^= (IF (e_sin pad[13]) THEN 0xfd08092 ELSE pad[10]));
        TRY minor_5;
        call major_5 0x45835eb3 ];
      case 5 [
        TRY minor_8;
        exec (pad[12] += 0x33bd47dd);
        call major_6 pad[9] ];
      case 8 [
        exec (minor_28);
        exec (pad[6] += pad[19] - 0x3f5675d6);
        call major_9 pad[10] ];
      case 9 [
        TRY minor_7;
        TRY minor_13;
        call major_14 seed ];
      case 10 [
        TRY minor_5;
        exec (pad[6] ^= 0x33b5c9ac);
        call major_2 pad[0] ] ];
    exec (pad[2] ^= pad[6] + 0x1847de17);
    switch branch [
      case 1 [
        exec (pad[9] ^= 0x1df05ea2);
        exec (pad[19] += 0x12b9e29d - pad[12]);
        call major_12 0x45835eb3 ];
      case 10 [
        exec (minor_28);
        exec (pad[12] *= pad[12]);
        call major_11 pad[6] ] ];
    exec (pad[19] += pad[12] * 0x68);
    switch branch [
      case 2 [
        exec (minor_28);
        exec (pad[12] ^= pad[15] - 0xf5cfde0);
        call major_13 pad[19];
        exec (pad[6] += pad[19] - 0x3f5675d6);
        exec (pad[12] += 0x602283af);
        call major_22 pad[0] ];
      case 6 [
        TRY (minor_1 0x706a6bc);
        TRY (minor_2 0x82b598a1);
        call major_8 0x45835eb3 ] ];
    exec (pad[7] -= pad[14] .& 0x1ada7fa);
    switch branch [
      case 4 [
        exec (minor_20);
        exec (pad[12] += pad[6] + 0x21d7bf61);
        call major_10 pad[16] ];
      case 6 [
        TRY minor_7;
        TRY (minor_2 0xd2950f8c);
        call major_7 0x45835eb3 ] ];
    exec (seed ::= pad[0] + 0xd092d1bb .& 0x45835eb3);
    switch branch [
      case 3 [
        TRY minor_5;
        exec (pad[7] &= pad[13] .^ 0x21aaf758);
        call major_9 pad[17] ];
      case 4 [
        exec (pad[13] -= pad[1]);
        exec (pad[18] *= pad[10] + 0x466e09cf);
        call major_14 pad[5] ];
      case 7 [
        TRY (minor_9 0x6d32760);
        exec (pad[9] ^= pad[7] * 0x44);
        call major_6 pad[8] ] ];
    exec (ROLEQ pad[8] (pad[3] .^ 0x6));
    switch branch [
      case 0 [
        exec (pad[7] &= pad[13] .^ 0x21aaf758);
        exec (pad[14] |= pad[3] .^ 0x4345732);
        call major_12 pad[9] ];
      case 5 [
        exec (minor_22);
        exec (minor_29);
        call major_2 pad[1] ];
      case 9 [
        exec (pad[13] -= pad[1]);
        TRY minor_7;
        call major_5 pad[2] ] ];
    exec (pad[9] *= pad[14] .| 0xbbf1fbef);
    switch branch [
      case 15 [
        exec (pad[12] += pad[6] .^ 0x211f5e40);
        exec (pad[5] += pad[0] .^ 0x3e17add3);
        call major_11 pad[8] ];
      case 12 [
        exec (pad[19] ^= pad[15] .^ 0x3574ed3);
        exec (minor_30);
        call major_13 pad[16] ] ];
    exec (seed *= (e_sqrt pad[1]));
    switch branch [
      case 11 [
        exec (minor_32 0x678aae2c);
        exec (minor_22);
        call major_22 pad[11] ];
      case 14 [
        exec (pad[13] *= (ROR pad[3] 5));
        exec (minor_35);
        call major_8 pad[18] ];
      case 7 [
        exec (ROREQ pad[4] 0x2);
        exec (ROREQ pad[9] 4);
        call major_10 pad[0] ] ];
    exec (pad[3] -= pad[7] .^ 0x4e46f05d);
    switch branch [
      case 3 [
        exec (pad[7] ^= 0xeda01e71);
        exec (pad[13] -= pad[1]);
        call major_7 pad[11] ];
      case 8 [
        exec (pad[2] ^= (IF (e_sin pad[13]) THEN 0xfd08092 ELSE pad[10]));
        exec (pad[9] += (ROL pad[4] 9));
        call major_14 pad[2] ] ];
    exec (pad[19] ^= 0xb1bdd560 .^ seed);
    switch branch [
      case 1 [
        exec (pad[12] ^= pad[15] - 0xf5cfde0);
        exec (pad[12] *= pad[12]);
        call major_9 pad[5] ];
      case 13 [
        exec (pad[18] *= pad[10] + 0x466e09cf);
        exec (pad[2] ^= pad[15] << 5);
        call major_6 pad[15] ] ];
    exec (pad[6] ^= (e_sqrt pad[5])) ]).

Definition enc_type_20 : proc := body [ call mix seed ].

(** ** Every mixer is memory safe and keeps a pad of 32-bit words *)

Lemma safe20_minor_36 : safe_p0 minor_36.
Proof. mix_safe. Qed.
#[export] Hint Resolve safe20_minor_36 : mix.

Lemma safe20_minor_37 : safe_p0 minor_37.
Proof. mix_safe. Qed.
#[export] Hint Resolve safe20_minor_37 : mix.

Lemma safe20_major_23 : safe_p major_23.
Proof. mix_safe. Qed.
#[export] Hint Resolve safe20_major_23 : mix.

Lemma safe20_major_24 : safe_p major_24.
Proof. mix_safe. Qed.
#[export] Hint Resolve safe20_major_24 : mix.

Lemma safe20_major_19 : safe_p major_19.
Proof. mix_safe. Qed.
#[export] Hint Resolve safe20_major_19 : mix.

Lemma safe20_major_25 : safe_p major_25.
Proof. mix_safe. Qed.
#[export] Hint Resolve safe20_major_25 : mix.

Lemma safe20_major_17 : safe_p major_17.
Proof. mix_safe. Qed.
#[export] Hint Resolve safe20_major_17 : mix.

Lemma safe20_major_4 : safe_p major_4.
Proof. mix_safe. Qed.
#[export] Hint Resolve safe20_major_4 : mix.

Lemma safe20_major_18 : safe_p major_18.
Proof. mix_safe. Qed.
#[export] Hint Resolve safe20_major_18 : mix.

Lemma safe20_major_15 : safe_p major_15.
Proof. mix_safe. Qed.
#[export] Hint Resolve safe20_major_15 : mix.

Lemma safe20_major_3 : safe_p major_3.
Proof. mix_safe. Qed.
#[export] Hint Resolve safe20_major_3 : mix.

Lemma safe20_major_21 : safe_p major_21.
Proof. mix_safe. Qed.
#[export] Hint Resolve safe20_major_21 : mix.

Lemma safe20_major_16 : safe_p major_16.
Proof. mix_safe. Qed.
#[export] Hint Resolve safe20_major_16 : mix.

Lemma safe20_major_1 : safe_p major_1.
Proof. mix_safe. Qed.
#[export] Hint Resolve safe20_major_1 : mix.

Lemma safe20_major_14 : safe_p major_14.
Proof. mix_safe. Qed.
#[export] Hint Resolve safe20_major_14 : mix.

Lemma safe20_major_6 : safe_p major_6.
Proof. mix_safe. Qed.
#[export] Hint Resolve safe20_major_6 : mix.

Lemma safe20_major_9 : safe_p major_9.
Proof. mix_safe. Qed.
#[export] Hint Resolve safe20_major_9 : mix.

Lemma safe20_major_2 : safe_p major_2.
Proof. mix_safe. Qed.
#[export] Hint Resolve safe20_major_2 : mix.

Lemma safe20_major_5 : safe_p major_5.
Proof. mix_safe. Qed.
#[export] Hint Resolve safe20_major_5 : mix.

Lemma safe20_major_12 : safe_p major_12.
Proof. mix_safe. Qed.
#[export] Hint Resolve safe20_major_12 : mix.

Lemma safe20_major_11 : safe_p major_11.
Proof. mix_safe. Qed.
#[export] Hint Resolve safe20_major_11 : mix.

Lemma safe20_major_13 : safe_p major_13.
Proof. mix_safe. Qed.
#[export] Hint Resolve safe20_major_13 : mix.

Lemma safe20_major_22 : safe_p major_22.
Proof. mix_safe. Qed.
#[export] Hint Resolve safe20_major_22 : mix.

Lemma safe20_major_8 : safe_p major_8.
Proof. mix_safe. Qed.
#[export] Hint Resolve safe20_major_8 : mix.

Lemma safe20_major_10 : safe_p major_10.
Proof. mix_safe. Qed.
#[export] Hint Resolve safe20_major_10 : mix.

Lemma safe20_major_7 : safe_p major_7.
Proof. mix_safe. Qed.
#[export] Hint Resolve safe20_major_7 : mix.

Lemma safe20_mix : safe_p mix.
Proof. mix_safe. Qed.
#[export] Hint Resolve safe20_mix : mix.

Lemma safe20_enc_type_20 : safe_p enc_type_20.
Proof. mix_safe. Qed.

(** On every key of 20 words and every seed the mixer ends, inside the
    pad, and leaves 20 words. *)
Theorem enc_type_20_in_bounds pad sd :
  pad_ok pad -> word 32 sd -> exists pad', enc_type_20 pad sd = Some pad' /\ pad_ok pad'.
Proof. exact (safe20_enc_type_20 pad sd). Qed.

Lemma enc_type_20_in_bounds_witness :
  pad_ok (replicate 20 0xdeadbeef) /\ word 32 0x12345678 /\
  exists pad', enc_type_20 (replicate 20 0xdeadbeef) 0x12345678 = Some pad' /\ pad_ok pad'.
Proof.
  assert (H : pad_ok (replicate 20 0xdeadbeef)) by (split; [done|]; repeat constructor; unfold word; lia).
  assert (Hs : word 32 0x12345678) by (unfold word; lia).
  split; [exact H|]. split; [exact Hs|]. exact (enc_type_20_in_bounds _ _ H Hs).
Defined.
