(* ===== verification/EncType80.v ===== *)
(** * FastTrack pad mixer 0x80

    [src/networks/fasttrack/enc_type_80.c], statement by statement: the
    [minor_N] macros and functions, the [major_N] functions (callees first)
    and the entry point [enc_type_80].  The constructs are those of [Mix],
    except [ROR] and [ROL], which are functions here. *)

From Stdlib Require Import ZArith Lia.
From stdpp Require Import base list.
From S2P Require Import Prelude Mix.
Import MixNotations.

Local Open Scope Z_scope.
Local Open Scope mix_scope.

(** [count = (count & 0xff) % 32;] then the two shifts. *)
Definition ROR := e_bin (fun value count => ror32 value (Z.land count 0xff mod 32)).
Definition ROL := e_bin (fun value count => rol32 value (Z.land count 0xff mod 32)).

Definition minor_23 : asn := pad[5] += pad[4] * 73.
Definition minor_24 : asn := pad[0] += pad[5] .& 0x1B65B2C8.
Definition minor_25 : asn := pad[9] += pad[6] + 0x124D08A0.
Definition minor_26 : asn := pad[16] ^= pad[0] * 41 << 1.
Definition minor_27 : asn := pad[14] ^= pad[10] - 0x403483CE.
Definition minor_28 : asn := pad[3] ^= pad[11] * 41 << 1.
Definition minor_29 (x : expr) : asn := pad[10] ::= (ROL pad[10] x).
Definition minor_30 : asn := pad[1] ::= (ROR pad[1] (pad[8] * 7 << 4)).
Definition minor_31 : asn := pad[10] *= (ROL pad[1] 0xc).
Definition minor_32 (x : expr) : asn := pad[18] ::= (ROL pad[18] (x - 0xE066BF0)).
Definition minor_33 (x : expr) : asn := pad[18] -= x.
Definition minor_34 : asn := pad[16] |= pad[18] .| 0xB25175E.
Definition minor_35 : asn := pad[2] |= pad[15] - 0x1886D6A.
Definition minor_36 : asn := pad[16] -= (ROL pad[3] 0x1b).
Definition minor_37 : asn := pad[11] |= pad[13] * 9.
Definition minor_38 : asn := pad[6] &= pad[19] .^ 0x1FAF0F41.
Definition minor_39 : asn := pad[4] ::= (ROR pad[4] (pad[17] * 11 << 3)).
Definition minor_40 : asn := pad[17] *= pad[6].
Definition minor_41 : asn := pad[3] ^= pad[9] + 0x5B1A81FD.
Definition minor_42 : asn := pad[17] *= (ROR pad[10] 0x1a).
Definition minor_43 : asn := pad[19] ^= pad[3] .^ 0x19859C46.
Definition minor_44 : asn := pad[16] += pad[1] + 0x5EDB78DA.
Definition minor_45 : asn := pad[12] ::= (ROL pad[12] (pad[3] * 43 << 1)).
Definition minor_46 : asn := pad[17] *= pad[13] - 0x68C0E272.
Definition minor_47 : asn := pad[13] += pad[13] .| 0x5E919E06.
Definition minor_48 : asn := pad[16] ::= pad[9] * pad[16] * 37 << 1.
Definition minor_49 : asn := pad[2] |= pad[15] + 0x44B04775.
Definition minor_50 : asn := pad[8] ::= pad[8] * pad[8] * 13 << 2.
Definition minor_51 (x : expr) : asn := pad[17] ::= (ROR pad[17] x).
Definition minor_52 (x : expr) : asn := pad[10] *= x.
Definition minor_53 : asn := pad[8] += pad[17] + 0x4E0679BE.
Definition minor_54 : asn := pad[10] ^= pad[6] .^ 0x2BE68205.
Definition minor_55 (x : expr) : asn := pad[7] -= x.
Definition minor_56 (x : expr) : asn := pad[13] &= (ROL x 0x10).
Definition minor_57 (x : expr) : asn := pad[9] &= x.
Definition minor_58 (x : expr) : asn := pad[0] += x.
Definition minor_59 : asn := pad[8] *= pad[6] .^ 0x377C08D2.
Definition minor_60 : asn := pad[18] -= (IF pad[10] .< 0xB6C6C3E THEN pad[10] ELSE pad[13]).
Definition minor_61 : asn := pad[19] += (e_sqrt pad[18]).
Definition minor_62 : asn := pad[11] ^= (e_sqrt pad[4]).
Definition minor_63 : asn := pad[17] ^= (e_sqrt pad[16]).
Definition minor_64 : asn := pad[9] += (e_sqrt pad[13]).
Definition minor_65 (x : expr) : asn := pad[10] -= (IF (e_cos x) THEN 0x19C6C6E ELSE pad[7]).
Definition minor_66 : asn := pad[10] -= (IF (e_cos pad[10]) THEN 0x5F18F01 ELSE pad[13]).
Definition minor_67 (x : expr) : asn := pad[17] ::= (ROL pad[17] (IF (e_sin pad[7]) THEN 0x4262ED6B ELSE x)).
Definition minor_68 : asn := pad[9] += (IF (e_cos pad[6]) THEN 0x14F5046C ELSE pad[11]).
Definition minor_69 : asn := pad[14] ^= (IF (e_cos pad[11]) THEN 0x562482FA ELSE pad[14]).
Definition minor_70 : asn := pad[3] -= (IF (e_cos pad[14]) THEN 0x39702EDD ELSE pad[6]).
Definition minor_71 : asn := pad[6] ^= (IF (e_cos pad[10]) THEN 0x53236223 ELSE pad[7]).
Definition minor_72 (x : expr) : asn := pad[1] |= (IF (e_sin x) THEN 0x1BE7FECF ELSE pad[16]).
Definition minor_73 : asn := pad[17] *= (IF (e_cos pad[16]) THEN 0x2C15B485 ELSE pad[3]).
Definition minor_3 : asn := pad[19] += (e_sqrt pad[0]).
Definition minor_4 : asn := pad[7] ::= (ROL pad[7] (e_sqrt pad[1])).
Definition minor_5 : asn := pad[4] += (IF (e_cos pad[1]) THEN 0x890AFEF ELSE pad[4]).
Definition minor_6 (x : expr) : asn := pad[7] ::= (ROL pad[7] (IF (e_sin pad[18]) THEN 0x14D1DE3D ELSE x)).
Definition minor_7 : asn := pad[10] &= (IF pad[1] .< 0x1F2DD61 THEN pad[1] ELSE pad[10]).
Definition minor_8 : asn := pad[0] |= (pad[10] * 3 << 4) + pad[10].
Definition minor_9 : asn := pad[9] ^= (IF pad[1] .< 0xB01609F THEN pad[1] ELSE pad[16]).
Definition minor_10 (x : expr) : asn := pad[13] ::= (ROR pad[13] x).
Definition minor_11 (x : expr) : asn := pad[7] &= x.
Definition minor_12 : asn := pad[11] += (ROL pad[5] 0x14).
Definition minor_13 (x : expr) : asn := pad[5] ^= x + 0x391B56A.
Definition minor_14 : asn := pad[3] ^= pad[14] * 0x711881F7.
Definition minor_15 : asn := pad[6] -= pad[18] .^ 0x4402CAF.
Definition minor_16 : asn := pad[2] += (ROR pad[14] 0x14).
Definition minor_17 : asn := pad[6] += 0x287735D1 - pad[3].
Definition minor_18 : asn := pad[3] += 0x247B4DE9 - pad[1].
Definition minor_19 : asn := pad[11] += pad[6] * 0xE8C67004.
Definition minor_20 : asn := pad[15] |= pad[1] .^ 0x37B6FE35.
Definition minor_21 : asn := pad[14] ::= (ROR pad[14] (pad[13] .| 0x3433BE6)).

Definition minor_74 : proc := body [
    exec (pad[10] *= (IF (e_cos pad[3]) THEN 0x1DD34A4 ELSE pad[2]));
    exec (pad[12] |= pad[16] * 11 << 2);
    exec (pad[0] ^= pad[19] .^ 0x509e41a1);
    exec (pad[13] -= (pad[9] * 15 << 1) - pad[9] << 2);
    exec (seed -= (IF (e_cos pad[2]) THEN 0xD7A79F4 ELSE pad[5]));
    exec (pad[2] -= (IF (e_sin pad[12]) THEN 0x5134639d ELSE pad[1]));
    exec (seed ^= (IF (e_sin pad[4]) THEN 0x241147A3 ELSE pad[13]));
    exec (pad[3] += (e_sqrt seed));
    exec (pad[0] -= (IF (e_sin seed) THEN 0x5176ffdf ELSE pad[15]));
    exec (pad[3] -= ((pad[9] * 15 << 1) - pad[9]) * 3);
    exec (pad[14] |= (IF pad[2] .< 0x18897 THEN pad[2] ELSE pad[10]));
    exec (pad[13] ^= 0x18897 + seed) ].

Definition minor_75 : proc0 := body0 [
    exec (pad[13] -= pad[2]);
    exec (pad[19] += 0x471c95 .& pad[12]);
    exec (pad[14] += (IF pad[7] .< 0x471c95 THEN pad[7] ELSE pad[2]));
    exec (pad[12] -= pad[11] .^ 0x5E823762);
    exec (pad[15] &= pad[0] * 13 << 2);
    exec (pad[17] ^= pad[8] * 15);
    exec (pad[7] += pad[4] .& 0x3996FD51);
    exec (pad[2] += (IF (e_sin pad[19]) THEN 0x34311111 ELSE pad[5])) ].

Definition major_10 : proc :=
  with_branch ((pad[7] .^ pad[3] .^ seed) .& 0x01) (fun branch => [
    exec (pad[10] &= 0x75eefb0 .^ seed);
    exec (pad[11] ^= (IF (e_cos pad[1]) THEN 0x2E0A5BE7 ELSE pad[6]));
    exec (pad[0] += seed + 0x1FE76B44);
    exec (pad[13] += 0x76173ce - seed);
    when (branch =? 1) [
      exec (minor_56 0xCD17011);
      exec (minor_48);
      call0 minor_75 ];
    exec (pad[16] -= (IF pad[11] .< 0x56C0185B THEN pad[11] ELSE pad[19]));
    exec (pad[0] ^= (IF (e_sin pad[16]) THEN 0x5A271260 ELSE seed));
    exec (pad[6] += pad[11] .| 0x58E035D2);
    exec (pad[14] ::= (ROL pad[14] (ROL pad[1] 0x8)));
    exec (pad[13] ^= pad[15] * 91);
    when (branch =? 0) [
      exec (minor_57 0x37fed3);
      TRY minor_12;
      call minor_74 pad[14] ] ]).

Definition major_20 : proc :=
  with_branch ((pad[13] .^ pad[8] .^ pad[17]) % 0x03) (fun branch => [
    exec (seed ^= 0x39aa3db4 .^ pad[17]);
    exec (pad[15] ::= (ROL pad[15] (IF (e_sin seed) THEN 0x236D13F3 ELSE pad[19])));
    exec (pad[16] ^= (e_sqrt seed));
    when (branch =? 0) [
      exec (minor_70);
      exec (minor_66);
      call0 minor_75 ];
    exec (seed ::= seed * seed * 5 << 4);
    exec (pad[18] |= pad[8] * 0x1E4B94EC);
    exec (pad[3] += seed .& 0x2708964F);
    when (branch =? 0) [
      exec (minor_45);
      exec (minor_53);
      call minor_74 seed ];
    exec (pad[0] -= pad[10] .| 0x390ac159);
    exec (pad[8] -= (IF (e_cos pad[6]) THEN 0x84019 ELSE pad[10]));
    exec (pad[17] &= 0x84019 .| seed);
    exec (pad[14] *= (ROL pad[2] 0x1f));
    when (branch =? 1) [
      TRY minor_18;
      exec (minor_60);
      call major_10 pad[7] ];
    exec (pad[8] *= pad[15] - 0x51214) ]).

Definition major_6 : proc :=
  with_branch ((pad[9] .^ pad[5] .^ pad[6]) .& 0x03) (fun branch => [
    exec (pad[12] += (e_sqrt pad[1]));
    exec (pad[18] += pad[19] + 0x2B7FD413);
    when (branch =? 0) [
      exec (minor_39);
      exec (minor_43);
      call0 minor_75 ];
    exec (seed ::= (ROR seed (pad[4] - 0xA4E29DD)));
    exec (seed ^= (ROR pad[17] 0x1c));
    when (branch =? 0) [
      TRY minor_15;
      exec (minor_40);
      call minor_74 pad[3] ];
    exec (pad[5] += (seed * 27 << 1) - seed);
    exec (pad[18] += pad[6] - 0x24A58A0);
    when (branch =? 3) [
      exec (minor_71);
      exec (minor_29 116);
      call major_10 pad[18] ];
    exec (pad[10] &= (IF (e_sin pad[17]) THEN 0xf1f3d ELSE pad[13]));
    exec (pad[19] |= (IF (e_sin pad[18]) THEN 0x4f2a72 ELSE pad[4]));
    exec (pad[13] *= (ROR pad[12] 0x12));
    when (branch =? 2) [
      TRY minor_21;
      exec (minor_33 0xfc47b82b);
      call major_20 pad[2] ];
    exec (pad[6] += (pad[1] << 6) + pad[1]) ]).

Definition major_1 : proc :=
  with_branch ((pad[8] .^ pad[16] .^ seed) % 5) (fun branch => [
    exec (seed *= (e_sqrt seed));
    exec (pad[4] |= (IF seed .< 0x67f88 THEN seed ELSE pad[3]));
    when (branch =? 1) [
      exec (minor_44);
      exec (minor_63);
      call0 minor_75 ];
    exec (pad[7] ::= (ROR pad[7] (pad[17] .& 0x67f88)));
    exec (pad[0] += (ROR pad[6] 0x8));
    when (branch =? 0) [
      exec (minor_35);
      exec (minor_29 20);
      call minor_74 seed ];
    exec (seed -= pad[14] .^ 0xffc56d16);
    exec (seed &= (e_sqrt pad[1]));
    when (branch =? 2) [
      exec (minor_72 128);
      TRY minor_17;
      call major_10 pad[6] ];
    exec (seed ::= (ROL seed (pad[13] + 0x8D810DF)));
    exec (pad[7] ^= seed * 11 << 1);
    when (branch =? 3) [
      exec (minor_33 0xfde76000);
      exec (minor_73);
      call major_20 pad[8] ];
    exec (pad[8] ^= (IF (e_cos pad[16]) THEN 0x12DA5B58 ELSE pad[2]));
    exec (pad[14] ^= pad[13] - 0xff8c9a4d);
    when (branch =? 4) [
      exec (minor_36);
      exec (minor_69);
      call major_6 seed ];
    exec (pad[6] *= (IF pad[17] .< 0x9D9106A THEN pad[17] ELSE pad[8])) ]).

Definition major_4 : proc :=
  with_branch ((pad[12] .^ pad[11] .^ seed) % 0x06) (fun branch => [
    exec (pad[11] *= 0x65300 .| seed);
    when (branch =? 2) [
      exec (minor_40);
      exec (minor_34);
      call0 minor_75 ];
    exec (seed += 0 - ((pad[6] * 5 << 4) - pad[6]));
    exec (pad[8] ::= (ROL pad[8] (e_sqrt pad[9])));
    when (branch =? 0) [
      TRY minor_9;
      exec (minor_26);
      call minor_74 pad[4] ];
    exec (pad[0] -= pad[14] .^ 0xff7db6c1);
    exec (pad[6] ::= (ROL pad[6] (pad[11] .^ 0xffc1081c)));
    when (branch =? 5) [
      exec (minor_36);
      exec (minor_36);
      call major_10 pad[7] ];
    exec (seed -= pad[11] * 3 << 4);
    when (branch =? 0) [
      exec (minor_31);
      exec (minor_36);
      call major_20 seed ];
    exec (pad[13] |= (ROR pad[16] 0xc));
    exec (pad[3] |= pad[9] + 0x27C4C44E);
    when (branch =? 1) [
      exec (minor_51 0);
      exec (minor_27);
      call major_6 seed ];
    exec (pad[13] -= (pad[6] * 5 << 3) - pad[6] << 1);
    exec (pad[10] ^= (ROL pad[11] 0x4));
    when (branch =? 3) [
      exec (minor_63);
      TRY minor_8;
      call major_1 pad[10] ] ]).

Definition major_16 : proc :=
  with_branch (pad[5] % 0x07) (fun branch => [
    exec (pad[2] -= seed .^ 0x1E9E3A1C);
    when (branch =? 4) [
      exec (minor_38);
      exec (minor_48);
      call0 minor_75 ];
    exec (pad[9] &= pad[4] .^ 0x46b160);
    when (branch =? 5) [
      exec (minor_43);
      exec (minor_62);
      call minor_74 pad[11] ];
    exec (seed += pad[17] .^ 0x46b160);
    when (branch =? 1) [
      TRY (minor_6 0xC6D7E2F7);
      exec (minor_30);
      call major_10 seed ];
    exec (pad[13] |= (e_sqrt pad[19]));
    exec (pad[7] -= (IF (e_cos pad[10]) THEN 0x90069b ELSE pad[17]));
    when (branch =? 0) [
      TRY minor_15;
      exec (minor_45);
      call major_20 pad[7] ];
    exec (pad[15] -= 0x90069b .| seed);
    when (branch =? 6) [
      exec (minor_39);
      exec (minor_29 184);
      call major_6 pad[1] ];
    exec (seed += pad[6] .& 0x44782589);
    when (branch =? 3) [
      exec (minor_53);
      TRY minor_15;
      call major_1 seed ];
    exec (pad[8] += pad[11] .& 0x2645009B);
    when (branch =? 0) [
      exec (minor_29 124);
      exec (minor_64);
      call major_4 pad[10] ];
    exec (pad[8] *= pad[16] .^ 0x2666A4CB) ]).

Definition major_7 : proc :=
  with_branch (pad[9] .& 0x07) (fun branch => [
    exec (seed -= 0x646ede77 .& pad[7]);
    when (branch =? 0) [
      exec (minor_38);
      TRY minor_12;
      call0 minor_75 ];
    exec (seed ::= (ROR seed (seed * 59 << 1)));
    when (branch =? 6) [
      exec (minor_40);
      exec (minor_51 15);
      call minor_74 pad[4] ];
    exec (pad[3] += (IF (e_sin seed) THEN 0x4c8444 ELSE pad[8]));
    when (branch =? 5) [
      exec (minor_61);
      exec (minor_32 0x2AB2E7E2);
      call major_10 pad[18] ];
    exec (pad[2] ::= (ROL pad[2] (((pad[4] * 3 << 3) - pad[4]) * 3)));
    when (branch =? 3) [
      exec (minor_42);
      exec (minor_56 0xD1FC123);
      call major_20 seed ];
    exec (pad[0] += (IF (e_sin pad[4]) THEN 0xda2b08 ELSE seed));
    when (branch =? 2) [
      TRY minor_19;
      exec (minor_57 0xd7f6df8f);
      call major_6 pad[9] ];
    exec (seed ^= seed * 0x11);
    when (branch =? 4) [
      exec (minor_27);
      exec (minor_36);
      call major_1 pad[10] ];
    exec (pad[4] *= 0xdeaf0b .^ pad[2]);
    when (branch =? 1) [
      exec (minor_25);
      TRY minor_20;
      call major_4 seed ];
    exec (pad[9] ::= (pad[11] * pad[9] * 5 << 3) - pad[11] * pad[9]);
    exec (pad[1] += ((pad[10] << 5) + pad[10]) * 3);
    when (branch =? 0) [
      TRY minor_19;
      TRY minor_7;
      call major_16 pad[0] ] ]).

Definition major_8 : proc :=
  with_branch ((pad[4] .^ pad[13] .^ pad[17]) % 0x09) (fun branch => [
    exec (seed ^= (ROR seed 0x6));
    when (branch =? 0) [
      TRY (minor_13 0x2816580B);
      exec (minor_38);
      call0 minor_75 ];
    exec (pad[2] &= pad[16] .^ 0x448522);
    when (branch =? 8) [
      TRY minor_14;
      TRY minor_21;
      call minor_74 pad[15] ];
    exec (pad[7] &= (IF (e_sin seed) THEN 0x5228985F ELSE pad[5]));
    when (branch =? 3) [
      TRY minor_5;
      exec (minor_33 0x168a878e);
      call major_10 pad[18] ];
    exec (seed *= pad[3] .^ 0x93fa66);
    when (branch =? 7) [
      TRY minor_8;
      exec (minor_58 0xf81bec49);
      call major_20 pad[13] ];
    exec (pad[7] -= (seed * 5 << 2) - seed);
    when (branch =? 4) [
      exec (minor_55 0x32ea67a4);
      exec (minor_47);
      call major_6 pad[13] ];
    exec (pad[12] ::= (ROL pad[12] (((seed << 4) + seed) * 3 << 1)));
    when (branch =? 6) [
      exec (minor_72 69);
      TRY minor_14;
      call major_1 pad[5] ];
    exec (pad[19] ::= (ROL pad[19] (seed + 0x4685D5BE)));
    when (branch =? 1) [
      TRY minor_9;
      exec (minor_40);
      call major_4 pad[14] ];
    exec (pad[5] += pad[6] .| 0x301DE279);
    when (branch =? 2) [
      exec (minor_28);
      exec (minor_61);
      call major_16 pad[17] ];
    exec (pad[6] *= pad[0] .^ 0xffffffbb);
    when (branch =? 0) [
      exec (minor_23);
      exec (minor_32 0x11B2399C);
      call major_7 pad[14] ];
    exec (pad[17] |= (e_sqrt pad[12])) ]).

Definition major_18 : proc :=
  with_branch ((pad[15] .^ pad[1] .^ pad[18]) % 0x0A) (fun branch => [
    exec (pad[14] *= pad[18] - 0x3438A280);
    when (branch =? 9) [
      TRY (minor_6 0xDC6C3D21);
      exec (minor_26);
      call0 minor_75 ];
    exec (pad[2] += pad[3] .& 0x244268df);
    when (branch =? 4) [
      exec (minor_66);
      exec (minor_51 23);
      call minor_74 seed ];
    exec (pad[18] *= (ROL seed 0x1f));
    when (branch =? 5) [
      exec (minor_52 0x1cb09c4d);
      TRY minor_15;
      call major_10 pad[14] ];
    exec (pad[6] += pad[10] + 0x5308B1DB);
    when (branch =? 1) [
      exec (minor_39);
      exec (minor_36);
      call major_20 seed ];
    exec (pad[5] += (ROR pad[8] 0x19));
    when (branch =? 0) [
      TRY minor_19;
      exec (minor_34);
      call major_6 pad[5] ];
    exec (pad[9] |= seed .& 0x27BE8251);
    when (branch =? 2) [
      TRY (minor_6 0x9DBE27AD);
      TRY minor_12;
      call major_1 pad[9] ];
    exec (pad[12] ^= pad[2] * 73);
    when (branch =? 8) [
      exec (minor_59);
      exec (minor_24);
      call major_4 seed ];
    exec (pad[14] &= seed - 0x7413C08);
    when (branch =? 6) [
      exec (minor_47);
      TRY (minor_13 0x2725C3FB);
      call major_16 pad[17] ];
    exec (pad[9] += 0x4c3ada - seed);
    when (branch =? 3) [
      exec (minor_41);
      exec (minor_49);
      call major_7 seed ];
    exec (seed += 0x8ea63 .| pad[18]);
    when (branch =? 0) [
      exec (minor_41);
      exec (minor_61);
      call major_8 pad[19] ];
    exec (pad[3] += (IF seed .< 0x4efe6b THEN seed ELSE pad[4])) ]).

Definition major_12 : proc :=
  with_branch (pad[15] % 0x0B) (fun branch => [
    when (branch =? 5) [
      TRY minor_16;
      exec (minor_62);
      call0 minor_75 ];
    exec (pad[4] -= (IF (e_cos pad[14]) THEN 0x76F737A3 ELSE seed));
    when (branch =? 0x0A) [
      exec (minor_42);
      exec (minor_65 186);
      call minor_74 seed ];
    exec (pad[3] &= pad[10] .^ 0x20773F85);
    when (branch =? 4) [
      exec (minor_47);
      exec (minor_28);
      call major_10 pad[14] ];
    exec (pad[12] ::= (ROL pad[12] (pad[7] * 91)));
    when (branch =? 9) [
      exec (minor_37);
      exec (minor_73);
      call major_20 seed ];
    when (branch =? 2) [
      exec (minor_67 0xE8B01B9B);
      exec (minor_54);
      call major_6 pad[8] ];
    exec (pad[3] += (ROL pad[11] 0x1d));
    when (branch =? 6) [
      exec (minor_70);
      exec (minor_23);
      call major_1 pad[0] ];
    when (branch =? 8) [
      exec (minor_29 60);
      exec (minor_34);
      call major_4 pad[12] ];
    exec (pad[9] *= (IF pad[0] .< 0xED7837 THEN pad[0] ELSE pad[15]));
    when (branch =? 3) [
      TRY (minor_13 0x19068E93);
      exec (minor_25);
      call major_16 pad[15] ];
    when (branch =? 0) [
      exec (minor_37);
      exec (minor_45);
      call major_7 pad[0] ];
    exec (pad[16] ^= pad[6] .^ 0x28AA2736);
    when (branch =? 1) [
      exec (minor_59);
      exec (minor_37);
      call major_8 pad[2] ];
    when (branch =? 0) [
      TRY minor_18;
      exec (minor_48);
      call major_18 pad[6] ];
    exec (pad[2] ^= pad[19] * 101);
    when (branch =? 7) [
      exec (minor_32 0x2A4F7758);
      exec (minor_39);
      call0 minor_75 ];
    exec (pad[0] &= (IF (e_cos pad[0]) THEN 0xfff2b634 ELSE pad[5])) ]).

Definition major_5 : proc :=
  with_branch ((pad[14] .^ pad[2] .^ pad[19]) % 0x0C) (fun branch => [
    when (branch =? 4) [
      exec (minor_40);
      TRY minor_4;
      call0 minor_75 ];
    exec (seed |= pad[11] .^ 0x4E05B048);
    when (branch =? 0x0A) [
      exec (minor_64);
      exec (minor_69);
      call minor_74 pad[1] ];
    exec (seed += pad[2] * 50);
    when (branch =? 1) [
      TRY minor_8;
      exec (minor_47);
      call major_10 seed ];
    exec (seed ::= seed * pad[3] * 13 << 1);
    when (branch =? 3) [
      exec (minor_47);
      exec (minor_44);
      call major_20 pad[7] ];
    exec (pad[10] |= pad[19] .& 0x42A403D);
    when (branch =? 6) [
      exec (minor_45);
      TRY minor_17;
      call major_6 seed ];
    exec (pad[4] ::= (ROR pad[4] (pad[18] + 0x486c59)));
    when (branch =? 2) [
      TRY minor_8;
      exec (minor_55 0xdd66dc5c);
      call major_1 pad[4] ];
    exec (pad[11] += (IF (e_sin seed) THEN 0x44ACFBD ELSE pad[9]));
    when (branch =? 9) [
      exec (minor_42);
      exec (minor_65 117);
      call major_4 pad[12] ];
    exec (seed ::= (ROR seed (IF seed .< 0xaa6dc THEN seed ELSE pad[17])));
    when (branch =? 0) [
      exec (minor_40);
      TRY minor_5;
      call major_16 pad[15] ];
    exec (pad[16] *= 0xffc209cf .^ seed);
    when (branch =? 0) [
      exec (minor_59);
      exec (minor_52 0xb7709fc1);
      call major_7 pad[5] ];
    exec (pad[4] += pad[17] * 0xE9F05570);
    when (branch =? 5) [
      exec (minor_61);
      exec (minor_47);
      call major_8 pad[4] ];
    exec (pad[13] *= pad[8] .^ 0x4001ca);
    when (branch =? 7) [
      exec (minor_41);
      exec (minor_56 0x1D1451DE);
      call major_18 pad[1] ];
    when (branch =? 8) [
      exec (minor_41);
      exec (minor_28);
      call major_12 pad[11] ];
    exec (pad[13] &= pad[9] * 0x4463ff);
    when (branch =? 0x0B) [
      exec (minor_42);
      exec (minor_34);
      call0 minor_75 ] ]).

Definition major_15 : proc :=
  with_branch ((pad[0] .^ pad[3] .^ seed) % 0x0D) (fun branch => [
    when (branch =? 0) [
      exec (minor_40);
      exec (minor_35);
      call minor_74 pad[18] ];
    exec (pad[18] *= seed * 25);
    when (branch =? 1) [
      TRY minor_18;
      exec (minor_27);
      call major_10 pad[19] ];
    exec (pad[12] &= pad[8] .^ 0x3038E4EB);
    when (branch =? 3) [
      exec (minor_61);
      TRY minor_4;
      call major_20 pad[6] ];
    when (branch =? 6) [
      TRY minor_4;
      exec (minor_26);
      call major_6 pad[12] ];
    exec (seed ^= (ROR pad[0] 0x9));
    when (branch =? 2) [
      exec (minor_62);
      exec (minor_73);
      call major_1 pad[0] ];
    exec (pad[8] -= (ROR pad[6] 0x1c));
    when (branch =? 0x0B) [
      TRY minor_12;
      TRY minor_16;
      call major_4 pad[8] ];
    when (branch =? 8) [
      exec (minor_42);
      TRY minor_9;
      call major_16 seed ];
    exec (pad[17] ^= pad[2] + 0x187F79E8);
    when (branch =? 0) [
      exec (minor_71);
      TRY minor_18;
      call major_7 pad[12] ];
    exec (pad[13] ^= seed * 25 << 2);
    when (branch =? 9) [
      TRY minor_12;
      exec (minor_63);
      call major_8 pad[3] ];
    when (branch =? 0x0A) [
      TRY minor_19;
      exec (minor_58 0x30360f98);
      call major_18 pad[9] ];
    exec (pad[8] ::= (ROR pad[8] (pad[17] - 0x12c0bc1b)));
    when (branch =? 0x0C) [
      TRY minor_9;
      TRY minor_21;
      call major_12 pad[18] ];
    exec (pad[11] ^= pad[12] - 0x409402);
    when (branch =? 7) [
      exec (minor_53);
      exec (minor_24);
      call major_5 seed ];
    exec (pad[4] ::= (ROR pad[4] (pad[6] - 0x409402)));
    when (branch =? 5) [
      exec (minor_44);
      exec (minor_32 0x52374450);
      call minor_74 pad[19] ];
    when (branch =? 4) [
      exec (minor_58 0x12d9e782);
      exec (minor_66);
      call major_10 pad[19] ];
    exec (pad[3] ^= pad[6] - 0x400000) ]).

Definition major_2 : proc :=
  with_branch ((pad[10] .^ pad[0] .^ pad[13]) % 0x0E) (fun branch => [
    when (branch =? 3) [
      TRY minor_16;
      exec (minor_46);
      call major_10 pad[10] ];
    exec (pad[19] ::= (ROL pad[19] (seed * 41)));
    when (branch =? 0x0D) [
      TRY minor_20;
      exec (minor_35);
      call major_20 seed ];
    when (branch =? 2) [
      exec (minor_36);
      exec (minor_73);
      call major_6 pad[1] ];
    exec (pad[12] &= seed .& 0x162E075D);
    when (branch =? 0) [
      exec (minor_62);
      exec (minor_51 11);
      call major_1 pad[3] ];
    exec (pad[7] += 0xC0CF1E75 - pad[18]);
    when (branch =? 0) [
      exec (minor_60);
      exec (minor_55 0x5952d3f0);
      call major_4 pad[13] ];
    when (branch =? 0x0B) [
      TRY minor_14;
      exec (minor_70);
      call major_16 seed ];
    exec (pad[10] *= seed + 0x15A0944D);
    when (branch =? 7) [
      exec (minor_54);
      TRY (minor_6 0xE636D969);
      call major_7 pad[14] ];
    exec (pad[13] += pad[0] - 0x3B1C8FB8);
    when (branch =? 8) [
      exec (minor_59);
      exec (minor_53);
      call major_8 pad[5] ];
    when (branch =? 6) [
      TRY (minor_13 0x34472A0D);
      exec (minor_61);
      call major_18 pad[1] ];
    exec (pad[18] *= (IF pad[2] .< 0xF9B0FAE THEN pad[2] ELSE pad[19]));
    when (branch =? 0x0C) [
      TRY (minor_6 0xDF3D4CFC);
      TRY minor_19;
      call major_12 seed ];
    exec (pad[1] += (pad[5] * 3 << 3) - pad[5] << 1);
    when (branch =? 1) [
      exec (minor_68);
      exec (minor_58 0xf586317c);
      call major_5 pad[17] ];
    when (branch =? 4) [
      exec (minor_68);
      exec (minor_69);
      call major_15 seed ];
    exec (pad[11] ^= 0xffb29fb8 .| pad[13]);
    when (branch =? 0x0A) [
      TRY minor_12;
      exec (minor_40);
      call major_10 pad[11] ];
    exec (pad[13] ^= seed .^ 0x265916C9);
    when (branch =? 5) [
      exec (minor_39);
      TRY minor_7;
      call major_20 pad[11] ];
    when (branch =? 9) [
      exec (minor_41);
      exec (minor_28);
      call major_6 pad[1] ];
    exec (pad[2] *= pad[5] * 105) ]).

Definition major_11 : proc :=
  with_branch (pad[14] % 0x0F) (fun branch => [
    when (branch =? 0x0A) [
      exec (minor_60);
      exec (minor_49);
      call major_20 pad[19] ];
    exec (pad[11] ::= (ROR pad[11] (0xa938539 .& pad[5])));
    when (branch =? 3) [
      exec (minor_53);
      TRY (minor_10 24);
      call major_6 seed ];
    when (branch =? 0) [
      exec (minor_70);
      TRY minor_15;
      call major_1 pad[12] ];
    exec (pad[7] *= (IF (e_cos pad[4]) THEN 0xA45B84A ELSE pad[13]));
    when (branch =? 4) [
      TRY minor_4;
      exec (minor_44);
      call major_4 pad[0] ];
    exec (seed |= (IF (e_sin seed) THEN 0xae00950 ELSE pad[10]));
    when (branch =? 0x0D) [
      TRY (minor_10 12);
      exec (minor_66);
      call major_16 pad[7] ];
    when (branch =? 0) [
      exec (minor_23);
      exec (minor_70);
      call major_7 seed ];
    exec (pad[15] += pad[13] + 0x519A438A);
    when (branch =? 1) [
      TRY minor_12;
      exec (minor_41);
      call major_8 pad[4] ];
    when (branch =? 2) [
      exec (minor_23);
      exec (minor_46);
      call major_18 pad[15] ];
    exec (pad[9] -= (IF (e_cos seed) THEN 0xaa60c04 ELSE pad[15]));
    when (branch =? 0x0C) [
      exec (minor_26);
      exec (minor_24);
      call major_12 pad[7] ];
    when (branch =? 5) [
      TRY minor_12;
      exec (minor_53);
      call major_5 pad[15] ];
    exec (pad[8] += (ROR pad[19] 0x4));
    when (branch =? 0x0B) [
      exec (minor_31);
      exec (minor_38);
      call major_15 pad[4] ];
    exec (pad[7] -= (IF (e_sin pad[5]) THEN 0xaf6039c ELSE pad[12]));
    when (branch =? 6) [
      exec (minor_70);
      exec (minor_67 0xB27F04F);
      call major_2 seed ];
    when (branch =? 0x0E) [
      exec (minor_48);
      TRY minor_5;
      call major_20 seed ];
    exec (pad[5] *= (IF (e_cos seed) THEN 0x5DF8323 ELSE seed));
    when (branch =? 8) [
      exec (minor_52 0xbfb3dfcf);
      exec (minor_24);
      call major_6 seed ];
    when (branch =? 9) [
      exec (minor_53);
      exec (minor_46);
      call major_1 pad[14] ];
    exec (pad[7] ^= pad[15] .^ 0x460390);
    when (branch =? 7) [
      exec (minor_25);
      exec (minor_44);
      call major_4 seed ];
    exec (pad[19] ::= 0) ]).

Definition major_14 : proc :=
  with_branch ((pad[12] .^ pad[2] .^ pad[19]) .& 0x0F) (fun branch => [
    when (branch =? 0x0F) [
      TRY minor_5;
      exec (minor_26);
      call major_6 pad[19] ];
    exec (pad[3] += (seed * 3 << 4) + seed);
    when (branch =? 9) [
      TRY (minor_11 0x73324afc);
      exec (minor_69);
      call major_1 seed ];
    when (branch =? 3) [
      exec (minor_53);
      exec (minor_44);
      call major_4 seed ];
    exec (pad[9] -= pad[2] .& 0x8742C2);
    when (branch =? 6) [
      TRY minor_21;
      exec (minor_67 0xE37DF00A);
      call major_16 seed ];
    exec (seed ^= (IF pad[6] .< 0x4c2ac4 THEN pad[6] ELSE pad[5]));
    when (branch =? 0x0C) [
      exec (minor_58 0xf8e7cbf0);
      exec (minor_48);
      call major_7 seed ];
    when (branch =? 0x0E) [
      exec (minor_57 0xbe02f6b0);
      exec (minor_69);
      call major_8 seed ];
    exec (pad[8] ^= (e_sqrt pad[17]));
    when (branch =? 4) [
      TRY (minor_6 0xCAD836AF);
      exec (minor_25);
      call major_18 pad[16] ];
    exec (pad[1] += 0x904F9E8D - pad[5]);
    when (branch =? 2) [
      TRY minor_5;
      TRY minor_14;
      call major_12 pad[2] ];
    when (branch =? 0) [
      exec (minor_33 0xa29c6a97);
      exec (minor_38);
      call major_5 pad[17] ];
    exec (pad[5] += pad[6] - 0x49781f);
    when (branch =? 5) [
      TRY minor_4;
      exec (minor_62);
      call major_15 pad[8] ];
    when (branch =? 0x0D) [
      exec (minor_43);
      TRY (minor_11 0x9c1ee61f);
      call major_2 seed ];
    exec (pad[0] ^= pad[6] + 0x356DCF35);
    when (branch =? 1) [
      TRY minor_14;
      exec (minor_29 96);
      call major_11 pad[0] ];
    exec (pad[8] ^= (ROL pad[8] 0x1d));
    when (branch =? 0x0B) [
      exec (minor_62);
      exec (minor_26);
      call major_6 pad[9] ];
    when (branch =? 8) [
      exec (minor_42);
      exec (minor_33 0x78bca04e);
      call major_1 seed ];
    exec (pad[19] |= pad[4] * 73);
    when (branch =? 0x0A) [
      exec (minor_26);
      TRY minor_5;
      call major_4 pad[2] ];
    exec (pad[11] += 0xb888d - pad[10]);
    when (branch =? 7) [
      exec (minor_23);
      exec (minor_26);
      call major_16 seed ];
    when (branch =? 0) [
      TRY minor_16;
      TRY (minor_10 22);
      call major_7 pad[19] ];
    exec (pad[17] ^= pad[3] * 5 << 3) ]).

Definition major_13 : proc :=
  with_branch ((pad[1] .^ pad[16] .^ pad[18]) .& 0x0F) (fun branch => [
    when (branch =? 1) [
      exec (minor_68);
      exec (minor_29 20);
      call major_1 pad[3] ];
    exec (pad[5] += 0x37C9C771 - pad[18]);
    when (branch =? 0) [
      exec (minor_69);
      exec (minor_39);
      call major_4 pad[1] ];
    when (branch =? 8) [
      exec (minor_66);
      TRY minor_17;
      call major_16 pad[7] ];
    exec (pad[0] -= (IF (e_sin seed) THEN 0xE2D0D9 ELSE seed));
    when (branch =? 7) [
      exec (minor_58 0xf6f6309c);
      TRY minor_18;
      call major_7 pad[0] ];
    when (branch =? 6) [
      exec (minor_41);
      TRY minor_7;
      call major_8 pad[0] ];
    exec (pad[11] ::= (ROR pad[11] (IF (e_cos seed) THEN 0xf1085c5 ELSE pad[11])));
    when (branch =? 1) [
      exec (minor_29 156);
      exec (minor_56 0x2CDA662B);
      call major_18 pad[3] ];
    when (branch =? 0x0F) [
      TRY minor_18;
      exec (minor_43);
      call major_12 pad[18] ];
    exec (pad[17] -= (ROL pad[11] 0x18));
    when (branch =? 2) [
      exec (minor_70);
      exec (minor_64);
      call major_5 pad[17] ];
    when (branch =? 9) [
      exec (minor_70);
      exec (minor_63);
      call major_15 seed ];
    when (branch =? 0x0A) [
      exec (minor_70);
      exec (minor_58 0xe6e37dd2);
      call major_2 pad[5] ];
    when (branch =? 0x0E) [
      TRY minor_5;
      exec (minor_42);
      call major_11 pad[0] ];
    when (branch =? 0x0C) [
      TRY minor_12;
      exec (minor_41);
      call major_14 pad[18] ];
    when (branch =? 3) [
      exec (minor_43);
      exec (minor_33 0xa5ffc324);
      call major_1 pad[12] ];
    exec (pad[14] ^= pad[4] .| 0xC893A6);
    when (branch =? 0x0B) [
      exec (minor_45);
      exec (minor_33 0x477431cd);
      call major_4 pad[12] ];
    when (branch =? 0) [
      TRY (minor_13 0x398C59E0);
      TRY minor_15;
      call major_16 pad[15] ];
    exec (pad[19] ^= (IF (e_cos pad[14]) THEN 0x4d552e ELSE pad[10]));
    when (branch =? 0x0D) [
      exec (minor_35);
      exec (minor_51 18);
      call major_7 pad[2] ];
    exec (pad[13] ::= (pad[13] * 27 << 1) - pad[13]);
    when (branch =? 4) [
      TRY (minor_6 0xD48681AE);
      exec (minor_51 18);
      call major_8 pad[6] ];
    when (branch =? 5) [
      TRY minor_19;
      exec (minor_29 88);
      call major_18 pad[16] ];
    exec (pad[8] ^= pad[10] + 0x4d757e) ]).

Definition major_19 : proc :=
  with_branch ((pad[11] .^ pad[6] .^ pad[19]) .& 0x0F) (fun branch => [
    when (branch =? 7) [
      TRY minor_8;
      exec (minor_34);
      call major_4 seed ];
    exec (pad[18] ::= (ROR pad[18] (pad[6] + 0x50bb3362)));
    when (branch =? 0x0D) [
      exec (minor_26);
      TRY minor_8;
      call major_16 pad[14] ];
    when (branch =? 0x0F) [
      TRY (minor_6 0xCE7048A1);
      exec (minor_53);
      call major_7 pad[0] ];
    exec (pad[6] -= (IF (e_cos pad[14]) THEN 0x50ff65ed ELSE pad[9]));
    when (branch =? 2) [
      exec (minor_57 0x1530cb9a);
      exec (minor_68);
      call major_8 pad[13] ];
    when (branch =? 8) [
      exec (minor_26);
      exec (minor_49);
      call major_18 seed ];
    exec (seed ^= (ROR seed 0xd));
    when (branch =? 0x0A) [
      exec (minor_65 48);
      exec (minor_38);
      call major_12 seed ];
    when (branch =? 5) [
      exec (minor_55 0x1e8ee7f4);
      exec (minor_45);
      call major_5 pad[10] ];
    exec (pad[17] ^= pad[4] .| 0x50ffe7ed);
    when (branch =? 3) [
      exec (minor_30);
      exec (minor_59);
      call major_15 pad[17] ];
    when (branch =? 0) [
      exec (minor_25);
      TRY minor_14;
      call major_2 pad[8] ];
    exec (seed ^= (IF seed .< 0x5149b5c9 THEN seed ELSE pad[5]));
    when (branch =? 0x0B) [
      exec (minor_46);
      exec (minor_58 0x778d8c);
      call major_11 seed ];
    when (branch =? 2) [
      TRY minor_9;
      TRY minor_14;
      call major_14 pad[1] ];
    exec (pad[9] += pad[7] .^ 0x5149b5c9);
    when (branch =? 0x0E) [
      exec (minor_51 1);
      exec (minor_63);
      call major_13 pad[6] ];
    when (branch =? 1) [
      exec (minor_71);
      exec (minor_34);
      call major_4 pad[19] ];
    exec (pad[17] |= pad[10] - 0x514ffdff);
    when (branch =? 6) [
      exec (minor_62);
      exec (minor_44);
      call major_16 pad[8] ];
    when (branch =? 9) [
      exec (minor_58 0xe0d7842a);
      TRY (minor_10 4);
      call major_7 pad[2] ];
    exec (pad[6] ^= (IF (e_cos pad[13]) THEN 0xB29627F ELSE seed));
    when (branch =? 0x0C) [
      exec (minor_70);
      exec (minor_30);
      call major_8 pad[5] ];
    when (branch =? 0) [
      exec (minor_59);
      TRY (minor_13 0x664D4285);
      call major_18 pad[14] ];
    when (branch =? 4) [
      TRY (minor_13 0x281B56A6);
      TRY minor_18;
      call major_12 pad[18] ];
    when (branch =? 1) [
      exec (minor_25);
      exec (minor_24);
      call major_5 pad[4] ];
    exec (pad[16] *= pad[3] * 0x3a94d) ]).

Definition major_17 : proc :=
  with_branch ((pad[2] .^ pad[6] .^ seed) .& 0x0F) (fun branch => [
    when (branch =? 4) [
      exec (minor_72 170);
      exec (minor_43);
      call major_16 pad[6] ];
    when (branch =? 0x0A) [
      exec (minor_31);
      exec (minor_72 253);
      call major_7 pad[0] ];
    exec (pad[15] += (ROR pad[16] 0x5));
    when (branch =? 2) [
      exec (minor_49);
      exec (minor_70);
      call major_8 pad[4] ];
    when (branch =? 9) [
      exec (minor_57 0xc481dafd);
      exec (minor_50);
      call major_18 seed ];
    exec (seed ::= pad[3] * seed * 19 << 1);
    when (branch =? 8) [
      exec (minor_39);
      exec (minor_71);
      call major_12 pad[8] ];
    when (branch =? 3) [
      exec (minor_58 0x1bf5bb22);
      exec (minor_62);
      call major_5 pad[14] ];
    exec (pad[11] *= seed + 0x19948E09);
    when (branch =? 3) [
      exec (minor_49);
      exec (minor_73);
      call major_15 seed ];
    when (branch =? 0x0E) [
      TRY (minor_11 0x43cf4936);
      TRY (minor_11 0xcc3ff7ad);
      call major_2 seed ];
    exec (pad[2] ::= (ROR pad[2] (seed - 0xc5ef5be)));
    when (branch =? 0) [
      exec (minor_26);
      exec (minor_24);
      call major_11 seed ];
    when (branch =? 0x0F) [
      exec (minor_69);
      exec (minor_61);
      call major_14 seed ];
    exec (pad[12] -= (IF (e_cos seed) THEN 0xcaba2d3 ELSE pad[9]));
    when (branch =? 0x0B) [
      exec (minor_56 0x27BA9331);
      exec (minor_29 148);
      call major_13 seed ];
    when (branch =? 7) [
      exec (minor_34);
      exec (minor_52 0x3a9e050c);
      call major_19 pad[1] ];
    exec (pad[17] -= (IF pad[17] .< 0xcaba2d3 THEN pad[17] ELSE pad[18]));
    when (branch =? 0) [
      exec (minor_44);
      exec (minor_48);
      call major_16 pad[10] ];
    when (branch =? 1) [
      exec (minor_33 0x6bd5eb17);
      exec (minor_43);
      call major_7 pad[17] ];
    exec (pad[6] += pad[0] - 0xD6249F6);
    when (branch =? 0x0C) [
      TRY minor_21;
      TRY minor_4;
      call major_8 pad[6] ];
    when (branch =? 1) [
      exec (minor_70);
      exec (minor_57 0x63fd32db);
      call major_18 seed ];
    exec (pad[5] += (pad[16] * 7 << 4) + pad[16]);
    when (branch =? 6) [
      exec (minor_50);
      TRY minor_17;
      call major_12 pad[8] ];
    when (branch =? 2) [
      TRY minor_14;
      TRY minor_20;
      call major_5 pad[15] ];
    exec (pad[11] |= pad[13] * 0x11);
    when (branch =? 0x0D) [
      exec (minor_32 0x1CF92975);
      TRY (minor_13 0x2F50247E);
      call major_15 pad[11] ];
    when (branch =? 5) [
      exec (minor_57 0xeb114770);
      exec (minor_34);
      call major_2 seed ];
    exec (pad[10] += pad[10] .^ 0x53350A5E) ]).

Definition major_3 : proc :=
  with_branch ((pad[3] .^ pad[14] .^ seed) .& 0x0F) (fun branch => [
    when (branch =? 0x0C) [
      exec (minor_46);
      exec (minor_72 75);
      call major_7 seed ];
    when (branch =? 4) [
      exec (minor_23);
      exec (minor_47);
      call major_8 pad[19] ];
    exec (seed -= pad[5] * 18);
    when (branch =? 8) [
      TRY (minor_11 0x890edab4);
      exec (minor_31);
      call major_18 seed ];
    when (branch =? 0x0E) [
      exec (minor_46);
      exec (minor_41);
      call major_12 pad[4] ];
    exec (pad[19] ^= 0xbd8b55f .^ pad[11]);
    when (branch =? 0x0B) [
      exec (minor_56 0x20AA3ABD);
      TRY (minor_13 0x5D894D2);
      call major_5 pad[17] ];
    when (branch =? 4) [
      exec (minor_69);
      exec (minor_60);
      call major_15 seed ];
    exec (pad[16] -= (pad[3] * 3 << 2) - pad[3] << 1);
    when (branch =? 1) [
      exec (minor_43);
      exec (minor_52 0x5b5a9b00);
      call major_2 seed ];
    when (branch =? 9) [
      exec (minor_45);
      exec (minor_49);
      call major_11 pad[9] ];
    exec (pad[14] *= pad[5] .| 0x132A8FBD);
    when (branch =? 0x0A) [
      exec (minor_51 31);
      exec (minor_57 0xb1e94414);
      call major_14 seed ];
    when (branch =? 0x0D) [
      exec (minor_35);
      exec (minor_42);
      call major_13 seed ];
    when (branch =? 2) [
      TRY minor_3;
      exec (minor_56 0xFE2E49B0);
      call major_19 pad[17] ];
    exec (pad[12] += (e_neg ((seed * 5 << 2) - seed)) * 3 << 1);
    when (branch =? 1) [
      TRY (minor_10 30);
      exec (minor_42);
      call major_17 pad[14] ];
    when (branch =? 2) [
      exec (minor_54);
      TRY minor_5;
      call major_7 seed ];
    exec (pad[16] *= (IF (e_cos seed) THEN 0x40E92E8A ELSE pad[9]));
    when (branch =? 0) [
      exec (minor_39);
      TRY minor_16;
      call major_8 pad[5];
      exec (minor_44);
      exec (minor_68);
      call major_18 pad[10] ];
    exec (seed *= pad[2] .^ 0xE5C69EA);
    when (branch =? 5) [
      TRY (minor_10 10);
      exec (minor_47);
      call major_12 pad[9] ];
    when (branch =? 7) [
      TRY minor_8;
      exec (minor_30);
      call major_5 pad[0] ];
    exec (pad[8] += seed - 0x1DBCEFC2);
    when (branch =? 3) [
      exec (minor_43);
      exec (minor_23);
      call major_15 pad[14] ];
    when (branch =? 6) [
      exec (minor_47);
      exec (minor_55 0xecb0c1a8);
      call major_2 seed ];
    exec (seed += pad[15] - 0x3206A0CA);
    when (branch =? 3) [
      exec (minor_31);
      exec (minor_35);
      call major_11 seed ];
    when (branch =? 0x0F) [
      TRY minor_17;
      exec (minor_28);
      call major_14 pad[1] ];
    exec (pad[14] ^= pad[8] .& 0x7d271) ]).

Definition major_21 : proc :=
  with_branch ((pad[15] .^ pad[4] .^ pad[19]) .& 0x0F) (fun branch => [
    when (branch =? 8) [
      exec (minor_39);
      TRY minor_17;
      call major_8 pad[12] ];
    exec (pad[16] += 0x19deda30 - pad[1]);
    when (branch =? 2) [
      exec (minor_58 0x7022d430);
      TRY minor_3;
      call major_18 seed ];
    when (branch =? 3) [
      exec (minor_31);
      exec (minor_58 0x7bb7cdf6);
      call major_12 seed ];
    exec (seed -= (IF (e_cos pad[10]) THEN 0x199972a0 ELSE seed));
    when (branch =? 4) [
      exec (minor_30);
      exec (minor_72 150);
      call major_5 seed ];
    when (branch =? 9) [
      exec (minor_59);
      TRY minor_20;
      call major_15 pad[16] ];
    exec (pad[16] *= (e_sqrt pad[2]));
    when (branch =? 0x0E) [
      exec (minor_56 0x103EC068);
      exec (minor_42);
      call major_2 pad[8] ];
    when (branch =? 5) [
      exec (minor_48);
      exec (minor_34);
      call major_11 pad[9] ];
    exec (pad[18] -= (e_sqrt pad[2]));
    when (branch =? 6) [
      exec (minor_67 0x903B6F4);
      exec (minor_37);
      call major_14 seed ];
    when (branch =? 1) [
      exec (minor_43);
      exec (minor_73);
      call major_13 pad[13] ];
    exec (seed += (IF pad[8] .< 0x2B940916 THEN pad[8] ELSE seed));
    when (branch =? 3) [
      exec (minor_55 0x22c0e0f0);
      TRY minor_20;
      call major_19 seed ];
    when (branch =? 2) [
      exec (minor_29 48);
      TRY minor_18;
      call major_17 pad[5] ];
    exec (seed *= pad[5] + 0x1D13557B);
    when (branch =? 0x0B) [
      TRY (minor_6 0xF4F5ADCC);
      exec (minor_70);
      call major_3 pad[17] ];
    when (branch =? 0x0A) [
      exec (minor_68);
      TRY minor_4;
      call major_8 seed ];
    exec (pad[0] -= (e_sqrt seed));
    when (branch =? 0x0D) [
      exec (minor_35);
      TRY minor_7;
      call major_18 pad[17] ];
    when (branch =? 0) [
      TRY minor_20;
      TRY minor_17;
      call major_12 pad[19] ];
    exec (pad[18] += 0xffb953f8 + seed);
    when (branch =? 0x0F) [
      TRY minor_7;
      exec (minor_69);
      call major_5 seed ];
    when (branch =? 1) [
      TRY minor_19;
      exec (minor_47);
      call major_15 pad[8] ];
    exec (pad[3] ^= (IF (e_cos seed) THEN 0xffb953f8 ELSE pad[4]));
    when (branch =? 7) [
      exec (minor_30);
      exec (minor_28);
      call major_2 pad[1] ];
    when (branch =? 0) [
      exec (minor_28);
      exec (minor_70);
      call major_11 pad[8] ];
    exec (pad[1] ^= pad[3] * 0x620312F0);
    when (branch =? 0x0C) [
      exec (minor_63);
      exec (minor_65 211);
      call major_14 pad[12] ];
    exec (pad[7] ^= (e_sqrt pad[10]));
    when (branch =? 4) [
      exec (minor_38);
      exec (minor_60);
      call major_13 pad[4] ];
    when (branch =? 5) [
      exec (minor_44);
      exec (minor_23);
      call major_19 seed ];
    exec (pad[18] ^= pad[14] + 0x9AD3708) ]).

Definition major_9 : proc :=
  with_branch (pad[9] .& 0x0F) (fun branch => [
    when (branch =? 0x0D) [
      exec (minor_53);
      exec (minor_36);
      call major_18 pad[13] ];
    when (branch =? 2) [
      TRY minor_21;
      exec (minor_40);
      call major_12 pad[10] ];
    exec (pad[1] -= 0x49d06938 .^ pad[7]);
    when (branch =? 6) [
      TRY minor_7;
      exec (minor_31);
      call major_5 seed ];
    when (branch =? 0x0E) [
      exec (minor_51 29);
      TRY minor_5;
      call major_15 seed ];
    exec (pad[13] *= (IF (e_cos seed) THEN 0x46223265 ELSE pad[18]));
    when (branch =? 6) [
      TRY minor_3;
      TRY minor_8;
      call major_2 pad[3] ];
    when (branch =? 4) [
      exec (minor_46);
      exec (minor_53);
      call major_11 seed ];
    exec (pad[6] += seed * 3 << 3);
    when (branch =? 4) [
      TRY minor_12;
      exec (minor_65 182);
      call major_14 pad[14] ];
    when (branch =? 2) [
      exec (minor_58 0xfa9054cb);
      TRY minor_4;
      call major_13 pad[0] ];
    exec (seed ^= (IF (e_sin pad[11]) THEN 0x2F24FB19 ELSE pad[16]));
    when (branch =? 0x0A) [
      exec (minor_40);
      exec (minor_70);
      call major_19 pad[7] ];
    when (branch =? 0x0B) [
      exec (minor_50);
      exec (minor_72 5);
      call major_17 pad[9] ];
    when (branch =? 5) [
      exec (minor_52 0xc4de785);
      exec (minor_36);
      call major_3 seed ];
    exec (pad[18] *= pad[2] + 0x92c5d3);
    when (branch =? 1) [
      exec (minor_35);
      exec (minor_64);
      call major_21 pad[7] ];
    when (branch =? 5) [
      TRY minor_17;
      exec (minor_68);
      call major_18 seed ];
    exec (pad[6] -= pad[8] .& 0x42D2AFE6);
    when (branch =? 0) [
      exec (minor_46);
      TRY minor_7;
      call major_12 pad[9] ];
    when (branch =? 7) [
      exec (minor_26);
      exec (minor_64);
      call major_5 pad[3] ];
    exec (pad[14] ::= (ROR pad[14] (pad[3] + 0x44060020)));
    when (branch =? 3) [
      exec (minor_35);
      exec (minor_59);
      call major_15 pad[2] ];
    when (branch =? 9) [
      exec (minor_39);
      exec (minor_51 14);
      call major_2 seed ];
    exec (pad[11] &= seed .^ 0x26649BD);
    when (branch =? 0x0C) [
      exec (minor_43);
      exec (minor_40);
      call major_11 seed ];
    when (branch =? 0x0F) [
      exec (minor_33 0x15507317);
      exec (minor_31);
      call major_14 pad[17] ];
    exec (pad[3] ::= (ROR pad[3] (0xd783ed .& pad[11])));
    when (branch =? 1) [
      TRY minor_8;
      exec (minor_28);
      call major_13 pad[13] ];
    when (branch =? 8) [
      exec (minor_28);
      exec (minor_40);
      call major_19 pad[11] ];
    when (branch =? 0) [
      TRY minor_9;
      exec (minor_35);
      call major_17 seed ];
    exec (pad[10] += (IF (e_cos pad[0]) THEN 0xF1B21FE ELSE seed));
    when (branch =? 3) [
      exec (minor_60);
      TRY minor_14;
      call major_3 pad[1] ];
    exec (pad[19] *= pad[18] * 73) ]).

Definition major_0 : proc :=
  with_branch ((pad[7] .^ pad[11] .^ pad[18]) .& 0x0F) (fun branch => [
    when (branch =? 0x0E) [
      exec (minor_33 0xc13e99ce);
      exec (minor_34);
      call major_12 seed ];
    when (branch =? 9) [
      exec (minor_41);
      exec (minor_70);
      call major_5 pad[7] ];
    exec (pad[11] += 0 - ((pad[18] * 5 << 4) - pad[18]));
    when (branch =? 0x0C) [
      exec (minor_43);
      exec (minor_27);
      call major_15 pad[2] ];
    when (branch =? 3) [
      exec (minor_29 168);
      TRY minor_20;
      call major_2 pad[7] ];
    when (branch =? 0x0B) [
      exec (minor_70);
      exec (minor_35);
      call major_11 pad[17] ];
    exec (pad[19] ^= (ROR pad[12] 0x1d));
    when (branch =? 4) [
      TRY minor_8;
      exec (minor_37);
      call major_14 pad[1] ];
    when (branch =? 2) [
      TRY minor_16;
      TRY minor_21;
      call major_13 pad[2] ];
    exec (seed ^= pad[14] - 0x12821);
    when (branch =? 4) [
      exec (minor_33 0x628d876);
      exec (minor_42);
      call major_19 seed ];
    when (branch =? 1) [
      TRY minor_12;
      exec (minor_28);
      call major_17 seed ];
    when (branch =? 0) [
      exec (minor_48);
      exec (minor_62);
      call major_3 pad[11] ];
    exec (pad[4] |= 0x472ca7 .^ pad[4]);
    when (branch =? 0x0D) [
      exec (minor_46);
      TRY minor_12;
      call major_21 pad[13] ];
    when (branch =? 0x0F) [
      exec (minor_73);
      exec (minor_43);
      call major_9 pad[13] ];
    exec (pad[13] -= (IF pad[16] .< 0x97CBA53 THEN pad[16] ELSE seed));
    when (branch =? 2) [
      exec (minor_24);
      TRY (minor_10 22);
      call major_12 pad[17] ];
    when (branch =? 6) [
      TRY minor_20;
      TRY minor_3;
      call major_5 pad[15] ];
    when (branch =? 7) [
      exec (minor_72 107);
      exec (minor_50);
      call major_15 pad[8] ];
    exec (pad[10] ^= (pad[2] << 5) - pad[2] << 1);
    when (branch =? 6) [
      TRY (minor_11 0x3f675c4e);
      exec (minor_41);
      call major_2 pad[16] ];
    when (branch =? 5) [
      exec (minor_49);
      exec (minor_56 0x87C73F);
      call major_11 pad[15] ];
    exec (pad[13] &= pad[9] .^ 0x473fe6);
    when (branch =? 7) [
      exec (minor_62);
      exec (minor_26);
      call major_14 seed ];
    when (branch =? 1) [
      TRY minor_3;
      TRY minor_15;
      call major_13 pad[5] ];
    when (branch =? 0) [
      exec (minor_25);
      exec (minor_30);
      call major_19 pad[17] ];
    exec (pad[1] -= (ROL pad[7] 0xc));
    when (branch =? 8) [
      exec (minor_65 169);
      exec (minor_27);
      call major_17 pad[2] ];
    when (branch =? 0x0A) [
      exec (minor_67 0xF611CB26);
      exec (minor_29 4);
      call major_3 pad[13] ];
    exec (pad[10] -= (IF pad[0] .< 0x6c6c THEN pad[0] ELSE pad[5]));
    when (branch =? 3) [
      exec (minor_33 0x58efea36);
      exec (minor_49);
      call major_21 pad[0] ];
    when (branch =? 5) [
      exec (minor_27);
      exec (minor_38);
      call major_9 pad[16] ];
    exec (pad[5] += ((seed << 5) + seed) * 3) ]).

Definition enc_type_80 : proc := body [ call major_0 seed ].

(** ** Every mixer is memory safe and keeps a pad of 32-bit words *)

Lemma safe80_minor_74 : safe_p minor_74.
Proof. mix_safe. Qed.
#[export] Hint Resolve safe80_minor_74 : mix.

Lemma safe80_minor_75 : safe_p0 minor_75.
Proof. mix_safe. Qed.
#[export] Hint Resolve safe80_minor_75 : mix.

Lemma safe80_major_10 : safe_p major_10.
Proof. mix_safe. Qed.
#[export] Hint Resolve safe80_major_10 : mix.

Lemma safe80_major_20 : safe_p major_20.
Proof. mix_safe. Qed.
#[export] Hint Resolve safe80_major_20 : mix.

Lemma safe80_major_6 : safe_p major_6.
Proof. mix_safe. Qed.
#[export] Hint Resolve safe80_major_6 : mix.

Lemma safe80_major_1 : safe_p major_1.
Proof. mix_safe. Qed.
#[export] Hint Resolve safe80_major_1 : mix.

Lemma safe80_major_4 : safe_p major_4.
Proof. mix_safe. Qed.
#[export] Hint Resolve safe80_major_4 : mix.

Lemma safe80_major_16 : safe_p major_16.
Proof. mix_safe. Qed.
#[export] Hint Resolve safe80_major_16 : mix.

Lemma safe80_major_7 : safe_p major_7.
Proof. mix_safe. Qed.
#[export] Hint Resolve safe80_major_7 : mix.

Lemma safe80_major_8 : safe_p major_8.
Proof. mix_safe. Qed.
#[export] Hint Resolve safe80_major_8 : mix.

Lemma safe80_major_18 : safe_p major_18.
Proof. mix_safe. Qed.
#[export] Hint Resolve safe80_major_18 : mix.

Lemma safe80_major_12 : safe_p major_12.
Proof. mix_safe. Qed.
#[export] Hint Resolve safe80_major_12 : mix.

Lemma safe80_major_5 : safe_p major_5.
Proof. mix_safe. Qed.
#[export] Hint Resolve safe80_major_5 : mix.

Lemma safe80_major_15 : safe_p major_15.
Proof. mix_safe. Qed.
#[export] Hint Resolve safe80_major_15 : mix.

Lemma safe80_major_2 : safe_p major_2.
Proof. mix_safe. Qed.
#[export] Hint Resolve safe80_major_2 : mix.

Lemma safe80_major_11 : safe_p major_11.
Proof. mix_safe. Qed.
#[export] Hint Resolve safe80_major_11 : mix.

Lemma safe80_major_14 : safe_p major_14.
Proof. mix_safe. Qed.
#[export] Hint Resolve safe80_major_14 : mix.

Lemma safe80_major_13 : safe_p major_13.
Proof. mix_safe. Qed.
#[export] Hint Resolve safe80_major_13 : mix.

Lemma safe80_major_19 : safe_p major_19.
Proof. mix_safe. Qed.
#[export] Hint Resolve safe80_major_19 : mix.

Lemma safe80_major_17 : safe_p major_17.
Proof. mix_safe. Qed.
#[export] Hint Resolve safe80_major_17 : mix.

Lemma safe80_major_3 : safe_p major_3.
Proof. mix_safe. Qed.
#[export] Hint Resolve safe80_major_3 : mix.

Lemma safe80_major_21 : safe_p major_21.
Proof. mix_safe. Qed.
#[export] Hint Resolve safe80_major_21 : mix.

Lemma safe80_major_9 : safe_p major_9.
Proof. mix_safe. Qed.
#[export] Hint Resolve safe80_major_9 : mix.

Lemma safe80_major_0 : safe_p major_0.
Proof. mix_safe. Qed.
#[export] Hint Resolve safe80_major_0 : mix.

Lemma safe80_enc_type_80 : safe_p enc_type_80.
Proof. mix_safe. Qed.

(** On every key of 20 words and every seed the mixer ends, inside the
    pad, and leaves 20 words. *)
Theorem enc_type_80_in_bounds pad sd :
  pad_ok pad -> word 32 sd -> exists pad', enc_type_80 pad sd = Some pad' /\ pad_ok pad'.
Proof. exact (safe80_enc_type_80 pad sd). Qed.

Lemma enc_type_80_in_bounds_witness :
  pad_ok (replicate 20 0xdeadbeef) /\ word 32 0x12345678 /\
  exists pad', enc_type_80 (replicate 20 0xdeadbeef) 0x12345678 = Some pad' /\ pad_ok pad'.
Proof.
  assert (H : pad_ok (replicate 20 0xdeadbeef)) by (split; [done|]; repeat constructor; unfold word; lia).
  assert (Hs : word 32 0x12345678) by (unfold word; lia).
  split; [exact H|]. split; [exact Hs|]. exact (enc_type_80_in_bounds _ _ H Hs).
Defined.
