(* ===== verification/EncType1.v ===== *)
(** * FastTrack pad generator 0x01

    [src/src/networks/fasttrack/enc_type_1.c]: 2048-bit arithmetic on arrays of 64
    little-endian [u32] limbs and the entry point [enc_type_1], which maps a
    255-byte key [x] to [x ^ 3 mod modulus].

    The three inner loops of the file ([big_mul], and the two of [big_mod])
    walk over a window of limbs with a carry; [limb_loop] is that walk and
    [mul_limb], [mulsub_limb] and [sub_limb] are the three loop bodies. *)

From Stdlib Require Import ZArith Lia.
From stdpp Require Import base option list numbers.
From S2P Require Import Prelude.

Local Open Scope Z_scope.

(** ** Definitions *)

Definition modulus : list Z := [
  0x0eb96841d; 0x031c4a05e; 0x0193bbd8f; 0x0bf77b6d6; 0x096d7f927;
  0x0e569c5fc; 0x05efa55ff; 0x0ba1519a1; 0x01b32a36f; 0x0e84b25f8;
  0x08d5b5eb2; 0x0c11f00e3; 0x019d2974d; 0x0e7ee26ad; 0x0bc8c0457;
  0x091fd3a9e; 0x06e37192e; 0x0e475aa9e; 0x072f554fc; 0x0695b3ca2;
  0x0f97bb445; 0x069f29f9a; 0x0b15e2216; 0x0390a5a36; 0x02c0054b3;
  0x0363dc15e; 0x0d238b5b8; 0x0e957a9b5; 0x00032a3df; 0x08781ab21;
  0x00a7703d8; 0x05250e6fe; 0x0b42d2df0; 0x010a931f8; 0x01e4970e5;
  0x0c3741ca7; 0x08606342a; 0x0d61a7055; 0x018e4dd48; 0x00829ee6d;
  0x08443fd05; 0x0e9db6341; 0x0de3c6725; 0x0a4037cdb; 0x096e537a7;
  0x0ed64060a; 0x0da2d7944; 0x051be98b0; 0x0315d5780; 0x0b6a31787;
  0x04d23ffc1; 0x0dbd26bb0; 0x0de7aa2fe; 0x071a157ac; 0x019288512;
  0x00d7a0050; 0x0522f69d1; 0x0dd331dd5; 0x096e62735; 0x0c6f2dc0e;
  0x0ae08473d; 0x00a532f6a; 0x034eb20ca; 0x0d453ec0a
].

(** [memset (num, 0, 4 * 64); num[0] = val;] *)
Definition big_set (val : Z) : list Z := val :: replicate 63 0.

(** [tmp |= (u32) b << j], [b] the next byte of [src], for [j] = 0, 8, 16, 24, for each limb. *)
Fixpoint big_letoh (n : nat) (src : list Z) : option (list Z) :=
  match n with
  | O => Some []
  | S n =>
      match src with
      | b0 :: b1 :: b2 :: b3 :: src =>
          dst ← big_letoh n src;
          Some (Z.lor (Z.lor (Z.lor (Z.shiftl b0 0) (Z.shiftl b1 8))
                             (Z.shiftl b2 16)) (Z.shiftl b3 24) :: dst)
      | _ => None
      end
  end.

(** [dst[i] = (src[i >> 2] >> ((i & 3) << 3)) & 0xff] for [i < cnt]. *)
Definition big_htole (src : list Z) (cnt : Z) : option (list Z) :=
  mapM (fun i => w ← rd src (Z.shiftr i 2);
                 Some (Z.land (Z.shiftr w (Z.shiftl (Z.land i 3) 3)) 0xff))
       (seqZ 0 cnt).

Definition big_getbit (num : list Z) (i : Z) : option Z :=
  w ← rd num (Z.shiftr i 5);
  Some (Z.land (Z.shiftr w (Z.land i 0x1f)) 1).

(** One limb of [big_mul]: [k += out[i + j] + in1[i] * in2[j]] is split into
    the stored limb and the carry. *)
Definition mul_limb (a k out b : Z) : Z * Z :=
  let k := u64 (k + u64 (out + u64 (a * b))) in
  (Z.land k 0xffffffff, Z.shiftr k 32).

(** One limb of the multiply-and-subtract of [big_mod]. *)
Definition mulsub_limb (k l in1 in2 : Z) : Z * Z :=
  let x := u64 (u64 (k * in2) + l) in
  let l := u32 (Z.shiftr x 32) in
  let l := if in1 <? Z.land x 0xffffffff then u32 (l + 1) else l in
  (u32 (in1 - x), l).

(** One limb of the final subtraction of [big_mod]. *)
Definition sub_limb (l in1 in2 : Z) : Z * Z :=
  let in1 := u32 (in1 - l) in
  let l := c_bool (in1 <? in2) in
  (u32 (in1 - in2), l).

(** A loop body: the carry, the limb of the window and the limb of the other
    operand give the new limb and the new carry. *)
Definition limb_body := Z -> Z -> Z -> option (Z * Z).

Definition lift (f : Z -> Z -> Z -> Z * Z) : limb_body := fun l x y => Some (f l x y).

(** The subtraction, refusing the one case in which it loses its borrow:
    [in1[i + j] -= l] wraps around. *)
Definition checked_sub_limb : limb_body := fun l in1 in2 =>
  if (l =? 1) && (in1 =? 0) then None else Some (sub_limb l in1 in2).

(** [for (j = 0; j < cnt; j++)]: [f] on the carry, [a[i + j]] and [b[j]]. *)
Definition limb_loop (f : limb_body) (cnt : nat) (l : Z) (a : list Z) (i : Z)
    (b : list Z) : option (Z * list Z) :=
  for_up cnt 0
    (fun j '(l, a) =>
       x ← rd a (i + j);
       y ← rd b j;
       '(x', l') ← f l x y;
       a' ← wr a (i + j) x';
       Some (l', a'))
    (l, a).

Definition big_mul (cnt : nat) (in1 in2 : list Z) : option (list Z) :=
  for_up cnt 0
    (fun i out =>
       a ← rd in1 i;
       '(k, out) ← limb_loop (lift (mul_limb a)) cnt 0 out i in2;
       wr out (i + Z.of_nat cnt) (u32 k))
    (replicate (cnt * 2) 0).

Fixpoint big_isless (cnt : nat) (num1 num2 : list Z) : option bool :=
  match cnt with
  | O => Some false
  | S cnt =>
      a ← rd num1 (Z.of_nat cnt);
      b ← rd num2 (Z.of_nat cnt);
      if a <? b then Some true
      else if b <? a then Some false
      else big_isless cnt num1 num2
  end.

(** The limb subtraction is a parameter of the rest, so that the code's
    ([sub_limb]) and the one that refuses to lose a borrow can be compared. *)
Section Reduction.
Context (sub : limb_body).

(** The subtraction loop ends within four rounds ([sub_loop_total]). *)
Definition sub_fuel : nat := 8.

(** [while (in1[cnt + i] != 0 || !big_isless (cnt, in1 + i, in2))] *)
Fixpoint big_sub_loop (fuel cnt : nat) (in1 : list Z) (i : Z) (in2 : list Z) : option (list Z) :=
  match fuel with
  | O => None
  | S fuel =>
      top ← rd in1 (Z.of_nat cnt + i);
      less ← (if top =? 0 then big_isless cnt (drop (Z.to_nat i) in1) in2 else Some false);
      if less : bool then Some in1 else
      '(l, in1) ← limb_loop sub cnt 0 in1 i in2;
      top ← rd in1 (Z.of_nat cnt + i);
      in1 ← wr in1 (Z.of_nat cnt + i) (u32 (top - l));
      big_sub_loop fuel cnt in1 i in2
  end.

Definition big_mod_step (cnt : nat) (in2 : list Z) (i : Z) (in1 : list Z) : option (list Z) :=
  let cntZ := Z.of_nat cnt in
  hi ← rd in1 (cntZ + i);
  lo ← rd in1 (cntZ + i - 1);
  d ← rd in2 (cntZ - 1);
  let k := u32 ((Z.shiftl hi 32 + lo) / (d + 1)) in
  '(l, in1) ← limb_loop (lift (mulsub_limb k)) cnt 0 in1 i in2;
  top ← rd in1 (cntZ + i);
  in1 ← wr in1 (cntZ + i) (u32 (top - l));
  big_sub_loop sub_fuel cnt in1 i in2.

(** [for (i = cnt - 1; i >= 0; i--)], then [memcpy (out, in1, cnt * 4)]. *)
Definition big_mod (cnt : nat) (in1 in2 : list Z) : option (list Z) :=
  in1 ← for_down cnt (Z.of_nat cnt - 1) (big_mod_step cnt in2) in1;
  sub_bytes in1 0 (Z.of_nat cnt).

Definition big_mulmod (num1 num2 mod_ : list Z) : option (list Z) :=
  top ← rd mod_ 63;
  let len := if top =? 0 then 32%nat else 64%nat in
  lnum ← big_mul len num1 num2;
  res ← big_mod len lnum mod_;
  blit num1 0 res.

(** [for (i = 2048; i > 0; i--) if (big_getbit (exp, i - 1) != 0) break;] *)
Fixpoint exp_bits (exp : list Z) (i : nat) : option nat :=
  match i with
  | O => Some O
  | S i' => b ← big_getbit exp (Z.of_nat i'); if b =? 0 then exp_bits exp i' else Some i
  end.

Definition big_expmod (num exp mod_ : list Z) : option (list Z) :=
  i ← exp_bits exp 2048;
  '(lnum, _) ← for_up i 0
    (fun _ '(lnum, num) =>
       lnum ← big_mulmod lnum num mod_;
       num ← big_mulmod num num mod_;
       Some (lnum, num))
    (big_set 1, num);
  Some lnum.

(** [in_key]: the caller's buffer, of which 255 bytes are read. *)
Definition enc_type_1_with (in_key : list Z) : option (list Z) :=
  let exp := big_set 3 in
  key ← sub_bytes in_key 0 255;
  let num2 := key ++ [1] in
  num1 ← big_letoh 64 num2;
  num1 ← big_expmod num1 exp modulus;
  big_htole num1 256.

End Reduction.

(** The code. *)
Definition enc_type_1 (in_key : list Z) : option (list Z) := enc_type_1_with (lift sub_limb) in_key.

(** ** The value of an array of limbs *)

Local Notation "'B'" := 4294967296.

Fixpoint val (l : list Z) : Z :=
  match l with
  | [] => 0
  | x :: l => x + B * val l
  end.

Definition limbs := arr 32.

Lemma word32_B x : word 32 x <-> 0 <= x < B.
Proof. done. Qed.

Lemma val_app a b : val (a ++ b) = val a + B ^ Z.of_nat (length a) * val b.
Proof.
  induction a as [|x a IH]; cbn [app val length]; [lia|].
  rewrite IH, Nat2Z.inj_succ, Z.pow_succ_r by lia. lia.
Qed.

Lemma val_snoc a x : val (a ++ [x]) = val a + B ^ Z.of_nat (length a) * x.
Proof. rewrite val_app. cbn [val]. lia. Qed.

Lemma val_range l : Forall (word 32) l -> 0 <= val l < B ^ Z.of_nat (length l).
Proof.
  induction 1 as [|x l Hx _ IH]; cbn [val length]; [lia|].
  rewrite Nat2Z.inj_succ, Z.pow_succ_r by lia. rewrite word32_B in Hx. lia.
Qed.

Lemma val_zeros n : val (replicate n 0) = 0.
Proof. induction n as [|n IH]; cbn [replicate val]; lia. Qed.

(** Comparing the top limbs first. *)
Lemma val_top_lt a b h d :
  length a = length b -> Forall (word 32) a -> Forall (word 32) b ->
  (val (a ++ [h]) <? val (b ++ [d])) = (if h <? d then true else if d <? h then false else val a <? val b).
Proof.
  intros Hl Ha Hb. rewrite !val_snoc, Hl.
  pose proof (val_range a Ha) as Ra. pose proof (val_range b Hb) as Rb. rewrite Hl in Ra.
  set (M := B ^ Z.of_nat (length b)) in *.
  bdestr; try nia; lia.
Qed.

(** ** The limb loops, on the window alone *)

Fixpoint limb_zip (f : limb_body) (l : Z) (a b : list Z) : option (Z * list Z) :=
  match a, b with
  | [], [] => Some (l, [])
  | x :: a, y :: b =>
      '(x', l') ← f l x y;
      '(l'', a') ← limb_zip f l' a b;
      Some (l'', x' :: a')
  | _, _ => None
  end.

Lemma limb_loop_from f i bp bs pre win post l :
  length win = length bs -> Z.of_nat (length pre) = i + Z.of_nat (length bp) ->
  for_up (length bs) (Z.of_nat (length bp))
    (fun j '(l, a) =>
       x ← rd a (i + j);
       y ← rd (bp ++ bs) j;
       '(x', l') ← f l x y;
       a' ← wr a (i + j) x';
       Some (l', a'))
    (l, pre ++ win ++ post)
  = '(l', win') ← limb_zip f l win bs; Some (l', pre ++ win' ++ post).
Proof.
  revert bp pre win l. induction bs as [|y bs IH]; intros bp pre [|x win] l Hl Hi; simplify_eq/=; [done|].
  rewrite <- Hi, !rd_nat, !list_lookup_middle by done. cbn [mbind option_bind].
  destruct (f l x y) as [[x' l']|]; cbn [mbind option_bind]; [|done].
  rewrite wr_in by (rewrite !length_app; simpl; lia). cbn [mbind option_bind].
  rewrite Nat2Z.id, insert_app_r_alt, Nat.sub_diag by lia. simpl.
  specialize (IH (bp ++ [y]) (pre ++ [x']) win l' Hl).
  rewrite !length_app, <- !app_assoc, !Nat2Z.inj_add in IH. cbn [app length] in IH.
  change (Z.of_nat 1) with 1 in IH. rewrite IH by lia.
  destruct (limb_zip f l' win bs) as [[l'' win']|]; [|done].
  cbn [mbind option_bind]. by rewrite <- app_assoc.
Qed.

Lemma limb_loop_zip f l pre win post b cnt i :
  length win = cnt -> length b = cnt -> i = Z.of_nat (length pre) ->
  limb_loop f cnt l (pre ++ win ++ post) i b
  = '(l', win') ← limb_zip f l win b; Some (l', pre ++ win' ++ post).
Proof.
  intros Hw Hb ->. pose proof (limb_loop_from f (Z.of_nat (length pre)) [] b pre win post l) as H.
  cbn [length app] in H. rewrite Hb in H. apply H; lia.
Qed.

(** A body that keeps [x' + e * B * l' = x + k * y + e * l] computes
    [win + k * b] with the carry counted [e] times. *)
Definition exact_body (e k : Z) (carry : Z -> Prop) (f : limb_body) : Prop :=
  forall l x y x' l',
  carry l -> word 32 x -> word 32 y -> f l x y = Some (x', l') ->
  word 32 x' /\ carry l' /\ x' + e * B * l' = x + k * y + e * l.

Lemma limb_zip_exact e k carry f l win b l' win' :
  exact_body e k carry f -> carry l -> Forall (word 32) win -> Forall (word 32) b ->
  limb_zip f l win b = Some (l', win') ->
  length win' = length win /\ Forall (word 32) win' /\ carry l' /\
  val win' + e * B ^ Z.of_nat (length win) * l' = val win + k * val b + e * l.
Proof.
  intros Hf Hl Hw. revert l l' win' b Hl.
  induction Hw as [|x win Hx _ IH]; intros l l' win' b Hl Hb H; destruct Hb as [|y b Hy Hb];
    simplify_eq/=.
  { split_and!; [done..|lia]. }
  destruct (f l x y) as [[x' l1]|] eqn:Ef; [|done]. cbn [mbind option_bind] in H.
  destruct (limb_zip f l1 win b) as [[l2 w2]|] eqn:Ez; [|done]. injection H as <- <-.
  destruct (Hf l x y x' l1) as (Hx' & Hl1 & E1); [done..|].
  destruct (IH l1 l2 w2 b) as (Hn & Hw2 & Hl2 & E2); [done..|].
  cbn [length]. rewrite Hn. split_and!; [done|by constructor|done|].
  rewrite Nat2Z.inj_succ, Z.pow_succ_r by lia. cbn [val]. nia.
Qed.

Lemma limb_zip_total f l win b :
  (forall l x y, is_Some (f l x y)) -> length win = length b -> is_Some (limb_zip f l win b).
Proof.
  intros Hf. revert l b. induction win as [|x win IH]; intros l [|y b] Hl; simplify_eq/=; [done|].
  destruct (Hf l x y) as [[x' l'] ->]. simpl. destruct (IH l' b Hl) as [[l'' w] ->]. done.
Qed.

Lemma limb_zip_snoc f l a b x y :
  length a = length b ->
  limb_zip f l (a ++ [x]) (b ++ [y])
  = '(l, a) ← limb_zip f l a b; '(x, l) ← f l x y; Some (l, a ++ [x]).
Proof.
  revert l b. induction a as [|z a IH]; intros l [|w b] Hl; simplify_eq/=.
  { by destruct (f l x y) as [[? ?]|]. }
  destruct (f l z w) as [[z' l']|]; simpl; [|done]. rewrite IH by done.
  destruct (limb_zip f l' a b) as [[l'' a']|]; simpl; [|done].
  by destruct (f l'' x y) as [[? ?]|].
Qed.

Lemma land_low x : Z.land x 0xffffffff = x mod B.
Proof. change 0xffffffff with (Z.ones 32). by rewrite Z.land_ones by lia. Qed.

Lemma shr_high x : Z.shiftr x 32 = x / B.
Proof. by rewrite Z.shiftr_div_pow2 by lia. Qed.

Lemma mul_limb_exact a : word 32 a -> exact_body 1 a (word 32) (lift (mul_limb a)).
Proof.
  intros Ha l x y x' l' Hl Hx Hy. rewrite word32_B in *. unfold lift, mul_limb.
  rewrite land_low, shr_high.
  assert (Hp : 0 <= a * y <= 18446744065119617025) by nia.
  assert (E : u64 (l + u64 (x + u64 (a * y))) = l + (x + a * y)).
    by (unfold u64; rewrite (Z.mod_small (a * y)), (Z.mod_small (x + _)), Z.mod_small; lia).
  rewrite E. intros [= <- <-]. rewrite ?word32_B. set (p := a * y) in *. Z.div_mod_to_equations. lia.
Qed.

Lemma mulsub_limb_exact k : word 32 k -> exact_body (-1) (- k) (word 32) (lift (mulsub_limb k)).
Proof.
  intros Hk l x y x' l' Hl Hx Hy. rewrite word32_B in *. unfold lift, mulsub_limb.
  rewrite land_low, shr_high.
  assert (Hp : 0 <= k * y <= 18446744065119617025) by nia.
  assert (E : u64 (u64 (k * y) + l) = k * y + l) 
    by (unfold u64; rewrite (Z.mod_small (k * y)), Z.mod_small; lia).
  rewrite E. replace (- k * y) with (- (k * y)) by lia. set (p := k * y) in *.
  intros [= <- <-]. unfold u32. rewrite ?word32_B. destruct (Z.ltb_spec x ((p + l) mod B)); Z.div_mod_to_equations; lia.
Qed.

(** A borrow is 0 or 1. *)
Definition borrow (l : Z) : Prop := l = 0 \/ l = 1.

Lemma checked_sub_limb_exact : exact_body (-1) (-1) borrow checked_sub_limb.
Proof.
  intros l x y x' l' Hl Hx Hy. rewrite word32_B in *. unfold checked_sub_limb, borrow, sub_limb, u32, c_bool in *.
  destruct (_ && _) eqn:E; [done|]. intros [= <- <-]. rewrite ?word32_B.
  destruct (Z.ltb_spec ((x - l) mod B) y); Z.div_mod_to_equations; lia.
Qed.

Lemma sub_limb_range l x y : word 32 (fst (sub_limb l x y)) /\ borrow (snd (sub_limb l x y)).
Proof.
  unfold sub_limb, borrow, c_bool. simpl. split; [apply u32_range|]. destruct (_ <? _); auto.
Qed.

(** Whatever borrows are lost, a borrow that comes out is a real one. *)
Lemma sub_borrow_real l win b l' win' :
  borrow l -> Forall (word 32) win -> Forall (word 32) b ->
  limb_zip (lift sub_limb) l win b = Some (l', win') ->
  length win' = length win /\ Forall (word 32) win' /\ borrow l' /\ (l' = 1 -> val win < val b + l).
Proof.
  intros Hl Hw. revert l l' win' b Hl.
  induction Hw as [|x win Hx _ IH]; intros l l' win' b Hl Hb H; destruct Hb as [|y b Hy Hb];
    simplify_eq/=.
  { split_and!; [done..|lia]. }
  destruct (limb_zip _ _ win b) as [[l2 w2]|] eqn:Ez; [|done]. injection H as <- <-.
  destruct (sub_limb_range l x y) as [R1 R2]. unfold sub_limb in R1, R2. simpl in R1, R2.
  destruct (IH _ l2 w2 b R2 Hb ltac:(done)) as (Hn & Hw2 & Hl2 & E2).
  simpl. rewrite Hn. split_and!; [done|by constructor|done|].
  intros H2. specialize (E2 H2). rewrite word32_B in *.
  unfold c_bool, u32, borrow in *. destruct (Z.ltb_spec ((x - l) mod B) y); Z.div_mod_to_equations; lia.
Qed.

(** ** [big_mul] multiplies *)

Lemma lift_total f l x y : is_Some (lift f l x y).
Proof. unfold lift. eauto. Qed.

Lemma val_take_S l i x : l !! i = Some x -> val (take (S i) l) = val (take i l) + B ^ Z.of_nat i * x.
Proof.
  intros Hx. rewrite (take_S_r _ _ _ Hx), val_snoc, length_take_le; [done|].
  apply lookup_lt_Some in Hx. lia.
Qed.

(** After [i] rounds [out] holds [in1[0..i) * in2] and zeros above it. *)
Definition mul_inv (cnt : nat) (in1 in2 : list Z) (i : Z) (out : list Z) : Prop :=
  exists acc, out = acc ++ replicate (cnt - Z.to_nat i) 0 /\ limbs (Z.to_nat i + cnt) acc /\
    val acc = val (take (Z.to_nat i) in1) * val in2.

Lemma big_mul_ok cnt in1 in2 :
  limbs cnt in1 -> limbs cnt in2 ->
  exists out, big_mul cnt in1 in2 = Some out /\ limbs (cnt + cnt) out /\ val out = val in1 * val in2.
Proof.
  intros [H1 W1] [H2 W2].
  destruct (for_up_total (mul_inv cnt in1 in2) (fun i out =>
       a ← rd in1 i;
       '(k, out) ← limb_loop (lift (mul_limb a)) cnt 0 out i in2;
       wr out (i + Z.of_nat cnt) (u32 k)) cnt 0 (replicate (cnt * 2) 0)) as (out & Ho & Hi).
  - intros i out Hi (acc & -> & [Hl Hw] & Hv). set (n := Z.to_nat i) in *.
    replace i with (Z.of_nat n) by lia. rewrite rd_nat.
    destruct (lookup_lt_is_Some_2 in1 n) as [a Ha]; [lia|]. rewrite Ha. cbn [mbind option_bind].
    pose proof (Forall_lookup_1 _ _ _ _ W1 Ha) as Wa.
    rewrite <- (take_drop n acc), <- app_assoc.
    assert (Hn : length (take n acc) = n) by (rewrite length_take; lia).
    assert (Hd : length (drop n acc) = cnt) by (rewrite length_drop; lia).
    rewrite limb_loop_zip by (done || lia).
    destruct (limb_zip_total (lift (mul_limb a)) 0 (drop n acc) in2) as [[k win] Hz];
      [intros; apply lift_total|lia|].
    rewrite Hz. cbn [mbind option_bind].
    apply (limb_zip_exact 1 a (word 32)) in Hz as (Hlw & Ww & Wk & E);
      [|by apply mul_limb_exact|done|by apply Forall_drop|done].
    rewrite wr_in by (rewrite !length_app, length_replicate; lia).
    eexists. split; [done|]. exists (take n acc ++ win ++ [k]).
    replace (Z.to_nat (Z.of_nat n + 1)) with (S n) by lia. split_and!.
    + replace (cnt - n)%nat with (S (cnt - S n)) by lia.
      rewrite u32_id by done. simpl.
      replace (Z.to_nat (Z.of_nat n + Z.of_nat cnt)) with (length (take n acc ++ win) + 0)%nat
        by (rewrite length_app; lia).
      by rewrite !app_assoc, insert_app_r, <- !app_assoc.
    + split; [rewrite !length_app; simpl; lia|].
      repeat (apply Forall_app; split); auto using Forall_take.
    + rewrite (val_take_S _ _ _ Ha), Z.mul_add_distr_r, <- Hv.
      rewrite <- (take_drop n acc) at 2. rewrite !val_app, Hn, Hlw, Hd. cbn [val].
      rewrite Hd in E. nia.
  - exists (replicate cnt 0). rewrite <- replicate_add. split_and!;
      [f_equal; lia|by apply arr_replicate|by rewrite val_zeros].
  - exists out. split; [exact Ho|]. destruct Hi as (acc & -> & Ha & Hv).
    rewrite Z.add_0_l, Nat2Z.id in Ha, Hv |- *.
    rewrite Nat.sub_diag, app_nil_r, Hv, take_ge by lia. done.
Qed.

(** ** [big_isless] compares *)

Lemma rd_app_l a b i x : rd a i = Some x -> rd (a ++ b) i = Some x.
Proof. rewrite !rd_Some. intros [? Hx]. split; [done|]. by apply lookup_app_l_Some. Qed.

Lemma big_isless_ok a post b :
  length a = length b -> Forall (word 32) a -> Forall (word 32) b ->
  big_isless (length b) (a ++ post) b = Some (val a <? val b).
Proof.
  cut (forall n a post b bpost, length a = n -> length b = n -> Forall (word 32) a -> Forall (word 32) b ->
         big_isless n (a ++ post) (b ++ bpost) = Some (val a <? val b)).
  { intros H Hl Ha Hb. rewrite <- (app_nil_r b) at 2. by apply H. }
  clear. induction n as [|n IH]; intros a post b bpost Ha Hb Wa Wb.
  - apply nil_length_inv in Ha as ->, Hb as ->. done.
  - destruct a as [|h a _] using rev_ind; [done|]. destruct b as [|d b _] using rev_ind; [done|].
    rewrite length_app in Ha, Hb. simpl in Ha, Hb.
    apply Forall_app in Wa as [Wa _], Wb as [Wb _].
    cbn [big_isless]. rewrite !rd_nat, <- !app_assoc. cbn [app].
    rewrite !list_lookup_middle by lia. cbn [mbind option_bind].
    rewrite val_top_lt by (lia || done). rewrite (IH a (h :: post) b (d :: bpost)) by (lia || done).
    by destruct (h <? d), (d <? h).
Qed.

(** ** One round of [big_mod] *)

Lemma limb_zip_length f l a b l' a' : limb_zip f l a b = Some (l', a') -> length a' = length a.
Proof.
  revert l a' b. induction a as [|x a IH]; intros l a' [|y b] H; simplify_eq/=; [done|].
  destruct (f l x y) as [[x' l1]|]; [|done]. simpl in H.
  destruct (limb_zip f l1 a b) as [[l2 a2]|] eqn:E; [|done]. injection H as <- <-.
  simpl. f_equal. by eapply IH.
Qed.

(** The limb above the window. *)
Lemma rd_top pre win t post i :
  i = Z.of_nat (length win) + Z.of_nat (length pre) -> rd (pre ++ win ++ t :: post) i = Some t.
Proof.
  intros ->. rewrite <- Nat2Z.inj_add, rd_nat, app_assoc. apply list_lookup_middle.
  rewrite length_app. lia.
Qed.

Lemma wr_top pre win t post i v :
  i = Z.of_nat (length win) + Z.of_nat (length pre) ->
  wr (pre ++ win ++ t :: post) i v = Some (pre ++ win ++ v :: post).
Proof.
  intros ->. rewrite wr_in by (rewrite !length_app; simpl; lia). f_equal.
  replace (Z.to_nat _) with (length (pre ++ win) + 0)%nat by (rewrite length_app; lia).
  by rewrite !app_assoc, insert_app_r.
Qed.

Section Divisor.
Context (b0 : list Z) (d : Z).
Context (Hb0 : Forall (word 32) b0) (Hd : 2147483648 <= d < B - 1).

Let cnt := S (length b0).
Let in2 := b0 ++ [d].

Lemma in2_limbs : limbs cnt in2.
Proof.
  split; [unfold in2, cnt; rewrite length_app; simpl; lia|].
  apply Forall_app. split; [done|]. repeat constructor; lia.
Qed.

(** The loop, in terms of the window and the limb above it. *)
Lemma big_sub_loop_eq sub fuel pre win t post i :
  limbs cnt win -> i = Z.of_nat (length pre) ->
  big_sub_loop sub (S fuel) cnt (pre ++ win ++ t :: post) i in2 =
  if (t =? 0) && (val win <? val in2) then Some (pre ++ win ++ t :: post)
  else '(l, win') ← limb_zip sub 0 win in2;
       big_sub_loop sub fuel cnt (pre ++ win' ++ u32 (t - l) :: post) i in2.
Proof.
  intros [Hw Ww] ->. pose proof in2_limbs as [H2 W2]. cbn [big_sub_loop].
  rewrite rd_top by lia. cbn [mbind option_bind].
  rewrite Nat2Z.id, drop_app_length, <- H2 at 1. rewrite big_isless_ok by (congruence || done).
  assert (Hr : forall less : bool,
    (if less then Some (pre ++ win ++ t :: post)
     else '(l, in1) ← limb_loop sub cnt 0 (pre ++ win ++ t :: post) (Z.of_nat (length pre)) in2;
          top ← rd in1 (Z.of_nat cnt + Z.of_nat (length pre));
          in1 ← wr in1 (Z.of_nat cnt + Z.of_nat (length pre)) (u32 (top - l));
          big_sub_loop sub fuel cnt in1 (Z.of_nat (length pre)) in2)
    = if less then Some (pre ++ win ++ t :: post)
      else '(l, win') ← limb_zip sub 0 win in2;
           big_sub_loop sub fuel cnt (pre ++ win' ++ u32 (t - l) :: post) (Z.of_nat (length pre)) in2).
  { intros [|]; [done|]. rewrite limb_loop_zip by (done || lia).
    destruct (limb_zip sub 0 win in2) as [[l win']|] eqn:E; cbn [mbind option_bind]; [|done].
    apply limb_zip_length in E. rewrite rd_top by lia. cbn [mbind option_bind].
    by rewrite wr_top by lia. }
  destruct (t =? 0); cbn [mbind option_bind andb]; [apply Hr|apply (Hr false)].
Qed.

(** What is left to do: the limb above the window, then its top limb. *)
Definition rank (t h : Z) : nat :=
  (if t =? 0 then 0 else 4) + (if d <=? h then 3 else if h =? 0 then 2 else 1).

(** The code's loop ends, below [in2], even when it loses a borrow. *)
Lemma sub_loop_total fuel pre w0 h t post i :
  limbs cnt (w0 ++ [h]) -> borrow t -> i = Z.of_nat (length pre) -> (rank t h < fuel)%nat ->
  exists win', big_sub_loop (lift sub_limb) fuel cnt (pre ++ (w0 ++ [h]) ++ t :: post) i in2
               = Some (pre ++ win' ++ 0 :: post) /\ limbs cnt win' /\ val win' < val in2.
Proof.
  intros Hw Ht -> Hf. revert w0 h t Hw Ht Hf.
  induction fuel as [|fuel IH]; intros w0 h t Hw Ht Hf; [lia|].
  rewrite big_sub_loop_eq by done. pose proof Hw as [Hlw Ww].
  rewrite length_app in Hlw. simpl in Hlw. apply Forall_app in Ww as [W0 Wh].
  apply Forall_cons_1 in Wh as [Wh _]. rewrite word32_B in Wh.
  destruct ((t =? 0) && (val (w0 ++ [h]) <? val in2)) eqn:Hstop.
  { exists (w0 ++ [h]). apply andb_true_iff in Hstop as [H0 Hlt].
    rewrite Z.eqb_eq in H0. rewrite Z.ltb_lt in Hlt. by rewrite H0. }
  unfold in2 in Hstop |- *. rewrite val_top_lt in Hstop by (unfold cnt in *; lia || done).
  rewrite limb_zip_snoc by (unfold cnt in *; lia).
  destruct (limb_zip_total (lift sub_limb) 0 w0 b0) as [[l w1] Hz];
    [intros; apply lift_total|unfold cnt in *; lia|].
  rewrite Hz. cbn [mbind option_bind lift]. unfold sub_limb. fold in2.
  apply sub_borrow_real in Hz as (Hl1 & W1 & Hl & Hreal); [|by left|done|done].
  apply IH.
  - split; [rewrite length_app; simpl; lia|]. apply Forall_app. split; [done|].
    repeat constructor; apply u32_range.
  - revert Hstop. unfold borrow, c_bool, u32 in *. bdestr; simpl; intros; try done; Z.div_mod_to_equations; lia.
  - revert Hf Hstop. unfold rank, borrow, c_bool, u32 in *.
    assert (Hcase : (h - l) mod B = h - l \/ (h = 0 /\ l = 1 /\ (h - l) mod B = B - 1))
      by (Z.div_mod_to_equations; lia).
    set (x := (h - l) mod B) in *.
    assert (Hcase2 : (x - d) mod B = x - d \/ (x < d /\ (x - d) mod B = x - d + B))
      by (subst x; Z.div_mod_to_equations; lia).
    set (y := (x - d) mod B) in *.
    destruct Ht as [-> | ->]; bdestr; simpl; intros; try done; lia.
Qed.

(** The loop with borrows checked subtracts [in2] some number of times. *)
Lemma sub_loop_exact fuel pre win t post i a' :
  limbs cnt win -> 0 <= t < B -> i = Z.of_nat (length pre) ->
  big_sub_loop checked_sub_limb fuel cnt (pre ++ win ++ t :: post) i in2 = Some a' ->
  exists win' q, a' = pre ++ win' ++ 0 :: post /\ limbs cnt win' /\ val win' < val in2 /\
    val win' = val win + B ^ Z.of_nat cnt * t - q * val in2.
Proof.
  intros Hw Ht ->. revert win t Hw Ht. induction fuel as [|fuel IH]; intros win t Hw Ht H; [done|].
  rewrite big_sub_loop_eq in H by done. destruct (_ && _) eqn:Hstop.
  - injection H as <-. apply andb_true_iff in Hstop as [H0 Hlt].
    rewrite Z.eqb_eq in H0. rewrite Z.ltb_lt in Hlt. exists win, 0. split_and!; [by rewrite H0|done|done|lia].
  - destruct (limb_zip _ 0 win in2) as [[l w1]|] eqn:Hz; [|done]. cbn [mbind option_bind] in H.
    destruct Hw as [Hlw Ww]. pose proof in2_limbs as [Hl2 W2].
    apply (limb_zip_exact (-1) (-1) borrow) in Hz as (Hl1 & W1 & Hl & E);
      [|apply checked_sub_limb_exact|by left|done|done].
    pose proof (val_range win Ww) as Rw. pose proof (val_range w1 W1) as R1.
    rewrite Hl1, Hlw in *. set (M := B ^ Z.of_nat cnt) in *.
    assert (Htl : 0 <= t - l < B).
    { unfold borrow in Hl. revert Hstop. bdestr; simpl; intros; try done; nia. }
    unfold u32 in H. rewrite Z.mod_small in H by lia.
    apply IH in H as (win' & q & -> & Hw' & Hlt & Hv); [|split; [lia|done]|done].
    exists win', (q + 1). split_and!; [done|done|done|]. nia.
Qed.

(** The quotient estimate [k] is small enough, and off by little. *)
Lemma quotient_bounds V hi lo r e M :
  V = (hi * B + lo) * M + r -> 0 <= r < M -> 0 <= e < M -> 0 <= hi <= d -> 0 <= lo < B ->
  let k := (hi * B + lo) / (d + 1) in
  0 <= k < B /\ 0 <= V - k * (e + M * d) < 2 * (B * M).
Proof.
  intros HV Hr He Hhi Hlo k.
  assert (Hk : 0 <= k < B).
  { subst k. split; [apply Z.div_pos; nia|]. apply Z.div_lt_upper_bound; nia. }
  split; [done|]. subst V. set (n := hi * B + lo) in *.
  assert (Hn : k * (d + 1) <= n <= k * (d + 1) + d)
    by (subst k; Z.div_mod_to_equations; lia).
  split; [nia|].
  assert (k * (e + M * d) >= k * (M * d)) by nia.
  assert (n * M <= (k * (d + 1) + d) * M) by nia.
  nia.
Qed.

(** The multiply-and-subtract phase, and what it leaves for the loop. *)
Lemma big_mod_step_eq sub pre win t post i :
  limbs cnt win -> 0 <= t -> Forall (word 32) pre -> i = Z.of_nat (length pre) ->
  val win + B ^ Z.of_nat cnt * t < B * val in2 ->
  exists w1 h1 t1 k, limbs cnt (w1 ++ [h1]) /\ borrow t1 /\
    val (w1 ++ [h1]) + B ^ Z.of_nat cnt * t1 = val win + B ^ Z.of_nat cnt * t - k * val in2 /\
    big_mod_step sub cnt in2 i (pre ++ win ++ t :: post)
    = big_sub_loop sub sub_fuel cnt (pre ++ (w1 ++ [h1]) ++ t1 :: post) i in2.
Proof.
  intros [Hlw Ww] Ht Wpre -> HV. destruct win as [|lo w0 _] using rev_ind; [done|].
  rewrite length_app in Hlw. simpl in Hlw. pose proof in2_limbs as [Hl2 W2].
  apply Forall_app in Ww as [W0 Wlo]. apply Forall_cons_1 in Wlo as [Wlo _]. rewrite word32_B in Wlo.
  assert (Hl0 : length w0 = length b0) by (unfold cnt in Hlw; lia).
  pose proof (val_range w0 W0) as R0. pose proof (val_range b0 Hb0) as Rb. rewrite Hl0 in R0.
  set (M := B ^ Z.of_nat (length b0)) in *.
  assert (HM : B ^ Z.of_nat cnt = B * M) by (unfold cnt, M; rewrite Nat2Z.inj_succ, Z.pow_succ_r; lia).
  assert (Hv2 : val in2 = val b0 + M * d) by apply val_snoc.
  assert (Htd : t <= d).
  { rewrite val_snoc, Hl0, HM, Hv2 in HV. fold M in HV. nia. }
  destruct (quotient_bounds (val (w0 ++ [lo]) + B ^ Z.of_nat cnt * t) t lo (val w0) (val b0) M)
    as [Hk Hq]; [rewrite val_snoc, Hl0, HM; fold M; nia|lia|lia|lia|lia|].
  set (k := (t * B + lo) / (d + 1)) in *. rewrite <- Hv2 in Hq.
  destruct (limb_zip_total (lift (mulsub_limb k)) 0 (w0 ++ [lo]) in2) as [[l w1] Hz];
    [intros; apply lift_total|rewrite length_app; simpl; lia|].
  pose proof Hz as He. apply (limb_zip_exact (-1) (- k) (word 32)) in He as (Hl1 & W1 & Hl & E);
    [|by apply mulsub_limb_exact|done|apply Forall_app; auto|done].
  assert (Hlen : length (w0 ++ [lo]) = cnt) by (rewrite length_app; simpl; lia).
  rewrite Hlen in Hl1, E.
  destruct w1 as [|h1 w1 _] using rev_ind; [simpl in Hl1; lia|].
  pose proof (val_range _ W1) as R1. rewrite Hl1, HM in *. rewrite word32_B in Hl.
  set (V1 := val (w1 ++ [h1])) in *.
  assert (HN : 0 <= V1 + B * M * (t - l) < 2 * (B * M)) by lia.
  assert (Htl : borrow (t - l)).
  { clear - HN R1. set (N := B * M) in *. set (u := t - l) in *. clearbody N u V1.
    pose proof (Z.mul_le_mono_nonneg_l 2 u N ltac:(lia)).
    pose proof (Z.mul_le_mono_nonneg_l u (-1) N ltac:(lia)). unfold borrow. lia. }
  exists w1, h1, (t - l), k. split_and!; [by split|done|rewrite ?HM; lia|].
  unfold big_mod_step. cbv zeta.
  rewrite (rd_top _ _ t _ (Z.of_nat cnt + Z.of_nat (length pre))) by lia. cbn [mbind option_bind].
  assert (Hlo : rd (pre ++ (w0 ++ [lo]) ++ t :: post)
                  (Z.of_nat cnt + Z.of_nat (length pre) - 1) = Some lo).
  { rewrite <- (app_assoc w0). apply rd_top. lia. }
  rewrite Hlo. cbn [mbind option_bind].
  replace (Z.of_nat cnt - 1) with (Z.of_nat (length b0)) by (unfold cnt; lia).
  assert (Hdd : rd in2 (Z.of_nat (length b0)) = Some d)
    by (unfold in2; by rewrite rd_nat, list_lookup_middle).
  rewrite Hdd. cbn [mbind option_bind].
  rewrite Z.shiftl_mul_pow2 by lia. change (t * 2 ^ 32) with (t * B). fold k.
  rewrite u32_id by done. rewrite limb_loop_zip by (done || lia). rewrite Hz. cbn [mbind option_bind].
  rewrite rd_top by lia. cbn [mbind option_bind]. rewrite wr_top by lia. cbn [mbind option_bind].
  rewrite u32_id by (unfold word, borrow in *; lia). done.
Qed.

(** ** [big_mod] *)

(** After the round [i + 1] the limbs from [i + 1] on, a window of [cnt], are
    below [in2]. *)
Definition mod_inv (i : Z) (pre win post : list Z) : Prop :=
  length pre = Z.to_nat (i + 1) /\ Forall (word 32) pre /\ limbs cnt win /\ val win < val in2.

(** The next round takes one limb more below, and its top limb is the carry. *)
Lemma mod_window i pre win post :
  0 <= i -> mod_inv i pre win post ->
  exists pre' win' t, pre ++ win = pre' ++ win' ++ [t] /\ i = Z.of_nat (length pre') /\
    Forall (word 32) pre' /\ limbs cnt win' /\ 0 <= t /\
    val win' + B ^ Z.of_nat cnt * t < B * val in2 /\
    val (pre ++ win) = val pre' + B ^ i * (val win' + B ^ Z.of_nat cnt * t).
Proof.
  intros Hi (Hlp & Wp & [Hlw Ww] & Hv).
  destruct pre as [|p pre _] using rev_ind; [simpl in Hlp; lia|].
  destruct win as [|t win _] using rev_ind; [done|].
  rewrite length_app in Hlp, Hlw. simpl in Hlp, Hlw.
  apply Forall_app in Wp as [Wp Wp1], Ww as [Ww Wt].
  apply Forall_cons_1 in Wp1 as [Wp1 _], Wt as [Wt _]. rewrite word32_B in Wp1, Wt.
  assert (E : (pre ++ [p]) ++ win ++ [t] = pre ++ (p :: win) ++ [t]) by by rewrite <- app_assoc.
  exists pre, (p :: win), t. split_and!; [done|lia|done| |lia| |].
  - split; [simpl; lia|]. by constructor.
  - rewrite val_snoc in Hv. assert (HM : B ^ Z.of_nat cnt = B * B ^ Z.of_nat (length win))
      by (rewrite <- Hlw, Nat.add_1_r, Nat2Z.inj_succ, Z.pow_succ_r; lia).
    rewrite HM. cbn [val]. nia.
  - rewrite E, val_app, val_snoc. replace (Z.of_nat (length pre)) with i by lia.
    by replace (length (p :: win)) with cnt by (simpl; lia).
Qed.

Lemma big_mod_loop_total i a n :
  n = Z.to_nat (i + 1) -> (exists pre win post, a = pre ++ win ++ post /\ mod_inv i pre win post) ->
  exists win post, for_down n i (big_mod_step (lift sub_limb) cnt in2) a = Some (win ++ post) /\
    limbs cnt win /\ val win < val in2.
Proof.
  revert i a. induction n as [|n IH]; intros i a Hn (pre & win & post & -> & Hinv).
  - destruct Hinv as (Hl & _ & Hw & Hv). rewrite <- Hn in Hl. apply nil_length_inv in Hl as ->.
    by exists win, post.
  - destruct (mod_window i pre win post) as (pre' & win' & t & E & Hi & Wp & Hw & Ht & HV & _); [lia|done|].
    rewrite app_assoc, E, <- !app_assoc. cbn [app for_down].
    destruct (big_mod_step_eq (lift sub_limb) pre' win' t post i)
      as (w1 & h1 & t1 & k & Hw1 & Ht1 & HV1 & ->); [done..|].
    destruct (sub_loop_total sub_fuel pre' w1 h1 t1 post i) as (w2 & -> & Hw2 & Hlt); [done..| |].
    { unfold rank, sub_fuel. bdestr; lia. }
    cbn [mbind option_bind]. apply IH; [lia|]. exists pre', w2, (0 :: post).
    split; [done|]. split_and!; [lia|done..].
Qed.

Lemma big_mod_loop_exact i a n a' V :
  n = Z.to_nat (i + 1) ->
  (exists pre win post, a = pre ++ win ++ post /\ mod_inv i pre win post /\
     exists q, val (pre ++ win) = V - q * val in2) ->
  for_down n i (big_mod_step checked_sub_limb cnt in2) a = Some a' ->
  exists win post, a' = win ++ post /\ limbs cnt win /\ val win < val in2 /\
    exists q, val win = V - q * val in2.
Proof.
  revert i a. induction n as [|n IH]; intros i a Hn (pre & win & post & -> & Hinv & q & Hq) H.
  - injection H as <-. destruct Hinv as (Hl & _ & Hw & Hv). rewrite <- Hn in Hl.
    apply nil_length_inv in Hl as ->. exists win, post. eauto.
  - destruct (mod_window i pre win post) as (pre' & win' & t & E & Hi & Wp & Hw & Ht & HV & Hval); [lia|done|].
    rewrite app_assoc, E, <- !app_assoc in H. cbn [app for_down] in H.
    destruct (big_mod_step_eq checked_sub_limb pre' win' t post i)
      as (w1 & h1 & t1 & k & Hw1 & Ht1 & HV1 & Hs); [done..|].
    rewrite Hs in H. destruct (big_sub_loop _ _ _ _ _ _) as [a2|] eqn:Hl; [|done].
    cbn [mbind option_bind] in H.
    apply sub_loop_exact in Hl as (w2 & q2 & -> & Hw2 & Hlt & Hv2); [|done|unfold borrow in *; lia|done].
    eapply IH; [|clear H|exact H]; [lia|]. exists pre', w2, (0 :: post).
    split; [done|]. split; [split_and!; [lia|done..]|].
    exists (q + B ^ i * (k + q2)). rewrite val_app, <- Hi.
    replace (val pre') with (V - q * val in2 - B ^ i * (val win' + B ^ Z.of_nat cnt * t)) by lia.
    rewrite Hv2, HV1. ring.
Qed.

(** The start: the upper half of [in1] is below [in2]. *)
Lemma mod_start in1 :
  limbs (cnt + cnt) in1 -> val in1 < B ^ Z.of_nat cnt * val in2 ->
  mod_inv (Z.of_nat cnt - 1) (take cnt in1) (drop cnt in1) [].
Proof.
  intros [Hl Hw] Hv. assert (Ht : length (take cnt in1) = cnt) by (rewrite length_take; lia).
  pose proof (val_range (take cnt in1) (Forall_take _ _ _ Hw)) as R.
  rewrite <- (take_drop cnt in1), val_app, Ht in Hv.
  split_and!; [lia|by apply Forall_take|split; [rewrite length_drop; lia|by apply Forall_drop]|].
  set (M := B ^ Z.of_nat cnt) in *. nia.
Qed.

Lemma take_win win post : limbs cnt win -> sub_bytes (win ++ post) 0 (Z.of_nat cnt) = Some win.
Proof.
  intros [Hl _]. rewrite sub_bytes_0 by (rewrite length_app; lia). rewrite <- Hl. by rewrite take_app_length.
Qed.

Lemma big_mod_total in1 :
  limbs (cnt + cnt) in1 -> val in1 < B ^ Z.of_nat cnt * val in2 ->
  exists r, big_mod (lift sub_limb) cnt in1 in2 = Some r /\ limbs cnt r /\ val r < val in2.
Proof.
  intros Hl Hv. unfold big_mod.
  destruct (big_mod_loop_total (Z.of_nat cnt - 1) in1 cnt) as (win & post & -> & Hw & Hlt); [lia| |].
  { exists (take cnt in1), (drop cnt in1), []. rewrite app_nil_r, take_drop.
    split; [done|]. by apply mod_start. }
  exists win. cbn [mbind option_bind]. by rewrite take_win.
Qed.

Lemma big_mod_exact in1 r :
  limbs (cnt + cnt) in1 -> val in1 < B ^ Z.of_nat cnt * val in2 ->
  big_mod checked_sub_limb cnt in1 in2 = Some r -> limbs cnt r /\ val r = val in1 mod val in2.
Proof.
  intros Hl Hv. unfold big_mod. destruct (for_down _ _ _ _) as [a'|] eqn:H; [|done].
  cbn [mbind option_bind]. intros Hr.
  eapply (big_mod_loop_exact _ _ _ _ (val in1)) in H as (win & post & -> & Hw & Hlt & q & Hq); [|lia|].
  - rewrite take_win in Hr by done. injection Hr as <-. split; [done|].
    pose proof (val_range win (proj2 Hw)). apply (Z.mod_unique_pos _ _ q); lia.
  - exists (take cnt in1), (drop cnt in1), []. rewrite app_nil_r, take_drop.
    split; [done|]. split; [by apply mod_start|]. exists 0. lia.
Qed.
End Divisor.

(** ** The checked subtraction refines the code's

    When no borrow is lost the two compute the same. *)

Definition refines {A} (x y : option A) : Prop := forall a, x = Some a -> y = Some a.

Lemma refines_refl {A} (x : option A) : refines x x.
Proof. by intros a. Qed.

Lemma refines_bind {A C} (x y : option A) (f g : A -> option C) :
  refines x y -> (forall a, refines (f a) (g a)) -> refines (x ≫= f) (y ≫= g).
Proof.
  intros Hx Hf c. destruct x as [a|]; [|done]. rewrite (Hx a eq_refl). simpl. apply Hf.
Qed.

Lemma refines_for_up {S} n i (f g : Z -> S -> option S) s :
  (forall j t, refines (f j t) (g j t)) -> refines (for_up n i f s) (for_up n i g s).
Proof.
  intros Hf. revert i s. induction n as [|n IH]; intros i s; [apply refines_refl|]. simpl.
  apply refines_bind; [apply Hf|]. intros t. apply IH.
Qed.

Lemma refines_for_down {S} n i (f g : Z -> S -> option S) s :
  (forall j t, refines (f j t) (g j t)) -> refines (for_down n i f s) (for_down n i g s).
Proof.
  intros Hf. revert i s. induction n as [|n IH]; intros i s; [apply refines_refl|]. simpl.
  apply refines_bind; [apply Hf|]. intros t. apply IH.
Qed.

Ltac refine_same := match goal with |- refines ?x ?y => constr_eq x y; exact (refines_refl x) end.

Lemma checked_refines l x y : refines (checked_sub_limb l x y) (lift sub_limb l x y).
Proof. unfold checked_sub_limb, lift. destruct (_ && _); [by intros a|apply refines_refl]. Qed.

Lemma limb_loop_refines cnt l a i b :
  refines (limb_loop checked_sub_limb cnt l a i b) (limb_loop (lift sub_limb) cnt l a i b).
Proof.
  unfold limb_loop. apply refines_for_up. intros j [c t].
  apply refines_bind; [refine_same|intros x]. apply refines_bind; [refine_same|intros y].
  apply refines_bind; [apply checked_refines|intros [x' l']; refine_same].
Qed.

Lemma big_sub_loop_refines fuel cnt a i b :
  refines (big_sub_loop checked_sub_limb fuel cnt a i b) (big_sub_loop (lift sub_limb) fuel cnt a i b).
Proof.
  revert a. induction fuel as [|fuel IH]; intros a; [done|]. cbn [big_sub_loop].
  apply refines_bind; [refine_same|intros top].
  apply refines_bind; [refine_same|intros [|]]; [refine_same|].
  apply refines_bind; [apply limb_loop_refines|intros [l a']].
  apply refines_bind; [refine_same|intros top']. apply refines_bind; [refine_same|intros a2]. apply IH.
Qed.

Lemma big_mod_step_refines cnt b i a :
  refines (big_mod_step checked_sub_limb cnt b i a) (big_mod_step (lift sub_limb) cnt b i a).
Proof.
  unfold big_mod_step. apply refines_bind; [refine_same|intros hi].
  apply refines_bind; [refine_same|intros lo]. apply refines_bind; [refine_same|intros d].
  apply refines_bind; [refine_same|intros [l a']].
  apply refines_bind; [refine_same|intros top]. apply refines_bind; [refine_same|intros a2].
  apply big_sub_loop_refines.
Qed.

Lemma big_mod_refines cnt a b : refines (big_mod checked_sub_limb cnt a b) (big_mod (lift sub_limb) cnt a b).
Proof.
  unfold big_mod. apply refines_bind; [|intros ?; refine_same].
  apply refines_for_down. intros j t. apply big_mod_step_refines.
Qed.

Lemma big_mulmod_refines a b m :
  refines (big_mulmod checked_sub_limb a b m) (big_mulmod (lift sub_limb) a b m).
Proof.
  unfold big_mulmod. apply refines_bind; [refine_same|intros top].
  apply refines_bind; [refine_same|intros x].
  apply refines_bind; [apply big_mod_refines|intros r; refine_same].
Qed.

Lemma big_expmod_refines num exp m :
  refines (big_expmod checked_sub_limb num exp m) (big_expmod (lift sub_limb) num exp m).
Proof.
  unfold big_expmod. apply refines_bind; [refine_same|intros i].
  apply refines_bind; [|intros [? ?]; refine_same]. apply refines_for_up. intros j [u v].
  apply refines_bind; [apply big_mulmod_refines|intros u'].
  apply refines_bind; [apply big_mulmod_refines|intros ?; refine_same].
Qed.

Lemma enc_type_1_refines key : refines (enc_type_1_with checked_sub_limb key) (enc_type_1 key).
Proof.
  unfold enc_type_1, enc_type_1_with.
  apply refines_bind; [refine_same|intros k]. apply refines_bind; [refine_same|intros x].
  apply refines_bind; [apply big_expmod_refines|intros y; refine_same].
Qed.

(** ** The modulus *)

Definition modulus_low : list Z := take 63 modulus.
Definition modulus_top : Z := 0xd453ec0a.

Lemma modulus_split : modulus = modulus_low ++ [modulus_top].
Proof. done. Qed.

Lemma modulus_low_word : Forall (word 32) modulus_low.
Proof. unfold modulus_low. cbn [take modulus]. repeat constructor; unfold word; lia. Qed.

Lemma modulus_limbs : limbs 64 modulus.
Proof.
  rewrite modulus_split. apply (in2_limbs modulus_low modulus_top modulus_low_word).
  unfold modulus_top. lia.
Qed.

Lemma modulus_large : 2 ^ 2047 < val modulus.
Proof. vm_compute. done. Qed.

#[local] Opaque modulus.

Section Mulmod.
Context (num1 num2 : list Z).
Context (H1 : limbs 64 num1) (H2 : limbs 64 num2) (Hlt : val num1 < val modulus).

Lemma big_mulmod_unfold sub :
  exists lnum, limbs 128 lnum /\ val lnum = val num1 * val num2 /\
    big_mulmod sub num1 num2 modulus
    = res ← big_mod sub 64 lnum modulus; blit num1 0 res.
Proof.
  destruct (big_mul_ok 64 num1 num2 H1 H2) as (lnum & Hm & Hl & Hv).
  exists lnum. split; [done|]. split; [done|]. unfold big_mulmod.
  assert (Ht : rd modulus 63 = Some modulus_top) by by rewrite modulus_split.
  rewrite Ht. cbn [mbind option_bind]. change (modulus_top =? 0) with false. cbv iota.
  by rewrite Hm.
Qed.

Lemma mulmod_below lnum : val lnum = val num1 * val num2 -> val lnum < B ^ 64 * val modulus.
Proof.
  intros ->. pose proof (val_range num2 (proj2 H2)) as R2. pose proof (val_range num1 (proj2 H1)) as R1.
  rewrite (proj1 H2) in R2. change (Z.of_nat 64) with 64 in R2.
  set (M := B ^ 64) in *. clearbody M. nia.
Qed.

Lemma blit_all res : limbs 64 res -> blit num1 0 res = Some res.
Proof.
  intros [Hr _]. destruct H1 as [Hn _]. rewrite (blit_in num1 0) by lia.
  rewrite drop_ge by lia. by rewrite app_nil_r.
Qed.

Lemma big_mulmod_total :
  exists r, big_mulmod (lift sub_limb) num1 num2 modulus = Some r /\ limbs 64 r /\ val r < val modulus.
Proof.
  destruct (big_mulmod_unfold (lift sub_limb)) as (lnum & Hl & Hv & ->).
  pose proof (mulmod_below lnum Hv) as Hb.
  destruct (big_mod_total modulus_low modulus_top modulus_low_word ltac:(done) lnum Hl) as (r & Hr & Hlr & Hrr);
    [rewrite <- modulus_split; exact Hb|].
  rewrite <- modulus_split in Hr, Hrr. exists r. split; [|done].
  change 64%nat with (S (length modulus_low)) at 1. rewrite Hr. by apply blit_all.
Qed.

Lemma big_mulmod_exact r :
  big_mulmod checked_sub_limb num1 num2 modulus = Some r ->
  limbs 64 r /\ val r = (val num1 * val num2) mod val modulus.
Proof.
  destruct (big_mulmod_unfold checked_sub_limb) as (lnum & Hl & Hv & ->).
  pose proof (mulmod_below lnum Hv) as Hb. intros H.
  destruct (big_mod checked_sub_limb 64 lnum modulus) as [res|] eqn:E; [|done]. simpl in H.
  rewrite modulus_split in E, Hb.
  apply (big_mod_exact modulus_low modulus_top modulus_low_word ltac:(done) lnum) in E as [Hr Hvr]; [|done..].
  rewrite <- modulus_split, Hv in Hvr. rewrite blit_all in H by done. by injection H as <-.
Qed.
End Mulmod.

(** ** Conversions *)

Lemma big_letoh_ok n src :
  length src = (4 * n)%nat -> Forall (word 8) src ->
  exists ws, big_letoh n src = Some ws /\ limbs n ws /\ val ws = le_word src.
Proof.
  revert src. induction n as [|n IH]; intros src Hl Hw.
  - apply nil_length_inv in Hl as ->. by exists [].
  - destruct src as [|b0 [|b1 [|b2 [|b3 src]]]]; simpl in Hl; try lia.
    apply Forall_cons_1 in Hw as [W0 Hw], Hw as [W1 Hw], Hw as [W2 Hw], Hw as [W3 Hw].
    destruct (IH src) as (ws & Hs & [Hlw Ww] & Hv); [lia|done|].
    cbn [big_letoh]. rewrite Hs. cbn [mbind option_bind].
    rewrite Z.shiftl_0_r, !le_word_cons by assumption.
    rewrite (lor_shiftl_add 8) by (lia || done).
    rewrite (lor_shiftl_add 16), (lor_shiftl_add 24) by (lia || unfold word in *; lia).
    eexists. split; [done|]. split.
    + split; [simpl; lia|]. constructor; [|done]. unfold word in *. lia.
    + cbn [val]. rewrite Hv. lia.
Qed.

Lemma big_htole_ok n src :
  length src = n -> big_htole src (4 * Z.of_nat n) = Some (concat (le_bytes 4 <$> src)).
Proof.
  intros Hl. unfold big_htole.
  replace (concat (le_bytes 4 <$> src)) with (concat (le_bytes 4 <$> take n src))
    by by rewrite take_ge by lia.
  assert (H : (n <= length src)%nat) by lia. revert H. clear Hl.
  induction n as [|n IH]; intros H; [done|].
  rewrite Nat2Z.inj_succ, <- Z.add_1_r, Z.mul_add_distr_l, Z.mul_1_r, seqZ_app by lia.
  destruct (lookup_lt_is_Some_2 src n) as [w Hw]; [lia|].
  rewrite (take_S_r _ _ _ Hw), fmap_app, concat_app.
  specialize (IH ltac:(lia)). apply mapM_Some. apply mapM_Some in IH.
  apply Forall2_app; [done|]. change (concat (le_bytes 4 <$> [w])) with (le_bytes 4 w).
  rewrite !(seqZ_cons) by lia. rewrite seqZ_nil by lia. cbn [le_bytes].
  set (k := 0 + 4 * Z.of_nat n).
  assert (Hk : forall j, 0 <= j < 4 -> Z.shiftr (k + j) 2 = Z.of_nat n /\ Z.land (k + j) 3 = j).
  { intros j Hj. subst k. change 3 with (Z.ones 2). rewrite Z.land_ones, Z.shiftr_div_pow2 by lia.
    change (2 ^ 2) with 4. split; Z.div_mod_to_equations; lia. }
  replace (Z.succ k) with (k + 1) by lia. replace (Z.succ (k + 1)) with (k + 2) by lia.
  replace (Z.succ (k + 2)) with (k + 3) by lia. rewrite <- (Z.add_0_r k) at 1.
  assert (Hf : forall j, 0 <= j < 4 -> forall y,
    y = Z.land (Z.shiftr w (Z.shiftl j 3)) 255 ->
    (w ← rd src (Z.shiftr (k + j) 2); Some (Z.land (Z.shiftr w (Z.shiftl (Z.land (k + j) 3) 3)) 255)) = Some y).
  { intros j Hj y ->. destruct (Hk j Hj) as [-> ->]. by rewrite rd_nat, Hw. }
  do 4 (apply Forall2_cons; [apply Hf; [lia|]; by rewrite ?Z.shiftr_shiftr by lia|]).
  apply Forall2_nil.
Qed.

Lemma val_bytes ws : Forall (word 32) ws -> le_word (concat (le_bytes 4 <$> ws)) = val ws.
Proof.
  induction 1 as [|w ws Hw _ IH]; [done|]. cbn [fmap list_fmap concat val].
  rewrite le_word_app, le_bytes_length, IH, le_word_bytes by apply le_bytes_word.
  change (256 ^ Z.of_nat 4) with B. by rewrite Z.mod_small.
Qed.

Lemma words_bytes_arr n ws : length ws = n -> arr 8 (4 * n) (concat (le_bytes 4 <$> ws)).
Proof.
  intros <-. induction ws as [|w ws [IHl IHw]]; [done|]. cbn [fmap list_fmap concat]. split.
  - rewrite length_app, le_bytes_length, IHl. simpl. lia.
  - apply Forall_app. split; [apply le_bytes_word|done].
Qed.

(** ** [enc_type_1] *)

(** The number the key stands for: its bytes, and a leading 1. *)
Definition key_number (key : list Z) : Z := le_word key + 2 ^ 2040.

Lemma enc_type_1_unfold sub key :
  arr 8 255 key ->
  exists num, limbs 64 num /\ val num = key_number key /\ val num < val modulus /\
    enc_type_1_with sub key = num1 ← big_expmod sub num (big_set 3) modulus; big_htole num1 256.
Proof.
  intros [Hl Hw]. destruct (big_letoh_ok 64 (key ++ [1])) as (num & Hn & Hln & Hv).
  { rewrite length_app. simpl. lia. }
  { apply Forall_app. split; [done|]. repeat constructor; lia. }
  exists num. rewrite le_word_app, Hl in Hv by done.
  assert (Hnum : val num = key_number key) by (rewrite Hv; unfold key_number; cbn [le_word]; done).
  pose proof (le_word_range 255 key Hl Hw) as R. unfold word in R.
  split; [done|]. split; [done|]. split.
  - rewrite Hnum. unfold key_number. pose proof modulus_large as HM.
    change (8 * Z.of_nat 255) with 2040 in R.
    assert (2 ^ 2040 + 2 ^ 2040 <= 2 ^ 2047) by (vm_compute; done). lia.
  - unfold enc_type_1_with. cbv zeta. change 255 with (Z.of_nat 255) at 1.
    rewrite sub_bytes_0, take_ge by lia. cbn [mbind option_bind]. rewrite Hn.
    cbn [mbind option_bind]. reflexivity.
Qed.

#[local] Opaque big_mulmod.

Lemma exp_bits_3 : exp_bits (big_set 3) 2048 = Some 2%nat.
Proof. vm_compute. reflexivity. Qed.

Lemma two_rounds (mulmod : list Z -> list Z -> option (list Z)) lnum num :
  ('(lnum, _) ← for_up 2 0
     (fun _ '(lnum, num) =>
        lnum ← mulmod lnum num; num ← mulmod num num; Some (lnum, num)) (lnum, num);
   Some lnum)
  = (l1 ← mulmod lnum num; n1 ← mulmod num num; l2 ← mulmod l1 n1; n2 ← mulmod n1 n1; Some l2).
Proof.
  simpl. destruct (mulmod lnum num) as [l1|]; [|done]. simpl.
  destruct (mulmod num num) as [n1|]; [|done]. simpl.
  destruct (mulmod l1 n1) as [l2|]; [|done]. simpl. by destruct (mulmod n1 n1).
Qed.

Lemma big_expmod_3 sub num m :
  big_expmod sub num (big_set 3) m =
  (l1 ← big_mulmod sub (big_set 1) num m; n1 ← big_mulmod sub num num m;
   l2 ← big_mulmod sub l1 n1 m; n2 ← big_mulmod sub n1 n1 m; Some l2).
Proof.
  unfold big_expmod. rewrite exp_bits_3. cbn [mbind option_bind].
  exact (two_rounds (fun a b => big_mulmod sub a b m) (big_set 1) num).
Qed.

Lemma one_limbs : limbs 64 (big_set 1).
Proof. split; [done|]. repeat constructor; lia. Qed.

Lemma one_below : val (big_set 1) < val modulus.
Proof. change (val (big_set 1)) with 1. pose proof modulus_large. lia. Qed.

Lemma enc_type_1_ok key :
  arr 8 255 key -> exists out, enc_type_1 key = Some out /\ arr 8 256 out.
Proof.
  intros Hk. destruct (enc_type_1_unfold (lift sub_limb) key Hk) as (num & Hn & _ & Hlt & E).
  unfold enc_type_1. rewrite E, big_expmod_3.
  destruct (big_mulmod_total (big_set 1) num one_limbs Hn one_below) as (l1 & -> & Hl1 & Hl1').
  cbn [mbind option_bind].
  destruct (big_mulmod_total num num Hn Hn Hlt) as (n1 & -> & Hn1 & Hn1'). cbn [mbind option_bind].
  destruct (big_mulmod_total l1 n1 Hl1 Hn1 Hl1') as (l2 & -> & Hl2 & _). cbn [mbind option_bind].
  destruct (big_mulmod_total n1 n1 Hn1 Hn1 Hn1') as (n2 & -> & _). cbn [mbind option_bind].
  change 256 with (4 * Z.of_nat 64). rewrite big_htole_ok by apply Hl2.
  eexists. split; [done|]. apply (words_bytes_arr 64), Hl2.
Qed.

(** C23: on every key the arithmetic ends (the subtraction loop of [big_mod]
    included) within the arrays, with 256 bytes. *)
Theorem enc_type_1_total key :
  arr 8 255 key -> exists out, enc_type_1 key = Some out /\ arr 8 256 out.
Proof. apply enc_type_1_ok. Qed.

Lemma enc_type_1_total_witness :
  arr 8 255 (replicate 255 7) /\ exists out, enc_type_1 (replicate 255 7) = Some out /\ arr 8 256 out.
Proof.
  assert (H : arr 8 255 (replicate 255 7)) by (apply arr_replicate; unfold word; lia).
  split; [exact H|exact (enc_type_1_total (replicate 255 7) H)].
Defined.

Lemma enc_type_1_checked_cube key out :
  arr 8 255 key -> enc_type_1_with checked_sub_limb key = Some out ->
  le_word out = key_number key ^ 3 mod val modulus.
Proof.
  intros Hk H.
  destruct (enc_type_1_unfold checked_sub_limb key Hk) as (num & Hn & Hv & Hlt & E).
  rewrite E, big_expmod_3 in H. pose proof modulus_large as HM.
  destruct (big_mulmod _ (big_set 1) num modulus) as [l1|] eqn:E1; [|discriminate H]. cbn [mbind option_bind] in H.
  apply (big_mulmod_exact _ _ one_limbs Hn one_below) in E1 as [Hl1 Hv1].
  destruct (big_mulmod _ num num modulus) as [n1|] eqn:E2; [|discriminate H]. cbn [mbind option_bind] in H.
  apply (big_mulmod_exact _ _ Hn Hn Hlt) in E2 as [Hn1 Hv2].
  assert (Hlt1 : val l1 < val modulus) by (rewrite Hv1; apply Z.mod_pos_bound; lia).
  destruct (big_mulmod _ l1 n1 modulus) as [l2|] eqn:E3; [|discriminate H]. cbn [mbind option_bind] in H.
  apply (big_mulmod_exact _ _ Hl1 Hn1 Hlt1) in E3 as [Hl2 Hv3].
  destruct (big_mulmod _ n1 n1 modulus) as [n2|]; [|discriminate H]. cbn [mbind option_bind] in H.
  change 256 with (4 * Z.of_nat 64) in H. rewrite big_htole_ok in H by apply Hl2. injection H as <-.
  rewrite val_bytes by apply Hl2. rewrite Hv3, Hv1, Hv2, <- Hv.
  change (val (big_set 1)) with 1. rewrite Z.mul_1_l.
  rewrite <- Zmult_mod. f_equal. lia.
Qed.

(** What the run with checked borrows tells about the code's run. *)
Definition cube_result (key : list Z) : Prop :=
  match enc_type_1_with checked_sub_limb key with
  | Some out => enc_type_1 key = Some out /\ le_word out = key_number key ^ 3 mod val modulus
  | None => exists out, enc_type_1 key = Some out
  end.

(** C22: unless a borrow is lost on the way, the result is the cube of the
    key's number modulo the 2048-bit modulus. *)
Theorem enc_type_1_cube key : arr 8 255 key -> cube_result key.
Proof.
  intros Hk. unfold cube_result. destruct (enc_type_1_with checked_sub_limb key) as [out|] eqn:E.
  - split; [by apply enc_type_1_refines|by apply enc_type_1_checked_cube].
  - destruct (enc_type_1_ok key Hk) as (out & Ho & _). by exists out.
Qed.

Lemma enc_type_1_cube_witness : arr 8 255 (replicate 255 7) /\ cube_result (replicate 255 7).
Proof.
  assert (H : arr 8 255 (replicate 255 7)) by (apply arr_replicate; unfold word; lia).
  split; [exact H|exact (enc_type_1_cube (replicate 255 7) H)].
Defined.

(** [big_mod] is the remainder, when no borrow is lost, for every divisor
    whose top limb has its high bit set. *)
Theorem big_mod_remainder b0 d in1 r :
  Forall (word 32) b0 -> 2147483648 <= d < B - 1 ->
  limbs (S (length b0) + S (length b0)) in1 ->
  val in1 < B ^ Z.of_nat (S (length b0)) * val (b0 ++ [d]) ->
  big_mod checked_sub_limb (S (length b0)) in1 (b0 ++ [d]) = Some r ->
  big_mod (lift sub_limb) (S (length b0)) in1 (b0 ++ [d]) = Some r /\
  val r = val in1 mod val (b0 ++ [d]).
Proof.
  intros Hb Hd Hl Hv H. split; [by apply big_mod_refines|].
  by apply (big_mod_exact b0 d Hb Hd in1 r Hl Hv).
Qed.

Lemma big_mod_remainder_witness :
  Forall (word 32) [7] /\ 2147483648 <= 0x80000001 < B - 1 /\
  big_mod (lift sub_limb) 2 [1; 2; 3; 0x7fffffff] ([7] ++ [0x80000001]) = Some [1; 30] /\
  val [1; 30] = val [1; 2; 3; 0x7fffffff] mod val ([7] ++ [0x80000001]).
Proof.
  assert (H1 : Forall (word 32) [7]) by (repeat constructor; unfold word; lia).
  assert (H2 : 2147483648 <= 0x80000001 < B - 1) by lia.
  split; [exact H1|]. split; [exact H2|].
  apply (big_mod_remainder [7] 0x80000001 [1; 2; 3; 0x7fffffff] [1; 30] H1 H2).
  - split; [reflexivity|]. repeat constructor; unfold word; lia.
  - vm_compute. reflexivity.
  - vm_compute. reflexivity.
Defined.

(** The borrow of the subtraction loop is lost when it meets a zero limb
    ([in1[i + j] -= l] wraps around before the comparison): here [big_mod]
    is not the remainder, although its operands satisfy the bounds of
    [big_mod_remainder]. *)
Theorem big_mod_borrow_lost :
  big_mod (lift sub_limb) 3 [1; 0; 1; 1; 0; 0] [1; 0; 2147483648] = Some [B - 1; B - 1; 1] /\
  val [1; 0; 1; 1; 0; 0] mod val [1; 0; 2147483648] = val [B - 1; B - 1; 0].
Proof. vm_compute. split; reflexivity. Qed.
