(* ===== verification/MerkleDamgard.v ===== *)
(** * Block-iterated hash functions: the specification

    What MD4 ([md4.c]) and MD5 ([md5_c.c]) promise: the digest of a whole
    message is the compression function folded over the 64-byte blocks of the
    padded message ([md_hash], written without any buffer or counter).  The
    interface [IncrementalHash] is what the rest of the program uses of them
    (init, update in pieces, finish), with the contract [IncrementalHashOk]:
    the pieces do not matter. *)

From Stdlib Require Import ZArith Lia.
From stdpp Require Import base option list numbers.
From S2P Require Import Prelude.

Local Open Scope Z_scope.

(** ** The interface *)

Class IncrementalHash (Ctx : Type) := {
  ih_init : Ctx;
  ih_update : Ctx -> list Z -> option Ctx;
  ih_finish : Ctx -> option (list Z)
}.

(** [ih_repr ctx m]: the context [ctx] has absorbed the message [m]; [piece d]:
    the bytes [d] may be given to one update. *)
Class IncrementalHashOk {Ctx} (I : IncrementalHash Ctx) (spec : list Z -> list Z) (piece : list Z -> Prop) := {
  ih_repr : Ctx -> list Z -> Prop;
  ih_init_ok : ih_repr ih_init [];
  ih_update_ok ctx m d :
    ih_repr ctx m -> piece d ->
    exists ctx', ih_update ctx d = Some ctx' /\ ih_repr ctx' (m ++ d);
  ih_finish_ok ctx m : ih_repr ctx m -> ih_finish ctx = Some (spec m)
}.

(** Feeding a list of pieces, then finishing. *)
Fixpoint ih_update_all {Ctx} `{!IncrementalHash Ctx} (ctx : Ctx) (ps : list (list Z)) : option Ctx :=
  match ps with
  | [] => Some ctx
  | p :: ps => ctx ← ih_update ctx p; ih_update_all ctx ps
  end.

Definition ih_digest {Ctx} `{!IncrementalHash Ctx} (ps : list (list Z)) : option (list Z) :=
  ctx ← ih_update_all ih_init ps; ih_finish ctx.

Section Pieces.
Context {Ctx} {I : IncrementalHash Ctx} {spec piece} `{!IncrementalHashOk I spec piece}.

Lemma ih_update_all_ok ctx m ps :
  ih_repr ctx m -> Forall piece ps ->
  exists ctx', ih_update_all ctx ps = Some ctx' /\ ih_repr ctx' (m ++ concat ps).
Proof.
  intros Hr Hps. revert ctx m Hr.
  induction Hps as [|p ps Hp _ IH]; intros ctx m Hr; simpl.
  - exists ctx. by rewrite app_nil_r.
  - destruct (ih_update_ok ctx m p Hr Hp) as (ctx1 & -> & Hr1). simpl.
    rewrite app_assoc. by apply IH.
Qed.

(** The digest depends on the bytes fed, not on how they were cut. *)
Lemma ih_digest_ok ps :
  Forall piece ps ->
  ih_digest ps = Some (spec (concat ps)).
Proof.
  intros Hps. destruct (ih_update_all_ok _ _ ps ih_init_ok Hps) as (ctx & Hu & Hr).
  unfold ih_digest. rewrite Hu. apply ih_finish_ok, Hr.
Qed.
End Pieces.

(** ** Folding a compression function over the blocks of a message *)

Section Blocks.
Context {H : Type} (compress : H -> list Z -> H).

Fixpoint md_fold (n : nat) (h : H) (m : list Z) : H :=
  match n with
  | O => h
  | S n => md_fold n (compress h (take 64 m)) (drop 64 m)
  end.

(** All the whole blocks of [m]. *)
Definition md_absorb (h : H) (m : list Z) : H := md_fold (length m / 64) h m.

(** What is left after them. *)
Definition md_tail (m : list Z) : list Z := drop (length m / 64 * 64) m.

(** RFC 1320/1321 padding: 0x80, zeros up to 56 mod 64, the bit length. *)
Definition md_pad (m : list Z) : list Z :=
  m ++ 128 :: replicate (Z.to_nat ((55 - Z.of_nat (length m)) mod 64)) 0
    ++ le_bytes 8 (Z.of_nat (length m) * 8).

Definition md_hash (iv : H) (m : list Z) : H := md_absorb iv (md_pad m).

Lemma md_fold_take n h m k : (n * 64 <= k)%nat -> md_fold n h (take k m) = md_fold n h m.
Proof.
  revert h m k. induction n as [|n IH]; intros h m k Hk; [done|]. simpl.
  rewrite take_take, Nat.min_l, skipn_firstn_comm by lia. apply IH. lia.
Qed.

Lemma md_fold_add n n' h m :
  md_fold (n + n') h m = md_fold n' (md_fold n h m) (drop (n * 64) m).
Proof.
  revert h m. induction n as [|n IH]; intros h m; simpl; [by rewrite drop_0|].
  rewrite IH. by rewrite drop_drop.
Qed.

Lemma md_absorb_small h m : (length m < 64)%nat -> md_absorb h m = h.
Proof. intros Hm. unfold md_absorb. by rewrite Nat.div_small. Qed.

Lemma md_tail_small m : (length m < 64)%nat -> md_tail m = m.
Proof. intros Hm. unfold md_tail. by rewrite Nat.div_small. Qed.

Lemma md_tail_length m : length (md_tail m) = (length m mod 64)%nat.
Proof. unfold md_tail. rewrite length_drop. pose proof (Nat.div_mod_eq (length m) 64). lia. Qed.

Lemma md_tail_lt m : (length (md_tail m) < 64)%nat.
Proof. rewrite md_tail_length. apply Nat.mod_upper_bound. lia. Qed.

Lemma md_tail_split m : m = take (length m / 64 * 64) m ++ md_tail m.
Proof. symmetry. apply take_drop. Qed.

Lemma md_tail_app m d : md_tail (m ++ d) = md_tail (md_tail m ++ d).
Proof.
  unfold md_tail at 1 2. rewrite !length_app, md_tail_length.
  set (q := (length m / 64)%nat). set (r := (length m mod 64)%nat).
  assert (Hm : (length m = q * 64 + r)%nat) by (pose proof (Nat.div_mod_eq (length m) 64); lia).
  replace ((length m + length d) / 64 * 64)%nat with (q * 64 + (r + length d) / 64 * 64)%nat.
  2: { rewrite Hm, <- Nat.add_assoc, Nat.div_add_l by lia. lia. }
  rewrite <- drop_drop. f_equal. unfold md_tail. fold q.
  rewrite drop_app_le by lia. done.
Qed.

Lemma md_absorb_app h m d : md_absorb h (m ++ d) = md_absorb (md_absorb h m) (md_tail m ++ d).
Proof.
  unfold md_absorb. rewrite !length_app, md_tail_length.
  set (q := (length m / 64)%nat). set (r := (length m mod 64)%nat).
  assert (Hm : (length m = q * 64 + r)%nat) by (pose proof (Nat.div_mod_eq (length m) 64); lia).
  replace ((length m + length d) / 64)%nat with (q + (r + length d) / 64)%nat.
  2: { rewrite Hm, <- Nat.add_assoc, Nat.div_add_l by lia. lia. }
  rewrite md_fold_add. unfold md_tail. fold q. rewrite drop_app_le by lia.
  by rewrite <- (md_fold_take q h (m ++ d) (length m)), take_app_length by lia.
Qed.

(** One whole block in front. *)
Lemma md_absorb_block h b d :
  length b = 64%nat -> md_absorb h (b ++ d) = md_absorb (compress h b) d.
Proof.
  intros Hb. rewrite md_absorb_app. f_equal.
  - unfold md_absorb. rewrite Hb. simpl. by rewrite take_ge by lia.
  - unfold md_tail. rewrite Hb. simpl. by rewrite drop_ge by lia.
Qed.

Lemma md_absorb_one h b : length b = 64%nat -> md_absorb h b = compress h b.
Proof. intros Hb. rewrite <- (app_nil_r b) at 1. by rewrite md_absorb_block. Qed.

Lemma md_tail_block b d : length b = 64%nat -> md_tail (b ++ d) = md_tail d.
Proof.
  intros Hb. rewrite md_tail_app. unfold md_tail at 2. rewrite Hb. simpl.
  by rewrite drop_ge by lia.
Qed.

(** The loop over the whole blocks of [n] bytes at [p], as the code has it:
    [for (; n >= 64; p += 64, n -= 64) compress]. *)
Fixpoint md_blocks (fuel : nat) (h : H) (data : list Z) (p n : Z) : option (H * Z * Z) :=
  if 64 <=? n then
    match fuel with
    | O => None
    | S fuel => block ← sub_bytes data p 64; md_blocks fuel (compress h block) data (p + 64) (n - 64)
    end
  else Some (h, p, n).

Lemma md_blocks_ok fuel h data (p left : nat) :
  (left <= 64 * fuel)%nat -> (p + left <= length data)%nat ->
  let seg := take left (drop p data) in
  md_blocks fuel h data (Z.of_nat p) (Z.of_nat left)
  = Some (md_absorb h seg, Z.of_nat (p + left - length (md_tail seg)), Z.of_nat (length (md_tail seg))).
Proof.
  revert h p left. induction fuel as [|fuel IH]; intros h p left Hf Hp seg.
  - assert (left = 0%nat) as -> by lia. simpl. do 3 f_equal. lia.
  - assert (Hl : length seg = left) by (subst seg; rewrite length_take, length_drop; lia).
    simpl. destruct (Z.leb_spec 64 (Z.of_nat left)) as [H64|H64].
    + pose proof (sub_bytes_in data p 64 ltac:(lia)) as Hs.
      change (Z.of_nat 64) with 64 in Hs. rewrite Hs. cbn [mbind option_bind].
      replace (Z.of_nat p + 64) with (Z.of_nat (p + 64)) by lia.
      replace (Z.of_nat left - 64) with (Z.of_nat (left - 64)) by lia.
      rewrite IH by lia. subst seg. rewrite (segment_split data p left 64) by lia.
      rewrite md_absorb_block, md_tail_block by (rewrite length_take, length_drop; lia).
      do 3 f_equal. lia.
    + rewrite md_absorb_small, md_tail_small, Hl by lia. do 3 f_equal. lia.
Qed.

(** The tail of a segment, in the array. *)
Lemma md_tail_segment (data : list Z) (p n : nat) :
  (p + n <= length data)%nat ->
  let seg := take n (drop p data) in
  take (length (md_tail seg)) (drop (p + n - length (md_tail seg)) data) = md_tail seg.
Proof.
  intros Hp seg. assert (Hl : length seg = n) by (subst seg; rewrite length_take, length_drop; lia).
  rewrite md_tail_length, Hl. unfold md_tail. rewrite Hl. subst seg.
  pose proof (Nat.div_mod_eq n 64). rewrite skipn_firstn_comm, drop_drop. f_equal; [lia|f_equal; lia].
Qed.
End Blocks.

(** ** The 64-bit bit counter, kept as two 32-bit words *)

Definition md_count_lo (n : Z) : Z := u32 (8 * n).
Definition md_count_hi (n : Z) : Z := u32 (8 * n / 4294967296).

(** The position in the buffer, read off the low word. *)
Lemma md_count_offset n : Z.land (Z.shiftr (md_count_lo n) 3) 63 = n mod 64.
Proof.
  rewrite Z.shiftr_div_pow2 by lia. change 63 with (Z.ones 6). rewrite Z.land_ones by lia.
  unfold md_count_lo, u32. change (2 ^ 3) with 8. change (2 ^ 6) with 64.
  Z.div_mod_to_equations. lia.
Qed.

Lemma md_count_lo_add n k : u32 (md_count_lo n + u32 (8 * k)) = md_count_lo (n + k).
Proof.
  unfold md_count_lo, u32. rewrite <- Z.add_mod by lia. f_equal. lia.
Qed.

(** Adding [k] bytes: the carry is seen by comparing with the addend. *)
Lemma md_count_hi_add n k :
  0 <= n -> 0 <= k < 2 ^ 32 ->
  u32 (md_count_hi n + k / 2 ^ 29 + (if md_count_lo (n + k) <? u32 (8 * k) then 1 else 0))
  = md_count_hi (n + k).
Proof.
  intros Hn Hk. unfold md_count_hi, md_count_lo, u32.
  destruct (Z.ltb_spec ((8 * (n + k)) mod 4294967296) ((8 * k) mod 4294967296));
    Z.div_mod_to_equations; lia.
Qed.

(** The two words, written lowest byte first, are the 64-bit length. *)
Lemma md_count_bytes n :
  le_bytes 4 (md_count_lo n) ++ le_bytes 4 (md_count_hi n) = le_bytes 8 (n * 8).
Proof.
  unfold md_count_lo, md_count_hi. replace (n * 8) with (8 * n) by lia.
  rewrite (le_bytes_app 4 4), Z.shiftr_div_pow2 by lia.
  f_equal; symmetry; rewrite <- le_bytes_mod; done.
Qed.

(** The padded message is a whole number of blocks, and its tail is the
    message's tail followed by the padding. *)
Lemma md_pad_zeros m :
  (length (md_tail m) + 1 + Z.to_nat ((55 - Z.of_nat (length m)) mod 64) + 8
   = 64 * (if decide (length (md_tail m) < 56)%nat then 1 else 2))%nat.
Proof.
  rewrite md_tail_length. pose proof (Nat2Z.inj_mod (length m) 64) as Hr.
  pose proof (Z.mod_pos_bound (55 - Z.of_nat (length m)) 64).
  apply Nat2Z.inj. rewrite !Nat2Z.inj_add, Z2Nat.id by lia.
  set (r := (length m mod 64)%nat) in *. change (Z.of_nat 64) with 64 in Hr.
  case_decide; Z.div_mod_to_equations; lia.
Qed.

(** The bytes pending in the buffer, completed by the first bytes of [d]. *)
Lemma pending_blit (buf tail d : list Z) (k : nat) :
  length buf = 64%nat -> take (length tail) buf = tail ->
  (length tail + k <= 64)%nat -> (k <= length d)%nat ->
  exists buf', blit buf (Z.of_nat (length tail)) (take k d) = Some buf' /\ length buf' = 64%nat /\
    take (length tail + k) buf' = tail ++ take k d.
Proof.
  intros Hb Ht Hk Hd. assert (Hl : length (take k d) = k) by (rewrite length_take; lia).
  eexists. split; [apply blit_in; lia|]. rewrite Ht. split.
  - rewrite !length_app, length_drop. lia.
  - rewrite app_assoc. replace (length tail + k)%nat with (length (tail ++ take k d))
      by (rewrite length_app; lia).
    apply take_app_length.
Qed.
