(* ===== verification/Md5.v ===== *)
(** * MD5

    [src/src/utils/lib/md5_c.c] (with [md5.h]): the compression function
    [md5_process], the context and its three operations.  The main results say
    that [md5_append], in whatever pieces, and [md5_finish] compute the
    RFC 1321 digest of the concatenation ([Md5Ok]). *)

From Stdlib Require Import ZArith Lia.
From stdpp Require Import base option list numbers.
From S2P Require Import Prelude MerkleDamgard.

Local Open Scope Z_scope.

(** ** The compression function *)

Definition T1 := 0xd76aa478.
Definition T2 := 0xe8c7b756.
Definition T3 := 0x242070db.
Definition T4 := 0xc1bdceee.
Definition T5 := 0xf57c0faf.
Definition T6 := 0x4787c62a.
Definition T7 := 0xa8304613.
Definition T8 := 0xfd469501.
Definition T9 := 0x698098d8.
Definition T10 := 0x8b44f7af.
Definition T11 := 0xffff5bb1.
Definition T12 := 0x895cd7be.
Definition T13 := 0x6b901122.
Definition T14 := 0xfd987193.
Definition T15 := 0xa679438e.
Definition T16 := 0x49b40821.
Definition T17 := 0xf61e2562.
Definition T18 := 0xc040b340.
Definition T19 := 0x265e5a51.
Definition T20 := 0xe9b6c7aa.
Definition T21 := 0xd62f105d.
Definition T22 := 0x02441453.
Definition T23 := 0xd8a1e681.
Definition T24 := 0xe7d3fbc8.
Definition T25 := 0x21e1cde6.
Definition T26 := 0xc33707d6.
Definition T27 := 0xf4d50d87.
Definition T28 := 0x455a14ed.
Definition T29 := 0xa9e3e905.
Definition T30 := 0xfcefa3f8.
Definition T31 := 0x676f02d9.
Definition T32 := 0x8d2a4c8a.
Definition T33 := 0xfffa3942.
Definition T34 := 0x8771f681.
Definition T35 := 0x6d9d6122.
Definition T36 := 0xfde5380c.
Definition T37 := 0xa4beea44.
Definition T38 := 0x4bdecfa9.
Definition T39 := 0xf6bb4b60.
Definition T40 := 0xbebfbc70.
Definition T41 := 0x289b7ec6.
Definition T42 := 0xeaa127fa.
Definition T43 := 0xd4ef3085.
Definition T44 := 0x04881d05.
Definition T45 := 0xd9d4d039.
Definition T46 := 0xe6db99e5.
Definition T47 := 0x1fa27cf8.
Definition T48 := 0xc4ac5665.
Definition T49 := 0xf4292244.
Definition T50 := 0x432aff97.
Definition T51 := 0xab9423a7.
Definition T52 := 0xfc93a039.
Definition T53 := 0x655b59c3.
Definition T54 := 0x8f0ccc92.
Definition T55 := 0xffeff47d.
Definition T56 := 0x85845dd1.
Definition T57 := 0x6fa87e4f.
Definition T58 := 0xfe2ce6e0.
Definition T59 := 0xa3014314.
Definition T60 := 0x4e0811a1.
Definition T61 := 0xf7537e82.
Definition T62 := 0xbd3af235.
Definition T63 := 0x2ad7d2bb.
Definition T64 := 0xeb86d391.

Definition F (x y z : Z) : Z := Z.lor (Z.land x y) (Z.land (Z.lnot x) z).
Definition G (x y z : Z) : Z := Z.lor (Z.land x z) (Z.land y (Z.lnot z)).
Definition H (x y z : Z) : Z := Z.lxor (Z.lxor x y) z.
Definition I (x y z : Z) : Z := Z.lxor y (Z.lor x (u32 (Z.lnot z))).

(** [t = a + f(b,c,d) + X[k] + Ti; a = ROTATE_LEFT(t, s) + b] *)
Definition SET (f : Z -> Z -> Z -> Z) (X : Z -> Z) (a b c d k s Ti : Z) : Z :=
  let t := u32 (a + f b c d + X k + Ti) in
  u32 (rol32 t s + b).

(** [pms->abcd] *)
Record md5_abcd := Abcd { r_a : Z; r_b : Z; r_c : Z; r_d : Z }.

(** The [k]-th 32-bit word of the block, as the little-endian machine (or the
    [xp[0] + (xp[1] << 8) + ...] of the others) reads it. *)
Definition block_word (data : list Z) (k : Z) : Z := le_word (take 4 (drop (Z.to_nat (4 * k)) data)).

Definition md5_process (st : md5_abcd) (data : list Z) : md5_abcd :=
  let a := r_a st in let b := r_b st in let c := r_c st in let d := r_d st in
  let X := block_word data in
  (* Round 1 *)
  let a := SET F X a b c d  0  7 T1 in
  let d := SET F X d a b c  1 12 T2 in
  let c := SET F X c d a b  2 17 T3 in
  let b := SET F X b c d a  3 22 T4 in
  let a := SET F X a b c d  4  7 T5 in
  let d := SET F X d a b c  5 12 T6 in
  let c := SET F X c d a b  6 17 T7 in
  let b := SET F X b c d a  7 22 T8 in
  let a := SET F X a b c d  8  7 T9 in
  let d := SET F X d a b c  9 12 T10 in
  let c := SET F X c d a b 10 17 T11 in
  let b := SET F X b c d a 11 22 T12 in
  let a := SET F X a b c d 12  7 T13 in
  let d := SET F X d a b c 13 12 T14 in
  let c := SET F X c d a b 14 17 T15 in
  let b := SET F X b c d a 15 22 T16 in
  (* Round 2 *)
  let a := SET G X a b c d  1  5 T17 in
  let d := SET G X d a b c  6  9 T18 in
  let c := SET G X c d a b 11 14 T19 in
  let b := SET G X b c d a  0 20 T20 in
  let a := SET G X a b c d  5  5 T21 in
  let d := SET G X d a b c 10  9 T22 in
  let c := SET G X c d a b 15 14 T23 in
  let b := SET G X b c d a  4 20 T24 in
  let a := SET G X a b c d  9  5 T25 in
  let d := SET G X d a b c 14  9 T26 in
  let c := SET G X c d a b  3 14 T27 in
  let b := SET G X b c d a  8 20 T28 in
  let a := SET G X a b c d 13  5 T29 in
  let d := SET G X d a b c  2  9 T30 in
  let c := SET G X c d a b  7 14 T31 in
  let b := SET G X b c d a 12 20 T32 in
  (* Round 3 *)
  let a := SET H X a b c d  5  4 T33 in
  let d := SET H X d a b c  8 11 T34 in
  let c := SET H X c d a b 11 16 T35 in
  let b := SET H X b c d a 14 23 T36 in
  let a := SET H X a b c d  1  4 T37 in
  let d := SET H X d a b c  4 11 T38 in
  let c := SET H X c d a b  7 16 T39 in
  let b := SET H X b c d a 10 23 T40 in
  let a := SET H X a b c d 13  4 T41 in
  let d := SET H X d a b c  0 11 T42 in
  let c := SET H X c d a b  3 16 T43 in
  let b := SET H X b c d a  6 23 T44 in
  let a := SET H X a b c d  9  4 T45 in
  let d := SET H X d a b c 12 11 T46 in
  let c := SET H X c d a b 15 16 T47 in
  let b := SET H X b c d a  2 23 T48 in
  (* Round 4 *)
  let a := SET I X a b c d  0  6 T49 in
  let d := SET I X d a b c  7 10 T50 in
  let c := SET I X c d a b 14 15 T51 in
  let b := SET I X b c d a  5 21 T52 in
  let a := SET I X a b c d 12  6 T53 in
  let d := SET I X d a b c  3 10 T54 in
  let c := SET I X c d a b 10 15 T55 in
  let b := SET I X b c d a  1 21 T56 in
  let a := SET I X a b c d  8  6 T57 in
  let d := SET I X d a b c 15 10 T58 in
  let c := SET I X c d a b  6 15 T59 in
  let b := SET I X b c d a 13 21 T60 in
  let a := SET I X a b c d  4  6 T61 in
  let d := SET I X d a b c 11 10 T62 in
  let c := SET I X c d a b  2 15 T63 in
  let b := SET I X b c d a  9 21 T64 in
  Abcd (u32 (r_a st + a)) (u32 (r_b st + b)) (u32 (r_c st + c)) (u32 (r_d st + d)).

(** ** The context *)

Record md5_state := Md5State {
  count0 : Z;          (* message length in bits, low word *)
  count1 : Z;          (* high word *)
  abcd : md5_abcd;
  buf : list Z         (* 64 bytes *)
}.

Definition md5_iv : md5_abcd := Abcd 0x67452301 0xefcdab89 0x98badcfe 0x10325476.

(** [pms->buf] is not initialised by the code; its bytes are never read
    before they are written. *)
Definition md5_init : md5_state := Md5State 0 0 md5_iv (replicate 64 0).

(** [for (; left >= 64; p += 64, left -= 64) md5_process(pms, p);] *)
Fixpoint md5_blocks (fuel : nat) (h : md5_abcd) (data : list Z) (p left : Z)
    : option (md5_abcd * Z * Z) :=
  if 64 <=? left then
    match fuel with
    | O => None
    | S fuel => block ← sub_bytes data p 64; md5_blocks fuel (md5_process h block) data (p + 64) (left - 64)
    end
  else Some (h, p, left).

(** From "Process full blocks." to the end. *)
Definition md5_append_rest (pms : md5_state) (data : list Z) (p left : Z) : option md5_state :=
  '(h, p, left) ← md5_blocks (Z.to_nat left) (abcd pms) data p left;
  if left =? 0 then Some (Md5State (count0 pms) (count1 pms) h (buf pms))
  else
    rest ← sub_bytes data p left;
    buf' ← blit (buf pms) 0 rest;
    Some (Md5State (count0 pms) (count1 pms) h buf').

(** "Update the message length." *)
Definition md5_count (pms : md5_state) (nbytes : Z) : md5_state :=
  let nbits := u32 (Z.shiftl nbytes 3) in
  let c1 := u32 (count1 pms + Z.shiftr nbytes 29) in
  let c0 := u32 (count0 pms + nbits) in
  let c1 := if c0 <? nbits then u32 (c1 + 1) else c1 in
  Md5State c0 c1 (abcd pms) (buf pms).

Definition md5_append (pms : md5_state) (data : list Z) (nbytes : Z) : option md5_state :=
  let offset := Z.land (Z.shiftr (count0 pms) 3) 63 in
  if nbytes <=? 0 then Some pms else
  let pms := md5_count pms nbytes in
  if offset =? 0 then md5_append_rest pms data 0 nbytes
  else
    let copy := if 64 <? offset + nbytes then 64 - offset else nbytes in
    part ← sub_bytes data 0 copy;
    buf' ← blit (buf pms) offset part;
    let pms := Md5State (count0 pms) (count1 pms) (abcd pms) buf' in
    if offset + copy <? 64 then Some pms
    else
      let pms := Md5State (count0 pms) (count1 pms) (md5_process (abcd pms) buf') buf' in
      md5_append_rest pms data copy (nbytes - copy).

(** [data[i] = count[i >> 2] >> ((i & 3) << 3)]: the words, lowest byte first. *)
Definition word_bytes (ws : list Z) : list Z := concat (le_bytes 4 <$> ws).

Definition md5_pad : list Z := 128 :: replicate 63 0.

Definition md5_finish (pms : md5_state) : option (list Z) :=
  let data := word_bytes [count0 pms; count1 pms] in
  pms ← md5_append pms md5_pad (Z.land (55 - Z.shiftr (count0 pms) 3) 63 + 1);
  pms ← md5_append pms data 8;
  Some (word_bytes [r_a (abcd pms); r_b (abcd pms); r_c (abcd pms); r_d (abcd pms)]).

#[export] Instance Md5 : IncrementalHash md5_state := {
  ih_init := md5_init;
  ih_update ctx d := md5_append ctx d (Z.of_nat (length d));
  ih_finish := md5_finish
}.

Definition md5_digest (h : md5_abcd) : list Z := word_bytes [r_a h; r_b h; r_c h; r_d h].

(** The specification: RFC 1321 on the whole message. *)
Definition md5_spec (m : list Z) : list Z := md5_digest (md_hash md5_process md5_iv m).

(** ** The context absorbs the message *)

#[local] Opaque md5_process.

Definition md5_repr (pms : md5_state) (m : list Z) : Prop :=
  count0 pms = md_count_lo (Z.of_nat (length m)) /\
  count1 pms = md_count_hi (Z.of_nat (length m)) /\
  abcd pms = md_absorb md5_process md5_iv m /\
  length (buf pms) = 64%nat /\
  take (length (md_tail m)) (buf pms) = md_tail m.

Lemma md5_init_repr : md5_repr md5_init [].
Proof. done. Qed.

Lemma md5_blocks_ok fuel h data p left : md5_blocks fuel h data p left = md_blocks md5_process fuel h data p left.
Proof.
  revert h p left. induction fuel as [|fuel IH]; intros h p left; simpl; [done|].
  destruct (64 <=? left); [|done]. destruct (sub_bytes data p 64); [apply IH|done].
Qed.

Lemma md5_append_rest_ok pms data (p left : nat) :
  length (buf pms) = 64%nat -> (p + left <= length data)%nat ->
  let seg := take left (drop p data) in
  exists buf',
    md5_append_rest pms data (Z.of_nat p) (Z.of_nat left)
    = Some (Md5State (count0 pms) (count1 pms) (md_absorb md5_process (abcd pms) seg) buf')
    /\ length buf' = 64%nat /\ take (length (md_tail seg)) buf' = md_tail seg.
Proof.
  intros Hb Hp seg. unfold md5_append_rest. rewrite Nat2Z.id, md5_blocks_ok, md_blocks_ok by lia.
  fold seg. cbn [mbind option_bind].
  pose proof (md_tail_lt seg) as Ht.
  destruct (Z.eqb_spec (Z.of_nat (length (md_tail seg))) 0) as [H0|H0].
  - exists (buf pms). split; [done|]. split; [done|].
    assert (md_tail seg = []) as -> by (apply nil_length_inv; lia). done.
  - assert (Hseg : length seg = left) by (subst seg; rewrite length_take, length_drop; lia).
    pose proof (md_tail_length seg) as Hr. pose proof (Nat.Div0.mod_le (length seg) 64) as Hle.
    rewrite sub_bytes_in by lia. cbn [mbind option_bind].
    pose proof (md_tail_segment data p left Hp) as Hrest. fold seg in Hrest.
    rewrite Hrest, (blit_in (buf pms) 0) by lia. cbn [mbind option_bind].
    eexists. split; [done|]. simpl. split.
    + rewrite length_app, length_drop. lia.
    + by rewrite take_app_length.
Qed.

Lemma md5_count_ok pms L n :
  0 <= L -> 0 <= n < 2 ^ 28 ->
  count0 pms = md_count_lo L -> count1 pms = md_count_hi L ->
  md5_count pms n = Md5State (md_count_lo (L + n)) (md_count_hi (L + n)) (abcd pms) (buf pms).
Proof.
  intros HL Hn H0 H1. unfold md5_count. rewrite H0, H1.
  rewrite Z.shiftl_mul_pow2, (Z.mul_comm n), Z.shiftr_div_pow2 by lia. change (2 ^ 3) with 8.
  rewrite md_count_lo_add, <- (md_count_hi_add L n) by lia. f_equal.
  destruct (_ <? _); [unfold u32; by rewrite Zplus_mod_idemp_l|by rewrite Z.add_0_r].
Qed.

(** [md5_append] reads the first [n] bytes it is given. *)
Lemma md5_append_ok pms m data (n : nat) :
  md5_repr pms m -> (n <= length data)%nat -> Z.of_nat n < 2 ^ 28 ->
  exists pms', md5_append pms data (Z.of_nat n) = Some pms' /\ md5_repr pms' (m ++ take n data).
Proof.
  intros (Hlo & Hhi & Habcd & Hbuf & Htail) Hn Hd. unfold md5_append.
  destruct (Z.leb_spec (Z.of_nat n) 0) as [Hz|Hz].
  { assert (n = 0%nat) as -> by lia. exists pms. by rewrite app_nil_r. }
  rewrite (md5_count_ok _ (Z.of_nat (length m))) by (lia || done).
  rewrite Hlo, md_count_offset, <- (Nat2Z.inj_mod _ 64 : _ = Z.of_nat (length m) mod 64), <- md_tail_length.
  set (d := take n data). assert (Hld : length d = n) by (subst d; rewrite length_take; lia).
  assert (Hseg : forall k, take (n - k) (drop k data) = drop k d).
  { intros k. subst d. by rewrite skipn_firstn_comm. }
  rewrite <- Nat2Z.inj_add, <- Hld, <- length_app. unfold md5_repr. rewrite md_tail_app, md_absorb_app.
  rewrite Habcd in *. clear Hlo Hhi Habcd.
  set (h := md_absorb md5_process md5_iv m). pose proof (md_tail_lt m) as Hlt.
  set (t := md_tail m) in *. destruct (Z.eqb_spec (Z.of_nat (length t)) 0) as [H0|H0].
  - assert (t = []) as -> by (apply nil_length_inv; lia).
    destruct (md5_append_rest_ok (Md5State (md_count_lo (Z.of_nat (length (m ++ d))))
      (md_count_hi (Z.of_nat (length (m ++ d)))) h (buf pms)) data 0 n)
      as (buf' & Hr & Hl & Ht); [done|lia|].
    change (take n (drop 0 data)) with d in Hr, Ht. rewrite Hld in *. by eexists.
  - set (k := Nat.min (64 - length t) n).
    replace (if 64 <? _ then _ else _) with (Z.of_nat k) by (subst k; bdestr; lia).
    destruct (pending_blit (buf pms) t d k) as (buf1 & Hb1 & Hl1 & Ht1); [done..|lia|lia|].
    rewrite sub_bytes_0 by lia. replace (take k data) with (take k d)
      by (subst d; rewrite take_take; f_equal; lia).
    cbn [mbind option_bind buf]. rewrite Hb1. cbn [mbind option_bind count0 count1 abcd].
    destruct (Z.ltb_spec (Z.of_nat (length t) + Z.of_nat k) 64) as [Hlt64|Hge].
    + assert (Hk : k = length d) by lia. rewrite Hk, (take_ge d) in Ht1 by lia.
      eexists. split; [done|]. simpl. repeat split; [|done|].
      * rewrite md_absorb_small; [done|]. rewrite length_app. lia.
      * rewrite md_tail_small by (rewrite length_app; lia). by rewrite length_app.
    + assert (Hk : (length t + k = 64)%nat) by lia. rewrite take_ge in Ht1 by lia.
      replace (Z.of_nat (length d) - Z.of_nat k) with (Z.of_nat (n - k)) by lia.
      destruct (md5_append_rest_ok (Md5State (md_count_lo (Z.of_nat (length (m ++ d))))
        (md_count_hi (Z.of_nat (length (m ++ d)))) (md5_process h buf1) buf1) data k (n - k))
        as (buf' & Hr & Hl & Ht); [done|lia|].
      eexists. split; [exact Hr|]. simpl. rewrite Hseg in *.
      assert (Hsplit : t ++ d = buf1 ++ drop k d) by (by rewrite Ht1, <- app_assoc, take_drop).
      by rewrite Hsplit, md_absorb_block, md_tail_block by done.
Qed.

Lemma md5_finish_ok pms m : md5_repr pms m -> md5_finish pms = Some (md5_spec m).
Proof.
  intros Hm. pose proof Hm as (Hlo & Hhi & _). unfold md5_finish.
  set (z := Z.to_nat ((55 - Z.of_nat (length m)) mod 64)).
  pose proof (Z.mod_pos_bound (55 - Z.of_nat (length m)) 64 ltac:(lia)) as Hz.
  replace (Z.land (55 - Z.shiftr (count0 pms) 3) 63 + 1) with (Z.of_nat (S z)).
  2: { rewrite Hlo. change 63 with (Z.ones 6). rewrite Z.land_ones, Z.shiftr_div_pow2 by lia.
       subst z. rewrite Nat2Z.inj_succ, Z2Nat.id by lia. unfold md_count_lo, u32.
       change (2 ^ 3) with 8. change (2 ^ 6) with 64. clear. Z.div_mod_to_equations. lia. }
  assert (Hzn : (z <= 63)%nat) by lia.
  destruct (md5_append_ok pms m md5_pad (S z)) as (p1 & -> & H1); [done|simpl; lia|lia|].
  cbn [mbind option_bind].
  set (lenb := word_bytes [count0 pms; count1 pms]).
  assert (Hlenb : lenb = le_bytes 8 (Z.of_nat (length m) * 8)).
  { subst lenb. rewrite Hlo, Hhi, <- md_count_bytes. unfold word_bytes. cbn [fmap list_fmap concat]. by rewrite app_nil_r. }
  destruct (md5_append_ok p1 (m ++ take (S z) md5_pad) lenb 8) as (p2 & Ha & H2);
    [done|by rewrite Hlenb, le_bytes_length|lia|].
  change (Z.of_nat 8) with 8 in Ha. rewrite Ha. cbn [mbind option_bind].
  destruct H2 as (_ & _ & -> & _). unfold md5_spec, md5_digest, md_hash, md_pad. fold z.
  rewrite (take_ge lenb), Hlenb by (by rewrite Hlenb, le_bytes_length).
  change (take (S z) md5_pad) with (128 :: take z (replicate 63 0)).
  replace (take z (replicate 63 0)) with (replicate z 0)
    by (rewrite <- (Nat.min_l z 63) at 1 by lia; symmetry; apply take_replicate).
  by rewrite <- app_assoc.
Qed.

Lemma md5_update_ok pms m d :
  md5_repr pms m -> Z.of_nat (length d) < 2 ^ 28 ->
  exists pms', md5_append pms d (Z.of_nat (length d)) = Some pms' /\ md5_repr pms' (m ++ d).
Proof.
  intros Hm Hd. destruct (md5_append_ok pms m d (length d)) as (p & Hp & Hr); [done..|].
  rewrite take_ge in Hr by lia. by exists p.
Qed.

#[export] Instance Md5Ok : IncrementalHashOk Md5 md5_spec (fun p => Z.of_nat (length p) < 2 ^ 28) := {
  ih_repr := md5_repr;
  ih_init_ok := md5_init_repr;
  ih_update_ok := md5_update_ok;
  ih_finish_ok := md5_finish_ok
}.



(** MD5 of the RFC 1321 test strings "" and "abc". *)
Theorem md5_vectors :
  md5_spec [] = le_bytes 16 0x7e42f8ec980980e904b2008fd98c1dd4 /\
  md5_spec [97; 98; 99] = le_bytes 16 0x727fe1287d3f96d6b04fd23c98500190.
Proof. vm_compute. split; reflexivity. Qed.
