(* ===== verification/Md4.v ===== *)
(** * MD4

    [src/src/utils/lib/md4.c] (with [md4.h]) and [md4_c.c]: the transform, the
    context and its operations, and the exclusive or of digests.  The digest
    does not depend on how the input is cut ([Md4Ok]). *)

From Stdlib Require Import ZArith Lia.
From stdpp Require Import base option list numbers.
From S2P Require Import Prelude MerkleDamgard.

Local Open Scope Z_scope.

(** The names [F], [G], [H] are those of [md5_c.c] too. *)
Module Md4.

(** ** The transform *)

Definition S11 := 3.
Definition S12 := 7.
Definition S13 := 11.
Definition S14 := 19.
Definition S21 := 3.
Definition S22 := 5.
Definition S23 := 9.
Definition S24 := 13.
Definition S31 := 3.
Definition S32 := 9.
Definition S33 := 11.
Definition S34 := 15.

Definition PADDING : list Z := 128 :: replicate 63 0.

(** [~x] on 32 bits. *)
Definition F (x y z : Z) : Z := Z.lor (Z.land x y) (Z.land (u32 (Z.lnot x)) z).
Definition G (x y z : Z) : Z := Z.lor (Z.lor (Z.land x y) (Z.land x z)) (Z.land y z).
Definition H (x y z : Z) : Z := Z.lxor (Z.lxor x y) z.

Definition ROTATE_LEFT (x n : Z) : Z := Z.lor (u32 (Z.shiftl x n)) (Z.shiftr x (32 - n)).

Definition FF (a b c d x s : Z) : Z := ROTATE_LEFT (u32 (a + (F b c d + x))) s.
Definition GG (a b c d x s : Z) : Z := ROTATE_LEFT (u32 (a + (G b c d + x + 0x5a827999))) s.
Definition HH (a b c d x s : Z) : Z := ROTATE_LEFT (u32 (a + (H b c d + x + 0x6ed9eba1))) s.

Record md4_words := State { s0 : Z; s1 : Z; s2 : Z; s3 : Z }.

(** [Decode]: word [i] is read from bytes [4i .. 4i+3], lowest first. *)
Definition Decode (input : list Z) (len : nat) : list Z :=
  (fun i => let byte k := nth (4 * i + k) input 0 in
     Z.lor (Z.lor (Z.lor (byte 0%nat) (Z.shiftl (byte 1%nat) 8)) (Z.shiftl (byte 2%nat) 16))
           (Z.shiftl (byte 3%nat) 24))
  <$> seq 0 (len / 4).

(** [Encode]: the bytes of each word, lowest first. *)
Definition Encode (input : list Z) : list Z :=
  concat ((fun w => [Z.land w 0xff; Z.land (Z.shiftr w 8) 0xff;
                     Z.land (Z.shiftr w 16) 0xff; Z.land (Z.shiftr w 24) 0xff]) <$> input).

Definition MD4Transform (state : md4_words) (block : list Z) : md4_words :=
  let x := Decode block 64 in
  let X i := nth (Z.to_nat i) x 0 in
  let a := s0 state in let b := s1 state in let c := s2 state in let d := s3 state in
  (* Round 1 *)
  let a := FF a b c d (X  0) S11 in
  let d := FF d a b c (X  1) S12 in
  let c := FF c d a b (X  2) S13 in
  let b := FF b c d a (X  3) S14 in
  let a := FF a b c d (X  4) S11 in
  let d := FF d a b c (X  5) S12 in
  let c := FF c d a b (X  6) S13 in
  let b := FF b c d a (X  7) S14 in
  let a := FF a b c d (X  8) S11 in
  let d := FF d a b c (X  9) S12 in
  let c := FF c d a b (X 10) S13 in
  let b := FF b c d a (X 11) S14 in
  let a := FF a b c d (X 12) S11 in
  let d := FF d a b c (X 13) S12 in
  let c := FF c d a b (X 14) S13 in
  let b := FF b c d a (X 15) S14 in
  (* Round 2 *)
  let a := GG a b c d (X  0) S21 in
  let d := GG d a b c (X  4) S22 in
  let c := GG c d a b (X  8) S23 in
  let b := GG b c d a (X 12) S24 in
  let a := GG a b c d (X  1) S21 in
  let d := GG d a b c (X  5) S22 in
  let c := GG c d a b (X  9) S23 in
  let b := GG b c d a (X 13) S24 in
  let a := GG a b c d (X  2) S21 in
  let d := GG d a b c (X  6) S22 in
  let c := GG c d a b (X 10) S23 in
  let b := GG b c d a (X 14) S24 in
  let a := GG a b c d (X  3) S21 in
  let d := GG d a b c (X  7) S22 in
  let c := GG c d a b (X 11) S23 in
  let b := GG b c d a (X 15) S24 in
  (* Round 3 *)
  let a := HH a b c d (X  0) S31 in
  let d := HH d a b c (X  8) S32 in
  let c := HH c d a b (X  4) S33 in
  let b := HH b c d a (X 12) S34 in
  let a := HH a b c d (X  2) S31 in
  let d := HH d a b c (X 10) S32 in
  let c := HH c d a b (X  6) S33 in
  let b := HH b c d a (X 14) S34 in
  let a := HH a b c d (X  1) S31 in
  let d := HH d a b c (X  9) S32 in
  let c := HH c d a b (X  5) S33 in
  let b := HH b c d a (X 13) S34 in
  let a := HH a b c d (X  3) S31 in
  let d := HH d a b c (X 11) S32 in
  let c := HH c d a b (X  7) S33 in
  let b := HH b c d a (X 15) S34 in
  State (u32 (s0 state + a)) (u32 (s1 state + b)) (u32 (s2 state + c)) (u32 (s3 state + d)).

(** ** The context *)

Record MD4_CTX := Ctx {
  state : md4_words;
  count0 : Z;            (* number of bits modulo 2^64, low word first *)
  count1 : Z;
  buffer : list Z        (* 64 bytes *)
}.

Definition MD4_IV : md4_words := State 0x67452301 0xefcdab89 0x98badcfe 0x10325476.

(** [MD4Init] leaves [buffer] as it was. *)
Definition MD4Init (context : MD4_CTX) : MD4_CTX := Ctx MD4_IV 0 0 (buffer context).

(** [for (i = partLen; i + 63 < inputLen; i += 64) MD4Transform (state, &input[i]);]
    with the unsigned 32-bit [i]. *)
Fixpoint MD4Blocks (fuel : nat) (st : md4_words) (input : list Z) (i inputLen : Z)
    : option (md4_words * Z) :=
  if u32 (i + 63) <? inputLen then
    match fuel with
    | O => None
    | S fuel =>
        block ← sub_bytes input i 64;
        MD4Blocks fuel (MD4Transform st block) input (u32 (i + 64)) inputLen
    end
  else Some (st, i).

(** "Update number of bits". *)
Definition MD4Count (context : MD4_CTX) (inputLen : Z) : MD4_CTX :=
  let c0 := u32 (count0 context + u32 (Z.shiftl inputLen 3)) in
  let c1 := if c0 <? u32 (Z.shiftl inputLen 3) then u32 (count1 context + 1) else count1 context in
  let c1 := u32 (c1 + Z.shiftr inputLen 29) in
  Ctx (state context) c0 c1 (buffer context).

Definition MD4Update (context : MD4_CTX) (input : list Z) (inputLen : Z) : option MD4_CTX :=
  let index := Z.land (Z.shiftr (count0 context) 3) 0x3F in
  let context := MD4Count context inputLen in
  let partLen := 64 - index in
  '(context, i, index) ←
    (if partLen <=? inputLen then
       part ← sub_bytes input 0 partLen;
       buf ← blit (buffer context) index part;
       let st := MD4Transform (state context) buf in
       '(st, i) ← MD4Blocks (Z.to_nat inputLen) st input partLen inputLen;
       Some (Ctx st (count0 context) (count1 context) buf, i, 0)
     else Some (context, 0, index));
  rest ← sub_bytes input i (inputLen - i);
  buf ← blit (buffer context) index rest;
  Some (Ctx (state context) (count0 context) (count1 context) buf).

(** [MD4Final] returns the digest; the context is then overwritten with
    zeros. *)
Definition MD4Final (context : MD4_CTX) : option (list Z * MD4_CTX) :=
  let bits := Encode [count0 context; count1 context] in
  let index := Z.land (Z.shiftr (count0 context) 3) 0x3f in
  let padLen := if index <? 56 then 56 - index else 120 - index in
  context ← MD4Update context PADDING padLen;
  context ← MD4Update context bits 8;
  let digest := Encode [s0 (state context); s1 (state context); s2 (state context); s3 (state context)] in
  Some (digest, Ctx (State 0 0 0 0) 0 0 (replicate 64 0)).

(** A context on the stack: its buffer is arbitrary before [MD4Init]. *)
#[export] Instance Md4 : IncrementalHash MD4_CTX := {
  ih_init := MD4Init (Ctx (State 0 0 0 0) 0 0 (replicate 64 0));
  ih_update ctx d := MD4Update ctx d (Z.of_nat (length d));
  ih_finish ctx := fst <$> MD4Final ctx
}.

(** [md4_xor]: [m3[i] = m1[i] ^ m2[i]] for the bytes of [m1]. *)
Definition md4_xor_step (m1 m2 : list Z) (i : Z) (m3 : list Z) : option (list Z) :=
  x ← rd m1 i; y ← rd m2 i; wr m3 i (Z.lxor x y).

Definition md4_xor (m1 m2 m3 : list Z) : option (list Z) :=
  for_up (length m1) 0 (md4_xor_step m1 m2) m3.

(** ** The specification: RFC 1320 on the whole message *)

Definition md4_digest (h : md4_words) : list Z := Encode [s0 h; s1 h; s2 h; s3 h].
Definition md4_spec (m : list Z) : list Z := md4_digest (md_hash MD4Transform MD4_IV m).

(** ** The context absorbs the message *)

#[local] Opaque MD4Transform.

Definition md4_repr (context : MD4_CTX) (m : list Z) : Prop :=
  count0 context = md_count_lo (Z.of_nat (length m)) /\
  count1 context = md_count_hi (Z.of_nat (length m)) /\
  state context = md_absorb MD4Transform MD4_IV m /\
  length (buffer context) = 64%nat /\
  take (length (md_tail m)) (buffer context) = md_tail m.

Lemma md4_init_repr context : length (buffer context) = 64%nat -> md4_repr (MD4Init context) [].
Proof. done. Qed.

Lemma Encode_le_bytes ws : Encode ws = concat (le_bytes 4 <$> ws).
Proof. done. Qed.

Lemma MD4Blocks_ok fuel h data (p n : nat) :
  (n - p <= 64 * fuel)%nat -> (p <= n <= length data)%nat -> Z.of_nat n < 2 ^ 32 - 63 ->
  let seg := take (n - p) (drop p data) in
  MD4Blocks fuel h data (Z.of_nat p) (Z.of_nat n)
  = Some (md_absorb MD4Transform h seg, Z.of_nat (n - length (md_tail seg))).
Proof.
  revert h p. induction fuel as [|fuel IH]; intros h p Hf Hp Hn seg.
  - assert (p = n) as -> by lia. subst seg. rewrite Nat.sub_diag, take_0. simpl.
    unfold u32. rewrite Z.mod_small by lia. destruct (Z.ltb_spec (Z.of_nat n + 63) (Z.of_nat n)); [lia|].
    do 3 f_equal. lia.
  - assert (Hl : length seg = (n - p)%nat) by (subst seg; rewrite length_take, length_drop; lia).
    simpl. unfold u32. rewrite !Z.mod_small by lia.
    destruct (Z.ltb_spec (Z.of_nat p + 63) (Z.of_nat n)) as [H64|H64].
    + pose proof (sub_bytes_in data p 64 ltac:(lia)) as Hs.
      change (Z.of_nat 64) with 64 in Hs. rewrite Hs. cbn [mbind option_bind].
      replace (Z.of_nat p + 64) with (Z.of_nat (p + 64)) by lia.
      rewrite Z.mod_small, IH by lia.
      replace (n - (p + 64))%nat with (n - p - 64)%nat by lia.
      subst seg. rewrite (segment_split data p (n - p) 64) by lia.
      by rewrite md_absorb_block, md_tail_block by (rewrite length_take, length_drop; lia).
    + rewrite md_absorb_small, md_tail_small, Hl by lia. do 3 f_equal. lia.
Qed.

Lemma MD4Count_ok ctx L n :
  0 <= L -> 0 <= n < 2 ^ 32 ->
  count0 ctx = md_count_lo L -> count1 ctx = md_count_hi L ->
  MD4Count ctx n = Ctx (state ctx) (md_count_lo (L + n)) (md_count_hi (L + n)) (buffer ctx).
Proof.
  intros HL Hn H0 H1. unfold MD4Count. rewrite H0, H1.
  rewrite Z.shiftl_mul_pow2, (Z.mul_comm n), Z.shiftr_div_pow2 by lia. change (2 ^ 3) with 8.
  rewrite md_count_lo_add, <- (md_count_hi_add L n) by lia. f_equal.
  destruct (_ <? _); unfold u32; rewrite ?Zplus_mod_idemp_l; f_equal; lia.
Qed.

(** [MD4Update] reads the first [n] bytes it is given. *)
Lemma MD4Update_ok ctx m data (n : nat) :
  md4_repr ctx m -> (n <= length data)%nat -> Z.of_nat n < 2 ^ 32 - 63 ->
  exists ctx', MD4Update ctx data (Z.of_nat n) = Some ctx' /\ md4_repr ctx' (m ++ take n data).
Proof.
  intros (Hlo & Hhi & Hst & Hbuf & Htail) Hn Hd. unfold MD4Update.
  rewrite (MD4Count_ok _ (Z.of_nat (length m))) by (lia || done).
  change 0x3F with 63.
  rewrite Hlo, md_count_offset, <- (Nat2Z.inj_mod _ 64 : _ = Z.of_nat (length m) mod 64), <- md_tail_length.
  set (d := take n data). assert (Hld : length d = n) by (subst d; rewrite length_take; lia).
  unfold md4_repr. rewrite length_app, Hld, Nat2Z.inj_add, md_tail_app, md_absorb_app.
  rewrite Hst. set (h := md_absorb MD4Transform MD4_IV m).
  pose proof (md_tail_lt m) as Hlt. set (t := md_tail m) in *.
  cbn [state buffer count0 count1].
  destruct (Z.leb_spec (64 - Z.of_nat (length t)) (Z.of_nat n)) as [Hge|Hlt64].
  - set (k := (64 - length t)%nat).
    destruct (pending_blit (buffer ctx) t d k) as (buf1 & Hb1 & Hl1 & Ht1); [done..|lia|lia|].
    replace (64 - Z.of_nat (length t)) with (Z.of_nat k) by lia.
    rewrite sub_bytes_0 by lia. replace (take k data) with (take k d)
      by (subst d; rewrite take_take; f_equal; lia).
    cbn [mbind option_bind]. rewrite Hb1. cbn [mbind option_bind].
    rewrite Nat2Z.id, MD4Blocks_ok by lia. cbn [mbind option_bind state buffer count0 count1].
    replace (take (n - k) (drop k data)) with (drop k d) by (subst d; by rewrite skipn_firstn_comm).
    set (seg := drop k d). assert (Hls : length seg = (n - k)%nat) by (subst seg; rewrite length_drop; lia).
    pose proof (md_tail_length seg) as Hr. pose proof (Nat.Div0.mod_le (length seg) 64) as Hle.
    pose proof (md_tail_lt seg) as Hrlt.
    replace (Z.of_nat n - Z.of_nat (n - length (md_tail seg))) with (Z.of_nat (length (md_tail seg))) by lia.
    rewrite sub_bytes_in by lia. cbn [mbind option_bind].
    pose proof (md_tail_segment data k (n - k) ltac:(lia)) as Hrest.
    replace (take (n - k) (drop k data)) with seg in Hrest by (subst seg d; by rewrite skipn_firstn_comm).
    replace (k + (n - k))%nat with n in Hrest by lia.
    rewrite Hrest, (blit_in buf1 0) by lia. eexists. split; [done|]. cbn [state buffer count0 count1].
    rewrite take_ge in Ht1 by lia.
    assert (Hsplit : t ++ d = buf1 ++ seg) by (by rewrite Ht1, <- app_assoc; subst seg; rewrite take_drop).
    rewrite Hsplit, md_absorb_block, md_tail_block by done. do 3 (split; [done|]). split.
    + rewrite !length_app, length_drop. simpl. lia.
    + simpl. by rewrite take_app_length.
  - cbn [mbind option_bind].
    destruct (pending_blit (buffer ctx) t d n) as (buf1 & Hb1 & Hl1 & Ht1); [done|done|lia|lia|].
    rewrite Z.sub_0_r, sub_bytes_0 by lia. fold d. rewrite (take_ge d n) in Hb1, Ht1 by lia.
    cbn [mbind option_bind state buffer count0 count1]. rewrite Hb1. eexists. split; [done|].
    cbn [state buffer count0 count1].
    rewrite md_absorb_small, md_tail_small by (rewrite length_app; lia).
    rewrite length_app, Hld. done.
Qed.
Lemma md4_update_ok ctx m d :
  md4_repr ctx m -> Z.of_nat (length d) < 2 ^ 32 - 63 ->
  exists ctx', MD4Update ctx d (Z.of_nat (length d)) = Some ctx' /\ md4_repr ctx' (m ++ d).
Proof.
  intros Hm Hd. destruct (MD4Update_ok ctx m d (length d)) as (p & Hp & Hr); [done..|].
  rewrite take_ge in Hr by lia. by exists p.
Qed.

(** The code's padding length is RFC 1320's. *)
Lemma md4_pad_len (n : Z) (z := Z.to_nat ((55 - n) mod 64)) :
  (let index := n mod 64 in if index <? 56 then 56 - index else 120 - index) = Z.of_nat (S z).
Proof.
  subst z. cbv zeta. rewrite Nat2Z.inj_succ, Z2Nat.id by (apply Z.mod_pos_bound; lia).
  pose proof (Z.mod_pos_bound n 64). bdestr; Z.div_mod_to_equations; lia.
Qed.

Lemma md4_finish_ok ctx m : md4_repr ctx m -> fst <$> MD4Final ctx = Some (md4_spec m).
Proof.
  intros Hm. pose proof Hm as (Hlo & Hhi & _). unfold MD4Final. cbv zeta.
  change 0x3f with 63. rewrite Hlo, Hhi, md_count_offset.
  pose proof (md4_pad_len (Z.of_nat (length m))) as Hpad. cbv zeta in Hpad. rewrite Hpad. clear Hpad.
  set (z := Z.to_nat ((55 - Z.of_nat (length m)) mod 64)).
  pose proof (Z.mod_pos_bound (55 - Z.of_nat (length m)) 64 ltac:(lia)) as Hz.
  destruct (MD4Update_ok ctx m PADDING (S z)) as (p1 & -> & H1); [done|simpl; lia|lia|].
  cbn [mbind option_bind].
  set (bits := Encode _).
  assert (Hbits : bits = le_bytes 8 (Z.of_nat (length m) * 8)).
  { subst bits. rewrite Encode_le_bytes, <- md_count_bytes. cbn [fmap list_fmap concat].
    by rewrite app_nil_r. }
  destruct (MD4Update_ok p1 (m ++ take (S z) PADDING) bits 8) as (p2 & Ha & H2);
    [done|by rewrite Hbits, le_bytes_length|lia|].
  change (Z.of_nat 8) with 8 in Ha. rewrite Ha. cbn [mbind option_bind fmap option_fmap option_map fst].
  destruct H2 as (_ & _ & -> & _). unfold md4_spec, md4_digest, md_hash, md_pad. fold z.
  rewrite (take_ge bits), Hbits by (by rewrite Hbits, le_bytes_length).
  change (take (S z) PADDING) with (128 :: take z (replicate 63 0)).
  replace (take z (replicate 63 0)) with (replicate z 0)
    by (rewrite <- (Nat.min_l z 63) at 1 by lia; symmetry; apply take_replicate).
  by rewrite <- app_assoc.
Qed.

#[export] Instance Md4Ok : IncrementalHashOk Md4 md4_spec (fun p => Z.of_nat (length p) < 2 ^ 32 - 63) := {
  ih_repr := md4_repr;
  ih_init_ok := md4_init_repr (Ctx (State 0 0 0 0) 0 0 (replicate 64 0)) eq_refl;
  ih_update_ok := md4_update_ok;
  ih_finish_ok := md4_finish_ok
}.

(** The digest of a message fed in any pieces (each below the limit of
    the 32-bit loop counter) is the RFC 1320 digest of their concatenation;
    no piece makes the code read or write outside its buffers. *)
Theorem md4_pieces (ps : list (list Z)) :
  Forall (fun p : list Z => Z.of_nat (length p) < 2 ^ 32 - 63) ps ->
  ih_digest (Ctx := MD4_CTX) ps = Some (md4_spec (concat ps)).
Proof. exact (ih_digest_ok ps). Qed.

Lemma md4_pieces_witness :
  ih_digest (Ctx := MD4_CTX) [[97]; []; [98; 99]] = Some (md4_spec [97; 98; 99]).
Proof. apply (md4_pieces [[97]; []; [98; 99]]). repeat constructor. Defined.

(** MD4 of the RFC 1320 test strings "" and "abc". *)
Theorem md4_vectors :
  md4_spec [] = le_bytes 16 0xc089c0e0d7593cb731e96ad1e0cfd631 /\
  md4_spec [97; 98; 99] = le_bytes 16 0x9d72a67ae80ac15f52d821af7a0148a4.
Proof. vm_compute. split; reflexivity. Qed.

(** ** [md4_xor] *)

Lemma md4_xor_spec m1 m2 m3 n :
  (n <= length m1)%nat -> (length m1 <= length m2)%nat -> (length m1 <= length m3)%nat ->
  for_up n 0 (md4_xor_step m1 m2) m3 = Some (take n (zip_with Z.lxor m1 m2) ++ drop n m3).
Proof.
  intros Hn H2 H3. induction n as [|n IH]; [done|].
  rewrite for_up_snoc, IH by lia. cbn [mbind option_bind]. rewrite Z.add_0_l.
  unfold md4_xor_step. rewrite !rd_nat.
  destruct (lookup_lt_is_Some_2 m1 n) as [x Hx]; [lia|].
  destruct (lookup_lt_is_Some_2 m2 n) as [y Hy]; [lia|].
  rewrite Hx, Hy. cbn [mbind option_bind].
  assert (Hz : length (take n (zip_with Z.lxor m1 m2)) = n)
    by (rewrite length_take, length_zip_with; lia).
  rewrite wr_in by (rewrite length_app, length_drop; lia). f_equal. rewrite Nat2Z.id.
  destruct (lookup_lt_is_Some_2 m3 n) as [w Hw]; [lia|].
  rewrite (drop_S m3 w n Hw), insert_app_r_alt, Hz, Nat.sub_diag by lia. simpl.
  rewrite (take_S_r _ n (Z.lxor x y)), <- app_assoc; [done|].
  by rewrite lookup_zip_with, Hx, Hy.
Qed.

(** [md4_xor] writes the exclusive or of the first [length m1] bytes and
    leaves the rest of the destination alone; applying it again with [m2]
    gives [m1] back (so the distance of two digests identifies the second). *)
Theorem md4_xor_involutive m1 m2 m3 :
  length m1 = length m2 -> length m1 = length m3 ->
  md4_xor m1 m2 m3 = Some (zip_with Z.lxor m1 m2) /\
  forall m4, length m4 = length m1 -> md4_xor (zip_with Z.lxor m1 m2) m2 m4 = Some m1.
Proof.
  intros H2 H3. assert (Hl : length (zip_with Z.lxor m1 m2) = length m1)
    by (rewrite length_zip_with; lia).
  unfold md4_xor. split.
  - rewrite md4_xor_spec, take_ge, drop_ge by lia. by rewrite app_nil_r.
  - intros m4 H4. rewrite md4_xor_spec, take_ge, drop_ge by (rewrite ?length_zip_with; lia).
    rewrite app_nil_r. f_equal. clear -H2. revert m2 H2.
    induction m1 as [|x m1 IH]; intros [|y m2] H2; simplify_eq/=; [done|].
    by rewrite lxor_cancel_r, IH.
Qed.

Lemma md4_xor_involutive_witness :
  md4_xor [1; 2; 3] [7; 7; 7] [0; 0; 0] = Some [6; 5; 4] /\
  forall m4, length m4 = 3%nat -> md4_xor [6; 5; 4] [7; 7; 7] m4 = Some [1; 2; 3].
Proof. exact (md4_xor_involutive [1; 2; 3] [7; 7; 7] [0; 0; 0] eq_refl eq_refl). Defined.

End Md4.
