(* ===== verification/Sha1.v ===== *)
(** * SHA-1

    [src/src/utils/lib/sha1_c.c] and [sha1_c.h]: the context, [sha1_begin],
    [sha1_hash], [sha1_end] and the compression function [sha1_compile], with
    its circular schedule and renamed registers; it is proved to be the
    function of FIPS 180-1, and the context to absorb a message in pieces. *)

From Stdlib Require Import ZArith Lia Bool.
From stdpp Require Import base option numbers list.
From S2P Require Import Prelude MerkleDamgard.

Local Open Scope Z_scope.

Module Sha1.

Definition SHA1_BLOCK_SIZE : Z := 64.
Definition SHA1_MASK : Z := 63.

Definition rotl32 (x n : Z) : Z := rol32 x n.
Definition rotr32 (x n : Z) : Z := ror32 x n.

Definition bswap_32 (x : Z) : Z :=
  Z.lor (Z.land (rotr32 x 24) 0x00ff00ff) (Z.land (rotr32 x 8) 0xff00ff00).

(** [bsw_32 (p, n)] on an array of words. *)
Definition bsw_32 (p : list Z) (n : nat) : list Z := (bswap_32 <$> take n p) ++ drop n p.

Definition ch (x y z : Z) : Z := Z.lxor z (Z.land x (Z.lxor y z)).
Definition parity (x y z : Z) : Z := Z.lxor (Z.lxor x y) z.
Definition maj (x y z : Z) : Z := Z.lor (Z.land x y) (Z.land z (Z.lxor x y)).

(** ** The compression function

    [v] is the array of the five registers, [q (v, n)] its element [n]. *)
Definition q (v : list Z) (n : nat) : Z := nth n v 0.

Definition one_cycle (v : list Z) (a b c d e : nat) (f : Z -> Z -> Z -> Z) (k h : Z) : list Z :=
  let v := <[e := u32 (q v e + (rotr32 (q v a) 27 + f (q v b) (q v c) (q v d) + k + h))]> v in
  <[b := rotr32 (q v b) 2]> v.

(** [hf (i)], before and after its redefinition: the word, and the array. *)
Definition hf_load (i : nat) (w : list Z) : Z * list Z := (nth i w 0, w).
Definition hf_next (i : nat) (w : list Z) : Z * list Z :=
  let at_ j := nth (j mod 16) w 0 in
  let x := rotl32 (Z.lxor (Z.lxor (Z.lxor (at_ (i + 13)%nat) (at_ (i + 8)%nat)) (at_ (i + 2)%nat)) (at_ i)) 1 in
  (x, <[(i mod 16)%nat := x]> w).

(** One [one_cycle] with [hf (i)] as its last argument. *)
Definition cycle (hf : nat -> list Z -> Z * list Z) (a b c d e : nat) (f : Z -> Z -> Z -> Z) (k : Z) (i : nat)
    (st : list Z * list Z) : list Z * list Z :=
  let '(v, w) := st in let '(h, w) := hf i w in (one_cycle v a b c d e f k h, w).

Definition five_cycle (hf : nat -> list Z -> Z * list Z) (f : Z -> Z -> Z -> Z) (k : Z) (i : nat)
    (st : list Z * list Z) : list Z * list Z :=
  let st := cycle hf 0 1 2 3 4 f k i st in
  let st := cycle hf 4 0 1 2 3 f k (i + 1) st in
  let st := cycle hf 3 4 0 1 2 f k (i + 2) st in
  let st := cycle hf 2 3 4 0 1 f k (i + 3) st in
  cycle hf 1 2 3 4 0 f k (i + 4) st.

Record sha1_context := Ctx {
  count0 : Z;            (* number of bytes modulo 2^64, low word first *)
  count1 : Z;
  hash : list Z;         (* 5 words *)
  wbuf : list Z          (* 16 words *)
}.

Definition sha1_compile (ctx : sha1_context) : sha1_context :=
  let st := (hash ctx, wbuf ctx) in
  let st := five_cycle hf_load ch 0x5a827999 0 st in
  let st := five_cycle hf_load ch 0x5a827999 5 st in
  let st := five_cycle hf_load ch 0x5a827999 10 st in
  let st := cycle hf_load 0 1 2 3 4 ch 0x5a827999 15 st in
  let st := cycle hf_next 4 0 1 2 3 ch 0x5a827999 16 st in
  let st := cycle hf_next 3 4 0 1 2 ch 0x5a827999 17 st in
  let st := cycle hf_next 2 3 4 0 1 ch 0x5a827999 18 st in
  let st := cycle hf_next 1 2 3 4 0 ch 0x5a827999 19 st in
  let st := five_cycle hf_next parity 0x6ed9eba1 20 st in
  let st := five_cycle hf_next parity 0x6ed9eba1 25 st in
  let st := five_cycle hf_next parity 0x6ed9eba1 30 st in
  let st := five_cycle hf_next parity 0x6ed9eba1 35 st in
  let st := five_cycle hf_next maj 0x8f1bbcdc 40 st in
  let st := five_cycle hf_next maj 0x8f1bbcdc 45 st in
  let st := five_cycle hf_next maj 0x8f1bbcdc 50 st in
  let st := five_cycle hf_next maj 0x8f1bbcdc 55 st in
  let st := five_cycle hf_next parity 0xca62c1d6 60 st in
  let st := five_cycle hf_next parity 0xca62c1d6 65 st in
  let st := five_cycle hf_next parity 0xca62c1d6 70 st in
  let st := five_cycle hf_next parity 0xca62c1d6 75 st in
  let '(v, w) := st in
  Ctx (count0 ctx) (count1 ctx) (zip_with (fun h x => u32 (h + x)) (hash ctx) v) w.

(** ** The context *)

Definition SHA1_IV : list Z := [0x67452301; 0xefcdab89; 0x98badcfe; 0x10325476; 0xc3d2e1f0].

(** [sha1_begin] leaves [wbuf] as it was. *)
Definition sha1_begin (ctx : sha1_context) : sha1_context := Ctx 0 0 SHA1_IV (wbuf ctx).

(** The bytes of an array of words in memory, and back. *)
Definition word_bytes (ws : list Z) : list Z := concat (le_bytes 4 <$> ws).

Fixpoint bytes_words (n : nat) (bs : list Z) : list Z :=
  match n with O => [] | S n => le_word (take 4 bs) :: bytes_words n (drop 4 bs) end.

(** [memcpy (((unsigned char * ) ctx->wbuf) + pos, src, ...)] *)
Definition copy_in (w : list Z) (pos : Z) (src : list Z) : option (list Z) :=
  bs ← blit (word_bytes w) pos src; Some (bytes_words 16 bs).

Definition with_wbuf (ctx : sha1_context) (w : list Z) : sha1_context :=
  Ctx (count0 ctx) (count1 ctx) (hash ctx) w.

(** [while (len >= space)]; [sp] is the position of the pointer in [data]. *)
Fixpoint sha1_blocks (fuel : nat) (ctx : sha1_context) (data : list Z) (sp len pos space : Z)
    : option (sha1_context * Z * Z * Z) :=
  if space <=? len then
    match fuel with
    | O => None
    | S fuel =>
        part ← sub_bytes data sp space;
        w ← copy_in (wbuf ctx) pos part;
        let ctx := sha1_compile (with_wbuf ctx (bsw_32 w 16)) in
        sha1_blocks fuel ctx data (sp + space) (len - space) 0 SHA1_BLOCK_SIZE
    end
  else Some (ctx, sp, len, pos).

(** The carry is seen by comparing the 32-bit sum with [len]. *)
Definition sha1_count (ctx : sha1_context) (len : Z) : sha1_context :=
  let c0 := u32 (count0 ctx + len) in
  let c1 := if c0 <? len then u32 (count1 ctx + 1) else count1 ctx in
  Ctx c0 c1 (hash ctx) (wbuf ctx).

Definition sha1_hash (ctx : sha1_context) (data : list Z) (len : Z) : option sha1_context :=
  let pos := Z.land (count0 ctx) SHA1_MASK in
  let space := SHA1_BLOCK_SIZE - pos in
  let ctx := sha1_count ctx len in
  '(ctx, sp, len, pos) ← sha1_blocks (Z.to_nat len) ctx data 0 len pos space;
  rest ← sub_bytes data sp len;
  w ← copy_in (wbuf ctx) pos rest;
  Some (with_wbuf ctx w).

(** [~i & 3] *)
Definition byte_shift (i : Z) : Z := 8 * Z.land (Z.lnot i) 3.

(** The word where the message ends. *)
Definition pad_word (i : Z) (w : list Z) : option (list Z) :=
  v ← rd w (Z.shiftr i 2);
  w ← wr w (Z.shiftr i 2) (Z.land v (u32 (Z.shiftl 0xffffff80 (byte_shift i))));
  v ← rd w (Z.shiftr i 2);
  wr w (Z.shiftr i 2) (Z.lor v (u32 (Z.shiftl 0x00000080 (byte_shift i)))).

(** [while (i < 14) ctx->wbuf[i++] = 0;] *)
Definition zero_words (i : Z) (w : list Z) : option (list Z) :=
  for_up (Z.to_nat (14 - i)) i (fun j w => wr w j 0) w.

(** From [while (i < 14)] to the end. *)
Definition sha1_last (ctx : sha1_context) (i : Z) : option (list Z) :=
  w ← zero_words i (wbuf ctx);
  w ← wr w 14 (Z.lor (u32 (Z.shiftl (count1 ctx) 3)) (Z.shiftr (count0 ctx) 29));
  w ← wr w 15 (u32 (Z.shiftl (count0 ctx) 3));
  let ctx := sha1_compile (with_wbuf ctx w) in
  Some ((fun i : Z => u8 (Z.shiftr (nth (Z.to_nat (Z.shiftr i 2)) (hash ctx) 0) (byte_shift i))) <$> seqZ 0 20).

Definition sha1_end (ctx : sha1_context) : option (list Z) :=
  let i := Z.land (count0 ctx) SHA1_MASK in
  let ctx := with_wbuf ctx (bsw_32 (wbuf ctx) (Z.to_nat (Z.shiftr (i + 3) 2))) in
  w ← pad_word i (wbuf ctx);
  '(ctx, i) ←
    (if SHA1_BLOCK_SIZE - 9 <? i then
       w ← (if i <? 60 then wr w 15 0 else Some w);
       Some (sha1_compile (with_wbuf ctx w), 0)
     else Some (with_wbuf ctx w, Z.shiftr i 2 + 1));
  sha1_last ctx i.

(** A context on the stack: its buffer is arbitrary before [sha1_begin]. *)
#[export] Instance Sha1 : IncrementalHash sha1_context := {
  ih_init := sha1_begin (Ctx 0 0 (replicate 5 0) (replicate 16 0));
  ih_update ctx d := sha1_hash ctx d (Z.of_nat (length d));
  ih_finish := sha1_end
}.

(** ** The specification: FIPS 180-1 *)

(** The 32-bit words of a block, highest byte first. *)
Fixpoint be_words (n : nat) (bs : list Z) : list Z :=
  match n with O => [] | S n => le_word (rev (take 4 bs)) :: be_words n (drop 4 bs) end.

Definition be_bytes (w : Z) : list Z := rev (le_bytes 4 w).

(** [W (t) = S^1 (W (t-3) xor W (t-8) xor W (t-14) xor W (t-16))] *)
Definition next_word (W : list Z) : Z :=
  let at_ j := nth (length W - j) W 0 in
  rol32 (Z.lxor (Z.lxor (Z.lxor (at_ 3%nat) (at_ 8%nat)) (at_ 14%nat)) (at_ 16%nat)) 1.

Fixpoint schedule (n : nat) (W : list Z) : list Z :=
  match n with O => W | S n => schedule n (W ++ [next_word W]) end.

Definition fips_f (t : nat) (b c d : Z) : Z :=
  if (t <? 20)%nat then Z.lor (Z.land b c) (Z.land (Z.lnot b) d)
  else if (t <? 40)%nat then Z.lxor (Z.lxor b c) d
  else if (t <? 60)%nat then Z.lor (Z.lor (Z.land b c) (Z.land b d)) (Z.land c d)
  else Z.lxor (Z.lxor b c) d.

Definition fips_K (t : nat) : Z :=
  if (t <? 20)%nat then 0x5a827999 else if (t <? 40)%nat then 0x6ed9eba1
  else if (t <? 60)%nat then 0x8f1bbcdc else 0xca62c1d6.

Record regs := Regs { rA : Z; rB : Z; rC : Z; rD : Z; rE : Z }.

Definition fips_round (f : Z -> Z -> Z -> Z) (k w : Z) (r : regs) : regs :=
  Regs (u32 (rol32 (rA r) 5 + f (rB r) (rC r) (rD r) + rE r + w + k)) (rA r) (rol32 (rB r) 30) (rC r) (rD r).

(** Rounds [t] to [t + n - 1]. *)
Fixpoint fips_rounds (n t : nat) (W : list Z) (r : regs) : regs :=
  match n with
  | O => r
  | S n => fips_rounds n (S t) W (fips_round (fips_f t) (fips_K t) (nth t W 0) r)
  end.

Definition regs_of (v : list Z) : regs := Regs (q v 0) (q v 1) (q v 2) (q v 3) (q v 4).
Definition of_regs (r : regs) : list Z := [rA r; rB r; rC r; rD r; rE r].

(** The hash value after one more block. *)
Definition fips_words (h W : list Z) : list Z :=
  zip_with (fun h x => u32 (h + x)) h (of_regs (fips_rounds 80 0 (schedule 64 W) (regs_of h))).
Definition fips_block (h block : list Z) : list Z := fips_words h (be_words 16 block).

(** Padding as in MD4, with the length highest byte first. *)
Definition sha_pad (m : list Z) : list Z :=
  m ++ 128 :: replicate (Z.to_nat ((55 - Z.of_nat (length m)) mod 64)) 0
    ++ rev (le_bytes 8 (Z.of_nat (length m) * 8)).

Definition sha1_spec (m : list Z) : list Z := concat (be_bytes <$> md_absorb fips_block SHA1_IV (sha_pad m)).

(** ** The two ways of writing the logical functions *)

Lemma ch_fips x y z : ch x y z = Z.lor (Z.land x y) (Z.land (Z.lnot x) z).
Proof.
  apply Z.bits_inj'. intros i Hi. unfold ch.
  rewrite Z.lxor_spec, Z.land_spec, Z.lxor_spec, Z.lor_spec, !Z.land_spec, Z.lnot_spec by done.
  by destruct (Z.testbit x i), (Z.testbit y i), (Z.testbit z i).
Qed.

Lemma maj_fips x y z : maj x y z = Z.lor (Z.lor (Z.land x y) (Z.land x z)) (Z.land y z).
Proof.
  apply Z.bits_inj'. intros i Hi. unfold maj.
  rewrite !Z.lor_spec, !Z.land_spec, Z.lxor_spec.
  by destruct (Z.testbit x i), (Z.testbit y i), (Z.testbit z i).
Qed.

(** The function and the constant of the round. *)
Definition fits (t : nat) (f : Z -> Z -> Z -> Z) (k : Z) : Prop :=
  k = fips_K t /\ forall x y z, f x y z = fips_f t x y z.

Lemma fits_ch t : (t < 20)%nat -> fits t ch 0x5a827999.
Proof. intros H. unfold fits, fips_K, fips_f. apply Nat.ltb_lt in H as ->. split; [done|]. apply ch_fips. Qed.

Lemma fits_maj t : (40 <= t < 60)%nat -> fits t maj 0x8f1bbcdc.
Proof.
  intros H. unfold fits, fips_K, fips_f.
  rewrite (proj2 (Nat.ltb_ge t 20)), (proj2 (Nat.ltb_ge t 40)), (proj2 (Nat.ltb_lt t 60)) by lia.
  split; [done|]. apply maj_fips.
Qed.

Lemma fits_parity t k :
  (20 <= t < 40)%nat /\ k = 0x6ed9eba1 \/ (60 <= t)%nat /\ k = 0xca62c1d6 -> fits t parity k.
Proof.
  intros H. unfold fits, fips_K, fips_f. rewrite (proj2 (Nat.ltb_ge t 20)) by lia.
  destruct H as [[H ->]|[H ->]].
  - by rewrite (proj2 (Nat.ltb_lt t 40)) by lia.
  - by rewrite (proj2 (Nat.ltb_ge t 40)), (proj2 (Nat.ltb_ge t 60)) by lia.
Qed.

(** ** The renamed registers *)

(** The registers before a cycle whose first argument is [v[s]]. *)
Definition turned (s : nat) (v : list Z) : regs :=
  Regs (q v (s mod 5)) (q v ((s + 1) mod 5)) (q v ((s + 2) mod 5)) (q v ((s + 3) mod 5)) (q v ((s + 4) mod 5)).

Lemma ror_rol x n : 0 <= n <= 32 -> ror32 x n = rol32 x (32 - n).
Proof. intros Hn. unfold ror32, rol32. rewrite Z.lor_comm. by replace (32 - (32 - n)) with n by lia. Qed.

Lemma one_cycle_ok s v f k h :
  (s < 5)%nat -> length v = 5%nat ->
  let v' := one_cycle v (s mod 5) ((s + 1) mod 5) ((s + 2) mod 5) ((s + 3) mod 5) ((s + 4) mod 5) f k h in
  length v' = 5%nat /\ turned (s + 4) v' = fips_round f k h (turned s v).
Proof.
  intros Hs Hv. destruct v as [|v0 [|v1 [|v2 [|v3 [|v4 [|? ?]]]]]]; try discriminate Hv.
  assert (E : forall e a b c d, u32 (e + (rotr32 a 27 + f b c d + k + h)) = u32 (rol32 a 5 + f b c d + e + h + k)).
  { intros. unfold rotr32. rewrite ror_rol by lia. change (32 - 27) with 5. f_equal. lia. }
  assert (E2 : forall b, rotr32 b 2 = rol32 b 30) by (intros; unfold rotr32; rewrite ror_rol by lia; done).
  unfold one_cycle. rewrite E, E2.
  destruct s as [|[|[|[|[|?]]]]]; [..|lia]; split; reflexivity.
Qed.

(** ** The circular schedule *)

Lemma schedule_S n W : schedule (S n) W = schedule n W ++ [next_word (schedule n W)].
Proof. revert W. induction n as [|n IH]; intros W; [done|]. simpl in *. apply IH. Qed.

Lemma schedule_length n W : length (schedule n W) = (length W + n)%nat.
Proof. revert W. induction n as [|n IH]; intros W; simpl; [lia|]. rewrite IH, length_app. simpl. lia. Qed.

Lemma schedule_nth n m W t : (t < length W + n)%nat -> (n <= m)%nat ->
  nth t (schedule m W) 0 = nth t (schedule n W) 0.
Proof.
  intros Ht. induction 1 as [|m Hm IH]; [done|].
  rewrite schedule_S, app_nth1; [done|]. rewrite schedule_length. lia.
Qed.

Section Rounds.
Context (W0 : list Z).
Hypothesis W0_arr : arr 32 16 W0.

Let W : list Z := schedule 64 W0.

(** [w] holds the last sixteen words before round [t]. *)
Definition window (t : nat) (w : list Z) : Prop :=
  arr 32 16 w /\
  forall s, (s < max 16 t)%nat -> (max 16 t <= s + 16)%nat -> nth (s mod 16) w 0 = nth s W 0.

Lemma window_start : window 0 W0.
Proof.
  destruct W0_arr as [W0_length _].
  split; [done|]. intros s Hs _. simpl in Hs. rewrite Nat.mod_small by lia.
  unfold W. by rewrite (schedule_nth 0 64) by lia.
Qed.

Lemma load_ok t w : (t < 16)%nat -> window t w -> hf_load t w = (nth t W 0, w) /\ window (S t) w.
Proof.
  intros Ht [Hl Hw]. rewrite Nat.max_l in Hw by lia. split.
  - unfold hf_load. f_equal. rewrite <- Hw by lia. by rewrite Nat.mod_small by lia.
  - split; [done|]. by rewrite Nat.max_l by lia.
Qed.

Lemma next_ok t w : (16 <= t < 80)%nat -> window t w ->
  exists w', hf_next t w = (nth t W 0, w') /\ window (S t) w'.
Proof.
  destruct W0_arr as [W0_length _]. intros Ht [[Hl Hws] Hw]. rewrite Nat.max_r in Hw by lia.
  assert (Hm : forall j, (1 <= j <= 16)%nat -> nth ((t + 16 - j) mod 16) w 0 = nth (t - j) W 0).
  { intros j Hj. rewrite <- Hw by lia. f_equal.
    replace (t + 16 - j)%nat with (t - j + 1 * 16)%nat by lia. by rewrite Nat.Div0.mod_add. }
  assert (Hx : nth t W 0 = rol32 (Z.lxor (Z.lxor (Z.lxor (nth (t - 3) W 0) (nth (t - 8) W 0)) (nth (t - 14) W 0)) (nth (t - 16) W 0)) 1).
  { unfold W at 1. rewrite (schedule_nth (t - 15) 64) by lia. replace (t - 15)%nat with (S (t - 16)) by lia.
    rewrite schedule_S. assert (Hln : length (schedule (t - 16) W0) = t) by (rewrite schedule_length; lia).
    rewrite app_nth2, Hln, Nat.sub_diag by lia. cbn [nth]. unfold next_word. rewrite Hln.
    unfold W. rewrite !(schedule_nth (t - 16) 64 W0) by lia. done. }
  unfold hf_next. eexists. split.
  - pose proof (Hm 3%nat ltac:(lia)) as H3. pose proof (Hm 8%nat ltac:(lia)) as H8.
    pose proof (Hm 14%nat ltac:(lia)) as H14. pose proof (Hm 16%nat ltac:(lia)) as H16.
    replace (t + 16 - 3)%nat with (t + 13)%nat in H3 by lia. replace (t + 16 - 8)%nat with (t + 8)%nat in H8 by lia.
    replace (t + 16 - 14)%nat with (t + 2)%nat in H14 by lia. replace (t + 16 - 16)%nat with t in H16 by lia.
    rewrite H3, H8, H14, H16. unfold rotl32. rewrite <- Hx. reflexivity.
  - split.
    { split; [by rewrite length_insert|]. apply Forall_insert; [done|]. rewrite Hx. apply rol32_range. }
    rewrite Nat.max_r by lia. intros s Hs1 Hs2.
    destruct (decide (s = t)) as [->|Hne].
    + rewrite nth_lookup, list_lookup_insert_eq; [done|]. rewrite Hl. apply Nat.mod_upper_bound. lia.
    + rewrite nth_lookup, list_lookup_insert_ne, <- nth_lookup; [apply Hw; lia|].
      intros E. pose proof (Nat.div_mod_eq t 16). pose proof (Nat.div_mod_eq s 16). lia.
Qed.

(** What holds before round [t], started from the registers [r]. *)
Definition before (t : nat) (st : list Z * list Z) (r : regs) : Prop :=
  length st.1 = 5%nat /\ turned (4 * t) st.1 = fips_rounds t 0 W r /\ window t st.2.

Lemma turned_mod s v : turned s v = turned (s mod 5) v.
Proof. unfold turned. by rewrite !Nat.Div0.add_mod_idemp_l, Nat.Div0.mod_mod. Qed.

Lemma turned_S t v : turned (4 * S t) v = turned (4 * t mod 5 + 4) v.
Proof.
  rewrite turned_mod, (turned_mod (_ + 4)), Nat.Div0.add_mod_idemp_l. do 2 f_equal. lia.
Qed.

Lemma fips_rounds_S n t r : fips_rounds (S n) t W r =
  fips_round (fips_f (t + n)) (fips_K (t + n)) (nth (t + n) W 0) (fips_rounds n t W r).
Proof.
  revert t r. induction n as [|n IH]; intros t r; [by rewrite Nat.add_0_r|].
  change (fips_rounds (S (S n)) t W r)
    with (fips_rounds (S n) (S t) W (fips_round (fips_f t) (fips_K t) (nth t W 0) r)).
  rewrite IH. by rewrite Nat.add_succ_comm.
Qed.

Lemma cycle_ok hf t s f k st r :
  before t st r -> s = (4 * t mod 5)%nat -> fits t f k -> (t < 80)%nat ->
  hf = (if (t <? 16)%nat then hf_load else hf_next) ->
  before (S t) (cycle hf (s mod 5) ((s + 1) mod 5) ((s + 2) mod 5) ((s + 3) mod 5) ((s + 4) mod 5) f k t st) r.
Proof.
  destruct st as [v w]. intros (Hv & Hr & Hw) Hs [-> Hf] Ht ->. cbn [fst snd] in Hv, Hr, Hw.
  assert (Hs5 : (s < 5)%nat) by (subst s; apply Nat.mod_upper_bound; lia).
  assert (H : exists w', (if (t <? 16)%nat then hf_load else hf_next) t w = (nth t W 0, w') /\ window (S t) w').
  { destruct (Nat.ltb_spec t 16); [exists w; by apply load_ok|by apply next_ok]. }
  destruct H as (w' & E & Hw'). unfold cycle. rewrite E.
  pose proof (one_cycle_ok s v f (fips_K t) (nth t W 0) Hs5 Hv) as [Hl Ho].
  split; [done|]. split; [|done]. cbn [fst].
  rewrite turned_S, <- Hs, Ho, fips_rounds_S, Hs, <- turned_mod, Hr.
  unfold fips_round. cbn [Nat.add]. by rewrite Hf.
Qed.

Lemma five_cycle_ok hf t f k st r :
  before t st r -> (t mod 5 = 0)%nat -> (forall j, (t <= j < t + 5)%nat -> fits j f k) -> (t + 5 <= 80)%nat ->
  (forall j, (t <= j < t + 5)%nat -> hf = if (j <? 16)%nat then hf_load else hf_next) ->
  before (5 + t) (five_cycle hf f k t st) r.
Proof.
  intros Hb Hm Hf Ht Hh. unfold five_cycle.
  assert (Hs : forall j, ((4 * (j + t)) mod 5 = (4 * j) mod 5)%nat).
  { intros j. apply Nat.Div0.div_exact in Hm. rewrite Hm.
    replace (4 * (j + 5 * (t / 5)))%nat with (4 * j + 4 * (t / 5) * 5)%nat by lia. apply Nat.Div0.mod_add. }
  rewrite !(Nat.add_comm t).
  apply (cycle_ok hf (4 + t) 1); [|by rewrite Hs|apply Hf; lia|lia|apply Hh; lia].
  apply (cycle_ok hf (3 + t) 2); [|by rewrite Hs|apply Hf; lia|lia|apply Hh; lia].
  apply (cycle_ok hf (2 + t) 3); [|by rewrite Hs|apply Hf; lia|lia|apply Hh; lia].
  apply (cycle_ok hf (1 + t) 4); [|by rewrite Hs|apply Hf; lia|lia|apply Hh; lia].
  apply (cycle_ok hf (0 + t) 0); [done|by rewrite Hs|apply Hf; lia|lia|apply Hh; lia].
Qed.
End Rounds.

#[local] Opaque schedule fips_round.

(** The function, the constant and the word of a group of rounds. *)
Ltac cycle_side :=
  first [ done | lia
        | intros; apply fits_ch; lia | intros; apply fits_maj; lia | intros; apply fits_parity; lia
        | intros j ?; by rewrite (proj2 (Nat.ltb_lt j 16)) by lia
        | intros j ?; by rewrite (proj2 (Nat.ltb_ge j 16)) by lia ].

Lemma of_regs_of v : length v = 5%nat -> of_regs (regs_of v) = v.
Proof. intros Hv. destruct v as [|v0 [|v1 [|v2 [|v3 [|v4 [|? ?]]]]]]; done. Qed.

(** The eighty cycles are the rounds of the standard on the sixteen words. *)
Lemma cycles_ok v w :
  length v = 5%nat -> arr 32 16 w ->
  exists w', arr 32 16 w' /\ forall c0 c1,
    sha1_compile (Ctx c0 c1 v w) = Ctx c0 c1 (fips_words v w) w'.
Proof.
  intros Hv Hw.
  pose proof (conj Hv (conj eq_refl (window_start w Hw)) : before w 0 (v, w) (regs_of v)) as H.
  apply (five_cycle_ok w Hw hf_load 0 ch 0x5a827999) in H; [|cycle_side..].
  apply (five_cycle_ok w Hw hf_load 5 ch 0x5a827999) in H; [|cycle_side..].
  apply (five_cycle_ok w Hw hf_load 10 ch 0x5a827999) in H; [|cycle_side..].
  apply (cycle_ok w Hw hf_load 15 0 ch 0x5a827999) in H; [|cycle_side..].
  apply (cycle_ok w Hw hf_next 16 4 ch 0x5a827999) in H; [|cycle_side..].
  apply (cycle_ok w Hw hf_next 17 3 ch 0x5a827999) in H; [|cycle_side..].
  apply (cycle_ok w Hw hf_next 18 2 ch 0x5a827999) in H; [|cycle_side..].
  apply (cycle_ok w Hw hf_next 19 1 ch 0x5a827999) in H; [|cycle_side..].
  apply (five_cycle_ok w Hw hf_next 20 parity 0x6ed9eba1) in H; [|cycle_side..].
  apply (five_cycle_ok w Hw hf_next 25 parity 0x6ed9eba1) in H; [|cycle_side..].
  apply (five_cycle_ok w Hw hf_next 30 parity 0x6ed9eba1) in H; [|cycle_side..].
  apply (five_cycle_ok w Hw hf_next 35 parity 0x6ed9eba1) in H; [|cycle_side..].
  apply (five_cycle_ok w Hw hf_next 40 maj 0x8f1bbcdc) in H; [|cycle_side..].
  apply (five_cycle_ok w Hw hf_next 45 maj 0x8f1bbcdc) in H; [|cycle_side..].
  apply (five_cycle_ok w Hw hf_next 50 maj 0x8f1bbcdc) in H; [|cycle_side..].
  apply (five_cycle_ok w Hw hf_next 55 maj 0x8f1bbcdc) in H; [|cycle_side..].
  apply (five_cycle_ok w Hw hf_next 60 parity 0xca62c1d6) in H; [|cycle_side..].
  apply (five_cycle_ok w Hw hf_next 65 parity 0xca62c1d6) in H; [|cycle_side..].
  apply (five_cycle_ok w Hw hf_next 70 parity 0xca62c1d6) in H; [|cycle_side..].
  apply (five_cycle_ok w Hw hf_next 75 parity 0xca62c1d6) in H; [|cycle_side..].
  match type of H with before _ _ ?st _ => set (fin := st) in H end.
  destruct H as (Hl & Hr & Hw' & _). change (5 + 75)%nat with 80%nat in Hr.
  exists fin.2. split; [done|]. intros c0 c1.
  transitivity (let '(v', w') := fin in Ctx c0 c1 (zip_with (fun h x => u32 (h + x)) v v') w'); [reflexivity|].
  destruct fin as [v' w']. f_equal. unfold fips_words. f_equal.
  rewrite <- Hr. symmetry. by apply (of_regs_of v').
Qed.

(** ** Words and bytes *)

Lemma word_bytes_cons w ws : word_bytes (w :: ws) = le_bytes 4 w ++ word_bytes ws.
Proof. done. Qed.

Lemma word_bytes_length ws : length (word_bytes ws) = (4 * length ws)%nat.
Proof. induction ws as [|w ws IH]; [done|]. rewrite word_bytes_cons, length_app, le_bytes_length, IH. simpl. lia. Qed.

Lemma word_bytes_bytes ws : Forall (word 8) (word_bytes ws).
Proof.
  induction ws as [|w ws IH]; [constructor|]. rewrite word_bytes_cons.
  apply Forall_app. split; [apply le_bytes_word|done].
Qed.

(** Four bytes off the front. *)
Lemma take4 n (bs : list Z) :
  length bs = (4 * S n)%nat -> Forall (word 8) bs ->
  exists a b c d r, bs = a :: b :: c :: d :: r /\ Forall (word 8) [a; b; c; d] /\
    length r = (4 * n)%nat /\ Forall (word 8) r.
Proof.
  intros Hl Hb. destruct bs as [|a [|b [|c [|d r]]]]; simpl in Hl; try lia.
  rewrite !Forall_cons in Hb. destruct Hb as (Ha & Hb & Hc & Hd & Hr).
  exists a, b, c, d, r. split; [done|]. split; [by rewrite !Forall_cons|]. split; [lia|done].
Qed.

Lemma le_word4 a b c d : Forall (word 8) [a; b; c; d] ->
  le_word [a; b; c; d] = a + 256 * b + 65536 * c + 16777216 * d.
Proof.
  rewrite !Forall_cons. intros (Ha & Hb & Hc & Hd & _).
  rewrite !le_word_cons by done. simpl (le_word []). lia.
Qed.

Lemma le_bytes4 z : le_bytes 4 z = [u8 z; u8 (Z.shiftr z 8); u8 (Z.shiftr z 16); u8 (Z.shiftr z 24)].
Proof.
  cbn [le_bytes]. rewrite !Z.shiftr_shiftr by lia. unfold u8. change 255 with (Z.ones 8).
  by rewrite !Z.land_ones by lia.
Qed.

Lemma word_bytes_words n bs :
  length bs = (4 * n)%nat -> Forall (word 8) bs -> word_bytes (bytes_words n bs) = bs.
Proof.
  revert bs. induction n as [|n IH]; intros bs Hl Hb; [destruct bs; simpl in *; [done|lia]|].
  destruct (take4 n bs Hl Hb) as (a & b & c & d & r & -> & H4 & Hr & Hrb).
  cbn [bytes_words]. change (take 4 _) with [a; b; c; d]. change (drop 4 _) with r.
  rewrite word_bytes_cons, (le_bytes_le_word 4), IH by done. done.
Qed.

Lemma bytes_words_arr n bs : length bs = (4 * n)%nat -> Forall (word 8) bs -> arr 32 n (bytes_words n bs).
Proof.
  revert bs. induction n as [|n IH]; intros bs Hl Hb; [split; [done|constructor]|].
  destruct (take4 n bs Hl Hb) as (a & b & c & d & r & -> & H4 & Hr & Hrb).
  cbn [bytes_words]. change (take 4 _) with [a; b; c; d]. change (drop 4 _) with r.
  destruct (IH r Hr Hrb) as [Hl' Hw']. split; [simpl; by rewrite Hl'|]. constructor; [|done].
  by apply (le_word_range 4).
Qed.

Lemma be_words_length n bs : length (be_words n bs) = n.
Proof. revert bs. induction n as [|n IH]; intros bs; [done|]. simpl. by rewrite IH. Qed.

Lemma be_words_app n k a b :
  length a = (4 * n)%nat -> be_words (n + k) (a ++ b) = be_words n a ++ be_words k b.
Proof.
  revert a. induction n as [|n IH]; intros a Ha; [by destruct a|].
  destruct a as [|a0 [|a1 [|a2 [|a3 r]]]]; simpl in Ha; try lia.
  cbn [be_words Nat.add app firstn skipn]. rewrite !drop_0, IH by lia. done.
Qed.

Lemma bswap_32_range x : word 32 (bswap_32 x).
Proof. apply word_lor; [lia| |]; apply word_land_r; unfold word; lia. Qed.

(** Words are compared bit by bit. *)
Lemma word32_ext x y :
  word 32 x -> word 32 y -> Forall (fun i => Z.testbit x i = Z.testbit y i) (seqZ 0 32) -> x = y.
Proof.
  intros [_ Hx]%word_bits [_ Hy]%word_bits Hb; [|lia..]. apply Z.bits_inj'. intros i Hi.
  destruct (Z.ltb_spec i 32); [|by rewrite Hx, Hy].
  rewrite Forall_forall in Hb. apply Hb, elem_of_seqZ. lia.
Qed.

(** The bits, at literal positions, of an expression of shifts by literals. *)
Ltac bit_at v p :=
  lazymatch eval vm_compute in (p <? 0) with
  | true => rewrite (Z.testbit_neg_r v p) by reflexivity
  | false =>
      match v with
      | Z.lor ?x ?y => rewrite (Z.lor_spec x y p)
      | Z.land ?x ?y => rewrite (Z.land_spec x y p)
      | Z.shiftl ?x ?n => rewrite (Z.shiftl_spec x n p) by (intros [=])
      | Z.shiftr ?x ?n => rewrite (Z.shiftr_spec x n p) by (intros [=])
      | ?x mod 2 ^ ?n => rewrite (Z.mod_pow2_bits_low x n p) by reflexivity
      | _ =>
          match goal with H : forall i, _ <= i -> Z.testbit v i = false |- _ => rewrite (H p) by (intros [=]) end
      | _ =>
          lazymatch eval vm_compute in (Z.testbit v p) with
          | true => change (Z.testbit v p) with true
          | false => change (Z.testbit v p) with false
          end
      end
  end.
Ltac bit_eval :=
  repeat match goal with |- context [Z.testbit ?v ?p] => bit_at v p end.

(** Swapping the four bytes of a word. *)
Lemma bswap_32_ok a b c d : Forall (word 8) [a; b; c; d] ->
  bswap_32 (le_word [a; b; c; d]) = le_word [d; c; b; a].
Proof.
  intros H. apply word32_ext; [apply bswap_32_range|apply (le_word_range 4); [done|]; rewrite !Forall_cons in *; tauto|].
  rewrite !Forall_cons in H. destruct H as (Ha & Hb & Hc & Hd & _).
  apply word_bits in Ha as [_ Ha], Hb as [_ Hb], Hc as [_ Hc], Hd as [_ Hd]; [|lia..].
  unfold bswap_32, rotr32, ror32, u32. change 4294967296 with (2 ^ 32). cbn [le_word].
  set (s := seqZ 0 32). vm_compute in s. subst s.
  repeat apply Forall_cons_2; [..|constructor]; bit_eval.
  all: rewrite ?andb_true_r, ?andb_false_r, ?orb_false_r; reflexivity.
Qed.

Lemma bsw_32_app n k a r :
  length a = (4 * n)%nat -> Forall (word 8) a -> length r = k ->
  bsw_32 (bytes_words n a ++ r) n = be_words n a ++ r.
Proof.
  intros Ha Hb Hr. unfold bsw_32.
  destruct (bytes_words_arr n a Ha Hb) as [Hl _].
  rewrite take_app_length', drop_app_length' by done. f_equal. clear r Hr Hl.
  revert a Ha Hb. induction n as [|n IH]; intros bs Hl Hb; [done|].
  destruct (take4 n bs Hl Hb) as (a & b & c & d & r & -> & H4 & Hr & Hrb).
  cbn [bytes_words be_words firstn skipn fmap list_fmap]. rewrite !take_0, !drop_0, bswap_32_ok by done.
  f_equal. by apply IH.
Qed.

Lemma bsw_32_block bs : length bs = 64%nat -> Forall (word 8) bs -> bsw_32 (bytes_words 16 bs) 16 = be_words 16 bs.
Proof. intros Hl Hb. rewrite <- (app_nil_r (bytes_words _ _)), (bsw_32_app 16 0) by done. apply app_nil_r. Qed.

Lemma be_words_arr n bs : length bs = (4 * n)%nat -> Forall (word 8) bs -> arr 32 n (be_words n bs).
Proof.
  revert bs. induction n as [|n IH]; intros bs Hl Hb; [split; [done|constructor]|].
  destruct (take4 n bs Hl Hb) as (a & b & c & d & r & -> & H4 & Hr & Hrb).
  cbn [be_words firstn skipn]. rewrite take_0, drop_0.
  destruct (IH r Hr Hrb) as [Hl' Hw']. split; [simpl; by rewrite Hl'|]. constructor; [|done].
  apply (le_word_range 4); [done|]. simpl. rewrite !Forall_cons in *. tauto.
Qed.

(** ** Absorbing a message *)

#[local] Opaque sha1_compile fips_words.

Lemma fips_words_length h w : length h = 5%nat -> length (fips_words h w) = 5%nat.
Proof. intros Hh. with_strategy transparent [fips_words] unfold fips_words. rewrite length_zip_with, Hh. done. Qed.

Lemma absorb_length h m : length h = 5%nat -> length (md_absorb fips_block h m) = 5%nat.
Proof.
  unfold md_absorb. generalize (length m / 64)%nat as n. intros n. revert h m.
  induction n as [|n IH]; intros h m Hh; [done|]. simpl. by apply IH, fips_words_length.
Qed.

(** The buffer holds the bytes [t] at its start. *)
Definition holds (w t : list Z) : Prop :=
  arr 32 16 w /\ (length t < 64)%nat /\ Forall (word 8) t /\ take (length t) (word_bytes w) = t.

Lemma copy_in_ok w t (d : list Z) :
  holds w t -> (length t + length d <= 64)%nat -> Forall (word 8) d ->
  exists bs, copy_in w (Z.of_nat (length t)) d = Some (bytes_words 16 bs) /\
    length bs = 64%nat /\ Forall (word 8) bs /\ take (length t + length d) bs = t ++ d.
Proof.
  intros ([Hw _] & Ht & Htb & Hh) Hl Hd.
  destruct (pending_blit (word_bytes w) t d (length d)) as (bs & Hb & Hbl & Hbt);
    [by rewrite word_bytes_length, Hw|done..|].
  rewrite (take_ge d) in Hb, Hbt by lia. exists bs. unfold copy_in. rewrite Hb. split; [done|]. split; [done|].
  split; [|done]. revert Hb. unfold blit. destruct (_ && _); [|done]. intros [= <-].
  pose proof (word_bytes_bytes w). repeat (apply Forall_app; split); auto using Forall_take, Forall_drop.
Qed.

Lemma bytes_words_holds bs t :
  length bs = 64%nat -> Forall (word 8) bs -> (length t < 64)%nat -> take (length t) bs = t ->
  holds (bytes_words 16 bs) t.
Proof.
  intros Hl Hb Ht Hh. split; [by apply bytes_words_arr|]. split; [done|]. split.
  - rewrite <- Hh. by apply Forall_take.
  - by rewrite word_bytes_words.
Qed.

Lemma holds_nil w : arr 32 16 w -> holds w [].
Proof. intros Hw. split; [done|]. split; [simpl; lia|]. split; [constructor|done]. Qed.

(** One whole block: the buffer is completed, swapped and compiled. *)
Lemma block_ok ctx t d :
  length (hash ctx) = 5%nat -> holds (wbuf ctx) t -> (length t + length d = 64)%nat -> Forall (word 8) d ->
  exists w w', copy_in (wbuf ctx) (Z.of_nat (length t)) d = Some w /\ arr 32 16 w' /\
    sha1_compile (with_wbuf ctx (bsw_32 w 16))
    = Ctx (count0 ctx) (count1 ctx) (fips_block (hash ctx) (t ++ d)) w'.
Proof.
  intros Hh Hw Hl Hd. destruct (copy_in_ok _ _ d Hw ltac:(lia) Hd) as (bs & Hc & Hbl & Hb & Hbt).
  rewrite take_ge in Hbt by lia. subst bs.
  destruct (cycles_ok (hash ctx) (be_words 16 (t ++ d))) as (w' & Hw' & E); [done|by apply be_words_arr|].
  exists (bytes_words 16 (t ++ d)), w'. split; [done|]. split; [done|].
  rewrite bsw_32_block by done. apply E.
Qed.

Lemma sha1_blocks_ok fuel ctx data (sp len : nat) t :
  length (hash ctx) = 5%nat -> holds (wbuf ctx) t -> Forall (word 8) data ->
  (sp + len <= length data)%nat -> (len <= fuel)%nat ->
  let m := t ++ take len (drop sp data) in
  exists ctx' t' (sp' len' : nat),
    sha1_blocks fuel ctx data (Z.of_nat sp) (Z.of_nat len) (Z.of_nat (length t)) (64 - Z.of_nat (length t))
    = Some (ctx', Z.of_nat sp', Z.of_nat len', Z.of_nat (length t')) /\
    count0 ctx' = count0 ctx /\ count1 ctx' = count1 ctx /\
    hash ctx' = md_absorb fips_block (hash ctx) m /\ holds (wbuf ctx') t' /\
    (sp' + len' = sp + len)%nat /\ md_tail m = t' ++ take len' (drop sp' data).
Proof.
  revert ctx sp len t. induction fuel as [|fuel IH]; intros ctx sp len t Hh Hw Hd Hl Hf m.
  all: pose proof Hw as (_ & Ht64 & _).
  all: assert (Hlm : length m = (length t + len)%nat) by (subst m; rewrite length_app, length_take, length_drop; lia).
  - cbn [sha1_blocks]. destruct (Z.leb_spec (64 - Z.of_nat (length t)) (Z.of_nat len)); [lia|].
    exists ctx, t, sp, len. rewrite md_absorb_small, md_tail_small by lia. repeat (split; [done|]). done.
  - cbn [sha1_blocks]. destruct (Z.leb_spec (64 - Z.of_nat (length t)) (Z.of_nat len)) as [H64|H64].
    + set (k := (64 - length t)%nat). replace (64 - Z.of_nat (length t)) with (Z.of_nat k) by lia.
      rewrite sub_bytes_in by lia. set (d := take k (drop sp data)).
      assert (Hld : length d = k) by (subst d; rewrite length_take, length_drop; lia).
      destruct (block_ok ctx t d) as (w & w' & Hc & Hw' & E); [done..|lia|by apply Forall_take, Forall_drop|].
      cbn [mbind option_bind]. rewrite Hc. cbn [mbind option_bind]. rewrite E.
      rewrite <- Nat2Z.inj_add, <- Nat2Z.inj_sub by lia.
      assert (Hm : m = (t ++ d) ++ [] ++ take (len - k) (drop (sp + k) data)).
      { subst m d. rewrite <- app_assoc. f_equal. apply segment_split. lia. }
      rewrite Hm. rewrite md_absorb_block, md_tail_block by (rewrite length_app; lia).
      destruct (IH (Ctx (count0 ctx) (count1 ctx) (fips_block (hash ctx) (t ++ d)) w') (sp + k)%nat (len - k)%nat [])
        as (ctx' & t' & sp' & len' & Hr & H0 & H1 & Hhash & Hw2 & Hsp & Htl);
        [by apply fips_words_length|by apply holds_nil|done|lia|lia|].
      exists ctx', t', sp', len'. split; [exact Hr|]. split; [exact H0|]. split; [exact H1|].
      split; [exact Hhash|]. split; [exact Hw2|]. split; [lia|exact Htl].
    + exists ctx, t, sp, len. rewrite md_absorb_small, md_tail_small by lia.
      repeat (split; [done|]). done.
Qed.

(** ** The counter *)

Definition count_lo (n : Z) : Z := u32 n.
Definition count_hi (n : Z) : Z := u32 (n / 4294967296).

Lemma sha1_count_ok ctx n k :
  0 <= n -> 0 <= k < 2 ^ 32 -> count0 ctx = count_lo n -> count1 ctx = count_hi n ->
  sha1_count ctx k = Ctx (count_lo (n + k)) (count_hi (n + k)) (hash ctx) (wbuf ctx).
Proof.
  intros Hn Hk H0 H1. unfold sha1_count. rewrite H0, H1. unfold count_lo, count_hi, u32.
  rewrite !Zplus_mod_idemp_l. f_equal. change (2 ^ 32) with 4294967296 in Hk.
  set (q := n / 4294967296). set (r := n mod 4294967296).
  assert (En : n = 4294967296 * q + r) by (apply Z.div_mod; lia).
  assert (Hr : 0 <= r < 4294967296) by (apply Z.mod_pos_bound; lia). clearbody q r.
  destruct (Z.ltb_spec ((n + k) mod 4294967296) k) as [Hlt|Hge].
  - f_equal. apply (Z.div_unique _ _ _ (r + k - 4294967296)); [|lia].
    destruct (Z.ltb_spec (r + k) 4294967296); [|lia].
    rewrite <- (Z.mod_unique (n + k) 4294967296 q (r + k)) in Hlt by lia. lia.
  - f_equal. apply (Z.div_unique _ _ _ (r + k)); [|lia].
    destruct (Z.ltb_spec (r + k) 4294967296); [lia|].
    rewrite <- (Z.mod_unique (n + k) 4294967296 (q + 1) (r + k - 4294967296)) in Hge by lia. lia.
Qed.

(** A single piece of 2^32 bytes or more: the count loses all but one carry. *)
Lemma sha1_count_large ctx : count0 ctx = 0 -> count1 ctx = 0 -> count1 (sha1_count ctx (2 ^ 33)) = 1.
Proof. intros H0 H1. unfold sha1_count. by rewrite H0, H1. Qed.

Lemma count_pos n : Z.land (count_lo n) SHA1_MASK = n mod 64.
Proof.
  unfold SHA1_MASK, count_lo, u32. change 63 with (Z.ones 6). rewrite Z.land_ones by lia.
  change (2 ^ 6) with 64. Z.div_mod_to_equations. lia.
Qed.

(** The context has absorbed [m]. *)
Definition sha1_repr (ctx : sha1_context) (m : list Z) : Prop :=
  count0 ctx = count_lo (Z.of_nat (length m)) /\ count1 ctx = count_hi (Z.of_nat (length m)) /\
  hash ctx = md_absorb fips_block SHA1_IV m /\ holds (wbuf ctx) (md_tail m).

Lemma sha1_init_ok : sha1_repr ih_init [].
Proof.
  split; [done|]. split; [done|]. split; [done|]. apply holds_nil, arr_replicate. unfold word. lia.
Qed.

(** The pieces: bytes, fewer than 2^32 of them. *)
Definition sha1_piece (d : list Z) : Prop := Forall (word 8) d /\ Z.of_nat (length d) < 2 ^ 32.

Lemma sha1_hash_ok ctx m d : sha1_repr ctx m -> sha1_piece d ->
  exists ctx', sha1_hash ctx d (Z.of_nat (length d)) = Some ctx' /\ sha1_repr ctx' (m ++ d).
Proof.
  intros (H0 & H1 & Hh & Hw) [Hd Hl]. unfold sha1_hash.
  assert (Hpos : Z.land (count0 ctx) SHA1_MASK = Z.of_nat (length (md_tail m))).
  { by rewrite H0, count_pos, md_tail_length, <- (Nat2Z.inj_mod _ 64). }
  rewrite Hpos, (sha1_count_ok _ (Z.of_nat (length m))) by (lia || done).
  assert (Hlh : length (hash ctx) = 5%nat) by (rewrite Hh; by apply absorb_length).
  destruct (sha1_blocks_ok (length d)
    (Ctx (count_lo (Z.of_nat (length m) + Z.of_nat (length d))) (count_hi (Z.of_nat (length m) + Z.of_nat (length d)))
      (hash ctx) (wbuf ctx)) d 0 (length d) (md_tail m))
    as (c & t & sp & len & Hr & E0 & E1 & Eh & Hwc & Hsp & Ht); [done..|lia|lia|].
  rewrite Nat2Z.id. unfold SHA1_BLOCK_SIZE. change (Z.of_nat 0) with 0 in Hr. rewrite Hr.
  cbn [mbind option_bind].
  change (drop 0 d) with d in Eh, Ht. rewrite take_ge in Eh, Ht by lia. rewrite <- md_tail_app in Ht.
  rewrite sub_bytes_in by lia. cbn [mbind option_bind]. set (e := take len (drop sp d)) in *.
  pose proof (md_tail_lt (m ++ d)) as Hlt. rewrite Ht, length_app in Hlt.
  destruct (copy_in_ok (wbuf c) t e) as (bs & Hc & Hbl & Hb & Hbt);
    [done|lia|by apply Forall_take, Forall_drop|].
  rewrite Hc. cbn [mbind option_bind]. eexists. split; [done|].
  unfold sha1_repr. cbn [with_wbuf count0 count1 hash wbuf].
  rewrite E0, E1, Eh, length_app, Nat2Z.inj_add, (md_absorb_app _ _ m d), <- Hh, Ht.
  split; [done|]. split; [done|]. split; [done|].
  apply bytes_words_holds; [done..|rewrite length_app; lia|by rewrite length_app].
Qed.

(** ** Padding *)

Lemma bytes_words_word_bytes n w : arr 32 n w -> bytes_words n (word_bytes w) = w.
Proof.
  intros [Hl Hw]. revert n Hl. induction Hw as [|x w Hx _ IH]; intros n Hl; destruct n; try discriminate Hl; [done|].
  rewrite word_bytes_cons. cbn [bytes_words].
  rewrite take_app_length', drop_app_length' by (by rewrite le_bytes_length).
  rewrite le_word_bytes, IH by (simpl in Hl; lia). f_equal. by apply (u32_id x).
Qed.

Lemma bytes_words_app n k a b :
  length a = (4 * n)%nat -> bytes_words (n + k) (a ++ b) = bytes_words n a ++ bytes_words k b.
Proof.
  revert a. induction n as [|n IH]; intros a Ha; [by destruct a|].
  destruct a as [|a0 [|a1 [|a2 [|a3 r]]]]; simpl in Ha; try lia.
  cbn [bytes_words Nat.add app firstn skipn]. rewrite !drop_0, IH by lia. done.
Qed.

(** The top bytes of a word. *)
Lemma be_top (x y : list Z) : Forall (word 8) (x ++ y) ->
  Z.shiftr (le_word (rev (x ++ y))) (8 * Z.of_nat (length y)) = le_word (rev x).
Proof.
  rewrite Forall_app. intros [Hx Hy]. rewrite rev_app_distr.
  rewrite le_word_app by (by apply Forall_rev). rewrite length_rev.
  pose proof (le_word_range (length y) (rev y) (length_rev y) ltac:(by apply Forall_rev)) as Hr. unfold word in Hr.
  rewrite Z.shiftr_div_pow2 by lia. rewrite <- (Z.pow_mul_r 2 8) in * by lia.
  change (2 ^ 8) with 256 in *. symmetry. apply (Z.div_unique _ _ _ (le_word (rev y))); lia.
Qed.

(** After [bsw_32], the words the message fills, the word where it ends, of
    which it has the top bytes, and the rest. *)
Lemma bsw_tail w t (q j : nat) :
  holds w t -> length t = (4 * q + j)%nat -> (j < 4)%nat ->
  exists v rest, bsw_32 w ((length t + 3) / 4) = be_words q (take (4 * q) t) ++ v :: rest /\
    length rest = (15 - q)%nat /\ word 32 v /\ Forall (word 32) rest /\
    Z.shiftr v (8 * (4 - Z.of_nat j)) = le_word (rev (drop (4 * q) t)).
Proof.
  intros (Hw & Ht & Htb & Hh) Hl Hj. destruct Hw as [Hwl Hww].
  rewrite <- (bytes_words_word_bytes 16 w) by done.
  pose proof (word_bytes_bytes w) as Hb. pose proof (word_bytes_length w) as Hbl. rewrite Hwl in Hbl.
  set (bs := word_bytes w) in *. clearbody bs.
  set (t1 := take (4 * q) t). set (t2 := drop (4 * q) t).
  assert (E : bs = t1 ++ t2 ++ drop (length t) bs).
  { rewrite app_assoc. unfold t1, t2. by rewrite take_drop, <- Hh at 1; rewrite take_drop. }
  assert (Ht1 : length t1 = (4 * q)%nat) by (unfold t1; rewrite length_take; lia).
  assert (Ht2 : length t2 = j) by (unfold t2; rewrite length_drop; lia).
  set (u := drop (length t) bs) in *.
  assert (Hu : length u = (64 - length t)%nat) by (unfold u; rewrite length_drop; lia).
  clearbody t1 t2 u. subst bs. clear Hh Htb Hwl Hww w Hbl. rewrite !Forall_app in Hb. destruct Hb as (Hb1 & Hb2 & Hbu).
  replace ((length t + 3) / 4)%nat with (if decide (j = 0)%nat then q else q + 1)%nat
    by (case_decide; [apply (Nat.div_unique _ 4 q 3)|apply (Nat.div_unique _ 4 (q + 1) (j - 1))]; lia).
  case_decide as Hj0.
  - assert (t2 = []) as -> by (apply nil_length_inv; lia). simpl app.
    replace 16%nat with (q + (16 - q))%nat by lia. 
    rewrite bytes_words_app, bsw_32_app with (k := (16 - q)%nat) by (done || apply bytes_words_arr; (done || lia)).
    destruct (bytes_words_arr (16 - q) u) as [Hl' Hw']; [lia|done|].
    destruct (bytes_words (16 - q) u) as [|v rest]; simpl in Hl'; [lia|].
    exists v, rest. split; [done|]. split; [lia|]. apply Forall_cons in Hw' as [Hv Hrw]. do 2 (split; [done|]).
    rewrite Hj0, Z.shiftr_div_pow2 by lia. by apply Z.div_small.
  - set (y := take (4 - j) u). rewrite <- (take_drop (4 - j) u). fold y.
    assert (Hy : length y = (4 - j)%nat) by (unfold y; rewrite length_take; lia).
    assert (Hyb : Forall (word 8) y) by (by apply Forall_take).
    rewrite (app_assoc t2), (app_assoc t1).
    replace 16%nat with ((q + 1) + (15 - q))%nat by lia.
    assert (Hx : length (t2 ++ y) = 4%nat) by (rewrite length_app; lia).
    rewrite bytes_words_app, bsw_32_app with (k := (15 - q)%nat).
    + rewrite be_words_app by done. rewrite <- app_assoc.
      eexists _, _. split; [cbn [be_words app]; done|]. split; [|split; [|split]].
      * apply bytes_words_arr; [rewrite length_drop; lia|by apply Forall_drop].
      * rewrite take_ge by lia. apply (le_word_range 4); [by rewrite length_rev|]. apply Forall_rev. by apply Forall_app.
      * apply bytes_words_arr; [rewrite length_drop; lia|by apply Forall_drop].
      * rewrite take_ge by lia. replace (4 - Z.of_nat j) with (Z.of_nat (length y)) by lia. apply be_top. by apply Forall_app.
    + rewrite length_app. lia.
    + by repeat (apply Forall_app; split).
    + apply bytes_words_arr; [rewrite length_drop; lia|by apply Forall_drop].
    + rewrite length_app. lia.
Qed.

Lemma byte_shift_ok (q j : nat) : (j < 4)%nat -> byte_shift (Z.of_nat (4 * q + j)) = 8 * (3 - Z.of_nat j).
Proof.
  intros Hj. unfold byte_shift. f_equal. change 3 with (Z.ones 2) at 1. rewrite Z.land_ones by lia.
  change (2 ^ 2) with 4. unfold Z.lnot. symmetry. apply (Z.mod_unique _ _ (- Z.of_nat q - 1)); lia.
Qed.

Lemma word_index (q j : nat) : (j < 4)%nat -> Z.shiftr (Z.of_nat (4 * q + j)) 2 = Z.of_nat q.
Proof.
  intros Hj. rewrite Z.shiftr_div_pow2 by lia. symmetry. apply (Z.div_unique _ _ _ (Z.of_nat j)); lia.
Qed.

(** Masking the word where the message ends, and adding the 1 bit. *)
Lemma pad_bits v (j : nat) : word 32 v -> (j < 4)%nat ->
  let s := 8 * (3 - Z.of_nat j) in
  Z.lor (Z.land v (u32 (Z.shiftl 0xffffff80 s))) (u32 (Z.shiftl 0x00000080 s))
  = Z.shiftl (Z.lor 128 (Z.shiftl (Z.shiftr v (s + 8)) 8)) s.
Proof.
  intros Hv Hj s. apply word32_ext.
  - apply word_lor; [lia|by apply word_land_l|apply u32_range].
  - unfold word in *. rewrite lor_shiftl_add by (unfold word; lia).
    rewrite Z.shiftl_mul_pow2, Z.shiftr_div_pow2, Z.pow_add_r by lia.
    assert (0 < 2 ^ s) by (apply Z.pow_pos_nonneg; lia).
    assert (2 ^ s * (2 ^ 8 * 2 ^ (24 - s)) = 2 ^ 32) by (rewrite <- !Z.pow_add_r by lia; f_equal; lia).
    assert (0 < 2 ^ (24 - s)) by (apply Z.pow_pos_nonneg; lia).
    change (2 ^ 8) with 256 in *.
    assert (0 <= v / (2 ^ s * 256) < 2 ^ (24 - s)); [|nia].
    split; [apply Z.div_pos; nia|]. apply Z.div_lt_upper_bound; nia.
  - apply word_bits in Hv as [_ Hv]; [|lia].
    destruct j as [|[|[|[|?]]]]; [..|lia]; vm_compute in s; subst s;
      set (l := seqZ 0 32); vm_compute in l; subst l; (repeat apply Forall_cons_2; [..|constructor]).
    all: bit_eval; rewrite ?andb_true_r, ?andb_false_r, ?orb_false_r, ?orb_true_r.
  all: reflexivity.
Qed.

(** The word where the message ends, in a padded message. *)
Lemma pad_word_ok w t (q j : nat) :
  holds w t -> length t = (4 * q + j)%nat -> (j < 4)%nat ->
  exists rest, length rest = (15 - q)%nat /\ Forall (word 32) rest /\
    pad_word (Z.of_nat (length t)) (bsw_32 w ((length t + 3) / 4))
    = Some (be_words (q + 1) (t ++ 128 :: replicate (3 - j) 0) ++ rest).
Proof.
  intros Hw Hl Hj. destruct (bsw_tail w t q j Hw Hl Hj) as (v & rest & E & Hr & Hv & Hrw & Htop).
  exists rest. split; [done|]. split; [done|]. rewrite E, Hl.
  pose proof (rd_mid (be_words q (take (4 * q) t)) rest) as Hrd.
  pose proof (wr_mid (be_words q (take (4 * q) t)) rest) as Hwr. rewrite be_words_length in Hrd, Hwr.
  unfold pad_word. rewrite word_index, byte_shift_ok by done.
  rewrite Hrd. cbn [mbind option_bind]. rewrite Hwr. cbn [mbind option_bind].
  rewrite Hrd. cbn [mbind option_bind]. rewrite Hwr, pad_bits by done. f_equal.
  rewrite <- (take_drop (4 * q) t) at 2. rewrite <- app_assoc, be_words_app by (rewrite length_take; lia).
  rewrite <- app_assoc. f_equal. cbn [be_words app]. f_equal.
  replace (8 * (3 - Z.of_nat j) + 8) with (8 * (4 - Z.of_nat j)) by lia. rewrite Htop.
  set (t2 := drop (4 * q) t). assert (Ht2 : length t2 = j) by (unfold t2; rewrite length_drop; lia).
  rewrite take_ge by (rewrite length_app; simpl; rewrite length_replicate; lia).
  clearbody t2. destruct j as [|[|[|[|?]]]]; [..|lia];
    repeat (destruct t2 as [|? t2]; simpl in Ht2; try lia); reflexivity.
Qed.

(** The last two words of the last block. *)
Definition length_words (n : Z) : list Z :=
  [Z.lor (u32 (Z.shiftl (count_hi n) 3)) (Z.shiftr (count_lo n) 29); u32 (Z.shiftl (count_lo n) 3)].

Lemma length_words_ok n : be_words 2 (rev (le_bytes 8 (n * 8))) = length_words n.
Proof.
  rewrite (le_bytes_app 4 4), rev_app_distr.
  rewrite (be_words_app 1 1) by (by rewrite length_rev, le_bytes_length).
  cbn [be_words app]. rewrite !take_ge by (by rewrite length_rev, le_bytes_length).
  rewrite !rev_involutive, !le_word_bytes. unfold length_words, count_lo, count_hi, u32.
  rewrite Z.lor_comm, !Z.shiftl_mul_pow2, !Z.shiftr_div_pow2 by lia.
  change (2 ^ (8 * Z.of_nat 4)) with 4294967296. change (2 ^ 29) with 536870912. change (2 ^ 3) with 8.
  f_equal; [|f_equal; by rewrite Z.mul_mod_idemp_l].
  assert (E : (n / 4294967296 mod 4294967296 * 8) mod 4294967296
    = Z.shiftl ((n / 4294967296) mod 536870912) 3).
  { rewrite Z.shiftl_mul_pow2 by lia. change (2 ^ 3) with 8. clear. Z.div_mod_to_equations. lia. }
  rewrite E, lor_shiftl_add; [|lia|unfold word; change (2 ^ 3) with 8; clear; Z.div_mod_to_equations; lia].
  change (2 ^ (8 * Z.of_nat 4)) with 4294967296. change (2 ^ 3) with 8.
  clear. Z.div_mod_to_equations. lia.
Qed.

Lemma be_words_zeros k : be_words k (replicate (4 * k) 0) = replicate k 0.
Proof.
  induction k as [|k IH]; [done|]. replace (4 * S k)%nat with (S (S (S (S (4 * k))))) by lia.
  cbn [replicate be_words firstn skipn]. rewrite drop_0, IH. done.
Qed.

(** The end of a block: zeros, then the length. *)
Definition closing (k : nat) (n : Z) : list Z := replicate (4 * (14 - k)) 0 ++ rev (le_bytes 8 (n * 8)).

Lemma closing_length k n : (k <= 14)%nat -> length (closing k n) = (4 * (16 - k))%nat.
Proof. intros Hk. unfold closing. rewrite length_app, length_rev, le_bytes_length, length_replicate. lia. Qed.

Lemma closing_bytes k n : Forall (word 8) (closing k n).
Proof.
  apply Forall_app. split; [apply Forall_replicate; unfold word; lia|]. apply Forall_rev, le_bytes_word.
Qed.

Lemma close_ok w k a b n : (k <= 14)%nat -> w = be_words k a ++ b -> length w = 16%nat -> length a = (4 * k)%nat ->
  (w ← zero_words (Z.of_nat k) w;
   w ← wr w 14 (Z.lor (u32 (Z.shiftl (count_hi n) 3)) (Z.shiftr (count_lo n) 29));
   wr w 15 (u32 (Z.shiftl (count_lo n) 3))) = Some (be_words 16 (a ++ closing k n)).
Proof.
  intros Hk -> Hl Ha. pose proof (be_words_length k a) as Hka. rewrite length_app, Hka in Hl.
  unfold zero_words. replace (Z.to_nat (14 - Z.of_nat k)) with (14 - k)%nat by lia.
  pose proof (zero_loop (14 - k) (be_words k a) b ltac:(lia)) as E. rewrite Hka in E. rewrite E. clear E.
  cbn [mbind option_bind]. unfold closing.
  replace (be_words 16 _) with (be_words (k + ((14 - k) + 2)) (a ++ replicate (4 * (14 - k)) 0 ++ rev (le_bytes 8 (n * 8))))
    by (f_equal; lia).
  rewrite be_words_app, be_words_app, be_words_zeros, length_words_ok by (done || by rewrite length_replicate).
  rewrite app_assoc. set (c := be_words k a ++ _).
  assert (Hc : length c = 14%nat) by (unfold c; rewrite length_app, length_replicate; lia).
  assert (Hd : length (drop (14 - k) b) = 2%nat) by (rewrite length_drop; lia).
  destruct (drop (14 - k) b) as [|x [|y [|? ?]]]; try discriminate Hd.
  change 14 with (Z.of_nat 14). rewrite <- Hc, wr_mid. cbn [mbind option_bind].
  set (x' := Z.lor _ _). change (c ++ x' :: [y]) with (c ++ [x'] ++ [y]). rewrite (app_assoc c).
  replace 15 with (Z.of_nat (length (c ++ [x']))) by (rewrite length_app, Hc; done).
  rewrite wr_mid, <- app_assoc, Hc. unfold c. by rewrite <- app_assoc.
Qed.

Lemma digest_ok h : length h = 5%nat ->
  (fun i : Z => u8 (Z.shiftr (nth (Z.to_nat (Z.shiftr i 2)) h 0) (byte_shift i))) <$> seqZ 0 20
  = concat (be_bytes <$> h).
Proof.
  intros Hh. destruct h as [|h0 [|h1 [|h2 [|h3 [|h4 [|? ?]]]]]]; try discriminate Hh.
  unfold be_bytes. cbn [fmap list_fmap]. rewrite !le_bytes4. set (l := seqZ 0 20). vm_compute in l. subst l.
  cbn [fmap list_fmap concat rev app]. cbn -[u8]. by rewrite ?Z.shiftr_0_r.
Qed.

(** What the last block leaves: its words compiled, and written out. *)
Lemma finish_ok (ctx : sha1_context) h k a b n :
  count0 ctx = count_lo n -> count1 ctx = count_hi n -> hash ctx = h -> length h = 5%nat ->
  (k <= 14)%nat -> arr 32 16 (wbuf ctx) -> wbuf ctx = be_words k a ++ b -> length a = (4 * k)%nat -> Forall (word 8) a ->
  sha1_last ctx (Z.of_nat k)
  = Some (concat (be_bytes <$> fips_block h (a ++ closing k n))).
Proof.
  intros H0 H1 Hh Hlh Hk [Hw _] Hab Ha Hb. pose proof (close_ok (wbuf ctx) k a b n Hk Hab Hw Ha) as E.
  unfold sha1_last. rewrite H0, H1. destruct (zero_words _ _) as [w1|]; [|discriminate E]. cbn [mbind option_bind] in *.
  destruct (wr w1 14 _) as [w2|]; [|discriminate E]. cbn [mbind option_bind] in *. rewrite E.
  cbn [mbind option_bind]. unfold with_wbuf. rewrite Hh.
  destruct (cycles_ok h (be_words 16 (a ++ closing k n))) as (w' & _ & Ec); [done| |].
  - apply be_words_arr; [|apply Forall_app; split; [done|apply closing_bytes]].
    rewrite length_app, closing_length by done. lia.
  - rewrite Ec. cbn [hash]. f_equal. by apply digest_ok, fips_words_length.
Qed.

(** The tail of a padded message: one block, or two. *)
Lemma sha_pad_tail m :
  let t := md_tail m in let n := Z.of_nat (length m) in
  md_absorb fips_block SHA1_IV (sha_pad m)
  = md_absorb fips_block (md_absorb fips_block SHA1_IV m)
      (t ++ 128 :: replicate ((if decide (length t < 56)%nat then 55 else 119) - length t) 0 ++ rev (le_bytes 8 (n * 8))).
Proof.
  intros t n. unfold sha_pad. rewrite md_absorb_app. fold t n. do 5 f_equal.
  pose proof (md_pad_zeros m) as H. fold t n in H. case_decide; lia.
Qed.

Lemma pad_join (t l : list Z) x y z : z = (x + y)%nat ->
  (t ++ 128 :: replicate x 0) ++ replicate y 0 ++ l = t ++ 128 :: replicate z 0 ++ l.
Proof. intros ->. by rewrite replicate_add, <- !app_assoc. Qed.

(** The last word of a full block, when the message leaves it empty. *)
Lemma fill_block q a (rest : list Z) i :
  length a = (4 * (q + 1))%nat -> length rest = (15 - q)%nat -> (14 <= q <= 15)%nat ->
  4 * Z.of_nat q <= i < 4 * Z.of_nat q + 4 ->
  (if i <? 60 then wr (be_words (q + 1) a ++ rest) 15 0 else Some (be_words (q + 1) a ++ rest))
  = Some (be_words 16 (a ++ replicate (4 * (15 - q)) 0)).
Proof.
  intros Ha Hr Hq Hi. pose proof (be_words_length (q + 1) a) as Hl.
  replace (be_words 16 _) with (be_words ((q + 1) + (15 - q)) (a ++ replicate (4 * (15 - q)) 0)) by (f_equal; lia).
  rewrite be_words_app, be_words_zeros by done. destruct (Z.ltb_spec i 60).
  - assert (q = 14%nat) as -> by lia. destruct rest as [|x [|? ?]]; try discriminate Hr.
    change 15 with (Z.of_nat (14 + 1)). rewrite <- Hl at 2. by rewrite wr_mid.
  - assert (q = 15%nat) as -> by lia. by destruct rest.
Qed.

Lemma words_used (n : nat) : Z.to_nat (Z.shiftr (Z.of_nat n + 3) 2) = ((n + 3) / 4)%nat.
Proof.
  rewrite Z.shiftr_div_pow2 by lia. change (2 ^ 2) with (Z.of_nat 4). change 3 with (Z.of_nat 3).
  by rewrite <- Nat2Z.inj_add, <- Nat2Z.inj_div, Nat2Z.id.
Qed.

Lemma sha1_end_ok ctx m : sha1_repr ctx m -> sha1_end ctx = Some (sha1_spec m).
Proof.
  intros (H0 & H1 & Hh & Hw). unfold sha1_end.
  set (t := md_tail m) in *. pose proof Hw as ([Hwl _] & Ht & Htb & _).
  assert (Hlm : Z.of_nat (length m) mod 64 = Z.of_nat (length t)).
  { by rewrite <- (Nat2Z.inj_mod _ 64), <- md_tail_length. }
  rewrite H0, count_pos, Hlm. set (n := Z.of_nat (length m)) in *.
  assert (Hl5 : length (hash ctx) = 5%nat) by (rewrite Hh; by apply absorb_length).
  set (q := (length t / 4)%nat). set (j := (length t mod 4)%nat).
  assert (Hl : length t = (4 * q + j)%nat) by apply Nat.div_mod_eq.
  assert (Hj : (j < 4)%nat) by (apply Nat.mod_upper_bound; lia).
  rewrite words_used. cbn [with_wbuf wbuf].
  destruct (pad_word_ok _ t q j Hw Hl Hj) as (rest & Hr & Hrw & ->). cbn [mbind option_bind].
  set (a := t ++ 128 :: replicate (3 - j) 0).
  assert (Hla : length a = (4 * (q + 1))%nat) by (unfold a; rewrite length_app; simpl; rewrite length_replicate; lia).
  assert (Hba : Forall (word 8) a).
  { unfold a. apply Forall_app. split; [done|]. constructor; [unfold word; lia|]. apply Forall_replicate. unfold word. lia. }
  assert (Harr : arr 32 16 (be_words (q + 1) a ++ rest)).
  { destruct (be_words_arr (q + 1) a Hla Hba) as [Hl' Hw']. split; [rewrite length_app; lia|by apply Forall_app]. }
  destruct (Z.ltb_spec (SHA1_BLOCK_SIZE - 9) (Z.of_nat (length t))) as [Hlt|Hge]; unfold SHA1_BLOCK_SIZE in *.
  - pose proof (fill_block q a rest (Z.of_nat (length t)) Hla Hr ltac:(lia) ltac:(lia)) as Hfull.
    rewrite Hfull. cbn [mbind option_bind]. unfold with_wbuf. cbn [count0 count1 hash wbuf].
    set (b := a ++ replicate _ 0).
    assert (Hlb : length b = 64%nat) by (unfold b; rewrite length_app, length_replicate; lia).
    assert (Hbb : Forall (word 8) b) by (apply Forall_app; split; [done|]; apply Forall_replicate; unfold word; lia).
    destruct (cycles_ok (hash ctx) (be_words 16 b)) as (w' & Hw' & ->); [done|by apply be_words_arr|].
    cbn [mbind option_bind wbuf count0 count1].
    rewrite (finish_ok _ (fips_block (hash ctx) b) 0 [] w' n); [|done..|by apply fips_words_length|lia|done|done|done|constructor].
    unfold sha1_spec. do 3 f_equal. rewrite sha_pad_tail, <- Hh. fold t n. rewrite decide_False by lia.
    rewrite <- (md_absorb_one fips_block _ ([] ++ closing 0 n)) by (by rewrite length_app, closing_length by lia). rewrite <- (md_absorb_block fips_block _ b) by done. f_equal.
    unfold b, closing. rewrite <- app_assoc. cbn [app].
    rewrite (app_assoc (replicate _ 0)), <- replicate_add. apply pad_join. lia.
  - cbn [mbind option_bind]. rewrite Hl, word_index by done.
    replace (Z.of_nat q + 1) with (Z.of_nat (q + 1)) by lia.
    rewrite (finish_ok _ (hash ctx) (q + 1) a rest n); [|done..|lia|done|done|done|done].
    unfold sha1_spec. do 3 f_equal. rewrite <- (md_absorb_one fips_block), sha_pad_tail, <- Hh.
    + fold t n. rewrite decide_True by lia. f_equal. apply pad_join. lia.
    + rewrite length_app, closing_length by lia. lia.
Qed.

#[export] Instance Sha1Ok : IncrementalHashOk Sha1 sha1_spec sha1_piece := {
  ih_repr := sha1_repr;
  ih_init_ok := sha1_init_ok;
  ih_update_ok := sha1_hash_ok;
  ih_finish_ok := sha1_end_ok
}.

(** C29: the digest of a message of bytes fed in any pieces (of less than
    2^32 bytes) is the FIPS 180-1 digest of their concatenation: the byte
    swapping in place, the circular schedule, the renamed registers and the
    padding assembled in the word buffer compute the standard's function, and
    nothing is read or written outside the buffers. *)
Theorem sha1_pieces (ps : list (list Z)) :
  Forall sha1_piece ps -> ih_digest (Ctx := sha1_context) ps = Some (sha1_spec (concat ps)).
Proof. exact (ih_digest_ok ps). Qed.

Lemma sha1_pieces_witness :
  ih_digest (Ctx := sha1_context) [[97]; []; [98; 99]] = Some (sha1_spec [97; 98; 99]).
Proof.
  apply (sha1_pieces [[97]; []; [98; 99]]). unfold sha1_piece, word. repeat constructor; lia.
Defined.

(** The compression function, with its schedule kept in a window of
    sixteen words overwritten in place and its registers renamed instead of
    moved, is the one of FIPS 180-1 (eighty rounds on the schedule expanded to
    eighty words). *)
Theorem sha1_compile_fips (ctx : sha1_context) :
  length (hash ctx) = 5%nat -> arr 32 16 (wbuf ctx) ->
  hash (sha1_compile ctx) = fips_words (hash ctx) (wbuf ctx).
Proof.
  destruct ctx as [c0 c1 h w]. cbn [hash wbuf]. intros Hh Hw.
  destruct (cycles_ok h w Hh Hw) as (w' & _ & E). by rewrite E.
Qed.

Lemma sha1_compile_fips_witness :
  hash (sha1_compile (Ctx 0 0 SHA1_IV (replicate 16 7))) = fips_words SHA1_IV (replicate 16 7).
Proof.
  apply (sha1_compile_fips (Ctx 0 0 SHA1_IV (replicate 16 7))); [reflexivity|].
  apply arr_replicate. unfold word. lia.
Defined.

End Sha1.
