(* ===== verification/Os.v ===== *)
(** * The operating system under the hash entry points

    [os_lseek] and [os_read] of [src/src/config/unix/os_stubs_c.c].  The system
    calls [lseek] and [read] are parameters ([Syscalls]); what is relied on of
    them, for a file that nobody changes and a disk that does not fail, is
    [Readable]: a read returns the next bytes, at least one before the end of
    the file and possibly fewer than asked. *)

From Stdlib Require Import ZArith Lia.
From stdpp Require Import base option numbers list.
From S2P Require Import Prelude.

Local Open Scope Z_scope.

(** ** Results: a value, an OCaml exception, or undefined behaviour *)

Inductive io (A : Type) :=
| Ret (a : A)
| Unix_error
| Undefined.

Arguments Ret {A} a.
Arguments Unix_error {A}.
Arguments Undefined {A}.

#[export] Instance io_ret : MRet io := fun A a => Ret a.
#[export] Instance io_bind : MBind io := fun A B f m =>
  match m with Ret a => f a | Unix_error => Unix_error | Undefined => Undefined end.

Lemma bind_ret {A B} (a : A) (f : A -> io B) : (Ret a ≫= f) = f a.
Proof. done. Qed.

(** Memory accesses. *)
Definition mem {A} (m : option A) : io A :=
  match m with Some a => Ret a | None => Undefined end.

Lemma mem_some {A} (a : A) : mem (Some a) = Ret a.
Proof. done. Qed.

(** ** System calls *)

(** [F] is the state of an open file.  [None] is a negative result. *)
Class Syscalls (F : Type) := {
  lseek : F -> Z -> option F;
  read : F -> Z -> option (list Z * F)
}.

Definition os_lseek {F} `{!Syscalls F} (fd : F) (pos : Z) : io F :=
  match lseek fd pos with Some fd => Ret fd | None => Unix_error end.

Definition os_read {F} `{!Syscalls F} (fd : F) (len : Z) : io (list Z * F) :=
  match read fd len with Some r => Ret r | None => Unix_error end.

Lemma os_lseek_some {F} `{!Syscalls F} (fd fd' : F) pos : lseek fd pos = Some fd' -> os_lseek fd pos = Ret fd'.
Proof. intros E. unfold os_lseek. by rewrite E. Qed.

(** Offsets that [OFF_T] can hold; no file is longer. *)
Definition seekable (content : list Z) (p : nat) : Prop := (p <= length content)%nat \/ Z.of_nat p < 2 ^ 63.

(** [at_ fd p]: the offset of [fd] is [p], in a file of bytes [content]. *)
Class Readable {F} (S : Syscalls F) (content : list Z) := {
  at_ : F -> nat -> Prop;
  lseek_ok fd (q p : nat) : at_ fd q -> seekable content p -> exists fd', lseek fd (Z.of_nat p) = Some fd' /\ at_ fd' p;
  read_ok fd p (n : nat) :
    at_ fd p -> exists bs fd',
      read fd (Z.of_nat n) = Some (bs, fd') /\ at_ fd' (p + length bs) /\
      bs = take (length bs) (drop p content) /\ (length bs <= n)%nat /\
      ((0 < n)%nat -> (p < length content)%nat -> bs <> [])
}.

(** ** A file read at most [burst] bytes at a time *)

Record disk := Disk { d_content : list Z; d_pos : nat; d_burst : nat }.

#[export] Instance DiskCalls : Syscalls disk := {
  lseek d pos := if 0 <=? pos then Some (Disk (d_content d) (Z.to_nat pos) (d_burst d)) else None;
  read d n :=
    let bs := take (Nat.min (Z.to_nat n) (S (d_burst d))) (drop (d_pos d) (d_content d)) in
    Some (bs, Disk (d_content d) (d_pos d + length bs) (d_burst d))
}.

Definition disk_at (content : list Z) (d : disk) (p : nat) : Prop := d_content d = content /\ d_pos d = p.

Lemma disk_lseek_ok content d (q p : nat) :
  disk_at content d q -> seekable content p -> exists d', lseek d (Z.of_nat p) = Some d' /\ disk_at content d' p.
Proof.
  intros [Hc _] _. unfold lseek, DiskCalls. destruct (Z.leb_spec 0 (Z.of_nat p)); [|lia].
  eexists. split; [done|]. split; [done|]. apply Nat2Z.id.
Qed.

Lemma disk_read_ok content d (p n : nat) :
  disk_at content d p -> exists bs d',
    read d (Z.of_nat n) = Some (bs, d') /\ disk_at content d' (p + length bs) /\
    bs = take (length bs) (drop p content) /\ (length bs <= n)%nat /\
    ((0 < n)%nat -> (p < length content)%nat -> bs <> []).
Proof.
  intros [Hc Hp]. unfold read, DiskCalls. subst content p. rewrite Nat2Z.id. eexists _, _. split; [done|].
  split; [done|]. split; [|split].
  - rewrite length_take. set (l := drop _ _). set (k := Nat.min n _).
    destruct (Nat.le_gt_cases k (length l)); [by rewrite Nat.min_l by lia|].
    rewrite Nat.min_r, !take_ge by lia. done.
  - rewrite length_take. lia.
  - intros Hn Hlt E. apply (f_equal length) in E. rewrite length_take, length_drop in E. simpl in E. lia.
Qed.

#[export] Instance DiskReadable content : Readable DiskCalls content := {
  at_ := disk_at content;
  lseek_ok := disk_lseek_ok content;
  read_ok := disk_read_ok content
}.

(** A disk that fails. *)
Inductive broken := Broken.

#[export] Instance BrokenCalls : Syscalls broken := {
  lseek d pos := Some d;
  read d n := None
}.
