(* ===== verification/Tiger.v ===== *)
(** * The Tiger hash and its tree

    [src/src/utils/lib/tiger.c] (with [tiger.h]): the compression function in
    its two compile-time variants, the hash [static_tiger], and the tree hash
    [tiger_tree_string] with its OCaml entry points.  The tree is proved to be
    the Merkle tree of the 1024-byte blocks, built by pairing neighbours level
    by level. *)

From Stdlib Require Import ZArith Lia.
From stdpp Require Import base option numbers list.
From S2P Require Import Prelude MerkleDamgard Os.

Local Open Scope Z_scope.

Module Tiger.

(** ** The tables *)

Definition t1 : list Z := [
  0x02aab17cf7e90c5e; 0xac424b03e243a8ec; 0x72cd5be30dd5fcd3; 0x6d019b93f6f97f3a; 0xcd9978ffd21f9193;
  0x7573a1c9708029e2; 0xb164326b922a83c3; 0x46883eee04915870; 0xeaace3057103ece6; 0xc54169b808a3535c;
  0x4ce754918ddec47c; 0x0aa2f4dfdc0df40c; 0x10b76f18a74dbefa; 0xc6ccb6235ad1ab6a; 0x13726121572fe2ff;
  0x1a488c6f199d921e; 0x4bc9f9f4da0007ca; 0x26f5e6f6e85241c7; 0x859079dbea5947b6; 0x4f1885c5c99e8c92;
  0xd78e761ea96f864b; 0x8e36428c52b5c17d; 0x69cf6827373063c1; 0xb607c93d9bb4c56e; 0x7d820e760e76b5ea;
  0x645c9cc6f07fdc42; 0xbf38a078243342e0; 0x5f6b343c9d2e7d04; 0xf2c28aeb600b0ec6; 0x6c0ed85f7254bcac;
  0x71592281a4db4fe5; 0x1967fa69ce0fed9f; 0xfd5293f8b96545db; 0xc879e9d7f2a7600b; 0x860248920193194e;
  0xa4f9533b2d9cc0b3; 0x9053836c15957613; 0xdb6dcf8afc357bf1; 0x18beea7a7a370f57; 0x037117ca50b99066;
  0x6ab30a9774424a35; 0xf4e92f02e325249b; 0x7739db07061ccae1; 0xd8f3b49ceca42a05; 0xbd56be3f51382f73;
  0x45faed5843b0bb28; 0x1c813d5c11bf1f83; 0x8af0e4b6d75fa169; 0x33ee18a487ad9999; 0x3c26e8eab1c94410;
  0xb510102bc0a822f9; 0x141eef310ce6123b; 0xfc65b90059ddb154; 0xe0158640c5e0e607; 0x884e079826c3a3cf;
  0x930d0d9523c535fd; 0x35638d754e9a2b00; 0x4085fccf40469dd5; 0xc4b17ad28be23a4c; 0xcab2f0fc6a3e6a2e;
  0x2860971a6b943fcd; 0x3dde6ee212e30446; 0x6222f32ae01765ae; 0x5d550bb5478308fe; 0xa9efa98da0eda22a;
  0xc351a71686c40da7; 0x1105586d9c867c84; 0xdcffee85fda22853; 0xccfbd0262c5eef76; 0xbaf294cb8990d201;
  0xe69464f52afad975; 0x94b013afdf133e14; 0x06a7d1a32823c958; 0x6f95fe5130f61119; 0xd92ab34e462c06c0;
  0xed7bde33887c71d2; 0x79746d6e6518393e; 0x5ba419385d713329; 0x7c1ba6b948a97564; 0x31987c197bfdac67;
  0xde6c23c44b053d02; 0x581c49fed002d64d; 0xdd474d6338261571; 0xaa4546c3e473d062; 0x928fce349455f860;
  0x48161bbacaab94d9; 0x63912430770e6f68; 0x6ec8a5e602c6641c; 0x87282515337ddd2b; 0x2cda6b42034b701b;
  0xb03d37c181cb096d; 0xe108438266c71c6f; 0x2b3180c7eb51b255; 0xdf92b82f96c08bbc; 0x5c68c8c0a632f3ba;
  0x5504cc861c3d0556; 0xabbfa4e55fb26b8f; 0x41848b0ab3baceb4; 0xb334a273aa445d32; 0xbca696f0a85ad881;
  0x24f6ec65b528d56c; 0x0ce1512e90f4524a; 0x4e9dd79d5506d35a; 0x258905fac6ce9779; 0x2019295b3e109b33;
  0xf8a9478b73a054cc; 0x2924f2f934417eb0; 0x3993357d536d1bc4; 0x38a81ac21db6ff8b; 0x47c4fbf17d6016bf;
  0x1e0faadd7667e3f5; 0x7abcff62938beb96; 0xa78dad948fc179c9; 0x8f1f98b72911e50d; 0x61e48eae27121a91;
  0x4d62f7ad31859808; 0xeceba345ef5ceaeb; 0xf5ceb25ebc9684ce; 0xf633e20cb7f76221; 0xa32cdf06ab8293e4;
  0x985a202ca5ee2ca4; 0xcf0b8447cc8a8fb1; 0x9f765244979859a3; 0xa8d516b1a1240017; 0x0bd7ba3ebb5dc726;
  0xe54bca55b86adb39; 0x1d7a3afd6c478063; 0x519ec608e7669edd; 0x0e5715a2d149aa23; 0x177d4571848ff194;
  0xeeb55f3241014c22; 0x0f5e5ca13a6e2ec2; 0x8029927b75f5c361; 0xad139fabc3d6e436; 0x0d5df1a94ccf402f;
  0x3e8bd948bea5dfc8; 0xa5a0d357bd3ff77e; 0xa2d12e251f74f645; 0x66fd9e525e81a082; 0x2e0c90ce7f687a49;
  0xc2e8bcbeba973bc5; 0x000001bce509745f; 0x423777bbe6dab3d6; 0xd1661c7eaef06eb5; 0xa1781f354daacfd8;
  0x2d11284a2b16affc; 0xf1fc4f67fa891d1f; 0x73ecc25dcb920ada; 0xae610c22c2a12651; 0x96e0a810d356b78a;
  0x5a9a381f2fe7870f; 0xd5ad62ede94e5530; 0xd225e5e8368d1427; 0x65977b70c7af4631; 0x99f889b2de39d74f;
  0x233f30bf54e1d143; 0x9a9675d3d9a63c97; 0x5470554ff334f9a8; 0x166acb744a4f5688; 0x70c74caab2e4aead;
  0xf0d091646f294d12; 0x57b82a89684031d1; 0xefd95a5a61be0b6b; 0x2fbd12e969f2f29a; 0x9bd37013feff9fe8;
  0x3f9b0404d6085a06; 0x4940c1f3166cfe15; 0x09542c4dcdf3defb; 0xb4c5218385cd5ce3; 0xc935b7dc4462a641;
  0x3417f8a68ed3b63f; 0xb80959295b215b40; 0xf99cdaef3b8c8572; 0x018c0614f8fcb95d; 0x1b14accd1a3acdf3;
  0x84d471f200bb732d; 0xc1a3110e95e8da16; 0x430a7220bf1a82b8; 0xb77e090d39df210e; 0x5ef4bd9f3cd05e9d;
  0x9d4ff6da7e57a444; 0xda1d60e183d4a5f8; 0xb287c38417998e47; 0xfe3edc121bb31886; 0xc7fe3ccc980ccbef;
  0xe46fb590189bfd03; 0x3732fd469a4c57dc; 0x7ef700a07cf1ad65; 0x59c64468a31d8859; 0x762fb0b4d45b61f6;
  0x155baed099047718; 0x68755e4c3d50baa6; 0xe9214e7f22d8b4df; 0x2addbf532eac95f4; 0x32ae3909b4bd0109;
  0x834df537b08e3450; 0xfa209da84220728d; 0x9e691d9b9efe23f7; 0x0446d288c4ae8d7f; 0x7b4cc524e169785b;
  0x21d87f0135ca1385; 0xcebb400f137b8aa5; 0x272e2b66580796be; 0x3612264125c2b0de; 0x057702bdad1efbb2;
  0xd4babb8eacf84be9; 0x91583139641bc67b; 0x8bdc2de08036e024; 0x603c8156f49f68ed; 0xf7d236f7dbef5111;
  0x9727c4598ad21e80; 0xa08a0896670a5fd7; 0xcb4a8f4309eba9cb; 0x81af564b0f7036a1; 0xc0b99aa778199abd;
  0x959f1ec83fc8e952; 0x8c505077794a81b9; 0x3acaaf8f056338f0; 0x07b43f50627a6778; 0x4a44ab49f5eccc77;
  0x3bc3d6e4b679ee98; 0x9cc0d4d1cf14108c; 0x4406c00b206bc8a0; 0x82a18854c8d72d89; 0x67e366b35c3c432c;
  0xb923dd61102b37f2; 0x56ab2779d884271d; 0xbe83e1b0ff1525af; 0xfb7c65d4217e49a9; 0x6bdbe0e76d48e7d4;
  0x08df828745d9179e; 0x22ea6a9add53bd34; 0xe36e141c5622200a; 0x7f805d1b8cb750ee; 0xafe5c7a59f58e837;
  0xe27f996a4fb1c23c; 0xd3867dfb0775f0d0; 0xd0e673de6e88891a; 0x123aeb9eafb86c25; 0x30f1d5d5c145b895;
  0xbb434a2dee7269e7; 0x78cb67ecf931fa38; 0xf33b0372323bbf9c; 0x52d66336fb279c74; 0x505f33ac0afb4eaa;
  0xe8a5cd99a2cce187; 0x534974801e2d30bb; 0x8d2d5711d5876d90; 0x1f1a412891bc038e; 0xd6e2e71d82e56648;
  0x74036c3a497732b7; 0x89b67ed96361f5ab; 0xffed95d8f1ea02a2; 0xe72b3bd61464d43d; 0xa6300f170bdc4820;
  0xebc18760ed78a77a].

Definition t2 : list Z := [
  0xe6a6be5a05a12138; 0xb5a122a5b4f87c98; 0x563c6089140b6990; 0x4c46cb2e391f5dd5; 0xd932addbc9b79434;
  0x08ea70e42015aff5; 0xd765a6673e478cf1; 0xc4fb757eab278d99; 0xdf11c6862d6e0692; 0xddeb84f10d7f3b16;
  0x6f2ef604a665ea04; 0x4a8e0f0ff0e0dfb3; 0xa5edeef83dbcba51; 0xfc4f0a2a0ea4371e; 0xe83e1da85cb38429;
  0xdc8ff882ba1b1ce2; 0xcd45505e8353e80d; 0x18d19a00d4db0717; 0x34a0cfeda5f38101; 0x0be77e518887caf2;
  0x1e341438b3c45136; 0xe05797f49089ccf9; 0xffd23f9df2591d14; 0x543dda228595c5cd; 0x661f81fd99052a33;
  0x8736e641db0f7b76; 0x15227725418e5307; 0xe25f7f46162eb2fa; 0x48a8b2126c13d9fe; 0xafdc541792e76eea;
  0x03d912bfc6d1898f; 0x31b1aafa1b83f51b; 0xf1ac2796e42ab7d9; 0x40a3a7d7fcd2ebac; 0x1056136d0afbbcc5;
  0x7889e1dd9a6d0c85; 0xd33525782a7974aa; 0xa7e25d09078ac09b; 0xbd4138b3eac6edd0; 0x920abfbe71eb9e70;
  0xa2a5d0f54fc2625c; 0xc054e36b0b1290a3; 0xf6dd59ff62fe932b; 0x3537354511a8ac7d; 0xca845e9172fadcd4;
  0x84f82b60329d20dc; 0x79c62ce1cd672f18; 0x8b09a2add124642c; 0xd0c1e96a19d9e726; 0x5a786a9b4ba9500c;
  0x0e020336634c43f3; 0xc17b474aeb66d822; 0x6a731ae3ec9baac2; 0x8226667ae0840258; 0x67d4567691caeca5;
  0x1d94155c4875adb5; 0x6d00fd985b813fdf; 0x51286efcb774cd06; 0x5e8834471fa744af; 0xf72ca0aee761ae2e;
  0xbe40e4cdaee8e09a; 0xe9970bbb5118f665; 0x726e4beb33df1964; 0x703b000729199762; 0x4631d816f5ef30a7;
  0xb880b5b51504a6be; 0x641793c37ed84b6c; 0x7b21ed77f6e97d96; 0x776306312ef96b73; 0xae528948e86ff3f4;
  0x53dbd7f286a3f8f8; 0x16cadce74cfc1063; 0x005c19bdfa52c6dd; 0x68868f5d64d46ad3; 0x3a9d512ccf1e186a;
  0x367e62c2385660ae; 0xe359e7ea77dcb1d7; 0x526c0773749abe6e; 0x735ae5f9d09f734b; 0x493fc7cc8a558ba8;
  0xb0b9c1533041ab45; 0x321958ba470a59bd; 0x852db00b5f46c393; 0x91209b2bd336b0e5; 0x6e604f7d659ef19f;
  0xb99a8ae2782ccb24; 0xccf52ab6c814c4c7; 0x4727d9afbe11727b; 0x7e950d0c0121b34d; 0x756f435670ad471f;
  0xf5add442615a6849; 0x4e87e09980b9957a; 0x2acfa1df50aee355; 0xd898263afd2fd556; 0xc8f4924dd80c8fd6;
  0xcf99ca3d754a173a; 0xfe477bacaf91bf3c; 0xed5371f6d690c12d; 0x831a5c285e687094; 0xc5d3c90a3708a0a4;
  0x0f7f903717d06580; 0x19f9bb13b8fdf27f; 0xb1bd6f1b4d502843; 0x1c761ba38fff4012; 0x0d1530c4e2e21f3b;
  0x8943ce69a7372c8a; 0xe5184e11feb5ce66; 0x618bdb80bd736621; 0x7d29bad68b574d0b; 0x81bb613e25e6fe5b;
  0x071c9c10bc07913f; 0xc7beeb7909ac2d97; 0xc3e58d353bc5d757; 0xeb017892f38f61e8; 0xd4effb9c9b1cc21a;
  0x99727d26f494f7ab; 0xa3e063a2956b3e03; 0x9d4a8b9a4aa09c30; 0x3f6ab7d500090fb4; 0x9cc0f2a057268ac0;
  0x3dee9d2dedbf42d1; 0x330f49c87960a972; 0xc6b2720287421b41; 0x0ac59ec07c00369c; 0xef4eac49cb353425;
  0xf450244eef0129d8; 0x8acc46e5caf4deb6; 0x2ffeab63989263f7; 0x8f7cb9fe5d7a4578; 0x5bd8f7644e634635;
  0x427a7315bf2dc900; 0x17d0c4aa2125261c; 0x3992486c93518e50; 0xb4cbfee0a2d7d4c3; 0x7c75d6202c5ddd8d;
  0xdbc295d8e35b6c61; 0x60b369d302032b19; 0xce42685fdce44132; 0x06f3ddb9ddf65610; 0x8ea4d21db5e148f0;
  0x20b0fce62fcd496f; 0x2c1b912358b0ee31; 0xb28317b818f5a308; 0xa89c1e189ca6d2cf; 0x0c6b18576aaadbc8;
  0xb65deaa91299fae3; 0xfb2b794b7f1027e7; 0x04e4317f443b5beb; 0x4b852d325939d0a6; 0xd5ae6beefb207ffc;
  0x309682b281c7d374; 0xbae309a194c3b475; 0x8cc3f97b13b49f05; 0x98a9422ff8293967; 0x244b16b01076ff7c;
  0xf8bf571c663d67ee; 0x1f0d6758eee30da1; 0xc9b611d97adeb9b7; 0xb7afd5887b6c57a2; 0x6290ae846b984fe1;
  0x94df4cdeacc1a5fd; 0x058a5bd1c5483aff; 0x63166cc142ba3c37; 0x8db8526eb2f76f40; 0xe10880036f0d6d4e;
  0x9e0523c9971d311d; 0x45ec2824cc7cd691; 0x575b8359e62382c9; 0xfa9e400dc4889995; 0xd1823ecb45721568;
  0xdafd983b8206082f; 0xaa7d29082386a8cb; 0x269fcd4403b87588; 0x1b91f5f728bdd1e0; 0xe4669f39040201f6;
  0x7a1d7c218cf04ade; 0x65623c29d79ce5ce; 0x2368449096c00bb1; 0xab9bf1879da503ba; 0xbc23ecb1a458058e;
  0x9a58df01bb401ecc; 0xa070e868a85f143d; 0x4ff188307df2239e; 0x14d565b41a641183; 0xee13337452701602;
  0x950e3dcf3f285e09; 0x59930254b9c80953; 0x3bf299408930da6d; 0xa955943f53691387; 0xa15edecaa9cb8784;
  0x29142127352be9a0; 0x76f0371fff4e7afb; 0x0239f450274f2228; 0xbb073af01d5e868b; 0xbfc80571c10e96c1;
  0xd267088568222e23; 0x9671a3d48e80b5b0; 0x55b5d38ae193bb81; 0x693ae2d0a18b04b8; 0x5c48b4ecadd5335f;
  0xfd743b194916a1ca; 0x2577018134be98c4; 0xe77987e83c54a4ad; 0x28e11014da33e1b9; 0x270cc59e226aa213;
  0x71495f756d1a5f60; 0x9be853fb60afef77; 0xadc786a7f7443dbf; 0x0904456173b29a82; 0x58bc7a66c232bd5e;
  0xf306558c673ac8b2; 0x41f639c6b6c9772a; 0x216defe99fda35da; 0x11640cc71c7be615; 0x93c43694565c5527;
  0xea038e6246777839; 0xf9abf3ce5a3e2469; 0x741e768d0fd312d2; 0x0144b883ced652c6; 0xc20b5a5ba33f8552;
  0x1ae69633c3435a9d; 0x97a28ca4088cfdec; 0x8824a43c1e96f420; 0x37612fa66eeea746; 0x6b4cb165f9cf0e5a;
  0x43aa1c06a0abfb4a; 0x7f4dc26ff162796b; 0x6cbacc8e54ed9b0f; 0xa6b7ffefd2bb253e; 0x2e25bc95b0a29d4f;
  0x86d6a58bdef1388c; 0xded74ac576b6f054; 0x8030bdbc2b45805d; 0x3c81af70e94d9289; 0x3eff6dda9e3100db;
  0xb38dc39fdfcc8847; 0x123885528d17b87e; 0xf2da0ed240b1b642; 0x44cefadcd54bf9a9; 0x1312200e433c7ee6;
  0x9ffcc84f3a78c748; 0xf0cd1f72248576bb; 0xec6974053638cfe4; 0x2ba7b67c0cec4e4c; 0xac2f4df3e5ce32ed;
  0xcb33d14326ea4c11; 0xa4e9044cc77e58bc; 0x5f513293d934fcef; 0x5dc9645506e55444; 0x50de418f317de40a;
  0x388cb31a69dde259; 0x2db4a83455820a86; 0x9010a91e84711ae9; 0x4df7f0b7b1498371; 0xd62a2eabc0977179;
  0x22fac097aa8d5c0e].

Definition t3 : list Z := [
  0xf49fcc2ff1daf39b; 0x487fd5c66ff29281; 0xe8a30667fcdca83f; 0x2c9b4be3d2fcce63; 0xda3ff74b93fbbbc2;
  0x2fa165d2fe70ba66; 0xa103e279970e93d4; 0xbecdec77b0e45e71; 0xcfb41e723985e497; 0xb70aaa025ef75017;
  0xd42309f03840b8e0; 0x8efc1ad035898579; 0x96c6920be2b2abc5; 0x66af4163375a9172; 0x2174abdcca7127fb;
  0xb33ccea64a72ff41; 0xf04a4933083066a5; 0x8d970acdd7289af5; 0x8f96e8e031c8c25e; 0xf3fec02276875d47;
  0xec7bf310056190dd; 0xf5adb0aebb0f1491; 0x9b50f8850fd58892; 0x4975488358b74de8; 0xa3354ff691531c61;
  0x0702bbe481d2c6ee; 0x89fb24057deded98; 0xac3075138596e902; 0x1d2d3580172772ed; 0xeb738fc28e6bc30d;
  0x5854ef8f63044326; 0x9e5c52325add3bbe; 0x90aa53cf325c4623; 0xc1d24d51349dd067; 0x2051cfeea69ea624;
  0x13220f0a862e7e4f; 0xce39399404e04864; 0xd9c42ca47086fcb7; 0x685ad2238a03e7cc; 0x066484b2ab2ff1db;
  0xfe9d5d70efbf79ec; 0x5b13b9dd9c481854; 0x15f0d475ed1509ad; 0x0bebcd060ec79851; 0xd58c6791183ab7f8;
  0xd1187c5052f3eee4; 0xc95d1192e54e82ff; 0x86eea14cb9ac6ca2; 0x3485beb153677d5d; 0xdd191d781f8c492a;
  0xf60866baa784ebf9; 0x518f643ba2d08c74; 0x8852e956e1087c22; 0xa768cb8dc410ae8d; 0x38047726bfec8e1a;
  0xa67738b4cd3b45aa; 0xad16691cec0dde19; 0xc6d4319380462e07; 0xc5a5876d0ba61938; 0x16b9fa1fa58fd840;
  0x188ab1173ca74f18; 0xabda2f98c99c021f; 0x3e0580ab134ae816; 0x5f3b05b773645abb; 0x2501a2be5575f2f6;
  0x1b2f74004e7e8ba9; 0x1cd7580371e8d953; 0x7f6ed89562764e30; 0xb15926ff596f003d; 0x9f65293da8c5d6b9;
  0x6ecef04dd690f84c; 0x4782275fff33af88; 0xe41433083f820801; 0xfd0dfe409a1af9b5; 0x4325a3342cdb396b;
  0x8ae77e62b301b252; 0xc36f9e9f6655615a; 0x85455a2d92d32c09; 0xf2c7dea949477485; 0x63cfb4c133a39eba;
  0x83b040cc6ebc5462; 0x3b9454c8fdb326b0; 0x56f56a9e87ffd78c; 0x2dc2940d99f42bc6; 0x98f7df096b096e2d;
  0x19a6e01e3ad852bf; 0x42a99ccbdbd4b40b; 0xa59998af45e9c559; 0x366295e807d93186; 0x6b48181bfaa1f773;
  0x1fec57e2157a0a1d; 0x4667446af6201ad5; 0xe615ebcacfb0f075; 0xb8f31f4f68290778; 0x22713ed6ce22d11e;
  0x3057c1a72ec3c93b; 0xcb46acc37c3f1f2f; 0xdbb893fd02aaf50e; 0x331fd92e600b9fcf; 0xa498f96148ea3ad6;
  0xa8d8426e8b6a83ea; 0xa089b274b7735cdc; 0x87f6b3731e524a11; 0x118808e5cbc96749; 0x9906e4c7b19bd394;
  0xafed7f7e9b24a20c; 0x6509eadeeb3644a7; 0x6c1ef1d3e8ef0ede; 0xb9c97d43e9798fb4; 0xa2f2d784740c28a3;
  0x7b8496476197566f; 0x7a5be3e6b65f069d; 0xf96330ed78be6f10; 0xeee60de77a076a15; 0x2b4bee4aa08b9bd0;
  0x6a56a63ec7b8894e; 0x02121359ba34fef4; 0x4cbf99f8283703fc; 0x398071350caf30c8; 0xd0a77a89f017687a;
  0xf1c1a9eb9e423569; 0x8c7976282dee8199; 0x5d1737a5dd1f7abd; 0x4f53433c09a9fa80; 0xfa8b0c53df7ca1d9;
  0x3fd9dcbc886ccb77; 0xc040917ca91b4720; 0x7dd00142f9d1dcdf; 0x8476fc1d4f387b58; 0x23f8e7c5f3316503;
  0x032a2244e7e37339; 0x5c87a5d750f5a74b; 0x082b4cc43698992e; 0xdf917becb858f63c; 0x3270b8fc5bf86dda;
  0x10ae72bb29b5dd76; 0x576ac94e7700362b; 0x1ad112dac61efb8f; 0x691bc30ec5faa427; 0xff246311cc327143;
  0x3142368e30e53206; 0x71380e31e02ca396; 0x958d5c960aad76f1; 0xf8d6f430c16da536; 0xc8ffd13f1be7e1d2;
  0x7578ae66004ddbe1; 0x05833f01067be646; 0xbb34b5ad3bfe586d; 0x095f34c9a12b97f0; 0x247ab64525d60ca8;
  0xdcdbc6f3017477d1; 0x4a2e14d4decad24d; 0xbdb5e6d9be0a1eeb; 0x2a7e70f7794301ab; 0xdef42d8a270540fd;
  0x01078ec0a34c22c1; 0xe5de511af4c16387; 0x7ebb3a52bd9a330a; 0x77697857aa7d6435; 0x004e831603ae4c32;
  0xe7a21020ad78e312; 0x9d41a70c6ab420f2; 0x28e06c18ea1141e6; 0xd2b28cbd984f6b28; 0x26b75f6c446e9d83;
  0xba47568c4d418d7f; 0xd80badbfe6183d8e; 0x0e206d7f5f166044; 0xe258a43911cbca3e; 0x723a1746b21dc0bc;
  0xc7caa854f5d7cdd3; 0x7cac32883d261d9c; 0x7690c26423ba942c; 0x17e55524478042b8; 0xe0be477656a2389f;
  0x4d289b5e67ab2da0; 0x44862b9c8fbbfd31; 0xb47cc8049d141365; 0x822c1b362b91c793; 0x4eb14655fb13dfd8;
  0x1ecbba0714e2a97b; 0x6143459d5cde5f14; 0x53a8fbf1d5f0ac89; 0x97ea04d81c5e5b00; 0x622181a8d4fdb3f3;
  0xe9bcd341572a1208; 0x1411258643cce58a; 0x9144c5fea4c6e0a4; 0x0d33d06565cf620f; 0x54a48d489f219ca1;
  0xc43e5eac6d63c821; 0xa9728b3a72770daf; 0xd7934e7b20df87ef; 0xe35503b61a3e86e5; 0xcae321fbc819d504;
  0x129a50b3ac60bfa6; 0xcd5e68ea7e9fb6c3; 0xb01c90199483b1c7; 0x3de93cd5c295376c; 0xaed52edf2ab9ad13;
  0x2e60f512c0a07884; 0xbc3d86a3e36210c9; 0x35269d9b163951ce; 0x0c7d6e2ad0cdb5fa; 0x59e86297d87f5733;
  0x298ef221898db0e7; 0x55000029d1a5aa7e; 0x8bc08ae1b5061b45; 0xc2c31c2b6c92703a; 0x94cc596baf25ef42;
  0x0a1d73db22540456; 0x04b6a0f9d9c4179a; 0xeffdafa2ae3d3c60; 0xf7c8075bb49496c4; 0x9cc5c7141d1cd4e3;
  0x78bd1638218e5534; 0xb2f11568f850246a; 0xedfabcfa9502bc29; 0x796ce5f2da23051b; 0xaae128b0dc93537c;
  0x3a493da0ee4b29ae; 0xb5df6b2c416895d7; 0xfcabbd25122d7f37; 0x70810b58105dc4b1; 0xe10fdd37f7882a90;
  0x524dcab5518a3f5c; 0x3c9e85878451255b; 0x4029828119bd34e2; 0x74a05b6f5d3ceccb; 0xb610021542e13eca;
  0x0ff979d12f59e2ac; 0x6037da27e4f9cc50; 0x5e92975a0df1847d; 0xd66de190d3e623fe; 0x5032d6b87b568048;
  0x9a36b7ce8235216e; 0x80272a7a24f64b4a; 0x93efed8b8c6916f7; 0x37ddbff44cce1555; 0x4b95db5d4b99bd25;
  0x92d3fda169812fc0; 0xfb1a4a9a90660bb6; 0x730c196946a4b9b2; 0x81e289aa7f49da68; 0x64669a0f83b1a05f;
  0x27b3ff7d9644f48b; 0xcc6b615c8db675b3; 0x674f20b9bcebbe95; 0x6f31238275655982; 0x5ae488713e45cf05;
  0xbf619f9954c21157; 0xeabac46040a8eae9; 0x454c6fe9f2c0c1cd; 0x419cf6496412691c; 0xd3dc3bef265b0f70;
  0x6d0e60f5c3578a9e].

Definition t4 : list Z := [
  0x5b0e608526323c55; 0x1a46c1a9fa1b59f5; 0xa9e245a17c4c8ffa; 0x65ca5159db2955d7; 0x05db0a76ce35afc2;
  0x81eac77ea9113d45; 0x528ef88ab6ac0a0d; 0xa09ea253597be3ff; 0x430ddfb3ac48cd56; 0xc4b3a67af45ce46f;
  0x4ececfd8fbe2d05e; 0x3ef56f10b39935f0; 0x0b22d6829cd619c6; 0x17fd460a74df2069; 0x6cf8cc8e8510ed40;
  0xd6c824bf3a6ecaa7; 0x61243d581a817049; 0x048bacb6bbc163a2; 0xd9a38ac27d44cc32; 0x7fddff5baaf410ab;
  0xad6d495aa804824b; 0xe1a6a74f2d8c9f94; 0xd4f7851235dee8e3; 0xfd4b7f886540d893; 0x247c20042aa4bfda;
  0x096ea1c517d1327c; 0xd56966b4361a6685; 0x277da5c31221057d; 0x94d59893a43acff7; 0x64f0c51ccdc02281;
  0x3d33bcc4ff6189db; 0xe005cb184ce66af1; 0xff5ccd1d1db99bea; 0xb0b854a7fe42980f; 0x7bd46a6a718d4b9f;
  0xd10fa8cc22a5fd8c; 0xd31484952be4bd31; 0xc7fa975fcb243847; 0x4886ed1e5846c407; 0x28cddb791eb70b04;
  0xc2b00be2f573417f; 0x5c9590452180f877; 0x7a6bddfff370eb00; 0xce509e38d6d9d6a4; 0xebeb0f00647fa702;
  0x1dcc06cf76606f06; 0xe4d9f28ba286ff0a; 0xd85a305dc918c262; 0x475b1d8732225f54; 0x2d4fb51668ccb5fe;
  0xa679b9d9d72bba20; 0x53841c0d912d43a5; 0x3b7eaa48bf12a4e8; 0x781e0e47f22f1ddf; 0xeff20ce60ab50973;
  0x20d261d19dffb742; 0x16a12b03062a2e39; 0x1960eb2239650495; 0x251c16fed50eb8b8; 0x9ac0c330f826016e;
  0xed152665953e7671; 0x02d63194a6369570; 0x5074f08394b1c987; 0x70ba598c90b25ce1; 0x794a15810b9742f6;
  0x0d5925e9fcaf8c6c; 0x3067716cd868744e; 0x910ab077e8d7731b; 0x6a61bbdb5ac42f61; 0x93513efbf0851567;
  0xf494724b9e83e9d5; 0xe887e1985c09648d; 0x34b1d3c675370cfd; 0xdc35e433bc0d255d; 0xd0aab84234131be0;
  0x08042a50b48b7eaf; 0x9997c4ee44a3ab35; 0x829a7b49201799d0; 0x263b8307b7c54441; 0x752f95f4fd6a6ca6;
  0x927217402c08c6e5; 0x2a8ab754a795d9ee; 0xa442f7552f72943d; 0x2c31334e19781208; 0x4fa98d7ceaee6291;
  0x55c3862f665db309; 0xbd0610175d53b1f3; 0x46fe6cb840413f27; 0x3fe03792df0cfa59; 0xcfe700372eb85e8f;
  0xa7be29e7adbce118; 0xe544ee5cde8431dd; 0x8a781b1b41f1873e; 0xa5c94c78a0d2f0e7; 0x39412e2877b60728;
  0xa1265ef3afc9a62c; 0xbcc2770c6a2506c5; 0x3ab66dd5dce1ce12; 0xe65499d04a675b37; 0x7d8f523481bfd216;
  0x0f6f64fcec15f389; 0x74efbe618b5b13c8; 0xacdc82b714273e1d; 0xdd40bfe003199d17; 0x37e99257e7e061f8;
  0xfa52626904775aaa; 0x8bbbf63a463d56f9; 0xf0013f1543a26e64; 0xa8307e9f879ec898; 0xcc4c27a4150177cc;
  0x1b432f2cca1d3348; 0xde1d1f8f9f6fa013; 0x606602a047a7ddd6; 0xd237ab64cc1cb2c7; 0x9b938e7225fcd1d3;
  0xec4e03708e0ff476; 0xfeb2fbda3d03c12d; 0xae0bced2ee43889a; 0x22cb8923ebfb4f43; 0x69360d013cf7396d;
  0x855e3602d2d4e022; 0x073805bad01f784c; 0x33e17a133852f546; 0xdf4874058ac7b638; 0xba92b29c678aa14a;
  0x0ce89fc76cfaadcd; 0x5f9d4e0908339e34; 0xf1afe9291f5923b9; 0x6e3480f60f4a265f; 0xeebf3a2ab29b841c;
  0xe21938a88f91b4ad; 0x57dfeff845c6d3c3; 0x2f006b0bf62caaf2; 0x62f479ef6f75ee78; 0x11a55ad41c8916a9;
  0xf229d29084fed453; 0x42f1c27b16b000e6; 0x2b1f76749823c074; 0x4b76eca3c2745360; 0x8c98f463b91691bd;
  0x14bcc93cf1ade66a; 0x8885213e6d458397; 0x8e177df0274d4711; 0xb49b73b5503f2951; 0x10168168c3f96b6b;
  0x0e3d963b63cab0ae; 0x8dfc4b5655a1db14; 0xf789f1356e14de5c; 0x683e68af4e51dac1; 0xc9a84f9d8d4b0fd9;
  0x3691e03f52a0f9d1; 0x5ed86e46e1878e80; 0x3c711a0e99d07150; 0x5a0865b20c4e9310; 0x56fbfc1fe4f0682e;
  0xea8d5de3105edf9b; 0x71abfdb12379187a; 0x2eb99de1bee77b9c; 0x21ecc0ea33cf4523; 0x59a4d7521805c7a1;
  0x3896f5eb56ae7c72; 0xaa638f3db18f75dc; 0x9f39358dabe9808e; 0xb7defa91c00b72ac; 0x6b5541fd62492d92;
  0x6dc6dee8f92e4d5b; 0x353f57abc4beea7e; 0x735769d6da5690ce; 0x0a234aa642391484; 0xf6f9508028f80d9d;
  0xb8e319a27ab3f215; 0x31ad9c1151341a4d; 0x773c22a57bef5805; 0x45c7561a07968633; 0xf913da9e249dbe36;
  0xda652d9b78a64c68; 0x4c27a97f3bc334ef; 0x76621220e66b17f4; 0x967743899acd7d0b; 0xf3ee5bcae0ed6782;
  0x409f753600c879fc; 0x06d09a39b5926db6; 0x6f83aeb0317ac588; 0x01e6ca4a86381f21; 0x66ff3462d19f3025;
  0x72207c24ddfd3bfb; 0x4af6b6d3e2ece2eb; 0x9c994dbec7ea08de; 0x49ace597b09a8bc4; 0xb38c4766cf0797ba;
  0x131b9373c57c2a75; 0xb1822cce61931e58; 0x9d7555b909ba1c0c; 0x127fafdd937d11d2; 0x29da3badc66d92e4;
  0xa2c1d57154c2ecbc; 0x58c5134d82f6fe24; 0x1c3ae3515b62274f; 0xe907c82e01cb8126; 0xf8ed091913e37fcb;
  0x3249d8f9c80046c9; 0x80cf9bede388fb63; 0x1881539a116cf19e; 0x5103f3f76bd52457; 0x15b7e6f5ae47f7a8;
  0xdbd7c6ded47e9ccf; 0x44e55c410228bb1a; 0xb647d4255edb4e99; 0x5d11882bb8aafc30; 0xf5098bbb29d3212a;
  0x8fb5ea14e90296b3; 0x677b942157dd025a; 0xfb58e7c0a390acb5; 0x89d3674c83bd4a01; 0x9e2da4df4bf3b93b;
  0xfcc41e328cab4829; 0x03f38c96ba582c52; 0xcad1bdbd7fd85db2; 0xbbb442c16082ae83; 0xb95fe86ba5da9ab0;
  0xb22e04673771a93f; 0x845358c9493152d8; 0xbe2a488697b4541e; 0x95a2dc2dd38e6966; 0xc02c11ac923c852b;
  0x2388b1990df2a87b; 0x7c8008fa1b4f37be; 0x1f70d0c84d54e503; 0x5490adec7ece57d4; 0x002b3c27d9063a3a;
  0x7eaea3848030a2bf; 0xc602326ded2003c0; 0x83a7287d69a94086; 0xc57a5fcb30f57a8a; 0xb56844e479ebe779;
  0xa373b40f05dcbce9; 0xd71a786e88570ee2; 0x879cbacdbde8f6a0; 0x976ad1bcc164a32f; 0xab21e25e9666d78b;
  0x901063aae5e5c33c; 0x9818b34448698d90; 0xe36487ae3e1e8abb; 0xafbdf931893bdcb4; 0x6345a0dc5fbbd519;
  0x8628fe269b9465ca; 0x1e5d01603f9c51ec; 0x4de44006a15049b7; 0xbf6c70e5f776cbb1; 0x411218f2ef552bed;
  0xcb0c0708705a36a3; 0xe74d14754f986044; 0xcd56d9430ea8280e; 0xc12591d7535f5065; 0xc83223f1720aef96;
  0xc3a0396f7363a51f].

(** [t1[i]] with [i] a byte. *)
Definition at_byte (t : list Z) (i : Z) : Z := nth (Z.to_nat i) t 0.

(** ** The compression function

    [unsigned long] has [lb] bits, 32 or 64: the type [word32] is only as
    narrow as its name on a 32-bit machine. *)
Definition word32 (lb z : Z) : Z := z mod 2 ^ lb.

Definition xor4 (a b c d : Z) : Z := Z.lxor (Z.lxor (Z.lxor a b) c) d.

Definition round (lb a b c x mul : Z) : Z * Z * Z :=
  let c := Z.lxor c x in
  let a := u64 (a - xor4 (at_byte t1 (u8 c))
                         (at_byte t2 (u8 (Z.shiftr (word32 lb c) (2 * 8))))
                         (at_byte t3 (u8 (Z.shiftr c (4 * 8))))
                         (at_byte t4 (u8 (Z.shiftr (word32 lb (Z.shiftr c (4 * 8))) (2 * 8))))) in
  let b := u64 (b + xor4 (at_byte t4 (u8 (Z.shiftr (word32 lb c) (1 * 8))))
                         (at_byte t3 (u8 (Z.shiftr (word32 lb c) (3 * 8))))
                         (at_byte t2 (u8 (Z.shiftr (word32 lb (Z.shiftr c (4 * 8))) (1 * 8))))
                         (at_byte t1 (u8 (Z.shiftr (word32 lb (Z.shiftr c (4 * 8))) (3 * 8))))) in
  let b := u64 (b * mul) in
  (a, b, c).

(** "This is the official definition of round" ([OPTIMIZE_FOR_ALPHA]). *)
Definition round_alpha (a b c x mul : Z) : Z * Z * Z :=
  let c := Z.lxor c x in
  let at8 t k := at_byte t (Z.land (Z.shiftr c (k * 8)) 0xFF) in
  let a := u64 (a - xor4 (at8 t1 0) (at8 t2 2) (at8 t3 4) (at8 t4 6)) in
  let b := u64 (b + xor4 (at8 t4 1) (at8 t3 3) (at8 t2 5) (at8 t1 7)) in
  let b := u64 (b * mul) in
  (a, b, c).

Record keys := Keys { x0 : Z; x1 : Z; x2 : Z; x3 : Z; x4 : Z; x5 : Z; x6 : Z; x7 : Z }.

(** [rnd] is one of the two rounds. *)
Definition pass (rnd : Z -> Z -> Z -> Z -> Z -> Z * Z * Z) (a b c : Z) (x : keys) (mul : Z) : Z * Z * Z :=
  let '(a, b, c) := rnd a b c (x0 x) mul in
  let '(b, c, a) := rnd b c a (x1 x) mul in
  let '(c, a, b) := rnd c a b (x2 x) mul in
  let '(a, b, c) := rnd a b c (x3 x) mul in
  let '(b, c, a) := rnd b c a (x4 x) mul in
  let '(c, a, b) := rnd c a b (x5 x) mul in
  let '(a, b, c) := rnd a b c (x6 x) mul in
  let '(b, c, a) := rnd b c a (x7 x) mul in
  (a, b, c).

(** [~x], a 64-bit word. *)
Definition not64 (x : Z) : Z := u64 (Z.lnot x).

Definition key_schedule (x : keys) : keys :=
  let 'Keys x0 x1 x2 x3 x4 x5 x6 x7 := x in
  let x0 := u64 (x0 - Z.lxor x7 0xA5A5A5A5A5A5A5A5) in
  let x1 := Z.lxor x1 x0 in
  let x2 := u64 (x2 + x1) in
  let x3 := u64 (x3 - Z.lxor x2 (u64 (Z.shiftl (not64 x1) 19))) in
  let x4 := Z.lxor x4 x3 in
  let x5 := u64 (x5 + x4) in
  let x6 := u64 (x6 - Z.lxor x5 (Z.shiftr (not64 x4) 23)) in
  let x7 := Z.lxor x7 x6 in
  let x0 := u64 (x0 + x7) in
  let x1 := u64 (x1 - Z.lxor x0 (u64 (Z.shiftl (not64 x7) 19))) in
  let x2 := Z.lxor x2 x1 in
  let x3 := u64 (x3 + x2) in
  let x4 := u64 (x4 - Z.lxor x3 (Z.shiftr (not64 x2) 23)) in
  let x5 := Z.lxor x5 x4 in
  let x6 := u64 (x6 + x5) in
  let x7 := u64 (x7 - Z.lxor x6 0x0123456789ABCDEF) in
  Keys x0 x1 x2 x3 x4 x5 x6 x7.

Definition feedforward (a b c aa bb cc : Z) : Z * Z * Z :=
  (Z.lxor a aa, u64 (b - bb), u64 (c + cc)).

Definition PASSES : nat := 3.

(** [for (pass_no = 0; pass_no < PASSES; pass_no++)] *)
Fixpoint passes (lb : Z) (n : nat) (pass_no : Z) (st : Z * Z * Z * keys) : Z * Z * Z * keys :=
  match n with
  | O => st
  | S n =>
      let '(a, b, c, x) := st in
      let x := if pass_no =? 0 then x else key_schedule x in
      let '(a, b, c) := pass (round lb) a b c x (if pass_no =? 0 then 5 else if pass_no =? 1 then 7 else 9) in
      let tmpa := a in let a := c in let c := b in let b := tmpa in
      passes lb n (pass_no + 1) (a, b, c, x)
  end.

Definition compress (lb a b c : Z) (x : keys) : Z * Z * Z :=
  let aa := a in let bb := b in let cc := c in
  let '(a, b, c, x) := passes lb PASSES 0 (a, b, c, x) in
  feedforward a b c aa bb cc.

(** The unrolled variant; its loop from 3 to [PASSES] is empty. *)
Definition compress_alpha (a b c : Z) (x : keys) : Z * Z * Z :=
  let aa := a in let bb := b in let cc := c in
  let '(a, b, c) := pass round_alpha a b c x 5 in
  let x := key_schedule x in
  let '(c, a, b) := pass round_alpha c a b x 7 in
  let x := key_schedule x in
  let '(b, c, a) := pass round_alpha b c a x 9 in
  feedforward a b c aa bb cc.

(** [state[0]], [state[1]], [state[2]]. *)
Record tiger_state := St { s0 : Z; s1 : Z; s2 : Z }.

(** The eight 64-bit words of a block, lowest byte first. *)
Definition block_word (str : list Z) (k : nat) : Z := le_word (take 8 (drop (8 * k) str)).

Definition tiger_compress (lb : Z) (state : tiger_state) (str : list Z) : tiger_state :=
  let w := block_word str in
  let '(a, b, c) := compress lb (s0 state) (s1 state) (s2 state)
    (Keys (w 0%nat) (w 1%nat) (w 2%nat) (w 3%nat) (w 4%nat) (w 5%nat) (w 6%nat) (w 7%nat)) in
  St a b c.

(** ** The hash of a string, on a machine with 64-bit [long] *)

Definition tiger_iv : tiger_state := St 0x0123456789ABCDEF 0xFEDCBA9876543210 0xF096A5B4C3B2E187.

(** [for (i = length; i >= 64; i -= 64)]; [p] is the offset of [str]. *)
Fixpoint tiger_blocks (fuel : nat) (res : tiger_state) (str : list Z) (p i : Z) : option (tiger_state * Z * Z) :=
  if 64 <=? i then
    match fuel with
    | O => None
    | S fuel => block ← sub_bytes str p 64; tiger_blocks fuel (tiger_compress 64 res block) str (p + 64) (i - 64)
    end
  else Some (res, p, i).

(** [for (; j & 7; j++) temp[j] = 0;] *)
Fixpoint zero_to_word (fuel : nat) (j : Z) (temp : list Z) : option (Z * list Z) :=
  if Z.land j 7 =? 0 then Some (j, temp)
  else match fuel with
       | O => None
       | S fuel => temp ← wr temp j 0; zero_to_word fuel (j + 1) temp
       end.

(** [for (; j < n; j++) temp[j] = 0;] *)
Definition zero_to (n j : Z) (temp : list Z) : option (list Z) :=
  for_up (Z.to_nat (n - j)) j (fun j t => wr t j 0) temp.

(** From [if (j > 56)] to the end. *)
Definition tiger_last (res : tiger_state) (temp : list Z) (j length : Z) : option tiger_state :=
  '(res, temp, j) ←
    (if 56 <? j then
       temp ← zero_to 64 j temp;
       Some (tiger_compress 64 res temp, temp, 0)
     else Some (res, temp, j));
  temp ← zero_to 56 j temp;
  temp ← blit temp 56 (le_bytes 8 (u64 (Z.shiftl length 3)));
  Some (tiger_compress 64 res temp).

(** [temp] is an array on the stack, not initialised. *)
Definition static_tiger_on (temp str : list Z) (length : Z) : option tiger_state :=
  '(res, p, i) ← tiger_blocks (Z.to_nat length) tiger_iv str 0 length;
  temp ← for_up (Z.to_nat i) 0 (fun j t => v ← rd str (p + j); wr t j v) temp;
  let j := i in
  temp ← wr temp j 0x01;
  '(j, temp) ← zero_to_word 8 (j + 1) temp;
  tiger_last res temp j length.

Definition static_tiger (str : list Z) (length : Z) : option tiger_state :=
  static_tiger_on (replicate 64 0) str length.

(** The digest in memory; [swap_digest] does nothing on a little-endian
    machine. *)
Definition swap_digest (digest : list Z) : list Z := digest.
Definition digest_bytes (res : tiger_state) : list Z :=
  le_bytes 8 (s0 res) ++ le_bytes 8 (s1 res) ++ le_bytes 8 (s2 res).

Definition hexa (i : Z) : Z := if 9 <? i then 65 + i - 10 else 48 + i.

Definition tiger_unsafe_string (string : list Z) (len : Z) : option (list Z) :=
  res ← static_tiger string len; Some (swap_digest (digest_bytes res)).

(** ** The two variants of the compression function *)

(** A byte of a word, whatever the width of [unsigned long]. *)
Lemma byte_narrow lb c n : 0 <= n -> n + 8 <= lb -> u8 (Z.shiftr (word32 lb c) n) = Z.land (Z.shiftr c n) 0xFF.
Proof.
  intros Hn Hl. unfold word32, u8. change 0xFF with (Z.ones 8). change 256 with (2 ^ 8).
  rewrite Z.land_ones by lia. apply Z.bits_inj'. intros i Hi.
  rewrite !Z.testbit_mod_pow2, !Z.shiftr_spec, Z.testbit_mod_pow2 by lia.
  destruct (Z.ltb_spec i 8); [|done]. by destruct (Z.ltb_spec (i + n) lb); [|lia].
Qed.

Lemma byte_cast c : u8 c = Z.land c 0xFF.
Proof. unfold u8. change 0xFF with (Z.ones 8). by rewrite Z.land_ones by lia. Qed.

Lemma round_ok lb a b c x mul : 32 <= lb -> round lb a b c x mul = round_alpha a b c x mul.
Proof.
  intros Hl. unfold round, round_alpha. set (c' := Z.lxor c x).
  rewrite !byte_narrow, !byte_cast, !Z.shiftr_shiftr by lia. by rewrite Z.shiftr_0_r.
Qed.

Lemma pass_ok lb a b c x mul : 32 <= lb -> pass (round lb) a b c x mul = pass round_alpha a b c x mul.
Proof.
  intros Hl. unfold pass.
  repeat (rewrite round_ok by done; destruct (round_alpha _ _ _ _ _) as [[? ?] ?]). done.
Qed.

Lemma compress_ok lb a b c x : 32 <= lb -> compress lb a b c x = compress_alpha a b c x.
Proof.
  intros Hl. unfold compress, compress_alpha, PASSES. cbn [passes Z.eqb Z.add Pos.eqb Pos.add].
  rewrite pass_ok by done. destruct (pass round_alpha _ _ _ _ _) as [[a1 b1] c1].
  rewrite pass_ok by done. destruct (pass round_alpha _ _ _ _ _) as [[a2 b2] c2].
  rewrite pass_ok by done. by destruct (pass round_alpha _ _ _ _ _) as [[a3 b3] c3].
Qed.

(** ** The specification of the hash *)

(** Padding as in MD4, with 0x01 in place of 0x80. *)
Definition tiger_pad (m : list Z) : list Z :=
  m ++ 1 :: replicate (Z.to_nat ((55 - Z.of_nat (length m)) mod 64)) 0 ++ le_bytes 8 (Z.of_nat (length m) * 8).

Definition tiger_final (m : list Z) : tiger_state := md_absorb (tiger_compress 64) tiger_iv (tiger_pad m).
Definition tiger_spec (m : list Z) : list Z := digest_bytes (tiger_final m).

#[local] Opaque tiger_compress.

Lemma tiger_blocks_ok fuel h data p left :
  tiger_blocks fuel h data p left = md_blocks (tiger_compress 64) fuel h data p left.
Proof.
  revert h p left. induction fuel as [|fuel IH]; intros h p left; simpl; [done|].
  destruct (64 <=? left); [|done]. destruct (sub_bytes data p 64); [apply IH|done].
Qed.

Lemma copy_loop (str a b : list Z) (p k : nat) :
  (p + length a + k <= length str)%nat -> (k <= length b)%nat ->
  for_up k (Z.of_nat (length a)) (fun j t => v ← rd str (Z.of_nat p + j); wr t j v) (a ++ b)
  = Some (a ++ take k (drop (p + length a) str) ++ drop k b).
Proof.
  revert a b. induction k as [|k IH]; intros a b Hs Hk; [by rewrite take_0, drop_0|].
  destruct b as [|x b]; simpl in Hk; [lia|].
  destruct (lookup_lt_is_Some_2 str (p + length a)) as [v Hv]; [lia|].
  cbn [for_up]. rewrite <- Nat2Z.inj_add, rd_nat, Hv. cbn [mbind option_bind]. rewrite wr_mid.
  cbn [mbind option_bind]. replace (Z.of_nat (length a) + 1) with (Z.of_nat (length (a ++ [v])))
    by (rewrite length_app; simpl; lia).
  replace (a ++ v :: b) with ((a ++ [v]) ++ b) by (by rewrite <- app_assoc).
  rewrite IH by (rewrite ?length_app; simpl; lia).
  rewrite length_app, <- app_assoc. simpl. rewrite (drop_S str v (p + length a)) by done. simpl.
  by replace (p + (length a + 1))%nat with (S (p + length a)) by lia.
Qed.

(** Zeros from [j] to the end of its 64-bit word. *)
Lemma zero_to_word_ok fuel k u (a b : list Z) :
  (length a + k = 8 * u)%nat -> (k < 8)%nat -> (k <= fuel)%nat -> (k <= length b)%nat ->
  zero_to_word fuel (Z.of_nat (length a)) (a ++ b) = Some (Z.of_nat (8 * u), a ++ replicate k 0 ++ drop k b).
Proof.
  assert (E : forall x : Z, Z.land x 7 = x mod 8) by (intros x; change 7 with (Z.ones 3); by rewrite Z.land_ones by lia).
  revert fuel a b. induction k as [|k IH]; intros fuel a b Hu Hk Hf Hb.
  - assert (Ha : Z.of_nat (length a) = Z.of_nat u * 8) by lia.
    replace (Z.of_nat (8 * u)) with (Z.of_nat (length a)) by lia.
    destruct fuel; cbn [zero_to_word]; rewrite E, Ha, Z.mod_mul by lia; by rewrite drop_0.
  - destruct fuel as [|fuel]; [lia|]. destruct b as [|x b]; simpl in Hb; [lia|].
    cbn [zero_to_word]. rewrite E. destruct (Z.eqb_spec (Z.of_nat (length a) mod 8) 0) as [H0|_]; [dlia|].
    rewrite wr_mid. cbn [mbind option_bind].
    replace (Z.of_nat (length a) + 1) with (Z.of_nat (length (a ++ [0]))) by (rewrite length_app; simpl; lia).
    replace (a ++ 0 :: b) with ((a ++ [0]) ++ b) by (by rewrite <- app_assoc).
    rewrite IH by (rewrite ?length_app; simpl; lia). by rewrite <- app_assoc.
Qed.

Lemma zero_to_ok n (a b : list Z) :
  (length a <= n)%nat -> (n - length a <= length b)%nat ->
  zero_to (Z.of_nat n) (Z.of_nat (length a)) (a ++ b) = Some (a ++ replicate (n - length a) 0 ++ drop (n - length a) b).
Proof.
  intros Ha Hb. unfold zero_to. replace (Z.to_nat _) with (n - length a)%nat by lia. by apply zero_loop.
Qed.

(** The last block, with its length. *)
Lemma close_block (a b : list Z) (n : nat) l :
  (length a <= 56)%nat -> length (a ++ b) = 64%nat -> length l = 8%nat ->
  (temp ← zero_to 56 (Z.of_nat (length a)) (a ++ b); blit temp 56 l)
  = Some (a ++ replicate (56 - length a) 0 ++ l).
Proof.
  rewrite length_app. intros Ha Hab Hl.
  pose proof (zero_to_ok 56 a b Ha ltac:(lia)) as E. change (Z.of_nat 56) with 56 in E. rewrite E. clear E.
  cbn [mbind option_bind]. change 56 with (Z.of_nat 56).
  assert (Hp : length (a ++ replicate (56 - length a) 0) = 56%nat) by (rewrite length_app, length_replicate; lia).
  rewrite app_assoc, blit_in by (rewrite length_app, length_drop; lia).
  rewrite take_app_length' by done.
  rewrite (drop_ge (_ ++ _)) by (rewrite !length_app, length_replicate, length_drop; lia).
  by rewrite app_nil_r, <- app_assoc.
Qed.

(** Two blocks absorbed as one: the tail, 0x01, zeros and the length. *)
Lemma tiger_pad_tail m :
  let t := md_tail m in let n := Z.of_nat (length m) in
  tiger_final m = md_absorb (tiger_compress 64) (md_absorb (tiger_compress 64) tiger_iv m)
    (t ++ 1 :: replicate ((if decide (length t < 56)%nat then 55 else 119) - length t) 0 ++ le_bytes 8 (n * 8)).
Proof.
  intros t n. unfold tiger_final, tiger_pad. rewrite md_absorb_app. fold t n. do 5 f_equal.
  pose proof (md_pad_zeros m) as H. fold t n in H. case_decide; lia.
Qed.

(** The tail [t] and 0x01 are in the block, up to a word boundary [8 u]. *)
Lemma tiger_last_ok h t b (u n : nat) :
  let a := (t ++ [1]) ++ replicate (8 * u - (length t + 1)) 0 in
  (length t < 8 * u <= length t + 8)%nat -> (length t < 64)%nat -> length (a ++ b) = 64%nat ->
  tiger_last h (a ++ b) (Z.of_nat (8 * u)) (Z.of_nat n)
  = Some (md_absorb (tiger_compress 64) h
      (t ++ 1 :: replicate ((if decide (length t < 56)%nat then 55 else 119) - length t) 0
         ++ le_bytes 8 (Z.of_nat n * 8))).
Proof.
  intros a Hu Ht Hab. unfold tiger_last.
  assert (Ha : length a = (8 * u)%nat) by (unfold a; rewrite !length_app, length_replicate; simpl; lia).
  assert (Hl : le_bytes 8 (u64 (Z.shiftl (Z.of_nat n) 3)) = le_bytes 8 (Z.of_nat n * 8)).
  { unfold u64. rewrite Z.shiftl_mul_pow2 by lia. apply (le_bytes_mod 8). }
  rewrite Hl. clear Hl. set (l := le_bytes 8 _) in *. assert (Hll : length l = 8%nat) by apply le_bytes_length.
  assert (Hz : forall x y, a ++ replicate x 0 ++ y = t ++ 1 :: replicate (8 * u - (length t + 1) + x) 0 ++ y).
  { intros x y. unfold a. by rewrite replicate_add, <- !app_assoc. }
  destruct (Z.ltb_spec 56 (Z.of_nat (8 * u))) as [H56|H56].
  - assert (b = []) as -> by (apply nil_length_inv; rewrite length_app in Hab; lia).
    rewrite app_nil_r in *. pose proof (zero_to_ok 64 a [] ltac:(lia) ltac:(simpl; lia)) as E.
    rewrite app_nil_r, Hab in E. change (Z.of_nat 64) with 64 in E. rewrite <- Ha, Hab.
    change (Z.of_nat 64) with 64. rewrite E. cbn [mbind option_bind replicate Nat.sub drop]. clear E.
    rewrite !app_nil_r. pose proof (close_block [] a n l ltac:(simpl; lia) Hab Hll) as E.
    change (Z.of_nat (length (@nil Z))) with 0 in E. rewrite app_nil_l in E.
    destruct (zero_to 56 _ _) as [temp|]; [|discriminate E]. cbn [mbind option_bind] in *. rewrite E.
    cbn [mbind option_bind]. rewrite decide_False by lia.
    rewrite <- (md_absorb_one (tiger_compress 64) _ (_ ++ _)) by (cbn [app length]; rewrite length_app, length_replicate; lia).
    rewrite <- (md_absorb_block _ _ a) by done. do 2 f_equal. cbn [app length].
    replace (replicate (56 - 0) 0 ++ l) with (replicate 56 0 ++ l) by done.
    rewrite Hz. do 4 f_equal. lia.
  - cbn [mbind option_bind]. rewrite <- Ha. pose proof (close_block a b n l ltac:(lia) Hab Hll) as E.
    destruct (zero_to 56 _ _) as [temp|]; [|discriminate E]. cbn [mbind option_bind] in *. rewrite E.
    cbn [mbind option_bind]. rewrite decide_True by lia.
    rewrite Hz, (md_absorb_one (tiger_compress 64)) by (rewrite length_app; simpl; rewrite length_app, length_replicate; lia).
    do 5 f_equal. f_equal. lia.
Qed.

(** The hash of the first [n] bytes, whatever the stack held. *)
Lemma static_tiger_ok temp str (n : nat) :
  length temp = 64%nat -> (n <= length str)%nat ->
  static_tiger_on temp str (Z.of_nat n) = Some (tiger_final (take n str)).
Proof.
  intros Htemp Hn. unfold static_tiger_on. set (m := take n str).
  assert (Hm : length m = n) by (unfold m; rewrite length_take; lia).
  pose proof (md_blocks_ok (tiger_compress 64) n tiger_iv str 0 n ltac:(lia) ltac:(lia)) as Hbl. cbv zeta in Hbl.
  change (take n (drop 0 str)) with m in Hbl. change (Z.of_nat 0) with 0 in Hbl.
  rewrite Nat2Z.id, tiger_blocks_ok, Hbl. cbn [mbind option_bind]. clear Hbl.
  pose proof (md_tail_segment str 0 n ltac:(lia)) as Hseg. cbv zeta in Hseg.
  change (take n (drop 0 str)) with m in Hseg.
  set (t := md_tail m) in *. pose proof (md_tail_lt m) as Ht. fold t in Ht.
  pose proof (md_tail_length m) as Htl. fold t in Htl. rewrite Hm in Htl.
  pose proof (Nat.Div0.mod_le n 64) as Hle.
  pose proof (copy_loop str [] temp (0 + n - length t) (length t) ltac:(simpl; lia) ltac:(lia)) as Hc.
  change (length (@nil Z)) with 0%nat in Hc. cbn [app] in Hc. rewrite Nat.add_0_r, Hseg in Hc.
  change (Z.of_nat 0) with 0 in Hc. rewrite Nat2Z.id, Hc. cbn [mbind option_bind]. clear Hc Hseg.
  destruct (drop (length t) temp) as [|x b] eqn:Eb.
  { apply (f_equal length) in Eb. rewrite length_drop in Eb. simpl in Eb. lia. }
  assert (Hb : (length t + S (length b) = 64)%nat).
  { apply (f_equal length) in Eb. rewrite length_drop in Eb. simpl in Eb. lia. }
  rewrite wr_mid. cbn [mbind option_bind].
  set (u := ((length t + 8) / 8)%nat). set (k := (8 * u - (length t + 1))%nat).
  assert (Hu : (length t < 8 * u <= length t + 8)%nat).
  { unfold u. pose proof (Nat.div_mod_eq (length t + 8) 8). pose proof (Nat.mod_upper_bound (length t + 8) 8). lia. }
  replace (Z.of_nat (length t) + 1) with (Z.of_nat (length (t ++ [1]))) by (rewrite length_app; simpl; lia).
  replace (t ++ 1 :: b) with ((t ++ [1]) ++ b) by (by rewrite <- app_assoc).
  rewrite (zero_to_word_ok 8 k u) by (rewrite ?length_app; simpl; lia). cbn [mbind option_bind].
  rewrite app_assoc, tiger_pad_tail. fold t. rewrite Hm. apply tiger_last_ok; [done..|].
  rewrite !length_app, length_replicate, length_drop. simpl. lia.
Qed.

Lemma static_tiger_prefix str (n : nat) :
  (n <= length str)%nat -> static_tiger str (Z.of_nat n) = Some (tiger_final (take n str)).
Proof. intros Hn. by apply static_tiger_ok; [rewrite length_replicate|]. Qed.

(** ** The tree *)

Definition DIGEST_LEN : Z := 24.
Definition BLOCK_SIZE : Z := 1024.

(** [buf] is the static [tiger_buffer], [off] the offset of the pointer [s]. *)
Definition tiger_hash (prefix : Z) (s : list Z) (off len : Z) (buf : list Z) : option (list Z * list Z) :=
  buf ← wr buf 0 prefix;
  part ← sub_bytes s off len;
  buf ← blit buf 1 part;
  ndigest ← static_tiger buf (len + 1);
  Some (swap_digest (digest_bytes ndigest), buf).

(** The recursion of [tiger_tree_string] and of the two [tiger_tree_fd]: [leaf]
    hashes [length] bytes at [pos], [node] two digests; [wrap] is the type of
    the lengths. *)
Section Tree.
Context {St : Type} (wrap : Z -> Z).
Context (leaf : Z -> Z -> St -> io (list Z * St)) (node : list Z -> St -> io (list Z * St)).

Fixpoint tree (fuel : nat) (len pos block_size : Z) (st : St) : io (list Z * St) :=
  if block_size =? BLOCK_SIZE then
    let length := if BLOCK_SIZE <? wrap (len - pos) then BLOCK_SIZE else wrap (len - pos) in
    leaf pos length st
  else
    match fuel with
    | O => Undefined
    | S fuel =>
        if len <=? wrap (pos + block_size / 2) then tree fuel len pos (block_size / 2) st
        else
          '(d1, st) ← tree fuel len pos (block_size / 2) st;
          '(d2, st) ← tree fuel len (wrap (pos + block_size / 2)) (block_size / 2) st;
          node (d1 ++ d2) st
    end.
End Tree.

Definition hash_node (digests : list Z) (buf : list Z) : io (list Z * list Z) :=
  mem (tiger_hash 1 digests 0 (2 * DIGEST_LEN) buf).

(** Halving a block size that fits in 63 bits reaches [BLOCK_SIZE] in fewer
    than 64 steps, if it does. *)
Definition tiger_tree_string (s : list Z) (len pos block_size : Z) (buf : list Z) : io (list Z * list Z) :=
  tree u64 (fun pos length buf => mem (tiger_hash 0 s pos length buf)) hash_node 64 len pos block_size buf.

(** [while (block_size < len) block_size *= 2;] *)
Fixpoint grow (fuel : nat) (block_size len : Z) : option Z :=
  if block_size <? len then
    match fuel with O => None | S fuel => grow fuel (block_size * 2) len end
  else Some block_size.

Definition tiger_block_size (len : Z) : option Z := grow 54 BLOCK_SIZE len.

Definition tigertree_unsafe_string (string : list Z) (len : Z) (buf : list Z) : io (list Z * list Z) :=
  block_size ← mem (tiger_block_size len);
  tiger_tree_string string (u64 len) 0 block_size buf.

(** ** The specification of the tree: THEX

    The leaves are the blocks of 1024 bytes, the last one shorter, a single
    empty one for the empty message; neighbours are paired level by level, a
    last one without neighbour going up unchanged. *)
Definition leaf_count (n : nat) : nat := Nat.max 1 ((n + 1023) / 1024).
Definition leaf_block (m : list Z) (i : nat) : list Z := take 1024 (drop (1024 * i) m).
Definition leaf_digest (b : list Z) : list Z := tiger_spec (0 :: b).
Definition node_digest (l r : list Z) : list Z := tiger_spec (1 :: l ++ r).
Definition leaf_level (m : list Z) : list (list Z) :=
  (fun i => leaf_digest (leaf_block m i)) <$> seq 0 (leaf_count (length m)).

Fixpoint pair_up (level : list (list Z)) : list (list Z) :=
  match level with l :: r :: level => node_digest l r :: pair_up level | _ => level end.

(** As many levels as leaves are more than enough. *)
Definition tree_spec (m : list Z) : list Z :=
  let level := leaf_level m in hd [] (Nat.iter (length level) pair_up level).

(** *** Top-down and bottom-up *)

Fixpoint top (d : nat) (level : list (list Z)) : list Z :=
  match d with
  | O => hd [] level
  | S d =>
      if decide (length level <= 2 ^ d)%nat then top d level
      else node_digest (top d (take (2 ^ d) level)) (top d (drop (2 ^ d) level))
  end.

Lemma pair_up_app k a b : length a = (2 * k)%nat ->
  pair_up (a ++ b) = pair_up a ++ pair_up b /\ length (pair_up a) = k.
Proof.
  revert a. induction k as [|k IH]; intros a Ha; [by destruct a|].
  destruct a as [|x [|y a]]; simpl in Ha; try lia.
  destruct (IH a) as [E Hl]; [lia|]. simpl. by rewrite E, Hl.
Qed.

Lemma iter_pair_app d k a b : length a = (2 ^ d * k)%nat ->
  Nat.iter d pair_up (a ++ b) = Nat.iter d pair_up a ++ Nat.iter d pair_up b.
Proof.
  revert k a b. induction d as [|d IH]; intros k a b Ha; [done|].
  rewrite !Nat.iter_succ_r. rewrite Nat.pow_succ_r' in Ha.
  destruct (pair_up_app (2 ^ d * k) a b) as [E Hl]; [lia|]. rewrite E. by apply (IH k).
Qed.

Lemma iter_pair_top d level : (1 <= length level <= 2 ^ d)%nat -> Nat.iter d pair_up level = [top d level].
Proof.
  revert level. induction d as [|d IH]; intros level Hl.
  - simpl in Hl. destruct level as [|x [|? ?]]; simpl in *; [lia|done|lia].
  - rewrite Nat.pow_succ_r' in Hl. cbn [top]. case_decide as Hd.
    + rewrite Nat.iter_succ. by rewrite IH by lia.
    + rewrite Nat.iter_succ. pose proof (Nat.pow_nonzero 2 d). rewrite <- (take_drop (2 ^ d) level) at 1.
      rewrite (iter_pair_app d 1) by (rewrite length_take; lia).
      by rewrite !IH by (rewrite ?length_take, ?length_drop; lia).
Qed.

(** Levels past the root change nothing. *)
Lemma iter_pair_root d n level : (1 <= length level <= 2 ^ d)%nat -> (d <= n)%nat ->
  Nat.iter n pair_up level = [top d level].
Proof.
  intros Hl. induction 1 as [|n Hn IH]; [by apply iter_pair_top|]. by rewrite Nat.iter_succ, IH.
Qed.

Lemma leaf_count_pos n : (1 <= leaf_count n)%nat.
Proof. unfold leaf_count. lia. Qed.

Lemma leaf_level_length m : length (leaf_level m) = leaf_count (length m).
Proof. unfold leaf_level. by rewrite length_fmap, length_seq. Qed.

Lemma tree_spec_top d m : (leaf_count (length m) <= 2 ^ d)%nat -> tree_spec m = top d (leaf_level m).
Proof.
  intros Hd. pose proof (leaf_level_length m) as Hl. pose proof (leaf_count_pos (length m)).
  set (n := length (leaf_level m)) in *. assert (Hn : (n < 2 ^ n)%nat) by (apply Nat.pow_gt_lin_r; lia).
  unfold tree_spec. fold n. rewrite (iter_pair_top n) by (fold n; lia). cbn [hd].
  enough ([top n (leaf_level m)] = [top d (leaf_level m)]) as [= E]; [done|].
  rewrite <- (iter_pair_root n (Nat.max d n)) by (fold n; lia). apply iter_pair_root; fold n; lia.
Qed.

(** *** The recursion of the code *)

Section TreeOk.
Context {St : Type} (wrap : Z -> Z).
Context (leaf : Z -> Z -> St -> io (list Z * St)) (node : list Z -> St -> io (list Z * St)).
Context (m : list Z) (good : nat -> St -> Prop).

Let n := leaf_count (length m).

Hypothesis wrap_id : forall x, 0 <= x < 2 ^ 62 -> wrap x = x.
Hypothesis m_length : Z.of_nat (length m) < 2 ^ 60.
(** [good i st]: the leaves before [i] are hashed. *)
Hypothesis leaf_ok : forall i st, (i < n)%nat -> good i st ->
  exists st', leaf (1024 * Z.of_nat i) (Z.of_nat (length (leaf_block m i))) st
    = Ret (leaf_digest (leaf_block m i), st') /\ good (S i) st'.
Hypothesis node_ok : forall i l r st, good i st -> length l = 24%nat -> length r = 24%nat ->
  exists st', node (l ++ r) st = Ret (node_digest l r, st') /\ good i st'.

Lemma tiger_spec_length x : length (tiger_spec x) = 24%nat.
Proof. unfold tiger_spec, digest_bytes. by rewrite !length_app, !le_bytes_length. Qed.

Lemma top_length d level : level <> [] -> Forall (fun x => length x = 24%nat) level -> length (top d level) = 24%nat.
Proof.
  revert level. induction d as [|d IH]; intros level Hne HF.
  - destruct level; [done|]. by apply Forall_cons in HF as [? _].
  - cbn [top]. case_decide; [by apply IH|]. apply tiger_spec_length.
Qed.

Lemma leaf_level_24 : Forall (fun x => length x = 24%nat) (leaf_level m).
Proof. apply Forall_fmap, Forall_forall. intros i _. apply tiger_spec_length. Qed.

Lemma leaf_count_lt (i : nat) : (1 <= i)%nat -> (i < n)%nat <-> (1024 * i < length m)%nat.
Proof.
  intros Hi. unfold n, leaf_count. pose proof (Nat.div_mod_eq (length m + 1023) 1024).
  pose proof (Nat.mod_upper_bound (length m + 1023) 1024). lia.
Qed.

Lemma leaf_block_length (i : nat) : (i < n)%nat ->
  Z.of_nat (length (leaf_block m i))
  = if 1024 <? Z.of_nat (length m) - 1024 * Z.of_nat i then 1024 else Z.of_nat (length m) - 1024 * Z.of_nat i.
Proof.
  intros Hi. unfold leaf_block. rewrite length_take, length_drop.
  assert (1024 * i <= length m)%nat.
  { destruct (decide (i = 0)%nat) as [->|]; [lia|]. apply leaf_count_lt in Hi; lia. }
  destruct (Z.ltb_spec 1024 (Z.of_nat (length m) - 1024 * Z.of_nat i)); lia.
Qed.

Lemma drop_leaf i : (i < n)%nat -> leaf_digest (leaf_block m i) = hd [] (take (2 ^ 0) (drop i (leaf_level m))).
Proof.
  intros Hi. unfold leaf_level. rewrite (drop_S _ (leaf_digest (leaf_block m i))); [done|].
  by rewrite list_lookup_fmap, lookup_seq_lt.
Qed.

Lemma top_segment d i k : (i < n)%nat -> (1 <= k)%nat -> length (top d (take k (drop i (leaf_level m)))) = 24%nat.
Proof.
  intros Hi Hk. apply top_length.
  - intros E. apply (f_equal length) in E. rewrite length_take, length_drop, leaf_level_length in E.
    fold n in E. simpl in E. lia.
  - apply Forall_take, Forall_drop, leaf_level_24.
Qed.

Lemma tree_ok d fuel i st :
  (d <= fuel)%nat -> (d <= 50)%nat -> (i < n)%nat -> good i st ->
  exists st', tree wrap leaf node fuel (Z.of_nat (length m)) (1024 * Z.of_nat i) (1024 * 2 ^ Z.of_nat d) st
    = Ret (top d (take (2 ^ d) (drop i (leaf_level m))), st') /\ good (Nat.min (i + 2 ^ d) n) st'.
Proof.
  revert fuel i st. induction d as [|d IH]; intros fuel i st Hf Hd Hi Hg.
  - destruct (leaf_ok i st Hi Hg) as (st' & E & Hg'). exists st'.
    assert (Hw : wrap (Z.of_nat (length m) - 1024 * Z.of_nat i) = Z.of_nat (length m) - 1024 * Z.of_nat i).
    { apply wrap_id. destruct (decide (i = 0)%nat) as [->|]; [lia|]. apply leaf_count_lt in Hi; lia. }
    destruct fuel; cbn [tree]; rewrite Hw; unfold BLOCK_SIZE; rewrite Z.eqb_refl, <- leaf_block_length by done;
      rewrite E.
    all: split; [|by rewrite Nat.min_l by (simpl; lia); simpl; rewrite Nat.add_1_r].
    all: by rewrite drop_leaf.
  - destruct fuel as [|fuel]; [lia|]. cbn [tree]. unfold BLOCK_SIZE in *.
    pose proof (Nat.pow_nonzero 2 d ltac:(lia)) as Hp. pose proof (leaf_level_length m) as Hll. fold n in Hll.
    assert (Hpow : 2 ^ Z.of_nat d = Z.of_nat (2 ^ d)) by (by rewrite Nat2Z.inj_pow).
    assert (Hbig : 2 ^ Z.of_nat d <= 2 ^ 50) by (apply Z.pow_le_mono_r; lia).
    rewrite Nat2Z.inj_succ, Z.pow_succ_r by lia.
    destruct (Z.eqb_spec (1024 * (2 * 2 ^ Z.of_nat d)) 1024); [lia|].
    replace (1024 * (2 * 2 ^ Z.of_nat d) / 2) with (1024 * 2 ^ Z.of_nat d)
      by (apply (Z.div_unique _ _ _ 0); lia).
    assert (Hpos : (1024 * i <= length m)%nat).
    { destruct (decide (i = 0)%nat) as [->|]; [lia|]. apply leaf_count_lt in Hi; lia. }
    rewrite wrap_id by lia. rewrite <- Z.mul_add_distr_l, Hpow, <- Nat2Z.inj_add.
    pose proof (leaf_count_lt (i + 2 ^ d) ltac:(lia)) as Hlt.
    rewrite Nat.pow_succ_r'. cbn [top].
    destruct (Z.leb_spec (Z.of_nat (length m)) (1024 * Z.of_nat (i + 2 ^ d))) as [Hle|Hgt].
    + rewrite decide_True by (rewrite length_take, length_drop; lia).
      destruct (IH fuel i st ltac:(lia) ltac:(lia) Hi Hg) as (st' & E & Hg').
      rewrite Hpow in E. rewrite E. exists st'.
      rewrite !take_ge by (rewrite length_drop; lia). split; [done|]. by rewrite !Nat.min_r in * by lia.
    + rewrite decide_False by (rewrite length_take, length_drop; lia).
      destruct (IH fuel i st ltac:(lia) ltac:(lia) Hi Hg) as (st1 & E1 & Hg1).
      rewrite Hpow in E1. rewrite E1. cbn [mbind io_bind]. rewrite Nat.min_l in Hg1 by lia.
      destruct (IH fuel (i + 2 ^ d)%nat st1 ltac:(lia) ltac:(lia) ltac:(lia) Hg1) as (st2 & E2 & Hg2).
      rewrite Hpow in E2. rewrite E2. cbn [mbind io_bind].
      destruct (node_ok _ (top d (take (2 ^ d) (drop i (leaf_level m))))
        (top d (take (2 ^ d) (drop (i + 2 ^ d) (leaf_level m)))) st2 Hg2) as (st3 & E3 & Hg3);
        [apply top_segment; lia..|].
      exists st3. rewrite E3, take_take, Nat.min_l by lia.
      rewrite skipn_firstn_comm, drop_drop. split; [|by replace (i + 2 * 2 ^ d)%nat with (i + 2 ^ d + 2 ^ d)%nat by lia].
      by replace (2 * 2 ^ d - 2 ^ d)%nat with (2 ^ d)%nat by lia.
Qed.

(** From the first leaf, with the block size the callers compute. *)
Lemma tree_root_ok fuel bs d st :
  bs = 1024 * 2 ^ Z.of_nat d -> (n <= 2 ^ d)%nat -> (d <= fuel)%nat -> (d <= 50)%nat -> good 0 st ->
  exists st', tree wrap leaf node fuel (Z.of_nat (length m)) 0 bs st = Ret (tree_spec m, st') /\ good n st'.
Proof.
  intros -> Hn Hf Hd Hg. pose proof (leaf_count_pos (length m)).
  destruct (tree_ok d fuel 0 st Hf Hd ltac:(unfold n; lia) Hg) as (st' & E & Hg').
  exists st'. rewrite drop_0, take_ge, <- tree_spec_top in E by (rewrite ?leaf_level_length; done).
  split; [exact E|]. by rewrite Nat.min_r in Hg' by lia.
Qed.
End TreeOk.

(** *** The operations of [tiger.c] *)

Lemma grow_ok fuel k n : (k <= 50)%nat -> (50 - k <= fuel)%nat -> n <= 1024 * 2 ^ 50 ->
  exists d : nat, grow fuel (1024 * 2 ^ Z.of_nat k) n = Some (1024 * 2 ^ Z.of_nat d) /\ (d <= 50)%nat /\
    n <= 1024 * 2 ^ Z.of_nat d.
Proof.
  revert k. induction fuel as [|fuel IH]; intros k Hk Hf Hn; cbn [grow];
    destruct (Z.ltb_spec (1024 * 2 ^ Z.of_nat k) n) as [Hlt|Hge]; try by exists k.
  - replace k with 50%nat in Hlt by lia. change (Z.of_nat 50) with 50 in Hlt. lia.
  - destruct (decide (k = 50)%nat) as [->|Hne]; [change (Z.of_nat 50) with 50 in Hlt; lia|].
    replace (1024 * 2 ^ Z.of_nat k * 2) with (1024 * 2 ^ Z.of_nat (S k))
      by (rewrite Nat2Z.inj_succ, Z.pow_succ_r by lia; lia).
    apply IH; lia.
Qed.

(** The block size is that of the smallest tree with room for the message. *)
Lemma tiger_block_size_ok (n : nat) : Z.of_nat n < 2 ^ 60 ->
  exists d, tiger_block_size (Z.of_nat n) = Some (1024 * 2 ^ Z.of_nat d) /\ (d <= 50)%nat /\ (leaf_count n <= 2 ^ d)%nat.
Proof.
  intros Hn. destruct (grow_ok 54 0 (Z.of_nat n)) as (d & E & Hd & Hl); [lia..|].
  exists d. split; [exact E|]. split; [done|].
  rewrite <- (Nat2Z.inj_pow 2 d : _ = 2 ^ Z.of_nat d) in Hl. unfold leaf_count.
  pose proof (Nat.pow_nonzero 2 d ltac:(lia)).
  assert ((n + 1023) / 1024 < S (2 ^ d))%nat; [|lia]. apply Nat.Div0.div_lt_upper_bound. lia.
Qed.

Lemma tiger_hash_ok prefix s buf (off len : nat) :
  Z.of_nat (length buf) = 8192 -> (off + len <= length s)%nat -> Z.of_nat len < 8192 ->
  exists buf', tiger_hash prefix s (Z.of_nat off) (Z.of_nat len) buf
    = Some (tiger_spec (prefix :: take len (drop off s)), buf') /\ Z.of_nat (length buf') = 8192.
Proof.
  intros Hb Hs Hl. destruct buf as [|x buf]; [discriminate Hb|]. cbn [length] in Hb.
  unfold tiger_hash. change (x :: buf) with ([] ++ x :: buf). change 0 with (Z.of_nat (length (@nil Z))).
  rewrite wr_mid, sub_bytes_in by done. cbn [mbind option_bind app].
  set (part := take len (drop off s)).
  assert (Hp : length part = len) by (unfold part; rewrite length_take, length_drop; lia).
  change 1 with (Z.of_nat 1). rewrite blit_in by (simpl; lia). cbn [mbind option_bind firstn skipn Nat.add].
  rewrite <- Nat2Z.inj_add, static_tiger_prefix by (simpl; rewrite length_app, length_drop; lia).
  cbn [mbind option_bind]. eexists. split.
  - rewrite take_0, Nat.add_1_r. cbn [app firstn]. by rewrite take_app_length' by done.
  - simpl. rewrite length_app, length_drop. lia.
Qed.

Lemma hash_node_ok l r buf :
  Z.of_nat (length buf) = 8192 -> length l = 24%nat -> length r = 24%nat ->
  exists buf', hash_node (l ++ r) buf = Ret (node_digest l r, buf') /\ Z.of_nat (length buf') = 8192.
Proof.
  intros Hb Hl Hr. destruct (tiger_hash_ok 1 (l ++ r) buf 0 48) as (buf' & E & Hb');
    [done|rewrite length_app; lia|lia|].
  exists buf'. unfold hash_node. change (Z.of_nat 0) with 0 in E. change (Z.of_nat 48) with (2 * DIGEST_LEN) in E.
  rewrite E, drop_0, take_ge by (rewrite length_app; lia). done.
Qed.

Lemma leaf_block_in (m : list Z) i : (i < leaf_count (length m))%nat ->
  (1024 * i + length (leaf_block m i) <= length m)%nat /\ (length (leaf_block m i) <= 1024)%nat.
Proof.
  intros Hi. unfold leaf_block. rewrite length_take, length_drop.
  assert (1024 * i <= length m)%nat; [|lia].
  destruct (decide (i = 0)%nat) as [->|]; [lia|]. apply leaf_count_lt in Hi; lia.
Qed.

Lemma leaf_block_take (m : list Z) i : take (length (leaf_block m i)) (drop (1024 * i) m) = leaf_block m i.
Proof.
  unfold leaf_block. rewrite length_take. destruct (Nat.le_gt_cases 1024 (length (drop (1024 * i) m))).
  - by rewrite Nat.min_l by done.
  - by rewrite Nat.min_r, !take_ge by lia.
Qed.

(** C25: the recursion of [tiger_tree_string], which halves a power of two from
    the top, computes the root of the THEX tree, which pairs the hashes of the
    1024-byte blocks level by level; it ends, and reads and writes inside its
    buffers. *)
Theorem tree_string_thex (m buf : list Z) :
  Z.of_nat (length m) < 2 ^ 60 -> Z.of_nat (length buf) = 8192 ->
  exists buf', tigertree_unsafe_string m (Z.of_nat (length m)) buf = Ret (tree_spec m, buf').
Proof.
  intros Hm Hb. unfold tigertree_unsafe_string.
  destruct (tiger_block_size_ok (length m) Hm) as (d & -> & Hd & Hn). cbn [mem mbind io_bind].
  rewrite (u64_id (Z.of_nat (length m))) by (unfold word; lia).
  edestruct (tree_root_ok u64 (fun pos length buf => mem (tiger_hash 0 m pos length buf)) hash_node m
    (fun _ b => Z.of_nat (length b) = 8192)) as (buf' & E & _); [..|by exists buf'].
  - intros x Hx. apply u64_id. unfold word. lia.
  - done.
  - intros i b Hi Hlb. pose proof (leaf_block_in m i Hi) as [Hin Hle].
    destruct (tiger_hash_ok 0 m b (1024 * i) (length (leaf_block m i))) as (b' & Eb & Hb'); [done..|lia|].
    exists b'. replace (1024 * Z.of_nat i) with (Z.of_nat (1024 * i)) by lia.
    by rewrite Eb, leaf_block_take.
  - intros i l r b Hlb. by apply hash_node_ok.
  - reflexivity.
  - done.
  - lia.
  - done.
  - done.
Qed.

Lemma tree_string_thex_witness :
  exists buf', tigertree_unsafe_string [97; 98; 99] 3 (replicate (Z.to_nat 8192) 0) = Ret (tree_spec [97; 98; 99], buf').
Proof. apply (tree_string_thex [97; 98; 99]); [reflexivity|]. rewrite length_replicate. reflexivity. Defined.

(** The hash of a string. *)
Lemma tiger_string_ok (m : list Z) : tiger_unsafe_string m (Z.of_nat (length m)) = Some (tiger_spec m).
Proof. unfold tiger_unsafe_string. rewrite static_tiger_prefix, take_ge by done. done. Qed.

(** The loop over the passes on a machine whose [unsigned long] has 32
    bits or more, with its narrowing casts, computes the unrolled "official
    definition" that the source keeps for the Alpha. *)
Theorem compress_variants (lb a b c : Z) (x : keys) : 32 <= lb -> compress lb a b c x = compress_alpha a b c x.
Proof. apply compress_ok. Qed.

Lemma compress_variants_witness :
  compress 32 1 2 3 (Keys 0 1 2 3 4 5 6 7) = compress_alpha 1 2 3 (Keys 0 1 2 3 4 5 6 7).
Proof. apply (compress_variants 32). discriminate. Defined.

End Tiger.
