(* ===== verification/HashFd.v ===== *)
(** * Hashing strings, files and file ranges

    The hash entry points of [src/src/utils/lib/stubs_c.c]: the functions that
    [ML_HASH] defines for MD4, MD5 and SHA-1, and the tree hash of a range of a
    file ([tiger_tree_fd]).  They are proved for any hash that keeps the
    contract of [IncrementalHashOk], on the system calls of [Os]. *)

From Stdlib Require Import ZArith Lia.
From stdpp Require Import base option numbers list.
From S2P Require Import Prelude MerkleDamgard Os Md5 Md4 Sha1 Tiger.

Local Open Scope Z_scope.

Definition HASH_BUFFER_LEN : Z := 131072.

(** A read into a buffer of [cap] bytes. *)
Definition read_into {F} `{!Syscalls F} (cap : Z) (fd : F) (n : Z) : io (list Z * F) :=
  '(bs, fd) ← os_read fd n;
  if Z.of_nat (length bs) <=? cap then Ret (bs, fd) else Undefined.

(** [HASH_BUFFER_LEN > len ? len : HASH_BUFFER_LEN], a [size_t]. *)
Definition max_read (len : Z) : Z := u64 (if len <? HASH_BUFFER_LEN then len else HASH_BUFFER_LEN).

(** ** The functions of [ML_HASH] *)

Section MLHash.
Context {F Ctx : Type} `{!Syscalls F} `{!IncrementalHash Ctx}.

(** [while (len != 0)] *)
Fixpoint fd_loop (fuel : nat) (context : Ctx) (fd : F) (len : Z) : io (Ctx * F) :=
  if len =? 0 then Ret (context, fd)
  else
    match fuel with
    | O => Undefined
    | S fuel =>
        '(bs, fd) ← read_into HASH_BUFFER_LEN fd (max_read len);
        if Z.of_nat (length bs) =? 0 then Ret (context, fd)
        else
          context ← mem (ih_update context bs);
          fd_loop fuel context fd (len - Z.of_nat (length bs))
    end.

(** Every iteration but the last reads a byte or more. *)
Definition unsafe64_fd (fd : F) (pos len : Z) : io (list Z * F) :=
  fd ← os_lseek fd pos;
  '(context, fd) ← fd_loop (S (Z.to_nat len)) ih_init fd len;
  digest ← mem (ih_finish context);
  Ret (digest, fd).

Definition unsafe_string (string : list Z) (len : Z) : option (list Z) :=
  part ← sub_bytes string 0 len;
  context ← ih_update ih_init part;
  ih_finish context.

(** [fread (buf, 1, n, file)]: reads until [n] bytes, the end of the file or
    an error, which it does not tell apart. *)
Fixpoint fread (fuel : nat) (file : F) (n : Z) : list Z * F :=
  match fuel with
  | O => ([], file)
  | S fuel =>
      match read file n with
      | None => ([], file)
      | Some (bs, file) =>
          if Z.of_nat (length bs) =? 0 then ([], file)
          else if n <=? Z.of_nat (length bs) then (bs, file)
          else let '(rest, file) := fread fuel file (n - Z.of_nat (length bs)) in (bs ++ rest, file)
      end
  end.

(** [while ((len = fread (...)) > 0)]; [n] is [HASH_BUFFER_LEN]. *)
Fixpoint file_loop (fuel : nat) (n : Z) (context : Ctx) (file : F) : io (Ctx * F) :=
  let '(bs, file) := fread (Z.to_nat n) file n in
  if Z.of_nat (length bs) =? 0 then Ret (context, file)
  else
    match fuel with
    | O => Undefined
    | S fuel => context ← mem (ih_update context bs); file_loop fuel n context file
    end.

(** [size] bounds the number of iterations; a file that cannot be opened raises
    [Not_found], [None]. *)
Definition unsafe_file (size : nat) (file : option F) : io (option (list Z)) :=
  match file with
  | None => Ret None
  | Some file =>
      '(context, file) ← file_loop size HASH_BUFFER_LEN ih_init file;
      digest ← mem (ih_finish context);
      Ret (Some digest)
  end.
End MLHash.

(** ** The tree hash of a file range *)

(** [OFF_T], a signed 64-bit type. *)
Definition s64 (z : Z) : Z := (z + 9223372036854775808) mod 18446744073709551616 - 9223372036854775808.

Section TigerFd.
Context {F : Type} `{!Syscalls F}.

(** The file, the static [tiger_buffer] of the function, and that of
    [tiger_hash]. *)
Record tiger_st := TigerSt { t_fd : F; t_buf : list Z; t_hash_buf : list Z }.

(** [while (toread != 0)]; [curs] is an offset in [tiger_buffer]. *)
Fixpoint fill_leaf (fuel : nat) (curs toread : Z) (fd : F) (tiger_buffer : list Z) : io (F * list Z) :=
  if toread =? 0 then Ret (fd, tiger_buffer)
  else
    match fuel with
    | O => Undefined
    | S fuel =>
        '(bs, fd) ← os_read fd toread;
        if Z.of_nat (length bs) <=? 0 then Unix_error
        else
          tiger_buffer ← mem (blit tiger_buffer curs bs);
          fill_leaf fuel (curs + Z.of_nat (length bs)) (toread - Z.of_nat (length bs)) fd tiger_buffer
    end.

Definition fd_leaf (pos length : Z) (st : tiger_st) : io (list Z * tiger_st) :=
  '(fd, tiger_buffer) ← fill_leaf (Z.to_nat length) 1 (u64 length) (t_fd st) (t_buf st);
  '(digest, hash_buf) ← mem (Tiger.tiger_hash 0 tiger_buffer 1 length (t_hash_buf st));
  Ret (digest, TigerSt fd tiger_buffer hash_buf).

Definition fd_node (digests : list Z) (st : tiger_st) : io (list Z * tiger_st) :=
  '(digest, hash_buf) ← Tiger.hash_node digests (t_hash_buf st);
  Ret (digest, TigerSt (t_fd st) (t_buf st) hash_buf).

Definition tiger_tree_fd (len pos block_size : Z) (st : tiger_st) : io (list Z * tiger_st) :=
  Tiger.tree s64 fd_leaf fd_node 64 len pos block_size st.

Definition tigertree_unsafe64_fd (pos len : Z) (st : tiger_st) : io (list Z * tiger_st) :=
  fd ← os_lseek (t_fd st) pos;
  block_size ← mem (Tiger.tiger_block_size len);
  tiger_tree_fd len 0 block_size (TigerSt fd (t_buf st) (t_hash_buf st)).
End TigerFd.

Arguments tiger_st F : clear implicits.
Arguments TigerSt {F}.

(** ** Reading *)

Section Reading.
Context {F : Type} {S : Syscalls F} {content : list Z} `{!Readable S content}.

(** A read that respects its bound, inside the file. *)
Lemma read_into_ok fd (p : nat) (n cap : Z) :
  at_ fd p -> 0 < n -> n <= cap -> exists bs fd',
    read_into cap fd n = Ret (bs, fd') /\ at_ fd' (p + length bs) /\
    bs = take (length bs) (drop p content) /\ Z.of_nat (length bs) <= n /\
    ((p < length content)%nat -> bs <> []).
Proof.
  intros Hat Hn Hc. destruct (read_ok fd p (Z.to_nat n) Hat) as (bs & fd' & E & Hat' & Hbs & Hle & Hne).
  rewrite Z2Nat.id in E by lia. exists bs, fd'. unfold read_into, os_read. rewrite E. cbn [mbind io_bind].
  destruct (Z.leb_spec (Z.of_nat (length bs)) cap); [|lia].
  split; [done|]. split; [done|]. split; [done|]. split; [lia|]. intros Hp. apply Hne; [lia|done].
Qed.

Lemma max_read_range len : 0 < len < 2 ^ 63 -> 0 < max_read len <= HASH_BUFFER_LEN /\ max_read len <= len.
Proof.
  intros Hl. unfold max_read, HASH_BUFFER_LEN in *.
  destruct (Z.ltb_spec len 131072); rewrite u64_id by (unfold word; lia); lia.
Qed.
End Reading.

Section MLHashOk.
Context {F Ctx : Type} {S : Syscalls F} {content : list Z} `{!Readable S content}.
Context {I : IncrementalHash Ctx} {spec piece} `{!IncrementalHashOk I spec piece}.
(** What a buffer can hold may be given to one update. *)
Hypothesis pieces : forall p n, Z.of_nat n <= HASH_BUFFER_LEN -> piece (take n (drop p content)).

Lemma next_piece (p n : nat) (bs : list Z) :
  bs = take (length bs) (drop p content) -> (length bs <= n)%nat ->
  take n (drop p content) = bs ++ take (n - length bs) (drop (p + length bs) content).
Proof. intros E Hn. rewrite (segment_split content p n (length bs)) by done. by rewrite <- E. Qed.

Lemma fd_loop_ok fuel ctx m fd (p n : nat) :
  ih_repr ctx m -> at_ fd p -> (n <= fuel)%nat -> Z.of_nat n < 2 ^ 63 ->
  exists ctx' fd', fd_loop fuel ctx fd (Z.of_nat n) = Ret (ctx', fd') /\
    ih_repr ctx' (m ++ take n (drop p content)).
Proof.
  revert ctx m fd p n. induction fuel as [|fuel IH]; intros ctx m fd p n Hr Hat Hf Hn.
  { assert (n = 0)%nat as -> by lia. exists ctx, fd. split; [done|]. by rewrite take_0, app_nil_r. }
  cbn [fd_loop]. destruct (Z.eqb_spec (Z.of_nat n) 0) as [H0|H0].
  { assert (n = 0)%nat as -> by lia. exists ctx, fd. split; [done|]. by rewrite take_0, app_nil_r. }
  destruct (max_read_range (Z.of_nat n) ltac:(lia)) as [Hm1 Hm2].
  destruct (read_into_ok fd p (max_read (Z.of_nat n)) HASH_BUFFER_LEN Hat ltac:(lia) ltac:(lia))
    as (bs & fd' & -> & Hat' & Hbs & Hle & Hne).
  cbn [mbind io_bind]. destruct (Z.eqb_spec (Z.of_nat (length bs)) 0) as [Hz|Hz].
  - assert (drop p content = []) as ->.
    { apply drop_ge. destruct (decide (p < length content)%nat) as [Hp|]; [|lia].
      specialize (Hne Hp). destruct bs; [done|simpl in Hz; lia]. }
    exists ctx, fd'. split; [done|]. by rewrite take_nil, app_nil_r.
  - destruct (ih_update_ok ctx m bs Hr) as (ctx1 & -> & Hr1); [rewrite Hbs; apply pieces; lia|].
    cbn [mem mbind io_bind]. rewrite <- Nat2Z.inj_sub by lia.
    destruct (IH ctx1 (m ++ bs) fd' (p + length bs)%nat (n - length bs)%nat) as (ctx' & fd2 & E & Hr2);
      [done|done|lia|lia|].
    exists ctx', fd2. split; [done|]. by rewrite (next_piece p n bs), app_assoc by (done || lia).
Qed.

(** The digest of the range, or of what the file has of it. *)
Lemma unsafe64_fd_ok fd (q p n : nat) :
  at_ fd q -> Z.of_nat p < 2 ^ 63 -> Z.of_nat n < 2 ^ 63 ->
  exists fd', unsafe64_fd fd (Z.of_nat p) (Z.of_nat n) = Ret (spec (take n (drop p content)), fd').
Proof.
  intros Hat Hp Hn. destruct (lseek_ok fd q p Hat (or_intror Hp)) as (fd1 & E1 & Hat1).
  unfold unsafe64_fd, os_lseek. rewrite E1. cbn [mbind io_bind].
  destruct (fd_loop_ok (Datatypes.S (Z.to_nat (Z.of_nat n))) ih_init [] fd1 p n) as (ctx & fd2 & -> & Hr);
    [apply ih_init_ok|done|lia|done|].
  cbn [mbind io_bind]. exists fd2. by rewrite (ih_finish_ok _ _ Hr).
Qed.

Lemma unsafe_string_ok (string : list Z) (n : nat) :
  (n <= length string)%nat -> piece (take n string) ->
  unsafe_string string (Z.of_nat n) = Some (spec (take n string)).
Proof.
  intros Hn Hp. unfold unsafe_string. rewrite sub_bytes_0 by done. cbn [mbind option_bind].
  destruct (ih_update_ok ih_init [] _ ih_init_ok Hp) as (ctx & -> & Hr). exact (ih_finish_ok _ _ Hr).
Qed.

Lemma fread_ok fuel file (p n : nat) :
  at_ file p -> (n <= fuel)%nat ->
  exists file', fread fuel file (Z.of_nat n) = (take n (drop p content), file') /\
    at_ file' (p + length (take n (drop p content))).
Proof.
  revert file p n. induction fuel as [|fuel IH]; intros file p n Hat Hf.
  { assert (n = 0)%nat as -> by lia. exists file. split; [done|]. by rewrite take_0, Nat.add_0_r. }
  cbn [fread]. destruct (read_ok file p n Hat) as (bs & f1 & -> & Hat1 & Hbs & Hle & Hne).
  destruct (Z.eqb_spec (Z.of_nat (length bs)) 0) as [Hz|Hz].
  - assert (E : take n (drop p content) = []).
    { destruct (decide (n = 0)%nat) as [->|]; [done|]. rewrite drop_ge; [apply take_nil|].
      destruct (decide (p < length content)%nat) as [Hp|]; [|lia].
      specialize (Hne ltac:(lia) Hp). destruct bs; [done|simpl in Hz; lia]. }
    exists f1. rewrite E. split; [done|]. by replace (length bs) with 0%nat in Hat1 by lia.
  - rewrite (next_piece p n bs) by done. destruct (Z.leb_spec (Z.of_nat n) (Z.of_nat (length bs))).
    + replace (n - length bs)%nat with 0%nat by lia. rewrite take_0, app_nil_r. by exists f1.
    + rewrite <- Nat2Z.inj_sub by lia.
      destruct (IH f1 (p + length bs)%nat (n - length bs)%nat Hat1 ltac:(lia)) as (f2 & -> & Hat2).
      exists f2. split; [done|]. by rewrite length_app, Nat.add_assoc.
Qed.

Lemma file_loop_ok fuel n ctx m file (p : nat) :
  0 < n <= HASH_BUFFER_LEN -> ih_repr ctx m -> at_ file p -> (length content - p <= fuel)%nat ->
  exists ctx' file', file_loop fuel n ctx file = Ret (ctx', file') /\ ih_repr ctx' (m ++ drop p content).
Proof.
  intros Hn. revert ctx m file p. induction fuel as [|fuel IH]; intros ctx m file p Hr Hat Hf.
  all: cbn [file_loop].
  all: destruct (fread_ok (Z.to_nat n) file p (Z.to_nat n) Hat ltac:(lia)) as (f1 & E & Hat1).
  all: rewrite Z2Nat.id in E by lia; rewrite E; clear E.
  - rewrite (drop_ge content p) in * by lia. rewrite take_nil. exists ctx, f1. by rewrite app_nil_r.
  - pose proof (segment_split content p (length content) (Z.to_nat n)) as Hs.
    destruct (Z.eqb_spec (Z.of_nat (length (take (Z.to_nat n) (drop p content)))) 0) as [Hz|Hz].
    + rewrite length_take, length_drop in Hz. rewrite (drop_ge content p) by lia.
      exists ctx, f1. by rewrite app_nil_r.
    + rewrite length_take, length_drop in Hz.
      destruct (ih_update_ok ctx m (take (Z.to_nat n) (drop p content)) Hr) as (ctx1 & -> & Hr1); [apply pieces; lia|].
      cbn [mem mbind io_bind].
      destruct (IH ctx1 _ f1 _ Hr1 Hat1) as (ctx2 & f2 & E & Hr2); [rewrite length_take, length_drop; lia|].
      exists ctx2, f2. split; [exact E|]. rewrite <- app_assoc in Hr2.
      rewrite <- (take_drop (Z.to_nat n) (drop p content)), drop_drop.
      rewrite length_take, length_drop in Hr2.
      destruct (Nat.le_gt_cases (Z.to_nat n) (length content - p)); [by rewrite Nat.min_l in Hr2 by done|].
      rewrite Nat.min_r in Hr2 by lia. by rewrite !(drop_ge content (p + _)) in * by lia.
Qed.

(** The digest of the whole file. *)
Lemma unsafe_file_ok size file (q : nat) :
  at_ file 0 -> (length content <= size)%nat -> unsafe_file size (Some file) = Ret (Some (spec content)).
Proof.
  intros Hat Hs. unfold unsafe_file.
  destruct (file_loop_ok size HASH_BUFFER_LEN ih_init [] file 0) as (ctx & f & -> & Hr);
    [unfold HASH_BUFFER_LEN; lia|apply ih_init_ok|done|lia|].
  cbn [mbind io_bind]. by rewrite (ih_finish_ok _ _ Hr).
Qed.
End MLHashOk.

(** ** The tree of a file range *)

Section TigerFdOk.
Context {F : Type} {S : Syscalls F} {content : list Z} `{!Readable S content}.

Lemma fill_leaf_ok fuel fd (p n c : nat) tb :
  at_ fd p -> (p + n <= length content)%nat -> (n <= fuel)%nat -> (c + n <= length tb)%nat ->
  exists fd' tb', fill_leaf fuel (Z.of_nat c) (Z.of_nat n) fd tb = Ret (fd', tb') /\ at_ fd' (p + n) /\
    length tb' = length tb /\ take (c + n) tb' = take c tb ++ take n (drop p content).
Proof.
  revert fd p n c tb. induction fuel as [|fuel IH]; intros fd p n c tb Hat Hp Hf Hc.
  all: cbn [fill_leaf]; destruct (Z.eqb_spec (Z.of_nat n) 0) as [H0|H0];
    [assert (n = 0)%nat as -> by lia; exists fd, tb; by rewrite take_0, app_nil_r, !Nat.add_0_r|].
  - lia.
  - destruct (read_ok fd p n Hat) as (bs & f1 & E & Hat1 & Hbs & Hle & Hne).
    unfold os_read. rewrite E. cbn [mbind io_bind]. specialize (Hne ltac:(lia) ltac:(lia)).
    assert (Hpos : (1 <= length bs)%nat) by (destruct bs; [done|simpl; lia]).
    destruct (Z.leb_spec (Z.of_nat (length bs)) 0); [lia|].
    rewrite blit_in by lia. cbn [mem mbind io_bind]. rewrite <- Nat2Z.inj_add, <- Nat2Z.inj_sub by lia.
    set (tb1 := take c tb ++ bs ++ _).
    assert (Hl1 : length tb1 = length tb) by (unfold tb1; rewrite !length_app, length_take, length_drop; lia).
    destruct (IH f1 (p + length bs)%nat (n - length bs)%nat (c + length bs)%nat tb1 Hat1) as (f2 & tb2 & E2 & Hat2 & Hl2 & Ht2);
      [lia..|].
    exists f2, tb2. split; [exact E2|]. split; [by replace (p + n)%nat with (p + length bs + (n - length bs))%nat by lia|].
    split; [lia|]. replace (c + n)%nat with (c + length bs + (n - length bs))%nat by lia. rewrite Ht2.
    rewrite (next_piece p n bs) by done. rewrite app_assoc. f_equal. unfold tb1. rewrite app_assoc.
    apply take_app_length'. rewrite length_app, length_take. lia.
Qed.

(** What holds before leaf [i] of the tree of [n] bytes at [p]. *)
Definition fd_good (p n i : nat) (st : tiger_st F) : Prop :=
  at_ (t_fd st) (p + Nat.min (1024 * i) n) /\ Z.of_nat (length (t_buf st)) = 1025 /\
  Z.of_nat (length (t_hash_buf st)) = 8192.

Lemma fd_leaf_ok (p n i : nat) st (m := take n (drop p content)) :
  (p + n <= length content)%nat -> (i < Tiger.leaf_count n)%nat -> fd_good p n i st ->
  exists st', fd_leaf (1024 * Z.of_nat i) (Z.of_nat (length (Tiger.leaf_block m i))) st
    = Ret (Tiger.leaf_digest (Tiger.leaf_block m i), st') /\ fd_good p n (Datatypes.S i) st'.
Proof.
  intros Hp Hi (Hat & Htb & Hhb). assert (Hm : length m = n) by (unfold m; rewrite length_take, length_drop; lia).
  pose proof (Tiger.leaf_block_in m i ltac:(by rewrite Hm)) as [Hin Hle]. rewrite Hm in Hin.
  pose proof (Tiger.leaf_block_take m i) as Hlb. set (k := length (Tiger.leaf_block m i)) in *.
  rewrite Nat.min_l in Hat by lia. unfold fd_leaf.
  rewrite Nat2Z.id, (u64_id (Z.of_nat k)) by (unfold word; lia).
  destruct (fill_leaf_ok k (t_fd st) (p + 1024 * i) k 1 (t_buf st)) as (f & tb & E & Hat' & Hl & Ht); [done|lia..|].
  change (Z.of_nat 1) with 1 in E. rewrite E. cbn [mbind io_bind]. clear E.
  destruct (Tiger.tiger_hash_ok 0 tb (t_hash_buf st) 1 k) as (hb & E & Hhb'); [done|lia|lia|].
  change (Z.of_nat 1) with 1 in E. rewrite E. cbn [mem mbind io_bind]. eexists. split.
  - do 2 f_equal. unfold Tiger.leaf_digest. do 2 f_equal. rewrite <- Hlb. unfold m.
    rewrite skipn_firstn_comm, drop_drop, take_take, Nat.min_l by lia.
    transitivity (drop 1 (take (1 + k) tb)); [by rewrite skipn_firstn_comm; do 2 f_equal; lia|].
    rewrite Ht. replace (drop 1 (take 1 (t_buf st) ++ take k (drop (p + 1024 * i) content)))
      with (take k (drop (p + 1024 * i) content)); [done|].
    rewrite drop_app_ge; rewrite length_take, Nat.min_l by lia; [by rewrite drop_0|lia].
  - split; [|split; [simpl; lia|done]]. cbn [t_fd].
    assert (Hk : k = Nat.min 1024 (n - 1024 * i))
      by (unfold k, Tiger.leaf_block; rewrite length_take, length_drop, Hm; lia).
    by replace (p + Nat.min (1024 * Datatypes.S i) n)%nat with (p + 1024 * i + k)%nat by lia.
Qed.

Lemma fd_node_ok (p n i : nat) l r st :
  fd_good p n i st -> length l = 24%nat -> length r = 24%nat ->
  exists st', fd_node (l ++ r) st = Ret (Tiger.node_digest l r, st') /\ fd_good p n i st'.
Proof.
  intros (Hat & Htb & Hhb) Hl Hr. destruct (Tiger.hash_node_ok l r (t_hash_buf st) Hhb Hl Hr) as (hb & E & Hhb').
  unfold fd_node. rewrite E. eexists. split; [done|]. done.
Qed.

(** From a file open at any offset. *)
Lemma fd_tree_ok wrap (p n : nat) st :
  (forall x, 0 <= x < 2 ^ 62 -> wrap x = x) ->
  at_ (t_fd st) p -> Z.of_nat (length (t_buf st)) = 1025 -> Z.of_nat (length (t_hash_buf st)) = 8192 ->
  (p + n <= length content)%nat -> Z.of_nat n < 2 ^ 60 ->
  exists bs st', Tiger.tiger_block_size (Z.of_nat n) = Some bs /\
    Tiger.tree wrap fd_leaf fd_node 64 (Z.of_nat n) 0 bs st = Ret (Tiger.tree_spec (take n (drop p content)), st') /\
    at_ (t_fd st') (p + n) /\ Z.of_nat (length (t_buf st')) = 1025 /\ Z.of_nat (length (t_hash_buf st')) = 8192.
Proof.
  intros Hwrap Hat Htb Hhb Hp Hn.
  destruct (Tiger.tiger_block_size_ok n Hn) as (d & E & Hd & Hc).
  set (m := take n (drop p content)). assert (Hm : length m = n) by (unfold m; rewrite length_take, length_drop; lia).
  destruct (Tiger.tree_root_ok wrap fd_leaf fd_node m (fd_good p n) Hwrap) with (fuel := 64%nat) (d := d) (st := st)
    (bs := 1024 * 2 ^ Z.of_nat d) as (st' & Et & Hat' & Hg'); try done; try lia; rewrite ?Hm; try done.
  - intros i st1 Hi. by apply fd_leaf_ok.
  - intros i l r st1. apply fd_node_ok.
  - split; [|done]. by rewrite Nat.mul_0_r, Nat.add_0_r.
  - exists (1024 * 2 ^ Z.of_nat d), st'. split; [done|]. rewrite Hm in Et. split; [done|].
    rewrite Hm, Nat.min_r in Hat'; [done|].
    destruct (decide (1024 * Tiger.leaf_count n < n)%nat) as [Hlt|]; [|lia].
    pose proof (Tiger.leaf_count_pos n). rewrite <- Hm in Hlt at 2. apply Tiger.leaf_count_lt in Hlt; [|lia].
    rewrite Hm in Hlt. lia.
Qed.
End TigerFdOk.

(** ** MD4, MD5, SHA-1 and the tree, on any file *)

#[local] Existing Instance Md4.Md4.
#[local] Existing Instance Md4.Md4Ok.
#[local] Existing Instance Sha1.Sha1.
#[local] Existing Instance Sha1.Sha1Ok.

(** What a buffer can hold is a piece for the three hashes. *)
Lemma md4_buffer (content : list Z) p n :
  Z.of_nat n <= HASH_BUFFER_LEN -> Z.of_nat (length (take n (drop p content))) < 2 ^ 32 - 63.
Proof. unfold HASH_BUFFER_LEN. rewrite length_take. lia. Qed.

Lemma md5_buffer (content : list Z) p n :
  Z.of_nat n <= HASH_BUFFER_LEN -> Z.of_nat (length (take n (drop p content))) < 2 ^ 28.
Proof. unfold HASH_BUFFER_LEN. rewrite length_take. lia. Qed.

Lemma sha1_buffer (content : list Z) p n :
  Forall (word 8) content -> Z.of_nat n <= HASH_BUFFER_LEN -> Sha1.sha1_piece (take n (drop p content)).
Proof.
  intros Hc Hn. split; [by apply Forall_take, Forall_drop|]. unfold HASH_BUFFER_LEN in Hn. rewrite length_take. lia.
Qed.

(** C27: the digest of [n] bytes at [p] of a file, read through the shared
    buffer in whatever pieces the system returns, is for each of the three
    hashes the digest of those bytes; a range that ends after the file is
    hashed as far as it goes. *)
Theorem hash_range {F} {S : Syscalls F} {content} {R : Readable S content} (fd : F) (q p n : nat) :
  at_ fd q -> Forall (word 8) content -> Z.of_nat p < 2 ^ 63 -> Z.of_nat n < 2 ^ 63 ->
  let range := take n (drop p content) in
  (exists fd', unsafe64_fd (Ctx := Md4.MD4_CTX) fd (Z.of_nat p) (Z.of_nat n) = Ret (Md4.md4_spec range, fd')) /\
  (exists fd', unsafe64_fd (Ctx := md5_state) fd (Z.of_nat p) (Z.of_nat n) = Ret (md5_spec range, fd')) /\
  (exists fd', unsafe64_fd (Ctx := Sha1.sha1_context) fd (Z.of_nat p) (Z.of_nat n) = Ret (Sha1.sha1_spec range, fd')).
Proof.
  intros Hat Hc Hp Hn. split; [|split].
  - apply (unsafe64_fd_ok (IncrementalHashOk0 := Md4.Md4Ok) (md4_buffer content) fd q p n Hat Hp Hn).
  - apply (unsafe64_fd_ok (IncrementalHashOk0 := Md5Ok) (md5_buffer content) fd q p n Hat Hp Hn).
  - apply (unsafe64_fd_ok (IncrementalHashOk0 := Sha1.Sha1Ok) (fun p n => sha1_buffer content p n Hc) fd q p n Hat Hp Hn).
Qed.

(** A file of 40 bytes read at most three at a time, hashed from its tenth. *)
Lemma hash_range_witness :
  let content := replicate 40 7 in let fd := Disk content 0 2 in
  (exists fd', unsafe64_fd (Ctx := Md4.MD4_CTX) fd 10 20 = Ret (Md4.md4_spec (replicate 20 7), fd')) /\
  (exists fd', unsafe64_fd (Ctx := md5_state) fd 10 20 = Ret (md5_spec (replicate 20 7), fd')) /\
  (exists fd', unsafe64_fd (Ctx := Sha1.sha1_context) fd 10 20 = Ret (Sha1.sha1_spec (replicate 20 7), fd')).
Proof.
  apply (hash_range (content := replicate 40 7) (Disk (replicate 40 7) 0 2) 0 10 20).
  - split; reflexivity.
  - apply Forall_replicate. unfold word. lia.
  - reflexivity.
  - reflexivity.
Defined.

(** C26: the tree hash of [n] bytes at [p] of a file is the root of the THEX
    tree of those bytes: its leaves are read in order, whatever pieces the
    system returns. *)
Theorem tree_range {F} {S : Syscalls F} {content} {R : Readable S content} (fd : F) (q p n : nat) tb hb :
  at_ fd q -> (p + n <= length content)%nat -> Z.of_nat n < 2 ^ 60 ->
  Z.of_nat (length tb) = 1025 -> Z.of_nat (length hb) = 8192 ->
  exists st, tigertree_unsafe64_fd (Z.of_nat p) (Z.of_nat n) (TigerSt fd tb hb)
    = Ret (Tiger.tree_spec (take n (drop p content)), st).
Proof.
  intros Hat Hp Hn Htb Hhb. destruct (lseek_ok fd q p Hat ltac:(left; lia)) as (fd1 & E & Hat1).
  destruct (fd_tree_ok s64 p n (TigerSt fd1 tb hb)) as (bs & st & Eb & Et & _); try done.
  { intros x Hx. unfold s64. rewrite Z.mod_small; lia. }
  exists st. unfold tigertree_unsafe64_fd, os_lseek. cbn [t_fd t_buf t_hash_buf]. rewrite E. cbn [mbind io_bind].
  rewrite Eb. exact Et.
Qed.

Lemma tree_range_witness :
  exists st, tigertree_unsafe64_fd 1 5 (TigerSt (Disk [1; 2; 3; 4; 5; 6; 7] 0 1) (replicate (Z.to_nat 1025) 0) (replicate (Z.to_nat 8192) 0))
    = Ret (Tiger.tree_spec [2; 3; 4; 5; 6], st).
Proof.
  apply (tree_range (content := [1; 2; 3; 4; 5; 6; 7]) (Disk [1; 2; 3; 4; 5; 6; 7] 0 1) 0 1 5).
  - split; reflexivity.
  - simpl. lia.
  - reflexivity.
  - rewrite length_replicate. reflexivity.
  - rewrite length_replicate. reflexivity.
Defined.

(** On a disk that fails, hashing a range raises [Unix_error], but hashing
    the file by its name takes the error for the end of the file and gives the
    digest of the empty message. *)
Theorem file_error_unseen (size n : nat) :
  (0 < n)%nat ->
  unsafe64_fd (Ctx := md5_state) Broken 0 (Z.of_nat n) = Unix_error /\
  unsafe_file (Ctx := md5_state) size (Some Broken) = Ret (Some (md5_spec [])).
Proof.
  intros Hn. split.
  - unfold unsafe64_fd. cbn [os_lseek lseek BrokenCalls mbind io_bind fd_loop].
    destruct (Z.eqb_spec (Z.of_nat n) 0); [lia|done].
  - assert (E : forall fuel k, fread fuel Broken k = ([], Broken)) by (by intros []).
    unfold unsafe_file. destruct size; cbn [file_loop]; rewrite E; change (Z.of_nat (length (@nil Z)) =? 0) with true.
    all: cbn [mbind io_bind]; change (ih_finish ih_init) with (md5_finish md5_init);
      by rewrite (md5_finish_ok _ _ md5_init_repr).
Qed.

Lemma file_error_unseen_witness :
  unsafe64_fd (Ctx := md5_state) Broken 0 (Z.of_nat 5) = Unix_error /\
  unsafe_file (Ctx := md5_state) 3 (Some Broken) = Ret (Some (md5_spec [])).
Proof. apply (file_error_unseen 3 5). repeat constructor. Defined.
