(* ===== verification/Hasher.v ===== *)
(** * The hashing jobs

    [src/src/daemon/common/commonHasher_c.c], in its variant without threads
    ([HAVE_PTHREAD] undefined), with the queue of
    [src/src/daemon/common/commonHasher.ml] that drives it: a job is hashed at
    once when it is short, and by chunks of a million bytes, one per poll,
    when it is long. *)

From Stdlib Require Import ZArith Lia String.
From stdpp Require Import base option numbers list.
From S2P Require Import Prelude MerkleDamgard Os Md5 Md4 Sha1 Tiger HashFd.

Local Open Scope Z_scope.

#[local] Existing Instance Md4.Md4.
#[local] Existing Instance Sha1.Sha1.

(** ** [COMPLETE_HASH] *)

Section Direct.
Context {F Ctx : Type} `{!Syscalls F} `{!IncrementalHash Ctx}.

(** The branch [nread == 0] that follows the test [nread <= 0] is dead. *)
Fixpoint direct_loop (fuel : nat) (context : Ctx) (fd : F) (len : Z) : io (Ctx * F) :=
  if len =? 0 then Ret (context, fd)
  else
    match fuel with
    | O => Undefined
    | S fuel =>
        '(bs, fd) ← read_into HASH_BUFFER_LEN fd (max_read len);
        if Z.of_nat (length bs) <=? 0 then Unix_error
        else
          context ← mem (ih_update context bs);
          direct_loop fuel context fd (len - Z.of_nat (length bs))
    end.

Definition unsafe64_fd_direct (fd : F) (pos len : Z) : io (list Z * F) :=
  fd ← os_lseek fd pos;
  '(context, fd) ← direct_loop (S (Z.to_nat len)) ih_init fd len;
  digest ← mem (ih_finish context);
  Ret (digest, fd).
End Direct.

(** ** [PARTIAL_HASH] *)

Definition MAX_CHUNK_SIZE : Z := 1000000.

(** A stateful operation ends with a value, with an OCaml exception, or not. *)
Inductive outcome (S A : Type) :=
| Val (a : A) (s : S)
| Raise (s : S)
| Stuck.

Arguments Val {S A} a s.
Arguments Raise {S A} s.
Arguments Stuck {S A}.

Section Partial.
Context {F Ctx : Type} `{!Syscalls F} `{!IncrementalHash Ctx}.

(** The static variables of [HASH_NAME_step]. *)
Record statics := Statics { timer : Z; context : Ctx }.

(** [HASH_NAME_step (Val_unit)] *)
Definition step_init (st : statics) : statics := Statics (timer st) ih_init.

(** [while (job_len > 0 && ndone < MAX_CHUNK_SIZE)] *)
Fixpoint step_loop (fuel : nat) (ndone : Z) (context : Ctx) (fd : F) (len : Z) : outcome (Ctx * F * Z) unit :=
  if (0 <? len) && (ndone <? MAX_CHUNK_SIZE) then
    match fuel with
    | O => Stuck
    | S fuel =>
        match read_into HASH_BUFFER_LEN fd (max_read len) with
        | Undefined => Stuck
        | Unix_error => Raise (context, fd, len)
        | Ret (bs, fd) =>
            if Z.of_nat (length bs) <=? 0 then Raise (context, fd, len)
            else match ih_update context bs with
                 | None => Stuck
                 | Some context =>
                     step_loop fuel (ndone + Z.of_nat (length bs)) context fd (len - Z.of_nat (length bs))
                 end
        end
    end
  else Val tt (context, fd, len).

(** [HASH_NAME_step (job_v)]: [Some digest] is [Val_true], with the digest
    stored in the job.  A read returns a byte or more, so that a poll makes at
    most [MAX_CHUNK_SIZE] of them. *)
Definition hash_step (st : statics) (fd : F) (len : Z) : outcome (statics * F * Z) (option (list Z)) :=
  let t := s32 (timer st - 1) in
  if 0 <? t then Val None (Statics t (context st), fd, len)
  else
    match step_loop (Z.to_nat MAX_CHUNK_SIZE) 0 (context st) fd len with
    | Stuck => Stuck
    | Raise (c, fd, len) => Raise (Statics t c, fd, len)
    | Val _ (c, fd, len) =>
        if len <=? 0 then
          match ih_finish c with
          | None => Stuck
          | Some digest => Val (Some digest) (Statics 10 c, fd, len)
          end
        else Val None (Statics t c, fd, len)
    end.
End Partial.

Arguments statics Ctx : clear implicits.

(** ** The jobs *)

Inductive hash_method := MD4 | MD5 | SHA1 | TIGER.

(** [job_handler] is left out: [tick] logs the jobs it is called with;
    [job_error] is never written. *)
Record job := Job {
  job_name : string;
  job_begin : Z;
  job_len : Z;
  job_method : hash_method;
  job_result : list Z
}.

Definition with_result (j : job) (digest : list Z) : job :=
  Job (job_name j) (job_begin j) (job_len j) (job_method j) digest.

Section Jobs.
Context {F : Type} `{!Syscalls F}.

(** The static variables of [commonHasher_c.c]. *)
Record hasher := Hasher {
  h_fd : F;
  h_pos : Z;
  h_len : Z;
  h_finished : bool;
  h_md4 : statics Md4.MD4_CTX;
  h_md5 : statics md5_state;
  h_sha1 : statics Sha1.sha1_context;
  h_tiger : list Z;          (* tiger_buffer of tiger_tree_fd *)
  h_tiger_hash : list Z      (* tiger_buffer of tiger_hash *)
}.

Definition set_io (h : hasher) (fd : F) (pos len : Z) : hasher :=
  Hasher fd pos len (h_finished h) (h_md4 h) (h_md5 h) (h_sha1 h) (h_tiger h) (h_tiger_hash h).
Definition set_finished (h : hasher) (b : bool) : hasher :=
  Hasher (h_fd h) (h_pos h) (h_len h) b (h_md4 h) (h_md5 h) (h_sha1 h) (h_tiger h) (h_tiger_hash h).
Definition set_md4 (h : hasher) (s : statics Md4.MD4_CTX) : hasher :=
  Hasher (h_fd h) (h_pos h) (h_len h) (h_finished h) s (h_md5 h) (h_sha1 h) (h_tiger h) (h_tiger_hash h).
Definition set_md5 (h : hasher) (s : statics md5_state) : hasher :=
  Hasher (h_fd h) (h_pos h) (h_len h) (h_finished h) (h_md4 h) s (h_sha1 h) (h_tiger h) (h_tiger_hash h).
Definition set_sha1 (h : hasher) (s : statics Sha1.sha1_context) : hasher :=
  Hasher (h_fd h) (h_pos h) (h_len h) (h_finished h) (h_md4 h) (h_md5 h) s (h_tiger h) (h_tiger_hash h).

(** [job_len < MAX_CHUNK_SIZE]: the whole range at once; an exception leaves
    the digest as it was. *)
Definition start_direct {Ctx} `{!IncrementalHash Ctx} (h : hasher) (j : job) : outcome (hasher * job) unit :=
  match unsafe64_fd_direct (Ctx := Ctx) (h_fd h) (h_pos h) (h_len h) with
  | Ret (digest, fd) => Val tt (set_io h fd (h_pos h) (h_len h), with_result j digest)
  | Unix_error => Raise (h, j)
  | Undefined => Stuck
  end.

(** Otherwise: the context is initialised and the file positioned. *)
Definition start_partial (set_init : hasher -> hasher) (h : hasher) (j : job) : outcome (hasher * job) unit :=
  let h := set_init (set_finished h false) in
  match os_lseek (h_fd h) (h_pos h) with
  | Ret fd => Val tt (set_io h fd (h_pos h) (h_len h), j)
  | Unix_error => Raise (h, j)
  | Undefined => Stuck
  end.

(** The tree is computed at once, whatever its size. *)
Definition start_tiger (h : hasher) (j : job) : outcome (hasher * job) unit :=
  match
    (fd ← os_lseek (h_fd h) (h_pos h);
     block_size ← mem (Tiger.tiger_block_size (h_len h));
     Tiger.tree u64 fd_leaf fd_node 64 (u64 (h_len h)) 0 block_size (TigerSt fd (h_tiger h) (h_tiger_hash h)))
  with
  | Ret (digest, st) =>
      Val tt (Hasher (t_fd st) (h_pos h) (h_len h) (h_finished h) (h_md4 h) (h_md5 h) (h_sha1 h) (t_buf st) (t_hash_buf st),
              with_result j digest)
  | Unix_error => Raise (h, j)
  | Undefined => Stuck
  end.

Definition ml_job_start (h : hasher) (j : job) (fd : F) : outcome (hasher * job) unit :=
  let h := set_io h fd (job_begin j) (job_len j) in
  match job_method j with
  | MD4 => if h_len h <? MAX_CHUNK_SIZE then start_direct (Ctx := Md4.MD4_CTX) h j
           else start_partial (fun h => set_md4 h (step_init (h_md4 h))) h j
  | MD5 => if h_len h <? MAX_CHUNK_SIZE then start_direct (Ctx := md5_state) h j
           else start_partial (fun h => set_md5 h (step_init (h_md5 h))) h j
  | SHA1 => if h_len h <? MAX_CHUNK_SIZE then start_direct (Ctx := Sha1.sha1_context) h j
            else start_partial (fun h => set_sha1 h (step_init (h_sha1 h))) h j
  | TIGER => start_tiger h j
  end.

(** One poll of a job of the hash with statics [get]. *)
Definition poll {Ctx} `{!IncrementalHash Ctx} (get : hasher -> statics Ctx) (set : hasher -> statics Ctx -> hasher)
    (h : hasher) (j : job) : outcome (hasher * job) bool :=
  match hash_step (get h) (h_fd h) (h_len h) with
  | Stuck => Stuck
  | Raise (st, fd, len) => Raise (set (set_io h fd (h_pos h) len) st, j)
  | Val None (st, fd, len) => Val false (set (set_io h fd (h_pos h) len) st, j)
  | Val (Some digest) (st, fd, len) =>
      Val true (set_finished (set (set_io h fd (h_pos h) len) st) true, with_result j digest)
  end.

(** The case of [TIGER] ends the program. *)
Definition ml_job_done (h : hasher) (j : job) : outcome (hasher * job) bool :=
  if h_finished h then Val true (h, j)
  else match job_method j with
       | SHA1 => poll h_sha1 set_sha1 h j
       | MD5 => poll h_md5 set_md5 h j
       | MD4 => poll h_md4 set_md4 h j
       | TIGER => Stuck
       end.

(** ** The timer of [commonHasher.ml] *)

(** [openfile]: [Unix.openfile], [None] for an exception. *)
Context (openfile : string -> option F).

Record sys := Sys {
  fifo : list job;
  current_job : option job;
  hs : hasher;
  handled : list job         (* the jobs passed to their handlers, in order *)
}.

(** [with _ -> ...]: the next job of the queue.  Whatever happens while it is
    started, it is the current job. *)
Definition next_job (s : sys) : option sys :=
  match fifo s with
  | [] => Some s
  | j :: rest =>
      match openfile (job_name j) with
      | None => Some (Sys rest (current_job s) (hs s) (handled s))
      | Some fd =>
          match ml_job_start (hs s) j fd with
          | Val _ (h, j) | Raise (h, j) => Some (Sys rest (Some j) h (handled s))
          | Stuck => None
          end
      end
  end.

Definition tick (s : sys) : option sys :=
  match current_job s with
  | None => next_job s
  | Some j =>
      match ml_job_done (hs s) j with
      | Val true (h, j) => next_job (Sys (fifo s) None h (handled s ++ [j]))
      | Val false (h, j) => Some (Sys (fifo s) (Some j) h (handled s))
      | Raise (h, j) => next_job (Sys (fifo s) (Some j) h (handled s))
      | Stuck => None
      end
  end.

Fixpoint ticks (n : nat) (s : sys) : option sys :=
  match n with O => Some s | S n => s ← tick s; ticks n s end.
End Jobs.

Arguments hasher F : clear implicits.
Arguments sys F : clear implicits.

(** ** The functions of one hash *)

Section HashOk.
Context {F Ctx : Type} {S : Syscalls F} {content : list Z} `{!Readable S content}.
Context {I : IncrementalHash Ctx} {spec piece} `{!IncrementalHashOk I spec piece}.
Hypothesis pieces : forall p n, Z.of_nat n <= HASH_BUFFER_LEN -> piece (take n (drop p content)).

(** One read inside the file, and its update. *)
Lemma read_update (ctx : Ctx) m fd (p n : nat) :
  ih_repr ctx m -> at_ fd p -> (p + n <= length content)%nat -> 0 < Z.of_nat n < 2 ^ 63 ->
  exists bs fd' ctx', read_into HASH_BUFFER_LEN fd (max_read (Z.of_nat n)) = Ret (bs, fd') /\
    ih_update ctx bs = Some ctx' /\ at_ fd' (p + length bs) /\ (1 <= length bs <= n)%nat /\
    bs = take (length bs) (drop p content) /\ ih_repr ctx' (m ++ bs).
Proof.
  intros Hr Hat Hp Hn. destruct (max_read_range (Z.of_nat n) Hn) as [Hm1 Hm2].
  destruct (read_into_ok fd p (max_read (Z.of_nat n)) HASH_BUFFER_LEN Hat ltac:(lia) ltac:(lia))
    as (bs & fd' & E & Hat' & Hbs & Hle & Hne).
  specialize (Hne ltac:(lia)). assert (1 <= length bs)%nat by (destruct bs; [done|simpl; lia]).
  destruct (ih_update_ok ctx m bs Hr) as (ctx' & Hu & Hr'); [rewrite Hbs; apply pieces; lia|].
  exists bs, fd', ctx'. repeat (split; [done|]). split; [lia|]. by split.
Qed.

Lemma direct_loop_ok fuel (ctx : Ctx) m fd (p n : nat) :
  ih_repr ctx m -> at_ fd p -> (n <= fuel)%nat -> (p + n <= length content)%nat -> Z.of_nat n < 2 ^ 63 ->
  exists ctx' fd', direct_loop fuel ctx fd (Z.of_nat n) = Ret (ctx', fd') /\
    ih_repr ctx' (m ++ take n (drop p content)) /\ at_ fd' (p + n).
Proof.
  revert ctx m fd p n. induction fuel as [|fuel IH]; intros ctx m fd p n Hr Hat Hf Hp Hn.
  all: cbn [direct_loop]; destruct (Z.eqb_spec (Z.of_nat n) 0) as [H0|H0];
    [assert (n = 0)%nat as -> by lia; exists ctx, fd; by rewrite take_0, app_nil_r, Nat.add_0_r|].
  - lia.
  - destruct (read_update ctx m fd p n Hr Hat Hp ltac:(lia)) as (bs & f1 & c1 & -> & Hu & Hat1 & Hlen & Hbs & Hr1).
    cbn [mbind io_bind]. destruct (Z.leb_spec (Z.of_nat (length bs)) 0); [lia|].
    rewrite Hu. cbn [mem mbind io_bind]. rewrite <- Nat2Z.inj_sub by lia.
    destruct (IH c1 _ f1 (p + length bs)%nat (n - length bs)%nat Hr1 Hat1) as (c2 & f2 & E & Hr2 & Hat2); [lia..|].
    exists c2, f2. split; [exact E|]. rewrite (next_piece p n bs), app_assoc by (done || lia). split; [done|].
    by replace (p + n)%nat with (p + length bs + (n - length bs))%nat by lia.
Qed.

Lemma unsafe64_fd_direct_ok fd (q p n : nat) :
  at_ fd q -> (p + n <= length content)%nat -> Z.of_nat n < 2 ^ 63 ->
  exists fd', unsafe64_fd_direct (Ctx := Ctx) fd (Z.of_nat p) (Z.of_nat n) = Ret (spec (take n (drop p content)), fd').
Proof.
  intros Hat Hp Hn. destruct (lseek_ok fd q p Hat ltac:(left; lia)) as (fd1 & E1 & Hat1).
  unfold unsafe64_fd_direct, os_lseek. rewrite E1. cbn [mbind io_bind].
  destruct (direct_loop_ok (Datatypes.S (Z.to_nat (Z.of_nat n))) ih_init [] fd1 p n) as (ctx & fd2 & -> & Hr & _);
    [apply ih_init_ok|done|lia|done|done|].
  cbn [mbind io_bind]. exists fd2. by rewrite (ih_finish_ok _ _ Hr).
Qed.

(** A poll reads to the end, or a whole chunk. *)
Lemma step_loop_ok fuel ndone (ctx : Ctx) m fd (p n : nat) :
  ih_repr ctx m -> at_ fd p -> (p + n <= length content)%nat -> Z.of_nat n < 2 ^ 63 ->
  0 <= ndone -> MAX_CHUNK_SIZE - ndone <= Z.of_nat fuel ->
  exists k ctx' fd', step_loop fuel ndone ctx fd (Z.of_nat n) = Val tt (ctx', fd', Z.of_nat (n - k)) /\
    ih_repr ctx' (m ++ take k (drop p content)) /\ at_ fd' (p + k) /\ (k <= n)%nat /\
    (k = n \/ MAX_CHUNK_SIZE - ndone <= Z.of_nat k).
Proof.
  revert ndone ctx m fd p n. induction fuel as [|fuel IH]; intros ndone ctx m fd p n Hr Hat Hp Hn Hd Hf.
  all: cbn [step_loop]; destruct (Z.ltb_spec 0 (Z.of_nat n)), (Z.ltb_spec ndone MAX_CHUNK_SIZE); cbn [andb];
    try (exists 0%nat, ctx, fd; rewrite Nat.sub_0_r, take_0, app_nil_r, Nat.add_0_r; repeat (split; [done|]); lia).
  - destruct (read_update ctx m fd p n Hr Hat Hp ltac:(lia)) as (bs & f1 & c1 & -> & Hu & Hat1 & Hlen & Hbs & Hr1).
    destruct (Z.leb_spec (Z.of_nat (length bs)) 0); [lia|]. rewrite Hu, <- Nat2Z.inj_sub by lia.
    destruct (IH (ndone + Z.of_nat (length bs)) c1 _ f1 (p + length bs)%nat (n - length bs)%nat Hr1 Hat1)
      as (k & c2 & f2 & E & Hr2 & Hat2 & Hk & Hor); [lia..|].
    exists (length bs + k)%nat, c2, f2. rewrite E. split; [do 2 f_equal; lia|].
    rewrite (next_piece p (length bs + k) bs), app_assoc by (done || lia).
    replace (length bs + k - length bs)%nat with k by lia. split; [done|].
    split; [by rewrite Nat.add_assoc|]. split; [lia|]. lia.
Qed.

Lemma take_take_drop (b d k : nat) :
  take d (drop b content) ++ take k (drop (b + d) content) = take (d + k) (drop b content).
Proof. rewrite (segment_split content b (d + k) d) by lia. by replace (d + k - d)%nat with k by lia. Qed.

(** A poll of a job of [n] bytes at [b], of which [d] are hashed. *)
Lemma hash_step_ok st fd (b n d : nat) :
  ih_repr (context st) (take d (drop b content)) -> at_ fd (b + d) ->
  (b + n <= length content)%nat -> (d < n)%nat -> Z.of_nat n < 2 ^ 50 ->
  - 2 ^ 31 + Z.of_nat (n - d) / 1000000 < timer st <= 10 ->
  (exists st' fd', hash_step st fd (Z.of_nat (n - d)) = Val (Some (spec (take n (drop b content)))) (st', fd', 0) /\
     timer st' = 10) \/
  (exists st' fd' d', hash_step st fd (Z.of_nat (n - d)) = Val None (st', fd', Z.of_nat (n - d')) /\
     ih_repr (context st') (take d' (drop b content)) /\ at_ fd' (b + d') /\ (d' < n)%nat /\
     - 2 ^ 31 + Z.of_nat (n - d') / 1000000 < timer st' <= 10 /\
     Z.max (timer st' - 1) 0 + Z.of_nat (n - d') / 1000000 < Z.max (timer st - 1) 0 + Z.of_nat (n - d) / 1000000).
Proof.
  intros Hr Hat Hb Hd Hn Ht. unfold hash_step.
  assert (Hdiv : 0 <= Z.of_nat (n - d) / 1000000 < 2 ^ 31) by (split; [apply Z.div_pos; lia|apply Z.div_lt_upper_bound; lia]).
  rewrite s32_small by lia.
  destruct (Z.ltb_spec 0 (timer st - 1)) as [Hw|Hw].
  - right. exists (Statics (timer st - 1) (context st)), fd, d. simpl. split; [done|]. split; [done|]. split; [done|]. lia.
  - destruct (step_loop_ok (Z.to_nat MAX_CHUNK_SIZE) 0 (context st) _ fd (b + d) (n - d) Hr Hat)
      as (k & c & f & E & Hr' & Hat' & Hk & Hor); [lia..|].
    rewrite E. clear E. rewrite (take_take_drop b d k) in Hr'.
    destruct (Z.leb_spec (Z.of_nat (n - d - k)) 0) as [Hz|Hz].
    + left. replace (d + k)%nat with n in Hr' by lia. rewrite (ih_finish_ok _ _ Hr').
      exists (Statics 10 c), f. split; [|done]. by replace (Z.of_nat (n - d - k)) with 0 by lia.
    + right. exists (Statics (timer st - 1) c), f, (d + k)%nat. cbn [context timer].
      unfold MAX_CHUNK_SIZE in Hor. replace (n - (d + k))%nat with (n - d - k)%nat by lia.
      split; [done|]. split; [done|]. split; [by rewrite Nat.add_assoc|]. split; [lia|].
      assert (Z.of_nat (n - d - k) / 1000000 <= Z.of_nat (n - d) / 1000000 - 1); [|lia].
      replace (Z.of_nat (n - d) / 1000000 - 1) with ((Z.of_nat (n - d) + -1 * 1000000) / 1000000)
        by (rewrite Z.div_add by lia; lia).
      apply Z.div_le_mono; lia.
Qed.
End HashOk.

(** ** The statics of one hash, among those of the file *)

(** Between two jobs the timers are those of [PARTIAL_HASH], the buffers have
    their sizes. *)
Definition quiet {F} (h : hasher F) : Prop :=
  0 <= timer (h_md4 h) <= 10 /\ 0 <= timer (h_md5 h) <= 10 /\ 0 <= timer (h_sha1 h) <= 10 /\
  Z.of_nat (length (h_tiger h)) = 1025 /\ Z.of_nat (length (h_tiger_hash h)) = 8192.

Class StaticsOf {F Ctx} `{!Syscalls F} `{!IncrementalHash Ctx} (m : hash_method)
    (get : hasher F -> statics Ctx) (set : hasher F -> statics Ctx -> hasher F) := {
  get_set h st : get (set h st) = st;
  set_set h st st' : set (set h st) st' = set h st';
  set_io_set h st fd pos len : set_io (set h st) fd pos len = set (set_io h fd pos len) st;
  set_kept h st : h_fd (set h st) = h_fd h /\ h_pos (set h st) = h_pos h /\ h_len (set h st) = h_len h /\
    h_finished (set h st) = h_finished h;
  get_finished h b : get (set_finished h b) = get h;
  get_io h fd pos len : get (set_io h fd pos len) = get h;
  set_quiet h st : quiet h -> 0 <= timer st <= 10 -> quiet (set h st);
  quiet_timer h : quiet h -> 0 <= timer (get h) <= 10;
  polled h j : job_method j = m -> h_finished h = false -> ml_job_done h j = poll get set h j;
  started h j fd : job_method j = m -> ml_job_start h j fd =
    if job_len j <? MAX_CHUNK_SIZE then start_direct (Ctx := Ctx) (set_io h fd (job_begin j) (job_len j)) j
    else start_partial (fun h => set h (step_init (get h))) (set_io h fd (job_begin j) (job_len j)) j
}.

Ltac statics_laws :=
  unfold quiet; intros; repeat match goal with h : hasher _ |- _ => destruct h end; simpl in *;
  try tauto; unfold ml_job_done, ml_job_start; simpl;
  repeat match goal with H : job_method _ = _ |- _ => rewrite H end; by subst.

#[export] Instance Md4Statics {F} `{!Syscalls F} : StaticsOf (F := F) MD4 h_md4 set_md4.
Proof. split; statics_laws. Qed.

#[export] Instance Md5Statics {F} `{!Syscalls F} : StaticsOf (F := F) MD5 h_md5 set_md5.
Proof. split; statics_laws. Qed.

#[export] Instance Sha1Statics {F} `{!Syscalls F} : StaticsOf (F := F) SHA1 h_sha1 set_sha1.
Proof. split; statics_laws. Qed.

(** ** Polling one long job *)

Section Poll.
Context {F Ctx : Type} {S : Syscalls F} {content : list Z} `{!Readable S content}.
Context {I : IncrementalHash Ctx} {spec piece} `{!IncrementalHashOk I spec piece}.
Context {m : hash_method} {get : hasher F -> statics Ctx} {set : hasher F -> statics Ctx -> hasher F}.
Context `{!StaticsOf m get set} (openfile : string -> option F).
Hypothesis pieces : forall p n, Z.of_nat n <= HASH_BUFFER_LEN -> piece (take n (drop p content)).

(** [d] of the [n] bytes at [b] are hashed. *)
Definition running (b n d : nat) (h : hasher F) : Prop :=
  h_finished h = false /\ ih_repr (context (get h)) (take d (drop b content)) /\ at_ (h_fd h) (b + d) /\
  h_len h = Z.of_nat (n - d) /\ (d < n)%nat /\
  - 2 ^ 31 + Z.of_nat (n - d) / 1000000 < timer (get h) <= 10.

(** The polls that are left before the last one, at most. *)
Definition polls_left (h : hasher F) : Z := Z.max (timer (get h) - 1) 0 + h_len h / 1000000.

Lemma poll_ok (b n d : nat) h j :
  (b + n <= length content)%nat -> Z.of_nat n < 2 ^ 50 -> running b n d h ->
  (exists fd st, timer st = 10 /\
     poll get set h j = Val true (set_finished (set (set_io h fd (h_pos h) 0) st) true,
                                  with_result j (spec (take n (drop b content))))) \/
  (exists fd len st d', let h' := set (set_io h fd (h_pos h) len) st in
     poll get set h j = Val false (h', j) /\ running b n d' h' /\ polls_left h' < polls_left h).
Proof.
  intros Hb Hn (Hfin & Hr & Hat & Hlen & Hd & Ht).
  destruct (hash_step_ok pieces (get h) (h_fd h) b n d Hr Hat Hb Hd Hn Ht)
    as [(st & fd & E & Hst)|(st & fd & d' & E & Hr' & Hat' & Hd' & Ht' & Hm)].
  - left. exists fd, st. split; [done|]. unfold poll. by rewrite Hlen, E.
  - right. exists fd, (Z.of_nat (n - d')), st, d'. set (h' := set _ _).
    destruct (set_kept (set_io h fd (h_pos h) (Z.of_nat (n - d'))) st) as (Ef & Ep & El & Efin).
    split; [|split].
    + unfold poll. by rewrite Hlen, E.
    + unfold running. unfold h'. rewrite Ef, El, Efin, get_set. cbn [set_io h_fd h_len h_finished].
      split_and!; try done; apply Ht'.
    + unfold polls_left. unfold h'. rewrite El, get_set, Hlen. exact Hm.
Qed.

(** The job is reported, with its digest, after a bounded number of ticks. *)
Lemma poll_run q log j (b n d : nat) h :
  job_method j = m -> (b + n <= length content)%nat -> Z.of_nat n < 2 ^ 50 -> running b n d h ->
  exists k fd len st, Z.of_nat k <= 1 + polls_left h /\ timer st = 10 /\
    ticks openfile k (Sys q (Some j) h log)
    = next_job openfile (Sys q None (set_finished (set (set_io h fd (h_pos h) len) st) true)
        (log ++ [with_result j (spec (take n (drop b content)))])).
Proof.
  intros Hj Hb Hn. remember (Z.to_nat (polls_left h)) as fuel eqn:Hfuel.
  revert h d Hfuel. induction fuel as [fuel IH] using lt_wf_ind. intros h d Hfuel Hrun.
  assert (Hpos : 0 <= polls_left h).
  { destruct Hrun as (_ & _ & _ & Hlen & _). unfold polls_left.
    assert (0 <= h_len h / 1000000) by (apply Z.div_pos; lia). lia. }
  assert (Hfin : h_finished h = false) by apply Hrun.
  destruct (poll_ok b n d h j Hb Hn Hrun) as [(fd & st & Hst & E)|(fd & len & st & d' & E & Hrun' & Hm)].
  - exists 1%nat, fd, 0, st. split; [lia|]. split; [done|]. cbn [ticks]. unfold tick. cbn [current_job hs].
    rewrite polled, E by done. cbn [fifo handled]. by destruct (next_job _ _).
  - cbv zeta in E, Hrun', Hm. set (h' := set (set_io h fd (h_pos h) len) st) in *.
    assert (Hpos' : 0 <= polls_left h').
    { destruct Hrun' as (_ & _ & _ & Hlen & _). unfold polls_left.
      assert (0 <= h_len h' / 1000000) by (apply Z.div_pos; lia). lia. }
    destruct (IH (Z.to_nat (polls_left h')) ltac:(lia) h' d' eq_refl Hrun') as (k & fd2 & len2 & st2 & Hk & Hst & Ek).
    exists (Datatypes.S k), fd2, len2, st2. split; [lia|]. split; [done|]. cbn [ticks]. unfold tick at 1.
    cbn [current_job hs]. rewrite polled, E by done. cbn [fifo handled mbind option_bind]. rewrite Ek.
    unfold h'. rewrite set_io_set, set_set. destruct (set_kept (set_io h fd (h_pos h) len) st) as (_ & -> & _). done.
Qed.
End Poll.

(** ** The queue *)

Definition method_spec (m : hash_method) : list Z -> list Z :=
  match m with MD4 => Md4.md4_spec | MD5 => md5_spec | SHA1 => Sha1.sha1_spec | TIGER => Tiger.tree_spec end.

(** No job is under way. *)
Definition idle {F} (h : hasher F) : Prop := h_finished h = true /\ quiet h.

(** The static variables when the program starts; [fd] stands for no file. *)
Definition fresh {F} (fd : F) : hasher F :=
  Hasher fd 0 0 true (Statics 0 ih_init) (Statics 0 ih_init) (Statics 0 ih_init)
    (replicate (Z.to_nat 1025) 0) (replicate (Z.to_nat 8192) 0).

Lemma fresh_idle {F} (fd : F) : idle (fresh fd).
Proof.
  split; [done|]. split; [done|]. split; [done|]. split; [done|].
  unfold fresh, h_tiger, h_tiger_hash. by rewrite !length_replicate, !Z2Nat.id by lia.
Qed.

Section Queue.
Context {F : Type} {S : Syscalls F} (files : string -> list Z) {R : forall nm, Readable S (files nm)}.
Context (openfile : string -> option F).

(** The range of the job is in the file of that name, which can be opened. *)
Definition job_range (j : job) : list Z := take (Z.to_nat (job_len j)) (drop (Z.to_nat (job_begin j)) (files (job_name j))).

Definition job_ok (j : job) : Prop :=
  0 <= job_begin j /\ 0 <= job_len j < 2 ^ 50 /\
  job_begin j + job_len j <= Z.of_nat (length (files (job_name j))) /\ Forall (word 8) (files (job_name j)) /\
  exists fd, openfile (job_name j) = Some fd /\ at_ (Readable := R (job_name j)) fd 0.

Definition finished_job (j : job) : job := with_result j (method_spec (job_method j) (job_range j)).

(** The polls of a job, at most. *)
Definition job_polls (j : job) : Z := 11 + job_len j / 1000000.

Lemma start_direct_ok {Ctx} {I : IncrementalHash Ctx} {spec piece} `{!IncrementalHashOk I spec piece} h j fd :
  (forall p n, Z.of_nat n <= HASH_BUFFER_LEN -> piece (take n (drop p (files (job_name j))))) ->
  job_ok j -> at_ (Readable := R (job_name j)) fd 0 ->
  exists fd', start_direct (Ctx := Ctx) (set_io h fd (job_begin j) (job_len j)) j
    = Val tt (set_io h fd' (job_begin j) (job_len j), with_result j (spec (job_range j))).
Proof.
  intros Hp (Hb & Hl & Hbl & _) Hat.
  destruct (unsafe64_fd_direct_ok (Ctx := Ctx) Hp fd 0 (Z.to_nat (job_begin j)) (Z.to_nat (job_len j)) Hat ltac:(lia) ltac:(lia))
    as (fd' & E).
  rewrite !Z2Nat.id in E by lia. exists fd'. unfold start_direct. cbn [set_io h_fd h_pos h_len]. by rewrite E.
Qed.

Lemma ticks_add k k' s : ticks openfile (k + k') s = s' ← ticks openfile k s; ticks openfile k' s'.
Proof.
  revert s. induction k as [|k IH]; intros s; [done|]. cbn [Nat.add ticks].
  destruct (tick openfile s); [apply IH|done].
Qed.

(** A job that [ml_job_start] finishes is reported by the next tick. *)
Lemma finished_tick q log h j : h_finished h = true ->
  ticks openfile 1 (Sys q (Some j) h log) = next_job openfile (Sys q None h (log ++ [j])).
Proof.
  intros Hf. cbn [ticks]. unfold tick. cbn [current_job hs]. unfold ml_job_done. rewrite Hf.
  cbn [fifo handled]. by destruct (next_job _ _).
Qed.

(** What starting a job of one of the three hashes leads to. *)
Lemma hash_job_ok {Ctx} {I : IncrementalHash Ctx} {spec piece} `{!IncrementalHashOk I spec piece}
    {m get set} `{!StaticsOf (F := F) (Ctx := Ctx) m get set} q log h j fd :
  (forall p n, Z.of_nat n <= HASH_BUFFER_LEN -> piece (take n (drop p (files (job_name j))))) ->
  job_method j = m -> job_ok j -> at_ (Readable := R (job_name j)) fd 0 -> idle h ->
  exists h1 j1 k h', ml_job_start h j fd = Val tt (h1, j1) /\ Z.of_nat k <= job_polls j /\ idle h' /\
    ticks openfile k (Sys q (Some j1) h1 log)
    = next_job openfile (Sys q None h' (log ++ [with_result j (spec (job_range j))])).
Proof.
  intros Hp Hm Hj Hat [Hfin Hq]. pose proof Hj as (Hb & Hl & Hbl & _).
  assert (Hdiv : 0 <= job_len j / 1000000 < 2 ^ 31) by (split; [apply Z.div_pos; lia|apply Z.div_lt_upper_bound; lia]).
  unfold job_polls. rewrite started by done. set (h0 := set_io h fd (job_begin j) (job_len j)).
  destruct (Z.ltb_spec (job_len j) MAX_CHUNK_SIZE) as [Hs|Hs]; unfold MAX_CHUNK_SIZE in Hs.
  - destruct (start_direct_ok (Ctx := Ctx) h j fd Hp Hj Hat) as (fd' & E). unfold h0. rewrite E.
    eexists _, _, 1%nat, _. split; [done|]. split; [lia|]. split; [|by apply finished_tick]. done.
  - destruct (lseek_ok (Readable := R (job_name j)) fd 0 (Z.to_nat (job_begin j)) Hat ltac:(left; lia)) as (fd1 & E & Hat1).
    rewrite Z2Nat.id in E by lia. set (st := step_init (get (set_finished h0 false))).
    assert (Ht : timer st = timer (get h)) by (unfold st; rewrite get_finished; unfold h0; by rewrite get_io).
    pose proof (quiet_timer h Hq) as Htq.
    set (h1 := set (set_io (set_finished h0 false) fd1 (job_begin j) (job_len j)) st).
    destruct (set_kept (set_io (set_finished h0 false) fd1 (job_begin j) (job_len j)) st) as (Ef & Ep & El & Efin).
    fold h1 in Ef, Ep, El, Efin. assert (Hg : get h1 = st) by apply get_set.
    destruct (poll_run openfile Hp q log j (Z.to_nat (job_begin j)) (Z.to_nat (job_len j)) 0 h1) as (k & f & len & st2 & Hk & Hst & Ek);
      [done|lia|lia| |].
    { unfold running. rewrite Ef, El, Efin, Hg, Nat.sub_0_r, Nat.add_0_r, Z2Nat.id by lia.
      split; [done|]. split; [apply ih_init_ok|]. split; [done|]. split; [done|]. rewrite Ht. lia. }
    exists h1, j, k. eexists. split; [|split; [|split; [|exact Ek]]].
    + unfold start_partial. fold st.
      destruct (set_kept (set_finished h0 false) st) as (Ef2 & Ep2 & El2 & _).
      rewrite Ef2, Ep2, El2. cbn [set_finished h0 set_io h_fd h_pos h_len]. unfold os_lseek. rewrite E, set_io_set.
      done.
    + unfold polls_left in Hk. rewrite Hg, Ht, El in Hk. cbn [set_io h_len] in Hk. lia.
    + split; [done|]. apply (set_quiet (set_io h1 f (h_pos h1) len) st2); [|lia].
      apply (set_quiet (set_io (set_finished h0 false) fd1 (job_begin j) (job_len j)) st); [exact Hq|lia].
Qed.

(** The tree of a job. *)
Lemma tiger_job_ok q log h j fd :
  job_method j = TIGER -> job_ok j -> at_ (Readable := R (job_name j)) fd 0 -> idle h ->
  exists h1 j1 h', ml_job_start h j fd = Val tt (h1, j1) /\ idle h' /\
    ticks openfile 1 (Sys q (Some j1) h1 log)
    = next_job openfile (Sys q None h' (log ++ [with_result j (Tiger.tree_spec (job_range j))])).
Proof.
  intros Hm (Hb & Hl & Hbl & _) Hat [Hfin (H4 & H5 & H1 & Ht & Hth)].
  destruct (lseek_ok (Readable := R (job_name j)) fd 0 (Z.to_nat (job_begin j)) Hat ltac:(left; lia)) as (fd1 & E & Hat1).
  destruct (fd_tree_ok (Readable0 := R (job_name j)) u64 (Z.to_nat (job_begin j)) (Z.to_nat (job_len j))
    (TigerSt fd1 (h_tiger h) (h_tiger_hash h))) as (bs & st & Eb & Et & _ & Htb & Hhb); try done; try lia.
  { intros x Hx. apply u64_id. unfold word. lia. }
  rewrite Z2Nat.id in E, Eb, Et by lia. unfold ml_job_start. rewrite Hm. unfold start_tiger.
  cbn [set_io h_fd h_pos h_len h_tiger h_tiger_hash]. unfold os_lseek. rewrite E. cbn [mbind io_bind].
  rewrite Eb. cbn [mem mbind io_bind]. rewrite (u64_id (job_len j)) by (unfold word; lia). rewrite Et.
  eexists _, _, _. split; [done|]. split; [|by apply finished_tick]. done.
Qed.

Lemma job_done_ok q log h j fd :
  job_ok j -> at_ (Readable := R (job_name j)) fd 0 -> idle h ->
  exists h1 j1 k h', ml_job_start h j fd = Val tt (h1, j1) /\ Z.of_nat k <= job_polls j /\ idle h' /\
    ticks openfile k (Sys q (Some j1) h1 log) = next_job openfile (Sys q None h' (log ++ [finished_job j])).
Proof.
  intros Hj Hat Hh. pose proof Hj as (Hb & Hl & Hbl & Hw & _). unfold finished_job.
  destruct (job_method j) eqn:Hm.
  - apply (hash_job_ok (IncrementalHashOk0 := Md4.Md4Ok) (m := MD4) q log h j fd); try done. apply md4_buffer.
  - apply (hash_job_ok (IncrementalHashOk0 := Md5Ok) (m := MD5) q log h j fd); try done. apply md5_buffer.
  - apply (hash_job_ok (IncrementalHashOk0 := Sha1.Sha1Ok) (m := SHA1) q log h j fd); try done.
    intros p n. by apply sha1_buffer.
  - destruct (tiger_job_ok q log h j fd Hm Hj Hat Hh) as (h1 & j1 & h' & E & Hh' & Ek).
    exists h1, j1, 1%nat, h'. split; [done|]. split; [|done]. unfold job_polls.
    assert (0 <= job_len j / 1000000) by (apply Z.div_pos; lia). lia.
Qed.

Definition queue_polls (q : list job) : Z := foldr (fun j n => job_polls j + n) 0 q.

(** From a tick that finds no job under way. *)
Lemma queue_ok q log h :
  Forall job_ok q -> idle h ->
  exists k h', Z.of_nat k <= queue_polls q /\ idle h' /\
    (s ← next_job openfile (Sys q None h log); ticks openfile k s) = Some (Sys [] None h' (log ++ (finished_job <$> q))).
Proof.
  intros Hq. revert log h. induction Hq as [|j q Hj _ IH]; intros log h Hh.
  - exists 0%nat, h. split; [done|]. split; [done|]. by rewrite app_nil_r.
  - pose proof Hj as (_ & _ & _ & _ & fd & Hopen & Hat).
    destruct (job_done_ok q log h j fd Hj Hat Hh) as (h1 & j1 & k & h2 & Es & Hk & Hh2 & Ek).
    destruct (IH (log ++ [finished_job j]) h2 Hh2) as (k' & h' & Hk' & Hh' & E).
    exists (k + k')%nat, h'. split; [simpl; lia|]. split; [done|].
    unfold next_job at 1. cbn [fifo hs handled current_job]. rewrite Hopen, Es. cbn [mbind option_bind].
    rewrite ticks_add, Ek, E, <- app_assoc. done.
Qed.
End Queue.

(** C1: every queue of jobs whose files can be read is hashed: after a number
    of ticks bounded by the sizes of the jobs, the handler of each job has been
    called, in the order of the queue, with the digest of the job's range by
    the job's method, and no job is left. *)
Theorem queue_is_hashed {F} {S : Syscalls F} (files : string -> list Z) {R : forall nm, Readable S (files nm)}
    (openfile : string -> option F) (q : list job) (h : hasher F) :
  Forall (job_ok files openfile) q -> idle h ->
  exists k h', Z.of_nat k <= 1 + queue_polls q /\ idle h' /\
    ticks openfile k (Sys q None h []) = Some (Sys [] None h' (finished_job files <$> q)).
Proof.
  intros Hq Hh. destruct (queue_ok files openfile q [] h Hq Hh) as (k & h' & Hk & Hh' & E).
  exists (Datatypes.S k), h'. split; [lia|]. split; [done|]. exact E.
Qed.

(** A file of 1.5 million bytes, read three bytes at a time, hashed by four jobs. *)
Lemma queue_is_hashed_witness :
  let content := replicate (Z.to_nat 1500000) 7 in
  let h := fresh (Disk [] 0 0) in
  let q := [Job "a" 1 3 MD5 []; Job "a" 5 1200000 SHA1 []; Job "b" 0 1500000 MD4 []; Job "a" 3 5000 TIGER []] in
  exists k h', Z.of_nat k <= 1 + queue_polls q /\ idle h' /\
    ticks (fun _ => Some (Disk content 0 2)) k (Sys q None h [])
    = Some (Sys [] None h' (finished_job (fun _ => content) <$> q)).
Proof.
  intros content h q.
  apply (queue_is_hashed (R := fun _ => DiskReadable content) (fun _ => content) (fun _ => Some (Disk content 0 2)) q h).
  - assert (Hl : Z.of_nat (length content) = 1500000)
      by (unfold content; rewrite length_replicate; apply Z2Nat.id; lia).
    assert (Hw : Forall (word 8) content) by (apply Forall_replicate; unfold word; lia).
    assert (Ho : exists fd, Some (Disk content 0 2) = Some fd /\ at_ (Readable := DiskReadable content) fd 0)
      by (eexists; split; [reflexivity|split; reflexivity]).
    assert (Hj : forall nm b l m, 0 <= b -> 0 <= l < 2 ^ 50 -> b + l <= 1500000 ->
      job_ok (R := fun _ => DiskReadable content) (fun _ => content) (fun _ => Some (Disk content 0 2)) (Job nm b l m [])).
    { intros nm b l m Hb Hlen Hbl. split; [exact Hb|]. split; [exact Hlen|]. rewrite Hl. split; [exact Hbl|].
      split; [exact Hw|exact Ho]. }
    repeat (apply Forall_cons; split; [apply Hj; lia|]). apply Forall_nil_2.
  - apply fresh_idle.
Defined.

(** ** Errors *)

Section Errors.
Context {F : Type} {S : Syscalls F} {content : list Z} `{!Readable S content}.

(** At the end of the file a read returns nothing. *)
Lemma read_eof fd (p : nat) n :
  at_ fd p -> (length content <= p)%nat -> 0 < n < 2 ^ 63 ->
  exists fd', read_into HASH_BUFFER_LEN fd (max_read n) = Ret ([], fd') /\ at_ fd' p.
Proof.
  intros Hat Hp Hn. destruct (max_read_range n Hn) as [Hm1 Hm2].
  destruct (read_into_ok fd p (max_read n) HASH_BUFFER_LEN Hat ltac:(lia) ltac:(lia)) as (bs & fd' & E & Hat' & Hbs & _).
  rewrite drop_ge, take_nil in Hbs by done. subst bs. rewrite Nat.add_0_r in Hat'. by exists fd'.
Qed.

(** A range that ends after the file is not hashed, but raises [Unix_error]. *)
Lemma direct_loop_short {Ctx} {I : IncrementalHash Ctx} {spec piece} `{!IncrementalHashOk I spec piece}
    fuel (ctx : Ctx) m fd (p n : nat) :
  (forall p n, Z.of_nat n <= HASH_BUFFER_LEN -> piece (take n (drop p content))) ->
  ih_repr ctx m -> at_ fd p -> (n <= fuel)%nat -> (p <= length content < p + n)%nat -> Z.of_nat n < 2 ^ 63 ->
  direct_loop fuel ctx fd (Z.of_nat n) = Unix_error.
Proof.
  intros Hpc. revert ctx m fd p n. induction fuel as [|fuel IH]; intros ctx m fd p n Hr Hat Hf Hp Hn; [lia|].
  cbn [direct_loop]. destruct (Z.eqb_spec (Z.of_nat n) 0); [lia|].
  destruct (decide (length content <= p)%nat) as [He|He].
  - destruct (read_eof fd p (Z.of_nat n) Hat He ltac:(lia)) as (fd' & -> & _). done.
  - destruct (max_read_range (Z.of_nat n) ltac:(lia)) as [Hm1 Hm2].
    destruct (read_into_ok fd p (max_read (Z.of_nat n)) HASH_BUFFER_LEN Hat ltac:(lia) ltac:(lia))
      as (bs & fd' & -> & Hat' & Hbs & Hle & Hne).
    specialize (Hne ltac:(lia)). assert (1 <= length bs)%nat by (destruct bs; [done|simpl; lia]).
    assert (length bs <= length content - p)%nat
      by (apply (f_equal length) in Hbs; rewrite length_take, length_drop in Hbs; lia).
    cbn [mbind io_bind]. destruct (Z.leb_spec (Z.of_nat (length bs)) 0); [lia|].
    destruct (ih_update_ok ctx m bs Hr) as (ctx' & -> & Hr'); [rewrite Hbs; apply Hpc; lia|].
    cbn [mem mbind io_bind]. rewrite <- Nat2Z.inj_sub by lia.
    apply (IH ctx' _ fd' (p + length bs)%nat _ Hr' Hat'); lia.
Qed.
End Errors.

(** A job of fewer than a million bytes whose range ends after its file
    raises an exception when it is started; the queue logs it, and the next
    tick reports the job as done: its handler is called with the digest that
    the job was created with. *)
Theorem failed_job_reported {F} {S : Syscalls F} {content} {R : Readable S content} (openfile : string -> option F)
    (j : job) (h : hasher F) fd :
  openfile (job_name j) = Some fd -> at_ fd 0 -> job_method j = MD5 -> idle h ->
  0 <= job_begin j <= Z.of_nat (length content) -> 0 < job_len j < MAX_CHUNK_SIZE ->
  Z.of_nat (length content) < job_begin j + job_len j ->
  exists h', ticks openfile 2 (Sys [j] None h []) = Some (Sys [] None h' [j]).
Proof.
  intros Ho Hat Hm [Hf Hq] Hb Hl Hs. unfold MAX_CHUNK_SIZE in Hl.
  destruct (lseek_ok fd 0 (Z.to_nat (job_begin j)) Hat ltac:(left; lia)) as (fd1 & E & Hat1). rewrite Z2Nat.id in E by lia.
  pose proof (direct_loop_short (IncrementalHashOk0 := Md5Ok) (Datatypes.S (Z.to_nat (job_len j))) ih_init [] fd1
    (Z.to_nat (job_begin j)) (Z.to_nat (job_len j)) (md5_buffer content) ih_init_ok Hat1 ltac:(lia) ltac:(lia) ltac:(lia)) as Ed.
  rewrite Z2Nat.id in Ed by lia. exists (set_io h fd (job_begin j) (job_len j)).
  change (ticks openfile 2 (Sys [j] None h [])) with (s ← next_job openfile (Sys [j] None h []); ticks openfile 1 s).
  unfold next_job. cbn [fifo hs handled]. rewrite Ho.
  rewrite (started (m := MD5)) by done. unfold MAX_CHUNK_SIZE. destruct (Z.ltb_spec (job_len j) 1000000); [|lia].
  unfold start_direct, unsafe64_fd_direct, os_lseek. cbn [set_io h_fd h_pos h_len]. rewrite E. cbn [mbind io_bind].
  rewrite Ed. cbn [mbind io_bind option_bind]. by rewrite finished_tick.
Qed.

Lemma failed_job_reported_witness :
  exists h', ticks (fun _ => Some (Disk [1; 2; 3; 4] 0 0)) 2 (Sys [Job "a" 2 3 MD5 [0; 0]] None
    (fresh (Disk [] 0 0)) [])
    = Some (Sys [] None h' [Job "a" 2 3 MD5 [0; 0]]).
Proof.
  apply (failed_job_reported (R := DiskReadable [1; 2; 3; 4]) (fun _ => Some (Disk [1; 2; 3; 4] 0 0))
    (Job "a" 2 3 MD5 [0; 0]) _ (Disk [1; 2; 3; 4] 0 0)).
  - reflexivity.
  - split; reflexivity.
  - reflexivity.
  - apply fresh_idle.
  - cbn. lia.
  - split; reflexivity.
  - cbn. lia.
Defined.

(** ** A chunk that fails *)

Section Spoilt.
Context {F : Type} {S : Syscalls F} {content1 content2 : list Z} {R1 : Readable S content1} {R2 : Readable S content2}.

(** A poll at the end of the file. *)
Lemma poll_eof (st : statics md5_state) fd len :
  at_ (Readable := R1) fd (length content1) -> 0 < len < 2 ^ 63 -> - 2 ^ 30 < timer st <= 1 ->
  exists fd', hash_step st fd len = Raise (Statics (timer st - 1) (context st), fd', len).
Proof.
  intros Hat Hl Ht. unfold hash_step.
  rewrite s32_small by lia.
  destruct (Z.ltb_spec 0 (timer st - 1)); [lia|].
  destruct (Z.to_nat MAX_CHUNK_SIZE) as [|fuel] eqn:Ef; [unfold MAX_CHUNK_SIZE in Ef; lia|].
  destruct (read_eof fd _ len Hat ltac:(lia) Hl) as (fd' & E & _). exists fd'. cbn [step_loop].
  destruct (Z.ltb_spec 0 len); [|lia]. by rewrite E.
Qed.

(** The digest of a range, and where it leaves the file. *)
Lemma direct_at fd (p n : nat) :
  at_ (Readable := R2) fd 0 -> (p + n <= length content2)%nat -> Z.of_nat n < 2 ^ 63 ->
  exists fd', unsafe64_fd_direct (Ctx := md5_state) fd (Z.of_nat p) (Z.of_nat n)
    = Ret (md5_spec (take n (drop p content2)), fd') /\ at_ (Readable := R2) fd' (p + n).
Proof.
  intros Hat Hp Hn. destruct (lseek_ok fd 0 p Hat ltac:(left; lia)) as (fd1 & E1 & Hat1).
  unfold unsafe64_fd_direct, os_lseek. rewrite E1. cbn [mbind io_bind].
  destruct (direct_loop_ok (IncrementalHashOk0 := Md5Ok) (md5_buffer content2) (Datatypes.S (Z.to_nat (Z.of_nat n))) ih_init [] fd1 p n)
    as (ctx & fd2 & -> & Hr & Hat2); [apply ih_init_ok|done|lia|done|done|].
  cbn [mbind io_bind]. exists fd2. by rewrite (ih_finish_ok _ _ Hr).
Qed.

(** A poll that reads all that is left, less than a chunk. *)
Lemma poll_whole (st : statics md5_state) fd m (p n : nat) :
  ih_repr (context st) m -> at_ (Readable := R2) fd p -> (p + n <= length content2)%nat ->
  Z.of_nat n < MAX_CHUNK_SIZE -> - 2 ^ 31 < timer st <= 1 ->
  exists st' fd', hash_step st fd (Z.of_nat n) = Val (Some (md5_spec (m ++ take n (drop p content2)))) (st', fd', 0).
Proof.
  intros Hr Hat Hp Hn Ht. unfold hash_step.
  rewrite s32_small by lia.
  destruct (Z.ltb_spec 0 (timer st - 1)); [lia|].
  destruct (step_loop_ok (IncrementalHashOk0 := Md5Ok) (md5_buffer content2) (Z.to_nat MAX_CHUNK_SIZE) 0 (context st) m fd p n Hr Hat Hp)
    as (k & c & f & E & Hr' & _ & Hk & Hor); [unfold MAX_CHUNK_SIZE in Hn; lia|done|lia|].
  assert (k = n) as -> by lia. rewrite E, Nat.sub_diag. cbn [Z.of_nat Z.leb Z.compare].
  rewrite (ih_finish_ok _ _ Hr'). by eexists _, _.
Qed.
End Spoilt.

(** When a long job's file is found too short, its poll raises with
    [job_finished] still 0, and the queue starts the next job.  When that job
    is short its digest is right at first; but the next tick polls it as a long
    one: the bytes that follow its range are added to what was hashed of the
    failed job, and the handler is called with the digest of that. *)
Theorem error_spoils_next {F} {S : Syscalls F} {content1 content2} {R1 : Readable S content1} {R2 : Readable S content2}
    (openfile : string -> option F) (j1 j2 : job) (h : hasher F) fd m :
  (* [j1] under way, at the end of its file *)
  job_method j1 = MD5 -> h_finished h = false -> 0 < h_len h < 2 ^ 50 -> ih_repr (context (h_md5 h)) m ->
  - 2 ^ 30 < timer (h_md5 h) <= 1 -> at_ (Readable := R1) (h_fd h) (length content1) ->
  (* [j2] waiting, the file as long again after its range *)
  job_method j2 = MD5 -> openfile (job_name j2) = Some fd -> at_ (Readable := R2) fd 0 ->
  0 <= job_begin j2 -> 0 < job_len j2 < MAX_CHUNK_SIZE ->
  job_begin j2 + 2 * job_len j2 <= Z.of_nat (length content2) ->
  exists h', ticks openfile 2 (Sys [j2] (Some j1) h []) = Some (Sys [] None h'
    [with_result j2 (md5_spec (m ++ take (Z.to_nat (job_len j2))
       (drop (Z.to_nat (job_begin j2 + job_len j2)) content2)))]).
Proof.
  intros Hm1 Hfin Hlen Hrep Ht Hat1 Hm2 Ho Hat2 Hb Hl Hc.
  change (ticks openfile 2 ?s) with (s' ← tick openfile s; ticks openfile 1 s').
  unfold tick. cbn [current_job hs fifo handled]. rewrite (polled (m := MD5)) by done.
  destruct (poll_eof (R1 := R1) (h_md5 h) (h_fd h) (h_len h) Hat1 ltac:(lia) Ht) as (fd1 & E1).
  unfold poll at 1. rewrite E1. clear E1. set (h1 := set_md5 _ _).
  unfold next_job at 1. cbn [fifo hs handled current_job]. rewrite Ho, (started (m := MD5)) by done.
  destruct (Z.ltb_spec (job_len j2) MAX_CHUNK_SIZE) as [_|]; [|lia]. unfold MAX_CHUNK_SIZE in Hl.
  unfold start_direct. cbn [set_io h_fd h_pos h_len].
  destruct (direct_at (R2 := R2) fd (Z.to_nat (job_begin j2)) (Z.to_nat (job_len j2)) Hat2) as (fd2 & E2 & Hat3); [lia..|].
  rewrite !Z2Nat.id in E2 by lia. rewrite E2. cbn [mbind option_bind ticks]. clear E2.
  unfold tick. cbn [current_job hs fifo handled]. rewrite (polled (m := MD5)) by done.
  destruct (poll_whole (R2 := R2) (Statics (timer (h_md5 h) - 1) (context (h_md5 h))) fd2 m
    (Z.to_nat (job_begin j2) + Z.to_nat (job_len j2)) (Z.to_nat (job_len j2))) as (st & fd3 & E3);
    [done|done|lia|unfold MAX_CHUNK_SIZE; lia|simpl; lia|].
  rewrite Z2Nat.id in E3 by lia. unfold poll. cbn [h1 set_io set_md5 h_md5 h_fd h_len]. rewrite E3.
  cbn [mbind option_bind]. unfold next_job. cbn [fifo]. eexists.
  by replace (Z.to_nat (job_begin j2 + job_len j2)) with (Z.to_nat (job_begin j2) + Z.to_nat (job_len j2))%nat by lia.
Qed.

(** The first job has hashed nothing, the second is bytes 1 to 3 of a file of
    eight: it is reported with the digest of bytes 4 to 6. *)
Lemma error_spoils_next_witness :
  let content1 := [9; 9] in let content2 := [1; 2; 3; 4; 5; 6; 7; 8] in
  let h := Hasher (Disk content1 2 0) 0 5 false (Statics 0 ih_init) (Statics 0 ih_init) (Statics 0 ih_init) [] [] in
  let j2 := Job "b" 1 3 MD5 [] in
  exists h', ticks (fun _ => Some (Disk content2 0 0)) 2 (Sys [j2] (Some (Job "a" 0 2000000 MD5 [])) h [])
    = Some (Sys [] None h' [with_result j2 (md5_spec ([] ++ take (Z.to_nat 3) (drop (Z.to_nat (1 + 3)) content2)))]).
Proof.
  intros content1 content2 h j2.
  apply (error_spoils_next (R1 := DiskReadable content1) (R2 := DiskReadable content2)
    (fun _ => Some (Disk content2 0 0)) (Job "a" 0 2000000 MD5 []) j2 h (Disk content2 0 0) []).
  - reflexivity.
  - reflexivity.
  - split; reflexivity.
  - apply md5_init_repr.
  - cbn. lia.
  - split; reflexivity.
  - reflexivity.
  - reflexivity.
  - split; reflexivity.
  - cbn. lia.
  - split; reflexivity.
  - cbn. lia.
Defined.
