(* ===== verification/HasherThread.v ===== *)
(** * The hashing thread

    [src/src/daemon/common/commonHasher_c.c] with [HAVE_PTHREAD]: a thread that
    hashes the job described by shared variables, and the OCaml queue that
    fills them and polls.  The two are interleaved by a step relation; the
    mutex is the condition under which the queue's thread may arm a job: the
    hashing thread holds it except while it waits. *)

From Stdlib Require Import ZArith Lia String.
From stdpp Require Import base option numbers list relations.
From S2P Require Import Prelude MerkleDamgard Os Md5 Md4 Sha1 Tiger HashFd Hasher.

Local Open Scope Z_scope.

#[local] Existing Instance Md4.Md4.
#[local] Existing Instance Sha1.Sha1.

(** ** Lengths of the digests *)

Definition digest_len (m : hash_method) : nat :=
  match m with MD4 => 16 | MD5 => 16 | SHA1 => 20 | TIGER => 24 end.

Lemma method_spec_length m x : length (method_spec m x) = digest_len m.
Proof.
  destruct m; cbn [method_spec digest_len].
  - reflexivity.
  - reflexivity.
  - unfold Sha1.sha1_spec.
    pose proof (Sha1.absorb_length Sha1.SHA1_IV (Sha1.sha_pad x) eq_refl) as Hl.
    destruct (md_absorb _ _ _) as [|a [|b [|c [|d [|e [|? ?]]]]]]; try discriminate Hl. reflexivity.
  - pose proof (Tiger.leaf_level_length x) as Hl. pose proof (Tiger.leaf_count_pos (length x)).
    rewrite (Tiger.tree_spec_top (length (Tiger.leaf_level x)) x).
    + apply Tiger.top_length; [intros E; rewrite E in Hl; simpl in Hl; lia|apply Tiger.leaf_level_24].
    + rewrite Hl. pose proof (Nat.pow_gt_lin_r 2 (Tiger.leaf_count (length x))). lia.
Qed.

Section Thread.
Context {F : Type} `{!Syscalls F}.

(** [job_fd], [job_begin_pos], [job_len] and [job_method]. *)
Record shared := Shared { sh_fd : F; sh_begin : Z; sh_len : Z; sh_method : hash_method }.

(** [thread_started] is 0 in [NotStarted]; a thread that was created but has
    not locked the mutex yet is [Created]; in [Computing] it has read the
    shared variables. An exception raised in it ends in [Crashed]. *)
Inductive phase :=
| NotStarted
| Created
| Waiting
| Awake
| Computing (arg : shared)
| Crashed.

(** The OCaml thread, between two ticks or inside [ml_job_start]. *)
Inductive client :=
| Idle
| Locking (j : job)        (* the shared variables are written *)
| Polling (j : job).

Record thread_sys := ThreadSys {
  t_shared : shared;
  job_done : bool;
  p_job_result : list Z;            (* 64 bytes *)
  t_tiger : list Z;
  t_tiger_hash : list Z;
  t_phase : phase;
  t_client : client;
  t_fifo : list job;
  t_handled : list job
}.

(** The switch of [hasher_thread]. *)
Definition compute (arg : shared) (tb hb : list Z) : io (list Z * list Z * list Z) :=
  match sh_method arg with
  | MD4 => '(d, _) ← unsafe64_fd_direct (Ctx := Md4.MD4_CTX) (sh_fd arg) (sh_begin arg) (sh_len arg); Ret (d, tb, hb)
  | MD5 => '(d, _) ← unsafe64_fd_direct (Ctx := md5_state) (sh_fd arg) (sh_begin arg) (sh_len arg); Ret (d, tb, hb)
  | SHA1 => '(d, _) ← unsafe64_fd_direct (Ctx := Sha1.sha1_context) (sh_fd arg) (sh_begin arg) (sh_len arg); Ret (d, tb, hb)
  | TIGER =>
      bsize ← mem (Tiger.tiger_block_size (sh_len arg));
      fd ← os_lseek (sh_fd arg) (sh_begin arg);
      '(d, st) ← Tiger.tree u64 fd_leaf fd_node 64 (u64 (sh_len arg)) 0 bsize (TigerSt fd tb hb);
      Ret (d, t_buf st, t_hash_buf st)
  end.

(** [memcpy (result, p_job_result, result_len)]: as many bytes as the job's
    string has. *)
Definition ml_job_done_result (s : thread_sys) (j : job) : job :=
  with_result j (take (length (job_result j)) (p_job_result s)).

Context (openfile : string -> option F).

Inductive tstep : thread_sys -> thread_sys -> Prop :=
(* the queue starts a job: the shared variables, the thread the first time *)
| step_start s j q fd :
    t_client s = Idle -> t_fifo s = j :: q -> openfile (job_name j) = Some fd ->
    tstep s (ThreadSys (Shared fd (job_begin j) (job_len j) (job_method j)) (job_done s) (p_job_result s)
               (t_tiger s) (t_tiger_hash s)
               (match t_phase s with NotStarted => Created | p => p end) (Locking j) q (t_handled s))
(* [Unix.openfile] raises: the job is forgotten *)
| step_no_file s j q :
    t_client s = Idle -> t_fifo s = j :: q -> openfile (job_name j) = None ->
    tstep s (ThreadSys (t_shared s) (job_done s) (p_job_result s) (t_tiger s) (t_tiger_hash s)
               (t_phase s) Idle q (t_handled s))
(* the mutex is free: [job_done = 0], signal *)
| step_arm s j :
    t_client s = Locking j -> (t_phase s = Waiting \/ t_phase s = Created) ->
    tstep s (ThreadSys (t_shared s) false (p_job_result s) (t_tiger s) (t_tiger_hash s)
               (t_phase s) (Polling j) (t_fifo s) (t_handled s))
(* [ml_job_done] *)
| step_poll_no s j :
    t_client s = Polling j -> job_done s = false -> tstep s s
| step_poll_yes s j :
    t_client s = Polling j -> job_done s = true ->
    tstep s (ThreadSys (t_shared s) (job_done s) (p_job_result s) (t_tiger s) (t_tiger_hash s)
               (t_phase s) Idle (t_fifo s) (t_handled s ++ [ml_job_done_result s j]))
(* the thread locks the mutex, and releases it in [pthread_cond_timedwait] *)
| step_lock s :
    t_phase s = Created ->
    tstep s (ThreadSys (t_shared s) (job_done s) (p_job_result s) (t_tiger s) (t_tiger_hash s)
               Waiting (t_client s) (t_fifo s) (t_handled s))
(* a signal, or the timeout of ten seconds *)
| step_wake s :
    t_phase s = Waiting ->
    tstep s (ThreadSys (t_shared s) (job_done s) (p_job_result s) (t_tiger s) (t_tiger_hash s)
               Awake (t_client s) (t_fifo s) (t_handled s))
| step_nothing s :
    t_phase s = Awake -> job_done s = true ->
    tstep s (ThreadSys (t_shared s) (job_done s) (p_job_result s) (t_tiger s) (t_tiger_hash s)
               Waiting (t_client s) (t_fifo s) (t_handled s))
| step_compute s :
    t_phase s = Awake -> job_done s = false ->
    tstep s (ThreadSys (t_shared s) (job_done s) (p_job_result s) (t_tiger s) (t_tiger_hash s)
               (Computing (t_shared s)) (t_client s) (t_fifo s) (t_handled s))
| step_done s arg digest tb hb result :
    t_phase s = Computing arg -> compute arg (t_tiger s) (t_tiger_hash s) = Ret (digest, tb, hb) ->
    blit (p_job_result s) 0 digest = Some result ->
    tstep s (ThreadSys (t_shared s) true result tb hb Waiting (t_client s) (t_fifo s) (t_handled s))
| step_crash s arg :
    t_phase s = Computing arg -> compute arg (t_tiger s) (t_tiger_hash s) = Unix_error ->
    tstep s (ThreadSys (t_shared s) (job_done s) (p_job_result s) (t_tiger s) (t_tiger_hash s)
               Crashed (t_client s) (t_fifo s) (t_handled s)).
End Thread.

Arguments shared F : clear implicits.
Arguments thread_sys F : clear implicits.

(** ** Readable files *)

#[local] Opaque Tiger.tree Tiger.tree_spec.

Section Correct.
Context {F : Type} {S : Syscalls F} (files : string -> list Z) {R : forall nm, Readable S (files nm)}.
Context (openfile : string -> option F).

Definition thread_job_ok (j : job) : Prop :=
  job_ok files openfile j /\ length (job_result j) = digest_len (job_method j).

(** The shared variables describe [j]. *)
Definition describes (sh : shared F) (j : job) : Prop :=
  at_ (Readable := R (job_name j)) (sh_fd sh) 0 /\
  sh = Shared (sh_fd sh) (job_begin j) (job_len j) (job_method j).

Definition buffers (tb hb : list Z) : Prop := Z.of_nat (length tb) = 1025 /\ Z.of_nat (length hb) = 8192.

Lemma compute_direct {Ctx} {I : IncrementalHash Ctx} {spec piece} `{!IncrementalHashOk I spec piece} j fd (tb hb : list Z) :
  (forall p n, Z.of_nat n <= HASH_BUFFER_LEN -> piece (take n (drop p (files (job_name j))))) ->
  job_ok files openfile j -> at_ (Readable := R (job_name j)) fd 0 ->
  ('(d, _) ← unsafe64_fd_direct (Ctx := Ctx) fd (job_begin j) (job_len j); Ret (d, tb, hb))
  = Ret (spec (job_range files j), tb, hb).
Proof.
  intros Hp (Hb & Hl & Hbl & _) Hat.
  destruct (unsafe64_fd_direct_ok (Ctx := Ctx) Hp fd 0 (Z.to_nat (job_begin j)) (Z.to_nat (job_len j)) Hat ltac:(lia) ltac:(lia))
    as (fd' & E).
  rewrite !Z2Nat.id in E by lia. rewrite E. reflexivity.
Qed.

Lemma compute_tiger j fd tb hb :
  job_ok files openfile j -> at_ (Readable := R (job_name j)) fd 0 -> buffers tb hb ->
  exists tb' hb', compute (Shared fd (job_begin j) (job_len j) TIGER) tb hb
    = Ret (Tiger.tree_spec (job_range files j), tb', hb') /\ buffers tb' hb'.
Proof.
  intros (Hb & Hl & Hbl & _) Hat [Htb Hhb].
  destruct (lseek_ok (Readable := R (job_name j)) fd 0 (Z.to_nat (job_begin j)) Hat ltac:(left; lia)) as (fd1 & E & Hat1).
  destruct (fd_tree_ok (Readable0 := R (job_name j)) u64 (Z.to_nat (job_begin j)) (Z.to_nat (job_len j)) (TigerSt fd1 tb hb))
    as (bs & st & Eb & Et & _ & Htb' & Hhb'); [|exact Hat1|exact Htb|exact Hhb|lia|lia|].
  { intros x Hx. apply u64_id. unfold word. lia. }
  exists (t_buf st), (t_hash_buf st). split; [|by split].
  rewrite Z2Nat.id in E, Eb, Et by lia. unfold compute. cbn [sh_method sh_fd sh_begin sh_len].
  rewrite Eb, mem_some, bind_ret, (os_lseek_some _ fd1 _ E), bind_ret.
  rewrite (u64_id (job_len j)) by (unfold word; lia). by rewrite Et, bind_ret.
Qed.

Lemma compute_ok sh j tb hb :
  job_ok files openfile j -> describes sh j -> buffers tb hb ->
  exists tb' hb', compute sh tb hb = Ret (method_spec (job_method j) (job_range files j), tb', hb') /\ buffers tb' hb'.
Proof.
  intros Hj [Hat ->] Hbuf. destruct (job_method j).
  - exists tb, hb. split; [|done]. apply (compute_direct (IncrementalHashOk0 := Md4.Md4Ok)); [apply md4_buffer|done..].
  - exists tb, hb. split; [|done]. apply (compute_direct (IncrementalHashOk0 := Md5Ok)); [apply md5_buffer|done..].
  - exists tb, hb. split; [|done]. apply (compute_direct (IncrementalHashOk0 := Sha1.Sha1Ok)); [|done..].
    intros p n. apply sha1_buffer. apply Hj.
  - by apply compute_tiger.
Qed.

(** The run of the thread on a job: the digest fits in [job_result]. *)
Lemma compute_stores sh j tb hb res :
  job_ok files openfile j -> describes sh j -> buffers tb hb -> length res = 64%nat ->
  exists tb' hb' res', let digest := method_spec (job_method j) (job_range files j) in
    compute sh tb hb = Ret (digest, tb', hb') /\ blit res 0 digest = Some res' /\
    buffers tb' hb' /\ length res' = 64%nat /\ take (digest_len (job_method j)) res' = digest.
Proof.
  intros Hj Hd Hb Hl. destruct (compute_ok _ _ _ _ Hj Hd Hb) as (tb' & hb' & E & Hb').
  pose proof (method_spec_length (job_method j) (job_range files j)) as Hm.
  assert (Hfit : (0 + length (method_spec (job_method j) (job_range files j)) <= length res)%nat)
    by (rewrite Hm, Hl; destruct (job_method j); simpl; lia).
  pose proof (blit_in res 0 _ Hfit) as Eb. change (Z.of_nat 0) with 0 in Eb. rewrite take_0 in Eb. cbn [app Nat.add] in Eb.
  eexists tb', hb', _. cbn zeta. split; [exact E|]. split; [exact Eb|]. split; [done|].
  rewrite (blit_length _ _ _ _ Eb). split; [done|]. rewrite <- Hm. apply take_app_length.
Qed.

(** *** The invariant *)

Definition ready (p : phase (F := F)) : Prop := p = Waiting \/ p = Awake.

Definition client_ok (q : list job) (dn : list job) (s : thread_sys F) : Prop :=
  match t_client s with
  | Idle => q = dn ++ t_fifo s /\ job_done s = true /\ (t_phase s = NotStarted \/ ready (t_phase s))
  | Locking j =>
      q = dn ++ j :: t_fifo s /\ describes (t_shared s) j /\ job_done s = true /\
      (t_phase s = Created \/ ready (t_phase s))
  | Polling j =>
      q = dn ++ j :: t_fifo s /\ describes (t_shared s) j /\
      (job_done s = false /\
         (t_phase s = Created \/ ready (t_phase s) \/ t_phase s = Computing (t_shared s)) \/
       job_done s = true /\ ready (t_phase s) /\
         take (digest_len (job_method j)) (p_job_result s) = method_spec (job_method j) (job_range files j))
  end.

Definition inv (q : list job) (s : thread_sys F) : Prop :=
  length (p_job_result s) = 64%nat /\ buffers (t_tiger s) (t_tiger_hash s) /\
  exists dn, t_handled s = finished_job files <$> dn /\ client_ok q dn s.

(** The jobs that are not done yet are jobs of the queue. *)
Lemma rest_ok q dn j rest : Forall thread_job_ok q -> q = dn ++ j :: rest -> thread_job_ok j.
Proof. intros Hq ->. apply Forall_app in Hq as [_ Hq]. by apply Forall_cons in Hq as [? _]. Qed.

(** The thread's own moves between the states where it waits. *)
Lemma thread_moves q s p :
  inv q s -> (t_phase s = Created \/ ready (t_phase s)) -> ready p ->
  inv q (ThreadSys (t_shared s) (job_done s) (p_job_result s) (t_tiger s) (t_tiger_hash s) p
           (t_client s) (t_fifo s) (t_handled s)).
Proof.
  intros (Hlen & Hbuf & dn & Hlog & Hc) Hp Hr. split; [done|]. split; [done|]. exists dn. split; [done|].
  unfold client_ok in *. cbn. destruct (t_client s) as [|j|j].
  - destruct Hc as (? & ? & _). by auto.
  - destruct Hc as (? & ? & ? & _). by auto.
  - destruct Hc as (? & ? & [[? _]|(? & _ & ?)]); split; [done|split; [done|left; by auto]|done|split; [done|right; by auto]].
Qed.

(** The thread computes only while the queue polls, and for the job polled. *)
Lemma computing_ok q s arg :
  Forall thread_job_ok q -> inv q s -> t_phase s = Computing arg ->
  exists dn j tb hb res, let digest := method_spec (job_method j) (job_range files j) in
    t_client s = Polling j /\ q = dn ++ j :: t_fifo s /\ t_handled s = finished_job files <$> dn /\
    describes (t_shared s) j /\ compute arg (t_tiger s) (t_tiger_hash s) = Ret (digest, tb, hb) /\
    blit (p_job_result s) 0 digest = Some res /\ buffers tb hb /\ length res = 64%nat /\
    take (digest_len (job_method j)) res = digest.
Proof.
  intros Hq (Hlen & Hbuf & dn & Hlog & Hc) Hp. unfold client_ok in Hc. rewrite Hp in Hc.
  destruct (t_client s) as [|j|j]; [by destruct Hc as (_ & _ & [?|[?|?]])|by destruct Hc as (_ & _ & _ & [?|[?|?]])|].
  destruct Hc as (Hqe & Hdesc & [[Hd [?|[[?|?]|Harg]]]|(_ & [?|?] & _)]); try done. injection Harg as ->.
  pose proof (rest_ok _ _ _ _ Hq Hqe) as [Hj _].
  destruct (compute_stores _ _ _ _ _ Hj Hdesc Hbuf Hlen) as (tb & hb & res & ? & ? & ? & ? & ?).
  exists dn, j, tb, hb, res. cbn zeta. do 8 (split; [assumption || reflexivity|]). assumption.
Qed.

Lemma step_inv q s s' : Forall thread_job_ok q -> inv q s -> tstep openfile s s' -> inv q s'.
Proof.
  intros Hq Hi Hstep. pose proof Hi as (Hlen & Hbuf & dn & Hlog & Hc). unfold client_ok in Hc.
  destruct Hstep as [s j q' fd Hcl Hf Ho|s j q' Hcl Hf Ho|s j Hcl Hp|s j Hcl Hd|s j Hcl Hd|s Hp|s Hp|s Hp Hd|s Hp Hd
                    |s arg d tb hb r Hp Hcomp Hbl|s arg Hp Hcomp]; try rewrite Hcl in Hc.
  - destruct Hc as (Hqe & Hd & Hp). rewrite Hf in Hqe. pose proof (rest_ok _ _ _ _ Hq Hqe) as [Hj _].
    split; [done|]. split; [done|]. exists dn. split; [done|]. cbn. split; [done|].
    destruct Hj as (_ & _ & _ & _ & fd' & Ho' & Hat). rewrite Ho in Ho'. injection Ho' as <-.
    split; [by split|]. split; [done|]. destruct Hp as [->|[->| ->]]; unfold ready; tauto.
  - destruct Hc as (Hqe & _). rewrite Hf in Hqe. pose proof (rest_ok _ _ _ _ Hq Hqe) as [Hj _].
    destruct Hj as (_ & _ & _ & _ & fd' & Ho' & _). by rewrite Ho in Ho'.
  - destruct Hc as (Hqe & Hdesc & Hd & Hp'). split; [done|]. split; [done|]. exists dn. split; [done|].
    cbn. split; [done|]. split; [done|]. left. split; [done|]. unfold ready. tauto.
  - done.
  - destruct Hc as (Hqe & Hdesc & [[Hd' _]|(_ & Hp & Hres)]); [by rewrite Hd in Hd'|].
    split; [done|]. split; [done|]. exists (dn ++ [j]). cbn. split.
    + rewrite Hlog, fmap_app. pose proof (rest_ok _ _ _ _ Hq Hqe) as [_ Hl].
      unfold ml_job_done_result, finished_job. cbn [fmap list_fmap]. by rewrite Hl, Hres.
    + split; [by rewrite <- app_assoc|]. split; [done|]. by right.
  - apply thread_moves; [done|by left|by left].
  - apply thread_moves; [done|right; by left|by right].
  - apply thread_moves; [done|right; by right|by left].
  - split; [done|]. split; [done|]. exists dn. split; [done|]. unfold client_ok. cbn.
    destruct (t_client s) as [|j|j]; [by destruct Hc as (_ & Hd' & _); rewrite Hd in Hd'
                                     |by destruct Hc as (_ & _ & Hd' & _); rewrite Hd in Hd'|].
    destruct Hc as (? & ? & _). split; [done|]. split; [done|]. left. by auto.
  - destruct (computing_ok _ _ _ Hq Hi Hp) as (dn' & j & tb' & hb' & res & Hcl & Hqe & Hlog' & Hdesc & E & Eb & Hb' & Hr & Hres).
    rewrite Hcomp in E. injection E as -> -> ->. rewrite Hbl in Eb. injection Eb as ->.
    split; [done|]. split; [done|]. exists dn'. split; [done|]. unfold client_ok. cbn. rewrite Hcl.
    split; [done|]. split; [done|]. right. split; [done|]. split; [by left|done].
  - destruct (computing_ok _ _ _ Hq Hi Hp) as (? & ? & ? & ? & ? & _ & _ & _ & _ & E & _). by rewrite Hcomp in E.
Qed.

(** The queue's jobs left, then the moves of the job under way. *)
Definition measure (s : thread_sys F) : nat :=
  10 * length (t_fifo s) +
  match t_client s with
  | Idle => 0
  | Locking _ => match t_phase s with Awake => 9 | _ => 8 end
  | Polling _ =>
      if job_done s then 1
      else match t_phase s with Created => 6 | Waiting => 5 | Awake => 4 | _ => 3 end
  end.

(** While a job is left, some move brings the end nearer. *)
Lemma progress q s :
  Forall thread_job_ok q -> inv q s -> t_client s <> Idle \/ t_fifo s <> [] ->
  exists s', tstep openfile s s' /\ (measure s' < measure s)%nat.
Proof.
  intros Hq Hi Hleft. pose proof Hi as (Hlen & Hbuf & dn & Hlog & Hc). unfold client_ok in Hc. unfold measure.
  destruct (t_client s) as [|j|j] eqn:Hcl.
  - destruct Hc as (Hqe & Hd & Hp). destruct (t_fifo s) as [|j rest] eqn:Hf; [by destruct Hleft|].
    pose proof (rest_ok _ _ _ _ Hq Hqe) as [(_ & _ & _ & _ & fd & Ho & _) _].
    eexists. split; [by eapply step_start|]. cbn. destruct Hp as [->|[->| ->]]; lia.
  - destruct Hc as (_ & _ & Hd & [Hp|[Hp|Hp]]).
    + eexists. split; [eapply step_arm; [done|by right]|]. cbn. rewrite Hp. lia.
    + eexists. split; [eapply step_arm; [done|by left]|]. cbn. rewrite Hp. lia.
    + eexists. split; [by eapply step_nothing|]. cbn. rewrite Hcl, Hp. lia.
  - destruct Hc as (_ & _ & [[Hd [Hp|[[Hp|Hp]|Hp]]]|(Hd & _ & _)]).
    + eexists. split; [by eapply step_lock|]. cbn. rewrite Hcl, Hd, Hp. lia.
    + eexists. split; [by eapply step_wake|]. cbn. rewrite Hcl, Hd, Hp. lia.
    + eexists. split; [by eapply step_compute|]. cbn. rewrite Hcl, Hd, Hp. lia.
    + destruct (computing_ok _ _ _ Hq Hi Hp) as (? & ? & tb & hb & res & _ & _ & _ & _ & E & Eb & _).
      eexists. split; [by eapply step_done|]. cbn. rewrite Hcl, Hd, Hp. lia.
    + eexists. split; [by eapply step_poll_yes|]. cbn. rewrite Hd. lia.
Qed.

Lemma rtc_inv q s s' : Forall thread_job_ok q -> inv q s -> rtc (tstep openfile) s s' -> inv q s'.
Proof. intros Hq Hi Hr. induction Hr; eauto using step_inv. Qed.

Lemma drains q s :
  Forall thread_job_ok q -> inv q s ->
  exists s', rtc (tstep openfile) s s' /\ t_client s' = Idle /\ t_fifo s' = [] /\ inv q s'.
Proof.
  intros Hq. remember (measure s) as n eqn:Hn. revert s Hn. induction n as [n IH] using lt_wf_ind. intros s -> Hi.
  assert (Hor : (t_client s = Idle /\ t_fifo s = []) \/ (t_client s <> Idle \/ t_fifo s <> []))
    by (destruct (t_client s), (t_fifo s); by auto).
  destruct Hor as [[Hc Hf]|Hleft]; [by exists s|].
  destruct (progress q s Hq Hi Hleft) as (s1 & H1 & Hm).
  destruct (IH _ Hm s1 eq_refl) as (s' & Hr & Hend); [by eapply step_inv|].
  exists s'. split; [by eapply rtc_l|done].
Qed.

(** The program's initial state, with the jobs of [q] in the queue. *)
Definition thread_start (fd : F) (q : list job) : thread_sys F :=
  ThreadSys (Shared fd 0 0 MD4) true (replicate 64 0) (replicate (Z.to_nat 1025) 0) (replicate (Z.to_nat 8192) 0)
    NotStarted Idle q [].

Lemma start_inv fd q : inv q (thread_start fd q).
Proof.
  split; [done|]. split.
  - unfold thread_start, buffers. cbn [t_tiger t_tiger_hash]. rewrite !length_replicate, !Z2Nat.id by lia. done.
  - exists []. split; [done|]. split; [done|]. split; [done|]. by left.
Qed.
End Correct.

(** C2: whatever the interleaving of the queue's thread with the hashing
    thread, its wake-ups by the signal or by the timeout included: the handlers
    have been called for the first jobs of the queue, in its order, with the
    digests of their ranges; no exception is raised in the hashing thread; and
    while it computes, the shared variables are those it reads. *)
Theorem threads_agree {F} {S : Syscalls F} (files : string -> list Z) {R : forall nm, Readable S (files nm)}
    (openfile : string -> option F) (q : list job) (fd0 : F) (s : thread_sys F) :
  Forall (thread_job_ok files openfile) q -> rtc (tstep openfile) (thread_start fd0 q) s ->
  (exists dn rest, q = dn ++ rest /\ t_handled s = finished_job files <$> dn) /\
  t_phase s <> Crashed /\ (forall arg, t_phase s = Computing arg -> arg = t_shared s).
Proof.
  intros Hq Hr. pose proof (rtc_inv files openfile q _ _ Hq (start_inv files fd0 q) Hr) as (_ & _ & dn & Hlog & Hc).
  unfold client_ok in Hc. split; [|split].
  - exists dn. rewrite Hlog. destruct (t_client s); destruct Hc as (-> & _); by eexists.
  - intros E. rewrite E in Hc. unfold ready in Hc. destruct (t_client s); intuition discriminate.
  - intros arg E. rewrite E in Hc. unfold ready in Hc. destruct (t_client s); intuition congruence.
Qed.

(** C38: from every state the two threads can reach, they can go on to hash the
    whole queue: the handlers called in order with the right digests, and no
    job left.  No order of the moves made so far, no signal lost before the
    thread waits, leaves a job behind. *)
Theorem threads_drain {F} {S : Syscalls F} (files : string -> list Z) {R : forall nm, Readable S (files nm)}
    (openfile : string -> option F) (q : list job) (fd0 : F) (s : thread_sys F) :
  Forall (thread_job_ok files openfile) q -> rtc (tstep openfile) (thread_start fd0 q) s ->
  exists s', rtc (tstep openfile) s s' /\ t_client s' = Idle /\ t_fifo s' = [] /\
    t_handled s' = finished_job files <$> q.
Proof.
  intros Hq Hr. pose proof (rtc_inv files openfile q _ _ Hq (start_inv files fd0 q) Hr) as Hi.
  destruct (drains files openfile q s Hq Hi) as (s' & Hr' & Hc & Hf & (_ & _ & dn & Hlog & Hok)).
  exists s'. unfold client_ok in Hok. rewrite Hc, Hf, app_nil_r in Hok. destruct Hok as (-> & _). done.
Qed.

(** *** A run *)

(** Two jobs on a file of six bytes, whose reads return one byte at a time. *)
Definition six_bytes : list Z := [1; 2; 3; 4; 5; 6].
Definition open_disk (_ : string) : option disk := Some (Disk six_bytes 0 1).
Definition six_files (_ : string) : list Z := six_bytes.
Definition six_readable (_ : string) : Readable DiskCalls six_bytes := DiskReadable six_bytes.
Definition two_jobs : list job := [Job "a" 1 3 MD5 (replicate 16 0); Job "b" 0 6 TIGER (replicate 24 0)].

Lemma two_jobs_ok : Forall (thread_job_ok (R := six_readable) six_files open_disk) two_jobs.
Proof.
  assert (Hj : forall nm b l m r, 0 <= b -> 0 <= l < 2 ^ 50 -> b + l <= 6 -> length r = digest_len m ->
    thread_job_ok (R := six_readable) six_files open_disk (Job nm b l m r)).
  { intros nm b l m r Hb Hl Hbl Hr. split; [|exact Hr]. split; [exact Hb|]. split; [exact Hl|]. split; [exact Hbl|].
    split; [repeat (apply Forall_cons; split; [unfold word; lia|]); apply Forall_nil_2|].
    eexists. split; [reflexivity|split; reflexivity]. }
  repeat (apply Forall_cons; split; [apply Hj; first [lia|reflexivity]|]). apply Forall_nil_2.
Qed.

(** The first job armed before the new thread has locked the mutex: the signal
    is lost. *)
Definition signal_lost : thread_sys disk :=
  ThreadSys (Shared (Disk six_bytes 0 1) 1 3 MD5) false (replicate 64 0)
    (replicate (Z.to_nat 1025) 0) (replicate (Z.to_nat 8192) 0)
    Waiting (Polling (Job "a" 1 3 MD5 (replicate 16 0))) [Job "b" 0 6 TIGER (replicate 24 0)] [].

Lemma reach_signal_lost : rtc (tstep open_disk) (thread_start (Disk [] 0 0) two_jobs) signal_lost.
Proof.
  eapply rtc_l; [eapply step_start; reflexivity|].
  eapply rtc_l; [eapply step_arm; [reflexivity|right; reflexivity]|].
  eapply rtc_l; [eapply step_lock; reflexivity|]. apply rtc_refl.
Qed.

Lemma threads_agree_witness :
  (exists dn rest, two_jobs = dn ++ rest /\ t_handled signal_lost = finished_job six_files <$> dn) /\
  t_phase signal_lost <> Crashed /\
  (forall arg, t_phase signal_lost = Computing arg -> arg = t_shared signal_lost).
Proof.
  exact (threads_agree (R := six_readable) six_files open_disk two_jobs (Disk [] 0 0) signal_lost two_jobs_ok reach_signal_lost).
Defined.

Lemma threads_drain_witness :
  exists s', rtc (tstep open_disk) signal_lost s' /\ t_client s' = Idle /\ t_fifo s' = [] /\
    t_handled s' = finished_job six_files <$> two_jobs.
Proof.
  exact (threads_drain (R := six_readable) six_files open_disk two_jobs (Disk [] 0 0) signal_lost two_jobs_ok reach_signal_lost).
Defined.
