(* ===== verification/FstHash.v ===== *)
(** * The FastTrack file hash

    [src/src/utils/lib/fst_hash.c]: MD5 of the first 300 KB, followed by a
    CRC-32 of chunks sampled at doubling offsets, and the 14-bit checksum of
    the 20 bytes. *)

From Stdlib Require Import ZArith Lia.
From stdpp Require Import base option numbers list.
From S2P Require Import Prelude MerkleDamgard Os Md5 HashFd.

Local Open Scope Z_scope.

Module FstHash.

(** ** Tables *)

Definition smalltable : list Z := [
  0x00000000; 0x77073096; 0xEE0E612C; 0x990951BA; 0x076DC419; 0x706AF48F; 0xE963A535; 0x9E6495A3;
  0x0EDB8832; 0x79DCB8A4; 0xE0D5E91E; 0x97D2D988; 0x09B64C2B; 0x7EB17CBD; 0xE7B82D07; 0x90BF1D91;
  0x1DB71064; 0x6AB020F2; 0xF3B97148; 0x84BE41DE; 0x1ADAD47D; 0x6DDDE4EB; 0xF4D4B551; 0x83D385C7;
  0x136C9856; 0x646BA8C0; 0xFD62F97A; 0x8A65C9EC; 0x14015C4F; 0x63066CD9; 0xFA0F3D63; 0x8D080DF5;
  0x3B6E20C8; 0x4C69105E; 0xD56041E4; 0xA2677172; 0x3C03E4D1; 0x4B04D447; 0xD20D85FD; 0xA50AB56B;
  0x35B5A8FA; 0x42B2986C; 0xDBBBC9D6; 0xACBCF940; 0x32D86CE3; 0x45DF5C75; 0xDCD60DCF; 0xABD13D59;
  0x26D930AC; 0x51DE003A; 0xC8D75180; 0xBFD06116; 0x21B4F4B5; 0x56B3C423; 0xCFBA9599; 0xB8BDA50F;
  0x2802B89E; 0x5F058808; 0xC60CD9B2; 0xB10BE924; 0x2F6F7C87; 0x58684C11; 0xC1611DAB; 0xB6662D3D;
  0x76DC4190; 0x01DB7106; 0x98D220BC; 0xEFD5102A; 0x71B18589; 0x06B6B51F; 0x9FBFE4A5; 0xE8B8D433;
  0x7807C9A2; 0x0F00F934; 0x9609A88E; 0xE10E9818; 0x7F6A0DBB; 0x086D3D2D; 0x91646C97; 0xE6635C01;
  0x6B6B51F4; 0x1C6C6162; 0x856530D8; 0xF262004E; 0x6C0695ED; 0x1B01A57B; 0x8208F4C1; 0xF50FC457;
  0x65B0D9C6; 0x12B7E950; 0x8BBEB8EA; 0xFCB9887C; 0x62DD1DDF; 0x15DA2D49; 0x8CD37CF3; 0xFBD44C65;
  0x4DB26158; 0x3AB551CE; 0xA3BC0074; 0xD4BB30E2; 0x4ADFA541; 0x3DD895D7; 0xA4D1C46D; 0xD3D6F4FB;
  0x4369E96A; 0x346ED9FC; 0xAD678846; 0xDA60B8D0; 0x44042D73; 0x33031DE5; 0xAA0A4C5F; 0xDD0D7CC9;
  0x5005713C; 0x270241AA; 0xBE0B1010; 0xC90C2086; 0x5768B525; 0x206F85B3; 0xB966D409; 0xCE61E49F;
  0x5EDEF90E; 0x29D9C998; 0xB0D09822; 0xC7D7A8B4; 0x59B33D17; 0x2EB40D81; 0xB7BD5C3B; 0xC0BA6CAD;
  0xEDB88320; 0x9ABFB3B6; 0x03B6E20C; 0x74B1D29A; 0xEAD54739; 0x9DD277AF; 0x04DB2615; 0x73DC1683;
  0xE3630B12; 0x94643B84; 0x0D6D6A3E; 0x7A6A5AA8; 0xE40ECF0B; 0x9309FF9D; 0x0A00AE27; 0x7D079EB1;
  0xF00F9344; 0x8708A3D2; 0x1E01F268; 0x6906C2FE; 0xF762575D; 0x806567CB; 0x196C3671; 0x6E6B06E7;
  0xFED41B76; 0x89D32BE0; 0x10DA7A5A; 0x67DD4ACC; 0xF9B9DF6F; 0x8EBEEFF9; 0x17B7BE43; 0x60B08ED5;
  0xD6D6A3E8; 0xA1D1937E; 0x38D8C2C4; 0x4FDFF252; 0xD1BB67F1; 0xA6BC5767; 0x3FB506DD; 0x48B2364B;
  0xD80D2BDA; 0xAF0A1B4C; 0x36034AF6; 0x41047A60; 0xDF60EFC3; 0xA867DF55; 0x316E8EEF; 0x4669BE79;
  0xCB61B38C; 0xBC66831A; 0x256FD2A0; 0x5268E236; 0xCC0C7795; 0xBB0B4703; 0x220216B9; 0x5505262F;
  0xC5BA3BBE; 0xB2BD0B28; 0x2BB45A92; 0x5CB36A04; 0xC2D7FFA7; 0xB5D0CF31; 0x2CD99E8B; 0x5BDEAE1D;
  0x9B64C2B0; 0xEC63F226; 0x756AA39C; 0x026D930A; 0x9C0906A9; 0xEB0E363F; 0x72076785; 0x05005713;
  0x95BF4A82; 0xE2B87A14; 0x7BB12BAE; 0x0CB61B38; 0x92D28E9B; 0xE5D5BE0D; 0x7CDCEFB7; 0x0BDBDF21;
  0x86D3D2D4; 0xF1D4E242; 0x68DDB3F8; 0x1FDA836E; 0x81BE16CD; 0xF6B9265B; 0x6FB077E1; 0x18B74777;
  0x88085AE6; 0xFF0F6A70; 0x66063BCA; 0x11010B5C; 0x8F659EFF; 0xF862AE69; 0x616BFFD3; 0x166CCF45;
  0xA00AE278; 0xD70DD2EE; 0x4E048354; 0x3903B3C2; 0xA7672661; 0xD06016F7; 0x4969474D; 0x3E6E77DB;
  0xAED16A4A; 0xD9D65ADC; 0x40DF0B66; 0x37D83BF0; 0xA9BCAE53; 0xDEBB9EC5; 0x47B2CF7F; 0x30B5FFE9;
  0xBDBDF21C; 0xCABAC28A; 0x53B39330; 0x24B4A3A6; 0xBAD03605; 0xCDD70693; 0x54DE5729; 0x23D967BF;
  0xB3667A2E; 0xC4614AB8; 0x5D681B02; 0x2A6F2B94; 0xB40BBE37; 0xC30C8EA1; 0x5A05DF1B; 0x2D02EF8D].

Definition checksumtable : list Z := [
  0x0000; 0x1021; 0x2042; 0x3063; 0x4084; 0x50A5; 0x60C6; 0x70E7;
  0x8108; 0x9129; 0xA14A; 0xB16B; 0xC18C; 0xD1AD; 0xE1CE; 0xF1EF;
  0x1231; 0x0210; 0x3273; 0x2252; 0x52B5; 0x4294; 0x72F7; 0x62D6;
  0x9339; 0x8318; 0xB37B; 0xA35A; 0xD3BD; 0xC39C; 0xF3FF; 0xE3DE;
  0x2462; 0x3443; 0x0420; 0x1401; 0x64E6; 0x74C7; 0x44A4; 0x5485;
  0xA56A; 0xB54B; 0x8528; 0x9509; 0xE5EE; 0xF5CF; 0xC5AC; 0xD58D;
  0x3653; 0x2672; 0x1611; 0x0630; 0x76D7; 0x66F6; 0x5695; 0x46B4;
  0xB75B; 0xA77A; 0x9719; 0x8738; 0xF7DF; 0xE7FE; 0xD79D; 0xC7BC;
  0x48C4; 0x58E5; 0x6886; 0x78A7; 0x0840; 0x1861; 0x2802; 0x3823;
  0xC9CC; 0xD9ED; 0xE98E; 0xF9AF; 0x8948; 0x9969; 0xA90A; 0xB92B;
  0x5AF5; 0x4AD4; 0x7AB7; 0x6A96; 0x1A71; 0x0A50; 0x3A33; 0x2A12;
  0xDBFD; 0xCBDC; 0xFBBF; 0xEB9E; 0x9B79; 0x8B58; 0xBB3B; 0xAB1A;
  0x6CA6; 0x7C87; 0x4CE4; 0x5CC5; 0x2C22; 0x3C03; 0x0C60; 0x1C41;
  0xEDAE; 0xFD8F; 0xCDEC; 0xDDCD; 0xAD2A; 0xBD0B; 0x8D68; 0x9D49;
  0x7E97; 0x6EB6; 0x5ED5; 0x4EF4; 0x3E13; 0x2E32; 0x1E51; 0x0E70;
  0xFF9F; 0xEFBE; 0xDFDD; 0xCFFC; 0xBF1B; 0xAF3A; 0x9F59; 0x8F78;
  0x9188; 0x81A9; 0xB1CA; 0xA1EB; 0xD10C; 0xC12D; 0xF14E; 0xE16F;
  0x1080; 0x00A1; 0x30C2; 0x20E3; 0x5004; 0x4025; 0x7046; 0x6067;
  0x83B9; 0x9398; 0xA3FB; 0xB3DA; 0xC33D; 0xD31C; 0xE37F; 0xF35E;
  0x02B1; 0x1290; 0x22F3; 0x32D2; 0x4235; 0x5214; 0x6277; 0x7256;
  0xB5EA; 0xA5CB; 0x95A8; 0x8589; 0xF56E; 0xE54F; 0xD52C; 0xC50D;
  0x34E2; 0x24C3; 0x14A0; 0x0481; 0x7466; 0x6447; 0x5424; 0x4405;
  0xA7DB; 0xB7FA; 0x8799; 0x97B8; 0xE75F; 0xF77E; 0xC71D; 0xD73C;
  0x26D3; 0x36F2; 0x0691; 0x16B0; 0x6657; 0x7676; 0x4615; 0x5634;
  0xD94C; 0xC96D; 0xF90E; 0xE92F; 0x99C8; 0x89E9; 0xB98A; 0xA9AB;
  0x5844; 0x4865; 0x7806; 0x6827; 0x18C0; 0x08E1; 0x3882; 0x28A3;
  0xCB7D; 0xDB5C; 0xEB3F; 0xFB1E; 0x8BF9; 0x9BD8; 0xABBB; 0xBB9A;
  0x4A75; 0x5A54; 0x6A37; 0x7A16; 0x0AF1; 0x1AD0; 0x2AB3; 0x3A92;
  0xFD2E; 0xED0F; 0xDD6C; 0xCD4D; 0xBDAA; 0xAD8B; 0x9DE8; 0x8DC9;
  0x7C26; 0x6C07; 0x5C64; 0x4C45; 0x3CA2; 0x2C83; 0x1CE0; 0x0CC1;
  0xEF1F; 0xFF3E; 0xCF5D; 0xDF7C; 0xAF9B; 0xBFBA; 0x8FD9; 0x9FF8;
  0x6E17; 0x7E36; 0x4E55; 0x5E74; 0x2E93; 0x3EB2; 0x0ED1; 0x1EF0].

(** ** Operations *)

(** [data] is the pointer [data + off] of the source. *)
Definition fst_hash_small (data : list Z) (off len smallhash : Z) : option Z :=
  for_up (Z.to_nat len) 0 (fun i smallhash =>
    d ← rd data (off + i);
    t ← rd smalltable (Z.lxor d (Z.land smallhash 0xff));
    Some (Z.lxor t (Z.shiftr smallhash 8))) smallhash.

Definition fst_hash_checksum (hash : list Z) : option Z :=
  sum ← for_up 20 0 (fun i sum =>
    h ← rd hash i;
    t ← rd checksumtable (Z.lxor h (Z.shiftr sum 8));
    Some (u16 (Z.lxor t (Z.shiftl sum 8)))) 0;
  Some (Z.land sum 0x3fff).

Definition FST_HASH_CHUNK : Z := 307200.

(** [fth\[16\] = smallhash & 0xff], ... *)
Definition put_small (fth : list Z) (smallhash : Z) : option (list Z) := blit fth 16 (le_bytes 4 smallhash).

Definition md5_into (fth buf : list Z) (len : Z) : option (list Z) :=
  ctx ← md5_append md5_init buf len;
  digest ← md5_finish ctx;
  blit fth 0 digest.

(** [while (offset + 2 * FST_HASH_CHUNK < filesize)], with [lastpos] and the
    hash at its end.  The offset doubles from 2 ^ 20. *)
Fixpoint string_loop (fuel : nat) (file : list Z) (filesize offset lastpos smallhash : Z) : option (Z * Z) :=
  if u64 (offset + 2 * FST_HASH_CHUNK) <? filesize then
    match fuel with
    | O => None
    | S fuel =>
        smallhash ← fst_hash_small file offset FST_HASH_CHUNK smallhash;
        string_loop fuel file filesize (u64 (Z.shiftl offset 1)) (u64 (offset + FST_HASH_CHUNK)) smallhash
    end
  else Some (lastpos, smallhash).

(** The bytes at the end that are hashed. *)
Definition end_len (filesize lastpos : Z) : Z :=
  let endlen := u64 (filesize - lastpos) in if FST_HASH_CHUNK <? endlen then FST_HASH_CHUNK else endlen.

Definition fst_hash_string (fth file : list Z) (filesize : Z) : option (list Z) :=
  let len := u64 filesize in
  let len := if FST_HASH_CHUNK <? len then FST_HASH_CHUNK else len in
  buf ← sub_bytes file 0 len;
  fth ← md5_into fth buf len;
  smallhash ← (if FST_HASH_CHUNK <? filesize then
      '(lastpos, smallhash) ← string_loop 44 file filesize 0x100000 FST_HASH_CHUNK 0xffffffff;
      let endlen := end_len filesize lastpos in
      fst_hash_small file (u64 (filesize - endlen)) endlen smallhash
    else Some 0xffffffff);
  put_small fth (u32 (Z.lxor smallhash filesize)).

(** [Int_val] keeps 32 bits. *)
Definition fst_hash_string_ml (digest s : list Z) (size : Z) : option (list Z) := fst_hash_string digest s (s32 size).

Section File.
Context {F : Type} `{!Syscalls F}.

(** [fread] returned nothing: was it at the end of the file? *)
Definition feof (fp : F) (n : Z) : bool :=
  match read fp n with Some ([], _) => true | _ => false end.

(** [fseek (fp, pos, SEEK_SET) < 0 || fread (buf, 1, n, fp) < n] is [None]. *)
Definition read_chunk (fp : F) (pos n : Z) : option (list Z * F) :=
  fp ← lseek fp pos;
  let '(buf, fp) := fread (Z.to_nat n) fp n in
  if Z.of_nat (length buf) <? n then None else Some (buf, fp).

(** [Ret None]: the function returns 0. *)
Fixpoint file_loop (fuel : nat) (fp : F) (filesize offset lastpos smallhash : Z) : io (option (F * Z * Z)) :=
  if u64 (offset + 2 * FST_HASH_CHUNK) <? filesize then
    match fuel with
    | O => Undefined
    | S fuel =>
        match read_chunk fp offset FST_HASH_CHUNK with
        | None => Ret None
        | Some (buf, fp) =>
            smallhash ← mem (fst_hash_small buf 0 FST_HASH_CHUNK smallhash);
            file_loop fuel fp filesize (u64 (Z.shiftl offset 1)) (u64 (offset + FST_HASH_CHUNK)) smallhash
        end
    end
  else Ret (Some (fp, lastpos, smallhash)).

(** The part of [fst_hash_file] after the MD5. *)
Definition file_small (fp : F) (filesize : Z) : io (option Z) :=
  if FST_HASH_CHUNK <? filesize then
    r ← file_loop 44 fp filesize 0x100000 FST_HASH_CHUNK 0xffffffff;
    match r with
    | None => Ret None
    | Some (fp, lastpos, smallhash) =>
        let endlen := end_len filesize lastpos in
        match read_chunk fp (u64 (filesize - endlen)) endlen with
        | None => Ret None
        | Some (buf, fp) => smallhash ← mem (fst_hash_small buf 0 endlen smallhash); Ret (Some smallhash)
        end
    end
  else Ret (Some 0xffffffff).

(** The returned [int] and [fth]; [file] is [None] when [fopen] fails. *)
Definition fst_hash_file (fth : list Z) (file : option F) (filesize : Z) : io (bool * list Z) :=
  match file with
  | None => Ret (false, fth)
  | Some fp =>
      let '(buf, fp') := fread (Z.to_nat FST_HASH_CHUNK) fp FST_HASH_CHUNK in
      if (Z.of_nat (length buf) =? 0) && negb (feof fp FST_HASH_CHUNK) then Ret (false, fth)
      else
        fth ← mem (md5_into fth buf (Z.of_nat (length buf)));
        r ← file_small fp' filesize;
        match r with
        | None => Ret (false, fth)
        | Some smallhash =>
            fth ← mem (put_small fth (u32 (Z.lxor smallhash filesize)));
            Ret (true, fth)
        end
  end.

(** [failwith] is [Unix_error] here. *)
Definition fst_hash_file_ml (digest : list Z) (file : option F) (filesize : Z) : io (list Z) :=
  '(ok, digest) ← fst_hash_file digest file filesize;
  if (ok : bool) then Ret digest else Unix_error.
End File.

(** ** The specification *)

(** CRC-32, reflected, a bit at a time. *)
Definition crc_bit (x : Z) : Z := Z.lxor (Z.shiftr x 1) (if Z.odd x then 0xEDB88320 else 0).
Definition crc_byte (h b : Z) : Z := Nat.iter 8 crc_bit (Z.lxor h b).
Definition crc32 (h : Z) (m : list Z) : Z := foldl crc_byte h m.

(** CRC-16-CCITT. *)
Definition ccitt_bit (x : Z) : Z := Z.lxor (u16 (Z.shiftl x 1)) (if Z.testbit x 15 then 0x1021 else 0).
Definition ccitt_byte (h b : Z) : Z := Nat.iter 8 ccitt_bit (Z.lxor h (Z.shiftl b 8)).
Definition ccitt (m : list Z) : Z := foldl ccitt_byte 0 m.

(** ** The tables *)

Lemma land_lxor a b c : Z.land (Z.lxor a b) c = Z.lxor (Z.land a c) (Z.land b c).
Proof.
  apply Z.bits_inj'. intros i Hi. rewrite Z.lxor_spec, !Z.land_spec, Z.lxor_spec.
  by destruct (Z.testbit a i), (Z.testbit b i), (Z.testbit c i).
Qed.

Lemma crc_bit_lxor a b : crc_bit (Z.lxor a b) = Z.lxor (crc_bit a) (crc_bit b).
Proof.
  unfold crc_bit. rewrite Z.shiftr_lxor, <- !Z.bit0_odd, Z.lxor_spec. set (p := 0xEDB88320).
  rewrite !Z.lxor_assoc. f_equal. rewrite (Z.lxor_comm _ (Z.lxor (Z.shiftr b 1) _)), Z.lxor_assoc. f_equal.
  by destruct (Z.testbit a 0), (Z.testbit b 0).
Qed.

Lemma ccitt_bit_lxor a b : ccitt_bit (Z.lxor a b) = Z.lxor (ccitt_bit a) (ccitt_bit b).
Proof.
  unfold ccitt_bit, u16. change 65536 with (2 ^ 16). rewrite <- !Z.land_ones by lia.
  rewrite Z.shiftl_lxor, Z.lxor_spec, land_lxor. set (p := 0x1021).
  rewrite !Z.lxor_assoc. f_equal. rewrite (Z.lxor_comm _ (Z.lxor (Z.land _ _) _)), Z.lxor_assoc. f_equal.
  by destruct (Z.testbit a 15), (Z.testbit b 15).
Qed.

Lemma iter_lxor (f : Z -> Z) n a b :
  (forall x y, f (Z.lxor x y) = Z.lxor (f x) (f y)) ->
  Nat.iter n f (Z.lxor a b) = Z.lxor (Nat.iter n f a) (Nat.iter n f b).
Proof. intros Hf. induction n as [|n IH]; simpl; [done|]. by rewrite IH, Hf. Qed.

Lemma crc_iter_shiftl n y : Nat.iter n crc_bit (Z.shiftl y (Z.of_nat n)) = y.
Proof.
  induction n as [|n IH]; [apply Z.shiftl_0_r|]. rewrite Nat.iter_succ_r. rewrite <- IH at 2. f_equal.
  unfold crc_bit. rewrite <- Z.bit0_odd, Z.shiftl_spec_low, Z.lxor_0_r by lia.
  rewrite Z.shiftr_shiftl_l by lia. f_equal. lia.
Qed.

(** The entries, checked one by one. *)
Lemma smalltable_ok i : word 8 i -> rd smalltable i = Some (Nat.iter 8 crc_bit i).
Proof. apply (all_bytes (fun i => rd smalltable i = Some (Nat.iter 8 crc_bit i))). vm_compute. reflexivity. Qed.

Lemma checksumtable_ok i : word 8 i -> rd checksumtable i = Some (Nat.iter 8 ccitt_bit (Z.shiftl i 8)).
Proof.
  apply (all_bytes (fun i => rd checksumtable i = Some (Nat.iter 8 ccitt_bit (Z.shiftl i 8)))). vm_compute. reflexivity.
Qed.

Lemma ccitt_iter_low x : word 8 x -> Nat.iter 8 ccitt_bit x = Z.shiftl x 8.
Proof. apply (all_bytes (fun x => Nat.iter 8 ccitt_bit x = Z.shiftl x 8)). vm_compute. reflexivity. Qed.

Lemma ccitt_bit_word x : word 16 (ccitt_bit x).
Proof. unfold ccitt_bit. apply word_lxor; [lia|apply u16_range|]. destruct (Z.testbit x 15); unfold word; lia. Qed.

(** The low byte and the rest. *)
Lemma low_rest x : Z.lxor (Z.land x 255) (Z.shiftl (Z.shiftr x 8) 8) = x.
Proof.
  apply Z.bits_inj'. intros i Hi. rewrite Z.lxor_spec, Z.land_spec. change 255 with (Z.ones 8).
  destruct (Z.ltb_spec i 8).
  - rewrite Z.shiftl_spec_low, Z.ones_spec_low by lia. by rewrite andb_true_r, xorb_false_r.
  - rewrite Z.shiftl_spec, Z.shiftr_spec, Z.ones_spec_high by lia. rewrite andb_false_r. simpl. f_equal. lia.
Qed.

(** A step of the table loop is eight steps of the shift register. *)
Lemma small_step h d :
  word 8 d -> exists t, rd smalltable (Z.lxor d (Z.land h 0xff)) = Some t /\ Z.lxor t (Z.shiftr h 8) = crc_byte h d.
Proof.
  intros Hd. rewrite smalltable_ok by (apply word_lxor; [lia|done|apply word_land_r; [lia|done]]).
  eexists. split; [done|]. unfold crc_byte. rewrite <- (low_rest h) at 3.
  rewrite (Z.lxor_comm (Z.land h 255)), Z.lxor_assoc, (Z.lxor_comm (Z.land h 255) d).
  rewrite (iter_lxor _ _ (Z.shiftl _ _)) by apply crc_bit_lxor. rewrite (crc_iter_shiftl 8). apply Z.lxor_comm.
Qed.

Lemma checksum_step s h :
  word 16 s -> word 8 h -> exists t, rd checksumtable (Z.lxor h (Z.shiftr s 8)) = Some t /\
    u16 (Z.lxor t (Z.shiftl s 8)) = ccitt_byte s h.
Proof.
  intros Hs Hh.
  assert (Hhi : word 8 (Z.shiftr s 8))
    by (unfold word in *; rewrite Z.shiftr_div_pow2 by lia; change (2 ^ 8) with 256; Z.div_mod_to_equations; lia).
  rewrite checksumtable_ok by (by apply word_lxor).
  eexists. split; [done|]. unfold ccitt_byte. rewrite <- (low_rest s) at 3.
  rewrite Z.lxor_assoc, <- Z.shiftl_lxor, (Z.lxor_comm _ h), (Z.lxor_comm (Z.land s 255)).
  rewrite (iter_lxor _ _ (Z.shiftl _ _)) by apply ccitt_bit_lxor.
  rewrite (ccitt_iter_low (Z.land s 255)) by (apply word_land_r; [lia|done]).
  assert (Ht : word 16 (Nat.iter 8 ccitt_bit (Z.shiftl (Z.lxor h (Z.shiftr s 8)) 8))) by apply ccitt_bit_word.
  unfold u16. change 65536 with (2 ^ 16). rewrite <- Z.land_ones, land_lxor by lia. f_equal.
  - rewrite Z.land_ones by lia. by apply Z.mod_small.
  - apply Z.bits_inj'. intros i Hi. rewrite Z.land_spec. destruct (Z.ltb_spec i 8).
    + by rewrite !Z.shiftl_spec_low by lia.
    + rewrite !Z.shiftl_spec, Z.land_spec by lia. change 255 with (Z.ones 8). destruct (Z.ltb_spec i 16).
      * by rewrite !Z.ones_spec_low by lia.
      * by rewrite !Z.ones_spec_high by lia.
Qed.
(** ** The loops over bytes *)

Lemma small_ok data (off n : nat) h :
  Forall (word 8) data -> (off + n <= length data)%nat ->
  fst_hash_small data (Z.of_nat off) (Z.of_nat n) h = Some (crc32 h (take n (drop off data))).
Proof.
  intros Hw Hn. unfold fst_hash_small. rewrite Nat2Z.id.
  assert (H : forall k i h, (i + k <= n)%nat ->
    for_up k (Z.of_nat i) (fun i smallhash =>
      d ← rd data (Z.of_nat off + i); t ← rd smalltable (Z.lxor d (Z.land smallhash 0xff));
      Some (Z.lxor t (Z.shiftr smallhash 8))) h = Some (crc32 h (take k (drop (off + i) data)))).
  { clear h. induction k as [|k IH]; intros i h Hk; [done|]. cbn [for_up].
    rewrite <- Nat2Z.inj_add, rd_nat. destruct (lookup_lt_is_Some_2 data (off + i)) as [d Hd]; [lia|].
    rewrite Hd. cbn [mbind option_bind]. pose proof Hd as Hdw. eapply Forall_lookup_1 in Hdw; [|exact Hw].
    destruct (small_step h d Hdw) as (t & -> & Ht). cbn [mbind option_bind]. rewrite Ht.
    replace (Z.of_nat i + 1) with (Z.of_nat (S i)) by lia. rewrite IH by lia.
    rewrite (drop_S _ _ _ Hd). cbn [take]. unfold crc32. cbn [foldl]. by rewrite Nat.add_succ_r. }
  pose proof (H n 0%nat h ltac:(lia)) as E. by rewrite Nat.add_0_r in E.
Qed.

Lemma crc32_app h a b : crc32 h (a ++ b) = crc32 (crc32 h a) b.
Proof. apply foldl_app. Qed.

Lemma ccitt_byte_word s h : word 16 (ccitt_byte s h).
Proof. unfold ccitt_byte. apply ccitt_bit_word. Qed.

Lemma checksum_ok hash :
  Forall (word 8) hash -> length hash = 20%nat -> fst_hash_checksum hash = Some (Z.land (ccitt hash) 0x3fff).
Proof.
  intros Hw Hl. unfold fst_hash_checksum.
  destruct (for_up_total (fun i s => word 16 s /\ s = ccitt (take (Z.to_nat i) hash))
    (fun i sum => h ← rd hash i; t ← rd checksumtable (Z.lxor h (Z.shiftr sum 8)); Some (u16 (Z.lxor t (Z.shiftl sum 8))))
    20 0 0) as (s & -> & _ & ->).
  - intros j s Hj [Hs ->]. destruct (lookup_lt_is_Some_2 hash (Z.to_nat j)) as [h Hh]; [lia|].
    rewrite (proj2 (rd_Some hash j h)) by (split; [lia|done]). cbn [mbind option_bind].
    pose proof Hh as Hhw. eapply Forall_lookup_1 in Hhw; [|exact Hw].
    destruct (checksum_step _ h Hs Hhw) as (t & -> & Ht). eexists. split; [reflexivity|]. rewrite Ht.
    split; [apply ccitt_byte_word|]. replace (Z.to_nat (j + 1)) with (S (Z.to_nat j)) by lia.
    rewrite (take_S_r _ _ _ Hh). unfold ccitt. rewrite foldl_app. cbn [foldl]. reflexivity.
  - split; [unfold word; lia|done].
  - cbn [mbind option_bind]. rewrite take_ge by lia. done.
Qed.

(** ** The checksum tells hashes that differ in one byte apart *)

Lemma ccitt_byte_lxor s1 s2 b1 b2 : ccitt_byte (Z.lxor s1 s2) (Z.lxor b1 b2) = Z.lxor (ccitt_byte s1 b1) (ccitt_byte s2 b2).
Proof.
  unfold ccitt_byte. rewrite <- iter_lxor by apply ccitt_bit_lxor. f_equal. rewrite Z.shiftl_lxor.
  rewrite !Z.lxor_assoc. f_equal. rewrite <- !Z.lxor_assoc. f_equal. apply Z.lxor_comm.
Qed.

(** Equal bytes carry a difference of states along. *)
Lemma ccitt_difference m s1 s2 :
  Z.lxor (foldl ccitt_byte s1 m) (foldl ccitt_byte s2 m) = Nat.iter (length m) (fun s => ccitt_byte s 0) (Z.lxor s1 s2).
Proof.
  revert s1 s2. induction m as [|b m IH]; intros s1 s2; [done|]. cbn [foldl length]. rewrite IH, Nat.iter_succ_r.
  f_equal. by rewrite <- ccitt_byte_lxor, Z.lxor_nilpotent.
Qed.

Lemma single_difference k d :
  (k < 20)%nat -> 0 < d < 256 -> Z.land (Nat.iter k (fun s => ccitt_byte s 0) (ccitt_byte 0 d)) 0x3fff <> 0.
Proof.
  intros Hk Hd.
  assert (H : forallb (fun k => forallb (fun d =>
      negb (Z.land (Nat.iter k (fun s => ccitt_byte s 0) (ccitt_byte 0 d)) 0x3fff =? 0)) (seqZ 1 255)) (seq 0 20) = true)
    by (vm_compute; reflexivity).
  rewrite forallb_forall in H. specialize (H k ltac:(apply in_seq; lia)). rewrite forallb_forall in H.
  apply Z.eqb_neq, negb_true_iff, H. apply list_elem_of_In, elem_of_seqZ. lia.
Qed.

(** The 14-bit checksum of a FastTrack hash is the low part of the
    CRC-16-CCITT of its 20 bytes, and no two hashes that differ in a single
    byte have the same one. *)
Theorem checksum_detects (a b : list Z) (x y : Z) :
  (length a + S (length b) = 20)%nat -> Forall (word 8) (a ++ x :: b) -> word 8 y -> x <> y ->
  exists c d, fst_hash_checksum (a ++ x :: b) = Some c /\ fst_hash_checksum (a ++ y :: b) = Some d /\ c <> d /\
    c = Z.land (ccitt (a ++ x :: b)) 0x3fff.
Proof.
  intros Hl Hw Hy Hxy. rewrite Forall_app, Forall_cons in Hw. destruct Hw as (Ha & Hx & Hb).
  exists (Z.land (ccitt (a ++ x :: b)) 0x3fff), (Z.land (ccitt (a ++ y :: b)) 0x3fff).
  rewrite !checksum_ok by (rewrite ?length_app, ?Forall_app, ?Forall_cons; simpl; (done || lia)).
  split; [done|]. split; [done|]. split; [|done]. unfold ccitt. rewrite !foldl_app. cbn [foldl]. set (s := foldl _ 0 a).
  assert (Hd : Z.lxor (ccitt_byte s x) (ccitt_byte s y) = ccitt_byte 0 (Z.lxor x y))
    by (by rewrite <- ccitt_byte_lxor, Z.lxor_nilpotent).
  pose proof (ccitt_difference b (ccitt_byte s x) (ccitt_byte s y)) as E. rewrite Hd in E.
  intros Heq. eapply (single_difference (length b) (Z.lxor x y)); [lia| |by rewrite <- E, land_lxor, Heq, Z.lxor_nilpotent].
  pose proof (word_lxor 8 x y ltac:(lia) Hx Hy) as [? ?]. assert (Z.lxor x y <> 0) by (by rewrite Z.lxor_eq_0_iff). lia.
Qed.

Lemma checksum_detects_witness :
  exists c d, fst_hash_checksum (replicate 7 1 ++ 2 :: replicate 12 3) = Some c /\
    fst_hash_checksum (replicate 7 1 ++ 130 :: replicate 12 3) = Some d /\ c <> d /\
    c = Z.land (ccitt (replicate 7 1 ++ 2 :: replicate 12 3)) 0x3fff.
Proof.
  apply checksum_detects; [reflexivity| |unfold word; lia|lia].
  apply Forall_app. split; [|apply Forall_cons; split]; [apply Forall_replicate|..|apply Forall_replicate]; unfold word; lia.
Defined.

(** ** The hash of a file, on the whole message *)

Definition chunk : nat := Z.to_nat FST_HASH_CHUNK.

(** The offsets sampled: the powers of two from 2 ^ 20 that leave two chunks
    before the end. *)
Definition offsets_from (i : Z) (fuel : nat) (n : Z) : list Z :=
  filter (fun o => o + 2 * FST_HASH_CHUNK < n) (Z.pow 2 <$> seqZ (20 + i) (Z.of_nat fuel)).

Definition sampled (m : list Z) (os : list Z) : list Z :=
  concat ((fun o => take chunk (drop (Z.to_nat o) m)) <$> os).

(** Past the first chunk: the samples, then the end. *)
Definition fst_samples (m : list Z) : list Z :=
  let n := Z.of_nat (length m) in
  if FST_HASH_CHUNK <? n then
    sampled m (offsets_from 0 44 n) ++ drop (Z.to_nat (n - Z.min FST_HASH_CHUNK (n - FST_HASH_CHUNK))) m
  else [].

Definition fst_spec (m : list Z) : list Z :=
  md5_spec (take chunk m) ++ le_bytes 4 (Z.lxor (crc32 0xffffffff (fst_samples m)) (Z.of_nat (length m))).

Lemma md5_spec_length m : length (md5_spec m) = 16%nat.
Proof. reflexivity. Qed.

#[local] Opaque md5_spec.

Lemma chunk_Z : Z.of_nat chunk = FST_HASH_CHUNK.
Proof. unfold chunk, FST_HASH_CHUNK. lia. Qed.

#[local] Opaque chunk.

Lemma offsets_step i fuel n :
  2 ^ (20 + i) + 2 * FST_HASH_CHUNK < n -> offsets_from i (S fuel) n = 2 ^ (20 + i) :: offsets_from (i + 1) fuel n.
Proof.
  intros H. unfold offsets_from. rewrite Nat2Z.inj_succ, seqZ_cons by lia. cbn [fmap list_fmap].
  rewrite filter_cons_True by done. by rewrite Z.pred_succ, <- Z.add_succ_r.
Qed.

Lemma offsets_end i fuel n : 0 <= i -> n <= 2 ^ (20 + i) + 2 * FST_HASH_CHUNK -> offsets_from i fuel n = [].
Proof.
  intros Hi H. destruct (offsets_from i fuel n) as [|o os] eqn:E; [done|].
  assert (Ho : o ∈ offsets_from i fuel n) by (rewrite E; left).
  apply list_elem_of_filter in Ho as [Ho (j & -> & Hj)%list_elem_of_fmap]. apply elem_of_seqZ in Hj.
  pose proof (Z.pow_le_mono_r 2 (20 + i) j ltac:(lia) ltac:(lia)). lia.
Qed.

(** The bounds of an iteration, for sizes below 2 ^ 62. *)
Lemma offset_bounds i n :
  0 <= i <= 42 -> 2 ^ (20 + i) + 2 * FST_HASH_CHUNK < n -> n < 2 ^ 62 ->
  i < 42 /\ u64 (Z.shiftl (2 ^ (20 + i)) 1) = 2 ^ (20 + (i + 1)) /\
  u64 (2 ^ (20 + i) + FST_HASH_CHUNK) = 2 ^ (20 + i) + FST_HASH_CHUNK /\ 2 ^ 20 <= 2 ^ (20 + i).
Proof.
  intros Hi Ho Hn. unfold FST_HASH_CHUNK in *. assert (2 ^ 20 <= 2 ^ (20 + i)) by (apply Z.pow_le_mono_r; lia).
  assert (i < 42). { assert (i <> 42); [|lia]. intros ->. change (20 + 42) with 62 in Ho. lia. }
  split; [done|]. replace (20 + (i + 1)) with (Z.succ (20 + i)) by lia.
  rewrite Z.pow_succ_r, Z.shiftl_mul_pow2 by lia. change (2 ^ 62) with 4611686018427387904 in Hn.
  rewrite !u64_id by (unfold word; change (2 ^ 64) with 18446744073709551616; change (2 ^ 1) with 2; lia).
  split; [lia|done].
Qed.

(** Where the loop leaves [lastpos]. *)
Definition last_ok (n last : Z) : Prop := last = FST_HASH_CHUNK \/ FST_HASH_CHUNK <= last /\ last + FST_HASH_CHUNK < n.

Lemma end_len_ok n last :
  FST_HASH_CHUNK < n < 2 ^ 62 -> last_ok n last -> end_len n last = Z.min FST_HASH_CHUNK (n - FST_HASH_CHUNK).
Proof.
  unfold last_ok, end_len. intros Hn Hl. unfold FST_HASH_CHUNK in *. change (2 ^ 62) with 4611686018427387904 in Hn.
  rewrite u64_id by (unfold word; change (2 ^ 64) with 18446744073709551616; lia). bdestr; lia.
Qed.

Section String.
Context (m : list Z) (bytes : Forall (word 8) m) (small_size : Z.of_nat (length m) < 2 ^ 62).
Let n := Z.of_nat (length m).

Lemma chunk_hash (o : Z) h :
  0 <= o -> o + FST_HASH_CHUNK <= n ->
  fst_hash_small m o FST_HASH_CHUNK h = Some (crc32 h (take chunk (drop (Z.to_nat o) m))).
Proof.
  intros Ho Hn. rewrite <- chunk_Z in *. rewrite <- (Z2Nat.id o) at 1 by done. apply small_ok; [done|].
  subst n. lia.
Qed.

Lemma string_loop_ok fuel i last h :
  0 <= i <= 42 -> Z.of_nat fuel + i = 44 -> last_ok n last ->
  exists last', string_loop fuel m n (2 ^ (20 + i)) last h = Some (last', crc32 h (sampled m (offsets_from i fuel n))) /\
    last_ok n last'.
Proof.
  revert i last h. induction fuel as [|fuel IH]; intros i last h Hi Hf Hl; [lia|]. cbn [string_loop].
  assert (Hp : 2 ^ (20 + i) <= 2 ^ 62) by (apply Z.pow_le_mono_r; lia). pose proof (Z.pow_nonneg 2 (20 + i) ltac:(lia)).
  assert (Hu : u64 (2 ^ (20 + i) + 2 * FST_HASH_CHUNK) = 2 ^ (20 + i) + 2 * FST_HASH_CHUNK).
  { apply u64_id. unfold word, FST_HASH_CHUNK. change (2 ^ 64) with 18446744073709551616.
    change (2 ^ 62) with 4611686018427387904 in Hp. lia. }
  rewrite Hu. destruct (Z.ltb_spec (2 ^ (20 + i) + 2 * FST_HASH_CHUNK) n) as [Ho|Ho].
  - destruct (offset_bounds i n Hi Ho small_size) as (Hi' & E1 & E2 & Hlow).
    rewrite E1, E2, chunk_hash by (unfold FST_HASH_CHUNK in *; lia). cbn [mbind option_bind].
    destruct (IH (i + 1) (2 ^ (20 + i) + FST_HASH_CHUNK) (crc32 h (take chunk (drop (Z.to_nat (2 ^ (20 + i))) m))))
      as (last' & E & Hl'); [lia|lia|right; unfold FST_HASH_CHUNK in *; lia|].
    exists last'. split; [|done]. rewrite E, offsets_step by done. unfold sampled. cbn [fmap list_fmap concat].
    unfold crc32. by rewrite foldl_app.
  - exists last. split; [|done]. by rewrite offsets_end by lia.
Qed.

Lemma tail_hash h :
  FST_HASH_CHUNK < n -> let e := Z.min FST_HASH_CHUNK (n - FST_HASH_CHUNK) in
  0 <= e /\ u64 (n - e) = n - e /\ fst_hash_small m (n - e) e h = Some (crc32 h (drop (Z.to_nat (n - e)) m)).
Proof.
  intros Hn e. assert (He : 0 <= e <= n /\ u64 (n - e) = n - e).
  { unfold e, FST_HASH_CHUNK in *. rewrite u64_id; [lia|]. unfold word. change (2 ^ 64) with 18446744073709551616.
    change (2 ^ 62) with 4611686018427387904 in small_size. subst n. lia. }
  split; [lia|]. split; [tauto|]. rewrite <- (Z2Nat.id (n - e)) at 1 by lia. rewrite <- (Z2Nat.id e) at 2 by lia.
  rewrite small_ok; [|done|subst n; lia]. do 2 f_equal. apply take_ge. rewrite length_drop. subst n. lia.
Qed.

Lemma first_chunk :
  let len := if FST_HASH_CHUNK <? u64 n then FST_HASH_CHUNK else u64 n in
  len = Z.of_nat (length (take chunk m)) /\ sub_bytes m 0 len = Some (take chunk m).
Proof.
  intros len. assert (El : len = Z.of_nat (length (take chunk m))).
  { unfold len. rewrite u64_id by (unfold word; change (2 ^ 64) with 18446744073709551616;
      change (2 ^ 62) with 4611686018427387904 in small_size; subst n; lia).
    rewrite length_take. pose proof chunk_Z. unfold n. bdestr; lia. }
  split; [done|]. rewrite El, sub_bytes_0 by (rewrite length_take; lia). f_equal.
  rewrite length_take. destruct (Nat.le_gt_cases chunk (length m)); [by rewrite Nat.min_l by lia|].
  by rewrite Nat.min_r, !take_ge by lia.
Qed.
End String.

Lemma md5_into_ok fth buf :
  (16 <= length fth)%nat -> Z.of_nat (length buf) <= FST_HASH_CHUNK ->
  md5_into fth buf (Z.of_nat (length buf)) = Some (md5_spec buf ++ drop 16 fth).
Proof.
  intros Hf Hb. unfold FST_HASH_CHUNK in Hb. unfold md5_into.
  destruct (md5_update_ok _ _ buf md5_init_repr) as (ctx & -> & Hr); [lia|]. cbn [mbind option_bind].
  rewrite (md5_finish_ok _ _ Hr). cbn [mbind option_bind app]. change 0 with (Z.of_nat 0).
  rewrite blit_in by (rewrite md5_spec_length; lia). by rewrite take_0, md5_spec_length.
Qed.

Lemma put_small_ok fth d h :
  length d = 16%nat -> (20 <= length fth)%nat ->
  put_small (d ++ drop 16 fth) (u32 h) = Some ((d ++ le_bytes 4 h) ++ drop 20 fth).
Proof.
  intros Hd Hf. unfold put_small. change 16 with (Z.of_nat 16).
  rewrite blit_in by (rewrite length_app, length_drop, le_bytes_length; lia).
  rewrite le_bytes_length, take_app_length' by done. rewrite drop_app_ge, Hd, drop_drop, <- app_assoc by lia.
  do 3 f_equal. apply (le_bytes_mod 4).
Qed.

#[local] Opaque crc_byte fst_hash_small string_loop md5_append md5_finish smalltable.

(** The hash of a string. *)
Lemma fst_hash_string_ok fth m :
  (20 <= length fth)%nat -> Forall (word 8) m -> Z.of_nat (length m) < 2 ^ 62 ->
  fst_hash_string fth m (Z.of_nat (length m)) = Some (fst_spec m ++ drop 20 fth).
Proof.
  intros Hf Hm Hn. unfold fst_hash_string. destruct (first_chunk m Hn) as [El Es]. cbn zeta in El, Es.
  rewrite Es, El. rewrite some_bind. rewrite md5_into_ok; [|lia|rewrite length_take; pose proof chunk_Z; lia].
  rewrite some_bind. unfold fst_spec, fst_samples.
  destruct (Z.ltb_spec FST_HASH_CHUNK (Z.of_nat (length m))) as [Hc|Hc].
  - destruct (string_loop_ok m Hm Hn 44 0 FST_HASH_CHUNK 0xffffffff) as (last & E & Hl); [lia|done|by left|].
    replace 0x100000 with (2 ^ (20 + 0)) by reflexivity. rewrite E. rewrite some_bind.
    rewrite end_len_ok by (done || lia). destruct (tail_hash m Hm Hn (crc32 0xffffffff (sampled m (offsets_from 0 44 (Z.of_nat (length m)))))) as (_ & -> & ->);
      [done|]. rewrite some_bind. rewrite <- crc32_app. apply put_small_ok; [apply md5_spec_length|done].
  - rewrite some_bind. apply (put_small_ok _ _ (Z.lxor 0xffffffff _)); [apply md5_spec_length|done].
Qed.

(** ** The hash of a file *)

Section ReadFile.
Context {F : Type} {S : Syscalls F} {m : list Z} `{!Readable S m}.
Context (bytes : Forall (word 8) m) (small_size : Z.of_nat (length m) < 2 ^ 62).
Let n := Z.of_nat (length m).

Lemma read_chunk_ok fp (q : nat) (pos k : Z) :
  at_ fp q -> 0 <= pos -> 0 <= k -> pos + k <= n ->
  exists buf fp', read_chunk fp pos k = Some (buf, fp') /\ at_ fp' (Z.to_nat (pos + k)) /\
    buf = take (Z.to_nat k) (drop (Z.to_nat pos) m) /\ Z.of_nat (length buf) = k.
Proof.
  intros Hat Hp Hk Hn. destruct (lseek_ok fp q (Z.to_nat pos) Hat ltac:(left; lia)) as (f1 & E1 & Hat1). rewrite Z2Nat.id in E1 by lia.
  destruct (fread_ok (Z.to_nat k) f1 (Z.to_nat pos) (Z.to_nat k) Hat1 (le_n _)) as (f2 & E2 & Hat2).
  rewrite Z2Nat.id in E2 by lia. unfold read_chunk. rewrite E1, some_bind, E2.
  set (buf := take _ _) in *.
  assert (Hl : Z.of_nat (length buf) = k) by (unfold buf, n in *; rewrite length_take, length_drop; lia).
  exists buf, f2. destruct (Z.ltb_spec (Z.of_nat (length buf)) k); [lia|]. split; [done|].
  split; [|done]. by replace (Z.to_nat (pos + k)) with (Z.to_nat pos + length buf)%nat by lia.
Qed.

(** A chunk read and hashed. *)
Lemma read_hash buf (pos k : Z) h :
  0 <= k -> buf = take (Z.to_nat k) (drop (Z.to_nat pos) m) -> Z.of_nat (length buf) = k ->
  fst_hash_small buf 0 k h = Some (crc32 h (take (Z.to_nat k) (drop (Z.to_nat pos) m))).
Proof.
  intros Hk Hb Hl. rewrite <- Hb, <- Hl at 1. change 0 with (Z.of_nat 0). rewrite small_ok.
  - by rewrite drop_0, take_ge.
  - rewrite Hb. by apply Forall_take, Forall_drop.
  - done.
Qed.

Lemma chunk_loop_ok fuel fp (q : nat) i last h :
  at_ fp q -> 0 <= i <= 42 -> Z.of_nat fuel + i = 44 -> last_ok n last ->
  exists fp' q' last', file_loop fuel fp n (2 ^ (20 + i)) last h
      = Ret (Some (fp', last', crc32 h (sampled m (offsets_from i fuel n)))) /\ last_ok n last' /\ at_ fp' q'.
Proof.
  revert fp q i last h. induction fuel as [|fuel IH]; intros fp q i last h Hat Hi Hf Hl; [lia|]. cbn [file_loop].
  assert (Hp : 2 ^ (20 + i) <= 2 ^ 62) by (apply Z.pow_le_mono_r; lia). pose proof (Z.pow_nonneg 2 (20 + i) ltac:(lia)).
  assert (Hu : u64 (2 ^ (20 + i) + 2 * FST_HASH_CHUNK) = 2 ^ (20 + i) + 2 * FST_HASH_CHUNK).
  { apply u64_id. unfold word, FST_HASH_CHUNK. change (2 ^ 64) with 18446744073709551616.
    change (2 ^ 62) with 4611686018427387904 in Hp. lia. }
  rewrite Hu. destruct (Z.ltb_spec (2 ^ (20 + i) + 2 * FST_HASH_CHUNK) n) as [Ho|Ho].
  - destruct (offset_bounds i n Hi Ho small_size) as (Hi' & E1 & E2 & Hlow).
    destruct (read_chunk_ok fp q (2 ^ (20 + i)) FST_HASH_CHUNK Hat) as (buf & f1 & -> & Hat1 & Hb & Hlb);
      [unfold FST_HASH_CHUNK in *; lia..|].
    rewrite E1, E2, (read_hash buf (2 ^ (20 + i))), mem_some, bind_ret by (done || unfold FST_HASH_CHUNK; lia).
    destruct (IH f1 _ (i + 1) (2 ^ (20 + i) + FST_HASH_CHUNK) (crc32 h (take chunk (drop (Z.to_nat (2 ^ (20 + i))) m))) Hat1)
      as (f2 & q' & last' & E & Hl' & Hat'); [lia|lia|right; unfold FST_HASH_CHUNK in *; lia|].
    exists f2, q', last'. split; [|done]. rewrite offsets_step by done. unfold sampled. cbn [fmap list_fmap concat].
    rewrite crc32_app. exact E.
  - exists fp, q, last. split; [|done]. by rewrite offsets_end by lia.
Qed.

Lemma file_small_ok fp (q : nat) : at_ fp q -> file_small fp n = Ret (Some (crc32 0xffffffff (fst_samples m))).
Proof.
  intros Hat. unfold file_small, fst_samples. fold n.
  destruct (Z.ltb_spec FST_HASH_CHUNK n) as [Hc|Hc]; [|reflexivity].
  destruct (chunk_loop_ok 44 fp q 0 FST_HASH_CHUNK 0xffffffff Hat) as (f1 & q' & last & E & Hl & Hat1); [lia|done|by left|].
  replace 0x100000 with (2 ^ (20 + 0)) by reflexivity. rewrite E, bind_ret. rewrite end_len_ok by (done || lia).
  destruct (tail_hash m bytes small_size 0 Hc) as (He & Hu & _). fold n in He, Hu. rewrite Hu.
  set (e := Z.min _ _) in *.
  destruct (read_chunk_ok f1 q' (n - e) e Hat1) as (buf & f2 & -> & _ & Hb & Hlb); [unfold n, e in *; lia..|].
  rewrite (read_hash buf (n - e)), mem_some, bind_ret by done.
  rewrite crc32_app. do 3 f_equal. apply take_ge. rewrite length_drop. unfold n in *. lia.
Qed.

Lemma fst_hash_file_ok fth fp :
  at_ fp 0 -> (20 <= length fth)%nat -> fst_hash_file fth (Some fp) n = Ret (true, fst_spec m ++ drop 20 fth).
Proof.
  intros Hat Hf. unfold fst_hash_file.
  destruct (fread_ok chunk fp 0 chunk Hat (le_n _)) as (f1 & E & Hat1). rewrite chunk_Z, drop_0 in E.
  change (Z.to_nat FST_HASH_CHUNK) with chunk. rewrite E.
  assert (Hfeof : (Z.of_nat (length (take chunk m)) =? 0) && negb (feof fp FST_HASH_CHUNK) = false).
  { apply andb_false_iff. destruct (Z.eqb_spec (Z.of_nat (length (take chunk m))) 0) as [Hz|]; [right|by left].
    rewrite length_take in Hz. pose proof chunk_Z as Hk. unfold FST_HASH_CHUNK in Hk. unfold feof.
    destruct (read_ok fp 0 chunk Hat) as (bs & f2 & Er & _ & Hbs & _). rewrite chunk_Z in Er. rewrite Er.
    destruct bs; [done|]. apply (f_equal length) in Hbs. rewrite drop_0, length_take in Hbs. cbn [length] in Hbs. lia. }
  rewrite Hfeof, md5_into_ok, mem_some, bind_ret, (file_small_ok _ _ Hat1), bind_ret;
    [|lia|rewrite length_take; pose proof chunk_Z; lia].
  rewrite (put_small_ok _ _ (Z.lxor _ _)), mem_some, bind_ret by (done || apply md5_spec_length). done.
Qed.
End ReadFile.

(** C16: the hash of a file and the hash of the string of its bytes are one
    function: MD5 of the first 307200 bytes, then the CRC-32 of the chunks at
    the powers of two from 2 ^ 20 and of the end, exclusive-or the size.  It
    does not depend on how many bytes a read returns, and no access leaves the
    buffers. *)
Theorem file_and_string_agree {F} {S : Syscalls F} {m} `{!Readable S m} (fth : list Z) (fp : F) :
  at_ fp 0 -> (20 <= length fth)%nat -> Forall (word 8) m -> Z.of_nat (length m) < 2 ^ 31 ->
  fst_hash_string_ml fth m (Z.of_nat (length m)) = Some (fst_spec m ++ drop 20 fth) /\
  fst_hash_file_ml fth (Some fp) (Z.of_nat (length m)) = Ret (fst_spec m ++ drop 20 fth).
Proof.
  intros Hat Hf Hm Hn. assert (Hn' : Z.of_nat (length m) < 2 ^ 62) by lia. split.
  - unfold fst_hash_string_ml. rewrite s32_small by lia.
    by apply fst_hash_string_ok.
  - unfold fst_hash_file_ml. rewrite fst_hash_file_ok, bind_ret by done. done.
Qed.

(** Two million bytes, read ten at a time. *)
Lemma file_and_string_agree_witness :
  let m := replicate (Z.to_nat 2000000) 7 in
  fst_hash_string_ml (replicate 20 0) m (Z.of_nat (length m)) = Some (fst_spec m ++ drop 20 (replicate 20 0)) /\
  fst_hash_file_ml (replicate 20 0) (Some (Disk m 0 9)) (Z.of_nat (length m))
    = Ret (fst_spec m ++ drop 20 (replicate 20 0)).
Proof.
  intros m. apply (file_and_string_agree (m := m) (replicate 20 0) (Disk m 0 9)).
  - split; reflexivity.
  - rewrite length_replicate. apply le_n.
  - apply Forall_replicate. unfold word. lia.
  - unfold m. rewrite length_replicate, Z2Nat.id by lia. reflexivity.
Defined.

(** The test strings of [src/src/utils/lib/md4.ml]. *)
Lemma fst_spec_vectors :
  fst_spec [97; 98; 99; 101; 100; 101; 102; 103; 104; 105; 106; 107; 108; 109; 110; 101; 111]
    = rev (le_bytes 20 0x0cbaf66cef6d684f6667099a6d477ff5eeffffff) /\
  fst_spec (replicate 1000 65) = rev (le_bytes 20 0x7644672d049290f0390d9c993c7d343d17fcffff).
Proof. vm_compute. split; reflexivity. Qed.

End FstHash.
