(* ===== verification/FstCrypt.v ===== *)
(** * The FastTrack stream cipher

    [src/src/networks/fasttrack/fst_crypt.c], [fst_crypt.h] and
    [fst_crypt_ml.c]: the cipher state, its initialisation from a seed and an
    encryption type, the keystream, and the handshake packets.  The machine is
    little-endian; a cipher is a value, and an operation on two ciphers gets
    two different ones. *)

From Stdlib Require Import ZArith Lia.
From stdpp Require Import base option list sorting numbers.
From S2P Require Import Prelude Mix EncType2 EncType20 EncType80 EncType1 MerkleDamgard Md5.

Local Open Scope Z_scope.

Module FstCrypt.

(** ** The state *)

Record FSTCipher := Cipher {
  pos : Z;
  wrapcount : Z;
  add_to_lookup : Z;
  enc_type : Z;
  pad : list Z;         (* 63 bytes *)
  lookup : list Z;      (* 256 bytes *)
  pad16 : list Z;       (* 20 words *)
  cseed : Z             (* [seed] *)
}.

Definition fst_cipher_create : FSTCipher :=
  Cipher 0 0 0 0 (replicate 63 0) (replicate 256 0) (replicate 20 0) 0.

(** ** Helpers *)

Definition seed_step (seed : Z) : Z := u32 (0x10dcd * seed + 0x4271).

(** [for (i = 0; i < n; i++) { seed = seed_step (seed); key[i] = seed; }] *)
Fixpoint seed_keys (n : nat) (seed : Z) : list Z * Z :=
  match n with
  | O => ([], seed)
  | S n =>
      let seed := seed_step seed in
      let '(key, seed') := seed_keys n seed in (seed :: key, seed')
  end.

Definition qsort_cmp_func (a b : Z) : Z := Z.lxor a 0x20 - Z.lxor b 0x20.

(** [qsort] with that comparison. *)
Fixpoint qsort_insert (x : Z) (l : list Z) : list Z :=
  match l with
  | [] => [x]
  | y :: l' => if qsort_cmp_func x y <=? 0 then x :: l else y :: qsort_insert x l'
  end.

Definition qsort (l : list Z) : list Z := foldr qsort_insert [] l.

(** [qsort (pad + sortpos, 5, 1, qsort_cmp_func)] *)
Definition sort5 (pad : list Z) (sortpos : Z) : option (list Z) :=
  five ← sub_bytes pad sortpos 5;
  blit pad sortpos (qsort five).

(** [val = ~val + i; pad[i] = val | 1], for [i] = 5, 8, ..., 62. *)
Definition third_step (n : Z) (pad : list Z) : option (list Z) :=
  let i := 5 + 3 * n in
  val ← rd pad i;
  wr pad i (Z.lor (u8 (Z.lnot val + i)) 1).

Definition modify_thirds (pad : list Z) : option (list Z) := for_up 20 0 third_step pad.

(** [pad[i] ^= key[i]] *)
Definition merge_step (key : list Z) (i : Z) (pad : list Z) : option (list Z) :=
  x ← rd pad i; y ← rd key i; wr pad i (Z.lxor x y).

(** [*buf = ((u32) cbuf[3] << 8 | cbuf[2]) << 16 | ((u32) cbuf[1] << 8 | cbuf[0])] for each word, [cbuf] its bytes in memory. *)
Definition reverse_bytes (buf : list Z) : list Z :=
  (fun w =>
     let cbuf k := nth k (le_bytes 4 w) 0 in
     Z.lor (Z.shiftl (Z.lor (Z.shiftl (cbuf 3%nat) 8) (cbuf 2%nat)) 16)
           (Z.lor (Z.shiftl (cbuf 1%nat) 8) (cbuf 0%nat))) <$> buf.

(** Returns the result and the new [*num]. *)
Definition calculate_num (num val : Z) : Z * Z :=
  if negb (0x10001 <? val) then
    let num := seed_step num in (Z.shiftr (Z.shiftr num 16 * val) 16, num)
  else (val, num).

(** ** Initialisation *)

(** The first branch of [pad_init]: 255 key bytes, then [enc_type_1]. *)
Fixpoint key_256 (n : nat) (seed : Z) : list Z * Z :=
  match n with
  | O => ([], seed)
  | S n =>
      let seed := seed_step seed in
      let '(key, seed') := key_256 n seed in (u8 (Z.shiftr seed 0x11 mod 0xE0) :: key, seed')
  end.

Definition has (enc_type mask : Z) : bool := negb (Z.land enc_type mask =? 0).

Definition pad_init_1 (seed : Z) (pad : list Z) : option (Z * list Z) :=
  let '(key_256_in, sd) := key_256 255 seed in
  key_256_out ← enc_type_1 key_256_in;
  pad ← for_up 63 0 (merge_step key_256_out) pad;
  Some (sd, pad).

(** One [if (enc_type & mask)] of the second branch. *)
Definition mix_key (enc_type mask : Z) (mixer : proc) (st : list Z * Z) : option (list Z * Z) :=
  if has enc_type mask then
    let seed := seed_step (snd st) in
    key ← mixer (fst st) seed; Some (key, seed)
  else Some st.

(** The result, [*pseed] and [pad]; [*pseed] is not written on failure. *)
Definition pad_init (pseed enc_type : Z) : option (bool * Z * list Z) :=
  let pad := replicate 63 0 in
  '(sd, pad) ←
    (if has enc_type 1 || negb (has enc_type 0x1E7) then pad_init_1 pseed pad else Some (pseed, pad));
  if has enc_type 0x1E6 then
    st ← mix_key enc_type 0x02 enc_type_2 (seed_keys 20 sd);
    if has enc_type 0x04 then Some (false, pseed, pad) else
    st ← mix_key enc_type 0x20 enc_type_20 st;
    st ← mix_key enc_type 0x80 enc_type_80 st;
    if has enc_type 0x100 then Some (false, pseed, pad) else
    let key_80 := reverse_bytes (fst st) in
    pad ← for_up 63 0 (merge_step (word_bytes key_80)) pad;
    Some (true, snd st, pad)
  else Some (true, sd, pad).

(** "adjust pad" *)
Definition adjust_pad (pad : list Z) : option (list Z) :=
  let c := foldl Z.lor 0 pad in
  if Z.land c 1 =? 0 then p0 ← rd pad 0; wr pad 0 (Z.lor p0 0x71) else Some pad.

(** The [unsigned int] words of the digest. *)
Definition md5_word0 (digest : list Z) : Z := le_word (take 4 digest).

Definition shuffle_step (i : Z) (st : Z * list Z) : option (Z * list Z) :=
  let '(num, lookup) := st in
  let '(r, num) := calculate_num num (0x100 - i) in
  let j := r + i in
  if j =? i then Some (num, lookup) else
    a ← rd lookup j;
    b ← rd lookup i;
    lookup ← wr lookup i a;
    lookup ← wr lookup j b;
    Some (num, lookup).

(** [if (enc_type & 0x08)]: the lookup table is shuffled by the MD5 of the pad. *)
Definition init_lookup (enc_type : Z) (pad : list Z) : option (list Z) :=
  let lookup := seqZ 0 256 in
  if has enc_type 0x08 then
    md5 ← ih_digest (Ctx := md5_state) [pad];
    let num := md5_word0 (word_bytes (reverse_bytes [md5_word0 md5])) in
    '(_, lookup) ← for_up 256 0 shuffle_step (num, lookup);
    Some lookup
  else Some lookup.

(** [pad16] from a seed, mixed by [enc_type_2]. *)
Definition fill_pad16 (seed : Z) : option (list Z) :=
  let '(key, sd) := seed_keys 20 seed in enc_type_2 key (seed_step sd).

Definition fst_cipher_init (cipher : FSTCipher) (seed enc : Z) : option (bool * FSTCipher) :=
  '(ok, seed', p) ← pad_init seed enc;
  if negb ok then
    Some (false, Cipher (pos cipher) 0 0 enc p (lookup cipher) (pad16 cipher) seed)
  else
    p ← adjust_pad p;
    let temp := Z.shiftr (seed_step seed') 16 in
    let pos' := Z.shiftr (u32 (u32 (Z.shiftl temp 6) - temp)) 16 in
    lk ← init_lookup enc p;
    p16 ← (if has enc 0x10 then fill_pad16 pos' else Some (pad16 cipher));
    p ← sort5 p ((pos' * pos' + 2) mod 59);
    p ← modify_thirds p;
    Some (true, Cipher pos' 0 0 enc p lk p16 seed).

Definition fst_cipher_mangle_enc_type (seed enc : Z) : option Z :=
  key_80 ← fill_pad16 seed;
  k ← rd key_80 7;
  Some (Z.lxor enc k).

(** ** The keystream *)

(** [if (cipher->pos == 7 && ((xor & 0x70) == 0))] *)
Definition rekey (xor : Z) (pad : list Z) : option (list Z) :=
  p2 ← rd pad 2;
  let sortpos := xor + p2 in
  pad ← sort5 pad ((sortpos * sortpos + 2) mod 59);
  modify_thirds pad.

(** [pad[pad_offset + i] ^= (unsigned char) (pad16[i] >> shift_factor)] *)
Definition pad16_step (pad16 : list Z) (shift_factor pad_offset i : Z) (pad : list Z) : option (list Z) :=
  w ← rd pad16 i;
  x ← rd pad (pad_offset + i);
  wr pad (pad_offset + i) (Z.lxor x (u8 (Z.shiftr w shift_factor))).

(** [if (cipher->enc_type & 0x10)] at a wrap. *)
Definition wrap_pad16 (pad16 pad : list Z) : option (list Z) :=
  f ← rd pad 0x18;
  o ← rd pad 0x19;
  let shift_factor := Z.land f 0x0f in
  let pad_offset := Z.land o 0x1f in
  pad ← for_up 6 0 (pad16_step pad16 shift_factor pad_offset) pad;
  a ← rd pad 0x0A;
  x ← rd pad (pad_offset + 4);
  wr pad (pad_offset + 4) (u8 (Z.lor x (Z.shiftl 1 (Z.land a 7)))).

(** [if (cipher->pos == 0x3f)] *)
Definition wrap (c : FSTCipher) : option FSTCipher :=
  let w := u32 (wrapcount c + 1) in
  let add := if has (enc_type c) 0x08 then u32 (add_to_lookup c + 1) else add_to_lookup c in
  if has (enc_type c) 0x10 then
    p ← wrap_pad16 (pad16 c) (pad c);
    p16 ← (if Z.land w 15 =? 0 then fill_pad16 w else Some (pad16 c));
    Some (Cipher 0 w add (enc_type c) p (lookup c) p16 (cseed c))
  else Some (Cipher 0 w add (enc_type c) (pad c) (lookup c) (pad16 c) (cseed c)).

Definition fst_cipher_clock (c : FSTCipher) : option (Z * FSTCipher) :=
  let lastpos := if 0 <? pos c then pos c - 1 else 62 in
  l ← rd (pad c) lastpos;
  x ← rd (pad c) (pos c);
  let xor := u8 (x + l) in
  p ← wr (pad c) (pos c) xor;
  p ← (if (pos c =? 7) && (Z.land xor 0x70 =? 0) then rekey xor p else Some p);
  let c := Cipher (pos c + 1) (wrapcount c) (add_to_lookup c) (enc_type c) p (lookup c) (pad16 c) (cseed c) in
  c ← (if pos c =? 0x3f then wrap c else Some c);
  out ← rd (lookup c) (u8 (add_to_lookup c + xor));
  Some (out, c).

Definition crypt_step (i : Z) (st : FSTCipher * list Z) : option (FSTCipher * list Z) :=
  let '(c, data) := st in
  v ← rd data i;
  '(k, c) ← fst_cipher_clock c;
  data ← wr data i (Z.lxor v k);
  Some (c, data).

(** [data] points [off] bytes into the caller's buffer. *)
Definition fst_cipher_crypt (c : FSTCipher) (data : list Z) (off len : Z) : option (FSTCipher * list Z) :=
  for_up (Z.to_nat len) off crypt_step (c, data).

(** ** The operations of [fst_crypt_ml.c]

    Positions and lengths come as OCaml integers: [Int_val] keeps 32 bits of
    them, read with their sign. *)

Definition htonl (x : Z) : Z := le_word (rev (le_bytes 4 x)).

Definition ml_create_cipher : FSTCipher := fst_cipher_create.

Definition ml_apply_cipher (c : FSTCipher) (s : list Z) (p len : Z) : option (FSTCipher * list Z) :=
  fst_cipher_crypt c s (s32 p) (s32 len).

(** The result of [fst_cipher_init] is dropped. *)
Definition ml_init_cipher (c : FSTCipher) : option FSTCipher :=
  snd <$> fst_cipher_init c (cseed c) (enc_type c).

Definition with_keys (c : FSTCipher) (seed enc : Z) : FSTCipher :=
  Cipher (pos c) (wrapcount c) (add_to_lookup c) enc (pad c) (lookup c) (pad16 c) seed.

Definition ml_set_cipher (c : FSTCipher) (seed encode : Z) : FSTCipher :=
  with_keys c (u32 seed) (u32 encode).

Definition ml_cipher_packet_get (s : list Z) (p : Z) (in_cipher : FSTCipher) : option FSTCipher :=
  let p := s32 p in
  w0 ← sub_bytes s p 4;
  w1 ← sub_bytes s (p + 4) 4;
  let seed := htonl (le_word w0) in
  enc ← fst_cipher_mangle_enc_type seed (htonl (le_word w1));
  Some (with_keys in_cipher seed enc).

(** Stores [htonl a] and [htonl b] at [p] and [p + 4]. *)
Definition put_words (s : list Z) (p a b : Z) : option (list Z) :=
  s ← blit s p (le_bytes 4 (htonl a));
  blit s (p + 4) (le_bytes 4 (htonl b)).

Definition ml_cipher_packet_set (c : FSTCipher) (s : list Z) (p : Z) : option (list Z) :=
  enc ← fst_cipher_mangle_enc_type (cseed c) (enc_type c);
  put_words s (s32 p) (cseed c) enc.

Definition ml_cipher_packet_set_xored (c : FSTCipher) (s : list Z) (p : Z) (xor_cipher : FSTCipher)
    : option (list Z) :=
  enc ← fst_cipher_mangle_enc_type (cseed c) (enc_type c);
  put_words s (s32 p) (Z.lxor (cseed c) (cseed xor_cipher)) enc.

Definition ml_xor_ciphers (out_cipher in_cipher : FSTCipher) : FSTCipher :=
  with_keys out_cipher (Z.lxor (cseed out_cipher) (cseed in_cipher)) (enc_type in_cipher).

Definition ml_xor_ciphers2 (out_cipher in_cipher : FSTCipher) : option (FSTCipher * FSTCipher) :=
  let seed := cseed out_cipher in
  let out_cipher := with_keys out_cipher (Z.lxor seed (cseed in_cipher)) (enc_type out_cipher) in
  let in_cipher := with_keys in_cipher (Z.lxor (cseed in_cipher) seed) (enc_type in_cipher) in
  '(_, out_cipher) ← fst_cipher_init out_cipher (cseed out_cipher) (enc_type out_cipher);
  Some (out_cipher, in_cipher).

Definition ml_cipher_enc_type (c : FSTCipher) : Z := enc_type c.

(** ** Seeds and keys *)

#[local] Opaque enc_type_1 enc_type_2 enc_type_20 enc_type_80.

Lemma seed_step_word seed : word 32 (seed_step seed).
Proof. apply u32_range. Qed.

Lemma seed_keys_ok n seed key sd :
  seed_keys n seed = (key, sd) -> word 32 seed -> arr 32 n key /\ word 32 sd.
Proof.
  revert seed key. induction n as [|n IH]; intros seed key H Hs; cbn [seed_keys] in H.
  - injection H as <- <-. done.
  - destruct (seed_keys n (seed_step seed)) as [key' sd'] eqn:E. injection H as <- <-.
    apply IH in E as [[Hl Hw] Hsd]; [|apply seed_step_word].
    split; [|done]. split; [simpl; lia|]. constructor; [apply seed_step_word|done].
Qed.

Lemma key_256_ok n seed key sd :
  key_256 n seed = (key, sd) -> word 32 seed -> arr 8 n key /\ word 32 sd.
Proof.
  revert seed key. induction n as [|n IH]; intros seed key H Hs; cbn [key_256] in H.
  - injection H as <- <-. done.
  - destruct (key_256 n (seed_step seed)) as [key' sd'] eqn:E. injection H as <- <-.
    apply IH in E as [[Hl Hw] Hsd]; [|apply seed_step_word].
    split; [|done]. split; [simpl; lia|]. constructor; [apply u8_range|done].
Qed.

Lemma fill_pad16_ok seed : word 32 seed -> exists p16, fill_pad16 seed = Some p16 /\ arr 32 20 p16.
Proof.
  intros Hs. unfold fill_pad16. destruct (seed_keys 20 seed) as [key sd] eqn:E.
  apply seed_keys_ok in E as [Hk _]; [|done].
  destruct (safe_enc_type_2 key (seed_step sd) Hk (seed_step_word sd)) as (p & -> & Hp). by exists p.
Qed.

(** ** [qsort] *)

Definition cmp_le (a b : Z) : Prop := qsort_cmp_func a b <= 0.

#[export] Instance cmp_le_antisymm : AntiSymm (=) cmp_le.
Proof.
  intros a b Ha Hb. unfold cmp_le, qsort_cmp_func in *.
  assert (E : Z.lxor a 0x20 = Z.lxor b 0x20) by lia.
  by rewrite <- (lxor_cancel_r a 0x20), E, lxor_cancel_r.
Qed.

#[export] Instance cmp_le_trans : Transitive cmp_le.
Proof. intros a b c. unfold cmp_le, qsort_cmp_func. lia. Qed.

Lemma qsort_insert_perm x l : qsort_insert x l ≡ₚ x :: l.
Proof.
  induction l as [|y l IH]; [done|]. simpl. destruct (_ <=? 0); [done|].
  rewrite IH. apply Permutation_swap.
Qed.

Lemma qsort_perm l : qsort l ≡ₚ l.
Proof. induction l as [|x l IH]; [done|]. simpl. by rewrite qsort_insert_perm, IH. Qed.

Lemma qsort_insert_sorted x l : StronglySorted cmp_le l -> StronglySorted cmp_le (qsort_insert x l).
Proof.
  induction 1 as [|y l Hs IH Hy]; simpl; [repeat constructor|].
  destruct (Z.leb_spec (qsort_cmp_func x y) 0) as [H|H].
  - constructor; [by constructor|]. constructor; [done|].
    eapply Forall_impl; [|exact Hy]. intros z Hz. by trans y.
  - constructor; [done|]. rewrite qsort_insert_perm. constructor; [|done].
    unfold cmp_le, qsort_cmp_func in *. lia.
Qed.

Lemma qsort_sorted l : StronglySorted cmp_le (qsort l).
Proof. induction l as [|x l IH]; [constructor|]. by apply qsort_insert_sorted. Qed.

Lemma sort5_ok pad sortpos :
  arr 8 63 pad -> 0 <= sortpos < 59 ->
  exists pad', sort5 pad sortpos = Some pad' /\ arr 8 63 pad' /\ pad' ≡ₚ pad.
Proof.
  intros Hp Hs. pose proof Hp as [Hl Hw]. set (n := Z.to_nat sortpos).
  assert (En : sortpos = Z.of_nat n) by lia. rewrite En. unfold sort5.
  change 5 with (Z.of_nat 5). rewrite sub_bytes_in by lia. cbn [mbind option_bind].
  set (five := take 5 (drop n pad)). pose proof (qsort_perm five) as Hq.
  assert (H5 : length five = 5%nat) by (subst five; rewrite length_take, length_drop; lia).
  assert (Hq5 : length (qsort five) = 5%nat) by (by rewrite Hq).
  rewrite blit_in by lia. eexists. split; [done|]. rewrite Hq5.
  assert (Hperm : take n pad ++ qsort five ++ drop (n + 5) pad ≡ₚ pad).
  { rewrite Hq. subst five. rewrite <- drop_drop, take_drop, take_drop. done. }
  split; [|done]. split; [by rewrite Hperm|]. by rewrite Hperm.
Qed.

(** ** The loops over the pad *)

Lemma third_step_ok n pad :
  0 <= n < 20 -> arr 8 63 pad -> exists pad', third_step n pad = Some pad' /\ arr 8 63 pad'.
Proof.
  intros Hn Hp. unfold third_step. destruct (arr_rd 8 63 pad (5 + 3 * n)) as (v & -> & Hv); [done|lia|].
  simpl. apply arr_wr; [done|lia|]. apply word_lor; [lia|apply u8_range|unfold word; lia].
Qed.

Lemma modify_thirds_ok pad : arr 8 63 pad -> exists pad', modify_thirds pad = Some pad' /\ arr 8 63 pad'.
Proof. apply arr_loop. intros j t Hj. apply third_step_ok. lia. Qed.

Lemma merge_ok key n pad :
  (63 <= n)%nat -> arr 8 n key -> arr 8 63 pad ->
  exists pad', for_up 63 0 (merge_step key) pad = Some pad' /\ arr 8 63 pad'.
Proof.
  intros Hn Hk. apply arr_loop. intros j t Hj Ht. unfold merge_step.
  destruct (arr_rd 8 63 t j) as (x & -> & Hx); [done|lia|]. simpl.
  destruct (arr_rd 8 n key j) as (y & -> & Hy); [done|lia|]. simpl.
  apply arr_wr; [done|lia|]. by apply word_lxor.
Qed.

Lemma adjust_pad_ok pad : arr 8 63 pad -> exists pad', adjust_pad pad = Some pad' /\ arr 8 63 pad'.
Proof.
  intros Hp. unfold adjust_pad. destruct (_ =? 0); [|by exists pad].
  destruct (arr_rd 8 63 pad 0) as (x & -> & Hx); [done|lia|]. simpl.
  apply arr_wr; [done|lia|]. apply word_lor; [lia|done|unfold word; lia].
Qed.

Lemma seed_pos_range seed : word 32 seed ->
  let temp := Z.shiftr (seed_step seed) 16 in
  0 <= Z.shiftr (u32 (u32 (Z.shiftl temp 6) - temp)) 16 < 63.
Proof.
  intros Hs. pose proof (seed_step_word seed) as Hw. unfold word in Hw. cbv zeta.
  rewrite !Z.shiftr_div_pow2, Z.shiftl_mul_pow2 by lia.
  set (s := seed_step seed) in *. unfold u32. Z.div_mod_to_equations. lia.
Qed.

Lemma sortpos_range x : 0 <= (x * x + 2) mod 59 < 59.
Proof. apply Z.mod_pos_bound. lia. Qed.

Lemma has_submask enc m n : has enc m = true -> Z.land n m = m -> has enc n = true.
Proof.
  unfold has. rewrite !negb_true_iff, !Z.eqb_neq. intros Hm Hn H. apply Hm.
  by rewrite <- Hn, Z.land_assoc, H.
Qed.

(** "this is a noop on little-endian" *)
Lemma reverse_bytes_id buf : Forall (word 32) buf -> reverse_bytes buf = buf.
Proof.
  unfold reverse_bytes. induction 1 as [|w buf Hw _ IH]; [done|]. rewrite fmap_cons. f_equal; [|done].
  pose proof (le_word_bytes 4 w) as E. pose proof (le_bytes_word 4 w) as Hb.
  change (2 ^ (8 * Z.of_nat 4)) with 4294967296 in E. rewrite Z.mod_small in E by done.
  rewrite <- E at 5. revert Hb E. cbn [le_bytes nth].
  set (b0 := Z.land w 255). set (b1 := Z.land (Z.shiftr w 8) 255).
  set (b2 := Z.land (Z.shiftr (Z.shiftr w 8) 8) 255).
  set (b3 := Z.land (Z.shiftr (Z.shiftr (Z.shiftr w 8) 8) 8) 255). intros Hb _.
  apply Forall_cons_1 in Hb as [W0 Hb], Hb as [W1 Hb], Hb as [W2 Hb], Hb as [W3 _].
  rewrite !le_word_cons by done. rewrite Z.lor_comm.
  rewrite (Z.lor_comm _ b0), (Z.lor_comm _ b2), (lor_shiftl_add 8 b0), (lor_shiftl_add 8 b2) by (lia || done).
  rewrite lor_shiftl_add by (lia || unfold word in *; lia). simpl le_word. lia.
Qed.

Lemma word_bytes_arr n ws : length ws = n -> arr 8 (4 * n) (word_bytes ws).
Proof. apply words_bytes_arr. Qed.

(** ** [pad_init] *)

(** The encryption types [fst_cipher_init] implements. *)
Definition supported (enc : Z) : bool := negb (has enc 0x04) && negb (has enc 0x100).

Lemma mix_key_ok enc mask mixer st :
  safe_p mixer -> arr 32 20 (fst st) -> word 32 (snd st) ->
  exists st', mix_key enc mask mixer st = Some st' /\ arr 32 20 (fst st') /\ word 32 (snd st').
Proof.
  intros Hm Hk Hs. unfold mix_key. destruct (has enc mask); [|by exists st].
  destruct (Hm (fst st) (seed_step (snd st)) Hk (seed_step_word _)) as (key & -> & Hkey).
  eexists. split; [done|]. split; [done|apply seed_step_word].
Qed.

Lemma pad_init_1_ok seed pad :
  word 32 seed -> arr 8 63 pad ->
  exists sd pad', pad_init_1 seed pad = Some (sd, pad') /\ word 32 sd /\ arr 8 63 pad'.
Proof.
  intros Hs Hp. unfold pad_init_1. destruct (key_256 255 seed) as [key sd] eqn:E.
  apply key_256_ok in E as [Hk Hsd]; [|done].
  destruct (enc_type_1_ok key Hk) as (out & -> & Ho). cbn [mbind option_bind].
  destruct (merge_ok out 256 pad) as (pad' & -> & Hpad'); [lia|done..|]. by exists sd, pad'.
Qed.

Lemma pad_init_ok seed enc :
  word 32 seed ->
  exists sd pad, pad_init seed enc = Some (supported enc, sd, pad) /\ word 32 sd /\ arr 8 63 pad.
Proof.
  intros Hs. unfold pad_init.
  assert (H0 : arr 8 63 (replicate 63 0)) by (apply arr_replicate; unfold word; lia).
  assert (Hfst : exists sd pad,
    (if has enc 1 || negb (has enc 0x1E7) then pad_init_1 seed (replicate 63 0)
     else Some (seed, replicate 63 0)) = Some (sd, pad) /\ word 32 sd /\ arr 8 63 pad).
  { destruct (_ || _); [by apply pad_init_1_ok|by eexists _, _]. }
  destruct Hfst as (sd & pad & -> & Hsd & Hpad). cbn [mbind option_bind].
  unfold supported. destruct (has enc 0x1E6) eqn:E.
  - destruct (seed_keys 20 sd) as [key sd1] eqn:Ek. apply seed_keys_ok in Ek as [Hk Hsd1]; [|done].
    destruct (mix_key_ok enc 0x02 enc_type_2 (key, sd1)) as (s1 & -> & Hk1 & Hs1); [apply safe_enc_type_2|done..|].
    cbn [mbind option_bind]. destruct (has enc 0x04); [by exists seed, pad|].
    destruct (mix_key_ok enc 0x20 enc_type_20 s1) as (s2 & -> & Hk2 & Hs2); [apply safe20_enc_type_20|done..|].
    cbn [mbind option_bind].
    destruct (mix_key_ok enc 0x80 enc_type_80 s2) as (s3 & -> & Hk3 & Hs3); [apply safe80_enc_type_80|done..|].
    cbn [mbind option_bind]. destruct (has enc 0x100); [by exists seed, pad|].
    rewrite reverse_bytes_id by apply Hk3.
    destruct (merge_ok (word_bytes (fst s3)) 80 pad) as (pad' & -> & Hpad');
      [lia|apply (word_bytes_arr 20), Hk3|done|]. by exists (snd s3), pad'.
  - destruct (has enc 0x04) eqn:E4; [by rewrite (has_submask _ _ _ E4) in E|].
    destruct (has enc 0x100) eqn:E8; [by rewrite (has_submask _ _ _ E8) in E|].
    by exists sd, pad.
Qed.

(** ** The shuffle of the lookup table *)

Lemma calculate_num_ok num val r num' :
  word 32 num -> 0 < val <= 256 -> calculate_num num val = (r, num') -> 0 <= r < val /\ word 32 num'.
Proof.
  intros Hn Hv. unfold calculate_num. destruct (Z.ltb_spec 0x10001 val); [lia|]. cbn [negb].
  intros [= <- <-]. pose proof (seed_step_word num) as Hw. split; [|done].
  rewrite !Z.shiftr_div_pow2 by lia. unfold word in Hw. set (s := seed_step num) in *.
  change (2 ^ 16) with 65536. assert (0 <= s / 65536 < 65536) by (Z.div_mod_to_equations; lia).
  set (h := s / 65536) in *. split; [apply Z.div_pos; nia|]. apply Z.div_lt_upper_bound; nia.
Qed.

(** A lookup table: a permutation of the bytes. *)
Definition lookup_ok (lk : list Z) : Prop := lk ≡ₚ seqZ 0 256.

Lemma lookup_ok_arr lk : lookup_ok lk -> arr 8 256 lk.
Proof.
  unfold lookup_ok. intros H. split; [by rewrite H|]. rewrite H. apply Forall_forall. intros x Hx.
  apply list_elem_of_In, elem_of_seqZ in Hx. unfold word. lia.
Qed.

Lemma shuffle_step_ok i num lk :
  0 <= i < 256 -> word 32 num -> lookup_ok lk ->
  exists num' lk', shuffle_step i (num, lk) = Some (num', lk') /\ word 32 num' /\ lookup_ok lk'.
Proof.
  intros Hi Hn Hlk. unfold shuffle_step. destruct (calculate_num num (0x100 - i)) as [r num'] eqn:E.
  apply calculate_num_ok in E as [Hr Hn']; [|done|lia].
  destruct (Z.eqb_spec (r + i) i); [by exists num', lk|].
  pose proof (lookup_ok_arr lk Hlk) as Harr.
  destruct (arr_rd 8 256 lk (r + i)) as (a & Ha & Wa); [done|lia|].
  destruct (arr_rd 8 256 lk i) as (b & Hb & Wb); [done|lia|]. rewrite Ha, Hb. cbn [mbind option_bind].
  rewrite wr_in by (rewrite (proj1 Harr); lia). cbn [mbind option_bind].
  rewrite wr_in by (rewrite length_insert, (proj1 Harr); lia). cbn [mbind option_bind].
  exists num'. eexists. split; [done|]. split; [done|]. unfold lookup_ok in *. rewrite <- Hlk.
  apply rd_Some in Ha as [_ Ha], Hb as [_ Hb]. by apply Permutation_insert_swap.
Qed.

Lemma init_lookup_ok enc pad :
  arr 8 63 pad -> exists lk, init_lookup enc pad = Some lk /\ lookup_ok lk.
Proof.
  intros [Hl Hw]. unfold init_lookup. destruct (has enc 0x08); [|by exists (seqZ 0 256); unfold lookup_ok].
  assert (Hd : ih_digest (Ctx := md5_state) [pad] = Some (md5_spec (concat [pad])))
    by (apply ih_digest_ok; constructor; [rewrite Hl; lia|constructor]).
  set (num := md5_word0 (word_bytes (reverse_bytes [md5_word0 (md5_spec (concat [pad]))]))).
  assert (Hnum : word 32 num).
  { subst num. generalize (md5_word0 (md5_spec (concat [pad]))). intros w.
    assert (Hb : arr 8 4 (word_bytes (reverse_bytes [w]))) by (apply (word_bytes_arr 1); done).
    unfold md5_word0. rewrite take_ge by (rewrite (proj1 Hb); lia).
    apply (le_word_range 4); apply Hb. }
  destruct (for_up_total (fun _ (st : Z * list Z) => word 32 (fst st) /\ lookup_ok (snd st)) shuffle_step
    256 0 (num, seqZ 0 256)) as ([n lk] & Hf & _ & Hlk).
  - intros j [n lk] Hj [Hn Hk]. destruct (shuffle_step_ok j n lk) as (n' & lk' & -> & Hn' & Hk'); [lia|done..|].
    by exists (n', lk').
  - split; [done|by unfold lookup_ok].
  - exists lk. split; [|exact Hlk]. apply bind_Some. eexists. split; [exact Hd|].
    apply bind_Some. exists (n, lk). split; [exact Hf|reflexivity].
Qed.

(** ** The invariant of a cipher *)

(** The sizes of the arrays and the ranges of the fields: what
    [fst_cipher_create] gives and every operation keeps. *)
Definition cipher_wf (c : FSTCipher) : Prop :=
  0 <= pos c < 63 /\ word 32 (wrapcount c) /\ word 32 (add_to_lookup c) /\
  arr 8 63 (pad c) /\ arr 8 256 (lookup c) /\ arr 32 20 (pad16 c) /\ word 32 (cseed c).

Lemma create_wf : cipher_wf fst_cipher_create.
Proof. split_and!; try apply arr_replicate; unfold word; simpl; lia. Qed.

Lemma with_keys_wf c seed enc : cipher_wf c -> word 32 seed -> cipher_wf (with_keys c seed enc).
Proof. unfold cipher_wf. simpl. tauto. Qed.

(** A cipher after a successful initialisation. *)
Definition cipher_ready (c : FSTCipher) : Prop := cipher_wf c /\ lookup_ok (lookup c).

#[local] Opaque pad_init adjust_pad init_lookup fill_pad16 modify_thirds.

(** [fst_cipher_init] from the seed and the type, [pad16] apart. *)
Definition init_parts (seed enc : Z) (old16 : list Z)
    : option (Z * list Z * list Z * list Z) :=
  '(_, seed', p) ← pad_init seed enc;
  p ← adjust_pad p;
  let temp := Z.shiftr (seed_step seed') 16 in
  let pos' := Z.shiftr (u32 (u32 (Z.shiftl temp 6) - temp)) 16 in
  lk ← init_lookup enc p;
  p16 ← (if has enc 0x10 then fill_pad16 pos' else Some old16);
  p ← sort5 p ((pos' * pos' + 2) mod 59);
  p ← modify_thirds p;
  Some (pos', p, lk, p16).

Lemma init_parts_ok seed enc old16 :
  word 32 seed -> arr 32 20 old16 ->
  exists pos' p lk p16, init_parts seed enc old16 = Some (pos', p, lk, p16) /\
    0 <= pos' < 63 /\ arr 8 63 p /\ lookup_ok lk /\ arr 32 20 p16.
Proof.
  intros Hs Ho. unfold init_parts.
  destruct (pad_init_ok seed enc Hs) as (sd & p1 & -> & Hsd & Hp1). cbn [mbind option_bind].
  destruct (adjust_pad_ok p1 Hp1) as (p2 & -> & Hp2). cbn [mbind option_bind].
  pose proof (seed_pos_range sd Hsd) as Hpos. cbv zeta in Hpos |- *.
  set (pos' := Z.shiftr (u32 _) 16) in *.
  destruct (init_lookup_ok enc p2 Hp2) as (lk & -> & Hlk). cbn [mbind option_bind].
  assert (H16 : exists p16, (if has enc 0x10 then fill_pad16 pos' else Some old16) = Some p16 /\ arr 32 20 p16).
  { destruct (has enc 0x10); [apply fill_pad16_ok; unfold word; lia|by exists old16]. }
  destruct H16 as (p16 & -> & Hp16). cbn [mbind option_bind].
  destruct (sort5_ok p2 _ Hp2 (sortpos_range pos')) as (p3 & -> & Hp3 & _). cbn [mbind option_bind].
  destruct (modify_thirds_ok p3 Hp3) as (p4 & -> & Hp4). by exists pos', p4, lk, p16.
Qed.

Lemma fst_cipher_init_eq c seed enc :
  word 32 seed -> cipher_wf c ->
  exists c', fst_cipher_init c seed enc = Some (supported enc, c') /\ cipher_wf c' /\
    enc_type c' = enc /\ cseed c' = seed /\
    if supported enc then
      lookup_ok (lookup c') /\ wrapcount c' = 0 /\ add_to_lookup c' = 0 /\
      init_parts seed enc (pad16 c) = Some (pos c', pad c', lookup c', pad16 c')
    else lookup c' = lookup c.
Proof.
  intros Hs Hc. pose proof Hc as (Hpos & _ & _ & _ & Hlk & H16 & _).
  destruct (init_parts_ok seed enc (pad16 c) Hs H16) as (pos' & p & lk & p16 & Hp & Hpos' & Hpad & Hlk' & Hp16).
  pose proof Hp as He. unfold init_parts in Hp. unfold fst_cipher_init.
  destruct (pad_init_ok seed enc Hs) as (sd & p1 & Hi & Hsd & Hp1). rewrite Hi in Hp |- *.
  cbn [mbind option_bind] in Hp |- *. destruct (supported enc); cbn [negb].
  - destruct (adjust_pad p1) as [p2|]; [|discriminate Hp]. cbn [mbind option_bind] in Hp |- *.
    cbv zeta in Hp |- *. destruct (init_lookup enc p2) as [lk2|]; [|discriminate Hp].
    cbn [mbind option_bind] in Hp |- *. set (pos2 := Z.shiftr (u32 _) 16) in *.
    destruct (if has enc 0x10 then _ else _) as [p162|]; [|discriminate Hp]. cbn [mbind option_bind] in Hp |- *.
    destruct (sort5 p2 _) as [p3|]; [|discriminate Hp]. cbn [mbind option_bind] in Hp |- *.
    destruct (modify_thirds p3) as [p4|]; [|discriminate Hp]. injection Hp as <- <- <- <-.
    eexists. split; [done|]. cbn [pos wrapcount add_to_lookup enc_type pad lookup pad16 cseed].
    assert (W0 : word 32 0) by (unfold word; lia). pose proof (lookup_ok_arr _ Hlk').
    unfold cipher_wf. cbn [pos wrapcount add_to_lookup enc_type pad lookup pad16 cseed]. tauto.
  - eexists. split; [done|]. cbn [pos wrapcount add_to_lookup enc_type pad lookup pad16 cseed].
    assert (W0 : word 32 0) by (unfold word; lia).
    unfold cipher_wf. cbn [pos wrapcount add_to_lookup enc_type pad lookup pad16 cseed]. tauto.
Qed.

(** ** The keystream *)

Lemma rekey_ok x p : arr 8 63 p -> exists p', rekey x p = Some p' /\ arr 8 63 p'.
Proof.
  intros Hp. unfold rekey. destruct (arr_rd 8 63 p 2) as (p2 & -> & _); [done|lia|]. cbn [mbind option_bind].
  destruct (sort5_ok p _ Hp (sortpos_range (x + p2))) as (p3 & -> & Hp3 & _). cbn [mbind option_bind].
  by apply modify_thirds_ok.
Qed.

Lemma land_range x m : word 8 x -> 0 <= m -> 0 <= Z.land x m <= m.
Proof.
  intros Hx Hm. split; [apply Z.land_nonneg; unfold word in Hx; lia|].
  destruct (Z.eq_dec m 0) as [->|]; [by rewrite Z.land_0_r|].
  apply Z.ldiff_le; [done|]. apply Z.bits_inj'. intros i Hi.
  rewrite Z.ldiff_spec, Z.land_spec, Z.bits_0. by destruct (Z.testbit x i), (Z.testbit m i).
Qed.

Lemma wrap_pad16_ok p16 p :
  arr 32 20 p16 -> arr 8 63 p -> exists p', wrap_pad16 p16 p = Some p' /\ arr 8 63 p'.
Proof.
  intros H16 Hp. unfold wrap_pad16.
  destruct (arr_rd 8 63 p 0x18) as (f & -> & Hf); [done|lia|]. cbn [mbind option_bind].
  destruct (arr_rd 8 63 p 0x19) as (o & -> & Ho); [done|lia|]. cbn [mbind option_bind]. cbv zeta.
  pose proof (land_range o 0x1f Ho ltac:(lia)) as Hoff.
  set (sf := Z.land f 0x0f). set (off := Z.land o 0x1f) in *.
  destruct (arr_loop 8 63 6 0 (pad16_step p16 sf off) p) as (p1 & -> & Hp1); [|done|].
  { intros j t Hj Ht. unfold pad16_step.
    destruct (arr_rd 32 20 p16 j) as (w & -> & _); [done|lia|]. cbn [mbind option_bind].
    destruct (arr_rd 8 63 t (off + j)) as (x & -> & Hx); [done|lia|]. cbn [mbind option_bind].
    apply arr_wr; [done|lia|]. apply word_lxor; [lia|done|apply u8_range]. }
  cbn [mbind option_bind].
  destruct (arr_rd 8 63 p1 0x0A) as (a & -> & _); [done|lia|]. cbn [mbind option_bind].
  destruct (arr_rd 8 63 p1 (off + 4)) as (x & -> & _); [done|lia|]. cbn [mbind option_bind].
  apply arr_wr; [done|lia|apply u8_range].
Qed.

(** A wrap: the position is 63 until [wrap] puts it back to 0. *)
Definition clocked (c c' : FSTCipher) : Prop :=
  cipher_wf c' /\ enc_type c' = enc_type c /\ lookup c' = lookup c /\ cseed c' = cseed c.

Lemma wrap_ok c :
  cipher_wf (Cipher 0 (wrapcount c) (add_to_lookup c) (enc_type c) (pad c) (lookup c) (pad16 c) (cseed c)) ->
  exists c', wrap c = Some c' /\ clocked c c'.
Proof.
  intros (_ & Hw & Ha & Hp & Hl & H16 & Hs).
  cbn [wrapcount add_to_lookup enc_type pad lookup pad16 cseed] in *. unfold wrap. cbv zeta.
  pose proof (u32_range (wrapcount c + 1)) as Hw'. set (w := u32 (wrapcount c + 1)) in *.
  assert (Ha' : word 32 (if has (enc_type c) 0x08 then u32 (add_to_lookup c + 1) else add_to_lookup c))
    by (destruct (has _ 0x08); [apply u32_range|done]).
  destruct (has (enc_type c) 0x10).
  - destruct (wrap_pad16_ok (pad16 c) (pad c) H16 Hp) as (p' & -> & Hp'). cbn [mbind option_bind].
    assert (H16' : exists p16, (if Z.land w 15 =? 0 then fill_pad16 w else Some (pad16 c)) = Some p16 /\ arr 32 20 p16)
      by (destruct (_ =? 0); [by apply fill_pad16_ok|by eexists]).
    destruct H16' as (p16 & -> & Hp16). eexists. split; [done|]. split; [|done].
    unfold cipher_wf. cbn [pos wrapcount add_to_lookup enc_type pad lookup pad16 cseed].
    assert (0 <= 0 < 63) by lia. tauto.
  - eexists. split; [done|]. split; [|done].
    unfold cipher_wf. cbn [pos wrapcount add_to_lookup enc_type pad lookup pad16 cseed].
    assert (0 <= 0 < 63) by lia. tauto.
Qed.

Lemma clock_ok c :
  cipher_wf c -> exists k c', fst_cipher_clock c = Some (k, c') /\ word 8 k /\ clocked c c'.
Proof.
  intros Hc. pose proof Hc as (Hpos & Hw & Ha & Hp & Hl & H16 & Hs). unfold fst_cipher_clock. cbv zeta.
  set (lastpos := if 0 <? pos c then pos c - 1 else 62).
  assert (Hlast : 0 <= lastpos < 63) by (subst lastpos; bdestr; lia).
  destruct (arr_rd 8 63 (pad c) lastpos) as (l & -> & _); [done|lia|]. cbn [mbind option_bind].
  destruct (arr_rd 8 63 (pad c) (pos c)) as (x & -> & _); [done|lia|]. cbn [mbind option_bind].
  pose proof (u8_range (x + l)) as Hx. set (xor := u8 (x + l)) in *.
  destruct (arr_wr 8 63 (pad c) (pos c) xor) as (p1 & -> & Hp1); [done|lia|done|]. cbn [mbind option_bind].
  assert (H2 : exists p2, (if (pos c =? 7) && (Z.land xor 0x70 =? 0) then rekey xor p1 else Some p1)
    = Some p2 /\ arr 8 63 p2) by (destruct (_ && _); [by apply rekey_ok|by eexists]).
  destruct H2 as (p2 & -> & Hp2). cbn [mbind option_bind pos].
  set (c1 := Cipher (pos c + 1) _ _ _ p2 _ _ _).
  assert (H3 : exists c2, (if pos c + 1 =? 0x3f then wrap c1 else Some c1) = Some c2 /\ clocked c c2).
  { destruct (Z.eqb_spec (pos c + 1) 0x3f) as [E|E].
    - destruct (wrap_ok c1) as (c2 & -> & Hc2); [|by exists c2].
      unfold cipher_wf. cbn [pos wrapcount add_to_lookup enc_type pad lookup pad16 cseed c1].
      assert (0 <= 0 < 63) by lia. tauto.
    - exists c1. split; [done|]. split; [|done].
      unfold cipher_wf. cbn [pos wrapcount add_to_lookup enc_type pad lookup pad16 cseed c1].
      assert (0 <= pos c + 1 < 63) by lia. tauto. }
  destruct H3 as (c2 & -> & Hc2). cbn [mbind option_bind].
  destruct (arr_rd 8 256 (lookup c2) (u8 (add_to_lookup c2 + xor))) as (k & -> & Hk);
    [apply Hc2|pose proof (u8_range (add_to_lookup c2 + xor)); unfold word in *; lia|].
  by exists k, c2.
Qed.

#[local] Opaque fst_cipher_clock.

(** [n] keystream bytes. *)
Fixpoint keystream (n : nat) (c : FSTCipher) : option (list Z * FSTCipher) :=
  match n with
  | O => Some ([], c)
  | S n => '(k, c) ← fst_cipher_clock c; '(ks, c) ← keystream n c; Some (k :: ks, c)
  end.

Lemma keystream_ok n c :
  cipher_wf c ->
  exists ks c', keystream n c = Some (ks, c') /\ length ks = n /\ clocked c c'.
Proof.
  revert c. induction n as [|n IH]; intros c Hc; [by exists [], c|]. cbn [keystream].
  destruct (clock_ok c Hc) as (k & c1 & -> & _ & Hc1 & He1 & Hl1 & Hs1). cbn [mbind option_bind].
  destruct (IH c1 Hc1) as (ks & c2 & -> & Hlen & Hc2 & He2 & Hl2 & Hs2). cbn [mbind option_bind].
  exists (k :: ks), c2. unfold clocked. rewrite He2, Hl2, Hs2, He1, Hl1, Hs1.
  split; [done|]. split; [simpl; lia|done].
Qed.

(** [fst_cipher_crypt] adds the keystream to the bytes, and only to them. *)
Lemma crypt_keystream c pre seg post n off :
  length seg = n -> off = Z.of_nat (length pre) ->
  for_up n off crypt_step (c, pre ++ seg ++ post)
  = '(ks, c') ← keystream n c; Some (c', pre ++ zip_with Z.lxor seg ks ++ post).
Proof.
  intros Hn ->. revert c pre seg Hn. induction n as [|n IH]; intros c pre seg Hn.
  - apply nil_length_inv in Hn as ->. done.
  - destruct seg as [|v seg]; [done|]. injection Hn as Hn. cbn [for_up keystream].
    assert (E : crypt_step (Z.of_nat (length pre)) (c, pre ++ (v :: seg) ++ post)
      = '(k, c1) ← fst_cipher_clock c; Some (c1, pre ++ (Z.lxor v k :: seg) ++ post)).
    { unfold crypt_step. cbn [app]. rewrite rd_nat, list_lookup_middle by done. cbn [mbind option_bind].
      destruct (fst_cipher_clock c) as [[k c1]|]; [|done]. cbn [mbind option_bind].
      rewrite wr_in by (rewrite !length_app; simpl; lia). cbn [mbind option_bind].
      by rewrite Nat2Z.id, insert_app_r_alt, Nat.sub_diag by lia. }
    rewrite E. destruct (fst_cipher_clock c) as [[k c1]|]; [|done]. cbn [mbind option_bind].
    specialize (IH c1 (pre ++ [Z.lxor v k]) seg Hn). rewrite length_app, Nat2Z.inj_add in IH.
    rewrite <- !app_assoc in IH. change (Z.of_nat (length [Z.lxor v k])) with 1 in IH.
    cbn [app] in IH |- *. rewrite IH.
    destruct (keystream n c1) as [[ks c']|]; [|done]. cbn [mbind option_bind].
    by rewrite <- app_assoc.
Qed.

Lemma zip_xor_twice a b : length a = length b -> zip_with Z.lxor (zip_with Z.lxor a b) b = a.
Proof.
  revert b. induction a as [|x a IH]; intros [|y b] H; simplify_eq/=; [done|].
  by rewrite lxor_cancel_r, IH.
Qed.

(** ** Equivalent ciphers

    [pad16] is neither written nor read unless the type has bit 0x10: two
    ciphers that differ there only are the same cipher. *)

#[export] Instance cipher_equiv : Equiv FSTCipher := fun a b =>
  (pos a, wrapcount a, add_to_lookup a, enc_type a, pad a, lookup a, cseed a)
  = (pos b, wrapcount b, add_to_lookup b, enc_type b, pad b, lookup b, cseed b) /\
  (has (enc_type a) 0x10 = true -> pad16 a = pad16 b).

Lemma equiv_enc_type (a b : FSTCipher) : a ≡ b -> enc_type a = enc_type b.
Proof. by intros [[=] _]. Qed.

#[export] Instance cipher_equivalence : Equivalence (≡@{FSTCipher}).
Proof.
  split.
  - intros a. by split.
  - intros a b H. pose proof (equiv_enc_type a b H) as E. destruct H as [H H16].
    split; [done|]. intros Hb. symmetry. apply H16. by rewrite E.
  - intros a b c H1 H2. pose proof (equiv_enc_type a b H1) as E.
    destruct H1 as [H1 H16], H2 as [H2 H16']. split; [by rewrite H1|].
    intros Ha. rewrite H16 by done. apply H16'. by rewrite <- E.
Qed.

#[export] Instance byte_equiv : Equiv Z := (=).

(** Changing [pad16] when bit 0x10 is off. *)
Definition set_pad16 (q : list Z) (c : FSTCipher) : FSTCipher :=
  Cipher (pos c) (wrapcount c) (add_to_lookup c) (enc_type c) (pad c) (lookup c) q (cseed c).

Lemma equiv_cases (a b : FSTCipher) :
  a ≡ b <-> a = b \/ (has (enc_type a) 0x10 = false /\ b = set_pad16 (pad16 b) a).
Proof.
  destruct a as [p w ad e pd lk q s], b as [p' w' ad' e' pd' lk' q' s'].
  unfold equiv, cipher_equiv, set_pad16. cbn [pos wrapcount add_to_lookup enc_type pad lookup pad16 cseed].
  split.
  - intros [H H16]. injection H as -> -> -> -> -> -> ->.
    destruct (has e' 0x10); [left; by rewrite H16|by right].
  - intros [H|[Hh H]]; [by injection H as -> -> -> -> -> -> -> ->|].
    injection H as -> -> -> -> -> -> ->. split; [done|]. by rewrite Hh.
Qed.

Lemma clock_set_pad16 q c :
  has (enc_type c) 0x10 = false ->
  fst_cipher_clock (set_pad16 q c) = '(k, c') ← fst_cipher_clock c; Some (k, set_pad16 q c').
Proof.
  intros Hh. destruct c as [p w ad e pd lk q0 s]. with_strategy transparent [fst_cipher_clock] unfold fst_cipher_clock.
  cbv zeta. unfold set_pad16, wrap. cbn [pos wrapcount add_to_lookup enc_type pad lookup pad16 cseed] in *. rewrite Hh.
  destruct (rd pd (if 0 <? p then _ else _)) as [l|]; [|reflexivity]. cbn [mbind option_bind].
  destruct (rd pd p) as [x|]; [|done]. cbn [mbind option_bind].
  destruct (wr pd p _) as [p1|]; [|done]. cbn [mbind option_bind].
  destruct (if _ && _ then _ else _) as [p2|]; [|done]. cbn [mbind option_bind].
  destruct (p + 1 =? 0x3f); cbn [mbind option_bind lookup add_to_lookup];
    by destruct (rd lk _).
Qed.

Lemma set_pad16_equiv q c : has (enc_type c) 0x10 = false -> c ≡ set_pad16 q c.
Proof. intros H. apply equiv_cases. right. by destruct c. Qed.

Lemma clock_enc_type c k c' : fst_cipher_clock c = Some (k, c') -> enc_type c' = enc_type c.
Proof.
  with_strategy transparent [fst_cipher_clock] unfold fst_cipher_clock. unfold wrap. cbv zeta. intros H.
  bind_inv. destruct (_ =? 0x3f); [|by bind_inv; simplify_eq].
  cbn [enc_type] in *. destruct (has (enc_type c) 0x10); bind_inv; by simplify_eq.
Qed.

#[export] Instance clock_proper : Proper ((≡) ==> (≡)) fst_cipher_clock.
Proof.
  intros a b [->|[Hh ->]]%equiv_cases.
  - destruct (fst_cipher_clock b) as [[k c]|]; [|constructor]. constructor. by split.
  - rewrite clock_set_pad16 by done. destruct (fst_cipher_clock a) as [[k a']|] eqn:E; [|constructor].
    cbn [mbind option_bind]. constructor. split; [done|]. apply set_pad16_equiv.
    by rewrite (clock_enc_type _ _ _ E).
Qed.

Lemma clock_equiv (a b : FSTCipher) k a' :
  a ≡ b -> fst_cipher_clock a = Some (k, a') -> exists b', fst_cipher_clock b = Some (k, b') /\ a' ≡ b'.
Proof.
  intros Hab Ha. pose proof (clock_proper a b Hab) as H. rewrite Ha in H.
  inversion H as [? [k' b'] [Hk Hb]|]; subst. cbn [fst snd] in *. exists b'. by rewrite Hk.
Qed.

Lemma keystream_equiv n (a b : FSTCipher) ks a' :
  a ≡ b -> keystream n a = Some (ks, a') -> exists b', keystream n b = Some (ks, b') /\ a' ≡ b'.
Proof.
  revert a b ks a'. induction n as [|n IH]; intros a b ks a' Hab H; cbn [keystream] in *.
  - injection H as <- <-. by exists b.
  - destruct (fst_cipher_clock a) as [[k a1]|] eqn:E; [|discriminate H]. cbn [mbind option_bind] in H.
    destruct (clock_equiv _ _ _ _ Hab E) as (b1 & -> & Hb1). cbn [mbind option_bind].
    destruct (keystream n a1) as [[ks1 a2]|] eqn:E2; [|discriminate H]. cbn [mbind option_bind] in H.
    destruct (IH _ _ _ _ Hb1 E2) as (b2 & -> & Hb2). injection H as <- <-. by exists b2.
Qed.

(** Two equivalent ciphers: what one encrypts the other decrypts, and they
    stay equivalent. *)
Lemma crypt_roundtrip_ok (a b : FSTCipher) data (off len : nat) :
  cipher_wf a -> a ≡ b -> (off + len <= length data)%nat ->
  exists a' b' data',
    fst_cipher_crypt a data (Z.of_nat off) (Z.of_nat len) = Some (a', data') /\
    fst_cipher_crypt b data' (Z.of_nat off) (Z.of_nat len) = Some (b', data) /\
    length data' = length data /\ take off data' = take off data /\
    drop (off + len) data' = drop (off + len) data /\ cipher_wf a' /\ a' ≡ b'.
Proof.
  intros Ha Hab Hl. unfold fst_cipher_crypt. rewrite !Nat2Z.id.
  set (pre := take off data). set (seg := take len (drop off data)). set (post := drop (off + len) data).
  assert (Hdata : data = pre ++ seg ++ post).
  { subst pre seg post. by rewrite <- drop_drop, !take_drop. }
  assert (Hpre : length pre = off) by (subst pre; rewrite length_take; lia).
  assert (Hseg : length seg = len) by (subst seg; rewrite length_take, length_drop; lia).
  clearbody pre seg post. subst data.
  destruct (keystream_ok len a Ha) as (ks & a' & Hk & Hks & Ha' & _).
  destruct (keystream_equiv _ _ _ _ _ Hab Hk) as (b' & Hkb & Hab').
  exists a', b', (pre ++ zip_with Z.lxor seg ks ++ post).
  rewrite crypt_keystream by lia. rewrite Hk. cbn [mbind option_bind]. split; [done|].
  rewrite crypt_keystream by (rewrite ?length_zip_with; lia). rewrite Hkb. cbn [mbind option_bind].
  rewrite zip_xor_twice by lia. split; [done|].
  assert (Hz : length (zip_with Z.lxor seg ks) = len) by (rewrite length_zip_with; lia).
  split; [rewrite !length_app; lia|].
  split; [rewrite !take_app_le, !take_ge by lia; done|].
  split; [|done].
  rewrite (app_assoc pre), drop_app_ge by (rewrite length_app; lia).
  rewrite length_app. by replace (off + len - _)%nat with 0%nat by lia.
Qed.

(** ** Packets *)

Lemma htonl_word x : word 32 (htonl x).
Proof.
  apply (le_word_range 4); [by rewrite length_rev, le_bytes_length|].
  apply Forall_rev, le_bytes_word.
Qed.

Lemma htonl_involutive x : word 32 x -> htonl (htonl x) = x.
Proof.
  intros Hx. unfold htonl at 1.
  assert (Hl : length (rev (le_bytes 4 x)) = 4%nat) by (by rewrite length_rev, le_bytes_length).
  assert (Hw : Forall (word 8) (rev (le_bytes 4 x))) by apply Forall_rev, le_bytes_word.
  unfold htonl. rewrite le_bytes_le_word, rev_involutive by done.
  rewrite le_word_bytes. by apply Z.mod_small.
Qed.

Lemma mangle_ok seed enc :
  word 32 seed -> word 32 enc ->
  exists e, fst_cipher_mangle_enc_type seed enc = Some e /\ word 32 e /\
    fst_cipher_mangle_enc_type seed e = Some enc.
Proof.
  intros Hs He. unfold fst_cipher_mangle_enc_type.
  destruct (fill_pad16_ok seed Hs) as (p & -> & Hp). cbn [mbind option_bind].
  destruct (arr_rd 32 20 p 7) as (k & -> & Hk); [done|lia|]. cbn [mbind option_bind].
  eexists. split; [done|]. split; [by apply word_lxor|]. by rewrite lxor_cancel_r.
Qed.

#[local] Opaque fst_cipher_mangle_enc_type htonl.

(** The eight bytes of a packet. *)
Definition packet_bytes (a b : Z) : list Z := le_bytes 4 (htonl a) ++ le_bytes 4 (htonl b).

Lemma put_words_ok s (p : nat) a b :
  (p + 8 <= length s)%nat ->
  put_words s (Z.of_nat p) a b = Some (take p s ++ packet_bytes a b ++ drop (p + 8) s).
Proof.
  intros Hl. unfold put_words, packet_bytes.
  set (ba := le_bytes 4 (htonl a)). set (bb := le_bytes 4 (htonl b)).
  assert (Ha : length ba = 4%nat) by apply le_bytes_length.
  assert (Hb : length bb = 4%nat) by apply le_bytes_length. clearbody ba bb.
  rewrite blit_in by lia. cbn [mbind option_bind].
  change 4 with (Z.of_nat 4). rewrite <- Nat2Z.inj_add, Ha.
  rewrite blit_in by (rewrite !length_app, length_take, length_drop; lia). f_equal. rewrite Hb.
  assert (Hp : length (take p s) = p) by (rewrite length_take; lia).
  rewrite (app_assoc (take p s)), take_app_le by (rewrite length_app; lia).
  rewrite take_ge by (rewrite length_app; lia).
  rewrite drop_app_ge by (rewrite length_app; lia). rewrite length_app, drop_drop, Hp, Ha.
  replace (p + 4 + (p + 4 + 4 - (p + 4)))%nat with (p + 8)%nat by lia. by rewrite <- !app_assoc.
Qed.

Lemma sub_middle (pre seg post : list Z) off n :
  off = Z.of_nat (length pre) -> n = Z.of_nat (length seg) -> sub_bytes (pre ++ seg ++ post) off n = Some seg.
Proof.
  intros -> ->. rewrite sub_bytes_in by (rewrite !length_app; lia).
  by rewrite drop_app_length, take_app_length.
Qed.

Lemma get_words_ok {A} (K : Z -> Z -> option A) pre a b post p :
  word 32 a -> word 32 b -> p = Z.of_nat (length pre) ->
  (w0 ← sub_bytes (pre ++ packet_bytes a b ++ post) p 4;
   w1 ← sub_bytes (pre ++ packet_bytes a b ++ post) (p + 4) 4;
   K (htonl (le_word w0)) (htonl (le_word w1))) = K a b.
Proof.
  intros Ha Hb ->. unfold packet_bytes. rewrite <- app_assoc.
  rewrite (sub_middle pre _ _ (Z.of_nat (length pre))) by (rewrite ?le_bytes_length; lia).
  cbn [mbind option_bind].
  rewrite (app_assoc pre), sub_middle by (rewrite ?length_app, ?le_bytes_length; lia). cbn [mbind option_bind].
  rewrite !le_word_bytes. change (2 ^ (8 * Z.of_nat 4)) with (2 ^ 32).
  rewrite !Z.mod_small by apply htonl_word. by rewrite !htonl_involutive.
Qed.

Lemma packet_get_ok pre a b post p c :
  word 32 a -> word 32 b -> s32 p = Z.of_nat (length pre) ->
  ml_cipher_packet_get (pre ++ packet_bytes a b ++ post) p c
  = enc ← fst_cipher_mangle_enc_type a b; Some (with_keys c a enc).
Proof.
  exact (get_words_ok (fun seed e => enc ← fst_cipher_mangle_enc_type seed e; Some (with_keys c seed enc))
    pre a b post (s32 p)).
Qed.

Lemma packet_set_ok c s (p : nat) :
  (p + 8 <= length s)%nat -> Z.of_nat p < 2 ^ 31 -> word 32 (cseed c) -> word 32 (enc_type c) ->
  exists e, ml_cipher_packet_set c s (Z.of_nat p)
    = Some (take p s ++ packet_bytes (cseed c) e ++ drop (p + 8) s) /\ word 32 e /\
    fst_cipher_mangle_enc_type (cseed c) e = Some (enc_type c).
Proof.
  intros Hl Hp Hs He. unfold ml_cipher_packet_set. rewrite s32_small by lia.
  destruct (mangle_ok (cseed c) (enc_type c) Hs He) as (e & -> & We & Hm). cbn [mbind option_bind].
  exists e. by rewrite put_words_ok.
Qed.

#[local] Opaque ml_cipher_packet_set ml_cipher_packet_get.

(** What [ml_cipher_packet_set] writes, [ml_cipher_packet_get] reads. *)
Lemma packet_roundtrip_ok c s (p : nat) c' :
  (p + 8 <= length s)%nat -> Z.of_nat p < 2 ^ 31 -> word 32 (cseed c) -> word 32 (enc_type c) ->
  exists s', ml_cipher_packet_set c s (Z.of_nat p) = Some s' /\ length s' = length s /\
    ml_cipher_packet_get s' (Z.of_nat p) c' = Some (with_keys c' (cseed c) (enc_type c)).
Proof.
  intros Hl Hp Hs He. destruct (packet_set_ok c s p Hl Hp Hs He) as (e & -> & We & Hm).
  eexists. split; [done|]. split.
  - unfold packet_bytes. rewrite !length_app, !le_bytes_length, length_take, length_drop. lia.
  - rewrite packet_get_ok by (rewrite ?s32_small, ?length_take; done || lia). by rewrite Hm.
Qed.

(** ** Initialisation is a function of the seed and the type *)

Lemma init_parts_old seed enc q1 q2 p1 p2 :
  init_parts seed enc q1 = Some p1 -> init_parts seed enc q2 = Some p2 ->
  fst p1 = fst p2 /\ (has enc 0x10 = true -> snd p1 = snd p2).
Proof.
  unfold init_parts. destruct (pad_init seed enc) as [[[ok sd] p]|]; [|discriminate 1].
  cbn [mbind option_bind]. destruct (adjust_pad p) as [p'|]; [|discriminate 1].
  cbn [mbind option_bind]. cbv zeta. set (pos' := Z.shiftr (u32 _) 16).
  destruct (init_lookup enc p') as [lk|]; [|discriminate 1]. cbn [mbind option_bind].
  destruct (sort5 p' _) as [p3|]; [|destruct (has enc 0x10), (fill_pad16 pos'); discriminate 1].
  cbn [mbind option_bind]. destruct (modify_thirds p3) as [p4|]; [|destruct (has enc 0x10), (fill_pad16 pos'); discriminate 1].
  destruct (has enc 0x10).
  - intros H1 H2. rewrite H1 in H2. by injection H2 as ->.
  - cbn [mbind option_bind]. intros [= <-] [= <-]. done.
Qed.

Lemma fst_cipher_init_equiv c1 c2 seed enc :
  word 32 seed -> cipher_wf c1 -> cipher_wf c2 -> supported enc = true ->
  exists d1 d2, fst_cipher_init c1 seed enc = Some (true, d1) /\
    fst_cipher_init c2 seed enc = Some (true, d2) /\ d1 ≡ d2 /\ cipher_ready d1 /\
    enc_type d1 = enc /\ cseed d1 = seed /\ enc_type d2 = enc /\ cseed d2 = seed /\ cipher_wf d2.
Proof.
  intros Hs H1 H2 Hsup.
  destruct (fst_cipher_init_eq c1 seed enc Hs H1) as (d1 & -> & W1 & E1 & S1 & F1).
  destruct (fst_cipher_init_eq c2 seed enc Hs H2) as (d2 & -> & W2 & E2 & S2 & F2).
  rewrite Hsup in *. destruct F1 as (L1 & C1 & A1 & P1), F2 as (L2 & C2 & A2 & P2).
  exists d1, d2. split; [done|]. split; [done|]. split; [|unfold cipher_ready; tauto].
  destruct (init_parts_old _ _ _ _ _ _ P1 P2) as [Hp H16]. injection Hp as Hpos Hpad Hlk.
  split; [congruence|]. rewrite E1. intros Hh. by apply H16.
Qed.

(** ** The handshake *)

(** The client: [fasttrackServers.ml] sends the header at connection, and
    reads the server's answer. *)
Definition client_handshake (out_cipher in_cipher : FSTCipher) (client_cipher_seed : Z)
    (s reply : list Z) : option (list Z * FSTCipher * FSTCipher) :=
  let out_cipher := ml_set_cipher out_cipher client_cipher_seed 0x29 in
  s ← ml_cipher_packet_set out_cipher s 4;
  in_cipher ← ml_cipher_packet_get reply 0 in_cipher;
  in_cipher ← ml_init_cipher in_cipher;
  out_cipher ← ml_init_cipher (ml_xor_ciphers out_cipher in_cipher);
  Some (s, out_cipher, in_cipher).

(** The analyser [fasttrackPandora.ml] recovers both ciphers from the two
    packets. *)
Definition pandora_handshake (out_cipher in_cipher : FSTCipher) (s_out s_in : list Z)
    : option (FSTCipher * FSTCipher) :=
  out_cipher ← ml_cipher_packet_get s_out 4 out_cipher;
  out_cipher ← ml_init_cipher out_cipher;
  in_cipher ← ml_cipher_packet_get s_in 0 in_cipher;
  in_cipher ← ml_init_cipher in_cipher;
  out_cipher ← ml_init_cipher (ml_xor_ciphers out_cipher in_cipher);
  Some (out_cipher, in_cipher).

Lemma ml_init_ok c1 c2 :
  cipher_wf c1 -> cipher_wf c2 -> cseed c1 = cseed c2 -> enc_type c1 = enc_type c2 ->
  supported (enc_type c1) = true ->
  exists d1 d2, ml_init_cipher c1 = Some d1 /\ ml_init_cipher c2 = Some d2 /\ d1 ≡ d2 /\
    cipher_ready d1 /\ cipher_wf d2 /\ enc_type d1 = enc_type c1 /\ cseed d1 = cseed c1 /\
    enc_type d2 = enc_type c1 /\ cseed d2 = cseed c1.
Proof.
  intros W1 W2 Hs He Hsup. unfold ml_init_cipher. rewrite <- Hs, <- He.
  pose proof W1 as (_ & _ & _ & _ & _ & _ & Ws).
  destruct (fst_cipher_init_equiv c1 c2 (cseed c1) (enc_type c1) Ws W1 W2 Hsup)
    as (d1 & d2 & -> & -> & Hd & Hr & E1 & S1 & E2 & S2 & Wd2).
  exists d1, d2. cbn [fmap option_fmap option_map snd]. tauto.
Qed.

#[local] Opaque ml_init_cipher.

Lemma client_handshake_eq out_c in_c seed s reply s' in1 in2 out2 :
  ml_cipher_packet_set (ml_set_cipher out_c seed 0x29) s 4 = Some s' ->
  ml_cipher_packet_get reply 0 in_c = Some in1 -> ml_init_cipher in1 = Some in2 ->
  ml_init_cipher (ml_xor_ciphers (ml_set_cipher out_c seed 0x29) in2) = Some out2 ->
  client_handshake out_c in_c seed s reply = Some (s', out2, in2).
Proof.
  intros H1 H2 H3 H4. unfold client_handshake. cbv zeta.
  apply bind_Some. exists s'. split; [exact H1|]. apply bind_Some. exists in1. split; [exact H2|].
  apply bind_Some. exists in2. split; [exact H3|]. apply bind_Some. exists out2. split; [exact H4|reflexivity].
Qed.

Lemma pandora_handshake_eq out_c in_c s_out s_in out1 out2 in1 in2 out3 :
  ml_cipher_packet_get s_out 4 out_c = Some out1 -> ml_init_cipher out1 = Some out2 ->
  ml_cipher_packet_get s_in 0 in_c = Some in1 -> ml_init_cipher in1 = Some in2 ->
  ml_init_cipher (ml_xor_ciphers out2 in2) = Some out3 ->
  pandora_handshake out_c in_c s_out s_in = Some (out3, in2).
Proof.
  intros H1 H2 H3 H4 H5. unfold pandora_handshake.
  apply bind_Some. exists out1. split; [exact H1|]. apply bind_Some. exists out2. split; [exact H2|].
  apply bind_Some. exists in1. split; [exact H3|]. apply bind_Some. exists in2. split; [exact H4|].
  apply bind_Some. exists out3. split; [exact H5|reflexivity].
Qed.

Lemma supported_0x29 : supported 0x29 = true.
Proof. reflexivity. Qed.

Section Handshake.
Context (out_c in_c p_out p_in srv : FSTCipher) (seed : Z) (s r reply : list Z).
Context (Wo : cipher_wf out_c) (Wi : cipher_wf in_c) (Wpo : cipher_wf p_out) (Wpi : cipher_wf p_in).
Context (Wsrv : cipher_wf srv) (Wenc : word 32 (enc_type srv)) (Hsup : supported (enc_type srv) = true).
Context (Hs : (12 <= length s)%nat) (Hr : (8 <= length r)%nat).
Context (Hreply : ml_cipher_packet_set srv r 0 = Some reply).

(** Both ends recover the same two ciphers. *)
Lemma handshake_ok :
  exists s' out_d in_d p_out_d p_in_d,
    client_handshake out_c in_c seed s reply = Some (s', out_d, in_d) /\
    pandora_handshake p_out p_in s' reply = Some (p_out_d, p_in_d) /\
    cipher_ready out_d /\ cipher_ready in_d /\ out_d ≡ p_out_d /\ in_d ≡ p_in_d /\
    cipher_wf p_in_d.
Proof.
  pose proof Wsrv as (_ & _ & _ & _ & _ & _ & Wseed).
  pose proof (u32_range seed) as Wcs. set (cs := u32 seed) in *.
  (* the client's packet *)
  destruct (packet_roundtrip_ok (with_keys out_c cs 0x29) s 4 p_out) as (s' & Hset & _ & Hget);
    [lia|lia|done|unfold word; simpl; lia|].
  cbn [cseed enc_type with_keys] in Hget.
  (* the server's packet *)
  destruct (packet_roundtrip_ok srv r 0 in_c) as (rep & Hrep & _ & Hgi); [lia|lia|done..|].
  destruct (packet_roundtrip_ok srv r 0 p_in) as (rep' & Hrep' & _ & Hgp); [lia|lia|done..|].
  change (Z.of_nat 0) with 0 in *. rewrite Hreply in Hrep, Hrep'.
  injection Hrep as <-. injection Hrep' as <-.
  set (srvs := cseed srv) in *. set (srve := enc_type srv) in *.
  (* incoming ciphers *)
  destruct (ml_init_ok (with_keys in_c srvs srve) (with_keys p_in srvs srve))
    as (in_d & p_in_d & Hi1 & Hi2 & Hin & Hrin & Wpin & E1 & S1 & E2 & S2);
    [by apply with_keys_wf|by apply with_keys_wf|done..|].
  cbn [enc_type cseed with_keys] in E1, S1, E2, S2.
  (* the analyser's first initialisation of the outgoing cipher *)
  destruct (ml_init_ok (with_keys p_out cs 0x29) (with_keys p_out cs 0x29))
    as (p1 & _ & Hp1 & _ & _ & [Wp1 _] & _ & _ & Sp1 & _ & _);
    [by apply with_keys_wf|by apply with_keys_wf|done|done|apply supported_0x29|].
  cbn [cseed with_keys] in Sp1.
  (* the second one *)
  assert (Wx : word 32 (Z.lxor cs srvs)) by (apply word_lxor; [lia|done..]).
  destruct (ml_init_ok (with_keys (with_keys out_c cs 0x29) (Z.lxor cs srvs) srve)
    (with_keys p1 (Z.lxor cs srvs) srve)) as (out_d & p_out_d & Ho1 & Ho2 & Hout & Hrout & _);
    [by repeat apply with_keys_wf|by apply with_keys_wf|done..|].
  exists s', out_d, in_d, p_out_d, p_in_d. split; [|split; [|tauto]].
  - apply (client_handshake_eq _ _ _ _ _ _ (with_keys in_c srvs srve)); [exact Hset|exact Hgi|exact Hi1|].
    unfold ml_xor_ciphers. rewrite S1, E1. exact Ho1.
  - apply (pandora_handshake_eq _ _ _ _ (with_keys p_out cs 0x29) p1 (with_keys p_in srvs srve));
      [exact Hget|exact Hp1|exact Hgp|exact Hi2|].
    unfold ml_xor_ciphers. rewrite Sp1, S2, E2. exact Ho2.
Qed.
End Handshake.

(** ** A cipher whose initialisation failed *)

Lemma keystream_zero n c :
  cipher_wf c -> lookup c = replicate 256 0 ->
  exists c', keystream n c = Some (replicate n 0, c').
Proof.
  revert c. induction n as [|n IH]; intros c Hc Hl; [by exists c|]. cbn [keystream].
  destruct (clock_ok c Hc) as (k & c1 & E & _ & Hc1 & _ & Hl1 & _).
  assert (Hk : k = 0).
  { revert E. with_strategy transparent [fst_cipher_clock] unfold fst_cipher_clock. cbv zeta. intros E.
    apply bind_Some in E as (l & _ & E). apply bind_Some in E as (x & _ & E).
    apply bind_Some in E as (p1 & _ & E). apply bind_Some in E as (p2 & _ & E).
    apply bind_Some in E as (c2 & _ & E). apply bind_Some in E as (out & Hr & E). injection E as <- <-.
    rewrite Hl1, Hl in Hr. apply rd_Some in Hr as [_ Hr]. by apply lookup_replicate in Hr as [-> _]. }
  rewrite E. cbn [mbind option_bind]. destruct (IH c1 Hc1) as (c' & ->); [by rewrite Hl1|].
  exists c'. cbn [mbind option_bind replicate]. by rewrite Hk.
Qed.

Lemma zip_xor_zeros l : zip_with Z.lxor l (replicate (length l) 0) = l.
Proof. induction l as [|x l IH]; [done|]. cbn [length replicate zip_with]. by rewrite Z.lxor_0_r, IH. Qed.

(** ** Properties *)

(** C36: the mixers 0x02, 0x20 and 0x80 end on every key of 20 words and every
    seed, without leaving the pad, and leave 20 words of 32 bits; so does the step
    that applies one of them when it is in the encryption type, and that step leaves
    the key and the seed alone when it is not. *)
Theorem mixers_in_bounds enc mask mixer key seed :
  (mask, mixer) ∈ [(0x02, enc_type_2); (0x20, enc_type_20); (0x80, enc_type_80)] -> pad_ok key -> word 32 seed ->
  (exists pad, mixer key seed = Some pad /\ pad_ok pad) /\
  (exists key' seed', mix_key enc mask mixer (key, seed) = Some (key', seed') /\ pad_ok key' /\ word 32 seed' /\
    (has enc mask = false -> key' = key /\ seed' = seed)).
Proof.
  intros Hm Hp Hs.
  assert (Hsafe : safe_p mixer).
  { repeat (apply elem_of_cons in Hm as [[= -> ->]|Hm]); [| | |by apply elem_of_nil in Hm].
    - intros ? ? ? ?. by apply enc_type_2_in_bounds.
    - intros ? ? ? ?. by apply enc_type_20_in_bounds.
    - intros ? ? ? ?. by apply enc_type_80_in_bounds. }
  split; [by apply Hsafe|]. destruct (mix_key_ok enc mask mixer (key, seed) Hsafe Hp Hs) as ([key' seed'] & E & Hk & Hs').
  exists key', seed'. split; [done|]. split; [done|]. split; [done|]. intros Hno. unfold mix_key in E. rewrite Hno in E. by injection E as -> ->.
Qed.

Lemma mixers_in_bounds_witness :
  let key := replicate 20 0xdeadbeef in
  (exists pad, enc_type_20 key 0x12345678 = Some pad /\ pad_ok pad) /\
  (exists key' seed', mix_key 0x20 0x20 enc_type_20 (key, 0x12345678) = Some (key', seed') /\ pad_ok key' /\ word 32 seed' /\
    (has 0x20 0x20 = false -> key' = key /\ seed' = 0x12345678)).
Proof.
  apply (mixers_in_bounds 0x20 0x20 enc_type_20); [|split; [done|]; repeat constructor; unfold word; lia|unfold word; lia].
  apply elem_of_cons. right. apply elem_of_cons. by left.
Defined.

(** C28: on a well-formed cipher the keystream step never leaves the arrays
    [pad], [lookup] and [pad16], gives a byte, and keeps the cipher
    well-formed. *)
Theorem clock_in_bounds c :
  cipher_wf c ->
  exists k c', fst_cipher_clock c = Some (k, c') /\ word 8 k /\ cipher_wf c' /\
    lookup c' = lookup c /\ enc_type c' = enc_type c.
Proof.
  intros Hc. destruct (clock_ok c Hc) as (k & c' & H & Hk & Hw & He & Hl & _). exists k, c'. tauto.
Qed.

Lemma clock_in_bounds_witness :
  cipher_wf fst_cipher_create /\
  exists k c', fst_cipher_clock fst_cipher_create = Some (k, c') /\ word 8 k /\ cipher_wf c' /\
    lookup c' = lookup fst_cipher_create /\ enc_type c' = enc_type fst_cipher_create.
Proof. split; [exact create_wf|exact (clock_in_bounds fst_cipher_create create_wf)]. Defined.

(** C24: initialisation ends on every seed and type; it returns FALSE exactly
    on the types with bit 0x04 or 0x100; otherwise the cipher is well-formed
    and its lookup table is a permutation of the bytes. *)
Theorem init_result c seed enc :
  cipher_wf c -> word 32 seed ->
  exists c', fst_cipher_init c seed enc = Some (supported enc, c') /\ cipher_wf c' /\
    enc_type c' = enc /\ cseed c' = seed /\
    (supported enc = true -> lookup c' ≡ₚ seqZ 0 256).
Proof.
  intros Hc Hs. destruct (fst_cipher_init_eq c seed enc Hs Hc) as (c' & H & Hw & He & Hse & Hif).
  exists c'. repeat (split; [assumption|]). intros Hsup. rewrite Hsup in Hif. apply Hif.
Qed.

Lemma init_result_witness :
  cipher_wf fst_cipher_create /\ word 32 0x12345678 /\
  exists c', fst_cipher_init fst_cipher_create 0x12345678 0x29 = Some (supported 0x29, c') /\ cipher_wf c' /\
    enc_type c' = 0x29 /\ cseed c' = 0x12345678 /\
    (supported 0x29 = true -> lookup c' ≡ₚ seqZ 0 256).
Proof.
  assert (Hs : word 32 0x12345678) by (unfold word; lia).
  split; [exact create_wf|]. split; [exact Hs|].
  exact (init_result fst_cipher_create 0x12345678 0x29 create_wf Hs).
Defined.

(** C19: a cipher decrypts what an equivalent cipher encrypted, in place and
    without touching the bytes around the segment; the two stay equivalent, so
    the next segment decrypts too. *)
Theorem crypt_roundtrip (a b : FSTCipher) data (off len : nat) :
  cipher_wf a -> a ≡ b -> (off + len <= length data)%nat ->
  exists a' b' data',
    fst_cipher_crypt a data (Z.of_nat off) (Z.of_nat len) = Some (a', data') /\
    fst_cipher_crypt b data' (Z.of_nat off) (Z.of_nat len) = Some (b', data) /\
    length data' = length data /\ take off data' = take off data /\
    drop (off + len) data' = drop (off + len) data /\ cipher_wf a' /\ a' ≡ b'.
Proof. apply crypt_roundtrip_ok. Qed.

Lemma crypt_roundtrip_witness :
  cipher_wf fst_cipher_create /\
  exists a' b' data',
    fst_cipher_crypt fst_cipher_create [1; 2; 3; 4; 5] (Z.of_nat 1) (Z.of_nat 3) = Some (a', data') /\
    fst_cipher_crypt fst_cipher_create data' (Z.of_nat 1) (Z.of_nat 3) = Some (b', [1; 2; 3; 4; 5]) /\
    length data' = 5%nat /\ take 1 data' = [1] /\ drop 4 data' = [5] /\ cipher_wf a' /\ a' ≡ b'.
Proof.
  split; [exact create_wf|].
  exact (crypt_roundtrip fst_cipher_create fst_cipher_create [1; 2; 3; 4; 5] 1 3 create_wf
           (conj eq_refl (fun _ => eq_refl)) ltac:(simpl; lia)).
Defined.

(** Masking the encryption type twice with the same seed gives it back. *)
Theorem mangle_involutive seed enc :
  word 32 seed -> word 32 enc ->
  exists e, fst_cipher_mangle_enc_type seed enc = Some e /\ word 32 e /\
    fst_cipher_mangle_enc_type seed e = Some enc.
Proof. apply mangle_ok. Qed.

Lemma mangle_involutive_witness :
  word 32 0x12345678 /\ word 32 0x29 /\
  exists e, fst_cipher_mangle_enc_type 0x12345678 0x29 = Some e /\ word 32 e /\
    fst_cipher_mangle_enc_type 0x12345678 e = Some 0x29.
Proof.
  assert (Hs : word 32 0x12345678) by (unfold word; lia).
  assert (He : word 32 0x29) by (unfold word; lia).
  split; [exact Hs|]. split; [exact He|]. exact (mangle_involutive _ _ Hs He).
Defined.

(** The seed and type that [ml_cipher_packet_set] stores are those that
    [ml_cipher_packet_get] reads; both stay inside the string. *)
Theorem packet_roundtrip c s (p : nat) c' :
  (p + 8 <= length s)%nat -> Z.of_nat p < 2 ^ 31 -> word 32 (cseed c) -> word 32 (enc_type c) ->
  exists s', ml_cipher_packet_set c s (Z.of_nat p) = Some s' /\ length s' = length s /\
    ml_cipher_packet_get s' (Z.of_nat p) c' = Some (with_keys c' (cseed c) (enc_type c)).
Proof. apply packet_roundtrip_ok. Qed.

Lemma packet_roundtrip_witness :
  exists s', ml_cipher_packet_set (ml_set_cipher fst_cipher_create 0x12345678 0x29) (replicate 12 0) (Z.of_nat 4)
      = Some s' /\ length s' = length (replicate 12 0) /\
    ml_cipher_packet_get s' (Z.of_nat 4) fst_cipher_create
      = Some (with_keys fst_cipher_create (cseed (ml_set_cipher fst_cipher_create 0x12345678 0x29))
                (enc_type (ml_set_cipher fst_cipher_create 0x12345678 0x29))).
Proof.
  apply (packet_roundtrip (ml_set_cipher fst_cipher_create 0x12345678 0x29) (replicate 12 0) 4 fst_cipher_create).
  - simpl. lia.
  - lia.
  - apply u32_range.
  - apply u32_range.
Defined.

(** C3: after the handshake the client and an analyser that saw only the two
    packets hold equivalent pairs of ciphers, whatever their ciphers held
    before: every segment the client then encrypts, at a position an [int]
    holds, the analyser decrypts. *)
Theorem handshake_agrees (out_c in_c p_out p_in srv : FSTCipher) seed s r reply :
  cipher_wf out_c -> cipher_wf in_c -> cipher_wf p_out -> cipher_wf p_in -> cipher_wf srv ->
  word 32 (enc_type srv) -> supported (enc_type srv) = true ->
  (12 <= length s)%nat -> (8 <= length r)%nat -> ml_cipher_packet_set srv r 0 = Some reply ->
  exists s' out_d in_d p_out_d p_in_d,
    client_handshake out_c in_c seed s reply = Some (s', out_d, in_d) /\
    pandora_handshake p_out p_in s' reply = Some (p_out_d, p_in_d) /\
    out_d ≡ p_out_d /\ in_d ≡ p_in_d /\
    forall data (off len : nat), (off + len <= length data)%nat -> Z.of_nat (off + len) < 2 ^ 31 ->
      exists a' b' data',
        ml_apply_cipher out_d data (Z.of_nat off) (Z.of_nat len) = Some (a', data') /\
        ml_apply_cipher p_out_d data' (Z.of_nat off) (Z.of_nat len) = Some (b', data).
Proof.
  intros Wo Wi Wpo Wpi Wsrv Wenc Hsup Hs Hr Hreply.
  destruct (handshake_ok out_c in_c p_out p_in srv seed s r reply Wo Wi Wpo Wpi Wsrv Wenc Hsup Hs Hr Hreply)
    as (s' & od & id & po & pi & Hc & Hp & [Wod _] & _ & Ho & Hi & _).
  exists s', od, id, po, pi. repeat (split; [assumption|]). intros data off len Hl Hb.
  destruct (crypt_roundtrip_ok od po data off len Wod Ho Hl) as (a' & b' & data' & H1 & H2 & _).
  unfold ml_apply_cipher. rewrite !s32_small by lia. by exists a', b', data'.
Qed.

Lemma handshake_agrees_witness :
  exists reply,
  ml_cipher_packet_set (ml_set_cipher fst_cipher_create 0x1badcafe 0x29) (replicate 8 0) 0 = Some reply /\
  exists s' out_d in_d p_out_d p_in_d,
    client_handshake fst_cipher_create fst_cipher_create 0x12345678 (replicate 12 0) reply = Some (s', out_d, in_d) /\
    pandora_handshake fst_cipher_create fst_cipher_create s' reply = Some (p_out_d, p_in_d) /\
    out_d ≡ p_out_d /\ in_d ≡ p_in_d /\
    forall data (off len : nat), (off + len <= length data)%nat -> Z.of_nat (off + len) < 2 ^ 31 ->
      exists a' b' data',
        ml_apply_cipher out_d data (Z.of_nat off) (Z.of_nat len) = Some (a', data') /\
        ml_apply_cipher p_out_d data' (Z.of_nat off) (Z.of_nat len) = Some (b', data).
Proof.
  assert (Wsrv : cipher_wf (ml_set_cipher fst_cipher_create 0x1badcafe 0x29))
    by (apply with_keys_wf; [exact create_wf|apply u32_range]).
  destruct (packet_set_ok (ml_set_cipher fst_cipher_create 0x1badcafe 0x29) (replicate 8 0) 0)
    as (e & Hset & _); [simpl; lia|lia|apply u32_range|apply u32_range|].
  eexists. split; [exact Hset|].
  eapply (handshake_agrees fst_cipher_create fst_cipher_create fst_cipher_create fst_cipher_create
            (ml_set_cipher fst_cipher_create 0x1badcafe 0x29) 0x12345678 (replicate 12 0) (replicate 8 0)).
  - exact create_wf.
  - exact create_wf.
  - exact create_wf.
  - exact create_wf.
  - exact Wsrv.
  - apply u32_range.
  - reflexivity.
  - simpl; lia.
  - simpl; lia.
  - exact Hset.
Defined.

(** [ml_init_cipher] drops the FALSE of an unsupported type, and a cipher
    created and initialised that way "encrypts" every byte to itself. *)
Theorem unsupported_is_plaintext seed enc :
  supported (u32 enc) = false ->
  exists c, ml_init_cipher (ml_set_cipher ml_create_cipher seed enc) = Some c /\
    forall data (off len : nat), (off + len <= length data)%nat -> Z.of_nat (off + len) < 2 ^ 31 ->
      exists c', ml_apply_cipher c data (Z.of_nat off) (Z.of_nat len) = Some (c', data).
Proof.
  intros Hsup. set (c0 := ml_set_cipher ml_create_cipher seed enc).
  assert (W0 : cipher_wf c0) by (apply with_keys_wf; [exact create_wf|apply u32_range]).
  destruct (fst_cipher_init_eq c0 (u32 seed) (u32 enc) (u32_range seed) W0) as (c & Hi & Wc & _ & _ & Hif).
  rewrite Hsup in Hif. exists c. split.
  - with_strategy transparent [ml_init_cipher] unfold ml_init_cipher.
    change (cseed c0) with (u32 seed). change (enc_type c0) with (u32 enc). rewrite Hi. reflexivity.
  - intros data off len Hl Hb. unfold ml_apply_cipher, fst_cipher_crypt. rewrite !s32_small, Nat2Z.id by lia.
    destruct (keystream_zero len c Wc Hif) as (c' & Hk). exists c'.
    assert (Hdata : data = take off data ++ take len (drop off data) ++ drop (off + len) data)
      by (by rewrite <- drop_drop, !take_drop).
    assert (Hseg : length (take len (drop off data)) = len) by (rewrite length_take, length_drop; lia).
    rewrite Hdata at 1. rewrite crypt_keystream by (exact Hseg || (rewrite length_take; lia)). rewrite Hk.
    cbn [mbind option_bind]. rewrite <- Hseg at 2. by rewrite zip_xor_zeros, <- Hdata.
Qed.

Lemma unsupported_is_plaintext_witness :
  supported (u32 0x104) = false /\
  exists c, ml_init_cipher (ml_set_cipher ml_create_cipher 7 0x104) = Some c /\
    forall data (off len : nat), (off + len <= length data)%nat -> Z.of_nat (off + len) < 2 ^ 31 ->
      exists c', ml_apply_cipher c data (Z.of_nat off) (Z.of_nat len) = Some (c', data).
Proof.
  assert (H : supported (u32 0x104) = false) by reflexivity.
  split; [exact H|exact (unsupported_is_plaintext 7 0x104 H)].
Defined.

(** [qsort] with [qsort_cmp_func] has one possible result, whatever
    algorithm the C library uses: any sorted permutation of the five bytes. *)
Theorem qsort_unique l l' :
  l' ≡ₚ l -> StronglySorted (fun a b => qsort_cmp_func a b <= 0) l' -> l' = qsort l.
Proof.
  intros Hp Hs. apply (StronglySorted_unique cmp_le); [done|apply qsort_sorted|].
  by rewrite qsort_perm.
Qed.

Lemma qsort_unique_witness :
  [32; 0; 1; 64; 255] ≡ₚ [0; 32; 1; 64; 255] /\ [32; 0; 1; 64; 255] = qsort [0; 32; 1; 64; 255].
Proof.
  assert (H : [32; 0; 1; 64; 255] ≡ₚ [0; 32; 1; 64; 255]) by apply Permutation_swap.
  split; [exact H|]. apply (qsort_unique _ _ H). repeat constructor; cbv; discriminate.
Defined.

End FstCrypt.
