(* ===== verification/FstStubs.v ===== *)
(** * The FastTrack ciphers as OCaml sees them

    [src/src/networks/fasttrack/fst_crypt_ml.c] over a store: OCaml holds bare
    pointers to ciphers that C allocated, and strings that the calls read and
    write in place.  Two arguments may be the same cipher.  A call on a freed
    cipher, or past the end of a string, has no result. *)

From Stdlib Require Import ZArith Lia.
From stdpp Require Import base option numbers list.
From S2P Require Import Prelude FstCrypt.
Import FstCrypt.

Local Open Scope Z_scope.

Module FstStubs.

(** ** The store and the calls *)

(** [heap]: the ciphers in the order of their creation, the freed ones [None];
    [strings]: the strings of the caller. *)
Record world := World { heap : list (option FSTCipher); strings : list (list Z) }.

Inductive call :=
  | Create
  | Free (cipher : nat)
  | Apply (cipher s : nat) (p len : Z)
  | Init (cipher : nat)
  | SetKeys (cipher : nat) (seed encode : Z)
  | PacketGet (s : nat) (p : Z) (in_cipher : nat)
  | PacketSet (cipher s : nat) (p : Z)
  | PacketSetXored (cipher s : nat) (p : Z) (xor_cipher : nat)
  | Xor (out_cipher in_cipher : nat)
  | Xor2 (out_cipher in_cipher : nat)
  | EncType (cipher : nat).

Inductive value := Unit | Handle (cipher : nat) | Int (n : Z).

Definition deref (h : list (option FSTCipher)) (a : nat) : option FSTCipher := c ← h !! a; c.

Definition assign (h : list (option FSTCipher)) (a : nat) (c : FSTCipher) : list (option FSTCipher) :=
  <[a := Some c]> h.

(** [ml_cipher_free] on a cipher that is not null. *)
Definition ml_cipher_free (h : list (option FSTCipher)) (a : nat) : option (list (option FSTCipher)) :=
  _ ← deref h a; Some (<[a := None]> h).

(** [ml_xor_ciphers2], one assignment after the other: the two may be one. *)
Definition xor_ciphers2 (h : list (option FSTCipher)) (o i : nat) : option (list (option FSTCipher)) :=
  out ← deref h o;
  let seed := cseed out in
  inc ← deref h i;
  let h := assign h o (with_keys out (Z.lxor seed (cseed inc)) (enc_type out)) in
  inc ← deref h i;
  let h := assign h i (with_keys inc (Z.lxor (cseed inc) seed) (enc_type inc)) in
  out ← deref h o;
  '(_, out) ← fst_cipher_init out (cseed out) (enc_type out);
  Some (assign h o out).

Definition exec (c : call) (w : world) : option (value * world) :=
  let h := heap w in
  let ss := strings w in
  match c with
  | Create => Some (Handle (length h), World (h ++ [Some ml_create_cipher]) ss)
  | Free a => h ← ml_cipher_free h a; Some (Unit, World h ss)
  | Apply a s p len =>
      x ← deref h a; str ← ss !! s; '(x, str) ← ml_apply_cipher x str p len;
      Some (Unit, World (assign h a x) (<[s := str]> ss))
  | Init a => x ← deref h a; x ← ml_init_cipher x; Some (Unit, World (assign h a x) ss)
  | SetKeys a seed encode => x ← deref h a; Some (Unit, World (assign h a (ml_set_cipher x seed encode)) ss)
  | PacketGet s p a =>
      x ← deref h a; str ← ss !! s; x ← ml_cipher_packet_get str p x; Some (Unit, World (assign h a x) ss)
  | PacketSet a s p =>
      x ← deref h a; str ← ss !! s; str ← ml_cipher_packet_set x str p; Some (Unit, World h (<[s := str]> ss))
  | PacketSetXored a s p b =>
      x ← deref h a; y ← deref h b; str ← ss !! s; str ← ml_cipher_packet_set_xored x str p y;
      Some (Unit, World h (<[s := str]> ss))
  | Xor o i => x ← deref h o; y ← deref h i; Some (Unit, World (assign h o (ml_xor_ciphers x y)) ss)
  | Xor2 o i => h ← xor_ciphers2 h o i; Some (Unit, World h ss)
  | EncType a => x ← deref h a; Some (Int (ml_cipher_enc_type x), w)
  end.

Fixpoint run (cs : list call) (w : world) : option (list value * world) :=
  match cs with
  | [] => Some ([], w)
  | c :: cs => '(v, w) ← exec c w; '(vs, w) ← run cs w; Some (v :: vs, w)
  end.

(** ** Shapes: which ciphers are alive, and how long the strings are *)

Record shape := Shape { alive : list bool; lens : list Z }.

Definition live (sh : shape) (a : nat) : bool := default false (alive sh !! a).

(** [n] bytes at [p] of the string [s]. *)
Definition within (sh : shape) (s : nat) (p n : Z) : bool :=
  match lens sh !! s with Some l => (0 <=? p) && (p + n <=? l) | None => false end.

(** The shape after a call, if the call is well typed.  The position and the
    length are those that the code works with, the [int]s that [Int_val] cuts
    out of the arguments. *)
Definition type_call (c : call) (sh : shape) : option shape :=
  match c with
  | Create => Some (Shape (alive sh ++ [true]) (lens sh))
  | Free a => if live sh a then Some (Shape (<[a := false]> (alive sh)) (lens sh)) else None
  | Apply a s p len => if live sh a && within sh s (s32 p) (Z.max 0 (s32 len)) then Some sh else None
  | PacketGet s p a => if live sh a && within sh s (s32 p) 8 then Some sh else None
  | PacketSet a s p => if live sh a && within sh s (s32 p) 8 then Some sh else None
  | PacketSetXored a s p b => if live sh a && live sh b && within sh s (s32 p) 8 then Some sh else None
  | Xor o i => if live sh o && live sh i then Some sh else None
  | Xor2 o i => if live sh o && live sh i then Some sh else None
  | Init a => if live sh a then Some sh else None
  | SetKeys a _ _ => if live sh a then Some sh else None
  | EncType a => if live sh a then Some sh else None
  end.

Fixpoint type_calls (cs : list call) (sh : shape) : option shape :=
  match cs with [] => Some sh | c :: cs => sh ← type_call c sh; type_calls cs sh end.

Definition shape_of (w : world) : shape :=
  Shape ((fun x => bool_decide (is_Some x)) <$> heap w) ((fun s : list Z => Z.of_nat (length s)) <$> strings w).

(** Every cipher alive is well formed, every string is of bytes. *)
Definition cell_wf (x : option FSTCipher) : Prop := match x with Some c => cipher_wf c /\ word 32 (enc_type c) | None => True end.

Definition world_wf (w : world) : Prop := Forall cell_wf (heap w) /\ Forall (Forall (word 8)) (strings w).

(** A value that a call gives: a handle is that of a cipher just created. *)
Definition value_ok (c : call) (w : world) (v : value) : Prop :=
  match c, v with
  | Create, Handle a => a = length (heap w)
  | EncType _, Int n => word 32 n
  | Create, _ | EncType _, _ => False
  | _, v => v = Unit
  end.

(** ** Cells and strings *)

#[local] Opaque fst_cipher_clock fst_cipher_init fst_cipher_mangle_enc_type htonl.

Lemma deref_Some h a c : deref h a = Some c <-> h !! a = Some (Some c).
Proof. unfold deref. destruct (h !! a) as [[x|]|]; cbn; split; congruence. Qed.

Lemma deref_assign h a b c : is_Some (deref h a) -> deref (assign h a c) b = if decide (a = b) then Some c else deref h b.
Proof.
  intros [x Hx%deref_Some]. unfold deref, assign. destruct (decide (a = b)) as [<-|Hab].
  - by rewrite list_lookup_insert_eq by (by eapply lookup_lt_Some).
  - by rewrite list_lookup_insert_ne.
Qed.

Section Cells.
Context (h : list (option FSTCipher)) (Hh : Forall cell_wf h).

Lemma live_deref ss a : live (shape_of (World h ss)) a = true -> exists c, deref h a = Some c /\ cipher_wf c /\ word 32 (enc_type c).
Proof.
  unfold live. cbn [shape_of alive heap]. rewrite list_lookup_fmap. destruct (h !! a) as [[c|]|] eqn:E; [|done..]. intros _.
  exists c. split; [by apply deref_Some|]. by apply (Forall_lookup_1 _ _ _ _ Hh E).
Qed.

Lemma assign_wf a c : cipher_wf c -> word 32 (enc_type c) -> Forall cell_wf (assign h a c).
Proof. intros. by apply Forall_insert. Qed.

Lemma assign_shape a c c' ss : deref h a = Some c -> shape_of (World (assign h a c') ss) = shape_of (World h ss).
Proof.
  intros Ha%deref_Some. unfold shape_of, assign. cbn [heap strings]. f_equal. rewrite list_fmap_insert.
  apply list_insert_id. by rewrite list_lookup_fmap, Ha.
Qed.
End Cells.

Lemma within_string h ss s p n :
  Forall (Forall (word 8)) ss -> 0 <= n -> within (shape_of (World h ss)) s p n = true ->
  exists str (q : nat), ss !! s = Some str /\ Forall (word 8) str /\ p = Z.of_nat q /\ (q + Z.to_nat n <= length str)%nat.
Proof.
  intros Hss Hn. unfold within. cbn [shape_of lens strings]. rewrite list_lookup_fmap.
  destruct (ss !! s) as [str|] eqn:E; [|done]. cbn. intros [H1%Z.leb_le H2%Z.leb_le]%andb_true_iff.
  exists str, (Z.to_nat p). split_and!; [done|by apply (Forall_lookup_1 _ _ _ _ Hss E)|lia|lia].
Qed.

Lemma string_shape h ss s str str' :
  ss !! s = Some str -> length str' = length str -> shape_of (World h (<[s := str']> ss)) = shape_of (World h ss).
Proof.
  intros Hs Hl. unfold shape_of. cbn [heap strings]. f_equal. rewrite list_fmap_insert, Hl.
  apply list_insert_id. by rewrite list_lookup_fmap, Hs.
Qed.

(** ** The operations on well-formed arguments *)

Lemma apply_typed c str p (q : nat) len :
  cipher_wf c -> Forall (word 8) str -> s32 p = Z.of_nat q -> (q + Z.to_nat (Z.max 0 (s32 len)) <= length str)%nat ->
  exists c' str', ml_apply_cipher c str p len = Some (c', str') /\ cipher_wf c' /\ enc_type c' = enc_type c /\
    Forall (word 8) str' /\ length str' = length str.
Proof.
  intros Hc Hw Hp Hq. unfold ml_apply_cipher, fst_cipher_crypt. rewrite Hp.
  set (P (_ : Z) (st : FSTCipher * list Z) := cipher_wf (fst st) /\ enc_type (fst st) = enc_type c /\ arr 8 (length str) (snd st)).
  destruct (for_up_total P crypt_step (Z.to_nat (s32 len)) (Z.of_nat q) (c, str)) as ([c' str'] & E & Hc' & He & Hl & Hw').
  - intros j [x data] Hj (Hx & He & Ha). cbn [fst snd] in *. unfold crypt_step.
    destruct (arr_rd _ _ _ j Ha) as (v & -> & Hv); [lia|]. rewrite some_bind.
    destruct (clock_ok x Hx) as (k & x' & -> & Hk & Hx' & He' & _). rewrite some_bind.
    destruct (arr_wr _ _ _ j (Z.lxor v k) Ha) as (data' & -> & Ha'); [lia|by apply word_lxor|]. rewrite some_bind.
    eexists. split; [done|]. unfold P. cbn [fst snd]. by rewrite He'.
  - done.
  - by exists c', str'.
Qed.

Lemma init_typed c :
  cipher_wf c -> word 32 (enc_type c) -> exists b c', fst_cipher_init c (cseed c) (enc_type c) = Some (b, c') /\ cipher_wf c' /\
    word 32 (enc_type c').
Proof.
  intros Hc He. destruct (fst_cipher_init_eq c (cseed c) (enc_type c)) as (c' & H & Hc' & He' & _); [apply Hc|done|].
  exists (supported (enc_type c)), c'. by rewrite He'.
Qed.

Lemma packet_get_typed c str p (q : nat) :
  cipher_wf c -> s32 p = Z.of_nat q -> (q + 8 <= length str)%nat -> exists c', ml_cipher_packet_get str p c = Some c' /\ cipher_wf c' /\
    word 32 (enc_type c').
Proof.
  intros Hc Hp Hq. unfold ml_cipher_packet_get. rewrite Hp. cbv zeta. rewrite (sub_bytes_in _ q 4), some_bind by lia.
  replace (Z.of_nat q + 4) with (Z.of_nat (q + 4)) by lia. rewrite (sub_bytes_in _ (q + 4) 4), some_bind by lia. cbv zeta.
  set (a := htonl _). set (b := htonl _).
  destruct (mangle_ok a b (htonl_word _) (htonl_word _)) as (e & -> & He & _). rewrite some_bind.
  eexists. split; [done|]. split; [|done]. apply with_keys_wf; [done|apply htonl_word].
Qed.

Lemma put_words_typed str p (q : nat) a b :
  Forall (word 8) str -> p = Z.of_nat q -> (q + 8 <= length str)%nat -> exists str', put_words str p a b = Some str' /\
    Forall (word 8) str' /\ length str' = length str.
Proof.
  intros Hw -> Hq. rewrite put_words_ok by done. eexists. split; [done|]. unfold packet_bytes. split.
  - repeat apply Forall_app_2; [by apply Forall_take|apply le_bytes_word..|by apply Forall_drop].
  - rewrite !length_app, !le_bytes_length, length_take, length_drop. lia.
Qed.

Lemma xor2_typed h o i x y :
  Forall cell_wf h -> deref h o = Some x -> deref h i = Some y ->
  cipher_wf x -> word 32 (enc_type x) -> cipher_wf y -> word 32 (enc_type y) ->
  exists h', xor_ciphers2 h o i = Some h' /\ Forall cell_wf h' /\ forall ss, shape_of (World h' ss) = shape_of (World h ss).
Proof.
  intros Hh Ho Hi Hx Hex Hy Hey. unfold xor_ciphers2. rewrite Ho, Hi, !some_bind. cbv zeta.
  assert (Wx : word 32 (cseed x)) by apply Hx. assert (Wy : word 32 (cseed y)) by apply Hy.
  set (x1 := with_keys x _ _). assert (Hx1 : cipher_wf x1) by (apply with_keys_wf; [done|by apply word_lxor]).
  assert (Hh1 : Forall cell_wf (assign h o x1)) by by apply assign_wf.
  set (h1 := assign h o x1) in *.
  assert (Hy1 : exists y1, deref h1 i = Some y1 /\ cipher_wf y1 /\ word 32 (enc_type y1)).
  { unfold h1. rewrite deref_assign by done. destruct (decide (o = i)); [by exists x1|by exists y]. }
  destruct Hy1 as (y1 & Hi1 & Hy1 & Hey1). rewrite Hi1, some_bind.
  set (y2 := with_keys y1 _ _). assert (Hy2 : cipher_wf y2) by (apply with_keys_wf; [done|apply word_lxor; [lia|apply Hy1|done]]).
  assert (Hh2 : Forall cell_wf (assign h1 i y2)) by by apply assign_wf.
  assert (Ho2 : exists x2, deref (assign h1 i y2) o = Some x2 /\ cipher_wf x2 /\ word 32 (enc_type x2)).
  { rewrite deref_assign by done. destruct (decide (i = o)); [by exists y2|]. exists x1.
    unfold h1. rewrite deref_assign by done. by rewrite decide_True. }
  destruct Ho2 as (x2 & Ho2 & Hx2 & Hex2). rewrite Ho2, some_bind.
  destruct (init_typed x2 Hx2 Hex2) as (b & x3 & -> & Hx3 & Hex3). rewrite some_bind. eexists. split; [done|].
  split; [by apply assign_wf|]. intros ss. rewrite (assign_shape _ _ _ _ _ Ho2), (assign_shape _ _ _ _ _ Hi1).
  by apply (assign_shape _ _ x).
Qed.

(** ** Well-typed calls run *)

(** What a call of type [sh -> sh'] promises. *)
Definition call_ok (c : call) (w : world) (sh' : shape) : Prop :=
  exists v w', exec c w = Some (v, w') /\ value_ok c w v /\ world_wf w' /\ shape_of w' = sh'.

Lemma exec_create h ss : world_wf (World h ss) -> call_ok Create (World h ss) (Shape (alive (shape_of (World h ss)) ++ [true]) (lens (shape_of (World h ss)))).
Proof.
  intros [Hh Hs]. eexists _, _. split; [done|]. split; [done|]. split.
  - split; [|done]. apply Forall_app_2; [done|]. repeat constructor; [|unfold word; cbn; lia..]. apply create_wf.
  - unfold shape_of. cbn [heap strings alive lens]. by rewrite fmap_app.
Qed.

Lemma exec_free h ss a :
  world_wf (World h ss) -> live (shape_of (World h ss)) a = true ->
  call_ok (Free a) (World h ss) (Shape (<[a := false]> (alive (shape_of (World h ss)))) (lens (shape_of (World h ss)))).
Proof.
  intros [Hh Hs] (c & Hc & _)%live_deref; [|done]. unfold call_ok. cbn [exec heap strings]. unfold ml_cipher_free.
  rewrite Hc, !some_bind. eexists _, _. split; [done|]. split; [done|]. split.
  - split; [|done]. by apply Forall_insert.
  - unfold shape_of. cbn [heap strings alive lens]. by rewrite list_fmap_insert.
Qed.

(** A call that changes one cipher. *)
Lemma assign_ok h ss a c c' :
  world_wf (World h ss) -> deref h a = Some c -> cipher_wf c' -> word 32 (enc_type c') ->
  world_wf (World (assign h a c') ss) /\ shape_of (World (assign h a c') ss) = shape_of (World h ss).
Proof. intros [Hh Hs] Ha Hc He. split; [split; [by apply assign_wf|done]|by apply (assign_shape _ _ c)]. Qed.

(** A call that changes one string. *)
Lemma string_ok h ss s str str' :
  world_wf (World h ss) -> ss !! s = Some str -> Forall (word 8) str' -> length str' = length str ->
  world_wf (World h (<[s := str']> ss)) /\ shape_of (World h (<[s := str']> ss)) = shape_of (World h ss).
Proof. intros [Hh Hs] E Hw Hl. split; [split; [done|by apply Forall_insert]|by apply (string_shape _ _ _ str)]. Qed.

(** The arguments of a well-typed call. *)
Ltac arguments :=
  repeat match goal with
  | H : (if ?b then _ else None) = Some _ |- _ => destruct b eqn:?; [injection H as <-|discriminate H]
  | H : _ && _ = true |- _ => apply andb_true_iff in H as [? ?]
  | Hh : Forall cell_wf ?h, H : live (shape_of (World ?h _)) _ = true |- _ =>
      apply live_deref in H as (? & ? & ? & ?); [|exact Hh]
  | Hs : Forall (Forall (word 8)) ?ss, H : within (shape_of (World _ ?ss)) _ _ _ = true |- _ =>
      apply within_string in H as (? & ? & ? & ? & ? & ?); [|exact Hs|lia]
  | H : deref _ _ = Some _ |- context [deref _ _] => rewrite H, some_bind
  | H : _ !! _ = Some _ |- context [mbind _ (_ !! _)] => rewrite H, some_bind
  end.

Lemma exec_ok c w sh' : world_wf w -> type_call c (shape_of w) = Some sh' -> call_ok c w sh'.
Proof.
  destruct w as [h ss]. intros Hw. pose proof Hw as [Hh Hs]. cbn [heap strings] in Hh, Hs. intros H.
  destruct c; cbn [type_call] in H.
  - injection H as <-. by apply exec_create.
  - destruct (live _ _) eqn:E; [|done]. injection H as <-. by apply exec_free.
  - unfold call_ok. cbn [exec heap strings]. arguments.
    edestruct apply_typed as (c' & str' & -> & Hc' & He & Hw' & Hl); [done..|]. rewrite some_bind.
    eexists _, _. split; [done|]. split; [done|].
    edestruct (assign_ok h ss) as [Hw1 E1]; [done|done|exact Hc'|by rewrite He|].
    edestruct string_ok as [Hw2 E2]; [exact Hw1|done|exact Hw'|exact Hl|]. by rewrite E2, E1.
  - unfold call_ok. cbn [exec heap strings]. arguments. unfold ml_init_cipher.
    edestruct init_typed as (b & c' & -> & Hc' & He); [done..|]. cbn [fmap option_fmap option_map snd]. rewrite some_bind.
    eexists _, _. split; [done|]. split; [done|]. by eapply assign_ok.
  - unfold call_ok. cbn [exec heap strings]. arguments. eexists _, _. split; [done|]. split; [done|].
    eapply assign_ok; [done..| |apply u32_range]. apply with_keys_wf; [done|apply u32_range].
  - unfold call_ok. cbn [exec heap strings]. arguments.
    edestruct packet_get_typed as (c' & -> & Hc' & He); [done..|]. rewrite some_bind.
    eexists _, _. split; [done|]. split; [done|]. by eapply assign_ok.
  - unfold call_ok. cbn [exec heap strings]. arguments. unfold ml_cipher_packet_set.
    edestruct mangle_ok as (e & -> & _); [|done|]; [match goal with H : cipher_wf _ |- _ => apply H end|]. rewrite some_bind.
    edestruct put_words_typed as (str' & -> & Hw' & Hl); [done..|]. rewrite some_bind.
    eexists _, _. split; [done|]. split; [done|]. by eapply string_ok.
  - unfold call_ok. cbn [exec heap strings]. arguments. unfold ml_cipher_packet_set_xored.
    edestruct mangle_ok as (e & -> & _); [|done|]; [match goal with H : cipher_wf _ |- _ => apply H end|]. rewrite some_bind.
    edestruct put_words_typed as (str' & -> & Hw' & Hl); [done..|]. rewrite some_bind.
    eexists _, _. split; [done|]. split; [done|]. by eapply string_ok.
  - unfold call_ok. cbn [exec heap strings]. arguments. eexists _, _. split; [done|]. split; [done|].
    eapply assign_ok; [done..| |done]. apply with_keys_wf; [done|]. apply word_lxor; [lia|..];
      match goal with H : cipher_wf ?x |- word 32 (cseed ?x) => apply H end.
  - unfold call_ok. cbn [exec heap strings]. arguments.
    edestruct (xor2_typed h) as (h' & -> & Hh' & E); [done..|]. rewrite some_bind. eexists _, _. split; [done|].
    split; [done|]. split; [by split|apply E].
  - unfold call_ok. cbn [exec heap strings]. arguments. eexists _, _. split; [done|]. by split.
Qed.

(** C13: the type discipline of the stubs.  In a world of well-formed ciphers
    and strings of bytes, a sequence of calls that the checker of shapes accepts
    (live ciphers, the segments that the cut positions and lengths denote inside
    the strings, any seeds and types, the same cipher possibly twice) runs to its end; it leaves a world of the shape
    computed, again of well-formed ciphers and strings of bytes. *)
Theorem well_typed_calls_run cs w sh' :
  world_wf w -> type_calls cs (shape_of w) = Some sh' ->
  exists vs w', run cs w = Some (vs, w') /\ length vs = length cs /\ world_wf w' /\ shape_of w' = sh'.
Proof.
  revert w. induction cs as [|c cs IH]; intros w Hw H; cbn [type_calls run] in H |- *.
  - injection H as <-. by exists [], w.
  - bind_inv. edestruct exec_ok as (v & w1 & -> & _ & Hw1 & E1); [exact Hw|done|]. rewrite some_bind.
    destruct (IH w1 Hw1) as (vs & w2 & -> & Hl & Hw2 & E2); [by rewrite E1|]. rewrite some_bind.
    exists (v :: vs), w2. cbn [length]. by rewrite Hl.
Qed.

(** A client and its string: create, set the keys, write the packet, start, and
    encrypt; the last cipher is exchanged with itself and freed. *)
Lemma well_typed_calls_run_witness :
  let w := World [] [replicate 12 0] in
  let cs := [Create; SetKeys 0 0x12345678 0x29; PacketSet 0 0 0; Init 0; Apply 0 0 8 4; Create; PacketGet 0 0 1;
    Xor 1 0; Xor2 1 1; EncType 1; Free 1] in
  exists vs w', run cs w = Some (vs, w') /\ length vs = length cs /\ world_wf w' /\
    shape_of w' = Shape [true; false] [12].
Proof.
  intros w cs. apply (well_typed_calls_run cs w); [|reflexivity].
  split; [constructor|]. repeat constructor; unfold word; lia.
Defined.

(** The two ciphers of [ml_xor_ciphers2] are usually different. *)
Lemma xor_ciphers2_distinct h o i x y :
  o <> i -> deref h o = Some x -> deref h i = Some y ->
  xor_ciphers2 h o i = '(x', y') ← ml_xor_ciphers2 x y; Some (assign (assign h i y') o x').
Proof.
  intros Hoi Ho Hi. unfold xor_ciphers2, ml_xor_ciphers2. rewrite Ho, Hi, !some_bind. cbv zeta.
  rewrite deref_assign, decide_False, Hi, some_bind by done. rewrite deref_assign, decide_False by done || (rewrite deref_assign by done; by case_decide).
  rewrite deref_assign, decide_True, some_bind by done.
  destruct (fst_cipher_init _ _ _) as [[b x']|]; [|done]. rewrite !some_bind. f_equal. unfold assign.
  rewrite (list_insert_insert_ne _ i o) by done. by rewrite list_insert_insert_eq.
Qed.

End FstStubs.
