(* ===== verification/Huffman.v ===== *)
(** * The Huffman tree of [che3_c.c]

    [src/src/networks/direct_connect/che3_c.c]: the priority list [pre_tree],
    the construction of the tree out of the byte counts, and the table of codes
    read from it.  The tree keeps the counted bytes, it is no deeper than the
    Fibonacci numbers allow, and its codes are no longer in total than the
    eight bits per byte of the input. *)

From Stdlib Require Import ZArith Lia Bool.
From stdpp Require Import base option list numbers sorting.
From S2P Require Import Prelude.

Local Open Scope Z_scope.

Module Huffman.

(** [HUFNODE]: [left] and [right] are both null, or neither is. *)
Inductive HUFNODE :=
  | Leaf (o val : Z)
  | Node (o : Z) (left right : HUFNODE).

Definition occur (n : HUFNODE) : Z := match n with Leaf o _ => o | Node o _ _ => o end.
Definition is_leaf (n : HUFNODE) : bool := match n with Leaf _ _ => true | Node _ _ _ => false end.

(** The condition under which the insertion loop moves [p] up by one place. *)
Definition moves_up (p nw : HUFNODE) : bool :=
  (occur p <? occur nw) || ((occur p =? occur nw) && is_leaf p && negb (is_leaf nw)).

(** [pre_tree] is written from its last element, index [pre_tree_len - 1], to
    its first: the loop of [insert_node] walks the list from its head, and
    [remove_node] takes the head. *)
Fixpoint shift_insert (nw : HUFNODE) (pre_tree : list HUFNODE) : list HUFNODE :=
  match pre_tree with
  | [] => [nw]
  | p :: rest => if moves_up p nw then p :: shift_insert nw rest else nw :: pre_tree
  end.

(** The array has 256 entries. *)
Definition insert_node (nw : HUFNODE) (pre_tree : list HUFNODE) : option (list HUFNODE) :=
  if Z.of_nat (length pre_tree) <? 256 then Some (shift_insert nw pre_tree) else None.

Definition remove_node (pre_tree : list HUFNODE) : option (HUFNODE * list HUFNODE) :=
  match pre_tree with [] => None | n :: rest => Some (n, rest) end.

(** Stage 1: a leaf for every byte that occurs, and their number [nb_val]. *)
Definition leaf_step (occurs : list Z) (i : Z) (st : list HUFNODE * Z) : option (list HUFNODE * Z) :=
  let '(pre_tree, nb_val) := st in
  o ← rd occurs i;
  if o =? 0 then Some st
  else pre_tree ← insert_node (Leaf o i) pre_tree; Some (pre_tree, nb_val + 1).

(** [while (pre_tree_len > 1)]: the two last nodes become one. *)
Fixpoint merge_loop (fuel : nat) (pre_tree : list HUFNODE) : option (list HUFNODE) :=
  if 1 <? Z.of_nat (length pre_tree) then
    match fuel with
    | O => None
    | S fuel =>
        '(l, pre_tree) ← remove_node pre_tree;
        '(r, pre_tree) ← remove_node pre_tree;
        pre_tree ← insert_node (Node (u64 (occur l + occur r)) l r) pre_tree;
        merge_loop fuel pre_tree
    end
  else Some pre_tree.

(** The tree of the counts: [pre_tree[0]] at the end. *)
Definition build_tree (occurs : list Z) : option (HUFNODE * Z) :=
  '(pre_tree, nb_val) ← for_up 256 0 (leaf_step occurs) ([], 0);
  pre_tree ← merge_loop (length pre_tree) pre_tree;
  '(root_huf, _) ← remove_node pre_tree;
  Some (root_huf, nb_val).

Record HUFENCODE := Encode { bits_len : Z; bits : Z }.

Fixpoint use_hufnode (tbl_enc : list HUFENCODE) (node : HUFNODE) (bits_len bits : Z) : list HUFENCODE :=
  match node with
  | Node _ lson rson =>
      let tbl_enc := use_hufnode tbl_enc lson (u32 (bits_len + 1)) (Z.lor (u64 (Z.shiftl bits 1)) 0) in
      use_hufnode tbl_enc rson (u32 (bits_len + 1)) (Z.lor (u64 (Z.shiftl bits 1)) 1)
  | Leaf _ val => <[Z.to_nat (Z.land val 255) := Encode bits_len bits]> tbl_enc
  end.

(** ** What a tree holds *)

(** The leaves, each with the path to it, [false] for left: its code. *)
Fixpoint paths (t : HUFNODE) : list (Z * Z * list bool) :=
  match t with
  | Leaf o v => [(o, v, [])]
  | Node _ l r => (prod_map id (cons false) <$> paths l) ++ (prod_map id (cons true) <$> paths r)
  end.

Definition leaves (t : HUFNODE) : list (Z * Z) := (paths t).*1.

Fixpoint height (t : HUFNODE) : nat :=
  match t with Leaf _ _ => O | Node _ l r => S (max (height l) (height r)) end.

(** A node counts the bytes below it. *)
Fixpoint counts (t : HUFNODE) : Prop :=
  match t with
  | Leaf o v => 0 < o /\ word 8 v
  | Node o l r => o = occur l + occur r /\ counts l /\ counts r
  end.

Definition weight (l : list HUFNODE) : Z := foldr (fun t w => occur t + w) 0 l.

Definition lighter (a b : HUFNODE) : Prop := occur a <= occur b.

Lemma counts_pos t : counts t -> 0 < occur t.
Proof.
  induction t as [o v|o l IHl r IHr]; simpl; [tauto|]. intros (-> & Hl & Hr).
  specialize (IHl Hl). specialize (IHr Hr). lia.
Qed.

Lemma leaves_node o l r : leaves (Node o l r) = leaves l ++ leaves r.
Proof.
  unfold leaves. cbn [paths]. rewrite fmap_app, <- !list_fmap_compose.
  f_equal; apply list_fmap_ext; by intros ? [].
Qed.

Lemma weight_perm l l' : l ≡ₚ l' -> weight l = weight l'.
Proof. induction 1; simpl; lia. Qed.

Lemma weight_nonneg l : Forall counts l -> 0 <= weight l.
Proof. induction 1 as [|t l Ht _ IH]; simpl; [lia|]. apply counts_pos in Ht. lia. Qed.

Lemma shift_insert_perm nw l : shift_insert nw l ≡ₚ nw :: l.
Proof.
  induction l as [|p l IH]; simpl; [done|]. destruct (moves_up p nw); [|done].
  rewrite IH. apply Permutation_swap.
Qed.

Lemma moves_up_lighter p nw : if moves_up p nw then lighter p nw else lighter nw p.
Proof. unfold moves_up, lighter. bdestr; destruct (is_leaf p), (is_leaf nw); simpl; lia. Qed.

Lemma shift_insert_sorted nw l :
  StronglySorted lighter l -> StronglySorted lighter (shift_insert nw l).
Proof.
  induction 1 as [|p l Hs IH Hp]; simpl; [repeat constructor|].
  pose proof (moves_up_lighter p nw) as Hm. destruct (moves_up p nw).
  - constructor; [done|]. rewrite shift_insert_perm. by constructor.
  - constructor; [by constructor|]. constructor; [done|].
    eapply Forall_impl; [exact Hp|]. unfold lighter in *. simpl. intros x Hx. lia.
Qed.

(** ** The merge without its guards *)

Definition merge_step (l : list HUFNODE) : list HUFNODE :=
  match l with
  | a :: b :: rest => shift_insert (Node (occur a + occur b) a b) rest
  | _ => l
  end.

Fixpoint merge_n (n : nat) (l : list HUFNODE) : list HUFNODE :=
  match n with O => l | S n => merge_n n (merge_step l) end.

Lemma merge_n_add n m l : merge_n (n + m) l = merge_n m (merge_n n l).
Proof. revert l. induction n as [|n IH]; intros l; simpl; [done|]. apply IH. Qed.

(** What every list on the way satisfies. *)
Definition forest (l : list HUFNODE) : Prop := Forall counts l /\ StronglySorted lighter l.

Lemma forest_insert nw l : counts nw -> forest l -> forest (shift_insert nw l).
Proof.
  intros Hn [Hc Hs]. split; [|by apply shift_insert_sorted].
  rewrite shift_insert_perm. by constructor.
Qed.

Lemma forest_tail a b l : forest (a :: b :: l) -> counts a /\ counts b /\ lighter a b /\ forest l.
Proof.
  intros [Hc Hs]. inversion Hc as [|? ? Ha Hc']; subst. inversion Hc' as [|? ? Hb Hc'']; subst.
  inversion Hs as [|? ? Hs' Hl]; subst. inversion Hs' as [|? ? Hs'' _]; subst.
  inversion Hl; subst. by repeat split.
Qed.

Lemma merge_step_forest l : forest l -> forest (merge_step l).
Proof.
  destruct l as [|a [|b l]]; simpl; [done..|]. intros (Ha & Hb & _ & Hl)%forest_tail.
  by apply forest_insert.
Qed.

Lemma merge_step_length l : (2 <= length l)%nat -> S (length (merge_step l)) = length l.
Proof. destruct l as [|a [|b l]]; simpl; try lia. intros _. rewrite shift_insert_perm. done. Qed.

Lemma merge_step_weight l : weight (merge_step l) = weight l.
Proof.
  destruct l as [|a [|b l]]; simpl; [done..|]. rewrite (weight_perm _ _ (shift_insert_perm _ _)). simpl. lia.
Qed.

Lemma merge_step_leaves l : l ≫= leaves ≡ₚ merge_step l ≫= leaves.
Proof.
  destruct l as [|a [|b l]]; simpl; [done..|]. rewrite (bind_Permutation leaves _ _ (shift_insert_perm _ _)).
  cbn [mbind list_bind]. rewrite leaves_node. by rewrite app_assoc.
Qed.

(** ** The loop ends with one tree *)

Lemma merge_loop_eq n l :
  length l = S n -> (length l <= 256)%nat -> forest l -> weight l < 2 ^ 32 ->
  merge_loop (S n) l = Some (merge_n n l).
Proof.
  intros Hl Hc Hf Hw. enough (H : forall k, (n <= k)%nat -> merge_loop k l = Some (merge_n n l)) by (apply H; lia).
  revert l Hl Hc Hf Hw. induction n as [|n IH]; intros l Hl Hc Hf Hw k Hk.
  - destruct k; simpl; rewrite Hl; done.
  - destruct l as [|a [|b l]]; simpl in Hl; [lia..|].
    pose proof (forest_tail _ _ _ Hf) as (Ha & Hb & _ & Hfl).
    pose proof (counts_pos _ Ha). pose proof (counts_pos _ Hb). pose proof (weight_nonneg l (proj1 Hfl)).
    simpl in Hw. destruct k as [|k]; [lia|].
    assert (E : u64 (occur a + occur b) = occur a + occur b) by (apply u64_id; unfold word; lia).
    cbn [merge_loop merge_n]. replace (1 <? Z.of_nat (length (a :: b :: l))) with true by (symmetry; apply Z.ltb_lt; simpl; lia).
    cbn [remove_node mbind option_bind]. unfold insert_node. rewrite E.
    replace (Z.of_nat (length l) <? 256) with true by (symmetry; apply Z.ltb_lt; simpl in Hc; lia). cbn [mbind option_bind].
    apply IH; [| | |simpl; rewrite (weight_perm _ _ (shift_insert_perm _ _)); simpl; lia|lia].
    + simpl. rewrite shift_insert_perm. simpl. lia.
    + simpl. rewrite shift_insert_perm. simpl in *. lia.
    + apply (merge_step_forest (a :: b :: l)), Hf.
Qed.

Lemma merge_n_keeps n l :
  forest l -> forest (merge_n n l) /\ weight (merge_n n l) = weight l /\ l ≫= leaves ≡ₚ merge_n n l ≫= leaves.
Proof.
  revert l. induction n as [|n IH]; intros l Hl; simpl; [done|].
  destruct (IH _ (merge_step_forest l Hl)) as (Hf & Hw & Hp). split; [done|]. split.
  - by rewrite Hw, merge_step_weight.
  - by rewrite merge_step_leaves.
Qed.

Lemma merge_n_length n l : (n < length l)%nat -> (length (merge_n n l) + n)%nat = length l.
Proof.
  revert l. induction n as [|n IH]; intros l Hl; simpl; [lia|].
  pose proof (merge_step_length l ltac:(lia)). specialize (IH (merge_step l) ltac:(lia)). lia.
Qed.

(** ** The depth: a tree of height [h] counts at least [fib (h + 2)] bytes *)

Fixpoint fib (n : nat) : Z :=
  match n with
  | O => 0
  | S m => match m with O => 1 | S k => fib m + fib k end
  end.

Lemma fib_SS n : fib (S (S n)) = fib (S n) + fib n.
Proof. done. Qed.

Lemma fib_nonneg n : 0 <= fib n.
Proof.
  enough (0 <= fib n /\ 0 <= fib (S n)) by tauto. induction n as [|n IH]; [simpl; lia|].
  rewrite fib_SS. lia.
Qed.

Lemma fib_mono n m : (n <= m)%nat -> fib n <= fib m.
Proof.
  induction 1 as [|m _ IH]; [lia|]. destruct m as [|m]; [simpl in *; lia|].
  rewrite fib_SS. pose proof (fib_nonneg m). lia.
Qed.

Fixpoint heavy (t : HUFNODE) : Prop :=
  match t with
  | Leaf o _ => 1 <= o
  | Node o l r => fib (height t + 2) <= o /\ heavy l /\ heavy r
  end.

Lemma heavy_fib t : heavy t -> fib (height t + 2) <= occur t.
Proof. destruct t; simpl; [lia|tauto]. Qed.

(** The sons of a node of the list weigh no more than [u]. *)
Definition sons_lighter (u t : HUFNODE) : Prop :=
  match t with Leaf _ _ => True | Node _ l r => lighter l u /\ lighter r u end.

Lemma heavy_below t u :
  heavy t -> 1 <= occur u -> sons_lighter u t -> fib (height t + 1) <= occur u.
Proof.
  destruct t as [o v|o l r]; [simpl; lia|]. intros (_ & Hl & Hr) Hu [Hlu Hru].
  apply heavy_fib in Hl, Hr. unfold lighter in *. cbn [height].
  destruct (Nat.max_spec (height l) (height r)) as [[_ ->]|[_ ->]].
  - replace (S (height r) + 1)%nat with (height r + 2)%nat by lia. lia.
  - replace (S (height l) + 1)%nat with (height l + 2)%nat by lia. lia.
Qed.

Lemma heavy_node a b :
  heavy a -> heavy b -> 1 <= occur a -> 1 <= occur b -> sons_lighter b a -> sons_lighter a b ->
  heavy (Node (occur a + occur b) a b).
Proof.
  intros Ha Hb Pa Pb Hba Hab. split; [|done]. cbn [height].
  pose proof (heavy_below a b Ha Pb Hba). pose proof (heavy_below b a Hb Pa Hab).
  apply heavy_fib in Ha, Hb.
  destruct (Nat.max_spec (height a) (height b)) as [[_ ->]|[_ ->]].
  - replace (S (height b) + 2)%nat with (S (S (height b + 1))) by lia. rewrite fib_SS.
    replace (S (height b + 1)) with (height b + 2)%nat by lia. lia.
  - replace (S (height a) + 2)%nat with (S (S (height a + 1))) by lia. rewrite fib_SS.
    replace (S (height a + 1)) with (height a + 2)%nat by lia. lia.
Qed.

(** Membership in a list written out. *)
Ltac elem := rewrite ?elem_of_cons; tauto.

Definition balanced (l : list HUFNODE) : Prop :=
  Forall heavy l /\ forall t u, t ∈ l -> u ∈ l -> sons_lighter u t.

Lemma balanced_perm l l' : l ≡ₚ l' -> balanced l -> balanced l'.
Proof.
  intros Hp [H1 H2]. split; [by rewrite <- Hp|]. intros t u. rewrite <- Hp. apply H2.
Qed.

Lemma merge_step_balanced l : forest l -> balanced l -> balanced (merge_step l).
Proof.
  destruct l as [|a [|b l]]; [done..|]. intros Hf [Hh Hs]. cbn [merge_step].
  eapply balanced_perm; [symmetry; apply shift_insert_perm|].
  pose proof Hf as [Hc Hso]. apply forest_tail in Hf as (Ca & Cb & Hab & Hfl).
  apply counts_pos in Ca, Cb.
  inversion Hso as [|? ? Hso' Hal]; subst. inversion Hso' as [|? ? _ Hbl]; subst.
  inversion Hh as [|? ? Ha Hh']; subst. inversion Hh' as [|? ? Hb Hl]; subst.
  assert (Hn : heavy (Node (occur a + occur b) a b)) by (apply heavy_node; try apply Hs; elem || lia || done).
  split; [by constructor|].
  intros t u. rewrite !elem_of_cons. intros [->|Ht] [->|Hu].
  - split; unfold lighter; simpl; lia.
  - rewrite Forall_forall in Hal, Hbl. split; [apply Hal; elem|apply Hbl; done].
  - assert (H : sons_lighter a t) by (apply Hs; elem).
    destruct t; [done|]. unfold sons_lighter, lighter in *. simpl in *. lia.
  - apply Hs; elem.
Qed.

Lemma merge_n_balanced n l : forest l -> balanced l -> balanced (merge_n n l).
Proof.
  revert l. induction n as [|n IH]; intros l Hf Hb; simpl; [done|].
  apply IH; [by apply merge_step_forest|by apply merge_step_balanced].
Qed.

(** ** The total length of the codes

    [cost t] adds the counts of the nodes: every byte below a node pays one bit
    for it.  Half of the merges of a list cost no more than its weight, because
    the two lightest trees are, after each merge, no heavier than the next two
    of the list one started from. *)

Fixpoint cost (t : HUFNODE) : Z :=
  match t with Leaf _ _ => 0 | Node o l r => o + cost l + cost r end.

Definition costs (l : list HUFNODE) : Z := foldr (fun t w => cost t + w) 0 l.

Lemma costs_perm l l' : l ≡ₚ l' -> costs l = costs l'.
Proof. induction 1; simpl; lia. Qed.

(** The first trees of [l] are no heavier than the trees of [w]. *)
Fixpoint below (l w : list HUFNODE) {struct w} : Prop :=
  match w, l with
  | [], _ => True
  | y :: w, a :: l => lighter a y /\ below l w
  | _ :: _, [] => False
  end.

Lemma below_refl l : below l l.
Proof. induction l; simpl; [done|]. unfold lighter. split; [lia|done]. Qed.

Lemma below_cons p l w : Forall (lighter p) l -> StronglySorted lighter l -> below l w -> below (p :: l) w.
Proof.
  revert p w. induction l as [|q l IH]; intros p [|y w]; simpl; try tauto.
  intros Hp Hs [Hq Hw]. inversion Hp; subst. inversion Hs; subst. split.
  - unfold lighter in *. lia.
  - by apply IH.
Qed.

Lemma below_insert nw l w : StronglySorted lighter l -> below l w -> below (shift_insert nw l) w.
Proof.
  intros Hs. revert w. induction Hs as [|p l Hs IH Hp]; intros [|y w] Hb; [done|destruct Hb|done|].
  destruct Hb as [Hy Hw]. cbn [shift_insert]. pose proof (moves_up_lighter p nw) as Hm. destruct (moves_up p nw); simpl.
  - split; [done|]. by apply IH.
  - split; [unfold lighter in *; lia|]. by apply below_cons.
Qed.

Lemma pairs_ind (P : list HUFNODE -> Prop) :
  P [] -> (forall a, P [a]) -> (forall a b l, P l -> P (a :: b :: l)) -> forall l, P l.
Proof.
  intros H0 H1 H2 l. enough (P l /\ forall a, P (a :: l)) by tauto.
  induction l as [|b l [IH1 IH2]]; [by split|]. split; [apply IH2|]. intros a. by apply H2.
Qed.

Lemma half_merges l w :
  forest l -> Forall counts w -> below l w -> costs (merge_n (length w / 2) l) <= costs l + weight w.
Proof.
  revert l. induction w as [|y|x y w IH] using pairs_ind; intros l Hf Hc Hb.
  - simpl. lia.
  - simpl. inversion Hc; subst. pose proof (counts_pos y ltac:(done)). lia.
  - inversion Hc as [|? ? Hx Hc']; subst. inversion Hc' as [|? ? Hy Hc'']; subst.
    destruct l as [|a [|b l]]; simpl in Hb; [tauto..|]. destruct Hb as (Ha & Hb & Hl).
    change (length (x :: y :: w)) with (1 * 2 + length w)%nat. rewrite Nat.div_add_l by lia.
    cbn [Nat.add merge_n merge_step]. pose proof (forest_tail _ _ _ Hf) as (Ca & Cb & _ & Hfl).
    etransitivity; [apply IH; [|done|]|].
    + apply (merge_step_forest (a :: b :: l)), Hf.
    + apply below_insert; [apply Hfl|done].
    + rewrite (costs_perm _ _ (shift_insert_perm _ _)). unfold lighter in *. simpl. lia.
Qed.

Lemma merge_cost p l :
  forest l -> (1 <= length l <= 2 ^ p)%nat ->
  costs (merge_n (length l - 1) l) <= costs l + Z.of_nat p * weight l.
Proof.
  revert l. induction p as [|p IH]; intros l Hf Hl.
  - replace (length l - 1)%nat with O by (simpl in Hl; lia). simpl. lia.
  - pose proof (half_merges l l Hf (proj1 Hf) (below_refl l)) as Hh.
    pose proof (merge_n_keeps (length l / 2) l Hf) as (Hf' & Hw & _).
    pose proof (Nat.div_mod (length l) 2 ltac:(lia)). pose proof (Nat.mod_upper_bound (length l) 2 ltac:(lia)).
    pose proof (merge_n_length (length l / 2) l ltac:(lia)) as Hlen.
    assert (Hp : (2 ^ S p = 2 * 2 ^ p)%nat) by (simpl; lia). rewrite Hp in Hl.
    specialize (IH _ Hf' ltac:(lia)).
    replace (length l - 1)%nat with (length l / 2 + (length (merge_n (length l / 2) l) - 1))%nat by lia.
    rewrite merge_n_add, Hw in *. nia.
Qed.

(** ** The codes *)

Lemma elem_of_paths_node o l r p :
  p ∈ paths (Node o l r) <->
  exists b q, q ∈ paths (if b : bool then r else l) /\ p = prod_map id (cons b) q.
Proof.
  cbn [paths]. rewrite elem_of_app, !list_elem_of_fmap. split.
  - intros [(q & -> & H)|(q & -> & H)]; [exists false, q|exists true, q]; done.
  - intros ([] & q & H & ->); [right|left]; by exists q.
Qed.

Lemma paths_height t s w : (s, w) ∈ paths t -> (length w <= height t)%nat.
Proof.
  revert s w. induction t as [o v|o l IHl r IHr]; intros s w.
  - simpl. rewrite list_elem_of_singleton. intros [= _ ->]. simpl. lia.
  - intros ([] & [s' u] & H & [= -> ->])%elem_of_paths_node; simpl; [apply IHr in H|apply IHl in H]; lia.
Qed.

(** No code begins another one. *)
Lemma paths_prefix t s w s' w' :
  (s, w) ∈ paths t -> (s', w') ∈ paths t -> w `prefix_of` w' -> (s, w) = (s', w').
Proof.
  revert s w s' w'. induction t as [o v|o l IHl r IHr]; intros s w s' w'.
  - simpl. rewrite !list_elem_of_singleton. by intros [= -> ->] [= -> ->].
  - intros (b & [q u] & H & [= -> ->])%elem_of_paths_node (b' & [q' u'] & H' & [= -> ->])%elem_of_paths_node Hp.
    pose proof (prefix_cons_inv_1 _ _ _ _ Hp) as ->. apply prefix_cons_inv_2 in Hp.
    destruct b'; [pose proof (IHr _ _ _ _ H H' Hp)|pose proof (IHl _ _ _ _ H H' Hp)]; by simplify_eq.
Qed.

Definition paid (l : list (Z * Z * list bool)) : Z :=
  foldr (fun '(o, _, w) c => o * Z.of_nat (length w) + c) 0 l.

Definition paid_once (l : list (Z * Z * list bool)) : Z := foldr (fun '(o, _, _) c => o + c) 0 l.

Lemma paid_app l l' : paid (l ++ l') = paid l + paid l'.
Proof. induction l as [|[[o v] w] l IH]; simpl; lia. Qed.

Lemma paid_once_app l l' : paid_once (l ++ l') = paid_once l + paid_once l'.
Proof. induction l as [|[[o v] w] l IH]; simpl; lia. Qed.

Lemma paid_deeper b l :
  paid (prod_map id (cons b) <$> l) = paid l + paid_once l /\
  paid_once (prod_map id (cons b) <$> l) = paid_once l.
Proof.
  induction l as [|[[o v] w] l [IH1 IH2]]; [done|]. rewrite fmap_cons. unfold paid, paid_once in *.
  cbn [foldr prod_map fst snd length id]. rewrite IH1, IH2. lia.
Qed.

Lemma paid_paths t : counts t -> paid (paths t) = cost t /\ paid_once (paths t) = occur t.
Proof.
  induction t as [o v|o l IHl r IHr]; [simpl; lia|]. intros (-> & Hl & Hr). cbn [paths cost occur].
  rewrite paid_app, paid_once_app. destruct (paid_deeper false (paths l)), (paid_deeper true (paths r)).
  destruct (IHl Hl), (IHr Hr). lia.
Qed.

(** ** The table *)

(** The number whose binary digits are [bits] followed by [w]. *)
Definition code_number (bits : Z) (w : list bool) : Z := foldl (fun z b => 2 * z + Z.b2z b) bits w.

Lemma shift_in bits b n :
  word (Z.of_nat n) bits -> (n < 64)%nat ->
  Z.lor (u64 (Z.shiftl bits 1)) (Z.b2z b) = 2 * bits + Z.b2z b /\ word (Z.of_nat (S n)) (2 * bits + Z.b2z b).
Proof.
  intros Hb Hn.
  assert (Hw : word (Z.of_nat (S n)) (2 * bits + Z.b2z b)).
  { unfold word in *. rewrite Nat2Z.inj_succ, Z.pow_succ_r by lia. destruct b; simpl; lia. }
  split; [|done]. rewrite u64_id.
  - rewrite Z.lor_comm, lor_shiftl_add; [lia|lia|destruct b; unfold word; simpl; lia].
  - rewrite Z.shiftl_mul_pow2 by lia. unfold word in *.
    assert (2 ^ Z.of_nat (S n) <= 2 ^ 64) by (apply Z.pow_le_mono_r; lia). destruct b; simpl in *; lia.
Qed.

Lemma leaf_word t o v w : counts t -> (o, v, w) ∈ paths t -> word 8 v.
Proof.
  revert o v w. induction t as [o v|o l IHl r IHr]; intros o' v' w.
  - intros [_ Hv]. simpl. rewrite list_elem_of_singleton. by intros [= -> -> ->].
  - intros (_ & Hl & Hr) (b & [[o2 v2] w2] & H & [= -> -> ->])%elem_of_paths_node.
    destruct b; [by eapply IHr|by eapply IHl].
Qed.

Lemma use_hufnode_ok t tbl len bits :
  counts t -> NoDup (leaves t).*2 -> length tbl = 256%nat ->
  (len + height t <= 64)%nat -> word (Z.of_nat len) bits ->
  let tbl' := use_hufnode tbl t (Z.of_nat len) bits in
  length tbl' = 256%nat /\
  (forall o v w, (o, v, w) ∈ paths t -> tbl' !! Z.to_nat v = Some (Encode (Z.of_nat (len + length w)) (code_number bits w))) /\
  (forall i : nat, Z.of_nat i ∉ (leaves t).*2 -> tbl' !! i = tbl !! i).
Proof.
  revert tbl len bits. induction t as [o v|o l IHl r IHr]; intros tbl len bits Hc Hnd Ht Hlen Hb.
  - destruct Hc as [_ Hv]. cbn [use_hufnode]. change 255 with (Z.ones 8).
    rewrite Z.land_ones, Z.mod_small by (unfold word in Hv; lia).
    rewrite length_insert. split; [done|]. split.
    + intros o' v' w. simpl. rewrite list_elem_of_singleton. intros [= -> -> ->].
      rewrite list_lookup_insert_eq by (unfold word in Hv; lia). simpl. by rewrite Nat.add_0_r.
    + intros i Hi. apply list_lookup_insert_ne. simpl in Hi. rewrite list_elem_of_singleton in Hi.
      unfold word in Hv. lia.
  - destruct Hc as (_ & Hl & Hr). rewrite leaves_node, fmap_app in Hnd.
    apply NoDup_app in Hnd as (Nl & Hd & Nr). cbn [height] in Hlen. cbn [use_hufnode].
    pose proof (shift_in bits false len Hb ltac:(lia)) as [E0 W0].
    pose proof (shift_in bits true len Hb ltac:(lia)) as [E1 W1]. cbn [Z.b2z] in *.
    rewrite E0, E1. replace (u32 (Z.of_nat len + 1)) with (Z.of_nat (S len)).
    2:{ rewrite u32_id; [lia|]. unfold word. lia. }
    destruct (IHl tbl (S len) _ Hl Nl Ht ltac:(lia) W0) as (L1 & P1 & O1).
    destruct (IHr _ (S len) _ Hr Nr L1 ltac:(lia) W1) as (L2 & P2 & O2).
    split; [done|]. split.
    + intros o' v w (b & [[o2 v2] w2] & H & [= -> -> ->])%elem_of_paths_node. destruct b.
      * rewrite (P2 _ _ _ H). cbn [length]. by rewrite Nat.add_succ_comm.
      * rewrite O2.
        -- rewrite (P1 _ _ _ H). cbn [length]. by rewrite Nat.add_succ_comm.
        -- rewrite Z2Nat.id by apply (leaf_word _ _ _ _ Hl H). apply Hd.
           apply list_elem_of_fmap. exists (o2, v2). split; [done|].
           apply list_elem_of_fmap. by exists (o2, v2, w2).
    + intros i Hi. rewrite leaves_node, fmap_app, elem_of_app in Hi. rewrite O2, O1; tauto.
Qed.

(** ** The tree of a table of counts *)

Definition count (occurs : list Z) (i : Z) : Z := nth (Z.to_nat i) occurs 0.

(** The bytes that occur, in order. *)
Definition used (occurs : list Z) (n : nat) : list Z :=
  filter (fun i => count occurs i <> 0) (seqZ 0 (Z.of_nat n)).

Lemma used_S occurs n :
  used occurs (S n) = used occurs n ++ (if decide (count occurs (Z.of_nat n) <> 0) then [Z.of_nat n] else []).
Proof.
  unfold used. by rewrite seqZ_S, filter_app, Z.add_0_l.
Qed.

Lemma elem_of_used occurs n i : i ∈ used occurs n <-> 0 <= i < Z.of_nat n /\ count occurs i <> 0.
Proof. unfold used. rewrite list_elem_of_filter, elem_of_seqZ. intuition lia. Qed.

Lemma used_NoDup occurs n : NoDup (used occurs n).
Proof. apply NoDup_filter, NoDup_seqZ. Qed.

Lemma used_length occurs n : (length (used occurs n) <= n)%nat.
Proof. unfold used. etransitivity; [apply length_filter|]. rewrite length_seqZ. lia. Qed.

Definition leaf_of (occurs : list Z) (i : Z) : HUFNODE := Leaf (count occurs i) i.

(** Counts of bytes: 256 of them, [total] in all. *)
Definition counting (occurs : list Z) : Prop := length occurs = 256%nat /\ Forall (Z.le 0) occurs.

Definition total (occurs : list Z) : Z := foldr (fun i w => count occurs i + w) 0 (used occurs 256).

Lemma rd_count occurs i : length occurs = 256%nat -> 0 <= i < 256 -> rd occurs i = Some (count occurs i).
Proof.
  intros Hl Hi. apply rd_Some. split; [lia|]. unfold count.
  destruct (nth_lookup_or_length occurs (Z.to_nat i) 0) as [H|H]; [done|lia].
Qed.

Lemma count_nonneg occurs i : Forall (Z.le 0) occurs -> 0 <= count occurs i.
Proof.
  intros H. unfold count. rewrite nth_lookup.
  destruct (occurs !! Z.to_nat i) as [v|] eqn:E; [|done]. by eapply (Forall_lookup_1 _ _ _ _ H) in E.
Qed.

Lemma leaf_loop occurs :
  counting occurs ->
  exists pre, for_up 256 0 (leaf_step occurs) ([], 0) = Some (pre, Z.of_nat (length pre)) /\
    forest pre /\ pre ≡ₚ leaf_of occurs <$> used occurs 256.
Proof.
  intros [Hl Hp].
  destruct (for_up_total (fun k '(pre, nb) => nb = Z.of_nat (length pre) /\ forest pre /\
      pre ≡ₚ leaf_of occurs <$> used occurs (Z.to_nat k)) (leaf_step occurs) 256 0 ([], 0))
    as ([pre nb] & Hs & -> & Hf & Hpre).
  - intros j [pre nb] Hj (-> & Hf & Hpre). cbn [leaf_step].
    rewrite (rd_count occurs j Hl Hj). cbn [mbind option_bind].
    replace (Z.to_nat (j + 1)) with (S (Z.to_nat j)) by lia. rewrite used_S, Z2Nat.id, fmap_app by lia.
    destruct (Z.eqb_spec (count occurs j) 0) as [Hz|Hz], (decide (count occurs j <> 0)) as [Hd|Hd]; try done.
    + eexists. split; [done|]. cbn. rewrite app_nil_r. done.
    + assert (Hlen : (length pre <= Z.to_nat j)%nat) by (rewrite Hpre, length_fmap; apply used_length).
      unfold insert_node. replace (Z.of_nat (length pre) <? 256) with true by (symmetry; apply Z.ltb_lt; lia).
      pose proof (shift_insert_perm (Leaf (count occurs j) j) pre) as Hi.
      eexists. split; [done|]. split; [rewrite Hi; simpl; lia|]. split.
      * apply forest_insert; [|done]. split; [|unfold word; lia]. pose proof (count_nonneg occurs j Hp). lia.
      * rewrite Hi, Hpre. by rewrite (Permutation_app_comm _ [leaf_of occurs j]).
  - split; [done|]. split; [by repeat constructor|done].
  - exists pre. by rewrite Hs.
Qed.

(** The tree of a file list. *)
Record huffman (occurs : list Z) (t : HUFNODE) : Prop := {
  h_counts : counts t;
  h_leaves : leaves t ≡ₚ (fun i => (count occurs i, i)) <$> used occurs 256;
  h_depth : fib (height t + 2) <= total occurs;
  h_cost : cost t <= 8 * total occurs
}.

Lemma total_weight occurs l : l ≡ₚ leaf_of occurs <$> used occurs 256 -> weight l = total occurs.
Proof.
  intros Hp. rewrite (weight_perm _ _ Hp). unfold total. clear Hp. unfold weight.
  induction (used occurs 256) as [|i u IH]; [done|]. rewrite fmap_cons. cbn [foldr]. by rewrite IH.
Qed.

Lemma leaves_of_list occurs u : (leaf_of occurs <$> u) ≫= leaves = (fun i => (count occurs i, i)) <$> u.
Proof. induction u as [|i u IH]; [done|]. rewrite !fmap_cons. cbn [mbind list_bind]. by rewrite IH. Qed.

Lemma leaves_balanced occurs pre :
  Forall counts pre -> pre ≡ₚ leaf_of occurs <$> used occurs 256 -> balanced pre /\ costs pre = 0.
Proof.
  intros Hc Hp. assert (Hl : Forall (fun t => is_leaf t = true) pre).
  { rewrite Hp. apply Forall_fmap, Forall_true. done. }
  clear Hp. split; [split|].
  - apply Forall_forall. intros t Ht. rewrite Forall_forall in Hc, Hl. specialize (Hc t Ht). specialize (Hl t Ht).
    destruct t; [|done]. simpl in *. lia.
  - intros t u Ht _. rewrite Forall_forall in Hl. specialize (Hl t Ht). by destruct t.
  - clear Hc. induction Hl as [|t l Ht _ IH]; [done|]. destruct t; [|done]. simpl. lia.
Qed.

Lemma build_tree_ok occurs :
  counting occurs -> 0 < total occurs < 2 ^ 32 ->
  exists t, build_tree occurs = Some (t, Z.of_nat (length (used occurs 256))) /\ huffman occurs t.
Proof.
  intros Hc Ht. destruct (leaf_loop occurs Hc) as (pre & Hs & Hf & Hp).
  pose proof (total_weight _ _ Hp) as Hw. pose proof (used_length occurs 256) as Hu.
  assert (Hlen : length pre = length (used occurs 256)) by (by rewrite Hp, length_fmap).
  destruct (length pre) as [|n] eqn:El.
  { destruct pre; [|done]. simpl in Hw. lia. }
  destruct (leaves_balanced occurs pre (proj1 Hf) Hp) as [Hb Hz].
  destruct (merge_n_keeps n pre Hf) as (Hf' & Hw' & Hl').
  pose proof (merge_n_length n pre ltac:(lia)) as Hn.
  pose proof (merge_n_balanced n pre Hf Hb) as Hb'.
  pose proof (merge_cost 8 pre Hf) as Hk.
  replace (length pre - 1)%nat with n in Hk by lia.
  destruct (merge_n n pre) as [|t [|? ?]] eqn:E; [simpl in Hn; lia| |simpl in Hn; lia].
  exists t. unfold build_tree. rewrite Hs. cbn [mbind option_bind]. rewrite El, merge_loop_eq by (lia || done).
  rewrite E. cbn [mbind option_bind remove_node]. split; [by rewrite Hlen|].
  destruct Hf' as [Hc' _]. inversion Hc'; subst. simpl in Hw', Hk. split.
  - done.
  - rewrite <- leaves_of_list, <- Hp, Hl'. cbn [mbind list_bind]. by rewrite app_nil_r.
  - destruct Hb' as [Hh _]. inversion Hh; subst. etransitivity; [by apply heavy_fib|]. lia.
  - rewrite Hz, Hw in Hk. change (2 ^ 8)%nat with 256%nat in Hk. lia.
Qed.

(** C5: from the counts of fewer than [2 ^ 32] bytes the construction ends
    with one tree, inside [pre_tree]: its leaves are the bytes that occur with
    their counts, a tree of height [h] counts at least [fib (h + 2)] bytes, and
    the codes of all the bytes counted take at most eight bits each on average. *)
Theorem tree_of_counts occurs :
  counting occurs -> 0 < total occurs < 2 ^ 32 ->
  exists t, build_tree occurs = Some (t, Z.of_nat (length (used occurs 256))) /\
    (leaves t ≡ₚ ((fun i => (count occurs i, i)) <$> used occurs 256)) /\
    fib (height t + 2) <= total occurs /\ cost t <= 8 * total occurs.
Proof.
  intros Hc Ht. destruct (build_tree_ok occurs Hc Ht) as (t & E & [_ Hl Hd Hk]). by exists t.
Qed.

(** The counts of a text with three different bytes. *)
Definition sample_counts : list Z := <[97%nat := 5]> (<[98%nat := 2]> (<[99%nat := 1]> (replicate 256 0))).

Lemma tree_of_counts_witness :
  counting sample_counts /\ 0 < total sample_counts < 2 ^ 32 /\ exists t, build_tree sample_counts = Some (t, Z.of_nat (length (used sample_counts 256))) /\
    (leaves t ≡ₚ ((fun i => (count sample_counts i, i)) <$> used sample_counts 256)) /\
    fib (height t + 2) <= total sample_counts /\ cost t <= 8 * total sample_counts.
Proof.
  assert (Hc : counting sample_counts).
  { split; [reflexivity|]. unfold sample_counts. repeat (apply Forall_insert; [|lia]). apply Forall_replicate. lia. }
  assert (Ht : 0 < total sample_counts < 2 ^ 32) by (vm_compute; split; reflexivity).
  split; [exact Hc|]. split; [exact Ht|]. exact (tree_of_counts _ Hc Ht).
Defined.

End Huffman.
