(* ===== verification/He3.v ===== *)
(** * The he3 format of Direct Connect file lists

    [src/src/networks/direct_connect/che3_c.c] and its OCaml entry points
    [ml_che3_compress] and [ml_che3_decompress].  A string is a list of bytes;
    where the source's plain [char] is signed and its sign matters, [s8] is
    written out.  [unsigned long] has 64 bits. *)

From Stdlib Require Import ZArith Lia Bool.
From stdpp Require Import base option numbers list.
From S2P Require Import Prelude Huffman.

Import Huffman.

Local Open Scope Z_scope.

Module He3.

(** ** Reading bits *)

(** The bit, and the moved [*cur_pos]. *)
Definition get_bit (data : list Z) (cur_pos : Z) : option (Z * Z) :=
  b ← rd data (cur_pos / 8);
  Some (Z.land (Z.shiftr b (Z.land cur_pos 7)) 1, u64 (cur_pos + 1)).

Fixpoint get_bits (data : list Z) (cur_pos : Z) (nb_bit : nat) (res : Z) : option (Z * Z) :=
  match nb_bit with
  | O => Some (res, cur_pos)
  | S nb_bit =>
      '(b, cur_pos) ← get_bit data cur_pos;
      get_bits data cur_pos nb_bit (Z.lor (u64 (Z.shiftl res 1)) b)
  end.

(** [(x + 7) & ~7] *)
Definition round8 (x : Z) : Z := Z.land (x + 7) (Z.lnot 7).

(** ** Decoder *)

(** The four tests of the magic, in order. *)
Definition has_magic (data_string : list Z) : option bool :=
  c0 ← rd data_string 0;
  if negb (c0 =? 72) then Some false else
  c1 ← rd data_string 1;
  if negb (c1 =? 69) then Some false else
  c2 ← rd data_string 2;
  if negb (c2 =? 51) then Some false else
  c3 ← rd data_string 3;
  Some (c3 =? 0xD).

Definition read_nb_output (data_string : list Z) : option Z :=
  b8 ← rd data_string 8; b7 ← rd data_string 7; b6 ← rd data_string 6; b5 ← rd data_string 5;
  let n := Z.lor (Z.shiftl b8 8) b7 in
  let n := Z.lor (Z.shiftl n 8) b6 in
  Some (s32 (Z.lor (Z.shiftl n 8) b5)).

(** The low byte is read as a signed [char]. *)
Definition read_nb_couple (data_string : list Z) : option Z :=
  b9 ← rd data_string 9; b10 ← rd data_string 10;
  Some (s8 b9 + Z.shiftl b10 8).

Definition lens_step (data_string : list Z) (pos : Z) (st : Z * Z) : option (Z * Z) :=
  let '(max_len, ttl_len) := st in
  v ← rd data_string (12 + pos * 2);
  Some (if max_len <? v then v else max_len, ttl_len + v).

(** [decode_array]: the code of [N] bits and value [K] is at [2 ^ N + K]. *)
Definition fill_step (data_string : list Z) (pos : Z) (st : list Z * Z) : option (list Z * Z) :=
  let '(decode_array, offset_pattern) := st in
  v_len ← rd data_string (12 + pos * 2);
  '(value, offset_pattern) ← get_bits data_string offset_pattern (Z.to_nat v_len) 0;
  c ← rd data_string (11 + pos * 2);
  decode_array ← wr decode_array (Z.shiftl 1 v_len + value) c;
  Some (decode_array, offset_pattern).

(** [while (decode_array[(1 << nb_bit_val) + cur_val] == 0)], then the byte
    found; past [max_len] bits the index is outside of the array. *)
Fixpoint decode_symbol (fuel : nat) (data_string decode_array : list Z) (cur_val nb_bit_val offset_encoded : Z)
    : option (Z * Z) :=
  c ← rd decode_array (Z.shiftl 1 nb_bit_val + cur_val);
  if c =? 0 then
    match fuel with
    | O => None
    | S fuel =>
        '(b, offset_encoded) ← get_bit data_string offset_encoded;
        decode_symbol fuel data_string decode_array (Z.lor (u64 (Z.shiftl cur_val 1)) b) (nb_bit_val + 1)
          offset_encoded
    end
  else Some (c, offset_encoded).

(** [while (output_len != nb_output)] *)
Fixpoint decode_loop (n : nat) (max_len : Z) (data_string decode_array : list Z) (offset_encoded : Z)
    : option (list Z) :=
  match n with
  | O => Some []
  | S n =>
      '(cur_val, offset_encoded) ← get_bit data_string offset_encoded;
      '(c, offset_encoded) ← decode_symbol (Z.to_nat max_len) data_string decode_array cur_val 1 offset_encoded;
      rest ← decode_loop n max_len data_string decode_array offset_encoded;
      Some (c :: rest)
  end.

(** The [final_len] bytes of the result; without the magic, none.  The size
    [1 << (max_len + 1)] must be an [int], and the size of the output too. *)
Definition decode_he3_data (data_string : list Z) : option (list Z) :=
  magic ← has_magic data_string;
  if negb magic then Some [] else
  nb_output ← read_nb_output data_string;
  nb_couple ← read_nb_couple data_string;
  '(max_len, ttl_len) ← for_up (Z.to_nat nb_couple) 0 (lens_step data_string) (0, 0);
  if (30 <=? max_len) || (nb_output <? 0) then None else
  let decode_array := replicate (Z.to_nat (Z.shiftl 1 (max_len + 1))) 0 in
  let offset_pattern := u64 (8 * (11 + nb_couple * 2)) in
  let offset_encoded := u64 (offset_pattern + round8 ttl_len) in
  '(decode_array, _) ← for_up (Z.to_nat nb_couple) 0 (fill_step data_string) (decode_array, offset_pattern);
  decode_loop (Z.to_nat nb_output) max_len data_string decode_array offset_encoded.

(** ** Encoder *)

(** [data[bit_pos / 8] |= m] *)
Definition or_byte (data : list Z) (bit_pos m : Z) : option (list Z) :=
  v ← rd data (bit_pos / 8);
  wr data (bit_pos / 8) (u8 (Z.lor v m)).

Definition add_bit (data : list Z) (bit_pos bit_value : Z) : option (list Z * Z) :=
  data ← (if Z.land bit_pos 7 =? 0 then or_byte data bit_pos 0 else Some data);
  data ← (if negb (bit_value =? 0) then or_byte data bit_pos (Z.shiftl 1 (Z.land bit_pos 7)) else Some data);
  Some (data, u64 (bit_pos + 1)).

(** [for (i = 0; i < pattern_length; i++)]; [n] iterations are left. *)
Fixpoint add_bits_from (n : nat) (i : Z) (data : list Z) (bit_pos pattern pattern_length : Z)
    : option (list Z * Z) :=
  match n with
  | O => Some (data, bit_pos)
  | S n =>
      '(data, bit_pos) ← add_bit data bit_pos (Z.land (u8 (Z.shiftr pattern (pattern_length - 1 - i))) 1);
      add_bits_from n (i + 1) data bit_pos pattern pattern_length
  end.

Definition add_bits (data : list Z) (bit_pos pattern pattern_length : Z) : option (list Z * Z) :=
  add_bits_from (Z.to_nat pattern_length) 0 data bit_pos pattern pattern_length.

Definition count_step (str : list Z) (i : Z) (occurs : list Z) : option (list Z) :=
  c ← rd str i;
  o ← rd occurs c;
  wr occurs c (u64 (o + 1)).

Definition parity_step (str : list Z) (i : Z) (parity : Z) : option Z :=
  c ← rd str i; Some (u8 (Z.lxor parity c)).

(** The 11 bytes of [he3_header]. *)
Definition he3_header (parity len nb_val : Z) : list Z :=
  [72; 69; 51; 0xD; Z.land parity 255;
   Z.land len 255; Z.land (Z.shiftr len 8) 255; Z.land (Z.shiftr len 16) 255; Z.land (Z.shiftr len 24) 255;
   Z.land nb_val 255; Z.land (Z.shiftr nb_val 8) 255].

(** The couple of byte [i], written at [pos]. *)
Definition couple_step (occurs : list Z) (tbl_enc : list HUFENCODE) (i : Z) (st : list Z * Z)
    : option (list Z * Z) :=
  let '(data, pos) := st in
  o ← rd occurs i;
  if o =? 0 then Some st else
  e ← tbl_enc !! Z.to_nat i;
  data ← wr data pos (u8 i);
  data ← wr data (pos + 1) (u8 (bits_len e));
  Some (data, pos + 2).

Definition pattern_step (occurs : list Z) (tbl_enc : list HUFENCODE) (i : Z) (st : list Z * Z)
    : option (list Z * Z) :=
  let '(data, bit_pos) := st in
  o ← rd occurs i;
  if o =? 0 then Some st else
  e ← tbl_enc !! Z.to_nat i;
  add_bits data bit_pos (bits e) (bits_len e).

Definition encode_step (str : list Z) (tbl_enc : list HUFENCODE) (i : Z) (st : list Z * Z)
    : option (list Z * Z) :=
  let '(data, bit_pos) := st in
  idx ← rd str i;
  e ← tbl_enc !! Z.to_nat idx;
  add_bits data bit_pos (bits e) (bits_len e).

Section Encoder.

(** What [malloc] returns: a block of that many bytes, with what the heap
    happened to hold. *)
Context (malloc : Z -> list Z).

(** The first [final_len] bytes of [data]. *)
Definition encode_he3_data (str : list Z) : option (list Z) :=
  let len := Z.of_nat (length str) in
  if len =? 0 then Some [] else
  occurs ← for_up (Z.to_nat len) 0 (count_step str) (replicate 256 0);
  '(root_huf, nb_val) ← build_tree occurs;
  let tbl_enc := use_hufnode (replicate 256 (Encode 0 0)) root_huf 0 0 in
  let data := malloc (len + 256 * 10) in
  parity ← for_up (Z.to_nat len) 0 (parity_step str) 0;
  data ← blit data 0 (he3_header parity len nb_val);
  '(data, pos) ← for_up 256 0 (couple_step occurs tbl_enc) (data, 11);
  '(data, bit_pos) ← for_up 256 0 (pattern_step occurs tbl_enc) (data, pos * 8);
  '(data, bit_pos) ← for_up (Z.to_nat len) 0 (encode_step str tbl_enc) (data, round8 bit_pos);
  let bit_pos := round8 bit_pos in
  let final_len := bit_pos / 8 + 1 in
  sub_bytes data 0 final_len.

End Encoder.

(** The OCaml functions copy the result to a new string. *)
Definition ml_che3_compress (malloc : Z -> list Z) (s : list Z) : option (list Z) := encode_he3_data malloc s.
Definition ml_che3_decompress (s : list Z) : option (list Z) := decode_he3_data s.

(** A block full of zeros, and one that was used before. *)
Definition fresh_block (n : Z) : list Z := replicate (Z.to_nat n) 0.
Definition used_block (n : Z) : list Z := replicate (Z.to_nat n) 0xAA.

(** ** Bits of a buffer *)

(** Bit [k], the lowest bit of a byte first. *)
Definition bit (data : list Z) (k : nat) : bool :=
  Z.testbit (nth (k / 8) data 0) (Z.of_nat (k mod 8)).

(** The bits from [k] on are [w], and lie in the buffer. *)
Definition reads (data : list Z) (k : nat) (w : list bool) : Prop :=
  (k + length w <= 8 * length data)%nat /\ forall i b, w !! i = Some b -> bit data (k + i) = b.

Definition blank (data : list Z) (k : nat) : Prop := forall j, (k <= j)%nat -> bit data j = false.

Lemma low_bit x n : 0 <= n -> Z.land (Z.shiftr x n) 1 = Z.b2z (Z.testbit x n).
Proof.
  intros Hn. rewrite (Z.land_ones _ 1), Z.shiftr_div_pow2, Z.testbit_spec' by lia. done.
Qed.

Lemma low_3 (k : nat) : Z.land (Z.of_nat k) 7 = Z.of_nat (k mod 8) /\ Z.of_nat k / 8 = Z.of_nat (k / 8).
Proof.
  split.
  - rewrite (Z.land_ones _ 3) by lia. by rewrite Nat2Z.inj_mod.
  - by rewrite Nat2Z.inj_div.
Qed.

Lemma byte_index k n : (k < 8 * n)%nat -> (k / 8 < n)%nat.
Proof. intros. apply Nat.Div0.div_lt_upper_bound; lia. Qed.

Lemma get_bit_ok data k :
  (k < 8 * length data)%nat -> Z.of_nat k + 1 < 2 ^ 64 ->
  get_bit data (Z.of_nat k) = Some (Z.b2z (bit data k), Z.of_nat (S k)).
Proof.
  intros Hk H64. unfold get_bit. destruct (low_3 k) as [-> ->]. rewrite rd_nat.
  destruct (nth_lookup_or_length data (k / 8) 0) as [->|H]; [|apply byte_index in Hk; lia].
  cbn [mbind option_bind]. rewrite low_bit by lia. f_equal. f_equal.
  rewrite u64_id; [lia|]. unfold word. lia.
Qed.

Lemma reads_cons data k b w : reads data k (b :: w) -> bit data k = b /\ reads data (S k) w.
Proof.
  intros [Hl H]. simpl in Hl. split; [|split; [lia|]].
  - rewrite <- (H 0%nat b) by done. by rewrite Nat.add_0_r.
  - intros i c Hi. rewrite <- (H (S i) c) by done. f_equal. lia.
Qed.

Lemma reads_app data k w v : reads data k (w ++ v) <-> reads data k w /\ reads data (k + length w) v.
Proof.
  split.
  - intros [Hl H]. rewrite length_app in Hl. split; (split; [lia|]).
    + intros i b Hi. apply H. by apply lookup_app_l_Some.
    + intros i b Hi. rewrite <- (H (length w + i)%nat b); [f_equal; lia|].
      rewrite lookup_app_r by lia. by replace (length w + i - length w)%nat with i by lia.
  - intros [[Hl H] [Hl' H']]. split; [rewrite length_app; lia|]. intros i b Hi.
    apply lookup_app_Some in Hi as [Hi|[Hi Hb]]; [by apply H|].
    rewrite <- (H' _ _ Hb). f_equal. lia.
Qed.

Lemma get_bits_ok data k w n acc :
  reads data k w -> 8 * Z.of_nat (length data) < 2 ^ 64 -> word (Z.of_nat n) acc -> (n + length w <= 64)%nat ->
  get_bits data (Z.of_nat k) (length w) acc = Some (code_number acc w, Z.of_nat (k + length w)).
Proof.
  revert k n acc. induction w as [|b w IH]; intros k n acc Hr Hd Ha Hn.
  - simpl. by rewrite Nat.add_0_r.
  - pose proof Hr as [Hl _]. apply reads_cons in Hr as [Hb Hr]. simpl in Hl, Hn.
    cbn [get_bits length]. rewrite get_bit_ok by lia. cbn [mbind option_bind].
    destruct (shift_in acc b n Ha ltac:(lia)) as [E W]. rewrite Hb, E, (IH (S k) (S n)) by (done || lia).
    by rewrite Nat.add_succ_comm.
Qed.

(** ** Code numbers *)

Lemma code_number_app z w v : code_number z (w ++ v) = code_number (code_number z w) v.
Proof. unfold code_number. by rewrite foldl_app. Qed.

Lemma code_number_split z w : code_number z w = z * 2 ^ Z.of_nat (length w) + code_number 0 w.
Proof.
  revert z. induction w as [|b w IH]; intros z; [simpl; lia|].
  change (code_number z (b :: w)) with (code_number (2 * z + Z.b2z b) w).
  change (code_number 0 (b :: w)) with (code_number (Z.b2z b) w).
  rewrite (IH (2 * z + _)), (IH (Z.b2z b)). cbn [length]. rewrite Nat2Z.inj_succ, Z.pow_succ_r by lia. lia.
Qed.

Lemma code_number_word w : word (Z.of_nat (length w)) (code_number 0 w).
Proof.
  induction w as [|b w IH]; [unfold word; simpl; lia|].
  change (code_number 0 (b :: w)) with (code_number (Z.b2z b) w). rewrite code_number_split.
  unfold word in *. cbn [length]. rewrite Nat2Z.inj_succ, Z.pow_succ_r by lia. destruct b; simpl Z.b2z; lia.
Qed.

Lemma code_number_bit z b w : Z.testbit (code_number z (b :: w)) (Z.of_nat (length w)) = b.
Proof.
  change (code_number z (b :: w)) with (code_number (2 * z + Z.b2z b) w). rewrite code_number_split.
  pose proof (code_number_word w) as Hw. unfold word in Hw.
  apply Z.b2z_inj. rewrite Z.testbit_spec' by lia.
  rewrite Z.div_add_l, (Z.div_small (code_number 0 w)), Z.add_0_r by lia.
  rewrite Z.add_comm, Z.mul_comm, Z_mod_plus_full. by destruct b.
Qed.

(** The index of a code in [decode_array]. *)
Lemma code_number_1 w : Z.shiftl 1 (Z.of_nat (length w)) + code_number 0 w = code_number 1 w.
Proof. rewrite (code_number_split 1), Z.shiftl_mul_pow2 by lia. done. Qed.

Lemma code_number_1_inj w v : code_number 1 w = code_number 1 v -> w = v.
Proof.
  assert (Hpos : forall w, 1 <= code_number 1 w).
  { intros u. rewrite code_number_split. pose proof (code_number_word u). unfold word in *. lia. }
  revert v. induction w as [|b w IH] using rev_ind; intros v.
  - destruct v as [|c v _] using rev_ind; [done|]. rewrite code_number_app. specialize (Hpos v).
    simpl. destruct c; simpl; lia.
  - destruct v as [|c v _] using rev_ind.
    + rewrite code_number_app. specialize (Hpos w). simpl. destruct b; simpl; lia.
    + rewrite !code_number_app. simpl. intros H. assert (b = c) as -> by (destruct b, c; simpl in H; lia).
      f_equal. apply IH. lia.
Qed.

(** ** Writing bits *)

Lemma bit_insert data k j v :
  (k < 8 * length data)%nat ->
  bit (<[(k / 8)%nat := v]> data) j = if decide (j / 8 = k / 8)%nat then Z.testbit v (Z.of_nat (j mod 8)) else bit data j.
Proof.
  intros Hk%byte_index. unfold bit. destruct (decide (j / 8 = k / 8)%nat) as [->|Hne].
  - by erewrite nth_lookup_Some by (by apply list_lookup_insert_eq).
  - rewrite !nth_lookup, list_lookup_insert_ne by done. done.
Qed.

(** [data'] is [data] with bits written from [k] on: the bytes and bits below
    are as before. *)
Definition extends (data data' : list Z) (k : nat) : Prop :=
  length data' = length data /\ (forall j, (j < k)%nat -> bit data' j = bit data j) /\
  forall m, (8 * m <= k)%nat -> take m data' = take m data.

Lemma extends_refl data k : extends data data k.
Proof. done. Qed.

Lemma extends_trans a b c k l : extends a b k -> extends b c l -> (k <= l)%nat -> extends a c k.
Proof.
  intros (L1 & B1 & T1) (L2 & B2 & T2) Hkl. split; [by rewrite L2|]. split.
  - intros j Hj. rewrite B2, B1 by lia. done.
  - intros m Hm. rewrite T2, T1 by lia. done.
Qed.

Lemma extends_reads a b k l w : extends a b l -> (k + length w <= l)%nat -> reads a k w -> reads b k w.
Proof.
  intros (L & B & _) Hl [Hk H]. split; [lia|]. intros i c Hi.
  pose proof (lookup_lt_Some _ _ _ Hi). rewrite B by lia. by apply H.
Qed.

(** One [|=] with the mask of bit [m]; a mask of 0 changes no bit. *)
Lemma or_byte_ok data k mask :
  (k < 8 * length data)%nat ->
  exists data', or_byte data (Z.of_nat k) mask = Some data' /\ length data' = length data /\
    (forall n, (8 * n <= k)%nat -> take n data' = take n data) /\
    forall j, bit data' j = bit data j || ((j / 8 =? k / 8)%nat && Z.testbit mask (Z.of_nat (j mod 8))).
Proof.
  intros Hk. pose proof (byte_index _ _ Hk) as Hi. unfold or_byte. destruct (low_3 k) as [_ ->]. rewrite rd_nat.
  destruct (nth_lookup_or_length data (k / 8) 0) as [Hv|H]; [|lia]. rewrite Hv. cbn [mbind option_bind].
  set (v := nth (k / 8) data 0) in *. rewrite wr_in, Nat2Z.id by lia. eexists. split; [done|].
  split; [apply length_insert|]. split.
  - intros n Hn. apply take_insert_ge. apply Nat.div_le_lower_bound; lia.
  - intros j. rewrite bit_insert by done. destruct (decide (j / 8 = k / 8)%nat) as [Hj|Hj].
    + rewrite (proj2 (Nat.eqb_eq _ _) Hj). unfold bit. rewrite Hj. fold v.
      pose proof (Nat.mod_upper_bound j 8 ltac:(lia)).
      unfold u8. change 256 with (2 ^ 8). by rewrite Z.mod_pow2_bits_low, Z.lor_spec by lia.
    + rewrite (proj2 (Nat.eqb_neq _ _) Hj). by rewrite orb_false_r.
Qed.

Lemma same_bit j k : (j =? k)%nat = (j / 8 =? k / 8)%nat && Z.testbit (Z.shiftl 1 (Z.of_nat (k mod 8))) (Z.of_nat (j mod 8)).
Proof.
  rewrite Z.shiftl_1_l, Z.pow2_bits_eqb by lia. pose proof (Nat.div_mod_eq j 8). pose proof (Nat.div_mod_eq k 8).
  destruct (Nat.eqb_spec j k) as [->|Hne]; [by rewrite Nat.eqb_refl, Z.eqb_refl|].
  destruct (Nat.eqb_spec (j / 8) (k / 8)) as [E|]; [|done]. symmetry. apply Z.eqb_neq. lia.
Qed.

Lemma add_bit_ok data k (b : bool) :
  (k < 8 * length data)%nat -> Z.of_nat k + 1 < 2 ^ 64 ->
  exists data', add_bit data (Z.of_nat k) (Z.b2z b) = Some (data', Z.of_nat (S k)) /\ extends data data' k /\
    (blank data k -> bit data' k = b /\ blank data' (S k)).
Proof.
  intros Hk H64. unfold add_bit.
  replace (u64 (Z.of_nat k + 1)) with (Z.of_nat (S k)) by (rewrite u64_id; [lia|unfold word; lia]).
  assert (H1 : exists d1, (if Z.land (Z.of_nat k) 7 =? 0 then or_byte data (Z.of_nat k) 0 else Some data) = Some d1 /\
    length d1 = length data /\ (forall n, (8 * n <= k)%nat -> take n d1 = take n data) /\ forall j, bit d1 j = bit data j).
  { destruct (Z.land (Z.of_nat k) 7 =? 0); [|by exists data].
    destruct (or_byte_ok data k 0 Hk) as (d1 & -> & L & T & B). exists d1. split; [done|]. split; [done|].
    split; [done|]. intros j. by rewrite B, Z.testbit_0_l, andb_false_r, orb_false_r. }
  destruct H1 as (d1 & -> & L1 & T1 & B1). cbn [mbind option_bind]. destruct (low_3 k) as [-> _].
  assert (H2 : exists d2, (if negb (Z.b2z b =? 0) then or_byte d1 (Z.of_nat k) (Z.shiftl 1 (Z.of_nat (k mod 8))) else Some d1)
    = Some d2 /\ length d2 = length d1 /\ (forall n, (8 * n <= k)%nat -> take n d2 = take n d1) /\
    forall j, bit d2 j = bit d1 j || ((j =? k)%nat && b)).
  { destruct b; [change (negb (Z.b2z true =? 0)) with true|change (negb (Z.b2z false =? 0)) with false]; cbv iota.
    - destruct (or_byte_ok d1 k (Z.shiftl 1 (Z.of_nat (k mod 8))) ltac:(lia)) as (d2 & -> & L & T & B).
      exists d2. split; [done|]. split; [done|]. split; [done|]. intros j. by rewrite B, andb_true_r, (same_bit j k).
    - exists d1. split; [done|]. split; [done|]. split; [done|]. intros j. by rewrite andb_false_r, orb_false_r. }
  destruct H2 as (d2 & -> & L2 & T2 & B2). exists d2. split; [done|].
  assert (B : forall j, bit d2 j = bit data j || ((j =? k)%nat && b)) by (intros j; by rewrite B2, B1).
  split; [split; [lia|split]|].
  - intros j Hj. rewrite B, (proj2 (Nat.eqb_neq j k)) by lia. by rewrite orb_false_r.
  - intros m Hm. by rewrite T2, T1.
  - intros Hb. split; [by rewrite B, Hb, Nat.eqb_refl by lia|]. intros j Hj.
    by rewrite B, Hb, (proj2 (Nat.eqb_neq j k)) by lia.
Qed.

Lemma add_bits_from_ok data k w0 w :
  (k + length w <= 8 * length data)%nat -> 8 * Z.of_nat (length data) < 2 ^ 64 ->
  exists data',
    add_bits_from (length w) (Z.of_nat (length w0)) data (Z.of_nat k) (code_number 0 (w0 ++ w))
      (Z.of_nat (length (w0 ++ w))) = Some (data', Z.of_nat (k + length w)) /\
    extends data data' k /\ (blank data k -> reads data' k w /\ blank data' (k + length w)).
Proof.
  revert data k w0. induction w as [|b w IH]; intros data k w0 Hk H64.
  - exists data. simpl. rewrite Nat.add_0_r. split; [done|]. split; [done|]. intros Hb. split; [|done].
    split; [simpl in *; lia|]. done.
  - cbn [length] in Hk |- *. cbn [add_bits_from].
    replace (Z.of_nat (length (w0 ++ b :: w)) - 1 - Z.of_nat (length w0)) with (Z.of_nat (length w))
      by (rewrite length_app; simpl; lia).
    assert (E : Z.land (u8 (Z.shiftr (code_number 0 (w0 ++ b :: w)) (Z.of_nat (length w)))) 1 = Z.b2z b).
    { rewrite code_number_app. rewrite <- (code_number_bit (code_number 0 w0) b w) at 2.
      rewrite <- low_bit by lia. unfold u8. rewrite !(Z.land_ones _ 1) by lia. change (2 ^ 1) with 2.
      clear. Z.div_mod_to_equations. lia. }
    rewrite E. destruct (add_bit_ok data k b ltac:(lia) ltac:(lia)) as (d1 & -> & X1 & R1). cbn [mbind option_bind].
    pose proof X1 as (L1 & _ & _).
    destruct (IH d1 (S k) (w0 ++ [b]) ltac:(lia) ltac:(lia)) as (d2 & E2 & X2 & R2).
    rewrite <- app_assoc in E2. cbn [app] in E2. rewrite (length_app w0 [b]) in E2. cbn [length] in E2.
    replace (Z.of_nat (length w0) + 1) with (Z.of_nat (length w0 + 1)) by lia. rewrite E2.
    exists d2. rewrite <- Nat.add_succ_comm. split; [done|].
    split; [eapply extends_trans; [done|done|lia]|]. intros Hb. destruct (R1 Hb) as [Hbk Hb1].
    destruct (R2 Hb1) as [[Hl2 Hr2] Hb2]. split; [|done]. destruct X2 as (L2 & B2 & _).
    split; [simpl; lia|]. intros [|i] c Hi; simpl in Hi.
    + injection Hi as <-. rewrite Nat.add_0_r, B2 by lia. done.
    + rewrite <- Nat.add_succ_comm. by apply Hr2.
Qed.

Lemma add_bits_ok data k w :
  (k + length w <= 8 * length data)%nat -> 8 * Z.of_nat (length data) < 2 ^ 64 ->
  exists data', add_bits data (Z.of_nat k) (code_number 0 w) (Z.of_nat (length w)) = Some (data', Z.of_nat (k + length w)) /\
    extends data data' k /\ (blank data k -> reads data' k w /\ blank data' (k + length w)).
Proof. unfold add_bits. rewrite Nat2Z.id. apply (add_bits_from_ok data k []). Qed.

(** ** The loops as passes over a list *)

Fixpoint steps {S} (l : list Z) (f : Z -> S -> option S) (st : S) : option S :=
  match l with [] => Some st | i :: l => st ← f i st; steps l f st end.

Lemma steps_app {S} l l' (f : Z -> S -> option S) st : steps (l ++ l') f st = st ← steps l f st; steps l' f st.
Proof. revert st. induction l as [|i l IH]; intros st; simpl; [done|]. destruct (f i st); simpl; [apply IH|done]. Qed.

Lemma steps_ext {S} l (f g : Z -> S -> option S) st :
  (forall i st, i ∈ l -> f i st = g i st) -> steps l f st = steps l g st.
Proof.
  revert st. induction l as [|i l IH]; intros st H; [done|]. simpl. rewrite H by apply list_elem_of_here.
  destruct (g i st); [|done]. simpl. apply IH. intros j s' Hj. apply H. by apply list_elem_of_further.
Qed.

(** Over the bytes of a string. *)
Lemma for_up_bytes {S} (f : Z -> S -> option S) str st :
  for_up (length str) 0 (fun i st => c ← rd str i; f c st) st = steps str f st.
Proof.
  enough (H : forall pre, for_up (length str) (Z.of_nat (length pre)) (fun i st => c ← rd (pre ++ str) i; f c st) st
              = steps str f st) by apply (H []).
  revert st. induction str as [|c str IH]; intros st pre; [done|]. cbn [length for_up steps].
  rewrite rd_nat, list_lookup_middle by done. cbn [mbind option_bind]. destruct (f c st) as [st'|]; [|done].
  cbn [mbind option_bind]. specialize (IH st' (pre ++ [c])). rewrite <- app_assoc in IH. simpl in IH. rewrite <- IH.
  f_equal. rewrite length_app. simpl. lia.
Qed.

(** Over the bytes that occur. *)
Lemma for_up_used {S} (f g : Z -> S -> option S) occurs n st :
  (forall i st, 0 <= i < Z.of_nat n -> f i st = if count occurs i =? 0 then Some st else g i st) ->
  for_up n 0 f st = steps (used occurs n) g st.
Proof.
  intros Hf. induction n as [|n IH]; [done|].
  rewrite for_up_snoc, used_S, steps_app, IH by (intros; apply Hf; lia).
  destruct (steps (used occurs n) g st) as [st'|]; [|done]. cbn [mbind option_bind]. rewrite Z.add_0_l, Hf by lia.
  destruct (Z.eqb_spec (count occurs (Z.of_nat n)) 0) as [Hz|Hz], (decide (count occurs (Z.of_nat n) <> 0)); simpl; try done.
  by destruct (g (Z.of_nat n) st').
Qed.

(** ** Counting *)

Definition occurrences (str : list Z) (i : Z) : Z := Z.of_nat (count_occ Z.eq_dec str i).

Lemma occurrences_le str i : 0 <= occurrences str i <= Z.of_nat (length str).
Proof. unfold occurrences. pose proof (count_occ_bound Z.eq_dec i str). lia. Qed.

Lemma occurrences_pos str i : occurrences str i <> 0 <-> i ∈ str.
Proof.
  unfold occurrences. rewrite list_elem_of_In, (count_occ_In Z.eq_dec). lia.
Qed.

Lemma count_insert occurs c v i :
  0 <= c < Z.of_nat (length occurs) -> 0 <= i -> count (<[Z.to_nat c := v]> occurs) i = if c =? i then v else count occurs i.
Proof.
  intros Hc Hi. unfold count. rewrite !nth_lookup. destruct (Z.eqb_spec c i) as [->|].
  - by rewrite list_lookup_insert_eq by lia.
  - by rewrite list_lookup_insert_ne by lia.
Qed.

Lemma count_loop str :
  Forall (word 8) str -> Z.of_nat (length str) < 2 ^ 32 ->
  exists occurs, for_up (length str) 0 (count_step str) (replicate 256 0) = Some occurs /\ counting occurs /\
    forall i, 0 <= i < 256 -> count occurs i = occurrences str i.
Proof.
  intros Hs Hl. unfold count_step. rewrite for_up_bytes.
  induction str as [|c str IH] using rev_ind.
  - exists (replicate 256 0). split; [done|]. split.
    + split; [by rewrite length_replicate|]. by apply Forall_replicate.
    + intros i Hi. unfold count. by rewrite nth_lookup, lookup_replicate_2 by lia.
  - apply Forall_app in Hs as [Hs Hc]. inversion Hc as [|? ? Hc0 _]; subst. rewrite length_app in Hl. simpl in Hl.
    destruct (IH Hs ltac:(lia)) as (occurs & E & [Hlen Hpos] & Ho). rewrite steps_app, E. cbn [mbind option_bind steps].
    assert (Hc' : 0 <= c < 256) by (unfold word in Hc0; lia). pose proof (occurrences_le str c).
    rewrite (rd_count _ _ Hlen Hc'), Ho by done. cbn [mbind option_bind].
    rewrite u64_id by (unfold word; lia). rewrite wr_in by lia. cbn [mbind option_bind].
    eexists. split; [done|]. split.
    + split; [by rewrite length_insert|]. apply Forall_insert; [done|lia].
    + intros i Hi. rewrite count_insert by lia. unfold occurrences. rewrite count_occ_app. simpl.
      rewrite Ho by done. unfold occurrences in *. destruct (Z.eqb_spec c i), (Z.eq_dec c i); subst; (done || lia).
Qed.

(** ** The codes of a string *)

Definition sum_over (l : list Z) (f : Z -> Z) : Z := foldr (fun i w => f i + w) 0 l.

Lemma sum_over_ext l f g : (forall i, i ∈ l -> f i = g i) -> sum_over l f = sum_over l g.
Proof.
  induction l as [|i l IH]; intros H; [done|]. simpl. rewrite H by apply list_elem_of_here.
  f_equal. apply IH. intros j Hj. apply H. by apply list_elem_of_further.
Qed.

Lemma sum_over_perm l l' f : l ≡ₚ l' -> sum_over l f = sum_over l' f.
Proof. induction 1; simpl; lia. Qed.

Lemma sum_over_plus l f g : sum_over l (fun i => f i + g i) = sum_over l f + sum_over l g.
Proof. induction l as [|i l IH]; simpl; lia. Qed.

Lemma sum_over_single u c (f : Z -> Z) :
  NoDup u -> sum_over u (fun i => if Z.eq_dec c i then f i else 0) = if decide (c ∈ u) then f c else 0.
Proof.
  induction 1 as [|i u Hi _ IH]; [done|]. simpl. rewrite IH. clear IH.
  destruct (Z.eq_dec c i) as [E|E]; [subst i|]; destruct (decide (c ∈ u)) as [H1|H1].
  all: match goal with |- context [decide ?P] => destruct (decide P) as [H2|H2] end.
  all: rewrite elem_of_cons in H2; first [exfalso; tauto | lia].
Qed.

(** Going through the string is going through its bytes with their counts. *)
Lemma sum_occurrences u str f :
  NoDup u -> (forall c, c ∈ str -> c ∈ u) -> sum_over u (fun i => occurrences str i * f i) = sum_over str f.
Proof.
  intros Hu. induction str as [|c str IH]; intros Hin.
  - simpl. induction u as [|i u IH]; [done|]. inversion Hu; subst. simpl. rewrite IH; [done|done|].
    intros ? []%not_elem_of_nil.
  - simpl. rewrite <- IH by (intros d Hd; apply Hin; by apply list_elem_of_further).
    rewrite (sum_over_ext u _ (fun i => (if Z.eq_dec c i then f i else 0) + occurrences str i * f i)).
    + rewrite sum_over_plus, sum_over_single by done. destruct (decide (c ∈ u)) as [|Hn]; [done|].
      destruct Hn. apply Hin. apply list_elem_of_here.
    + intros i _. unfold occurrences. simpl. destruct (Z.eq_dec c i); lia.
Qed.

(** What a code table is good for. *)
Record coding (u : list Z) (code : Z -> list bool) : Prop := {
  c_prefix : forall i j, i ∈ u -> j ∈ u -> code i `prefix_of` code j -> i = j;
  c_nodup : NoDup u;
  c_bytes : Forall (word 8) u
}.

Fixpoint lookup_code (l : list (Z * Z * list bool)) (i : Z) : list bool :=
  match l with [] => [] | (_, v, w) :: l => if v =? i then w else lookup_code l i end.

Definition code (t : HUFNODE) (i : Z) : list bool := lookup_code (paths t) i.

Lemma lookup_code_ok l o v w : NoDup (l.*1).*2 -> (o, v, w) ∈ l -> lookup_code l v = w.
Proof.
  induction l as [|[[o' v'] w'] l IH]; [by intros _ ?%not_elem_of_nil|].
  intros Hnd0 H0. apply elem_of_cons in H0. rewrite !fmap_cons in Hnd0. inversion Hnd0 as [|? ? Hn Hnd]; subst.
  destruct H0 as [[= <- <- <-]|H]; simpl.
  - by rewrite Z.eqb_refl.
  - destruct (Z.eqb_spec v' v) as [->|]; [|by apply IH]. destruct Hn. simpl.
    apply list_elem_of_fmap. exists (o, v). split; [done|]. apply list_elem_of_fmap. by exists (o, v, w).
Qed.

Section Tree.
Context (occurs : list Z) (t : HUFNODE).
Hypothesis Hc : counting occurs.
Hypothesis Ht : huffman occurs t.

Lemma leaves_vals : (leaves t).*2 ≡ₚ used occurs 256.
Proof.
  rewrite (h_leaves _ _ Ht), <- list_fmap_compose. unfold compose. simpl. by rewrite list_fmap_id.
Qed.

Lemma leaves_NoDup : NoDup (leaves t).*2.
Proof. rewrite leaves_vals. apply used_NoDup. Qed.

Lemma code_path i : i ∈ used occurs 256 -> (count occurs i, i, code t i) ∈ paths t.
Proof.
  intros Hi. assert (H : (count occurs i, i) ∈ leaves t).
  { rewrite (h_leaves _ _ Ht). apply list_elem_of_fmap. by exists i. }
  apply list_elem_of_fmap in H as ([[o v] w] & [= <- <-] & H).
  unfold code. by rewrite (lookup_code_ok _ _ _ _ leaves_NoDup H).
Qed.

Lemma path_code o v w : (o, v, w) ∈ paths t -> w = code t v /\ o = count occurs v /\ v ∈ used occurs 256.
Proof.
  intros H. unfold code. rewrite (lookup_code_ok _ _ _ _ leaves_NoDup H). split; [done|].
  assert (Hl : (o, v) ∈ leaves t) by (apply list_elem_of_fmap; by exists (o, v, w)).
  rewrite (h_leaves _ _ Ht) in Hl. by apply list_elem_of_fmap in Hl as (i & [= -> ->] & Hi).
Qed.

Lemma code_coding : coding (used occurs 256) (code t).
Proof.
  split; [|apply used_NoDup|].
  - intros i j Hi%code_path Hj%code_path Hp. by pose proof (paths_prefix _ _ _ _ _ Hi Hj Hp) as [= _ -> _].
  - apply Forall_forall. intros i Hi%elem_of_used. unfold word. lia.
Qed.

Lemma code_length i : i ∈ used occurs 256 -> (length (code t i) <= height t)%nat.
Proof. intros Hi%code_path. by eapply paths_height. Qed.

Lemma code_nonempty i : (2 <= length (used occurs 256))%nat -> i ∈ used occurs 256 -> code t i <> [].
Proof.
  intros Hl Hi%code_path. rewrite <- leaves_vals, length_fmap in Hl. unfold leaves in Hl. rewrite length_fmap in Hl.
  destruct t as [o v|o l r]; [simpl in Hl; lia|].
  apply elem_of_paths_node in Hi as (b & [[o' v'] w] & _ & [= _ _ ->]). done.
Qed.

Lemma code_single : length (used occurs 256) = 1%nat -> forall i, i ∈ used occurs 256 -> code t i = [].
Proof.
  intros Hl i Hi%code_path. rewrite <- leaves_vals, length_fmap in Hl.
  destruct t as [o v|o l r]; [simpl in Hi; apply list_elem_of_singleton in Hi; congruence|].
  assert (Hp : forall u, leaves u <> []).
  { intros u. unfold leaves. induction u as [|? u1 IH1 u2 _]; [done|]. cbn [paths].
    destruct (paths u1); [done|]. done. }
  rewrite leaves_node, length_app in Hl. pose proof (Hp l). pose proof (Hp r).
  destruct (leaves l), (leaves r); simpl in Hl; (done || lia).
Qed.

(** The total length of the codes, each as often as its byte. *)
Lemma code_cost : sum_over (used occurs 256) (fun i => count occurs i * Z.of_nat (length (code t i))) <= 8 * total occurs.
Proof.
  etransitivity; [|apply (h_cost _ _ Ht)]. destruct (paid_paths t (h_counts _ _ Ht)) as [<- _].
  rewrite <- (sum_over_perm _ _ _ leaves_vals).
  enough (H : forall l, (forall o v w, (o, v, w) ∈ l -> w = code t v /\ o = count occurs v) ->
    sum_over (l.*1).*2 (fun i => count occurs i * Z.of_nat (length (code t i))) <= paid l).
  { apply H. intros o v w Hp. by destruct (path_code _ _ _ Hp) as (-> & -> & _). }
  induction l as [|[[o v] w] l IH]; intros H; [done|]. rewrite !fmap_cons. simpl.
  destruct (H o v w (list_elem_of_here _ _)) as [-> ->].
  specialize (IH ltac:(intros o' v' w' Hw; by apply H, list_elem_of_further)). lia.
Qed.

Lemma tree_table i :
  (height t <= 64)%nat -> i ∈ used occurs 256 ->
  use_hufnode (replicate 256 (Encode 0 0)) t 0 0 !! Z.to_nat i
  = Some (Encode (Z.of_nat (length (code t i))) (code_number 0 (code t i))).
Proof.
  intros Hh Hi%code_path.
  destruct (use_hufnode_ok t (replicate 256 (Encode 0 0)) 0 0 (h_counts _ _ Ht) leaves_NoDup) as (_ & H & _).
  - apply length_replicate.
  - lia.
  - unfold word. simpl. lia.
  - exact (H _ _ _ Hi).
Qed.

End Tree.

(** ** The encoder's passes *)

Definition put_code (tbl_enc : list HUFENCODE) (i : Z) (st : list Z * Z) : option (list Z * Z) :=
  let '(data, bit_pos) := st in
  e ← tbl_enc !! Z.to_nat i;
  add_bits data bit_pos (bits e) (bits_len e).

Definition put_couple (tbl_enc : list HUFENCODE) (i : Z) (st : list Z * Z) : option (list Z * Z) :=
  let '(data, pos) := st in
  e ← tbl_enc !! Z.to_nat i;
  data ← wr data pos (u8 i);
  data ← wr data (pos + 1) (u8 (bits_len e));
  Some (data, pos + 2).

Section Passes.
Context (u : list Z) (code : Z -> list bool) (tbl_enc : list HUFENCODE).
Hypothesis Htbl : forall i, i ∈ u ->
  tbl_enc !! Z.to_nat i = Some (Encode (Z.of_nat (length (code i))) (code_number 0 (code i))).

Lemma put_codes l data k :
  (forall i, i ∈ l -> i ∈ u) -> (k + length (l ≫= code) <= 8 * length data)%nat ->
  8 * Z.of_nat (length data) < 2 ^ 64 ->
  exists data', steps l (put_code tbl_enc) (data, Z.of_nat k) = Some (data', Z.of_nat (k + length (l ≫= code))) /\
    extends data data' k /\ (blank data k -> reads data' k (l ≫= code) /\ blank data' (k + length (l ≫= code))).
Proof.
  revert data k. induction l as [|i l IH]; intros data k Hl Hk H64.
  - exists data. simpl. rewrite Nat.add_0_r. split; [done|]. split; [done|]. intros Hb. split; [|done].
    split; [simpl in *; lia|]. done.
  - cbn [mbind list_bind] in *. rewrite length_app in *. cbn [steps put_code].
    rewrite Htbl by apply Hl, list_elem_of_here. cbn [mbind option_bind bits bits_len].
    destruct (add_bits_ok data k (code i) ltac:(lia) H64) as (d1 & -> & X1 & R1). cbn [mbind option_bind].
    pose proof X1 as (L1 & _ & _).
    destruct (IH d1 (k + length (code i))%nat) as (d2 & -> & X2 & R2); [|lia|lia|].
    { intros j Hj. by apply Hl, list_elem_of_further. }
    exists d2. rewrite Nat.add_assoc. split; [done|]. split; [eapply extends_trans; [done|done|lia]|].
    intros Hb. destruct (R1 Hb) as [Hr1 Hb1]. destruct (R2 Hb1) as [Hr2 Hb2]. split; [|done].
    apply reads_app. split; [|done]. eapply extends_reads; [done| |done]. lia.
Qed.

(** The list of couples. *)
Definition couple (i : Z) : list Z := [i; Z.of_nat (length (code i))].

Lemma couples_length l : length (l ≫= couple) = (2 * length l)%nat.
Proof. induction l as [|i l IH]; [done|]. cbn [mbind list_bind]. rewrite length_app, IH. simpl. lia. Qed.

Lemma put_couples l pre rest :
  (forall i, i ∈ l -> i ∈ u /\ word 8 i /\ (length (code i) < 256)%nat) -> (2 * length l <= length rest)%nat ->
  steps l (put_couple tbl_enc) (pre ++ rest, Z.of_nat (length pre))
  = Some (pre ++ (l ≫= couple) ++ drop (2 * length l) rest, Z.of_nat (length pre + 2 * length l)).
Proof.
  revert pre rest. induction l as [|i l IH]; intros pre rest Hl Hr.
  - simpl. by rewrite Nat.add_0_r.
  - destruct rest as [|x [|y rest]]; [simpl in Hr; lia..|].
    destruct (Hl i (list_elem_of_here _ _)) as (Hi & Hw & Hlen). cbn [steps put_couple].
    rewrite Htbl by done. cbn [mbind option_bind bits_len].
    rewrite wr_in, Nat2Z.id by (rewrite length_app; simpl; lia). cbn [mbind option_bind].
    rewrite insert_app_r_alt, Nat.sub_diag by done. cbn [insert list_insert].
    rewrite wr_in by (rewrite length_app; simpl; lia). cbn [mbind option_bind].
    replace (Z.to_nat (Z.of_nat (length pre) + 1)) with (length pre + 1)%nat by lia.
    rewrite insert_app_r_alt by lia. replace (length pre + 1 - length pre)%nat with 1%nat by lia.
    cbn [insert list_insert]. rewrite (u8_id i Hw), u8_id by (unfold word; lia).
    specialize (IH (pre ++ couple i) rest). rewrite <- app_assoc, length_app in IH.
    unfold couple at 1 2 in IH. cbn [app length] in IH.
    replace (Z.of_nat (length pre) + 2) with (Z.of_nat (length pre + 2)) by lia. rewrite IH.
    + f_equal. f_equal; [|simpl; lia]. rewrite <- app_assoc. cbn [mbind list_bind]. rewrite <- app_assoc.
      do 2 f_equal. replace (2 * length (i :: l))%nat with (S (S (2 * length l))) by (simpl; lia). done.
    + intros j Hj. by apply Hl, list_elem_of_further.
    + simpl in Hr. lia.
Qed.

End Passes.

Lemma round8_ok (k : nat) : exists k' : nat, round8 (Z.of_nat k) = Z.of_nat k' /\ (k <= k' < k + 8)%nat /\ (8 * (k' / 8) = k')%nat.
Proof.
  exists (8 * ((k + 7) / 8))%nat. unfold round8.
  assert (E : Z.land (Z.of_nat k + 7) (Z.lnot 7) = 8 * ((Z.of_nat k + 7) / 8)).
  { change 7 with (Z.ones 3) at 2. rewrite <- Z.ldiff_land, Z.ldiff_ones_r, Z.shiftr_div_pow2, Z.shiftl_mul_pow2 by lia.
    change (2 ^ 3) with 8. lia. }
  rewrite E. pose proof (Nat.div_mod_eq (k + 7) 8). pose proof (Nat.mod_upper_bound (k + 7) 8 ltac:(lia)).
  split; [|split; [lia|]].
  - rewrite Nat2Z.inj_mul, Nat2Z.inj_div, Nat2Z.inj_add. done.
  - rewrite (Nat.mul_comm 8 ((k + 7) / 8)), Nat.div_mul by lia. lia.
Qed.

(** ** What the encoder produces *)

(** The file format: 11 bytes of header, the couples, the codes of the bytes
    that occur, and, from the next byte on, the codes of the string. *)
Record layout (str d u : list Z) (code : Z -> list bool) : Prop := {
  l_head : exists parity, word 8 parity /\
    take (11 + 2 * length u) d
    = he3_header parity (Z.of_nat (length str)) (Z.of_nat (length u)) ++ (u ≫= couple code);
  l_patterns : reads d (8 * (11 + 2 * length u)) (u ≫= code);
  l_codes : exists k : nat,
    Z.of_nat k = Z.of_nat (8 * (11 + 2 * length u)) + round8 (Z.of_nat (length (u ≫= code))) /\
    reads d k (str ≫= code);
  l_size : 8 * Z.of_nat (length d) < 2 ^ 40
}.

Fixpoint fib_pair (n : nat) : Z * Z :=
  match n with O => (0, 1) | S n => let '(a, b) := fib_pair n in (b, a + b) end.

Lemma fib_pair_ok n : fib_pair n = (fib n, fib (S n)).
Proof.
  induction n as [|n IH]; [done|]. cbn [fib_pair]. rewrite IH. f_equal. rewrite fib_SS. lia.
Qed.

(** A tree over fewer than [fib (h + 3)] bytes is not higher than [h]. *)
Lemma height_bound h (t : HUFNODE) n f : fst (fib_pair (h + 3)) = f -> fib (height t + 2) <= n -> n < f -> (height t <= h)%nat.
Proof.
  intros <- Hf Hn. rewrite fib_pair_ok in Hn. simpl in Hn.
  destruct (Nat.le_gt_cases (height t) h) as [|Hh]; [done|].
  pose proof (fib_mono (h + 3) (height t + 2) ltac:(lia)). lia.
Qed.

Lemma codes_length l (code : Z -> list bool) h :
  (forall i, i ∈ l -> (length (code i) <= h)%nat) -> (length (l ≫= code) <= length l * h)%nat.
Proof.
  induction l as [|i l IH]; intros H; [done|]. cbn [mbind list_bind]. rewrite length_app. simpl.
  pose proof (H i (list_elem_of_here _ _)). specialize (IH ltac:(intros; by apply H, list_elem_of_further)). lia.
Qed.

Lemma codes_sum l (code : Z -> list bool) :
  Z.of_nat (length (l ≫= code)) = sum_over l (fun i => Z.of_nat (length (code i))).
Proof. induction l as [|i l IH]; [done|]. cbn [mbind list_bind]. rewrite length_app. simpl. lia. Qed.

Lemma round8_add (m x : nat) : round8 (Z.of_nat (8 * m + x)) = Z.of_nat (8 * m) + round8 (Z.of_nat x).
Proof.
  assert (E : forall y, round8 y = 8 * ((y + 7) / 8)).
  { intros y. unfold round8. change (Z.lnot 7) with (Z.lnot (Z.ones 3)).
    rewrite <- Z.ldiff_land, Z.ldiff_ones_r, Z.shiftr_div_pow2, Z.shiftl_mul_pow2 by lia. change (2 ^ 3) with 8. lia. }
  rewrite !E. Z.div_mod_to_equations. lia.
Qed.

Lemma parity_loop str p :
  Forall (word 8) str -> word 8 p -> exists q, for_up (length str) 0 (parity_step str) p = Some q /\ word 8 q.
Proof.
  intros Hs Hp. unfold parity_step. rewrite (for_up_bytes (fun c p => Some (u8 (Z.lxor p c)))).
  revert p Hp. induction Hs as [|c str Hc _ IH]; intros p Hp; simpl; [by exists p|]. apply IH. apply u8_range.
Qed.

Lemma blank_zeros pre rest (k : nat) : Forall (eq 0) rest -> (8 * length pre <= k)%nat -> blank (pre ++ rest) k.
Proof.
  intros Hr Hk j Hj. unfold bit. assert (Hd : (length pre <= j / 8)%nat) by (apply Nat.div_le_lower_bound; lia).
  rewrite nth_lookup, lookup_app_r by done.
  destruct (rest !! (j / 8 - length pre)%nat) as [v|] eqn:E; [|apply Z.bits_0].
  apply (Forall_lookup_1 _ _ _ _ Hr) in E as <-. apply Z.bits_0.
Qed.

(** The tables of a string: the counts, the tree and the codes. *)
Record tables (str occurs : list Z) (t : HUFNODE) : Prop := {
  t_counting : counting occurs;
  t_counts : forall i, 0 <= i < 256 -> count occurs i = occurrences str i;
  t_huffman : huffman occurs t;
  t_total : total occurs = Z.of_nat (length str)
}.

Section Tables.
Context (str occurs : list Z) (t : HUFNODE).
Hypothesis Hs : Forall (word 8) str.
Hypothesis HT : tables str occurs t.

Lemma used_str i : i ∈ used occurs 256 <-> i ∈ str.
Proof.
  rewrite elem_of_used. split.
  - intros [Hi Hc]. rewrite (t_counts _ _ _ HT) in Hc by done. by apply occurrences_pos.
  - intros Hi. assert (Hb : word 8 i) by (by rewrite Forall_forall in Hs; apply Hs). unfold word in Hb.
    split; [lia|]. rewrite (t_counts _ _ _ HT) by lia. by apply occurrences_pos.
Qed.

Lemma str_codes_length : Z.of_nat (length (str ≫= code t)) <= 8 * Z.of_nat (length str).
Proof.
  rewrite codes_sum, <- (sum_occurrences (used occurs 256)).
  - rewrite <- (t_total _ _ _ HT). etransitivity; [|apply (code_cost _ _ (t_huffman _ _ _ HT))].
    rewrite (sum_over_ext _ _ (fun i => count occurs i * Z.of_nat (length (code t i)))); [done|].
    intros i Hi%elem_of_used. by rewrite (t_counts _ _ _ HT) by lia.
  - apply used_NoDup.
  - intros c. apply used_str.
Qed.

End Tables.

Lemma make_tables str :
  Forall (word 8) str -> str <> [] -> Z.of_nat (length str) < 2 ^ 32 ->
  exists occurs t, for_up (length str) 0 (count_step str) (replicate 256 0) = Some occurs /\
    build_tree occurs = Some (t, Z.of_nat (length (used occurs 256))) /\ tables str occurs t.
Proof.
  intros Hs Hne Hl. destruct (count_loop str Hs Hl) as (occurs & E & Hc & Ho).
  assert (Htot : total occurs = Z.of_nat (length str)).
  { change (total occurs) with (sum_over (used occurs 256) (count occurs)).
    rewrite (sum_over_ext _ _ (fun i => occurrences str i * 1)).
    - rewrite sum_occurrences; [|apply used_NoDup|].
      + clear. induction str as [|c s IH]; [done|]. simpl in *. lia.
      + intros c Hin. apply elem_of_used. rewrite Forall_forall in Hs. pose proof (Hs c Hin) as Hw. unfold word in Hw.
        split; [lia|]. rewrite Ho by lia. by apply occurrences_pos.
    - intros i Hi%elem_of_used. rewrite Ho by lia. lia. }
  destruct (build_tree_ok occurs Hc) as (t & Eb & Hh).
  { rewrite Htot. destruct str; [done|]. simpl in *. lia. }
  by exists occurs, t.
Qed.

Lemma couple_pass occurs tbl data pos :
  length occurs = 256%nat ->
  for_up 256 0 (couple_step occurs tbl) (data, pos) = steps (used occurs 256) (put_couple tbl) (data, pos).
Proof.
  intros Hl. apply for_up_used. intros i [d p] Hi. unfold couple_step. by rewrite (rd_count occurs i Hl Hi).
Qed.

Lemma pattern_pass occurs tbl data pos :
  length occurs = 256%nat ->
  for_up 256 0 (pattern_step occurs tbl) (data, pos) = steps (used occurs 256) (put_code tbl) (data, pos).
Proof.
  intros Hl. apply for_up_used. intros i [d p] Hi. unfold pattern_step. by rewrite (rd_count occurs i Hl Hi).
Qed.

Lemma string_pass str tbl st : for_up (length str) 0 (encode_step str tbl) st = steps str (put_code tbl) st.
Proof.
  rewrite <- for_up_bytes. generalize 0 as i. revert st. generalize (length str) as n.
  induction n as [|n IH]; intros [d p] i; [done|]. cbn [for_up encode_step].
  destruct (rd str i) as [c|]; [|done]. cbn [mbind option_bind put_code].
  destruct (tbl !! Z.to_nat c) as [e|]; [|done]. cbn [mbind option_bind].
  destruct (add_bits d p (bits e) (bits_len e)); [|done]. apply IH.
Qed.

(** The three passes over the buffer, from the header on. *)
Lemma passes_ok str occurs t tbl hdr rest n :
  Forall (word 8) str -> tables str occurs t -> (height t <= 44)%nat ->
  (forall i, i ∈ used occurs 256 ->
     tbl !! Z.to_nat i = Some (Encode (Z.of_nat (length (code t i))) (code_number 0 (code t i)))) ->
  length hdr = 11%nat -> (length (hdr ++ rest) = length str + 2560)%nat -> Z.of_nat (length str) + 2560 < 2 ^ 31 ->
  n = length (used occurs 256) ->
  exists d2 d3 d4 k1 k2,
    steps (used occurs 256) (put_couple tbl) (hdr ++ rest, 11) = Some (d2, Z.of_nat (11 + 2 * n)) /\
    steps (used occurs 256) (put_code tbl) (d2, Z.of_nat (8 * (11 + 2 * n))) = Some (d3, Z.of_nat k1) /\
    round8 (Z.of_nat k1) = Z.of_nat k2 /\
    Z.of_nat k2 = Z.of_nat (8 * (11 + 2 * n)) + round8 (Z.of_nat (length (used occurs 256 ≫= code t))) /\
    steps str (put_code tbl) (d3, Z.of_nat k2) = Some (d4, Z.of_nat (k2 + length (str ≫= code t))) /\
    (k2 + length (str ≫= code t) + 16 <= 8 * length d4)%nat /\ length d4 = (length str + 2560)%nat /\
    (8 * (11 + 2 * n) + length (used occurs 256 ≫= code t) <= k2)%nat /\
    take (11 + 2 * n) d4 = hdr ++ (used occurs 256 ≫= couple (code t)) /\
    (Forall (eq 0) rest ->
       reads d4 (8 * (11 + 2 * n)) (used occurs 256 ≫= code t) /\ reads d4 k2 (str ≫= code t)).
Proof.
  intros Hs HT Hh Htbl Hhdr Hlen Hbig ->. set (u := used occurs 256) in *.
  assert (Hu : (length u <= 256)%nat) by apply used_length.
  rewrite length_app in Hlen.
  pose proof (codes_length u (code t) 44) as Hpat.
  assert (Hcl : forall i, i ∈ u -> (length (code t i) <= 44)%nat).
  { intros i Hi. pose proof (code_length _ _ (t_huffman _ _ _ HT) i Hi). lia. }
  specialize (Hpat Hcl). pose proof (str_codes_length str occurs t Hs HT) as Hstr.
  pose proof (put_couples u (code t) tbl Htbl u hdr rest) as E2. rewrite Hhdr in E2.
  assert (Hw : forall i, i ∈ u -> word 8 i) by (intros i [Hi _]%elem_of_used; unfold word; lia).
  specialize (E2 ltac:(intros i Hi; specialize (Hcl i Hi); split; [done|split; [by apply Hw|lia]]) ltac:(lia)).
  set (d2 := hdr ++ (u ≫= couple (code t)) ++ drop (2 * length u) rest) in *.
  assert (L2 : length d2 = (length str + 2560)%nat).
  { unfold d2. rewrite !length_app, couples_length, length_drop. lia. }
  set (k0 := (8 * (11 + 2 * length u))%nat) in *.
  destruct (put_codes u (code t) tbl Htbl u d2 k0) as (d3 & E3 & X3 & R3); [done|lia..|].
  pose proof X3 as (L3 & _ & _).
  destruct (round8_ok (k0 + length (u ≫= code t))) as (k2 & Ek2 & Hk2 & _).
  destruct (put_codes u (code t) tbl Htbl str d3 k2) as (d4 & E4 & X4 & R4); [|lia..|].
  { intros i. apply (used_str str occurs t Hs HT). }
  pose proof X4 as (L4 & _ & T4).
  exists d2, d3, d4, (k0 + length (u ≫= code t))%nat, k2.
  split; [exact E2|]. split; [exact E3|]. split; [exact Ek2|]. split.
  { rewrite <- Ek2. unfold k0. by rewrite round8_add. }
  split; [exact E4|]. split; [lia|]. split; [lia|]. split; [lia|]. split.
  - destruct X3 as (_ & _ & T3). rewrite T4, T3 by lia. unfold d2. rewrite app_assoc, take_app_length'; [done|].
    rewrite length_app, couples_length. lia.
  - intros Hz. assert (B2 : blank d2 k0).
    { unfold d2. rewrite app_assoc. apply blank_zeros; [by apply Forall_drop|].
      rewrite length_app, couples_length. lia. }
    destruct (R3 B2) as [Hr3 B3]. split.
    + eapply extends_reads; [exact X4|lia|done].
    + apply R4. intros j Hj. apply B3. lia.
Qed.

Lemma reads_take data m k w :
  (m <= length data)%nat -> reads data k w -> (k + length w <= 8 * m)%nat -> reads (take m data) k w.
Proof.
  intros Hm [_ H] Hk. split; [rewrite length_take; lia|]. intros i b Hi. rewrite <- (H i b Hi).
  pose proof (lookup_lt_Some _ _ _ Hi). unfold bit. rewrite !nth_lookup, lookup_take_lt; [done|].
  apply Nat.Div0.div_lt_upper_bound. lia.
Qed.

Lemma encode_ok malloc str :
  Forall (word 8) str -> str <> [] -> Z.of_nat (length str) + 2560 < 2 ^ 31 ->
  (forall n, 0 <= n -> length (malloc n) = Z.to_nat n) ->
  exists d occurs t, ml_che3_compress malloc str = Some d /\ (length d <= length str + 2560)%nat /\
    tables str occurs t /\
    (Forall (eq 0) (malloc (Z.of_nat (length str) + 2560)) -> layout str d (used occurs 256) (code t)).
Proof.
  intros Hs Hne Hbig Hm. destruct (make_tables str Hs Hne ltac:(lia)) as (occurs & t & Eo & Et & HT).
  assert (Hh : (height t <= 44)%nat).
  { pose proof (h_depth _ _ (t_huffman _ _ _ HT)) as Hd. rewrite (t_total _ _ _ HT) in Hd.
    apply (height_bound 44 t (Z.of_nat (length str)) 2971215073); [by vm_compute|done|lia]. }
  destruct (parity_loop str 0 Hs ltac:(unfold word; lia)) as (parity & Ep & Wp).
  set (block := malloc (Z.of_nat (length str) + 2560)) in *.
  assert (Lb : length block = (length str + 2560)%nat) by (unfold block; rewrite Hm; lia).
  set (hdr := he3_header parity (Z.of_nat (length str)) (Z.of_nat (length (used occurs 256)))).
  set (tbl := use_hufnode (replicate 256 (Encode 0 0)) t 0 0).
  destruct (passes_ok str occurs t tbl hdr (drop 11 block) (length (used occurs 256)) Hs HT Hh)
    as (d2 & d3 & d4 & k1 & k2 & E2 & E3 & Ek & Ek2 & E4 & Hfit & L4 & Hk2 & Hhead & Hreads); [|done| |done|done|].
  { intros i. apply tree_table; [apply HT|lia]. }
  { rewrite length_app, length_drop. change (length hdr) with 11%nat. lia. }
  destruct (round8_ok (k2 + length (str ≫= code t))) as (k3 & Ek3 & Hk3 & Hk3').
  exists (take (k3 / 8 + 1) d4), occurs, t.
  assert (Hd : (k3 / 8 + 1 <= length d4)%nat) by lia. split.
  { unfold ml_che3_compress, encode_he3_data. rewrite Nat2Z.id, Eo.
    destruct (Z.eqb_spec (Z.of_nat (length str)) 0); [destruct str; simpl in *; (done || lia)|].
    cbn [mbind option_bind]. rewrite Et. cbn [mbind option_bind]. rewrite Ep. cbn [mbind option_bind].
    change (256 * 10) with 2560. fold block hdr tbl.
    pose proof (blit_in block 0 hdr ltac:(change (length hdr) with 11%nat; lia)) as Eb.
    change (Z.of_nat 0) with 0 in Eb. rewrite Eb, take_0. cbn [mbind option_bind app Nat.add].
    change (length hdr) with 11%nat.
    pose proof (proj1 (t_counting _ _ _ HT)) as Hlo. rewrite couple_pass, E2 by done. cbn [mbind option_bind].
    replace (Z.of_nat (11 + 2 * length (used occurs 256)) * 8)
      with (Z.of_nat (8 * (11 + 2 * length (used occurs 256)))) by lia.
    rewrite pattern_pass, E3 by done. cbn [mbind option_bind]. rewrite Ek, string_pass, E4. cbn [mbind option_bind].
    rewrite Ek3. replace (Z.of_nat k3 / 8 + 1) with (Z.of_nat (k3 / 8 + 1)) by (rewrite Nat2Z.inj_add, Nat2Z.inj_div; done).
    by rewrite sub_bytes_0 by lia. }
  split; [rewrite length_take; lia|]. split; [done|]. intros Hz.
  destruct (Hreads (Forall_drop _ _ _ Hz)) as [Hr1 Hr2].
  split.
  - exists parity. split; [done|]. rewrite take_take, Nat.min_l by lia. done.
  - apply reads_take; [lia|done|]. lia.
  - exists k2. split; [done|]. apply reads_take; [lia|done|lia].
  - rewrite length_take. lia.
Qed.

(** ** The decoder's passes *)

(** The array after the codes of [l] are written. *)
Definition filled (code : Z -> list bool) (l : list Z) (da : list Z) : list Z :=
  foldl (fun da i => <[Z.to_nat (code_number 1 (code i)) := i]> da) da l.

Lemma filled_length code l da : length (filled code l da) = length da.
Proof. revert da. induction l as [|i l IH]; intros da; simpl; [done|]. by rewrite IH, length_insert. Qed.

Lemma code_number_1_range w : 2 ^ Z.of_nat (length w) <= code_number 1 w < 2 * 2 ^ Z.of_nat (length w).
Proof. rewrite code_number_split. pose proof (code_number_word w) as H. unfold word in H. lia. Qed.

(** A write of another code leaves the place of [w] alone. *)
Lemma code_place_ne w v : w <> v -> Z.to_nat (code_number 1 w) <> Z.to_nat (code_number 1 v).
Proof.
  intros Hne H. apply Hne, code_number_1_inj.
  pose proof (code_number_1_range w). pose proof (code_number_1_range v).
  assert (0 < 2 ^ Z.of_nat (length w)) by lia. assert (0 < 2 ^ Z.of_nat (length v)) by lia. lia.
Qed.

Lemma filled_out code l da j v : filled code l da !! j = Some v -> v <> 0 -> Forall (eq 0) da ->
  v ∈ l /\ j = Z.to_nat (code_number 1 (code v)).
Proof.
  intros H Hv Hda. revert H. enough (G : forall da', (forall j v, da' !! j = Some v -> v <> 0 ->
    v ∈ l /\ j = Z.to_nat (code_number 1 (code v))) -> forall k, (forall i, i ∈ k -> i ∈ l) ->
    filled code k da' !! j = Some v -> v ∈ l /\ j = Z.to_nat (code_number 1 (code v))).
  { apply G; [|done]. intros j' v' H Hv'. apply (Forall_lookup_1 _ _ _ _ Hda) in H. congruence. }
  intros da' Hd k. revert da' Hd. induction k as [|i k IH]; intros da' Hd Hk; [intros H; by apply Hd|]. simpl.
  apply IH; [|intros i' Hi; by apply Hk, list_elem_of_further]. intros j' v' H Hv'.
  destruct (decide (j' = Z.to_nat (code_number 1 (code i)))) as [->|Hne].
  - apply list_lookup_insert_Some in H as [(_ & <- & _)|(? & _)]; [|done].
    split; [apply Hk, list_elem_of_here|done].
  - rewrite list_lookup_insert_ne in H by done. by apply Hd.
Qed.

Lemma filled_in u code l da i :
  coding u code -> (forall i, i ∈ l -> i ∈ u) -> i ∈ l ->
  (forall i, i ∈ l -> (Z.to_nat (code_number 1 (code i)) < length da)%nat) ->
  filled code l da !! Z.to_nat (code_number 1 (code i)) = Some i.
Proof.
  intros Hc Hu. revert i. induction l as [|c l IH] using rev_ind; intros i Hi Hr; [by apply not_elem_of_nil in Hi|].
  unfold filled. rewrite foldl_app. simpl. fold (filled code l da).
  destruct (decide (i = c)) as [->|Hne].
  - apply list_lookup_insert_eq. rewrite filled_length. apply Hr, elem_of_app. right. apply list_elem_of_here.
  - apply elem_of_app in Hi as [Hi|Hi]; [|by apply list_elem_of_singleton in Hi].
    rewrite list_lookup_insert_ne.
    + apply IH; [|done|]; intros j Hj; [apply Hu|apply Hr]; apply elem_of_app; by left.
    + apply code_place_ne. intros E. apply Hne. symmetry. apply (c_prefix _ _ Hc).
      * apply Hu, elem_of_app. right. apply list_elem_of_here.
      * apply Hu, elem_of_app. by left.
      * by rewrite E.
Qed.

Section Decoder.
Context (d : list Z) (u : list Z) (code : Z -> list bool).
Hypothesis Hc : coding u code.
Hypothesis Hd : 8 * Z.of_nat (length d) < 2 ^ 40.

(** The couples of [l] are in the file from number [p] on. *)
Definition couples_at (l : list Z) (p : Z) : Prop :=
  forall j i, l !! j = Some i ->
    rd d (11 + (p + Z.of_nat j) * 2) = Some i /\
    rd d (12 + (p + Z.of_nat j) * 2) = Some (Z.of_nat (length (code i))).

Lemma couples_at_cons i l p : couples_at (i :: l) p ->
  rd d (11 + p * 2) = Some i /\ rd d (12 + p * 2) = Some (Z.of_nat (length (code i))) /\ couples_at l (p + 1).
Proof.
  intros H. pose proof (H 0%nat i eq_refl) as [H1 H2]. rewrite Z.add_0_r in H1, H2. split; [done|]. split; [done|].
  intros j k Hk. specialize (H (S j) k Hk). by replace (p + 1 + Z.of_nat j) with (p + Z.of_nat (S j)) by lia.
Qed.

Lemma lens_ok l p mx tt :
  couples_at l p ->
  exists mx', for_up (length l) p (lens_step d) (mx, tt) = Some (mx', tt + Z.of_nat (length (l ≫= code))) /\
    mx <= mx' /\ (forall i, i ∈ l -> Z.of_nat (length (code i)) <= mx') /\
    (forall h, mx <= h -> (forall i, i ∈ l -> Z.of_nat (length (code i)) <= h) -> mx' <= h).
Proof.
  revert p mx tt. induction l as [|i l IH]; intros p mx tt H.
  - exists mx. simpl. rewrite Z.add_0_r. split; [done|]. split; [lia|]. split; [by intros ? ?%not_elem_of_nil|done].
  - apply couples_at_cons in H as (_ & H2 & H). cbn [length for_up lens_step]. rewrite H2. cbn [mbind option_bind list_bind].
    set (v := Z.of_nat (length (code i))).
    destruct (IH (p + 1) (if mx <? v then v else mx) (tt + v) H) as (mx' & -> & Hle & Hall & Hup).
    exists mx'. split; [f_equal; f_equal; rewrite length_app; unfold v; lia|].
    assert (Hmx : mx <= (if mx <? v then v else mx) /\ v <= (if mx <? v then v else mx)) by (bdestr; lia).
    split; [lia|]. split.
    + intros j [->|Hj]%elem_of_cons; [fold v; lia|by apply Hall].
    + intros h Hh Hl. apply Hup.
      * pose proof (Hl i (list_elem_of_here _ _)) as Hv. fold v in Hv. bdestr; lia.
      * intros j Hj. by apply Hl, list_elem_of_further.
Qed.

Lemma fill_ok l p da k (mx : nat) :
  couples_at l p -> reads d k (l ≫= code) -> (mx < 60)%nat -> (forall i, i ∈ l -> (length (code i) <= mx)%nat) ->
  Z.of_nat (length da) = 2 ^ Z.of_nat (S mx) ->
  for_up (length l) p (fill_step d) (da, Z.of_nat k) = Some (filled code l da, Z.of_nat (k + length (l ≫= code))).
Proof.
  intros Hp Hr Hmx Hl Hda. revert p da k Hp Hr Hda. induction l as [|i l IH]; intros p da k Hp Hr Hda.
  - simpl. by rewrite Nat.add_0_r.
  - apply couples_at_cons in Hp as (H1 & H2 & Hp). cbn [mbind list_bind] in Hr. apply reads_app in Hr as [Hr1 Hr2].
    pose proof (Hl i (list_elem_of_here _ _)) as Hi.
    cbn [length for_up fill_step]. rewrite H2. cbn [mbind option_bind]. rewrite Nat2Z.id.
    rewrite (get_bits_ok d k (code i) 0 0 Hr1) by (unfold word; simpl; lia). cbn [mbind option_bind]. rewrite H1.
    cbn [mbind option_bind]. rewrite code_number_1. pose proof (code_number_1_range (code i)) as Hn.
    assert (Hpow : 2 * 2 ^ Z.of_nat (length (code i)) <= 2 ^ Z.of_nat (S mx)).
    { rewrite <- Z.pow_succ_r by lia. apply Z.pow_le_mono_r; lia. }
    rewrite wr_in by lia. cbn [mbind option_bind list_bind].
    rewrite (IH ltac:(intros j Hj; by apply Hl, list_elem_of_further) (p + 1) _ (k + length (code i))%nat Hp Hr2).
    + by rewrite length_app, Nat.add_assoc.
    + by rewrite length_insert.
Qed.

Context (mx : nat) (da : list Z).
Hypothesis Hmx : (mx < 30)%nat.
Hypothesis Hcode : forall i, i ∈ u -> (length (code i) <= mx)%nat.
Hypothesis Hda : da = filled code u (replicate (Z.to_nat (Z.shiftl 1 (Z.of_nat mx + 1))) 0).

Lemma da_length : Z.of_nat (length da) = 2 ^ Z.of_nat (S mx).
Proof.
  rewrite Hda, filled_length, length_replicate, Z.shiftl_mul_pow2, Z.mul_1_l by lia.
  replace (Z.of_nat mx + 1) with (Z.of_nat (S mx)) by lia. assert (0 < 2 ^ Z.of_nat (S mx)) by lia. lia.
Qed.

(** The array holds the byte of a code, and 0 wherever no code leads. *)
Lemma da_rd w : (length w <= mx)%nat ->
  exists c, rd da (Z.shiftl 1 (Z.of_nat (length w)) + code_number 0 w) = Some c /\
    (c <> 0 -> c ∈ u /\ code c = w) /\ (forall i, i ∈ u -> code i = w -> c = i).
Proof.
  intros Hw. rewrite code_number_1. pose proof (code_number_1_range w) as Hr. pose proof da_length as Hl.
  assert (Hpow : 2 * 2 ^ Z.of_nat (length w) <= 2 ^ Z.of_nat (S mx)).
  { rewrite <- Z.pow_succ_r by lia. apply Z.pow_le_mono_r; lia. }
  destruct (rd_in da (code_number 1 w) ltac:(lia)) as [c Ec]. exists c. split; [done|].
  apply rd_Some in Ec as [_ Ec]. rewrite Hda in Ec. split.
  - intros Hne. destruct (filled_out _ _ _ _ _ Ec Hne) as [Hu Hi]; [by apply Forall_replicate|]. split; [done|].
    destruct (decide (code c = w)) as [|Hn]; [done|]. by destruct (code_place_ne _ _ Hn).
  - intros i Hi Hci. rewrite <- Hci, (filled_in u) in Ec; [congruence|done|done|done|].
    intros j Hj. pose proof (code_number_1_range (code j)). pose proof (Hcode j Hj).
    rewrite Hda, filled_length in Hl. apply Nat2Z.inj_lt. rewrite Hl, Z2Nat.id by lia.
    apply Z.lt_le_trans with (2 * 2 ^ Z.of_nat (length (code j))); [lia|].
    rewrite <- Z.pow_succ_r by lia. apply Z.pow_le_mono_r; lia.
Qed.

Lemma da_rd_out w : (mx < length w)%nat -> rd da (Z.shiftl 1 (Z.of_nat (length w)) + code_number 0 w) = None.
Proof.
  intros Hw. rewrite code_number_1. pose proof (code_number_1_range w) as Hr. pose proof da_length as Hl.
  assert (2 ^ Z.of_nat (S mx) <= 2 ^ Z.of_nat (length w)) by (apply Z.pow_le_mono_r; lia).
  destruct (rd da (code_number 1 w)) as [v|] eqn:E; [|done]. apply rd_bound in E. lia.
Qed.

Lemma next_number w b : (length w < 64)%nat ->
  Z.lor (u64 (Z.shiftl (code_number 0 w) 1)) (Z.b2z b) = code_number 0 (w ++ [b]) /\
  Z.of_nat (length w) + 1 = Z.of_nat (length (w ++ [b])).
Proof.
  intros Hw. destruct (shift_in (code_number 0 w) b (length w) (code_number_word w) Hw) as [-> _].
  rewrite code_number_app, length_app. split; [done|]. simpl. lia.
Qed.

Lemma decode_symbol_ok fuel i w1 w2 k :
  i ∈ u -> i <> 0 -> code i = w1 ++ w2 -> reads d k w2 -> (length w2 <= fuel)%nat ->
  decode_symbol fuel d da (code_number 0 w1) (Z.of_nat (length w1)) (Z.of_nat k)
  = Some (i, Z.of_nat (k + length w2)).
Proof.
  intros Hi Hi0. revert fuel w1 k. induction w2 as [|b w2 IH]; intros fuel w1 k Hw Hr Hf.
  - rewrite app_nil_r in Hw. pose proof (Hcode i Hi) as Hl. rewrite Hw in Hl.
    destruct (da_rd w1 Hl) as (c & E & _ & Hall). pose proof (Hall i Hi Hw) as ->.
    destruct fuel; cbn [decode_symbol]; rewrite E; cbn [mbind option_bind].
    all: destruct (Z.eqb_spec i 0); [done|]; simpl; by rewrite Nat.add_0_r.
  - pose proof (Hcode i Hi) as Hl. rewrite Hw, length_app in Hl. simpl in Hl, Hf.
    destruct fuel as [|fuel]; [lia|]. destruct (da_rd w1 ltac:(lia)) as (c & E & Hne & _).
    cbn [decode_symbol]. rewrite E. cbn [mbind option_bind]. destruct (Z.eqb_spec c 0) as [|Hc0].
    + pose proof Hr as [Hk _]. simpl in Hk. apply reads_cons in Hr as [Hb Hr].
      rewrite get_bit_ok by lia. cbn [mbind option_bind]. rewrite Hb.
      destruct (next_number w1 b ltac:(lia)) as [-> ->].
      rewrite (IH fuel (w1 ++ [b]) (S k)); [|by rewrite <- app_assoc|done|lia].
      cbn [length]. by rewrite Nat.add_succ_comm.
    + destruct (Hne Hc0) as [Hcu Hcw]. assert (c = i) as ->.
      { apply (c_prefix _ _ Hc); [done|done|]. rewrite Hcw, Hw. by eexists. }
      exfalso. rewrite Hw in Hcw. apply (f_equal length) in Hcw. rewrite length_app in Hcw. simpl in Hcw. lia.
Qed.

(** No byte but 0 is found beyond the bits [w]. *)
Definition dead (w : list bool) : Prop := forall j, j ∈ u -> j <> 0 -> ~ w `prefix_of` code j.

Lemma decode_dead fuel w k : dead w -> decode_symbol fuel d da (code_number 0 w) (Z.of_nat (length w)) k = None.
Proof.
  revert w k. induction fuel as [|fuel IH]; intros w k Hw; cbn [decode_symbol].
  all: destruct (Nat.le_gt_cases (length w) mx) as [Hl|Hl]; [|by rewrite da_rd_out by lia].
  all: destruct (da_rd w Hl) as (c & -> & Hne & _); cbn [mbind option_bind].
  all: destruct (Z.eqb_spec c 0) as [|Hc0]; [|destruct (Hne Hc0) as [Hcu Hcw]; destruct (Hw c Hcu Hc0); by rewrite Hcw].
  - done.
  - unfold get_bit. destruct (rd d (k / 8)) as [v|]; [|done]. cbn [mbind option_bind].
    assert (Hb : exists b, Z.land (Z.shiftr v (Z.land k 7)) 1 = Z.b2z b).
    { exists (Z.odd (Z.shiftr v (Z.land k 7))). rewrite (Z.land_ones _ 1) by lia. apply Zmod_odd. }
    destruct Hb as [b ->]. destruct (next_number w b ltac:(lia)) as [-> ->]. apply IH.
    intros j Hj Hj0 Hp. apply (Hw j Hj Hj0). etransitivity; [|exact Hp]. by eexists.
Qed.

Lemma decode_zero fuel w1 w2 k :
  0 ∈ u -> code 0 = w1 ++ w2 -> reads d k w2 ->
  decode_symbol fuel d da (code_number 0 w1) (Z.of_nat (length w1)) (Z.of_nat k) = None.
Proof.
  intros H0. revert fuel w1 k. induction w2 as [|b w2 IH]; intros fuel w1 k Hw Hr.
  - apply decode_dead. rewrite app_nil_r in Hw. intros j Hj Hj0 Hp. apply Hj0. symmetry.
    apply (c_prefix _ _ Hc); [done|done|by rewrite Hw].
  - pose proof (Hcode 0 H0) as Hl. rewrite Hw, length_app in Hl. simpl in Hl.
    destruct (da_rd w1 ltac:(lia)) as (c & E & Hne & _). assert (c = 0) as ->.
    { destruct (decide (c = 0)) as [|Hc0]; [done|]. destruct (Hne Hc0) as [Hcu Hcw].
      apply (c_prefix _ _ Hc); [done|done|]. rewrite Hcw, Hw. by eexists. }
    destruct fuel as [|fuel]; cbn [decode_symbol]; rewrite E; cbn [mbind option_bind Z.eqb]; [done|].
    pose proof Hr as [Hk _]. simpl in Hk. apply reads_cons in Hr as [Hb Hr].
    rewrite get_bit_ok by lia. cbn [mbind option_bind]. rewrite Hb.
    destruct (next_number w1 b ltac:(lia)) as [-> ->]. apply IH; [by rewrite <- app_assoc|done].
Qed.

Lemma decode_loop_ok s k mz :
  mz = Z.of_nat mx -> (forall i, i ∈ u -> code i <> []) -> (forall i, i ∈ s -> i ∈ u) -> reads d k (s ≫= code) ->
  decode_loop (length s) mz d da (Z.of_nat k) = if decide (0 ∈ s) then None else Some s.
Proof.
  intros -> Hne. revert k. induction s as [|c s IH]; intros k Hs Hr; [by destruct (decide _) as [?%not_elem_of_nil|]|].
  cbn [mbind list_bind] in Hr. apply reads_app in Hr as [Hr1 Hr2].
  assert (Hcu : c ∈ u) by apply Hs, list_elem_of_here. pose proof (Hne c Hcu) as Hn. pose proof (Hcode c Hcu) as Hl.
  destruct (code c) as [|b w] eqn:Ecode; [done|]. pose proof Hr1 as [Hk _]. apply reads_cons in Hr1 as [Hb Hr1].
  simpl in Hk, Hl. cbn [length decode_loop]. rewrite get_bit_ok by lia. cbn [mbind option_bind].
  replace (Z.b2z (bit d k)) with (code_number 0 [b]) by (rewrite Hb; by destruct b).
  change 1 with (Z.of_nat (length [b])) at 1. rewrite Nat2Z.id.
  destruct (decide (c = 0)) as [->|Hc0].
  - rewrite (decode_zero mx [b] w (S k)) by done. destruct (decide (0 ∈ 0 :: s)) as [|H]; [done|].
    destruct H. apply list_elem_of_here.
  - rewrite (decode_symbol_ok mx c [b] w (S k)) by (done || lia). cbn [mbind option_bind].
    rewrite Nat.add_succ_comm, IH; [|intros i Hi; by apply Hs, list_elem_of_further|exact Hr2].
    destruct (decide (0 ∈ s)) as [H|H], (decide (0 ∈ c :: s)) as [H'|H']; rewrite elem_of_cons in H'; try done.
    + tauto.
    + destruct H' as [|]; congruence.
Qed.

End Decoder.

(** ** Decoding what was encoded *)


Lemma header_read d parity len n rest m :
  take m d = he3_header parity len n ++ rest -> (11 <= m)%nat -> 0 <= len < 2 ^ 31 -> 0 <= n <= 256 ->
  has_magic d = Some true /\ read_nb_output d = Some len /\
  read_nb_couple d = Some (if (128 <=? n) && (n <? 256) then n - 256 else n).
Proof.
  intros Hd Hm Hl Hn.
  assert (Hrd : forall j v, 0 <= j < 11 -> he3_header parity len n !! Z.to_nat j = Some v -> rd d j = Some v).
  { intros j v Hj Hv. apply rd_Some. split; [lia|]. rewrite <- (lookup_take_lt d m) by lia. rewrite Hd.
    by apply lookup_app_l_Some. }
  unfold has_magic, read_nb_output, read_nb_couple.
  rewrite (Hrd 0 _ ltac:(lia) eq_refl), (Hrd 1 _ ltac:(lia) eq_refl), (Hrd 2 _ ltac:(lia) eq_refl),
    (Hrd 3 _ ltac:(lia) eq_refl), (Hrd 5 _ ltac:(lia) eq_refl), (Hrd 6 _ ltac:(lia) eq_refl),
    (Hrd 7 _ ltac:(lia) eq_refl), (Hrd 8 _ ltac:(lia) eq_refl), (Hrd 9 _ ltac:(lia) eq_refl),
    (Hrd 10 _ ltac:(lia) eq_refl).
  cbn [mbind option_bind]. split; [done|].
  assert (Hb : forall x, word 8 (Z.land x 255)) by (intros x; apply word_land_r; unfold word; lia).
  assert (Hor : forall a x, Z.lor (Z.shiftl a 8) (Z.land x 255) = 256 * a + Z.land x 255).
  { intros a x. rewrite Z.lor_comm, lor_shiftl_add by (lia || done). change (2 ^ 8) with 256. lia. }
  assert (Hla : forall x, Z.land x 255 = x mod 256) by (intros x; by rewrite (Z.land_ones _ 8)).
  rewrite !Hor, !Hla, !Z.shiftr_div_pow2 by lia.
  change (2 ^ 8) with 256. change (2 ^ 16) with 65536. change (2 ^ 24) with 16777216. split; f_equal.
  - unfold s32. Z.div_mod_to_equations. lia.
  - rewrite Z.shiftl_mul_pow2 by lia. change (2 ^ 8) with 256. unfold s8.
    destruct (Z.leb_spec 128 n), (Z.ltb_spec n 256); simpl; Z.div_mod_to_equations; lia.
Qed.

Lemma couples_take u code l hdr d m :
  take m d = hdr ++ (u ≫= couple code) -> length hdr = 11%nat -> (m = 11 + 2 * length u)%nat -> l = u ->
  couples_at d code l 0.
Proof.
  intros Hd Hh -> -> j i Hj. pose proof (lookup_lt_Some _ _ _ Hj) as Hlt.
  assert (Hc : forall u j, u !! j = Some i -> (u ≫= couple code) !! (2 * j)%nat = Some i /\
    (u ≫= couple code) !! (2 * j + 1)%nat = Some (Z.of_nat (length (code i)))).
  { clear. induction u as [|c u IH]; intros [|j] H; try done.
    - simpl in H. injection H as ->. done.
    - destruct (IH j H) as [H1 H2]. replace (2 * S j)%nat with (S (S (2 * j))) by lia. done. }
  destruct (Hc u j Hj) as [H1 H2].
  assert (Hrd : forall k v, (k < 2 * length u)%nat -> (u ≫= couple code) !! k = Some v -> rd d (Z.of_nat (11 + k)) = Some v).
  { intros k v Hk Hv. rewrite rd_nat, <- (lookup_take_lt d (11 + 2 * length u)) by lia.
    rewrite Hd, lookup_app_r, Hh by lia. by replace (11 + k - 11)%nat with k by lia. }
  split; [rewrite <- (Hrd (2 * j)%nat _ ltac:(lia) H1)|rewrite <- (Hrd (2 * j + 1)%nat _ ltac:(lia) H2)]; f_equal; lia.
Qed.

(** On a file in the format, for few enough bytes with codes short enough. *)
Lemma decode_ok s d u code (h : nat) :
  layout s d u code -> coding u code -> (forall i, i ∈ u <-> i ∈ s) -> (h < 30)%nat ->
  (forall i, i ∈ u -> (length (code i) <= h)%nat) -> (forall i, i ∈ u -> code i <> []) ->
  (length u <= 256)%nat -> ((128 <=? Z.of_nat (length u)) && (Z.of_nat (length u) <? 256)) = false ->
  Z.of_nat (length s) < 2 ^ 31 ->
  ml_che3_decompress d = if decide (0 ∈ s) then None else Some s.
Proof.
  intros [(parity & Hp & Hhead) Hpat (k & Hk & Hstr) Hsize] Hc Hus Hh Hlen Hne Hu Hn Hs.
  destruct (header_read d parity (Z.of_nat (length s)) (Z.of_nat (length u)) _ _ Hhead) as (H1 & H2 & H3); [lia..|].
  rewrite Hn in H3. unfold ml_che3_decompress, decode_he3_data. rewrite H1. cbn [mbind option_bind negb].
  rewrite H2. cbn [mbind option_bind]. rewrite H3. cbn [mbind option_bind]. rewrite !Nat2Z.id.
  pose proof (couples_take u code u _ d _ Hhead eq_refl eq_refl eq_refl) as Hcp.
  destruct (lens_ok d code u 0 0 0 Hcp) as (mx & -> & Hmx0 & Hall & Hup). cbn [mbind option_bind].
  assert (Hmx : mx <= Z.of_nat h) by (apply Hup; [lia|]; intros i Hi; specialize (Hlen i Hi); lia).
  replace ((30 <=? mx) || (Z.of_nat (length s) <? 0)) with false by (symmetry; apply orb_false_iff; lia).
  assert (Hcode : forall i, i ∈ u -> (length (code i) <= Z.to_nat mx)%nat) by (intros i Hi; specialize (Hall i Hi); lia).
  assert (Epos : u64 (8 * (11 + Z.of_nat (length u) * 2)) = Z.of_nat (8 * (11 + 2 * length u))).
  { rewrite u64_id; [lia|]. unfold word. lia. }
  rewrite Epos, Z.add_0_l, <- Hk. pose proof Hstr as [Hkl _].
  rewrite (u64_id (Z.of_nat k)) by (unfold word; lia).
  rewrite <- (Z2Nat.id mx) at 1 by lia.
  rewrite (fill_ok d code Hsize u 0 _ _ (Z.to_nat mx) Hcp Hpat); [|lia|done|].
  - cbn [mbind option_bind]. apply (decode_loop_ok d u code Hc Hsize (Z.to_nat mx)); [lia|done|done|lia|done| |done].
    intros i Hi. by apply Hus.
  - rewrite length_replicate, Z.shiftl_mul_pow2, Z.mul_1_l by lia.
    replace (Z.of_nat (Z.to_nat mx) + 1) with (Z.of_nat (S (Z.to_nat mx))) by lia.
    assert (0 < 2 ^ Z.of_nat (S (Z.to_nat mx))) by lia. lia.
Qed.

(** With no code of one bit or more, every symbol is looked for outside of the
    two entries of [decode_array]. *)
Lemma decode_flat d da n k : length da = 2%nat -> decode_loop (S n) 0 d da k = None.
Proof.
  intros Hda. cbn [decode_loop]. unfold get_bit. destruct (rd d (k / 8)) as [v|]; [|done]. cbn [mbind option_bind].
  assert (H : rd da (Z.shiftl 1 1 + Z.land (Z.shiftr v (Z.land k 7)) 1) = None).
  { rewrite (Z.land_ones _ 1) by lia. destruct (rd da _) as [c|] eqn:E; [|done]. apply rd_bound in E.
    pose proof (Z.mod_pos_bound (Z.shiftr v (Z.land k 7)) (2 ^ 1) ltac:(lia)).
    change (Z.shiftl 1 1) with 2 in E. lia. }
  change (Z.to_nat 0) with 0%nat. cbn [decode_symbol]. by rewrite H.
Qed.

(** A file with one couple, or with between 128 and 255, has no code of one bit
    or more for the decoder. *)
Lemma decode_none s d u code :
  layout s d u code -> (forall i, i ∈ u -> (length (code i) < 256)%nat) ->
  (length u = 1%nat /\ (forall i, i ∈ u -> code i = []) \/ (128 <= length u < 256)%nat) ->
  s <> [] -> Z.of_nat (length s) < 2 ^ 31 -> ml_che3_decompress d = None.
Proof.
  intros [(parity & Hp & Hhead) Hpat _ Hsize] Hlen Hcase Hs Hlt.
  destruct (header_read d parity (Z.of_nat (length s)) (Z.of_nat (length u)) _ _ Hhead) as (H1 & H2 & H3); [lia..|].
  unfold ml_che3_decompress, decode_he3_data. rewrite H1. cbn [mbind option_bind negb].
  rewrite H2. cbn [mbind option_bind]. rewrite H3. cbn [mbind option_bind]. clear H1 H2 H3. rewrite !Nat2Z.id.
  assert (Hn : exists n, length s = S n) by (destruct s; [done|by eexists]). destruct Hn as [n Hn].
  pose proof (couples_take u code u _ d _ Hhead eq_refl eq_refl eq_refl) as Hcp.
  destruct Hcase as [[Hone Hcode]|Hmany].
  - rewrite Hone. change ((128 <=? Z.of_nat 1) && (Z.of_nat 1 <? 256)) with false. cbv iota.
    change (Z.to_nat (Z.of_nat 1)) with 1%nat. rewrite <- Hone at 1.
    destruct (lens_ok d code u 0 0 0 Hcp) as (mx & -> & Hmx0 & _ & Hup). cbn [mbind option_bind].
    assert (mx = 0) as ->.
    { enough (mx <= 0) by lia. apply Hup; [lia|]. intros i Hi. by rewrite Hcode. }
    replace ((30 <=? 0) || (Z.of_nat (length s) <? 0)) with false by (symmetry; apply orb_false_iff; lia).
    change (replicate (Z.to_nat (Z.shiftl 1 (0 + 1))) 0) with [0; 0].
    destruct (for_up 1 0 (fill_step d) _) as [[da' k']|] eqn:Ef; [|done]. cbn [mbind option_bind].
    rewrite Hn. apply decode_flat. apply (for_up_inv (fun _ '(da, _) => length da = 2%nat) (fill_step d)) in Ef; [done| |done].
    intros j [da1 k1] [da2 k2] _ Hda Hst. unfold fill_step in Hst. bind_inv.
    repeat match goal with H : (let '(_, _) := ?x in _) = Some _ |- _ => destruct x; bind_inv end.
    rewrite <- Hda. by eapply wr_length.
  - replace ((128 <=? Z.of_nat (length u)) && (Z.of_nat (length u) <? 256)) with true by (symmetry; apply andb_true_iff; lia).
    cbv iota. replace (Z.to_nat (Z.of_nat (length u) - 256)) with 0%nat by lia. cbn [for_up mbind option_bind].
    replace ((30 <=? 0) || (Z.of_nat (length s) <? 0)) with false by (symmetry; apply orb_false_iff; lia).
    rewrite Hn. by apply decode_flat.
Qed.

(** ** The codec *)

(** The number of different bytes of a string. *)
Definition distinct (s : list Z) : nat := length (remove_dups s).

Lemma distinct_used s occurs t :
  Forall (word 8) s -> tables s occurs t -> length (used occurs 256) = distinct s.
Proof.
  intros Hs HT. apply Permutation_length. apply NoDup_Permutation; [apply used_NoDup|apply NoDup_remove_dups|].
  intros i. rewrite elem_of_remove_dups. by apply (used_str s occurs t).
Qed.

(** [malloc] gives blocks of the size asked for, full of zeros. *)
Definition zeroing (malloc : Z -> list Z) : Prop := forall n, 0 <= n -> malloc n = replicate (Z.to_nat n) 0.

Lemma zeroing_block malloc n : zeroing malloc -> 0 <= n -> Forall (eq 0) (malloc n).
Proof. intros Hm Hn. rewrite Hm by done. by apply Forall_replicate. Qed.

(** The bound keeps every code within 29 bits: [2178309 = fib 32]. *)
Lemma short_codes s occurs t :
  tables s occurs t -> Z.of_nat (length s) < 2178309 -> (height t <= 29)%nat.
Proof.
  intros HT Hl. apply (height_bound 29 t (Z.of_nat (length s)) 2178309); [by vm_compute| |done].
  rewrite <- (t_total _ _ _ HT). apply (h_depth _ _ (t_huffman _ _ _ HT)).
Qed.

Lemma he3_ok malloc s :
  zeroing malloc -> Forall (word 8) s -> s <> [] -> Z.of_nat (length s) < 2178309 ->
  exists d, ml_che3_compress malloc s = Some d /\
    ml_che3_decompress d
    = if decide (0 ∈ s \/ distinct s = 1%nat \/ (128 <= distinct s < 256)%nat) then None else Some s.
Proof.
  intros Hm Hs Hne Hl.
  destruct (encode_ok malloc s Hs Hne ltac:(lia)) as (d & occurs & t & E & _ & HT & Hlay).
  { intros n Hn. by rewrite Hm, length_replicate. }
  exists d. split; [done|]. specialize (Hlay ltac:(apply zeroing_block; [done|lia])).
  pose proof (short_codes _ _ _ HT Hl) as Hh. pose proof (distinct_used _ _ _ Hs HT) as Hdu.
  pose proof (t_huffman _ _ _ HT) as Hhuf.
  assert (Hlen : forall i, i ∈ used occurs 256 -> (length (code t i) <= 29)%nat).
  { intros i Hi. pose proof (code_length _ _ Hhuf i Hi). lia. }
  rewrite <- Hdu. pose proof (used_length occurs 256) as Hul.
  assert (Hpos : (1 <= length (used occurs 256))%nat).
  { destruct s as [|c s']; [done|]. assert (Hc : c ∈ used occurs 256).
    { apply (used_str _ _ _ Hs HT), list_elem_of_here. }
    destruct (used occurs 256); [by apply not_elem_of_nil in Hc|simpl; lia]. }
  destruct (decide ((length (used occurs 256) = 1 \/ 128 <= length (used occurs 256) < 256)%nat)) as [Hbad|Hgood].
  - rewrite decide_True by tauto. apply (decode_none s d _ _ Hlay); [|destruct Hbad as [H1|H1]; [left|right]|done|lia].
    + intros i Hi. specialize (Hlen i Hi). lia.
    + split; [done|]. by apply (code_single _ _ Hhuf).
    + done.
  - rewrite (decode_ok s d _ _ 29 Hlay (code_coding _ _ Hhuf)); [| |lia|done| |done| |lia].
    + destruct (decide (0 ∈ s)) as [H|H], (decide (_ \/ _)) as [H'|H']; try done; tauto.
    + intros i. apply (used_str _ _ _ Hs HT).
    + intros i. apply (code_nonempty _ _ Hhuf). lia.
    + apply andb_false_iff. destruct (Z.leb_spec 128 (Z.of_nat (length (used occurs 256)))); [right|by left]. lia.
Qed.

(** ** Properties *)

(** C4: a file list without NUL bytes, with between 2 and 127 different bytes
    and shorter than 2178309 bytes, compressed in a block of zeros, is
    decompressed to itself. *)
Theorem he3_roundtrip malloc s :
  zeroing malloc -> Forall (word 8) s -> 0 ∉ s -> (2 <= distinct s <= 127)%nat ->
  Z.of_nat (length s) < 2178309 ->
  exists d, ml_che3_compress malloc s = Some d /\ ml_che3_decompress d = Some s.
Proof.
  intros Hm Hs H0 Hd Hl. assert (Hne : s <> []) by (intros ->; unfold distinct in Hd; simpl in Hd; lia).
  destruct (he3_ok malloc s Hm Hs Hne Hl) as (d & E & Hdec). exists d. split; [done|].
  rewrite Hdec, decide_False; [done|]. intros [?|[?|?]]; (done || lia).
Qed.

(** A file list of one directory. *)
Definition sample_list : list Z := [100; 105; 114; 13; 10; 9; 97; 124; 49; 50; 13; 10].

Lemma he3_roundtrip_witness :
  zeroing fresh_block /\ (2 <= distinct sample_list <= 127)%nat /\
  exists d, ml_che3_compress fresh_block sample_list = Some d /\ ml_che3_decompress d = Some sample_list.
Proof.
  assert (Hm : zeroing fresh_block) by (intros n _; reflexivity).
  assert (Hd : (2 <= distinct sample_list <= 127)%nat) by (vm_compute; lia).
  split; [exact Hm|]. split; [exact Hd|]. apply (he3_roundtrip fresh_block sample_list Hm); [| |exact Hd|vm_compute; reflexivity].
  - repeat constructor; unfold word; lia.
  - unfold sample_list. rewrite !not_elem_of_cons. repeat split; try lia. apply not_elem_of_nil.
Defined.

(** Whatever the heap held, compression ends inside the block that
    [encode_he3_data] asks for, on every string whose length leaves that size
    an [int]. *)
Theorem he3_compress_in_bounds malloc s :
  (forall n, 0 <= n -> length (malloc n) = Z.to_nat n) ->
  Forall (word 8) s -> Z.of_nat (length s) + 2560 < 2 ^ 31 ->
  exists d, ml_che3_compress malloc s = Some d /\ (length d <= length s + 2560)%nat.
Proof.
  intros Hm Hs Hl. destruct (decide (s = [])) as [->|Hne].
  - exists []. split; [done|simpl; lia].
  - destruct (encode_ok malloc s Hs Hne Hl Hm) as (d & _ & _ & E & Hd & _). by exists d.
Qed.

Lemma he3_compress_in_bounds_witness :
  exists d, ml_che3_compress used_block sample_list = Some d /\ (length d <= length sample_list + 2560)%nat.
Proof.
  apply he3_compress_in_bounds; [|repeat constructor; unfold word; lia|vm_compute; reflexivity].
  intros n _. apply length_replicate.
Defined.

(** C39: a string with a NUL byte, or with one byte only, or with between 128
    and 255 different ones, is compressed to a file on which the decoder
    leaves its arrays: NUL marks the free entries of [decode_array], a single
    code has no bit, and the number of couples is read as negative. *)
Theorem he3_undecodable malloc s :
  zeroing malloc -> Forall (word 8) s -> s <> [] -> Z.of_nat (length s) < 2178309 ->
  0 ∈ s \/ distinct s = 1%nat \/ (128 <= distinct s < 256)%nat ->
  exists d, ml_che3_compress malloc s = Some d /\ ml_che3_decompress d = None.
Proof.
  intros Hm Hs Hne Hl Hbad. destruct (he3_ok malloc s Hm Hs Hne Hl) as (d & E & Hdec). exists d. split; [done|].
  by rewrite Hdec, decide_True.
Qed.

Lemma he3_undecodable_witness :
  zeroing fresh_block /\ distinct [97; 97; 97] = 1%nat /\
  exists d, ml_che3_compress fresh_block [97; 97; 97] = Some d /\ ml_che3_decompress d = None.
Proof.
  assert (Hm : zeroing fresh_block) by (intros n _; reflexivity).
  split; [exact Hm|]. split; [reflexivity|].
  apply (he3_undecodable fresh_block [97; 97; 97] Hm);
    [repeat constructor; unfold word; lia|discriminate|reflexivity|right; left; reflexivity].
Defined.

(** The bits are or-ed into a block that is not cleared first: with a
    block that was used before, the file does not decompress. *)
Theorem he3_dirty_heap :
  exists d, ml_che3_compress used_block sample_list = Some d /\ ml_che3_decompress d <> Some sample_list.
Proof. eexists. split; [vm_compute; reflexivity|]. vm_compute. discriminate. Qed.

End He3.
