(* ===== verification/Upnp.v ===== *)
(** * Port forwarding: UPnP and NAT-PMP

    [src/src/utils/net/upnp_stubs.c]: two tables of twenty slots, [g_maps] for
    the forwardings wanted and [g_unmaps] for those being taken down, the
    operations that OCaml calls on them, and the thread that drives the two
    protocols ([natpmpPulse], [upnpPulse]) on every slot.

    The calls to libminiupnpc and libnatpmp and the clock are the operations of
    the class [Router], over a world [W] of their own; a function that calls
    them is a state transformer of [W].  The operations are here what they do
    when nothing comes between their accesses to the tables; [UpnpRace]
    interleaves them, access by access. *)

From Stdlib Require Import ZArith Lia Bool.
From stdpp Require Import base option list numbers relations.
From S2P Require Import Prelude.

Local Open Scope Z_scope.

Module Upnp.

(** ** Effects on the outside world *)

Definition M (W A : Type) : Type := W -> A * W.
Definition ret {W A} (a : A) : M W A := fun w => (a, w).
Definition bind {W A C} (m : M W A) (k : A -> M W C) : M W C :=
  fun w => let '(a, w) := m w in k a w.

#[export] Instance M_bind W : MBind (M W) := fun A C k m => bind m k.

(** The two libraries and [time].  [Natpmp] is [natpmp_t]; [Igd] stands for
    [upnpUrls], [upnpData] and [lanaddr], which [UPNP_GetValidIGD] fills. *)
Class Router (W Natpmp Igd : Type) := {
  time : M W Z;
  natpmp_zero : Natpmp;                       (* after [memset] *)
  natpmp_no_socket : Natpmp -> Natpmp;        (* [natpmp.s = -1] *)
  initnatpmp : Natpmp -> M W (Z * Natpmp);
  sendpublicaddressrequest : Natpmp -> M W (Z * Natpmp);
  (* result, [privateport] of the response *)
  readnatpmpresponseorretry : Natpmp -> M W (Z * Z * Natpmp);
  (* private port, public port, lifetime; the protocol is always TCP *)
  sendnewportmappingrequest_tcp : Natpmp -> Z -> Z -> Z -> M W (Z * Natpmp);
  NATPMP_TRYAGAIN : Z;
  igd_zero : Igd;
  (* [upnpDiscover], [UPNP_GetValidIGD], [freeUPNPDevlist] *)
  UPNP_GetValidIGD : Igd -> M W (Z * Igd);
  controlURL : Igd -> bool;                   (* is it non-null? *)
  (* external port, is it TCP? *)
  UPNP_GetSpecificPortMappingEntry : Igd -> Z -> bool -> M W Z;
  UPNP_DeletePortMapping : Igd -> Z -> bool -> M W Z;
  (* external port, internal port, description, is it TCP? *)
  UPNP_AddPortMapping : Igd -> Z -> Z -> list Z -> bool -> M W Z;
  UPNPCOMMAND_SUCCESS : Z
}.

Definition MAX_MAPS : nat := 20.
Definition MAX_THREAD_WAIT : Z := 30.
Definition COMMAND_WAIT_SECS : Z := 8.
Definition LIFETIME_SECS : Z := 3600.
Definition UPNP_IGD_VALID_CONNECTED : Z := 1.

Inductive ml_upnp_state :=
  ML_UPNP_IDLE | ML_UPNP_ERR | ML_UPNP_DISCOVER | ML_UPNP_MAP | ML_UPNP_UNMAP.

Inductive ml_natpmp_state :=
  | ML_NATPMP_IDLE | ML_NATPMP_ERR | ML_NATPMP_DISCOVER | ML_NATPMP_RECV_PUB
  | ML_NATPMP_SEND_MAP | ML_NATPMP_RECV_MAP | ML_NATPMP_SEND_UNMAP | ML_NATPMP_RECV_UNMAP.

Inductive ml_port_forwarding :=
  ML_PORT_ERROR | ML_PORT_UNMAPPED | ML_PORT_UNMAPPING | ML_PORT_MAPPING | ML_PORT_MAPPED.

#[export] Instance ml_upnp_state_eq : EqDecision ml_upnp_state.
Proof. solve_decision. Defined.
#[export] Instance ml_natpmp_state_eq : EqDecision ml_natpmp_state.
Proof. solve_decision. Defined.
#[export] Instance ml_port_forwarding_eq : EqDecision ml_port_forwarding.
Proof. solve_decision. Defined.

(** The enumeration's value. *)
Definition port_value (p : ml_port_forwarding) : Z :=
  match p with
  | ML_PORT_ERROR => 0 | ML_PORT_UNMAPPED => 1 | ML_PORT_UNMAPPING => 2
  | ML_PORT_MAPPING => 3 | ML_PORT_MAPPED => 4
  end.

(** C's truth of an [int]. *)
Definition truth (z : Z) : bool := negb (z =? 0).

Section Slots.
Context {W Natpmp Igd : Type} `{!Router W Natpmp Igd}.

Record ml_upnpmp_t := Slot {
  enabled : Z;
  intPort : Z;
  extPort : Z;
  isTcp : Z;
  notes : list Z;
  doPortCheck : bool;
  overTime : Z;
  natpmpStatus : ml_port_forwarding;
  upnpStatus : ml_port_forwarding;
  upnpDiscovered : bool;
  upnpMapped : bool;
  upnpState : ml_upnp_state;
  igd : Igd;
  natpmpMapped : bool;
  natpmpDiscovered : bool;
  natpmpState : ml_natpmp_state;
  renewTime : Z;
  commandTime : Z;
  natpmp : Natpmp
}.

Definition set_enabled (v : Z) (m : ml_upnpmp_t) : ml_upnpmp_t :=
  Slot v (intPort m) (extPort m) (isTcp m) (notes m) (doPortCheck m) (overTime m) (natpmpStatus m)
    (upnpStatus m) (upnpDiscovered m) (upnpMapped m) (upnpState m) (igd m) (natpmpMapped m)
    (natpmpDiscovered m) (natpmpState m) (renewTime m) (commandTime m) (natpmp m).
Definition set_extPort (v : Z) (m : ml_upnpmp_t) : ml_upnpmp_t :=
  Slot (enabled m) (intPort m) v (isTcp m) (notes m) (doPortCheck m) (overTime m) (natpmpStatus m)
    (upnpStatus m) (upnpDiscovered m) (upnpMapped m) (upnpState m) (igd m) (natpmpMapped m)
    (natpmpDiscovered m) (natpmpState m) (renewTime m) (commandTime m) (natpmp m).
Definition set_doPortCheck (v : bool) (m : ml_upnpmp_t) : ml_upnpmp_t :=
  Slot (enabled m) (intPort m) (extPort m) (isTcp m) (notes m) v (overTime m) (natpmpStatus m)
    (upnpStatus m) (upnpDiscovered m) (upnpMapped m) (upnpState m) (igd m) (natpmpMapped m)
    (natpmpDiscovered m) (natpmpState m) (renewTime m) (commandTime m) (natpmp m).
Definition set_overTime (v : Z) (m : ml_upnpmp_t) : ml_upnpmp_t :=
  Slot (enabled m) (intPort m) (extPort m) (isTcp m) (notes m) (doPortCheck m) v (natpmpStatus m)
    (upnpStatus m) (upnpDiscovered m) (upnpMapped m) (upnpState m) (igd m) (natpmpMapped m)
    (natpmpDiscovered m) (natpmpState m) (renewTime m) (commandTime m) (natpmp m).
Definition set_natpmpStatus (v : ml_port_forwarding) (m : ml_upnpmp_t) : ml_upnpmp_t :=
  Slot (enabled m) (intPort m) (extPort m) (isTcp m) (notes m) (doPortCheck m) (overTime m) v
    (upnpStatus m) (upnpDiscovered m) (upnpMapped m) (upnpState m) (igd m) (natpmpMapped m)
    (natpmpDiscovered m) (natpmpState m) (renewTime m) (commandTime m) (natpmp m).
Definition set_upnpStatus (v : ml_port_forwarding) (m : ml_upnpmp_t) : ml_upnpmp_t :=
  Slot (enabled m) (intPort m) (extPort m) (isTcp m) (notes m) (doPortCheck m) (overTime m)
    (natpmpStatus m) v (upnpDiscovered m) (upnpMapped m) (upnpState m) (igd m) (natpmpMapped m)
    (natpmpDiscovered m) (natpmpState m) (renewTime m) (commandTime m) (natpmp m).
Definition set_upnpDiscovered (v : bool) (m : ml_upnpmp_t) : ml_upnpmp_t :=
  Slot (enabled m) (intPort m) (extPort m) (isTcp m) (notes m) (doPortCheck m) (overTime m)
    (natpmpStatus m) (upnpStatus m) v (upnpMapped m) (upnpState m) (igd m) (natpmpMapped m)
    (natpmpDiscovered m) (natpmpState m) (renewTime m) (commandTime m) (natpmp m).
Definition set_upnpMapped (v : bool) (m : ml_upnpmp_t) : ml_upnpmp_t :=
  Slot (enabled m) (intPort m) (extPort m) (isTcp m) (notes m) (doPortCheck m) (overTime m)
    (natpmpStatus m) (upnpStatus m) (upnpDiscovered m) v (upnpState m) (igd m) (natpmpMapped m)
    (natpmpDiscovered m) (natpmpState m) (renewTime m) (commandTime m) (natpmp m).
Definition set_upnpState (v : ml_upnp_state) (m : ml_upnpmp_t) : ml_upnpmp_t :=
  Slot (enabled m) (intPort m) (extPort m) (isTcp m) (notes m) (doPortCheck m) (overTime m)
    (natpmpStatus m) (upnpStatus m) (upnpDiscovered m) (upnpMapped m) v (igd m) (natpmpMapped m)
    (natpmpDiscovered m) (natpmpState m) (renewTime m) (commandTime m) (natpmp m).
Definition set_igd (v : Igd) (m : ml_upnpmp_t) : ml_upnpmp_t :=
  Slot (enabled m) (intPort m) (extPort m) (isTcp m) (notes m) (doPortCheck m) (overTime m)
    (natpmpStatus m) (upnpStatus m) (upnpDiscovered m) (upnpMapped m) (upnpState m) v (natpmpMapped
    m) (natpmpDiscovered m) (natpmpState m) (renewTime m) (commandTime m) (natpmp m).
Definition set_natpmpMapped (v : bool) (m : ml_upnpmp_t) : ml_upnpmp_t :=
  Slot (enabled m) (intPort m) (extPort m) (isTcp m) (notes m) (doPortCheck m) (overTime m)
    (natpmpStatus m) (upnpStatus m) (upnpDiscovered m) (upnpMapped m) (upnpState m) (igd m) v
    (natpmpDiscovered m) (natpmpState m) (renewTime m) (commandTime m) (natpmp m).
Definition set_natpmpDiscovered (v : bool) (m : ml_upnpmp_t) : ml_upnpmp_t :=
  Slot (enabled m) (intPort m) (extPort m) (isTcp m) (notes m) (doPortCheck m) (overTime m)
    (natpmpStatus m) (upnpStatus m) (upnpDiscovered m) (upnpMapped m) (upnpState m) (igd m)
    (natpmpMapped m) v (natpmpState m) (renewTime m) (commandTime m) (natpmp m).
Definition set_natpmpState (v : ml_natpmp_state) (m : ml_upnpmp_t) : ml_upnpmp_t :=
  Slot (enabled m) (intPort m) (extPort m) (isTcp m) (notes m) (doPortCheck m) (overTime m)
    (natpmpStatus m) (upnpStatus m) (upnpDiscovered m) (upnpMapped m) (upnpState m) (igd m)
    (natpmpMapped m) (natpmpDiscovered m) v (renewTime m) (commandTime m) (natpmp m).
Definition set_renewTime (v : Z) (m : ml_upnpmp_t) : ml_upnpmp_t :=
  Slot (enabled m) (intPort m) (extPort m) (isTcp m) (notes m) (doPortCheck m) (overTime m)
    (natpmpStatus m) (upnpStatus m) (upnpDiscovered m) (upnpMapped m) (upnpState m) (igd m)
    (natpmpMapped m) (natpmpDiscovered m) (natpmpState m) v (commandTime m) (natpmp m).
Definition set_commandTime (v : Z) (m : ml_upnpmp_t) : ml_upnpmp_t :=
  Slot (enabled m) (intPort m) (extPort m) (isTcp m) (notes m) (doPortCheck m) (overTime m)
    (natpmpStatus m) (upnpStatus m) (upnpDiscovered m) (upnpMapped m) (upnpState m) (igd m)
    (natpmpMapped m) (natpmpDiscovered m) (natpmpState m) (renewTime m) v (natpmp m).
Definition set_natpmp (v : Natpmp) (m : ml_upnpmp_t) : ml_upnpmp_t :=
  Slot (enabled m) (intPort m) (extPort m) (isTcp m) (notes m) (doPortCheck m) (overTime m)
    (natpmpStatus m) (upnpStatus m) (upnpDiscovered m) (upnpMapped m) (upnpState m) (igd m)
    (natpmpMapped m) (natpmpDiscovered m) (natpmpState m) (renewTime m) (commandTime m) v.

(** A slot after [memset (_, 0, _)]. *)
Definition slot_zero : ml_upnpmp_t :=
  Slot 0 0 0 0 [] false 0 ML_PORT_ERROR ML_PORT_ERROR false false ML_UPNP_IDLE igd_zero
    false false ML_NATPMP_IDLE 0 0 natpmp_zero.

Definition canSendCommand (m : ml_upnpmp_t) : M W bool := t ← time; ret (commandTime m <=? t).

Definition setCommandTime (m : ml_upnpmp_t) : M W ml_upnpmp_t :=
  t ← time; ret (set_commandTime (t + COMMAND_WAIT_SECS) m).

(** ** [natpmpPulse], one definition per [if] of the function *)

Definition natpmp_is (s : ml_natpmp_state) (m : ml_upnpmp_t) : bool := bool_decide (natpmpState m = s).

Definition natpmp_discover (m : ml_upnpmp_t) : M W ml_upnpmp_t :=
  if truth (enabled m) && natpmp_is ML_NATPMP_DISCOVER m then
    '(_, h) ← initnatpmp (natpmp m);
    '(val, h) ← sendpublicaddressrequest h;
    let m := set_natpmp h m in
    let m := set_natpmpState (if val <? 0 then ML_NATPMP_ERR else ML_NATPMP_RECV_PUB) m in
    setCommandTime (set_natpmpDiscovered true m)
  else ret m.

Definition natpmp_recv_pub (m : ml_upnpmp_t) : M W ml_upnpmp_t :=
  if natpmp_is ML_NATPMP_RECV_PUB m then
    can ← canSendCommand m;
    if can : bool then
      '(val, _, h) ← readnatpmpresponseorretry (natpmp m);
      let m := set_natpmp h m in
      if 0 <=? val then ret (set_natpmpState ML_NATPMP_IDLE m)
      else if negb (val =? NATPMP_TRYAGAIN) then ret (set_natpmpState ML_NATPMP_ERR m)
      else ret m
    else ret m
  else ret m.

Definition natpmp_want_unmap (m : ml_upnpmp_t) : ml_upnpmp_t :=
  if (natpmp_is ML_NATPMP_IDLE m || natpmp_is ML_NATPMP_ERR m)
     && natpmpMapped m && negb (truth (enabled m))
  then set_natpmpState ML_NATPMP_SEND_UNMAP m else m.

Definition natpmp_send_unmap (m : ml_upnpmp_t) : M W ml_upnpmp_t :=
  if natpmp_is ML_NATPMP_SEND_UNMAP m then
    can ← canSendCommand m;
    if can : bool then
      '(val, h) ← sendnewportmappingrequest_tcp (natpmp m) (intPort m) (extPort m) 0;
      let m := set_natpmp h m in
      setCommandTime (set_natpmpState (if val <? 0 then ML_NATPMP_ERR else ML_NATPMP_RECV_UNMAP) m)
    else ret m
  else ret m.

Definition natpmp_recv_unmap (m : ml_upnpmp_t) : M W ml_upnpmp_t :=
  if natpmp_is ML_NATPMP_RECV_UNMAP m then
    '(val, p, h) ← readnatpmpresponseorretry (natpmp m);
    let m := set_natpmp h m in
    if 0 <=? val then
      if extPort m =? p then
        ret (set_natpmpMapped false (set_natpmpState ML_NATPMP_IDLE (set_extPort 0 m)))
      else ret m
    else if negb (val =? NATPMP_TRYAGAIN) then ret (set_natpmpState ML_NATPMP_ERR m)
    else ret m
  else ret m.

Definition natpmp_want_map (m : ml_upnpmp_t) : M W ml_upnpmp_t :=
  if natpmp_is ML_NATPMP_IDLE m then
    if truth (enabled m) && negb (natpmpMapped m) && natpmpDiscovered m
    then ret (set_natpmpState ML_NATPMP_SEND_MAP m)
    else if natpmpMapped m then
      t ← time;
      ret (if renewTime m <=? t then set_natpmpState ML_NATPMP_SEND_MAP m else m)
    else ret m
  else ret m.

Definition natpmp_send_map (m : ml_upnpmp_t) : M W ml_upnpmp_t :=
  if natpmp_is ML_NATPMP_SEND_MAP m then
    can ← canSendCommand m;
    if can : bool then
      '(val, h) ← sendnewportmappingrequest_tcp (natpmp m) (intPort m) (extPort m) LIFETIME_SECS;
      let m := set_natpmp h m in
      setCommandTime (set_natpmpState (if val <? 0 then ML_NATPMP_ERR else ML_NATPMP_RECV_MAP) m)
    else ret m
  else ret m.

Definition natpmp_recv_map (m : ml_upnpmp_t) : M W ml_upnpmp_t :=
  if natpmp_is ML_NATPMP_RECV_MAP m then
    '(val, p, h) ← readnatpmpresponseorretry (natpmp m);
    let m := set_natpmp h m in
    if 0 <=? val then
      t ← time;
      ret (set_extPort (u16 p) (set_renewTime (t + LIFETIME_SECS)
            (set_natpmpMapped true (set_natpmpState ML_NATPMP_IDLE m))))
    else if negb (val =? NATPMP_TRYAGAIN) then ret (set_natpmpState ML_NATPMP_ERR m)
    else ret m
  else ret m.

(** The final [switch]. *)
Definition natpmp_status (m : ml_upnpmp_t) : ml_port_forwarding :=
  match natpmpState m with
  | ML_NATPMP_IDLE => if natpmpMapped m then ML_PORT_MAPPED else ML_PORT_UNMAPPED
  | ML_NATPMP_DISCOVER => ML_PORT_UNMAPPED
  | ML_NATPMP_RECV_PUB | ML_NATPMP_SEND_MAP | ML_NATPMP_RECV_MAP => ML_PORT_MAPPING
  | ML_NATPMP_SEND_UNMAP | ML_NATPMP_RECV_UNMAP => ML_PORT_UNMAPPING
  | ML_NATPMP_ERR => ML_PORT_ERROR
  end.

Definition natpmpPulse (m : ml_upnpmp_t) : M W (ml_port_forwarding * ml_upnpmp_t) :=
  m ← natpmp_discover m;
  m ← natpmp_recv_pub m;
  m ← natpmp_send_unmap (natpmp_want_unmap m);
  m ← natpmp_recv_unmap m;
  m ← natpmp_want_map m;
  m ← natpmp_send_map m;
  m ← natpmp_recv_map m;
  ret (natpmp_status m, m).

(** ** [upnpPulse] *)

Definition upnp_is (s : ml_upnp_state) (m : ml_upnpmp_t) : bool := bool_decide (upnpState m = s).

Definition upnp_discover (m : ml_upnpmp_t) : M W ml_upnpmp_t :=
  if truth (enabled m) && upnp_is ML_UPNP_DISCOVER m then
    '(val, g) ← UPNP_GetValidIGD (igd m);
    let m := set_igd g m in
    if val =? UPNP_IGD_VALID_CONNECTED
    then ret (set_upnpDiscovered true (set_upnpState ML_UPNP_IDLE m))
    else ret (set_upnpState ML_UPNP_ERR m)
  else ret m.

Definition upnp_want_unmap (m : ml_upnpmp_t) : ml_upnpmp_t :=
  if upnp_is ML_UPNP_IDLE m && upnpMapped m && negb (truth (enabled m))
  then set_upnpState ML_UPNP_UNMAP m else m.

Definition upnp_check (m : ml_upnpmp_t) : M W ml_upnpmp_t :=
  if truth (enabled m) && upnpMapped m && doPortCheck m then
    i ← UPNP_GetSpecificPortMappingEntry (igd m) (extPort m) (truth (isTcp m));
    ret (set_doPortCheck false (if i =? UPNPCOMMAND_SUCCESS then m else set_upnpMapped false m))
  else ret m.

Definition upnp_unmap (m : ml_upnpmp_t) : M W ml_upnpmp_t :=
  if upnp_is ML_UPNP_UNMAP m then
    _ ← UPNP_DeletePortMapping (igd m) (extPort m) (truth (isTcp m));
    ret (set_extPort 0 (set_upnpState ML_UPNP_IDLE (set_upnpMapped false m)))
  else ret m.

Definition upnp_want_map (m : ml_upnpmp_t) : ml_upnpmp_t :=
  if upnp_is ML_UPNP_IDLE m && truth (enabled m) && negb (upnpMapped m)
  then set_upnpState ML_UPNP_MAP m else m.

Definition upnp_map (m : ml_upnpmp_t) : M W ml_upnpmp_t :=
  if upnp_is ML_UPNP_MAP m then
    m ← (if negb (controlURL (igd m)) then ret (set_upnpMapped false m)
          else err ← UPNP_AddPortMapping (igd m) (extPort m) (intPort m) (notes m) (truth (isTcp m));
               ret (set_upnpMapped (err =? 0) m));
    ret (set_upnpState (if upnpMapped m then ML_UPNP_IDLE else ML_UPNP_ERR) m)
  else ret m.

Definition upnp_status (m : ml_upnpmp_t) : ml_port_forwarding :=
  match upnpState m with
  | ML_UPNP_DISCOVER => ML_PORT_UNMAPPED
  | ML_UPNP_MAP => ML_PORT_MAPPING
  | ML_UPNP_UNMAP => ML_PORT_UNMAPPING
  | ML_UPNP_IDLE => if upnpMapped m then ML_PORT_MAPPED else ML_PORT_UNMAPPED
  | ML_UPNP_ERR => ML_PORT_ERROR
  end.

Definition upnpPulse (m : ml_upnpmp_t) : M W (ml_port_forwarding * ml_upnpmp_t) :=
  m ← upnp_discover m;
  m ← upnp_check (upnp_want_unmap m);
  m ← upnp_unmap m;
  m ← upnp_map (upnp_want_map m);
  ret (upnp_status m, m).

(** ** The thread, one slot at a time *)

Definition getStatus (m : ml_upnpmp_t) : ml_port_forwarding :=
  if port_value (upnpStatus m) <? port_value (natpmpStatus m) then natpmpStatus m else upnpStatus m.

(** The [switch] on the old status. *)
Definition next_over_time (s : ml_port_forwarding) (now : Z) : Z :=
  match s with
  | ML_PORT_MAPPED => now + 60 * 20
  | ML_PORT_ERROR => now + 60
  | _ => now + 333
  end.

(** Both protocols on one slot, [doPortCheck] set to [check] in between; what
    the thread does to it inside the mutex. *)
Definition pulse_slot (oldStatus : ml_port_forwarding) (check : bool) (now : Z) (m : ml_upnpmp_t) : M W ml_upnpmp_t :=
  let m := set_overTime (next_over_time oldStatus now) m in
  '(s, m) ← natpmpPulse m;
  let m := set_doPortCheck check (set_natpmpStatus s m) in
  '(s, m) ← upnpPulse m;
  ret (set_upnpStatus s m).

Definition clear_unmapped (m : ml_upnpmp_t) : ml_upnpmp_t :=
  if bool_decide (getStatus m = ML_PORT_UNMAPPED) then slot_zero else m.

Definition unmaps_slot (now : Z) (m : ml_upnpmp_t) : M W ml_upnpmp_t :=
  if negb (truth (enabled m)) && (0 <? extPort m) && (overTime m <? now) then
    m ← pulse_slot (getStatus m) false now m;
    ret (clear_unmapped m)
  else ret m.

Definition maps_slot (now : Z) (m : ml_upnpmp_t) : M W ml_upnpmp_t :=
  if truth (enabled m) && truth (extPort m) && (overTime m <? now)
  then pulse_slot (getStatus m) true now m else ret m.

(** ** The tables and the operations of the OCaml side *)

Record state := State {
  g_maps : list ml_upnpmp_t;
  g_unmaps : list ml_upnpmp_t;
  g_inited : bool;
  g_running : bool
}.

(** The C globals at start: everything zero. *)
Definition state_zero : state :=
  State (replicate MAX_MAPS slot_zero) (replicate MAX_MAPS slot_zero) false false.

Definition init_maps (st : state) : state :=
  if g_inited st then st
  else State (replicate MAX_MAPS slot_zero) (replicate MAX_MAPS slot_zero) true (g_running st).

(** [intPort], [extPort] and [isTcp] are those of [map]. *)
Definition same_key (map m : ml_upnpmp_t) : bool :=
  (intPort m =? intPort map) && (extPort m =? extPort map) && (isTcp m =? isTcp map).

(** The first slot of a table that satisfies [p]: the [for] loops that stop
    at the first match. *)
Fixpoint find_slot (p : ml_upnpmp_t -> bool) (l : list ml_upnpmp_t) : option nat :=
  match l with
  | [] => None
  | m :: l => if p m then Some O else S <$> find_slot p l
  end.

Definition enabled_with_key (map m : ml_upnpmp_t) : bool := truth (enabled m) && same_key map m.
Definition not_enabled (m : ml_upnpmp_t) : bool := negb (truth (enabled m)).
Definition no_extPort (m : ml_upnpmp_t) : bool := negb (truth (extPort m)).

Definition fresh_slot (map : ml_upnpmp_t) : ml_upnpmp_t :=
  set_overTime 0 (set_natpmpStatus ML_PORT_UNMAPPED (set_upnpStatus ML_PORT_UNMAPPED
    (set_natpmp (natpmp_no_socket (natpmp map)) (set_natpmpState ML_NATPMP_DISCOVER
      (set_upnpState ML_UPNP_DISCOVER (set_enabled 1 map)))))).

Definition maps_add_item (map : ml_upnpmp_t) (st : state) : Z * state :=
  if negb (g_inited st) then (-1, st) else
  match find_slot (enabled_with_key map) (g_maps st) with
  | Some _ => (1, st)
  | None =>
      match find_slot not_enabled (g_maps st) with
      | Some i => (0, State (<[i := fresh_slot map]> (g_maps st)) (g_unmaps st) (g_inited st) (g_running st))
      | None => (1, st)
      end
  end.

(** The copy that goes to [g_unmaps]. *)
Definition retired_slot (m : ml_upnpmp_t) : ml_upnpmp_t := set_overTime 0 (set_enabled 0 m).

Definition maps_remove_item (map : ml_upnpmp_t) (st : state) : Z * state :=
  if negb (g_inited st) then (-1, st) else
  match find_slot (enabled_with_key map) (g_maps st) with
  | Some i =>
      match find_slot no_extPort (g_unmaps st), g_maps st !! i with
      | Some j, Some m =>
          (0, State (<[i := slot_zero]> (g_maps st)) (<[j := retired_slot m]> (g_unmaps st))
                    (g_inited st) (g_running st))
      | _, _ => (1, st)
      end
  | None =>
      match find_slot (same_key map) (g_unmaps st) with
      | Some _ => (0, st)
      | None =>
          match find_slot no_extPort (g_unmaps st) with
          | Some j => (0, State (g_maps st) (<[j := retired_slot map]> (g_unmaps st))
                                (g_inited st) (g_running st))
          | None => (1, st)
          end
      end
  end.

(** The characters of a string that C sees. *)
Fixpoint until_nul (s : list Z) : list Z :=
  match s with [] => [] | c :: s => if c =? 0 then [] else c :: until_nul s end.

(** The slot built from the arguments of [ml_upnpAddMap] and
    [ml_upnpRemoveMap] ([Int_val] cuts them; [strncpy] keeps 31 bytes). *)
Definition slot_of_args (m_enabled m_intPort m_extPort m_type : Z) (m_notes : list Z) : ml_upnpmp_t :=
  Slot (s32 m_enabled) (u16 m_intPort) (u16 m_extPort) (s32 m_type)
    (take 31 (match until_nul m_notes with [] => [109; 108; 100; 111; 110; 107; 101; 121] | s => s end))
    false 0 ML_PORT_ERROR ML_PORT_ERROR false false ML_UPNP_IDLE igd_zero
    false false ML_NATPMP_IDLE 0 0 natpmp_zero.

Definition ml_upnpAddMap (m_enabled m_intPort m_extPort m_type : Z) (m_notes : list Z) (st : state) : state :=
  snd (maps_add_item (slot_of_args m_enabled m_intPort m_extPort m_type m_notes) st).

Definition ml_upnpRemoveMap (m_enabled m_intPort m_extPort m_type : Z) (m_notes : list Z) (st : state) : state :=
  snd (maps_remove_item (slot_of_args m_enabled m_intPort m_extPort m_type m_notes) st).

(** One iteration of the first loop of [ml_upnpRemoveAllMaps]. *)
Definition remove_all_step (i : nat) (st : state) : state :=
  match g_maps st !! i with
  | Some m =>
      if negb (truth (enabled m)) then st else
      match find_slot (same_key m) (g_unmaps st) with
      | Some _ => st
      | None =>
          match find_slot (fun u => not_enabled u && no_extPort u) (g_unmaps st) with
          | Some j => State (<[i := slot_zero]> (g_maps st)) (<[j := retired_slot m]> (g_unmaps st))
                            (g_inited st) (g_running st)
          | None => st
          end
      end
  | None => st
  end.

Definition ml_upnpRemoveAllMaps (st : state) : state :=
  if negb (g_inited st) then st else fold_left (fun st i => remove_all_step i st) (seq 0 MAX_MAPS) st.

(** The tuple of a slot. *)
Definition map_tuple (m : ml_upnpmp_t) : Z * Z * Z * Z * Z * Z * list Z :=
  (enabled m, intPort m, extPort m, isTcp m, port_value (natpmpStatus m), port_value (upnpStatus m), notes m).

(** [for (i = MAX_MAPS - 1; i > 0; i--)], consing onto [maps]. *)
Fixpoint get_maps_loop (i : nat) (l : list ml_upnpmp_t) (maps : list (Z * Z * Z * Z * Z * Z * list Z))
    : list (Z * Z * Z * Z * Z * Z * list Z) :=
  match i with
  | O => maps
  | S i' =>
      get_maps_loop i' l
        (match l !! i with
         | Some m => if truth (enabled m) then map_tuple m :: maps else maps
         | None => maps
         end)
  end.

(** [None]: [Val_unit] is returned where a list is expected. *)
Definition ml_upnpGetMaps (st : state) : option (list (Z * Z * Z * Z * Z * Z * list Z)) :=
  if negb (g_inited st) then None else Some (get_maps_loop (MAX_MAPS - 1) (g_maps st) []).

(** [g_running] is set by [upnp_thread_start], cleared by [upnp_thread_stop]. *)
Definition upnp_thread_start (st : state) : state :=
  let st := if g_inited st then st else init_maps st in
  State (g_maps st) (g_unmaps st) true true.

Definition upnp_thread_stop (st : state) : state :=
  State (g_maps st) (g_unmaps st) (g_inited st) false.

(** ** What the pulses keep *)

(** The fields the two protocols never write. *)
Definition same_identity (m m' : ml_upnpmp_t) : Prop :=
  enabled m' = enabled m /\ intPort m' = intPort m /\ isTcp m' = isTcp m /\ notes m' = notes m.

Lemma same_identity_refl m : same_identity m m.
Proof. done. Qed.

Lemma same_identity_trans a b c : same_identity a b -> same_identity b c -> same_identity a c.
Proof. unfold same_identity. intros (?&?&?&?) (?&?&?&?). repeat split; congruence. Qed.

Definition keeps (f : ml_upnpmp_t -> M W ml_upnpmp_t) : Prop :=
  forall m w, same_identity m (fst (f m w)).

(** Runs a phase: every test and every answer of the router by cases. *)
Ltac run_phase :=
  repeat (unfold mbind, M_bind, bind, ret, setCommandTime, canSendCommand; cbv beta zeta;
  match goal with
  | |- context [match ?x with _ => _ end] =>
      lazymatch x with context [match _ with _ => _ end] => fail | _ => destruct x end
  end).

Ltac phase_keeps :=
  intros m w; unfold same_identity; run_phase; repeat split.

Lemma natpmp_discover_keeps : keeps natpmp_discover.
Proof. unfold natpmp_discover. phase_keeps. Qed.
Lemma natpmp_recv_pub_keeps : keeps natpmp_recv_pub.
Proof. unfold natpmp_recv_pub. phase_keeps. Qed.
Lemma natpmp_send_unmap_keeps : keeps natpmp_send_unmap.
Proof. unfold natpmp_send_unmap. phase_keeps. Qed.
Lemma natpmp_recv_unmap_keeps : keeps natpmp_recv_unmap.
Proof. unfold natpmp_recv_unmap. phase_keeps. Qed.
Lemma natpmp_want_map_keeps : keeps natpmp_want_map.
Proof. unfold natpmp_want_map. phase_keeps. Qed.
Lemma natpmp_send_map_keeps : keeps natpmp_send_map.
Proof. unfold natpmp_send_map. phase_keeps. Qed.
Lemma natpmp_recv_map_keeps : keeps natpmp_recv_map.
Proof. unfold natpmp_recv_map. phase_keeps. Qed.
Lemma natpmp_want_unmap_keeps m : same_identity m (natpmp_want_unmap m).
Proof. unfold natpmp_want_unmap. by destruct (_ && _). Qed.
Lemma upnp_discover_keeps : keeps upnp_discover.
Proof. unfold upnp_discover. phase_keeps. Qed.
Lemma upnp_check_keeps : keeps upnp_check.
Proof. unfold upnp_check. phase_keeps. Qed.
Lemma upnp_unmap_keeps : keeps upnp_unmap.
Proof. unfold upnp_unmap. phase_keeps. Qed.
Lemma upnp_map_keeps : keeps upnp_map.
Proof. unfold upnp_map. phase_keeps. Qed.
Lemma upnp_want_unmap_keeps m : same_identity m (upnp_want_unmap m).
Proof. unfold upnp_want_unmap. by destruct (_ && _). Qed.
Lemma upnp_want_map_keeps m : same_identity m (upnp_want_map m).
Proof. unfold upnp_want_map. by destruct (_ && _). Qed.

Lemma keeps_bind {A} f (k : ml_upnpmp_t -> M W A) (slot : A -> ml_upnpmp_t) m0 m w :
  keeps f -> same_identity m0 m ->
  (forall m' w', same_identity m0 m' -> same_identity m0 (slot (fst (k m' w')))) ->
  same_identity m0 (slot (fst ((f m ≫= k) w))).
Proof.
  intros Hf Hm Hk. unfold mbind, M_bind, bind. pose proof (Hf m w) as H.
  destruct (f m w) as [m' w']. apply Hk. by eapply same_identity_trans.
Qed.

Lemma natpmpPulse_keeps m w : same_identity m (snd (fst (natpmpPulse m w))).
Proof.
  unfold natpmpPulse.
  apply (keeps_bind _ _ snd); [apply natpmp_discover_keeps|done|intros m1 w1 H1].
  apply (keeps_bind _ _ snd); [apply natpmp_recv_pub_keeps|done|intros m2 w2 H2].
  apply (keeps_bind _ _ snd); [apply natpmp_send_unmap_keeps|
    eapply same_identity_trans; [exact H2|apply natpmp_want_unmap_keeps]|intros m3 w3 H3].
  apply (keeps_bind _ _ snd); [apply natpmp_recv_unmap_keeps|done|intros m4 w4 H4].
  apply (keeps_bind _ _ snd); [apply natpmp_want_map_keeps|done|intros m5 w5 H5].
  apply (keeps_bind _ _ snd); [apply natpmp_send_map_keeps|done|intros m6 w6 H6].
  apply (keeps_bind _ _ snd); [apply natpmp_recv_map_keeps|done|intros m7 w7 H7]. exact H7.
Qed.

Lemma upnpPulse_keeps m w : same_identity m (snd (fst (upnpPulse m w))).
Proof.
  unfold upnpPulse.
  apply (keeps_bind _ _ snd); [apply upnp_discover_keeps|done|intros m1 w1 H1].
  apply (keeps_bind _ _ snd); [apply upnp_check_keeps|
    eapply same_identity_trans; [exact H1|apply upnp_want_unmap_keeps]|intros m2 w2 H2].
  apply (keeps_bind _ _ snd); [apply upnp_unmap_keeps|done|intros m3 w3 H3].
  apply (keeps_bind _ _ snd); [apply upnp_map_keeps|
    eapply same_identity_trans; [exact H3|apply upnp_want_map_keeps]|intros m4 w4 H4]. exact H4.
Qed.

Lemma pulse_slot_keeps old check now m w : same_identity m (fst (pulse_slot old check now m w)).
Proof.
  unfold pulse_slot, mbind, M_bind, bind, ret.
  pose proof (natpmpPulse_keeps (set_overTime (next_over_time old now) m) w) as H1.
  destruct (natpmpPulse _ w) as [[s1 m1] w1]. cbn [fst snd] in H1.
  pose proof (upnpPulse_keeps (set_doPortCheck check (set_natpmpStatus s1 m1)) w1) as H2.
  destruct (upnpPulse _ w1) as [[s2 m2] w2]. cbn [fst snd] in H2 |- *.
  exact (same_identity_trans m m1 _ H1 H2).
Qed.

(** ** The tables *)

(** A slot with nothing in it but traces of the thread. *)
Definition blank (m : ml_upnpmp_t) : Prop :=
  exists ot ns us check, m = set_overTime ot (set_natpmpStatus ns (set_upnpStatus us (set_doPortCheck check slot_zero))).

Definition slot_ok (m : ml_upnpmp_t) : Prop := enabled m = 1 \/ blank m.

Definition tables_ok (st : state) : Prop :=
  length (g_maps st) = MAX_MAPS /\ length (g_unmaps st) = MAX_MAPS /\
  Forall slot_ok (g_maps st) /\ Forall (fun m => enabled m = 0) (g_unmaps st).

Lemma slot_zero_ok : slot_ok slot_zero.
Proof. right. by exists 0, ML_PORT_ERROR, ML_PORT_ERROR, false. Qed.

Lemma tables_ok_zero : tables_ok state_zero.
Proof. split_and!; try done; apply Forall_replicate; [apply slot_zero_ok|done]. Qed.

Lemma find_slot_Some p l i : find_slot p l = Some i ->
  exists m, l !! i = Some m /\ p m = true /\ forall j m', (j < i)%nat -> l !! j = Some m' -> p m' = false.
Proof.
  revert i. induction l as [|m l IH]; intros i H; simpl in H; [done|].
  destruct (p m) eqn:Hp.
  - injection H as <-. exists m. split_and!; [done..|]. intros j m' Hj. lia.
  - destruct (find_slot p l) as [k|]; [|done]. injection H as <-.
    destruct (IH k eq_refl) as (m' & Hk & Hm & Hmin). exists m'. split_and!; [done..|].
    intros [|j] m'' Hj Hl; [by injection Hl as <-|]. apply (Hmin j); [lia|done].
Qed.

Lemma find_slot_None p l : find_slot p l = None <-> Forall (fun m => p m = false) l.
Proof.
  induction l as [|m l IH]; simpl; [by split|]. destruct (p m) eqn:Hp.
  - split; [done|]. intros H. apply Forall_cons_1 in H as [H _]. congruence.
  - split.
    + intros H. constructor; [done|]. apply IH. by destruct (find_slot p l).
    + intros H. apply Forall_cons_1 in H as [_ H]. by rewrite (proj2 IH H).
Qed.

(** ** A slot both protocols failed on *)

(** What [memset] never comes to: nothing to undo, and both machines in their
    error states. *)
Definition stuck (m : ml_upnpmp_t) : Prop :=
  enabled m = 0 /\ 0 < extPort m /\ upnpState m = ML_UPNP_ERR /\
  natpmpState m = ML_NATPMP_ERR /\ natpmpMapped m = false.

Lemma stuck_pulse old now m w : stuck m ->
  pulse_slot old false now m w
  = (set_upnpStatus ML_PORT_ERROR (set_doPortCheck false (set_natpmpStatus ML_PORT_ERROR
       (set_overTime (next_over_time old now) m))), w).
Proof.
  destruct m as [e ip ep it no dp ot ns us ud um ust g nm nd nst rt ct h]. unfold stuck. cbn.
  intros (-> & Hp & -> & -> & ->). unfold pulse_slot, natpmpPulse, upnpPulse.
  unfold mbind, M_bind, bind, ret. cbn. done.
Qed.

Lemma stuck_unmaps_slot now m w : stuck m ->
  exists m', unmaps_slot now m w = (m', w) /\ stuck m' /\ intPort m' = intPort m /\ extPort m' = extPort m.
Proof.
  intros H. unfold unmaps_slot. destruct (_ && _ && _) eqn:E; [|by exists m].
  unfold mbind, M_bind, bind, ret. rewrite stuck_pulse by done.
  eexists. split; [done|]. unfold clear_unmapped, getStatus. cbn. destruct H as (He & Hp & Hu & Hn & Hm).
  split; [|done]. split_and!; done.
Qed.

Definition stuck_at (i : nat) (st : state) : Prop :=
  g_inited st = true /\ exists m, g_unmaps st !! i = Some m /\ stuck m.

Lemma stuck_extPort m u : stuck m -> no_extPort u = true -> u <> m.
Proof.
  intros (_ & Hp & _) Hu ->. unfold no_extPort, truth in Hu.
  destruct (Z.eqb_spec (extPort m) 0); [lia|done].
Qed.

(** ** A forwarding made by UPnP is taken down *)

Lemma unmap_upnp_ok now m w :
  enabled m = 0 -> 0 < extPort m -> overTime m < now ->
  upnpState m = ML_UPNP_IDLE -> upnpMapped m = true -> natpmpMapped m = false ->
  natpmpState m = ML_NATPMP_IDLE \/ natpmpState m = ML_NATPMP_ERR \/ natpmpState m = ML_NATPMP_DISCOVER ->
  unmaps_slot now m w = (slot_zero, snd (UPNP_DeletePortMapping (igd m) (extPort m) (truth (isTcp m)) w)).
Proof.
  destruct m as [e ip ep it no dp ot ns us ud um ust g nm nd nst rt ct h]. cbn.
  intros -> Hp Ht -> -> -> Hn. unfold unmaps_slot. cbn.
  destruct (Z.ltb_spec 0 ep); [|lia]. destruct (Z.ltb_spec ot now); [|lia]. cbn [andb].
  unfold pulse_slot. generalize (next_over_time (getStatus (Slot 0 ip ep it no dp ot ns us ud true
    ML_UPNP_IDLE g false nd nst rt ct h)) now). intros ot'.
  destruct Hn as [->|[->| ->]];
    cbv -[UPNP_DeletePortMapping igd_zero natpmp_zero];
    by destruct (UPNP_DeletePortMapping g ep _ w).
Qed.

(** ** Adding then removing *)

Lemma find_slot_insert p l i v :
  find_slot p l = None -> (i < length l)%nat -> p v = true -> find_slot p (<[i := v]> l) = Some i.
Proof.
  revert i. induction l as [|m l IH]; intros i H Hi Hv; simpl in *; [lia|].
  destruct (p m) eqn:Hm; [done|]. destruct i as [|i]; simpl; [by rewrite Hv|].
  rewrite Hm, IH by (lia || done || by destruct (find_slot p l)). done.
Qed.

Lemma same_key_refl map : same_key map map = true.
Proof. unfold same_key. by rewrite !Z.eqb_refl. Qed.

Lemma add_remove_ok map st i j :
  tables_ok st -> g_inited st = true ->
  find_slot (enabled_with_key map) (g_maps st) = None ->
  find_slot not_enabled (g_maps st) = Some i -> find_slot no_extPort (g_unmaps st) = Some j ->
  exists st', maps_add_item map st = (0, st') /\
    maps_remove_item map st'
    = (0, State (<[i := slot_zero]> (g_maps st)) (<[j := retired_slot (fresh_slot map)]> (g_unmaps st)) true (g_running st)).
Proof.
  intros (L1 & _) Hin Hnone Hi Hj. pose proof (find_slot_Some _ _ _ Hi) as (z & Hz & _).
  unfold maps_add_item. rewrite Hin, Hnone, Hi. cbn [negb]. eexists. split; [done|].
  unfold maps_remove_item. cbn [g_inited g_maps g_unmaps g_running negb].
  apply lookup_lt_Some in Hz as Hlt.
  rewrite find_slot_insert by (done || exact (same_key_refl map)).
  rewrite Hj, list_lookup_insert_eq by done. by rewrite list_insert_insert_eq.
Qed.

(** ** [ml_upnpGetMaps] *)

Definition listed (l : list ml_upnpmp_t) : list (Z * Z * Z * Z * Z * Z * list Z) :=
  map_tuple <$> filter (fun m => truth (enabled m) = true) l.

Lemma get_maps_loop_ok i l acc :
  (i < length l)%nat -> get_maps_loop i l acc = listed (take i (drop 1 l)) ++ acc.
Proof.
  revert acc. induction i as [|i IH]; intros acc Hi; [done|]. cbn [get_maps_loop].
  destruct (lookup_lt_is_Some_2 l (S i) Hi) as [m Hm]. rewrite Hm, IH by lia.
  rewrite (take_S_r (drop 1 l) i m) by (by rewrite lookup_drop).
  unfold listed. rewrite filter_app, fmap_app, <- app_assoc. f_equal.
  rewrite filter_cons, filter_nil. destruct (truth (enabled m)) eqn:E.
  - by rewrite decide_True.
  - by rewrite decide_False.
Qed.

(** ** A router that answers *)

(** Rewrites the state tests of a phase. *)
Lemma upnp_is_eq s m : upnpState m = s -> upnp_is s m = true.
Proof. intros H. by apply bool_decide_eq_true_2. Qed.

Lemma upnp_is_ne s m : upnpState m <> s -> upnp_is s m = false.
Proof. intros H. by apply bool_decide_eq_false_2. Qed.

Lemma upnpPulse_maps m w g :
  truth (enabled m) = true -> upnpState m = ML_UPNP_DISCOVER -> upnpMapped m = false ->
  (forall w, fst (UPNP_GetValidIGD (igd m) w) = (UPNP_IGD_VALID_CONNECTED, g)) -> controlURL g = true ->
  (forall w, fst (UPNP_AddPortMapping g (extPort m) (intPort m) (notes m) (truth (isTcp m)) w) = 0) ->
  exists w', upnpPulse m w
    = ((ML_PORT_MAPPED, set_upnpState ML_UPNP_IDLE (set_upnpMapped true
         (set_upnpState ML_UPNP_MAP (set_upnpDiscovered true (set_upnpState ML_UPNP_IDLE (set_igd g m)))))), w').
Proof.
  intros He Hd Hm Hg Hu Ha. specialize (Hg w).
  unfold upnpPulse, mbind, M_bind, bind, ret.
  unfold upnp_discover at 1. rewrite He, upnp_is_eq by done. unfold mbind, M_bind, bind, ret. cbn [andb].
  destruct (UPNP_GetValidIGD (igd m) w) as [r w1]. cbn [fst] in Hg. subst r. cbv beta iota zeta.
  rewrite Z.eqb_refl. cbv beta iota.
  set (m1 := set_upnpDiscovered true (set_upnpState ML_UPNP_IDLE (set_igd g m))).
  assert (E1 : upnp_want_unmap m1 = m1).
  { unfold upnp_want_unmap. change (upnpMapped m1) with (upnpMapped m). by rewrite Hm, andb_false_r. }
  rewrite E1. unfold upnp_check at 1. change (upnpMapped m1) with (upnpMapped m). rewrite Hm, andb_false_r.
  cbn [andb]. unfold ret. cbv beta iota.
  unfold upnp_unmap at 1. rewrite upnp_is_ne by done. unfold ret. cbv beta iota.
  assert (E2 : upnp_want_map m1 = set_upnpState ML_UPNP_MAP m1).
  { unfold upnp_want_map. rewrite upnp_is_eq by done. change (enabled m1) with (enabled m).
    change (upnpMapped m1) with (upnpMapped m). by rewrite He, Hm. }
  rewrite E2. set (m2 := set_upnpState ML_UPNP_MAP m1). unfold upnp_map at 1.
  rewrite upnp_is_eq by done. change (igd m2) with g. rewrite Hu. cbn [negb].
  specialize (Ha w1). unfold mbind, M_bind, bind, ret.
  change (extPort m2) with (extPort m). change (intPort m2) with (intPort m).
  change (notes m2) with (notes m). change (isTcp m2) with (isTcp m).
  destruct (UPNP_AddPortMapping g _ _ _ _ w1) as [r w2]. cbn [fst] in Ha. subst r. by exists w2.
Qed.

(** A slot waiting for its first UPnP discovery, NAT-PMP having failed. *)
Lemma map_upnp_ok now m w g :
  truth (enabled m) = true -> truth (extPort m) = true -> overTime m < now -> upnpState m = ML_UPNP_DISCOVER ->
  upnpMapped m = false -> natpmpState m = ML_NATPMP_ERR -> natpmpMapped m = false ->
  (forall w, fst (UPNP_GetValidIGD (igd m) w) = (UPNP_IGD_VALID_CONNECTED, g)) -> controlURL g = true ->
  (forall w, fst (UPNP_AddPortMapping g (extPort m) (intPort m) (notes m) (truth (isTcp m)) w) = 0) ->
  let m' := fst (maps_slot now m w) in
  upnpMapped m' = true /\ upnpState m' = ML_UPNP_IDLE /\ getStatus m' = ML_PORT_MAPPED /\ extPort m' = extPort m.
Proof.
  intros He Hp Ht Hd Hm Hn Hnm Hg Hu Ha. unfold maps_slot. rewrite He, Hp.
  destruct (Z.ltb_spec (overTime m) now); [|lia]. cbn [andb]. unfold pulse_slot.
  set (m0 := set_overTime _ m).
  assert (En : natpmpPulse m0 w = ((ML_PORT_ERROR, m0), w)).
  { unfold m0. clear -He Hn Hnm. generalize (next_over_time (getStatus m) now). intros ot'.
    destruct m as [e1 ip1 ep1 it1 no1 dp1 ot1 ns1 us1 ud1 um1 ust1 g1 nm1 nd1 nst1 rt1 ct1 h1].
    cbn [enabled natpmpState natpmpMapped] in *. subst nst1 nm1.
    unfold natpmpPulse, mbind, M_bind, bind, ret, natpmp_discover, natpmp_want_unmap.
    cbn [enabled set_overTime]. rewrite He. reflexivity. }
  unfold mbind, M_bind, bind, ret. rewrite En. cbv beta iota zeta.
  destruct (upnpPulse_maps (set_doPortCheck true (set_natpmpStatus ML_PORT_ERROR m0)) w g) as (w' & ->); [done..|].
  cbn. done.
Qed.

(** ** Properties *)

(** A retired slot that only UPnP had mapped is taken down in one pulse:
    the router is asked to delete exactly its external port and protocol, and
    the slot is free again. *)
Theorem unmap_upnp now m w :
  enabled m = 0 -> 0 < extPort m -> overTime m < now ->
  upnpState m = ML_UPNP_IDLE -> upnpMapped m = true -> natpmpMapped m = false ->
  natpmpState m = ML_NATPMP_IDLE \/ natpmpState m = ML_NATPMP_ERR \/ natpmpState m = ML_NATPMP_DISCOVER ->
  unmaps_slot now m w = (slot_zero, snd (UPNP_DeletePortMapping (igd m) (extPort m) (truth (isTcp m)) w)).
Proof. apply unmap_upnp_ok. Qed.

(** A new slot whose gateway answers is mapped by its first pulse, under
    the ports it asked for. *)
Theorem map_upnp now m w g :
  truth (enabled m) = true -> truth (extPort m) = true -> overTime m < now -> upnpState m = ML_UPNP_DISCOVER ->
  upnpMapped m = false -> natpmpState m = ML_NATPMP_ERR -> natpmpMapped m = false ->
  (forall w, fst (UPNP_GetValidIGD (igd m) w) = (UPNP_IGD_VALID_CONNECTED, g)) -> controlURL g = true ->
  (forall w, fst (UPNP_AddPortMapping g (extPort m) (intPort m) (notes m) (truth (isTcp m)) w) = 0) ->
  let m' := fst (maps_slot now m w) in
  upnpMapped m' = true /\ upnpState m' = ML_UPNP_IDLE /\ getStatus m' = ML_PORT_MAPPED /\ extPort m' = extPort m.
Proof. apply map_upnp_ok. Qed.

(** Adding a forwarding and removing it at once leaves its place in [g_maps]
    zeroed and the others as they were, and exactly its retired slot in the first free place of
    [g_unmaps]. *)
Theorem add_remove map st i j :
  tables_ok st -> g_inited st = true ->
  find_slot (enabled_with_key map) (g_maps st) = None ->
  find_slot not_enabled (g_maps st) = Some i -> find_slot no_extPort (g_unmaps st) = Some j ->
  exists st', maps_add_item map st = (0, st') /\
    maps_remove_item map st'
    = (0, State (<[i := slot_zero]> (g_maps st)) (<[j := retired_slot (fresh_slot map)]> (g_unmaps st)) true (g_running st)).
Proof. apply add_remove_ok. Qed.

(** [ml_upnpGetMaps] lists, in order, the enabled slots of [g_maps] except
    slot 0, where the first forwarding always goes. *)
Theorem get_maps_skips_first st :
  length (g_maps st) = MAX_MAPS -> g_inited st = true ->
  ml_upnpGetMaps st = Some (listed (drop 1 (g_maps st))).
Proof.
  intros Hl Hin. unfold ml_upnpGetMaps. rewrite Hin. cbn [negb].
  rewrite get_maps_loop_ok by (rewrite Hl; unfold MAX_MAPS; lia).
  rewrite app_nil_r, take_ge by (rewrite length_drop, Hl; done). done.
Qed.

End Slots.

(** ** A router for the concrete runs

    It accepts everything; its answers to NAT-PMP requests carry the private
    port requested (RFC 6886).  The world is a clock that advances at each
    look, and the list of the deletions it was asked for. *)
Definition EchoWorld : Type := Z * list (Z * bool).

#[export] Instance echo_router : Router EchoWorld Z unit := {
  time := fun w => (fst w, (fst w + 10, snd w));
  natpmp_zero := 0;
  natpmp_no_socket h := h;
  initnatpmp h := ret (0, h);
  sendpublicaddressrequest h := ret (2, h);
  readnatpmpresponseorretry h := ret (0, h, h);
  sendnewportmappingrequest_tcp h priv pub life := ret (12, priv);
  NATPMP_TRYAGAIN := -100;
  igd_zero := tt;
  UPNP_GetValidIGD g := ret (1, g);
  controlURL g := true;
  UPNP_GetSpecificPortMappingEntry g p tcp := ret 0;
  UPNP_DeletePortMapping g p tcp := fun w => (0, (fst w, snd w ++ [(p, tcp)]));
  UPNP_AddPortMapping g ext int notes tcp := ret 0;
  UPNPCOMMAND_SUCCESS := 0
}.

Definition echo_start : EchoWorld := (1000, []).
Definition echo_st0 : state (Natpmp := Z) (Igd := unit) := init_maps state_zero.

(** A slot that failed on both sides. *)
Definition failed_slot : ml_upnpmp_t (Natpmp := Z) (Igd := unit) :=
  Slot 0 4662 4662 1 [] false 0 ML_PORT_ERROR ML_PORT_ERROR false false ML_UPNP_ERR tt
    false true ML_NATPMP_ERR 0 0 0.

(** A slot mapped by UPnP only, retired. *)
Definition retired_upnp : ml_upnpmp_t (Natpmp := Z) (Igd := unit) :=
  Slot 0 4662 5000 1 [] false 0 ML_PORT_ERROR ML_PORT_MAPPED true true ML_UPNP_IDLE tt
    false true ML_NATPMP_ERR 0 0 0.

Lemma unmap_upnp_witness :
  unmaps_slot 1000 retired_upnp echo_start
  = (slot_zero, snd (UPNP_DeletePortMapping (igd retired_upnp) (extPort retired_upnp)
                       (truth (isTcp retired_upnp)) echo_start)).
Proof. apply (unmap_upnp 1000 retired_upnp echo_start); try reflexivity. right; left; reflexivity. Defined.

(** A slot to map by UPnP. *)
Definition wanted_upnp : ml_upnpmp_t (Natpmp := Z) (Igd := unit) :=
  Slot 1 4662 5000 1 [] false 0 ML_PORT_ERROR ML_PORT_UNMAPPED false false ML_UPNP_DISCOVER tt
    false true ML_NATPMP_ERR 0 0 0.

Lemma map_upnp_witness :
  let m' := fst (maps_slot 1000 wanted_upnp echo_start) in
  upnpMapped m' = true /\ upnpState m' = ML_UPNP_IDLE /\ getStatus m' = ML_PORT_MAPPED /\
  extPort m' = extPort wanted_upnp.
Proof. apply (map_upnp 1000 wanted_upnp echo_start tt); reflexivity. Defined.

Lemma add_remove_witness :
  exists st', maps_add_item (slot_of_args 1 4662 5000 1 []) echo_st0 = (0, st') /\
    maps_remove_item (slot_of_args 1 4662 5000 1 []) st'
    = (0, State (<[0%nat := slot_zero]> (g_maps echo_st0))
            (<[0%nat := retired_slot (fresh_slot (slot_of_args 1 4662 5000 1 []))]> (g_unmaps echo_st0))
            true (g_running echo_st0)).
Proof.
  apply (add_remove (slot_of_args 1 4662 5000 1 []) echo_st0 0 0).
  - exact tables_ok_zero.
  - reflexivity.
  - reflexivity.
  - reflexivity.
  - reflexivity.
Defined.

Lemma get_maps_skips_first_witness :
  ml_upnpGetMaps (ml_upnpAddMap 1 4662 5000 1 [] echo_st0)
  = Some (listed (drop 1 (g_maps (ml_upnpAddMap 1 4662 5000 1 [] echo_st0)))).
Proof. apply get_maps_skips_first; reflexivity. Defined.

(** The slot 0 of [st] after one pulse of the thread. *)
Definition pulsed_first (st : state) (now : Z) (w : EchoWorld) : ml_upnpmp_t * EchoWorld :=
  match g_maps st with m :: _ => maps_slot now m w | [] => (slot_zero, w) end.

(** NAT-PMP overwrites the external port of a slot with the private port;
    a later [ml_upnpRemoveMap] with the ports the forwarding was added with
    then finds nothing: the slot stays enabled and mapped. *)
Theorem remove_misses_after_natpmp :
  let st1 := ml_upnpAddMap 1 4662 5000 1 [] echo_st0 in
  let '(m, w) := pulsed_first st1 1000 echo_start in
  let st2 := State (<[0%nat := m]> (g_maps st1)) (g_unmaps st1) true true in
  (extPort m, natpmpMapped m, upnpMapped m) = (4662, true, true) /\
  g_maps (ml_upnpRemoveMap 1 4662 5000 1 [] st2) !! 0%nat = Some m.
Proof. vm_compute. split; reflexivity. Qed.

(** When both protocols mapped a slot, taking NAT-PMP down first sets
    [extPort] to 0, and UPnP is then asked to delete port 0: the port 4662
    stays forwarded. *)
Theorem dual_unmap_deletes_port_0 :
  let st1 := ml_upnpAddMap 1 4662 4662 1 [] echo_st0 in
  let '(m, w) := pulsed_first st1 1000 echo_start in
  (natpmpMapped m, upnpMapped m) = (true, true) /\
  let '(m', w') := unmaps_slot 3000 (retired_slot m) (fst w + 100, []) in
  m' = slot_zero /\ snd w' = [(0, true)].
Proof. vm_compute. repeat split; reflexivity. Qed.

(** The argument of [ml_upnp_job_stop] and [ml_upnpRemoveAllMaps] is read with
    [Val_int] where [Int_val] is meant; [v] is the machine word of the OCaml
    integer [n], [v = 2n + 1]. *)
Definition Val_int (v : Z) : Z := s32 (2 * v + 1).
Definition Int_val (v : Z) : Z := s32 (Z.shiftr v 1).
Definition caml_int (n : Z) : Z := 2 * n + 1.

Definition thread_wait (wait_v : Z) : Z :=
  let wait := Val_int wait_v in if wait <? 1 then MAX_THREAD_WAIT else wait.

(** The wait asked for as [n] seconds is [4n + 3] seconds long, and the
    default for a wait below 1 is never taken from a non-negative argument. *)
Theorem thread_wait_value n :
  0 <= n < 2 ^ 28 -> thread_wait (caml_int n) = 4 * n + 3 /\ Int_val (caml_int n) = n.
Proof.
  intros Hn. unfold thread_wait, Val_int, Int_val, caml_int, s32.
  rewrite Z.shiftr_div_pow2 by lia. change (2 ^ 1) with 2.
  replace ((2 * n + 1) / 2) with n by (Z.div_mod_to_equations; lia).
  rewrite !Z.mod_small by lia. destruct (Z.ltb_spec (2 * (2 * n + 1) + 1 + 2147483648 - 2147483648) 1); lia.
Qed.

Lemma thread_wait_value_witness :
  0 <= 10 < 2 ^ 28 /\ thread_wait (caml_int 10) = 4 * 10 + 3 /\ Int_val (caml_int 10) = 10.
Proof. split; [lia|apply (thread_wait_value 10); lia]. Defined.

End Upnp.
