(* ===== verification/UpnpRace.v ===== *)
(** * Port forwarding, interleaved

    [src/src/utils/net/upnp_stubs.c]: the calls of the OCaml side on the two
    tables and the treatment of a slot by the thread, access by access.  A
    search or a test reads the shared slots one field at a time, outside of
    [g_mutex]; what is between [pthread_mutex_lock] and [pthread_mutex_unlock]
    is a list of updates during which the other side may read but not lock.
    Run alone, the programs do what the operations of [Upnp] say.

    Stops that time out and cancel the thread are in [UpnpThread]; here there is
    one thread, and it is never cancelled.  Memory is sequentially consistent. *)

From Stdlib Require Import ZArith Lia Bool.
From stdpp Require Import base option list numbers relations.
From S2P Require Import Prelude Upnp.
Import Upnp.

Local Open Scope Z_scope.

Module UpnpRace.

Section Race.
Context {W Natpmp Igd : Type} `{!Router W Natpmp Igd}.

Local Abbreviation slot := (ml_upnpmp_t (Natpmp := Natpmp) (Igd := Igd)).
Local Abbreviation state := (state (Natpmp := Natpmp) (Igd := Igd)).

(** ** Programs over the shared tables *)

Inductive table := Maps | Unmaps.

(** The indices of the loops are below [MAX_MAPS], the length of the tables. *)
Definition read_slot (t : table) (i : nat) (st : state) : slot :=
  default slot_zero (match t with Maps => g_maps st | Unmaps => g_unmaps st end !! i).

Definition write_slot (t : table) (i : nat) (m : slot) (st : state) : state :=
  match t with
  | Maps => State (<[i := m]> (g_maps st)) (g_unmaps st) (g_inited st) (g_running st)
  | Unmaps => State (g_maps st) (<[i := m]> (g_unmaps st)) (g_inited st) (g_running st)
  end.

(** An assignment to a slot, or a part of a pulse. *)
Record update := Update { to : table; index : nat; value : state -> M W slot }.

Definition apply (u : update) (st : state) : M W state :=
  m ← value u st; ret (write_slot (to u) (index u) m st).

Fixpoint run_updates (us : list update) (st : state) : M W state :=
  match us with [] => ret st | u :: us => st ← apply u st; run_updates us st end.

(** Reads of the globals, and updates inside of the mutex. *)
Inductive prog (A : Type) :=
  | Ret (a : A)
  | Get (k : state -> prog A)
  | Locked (us : list update) (k : prog A).
Arguments Ret {A} a.
Arguments Get {A} k.
Arguments Locked {A} us k.

Fixpoint prog_bind {A B} (f : A -> prog B) (p : prog A) : prog B :=
  match p with
  | Ret a => f a
  | Get k => Get (fun st => prog_bind f (k st))
  | Locked us k => Locked us (prog_bind f k)
  end.

#[local] Instance prog_mbind : MBind prog := fun A B f p => prog_bind f p.

Definition get {A} (f : state -> A) : prog A := Get (fun st => Ret (f st)).
Definition read {A} (t : table) (i : nat) (f : slot -> A) : prog A := get (fun st => f (read_slot t i st)).

(** [p && q] *)
Definition and_then (p q : prog bool) : prog bool := b ← p; if b : bool then q else Ret false.

(** [for (i = 0; i < MAX_MAPS; i++) if (test (i)) ... break;] *)
Fixpoint find_in (test : nat -> prog bool) (l : list nat) : prog (option nat) :=
  match l with
  | [] => Ret None
  | i :: l => b ← test i; if b : bool then Ret (Some i) else find_in test l
  end.

Definition slots : list nat := seq 0 MAX_MAPS.

(** ** The calls *)

Definition has_key (t : table) (map : slot) (i : nat) : prog bool :=
  and_then (read t i (fun m => intPort m =? intPort map))
    (and_then (read t i (fun m => extPort m =? extPort map)) (read t i (fun m => isTcp m =? isTcp map))).

Definition is_enabled (i : nat) : prog bool := read Maps i (fun m => truth (enabled m)).

(** The updates of one slot. *)
Definition on_slot (t : table) (i : nat) (gs : list (slot -> M W slot)) : list update :=
  (fun g => Update t i (fun st => g (read_slot t i st))) <$> gs.

Definition pure (g : slot -> slot) (m : slot) : M W slot := ret (g m).

Definition add_section (i : nat) (map : slot) : list update :=
  on_slot Maps i (pure <$> [fun _ => map; set_enabled 1; set_upnpState ML_UPNP_DISCOVER; set_natpmpState ML_NATPMP_DISCOVER;
    fun m => set_natpmp (natpmp_no_socket (natpmp m)) m; set_upnpStatus ML_PORT_UNMAPPED;
    set_natpmpStatus ML_PORT_UNMAPPED; set_overTime 0]).

Definition add_item (map : slot) : prog Z :=
  inited ← get g_inited;
  if negb inited then Ret (-1)
  else
    found ← find_in (fun i => and_then (is_enabled i) (has_key Maps map i)) slots;
    match found with
    | Some _ => Ret 1
    | None =>
        free ← find_in (fun i => read Maps i not_enabled) slots;
        match free with
        | Some i => Locked (add_section i map) (Ret 0)
        | None => Ret 1
        end
    end.

Definition retire_section (j : nat) (map : slot) : list update :=
  on_slot Unmaps j (pure <$> [fun _ => map; set_enabled 0; set_overTime 0]).

(** From [g_maps[i]], as it is then, to [g_unmaps[j]]. *)
Definition move_section (i j : nat) : list update :=
  Update Unmaps j (fun st => ret (read_slot Maps i st)) ::
  on_slot Unmaps j (pure <$> [set_enabled 0; set_overTime 0]) ++ on_slot Maps i (pure <$> [fun _ => slot_zero]).

Definition is_free (j : nat) : prog bool := read Unmaps j no_extPort.

Definition remove_item (map : slot) : prog Z :=
  inited ← get g_inited;
  if negb inited then Ret (-1)
  else
    found ← find_in (fun i => and_then (is_enabled i) (has_key Maps map i)) slots;
    match found with
    | Some i =>
        free ← find_in is_free slots;
        match free with Some j => Locked (move_section i j) (Ret 0) | None => Ret 1 end
    | None =>
        existed ← find_in (has_key Unmaps map) slots;
        match existed with
        | Some _ => Ret 0
        | None =>
            free ← find_in is_free slots;
            match free with Some j => Locked (retire_section j map) (Ret 0) | None => Ret 1 end
        end
    end.

(** [g_maps[i].f == g_unmaps[j].f] *)
Definition same_field (f : slot -> Z) (i j : nat) : prog bool :=
  a ← read Maps i f; read Unmaps j (fun m => a =? f m).

Definition remove_one (i : nat) : prog unit :=
  e ← is_enabled i;
  if negb e then Ret tt
  else
    found ← find_in (fun j => and_then (same_field intPort i j) (and_then (same_field extPort i j) (same_field isTcp i j))) slots;
    match found with
    | Some _ => Ret tt
    | None =>
        free ← find_in (fun j => and_then (read Unmaps j not_enabled) (is_free j)) slots;
        match free with Some j => Locked (move_section i j) (Ret tt) | None => Ret tt end
    end.

Fixpoint for_each (f : nat -> prog unit) (l : list nat) : prog unit :=
  match l with [] => Ret tt | i :: l => _ ← f i; for_each f l end.

Definition remove_all : prog unit :=
  inited ← get g_inited; if negb inited then Ret tt else for_each remove_one slots.

(** ** The thread *)

Definition get_status (t : table) (i : nat) : prog ml_port_forwarding :=
  n ← read t i natpmpStatus; u ← read t i upnpStatus;
  if port_value u <? port_value n then read t i natpmpStatus else read t i upnpStatus.

(** [pulse_slot], part by part. *)
Definition pulse_steps (oldStatus : ml_port_forwarding) (check : bool) (now : Z) : list (slot -> M W slot) :=
  [pure (set_overTime (next_over_time oldStatus now)); natpmp_discover; natpmp_recv_pub; pure natpmp_want_unmap; natpmp_send_unmap;
   natpmp_recv_unmap; natpmp_want_map; natpmp_send_map; natpmp_recv_map; pure (fun m => set_natpmpStatus (natpmp_status m) m);
   pure (set_doPortCheck check); upnp_discover; pure upnp_want_unmap; upnp_check; upnp_unmap; pure upnp_want_map; upnp_map;
   pure (fun m => set_upnpStatus (upnp_status m) m)].

Definition treat_unmaps (i : nat) (now : Z) : prog unit :=
  ready ← and_then (read Unmaps i not_enabled)
    (and_then (read Unmaps i (fun m => 0 <? extPort m)) (read Unmaps i (fun m => overTime m <? now)));
  if ready : bool then
    oldStatus ← get_status Unmaps i;
    Locked (on_slot Unmaps i (pulse_steps oldStatus false now ++ [pure clear_unmapped])) (Ret tt)
  else Ret tt.

Definition treat_maps (i : nat) (now : Z) : prog unit :=
  ready ← and_then (is_enabled i)
    (and_then (read Maps i (fun m => truth (extPort m))) (read Maps i (fun m => overTime m <? now)));
  if ready : bool then
    oldStatus ← get_status Maps i;
    Locked (on_slot Maps i (pulse_steps oldStatus true now)) (Ret tt)
  else Ret tt.

(** ** Interleavings *)

(** Between two accesses, or in the mutex with some updates to do. *)
Inductive proc :=
  | Outside (p : prog unit)
  | Inside (us : list update) (k : prog unit).

Definition idle : proc := Outside (Ret tt).

Definition inside (p : proc) : bool := match p with Inside _ _ => true | Outside _ => false end.

(** One access; [free]: the other side is not in the mutex. *)
Inductive access (free : bool) : proc * state * W -> proc * state * W -> Prop :=
  | access_get k st w : access free (Outside (Get k), st, w) (Outside (k st), st, w)
  | access_lock us k st w : free = true -> access free (Outside (Locked us k), st, w) (Inside us k, st, w)
  | access_update u us k st w st' w' : apply u st w = (st', w') -> access free (Inside (u :: us) k, st, w) (Inside us k, st', w')
  | access_unlock k st w : access free (Inside [] k, st, w) (Outside k, st, w).

Record sys := Sys { shared : state; router : W; ocaml : proc; thread : proc }.

(** The calls that change the tables. *)
Inductive call :=
  | AddMap (e i x t : Z) (n : list Z)
  | RemoveMap (e i x t : Z) (n : list Z)
  | RemoveAllMaps.

Definition call_prog (c : call) : prog unit :=
  match c with
  | AddMap e i x t n => _ ← add_item (slot_of_args e i x t n); Ret tt
  | RemoveMap e i x t n => _ ← remove_item (slot_of_args e i x t n); Ret tt
  | RemoveAllMaps => remove_all
  end.

(** An access of either side; the OCaml side enters a call, or starts or stops
    the thread; the thread finds [g_running] set and goes to a slot. *)
Inductive step : sys -> sys -> Prop :=
  | step_ocaml st w oc th st' w' oc' :
      access (negb (inside th)) (oc, st, w) (oc', st', w') -> step (Sys st w oc th) (Sys st' w' oc' th)
  | step_thread st w oc th st' w' th' :
      access (negb (inside oc)) (th, st, w) (th', st', w') -> step (Sys st w oc th) (Sys st' w' oc th')
  | step_call c st w th : step (Sys st w idle th) (Sys st w (Outside (call_prog c)) th)
  | step_init st w th : step (Sys st w idle th) (Sys (init_maps st) w idle th)
  | step_start st w th : inside th = false -> step (Sys st w idle th) (Sys (upnp_thread_start st) w idle th)
  | step_stop st w th : inside th = false -> step (Sys st w idle th) (Sys (upnp_thread_stop st) w idle th)
  | step_unmaps i now st w oc : g_running st = true -> (i < MAX_MAPS)%nat ->
      step (Sys st w oc idle) (Sys st w oc (Outside (treat_unmaps i now)))
  | step_maps i now st w oc : g_running st = true -> (i < MAX_MAPS)%nat ->
      step (Sys st w oc idle) (Sys st w oc (Outside (treat_maps i now))).

Definition reachable (s : sys) : Prop := exists w0, rtc step (Sys state_zero w0 idle idle) s.

(** ** A program run alone *)

Fixpoint alone {A} (p : prog A) (st : state) (w : W) : A * state * W :=
  match p with
  | Ret a => (a, st, w)
  | Get k => alone (k st) st w
  | Locked us k => let '(st, w) := run_updates us st w in alone k st w
  end.

Lemma alone_bind {A B} (p : prog A) (f : A -> prog B) st w a st' w' :
  alone p st w = (a, st', w') -> alone (p ≫= f) st w = alone (f a) st' w'.
Proof.
  revert st w. induction p as [a0|k IH|us k IH]; intros st w; cbn.
  - by intros [= -> -> ->].
  - apply IH.
  - destruct (run_updates us st w) as [st1 w1]. apply IH.
Qed.

(** A program that only reads, with its value. *)
Definition reads {A} (p : prog A) (st : state) (a : A) : Prop := forall w, alone p st w = (a, st, w).

Lemma reads_bind {A B} (p : prog A) (f : A -> prog B) st a b : reads p st a -> reads (f a) st b -> reads (p ≫= f) st b.
Proof. intros Hp Hf w. by rewrite (alone_bind _ _ _ _ _ _ _ (Hp w)). Qed.

Lemma reads_read {A} t i (f : slot -> A) st : reads (read t i f) st (f (read_slot t i st)).
Proof. done. Qed.

Lemma reads_and_then p q st a b : reads p st a -> reads q st b -> reads (and_then p q) st (a && b).
Proof. intros Hp Hq. apply (reads_bind _ _ _ a); [done|]. by destruct a. Qed.

Lemma reads_find_in test (f : nat -> bool) l st :
  (forall i, reads (test i) st (f i)) -> reads (find_in test l) st (find f l).
Proof.
  intros Ht. induction l as [|i l IH]; [done|]. cbn [find_in find]. apply (reads_bind _ _ _ (f i)); [done|]. by destruct (f i).
Qed.

Definition rows (t : table) (st : state) : list slot := match t with Maps => g_maps st | Unmaps => g_unmaps st end.

(** The search through a table is [find_slot]. *)
Lemma find_rows (p : slot -> bool) (l : list slot) :
  find (fun i => p (default slot_zero (l !! i))) (seq 0 (length l)) = find_slot p l.
Proof.
  cut (forall pre, find (fun i => p (default slot_zero ((pre ++ l) !! i))) (seq (length pre) (length l))
    = (fun i => (length pre + i)%nat) <$> find_slot p l).
  { intros H. specialize (H []). cbn in H. rewrite H. by destruct (find_slot p l). }
  induction l as [|m l IH]; intros pre; [done|]. cbn [length seq find find_slot].
  rewrite lookup_app_r, Nat.sub_diag by done. change (default slot_zero ((m :: l) !! 0%nat)) with m. destruct (p m).
  - cbn. by rewrite Nat.add_0_r.
  - specialize (IH (pre ++ [m])). rewrite <- app_assoc in IH. cbn [app] in IH. rewrite length_app in IH.
    cbn [length] in IH. rewrite Nat.add_1_r in IH. rewrite IH. destruct (find_slot p l); cbn; [f_equal; lia|done].
Qed.

Lemma reads_search t test (p : slot -> bool) st :
  length (rows t st) = MAX_MAPS -> (forall i, reads (test i) st (p (read_slot t i st))) ->
  reads (find_in test slots) st (find_slot p (rows t st)).
Proof.
  intros Hl Ht. rewrite <- find_rows, Hl. apply (reads_find_in test (fun i => p (read_slot t i st)) slots st Ht).
Qed.

(** *** Sections *)

Lemma run_updates_app us us' st w :
  run_updates (us ++ us') st w = let '(st1, w1) := run_updates us st w in run_updates us' st1 w1.
Proof.
  revert st w. induction us as [|u us IH]; intros st w; [done|]. cbn [app run_updates].
  unfold mbind, M_bind, bind. destruct (apply u st w) as [st1 w1]. apply IH.
Qed.

Fixpoint run_slot (gs : list (slot -> M W slot)) (m : slot) : M W slot :=
  match gs with [] => ret m | g :: gs => m ← g m; run_slot gs m end.

Lemma run_slot_app gs gs' m w : run_slot (gs ++ gs') m w = let '(m1, w1) := run_slot gs m w in run_slot gs' m1 w1.
Proof.
  revert m w. induction gs as [|g gs IH]; intros m w; [done|]. cbn [app run_slot].
  unfold mbind, M_bind, bind. destruct (g m w) as [m1 w1]. apply IH.
Qed.

Lemma insert_same (d : slot) (l : list slot) i : <[i := default d (l !! i)]> l = l.
Proof.
  destruct (l !! i) as [m|] eqn:E; [by apply list_insert_id|]. apply list_insert_ge. by apply lookup_ge_None_1.
Qed.

Lemma write_read t i st : write_slot t i (read_slot t i st) st = st.
Proof. destruct st, t; unfold write_slot, read_slot; cbn [g_maps g_unmaps g_inited g_running]; by rewrite insert_same. Qed.

Lemma read_write t i m st : (i < length (rows t st))%nat -> read_slot t i (write_slot t i m st) = m.
Proof. intros Hi. destruct t; cbn in *; unfold read_slot; cbn; by rewrite list_lookup_insert_eq. Qed.

Lemma write_write t i m m' st : write_slot t i m' (write_slot t i m st) = write_slot t i m' st.
Proof. destruct t; cbn; by rewrite list_insert_insert_eq. Qed.

Lemma rows_write t i m st : length (rows t (write_slot t i m st)) = length (rows t st).
Proof. destruct t; cbn; apply length_insert. Qed.

(** The updates of one slot: what they make of it. *)
Lemma run_on_slot t i gs st w : (i < length (rows t st))%nat ->
  run_updates (on_slot t i gs) st w = let '(m, w') := run_slot gs (read_slot t i st) w in (write_slot t i m st, w').
Proof.
  intros Hi. revert st w Hi. induction gs as [|g gs IH]; intros st w Hi.
  { cbn. unfold ret. by rewrite write_read. }
  cbn [on_slot fmap list_fmap run_updates run_slot]. unfold apply, mbind, M_bind, bind, ret. cbn [to index value].
  destruct (g (read_slot t i st) w) as [m1 w1]. fold (on_slot t i gs). rewrite IH by (by rewrite rows_write).
  rewrite read_write by done. destruct (run_slot gs m1 w1) as [m2 w2]. by rewrite write_write.
Qed.

Lemma run_add_section i map st w : (i < length (g_maps st))%nat ->
  run_updates (add_section i map) st w = (write_slot Maps i (fresh_slot map) st, w).
Proof. intros Hi. unfold add_section. by rewrite run_on_slot. Qed.

Lemma run_retire_section j map st w : (j < length (g_unmaps st))%nat ->
  run_updates (retire_section j map) st w = (write_slot Unmaps j (retired_slot map) st, w).
Proof. intros Hj. unfold retire_section. by rewrite run_on_slot. Qed.

Lemma run_move_section i j st w : (i < length (g_maps st))%nat -> (j < length (g_unmaps st))%nat ->
  run_updates (move_section i j) st w
  = (write_slot Maps i slot_zero (write_slot Unmaps j (retired_slot (read_slot Maps i st)) st), w).
Proof.
  intros Hi Hj. unfold move_section. cbn [run_updates]. unfold apply, mbind, M_bind, bind, ret. cbn [to index value].
  rewrite run_updates_app, run_on_slot by (cbn; by rewrite length_insert). rewrite read_write by done.
  cbn [fmap list_fmap run_slot]. unfold pure, mbind, M_bind, bind, ret. rewrite write_write. by rewrite run_on_slot.
Qed.

(** The parts of a pulse make the pulse. *)
Lemma run_pulse old check now m w : run_slot (pulse_steps old check now) m w = pulse_slot old check now m w.
Proof.
  unfold pulse_steps, pulse_slot, natpmpPulse, upnpPulse, pure. cbn [run_slot].
  unfold mbind, M_bind, bind, ret. cbv beta iota zeta.
  repeat match goal with |- context [let '(_, _) := ?f ?m ?w in _] => destruct (f m w) as [? ?]; cbv beta iota zeta end. done.
Qed.

(** *** The operations of [Upnp] are the programs run alone *)

Definition sized (st : state) : Prop := length (g_maps st) = MAX_MAPS /\ length (g_unmaps st) = MAX_MAPS.

Lemma reads_has_key t map i st : reads (has_key t map i) st (same_key map (read_slot t i st)).
Proof. unfold same_key. rewrite <- andb_assoc. repeat (apply reads_and_then; [apply reads_read|]). apply reads_read. Qed.

Lemma reads_enabled_key map i st :
  reads (and_then (is_enabled i) (has_key Maps map i)) st (enabled_with_key map (read_slot Maps i st)).
Proof. apply reads_and_then; [apply reads_read|apply reads_has_key]. Qed.

Lemma reads_status t i st : reads (get_status t i) st (getStatus (read_slot t i st)).
Proof.
  unfold get_status. eapply reads_bind; [apply reads_read|]. eapply reads_bind; [apply reads_read|].
  unfold getStatus. destruct (_ <? _); apply reads_read.
Qed.

Lemma alone_reads {A B} (p : prog A) (f : A -> prog B) st w a : reads p st a -> alone (p ≫= f) st w = alone (f a) st w.
Proof. intros Hp. by apply alone_bind. Qed.

Lemma find_slot_lt (p : slot -> bool) (l : list slot) i : find_slot p l = Some i -> (i < length l)%nat.
Proof. intros (m & Hm & _)%find_slot_Some. by eapply lookup_lt_Some. Qed.

Lemma alone_locked {A} us (a : A) st w st' w' : run_updates us st w = (st', w') -> alone (Locked us (Ret a)) st w = (a, st', w').
Proof. intros E. cbn. by rewrite E. Qed.

Lemma alone_add map st w : sized st -> alone (add_item map) st w = (maps_add_item map st, w).
Proof.
  intros [Hl _]. unfold add_item, maps_add_item. rewrite (alone_reads _ _ _ _ (g_inited st)) by done.
  destruct (g_inited st) eqn:Hin; cbn [negb]; [|done].
  rewrite (alone_reads _ _ _ _ (find_slot (enabled_with_key map) (g_maps st)))
    by (apply (reads_search Maps); [done|intros; apply reads_enabled_key]).
  destruct (find_slot (enabled_with_key map) _); [done|].
  rewrite (alone_reads _ _ _ _ (find_slot not_enabled (g_maps st))) by (by apply (reads_search Maps)).
  destruct (find_slot not_enabled _) as [i|] eqn:E; [|done].
  rewrite (alone_locked _ _ _ _ _ _ (run_add_section i map st w (find_slot_lt _ _ _ E))). cbn. by rewrite Hin.
Qed.

Lemma reads_free st : sized st -> reads (find_in is_free slots) st (find_slot no_extPort (g_unmaps st)).
Proof. intros [_ Hl]. by apply (reads_search Unmaps). Qed.

Lemma alone_remove map st w : sized st -> alone (remove_item map) st w = (maps_remove_item map st, w).
Proof.
  intros Hs. pose proof Hs as [Hl Hl']. unfold remove_item, maps_remove_item. rewrite (alone_reads _ _ _ _ (g_inited st)) by done.
  destruct (g_inited st) eqn:Hin; cbn [negb]; [|done].
  rewrite (alone_reads _ _ _ _ (find_slot (enabled_with_key map) (g_maps st)))
    by (apply (reads_search Maps); [done|intros; apply reads_enabled_key]).
  destruct (find_slot (enabled_with_key map) _) as [i|] eqn:Ei.
  - rewrite (alone_reads _ _ _ _ _ (reads_free st Hs)). destruct (find_slot no_extPort _) as [j|] eqn:Ej; [|done].
    apply find_slot_lt in Ei, Ej. destruct (lookup_lt_is_Some_2 _ _ Ei) as [m Hm]. rewrite Hm.
    rewrite (alone_locked _ _ _ _ _ _ (run_move_section i j st w Ei Ej)). unfold read_slot. cbn. by rewrite Hm, Hin.
  - rewrite (alone_reads _ _ _ _ (find_slot (same_key map) (g_unmaps st)))
      by (apply (reads_search Unmaps); [done|intros; apply reads_has_key]).
    destruct (find_slot (same_key map) _); [done|].
    rewrite (alone_reads _ _ _ _ _ (reads_free st Hs)). destruct (find_slot no_extPort _) as [j|] eqn:Ej; [|done].
    apply find_slot_lt in Ej. rewrite (alone_locked _ _ _ _ _ _ (run_retire_section j map st w Ej)). cbn. by rewrite Hin.
Qed.

Lemma reads_same_field f i j st : reads (same_field f i j) st (f (read_slot Unmaps j st) =? f (read_slot Maps i st)).
Proof. eapply reads_bind; [apply reads_read|]. rewrite Z.eqb_sym. apply reads_read. Qed.

Lemma alone_remove_one i st w : sized st -> (i < MAX_MAPS)%nat -> alone (remove_one i) st w = (tt, remove_all_step i st, w).
Proof.
  intros [Hl Hl'] Hi. assert (Hil : (i < length (g_maps st))%nat) by (by rewrite Hl).
  unfold remove_one, remove_all_step. destruct (lookup_lt_is_Some_2 _ _ Hil) as [m Hm]. rewrite Hm.
  assert (Hr : read_slot Maps i st = m) by (unfold read_slot; by rewrite Hm).
  rewrite (alone_reads _ _ _ _ (truth (enabled m))) by (rewrite <- Hr; apply reads_read).
  destruct (truth (enabled m)); cbn [negb]; [|done].
  rewrite (alone_reads _ _ _ _ (find_slot (same_key m) (g_unmaps st))).
  2: { apply (reads_search Unmaps); [done|]. intros j. unfold same_key. rewrite <- andb_assoc, <- Hr.
       repeat (apply reads_and_then; [apply reads_same_field|]). apply reads_same_field. }
  destruct (find_slot (same_key m) _); [done|].
  rewrite (alone_reads _ _ _ _ (find_slot (fun u => not_enabled u && no_extPort u) (g_unmaps st))).
  2: { apply (reads_search Unmaps); [done|]. intros j. apply reads_and_then; apply reads_read. }
  destruct (find_slot _ _) as [j|] eqn:Ej; [|done]. apply find_slot_lt in Ej.
  rewrite (alone_locked _ _ _ _ _ _ (run_move_section i j st w Hil Ej)). by rewrite Hr.
Qed.

Lemma remove_all_step_sized i st : sized st -> sized (remove_all_step i st).
Proof.
  intros [H1 H2]. unfold remove_all_step. destruct (g_maps st !! i); [|done]. destruct (negb _); [done|].
  destruct (find_slot _ _); [done|]. destruct (find_slot _ _); [|done]. split; cbn; by rewrite length_insert.
Qed.

Lemma alone_remove_all st w : sized st -> alone remove_all st w = (tt, ml_upnpRemoveAllMaps st, w).
Proof.
  intros Hs. unfold remove_all, ml_upnpRemoveAllMaps. rewrite (alone_reads _ _ _ _ (g_inited st)) by done.
  destruct (g_inited st); cbn [negb]; [|done]. fold slots.
  assert (Hin : forall i, i ∈ slots -> (i < MAX_MAPS)%nat) by (intros i [_ ?]%elem_of_seq; lia).
  revert st Hs Hin. generalize slots. intros l. induction l as [|i l IH]; intros st Hs Hin; [done|].
  cbn [for_each fold_left]. rewrite (alone_bind _ _ _ _ tt (remove_all_step i st) w) by (apply alone_remove_one; [done|apply Hin; left]).
  apply IH; [by apply remove_all_step_sized|]. intros j Hj. apply Hin. by right.
Qed.

(** Every call. *)
Lemma alone_call c st w : sized st ->
  alone (call_prog c) st w = (tt, match c with
    | AddMap e i x t n => ml_upnpAddMap e i x t n st
    | RemoveMap e i x t n => ml_upnpRemoveMap e i x t n st
    | RemoveAllMaps => ml_upnpRemoveAllMaps st end, w).
Proof.
  intros Hs. destruct c as [e i x t n|e i x t n|]; cbn [call_prog]; [..|by apply alone_remove_all].
  - unfold ml_upnpAddMap. pose proof (alone_add (slot_of_args e i x t n) st w Hs) as E.
    destruct (maps_add_item _ st) as [z st']. by rewrite (alone_bind _ _ _ _ _ _ _ E).
  - unfold ml_upnpRemoveMap. pose proof (alone_remove (slot_of_args e i x t n) st w Hs) as E.
    destruct (maps_remove_item _ st) as [z st']. by rewrite (alone_bind _ _ _ _ _ _ _ E).
Qed.

Lemma alone_treat_unmaps i now st w : sized st -> (i < MAX_MAPS)%nat ->
  alone (treat_unmaps i now) st w = let '(m, w') := unmaps_slot now (read_slot Unmaps i st) w in (tt, write_slot Unmaps i m st, w').
Proof.
  intros [_ Hl] Hi. unfold treat_unmaps, unmaps_slot. rewrite <- andb_assoc.
  erewrite (alone_reads (and_then _ _))
    by (apply reads_and_then; [apply reads_read|apply reads_and_then; apply reads_read]).
  cbv beta. set (m := read_slot Unmaps i st). change (negb (truth (enabled m))) with (not_enabled m). destruct (_ && _).
  - rewrite (alone_reads _ _ _ _ _ (reads_status Unmaps i st)). cbn [alone].
    rewrite run_on_slot, run_slot_app, run_pulse by (cbn; by rewrite Hl). fold m. unfold mbind, M_bind, bind, ret.
    by destruct (pulse_slot _ _ _ _ _).
  - unfold m, ret. by rewrite write_read.
Qed.

Lemma alone_treat_maps i now st w : sized st -> (i < MAX_MAPS)%nat ->
  alone (treat_maps i now) st w = let '(m, w') := maps_slot now (read_slot Maps i st) w in (tt, write_slot Maps i m st, w').
Proof.
  intros [Hl _] Hi. unfold treat_maps, maps_slot. rewrite <- andb_assoc.
  erewrite (alone_reads (and_then _ _))
    by (apply reads_and_then; [apply reads_read|apply reads_and_then; apply reads_read]).
  cbv beta. set (m := read_slot Maps i st). destruct (_ && _).
  - rewrite (alone_reads _ _ _ _ _ (reads_status Maps i st)). cbn [alone].
    rewrite run_on_slot, run_pulse by (cbn; by rewrite Hl). fold m. by destruct (pulse_slot _ _ _ _ _).
  - unfold m, ret. by rewrite write_read.
Qed.

(** ** What an interleaving keeps

    [J] holds all the time, [I] when nobody is in the mutex: a program is safe
    when its sections, entered in [I], stay in [J] and end in [I].  Its reads
    may see any state of [J]. *)

Section Safe.
Context (J I : state -> Prop).

Fixpoint within (us : list update) (st : state) (w : W) : Prop :=
  match us with
  | [] => I st
  | u :: us => let '(st, w) := apply u st w in J st /\ within us st w
  end.

Fixpoint safe {A} (Q : A -> Prop) (p : prog A) : Prop :=
  match p with
  | Ret a => Q a
  | Get k => forall st, J st -> safe Q (k st)
  | Locked us k => (forall st w, I st -> within us st w) /\ safe Q k
  end.

Lemma safe_bind {A B} (Q : A -> Prop) (R : B -> Prop) (p : prog A) (f : A -> prog B) :
  safe Q p -> (forall a, Q a -> safe R (f a)) -> safe R (p ≫= f).
Proof.
  intros Hp Hf. induction p as [a|k IH|us k IH]; cbn in *.
  - by apply Hf.
  - intros st Hst. by apply IH, Hp.
  - destruct Hp as [H1 H2]. split; [done|]. by apply IH.
Qed.

Lemma safe_mono {A} (Q R : A -> Prop) (p : prog A) : (forall a, Q a -> R a) -> safe Q p -> safe R p.
Proof.
  intros HQ. induction p as [a|k IH|us k IH]; cbn.
  - apply HQ.
  - intros H st Hst. by apply IH, H.
  - intros [H1 H2]. split; [done|]. by apply IH.
Qed.

Lemma safe_read {A} (Q : A -> Prop) t i (f : slot -> A) :
  (forall st, J st -> Q (f (read_slot t i st))) -> safe Q (read t i f).
Proof. intros H st Hst. by apply H. Qed.

(** What both tests say when they succeed. *)
Lemma safe_and_then (Q R : Prop) p q :
  safe (fun b => b = true -> Q) p -> safe (fun b => b = true -> R) q -> safe (fun b => b = true -> Q /\ R) (and_then p q).
Proof.
  intros Hp Hq. eapply safe_bind; [exact Hp|]. intros [] Ha; [|done].
  eapply safe_mono; [|exact Hq]. intros b Hb E. split; [by apply Ha|by apply Hb].
Qed.

Lemma safe_find_in (Q : nat -> Prop) test l :
  (forall i, safe (fun b => b = true -> Q i) (test i)) ->
  safe (fun r => match r with Some i => i ∈ l /\ Q i | None => True end) (find_in test l).
Proof.
  intros Ht. induction l as [|i l IH]; [done|]. cbn [find_in]. eapply safe_bind; [apply Ht|]. intros [] Hi.
  - cbn. split; [left|by apply Hi].
  - eapply safe_mono; [|exact IH]. intros [j|]; [|done]. intros [? ?]. split; [by right|done].
Qed.

Lemma safe_search (Q : nat -> Prop) test :
  (forall i, safe (fun b => b = true -> Q i) (test i)) ->
  safe (fun r => match r with Some i => (i < MAX_MAPS)%nat /\ Q i | None => True end) (find_in test slots).
Proof.
  intros Ht. eapply safe_mono; [|by apply (safe_find_in Q)]. intros [i|]; [|done]. intros [[_ ?]%elem_of_seq ?]. split; [lia|done].
Qed.

(** *** Programs that read without learning anything *)

Lemma safe_read_any {A} t i (f : slot -> A) : safe (fun _ => True) (read t i f).
Proof. by apply safe_read. Qed.

Lemma safe_true {A} (Q : A -> Prop) (p : prog A) : (forall a, Q a) -> safe (fun _ => True) p -> safe Q p.
Proof. intros HQ. apply safe_mono. intros a _. apply HQ. Qed.

Lemma safe_then_any p q : safe (fun _ => True) p -> safe (fun _ => True) q -> safe (fun _ => True) (and_then p q).
Proof. intros Hp Hq. eapply safe_bind; [exact Hp|]. by intros []. Qed.

Lemma safe_key_any t map i : safe (fun _ => True) (has_key t map i).
Proof. repeat apply safe_then_any; apply safe_read_any. Qed.

Lemma safe_same_any f i j : safe (fun _ => True) (same_field f i j).
Proof. eapply safe_bind; [apply safe_read_any|]. intros a _. apply safe_read_any. Qed.

Lemma safe_status t i : safe (fun _ => True) (get_status t i).
Proof.
  eapply safe_bind; [apply safe_read_any|]. intros n _. eapply safe_bind; [apply safe_read_any|]. intros u _.
  destruct (_ <? _); apply safe_read_any.
Qed.

Lemma safe_search_any test :
  (forall i, safe (fun _ => True) (test i)) ->
  safe (fun r => match r with Some i => (i < MAX_MAPS)%nat | None => True end) (find_in test slots).
Proof.
  intros Ht. eapply safe_mono; [|apply (safe_search (fun _ => True))]; [by intros [i|]; [intros [? _]|]|].
  intros i. eapply safe_true; [|apply Ht]. done.
Qed.

(** *** The calls, when their sections are good *)

Context (unused : nat -> Prop).
Context (Hadd : forall i map st w, (i < MAX_MAPS)%nat -> I st -> within (add_section i map) st w).
Context (Hretire : forall j map st w, (j < MAX_MAPS)%nat -> unused j -> I st -> within (retire_section j map) st w).
Context (Hmove : forall i j st w, (i < MAX_MAPS)%nat -> (j < MAX_MAPS)%nat -> unused j -> I st -> within (move_section i j) st w).
Context (Hunused : forall j st, J st -> no_extPort (read_slot Unmaps j st) = true -> unused j).

Lemma safe_free j : safe (fun b => b = true -> unused j) (is_free j).
Proof. apply safe_read. intros st Hst. by apply Hunused. Qed.

Lemma safe_enabled_key map i : safe (fun _ => True) (and_then (is_enabled i) (has_key Maps map i)).
Proof. apply safe_then_any; [apply safe_read_any|apply safe_key_any]. Qed.

Lemma safe_add map : safe (fun _ => True) (add_item map).
Proof.
  eapply (safe_bind (fun _ => True)); [by intros st _|]. intros [] _; cbn [negb]; [|done].
  eapply safe_bind; [apply safe_search_any; intros; apply safe_enabled_key|]. intros [i|] _; [done|].
  eapply safe_bind; [apply safe_search_any; intros; apply safe_read_any|]. intros [i|] Hi; [|done].
  split; [intros st w; by apply Hadd|done].
Qed.

Lemma safe_remove map : safe (fun _ => True) (remove_item map).
Proof.
  eapply (safe_bind (fun _ => True)); [by intros st _|]. intros [] _; cbn [negb]; [|done].
  eapply safe_bind; [apply safe_search_any; intros; apply safe_enabled_key|]. intros [i|] Hi.
  - eapply safe_bind; [apply (safe_search unused), safe_free|]. intros [j|]; [|done]. intros [Hj Hf].
    split; [intros st w; by apply Hmove|done].
  - eapply safe_bind; [apply safe_search_any; intros; apply safe_key_any|]. intros [k|] _; [done|].
    eapply safe_bind; [apply (safe_search unused), safe_free|]. intros [j|]; [|done]. intros [Hj Hf].
    split; [intros st w; by apply Hretire|done].
Qed.

Lemma safe_remove_one i : (i < MAX_MAPS)%nat -> safe (fun _ => True) (remove_one i).
Proof.
  intros Hi. eapply safe_bind; [apply safe_read_any|]. intros [] _; cbn [negb]; [|done].
  eapply safe_bind; [apply safe_search_any; intros; repeat apply safe_then_any; apply safe_same_any|]. intros [k|] _; [done|].
  eapply safe_bind.
  { apply (safe_search (fun j => True /\ unused j)). intros j. apply safe_and_then; [|apply safe_free].
    eapply safe_true; [|apply safe_read_any]. done. }
  intros [j|]; [|done]. intros (Hj & _ & Hf). split; [intros st w; by apply Hmove|done].
Qed.

Lemma call_safe c : safe (fun _ => True) (call_prog c).
Proof.
  destruct c; cbn [call_prog].
  - eapply safe_bind; [apply safe_add|done].
  - eapply safe_bind; [apply safe_remove|done].
  - eapply (safe_bind (fun _ => True)); [by intros st _|]. intros [] _; cbn [negb]; [|done].
    assert (Hin : forall i, i ∈ slots -> (i < MAX_MAPS)%nat) by (intros i [_ ?]%elem_of_seq; lia).
    revert Hin. generalize slots. intros l. induction l as [|i l IH]; intros Hin; [done|]. cbn [for_each].
    eapply safe_bind; [apply safe_remove_one, Hin; left|]. intros [] _. apply IH. intros j Hj. apply Hin. by right.
Qed.

(** *** The system *)

Context (Hunmaps : forall i now old st w, (i < MAX_MAPS)%nat -> I st ->
  within (on_slot Unmaps i (pulse_steps old false now ++ [pure clear_unmapped])) st w).
Context (Hmaps : forall i now old st w, (i < MAX_MAPS)%nat -> I st -> within (on_slot Maps i (pulse_steps old true now)) st w).
Context (HIJ : forall st, I st -> J st).
Context (Hinit : forall st, I st -> I (init_maps st)).
Context (Hstart : forall st, I st -> I (upnp_thread_start st)).
Context (Hstop : forall st, I st -> I (upnp_thread_stop st)).

Lemma safe_treat (treat : nat -> Z -> prog unit) t i now section (tests : prog bool) :
  safe (fun _ => True) tests -> (forall old st w, I st -> within (section old) st w) ->
  treat i now = (ready ← tests; if ready : bool then old ← get_status t i; Locked (section old) (Ret tt) else Ret tt) ->
  safe (fun _ => True) (treat i now).
Proof.
  intros Ht Hs ->. eapply safe_bind; [exact Ht|]. intros [] _; [|done].
  eapply safe_bind; [apply safe_status|]. intros old _. split; [apply Hs|done].
Qed.

Lemma safe_treat_unmaps i now : (i < MAX_MAPS)%nat -> safe (fun _ => True) (treat_unmaps i now).
Proof.
  intros Hi. eapply safe_treat; [| |reflexivity]; [repeat apply safe_then_any; apply safe_read_any|].
  intros old st w. by apply Hunmaps.
Qed.

Lemma safe_treat_maps i now : (i < MAX_MAPS)%nat -> safe (fun _ => True) (treat_maps i now).
Proof.
  intros Hi. eapply safe_treat; [| |reflexivity]; [repeat apply safe_then_any; apply safe_read_any|].
  intros old st w. by apply Hmaps.
Qed.

Definition proc_ok (p : proc) (st : state) (w : W) : Prop :=
  match p with
  | Outside p => safe (fun _ => True) p
  | Inside us k => within us st w /\ safe (fun _ => True) k
  end.

Definition good (s : sys) : Prop :=
  let '(Sys st w oc th) := s in
  J st /\ proc_ok oc st w /\ proc_ok th st w /\ (inside oc && inside th = false) /\
  (inside oc || inside th = false -> I st) /\
  (g_running st = true -> g_inited st = true) /\ (th = idle \/ g_inited st = true).

(** An access of one side; the other is not disturbed. *)
Lemma access_ok free p st w p' st' w' q :
  access free (p, st, w) (p', st', w') -> free = negb (inside q) ->
  J st -> proc_ok p st w -> proc_ok q st w -> inside p && inside q = false -> (inside p || inside q = false -> I st) ->
  J st' /\ proc_ok p' st' w' /\ proc_ok q st' w' /\ inside p' && inside q = false /\ (inside p' || inside q = false -> I st').
Proof.
  intros H Hfree HJ Hp Hq Hex HI. inversion H; subst; cbn [proc_ok inside andb orb] in *.
  - split; [done|]. split; [by apply Hp|]. done.
  - destruct (inside q); [done|]. destruct Hp as [Hp1 Hp2]. split_and!; try done. by apply Hp1, HI.
  - destruct q as [q|]; [|done]. destruct Hp as [Hp1 Hp2]. cbn [within] in Hp1.
    match goal with E : apply _ _ _ = _ |- _ => rewrite E in Hp1 end. destruct Hp1. split_and!; done.
  - destruct q as [q|]; [|done]. destruct Hp as [Hp1 Hp2]. split_and!; done.
Qed.

(** The flags change in a call only. *)
Lemma apply_flags u st w st' w' : apply u st w = (st', w') -> g_running st' = g_running st /\ g_inited st' = g_inited st.
Proof.
  unfold apply, mbind, M_bind, bind, ret. destruct (value u st w) as [m w1]. intros [= <- <-]. by destruct (to u).
Qed.

Lemma access_flags free p st w p' st' w' :
  access free (p, st, w) (p', st', w') -> g_running st' = g_running st /\ g_inited st' = g_inited st.
Proof. intros H. inversion H; subst; try done. by eapply apply_flags. Qed.

Lemma access_not_idle free st w x : ~ access free (idle, st, w) x.
Proof. intros H. inversion H. Qed.

Lemma step_good s s' : step s s' -> good s -> good s'.
Proof.
  intros H. destruct H as [st w oc th st' w' oc' H|st w oc th st' w' th' H|c st w th|st w th|st w th Hth|st w th Hth
    |i now st w oc Hrun Hi|i now st w oc Hrun Hi]; unfold good; intros (HJ & Hoc & Hthr & Hex & HI & Hri & Hti).
  - destruct (access_flags _ _ _ _ _ _ _ H) as [-> ->].
    destruct (access_ok _ _ _ _ _ _ _ th H eq_refl HJ Hoc Hthr Hex HI) as (? & ? & ? & ? & ?). done.
  - destruct (access_flags _ _ _ _ _ _ _ H) as [-> ->]. rewrite andb_comm in Hex. rewrite orb_comm in HI.
    destruct (access_ok _ _ _ _ _ _ _ oc H eq_refl HJ Hthr Hoc Hex HI) as (? & ? & ? & ? & ?).
    rewrite andb_comm, orb_comm. split_and!; try done. right. destruct Hti as [->|]; [by destruct (access_not_idle _ _ _ _ H)|done].
  - split_and!; try done. apply call_safe.
  - destruct (g_inited st) eqn:E.
    { replace (init_maps st) with st by (unfold init_maps; by rewrite E). rewrite E. by split_and!. }
    destruct Hti as [->|]; [|done].
    assert (Hst : I (init_maps st)) by (by apply Hinit, HI). split_and!; try done; [by apply HIJ|..|by left].
    unfold init_maps. by rewrite E.
  - assert (Hst : I (upnp_thread_start st)) by (by apply Hstart, HI).
    destruct th as [p|]; [|done]. split_and!; try done; [by apply HIJ|by right].
  - assert (Hst : I (upnp_thread_stop st)) by (by apply Hstop, HI).
    destruct th as [p|]; [|done]. split_and!; try done; by apply HIJ.
  - split_and!; try done; [by apply safe_treat_unmaps|by right; apply Hri].
  - split_and!; try done; [by apply safe_treat_maps|by right; apply Hri].
Qed.

Lemma steps_good s s' : rtc step s s' -> good s -> good s'.
Proof. induction 1 as [s|s1 s2 s3 H _ IH]; [done|]. intros Hg. by eapply IH, step_good. Qed.
End Safe.

(** ** The tables *)

Lemma rows_sized t i m st : sized st -> sized (write_slot t i m st).
Proof. intros [H1 H2]. destruct t; split; cbn; by rewrite ?length_insert. Qed.

(** Twenty slots at any time: what counts is where a section ends. *)
Lemma within_sized I us st w : sized st -> I (fst (run_updates us st w)) -> within sized I us st w.
Proof.
  revert st w. induction us as [|u us IH]; intros st w Hs; [done|]. cbn [run_updates within].
  unfold mbind, M_bind, bind. destruct (apply u st w) as [st1 w1] eqn:E.
  unfold apply, mbind, M_bind, bind, ret in E. destruct (value u st w) as [m w2]. injection E as <- <-.
  intros H. assert (Hs1 : sized (write_slot (to u) (index u) m st)) by (by apply rows_sized). split; [done|]. by apply IH.
Qed.

Lemma tables_sized st : tables_ok st -> sized st.
Proof. by intros (? & ? & _). Qed.

Lemma tables_write_maps i m st : tables_ok st -> slot_ok m -> tables_ok (write_slot Maps i m st).
Proof. intros (H1 & H2 & H3 & H4) Hm. split_and!; cbn; [by rewrite length_insert|done|by apply Forall_insert|done]. Qed.

Lemma tables_write_unmaps j m st : tables_ok st -> enabled m = 0 -> tables_ok (write_slot Unmaps j m st).
Proof. intros (H1 & H2 & H3 & H4) Hm. split_and!; cbn; [done|by rewrite length_insert|done|by apply Forall_insert]. Qed.

Lemma tables_read_maps i st : tables_ok st -> (i < MAX_MAPS)%nat -> slot_ok (read_slot Maps i st).
Proof.
  intros (H1 & _ & H3 & _) Hi. unfold read_slot. destruct (lookup_lt_is_Some_2 (g_maps st) i) as [m Hm]; [by rewrite H1|].
  rewrite Hm. by apply (Forall_lookup_1 _ _ _ _ H3 Hm).
Qed.

Lemma tables_read_unmaps j st : tables_ok st -> (j < MAX_MAPS)%nat -> enabled (read_slot Unmaps j st) = 0.
Proof.
  intros (_ & H2 & _ & H4) Hj. unfold read_slot. destruct (lookup_lt_is_Some_2 (g_unmaps st) j) as [m Hm]; [by rewrite H2|].
  rewrite Hm. by apply (Forall_lookup_1 (fun m => enabled m = 0) _ _ _ H4 Hm).
Qed.

Lemma run_slot_keeps (P : slot -> Prop) gs m w :
  Forall (fun g => forall m w, P m -> P (fst (g m w))) gs -> P m -> P (fst (run_slot gs m w)).
Proof.
  intros Hgs. revert m w. induction Hgs as [|g gs Hg _ IH]; intros m w Hm; [done|]. cbn [run_slot].
  unfold mbind, M_bind, bind. specialize (Hg m w Hm). destruct (g m w) as [m1 w1]. by apply IH.
Qed.

(** The thread leaves its traces in a blank slot, and no more. *)
Lemma blank_steps old check now : Forall (fun g => forall m w, blank m -> blank (fst (g m w))) (pulse_steps old check now).
Proof.
  repeat apply Forall_cons_2; [..|apply Forall_nil_2]; intros m w (ot & ns & us & c & ->).
  1: by exists (next_over_time old now), ns, us, c.
  9: by exists ot, ML_PORT_UNMAPPED, us, c.
  9: by exists ot, ns, us, check.
  15: by exists ot, ns, ML_PORT_UNMAPPED, c.
  all: by exists ot, ns, us, c.
Qed.

Lemma pulse_slot_ok old check now m w : slot_ok m -> slot_ok (fst (pulse_slot old check now m w)).
Proof.
  intros [Hm|Hm].
  - left. by destruct (pulse_slot_keeps old check now m w) as (-> & _).
  - right. rewrite <- run_pulse. apply run_slot_keeps; [apply blank_steps|done].
Qed.

Lemma start_tables st : tables_ok st -> tables_ok (upnp_thread_start st).
Proof. intros H. unfold upnp_thread_start, init_maps. destruct (g_inited st); [exact H|apply tables_ok_zero]. Qed.

Lemma init_tables st : tables_ok st -> tables_ok (init_maps st).
Proof. intros H. unfold init_maps. destruct (g_inited st); [done|apply tables_ok_zero]. Qed.

Lemma tables_good s s' : rtc step s s' -> good sized tables_ok s -> good sized tables_ok s'.
Proof.
  apply (steps_good sized tables_ok (fun _ => True)).
  - intros i map st w Hi Hst. apply within_sized; [by apply tables_sized|]. pose proof Hst as [Hl _].
    rewrite run_add_section by (by rewrite Hl). apply tables_write_maps; [done|by left].
  - intros j map st w Hj _ Hst. apply within_sized; [by apply tables_sized|]. pose proof Hst as (_ & Hl & _).
    rewrite run_retire_section by (by rewrite Hl). by apply tables_write_unmaps.
  - intros i j st w Hi Hj _ Hst. apply within_sized; [by apply tables_sized|]. pose proof Hst as (Hl & Hl' & _).
    rewrite run_move_section by (by rewrite ?Hl, ?Hl'). apply tables_write_maps; [by apply tables_write_unmaps|apply slot_zero_ok].
  - done.
  - intros i now old st w Hi Hst. apply within_sized; [by apply tables_sized|]. pose proof Hst as (_ & Hl & _).
    rewrite run_on_slot, run_slot_app, run_pulse by (cbn; by rewrite Hl).
    pose proof (pulse_slot_keeps old false now (read_slot Unmaps i st) w) as (He & _).
    rewrite (tables_read_unmaps i st Hst Hi) in He. destruct (pulse_slot _ _ _ _ _) as [m w']. cbn in *.
    apply tables_write_unmaps; [done|]. unfold clear_unmapped. by case_bool_decide.
  - intros i now old st w Hi Hst. apply within_sized; [by apply tables_sized|]. pose proof Hst as (Hl & _).
    rewrite run_on_slot, run_pulse by (cbn; by rewrite Hl).
    pose proof (pulse_slot_ok old true now (read_slot Maps i st) w (tables_read_maps i st Hst Hi)) as He.
    destruct (pulse_slot _ _ _ _ _) as [m w']. by apply tables_write_maps.
  - apply tables_sized.
  - apply init_tables.
  - apply start_tables.
  - done.
Qed.

(** C20: however the accesses of the calls and of the thread interleave, and
    whatever the router answers: the tables keep their twenty slots, the two
    sides are never in the mutex together, and when neither is, a slot of
    [g_maps] is enabled or blank (all zero but for the times and statuses that
    the thread notes) and no slot of [g_unmaps] is enabled. *)
Theorem tables_reachable s :
  reachable s ->
  sized (shared s) /\ inside (ocaml s) && inside (thread s) = false /\
  (inside (ocaml s) || inside (thread s) = false -> tables_ok (shared s)).
Proof.
  intros [w0 H]. assert (H0 : good sized tables_ok (Sys state_zero w0 idle idle)).
  { split; [done|]. split; [done|]. split; [done|]. split; [done|]. split; [intros _; apply tables_ok_zero|]. split; [done|]. by left. }
  apply (tables_good _ _ H) in H0. destruct s. by destruct H0 as (? & _ & _ & ? & ? & _).
Qed.

(** ** A slot on which both protocols have failed *)

Definition occupied (i : nat) (st : state) : Prop := g_inited st = true /\ exists m, g_unmaps st !! i = Some m /\ 0 < extPort m.

Lemma stuck_occupied i st : stuck_at i st -> occupied i st.
Proof. intros (Hin & m & Hm & _ & Hp & _). split; [done|]. by exists m. Qed.

Lemma apply_other i u st w : (to u, index u) <> (Unmaps, i) -> stuck_at i st -> stuck_at i (fst (apply u st w)).
Proof.
  intros Hne (Hin & m & Hm & Hs). unfold apply, mbind, M_bind, bind, ret. destruct (value u st w) as [v w1]. cbn [fst].
  destruct (to u); (split; [done|]); exists m; (split; [|done]); cbn; [done|]. rewrite list_lookup_insert_ne by congruence. done.
Qed.

Lemma within_other i us st w :
  Forall (fun u => (to u, index u) <> (Unmaps, i)) us -> stuck_at i st -> within (occupied i) (stuck_at i) us st w.
Proof.
  intros Hus. revert st w. induction Hus as [|u us Hu _ IH]; intros st w Hst; [done|]. cbn [within].
  pose proof (apply_other i u st w Hu Hst) as H. destruct (apply u st w) as [st1 w1]. split; [by apply stuck_occupied|by apply IH].
Qed.

Lemma other_slot t i j (gs : list (slot -> M W slot)) :
  (t, j) <> (Unmaps, i) -> Forall (fun u => (to u, index u) <> (Unmaps, i)) (on_slot t j gs).
Proof. intros Hne. apply Forall_fmap, Forall_forall. by intros g _. Qed.

(** A section on the slot itself. *)
Fixpoint run_within (gs : list (slot -> M W slot)) (m : slot) (w : W) : Prop :=
  match gs with [] => True | g :: gs => let '(m, w) := g m w in stuck m /\ run_within gs m w end.

Lemma within_on_slot i gs st w m :
  g_inited st = true -> g_unmaps st !! i = Some m -> stuck m -> run_within gs m w ->
  within (occupied i) (stuck_at i) (on_slot Unmaps i gs) st w.
Proof.
  revert st w m. induction gs as [|g gs IH]; intros st w m Hin Hm Hs Hgs; [split; [done|by exists m]|].
  cbn [on_slot fmap list_fmap within]. unfold apply, mbind, M_bind, bind, ret. cbn [to index value].
  unfold read_slot. rewrite Hm. cbn [default]. unfold id. cbn [run_within] in Hgs. destruct (g m w) as [m1 w1].
  destruct Hgs as [Hs1 Hgs]. assert (Hm1 : g_unmaps (write_slot Unmaps i m1 st) !! i = Some m1).
  { cbn. apply list_lookup_insert_eq. by eapply lookup_lt_Some. }
  split; [apply stuck_occupied; split; [done|by exists m1]|]. by apply (IH _ _ m1).
Qed.

Lemma stuck_steps old now m w : stuck m -> run_within (pulse_steps old false now ++ [pure clear_unmapped]) m w.
Proof.
  destruct m as [e ip ep it no dp ot ns us ud um ust g nm nd nst rt ct h]. unfold stuck. cbn.
  intros (-> & Hp & -> & -> & ->). cbn. unfold stuck. cbn. split_and!; done.
Qed.

Lemma stuck_good i s s' : rtc step s s' -> good (occupied i) (stuck_at i) s -> good (occupied i) (stuck_at i) s'.
Proof.
  apply (steps_good (occupied i) (stuck_at i) (fun j => j <> i)).
  - intros k map st w _. apply within_other. by apply other_slot.
  - intros j map st w _ Hne. apply within_other. apply other_slot. congruence.
  - intros k j st w _ _ Hne. apply within_other. constructor; [cbn; congruence|].
    apply Forall_app_2; apply other_slot; [congruence|done].
  - intros j st (_ & m & Hm & Hp) Hf ->. unfold read_slot, no_extPort, truth in Hf. rewrite Hm in Hf. cbn in Hf.
    destruct (Z.eqb_spec (extPort m) 0); [lia|done].
  - intros k now old st w _ Hst. destruct (decide (k = i)) as [->|Hne]; [|by apply within_other; [apply other_slot; congruence|]].
    destruct Hst as (Hin & m & Hm & Hs). eapply within_on_slot; [done..|by apply stuck_steps].
  - intros k now old st w _. apply within_other. by apply other_slot.
  - apply stuck_occupied.
  - intros st Hst. pose proof Hst as [Hin _]. unfold init_maps. by rewrite Hin.
  - intros st (Hin & m & Hm & Hs). unfold upnp_thread_start. rewrite Hin. split; [done|]. by exists m.
  - intros st (Hin & m & Hm & Hs). split; [done|]. by exists m.
Qed.

(** A slot of [g_unmaps] on which both protocols have failed is never freed: no
    interleaving of calls and treatments and no later answer of the router
    changes that, so it is lost for further removals, and
    [ml_upnpRemoveAllMaps] finds it occupied every time it looks. *)
Theorem stuck_forever i st w s :
  stuck_at i st -> rtc step (Sys st w idle idle) s ->
  occupied i (shared s) /\ (inside (ocaml s) || inside (thread s) = false -> stuck_at i (shared s)).
Proof.
  intros Hst H. assert (H0 : good (occupied i) (stuck_at i) (Sys st w idle idle)).
  { pose proof Hst as [Hin _]. split; [by apply stuck_occupied|]. split; [done|]. split; [done|]. split; [done|].
    split; [intros _; exact Hst|]. split; [intros _; exact Hin|by left]. }
  apply (stuck_good _ _ _ H) in H0. destruct s. by destruct H0 as (? & _ & _ & _ & ? & _).
Qed.

(** ** Runs *)

Lemma access_updates us k st w st' w' :
  run_updates us st w = (st', w') -> rtc (access true) (Inside us k, st, w) (Outside k, st', w').
Proof.
  revert st w. induction us as [|u us IH]; intros st w; cbn.
  - intros [= <- <-]. apply rtc_once, access_unlock.
  - unfold mbind, M_bind, bind. destruct (apply u st w) as [st1 w1] eqn:E. intros H.
    eapply rtc_l; [by apply access_update|]. by apply IH.
Qed.

Lemma access_alone p st w st' w' : alone p st w = (tt, st', w') -> rtc (access true) (Outside p, st, w) (idle, st', w').
Proof.
  revert st w. induction p as [[]|k IH|us k IH]; intros st w; cbn.
  - by intros [= <- <-].
  - intros H. eapply rtc_l; [apply access_get|]. by apply IH.
  - destruct (run_updates us st w) as [st1 w1] eqn:E. intros H. eapply rtc_l; [by apply access_lock|].
    etrans; [by apply access_updates|]. by apply IH.
Qed.

(** The reads up to the lock. *)
Fixpoint at_lock (p : prog unit) (st : state) : prog unit :=
  match p with Get k => at_lock (k st) st | p => p end.

Lemma access_reads p st w : rtc (access true) (Outside p, st, w) (Outside (at_lock p st), st, w).
Proof. induction p as [a|k IH|us k IH]; [done| |done]. eapply rtc_l; [apply access_get|]. apply IH. Qed.

Lemma run_ocaml p st w p' st' w' th :
  inside th = false -> rtc (access true) (p, st, w) (p', st', w') -> rtc step (Sys st w p th) (Sys st' w' p' th).
Proof.
  intros Hth H. remember (p, st, w) as x eqn:Ex. remember (p', st', w') as y eqn:Ey. revert p st w Ex.
  induction H as [x|x [[q st1] w1] z Hxy _ IH]; intros p st w Ex; subst; [by injection Ex as -> -> ->|].
  eapply rtc_l; [apply step_ocaml; by rewrite Hth|]. by apply IH.
Qed.

Lemma run_thread p st w p' st' w' oc :
  inside oc = false -> rtc (access true) (p, st, w) (p', st', w') -> rtc step (Sys st w oc p) (Sys st' w' oc p').
Proof.
  intros Hoc H. remember (p, st, w) as x eqn:Ex. remember (p', st', w') as y eqn:Ey. revert p st w Ex.
  induction H as [x|x [[q st1] w1] z Hxy _ IH]; intros p st w Ex; subst; [by injection Ex as -> -> ->|].
  eapply rtc_l; [apply step_thread; by rewrite Hoc|]. by apply IH.
Qed.

(** A call with the thread at rest does what [Upnp] says. *)
Lemma run_call c st w th st' :
  inside th = false -> sized st -> st' = match c with
    | AddMap e i x t n => ml_upnpAddMap e i x t n st
    | RemoveMap e i x t n => ml_upnpRemoveMap e i x t n st
    | RemoveAllMaps => ml_upnpRemoveAllMaps st end ->
  rtc step (Sys st w idle th) (Sys st' w idle th).
Proof.
  intros Hth Hs ->. eapply rtc_l; [apply step_call|]. apply run_ocaml; [done|]. apply access_alone. by apply alone_call.
Qed.
End Race.

(** ** With the router that answers *)

Local Abbreviation estate := (state (Natpmp := Z) (Igd := unit)).

(** The thread has tested slot 0, and waits for the mutex; the slot is emptied;
    the thread goes on. *)
Definition tested : estate := ml_upnpAddMap 1 4662 5000 1 [] (upnp_thread_start state_zero).
Definition emptied : estate := ml_upnpRemoveMap 1 4662 5000 1 [] tested.
Definition late : prog unit := at_lock (treat_maps 0 1000) tested.
Definition dirtied : unit * estate * EchoWorld := alone late emptied echo_start.

Lemma access_late : rtc (access true) (Outside (treat_maps 0 1000), tested, echo_start) (Outside late, tested, echo_start).
Proof. exact (access_reads (treat_maps 0 1000) tested echo_start). Qed.

Lemma tested_sized : sized tested.
Proof. split; vm_compute; reflexivity. Qed.

Lemma dirtied_ok : alone late emptied echo_start = (tt, dirtied.1.2, dirtied.2).
Proof. vm_compute. reflexivity. Qed.

#[local] Opaque late.

(** The start, the first call, and the thread up to its lock. *)
Lemma run_tested : rtc step (Sys state_zero echo_start idle idle) (Sys tested echo_start idle (Outside late)).
Proof.
  eapply rtc_l; [by apply step_start|].
  etrans; [apply (run_call (AddMap 1 4662 5000 1 []) (upnp_thread_start state_zero) echo_start idle tested); [done|by split|done]|].
  eapply rtc_l; [apply (step_maps 0 1000); [reflexivity|unfold MAX_MAPS; lia]|]. apply run_thread; [done|]. exact access_late.
Qed.

(** The tests of the thread are outside of the mutex: a slot that a call has
    emptied meanwhile is treated all the same. *)
Theorem empty_slot_dirtied :
  exists s, reachable s /\ ocaml s = idle /\ thread s = idle /\ exists m,
    g_maps (shared s) !! 0%nat = Some m /\ enabled m = 0 /\ (overTime m, upnpStatus m, doPortCheck m) = (1333, ML_PORT_UNMAPPED, true).
Proof.
  exists (Sys dirtied.1.2 dirtied.2 idle idle). split; [|split; [done|split; [done|]]].
  2: { eexists. split; [vm_compute; reflexivity|]. by split. }
  exists echo_start. etrans; [exact run_tested|].
  etrans; [apply (run_call (RemoveMap 1 4662 5000 1 []) tested echo_start (Outside late) emptied); [done|exact tested_sized|done]|].
  apply run_thread; [done|]. exact (access_alone _ _ _ _ _ dirtied_ok).
Qed.

Lemma tables_reachable_witness :
  let s := Sys tested echo_start idle (Outside late) in
  reachable s /\ sized (shared s) /\ inside (ocaml s) && inside (thread s) = false /\
  (inside (ocaml s) || inside (thread s) = false -> tables_ok (shared s)).
Proof.
  intros s. assert (H : reachable s) by (exists echo_start; exact run_tested).
  split; [exact H|exact (tables_reachable s H)].
Defined.

Lemma stuck_forever_witness :
  let st := State (replicate MAX_MAPS slot_zero) (failed_slot :: replicate 19 slot_zero) true true in
  let s := Sys (ml_upnpRemoveAllMaps st) echo_start idle idle in
  stuck_at 0 st /\ occupied 0 (shared s) /\ (inside (ocaml s) || inside (thread s) = false -> stuck_at 0 (shared s)).
Proof.
  intros st s. assert (H : stuck_at 0 st).
  { split; [reflexivity|]. exists failed_slot. split; [reflexivity|]. repeat split. }
  split; [exact H|]. apply (stuck_forever 0 st echo_start s H). apply (run_call RemoveAllMaps); [reflexivity|split; reflexivity|reflexivity].
Defined.

End UpnpRace.
