(* ===== verification/UpnpThread.v ===== *)
(** * The life of the port forwarding thread

    [upnp_thread_start], [upnp_thread_stop] and the loop of [upnpNatpmpThread]
    of [src/src/utils/net/upnp_stubs.c], as far as they decide which threads
    run: a step relation interleaves the OCaml side with the threads, at every
    access to [g_running] and [g_stop].  What a round of the loop does to the
    tables is in [UpnpRace]. *)

From Stdlib Require Import ZArith Lia.
From stdpp Require Import base option numbers relations list.
From S2P Require Import Prelude Upnp.

Local Open Scope Z_scope.

Module UpnpThread.

(** ** The system *)

(** Where a thread is: before [g_stop = 0]; before the test of [g_running];
    in a round; before [g_stop = 1]; after it, or cancelled. *)
Inductive phase := Entry | Testing | Working | Ending | Ended.

(** [true]: its cancellation was requested. *)
Definition thread : Type := phase * bool.

(** Where the OCaml side is: between calls; in [upnp_thread_start], the thread
    created; in [upnp_thread_stop], round [i] of [wait]; [g_stop] was read
    nonzero; about to cancel; about to destroy the mutexes.  [Crashed]:
    [pthread_cancel] was given a thread that does not exist any more. *)
Inductive main := Idle | Created | Waiting (i wait : nat) | Seen | Cancelling | Destroying | Crashed.

(** The threads from the newest, [g_pthread], to the oldest. *)
Record sys := Sys { g_running : bool; g_stop : bool; prog : main; threads : list thread }.

Definition sys_zero : sys := Sys false false Idle [].

(** [if (wait < 1) wait = MAX_THREAD_WAIT] *)
Definition wait_of (wait_seconds : Z) : nat :=
  Z.to_nat (if wait_seconds <? 1 then Upnp.MAX_THREAD_WAIT else wait_seconds).

(** [pthread_cancel(g_pthread)] *)
Definition cancel (s : sys) : sys :=
  match threads s with
  | (Ended, _) :: _ | [] => Sys (g_running s) (g_stop s) Crashed (threads s)
  | (p, _) :: old => Sys (g_running s) (g_stop s) Destroying ((p, true) :: old)
  end.

(** A step of [upnp_thread_start] or [upnp_thread_stop]. *)
Inductive main_step : sys -> sys -> Prop :=
  | start_create st ts :
      main_step (Sys false st Idle ts) (Sys false st Created ((Entry, false) :: ts))
  | start_again st ts : main_step (Sys true st Idle ts) (Sys true st Idle ts)
  | start_set r st ts : main_step (Sys r st Created ts) (Sys true false Idle ts)
  | stop_clear r st ts wait_seconds :
      main_step (Sys r st Idle ts) (Sys false false (Waiting 0 (wait_of wait_seconds)) ts)
  | stop_seen r i wait ts : (i < wait)%nat -> main_step (Sys r true (Waiting i wait) ts) (Sys r true Seen ts)
  | stop_sleep r i wait ts : (i < wait)%nat -> main_step (Sys r false (Waiting i wait) ts) (Sys r false (Waiting (S i) wait) ts)
  | stop_late r st i wait ts : (wait <= i)%nat -> main_step (Sys r st (Waiting i wait) ts) (Sys r st Cancelling ts)
  | stop_reset r st ts : main_step (Sys r st Seen ts) (Sys r false Destroying ts)
  | stop_cancel r st ts : main_step (Sys r st Cancelling ts) (cancel (Sys r st Cancelling ts))
  | stop_destroy r st ts : main_step (Sys r st Destroying ts) (Sys r st Idle ts).

(** A step of a thread, on [g_running] and [g_stop]: the new [g_stop] and the
    new phase.  A round ends the loop when it finds [g_running] cleared. *)
Inductive thread_step (r : bool) : bool -> thread -> bool -> thread -> Prop :=
  | enter st c : thread_step r st (Entry, c) false (Testing, c)
  | test_running st c : r = true -> thread_step r st (Testing, c) st (Working, c)
  | test_stopped st c : r = false -> thread_step r st (Testing, c) st (Ending, c)
  | work st c : thread_step r st (Working, c) st (Testing, c)
  | work_stopped st c : r = false -> thread_step r st (Working, c) st (Ending, c)
  | finish st c : thread_step r st (Ending, c) true (Ended, c)
  | cancelled st p : thread_step r st (p, true) st (Ended, true).

Inductive step : sys -> sys -> Prop :=
  | step_main s s' : main_step s s' -> step s s'
  | step_thread r st st' m new t t' old :
      thread_step r st t st' t' -> step (Sys r st m (new ++ t :: old)) (Sys r st' m (new ++ t' :: old)).

Definition reachable : sys -> Prop := rtc step sys_zero.

(** ** The invariant *)

Definition requested (s : sys) : Prop := exists p, (p, true) ∈ threads s.

Definition ended (t : thread) : Prop := t.1 = Ended.

(** The newest thread. *)
Definition newest_ended (ts : list thread) : Prop := match ts with [] => True | t :: _ => ended t end.

(** What holds while no cancellation was requested. *)
Definition orderly (s : sys) : Prop :=
  Forall ended (tail (threads s)) /\
  match prog s with
  | Idle => g_running s = false -> newest_ended (threads s)
  | Created => g_running s = false
  | Waiting _ _ => g_running s = false /\ (g_stop s = true -> newest_ended (threads s))
  | Seen | Destroying => g_running s = false /\ newest_ended (threads s)
  | Cancelling => g_running s = false
  | Crashed => True
  end.

Definition inv (s : sys) : Prop := requested s \/ orderly s.

Lemma newest_all ts : newest_ended ts -> Forall ended (tail ts) -> Forall ended ts.
Proof. destruct ts; [by constructor|]. intros. by constructor. Qed.

Lemma main_inv s s' : main_step s s' -> orderly s -> inv s'.
Proof.
  intros H [Hold Hp]. destruct H; cbn [threads prog g_running g_stop] in *.
  - right. split; [|done]. cbn. apply newest_all; [by apply Hp|done].
  - by right.
  - by right.
  - right. split; [done|]. by split.
  - right. split; [done|]. split; [apply Hp|]. by apply Hp.
  - right. split; [done|]. split; [apply Hp|done].
  - right. split; [done|]. apply Hp.
  - by right.
  - unfold cancel. cbn [threads]. destruct ts as [|[[] b] ts]; [by right|..|by right].
    all: left; eexists; apply list_elem_of_here.
  - right. split; [done|]. intros _. apply Hp.
Qed.

Lemma thread_step_ended r st t st' t' : thread_step r st t st' t' -> t.2 = false -> ~ ended t.
Proof. by destruct 1. Qed.

Lemma thread_inv r st st' m new t t' old :
  thread_step r st t st' t' -> orderly (Sys r st m (new ++ t :: old)) -> inv (Sys r st' m (new ++ t' :: old)).
Proof.
  intros Ht Ho. destruct (decide (t.2 = true)) as [Hc|Hc%not_true_is_false].
  { left. exists t'.1. cbn [threads]. rewrite elem_of_app, elem_of_cons. right. left.
    destruct Ht; cbn in Hc |- *; try discriminate Hc; by rewrite ?Hc. }
  pose proof (thread_step_ended _ _ _ _ _ Ht Hc) as Hne. destruct Ho as [Hold Hp]. cbn [threads] in Hold.
  destruct new as [|x new]; [|cbn in Hold; by apply Forall_app in Hold as [_ [? _]%Forall_cons]].
  right. cbn [app threads tail] in *. split; [done|]. cbn [prog g_running g_stop threads newest_ended] in *.
  destruct m; try done.
  - intros Hr. by specialize (Hp Hr).
  - destruct Hp as [Hr Hs]. split; [done|]. intros E. destruct Ht; try done; cbn in Hs; by specialize (Hs E).
  - by destruct Hp.
  - by destruct Hp.
Qed.

Lemma requested_step s s' : step s s' -> requested s -> requested s'.
Proof.
  intros H [p Hp]. destruct H as [s s' H|r st st' m new t t' old H].
  - destruct H; cbn [threads] in *; try (exists p; assumption).
    + exists p. by apply list_elem_of_further.
    + unfold cancel. cbn [threads]. destruct ts as [|[[] b] ts]; [by exists p|..|by exists p].
      all: eexists; apply list_elem_of_here.
  - cbn [threads] in *. rewrite elem_of_app, elem_of_cons in Hp. destruct Hp as [Hp|[<-|Hp]].
    + exists p. cbn. rewrite elem_of_app. by left.
    + exists t'.1. cbn. rewrite elem_of_app, elem_of_cons. right. left. by inversion H.
    + exists p. cbn. rewrite elem_of_app, elem_of_cons. by right; right.
Qed.

Lemma reachable_inv s : reachable s -> inv s.
Proof.
  intros H. unfold reachable in H. remember sys_zero as s0 eqn:E.
  assert (H0 : inv s0) by (rewrite E; right; split; [constructor|done]). clear E.
  induction H as [|s0 s1 s2 Hstep _ IH]; [done|]. apply IH. destruct H0 as [H0|H0]; [left; by eapply requested_step|].
  destruct Hstep; [by eapply main_inv|by eapply thread_inv].
Qed.

(** C21: under every interleaving, as long as no [upnp_thread_stop] ran out of
    its wait and cancelled a thread: no two threads are alive at a time; and
    between calls, once the thread was stopped, none is. *)
Theorem one_thread s :
  reachable s -> Forall (fun t => t.2 = false) (threads s) ->
  Forall ended (tail (threads s)) /\ (prog s = Idle -> g_running s = false -> Forall ended (threads s)).
Proof.
  intros [[p Hp]|[Hold Ho]]%reachable_inv Hf; [by rewrite Forall_forall in Hf; specialize (Hf _ Hp)|].
  split; [done|]. intros Hi Hr. apply newest_all; [|done]. rewrite Hi in Ho. by apply Ho.
Qed.

(** ** Runs *)

Lemma main_once s s' : main_step s s' -> step s s'.
Proof. apply step_main. Qed.

Lemma thread_once r st st' m t t' old : thread_step r st t st' t' -> step (Sys r st m (t :: old)) (Sys r st' m (t' :: old)).
Proof. intros H. by apply (step_thread r st st' m [] t t' old). Qed.

(** A start, a round, and a stop that sees the thread end. *)
Lemma start_stop : reachable (Sys false false Idle [(Ended, false)]).
Proof.
  unfold reachable, sys_zero. eapply rtc_l; [apply main_once, start_create|]. eapply rtc_l; [apply main_once, start_set|].
  eapply rtc_l; [apply thread_once, enter|]. eapply rtc_l; [by apply thread_once, test_running|].
  eapply rtc_l; [apply main_once, (stop_clear _ _ _ 3)|]. eapply rtc_l; [by apply thread_once, work_stopped|].
  eapply rtc_l; [apply thread_once, finish|]. eapply rtc_l; [apply main_once, stop_seen; vm_compute; lia|].
  eapply rtc_l; [apply main_once, stop_reset|]. eapply rtc_l; [apply main_once, stop_destroy|]. done.
Qed.

Lemma one_thread_witness :
  Forall ended (tail [(Ended, false)]) /\ (Idle = Idle -> false = false -> Forall ended [(Ended, false)]).
Proof. apply (one_thread (Sys false false Idle [(Ended, false)]) start_stop). repeat constructor. Defined.

(** The rounds of a wait in which [g_stop] stays 0. *)
Lemma wait_out i wait ts : (i <= wait)%nat -> rtc step (Sys false false (Waiting i wait) ts) (Sys false false Cancelling ts).
Proof.
  intros Hi. remember (wait - i)%nat as k eqn:Hk. revert i Hi Hk. induction k as [|k IH]; intros i Hi Hk.
  - apply rtc_once, main_once, stop_late. lia.
  - eapply rtc_l; [apply main_once, stop_sleep; lia|]. apply IH; lia.
Qed.

(** The thread may test [g_running] before [upnp_thread_start] sets it: it
    ends, [g_running] stays 1 with no thread, a new start does nothing, and
    the next stop waits in vain and cancels a thread that has ended. *)
Lemma thread_lost :
  let s := Sys true false Idle [(Ended, false)] in
  reachable s /\ (forall s', main_step s s' -> prog s' = Idle -> s' = s) /\
  forall wait_seconds : Z, let s' := Sys false false (Waiting 0 (wait_of wait_seconds)) [(Ended, false)] in
    main_step s s' /\ rtc step s' (Sys false false Crashed [(Ended, false)]).
Proof.
  intros s. split; [|split].
  - unfold reachable, sys_zero. eapply rtc_l; [apply main_once, start_create|]. eapply rtc_l; [apply thread_once, enter|].
    eapply rtc_l; [by apply thread_once, test_stopped|]. eapply rtc_l; [apply thread_once, finish|].
    eapply rtc_l; [apply main_once, start_set|]. done.
  - intros s' H Hi. inversion H; subst; [done|discriminate].
  - intros wait_seconds s'. split; [apply stop_clear|]. etrans; [apply wait_out; lia|]. apply rtc_once, main_once, stop_cancel.
Qed.

(** A thread that ends in the last second of the wait is cancelled too. *)
Lemma late_end_cancelled : exists ts, reachable (Sys false true Crashed ts).
Proof.
  exists [(Ended, false)]. unfold reachable, sys_zero. eapply rtc_l; [apply main_once, start_create|].
  eapply rtc_l; [apply main_once, start_set|]. eapply rtc_l; [apply thread_once, enter|].
  eapply rtc_l; [by apply thread_once, test_running|]. eapply rtc_l; [apply main_once, (stop_clear _ _ _ 0)|].
  etrans; [apply wait_out; lia|]. eapply rtc_l; [by apply thread_once, work_stopped|].
  eapply rtc_l; [apply thread_once, finish|]. apply rtc_once, main_once, stop_cancel.
Qed.
End UpnpThread.
