(* ===== verification/Select.v ===== *)
(** * Waiting for file descriptors

    The event loop's calls of [src/src/utils/lib/stubs_c.c]: [ml_select], by
    [poll] or by [select], over the tasks of the OCaml scheduler.  A list of
    tasks is a list of indices into the store of tasks; the two system calls
    are parameters. *)

From Stdlib Require Import ZArith Lia.
From stdpp Require Import base option numbers gmap list.
From S2P Require Import Prelude.

Local Open Scope Z_scope.

Module Select.

(** ** Tasks *)

Definition Val_int (n : Z) : Z := 2 * n + 1.

(** The fields of a task that the C code reads; [flags] is an OCaml value,
    the two allowances are the contents of references. *)
Record task := Task {
  t_fd : Z;
  t_flags : Z;
  t_wlen : Z;
  t_rlen : Z;
  t_closed : bool;
  t_read_allowed : bool;
  t_write_allowed : bool
}.

Definition with_flags (t : task) (flags : Z) : task :=
  Task (t_fd t) flags (t_wlen t) (t_rlen t) (t_closed t) (t_read_allowed t) (t_write_allowed t).

Definition must_read (t : task) : bool := negb (t_rlen t =? 0) && t_read_allowed t.
Definition must_write (t : task) : bool := negb (t_wlen t =? 0) && t_write_allowed t.

(** [flags |= 2], [flags |= 4] *)
Definition flags_of (r w : bool) : Z :=
  let flags := Val_int 0 in
  let flags := if r then Z.lor flags 2 else flags in
  if w then Z.lor flags 4 else flags.

(** ** The system calls *)

Record revents := Revents { r_in : bool; r_out : bool; r_err : bool; r_hup : bool; r_nval : bool }.

Definition some_event (r : revents) : bool := r_in r || r_out r || r_err r || r_hup r || r_nval r.

(** [poll]: a descriptor with what is asked of it; [None] is a negative result,
    which raises an exception. *)
Class Waiting := {
  FD_SETSIZE : Z;
  getdtablesize : Z;
  poll : list (Z * bool * bool) -> Z -> option (Z * list revents);
  select : Z -> gset Z -> gset Z -> option (gset Z * gset Z)
}.

Section Calls.
Context {W : Waiting}.

(** *** [try_poll] *)

(** The first loop: the store, and the arrays [pfds] and [ufds] in parallel;
    [ufds] has [getdtablesize] entries. *)
Fixpoint poll_prepare (l : list nat) (store : list task) (fds : list (nat * (Z * bool * bool))) :
    option (list task * list (nat * (Z * bool * bool))) :=
  match l with
  | [] => Some (store, fds)
  | v :: l =>
      t ← store !! v;
      if t_closed t then poll_prepare l store fds
      else
        let store := <[v := with_flags t (Val_int 0)]> store in
        if must_read t || must_write t then
          if Z.of_nat (length fds) <? getdtablesize
          then poll_prepare l store (fds ++ [(v, (t_fd t, must_read t, must_write t))])
          else None
        else poll_prepare l store fds
  end.

(** [for(pos=0; pos<nfds && retcode > 0; pos++)] *)
Fixpoint poll_collect (es : list (nat * revents)) (retcode : Z) (store : list task) : option (list task) :=
  match es with
  | [] => Some store
  | (v, r) :: es =>
      if 0 <? retcode then
        if some_event r then
          t ← store !! v;
          poll_collect es (retcode - 1) (<[v := with_flags t (flags_of (r_in r || r_err r || r_hup r) (r_out r))]> store)
        else poll_collect es retcode store
      else Some store
  end.

(** Whether it raised, and the store. *)
Definition try_poll (fdlist : list nat) (tm : Z) (store : list task) : option (bool * list task) :=
  '(store, fds) ← poll_prepare fdlist store [];
  match poll fds.*2 tm with
  | None => Some (true, store)
  | Some (retcode, revs) => store ← poll_collect (zip fds.*1 revs) retcode store; Some (false, store)
  end.

(** *** [try_select] *)

(** [FD_SET] and [FD_ISSET] outside of the set are undefined. *)
Definition FD_SET (fd : Z) (s : gset Z) : option (gset Z) :=
  if (0 <=? fd) && (fd <? FD_SETSIZE) then Some ({[fd]} ∪ s) else None.

Definition FD_ISSET (fd : Z) (s : gset Z) : option bool :=
  if (0 <=? fd) && (fd <? FD_SETSIZE) then Some (bool_decide (fd ∈ s)) else None.

Fixpoint select_prepare (l : list nat) (store : list task) (maxfd : Z) (rset wset : gset Z) : option (Z * gset Z * gset Z) :=
  match l with
  | [] => Some (maxfd, rset, wset)
  | v :: l =>
      t ← store !! v;
      if t_closed t then select_prepare l store maxfd rset wset
      else
        rset ← (if must_read t then FD_SET (t_fd t) rset else Some rset);
        wset ← (if must_write t then FD_SET (t_fd t) wset else Some wset);
        select_prepare l store (if must_read t || must_write t then Z.max maxfd (t_fd t) else maxfd) rset wset
  end.

Fixpoint select_collect (l : list nat) (store : list task) (rset wset : gset Z) : option (list task) :=
  match l with
  | [] => Some store
  | v :: l =>
      t ← store !! v;
      if t_closed t then select_collect l store rset wset
      else
        r ← FD_ISSET (t_fd t) rset;
        w ← FD_ISSET (t_fd t) wset;
        select_collect l (<[v := with_flags t (flags_of r w)]> store) rset wset
  end.

Definition try_select (fdlist : list nat) (store : list task) : option (bool * list task) :=
  '(maxfd, rset, wset) ← select_prepare fdlist store 0 ∅ ∅;
  match select (maxfd + 1) rset wset with
  | None => Some (true, store)
  | Some (rset, wset) => store ← select_collect fdlist store rset wset; Some (false, store)
  end.

(** *** The choice between the two *)

Record mode := Mode { use_poll : bool; must_use_poll : bool }.

Definition mode_zero : mode := Mode true false.

Definition ml_use_poll (m : mode) (use : bool) : mode := Mode (use || must_use_poll m) (must_use_poll m).

(** Where [poll] exists. *)
Definition ml_getdtablesize (m : mode) : Z * mode :=
  (getdtablesize, if FD_SETSIZE <? getdtablesize then Mode true true else m).

Definition ml_select (m : mode) (fdlist : list nat) (tm : Z) (store : list task) : option (bool * list task) :=
  if use_poll m then try_poll fdlist tm store else try_select fdlist store.
End Calls.

(** ** What the calls promise *)

Section Promise.
Context (status : Z -> revents).

(** POLLERR, POLLHUP and POLLNVAL are reported without being asked for; a
    descriptor that is not open has only the last. *)
Definition rev_of (e : Z * bool * bool) : revents :=
  let '(fd, wi, wo) := e in
  let st := status fd in
  if fd <? 0 then Revents false false false false false
  else if r_nval st then Revents false false false false true
  else Revents (wi && r_in st) (wo && r_out st) (r_err st) (r_hup st) false.

(** The correspondence of select(2): what of [poll] makes a descriptor ready. *)
Definition readable (fd : Z) : bool := r_in (status fd) || r_hup (status fd) || r_err (status fd).
Definition writable (fd : Z) : bool := r_out (status fd) || r_err (status fd).

Definition count_events (revs : list revents) : Z := Z.of_nat (length (filter some_event revs)).
End Promise.

(** [status]: the condition of each descriptor when the calls return.  Both may
    fail, on a signal for instance, and [select] fails when it is given a
    descriptor that is not open. *)
Class Ready (W : Waiting) := {
  status : Z -> revents;
  poll_ok fds tm n revs : poll fds tm = Some (n, revs) -> revs = rev_of status <$> fds /\ n = count_events revs;
  select_ok n rset wset rset' wset' :
    (forall fd, fd ∈ rset ∪ wset -> 0 <= fd < n) -> select n rset wset = Some (rset', wset') ->
    (forall fd, fd ∈ rset ∪ wset -> r_nval (status fd) = false) /\
    rset' = filter (readable status) rset /\ wset' = filter (writable status) wset
}.

(** ** Stores *)

(** [f] applied to the tasks of [l]. *)
Definition on (l : list nat) (f : task -> task) (store : list task) : list task :=
  imap (fun i t => if bool_decide (i ∈ l) then f t else t) store.

Lemma on_lookup l f s i : on l f s !! i = (fun t => if bool_decide (i ∈ l) then f t else t) <$> s !! i.
Proof. unfold on. by rewrite list_lookup_imap. Qed.

Lemma on_nil f s : on [] f s = s.
Proof. apply list_eq. intros i. rewrite on_lookup. by destruct (s !! i). Qed.

Lemma on_cons v l f s t : s !! v = Some t -> v ∉ l -> on (v :: l) f s = on l f (<[v := f t]> s).
Proof.
  intros Hv Hl. apply list_eq. intros i. rewrite !on_lookup. destruct (decide (i = v)) as [->|Hne].
  - rewrite list_lookup_insert_eq by (by eapply lookup_lt_Some). rewrite Hv. cbn [fmap option_fmap option_map].
    by rewrite bool_decide_true, bool_decide_false by (done || left).
  - rewrite list_lookup_insert_ne by done. destruct (s !! i) as [u|]; [|done]. cbn [fmap option_fmap option_map].
    f_equal. rewrite (bool_decide_ext (i ∈ v :: l) (i ∈ l)); [done|]. rewrite elem_of_cons. tauto.
Qed.

Lemma on_skip v l f s t : s !! v = Some t -> f t = t -> v ∉ l -> on (v :: l) f s = on l f s.
Proof. intros Hv Hf Hl. by rewrite (on_cons v l f s t), Hf, list_insert_id by done. Qed.

Lemma on_ext l f g s : (forall i t, i ∈ l -> s !! i = Some t -> f t = g t) -> on l f s = on l g s.
Proof.
  intros H. apply list_eq. intros i. rewrite !on_lookup. destruct (s !! i) as [t|] eqn:E; [|done].
  cbn [fmap option_fmap option_map]. f_equal. case_bool_decide; [by eapply H|done].
Qed.

(** ** [poll] *)

Section PollOk.
Context {W : Waiting}.

(** The entry of a task in the arrays. *)
Definition slot (s : list task) (v : nat) : option (nat * (Z * bool * bool)) :=
  t ← s !! v;
  if negb (t_closed t) && (must_read t || must_write t) then Some (v, (t_fd t, must_read t, must_write t)) else None.

Definition clear (t : task) : task := if t_closed t then t else with_flags t (Val_int 0).

Lemma slot_insert v (l : list nat) s t : v ∉ l -> omap (slot (<[v := t]> s)) l = omap (slot s) l.
Proof.
  induction l as [|u l IH]; intros Hv; [done|]. apply not_elem_of_cons in Hv as [Hne Hv]. cbn [omap list_omap].
  assert (E : slot (<[v := t]> s) u = slot s u) by (unfold slot; by rewrite list_lookup_insert_ne). by rewrite E, IH.
Qed.

Lemma poll_prepare_ok l s fds :
  NoDup l -> (forall v, v ∈ l -> (v < length s)%nat) -> Z.of_nat (length fds + length (omap (slot s) l)) <= getdtablesize ->
  poll_prepare l s fds = Some (on l clear s, fds ++ omap (slot s) l).
Proof.
  revert s fds. induction l as [|v l IH]; intros s fds Hnd Hin Hlen; cbn [poll_prepare omap list_omap] in *.
  { by rewrite on_nil, app_nil_r. }
  apply NoDup_cons in Hnd as [Hv Hnd]. destruct (lookup_lt_is_Some_2 s v) as [t Ht]; [apply Hin; left|].
  assert (Hin' : forall t u, u ∈ l -> (u < length (<[v := t]> s))%nat) by (intros; rewrite length_insert; apply Hin; by right).
  rewrite Ht, some_bind. unfold slot at 1 in Hlen. unfold slot at 1. rewrite Ht, some_bind in *.
  destruct (t_closed t) eqn:Hc; cbn [negb andb] in *.
  - assert (Hct : clear t = t) by (unfold clear; by rewrite Hc).
    rewrite (on_skip v l clear s t) by done. apply IH; [done|intros; apply Hin; by right|done].
  - assert (Hct : clear t = with_flags t (Val_int 0)) by (unfold clear; by rewrite Hc).
    rewrite (on_cons v l clear s t), Hct by done.
    destruct (must_read t || must_write t) eqn:Hm.
    + cbn [length] in Hlen. destruct (Z.ltb_spec (Z.of_nat (length fds)) getdtablesize); [|lia].
      rewrite IH; [|done|apply Hin'|rewrite slot_insert, length_app by done; simpl; lia].
      by rewrite slot_insert, <- app_assoc.
    + rewrite IH; [|done|apply Hin'|by rewrite slot_insert]. by rewrite slot_insert.
Qed.

Definition set_events (r : revents) (t : task) : task :=
  if some_event r then with_flags t (flags_of (r_in r || r_err r || r_hup r) (r_out r)) else t.

(** The loop stops when it has found the entries counted by [poll]. *)
Lemma poll_collect_ok es s :
  NoDup es.*1 -> (forall v, v ∈ es.*1 -> (v < length s)%nat) ->
  exists s', poll_collect es (count_events es.*2) s = Some s' /\
    (forall v r, (v, r) ∈ es -> s' !! v = set_events r <$> s !! v) /\ (forall i, i ∉ es.*1 -> s' !! i = s !! i).
Proof.
  revert s. induction es as [|[v r] es IH]; intros s Hnd Hin; cbn [fmap list_fmap fst snd] in *.
  { exists s. split; [done|]. split; [by intros ? ? ?%not_elem_of_nil|done]. }
  apply NoDup_cons in Hnd as [Hv Hnd]. destruct (lookup_lt_is_Some_2 s v) as [t Ht]; [apply Hin; left|].
  assert (Hother : forall u r', (u, r') ∈ es -> u <> v).
  { intros u r' Hu ->. apply Hv. apply list_elem_of_fmap. by exists (v, r'). }
  cbn [poll_collect]. unfold count_events. rewrite filter_cons. destruct (decide (some_event r)) as [Hr|Hr].
  - destruct (Z.ltb_spec 0 (Z.of_nat (length (r :: filter some_event es.*2)))); [|simpl in *; lia].
    apply Is_true_true in Hr. rewrite Hr, Ht, some_bind.
    replace (Z.of_nat (length (r :: filter some_event es.*2)) - 1) with (count_events es.*2) by (unfold count_events; simpl; lia).
    set (s1 := <[v := _]> s). destruct (IH s1 Hnd) as (s' & -> & H1 & H2).
    { intros u Hu. unfold s1. rewrite length_insert. apply Hin. by right. }
    exists s'. split; [done|]. split.
    + intros u r' [[= -> ->]|Hu]%elem_of_cons.
      * rewrite H2 by done. unfold s1. rewrite list_lookup_insert_eq by (by eapply lookup_lt_Some). rewrite Ht.
        unfold set_events. by rewrite Hr.
      * rewrite (H1 _ _ Hu). unfold s1. rewrite list_lookup_insert_ne; [done|]. intros ->. by eapply Hother.
    + intros i [Hne Hi]%not_elem_of_cons. rewrite H2 by done. unfold s1. by rewrite list_lookup_insert_ne.
  - assert (Hrf : some_event r = false) by (by destruct (some_event r)). rewrite Hrf.
    fold (count_events es.*2). destruct (Z.ltb_spec 0 (count_events es.*2)) as [Hpos|Hzero].
    + destruct (IH s Hnd) as (s' & -> & H1 & H2); [intros u Hu; apply Hin; by right|]. exists s'. split; [done|]. split.
      * intros u r' [[= -> ->]|Hu]%elem_of_cons; [|by apply H1]. rewrite H2 by done. unfold set_events. rewrite Hrf. by destruct (s !! v).
      * intros i [Hne Hi]%not_elem_of_cons. by apply H2.
    + exists s. split; [done|]. split; [|done].
      intros u r' Hu. assert (Hnone : some_event r' = false); [|unfold set_events; rewrite Hnone; by destruct (s !! u)].
      apply elem_of_cons in Hu as [[= -> ->]|Hu]; [done|]. destruct (some_event r') eqn:Er; [|done]. exfalso.
      assert (Hf : r' ∈ filter some_event es.*2).
      { apply list_elem_of_filter. split; [by rewrite Er|]. apply list_elem_of_fmap. by exists (u, r'). }
      unfold count_events in Hzero. destruct (filter some_event es.*2); [by apply not_elem_of_nil in Hf|simpl in Hzero; lia].
Qed.
End PollOk.

(** ** The flags both calls leave *)

Section Answer.
Context {W : Waiting} {R : Ready W} (fdlist : list nat) (store : list task).

(** What [poll] tells an open task that asks for something: an error or the end
    of the peer as something to read, asked for or not. *)
Definition poll_answer (t : task) : task :=
  let st := status (t_fd t) in
  if t_closed t then t
  else if r_nval st then with_flags t (Val_int 0)
  else with_flags t (flags_of (must_read t && r_in st || (must_read t || must_write t) && (r_err st || r_hup st)) (must_write t && r_out st)).

(** What [select] tells it: only what it asked for, an error being something to
    write too. *)
Definition select_answer (t : task) : task :=
  if t_closed t then t
  else with_flags t (flags_of (must_read t && readable status (t_fd t)) (must_write t && writable status (t_fd t))).

(** The two differ on a task that writes, when it does not read and its
    descriptor is in error or hung up, or when in error it cannot write. *)
Definition same_answer (t : task) : bool :=
  let st := status (t_fd t) in
  negb (must_write t && (negb (must_read t) && (r_err st || r_hup st) || r_err st && negb (r_out st))).

Lemma same_answer_ok t :
  t_closed t = false -> (must_read t || must_write t = true -> r_nval (status (t_fd t)) = false) ->
  poll_answer t = select_answer t <-> same_answer t = true.
Proof.
  intros Hc Hv. unfold poll_answer, select_answer, same_answer, readable, writable. rewrite Hc.
  destruct (must_read t || must_write t) eqn:Hm.
  2: { apply orb_false_iff in Hm as [-> ->]. by destruct (r_nval _). }
  rewrite Hv by done. clear Hv. destruct (must_read t), (must_write t); try discriminate Hm; destruct (r_in (status (t_fd t))), (r_out (status (t_fd t))), (r_err (status (t_fd t))),
    (r_hup (status (t_fd t))); (split; [intros [=]; reflexivity || discriminate|intros [=]; reflexivity]).
Qed.

(** The tasks of the list are distinct, the open ones on different
    descriptors, all below [bound]. *)
Definition tasks_ok (bound : Z) : Prop :=
  NoDup fdlist /\ (forall v, v ∈ fdlist -> (v < length store)%nat) /\
  (forall v t, v ∈ fdlist -> store !! v = Some t -> t_closed t = false -> 0 <= t_fd t < bound) /\
  (forall v t v' t', v ∈ fdlist -> v' ∈ fdlist -> store !! v = Some t -> store !! v' = Some t' ->
     t_closed t = false -> t_closed t' = false -> t_fd t = t_fd t' -> v = v').

Lemma slot_elem x (l : list nat) :
  x ∈ omap (slot store) l <-> exists v t, v ∈ l /\ store !! v = Some t /\ t_closed t = false /\
    must_read t || must_write t = true /\ x = (v, (t_fd t, must_read t, must_write t)).
Proof.
  rewrite list_elem_of_omap. split.
  - intros (v & Hv & E). unfold slot in E. destruct (store !! v) as [t|] eqn:Ht; [|done]. rewrite some_bind in E.
    destruct (t_closed t) eqn:Hc; cbn [negb andb] in E; [done|]. destruct (must_read t || must_write t) eqn:Hm; [|done].
    injection E as <-. by exists v, t.
  - intros (v & t & Hv & Ht & Hc & Hm & ->). exists v. split; [done|]. unfold slot. by rewrite Ht, some_bind, Hc, Hm.
Qed.

Lemma slots_fst (l : list nat) : NoDup l -> NoDup (omap (slot store) l).*1.
Proof.
  induction 1 as [|v l Hv _ IH]; cbn [omap list_omap]; [apply NoDup_nil_2|]. unfold slot at 1.
  destruct (store !! v) as [t|]; [|done]. rewrite some_bind. destruct (_ && _); [|done].
  cbn [fmap list_fmap fst]. apply NoDup_cons. split; [|done].
  intros ([v' e] & -> & He)%list_elem_of_fmap. apply slot_elem in He as (u & t' & Hu & _ & _ & _ & [= -> _]). done.
Qed.

(** Different descriptors below the bound: no more entries than that. *)
Lemma slots_length bound : 0 <= bound -> tasks_ok bound -> Z.of_nat (length (omap (slot store) fdlist)) <= bound.
Proof.
  intros Hb (Hnd & _ & Hfd & Hdist). set (slots := omap (slot store) fdlist).
  assert (Hfds : NoDup ((fun x : nat * (Z * bool * bool) => x.2.1.1) <$> slots)).
  { apply NoDup_fmap_2_strong; [|by eapply NoDup_fmap_1, slots_fst].
    intros x y (v & t & Hv & Ht & Hc & _ & ->)%slot_elem (v' & t' & Hv' & Ht' & Hc' & _ & ->)%slot_elem E. cbn in E.
    assert (v = v') as <- by by eapply (Hdist v t v' t'). rewrite Ht in Ht'. by injection Ht' as ->. }
  assert (Hsub : (fun x : nat * (Z * bool * bool) => x.2.1.1) <$> slots ⊆+ seqZ 0 bound).
  { apply NoDup_submseteq; [done|]. intros fd (x & -> & (v & t & Hv & Ht & Hc & _ & ->)%slot_elem)%list_elem_of_fmap.
    apply elem_of_seqZ. cbn. specialize (Hfd v t Hv Ht Hc). lia. }
  apply submseteq_length in Hsub. rewrite length_fmap, length_seqZ in Hsub. lia.
Qed.

Lemma bool_decide_ext_bool (P : Prop) `{!Decision P} (b : bool) : (P <-> b) -> bool_decide P = b.
Proof. intros Hiff. case_bool_decide; destruct b; simpl in Hiff; (done || tauto). Qed.

Lemma zip_map {A B C} (f : B -> C) (l : list (A * B)) : zip l.*1 (f <$> l.*2) = (fun x => (x.1, f x.2)) <$> l.
Proof. induction l as [|[a b] l IH]; [done|]. cbn. by rewrite IH. Qed.

Lemma flags_none t : t_closed t = false -> must_read t || must_write t = false -> poll_answer t = clear t.
Proof.
  intros Hc [Hr Hw]%orb_false_iff. unfold poll_answer, clear. rewrite Hc, Hr, Hw. by destruct (r_nval _).
Qed.

(** The revents of a task in the list give its answer. *)
Lemma set_events_answer t :
  t_closed t = false -> 0 <= t_fd t -> must_read t || must_write t = true ->
  set_events (rev_of status (t_fd t, must_read t, must_write t)) (clear t) = poll_answer t.
Proof.
  intros Hc Hfd Hm. unfold set_events, poll_answer, clear, some_event. rewrite Hc, Hm. cbn [rev_of].
  destruct (Z.ltb_spec (t_fd t) 0); [lia|]. destruct (r_nval (status (t_fd t))); cbn [r_in r_out r_err r_hup r_nval]; [done|].
  by destruct (must_read t && r_in (status (t_fd t))), (must_write t && r_out (status (t_fd t))), (r_err (status (t_fd t))),
    (r_hup (status (t_fd t))).
Qed.

(** What is given to [poll]. *)
Definition asked : list (Z * bool * bool) := (omap (slot store) fdlist).*2.

Lemma try_poll_ok tm : 0 <= getdtablesize -> tasks_ok getdtablesize ->
  try_poll fdlist tm store = Some (match poll asked tm with
    None => (true, on fdlist clear store) | Some _ => (false, on fdlist poll_answer store) end).
Proof.
  intros Hd Hok. pose proof (slots_length _ Hd Hok) as Hlen. destruct Hok as (Hnd & Hin & Hfd & _). unfold try_poll.
  rewrite poll_prepare_ok, some_bind by (simpl; done || lia). cbn [app]. set (slots := omap _ _) in *.
  change asked with slots.*2. destruct (poll slots.*2 tm) as [[retcode revs]|] eqn:Hpoll; [|done].
  apply poll_ok in Hpoll as [-> ->]. rewrite zip_map. set (es := _ <$> slots).
  assert (Hfst : es.*1 = slots.*1) by (unfold es; rewrite <- list_fmap_compose; done).
  assert (Hsnd : es.*2 = rev_of status <$> slots.*2) by (unfold es; rewrite <- !list_fmap_compose; done).
  rewrite <- Hsnd.
  destruct (poll_collect_ok es (on fdlist clear store)) as (s' & -> & H1 & H2).
  { rewrite Hfst. by apply slots_fst. }
  { rewrite Hfst. intros v ([u e] & -> & (u' & t & Hu & _ & _ & _ & [= -> _])%slot_elem)%list_elem_of_fmap.
    unfold on. rewrite length_imap. by apply Hin. }
  rewrite some_bind. do 2 f_equal. apply list_eq. intros i. rewrite on_lookup.
  destruct (store !! i) as [t|] eqn:Ht.
  - destruct (decide (i ∈ fdlist)) as [Hi|Hi].
    + cbn [fmap option_fmap option_map]. rewrite bool_decide_true by done.
      destruct (t_closed t) eqn:Hc; [|destruct (must_read t || must_write t) eqn:Hm].
      * rewrite H2, on_lookup, Ht. { cbn. rewrite bool_decide_true by done. unfold clear, poll_answer. by rewrite Hc. }
        rewrite Hfst. intros ([u e] & -> & (u' & t' & _ & Ht' & Hc' & _ & [= -> _])%slot_elem)%list_elem_of_fmap. cbn in *. congruence.
      * rewrite (H1 i (rev_of status (t_fd t, must_read t, must_write t))).
        { rewrite on_lookup, Ht. cbn [fmap option_fmap option_map]. rewrite bool_decide_true by done.
          f_equal. apply set_events_answer; [done|by apply (Hfd i)|done]. }
        unfold es. apply list_elem_of_fmap. eexists (i, _). split; [reflexivity|]. apply slot_elem. by exists i, t.
      * rewrite H2, on_lookup, Ht. { cbn. by rewrite bool_decide_true, flags_none. }
        rewrite Hfst. intros ([u e] & -> & (u' & t' & _ & Ht' & _ & Hm' & [= -> _])%slot_elem)%list_elem_of_fmap. cbn in *. congruence.
    + rewrite H2, on_lookup, Ht. { cbn. by rewrite !bool_decide_false. }
      rewrite Hfst. intros ([u e] & -> & (u' & t' & Hu' & _ & _ & _ & [= -> _])%slot_elem)%list_elem_of_fmap. done.
  - rewrite H2, on_lookup, Ht; [done|].
    rewrite Hfst. intros ([u e] & -> & (u' & t' & _ & Ht' & _ & _ & [= -> _])%slot_elem)%list_elem_of_fmap. cbn in *. congruence.
Qed.

(** ** [select] *)

(** The descriptors of the open tasks of [l] that satisfy [p]. *)
Definition fds_of (p : task -> bool) (l : list nat) (fd : Z) : Prop :=
  exists v t, v ∈ l /\ store !! v = Some t /\ t_closed t = false /\ p t = true /\ t_fd t = fd.

Lemma fds_of_cons p v l fd t :
  store !! v = Some t -> fds_of p (v :: l) fd <-> (t_closed t = false /\ p t = true /\ t_fd t = fd) \/ fds_of p l fd.
Proof.
  intros Hv. unfold fds_of. split.
  - intros (u & t' & [->|Hu]%elem_of_cons & Hu' & ?); [left; rewrite Hv in Hu'; by injection Hu' as <-|right; by exists u, t'].
  - intros [?|(u & t' & Hu & ?)]; [exists v, t; split; [left|done]|exists u, t'; split; [by right|done]].
Qed.

(** [FD_SET] on a condition. *)
Lemma fd_set_if (b : bool) fd s :
  0 <= fd < FD_SETSIZE -> (if b then FD_SET fd s else Some s) = Some (if b then {[fd]} ∪ s else s).
Proof. intros Hfd. unfold FD_SET. replace ((0 <=? fd) && (fd <? FD_SETSIZE)) with true by lia. by destruct b. Qed.

Lemma select_prepare_ok l maxfd rset wset :
  (forall v, v ∈ l -> (v < length store)%nat) ->
  (forall v t, v ∈ l -> store !! v = Some t -> t_closed t = false -> 0 <= t_fd t < FD_SETSIZE) ->
  (forall fd, fd ∈ rset ∪ wset -> 0 <= fd <= maxfd) ->
  exists m r w, select_prepare l store maxfd rset wset = Some (m, r, w) /\
    (forall fd, fd ∈ r <-> fd ∈ rset \/ fds_of must_read l fd) /\
    (forall fd, fd ∈ w <-> fd ∈ wset \/ fds_of must_write l fd) /\ (forall fd, fd ∈ r ∪ w -> 0 <= fd <= m).
Proof.
  revert maxfd rset wset. induction l as [|v l IH]; intros maxfd rset wset Hin Hfd Hmax; cbn [select_prepare].
  { exists maxfd, rset, wset. split; [done|].
    assert (Hno : forall p fd, ~ fds_of p [] fd) by (by intros p fd (v & t & ?%not_elem_of_nil & _)).
    split; [|split; [|done]]; intros fd; split; [tauto|by intros [?|?%Hno]|tauto|by intros [?|?%Hno]]. }
  destruct (lookup_lt_is_Some_2 store v) as [t Ht]; [apply Hin; left|]. rewrite Ht, some_bind.
  assert (Hin' : forall u, u ∈ l -> (u < length store)%nat) by (intros; apply Hin; by right).
  assert (Hfd' : forall u t, u ∈ l -> store !! u = Some t -> t_closed t = false -> 0 <= t_fd t < FD_SETSIZE)
    by (intros u t' Hu; apply Hfd; by right).
  assert (Hcons : forall p fd, fds_of p (v :: l) fd <-> (t_closed t = false /\ p t = true /\ t_fd t = fd) \/ fds_of p l fd)
    by (intros; by apply fds_of_cons).
  destruct (t_closed t) eqn:Hc.
  - destruct (IH maxfd rset wset Hin' Hfd' Hmax) as (m & r & w & E & H1 & H2 & H3). exists m, r, w.
    split; [done|]. split; [|split; [|done]]; intros fd; [rewrite H1|rewrite H2]; rewrite Hcons; intuition discriminate.
  - assert (Hb : 0 <= t_fd t < FD_SETSIZE) by (apply (Hfd v); [left|done|done]).
    rewrite !fd_set_if, some_bind, some_bind by done.
    destruct (IH (if must_read t || must_write t then Z.max maxfd (t_fd t) else maxfd)
      (if must_read t then {[t_fd t]} ∪ rset else rset) (if must_write t then {[t_fd t]} ∪ wset else wset) Hin' Hfd')
      as (m & r & w & E & H1 & H2 & H3).
    { intros fd Hm. destruct (must_read t), (must_write t); cbn [orb]; specialize (Hmax fd); set_unfold; intuition lia. }
    exists m, r, w. split; [done|]. split; [|split; [|done]]; intros fd.
    + rewrite H1, Hcons. destruct (must_read t); set_unfold; intuition (congruence || discriminate).
    + rewrite H2, Hcons. destruct (must_write t); set_unfold; intuition (congruence || discriminate).
Qed.

Lemma select_collect_ok l s rset wset :
  NoDup l -> (forall v, v ∈ l -> (v < length s)%nat) ->
  (forall v t, v ∈ l -> s !! v = Some t -> t_closed t = false -> 0 <= t_fd t < FD_SETSIZE) ->
  select_collect l s rset wset = Some (on l (fun t => if t_closed t then t
    else with_flags t (flags_of (bool_decide (t_fd t ∈ rset)) (bool_decide (t_fd t ∈ wset)))) s).
Proof.
  set (f := fun t : task => _). revert s. induction l as [|v l IH]; intros s Hnd Hin Hfd; cbn [select_collect]; [by rewrite on_nil|].
  apply NoDup_cons in Hnd as [Hv Hnd]. destruct (lookup_lt_is_Some_2 s v) as [t Ht]; [apply Hin; left|]. rewrite Ht, some_bind.
  destruct (t_closed t) eqn:Hc.
  - assert (Hft : f t = t) by (unfold f; by rewrite Hc). rewrite (on_skip v l f s t) by done.
    apply IH; [done|intros; apply Hin; by right|intros u t' Hu; apply Hfd; by right].
  - assert (Hb : 0 <= t_fd t < FD_SETSIZE) by (apply (Hfd v); [left|done|done]).
    unfold FD_ISSET. replace ((0 <=? t_fd t) && (t_fd t <? FD_SETSIZE)) with true by lia. rewrite !some_bind.
    rewrite (on_cons v l f s t) by done.
    assert (Hft : f t = with_flags t (flags_of (bool_decide (t_fd t ∈ rset)) (bool_decide (t_fd t ∈ wset)))) by (unfold f; by rewrite Hc).
    rewrite Hft. apply IH; [done|intros; rewrite length_insert; apply Hin; by right|].
    intros u t' Hu. rewrite list_lookup_insert_ne by (intros ->; done). apply Hfd. by right.
Qed.

(** What is given to [select], and the answer. *)
Lemma try_select_ok : tasks_ok FD_SETSIZE ->
  exists n rset wset,
    (forall fd, fd ∈ rset <-> fds_of must_read fdlist fd) /\ (forall fd, fd ∈ wset <-> fds_of must_write fdlist fd) /\
    (forall fd, fd ∈ rset ∪ wset -> 0 <= fd < n) /\
    try_select fdlist store = Some (match select n rset wset with
      None => (true, store) | Some _ => (false, on fdlist select_answer store) end) /\
    (is_Some (select n rset wset) -> forall v t, v ∈ fdlist -> store !! v = Some t -> t_closed t = false ->
      poll_answer t = select_answer t <-> same_answer t = true).
Proof.
  intros (Hnd & Hin & Hfd & Hdist). unfold try_select.
  destruct (select_prepare_ok fdlist 0 ∅ ∅ Hin Hfd) as (m & rs & ws & -> & H1 & H2 & H3);
    [by intros fd [?%not_elem_of_empty|?%not_elem_of_empty]%elem_of_union|].
  assert (H1' : forall fd, fd ∈ rs <-> fds_of must_read fdlist fd) by (intros fd; rewrite H1, elem_of_empty; tauto).
  assert (H2' : forall fd, fd ∈ ws <-> fds_of must_write fdlist fd) by (intros fd; rewrite H2, elem_of_empty; tauto).
  assert (H3' : forall fd, fd ∈ rs ∪ ws -> 0 <= fd < m + 1) by (intros fd Hm; specialize (H3 fd Hm); lia).
  exists (m + 1), rs, ws. repeat (split; [done|]).
  rewrite some_bind. destruct (select (m + 1) rs ws) as [[rs' ws']|] eqn:Hsel; [|split; [done|by intros []]].
  apply select_ok in Hsel as (Hvalid & -> & ->); [|done]. split.
  2: { intros _ v t Hv Ht Hc. apply same_answer_ok; [done|]. intros Hm%orb_true_iff. apply Hvalid. rewrite elem_of_union, H1', H2'.
       destruct Hm as [Hm|Hm]; [left|right]; by exists v, t. }
  rewrite select_collect_ok, some_bind by done. do 2 f_equal. apply on_ext. intros i t Hi Ht.
  unfold select_answer. destruct (t_closed t) eqn:Hc; [done|].
  assert (Hsame : forall p, fds_of p fdlist (t_fd t) <-> p t = true).
  { intros p. split; [|intros Hp; by exists i, t]. intros (v & t' & Hv & Ht' & Hc' & Hp & E).
    assert (v = i) as -> by by eapply (Hdist v t' i t). rewrite Ht in Ht'. by injection Ht' as ->. }
  do 2 f_equal; apply bool_decide_ext_bool; rewrite elem_of_filter; [rewrite H1'|rewrite H2']; rewrite Hsame, andb_True, !Is_true_true; tauto.
Qed.
End Answer.

Lemma tasks_ok_mono l s b b' : b <= b' -> tasks_ok l s b -> tasks_ok l s b'.
Proof.
  intros Hb (? & ? & Hfd & ?). split; [done|]. split; [done|]. split; [|done].
  intros v t Hv Ht Hc. specialize (Hfd v t Hv Ht Hc). lia.
Qed.

(** C17: on tasks with different descriptors, inside the table and the sets,
    [try_poll] and [try_select] end without leaving their arrays.  When the
    system call fails both raise, [try_poll] with the flags of the open tasks
    cleared; when it succeeds every open task of the list has the flags of its
    answer, and the closed tasks and those outside of the list are not touched.
    When [select] succeeds, the two answers of a task are the same exactly when
    [same_answer] says so: they differ only for tasks that write, on a
    descriptor in error or hung up. *)
Theorem poll_select_agree {W : Waiting} {R : Ready W} (fdlist : list nat) (store : list task) (tm : Z) :
  0 <= getdtablesize -> tasks_ok fdlist store (Z.min FD_SETSIZE getdtablesize) ->
  try_poll fdlist tm store = Some (match poll (asked fdlist store) tm with
    None => (true, on fdlist clear store) | Some _ => (false, on fdlist poll_answer store) end) /\
  (exists n rset wset,
    (forall fd, fd ∈ rset <-> fds_of store must_read fdlist fd) /\ (forall fd, fd ∈ wset <-> fds_of store must_write fdlist fd) /\
    (forall fd, fd ∈ rset ∪ wset -> 0 <= fd < n) /\
    try_select fdlist store = Some (match select n rset wset with
      None => (true, store) | Some _ => (false, on fdlist select_answer store) end) /\
    (is_Some (select n rset wset) -> forall v t, v ∈ fdlist -> store !! v = Some t -> t_closed t = false ->
      poll_answer t = select_answer t <-> same_answer t = true)).
Proof.
  intros Hd Hok. split.
  - apply try_poll_ok; [done|]. eapply tasks_ok_mono; [|exact Hok]. lia.
  - apply try_select_ok. eapply tasks_ok_mono; [|exact Hok]. lia.
Qed.

(** Once [ml_getdtablesize] has been called, whatever [ml_use_poll] is then
    asked, [ml_select] never leaves the sets of descriptors of [select]: with
    more descriptors than they hold it is [poll] that is called. *)
Theorem select_stays_in_sets {W : Waiting} {R : Ready W} (m : mode) (uses : list bool) fdlist store tm :
  0 <= getdtablesize -> tasks_ok fdlist store getdtablesize ->
  is_Some (ml_select (foldl ml_use_poll (ml_getdtablesize m).2 uses) fdlist tm store).
Proof.
  intros Hd Hok. unfold ml_getdtablesize, ml_select. cbn [snd].
  destruct (Z.ltb_spec FD_SETSIZE getdtablesize) as [Hlt|Hge].
  - assert (E : foldl ml_use_poll (Mode true true) uses = Mode true true).
    { induction uses as [|u uses IH]; [done|]. cbn [foldl]. unfold ml_use_poll at 2. cbn. by rewrite orb_true_r. }
    rewrite E. cbn [use_poll]. by rewrite try_poll_ok.
  - destruct (use_poll _); [by rewrite try_poll_ok|].
    destruct (try_select_ok fdlist store) as (n & rset & wset & _ & _ & _ & -> & _); [|done]. eapply tasks_ok_mono; [|exact Hok]. lia.
Qed.

(** ** A system of which the condition of the descriptors is known *)

Definition quiet (setsize tablesize : Z) (status : Z -> revents) : Waiting := {|
  FD_SETSIZE := setsize;
  getdtablesize := tablesize;
  poll fds tm := let revs := rev_of status <$> fds in Some (count_events revs, revs);
  select n rset wset :=
    if bool_decide (filter (fun fd => r_nval (status fd)) (rset ∪ wset) = ∅)
    then Some (filter (readable status) rset, filter (writable status) wset) else None
|}.

Lemma quiet_ready setsize tablesize status : Ready (quiet setsize tablesize status).
Proof.
  refine (Build_Ready (quiet setsize tablesize status) status _ _).
  - intros fds tm n revs [= <- <-]. done.
  - intros n rset wset rset' wset' _. cbn [select quiet]. case_bool_decide as Hno; intros [= <- <-]. split; [|done].
    intros fd Hfd. destruct (r_nval (status fd)) eqn:E; [|done]. exfalso. apply (not_elem_of_empty (C := gset Z) fd). rewrite <- Hno.
    apply elem_of_filter. split; [by rewrite E|done].
Defined.

(** 5 has something to read, 7 is hung up, the others are not open. *)
Definition one_hung (fd : Z) : revents :=
  Revents (fd =? 5) false false (fd =? 7) (negb ((fd =? 5) || (fd =? 7))).

(** Two tasks and a closed one. *)
Definition three_tasks : list task :=
  [Task 5 1 0 9 false true true; Task 5 1 3 3 true true true; Task 7 1 4 8 false false true].

Lemma three_tasks_ok bound : 7 < bound -> tasks_ok [0%nat; 1%nat; 2%nat] three_tasks bound.
Proof.
  intros Hb.
  assert (Hl : forall v, v ∈ [0%nat; 1%nat; 2%nat] -> v = 0%nat \/ v = 1%nat \/ v = 2%nat)
    by (intros v; rewrite !elem_of_cons, elem_of_nil; tauto).
  split; [|split; [|split]].
  - apply (bool_decide_unpack _). reflexivity.
  - intros v [->|[->| ->]]%Hl; simpl; lia.
  - intros v t [->|[->| ->]]%Hl [= <-]; cbn; (discriminate || lia).
  - intros v t v' t' [->|[->| ->]]%Hl [->|[->| ->]]%Hl [= <-] [= <-]; cbn; (discriminate || done).
Qed.

(** The task that writes on 7 is told by [poll] that it can read, and nothing by
    [select]. *)
Lemma poll_select_agree_witness :
  let W := quiet 1024 4096 one_hung in let R := quiet_ready 1024 4096 one_hung in
  let l := [0%nat; 1%nat; 2%nat] in
  (try_poll l 100 three_tasks = Some (match poll (asked l three_tasks) 100 with
     None => (true, on l clear three_tasks) | Some _ => (false, on l poll_answer three_tasks) end) /\
   (exists n rset wset,
     (forall fd, fd ∈ rset <-> fds_of three_tasks must_read l fd) /\ (forall fd, fd ∈ wset <-> fds_of three_tasks must_write l fd) /\
     (forall fd, fd ∈ rset ∪ wset -> 0 <= fd < n) /\
     try_select l three_tasks = Some (match select n rset wset with
       None => (true, three_tasks) | Some _ => (false, on l select_answer three_tasks) end) /\
     (is_Some (select n rset wset) -> forall v t, v ∈ l -> three_tasks !! v = Some t -> t_closed t = false ->
       poll_answer t = select_answer t <-> same_answer t = true))) /\
  (map t_flags <$> (snd <$> try_poll l 100 three_tasks)) = Some [3; 1; 3] /\
  (map t_flags <$> (snd <$> try_select l three_tasks)) = Some [3; 1; 1].
Proof.
  intros W R l. split; [|split; vm_compute; reflexivity].
  apply (poll_select_agree (R := R)); [cbn; lia|]. apply three_tasks_ok. reflexivity.
Defined.

Lemma select_stays_in_sets_witness :
  let W := quiet 6 4096 one_hung in let R := quiet_ready 6 4096 one_hung in
  is_Some (ml_select (foldl ml_use_poll (ml_getdtablesize mode_zero).2 [false; true; false]) [0%nat; 1%nat; 2%nat] 100 three_tasks).
Proof.
  intros W R. apply (select_stays_in_sets (R := R)); [cbn; lia|]. apply three_tasks_ok. reflexivity.
Defined.
End Select.
