(* ===== verification/Rlimit.v ===== *)
(** * Resource limits

    [ml_getrlimit] and [ml_setrlimit] of [src/src/utils/lib/stubs_c.c], their
    wrappers in [src/src/utils/cdk/unix2.ml], and what the daemon does with the
    limit of open files when it starts ([src/src/daemon/common/commonOptions.ml]),
    on the descriptor table of [Select].  An OCaml integer is the 64-bit word
    that holds it. *)

From Stdlib Require Import ZArith Lia.
From stdpp Require Import base option numbers list.
From S2P Require Import Prelude Os HashFd Select.
Import Select.

Local Open Scope Z_scope.

Module Rlimit.

(** ** OCaml integers *)

Definition Val_int (n : Z) : Z := u64 (2 * n + 1).
Definition Long_val (v : Z) : Z := Z.shiftr (s64 v) 1.
Definition Int_val (v : Z) : Z := s32 (Long_val v).

(** ** The stubs *)

Inductive rlimit_resource :=
  | CPU | FSIZE | DATA | STACK | CORE | RSS | NPROF | NOFILE | MEMLOCK | AS.

(** The word of a constant constructor. *)
Definition constructor (r : rlimit_resource) : Z :=
  Val_int match r with
  | CPU => 0 | FSIZE => 1 | DATA => 2 | STACK => 3 | CORE => 4
  | RSS => 5 | NPROF => 6 | NOFILE => 7 | MEMLOCK => 8 | AS => 9
  end.

(** [K] is the state of the system.  A constant is [None] where it is not
    defined; [getrlimit] and [setrlimit] give [None] for a negative result. *)
Class Rlimits (K : Type) := {
  HAVE_GETRLIMIT : bool;
  HAVE_SETRLIMIT : bool;
  RLIMIT_CPU : option Z;
  RLIMIT_FSIZE : option Z;
  RLIMIT_DATA : option Z;
  RLIMIT_STACK : option Z;
  RLIMIT_CORE : option Z;
  RLIMIT_RSS : option Z;
  RLIMIT_NPROC : option Z;
  RLIMIT_NOFILE : option Z;
  RLIMIT_MEMLOCK : option Z;
  RLIMIT_AS : option Z;
  getrlimit : K -> Z -> option (Z * Z);
  setrlimit : K -> Z -> Z * Z -> option K
}.

Section Stubs.
Context {K : Type} `{!Rlimits K}.

(** [switch (Int_val(resource))] *)
Definition resource_number (resource : Z) : io Z :=
  let const (c : option Z) := Ret (default (-1) c) in
  match Int_val resource with
  | 0 => const RLIMIT_CPU
  | 1 => const RLIMIT_FSIZE
  | 2 => const RLIMIT_DATA
  | 3 => const RLIMIT_STACK
  | 4 => const RLIMIT_CORE
  | 5 => const RLIMIT_RSS
  | 6 => const RLIMIT_NPROC
  | 7 => const RLIMIT_NOFILE
  | 8 => const RLIMIT_MEMLOCK
  | 9 => const RLIMIT_AS
  | _ => Unix_error
  end.

Definition ml_getrlimit (k : K) (resource : Z) : io (Z * Z) :=
  if HAVE_GETRLIMIT then
    r ← resource_number resource;
    match getrlimit k r with
    | None => Unix_error
    | Some (rlim_cur, rlim_max) => Ret (Val_int rlim_cur, Val_int rlim_max)
    end
  else Unix_error.

(** The fields of the limit are converted from [int] to [rlim_t]. *)
Definition ml_setrlimit (k : K) (resource : Z) (rlimit : Z * Z) : io K :=
  if HAVE_SETRLIMIT then
    r ← resource_number resource;
    match setrlimit k r (u64 (Int_val rlimit.1), u64 (Int_val rlimit.2)) with
    | None => Unix_error
    | Some k => Ret k
    end
  else Unix_error.

(** *** The wrappers of [unix2.ml], which catch every exception *)

Definition dummy_rlimit : Z * Z := (-1, -1).

Definition unix2_getrlimit (k : K) (resource : rlimit_resource) : Z * Z :=
  match ml_getrlimit k (constructor resource) with
  | Ret (cur, max) => (Long_val cur, Long_val max)
  | _ => dummy_rlimit
  end.

Definition unix2_setrlimit (k : K) (resource : rlimit_resource) (n : Z) : K :=
  match ml_setrlimit k (constructor resource) (Val_int n, Val_int n) with
  | Ret k => k
  | _ => k
  end.

(** *** At the start of the daemon *)

Definition max_cache_size_default : Z := 50.
Definition min_reserved_fds : Z := 50.
Definition min_connections : Z := 50.

(** The tables of descriptors before and after, whether the daemon exits, and
    the two states. *)
Record started := Started { ulof_old : Z; ulof : Z; exits : bool; system : K; waiting : mode }.

Definition startup (W : K -> Waiting) (k : K) (m : mode) : started :=
  let '(ulof_old, m) := ml_getdtablesize (W := W k) m in
  let '(rlim_cur, rlim_max) := unix2_getrlimit k NOFILE in
  let k := if (0 <? rlim_max) && (rlim_cur <? rlim_max) then unix2_setrlimit k NOFILE rlim_max else k in
  let '(ulof, m) := ml_getdtablesize (W := W k) m in
  let absolute_min := max_cache_size_default + min_reserved_fds + min_connections in
  Started ulof_old ulof (ulof <? absolute_min) k m.
End Stubs.
Arguments started K : clear implicits.

(** ** What the system promises *)

Definition RLIM_INFINITY : Z := 2 ^ 64 - 1.

(** The limits of the process, soft and hard; one without privileges can lower
    its hard limits, not raise them. *)
Class Unprivileged {K} (R : Rlimits K) := {
  limits : K -> Z -> option (Z * Z);
  limits_range k r soft hard : limits k r = Some (soft, hard) -> 0 <= soft <= hard /\ hard <= RLIM_INFINITY;
  getrlimit_ok k r : getrlimit k r = limits k r;
  setrlimit_ok k r soft hard cur max :
    limits k r = Some (soft, hard) -> 0 <= cur <= max ->
    if max <=? hard then exists k', setrlimit k r (cur, max) = Some k' /\ limits k' r = Some (cur, max)
    else setrlimit k r (cur, max) = None
}.

(** The size of the table of descriptors is the soft limit, when it is an [int]. *)
Definition table_is_limit {K} {R : Rlimits K} `{!Unprivileged R} (W : K -> Waiting) (r : Z) : Prop :=
  forall k soft hard, limits k r = Some (soft, hard) -> soft < 2 ^ 31 -> getdtablesize (Waiting := W k) = soft.

(** ** Conversions *)

Lemma long_of_u64 z : s64 (u64 z) = s64 z.
Proof. unfold s64, u64. by rewrite Zplus_mod_idemp_l. Qed.

Lemma Long_val_int n : - 2 ^ 62 <= n < 2 ^ 62 -> Long_val (Val_int n) = n.
Proof.
  intros Hn. unfold Long_val, Val_int. rewrite long_of_u64. unfold s64. rewrite Z.mod_small, Z.shiftr_div_pow2 by lia.
  change (2 ^ 1) with 2. symmetry. apply (Z.div_unique _ _ _ 1); lia.
Qed.

(** What a limit given as the OCaml integer [n] becomes. *)
Definition request (n : Z) : Z := u64 (s32 n).

Lemma request_small n : 0 <= n < 2 ^ 31 -> request n = n.
Proof.
  intros Hn. unfold request, s32. rewrite Z.mod_small, Z.add_simpl_r by lia. apply u64_id. unfold word. lia.
Qed.

Lemma s32_low n : s32 n = if u32 n <? 2 ^ 31 then u32 n else u32 n - 2 ^ 32.
Proof.
  pose proof (u32_range n) as Hw. unfold word in Hw.
  assert (E : s32 n = s32 (u32 n)) by (unfold s32, u32; by rewrite Zplus_mod_idemp_l). rewrite E. set (low := u32 n) in *.
  unfold s32. destruct (Z.ltb_spec low (2 ^ 31)); [rewrite Z.mod_small; lia|].
  rewrite <- (Z.mod_add _ (-1)), Z.mod_small; lia.
Qed.

Lemma request_u32 n : request n = if u32 n <? 2 ^ 31 then u32 n else 2 ^ 64 - 2 ^ 32 + u32 n.
Proof.
  unfold request. rewrite s32_low. pose proof (u32_range n) as Hw. unfold word in Hw. set (low := u32 n) in *.
  destruct (Z.ltb_spec low (2 ^ 31)); [apply u64_id; unfold word; lia|].
  unfold u64. rewrite <- (Z.mod_add _ 1), Z.mod_small; lia.
Qed.

(** ** The wrappers *)

Section Promise.
Context {K : Type} {R : Rlimits K} {U : Unprivileged R}.
Context (getrlimit_there : HAVE_GETRLIMIT = true) (setrlimit_there : HAVE_SETRLIMIT = true).

Lemma nofile_number r : RLIMIT_NOFILE = Some r -> resource_number (constructor NOFILE) = Ret r.
Proof. intros E. change (resource_number (constructor NOFILE)) with (Ret (A := Z) (default (-1) RLIMIT_NOFILE)). by rewrite E. Qed.

Lemma unix2_getrlimit_ok k r soft hard :
  RLIMIT_NOFILE = Some r -> limits k r = Some (soft, hard) ->
  unix2_getrlimit k NOFILE = (Long_val (Val_int soft), Long_val (Val_int hard)).
Proof.
  intros E Hl. unfold unix2_getrlimit, ml_getrlimit. by rewrite getrlimit_there, (nofile_number r E), bind_ret, getrlimit_ok, Hl.
Qed.

Lemma unix2_setrlimit_ok k r soft hard n :
  RLIMIT_NOFILE = Some r -> limits k r = Some (soft, hard) -> - 2 ^ 62 <= n < 2 ^ 62 ->
  if request n <=? hard then limits (unix2_setrlimit k NOFILE n) r = Some (request n, request n)
  else unix2_setrlimit k NOFILE n = k.
Proof.
  intros E Hl Hn. unfold unix2_setrlimit, ml_setrlimit.
  rewrite setrlimit_there, (nofile_number r E), bind_ret. cbn [fst snd]. unfold Int_val. rewrite Long_val_int by done.
  fold (request n).
  assert (Hq : 0 <= request n <= request n) by (pose proof (u64_range (s32 n)); unfold word in *; unfold request; lia).
  pose proof (setrlimit_ok k r soft hard _ _ Hl Hq) as Hs. destruct (request n <=? hard).
  - destruct Hs as (k' & -> & Hk). done.
  - by rewrite Hs.
Qed.
End Promise.

(** ** The start *)

(** The limits once the daemon has started. *)
Definition new_limits (soft hard : Z) : Z * Z :=
  if (soft <? hard) && (hard <? 2 ^ 62) && (u32 hard <? 2 ^ 31) then (u32 hard, u32 hard) else (soft, hard).

Lemma new_limits_small soft hard : soft <= hard -> 0 <= hard < 2 ^ 31 -> new_limits soft hard = (hard, hard).
Proof.
  intros Hs Hh. unfold new_limits. rewrite (u32_id hard) by (unfold word; lia).
  destruct (Z.ltb_spec soft hard), (Z.ltb_spec hard (2 ^ 62)), (Z.ltb_spec hard (2 ^ 31)); try lia; [done|].
  cbn [andb]. f_equal; lia.
Qed.

Section Start.
Context {K : Type} {R : Rlimits K} {U : Unprivileged R}.

Lemma startup_system W (k : K) m r soft hard :
  HAVE_GETRLIMIT = true -> HAVE_SETRLIMIT = true -> RLIMIT_NOFILE = Some r -> limits k r = Some (soft, hard) ->
  hard < 2 ^ 62 \/ hard = RLIM_INFINITY ->
  limits (system (startup W k m)) r = Some (new_limits soft hard).
Proof.
  intros Hg Hs Er Hl Hh. destruct (limits_range k r soft hard Hl) as [Hb _].
  unfold startup. rewrite (unix2_getrlimit_ok Hg k r soft hard Er Hl).
  unfold ml_getdtablesize. cbn [system]. unfold new_limits.
  destruct Hh as [Hh| ->].
  - rewrite !Long_val_int by lia. pose proof (unix2_setrlimit_ok Hs k r soft hard hard Er Hl ltac:(lia)) as Hset.
    destruct (Z.ltb_spec soft hard), (Z.ltb_spec hard (2 ^ 62)), (Z.ltb_spec 0 hard); try lia; cbn [andb]; try exact Hl.
    rewrite request_u32 in Hset. pose proof (u32_range hard) as Hw. unfold word in Hw.
    destruct (Z.ltb_spec (u32 hard) (2 ^ 31)).
    + assert (u32 hard <= hard) by (unfold u32; apply Z.mod_le; lia).
      destruct (Z.leb_spec (u32 hard) hard); [exact Hset|lia].
    + destruct (Z.leb_spec (2 ^ 64 - 2 ^ 32 + u32 hard) hard); [lia|]. by rewrite Hset.
  - change (Long_val (Val_int RLIM_INFINITY)) with (-1). cbn [Z.ltb Z.compare andb].
    change (RLIM_INFINITY <? 2 ^ 62) with false. by rewrite andb_false_r.
Qed.
End Start.

(** When it starts, the daemon raises its limit of open files to the hard
    limit and takes [poll] when they are more than the sets of [select] hold; it
    exits when they are fewer than 150.  That is so for a hard limit below 2^31;
    an unlimited one is read as -1 and changes nothing, and one of 2^32 or more
    is requested modulo 2^32: both limits can be lowered, for good. *)
Theorem startup_limits {K} {R : Rlimits K} {U : Unprivileged R} (W : K -> Waiting) (k : K) m r soft hard setsize :
  HAVE_GETRLIMIT = true -> HAVE_SETRLIMIT = true -> RLIMIT_NOFILE = Some r -> limits k r = Some (soft, hard) ->
  table_is_limit W r -> (forall k, FD_SETSIZE (Waiting := W k) = setsize) -> hard < 2 ^ 62 \/ hard = RLIM_INFINITY ->
  let s := startup W k m in
  limits (system s) r = Some (new_limits soft hard) /\
  (hard < 2 ^ 31 -> new_limits soft hard = (hard, hard) /\ ulof_old s = soft /\ ulof s = hard /\
    exits s = (hard <? 150) /\ waiting s = if setsize <? hard then Mode true true else m) /\
  (2 ^ 32 <= hard < 2 ^ 32 + 2 ^ 31 -> soft < hard -> new_limits soft hard = (hard - 2 ^ 32, hard - 2 ^ 32)) /\
  (hard = RLIM_INFINITY -> new_limits soft hard = (soft, hard)).
Proof.
  intros Hg Hs Er Hl Ht Hf Hh s. pose proof (startup_system W k m r soft hard Hg Hs Er Hl Hh) as Hsys. fold s in Hsys.
  destruct (limits_range k r soft hard Hl) as [Hb _]. split; [exact Hsys|]. split; [|split].
  - intros Hlt. assert (En : new_limits soft hard = (hard, hard)) by (apply new_limits_small; lia).
    rewrite En in Hsys. pose proof (Ht _ _ _ Hl ltac:(lia)) as E0. pose proof (Ht _ _ _ Hsys ltac:(lia)) as E1.
    split; [exact En|]. revert E1. unfold s, startup.
    destruct (unix2_getrlimit k NOFILE) as [c h]. unfold ml_getdtablesize. rewrite !Hf, E0. cbn [ulof_old ulof exits waiting system].
    intros ->. split; [done|]. split; [done|]. split; [done|].
    destruct (Z.ltb_spec setsize soft), (Z.ltb_spec setsize hard); done || lia.
  - intros Hr Hsoft. unfold new_limits.
    assert (E : u32 hard = hard - 2 ^ 32) by (unfold u32; rewrite <- (Z.mod_add _ (-1)), Z.mod_small; lia).
    rewrite E. destruct (Z.ltb_spec soft hard), (Z.ltb_spec hard (2 ^ 62)), (Z.ltb_spec (hard - 2 ^ 32) (2 ^ 31)); done || lia.
  - intros ->. unfold new_limits. change (RLIM_INFINITY <? 2 ^ 62) with false. by rewrite andb_false_r.
Qed.

(** ** A system with one limit *)

Definition NOFILE_LIMIT : Z := 7.

#[export] Instance OneLimit : Rlimits (Z * Z) := {
  HAVE_GETRLIMIT := true;
  HAVE_SETRLIMIT := true;
  RLIMIT_CPU := None; RLIMIT_FSIZE := None; RLIMIT_DATA := None; RLIMIT_STACK := None; RLIMIT_CORE := None;
  RLIMIT_RSS := None; RLIMIT_NPROC := None; RLIMIT_NOFILE := Some NOFILE_LIMIT; RLIMIT_MEMLOCK := None; RLIMIT_AS := None;
  getrlimit k r := if (r =? NOFILE_LIMIT) && (0 <=? k.1) && (k.1 <=? k.2) && (k.2 <=? RLIM_INFINITY) then Some k else None;
  setrlimit k r l :=
    if (r =? NOFILE_LIMIT) && (0 <=? l.1) && (l.1 <=? l.2) && (l.2 <=? k.2) then Some l else None
}.

#[export] Instance OneUnprivileged : Unprivileged OneLimit.
Proof.
  refine {| limits := getrlimit |}.
  - intros [c h] r soft hard. cbn. destruct (Z.eqb_spec r NOFILE_LIMIT), (Z.leb_spec 0 c), (Z.leb_spec c h), (Z.leb_spec h RLIM_INFINITY);
      cbn [andb]; intros [= <- <-]. done.
  - done.
  - intros [c h] r soft hard cur max. cbn.
    destruct (Z.eqb_spec r NOFILE_LIMIT), (Z.leb_spec 0 c), (Z.leb_spec c h), (Z.leb_spec h RLIM_INFINITY);
      cbn [andb]; intros [= -> ->] Hc. destruct (Z.leb_spec 0 cur); [|lia]. destruct (Z.leb_spec cur max); [|lia]. cbn [andb].
    destruct (Z.leb_spec max hard); [|done]. eexists. split; [done|]. cbn.
    destruct (Z.leb_spec 0 cur), (Z.leb_spec cur max), (Z.leb_spec max RLIM_INFINITY); done || lia.
Defined.

Definition one_waiting (k : Z * Z) : Waiting := quiet 1024 k.1 (fun _ => Revents true true false false false).

Lemma startup_limits_witness :
  (let s := startup one_waiting (256, 4096) mode_zero in
   limits (system s) NOFILE_LIMIT = Some (new_limits 256 4096) /\
   (4096 < 2 ^ 31 -> new_limits 256 4096 = (4096, 4096) /\ ulof_old s = 256 /\ ulof s = 4096 /\
     exits s = (4096 <? 150) /\ waiting s = if 1024 <? 4096 then Mode true true else mode_zero) /\
   (2 ^ 32 <= 4096 < 2 ^ 32 + 2 ^ 31 -> 256 < 4096 -> new_limits 256 4096 = (4096 - 2 ^ 32, 4096 - 2 ^ 32)) /\
   (4096 = RLIM_INFINITY -> new_limits 256 4096 = (256, 4096))) /\
  system (startup one_waiting (256, 2 ^ 32 + 100) mode_zero) = (100, 100) /\
  exits (startup one_waiting (256, 2 ^ 32 + 100) mode_zero) = true /\
  system (startup one_waiting (256, RLIM_INFINITY) mode_zero) = (256, RLIM_INFINITY).
Proof.
  split; [|split; [|split]; vm_compute; reflexivity].
  apply (startup_limits one_waiting (256, 4096) mode_zero NOFILE_LIMIT 256 4096 1024); try reflexivity; [|left; reflexivity].
  intros [c h] soft hard. cbn. destruct (_ && _); [|done]. by intros [= <- <-].
Defined.
End Rlimit.
