(* ===== verification/Inet.v ===== *)
(** * Addresses

    Two parts of [src/src/utils/lib/stubs_c.c]: the parser of dotted addresses
    [ml_ints_of_string], which writes into the string it reads, and the job
    that resolves a host name in a thread of its own. *)

From Stdlib Require Import ZArith Lia.
From stdpp Require Import base option numbers list.
From S2P Require Import Prelude.

Local Open Scope Z_scope.

Module Inet.

(** ** Dotted addresses

    [mem] is the string with its final NUL. *)

Definition isdigit (c : Z) : bool := (48 <=? c) && (c <=? 57).

(** Advances while the character satisfies [p]. *)
Fixpoint skip (p : Z -> bool) (fuel : nat) (mem : list Z) (curs : Z) : option Z :=
  c ← rd mem curs;
  if p c then match fuel with O => None | S fuel => skip p fuel mem (curs + 1) end
  else Some curs.

(** [atoi] on a string that starts with a digit. *)
Fixpoint atoi (fuel : nat) (mem : list Z) (p acc : Z) : option Z :=
  c ← rd mem p;
  if isdigit c then match fuel with O => None | S fuel => atoi fuel mem (p + 1) (10 * acc + (c - 48)) end
  else Some acc.

(** One number: [None] inside for [goto error]; else the value, [curs] after
    the character that follows, and the memory. *)
Definition part (dot : bool) (mem : list Z) (first : Z) : option (option (Z * Z) * list Z) :=
  curs ← skip isdigit (length mem) mem first;
  c ← rd mem curs;
  if (dot && negb (c =? 46)) || (curs =? first) || (3 <? curs - first) then Some (None, mem)
  else
    mem ← wr mem curs 0;
    a ← atoi (length mem) mem first 0;
    mem ← wr mem curs (if dot then 46 else c);
    Some (Some (a, curs + 1), mem).

Definition four_parts (mem : list Z) (curs : Z) : option (option (Z * Z * Z * Z) * list Z) :=
  '(r, mem) ← part true mem curs;
  match r with None => Some (None, mem) | Some (a1, curs) =>
    '(r, mem) ← part true mem curs;
    match r with None => Some (None, mem) | Some (a2, curs) =>
      '(r, mem) ← part true mem curs;
      match r with None => Some (None, mem) | Some (a3, curs) =>
        '(r, mem) ← part false mem curs;
        match r with None => Some (None, mem) | Some (a4, _) =>
          Some (Some (a1, a2, a3, a4), mem)
        end
      end
    end
  end.

(** The four numbers, or [None] for [raise_not_found]; and the memory. *)
Definition ml_ints_of_string (mem : list Z) : option (option (Z * Z * Z * Z) * list Z) :=
  curs ← skip (Z.eqb 32) (length mem) mem 0;
  four_parts mem curs.

(** *** The grammar *)

Definition dec (d : list Z) : Z := foldl (fun a c => 10 * a + (c - 48)) 0 d.

(** [l] starts with a number of one to three digits, of value [a]; [r] is the
    rest. *)
Definition number (l : list Z) (a : Z) (r : list Z) : Prop :=
  exists d, l = d ++ r /\ Forall isdigit d /\ (1 <= length d <= 3)%nat /\ a = dec d /\
    (forall c r', r = c :: r' -> isdigit c = false).

Definition quad (l : list Z) (q : Z * Z * Z * Z) : Prop :=
  let '(a1, a2, a3, a4) := q in
  exists r1 r2 r3 r4, number l a1 (46 :: r1) /\ number r1 a2 (46 :: r2) /\ number r2 a3 (46 :: r3) /\ number r3 a4 r4.

Definition dotted (s : list Z) (q : Z * Z * Z * Z) : Prop :=
  exists (sp : nat) l, s = replicate sp 32 ++ l /\ (forall r, l <> 32 :: r) /\ quad l q.

(** *** Scanning *)

(** The longest prefix. *)
Fixpoint span (p : Z -> bool) (l : list Z) : list Z * list Z :=
  match l with
  | [] => ([], [])
  | c :: l' => if p c then let '(d, r) := span p l' in (c :: d, r) else ([], l)
  end.

Lemma span_ok (p : Z -> bool) l : let '(d, r) := span p l in
  l = d ++ r /\ Forall p d /\ (forall c r', r = c :: r' -> p c = false).
Proof.
  induction l as [|c l IH]; cbn [span]; [by split; [|split]|]. destruct (p c) eqn:E.
  - destruct (span p l) as [d r]. destruct IH as (-> & Hd & Hr). split; [done|]. split; [|done].
    apply Forall_cons. by rewrite E.
  - split; [done|]. split; [done|]. by intros ? ? [= <- <-].
Qed.

(** There is only one such prefix. *)
Lemma span_unique (p : Z -> bool) d r d' r' :
  d ++ r = d' ++ r' -> Forall p d -> Forall p d' ->
  (forall c t, r = c :: t -> p c = false) -> (forall c t, r' = c :: t -> p c = false) -> d = d' /\ r = r'.
Proof.
  revert d'. induction d as [|c d IH]; intros [|c' d'] E Hd Hd' Hr Hr'; cbn [app] in E.
  - done.
  - apply Forall_cons in Hd' as [Hc _]. rewrite (Hr _ _ E) in Hc. done.
  - apply Forall_cons in Hd as [Hc _]. rewrite (Hr' c (d ++ r)) in Hc by done. done.
  - injection E as <- E. apply Forall_cons in Hd as [_ Hd], Hd' as [_ Hd'].
    by destruct (IH d' E Hd Hd' Hr Hr') as [-> ->].
Qed.

Lemma skip_ok (p : Z -> bool) fuel mem (i : nat) d r :
  drop i mem = d ++ r -> Forall p d -> (forall c r', r = c :: r' -> p c = false) -> r <> [] ->
  (length d <= fuel)%nat -> skip p fuel mem (Z.of_nat i) = Some (Z.of_nat (i + length d)).
Proof.
  intros Hdrop Hd Hr Hne. revert i fuel Hdrop. induction Hd as [|c d Hc _ IH]; intros i fuel Hdrop Hf.
  - destruct r as [|c r]; [done|]. cbn [app] in Hdrop. specialize (Hr c r eq_refl).
    assert (Hl : mem !! i = Some c) by (rewrite <- (Nat.add_0_r i), <- lookup_drop, Hdrop; done).
    destruct fuel; cbn [skip]; rewrite rd_nat, Hl, some_bind, Hr; do 2 f_equal; simpl; lia.
  - cbn [app] in Hdrop.
    assert (Hl : mem !! i = Some c) by (rewrite <- (Nat.add_0_r i), <- lookup_drop, Hdrop; done).
    rewrite (drop_S _ _ _ Hl) in Hdrop. injection Hdrop as Hdrop.
    destruct fuel as [|fuel]; [simpl in Hf; lia|]. cbn [skip]. rewrite rd_nat, Hl, some_bind.
    destruct (p c); [|done]. replace (Z.of_nat i + 1) with (Z.of_nat (S i)) by lia.
    rewrite (IH (S i)) by (done || (simpl in Hf; lia)). do 2 f_equal. simpl. lia.
Qed.

Lemma atoi_ok fuel mem (i : nat) d c r acc :
  drop i mem = d ++ c :: r -> Forall isdigit d -> isdigit c = false -> (length d <= fuel)%nat ->
  atoi fuel mem (Z.of_nat i) acc = Some (foldl (fun a c => 10 * a + (c - 48)) acc d).
Proof.
  intros Hdrop Hd Hc. revert i fuel acc Hdrop. induction Hd as [|b d Hb _ IH]; intros i fuel acc Hdrop Hf; cbn [app] in Hdrop.
  - assert (Hl : mem !! i = Some c) by (rewrite <- (Nat.add_0_r i), <- lookup_drop, Hdrop; done).
    destruct fuel; cbn [atoi]; by rewrite rd_nat, Hl, some_bind, Hc.
  - assert (Hl : mem !! i = Some b) by (rewrite <- (Nat.add_0_r i), <- lookup_drop, Hdrop; done).
    rewrite (drop_S _ _ _ Hl) in Hdrop. injection Hdrop as Hdrop.
    destruct fuel as [|fuel]; [simpl in Hf; lia|]. cbn [atoi]. rewrite rd_nat, Hl, some_bind.
    destruct (isdigit b); [|done]. replace (Z.of_nat i + 1) with (Z.of_nat (S i)) by lia.
    cbn [foldl]. apply IH; [done|simpl in Hf; lia].
Qed.

(** One number: read, and the memory as it was. *)
Lemma part_ok dot mem (i : nat) l :
  drop i mem = l ++ [0] ->
  (exists a r (j : nat), number l a r /\ (dot = true -> exists r', r = 46 :: r') /\
     part dot mem (Z.of_nat i) = Some (Some (a, Z.of_nat (S j)), mem) /\ drop j mem = r ++ [0]) \/
  (part dot mem (Z.of_nat i) = Some (None, mem) /\ forall a r, number l a r -> dot = true /\ forall r', r <> 46 :: r').
Proof.
  intros Hdrop. pose proof (span_ok isdigit l) as Hspan. destruct (span isdigit l) as [d r].
  destruct Hspan as (-> & Hd & Hr). rewrite <- app_assoc in Hdrop.
  assert (Hr0 : exists c r0, r ++ [0] = c :: r0 /\ isdigit c = false).
  { destruct r as [|c r]; [by exists 0, []|]. exists c, (r ++ [0]). split; [done|]. by eapply Hr. }
  destruct Hr0 as (c & r0 & Er & Hc). set (j := (i + length d)%nat).
  assert (Hlen : length mem = (i + length d + S (length r0))%nat).
  { apply (f_equal length) in Hdrop. rewrite Er, length_drop, length_app in Hdrop. simpl in Hdrop. lia. }
  assert (Hj : drop j mem = c :: r0).
  { unfold j. rewrite <- drop_drop, Hdrop, drop_app_length. done. }
  assert (Hmj : mem !! j = Some c) by (by rewrite <- (Nat.add_0_r j), <- lookup_drop, Hj).
  unfold part. rewrite Er in Hdrop.
  rewrite (skip_ok isdigit (length mem) mem i d (c :: r0)); [|done|done|by intros ? ? [= <- <-]|done|lia].
  fold j. rewrite some_bind, rd_nat, Hmj, some_bind.
  assert (Hdig : forall a r', number (d ++ r) a r' -> r' = r /\ (1 <= length d <= 3)%nat).
  { intros a r' (d' & E & Hd' & Hl & _ & Hr'). destruct (span_unique isdigit d r d' r' E Hd Hd' Hr Hr') as [-> ->]. done. }
  destruct ((dot && negb (c =? 46)) || (Z.of_nat j =? Z.of_nat i) || (3 <? Z.of_nat j - Z.of_nat i)) eqn:Etest.
  - right. split; [done|]. intros a r' Hn. destruct (Hdig a r' Hn) as [-> Hl].
    destruct dot; cbn [andb orb] in Etest; [|lia]. split; [done|]. intros r' ->. injection Er as <- _.
    simpl in Etest. lia.
  - left. assert (Hl : (1 <= length d <= 3)%nat) by lia.
    exists (dec d), r, j. split; [exists d; by repeat (split; [done|])|]. split.
    + intros ->. cbn [andb] in Etest. destruct (Z.eqb_spec c 46) as [->|]; [|simpl in Etest; lia].
      destruct r as [|? r]; [discriminate Er|]. injection Er as -> _. by eexists.
    + rewrite wr_in, some_bind, Nat2Z.id by lia.
      rewrite (atoi_ok _ _ _ d 0 r0), some_bind; [|rewrite drop_insert_ge by lia|done|done|rewrite length_insert; lia].
      2: { rewrite Hdrop. replace (j - i)%nat with (length d + 0)%nat by lia. by rewrite insert_app_r. }
      rewrite wr_in, some_bind, Nat2Z.id, list_insert_insert_eq by (rewrite length_insert; lia).
      split; [|by rewrite Hj]. unfold dec.
      replace (if dot then 46 else c) with c by (destruct dot; [cbn [andb] in Etest; lia|done]).
      rewrite list_insert_id by done. do 4 f_equal. lia.
Qed.

(** After a number and its point. *)
Lemma next_drop mem j r r' : drop j mem = r ++ [0] -> r = 46 :: r' -> drop (S j) mem = r' ++ [0].
Proof. intros Hd ->. rewrite <- Nat.add_1_r, <- drop_drop, Hd. done. Qed.

Lemma number_unique l a r a' r' : number l a r -> number l a' r' -> a = a' /\ r = r'.
Proof.
  intros (d & -> & Hd & _ & -> & Hr) (d' & E & Hd' & _ & -> & Hr').
  by destruct (span_unique isdigit d r d' r' E Hd Hd' Hr Hr') as [-> ->].
Qed.

(** Four numbers, at a place without spaces. *)
Lemma four_parts_ok mem (i : nat) l :
  drop i mem = l ++ [0] ->
  exists r, four_parts mem (Z.of_nat i) = Some (r, mem) /\ forall q, r = Some q <-> quad l q.
Proof.
  intros Hd0. unfold four_parts, quad.
  destruct (part_ok true mem i l Hd0) as [(a1 & r & j1 & N1 & Hp & -> & Hd1)|[-> Hno]]; rewrite some_bind.
  2: { exists None. split; [done|]. intros [[[b1 b2] b3] b4]. split; [done|].
       intros (r1 & _ & _ & _ & N1 & _). by destruct (proj2 (Hno _ _ N1) _ eq_refl). }
  destruct (Hp eq_refl) as [r1 ->]. clear Hp.
  destruct (part_ok true mem (S j1) r1) as [(a2 & r & j2 & N2 & Hp & -> & Hd2)|[-> Hno]]; [by eapply next_drop| |]; rewrite some_bind.
  2: { exists None. split; [done|]. intros [[[b1 b2] b3] b4]. split; [done|].
       intros (r1' & r2' & _ & _ & N1' & N2 & _). destruct (number_unique _ _ _ _ _ N1 N1') as [_ [= <-]].
       by destruct (proj2 (Hno _ _ N2) _ eq_refl). }
  destruct (Hp eq_refl) as [r2 ->]. clear Hp.
  destruct (part_ok true mem (S j2) r2) as [(a3 & r & j3 & N3 & Hp & -> & Hd3)|[-> Hno]]; [by eapply next_drop| |]; rewrite some_bind.
  2: { exists None. split; [done|]. intros [[[b1 b2] b3] b4]. split; [done|].
       intros (r1' & r2' & r3' & _ & N1' & N2' & N3 & _). destruct (number_unique _ _ _ _ _ N1 N1') as [_ [= <-]].
       destruct (number_unique _ _ _ _ _ N2 N2') as [_ [= <-]]. by destruct (proj2 (Hno _ _ N3) _ eq_refl). }
  destruct (Hp eq_refl) as [r3 ->]. clear Hp.
  destruct (part_ok false mem (S j3) r3) as [(a4 & r4 & j4 & N4 & _ & -> & _)|[-> Hno]]; [by eapply next_drop| |]; rewrite some_bind.
  - eexists. split; [done|]. intros [[[b1 b2] b3] b4]. split.
    + intros [= <- <- <- <-]. by exists r1, r2, r3, r4.
    + intros (r1' & r2' & r3' & r4' & N1' & N2' & N3' & N4'). destruct (number_unique _ _ _ _ _ N1 N1') as [-> [= <-]].
      destruct (number_unique _ _ _ _ _ N2 N2') as [-> [= <-]]. destruct (number_unique _ _ _ _ _ N3 N3') as [-> [= <-]].
      by destruct (number_unique _ _ _ _ _ N4 N4') as [-> _].
  - exists None. split; [done|]. intros [[[b1 b2] b3] b4]. split; [done|].
    intros (r1' & r2' & r3' & r4' & N1' & N2' & N3' & N4). destruct (number_unique _ _ _ _ _ N1 N1') as [_ [= <-]].
    destruct (number_unique _ _ _ _ _ N2 N2') as [_ [= <-]]. destruct (number_unique _ _ _ _ _ N3 N3') as [_ [= <-]].
    by destruct (Hno _ _ N4).
Qed.

Lemma dotted_after_spaces sp l q :
  Forall (Z.eqb 32) sp -> (forall c r, l = c :: r -> (32 =? c) = false) -> dotted (sp ++ l) q <-> quad l q.
Proof.
  intros Hsp Hl. split.
  - intros (k & l' & E & Hl' & Hq). destruct (span_unique (Z.eqb 32) _ _ _ _ E) as [_ ->]; [done|by apply Forall_replicate|done| |done].
    intros c r ->. destruct (Z.eqb_spec 32 c) as [<-|]; [|done]. by destruct (Hl' r).
  - intros Hq. exists (length sp), l. split; [|split; [|done]].
    + f_equal. symmetry. apply replicate_as_elem_of. split; [done|]. intros x Hx. rewrite Forall_forall in Hsp.
      specialize (Hsp x Hx). destruct (Z.eqb_spec 32 x); [done|destruct Hsp].
    + intros r ->. by specialize (Hl 32 r eq_refl).
Qed.

(** On every string [ml_ints_of_string] ends inside the string and its NUL,
    leaves it as it was, and gives four numbers exactly when the string is
    spaces, then four numbers of one to three digits with points between; what
    follows the last is ignored, and no number is compared with 255. *)
Theorem ints_of_string_correct (s : list Z) :
  exists r, ml_ints_of_string (s ++ [0]) = Some (r, s ++ [0]) /\ forall q, r = Some q <-> dotted s q.
Proof.
  pose proof (span_ok (Z.eqb 32) s) as Hspan. destruct (span (Z.eqb 32) s) as [sp l]. destruct Hspan as (-> & Hsp & Hl).
  set (mem := (sp ++ l) ++ [0]).
  assert (Hskip : skip (Z.eqb 32) (length mem) mem (Z.of_nat 0) = Some (Z.of_nat (0 + length sp))).
  { apply (skip_ok (Z.eqb 32) _ mem 0 sp (l ++ [0])); [unfold mem; by rewrite <- app_assoc|done| |by destruct l|].
    - intros c r. destruct l as [|c' l]; [by intros [= <- _]|]. intros [= <- _]. by eapply Hl.
    - unfold mem. rewrite !length_app. simpl. lia. }
  change (Z.of_nat 0) with 0 in Hskip. unfold ml_ints_of_string. rewrite Hskip, some_bind.
  destruct (four_parts_ok mem (0 + length sp) l) as (r & -> & Hr).
  { unfold mem. rewrite <- app_assoc. apply drop_app_length. }
  exists r. split; [done|]. intros q. rewrite Hr. symmetry. by apply dotted_after_spaces.
Qed.

(** "192.168.0.1" and "300.1.2.3x" are accepted, "1.2.3" is not. *)
Lemma ints_of_string_examples :
  fst <$> ml_ints_of_string [49; 57; 50; 46; 49; 54; 56; 46; 48; 46; 49; 0] = Some (Some (192, 168, 0, 1)) /\
  fst <$> ml_ints_of_string [32; 51; 48; 48; 46; 49; 46; 50; 46; 51; 120; 0] = Some (Some (300, 1, 2, 3)) /\
  fst <$> ml_ints_of_string [49; 46; 50; 46; 51; 0] = Some None.
Proof. repeat split; reflexivity. Qed.

(** ** Resolving a host name

    The resolver is a parameter: [None] for an error, else [h_length] and the
    addresses of [h_addr_list]. *)

Class Resolver := gethostbyname : list Z -> option (Z * list (list Z)).

Definition IP_JOB_RESULT_SIZE : Z := 256.
Definition JOB_HOSTNAME_SIZE : Z := 256.

(** The static variables. *)
Record dns := Dns {
  ip_job_result : list Z;
  job_naddresses : Z;
  entry_h_length : Z;
  ip_job_done : bool;
  job_hostname : list Z;
  job_result : bool
}.

Definition dns_zero : dns :=
  Dns (replicate 256 0) 0 0 true (replicate 256 0) false.

(** The loop over the addresses, while the next one leaves room. *)
Fixpoint save_loop (len : Z) (ptrs : list (list Z)) (result : list Z) (n : Z) : option (list Z * Z) :=
  match ptrs with
  | [] => Some (result, n)
  | a :: ptrs =>
      if len * (n + 1) <? IP_JOB_RESULT_SIZE then
        a ← sub_bytes a 0 len;
        result ← blit result (len * n) a;
        save_loop len ptrs result (n + 1)
      else Some (result, n)
  end.

Definition save_host_entry (d : dns) (len : Z) (addrs : list (list Z)) : option dns :=
  '(result, n) ← save_loop len addrs (ip_job_result d) 0;
  Some (Dns result n len (ip_job_done d) (job_hostname d) (job_result d)).

(** Up to the first NUL. *)
Fixpoint c_string (s : list Z) : list Z :=
  match s with [] => [] | c :: s => if c =? 0 then [] else c :: c_string s end.

Section Job.
Context {R : Resolver}.

(** Whether there is an answer, which is then saved. *)
Definition ml_gethostbyname (d : dns) : option (bool * dns) :=
  match gethostbyname (c_string (job_hostname d)) with
  | None => Some (false, d)
  | Some (len, addrs) => d ← save_host_entry d len addrs; Some (true, d)
  end.

(** The body of the loop of [dns_thread]. *)
Definition dns_thread (d : dns) : option dns :=
  if ip_job_done d then Some d
  else
    '(r, d) ← ml_gethostbyname d;
    Some (Dns (ip_job_result d) (job_naddresses d) (entry_h_length d) true (job_hostname d) r).

(** [addr] has four bytes, not set when the length is smaller. *)
Definition alloc_one_addr (d : dns) (i : Z) : option (list Z) :=
  a ← sub_bytes (ip_job_result d) (i * entry_h_length d) (entry_h_length d);
  blit (replicate 4 0) 0 a.

Definition addr_list_of_job (d : dns) : option (list (list Z)) :=
  mapM (alloc_one_addr d) (seqZ 0 (job_naddresses d)).

(** [strcpy] and the signal; or the answer at once. *)
Definition ml_ip_job_start (d : dns) (name : list Z) : option dns :=
  if JOB_HOSTNAME_SIZE <=? Z.of_nat (length name) then
    Some (Dns (ip_job_result d) (job_naddresses d) (entry_h_length d) true (job_hostname d) true)
  else
    host ← blit (job_hostname d) 0 (c_string name ++ [0]);
    Some (Dns (ip_job_result d) (job_naddresses d) (entry_h_length d) false host (job_result d)).

(** [None] inside while the job is not done; else the addresses, or the
    error. *)
Definition ml_ip_job_done (d : dns) : option (option (option (list (list Z)))) :=
  if ip_job_done d then
    if job_result d then addrs ← addr_list_of_job d; Some (Some (Some addrs))
    else Some (Some None)
  else Some None.
End Job.

(** *** IPv4 answers *)

Definition wf (d : dns) : Prop := Z.of_nat (length (ip_job_result d)) = 256 /\ Z.of_nat (length (job_hostname d)) = 256.

Lemma dns_zero_wf : wf dns_zero.
Proof. split; reflexivity. Qed.

(** The [n] addresses already saved are [pre]. *)
Lemma save_loop_ok addrs result (n : nat) pre :
  Forall (fun a => length a = 4%nat) addrs -> Z.of_nat (length result) = 256 -> (n <= 63)%nat ->
  length pre = (4 * n)%nat -> take (4 * n) result = pre ->
  exists result', save_loop 4 addrs result (Z.of_nat n) = Some (result', Z.of_nat (n + length (take (63 - n) addrs))) /\
    Z.of_nat (length result') = 256 /\
    take (4 * (n + length (take (63 - n) addrs))) result' = pre ++ concat (take (63 - n) addrs).
Proof.
  intros Ha. revert result n pre. induction Ha as [|a addrs Hl _ IH]; intros result n pre Hr Hn Hp Ht; cbn [save_loop].
  - exists result. rewrite take_nil, Nat.add_0_r. simpl concat. by rewrite app_nil_r.
  - unfold IP_JOB_RESULT_SIZE. destruct (Z.ltb_spec (4 * (Z.of_nat n + 1)) 256) as [Hlt|Hge].
    + pose proof (sub_bytes_0 a 4 ltac:(lia)) as Es. change (Z.of_nat 4) with 4 in Es. rewrite Es, take_ge, some_bind by lia.
      replace (4 * Z.of_nat n) with (Z.of_nat (4 * n)) by lia. rewrite blit_in, some_bind by lia.
      replace (Z.of_nat n + 1) with (Z.of_nat (S n)) by lia. rewrite Ht, Hl.
      set (result1 := pre ++ a ++ _).
      assert (Hl1 : Z.of_nat (length result1) = 256) by (unfold result1; rewrite !length_app, length_drop; lia).
      assert (Ht1 : take (4 * S n) result1 = pre ++ a).
      { unfold result1. rewrite app_assoc. apply take_app_length'. rewrite length_app. lia. }
      destruct (IH result1 (S n) (pre ++ a) Hl1) as (r' & E & Hl' & Ht'); [lia|rewrite length_app; lia|done|].
      replace (63 - n)%nat with (S (63 - S n)) by lia. cbn [take length concat].
      exists r'. rewrite <- Nat.add_succ_comm, E, app_assoc. done.
    + replace (63 - n)%nat with 0%nat by lia. cbn [take length concat]. exists result.
      by rewrite Nat.add_0_r, app_nil_r.
Qed.

Lemma concat_lookup (addrs : list (list Z)) i a :
  Forall (fun a => length a = 4%nat) addrs -> addrs !! i = Some a -> take 4 (drop (4 * i) (concat addrs)) = a.
Proof.
  intros Ha. revert i. induction Ha as [|b addrs Hl _ IH]; intros [|i] Hi; try done; cbn [lookup list_lookup concat] in *.
  - injection Hi as ->. rewrite Nat.mul_0_r, drop_0. rewrite <- Hl. apply take_app_length.
  - rewrite drop_app_ge by lia. replace (4 * S i - length b)%nat with (4 * i)%nat by lia. by apply IH.
Qed.

Lemma addr_list_ok d addrs :
  Forall (fun a => length a = 4%nat) addrs -> entry_h_length d = 4 -> job_naddresses d = Z.of_nat (length addrs) ->
  take (4 * length addrs) (ip_job_result d) = concat addrs -> (4 * length addrs <= length (ip_job_result d))%nat ->
  addr_list_of_job d = Some addrs.
Proof.
  intros Ha Hh Hn Ht Hlen. unfold addr_list_of_job. apply mapM_Some_2. rewrite Hn.
  apply Forall2_same_length_lookup_2; [by rewrite length_seqZ, Nat2Z.id|].
  intros i k a Hk Hi. apply lookup_seqZ in Hk as [-> Hk]. pose proof (lookup_lt_Some _ _ _ Hi) as Hlt.
  pose proof (concat_lookup addrs i a Ha Hi) as Ea. rewrite <- Ht in Ea.
  unfold alloc_one_addr. rewrite Hh. replace ((0 + Z.of_nat i) * 4) with (Z.of_nat (4 * i)) by lia.
  pose proof (sub_bytes_in (ip_job_result d) (4 * i) 4 ltac:(lia)) as Es. change (Z.of_nat 4) with 4 in Es.
  rewrite Es, some_bind.
  rewrite take_drop_commute, take_take, Nat.min_l, <- take_drop_commute in Ea by lia. rewrite Ea.
  assert (Hl : length a = 4%nat) by (eapply Forall_lookup_1 in Ha; [exact Ha|exact Hi]).
  destruct a as [|x0 [|x1 [|x2 [|x3 [|? ?]]]]]; try discriminate Hl. reflexivity.
Qed.

Lemma c_string_length s : (length (c_string s) <= length s)%nat.
Proof. induction s as [|c s IH]; cbn [c_string]; [done|]. destruct (c =? 0); simpl; lia. Qed.

(** The name is a C string in the shared buffer. *)
Lemma c_string_nul s rest : c_string (c_string s ++ 0 :: rest) = c_string s.
Proof.
  induction s as [|c s IH]; [done|]. cbn [c_string]. destruct (c =? 0) eqn:E; [done|]. cbn [app c_string].
  by rewrite E, IH.
Qed.

Lemma job_start_ok d name :
  wf d -> Z.of_nat (length name) < JOB_HOSTNAME_SIZE ->
  exists host, ml_ip_job_start d name = Some (Dns (ip_job_result d) (job_naddresses d) (entry_h_length d) false host (job_result d)) /\
    Z.of_nat (length host) = 256 /\ c_string host = c_string name.
Proof.
  intros [Hr Hh] Hn. unfold ml_ip_job_start, JOB_HOSTNAME_SIZE in *. destruct (Z.leb_spec 256 (Z.of_nat (length name))); [lia|].
  pose proof (c_string_length name).
  pose proof (blit_in (job_hostname d) 0 (c_string name ++ [0]) ltac:(rewrite length_app; simpl; lia)) as Eb.
  change (Z.of_nat 0) with 0 in Eb. rewrite take_0, app_nil_l in Eb. rewrite Eb, some_bind.
  eexists. split; [reflexivity|]. split.
  - rewrite !length_app, length_drop, ?length_app. simpl. lia.
  - rewrite <- app_assoc. cbn [app]. apply c_string_nul.
Qed.

(** A job that the resolver answers. *)
Lemma job_resolved {R : Resolver} d name addrs :
  wf d -> Z.of_nat (length name) < JOB_HOSTNAME_SIZE -> gethostbyname (c_string name) = Some (4, addrs) ->
  Forall (fun a => length a = 4%nat) addrs ->
  exists d1 d2, ml_ip_job_start d name = Some d1 /\ ml_ip_job_done d1 = Some None /\ dns_thread d1 = Some d2 /\
    wf d2 /\ job_result d2 = true /\ ip_job_done d2 = true /\ addr_list_of_job d2 = Some (take 63 addrs).
Proof.
  intros Hwf Hn Hg Ha. destruct (job_start_ok d name Hwf Hn) as (host & Es & Hhost & Hc). destruct Hwf as [Hr _].
  destruct (save_loop_ok addrs (ip_job_result d) 0 [] Ha Hr) as (res & E & Hres & Ht); [lia|done|done|].
  cbn [Nat.add Nat.sub app] in E, Ht. change (Z.of_nat 0) with 0 in E.
  eexists _, (Dns res (Z.of_nat (length (take 63 addrs))) 4 true host true).
  split; [exact Es|]. split; [done|]. split; [|split; [done|split; [done|split; [done|]]]].
  - unfold dns_thread, ml_gethostbyname, save_host_entry. cbn [ip_job_done job_hostname ip_job_result job_naddresses entry_h_length].
    rewrite Hc, Hg, E, !some_bind. done.
  - apply addr_list_ok; cbn; [by apply Forall_take|done|done|done|].
    apply (f_equal length) in Ht. rewrite length_take in Ht.
    assert (length (concat (take 63 addrs)) = 4 * length (take 63 addrs))%nat; [|rewrite length_take in *; lia].
    clear -Ha. pose proof (Forall_take _ 63 _ Ha) as Ht. induction Ht as [|a l Hl _ IH]; [done|]. cbn [concat length]. rewrite length_app. lia.
Qed.

(** A host name of fewer than 256 bytes is resolved by the thread to the
    addresses of the resolver, the first 63 of them; but when the next name is
    of 256 bytes or more, its job is done at once, as a success, and is given
    the addresses of the host before. *)
Theorem long_name_gets_previous {R : Resolver} (name long : list Z) addrs d :
  wf d -> Z.of_nat (length name) < JOB_HOSTNAME_SIZE -> gethostbyname (c_string name) = Some (4, addrs) ->
  Forall (fun a => length a = 4%nat) addrs -> JOB_HOSTNAME_SIZE <= Z.of_nat (length long) ->
  exists d1 d2 d3,
    ml_ip_job_start d name = Some d1 /\ ml_ip_job_done d1 = Some None /\
    dns_thread d1 = Some d2 /\ ml_ip_job_done d2 = Some (Some (Some (take 63 addrs))) /\
    ml_ip_job_start d2 long = Some d3 /\ ml_ip_job_done d3 = Some (Some (Some (take 63 addrs))).
Proof.
  intros Hwf Hn Hg Ha Hlong. destruct (job_resolved d name addrs Hwf Hn Hg Ha) as (d1 & d2 & E1 & E2 & E3 & _ & Hr & Hd & El).
  exists d1, d2. eexists. split; [done|]. split; [done|]. split; [done|]. split; [|split].
  - unfold ml_ip_job_done. by rewrite Hd, Hr, El, some_bind.
  - unfold ml_ip_job_start. destruct (Z.leb_spec JOB_HOSTNAME_SIZE (Z.of_nat (length long))); [done|lia].
  - unfold ml_ip_job_done. cbn [ip_job_done job_result]. change (addr_list_of_job (Dns _ _ _ _ _ _)) with (addr_list_of_job d2).
    by rewrite El, some_bind.
Qed.

(** "a" has the address 10.0.0.1. *)
Lemma long_name_gets_previous_witness :
  let R : Resolver := fun name => if bool_decide (name = [97]) then Some (4, [[10; 0; 0; 1]]) else None in
  exists d1 d2 d3,
    ml_ip_job_start dns_zero [97] = Some d1 /\ ml_ip_job_done d1 = Some None /\
    dns_thread (R := R) d1 = Some d2 /\ ml_ip_job_done d2 = Some (Some (Some [[10; 0; 0; 1]])) /\
    ml_ip_job_start d2 (replicate 300 98) = Some d3 /\ ml_ip_job_done d3 = Some (Some (Some [[10; 0; 0; 1]])).
Proof.
  intros R. apply (long_name_gets_previous (R := R) [97] (replicate 300 98) [[10; 0; 0; 1]] dns_zero).
  - apply dns_zero_wf.
  - reflexivity.
  - reflexivity.
  - apply Forall_cons. split; [reflexivity|apply Forall_nil_2].
  - rewrite length_replicate. unfold JOB_HOSTNAME_SIZE. lia.
Defined.
End Inet.
