(* ===== verification/CString.v ===== *)
(** * C strings in buffers

    The functions of the standard library that the source uses to build names
    and messages: a buffer is a list of characters, a string ends at its first
    character 0. *)

From Stdlib Require Import ZArith Lia Ascii String.
From stdpp Require Import base option numbers list.
From S2P Require Import Prelude.

Local Open Scope Z_scope.

Module CString.

(** The characters of a literal. *)
Definition str (s : string) : list Z := (fun c => Z.of_nat (nat_of_ascii c)) <$> list_ascii_of_string s.

Fixpoint strlen (s : list Z) : option nat :=
  match s with [] => None | c :: s => if c =? 0 then Some O else Datatypes.S <$> strlen s end.

Definition strcpy (bfr s : list Z) : option (list Z) := blit bfr 0 (s ++ [0]).

Definition strcat (bfr s : list Z) : option (list Z) := n ← strlen bfr; blit bfr (Z.of_nat n) (s ++ [0]).

(** The string that starts the buffer. *)
Definition strdup (bfr : list Z) : option (list Z) := n ← strlen bfr; Some (take n bfr).

(** A decidable statement about literals. *)
Ltac closed := apply (bool_decide_unpack _); vm_compute; exact I.

(** ** Numbers in decimal *)

(** [%lu]: as many digits as there is fuel for, at most. *)
Fixpoint digits (fuel : nat) (n : Z) : list Z :=
  match fuel with
  | O => []
  | Datatypes.S fuel => (if n <? 10 then [] else digits fuel (n / 10)) ++ [48 + n mod 10]
  end.

(** Ten digits are enough for 32 bits. *)
Definition decimal (n : Z) : list Z := digits 10 n.

(** The number that digits write. *)
Definition undecimal (l : list Z) : Z := foldl (fun a c => 10 * a + (c - 48)) 0 l.

Lemma digits_range fuel n : Forall (fun c => 48 <= c <= 57) (digits fuel n).
Proof.
  revert n. induction fuel as [|fuel IH]; intros n; [constructor|]. cbn [digits].
  apply Forall_app. split; [destruct (n <? 10); [constructor|apply IH]|]. constructor; [|constructor].
  pose proof (Z.mod_pos_bound n 10 ltac:(lia)). lia.
Qed.

Lemma digits_nz fuel n : Forall (fun c => c <> 0) (digits fuel n).
Proof. eapply Forall_impl; [apply digits_range|]. simpl. lia. Qed.

Lemma digits_length fuel n : (length (digits fuel n) <= fuel)%nat.
Proof.
  revert n. induction fuel as [|fuel IH]; intros n; [done|]. cbn [digits]. rewrite length_app. cbn [length].
  specialize (IH (n / 10)). destruct (n <? 10); cbn [length]; lia.
Qed.

Lemma digits_value fuel n : 0 <= n < 10 ^ Z.of_nat fuel -> undecimal (digits fuel n) = n.
Proof.
  revert n. induction fuel as [|fuel IH]; intros n Hn; [change (10 ^ Z.of_nat 0) with 1 in Hn; cbn; lia|].
  cbn [digits]. unfold undecimal. rewrite foldl_app. cbn [foldl]. pose proof (Z.div_mod n 10 ltac:(lia)).
  destruct (Z.ltb_spec n 10); [cbn [foldl]; rewrite Z.mod_small; lia|].
  fold (undecimal (digits fuel (n / 10))). rewrite IH; [lia|]. split; [apply Z.div_pos; lia|].
  apply Z.div_lt_upper_bound; [lia|]. rewrite Nat2Z.inj_succ, Z.pow_succ_r in Hn by lia. lia.
Qed.

Lemma decimal_value n : word 32 n -> undecimal (decimal n) = n.
Proof. unfold word. intros Hn. apply digits_value. simpl. lia. Qed.

(** ** Strings in a buffer *)

Lemma strlen_app s rest : Forall (fun c => c <> 0) s -> strlen (s ++ 0 :: rest) = Some (length s).
Proof.
  induction 1 as [|c s Hc Hs IH]; [done|]. cbn [app strlen]. destruct (Z.eqb_spec c 0); [done|]. by rewrite IH.
Qed.

(** [s] in the buffer, then its final character and the rest. *)
Definition holds (bfr s : list Z) (size : nat) : Prop :=
  length bfr = size /\ Forall (fun c => c <> 0) s /\ exists rest, bfr = s ++ 0 :: rest.

Lemma strcpy_ok bfr s size :
  length bfr = size -> Forall (fun c => c <> 0) s -> (length s < size)%nat ->
  exists bfr', strcpy bfr s = Some bfr' /\ holds bfr' s size.
Proof.
  intros Hl Hs Hlt. unfold strcpy. rewrite (blit_in bfr 0) by (rewrite length_app; simpl; lia).
  eexists. split; [done|]. cbn [take app]. split; [|split; [done|]].
  - rewrite !length_app, length_drop, ?length_app. simpl. lia.
  - eexists. by rewrite <- app_assoc.
Qed.

Lemma strcat_ok bfr a s size :
  holds bfr a size -> Forall (fun c => c <> 0) s -> (length (a ++ s) < size)%nat ->
  exists bfr', strcat bfr s = Some bfr' /\ holds bfr' (a ++ s) size.
Proof.
  intros (Hl & Ha & rest & ->) Hs Hlt. rewrite length_app in Hl, Hlt. simpl in Hl. unfold strcat.
  rewrite strlen_app, some_bind by done. rewrite blit_in by (rewrite !length_app; simpl; lia).
  eexists. split; [done|]. rewrite take_app_length. split; [|split; [by apply Forall_app|]].
  - rewrite !length_app, length_drop, ?length_app. simpl. lia.
  - eexists. by rewrite <- !app_assoc.
Qed.

Lemma strdup_ok bfr s size : holds bfr s size -> strdup bfr = Some s.
Proof. intros (_ & Hs & rest & ->). unfold strdup. rewrite strlen_app, some_bind, take_app_length by done. done. Qed.

Lemma strdup_total s : exists t, strdup (s ++ [0]) = Some t.
Proof.
  unfold strdup. assert (Hn : exists n, strlen (s ++ [0]) = Some n).
  { induction s as [|c s [n IH]]; [by eexists|]. cbn [app strlen]. rewrite IH. case_match; by eexists. }
  destruct Hn as [n ->]. by eexists.
Qed.

End CString.
