(* ===== verification/Charset.v ===== *)
(** * Character sets

    [src/src/utils/lib/charsetstubs.c]: the validation of UTF-8, and the loop
    that converts a string with iconv in a buffer that doubles.  iconv is a
    parameter (the class [Iconv]); a Windows table of languages, which names
    constants of the system's headers, is left out. *)

From Stdlib Require Import ZArith Lia.
From stdpp Require Import base option numbers list.
From S2P Require Import Prelude Os.

Local Open Scope Z_scope.

Module Charset.

(** ** UTF-8 *)

(** The mask and the length; [mask] is 0 before. *)
Definition UTF8_COMPUTE (Char : Z) : Z * Z :=
  if Char <? 128 then (0x7f, 1)
  else if Z.land Char 0xe0 =? 0xc0 then (0x1f, 2)
  else if Z.land Char 0xf0 =? 0xe0 then (0x0f, 3)
  else if Z.land Char 0xf8 =? 0xf0 then (0x07, 4)
  else if Z.land Char 0xfc =? 0xf8 then (0x03, 5)
  else if Z.land Char 0xfe =? 0xfc then (0x01, 6)
  else (0, -1).

Definition UTF8_LENGTH (Char : Z) : Z :=
  if Char <? 0x80 then 1
  else if Char <? 0x800 then 2
  else if Char <? 0x10000 then 3
  else if Char <? 0x200000 then 4
  else if Char <? 0x4000000 then 5 else 6.

(** [for (Count = 1; Count < Len; ++Count)]; the characters are signed, the
    result is an [unsigned int]. *)
Fixpoint utf8_get_loop (n : nat) (chars : list Z) (p count result : Z) : option Z :=
  match n with
  | O => Some result
  | S n =>
      c ← rd chars (p + count);
      if negb (Z.land (s8 c) 0xc0 =? 0x80) then Some (u32 (-1))
      else utf8_get_loop n chars p (count + 1) (Z.lor (u32 (Z.shiftl result 6)) (Z.land (s8 c) 0x3f))
  end.

Definition UTF8_GET (chars : list Z) (p mask len : Z) : option Z :=
  c ← rd chars p;
  utf8_get_loop (Z.to_nat (len - 1)) chars p 1 (u32 (Z.land (s8 c) mask)).

Definition UNICODE_VALID (Char : Z) : bool :=
  (Char <? 0x110000) && negb (Z.land Char 0xFFFFF800 =? 0xD800)
  && ((Char <? 0xFDD0) || (0xFDEF <? Char)) && negb (Z.land Char 0xFFFE =? 0xFFFE).

(** The body of the loop: the length to skip, or [None] for [break]. *)
Definition utf8_step (str : list Z) (max_len p : Z) : option (option Z) :=
  c ← rd str p;
  let '(mask, len) := UTF8_COMPUTE (u8 (s8 c)) in
  if len =? -1 then Some None
  else if (0 <=? max_len) && (max_len - p <? len) then Some None
  else
    result ← UTF8_GET str p mask len;
    if negb (UTF8_LENGTH result =? len) then Some None
    else if result =? u32 (-1) then Some None
    else if negb (UNICODE_VALID result) then Some None
    else Some (Some len).

(** [while ((max_len < 0 || (p - str) < max_len) && *p)]; the position where it
    stops.  [max_len] is a [size_t]: its tests for negative values are dead. *)
Fixpoint utf8_loop (fuel : nat) (str : list Z) (max_len p : Z) : option Z :=
  if (max_len <? 0) || (p <? max_len) then
    c ← rd str p;
    if s8 c =? 0 then Some p
    else
      match fuel with
      | O => None
      | S fuel =>
          r ← utf8_step str max_len p;
          match r with
          | None => Some p
          | Some len => utf8_loop fuel str max_len (p + len)
          end
      end
  else Some p.

(** The result and [*end]. *)
Definition utf8_validate (str : list Z) (max_len : Z) : option (bool * Z) :=
  p ← utf8_loop (Z.to_nat max_len) str max_len 0;
  if (0 <=? max_len) && negb (p =? max_len) then Some (false, p)
  else if max_len <? 0 then (c ← rd str p; Some (s8 c =? 0, p))
  else Some (true, p).

Definition ml_utf8_validate (s : list Z) : option bool :=
  fst <$> utf8_validate s (u64 (Z.of_nat (length s))).

(** *** The specification: the encodings of the characters admitted *)

Definition utf8_encode (c : Z) : list Z :=
  if c <? 0x80 then [c]
  else if c <? 0x800 then [192 + c / 64; 128 + c mod 64]
  else if c <? 0x10000 then [224 + c / 4096; 128 + c / 64 mod 64; 128 + c mod 64]
  else [240 + c / 262144; 128 + c / 4096 mod 64; 128 + c / 64 mod 64; 128 + c mod 64].

(** Neither NUL, nor a surrogate, nor one of the "noncharacters". *)
Definition admitted (c : Z) : Prop :=
  0 < c < 0x110000 /\ ~ (0xD800 <= c <= 0xDFFF) /\ ~ (0xFDD0 <= c <= 0xFDEF) /\ c mod 65536 < 0xFFFE.

(** *** Bits *)

Lemma s8_land v mask : word 8 v -> word 8 mask -> Z.land (s8 v) mask = Z.land v mask.
Proof.
  intros Hv Hm. unfold word in *. unfold s8. destruct (Z.ltb_spec v 128).
  - by rewrite Z.mod_small, Z.add_simpl_r by lia.
  - replace ((v + 128) mod 256 - 128) with (v - 256) by (Z.div_mod_to_equations; lia).
    apply Z.bits_inj'. intros i Hi. rewrite !Z.land_spec. destruct (Z.ltb_spec i 8).
    + f_equal. rewrite <- (Z.mod_pow2_bits_low v 8), <- (Z.mod_pow2_bits_low (v - 256) 8) by lia.
      f_equal. change (2 ^ 8) with 256. Z.div_mod_to_equations. lia.
    + assert (E : Z.testbit mask i = false) by (apply (word_bits 8); [lia|unfold word; lia|lia]).
      by rewrite E, !andb_false_r.
Qed.

Lemma u8_s8 v : word 8 v -> u8 (s8 v) = v.
Proof. unfold word, u8, s8. intros. Z.div_mod_to_equations. lia. Qed.

Lemma s8_zero v : word 8 v -> (s8 v =? 0) = (v =? 0).
Proof. unfold word, s8. intros. bdestr; Z.div_mod_to_equations; lia. Qed.

(** The classes of first bytes. *)
Lemma compute_class c :
  word 8 c -> UTF8_COMPUTE c =
    if c <? 128 then (0x7f, 1) else if c <? 192 then (0, -1) else if c <? 224 then (0x1f, 2)
    else if c <? 240 then (0x0f, 3) else if c <? 248 then (0x07, 4) else if c <? 252 then (0x03, 5)
    else if c <? 254 then (0x01, 6) else (0, -1).
Proof.
  apply (all_bytes (fun c => UTF8_COMPUTE c = if c <? 128 then (0x7f, 1) else if c <? 192 then (0, -1)
    else if c <? 224 then (0x1f, 2) else if c <? 240 then (0x0f, 3) else if c <? 248 then (0x07, 4)
    else if c <? 252 then (0x03, 5) else if c <? 254 then (0x01, 6) else (0, -1))).
  vm_compute. reflexivity.
Qed.

Lemma continuation c : word 8 c -> (Z.land (s8 c) 0xc0 =? 0x80) = (128 <=? c) && (c <? 192).
Proof.
  apply (all_bytes (fun c => (Z.land (s8 c) 0xc0 =? 0x80) = (128 <=? c) && (c <? 192))). vm_compute. reflexivity.
Qed.

Lemma continuation_bits c : word 8 c -> Z.land (s8 c) 0x3f = c mod 64.
Proof. apply (all_bytes (fun c => Z.land (s8 c) 0x3f = c mod 64)). vm_compute. reflexivity. Qed.

Lemma six_bits r c : 0 <= r < 2 ^ 26 -> 0 <= c < 64 -> Z.lor (u32 (Z.shiftl r 6)) c = 64 * r + c.
Proof.
  intros Hr Hc. rewrite Z.shiftl_mul_pow2 by lia. change (2 ^ 6) with 64.
  unfold u32. rewrite Z.mod_small by lia. rewrite Z.lor_comm.
  replace (r * 64) with (Z.shiftl r 6) by (rewrite Z.shiftl_mul_pow2 by lia; lia).
  rewrite lor_shiftl_add by (unfold word; lia). change (2 ^ 6) with 64. lia.
Qed.

Definition cont (c : Z) : Prop := 128 <= c < 192.

(** The value of a first part and continuation bytes. *)
Definition value (r : Z) (cs : list Z) : Z := foldl (fun r c => 64 * r + c mod 64) r cs.

(** The loop over the continuation bytes. *)
Lemma get_loop_ok n chars (p i : nat) r cs :
  Forall (word 8) chars -> take n (drop (p + i) chars) = cs -> length cs = n -> (n <= 5)%nat ->
  0 <= r < 2 ^ (31 - 6 * Z.of_nat n) ->
  (Forall cont cs /\ utf8_get_loop n chars (Z.of_nat p) (Z.of_nat i) r = Some (value r cs)) \/
  (~ Forall cont cs /\ utf8_get_loop n chars (Z.of_nat p) (Z.of_nat i) r = Some (2 ^ 32 - 1)).
Proof.
  intros Hw. revert i r cs. induction n as [|n IH]; intros i r cs Hcs Hl Hn Hr.
  - left. destruct cs; [|done]. split; [apply Forall_nil_2|done].
  - destruct cs as [|c cs]; [done|]. cbn [utf8_get_loop].
    assert (Hc : chars !! (p + i)%nat = Some c).
    { rewrite <- (Nat.add_0_r (p + i)), <- lookup_drop.
      rewrite <- (lookup_take_lt _ (S n)), Hcs by lia. done. }
    rewrite <- Nat2Z.inj_add, rd_nat, Hc, some_bind. pose proof (Forall_lookup_1 _ _ _ _ Hw Hc) as Hcw.
    rewrite continuation by done. rewrite (drop_S _ _ _ Hc) in Hcs. cbn [take] in Hcs. injection Hcs as Hcs.
    destruct (decide (cont c)) as [Hcc|Hcc].
    + replace ((128 <=? c) && (c <? 192)) with true by (unfold cont in Hcc; lia). cbn [negb].
      assert (Hb : 0 <= r < 2 ^ 26).
      { split; [lia|]. eapply Z.lt_le_trans; [apply Hr|]. apply Z.pow_le_mono_r; lia. }
      pose proof (Z.mod_pos_bound c 64 ltac:(lia)).
      rewrite continuation_bits, six_bits by done.
      replace (Z.of_nat i + 1) with (Z.of_nat (S i)) by lia.
      destruct (IH (S i) (64 * r + c mod 64) cs) as [[H1 H2]|[H1 H2]]; [by rewrite Nat.add_succ_r|simpl in Hl; lia|lia| | |].
      * split; [lia|]. replace (31 - 6 * Z.of_nat n) with (6 + (31 - 6 * Z.of_nat (S n))) by lia.
        rewrite Z.pow_add_r by lia. change (2 ^ 6) with 64. lia.
      * left. split; [by apply Forall_cons|done].
      * right. split; [|done]. intros Hf. by apply Forall_cons in Hf as [_ ?].
    + right. split; [intros Hf; by apply Forall_cons in Hf as [? _]|].
      replace ((128 <=? c) && (c <? 192)) with false by (unfold cont in Hcc; lia). done.
Qed.

(** A mask of [n] bits from bit [k]. *)
Lemma land_shifted v n k :
  0 <= n -> 0 <= k -> Z.land v (Z.shiftl (Z.ones n) k) = (v / 2 ^ k) mod 2 ^ n * 2 ^ k.
Proof.
  intros Hn Hk. rewrite <- Z.land_ones, <- Z.shiftr_div_pow2, <- Z.shiftl_mul_pow2 by done.
  apply Z.bits_inj'. intros i Hi. rewrite Z.land_spec. destruct (Z.ltb_spec i k).
  - by rewrite !Z.shiftl_spec_low, andb_false_r by done.
  - rewrite !Z.shiftl_spec, Z.land_spec, Z.shiftr_spec by lia. do 2 f_equal. lia.
Qed.

Lemma unicode_valid_ok v : 0 < v < 2 ^ 32 -> UNICODE_VALID v = true <-> admitted v.
Proof.
  intros Hv. unfold UNICODE_VALID, admitted.
  change 0xFFFFF800 with (Z.shiftl (Z.ones 21) 11). change 0xFFFE with (Z.shiftl (Z.ones 15) 1) at 1.
  rewrite !land_shifted by lia. change (2 ^ 11) with 2048. change (2 ^ 21) with 2097152.
  change (2 ^ 1) with 2. change (2 ^ 15) with 32768. change (2 ^ 32) with 4294967296 in Hv.
  rewrite !andb_true_iff, orb_true_iff, !negb_true_iff, !Z.eqb_neq, !Z.ltb_lt.
  split; intros H; Z.div_mod_to_equations; lia.
Qed.

Lemma value2 r c1 : value r [c1] = 64 * r + c1 mod 64.
Proof. done. Qed.
Lemma value3 r c1 c2 : value r [c1; c2] = 64 * (64 * r + c1 mod 64) + c2 mod 64.
Proof. done. Qed.
Lemma value4 r c1 c2 c3 : value r [c1; c2; c3] = 64 * (64 * (64 * r + c1 mod 64) + c2 mod 64) + c3 mod 64.
Proof. done. Qed.

(** The first byte of a sequence, and its bits. *)
Lemma lead1 x : 0 <= x < 128 -> UTF8_COMPUTE x = (0x7f, 1) /\ Z.land x 0x7f = x.
Proof.
  intros Hx. apply (all_bytes (fun x => x < 128 -> UTF8_COMPUTE x = (0x7f, 1) /\ Z.land x 0x7f = x));
    [vm_compute; reflexivity|unfold word; lia|lia].
Qed.

Lemma lead2 x : 0 <= x < 32 -> UTF8_COMPUTE (192 + x) = (0x1f, 2) /\ Z.land (192 + x) 0x1f = x.
Proof.
  intros Hx. apply (all_bytes (fun x => x < 32 -> UTF8_COMPUTE (192 + x) = (0x1f, 2) /\ Z.land (192 + x) 0x1f = x));
    [vm_compute; reflexivity|unfold word; lia|lia].
Qed.

Lemma lead3 x : 0 <= x < 16 -> UTF8_COMPUTE (224 + x) = (0x0f, 3) /\ Z.land (224 + x) 0x0f = x.
Proof.
  intros Hx. apply (all_bytes (fun x => x < 16 -> UTF8_COMPUTE (224 + x) = (0x0f, 3) /\ Z.land (224 + x) 0x0f = x));
    [vm_compute; reflexivity|unfold word; lia|lia].
Qed.

Lemma lead4 x : 0 <= x < 8 -> UTF8_COMPUTE (240 + x) = (0x07, 4) /\ Z.land (240 + x) 0x07 = x.
Proof.
  intros Hx. apply (all_bytes (fun x => x < 8 -> UTF8_COMPUTE (240 + x) = (0x07, 4) /\ Z.land (240 + x) 0x07 = x));
    [vm_compute; reflexivity|unfold word; lia|lia].
Qed.

Ltac conts := repeat (apply Forall_cons; split; [unfold cont; Z.div_mod_to_equations; lia|]); apply Forall_nil_2.

(** A character is found again in its encoding. *)
Lemma encode_decodes v :
  admitted v -> exists c cs mask len, utf8_encode v = c :: cs /\ word 8 c /\ Forall cont cs /\
    UTF8_COMPUTE c = (mask, len) /\ len = Z.of_nat (length (c :: cs)) /\ value (Z.land c mask) cs = v /\
    UTF8_LENGTH v = len /\ 0 < len < 5 /\ c <> 0.
Proof.
  intros (Hv & _). unfold utf8_encode, UTF8_LENGTH.
  destruct (Z.ltb_spec v 0x80); [|destruct (Z.ltb_spec v 0x800); [|destruct (Z.ltb_spec v 0x10000)]].
  - destruct (lead1 v) as [E1 E2]; [lia|]. exists v, [], 0x7f, 1. rewrite E1, E2.
    repeat (split; [first [done|unfold word; lia|conts]|]). lia.
  - destruct (lead2 (v / 64)) as [E1 E2]; [Z.div_mod_to_equations; lia|].
    exists (192 + v / 64), [128 + v mod 64], 0x1f, 2. rewrite E1, E2, value2.
    repeat (split; [first [done|conts|unfold word; Z.div_mod_to_equations; lia]|]). Z.div_mod_to_equations. lia.
  - destruct (lead3 (v / 4096)) as [E1 E2]; [Z.div_mod_to_equations; lia|].
    exists (224 + v / 4096), [128 + v / 64 mod 64; 128 + v mod 64], 0x0f, 3. rewrite E1, E2, value3.
    repeat (split; [first [done|conts|unfold word; Z.div_mod_to_equations; lia]|]). Z.div_mod_to_equations. lia.
  - destruct (lead4 (v / 262144)) as [E1 E2]; [Z.div_mod_to_equations; lia|].
    exists (240 + v / 262144), [128 + v / 4096 mod 64; 128 + v / 64 mod 64; 128 + v mod 64], 0x07, 4.
    rewrite E1, E2, value4.
    destruct (Z.ltb_spec v 0x200000); [|lia].
    repeat (split; [first [done|conts|unfold word; Z.div_mod_to_equations; lia]|]). Z.div_mod_to_equations. lia.
Qed.

(** What the tests of the loop accept is an encoding. *)
Lemma decode_encodes c cs mask len :
  word 8 c -> c <> 0 -> UTF8_COMPUTE c = (mask, len) -> len = Z.of_nat (length (c :: cs)) -> Forall cont cs ->
  let v := value (Z.land c mask) cs in
  UTF8_LENGTH v = len -> UNICODE_VALID v = true -> admitted v /\ utf8_encode v = c :: cs.
Proof.
  intros Hc Hc0 Ecomp Hlen Hcs v Hul Hval.
  assert (Hlt : v < 0x110000) by (unfold UNICODE_VALID in Hval; rewrite !andb_true_iff, Z.ltb_lt in Hval; tauto).
  assert (Hadm : 0 < v -> admitted v) by (intros; apply unicode_valid_ok; [lia|done]).
  rewrite compute_class in Ecomp by done. unfold word in Hc. unfold UTF8_LENGTH in Hul. unfold utf8_encode.
  revert Ecomp. bdestr; intros [= <- <-]; try lia.
  all: cbn [length] in Hlen.
  - destruct cs; [|simpl in Hlen; lia]. assert (v = c) as -> by (apply lead1; lia). split; [apply Hadm; lia|done].
  - destruct cs as [|c1 [|? ?]]; [simpl in Hlen; lia| |simpl in Hlen; lia]. apply Forall_cons in Hcs as [H1' _].
    destruct (lead2 (c - 192)) as [_ E]; [lia|]. replace (192 + (c - 192)) with c in E by lia.
    subst v. rewrite E, value2 in *. unfold cont in *. split; [apply Hadm; lia|].
    f_equal; [|f_equal]; Z.div_mod_to_equations; lia.
  - destruct cs as [|c1 [|c2 [|? ?]]]; try (simpl in Hlen; lia).
    apply Forall_cons in Hcs as [H1' Hcs]. apply Forall_cons in Hcs as [H2' _].
    destruct (lead3 (c - 224)) as [_ E]; [lia|]. replace (224 + (c - 224)) with c in E by lia.
    subst v. rewrite E, value3 in *. unfold cont in *. split; [apply Hadm; lia|].
    f_equal; [|f_equal; [|f_equal]]; Z.div_mod_to_equations; lia.
  - destruct cs as [|c1 [|c2 [|c3 [|? ?]]]]; try (simpl in Hlen; lia).
    apply Forall_cons in Hcs as [H1' Hcs]. apply Forall_cons in Hcs as [H2' Hcs]. apply Forall_cons in Hcs as [H3' _].
    destruct (lead4 (c - 240)) as [_ E]; [lia|]. replace (240 + (c - 240)) with c in E by lia.
    subst v. rewrite E, value4 in *. unfold cont in *. split; [apply Hadm; lia|].
    f_equal; [|f_equal; [|f_equal; [|f_equal]]]; Z.div_mod_to_equations; lia.
Qed.

(** *** A step of the loop, and the loop *)

(** The encodings in front of [r]. *)
Definition starts (r : list Z) (v : Z) : Prop := admitted v /\ exists r', r = utf8_encode v ++ r'.

Lemma mask_range c mask len : word 8 c -> UTF8_COMPUTE c = (mask, len) -> 0 <= mask < 128 /\ 0 <= Z.land c mask < 128 /\ (len = -1 \/ 1 <= len <= 6) /\
  (2 <= len -> 0 <= Z.land c mask < 2 ^ (31 - 6 * (len - 1))).
Proof.
  intros Hc E.
  pose proof (all_bytes (fun c => 0 <= (UTF8_COMPUTE c).1 < 128 /\ 0 <= Z.land c (UTF8_COMPUTE c).1 < 128 /\ ((UTF8_COMPUTE c).2 = -1 \/ 1 <= (UTF8_COMPUTE c).2 <= 6) /\
    (2 <= (UTF8_COMPUTE c).2 -> 0 <= Z.land c (UTF8_COMPUTE c).1 < 2 ^ (31 - 6 * ((UTF8_COMPUTE c).2 - 1))))) as H.
  specialize (H c ltac:(vm_compute; reflexivity) Hc). cbv beta in H. by rewrite E in H.
Qed.

Lemma get_ok s (p : nat) c cs mask len :
  Forall (word 8) s -> s !! p = Some c -> UTF8_COMPUTE c = (mask, len) -> 0 < len ->
  take (Z.to_nat (len - 1)) (drop (S p) s) = cs -> length cs = Z.to_nat (len - 1) ->
  (Forall cont cs /\ UTF8_GET s (Z.of_nat p) mask len = Some (value (Z.land c mask) cs)) \/
  (~ Forall cont cs /\ UTF8_GET s (Z.of_nat p) mask len = Some (2 ^ 32 - 1)).
Proof.
  intros Hw Hc E Hlen Hcs Hl. pose proof (Forall_lookup_1 _ _ _ _ Hw Hc) as Hcw.
  destruct (mask_range _ _ _ Hcw E) as (Hm & Hcm & Hl6 & Hr). unfold UTF8_GET. rewrite rd_nat, Hc, some_bind.
  rewrite s8_land by (done || (unfold word; lia)). unfold u32. rewrite Z.mod_small by lia.
  apply (get_loop_ok (Z.to_nat (len - 1)) s p 1); [done|by rewrite Nat.add_1_r|done|lia|].
  split; [lia|]. destruct (Z.ltb_spec len 2).
  - assert (len = 1) as -> by lia. change (2 ^ (31 - 6 * Z.of_nat (Z.to_nat (1 - 1)))) with (2 ^ 31). lia.
  - rewrite Z2Nat.id by lia. by apply Hr.
Qed.

(** Two encodings at the same place are of the same length. *)
Lemma starts_length r v c mask len :
  starts (c :: r) v -> UTF8_COMPUTE c = (mask, len) ->
  exists cs, utf8_encode v = c :: cs /\ Forall cont cs /\ length cs = Z.to_nat (len - 1) /\ cs = take (Z.to_nat (len - 1)) r /\
    value (Z.land c mask) cs = v /\ UTF8_LENGTH v = len /\ 0 < len < 5 /\ len <= 1 + Z.of_nat (length r).
Proof.
  intros [Hv [r' Hr']] E. destruct (encode_decodes v Hv) as (c' & cs & mask' & len' & En & _ & Hcs & E' & Hlen & Hval & Hul & Hl & _).
  rewrite En in Hr'. injection Hr' as -> ->. rewrite E in E'. injection E' as -> ->. cbn [length] in Hlen.
  assert (Hcl : length cs = Z.to_nat (len' - 1)) by lia.
  exists cs. split; [done|]. split; [done|]. split; [done|].
  split; [by rewrite <- Hcl, take_app_length|]. split; [done|]. split; [done|]. split; [done|].
  rewrite length_app. lia.
Qed.

Lemma utf8_step_ok s (p : nat) c :
  Forall (word 8) s -> Z.of_nat (length s) < 2 ^ 63 -> s !! p = Some c -> c <> 0 ->
  (exists v, starts (drop p s) v /\
     utf8_step s (Z.of_nat (length s)) (Z.of_nat p) = Some (Some (Z.of_nat (length (utf8_encode v))))) \/
  ((forall v, ~ starts (drop p s) v) /\ utf8_step s (Z.of_nat (length s)) (Z.of_nat p) = Some None).
Proof.
  intros Hw Hs Hc Hc0. pose proof (Forall_lookup_1 _ _ _ _ Hw Hc) as Hcw. rewrite (drop_S _ _ _ Hc).
  unfold utf8_step. rewrite rd_nat, Hc, some_bind, u8_s8 by done. destruct (UTF8_COMPUTE c) as [mask len] eqn:E.
  pose proof (lookup_lt_Some _ _ _ Hc) as Hp.
  destruct (Z.eqb_spec len (-1)) as [Hl|Hl].
  { right. split; [|done]. intros v Hv. destruct (starts_length _ _ _ _ _ Hv E) as (? & _ & _ & _ & _ & _ & _ & ? & _). lia. }
  destruct (Z.leb_spec 0 (Z.of_nat (length s))); [|lia]. cbn [andb].
  destruct (Z.ltb_spec (Z.of_nat (length s) - Z.of_nat p) len) as [Hsh|Hsh].
  { right. split; [|done]. intros v Hv. destruct (starts_length _ _ _ _ _ Hv E) as (? & _ & _ & _ & _ & _ & _ & _ & Hr).
    rewrite length_drop in Hr. lia. }
  assert (Hlen : 0 < len) by (destruct (mask_range _ _ _ Hcw E) as (_ & _ & ? & _); lia).
  set (cs := take (Z.to_nat (len - 1)) (drop (S p) s)).
  assert (Hcl : length cs = Z.to_nat (len - 1)) by (unfold cs; rewrite length_take, length_drop; lia).
  destruct (get_ok s p c cs mask len Hw Hc E Hlen eq_refl Hcl) as [[Hcs ->]|[Hcs ->]]; rewrite some_bind.
  - set (v := value _ _).
    assert (Hno : UTF8_LENGTH v <> len \/ UNICODE_VALID v = false -> forall v', ~ starts (c :: drop (S p) s) v').
    { intros Hbad v' Hv'. destruct (starts_length _ _ _ _ _ Hv' E) as (cs' & En & _ & _ & Hcs' & Hval & Hul & _).
      fold cs in Hcs'. subst cs'. fold v in Hval. subst v'. destruct Hbad as [?|Hbad]; [done|].
      apply not_true_iff_false in Hbad. apply Hbad, unicode_valid_ok; destruct Hv' as [Ha _]; [|done].
      destruct Ha. lia. }
    destruct (Z.eqb_spec (UTF8_LENGTH v) len) as [Hul|Hul]; cbn [negb]; [|right; auto].
    destruct (UNICODE_VALID v) eqn:Hval; cbn [negb].
    + left. destruct (decode_encodes c cs mask len Hcw Hc0 E) as [Hadm Hen]; [cbn [length]; lia|done..|]. fold v in Hadm, Hen.
      exists v. destruct (Z.eqb_spec v (u32 (-1))) as [Hm|_]; [change (u32 (-1)) with 4294967295 in Hm; destruct Hadm as [? _]; lia|].
      split; [split; [done|]|].
      * exists (drop (Z.to_nat (len - 1)) (drop (S p) s)). rewrite Hen. cbn [app]. unfold cs. by rewrite take_drop.
      * rewrite Hen. cbn [length]. do 2 f_equal. lia.
    + right. split; [auto|]. by destruct (v =? u32 (-1)).
  - right. split.
    + intros v Hv. destruct (starts_length _ _ _ _ _ Hv E) as (cs' & _ & Hc' & _ & -> & _). done.
    + destruct (UTF8_LENGTH (2 ^ 32 - 1) =? len); [|done]. cbn [negb]. done.
Qed.

Lemma starts_unique r v v' : starts r v -> starts r v' -> v = v'.
Proof.
  intros Hv Hv'. destruct Hv as [Ha [r' Hr]]. destruct (encode_decodes v Ha) as (c & cs & mask & len & En & _ & _ & E & _).
  rewrite En in Hr. cbn [app] in Hr.
  assert (Hs : starts (c :: cs ++ r') v) by (split; [done|exists r'; by rewrite En]). rewrite Hr in Hv'.
  destruct (starts_length _ _ _ _ _ Hs E) as (cs1 & _ & _ & _ & -> & <- & _).
  by destruct (starts_length _ _ _ _ _ Hv' E) as (cs2 & _ & _ & _ & -> & <- & _).
Qed.

Lemma starts_zero r v : ~ starts (0 :: r) v.
Proof.
  intros [Ha [r' Hr]]. destruct (encode_decodes v Ha) as (c & cs & mask & len & En & _ & _ & _ & _ & _ & _ & _ & Hc).
  rewrite En in Hr. by injection Hr as <- _.
Qed.

Lemma encode_length v : admitted v -> (1 <= length (utf8_encode v))%nat.
Proof. intros Ha. destruct (encode_decodes v Ha) as (c & cs & _ & _ & -> & _). simpl. lia. Qed.

(** Where the loop stops, what is before is a sequence of encodings, and what
    is after does not start with one. *)
Lemma utf8_loop_ok s fuel (p : nat) :
  Forall (word 8) s -> Z.of_nat (length s) < 2 ^ 63 -> (p <= length s)%nat -> (length s - p <= fuel)%nat ->
  exists q vs, utf8_loop fuel s (Z.of_nat (length s)) (Z.of_nat p) = Some (Z.of_nat q) /\ (p <= q <= length s)%nat /\
    Forall admitted vs /\ drop p s = concat (utf8_encode <$> vs) ++ drop q s /\ (forall v, ~ starts (drop q s) v).
Proof.
  intros Hw Hs. revert p. induction fuel as [|fuel IH]; intros p Hp Hf; cbn [utf8_loop];
    (destruct (Z.ltb_spec (Z.of_nat (length s)) 0); [lia|]); cbn [orb];
    (destruct (Z.ltb_spec (Z.of_nat p) (Z.of_nat (length s))) as [Hlt|Hge];
      [|exists p, []; repeat (split; [first [done|lia]|]); rewrite drop_ge by lia;
        intros v [Ha [r' Hr]]; pose proof (encode_length v Ha) as Hl; apply (f_equal length) in Hr;
        rewrite length_app in Hr; simpl in Hr; lia]); [lia|].
  destruct (lookup_lt_is_Some_2 s p) as [c Hc]; [lia|]. rewrite rd_nat, Hc, some_bind.
  rewrite s8_zero by (by apply (Forall_lookup_1 _ _ _ _ Hw Hc)).
  destruct (Z.eqb_spec c 0) as [->|Hc0].
  { exists p, []. repeat (split; [first [done|lia]|]). rewrite (drop_S _ _ _ Hc). intros v. apply starts_zero. }
  destruct (utf8_step_ok s p c Hw Hs Hc Hc0) as [(v & Hv & ->)|[Hno ->]]; rewrite some_bind.
  - pose proof Hv as [Ha [r' Hr]]. pose proof (encode_length v Ha). rewrite <- Nat2Z.inj_add.
    assert (Hrl : length (drop p s) = (length (utf8_encode v) + length r')%nat) by (rewrite Hr; apply length_app).
    rewrite length_drop in Hrl.
    destruct (IH (p + length (utf8_encode v))%nat) as (q & vs & -> & Hq & Hvs & E & Hno); [lia..|].
    exists q, (v :: vs). split; [done|]. split; [lia|]. split; [by apply Forall_cons|]. split; [|done].
    cbn [fmap list_fmap concat]. rewrite <- app_assoc, <- E, <- drop_drop, Hr. by rewrite drop_app_length.
  - exists p, []. repeat (split; [first [done|lia]|]). done.
Qed.

(** Where no encoding follows, no longer sequence of encodings starts: a sequence
    can be cut in one way only. *)
Lemma encodings_longest vs vs' r r' :
  Forall admitted vs -> Forall admitted vs' -> (forall v, ~ starts r v) ->
  concat (utf8_encode <$> vs) ++ r = concat (utf8_encode <$> vs') ++ r' ->
  (length (concat (utf8_encode <$> vs')) <= length (concat (utf8_encode <$> vs)))%nat.
Proof.
  intros Hvs. revert vs'. induction Hvs as [|v vs Hv _ IH]; intros [|v' vs'] Hvs' Hno E;
    cbn [fmap list_fmap concat app] in E |- *; [done| |simpl; lia|].
  - apply Forall_cons in Hvs' as [Hv' _]. destruct (Hno v'). split; [done|]. rewrite <- app_assoc in E. by eexists.
  - apply Forall_cons in Hvs' as [Hv' Hvs']. rewrite <- !app_assoc in E.
    assert (v = v') as <- by (apply (starts_unique (utf8_encode v ++ concat (utf8_encode <$> vs) ++ r));
      [split; [exact Hv|by eexists]|split; [exact Hv'|rewrite E; by eexists]]).
    apply app_inv_head in E. rewrite !length_app. specialize (IH vs' Hvs' Hno E). lia.
Qed.

(** The first [n] bytes of [s] are a sequence of encodings. *)
Definition encoded (s : list Z) (n : nat) : Prop :=
  (n <= length s)%nat /\ exists vs, Forall admitted vs /\ take n s = concat (utf8_encode <$> vs).

(** The prefix in front of a place where no encoding starts is the longest. *)
Lemma encoded_longest s q vs :
  (q <= length s)%nat -> Forall admitted vs -> s = concat (utf8_encode <$> vs) ++ drop q s -> (forall v, ~ starts (drop q s) v) ->
  encoded s q /\ forall n, encoded s n -> (n <= q)%nat.
Proof.
  intros Hq Hvs Es Hno.
  assert (Hl : length (concat (utf8_encode <$> vs)) = q)
    by (apply (f_equal length) in Es; rewrite length_app, length_drop in Es; lia).
  split.
  - split; [done|]. exists vs. split; [done|]. rewrite Es at 1. rewrite <- Hl at 1. by rewrite take_app_length.
  - intros n (Hn & vs' & Hvs' & E'). rewrite <- Hl. replace n with (length (concat (utf8_encode <$> vs'))).
    + apply (encodings_longest vs vs' (drop q s) (drop n s)); [done..|]. by rewrite <- Es, <- E', take_drop.
    + rewrite <- E', length_take. lia.
Qed.

(** C15: [ml_utf8_validate] ends inside the string, and accepts exactly the
    strings that are the UTF-8 encodings, of the shortest form, of a sequence
    of Unicode characters: no NUL, no surrogate, no noncharacter, nothing above
    0x10FFFF.  Whatever the string, [utf8_validate] stops after the longest
    prefix of it that is such a sequence. *)
Theorem utf8_validate_correct (s : list Z) :
  Forall (word 8) s -> Z.of_nat (length s) < 2 ^ 63 ->
  exists b (q : nat), utf8_validate s (u64 (Z.of_nat (length s))) = Some (b, Z.of_nat q) /\ ml_utf8_validate s = Some b /\
    (b = true <-> exists vs, Forall admitted vs /\ s = concat (utf8_encode <$> vs)) /\
    encoded s q /\ (forall n, encoded s n -> (n <= q)%nat).
Proof.
  intros Hw Hs. unfold ml_utf8_validate, utf8_validate.
  rewrite u64_id by (unfold word; change (2 ^ 64) with 18446744073709551616; change (2 ^ 63) with 9223372036854775808 in Hs; lia).
  destruct (utf8_loop_ok s (length s) 0 Hw Hs) as (q & vs & E & Hq & Hvs & Es & Hno); [lia..|].
  rewrite Nat2Z.id. change (Z.of_nat 0) with 0 in E. rewrite E, some_bind. rewrite drop_0 in Es.
  destruct (encoded_longest s q vs) as [Hq' Hmax]; [lia|done..|].
  destruct (Z.leb_spec 0 (Z.of_nat (length s))); [|lia]. cbn [andb].
  destruct (Z.ltb_spec (Z.of_nat (length s)) 0); [lia|].
  destruct (Z.eqb_spec (Z.of_nat q) (Z.of_nat (length s))) as [Hql|Hql]; cbn [negb fmap option_fmap option_map fst];
    eexists _, q; (split; [reflexivity|]); (split; [reflexivity|]); (split; [|done]).
  - split; [intros _; exists vs|done]. split; [done|]. rewrite Es at 1. by rewrite drop_ge, app_nil_r by lia.
  - split; [done|]. intros (vs' & Hvs' & Es'). exfalso. assert (encoded s (length s)) as Hall%Hmax; [|lia].
    split; [done|]. exists vs'. by rewrite firstn_all.
Qed.

(** The euro sign, accepted; and its encoding cut short, refused with the end
    put after the letter in front of it. *)
Lemma utf8_validate_correct_witness :
  (exists b (q : nat), utf8_validate [104; 226; 130] (u64 3) = Some (b, Z.of_nat q) /\ ml_utf8_validate [104; 226; 130] = Some b /\
     (b = true <-> exists vs, Forall admitted vs /\ [104; 226; 130] = concat (utf8_encode <$> vs)) /\
     encoded [104; 226; 130] q /\ (forall n, encoded [104; 226; 130] n -> (n <= q)%nat)) /\
  utf8_validate [104; 226; 130] 3 = Some (false, 1) /\ utf8_validate [104; 226; 130; 172] 4 = Some (true, 4).
Proof.
  split; [|split; reflexivity]. apply (utf8_validate_correct [104; 226; 130]).
  - repeat (apply Forall_cons; split; [unfold word; lia|]). apply Forall_nil_2.
  - cbn. lia.
Defined.

(** ** Conversion with iconv *)

Inductive errno := EINVAL | E2BIG | EILSEQ | EOTHER.

(** What a call of [iconv] does with an input and [room] bytes of output: its
    error if it returns -1, the number of bytes it reads, those it writes, and
    its next state. *)
Record iconv_result (D : Type) := IconvResult {
  ic_err : option errno;
  ic_read : nat;
  ic_out : list Z;
  ic_cd : D
}.

Arguments IconvResult {D} _ _ _ _.
Arguments ic_err {D} _.
Arguments ic_read {D} _.
Arguments ic_out {D} _.
Arguments ic_cd {D} _.

(** [iconv_open] is [None] when it returns -1. *)
Class Iconv (D : Type) := {
  iconv_open : list Z -> list Z -> option D;
  iconv : D -> list Z -> Z -> iconv_result D
}.

Section Convert.
Context {D : Type} `{!Iconv D}.

(** The loop [again]: the bytes of [dest], whether there was an error, and the
    input left.  [outbuf_size] is a [size_t]; the final [*outp = 0] must fall
    in the buffer. *)
Fixpoint convert_loop (fuel : nat) (cd : D) (p dest : list Z) (outbuf_size : Z) : option (list Z * bool * list Z) :=
  match fuel with
  | O => None
  | S fuel =>
      let r := iconv cd p (u64 (outbuf_size - Z.of_nat (length dest) - 1)) in
      let p := drop (ic_read r) p in
      let dest := dest ++ ic_out r in
      let stop have_error :=
        if Z.of_nat (length dest) <? outbuf_size then Some (dest, have_error, p) else None in
      match ic_err r with
      | None => stop false
      | Some EINVAL => stop false
      | Some E2BIG => convert_loop fuel (ic_cd r) p dest (u64 (outbuf_size * 2))
      | Some EILSEQ => stop true
      | Some EOTHER => stop true
      end
  end.

(** With [bytes_read] NULL: [NULL], or the converted bytes. *)
Definition ml_convert_with_iconv (str : list Z) (cd : D) : option (option (list Z)) :=
  '(dest, have_error, p) ← convert_loop 64 cd str [] (u64 (Z.of_nat (length str) + 1));
  let have_error := have_error || negb (Z.of_nat (length str - length p) =? Z.of_nat (length str)) in
  Some (if have_error then None else Some dest).

Definition ml_convert (str to_codeset from_codeset : list Z) : option (option (list Z)) :=
  match iconv_open to_codeset from_codeset with
  | None => Some None
  | Some cd => ml_convert_with_iconv str cd
  end.

(** [raise_error] is [Unix_error] here. *)
Definition ml_copy_string_len_and_free (str : option (list Z)) : io (list Z) :=
  match str with None => Unix_error | Some dest => Ret dest end.

Definition ml_convert_string (str to from : list Z) : io (list Z) :=
  res ← mem (ml_convert str to from);
  ml_copy_string_len_and_free res.
End Convert.

(** What iconv promises: [converts cd inp out ok]: from the state [cd], the
    input [inp] gives [out], to its end if [ok], else up to an ill-formed or
    incomplete sequence.  E2BIG is returned when the rest of the output does
    not fit in [room]. *)
Class Converter {D} (I : Iconv D) := {
  converts : D -> list Z -> list Z -> bool -> Prop;
  iconv_ok cd inp out ok room :
    converts cd inp out ok -> 0 <= room ->
    exists out', out = ic_out (iconv cd inp room) ++ out' /\ Z.of_nat (length (ic_out (iconv cd inp room))) <= room /\
      (ic_read (iconv cd inp room) <= length inp)%nat /\
      match ic_err (iconv cd inp room) with
      | None => ok = true /\ out' = [] /\ ic_read (iconv cd inp room) = length inp
      | Some E2BIG => room < Z.of_nat (length out) /\
          converts (ic_cd (iconv cd inp room)) (drop (ic_read (iconv cd inp room)) inp) out' ok
      | Some EINVAL => ok = false /\ (ic_read (iconv cd inp room) < length inp)%nat
      | Some EILSEQ => ok = false
      | Some EOTHER => False
      end
}.

Section ConvertOk.
Context {D : Type} {I : Iconv D} {C : Converter I}.

(** [left] doublings make the buffer larger than the whole output. *)
Lemma convert_loop_ok (left fuel : nat) cd p dest size out ok :
  converts cd p out ok -> Z.of_nat (length dest) < size <= 2 ^ 63 -> (left < fuel)%nat ->
  Z.of_nat (length dest + length out) < size * 2 ^ Z.of_nat left <= 2 ^ 63 ->
  exists dest' err p', convert_loop fuel cd p dest size = Some (dest', err, p') /\
    (length p' <= length p)%nat /\
    if ok then dest' = dest ++ out /\ err = false /\ p' = [] else err = true \/ (0 < length p')%nat.
Proof.
  change (2 ^ 63) with 9223372036854775808.
  revert fuel cd p dest size out. induction left as [|left IH]; intros fuel cd p dest size out Hc Hd Hf Hs;
    (destruct fuel as [|fuel]; [lia|]); cbn [convert_loop];
    rewrite (u64_id (size - Z.of_nat (length dest) - 1))
      by (unfold word; change (2 ^ 64) with 18446744073709551616; lia);
    destruct (iconv_ok cd p out ok (size - Z.of_nat (length dest) - 1) Hc ltac:(lia)) as (out' & -> & Hroom & Hread & Herr);
    set (r := iconv cd p _) in *; set (room := size - _ - 1) in *; rewrite length_app in Hs;
    (destruct (Z.ltb_spec (Z.of_nat (length (dest ++ ic_out r))) size) as [_|Hfull]; [|rewrite length_app in Hfull; lia]);
    (destruct (ic_err r) as [[]|];
      [eexists _, _, _; split; [reflexivity|]; rewrite length_drop; split; [lia|]; destruct Herr as [-> ?]; right; lia
      |
      |eexists _, _, _; split; [reflexivity|]; rewrite length_drop; split; [lia|]; rewrite Herr; by left
      |done
      |eexists _, _, _; split; [reflexivity|]; rewrite length_drop; split; [lia|];
       destruct Herr as (-> & -> & ->); rewrite drop_all, app_nil_r; done]).
  - destruct Herr as [Hbig _]. rewrite length_app in Hbig. subst room. simpl in Hs. lia.
  - destruct Herr as [Hbig Hc']. rewrite Nat2Z.inj_succ, Z.pow_succ_r in Hs by lia.
    assert (0 < 2 ^ Z.of_nat left) by (apply Z.pow_pos_nonneg; lia).
    assert (size * 2 <= 9223372036854775808) by nia.
    rewrite (u64_id (size * 2)) by (unfold word; change (2 ^ 64) with 18446744073709551616; lia).
    destruct (IH fuel (ic_cd r) (drop (ic_read r) p) (dest ++ ic_out r) (size * 2) out' Hc')
      as (dest' & err & p' & -> & Hp' & Hok); [rewrite length_app; lia|lia|rewrite length_app; lia|].
    rewrite length_drop in Hp'. exists dest', err, p'. split; [done|]. split; [lia|].
    destruct ok; [|done]. by rewrite app_assoc.
Qed.

(** Enough doublings, none too many. *)
Lemma doublings a n : 0 < a -> 0 <= n -> exists left, n < a * 2 ^ Z.of_nat left <= Z.max (2 * n) a.
Proof.
  intros Ha Hn. destruct (Z.ltb_spec n a); [exists 0%nat; change (2 ^ Z.of_nat 0) with 1; lia|].
  assert (Hq : 0 < n / a) by (apply Z.div_str_pos; lia). exists (Z.to_nat (Z.log2 (n / a) + 1)).
  pose proof (Z.log2_nonneg (n / a)). pose proof (Z.log2_spec (n / a) Hq) as Hl. rewrite Z2Nat.id by lia.
  rewrite Z.pow_succ_r in Hl by done. rewrite Z.pow_add_r by lia. change (2 ^ 1) with 2.
  set (b := 2 ^ Z.log2 (n / a)) in *. pose proof (Z.mul_div_le n a Ha). pose proof (Z.mod_pos_bound n a Ha).
  pose proof (Z.div_mod n a ltac:(lia)). nia.
Qed.
End ConvertOk.

(** C31: with any converter that keeps iconv's promises, the conversion of a
    string ends, however many times its output outgrows the buffer, and
    without writing past it: the result is the whole converted text, and an
    ill-formed or incomplete input raises the exception. *)
Theorem convert_string_total {D} {I : Iconv D} {C : Converter I} (str to from out : list Z) (ok : bool) (cd : D) :
  iconv_open to from = Some cd -> converts cd str out ok ->
  Z.of_nat (length str) < 2 ^ 62 -> Z.of_nat (length out) < 2 ^ 62 ->
  ml_convert_string str to from = if ok then Ret out else Unix_error.
Proof.
  intros Ho Hc Hs Hout. unfold ml_convert_string, ml_convert. rewrite Ho. unfold ml_convert_with_iconv.
  change (2 ^ 62) with 4611686018427387904 in *.
  rewrite u64_id by (unfold word; change (2 ^ 64) with 18446744073709551616; lia).
  destruct (doublings (Z.of_nat (length str) + 1) (Z.of_nat (length out))) as [left Hl]; [lia..|].
  assert (Hleft : Z.of_nat left < 64).
  { apply (Z.pow_lt_mono_r_iff 2); [lia..|]. change (2 ^ 64) with 18446744073709551616. nia. }
  destruct (convert_loop_ok left 64 cd str [] (Z.of_nat (length str) + 1) out ok Hc) as (dest & err & p & -> & Hp & Hr);
    [simpl; lia|lia|simpl; change (2 ^ 63) with 9223372036854775808; lia|].
  rewrite some_bind. destruct ok.
  - destruct Hr as (-> & -> & ->). simpl length. rewrite Nat.sub_0_r, Z.eqb_refl. done.
  - destruct Hr as [->|Hp']; [done|].
    destruct (Z.eqb_spec (Z.of_nat (length str - length p)) (Z.of_nat (length str))); [lia|]. by rewrite orb_true_r.
Qed.

(** *** ISO-8859-1, without its control characters, to UTF-8 *)

Definition latin_char (b : Z) : option (list Z) :=
  if (0 <? b) && (b <? 128) || (160 <=? b) && (b <? 256) then Some (utf8_encode b) else None.

Fixpoint latin_iconv (inp : list Z) (room : Z) : iconv_result unit :=
  match inp with
  | [] => IconvResult None 0 [] tt
  | b :: inp =>
      match latin_char b with
      | None => IconvResult (Some EILSEQ) 0 [] tt
      | Some bs =>
          if room <? Z.of_nat (length bs) then IconvResult (Some E2BIG) 0 [] tt
          else let r := latin_iconv inp (room - Z.of_nat (length bs)) in
               IconvResult (ic_err r) (S (ic_read r)) (bs ++ ic_out r) tt
      end
  end.

Fixpoint latin_text (inp : list Z) : list Z * bool :=
  match inp with
  | [] => ([], true)
  | b :: inp =>
      match latin_char b with
      | None => ([], false)
      | Some bs => let '(out, ok) := latin_text inp in (bs ++ out, ok)
      end
  end.

#[export] Instance Latin : Iconv unit := { iconv_open _ _ := Some tt; iconv _ := latin_iconv }.

Lemma latin_ok (cd : unit) inp out ok room :
  latin_text inp = (out, ok) -> 0 <= room ->
  exists out', out = ic_out (latin_iconv inp room) ++ out' /\ Z.of_nat (length (ic_out (latin_iconv inp room))) <= room /\
    (ic_read (latin_iconv inp room) <= length inp)%nat /\
    match ic_err (latin_iconv inp room) with
    | None => ok = true /\ out' = [] /\ ic_read (latin_iconv inp room) = length inp
    | Some E2BIG => room < Z.of_nat (length out) /\ latin_text (drop (ic_read (latin_iconv inp room)) inp) = (out', ok)
    | Some EINVAL => ok = false /\ (ic_read (latin_iconv inp room) < length inp)%nat
    | Some EILSEQ => ok = false
    | Some EOTHER => False
    end.
Proof.
  revert out room. induction inp as [|b inp IH]; intros out room E Hroom; cbn [latin_iconv latin_text] in *.
  { injection E as <- <-. by exists []. }
  destruct (latin_char b) as [bs|] eqn:Eb; [|injection E as <- <-; exists []; cbn; repeat split; lia].
  destruct (latin_text inp) as [out1 ok1] eqn:E1. injection E as <- <-.
  destruct (Z.ltb_spec room (Z.of_nat (length bs))) as [Hr|Hr].
  { exists (bs ++ out1). cbn. rewrite length_app, Eb, E1. repeat split; lia. }
  destruct (IH out1 (room - Z.of_nat (length bs)) eq_refl ltac:(lia)) as (out' & -> & Hw & Hread & Herr).
  set (r := latin_iconv inp _) in *. exists out'. cbn [ic_out ic_read ic_err drop length].
  rewrite <- app_assoc, length_app. split; [done|]. split; [lia|]. split; [lia|].
  destruct (ic_err r) as [[]|]; [destruct Herr as [-> ?]|destruct Herr|done|done|destruct Herr as (-> & -> & ->)];
    rewrite ?length_app in *; repeat split; (done || lia).
Qed.

#[export] Instance LatinOk : Converter Latin := {
  converts _ inp out ok := latin_text inp = (out, ok);
  iconv_ok := latin_ok
}.

(** "é" twice outgrows the buffer of three bytes; 0x85 is ill-formed. *)
Lemma convert_string_total_witness :
  ml_convert_string [233; 233] [] [] = Ret [195; 169; 195; 169] /\ ml_convert_string [233; 0x85] [] [] = Unix_error.
Proof.
  split.
  - apply (convert_string_total (C := LatinOk) [233; 233] [] [] [195; 169; 195; 169] true tt); [reflexivity..].
  - apply (convert_string_total (C := LatinOk) [233; 0x85] [] [] [195; 169] false tt); [reflexivity..].
Defined.

(** ** The default language: [strchr] for a point, then for an at sign *)

Fixpoint cut_at (ch : Z) (lang : list Z) : list Z :=
  match lang with [] => [] | c :: lang => if c =? ch then [] else c :: cut_at ch lang end.

Definition ml_get_default_language (locale : list Z) : list Z := cut_at 64 (cut_at 46 locale).

Lemma default_language_prefix locale :
  exists rest, locale = ml_get_default_language locale ++ rest /\
    Forall (fun c => c <> 46 /\ c <> 64) (ml_get_default_language locale) /\
    (rest = [] \/ exists c rest', rest = c :: rest' /\ (c = 46 \/ c = 64)).
Proof.
  unfold ml_get_default_language. induction locale as [|c l (rest & El & Hc & Hr)]; [exists []; cbn; auto|]. cbn [cut_at].
  destruct (Z.eqb_spec c 46) as [->|H46]; cbn [cut_at]; [exists (46 :: l); split; [done|]; split; [apply Forall_nil_2|right; by eexists _, _; auto]|].
  destruct (Z.eqb_spec c 64) as [->|H64]; [exists (64 :: l); split; [done|]; split; [apply Forall_nil_2|right; by eexists _, _; auto]|].
  exists rest. split; [cbn [app]; by f_equal|]. split; [by apply Forall_cons|done].
Qed.
End Charset.
