(* ===== verification/Win32Lang.v ===== *)
(** * The language of a Windows thread

    [ml_win32_get_default_language] of [src/src/utils/lib/charsetstubs.c] and
    the Windows branch of [ml_get_default_language]: the environment, or the
    POSIX name of the language of the thread.  The language codes that the file
    defines where the header does not are here; those that only the header
    defines are parameters ([Winnt]). *)

From Stdlib Require Import ZArith Lia Ascii String.
From stdpp Require Import base option numbers list.
From S2P Require Import Prelude CString Charset.
Import CString.

Local Open Scope Z_scope.

Module Win32Lang.

(** ** The codes *)

Definition LANG_AFRIKAANS : Z := 0x36.
Definition LANG_ALBANIAN : Z := 0x1c.
Definition LANG_ARABIC : Z := 0x01.
Definition SUBLANG_ARABIC_SAUDI_ARABIA : Z := 0x01.
Definition SUBLANG_ARABIC_IRAQ : Z := 0x02.
Definition SUBLANG_ARABIC_EGYPT : Z := 0x03.
Definition SUBLANG_ARABIC_LIBYA : Z := 0x04.
Definition SUBLANG_ARABIC_ALGERIA : Z := 0x05.
Definition SUBLANG_ARABIC_MOROCCO : Z := 0x06.
Definition SUBLANG_ARABIC_TUNISIA : Z := 0x07.
Definition SUBLANG_ARABIC_OMAN : Z := 0x08.
Definition SUBLANG_ARABIC_YEMEN : Z := 0x09.
Definition SUBLANG_ARABIC_SYRIA : Z := 0x0a.
Definition SUBLANG_ARABIC_JORDAN : Z := 0x0b.
Definition SUBLANG_ARABIC_LEBANON : Z := 0x0c.
Definition SUBLANG_ARABIC_KUWAIT : Z := 0x0d.
Definition SUBLANG_ARABIC_UAE : Z := 0x0e.
Definition SUBLANG_ARABIC_BAHRAIN : Z := 0x0f.
Definition SUBLANG_ARABIC_QATAR : Z := 0x10.
Definition LANG_ARMENIAN : Z := 0x2b.
Definition LANG_ASSAMESE : Z := 0x4d.
Definition LANG_AZERI : Z := 0x2c.
Definition SUBLANG_AZERI_LATIN : Z := 0x01.
Definition SUBLANG_AZERI_CYRILLIC : Z := 0x02.
Definition LANG_BASQUE : Z := 0x2d.
Definition LANG_BELARUSIAN : Z := 0x23.
Definition LANG_BENGALI : Z := 0x45.
Definition SUBLANG_BENGALI_INDIA : Z := 0x01.
Definition SUBLANG_BENGALI_BANGLADESH : Z := 0x02.
Definition LANG_BURMESE : Z := 0x55.
Definition LANG_CAMBODIAN : Z := 0x53.
Definition LANG_CATALAN : Z := 0x03.
Definition SUBLANG_CHINESE_MACAU : Z := 0x05.
Definition SUBLANG_SERBIAN_LATIN : Z := 0x02.
Definition SUBLANG_SERBIAN_CYRILLIC : Z := 0x03.
Definition LANG_DIVEHI : Z := 0x65.
Definition SUBLANG_ENGLISH_SOUTH_AFRICA : Z := 0x07.
Definition SUBLANG_ENGLISH_JAMAICA : Z := 0x08.
Definition SUBLANG_ENGLISH_CARIBBEAN : Z := 0x09.
Definition SUBLANG_ENGLISH_BELIZE : Z := 0x0a.
Definition SUBLANG_ENGLISH_TRINIDAD : Z := 0x0b.
Definition SUBLANG_ENGLISH_ZIMBABWE : Z := 0x0c.
Definition SUBLANG_ENGLISH_PHILIPPINES : Z := 0x0d.
Definition SUBLANG_ENGLISH_INDONESIA : Z := 0x0e.
Definition SUBLANG_ENGLISH_HONGKONG : Z := 0x0f.
Definition SUBLANG_ENGLISH_INDIA : Z := 0x10.
Definition SUBLANG_ENGLISH_MALAYSIA : Z := 0x11.
Definition SUBLANG_ENGLISH_SINGAPORE : Z := 0x12.
Definition LANG_ESTONIAN : Z := 0x25.
Definition LANG_FAEROESE : Z := 0x38.
Definition LANG_FARSI : Z := 0x29.
Definition SUBLANG_FRENCH_LUXEMBOURG : Z := 0x05.
Definition SUBLANG_FRENCH_MONACO : Z := 0x06.
Definition SUBLANG_FRENCH_WESTINDIES : Z := 0x07.
Definition SUBLANG_FRENCH_REUNION : Z := 0x08.
Definition SUBLANG_FRENCH_CONGO : Z := 0x09.
Definition SUBLANG_FRENCH_SENEGAL : Z := 0x0a.
Definition SUBLANG_FRENCH_CAMEROON : Z := 0x0b.
Definition SUBLANG_FRENCH_COTEDIVOIRE : Z := 0x0c.
Definition SUBLANG_FRENCH_MALI : Z := 0x0d.
Definition SUBLANG_FRENCH_MOROCCO : Z := 0x0e.
Definition SUBLANG_FRENCH_HAITI : Z := 0x0f.
Definition LANG_FRISIAN : Z := 0x62.
Definition LANG_FULFULDE : Z := 0x67.
Definition LANG_GAELIC : Z := 0x3c.
Definition LANG_GALICIAN : Z := 0x56.
Definition LANG_GEORGIAN : Z := 0x37.
Definition SUBLANG_GERMAN_LUXEMBOURG : Z := 0x04.
Definition SUBLANG_GERMAN_LIECHTENSTEIN : Z := 0x05.
Definition LANG_GUARANI : Z := 0x74.
Definition LANG_GUJARATI : Z := 0x47.
Definition LANG_HAUSA : Z := 0x68.
Definition LANG_HAWAIIAN : Z := 0x75.
Definition LANG_HEBREW : Z := 0x0d.
Definition LANG_HINDI : Z := 0x39.
Definition LANG_IBIBIO : Z := 0x69.
Definition LANG_IGBO : Z := 0x70.
Definition LANG_INDONESIAN : Z := 0x21.
Definition LANG_INUKTITUT : Z := 0x5d.
Definition LANG_KANNADA : Z := 0x4b.
Definition LANG_KANURI : Z := 0x71.
Definition LANG_KASHMIRI : Z := 0x60.
Definition SUBLANG_KASHMIRI_INDIA : Z := 0x02.
Definition LANG_KAZAK : Z := 0x3f.
Definition LANG_KONKANI : Z := 0x57.
Definition LANG_KYRGYZ : Z := 0x40.
Definition LANG_LAO : Z := 0x54.
Definition LANG_LATIN : Z := 0x76.
Definition LANG_LATVIAN : Z := 0x26.
Definition LANG_LITHUANIAN : Z := 0x27.
Definition LANG_MACEDONIAN : Z := 0x2f.
Definition LANG_MALAY : Z := 0x3e.
Definition SUBLANG_MALAY_MALAYSIA : Z := 0x01.
Definition SUBLANG_MALAY_BRUNEI_DARUSSALAM : Z := 0x02.
Definition LANG_MALAYALAM : Z := 0x4c.
Definition LANG_MANIPURI : Z := 0x58.
Definition LANG_MARATHI : Z := 0x4e.
Definition LANG_MONGOLIAN : Z := 0x50.
Definition LANG_NEPALI : Z := 0x61.
Definition SUBLANG_NEPALI_INDIA : Z := 0x02.
Definition LANG_ORIYA : Z := 0x48.
Definition LANG_OROMO : Z := 0x72.
Definition LANG_PAPIAMENTU : Z := 0x79.
Definition LANG_PASHTO : Z := 0x63.
Definition LANG_PUNJABI : Z := 0x46.
Definition SUBLANG_PUNJABI_INDIA : Z := 0x01.
Definition SUBLANG_PUNJABI_PAKISTAN : Z := 0x02.
Definition LANG_RHAETO_ROMANCE : Z := 0x17.
Definition SUBLANG_ROMANIAN_ROMANIA : Z := 0x01.
Definition SUBLANG_ROMANIAN_MOLDOVA : Z := 0x02.
Definition LANG_SAAMI : Z := 0x3b.
Definition LANG_SANSKRIT : Z := 0x4f.
Definition LANG_SINDHI : Z := 0x59.
Definition SUBLANG_SINDHI_PAKISTAN : Z := 0x01.
Definition LANG_SINHALESE : Z := 0x5b.
Definition LANG_SLOVAK : Z := 0x1b.
Definition LANG_SOMALI : Z := 0x77.
Definition LANG_SORBIAN : Z := 0x2e.
Definition SUBLANG_SPANISH_GUATEMALA : Z := 0x04.
Definition SUBLANG_SPANISH_COSTA_RICA : Z := 0x05.
Definition SUBLANG_SPANISH_PANAMA : Z := 0x06.
Definition SUBLANG_SPANISH_DOMINICAN_REPUBLIC : Z := 0x07.
Definition SUBLANG_SPANISH_VENEZUELA : Z := 0x08.
Definition SUBLANG_SPANISH_COLOMBIA : Z := 0x09.
Definition SUBLANG_SPANISH_PERU : Z := 0x0a.
Definition SUBLANG_SPANISH_ARGENTINA : Z := 0x0b.
Definition SUBLANG_SPANISH_ECUADOR : Z := 0x0c.
Definition SUBLANG_SPANISH_CHILE : Z := 0x0d.
Definition SUBLANG_SPANISH_URUGUAY : Z := 0x0e.
Definition SUBLANG_SPANISH_PARAGUAY : Z := 0x0f.
Definition SUBLANG_SPANISH_BOLIVIA : Z := 0x10.
Definition SUBLANG_SPANISH_EL_SALVADOR : Z := 0x11.
Definition SUBLANG_SPANISH_HONDURAS : Z := 0x12.
Definition SUBLANG_SPANISH_NICARAGUA : Z := 0x13.
Definition SUBLANG_SPANISH_PUERTO_RICO : Z := 0x14.
Definition LANG_SUTU : Z := 0x30.
Definition LANG_SWAHILI : Z := 0x41.
Definition SUBLANG_SWEDISH_FINLAND : Z := 0x02.
Definition LANG_SYRIAC : Z := 0x5a.
Definition LANG_TAGALOG : Z := 0x64.
Definition LANG_TAJIK : Z := 0x28.
Definition LANG_TAMIL : Z := 0x49.
Definition LANG_TATAR : Z := 0x44.
Definition LANG_TELUGU : Z := 0x4a.
Definition LANG_THAI : Z := 0x1e.
Definition LANG_TIBETAN : Z := 0x51.
Definition LANG_TIGRINYA : Z := 0x73.
Definition SUBLANG_TIGRINYA_ETHIOPIA : Z := 0x01.
Definition SUBLANG_TIGRINYA_ERITREA : Z := 0x02.
Definition LANG_TSONGA : Z := 0x31.
Definition LANG_TSWANA : Z := 0x32.
Definition LANG_TURKMEN : Z := 0x42.
Definition LANG_UKRAINIAN : Z := 0x22.
Definition LANG_URDU : Z := 0x20.
Definition SUBLANG_URDU_PAKISTAN : Z := 0x01.
Definition SUBLANG_URDU_INDIA : Z := 0x02.
Definition LANG_UZBEK : Z := 0x43.
Definition SUBLANG_UZBEK_LATIN : Z := 0x01.
Definition SUBLANG_UZBEK_CYRILLIC : Z := 0x02.
Definition LANG_VENDA : Z := 0x33.
Definition LANG_VIETNAMESE : Z := 0x2a.
Definition LANG_WELSH : Z := 0x52.
Definition LANG_XHOSA : Z := 0x34.
Definition LANG_YI : Z := 0x78.
Definition LANG_YIDDISH : Z := 0x3d.
Definition LANG_YORUBA : Z := 0x6a.
Definition LANG_ZULU : Z := 0x35.

(** The codes of [winnt.h]. *)
Class Winnt := {
  LANG_BULGARIAN : Z;
  LANG_CHINESE : Z;
  SUBLANG_CHINESE_TRADITIONAL : Z;
  SUBLANG_CHINESE_SIMPLIFIED : Z;
  SUBLANG_CHINESE_HONGKONG : Z;
  SUBLANG_CHINESE_SINGAPORE : Z;
  LANG_CROATIAN : Z;
  LANG_CZECH : Z;
  LANG_DANISH : Z;
  LANG_DUTCH : Z;
  SUBLANG_DUTCH : Z;
  SUBLANG_DUTCH_BELGIAN : Z;
  LANG_ENGLISH : Z;
  SUBLANG_ENGLISH_US : Z;
  SUBLANG_ENGLISH_UK : Z;
  SUBLANG_ENGLISH_AUS : Z;
  SUBLANG_ENGLISH_CAN : Z;
  SUBLANG_ENGLISH_NZ : Z;
  SUBLANG_ENGLISH_EIRE : Z;
  LANG_FINNISH : Z;
  LANG_FRENCH : Z;
  SUBLANG_FRENCH : Z;
  SUBLANG_FRENCH_BELGIAN : Z;
  SUBLANG_FRENCH_CANADIAN : Z;
  SUBLANG_FRENCH_SWISS : Z;
  LANG_GERMAN : Z;
  SUBLANG_GERMAN : Z;
  SUBLANG_GERMAN_SWISS : Z;
  SUBLANG_GERMAN_AUSTRIAN : Z;
  LANG_GREEK : Z;
  LANG_HUNGARIAN : Z;
  LANG_ICELANDIC : Z;
  LANG_ITALIAN : Z;
  SUBLANG_ITALIAN : Z;
  SUBLANG_ITALIAN_SWISS : Z;
  LANG_JAPANESE : Z;
  SUBLANG_DEFAULT : Z;
  LANG_KOREAN : Z;
  LANG_NORWEGIAN : Z;
  SUBLANG_NORWEGIAN_BOKMAL : Z;
  SUBLANG_NORWEGIAN_NYNORSK : Z;
  LANG_POLISH : Z;
  LANG_PORTUGUESE : Z;
  SUBLANG_PORTUGUESE : Z;
  SUBLANG_PORTUGUESE_BRAZILIAN : Z;
  LANG_ROMANIAN : Z;
  LANG_RUSSIAN : Z;
  LANG_SLOVENIAN : Z;
  LANG_SPANISH : Z;
  SUBLANG_SPANISH : Z;
  SUBLANG_SPANISH_MEXICAN : Z;
  SUBLANG_SPANISH_MODERN : Z;
  LANG_SWEDISH : Z;
  LANG_TURKISH : Z
}.

(** ** The tables: what a case assigns to [l] and to [sl] *)

Definition assigned : Type := option string * option string.

(** The cases of a [switch (sub)], and its default. *)
Record inner := Inner { in_cases : list (Z * assigned); in_default : assigned }.

(** A case of [switch (primary)]: its own assignments, and then its switch. *)
Record outer := Outer { out_code : Z; out_assigned : assigned; out_switch : option inner }.

Section Tables.
Context {W : Winnt}.
Local Open Scope string_scope.

Definition arabic_cases : inner :=
  Inner [
    (SUBLANG_ARABIC_SAUDI_ARABIA, (None, Some "SA"));
    (SUBLANG_ARABIC_IRAQ, (None, Some "IQ"));
    (SUBLANG_ARABIC_EGYPT, (None, Some "EG"));
    (SUBLANG_ARABIC_LIBYA, (None, Some "LY"));
    (SUBLANG_ARABIC_ALGERIA, (None, Some "DZ"));
    (SUBLANG_ARABIC_MOROCCO, (None, Some "MA"));
    (SUBLANG_ARABIC_TUNISIA, (None, Some "TN"));
    (SUBLANG_ARABIC_OMAN, (None, Some "OM"));
    (SUBLANG_ARABIC_YEMEN, (None, Some "YE"));
    (SUBLANG_ARABIC_SYRIA, (None, Some "SY"));
    (SUBLANG_ARABIC_JORDAN, (None, Some "JO"));
    (SUBLANG_ARABIC_LEBANON, (None, Some "LB"));
    (SUBLANG_ARABIC_KUWAIT, (None, Some "KW"));
    (SUBLANG_ARABIC_UAE, (None, Some "AE"));
    (SUBLANG_ARABIC_BAHRAIN, (None, Some "BH"));
    (SUBLANG_ARABIC_QATAR, (None, Some "QA"))] (None, None).

Definition azeri_cases : inner :=
  Inner [
    (SUBLANG_AZERI_LATIN, (None, Some "AZ@latin"));
    (SUBLANG_AZERI_CYRILLIC, (None, Some "AZ@cyrillic"))] (None, None).

Definition bengali_cases : inner :=
  Inner [
    (SUBLANG_BENGALI_INDIA, (None, Some "IN"));
    (SUBLANG_BENGALI_BANGLADESH, (None, Some "BD"))] (None, None).

Definition chinese_cases : inner :=
  Inner [
    (SUBLANG_CHINESE_TRADITIONAL, (None, Some "TW"));
    (SUBLANG_CHINESE_SIMPLIFIED, (None, Some "CN"));
    (SUBLANG_CHINESE_HONGKONG, (None, Some "HK"));
    (SUBLANG_CHINESE_SINGAPORE, (None, Some "SG"));
    (SUBLANG_CHINESE_MACAU, (None, Some "MO"))] (None, None).

Definition croatian_cases : inner :=
  Inner [
    (SUBLANG_SERBIAN_LATIN, (Some "sr", Some "@Latn"));
    (SUBLANG_SERBIAN_CYRILLIC, (Some "sr", None))] (Some "hr", Some "HR").

Definition dutch_cases : inner :=
  Inner [
    (SUBLANG_DUTCH, (None, Some "NL"));
    (SUBLANG_DUTCH_BELGIAN, (None, Some "BE"))] (None, None).

Definition english_cases : inner :=
  Inner [
    (SUBLANG_ENGLISH_US, (None, Some "US"));
    (SUBLANG_ENGLISH_UK, (None, Some "GB"));
    (SUBLANG_ENGLISH_AUS, (None, Some "AU"));
    (SUBLANG_ENGLISH_CAN, (None, Some "CA"));
    (SUBLANG_ENGLISH_NZ, (None, Some "NZ"));
    (SUBLANG_ENGLISH_EIRE, (None, Some "IE"));
    (SUBLANG_ENGLISH_SOUTH_AFRICA, (None, Some "ZA"));
    (SUBLANG_ENGLISH_JAMAICA, (None, Some "JM"));
    (SUBLANG_ENGLISH_CARIBBEAN, (None, Some "GD"));
    (SUBLANG_ENGLISH_BELIZE, (None, Some "BZ"));
    (SUBLANG_ENGLISH_TRINIDAD, (None, Some "TT"));
    (SUBLANG_ENGLISH_ZIMBABWE, (None, Some "ZW"));
    (SUBLANG_ENGLISH_PHILIPPINES, (None, Some "PH"));
    (SUBLANG_ENGLISH_INDONESIA, (None, Some "ID"));
    (SUBLANG_ENGLISH_HONGKONG, (None, Some "HK"));
    (SUBLANG_ENGLISH_INDIA, (None, Some "IN"));
    (SUBLANG_ENGLISH_MALAYSIA, (None, Some "MY"));
    (SUBLANG_ENGLISH_SINGAPORE, (None, Some "SG"))] (None, None).

Definition french_cases : inner :=
  Inner [
    (SUBLANG_FRENCH, (None, Some "FR"));
    (SUBLANG_FRENCH_BELGIAN, (None, Some "BE"));
    (SUBLANG_FRENCH_CANADIAN, (None, Some "CA"));
    (SUBLANG_FRENCH_SWISS, (None, Some "CH"));
    (SUBLANG_FRENCH_LUXEMBOURG, (None, Some "LU"));
    (SUBLANG_FRENCH_MONACO, (None, Some "MC"));
    (SUBLANG_FRENCH_WESTINDIES, (None, None));
    (SUBLANG_FRENCH_REUNION, (None, Some "RE"));
    (SUBLANG_FRENCH_CONGO, (None, Some "CG"));
    (SUBLANG_FRENCH_SENEGAL, (None, Some "SN"));
    (SUBLANG_FRENCH_CAMEROON, (None, Some "CM"));
    (SUBLANG_FRENCH_COTEDIVOIRE, (None, Some "CI"));
    (SUBLANG_FRENCH_MALI, (None, Some "ML"));
    (SUBLANG_FRENCH_MOROCCO, (None, Some "MA"));
    (SUBLANG_FRENCH_HAITI, (None, Some "HT"))] (None, None).

Definition gaelic_cases : inner :=
  Inner [
    (0x01%Z, (Some "gd", Some "GB"));
    (0x02%Z, (Some "ga", Some "IE"))] (None, None).

Definition german_cases : inner :=
  Inner [
    (SUBLANG_GERMAN, (None, Some "DE"));
    (SUBLANG_GERMAN_SWISS, (None, Some "CH"));
    (SUBLANG_GERMAN_AUSTRIAN, (None, Some "AT"));
    (SUBLANG_GERMAN_LUXEMBOURG, (None, Some "LU"));
    (SUBLANG_GERMAN_LIECHTENSTEIN, (None, Some "LI"))] (None, None).

Definition italian_cases : inner :=
  Inner [
    (SUBLANG_ITALIAN, (None, Some "IT"));
    (SUBLANG_ITALIAN_SWISS, (None, Some "CH"))] (None, None).

Definition kashmiri_cases : inner :=
  Inner [
    (SUBLANG_DEFAULT, (None, Some "PK"));
    (SUBLANG_KASHMIRI_INDIA, (None, Some "IN"))] (None, None).

Definition malay_cases : inner :=
  Inner [
    (SUBLANG_MALAY_MALAYSIA, (None, Some "MY"));
    (SUBLANG_MALAY_BRUNEI_DARUSSALAM, (None, Some "BN"))] (None, None).

Definition nepali_cases : inner :=
  Inner [
    (SUBLANG_DEFAULT, (None, Some "NP"));
    (SUBLANG_NEPALI_INDIA, (None, Some "IN"))] (None, None).

Definition norwegian_cases : inner :=
  Inner [
    (SUBLANG_NORWEGIAN_BOKMAL, (None, Some "NO"));
    (SUBLANG_NORWEGIAN_NYNORSK, (Some "nn", Some "NO"))] (None, None).

Definition portuguese_cases : inner :=
  Inner [
    (SUBLANG_PORTUGUESE, (None, Some "PT"));
    (SUBLANG_PORTUGUESE_BRAZILIAN, (None, Some "BR"))] (None, None).

Definition punjabi_cases : inner :=
  Inner [
    (SUBLANG_PUNJABI_INDIA, (None, Some "IN"));
    (SUBLANG_PUNJABI_PAKISTAN, (None, Some "PK"))] (None, None).

Definition romanian_cases : inner :=
  Inner [
    (SUBLANG_ROMANIAN_ROMANIA, (None, Some "RO"));
    (SUBLANG_ROMANIAN_MOLDOVA, (None, Some "MD"))] (None, None).

Definition sindhi_cases : inner :=
  Inner [
    (SUBLANG_SINDHI_PAKISTAN, (None, Some "PK"))] (None, Some "AF").

Definition spanish_cases : inner :=
  Inner [
    (SUBLANG_SPANISH, (None, Some "ES"));
    (SUBLANG_SPANISH_MEXICAN, (None, Some "MX"));
    (SUBLANG_SPANISH_MODERN, (None, Some "ES@modern"));
    (SUBLANG_SPANISH_GUATEMALA, (None, Some "GT"));
    (SUBLANG_SPANISH_COSTA_RICA, (None, Some "CR"));
    (SUBLANG_SPANISH_PANAMA, (None, Some "PA"));
    (SUBLANG_SPANISH_DOMINICAN_REPUBLIC, (None, Some "DO"));
    (SUBLANG_SPANISH_VENEZUELA, (None, Some "VE"));
    (SUBLANG_SPANISH_COLOMBIA, (None, Some "CO"));
    (SUBLANG_SPANISH_PERU, (None, Some "PE"));
    (SUBLANG_SPANISH_ARGENTINA, (None, Some "AR"));
    (SUBLANG_SPANISH_ECUADOR, (None, Some "EC"));
    (SUBLANG_SPANISH_CHILE, (None, Some "CL"));
    (SUBLANG_SPANISH_URUGUAY, (None, Some "UY"));
    (SUBLANG_SPANISH_PARAGUAY, (None, Some "PY"));
    (SUBLANG_SPANISH_BOLIVIA, (None, Some "BO"));
    (SUBLANG_SPANISH_EL_SALVADOR, (None, Some "SV"));
    (SUBLANG_SPANISH_HONDURAS, (None, Some "HN"));
    (SUBLANG_SPANISH_NICARAGUA, (None, Some "NI"));
    (SUBLANG_SPANISH_PUERTO_RICO, (None, Some "PR"))] (None, None).

Definition swedish_cases : inner :=
  Inner [
    (SUBLANG_DEFAULT, (None, Some "SE"));
    (SUBLANG_SWEDISH_FINLAND, (None, Some "FI"))] (None, None).

Definition tigrinya_cases : inner :=
  Inner [
    (SUBLANG_TIGRINYA_ETHIOPIA, (None, Some "ET"));
    (SUBLANG_TIGRINYA_ERITREA, (None, Some "ER"))] (None, None).

Definition urdu_cases : inner :=
  Inner [
    (SUBLANG_URDU_PAKISTAN, (None, Some "PK"));
    (SUBLANG_URDU_INDIA, (None, Some "IN"))] (None, None).

Definition uzbek_cases : inner :=
  Inner [
    (SUBLANG_UZBEK_LATIN, (None, Some "UZ"));
    (SUBLANG_UZBEK_CYRILLIC, (None, Some "UZ@cyrillic"))] (None, None).

Definition languages_a_e : list outer := [
  Outer LANG_AFRIKAANS (Some "af", Some "ZA") None;
  Outer LANG_ALBANIAN (Some "sq", Some "AL") None;
  Outer LANG_ARABIC (Some "ar", None) (Some arabic_cases);
  Outer LANG_ARMENIAN (Some "hy", Some "AM") None;
  Outer LANG_ASSAMESE (Some "as", Some "IN") None;
  Outer LANG_AZERI (Some "az", None) (Some azeri_cases);
  Outer LANG_BASQUE (Some "eu", None) None;
  Outer LANG_BELARUSIAN (Some "be", Some "BY") None;
  Outer LANG_BENGALI (Some "bn", None) (Some bengali_cases);
  Outer LANG_BULGARIAN (Some "bg", Some "BG") None;
  Outer LANG_BURMESE (Some "my", Some "MM") None;
  Outer LANG_CAMBODIAN (Some "km", Some "KH") None;
  Outer LANG_CATALAN (Some "ca", Some "ES") None;
  Outer LANG_CHINESE (Some "zh", None) (Some chinese_cases);
  Outer LANG_CROATIAN (None, None) (Some croatian_cases);
  Outer LANG_CZECH (Some "cs", Some "CZ") None;
  Outer LANG_DANISH (Some "da", Some "DK") None;
  Outer LANG_DIVEHI (Some "div", Some "MV") None;
  Outer LANG_DUTCH (Some "nl", None) (Some dutch_cases);
  Outer LANG_ENGLISH (Some "en", None) (Some english_cases);
  Outer LANG_ESTONIAN (Some "et", Some "EE") None].

Definition languages_f_k : list outer := [
  Outer LANG_FAEROESE (Some "fo", Some "FO") None;
  Outer LANG_FARSI (Some "fa", Some "IR") None;
  Outer LANG_FINNISH (Some "fi", Some "FI") None;
  Outer LANG_FRENCH (Some "fr", None) (Some french_cases);
  Outer LANG_FRISIAN (Some "fy", Some "NL") None;
  Outer LANG_FULFULDE (Some "ful", Some "NG") None;
  Outer LANG_GAELIC (None, None) (Some gaelic_cases);
  Outer LANG_GALICIAN (Some "gl", Some "ES") None;
  Outer LANG_GEORGIAN (Some "ka", Some "GE") None;
  Outer LANG_GERMAN (Some "de", None) (Some german_cases);
  Outer LANG_GREEK (Some "el", Some "GR") None;
  Outer LANG_GUARANI (Some "gn", Some "PY") None;
  Outer LANG_GUJARATI (Some "gu", Some "IN") None;
  Outer LANG_HAUSA (Some "ha", Some "NG") None;
  Outer LANG_HAWAIIAN (Some "cpe", Some "US") None;
  Outer LANG_HEBREW (Some "he", Some "IL") None;
  Outer LANG_HINDI (Some "hi", Some "IN") None;
  Outer LANG_HUNGARIAN (Some "hu", Some "HU") None;
  Outer LANG_IBIBIO (Some "nic", Some "NG") None;
  Outer LANG_ICELANDIC (Some "is", Some "IS") None;
  Outer LANG_IGBO (Some "ibo", Some "NG") None;
  Outer LANG_INDONESIAN (Some "id", Some "ID") None;
  Outer LANG_INUKTITUT (Some "iu", Some "CA") None;
  Outer LANG_ITALIAN (Some "it", None) (Some italian_cases);
  Outer LANG_JAPANESE (Some "ja", Some "JP") None;
  Outer LANG_KANNADA (Some "kn", Some "IN") None;
  Outer LANG_KANURI (Some "kau", Some "NG") None;
  Outer LANG_KASHMIRI (Some "ks", None) (Some kashmiri_cases);
  Outer LANG_KAZAK (Some "kk", Some "KZ") None;
  Outer LANG_KONKANI (Some "kok", Some "IN") None;
  Outer LANG_KOREAN (Some "ko", Some "KR") None;
  Outer LANG_KYRGYZ (Some "ky", Some "KG") None].

Definition languages_l_s : list outer := [
  Outer LANG_LAO (Some "lo", Some "LA") None;
  Outer LANG_LATIN (Some "la", Some "VA") None;
  Outer LANG_LATVIAN (Some "lv", Some "LV") None;
  Outer LANG_LITHUANIAN (Some "lt", Some "LT") None;
  Outer LANG_MACEDONIAN (Some "mk", Some "MK") None;
  Outer LANG_MALAY (Some "ms", None) (Some malay_cases);
  Outer LANG_MALAYALAM (Some "ml", Some "IN") None;
  Outer LANG_MANIPURI (Some "mni", Some "IN") None;
  Outer LANG_MARATHI (Some "mr", Some "IN") None;
  Outer LANG_MONGOLIAN (Some "mn", None) None;
  Outer LANG_NEPALI (Some "ne", None) (Some nepali_cases);
  Outer LANG_NORWEGIAN (Some "no", None) (Some norwegian_cases);
  Outer LANG_ORIYA (Some "or", Some "IN") None;
  Outer LANG_OROMO (Some "om", Some "ET") None;
  Outer LANG_PAPIAMENTU (Some "pap", Some "AN") None;
  Outer LANG_PASHTO (Some "ps", None) None;
  Outer LANG_POLISH (Some "pl", Some "PL") None;
  Outer LANG_PORTUGUESE (Some "pt", None) (Some portuguese_cases);
  Outer LANG_PUNJABI (Some "pa", None) (Some punjabi_cases);
  Outer LANG_RHAETO_ROMANCE (Some "rm", Some "CH") None;
  Outer LANG_ROMANIAN (Some "ro", None) (Some romanian_cases);
  Outer LANG_RUSSIAN (Some "ru", None) None;
  Outer LANG_SAAMI (Some "se", Some "NO") None;
  Outer LANG_SANSKRIT (Some "sa", Some "IN") None;
  Outer LANG_SINDHI (Some "sd", None) (Some sindhi_cases);
  Outer LANG_SINHALESE (Some "si", Some "LK") None;
  Outer LANG_SLOVAK (Some "sk", Some "SK") None;
  Outer LANG_SLOVENIAN (Some "sl", Some "SI") None;
  Outer LANG_SOMALI (Some "so", Some "SO") None;
  Outer LANG_SORBIAN (Some "wen", Some "DE") None;
  Outer LANG_SPANISH (Some "es", None) (Some spanish_cases);
  Outer LANG_SUTU (Some "bnt", Some "TZ") None;
  Outer LANG_SWAHILI (Some "sw", Some "KE") None;
  Outer LANG_SWEDISH (Some "sv", None) (Some swedish_cases);
  Outer LANG_SYRIAC (Some "syr", Some "TR") None].

Definition languages_t_z : list outer := [
  Outer LANG_TAGALOG (Some "tl", Some "PH") None;
  Outer LANG_TAJIK (Some "tg", Some "TJ") None;
  Outer LANG_TAMIL (Some "ta", None) None;
  Outer LANG_TATAR (Some "tt", Some "RU") None;
  Outer LANG_TELUGU (Some "te", Some "IN") None;
  Outer LANG_THAI (Some "th", Some "TH") None;
  Outer LANG_TIBETAN (Some "bo", Some "CN") None;
  Outer LANG_TIGRINYA (Some "ti", None) (Some tigrinya_cases);
  Outer LANG_TSONGA (Some "ts", Some "ZA") None;
  Outer LANG_TSWANA (Some "tn", Some "BW") None;
  Outer LANG_TURKISH (Some "tr", Some "TR") None;
  Outer LANG_TURKMEN (Some "tk", Some "TM") None;
  Outer LANG_UKRAINIAN (Some "uk", Some "UA") None;
  Outer LANG_URDU (Some "ur", None) (Some urdu_cases);
  Outer LANG_UZBEK (Some "uz", None) (Some uzbek_cases);
  Outer LANG_VENDA (Some "ven", Some "ZA") None;
  Outer LANG_VIETNAMESE (Some "vi", Some "VN") None;
  Outer LANG_WELSH (Some "cy", Some "GB") None;
  Outer LANG_XHOSA (Some "xh", Some "ZA") None;
  Outer LANG_YI (Some "sit", Some "CN") None;
  Outer LANG_YIDDISH (Some "yi", Some "IL") None;
  Outer LANG_YORUBA (Some "yo", Some "NG") None;
  Outer LANG_ZULU (Some "zu", Some "ZA") None].
Definition languages : list outer := languages_a_e ++ languages_f_k ++ languages_l_s ++ languages_t_z.

(** ** The function *)

(** An assignment that is there. *)
Definition assign (st : string * option string) (a : assigned) : string * option string :=
  (default st.1 a.1, match a.2 with Some sl => Some sl | None => st.2 end).

Fixpoint select_inner (sub : Z) (cases : list (Z * assigned)) (d : assigned) : assigned :=
  match cases with [] => d | (code, a) :: cases => if (sub =? code)%Z then a else select_inner sub cases d end.

Fixpoint select_outer (primary : Z) (cases : list outer) : option outer :=
  match cases with [] => None | c :: cases => if (primary =? out_code c)%Z then Some c else select_outer primary cases end.

(** [l] and [sl] after the [switch]. *)
Definition language (primary sub : Z) : string * option string :=
  let st := ("C", None) in
  match select_outer primary languages with
  | None => st
  | Some c =>
      let st := assign st (out_assigned c) in
      match out_switch c with None => st | Some sw => assign st (select_inner sub (in_cases sw) (in_default sw)) end
  end.

Local Open Scope list_scope.
Local Open Scope Z_scope.

(** The first variable that is set and not empty. *)
Fixpoint first_set (vars : list (option (list Z))) : option (list Z) :=
  match vars with [] => None | Some (c :: ev) :: _ => Some (c :: ev) | _ :: vars => first_set vars end.

(** [bfr] has 20 characters; [lcid] is the locale of the thread. *)
Definition ml_win32_get_default_language (getenv : string -> option (list Z)) (lcid : Z) (bfr : list Z) : option (list Z) :=
  match first_set [getenv "LC_ALL"; getenv "LC_MESSAGES"; getenv "LANG"] with
  | Some ev => Some ev
  | None =>
      let langid := Z.land lcid 0xffff in
      let primary := Z.land langid 0x3ff in
      let sub := Z.shiftr langid 10 in
      let '(l, sl) := language primary sub in
      bfr ← strcpy bfr (str l);
      bfr ← (match sl with
             | None => Some bfr
             | Some sl =>
                 c ← rd (str sl ++ [0]) 0;
                 bfr ← (if negb (c =? 64) then strcat bfr (str "_") else Some bfr);
                 strcat bfr (str sl)
             end);
      strdup bfr
  end.

(** [ml_get_default_language] on Windows. *)
Definition get_default_language (getenv : string -> option (list Z)) (lcid : Z) (bfr : list Z) : option (list Z) :=
  lang ← (match getenv "LC_ALL" with
          | Some p => Some p
          | None =>
              match getenv "LANG" with
              | Some p => Some p
              | None =>
                  match getenv "LC_CTYPE" with
                  | Some p => Some p
                  | None => ml_win32_get_default_language getenv lcid bfr
                  end
              end
          end);
  Some (Charset.ml_get_default_language lang).

(** ** The outcomes *)

Definition inner_outcomes (st : string * option string) (sw : inner) : list (string * option string) :=
  assign st (in_default sw) :: ((fun c => assign st c.2) <$> in_cases sw).

Definition outcomes : list (string * option string) :=
  ("C", None) :: (c ← languages;
    let st := assign ("C", None) (out_assigned c) in
    match out_switch c with None => [st] | Some sw => inner_outcomes st sw end).

Lemma select_inner_in sub cases d : select_inner sub cases d = d \/ exists c, c ∈ cases /\ select_inner sub cases d = c.2.
Proof.
  induction cases as [|[code a] cases IH]; [by left|]. cbn [select_inner]. destruct (sub =? code).
  - right. exists (code, a). split; [apply list_elem_of_here|done].
  - destruct IH as [IH|(c & Hc & IH)]; [by left|right]. exists c. split; [by apply list_elem_of_further|done].
Qed.

Lemma select_outer_in primary cases c : select_outer primary cases = Some c -> c ∈ cases.
Proof.
  induction cases as [|x cases IH]; [done|]. cbn [select_outer]. destruct (primary =? out_code x).
  - intros [= ->]. apply list_elem_of_here.
  - intros H. by apply list_elem_of_further, IH.
Qed.

Lemma language_outcomes primary sub : language primary sub ∈ outcomes.
Proof.
  unfold language, outcomes. destruct (select_outer primary languages) as [c|] eqn:E; [|apply list_elem_of_here].
  apply select_outer_in in E. apply list_elem_of_further, list_elem_of_bind. exists c. split; [|done]. cbv zeta.
  destruct (out_switch c) as [sw|]; [|by apply list_elem_of_singleton]. unfold inner_outcomes.
  destruct (select_inner_in sub (in_cases sw) (in_default sw)) as [->|(x & Hx & ->)]; [apply list_elem_of_here|].
  apply list_elem_of_further, list_elem_of_fmap. by exists x.
Qed.

(** *** POSIX names: a language, and a territory of two capitals after [_] *)

Definition lower (c : Z) : bool := (97 <=? c) && (c <=? 122).
Definition upper (c : Z) : bool := (65 <=? c) && (c <=? 90).

Definition language_code (l : list Z) : bool :=
  match l with
  | [67] => true
  | [a; b] => lower a && lower b
  | [a; b; c] => lower a && lower b && lower c
  | _ => false
  end.

Definition locale_name (s : list Z) : Prop :=
  exists l, language_code l = true /\ (s = l \/ exists a b, upper a = true /\ upper b = true /\ s = l ++ [95; a; b]).

Definition locale_nameb (s : list Z) : bool :=
  language_code s ||
  language_code (take (length s - 3) s) &&
  match drop (length s - 3) s with [c; a; b] => (c =? 95) && upper a && upper b | _ => false end.

Lemma locale_nameb_ok s : locale_nameb s = true -> locale_name s.
Proof.
  unfold locale_nameb, locale_name. intros [H|[H1 H2]%andb_true_iff]%orb_true_iff; [exists s; auto|].
  exists (take (length s - 3) s). split; [done|]. right.
  destruct (drop (length s - 3) s) as [|c [|a [|b [|]]]] eqn:E; try done.
  apply andb_true_iff in H2 as [[->%Z.eqb_eq Ha]%andb_true_iff Hb]. exists a, b. split_and!; [done..|].
  by rewrite <- E, take_drop.
Qed.

(** The name that an outcome gives. *)
Definition full_name (o : string * option string) : list Z :=
  let '(l, sl) := o in
  str l ++ match sl with None => [] | Some sl => (if negb (default 0 (str sl !! 0%nat) =? 64) then [95] else []) ++ str sl end.

(** A name fits in the buffer with its final character, has no character 0, and
    is a locale name up to its modifier. *)
Definition good_name (o : string * option string) : bool :=
  let s := full_name o in
  (length s <? 20)%nat && forallb (fun c => negb (c =? 0)) s &&
  locale_nameb (Charset.ml_get_default_language s) && match o.2 with Some "" => false | _ => true end.

Lemma outcomes_good : forallb good_name outcomes = true.
Proof. vm_compute. reflexivity. Qed.

Lemma good_name_bounds o :
  good_name o = true -> (length (full_name o) < 20)%nat /\ Forall (fun c => c <> 0) (full_name o) /\ o.2 <> Some "".
Proof.
  unfold good_name. rewrite !andb_true_iff. intros [[[H1 H2] _] H3]. split; [by apply Nat.ltb_lt|]. split.
  - apply Forall_forall. intros c Hc. rewrite forallb_forall in H2. specialize (H2 c). rewrite <- list_elem_of_In in H2.
    specialize (H2 Hc). apply negb_true_iff, Z.eqb_neq in H2. done.
  - by intros E; rewrite E in H3.
Qed.

Lemma good_name_locale o : good_name o = true -> locale_name (Charset.ml_get_default_language (full_name o)).
Proof. unfold good_name. rewrite !andb_true_iff. intros [[_ H] _]. by apply locale_nameb_ok. Qed.

(** The name of the language of a thread, written in the buffer. *)
Lemma thread_language getenv lcid bfr :
  first_set [getenv "LC_ALL"; getenv "LC_MESSAGES"; getenv "LANG"] = None -> length bfr = 20%nat ->
  exists o, o ∈ outcomes /\ ml_win32_get_default_language getenv lcid bfr = Some (full_name o).
Proof.
  intros Henv Hbfr. unfold ml_win32_get_default_language. rewrite Henv. cbv zeta.
  set (primary := Z.land _ 0x3ff). set (sub := Z.shiftr _ 10). exists (language primary sub).
  split; [apply language_outcomes|]. pose proof (language_outcomes primary sub) as Hin.
  pose proof outcomes_good as Hgood. rewrite forallb_forall in Hgood. specialize (Hgood (language primary sub)).
  rewrite <- list_elem_of_In in Hgood. specialize (Hgood Hin). apply good_name_bounds in Hgood as (Hlen & Hnz & Hne).
  destruct (language primary sub) as [l sl]. cbn [full_name snd] in Hlen, Hnz, Hne |- *.
  apply Forall_app in Hnz as [Hl Hsl]. rewrite length_app in Hlen.
  destruct (strcpy_ok bfr (str l) 20) as (b1 & -> & H1); [done|done|lia|]. rewrite some_bind.
  destruct sl as [sl|]; [|rewrite some_bind, app_nil_r; by apply (strdup_ok _ _ 20)].
  apply Forall_app in Hsl as [_ Hsl]. rewrite length_app in Hlen.
  assert (Hr : rd (str sl ++ [0]) 0 = Some (default 0 (str sl !! 0%nat))) by (destruct sl; [done|reflexivity]).
  rewrite Hr, some_bind. destruct (default 0 (str sl !! 0%nat) =? 64); cbn [negb] in *.
  - rewrite some_bind. destruct (strcat_ok b1 (str l) (str sl) 20) as (b2 & -> & H2); [done|done|rewrite length_app; simpl in Hlen; lia|].
    rewrite some_bind. by apply (strdup_ok _ _ 20).
  - destruct (strcat_ok b1 (str l) (str "_") 20) as (b2 & -> & H2); [done|by repeat constructor|rewrite length_app; simpl in Hlen |- *; lia|].
    rewrite some_bind. destruct (strcat_ok b2 (str l ++ str "_") (str sl) 20) as (b3 & -> & H3); [done|done|rewrite !length_app; simpl in Hlen |- *; lia|].
    rewrite some_bind, app_assoc. by apply (strdup_ok _ _ 20).
Qed.

(** On Windows, with none of LC_ALL, LC_MESSAGES, LANG and LC_CTYPE set,
    the default language of every thread is found without leaving the buffer of
    20 characters, whatever it contained and whatever the codes of the header,
    and it is the name of a locale: C, or two or three letters, with a
    territory of two capitals or without. *)
Theorem thread_language_in_bounds getenv lcid bfr :
  getenv "LC_ALL" = None -> getenv "LC_MESSAGES" = None -> getenv "LANG" = None -> getenv "LC_CTYPE" = None ->
  length bfr = 20%nat -> exists s, get_default_language getenv lcid bfr = Some s /\ locale_name s.
Proof.
  intros H1 H2 H3 H4 Hbfr. destruct (thread_language getenv lcid bfr) as (o & Ho & E); [by rewrite H1, H2, H3|done|].
  unfold get_default_language. rewrite H1, H3, H4, E, some_bind. eexists. split; [done|]. apply good_name_locale.
  pose proof outcomes_good as Hgood. rewrite forallb_forall in Hgood. apply Hgood. by apply list_elem_of_In.
Qed.

End Tables.

(** The codes of [winnt.h]. *)
#[local] Instance Header : Winnt := {|
  LANG_BULGARIAN := 2;
  LANG_CHINESE := 4;
  LANG_CROATIAN := 26;
  LANG_CZECH := 5;
  LANG_DANISH := 6;
  LANG_DUTCH := 19;
  LANG_ENGLISH := 9;
  LANG_FINNISH := 11;
  LANG_FRENCH := 12;
  LANG_GERMAN := 7;
  LANG_GREEK := 8;
  LANG_HUNGARIAN := 14;
  LANG_ICELANDIC := 15;
  LANG_ITALIAN := 16;
  LANG_JAPANESE := 17;
  LANG_KOREAN := 18;
  LANG_NORWEGIAN := 20;
  LANG_POLISH := 21;
  LANG_PORTUGUESE := 22;
  LANG_ROMANIAN := 24;
  LANG_RUSSIAN := 25;
  LANG_SLOVENIAN := 36;
  LANG_SPANISH := 10;
  LANG_SWEDISH := 29;
  LANG_TURKISH := 31;
  SUBLANG_CHINESE_HONGKONG := 3;
  SUBLANG_CHINESE_SIMPLIFIED := 2;
  SUBLANG_CHINESE_SINGAPORE := 4;
  SUBLANG_CHINESE_TRADITIONAL := 1;
  SUBLANG_DEFAULT := 1;
  SUBLANG_DUTCH := 1;
  SUBLANG_DUTCH_BELGIAN := 2;
  SUBLANG_ENGLISH_AUS := 3;
  SUBLANG_ENGLISH_CAN := 4;
  SUBLANG_ENGLISH_EIRE := 6;
  SUBLANG_ENGLISH_NZ := 5;
  SUBLANG_ENGLISH_UK := 2;
  SUBLANG_ENGLISH_US := 1;
  SUBLANG_FRENCH := 1;
  SUBLANG_FRENCH_BELGIAN := 2;
  SUBLANG_FRENCH_CANADIAN := 3;
  SUBLANG_FRENCH_SWISS := 4;
  SUBLANG_GERMAN := 1;
  SUBLANG_GERMAN_AUSTRIAN := 3;
  SUBLANG_GERMAN_SWISS := 2;
  SUBLANG_ITALIAN := 1;
  SUBLANG_ITALIAN_SWISS := 2;
  SUBLANG_NORWEGIAN_BOKMAL := 1;
  SUBLANG_NORWEGIAN_NYNORSK := 2;
  SUBLANG_PORTUGUESE := 2;
  SUBLANG_PORTUGUESE_BRAZILIAN := 1;
  SUBLANG_SPANISH := 1;
  SUBLANG_SPANISH_MEXICAN := 2;
  SUBLANG_SPANISH_MODERN := 3
|}.

(** Swiss German, cut from nothing; Latin Azeri without its modifier. *)
Lemma thread_language_in_bounds_witness :
  let getenv := fun _ : string => @None (list Z) in
  (exists s, get_default_language getenv 0x0807 (replicate 20 7) = Some s /\ locale_name s) /\
  get_default_language getenv 0x0807 (replicate 20 7) = Some (str "de_CH") /\
  get_default_language getenv 0x042c (replicate 20 7) = Some (str "az_AZ").
Proof.
  intros getenv. split; [|split; vm_compute; reflexivity].
  apply (thread_language_in_bounds getenv 0x0807 (replicate 20 7)); reflexivity.
Defined.
End Win32Lang.
