(* ===== verification/Bitstring.v ===== *)
(** * Integers read from strings

    [src/src/utils/bitstring/bitstring_c.c] and [byteswap.h]: the eighteen
    fast paths that read a 16, 32 or 64-bit integer, of either endianness, at a
    byte offset.  Memory is little-endian ([WORDS_BIGENDIAN] undefined). *)

From Stdlib Require Import ZArith Lia.
From stdpp Require Import base option numbers list.
From S2P Require Import Prelude.

Local Open Scope Z_scope.

Module Bitstring.

Definition bswap_16 (x : Z) : Z :=
  Z.lor (Z.shiftl (Z.land x 0x00FF) 8) (Z.shiftr (Z.land x 0xFF00) 8).

Definition bswap_32 (x : Z) : Z :=
  Z.lor (Z.lor (Z.lor (Z.shiftl (Z.land x 0x000000FF) 24) (Z.shiftl (Z.land x 0x0000FF00) 8))
    (Z.shiftr (Z.land x 0x00FF0000) 8)) (Z.shiftr (Z.land x 0xFF000000) 24).

Definition bswap_64 (x : Z) : Z :=
  Z.lor (Z.lor (Z.lor (Z.lor (Z.lor (Z.lor (Z.lor
    (Z.shiftl (Z.land x 0x00000000000000FF) 56) (Z.shiftl (Z.land x 0x000000000000FF00) 40))
    (Z.shiftl (Z.land x 0x0000000000FF0000) 24)) (Z.shiftl (Z.land x 0x00000000FF000000) 8))
    (Z.shiftr (Z.land x 0x000000FF00000000) 8)) (Z.shiftr (Z.land x 0x0000FF0000000000) 24))
    (Z.shiftr (Z.land x 0x00FF000000000000) 40)) (Z.shiftr (Z.land x 0xFF00000000000000) 56).

Inductive endian := be | le | ne.

Definition swap (bswap : Z -> Z) (e : endian) (v : Z) : Z :=
  match e with be => bswap v | le => v | ne => v end.

(** Signed types. *)
Definition s16 (z : Z) : Z := (z + 32768) mod 65536 - 32768.
Definition s64 (z : Z) : Z := (z + 9223372036854775808) mod 18446744073709551616 - 9223372036854775808.

(** [type r; memcpy (&r, ptr, sizeof (r)); swap (r)]: [type] converts to the
    type of [size] bytes; [ptr] is [Int_val (offv)] bytes into the string, and
    [Int_val] keeps 32 bits of the offset, read with their sign. *)
Definition read_int (size : Z) (type bswap : Z -> Z) (e : endian) (strv : list Z) (offv : Z) : option Z :=
  bytes ← sub_bytes strv (s32 offv) size;
  let r := type (le_word bytes) in
  Some (type (swap bswap e r)).

(** [fastpath1]: the value is an OCaml integer. *)
Definition extract_fastpath_int16 (e : endian) (signed : bool) (strv : list Z) (offv : Z) : option Z :=
  read_int 2 (if signed then s16 else u16) bswap_16 e strv offv.

(** [fastpath2]: boxed, as [int32_t] or [int64_t] whatever the type of [r]. *)
Definition extract_fastpath_int32 (e : endian) (signed : bool) (strv : list Z) (offv : Z) : option Z :=
  s32 <$> read_int 4 (if signed then s32 else u32) bswap_32 e strv offv.

Definition extract_fastpath_int64 (e : endian) (signed : bool) (strv : list Z) (offv : Z) : option Z :=
  s64 <$> read_int 8 (if signed then s64 else u64) bswap_64 e strv offv.

(** ** Bytes of a word *)

(** A mask of [n] bits does not see above them. *)
Lemma land_mask_low n a b m : 0 <= n -> word n m -> a mod 2 ^ n = b mod 2 ^ n -> Z.land a m = Z.land b m.
Proof.
  intros Hn Hm E. apply word_bits in Hm as [_ Hm]; [|done]. apply Z.bits_inj'. intros i Hi. rewrite !Z.land_spec.
  destruct (Z.ltb_spec i n).
  - f_equal. by rewrite <- (Z.mod_pow2_bits_low a n), <- (Z.mod_pow2_bits_low b n), E by lia.
  - by rewrite (Hm i), !andb_false_r by done.
Qed.

Lemma land_byte b l : word 8 b -> Z.land (le_word (b :: l)) 255 = b.
Proof.
  intros Hb. rewrite le_word_cons by done. change 255 with (Z.ones 8). rewrite Z.land_ones by lia.
  unfold word in Hb. change (2 ^ 8) with 256 in *. Z.div_mod_to_equations. lia.
Qed.

Lemma land_next b l m : word 8 b -> Z.land (le_word (b :: l)) (Z.shiftl m 8) = Z.shiftl (Z.land (le_word l) m) 8.
Proof.
  intros Hb. apply word_bits in Hb as [_ Hb]; [|lia]. cbn [le_word]. apply Z.bits_inj'. intros i Hi.
  rewrite Z.land_spec, Z.lor_spec. destruct (Z.ltb_spec i 8).
  - by rewrite !Z.shiftl_spec_low, andb_false_r by done.
  - rewrite !Z.shiftl_spec, Z.land_spec, (Hb i) by lia. done.
Qed.

Lemma shift_out b k j : 0 <= j <= k -> Z.shiftr (Z.shiftl b k) j = Z.shiftl b (k - j).
Proof. intros. by rewrite Z.shiftr_shiftl_l by lia. Qed.

(** The bytes that the masks select, in place. *)
Ltac select_bytes :=
  change 0xFF00 with (Z.shiftl 255 8); change 0xFF0000 with (Z.shiftl (Z.shiftl 255 8) 8);
  change 0xFF000000 with (Z.shiftl (Z.shiftl (Z.shiftl 255 8) 8) 8);
  change 0xFF00000000 with (Z.shiftl (Z.shiftl (Z.shiftl (Z.shiftl 255 8) 8) 8) 8);
  change 0xFF0000000000 with (Z.shiftl (Z.shiftl (Z.shiftl (Z.shiftl (Z.shiftl 255 8) 8) 8) 8) 8);
  change 0xFF000000000000 with (Z.shiftl (Z.shiftl (Z.shiftl (Z.shiftl (Z.shiftl (Z.shiftl 255 8) 8) 8) 8) 8) 8);
  change 0xFF00000000000000 with (Z.shiftl (Z.shiftl (Z.shiftl (Z.shiftl (Z.shiftl (Z.shiftl (Z.shiftl 255 8) 8) 8) 8) 8) 8) 8);
  rewrite ?land_next, ?land_byte, ?Z.shiftl_shiftl, ?shift_out by (done || lia); simpl Z.add; simpl Z.sub;
  rewrite ?Z.shiftl_0_r.

Lemma bswap_16_bytes a b : Forall (word 8) [a; b] -> bswap_16 (le_word [a; b]) = le_word [b; a].
Proof.
  rewrite !Forall_cons. intros (Ha & Hb & _). unfold bswap_16. select_bytes. cbn [le_word].
  rewrite Z.shiftl_0_l, Z.lor_0_r. apply Z.lor_comm.
Qed.

Lemma bswap_32_bytes a b c d : Forall (word 8) [a; b; c; d] -> bswap_32 (le_word [a; b; c; d]) = le_word [d; c; b; a].
Proof.
  rewrite !Forall_cons. intros (Ha & Hb & Hc & Hd & _). unfold bswap_32. select_bytes. cbn [le_word].
  rewrite Z.shiftl_0_l, Z.lor_0_r, !Z.shiftl_lor, !Z.shiftl_shiftl by lia. simpl Z.add.
  rewrite (Z.lor_comm _ d). f_equal. rewrite (Z.lor_comm _ (Z.shiftl c 8)). f_equal. apply Z.lor_comm.
Qed.

Lemma bswap_64_bytes a b c d e f g h :
  Forall (word 8) [a; b; c; d; e; f; g; h] -> bswap_64 (le_word [a; b; c; d; e; f; g; h]) = le_word [h; g; f; e; d; c; b; a].
Proof.
  rewrite !Forall_cons. intros (Ha & Hb & Hc & Hd & He & Hf & Hg & Hh & _). unfold bswap_64. select_bytes. cbn [le_word].
  rewrite Z.shiftl_0_l, Z.lor_0_r, !Z.shiftl_lor, !Z.shiftl_shiftl by lia. simpl Z.add.
  rewrite (Z.lor_comm _ h). f_equal. rewrite (Z.lor_comm _ (Z.shiftl g 8)). f_equal.
  rewrite (Z.lor_comm _ (Z.shiftl f 16)). f_equal. rewrite (Z.lor_comm _ (Z.shiftl e 24)). f_equal.
  rewrite (Z.lor_comm _ (Z.shiftl d 32)). f_equal. rewrite (Z.lor_comm _ (Z.shiftl c 40)). f_equal. apply Z.lor_comm.
Qed.

(** The swaps of a signed reading are those of the word. *)
Lemma bswap_16_s16 x : bswap_16 (s16 x) = bswap_16 x.
Proof.
  assert (H : forall m, word 16 m -> Z.land (s16 x) m = Z.land x m).
  { intros m Hm. apply (land_mask_low 16); [lia|done|]. unfold s16. change (2 ^ 16) with 65536. Z.div_mod_to_equations. lia. }
  unfold bswap_16. by rewrite !H by (unfold word; lia).
Qed.

Lemma bswap_32_s32 x : bswap_32 (s32 x) = bswap_32 x.
Proof.
  assert (H : forall m, word 32 m -> Z.land (s32 x) m = Z.land x m).
  { intros m Hm. apply (land_mask_low 32); [lia|done|]. unfold s32. change (2 ^ 32) with 4294967296. Z.div_mod_to_equations. lia. }
  unfold bswap_32. by rewrite !H by (unfold word; lia).
Qed.

Lemma bswap_64_s64 x : bswap_64 (s64 x) = bswap_64 x.
Proof.
  assert (H : forall m, word 64 m -> Z.land (s64 x) m = Z.land x m).
  { intros m Hm. apply (land_mask_low 64); [lia|done|]. unfold s64. change (2 ^ 64) with 18446744073709551616.
    Z.div_mod_to_equations. lia. }
  unfold bswap_64. by rewrite !H by (unfold word; lia).
Qed.

(** ** The values read *)

(** The bytes from the least significant one. *)
Definition order (e : endian) (bytes : list Z) : list Z := match e with be => rev bytes | le => bytes | ne => bytes end.

(** A read inside the string, for a swap that reverses the bytes. *)
Lemma read_int_ok (size : nat) (type bswap : Z -> Z) e strv (off : nat) :
  Z.of_nat off < 2 ^ 31 -> (off + size <= length strv)%nat ->
  let w := le_word (take size (drop off strv)) in
  type (type w) = type w -> bswap (type w) = le_word (rev (take size (drop off strv))) ->
  read_int (Z.of_nat size) type bswap e strv (Z.of_nat off) = Some (type (le_word (order e (take size (drop off strv))))).
Proof.
  intros Hi Hoff w Ht Hb. unfold read_int. rewrite s32_small, sub_bytes_in, some_bind by (done || lia). fold w.
  destruct e; cbn [swap order]; [by rewrite Hb|by rewrite Ht|by rewrite Ht].
Qed.

(** Reductions to a width. *)
Lemma s16_idem x : s16 (s16 x) = s16 x.
Proof. unfold s16. Z.div_mod_to_equations. lia. Qed.
Lemma s32_idem x : s32 (s32 x) = s32 x.
Proof. unfold s32. Z.div_mod_to_equations. lia. Qed.
Lemma s64_idem x : s64 (s64 x) = s64 x.
Proof. unfold s64. Z.div_mod_to_equations. lia. Qed.
Lemma s32_u32 x : s32 (u32 x) = s32 x.
Proof. unfold s32, u32. Z.div_mod_to_equations. lia. Qed.
Lemma s64_u64 x : s64 (u64 x) = s64 x.
Proof. unfold s64, u64. Z.div_mod_to_equations. lia. Qed.

Section Read.
Context (strv : list Z) (bytes : Forall (word 8) strv).

Lemma segment_word (size off : nat) :
  (off + size <= length strv)%nat -> let l := take size (drop off strv) in
  length l = size /\ Forall (word 8) l /\ forall e, word (8 * Z.of_nat size) (le_word (order e l)).
Proof.
  intros Hoff l. assert (Hl : length l = size) by (unfold l; rewrite length_take, length_drop; lia).
  assert (Hw : Forall (word 8) l) by (by apply Forall_take, Forall_drop). split; [done|]. split; [done|].
  intros []; cbn [order]; apply le_word_range; rewrite ?length_rev; [done|by apply Forall_rev|done..].
Qed.

(** Four words of the list are its elements. *)
Lemma bswap_16_rev l : length l = 2%nat -> Forall (word 8) l -> bswap_16 (le_word l) = le_word (rev l).
Proof. destruct l as [|a [|b [|]]]; try done. intros _. apply bswap_16_bytes. Qed.
Lemma bswap_32_rev l : length l = 4%nat -> Forall (word 8) l -> bswap_32 (le_word l) = le_word (rev l).
Proof. destruct l as [|a [|b [|c [|d [|]]]]]; try done. intros _. apply bswap_32_bytes. Qed.
Lemma bswap_64_rev l : length l = 8%nat -> Forall (word 8) l -> bswap_64 (le_word l) = le_word (rev l).
Proof. destruct l as [|a [|b [|c [|d [|e [|f [|g [|h [|]]]]]]]]]; try done. intros _. apply bswap_64_bytes. Qed.

(** C32: inside a string of bytes, at an offset that an [int] holds, each of
    the eighteen fast paths reads the integer whose bytes, from the least
    significant one, are those of the string in the order of the endianness; 16
    bits with or without sign, 32 and 64 bits as the signed integer OCaml has at
    that width. *)
Theorem extract_fastpath_ok e signed (off : nat) :
  Z.of_nat off < 2 ^ 31 ->
  ((off + 2 <= length strv)%nat -> extract_fastpath_int16 e signed strv (Z.of_nat off) =
     Some ((if signed then s16 else id) (le_word (order e (take 2 (drop off strv)))))) /\
  ((off + 4 <= length strv)%nat -> extract_fastpath_int32 e signed strv (Z.of_nat off) =
     Some (s32 (le_word (order e (take 4 (drop off strv)))))) /\
  ((off + 8 <= length strv)%nat -> extract_fastpath_int64 e signed strv (Z.of_nat off) =
     Some (s64 (le_word (order e (take 8 (drop off strv)))))).
Proof.
  unfold extract_fastpath_int16, extract_fastpath_int32, extract_fastpath_int64.
  intros Hi. split; [|split]; intros Hoff; destruct (segment_word _ _ Hoff) as (Hl & Hw & Hr); pose proof (Hr le) as Hle; cbn [order] in Hle.
  - rewrite (read_int_ok 2); [|done|done| |].
    + destruct signed; [done|]. by rewrite (u16_id _ (Hr e)).
    + destruct signed; [apply s16_idem|by rewrite !(u16_id _ Hle)].
    + destruct signed; rewrite ?bswap_16_s16, ?(u16_id _ Hle); by apply bswap_16_rev.
  - rewrite (read_int_ok 4); [|done|done| |].
    + destruct signed; simpl; by rewrite ?s32_idem, ?s32_u32.
    + destruct signed; [apply s32_idem|by rewrite !(u32_id _ Hle)].
    + destruct signed; rewrite ?bswap_32_s32, ?(u32_id _ Hle); by apply bswap_32_rev.
  - rewrite (read_int_ok 8); [|done|done| |].
    + destruct signed; simpl; by rewrite ?s64_idem, ?s64_u64.
    + destruct signed; [apply s64_idem|by rewrite !(u64_id _ Hle)].
    + destruct signed; rewrite ?bswap_64_s64, ?(u64_id _ Hle); by apply bswap_64_rev.
Qed.
End Read.

(** Big-endian -2 at offset 1, and the wider readings there. *)
Lemma extract_fastpath_ok_witness :
  let strv := [7; 255; 254; 1; 2; 3; 4; 5; 128] in
  extract_fastpath_int16 be true strv 1 = Some (-2) /\ extract_fastpath_int16 be false strv 1 = Some 65534 /\
  extract_fastpath_int32 le false strv 1 = Some 33685247 /\ extract_fastpath_int64 ne true strv 1 = Some (-9221960251006124289).
Proof.
  intros strv. assert (bytes : Forall (word 8) strv) by (repeat constructor; unfold word; lia).
  assert (Hi : Z.of_nat 1 < 2 ^ 31) by lia.
  destruct (extract_fastpath_ok strv bytes be true 1 Hi) as [H1 _].
  destruct (extract_fastpath_ok strv bytes be false 1 Hi) as [H2 _].
  destruct (extract_fastpath_ok strv bytes le false 1 Hi) as (_ & H3 & _).
  destruct (extract_fastpath_ok strv bytes ne true 1 Hi) as (_ & _ & H4).
  change 1 with (Z.of_nat 1). rewrite H1, H2, H3, H4 by (vm_compute; lia). vm_compute. done.
Defined.
End Bitstring.
