(* ===== verification/FileSize.v ===== *)
(** * The size of a file

    [os_getfdsize] and [os_ftruncate] of [src/src/config/unix/os_stubs_c.c] and
    their entry points in [src/src/utils/lib/stubs_c.c].  The system calls are
    parameters ([SizeCalls]); what is relied on of them is in [Sized]. *)

From Stdlib Require Import ZArith Lia.
From stdpp Require Import base option numbers list.
From S2P Require Import Prelude Os.

Local Open Scope Z_scope.

Module FileSize.

(** [F] is the state of an open file.  [None] is a negative result; [write] and
    [posix_fallocate] give their results. *)
Class SizeCalls (F : Type) := {
  fd_num : F -> Z;
  fstat_size : F -> option Z;
  lseek_set : F -> Z -> option F;
  write : F -> list Z -> Z * F;
  ftruncate : F -> Z -> option F;
  HAVE_POSIX_FALLOCATE : bool;
  posix_fallocate : F -> Z -> Z -> Z * F
}.

Section Calls.
Context {F : Type} `{!SizeCalls F}.

Definition os_getfdsize (fd : F) : io Z := match fstat_size fd with None => Unix_error | Some size => Ret size end.

(** After the attempt to allocate. *)
Definition resize (fd : F) (cursize len : Z) : io F :=
  if cursize <? len then
    match lseek_set fd (len - 1) with
    | None => Unix_error
    | Some fd => Ret (snd (write fd [0]))
    end
  else if negb (cursize =? len) then match ftruncate fd len with None => Unix_error | Some fd => Ret fd end
  else Ret fd.

(** [failwith] is [Unix_error] here; the result of [write] is dropped. *)
Definition os_ftruncate (fd : F) (len : Z) (sparse : bool) : io F :=
  if fd_num fd =? 0 then Unix_error
  else
    cursize ← os_getfdsize fd;
    if HAVE_POSIX_FALLOCATE && negb sparse then
      let '(r, fd) := posix_fallocate fd cursize (len - cursize) in
      if r =? 0 then Ret fd else resize fd cursize len
    else resize fd cursize len.

Definition mld_ftruncate_64 (fd : F) (len : Z) (sparse : bool) : io F := os_ftruncate fd len sparse.

Definition ml_getfdsize64 (fd : F) : io Z := os_getfdsize fd.
End Calls.

(** ** What the calls promise for a regular file *)

(** [content], extended by zeros up to [n]. *)
Definition extend (content : list Z) (n : nat) : list Z := content ++ replicate (n - length content) 0.

(** [file fd content p]: the file has these bytes and the offset [p].  A write
    past the end leaves zeros before it; a full disk changes nothing.  An
    allocation refuses an empty range. *)
Class Sized {F} (C : SizeCalls F) := {
  file : F -> list Z -> nat -> Prop;
  fstat_ok fd content p : file fd content p -> fstat_size fd = Some (Z.of_nat (length content));
  lseek_set_ok fd content p (q : nat) :
    file fd content p -> exists fd', lseek_set fd (Z.of_nat q) = Some fd' /\ file fd' content q /\ fd_num fd' = fd_num fd;
  write_ok fd content (p : nat) bs :
    file fd content p -> (length content <= p)%nat -> exists r fd', write fd bs = (r, fd') /\
      ((r = Z.of_nat (length bs) /\ file fd' (extend content p ++ bs) (p + length bs)) \/ (r < 0 /\ file fd' content p));
  ftruncate_ok fd content p (n : nat) :
    file fd content p -> (n <= length content)%nat -> exists fd', ftruncate fd (Z.of_nat n) = Some fd' /\ file fd' (take n content) p;
  fallocate_ok fd content p (off : nat) n :
    file fd content p -> exists r fd', posix_fallocate fd (Z.of_nat off) n = (r, fd') /\
      ((r = 0 /\ 0 < n /\ file fd' (extend content (off + Z.to_nat n)) p) \/ (r <> 0 /\ file fd' content p))
}.

Section Promise.
Context {F : Type} {C : SizeCalls F} {S : Sized C}.

(** What [os_ftruncate] is for. *)
Definition resized (content : list Z) (n : nat) : list Z := take n (extend content n).

Lemma resized_shrink content n : (n <= length content)%nat -> resized content n = take n content.
Proof. intros. unfold resized, extend. by rewrite take_app_le by done. Qed.

Lemma resized_grow content n : (length content <= n)%nat -> resized content n = extend content n.
Proof. intros. unfold resized. apply take_ge. unfold extend. rewrite length_app, length_replicate. lia. Qed.

Lemma length_resized content n : length (resized content n) = n.
Proof. unfold resized, extend. rewrite length_take, length_app, length_replicate. lia. Qed.

(** One zero after the gap. *)
Lemma extend_last content n : (length content < n)%nat -> extend content (n - 1) ++ [0] = extend content n.
Proof.
  intros Hn. unfold extend. rewrite <- app_assoc. f_equal. change [0] with (replicate 1 0).
  rewrite <- replicate_add. f_equal. lia.
Qed.

Lemma resize_ok fd content p (n : nat) :
  file fd content p -> exists fd' content' p', resize fd (Z.of_nat (length content)) (Z.of_nat n) = Ret fd' /\
    file fd' content' p' /\ (content' = resized content n \/ (content' = content /\ (length content < n)%nat)).
Proof.
  intros Hf. unfold resize. destruct (Z.ltb_spec (Z.of_nat (length content)) (Z.of_nat n)) as [Hlt|Hge].
  - replace (Z.of_nat n - 1) with (Z.of_nat (n - 1)) by lia.
    destruct (lseek_set_ok fd content p (n - 1) Hf) as (fd1 & -> & Hf1 & _).
    destruct (write_ok fd1 content (n - 1) [0] Hf1) as (r & fd2 & -> & [[_ Hf2]|[_ Hf2]]); [lia| |].
    + eexists _, _, _. split; [done|]. split; [exact Hf2|left]. rewrite extend_last by lia. by rewrite resized_grow by lia.
    + eexists _, _, _. split; [done|]. split; [exact Hf2|right]. split; [done|lia].
  - destruct (Z.eqb_spec (Z.of_nat (length content)) (Z.of_nat n)) as [E|E]; cbn [negb].
    + eexists _, _, _. split; [done|]. split; [exact Hf|left]. by rewrite resized_shrink, take_ge by lia.
    + destruct (ftruncate_ok fd content p n Hf) as (fd1 & -> & Hf1); [lia|].
      eexists _, _, _. split; [done|]. split; [exact Hf1|left]. by rewrite resized_shrink by lia.
Qed.

(** On an open regular file [mld_ftruncate_64] raises nothing, with and
    without sparse files and [posix_fallocate]: it cuts the file, or extends it
    by zeros, to the length asked; only when the disk is full does it leave a
    file that should grow as it was (and the caller is not told). *)
Theorem ftruncate_resizes fd content p (n : nat) sparse :
  file fd content p -> fd_num fd <> 0 ->
  exists fd' content' p', mld_ftruncate_64 fd (Z.of_nat n) sparse = Ret fd' /\ file fd' content' p' /\
    ml_getfdsize64 fd' = Ret (Z.of_nat (length content')) /\
    ((content' = resized content n /\ length content' = n) \/ (content' = content /\ (length content < n)%nat)).
Proof.
  intros Hf Hfd.
  assert (H : exists fd' content' p', mld_ftruncate_64 fd (Z.of_nat n) sparse = Ret fd' /\ file fd' content' p' /\
    (content' = resized content n \/ (content' = content /\ (length content < n)%nat))).
  { unfold mld_ftruncate_64, os_ftruncate, os_getfdsize. destruct (Z.eqb_spec (fd_num fd) 0); [done|].
    rewrite (fstat_ok fd content p Hf), bind_ret. destruct (_ && _); [|by eapply resize_ok].
    destruct (fallocate_ok fd content p (length content) (Z.of_nat n - Z.of_nat (length content)) Hf)
      as (r & fd1 & -> & [(-> & Hn & Hf1)|[Hr Hf1]]); cbn [Z.eqb].
    - eexists _, _, _. split; [done|]. split; [exact Hf1|left]. rewrite resized_grow by lia. f_equal. lia.
    - destruct (Z.eqb_spec r 0); [done|]. by eapply resize_ok. }
  destruct H as (fd' & content' & p' & E & Hf' & Hc). exists fd', content', p'. split; [done|]. split; [done|].
  split; [unfold ml_getfdsize64, os_getfdsize; by rewrite (fstat_ok _ _ _ Hf')|].
  destruct Hc as [->|Hc]; [left|by right]. split; [done|apply length_resized].
Qed.
End Promise.

(** ** A disk with room for [d_room] bytes *)

Record ram := Ram { m_num : Z; m_content : list Z; m_pos : nat; m_room : nat }.

#[export] Instance RamCalls : SizeCalls ram := {
  fd_num := m_num;
  fstat_size d := Some (Z.of_nat (length (m_content d)));
  lseek_set d p := if 0 <=? p then Some (Ram (m_num d) (m_content d) (Z.to_nat p) (m_room d)) else None;
  write d bs :=
    if decide (m_pos d + length bs <= m_room d)%nat
    then (Z.of_nat (length bs), Ram (m_num d)
      (take (m_pos d) (extend (m_content d) (m_pos d)) ++ bs ++ drop (m_pos d + length bs) (m_content d)) (m_pos d + length bs) (m_room d))
    else (-1, d);
  ftruncate d n := if (0 <=? n) && (n <=? Z.of_nat (m_room d))
    then Some (Ram (m_num d) (resized (m_content d) (Z.to_nat n)) (m_pos d) (m_room d)) else None;
  HAVE_POSIX_FALLOCATE := true;
  posix_fallocate d off n :=
    if (0 <=? off) && (0 <? n) then
      if off + n <=? Z.of_nat (m_room d)
      then (0, Ram (m_num d) (extend (m_content d) (Z.to_nat (off + n))) (m_pos d) (m_room d))
      else (28, d)
    else (22, d)
}.

Definition ram_file (d : ram) (content : list Z) (p : nat) : Prop :=
  m_content d = content /\ m_pos d = p /\ (length content <= m_room d)%nat.

#[export] Instance RamSized : Sized RamCalls.
Proof.
  refine {| file := ram_file |}.
  - by intros d content p (<- & _ & _).
  - intros d content p q (Hc & Hp & Hr). cbn. destruct (Z.leb_spec 0 (Z.of_nat q)); [|lia]. eexists. split; [done|].
    rewrite Nat2Z.id. done.
  - intros d content p bs (<- & <- & Hr) Hp. cbn. case_decide as Hd; eexists _, _; (split; [done|]); [left|right].
    + split; [done|]. assert (El : length (extend (m_content d) (m_pos d)) = m_pos d).
      { unfold extend. rewrite length_app, length_replicate. lia. }
      rewrite take_ge, drop_ge, app_nil_r by lia. split; [done|]. split; [done|]. cbn. rewrite length_app. lia.
    + split; [lia|done].
  - intros d content p n (<- & <- & Hr) Hn. cbn.
    replace (_ && _) with true by (symmetry; apply andb_true_iff; split; apply Z.leb_le; lia).
    eexists. split; [done|]. rewrite Nat2Z.id, resized_shrink by done. split; [done|]. split; [done|]. rewrite length_take. cbn. lia.
  - intros d content p off n (<- & <- & Hr). cbn. destruct (Z.leb_spec 0 (Z.of_nat off)); [|lia]. cbn [andb].
    destruct (Z.ltb_spec 0 n) as [Hn|Hn]; [|by eexists _, _; split; [done|right]].
    destruct (Z.leb_spec (Z.of_nat off + n) (Z.of_nat (m_room d))) as [Hroom|Hroom]; [|by eexists _, _; split; [done|right]].
    eexists _, _. split; [done|left]. split; [done|]. split; [done|].
    replace (Z.to_nat (Z.of_nat off + n)) with (off + Z.to_nat n)%nat by lia. split; [done|]. split; [done|].
    unfold extend. rewrite length_app, length_replicate. cbn. lia.
Defined.

(** Allocated, sparse, and cut; and with a full disk. *)
Lemma ftruncate_resizes_witness :
  (exists fd' content' p', mld_ftruncate_64 (Ram 3 [1; 2] 0 10) (Z.of_nat 4) false = Ret fd' /\ file fd' content' p' /\
    ml_getfdsize64 fd' = Ret (Z.of_nat (length content')) /\
    ((content' = resized [1; 2] 4 /\ length content' = 4%nat) \/ (content' = [1; 2] /\ (2 < 4)%nat))) /\
  mld_ftruncate_64 (Ram 3 [1; 2] 0 10) 4 false = Ret (Ram 3 [1; 2; 0; 0] 0 10) /\
  mld_ftruncate_64 (Ram 3 [1; 2] 0 10) 4 true = Ret (Ram 3 [1; 2; 0; 0] 4 10) /\
  mld_ftruncate_64 (Ram 3 [1; 2] 0 10) 1 false = Ret (Ram 3 [1] 0 10) /\
  mld_ftruncate_64 (Ram 3 [1; 2] 0 3) 4 false = Ret (Ram 3 [1; 2] 3 3).
Proof.
  split; [|split_and!; vm_compute; reflexivity].
  apply (ftruncate_resizes (S := RamSized) (Ram 3 [1; 2] 0 10) [1; 2] 0 4 false); [|discriminate].
  split; [reflexivity|]. split; [reflexivity|]. simpl. lia.
Defined.
End FileSize.
