(* ===== verification/WinOs.v ===== *)
(** * Files on Windows

    [os_read], [os_lseek], [os_ftruncate], [os_getfdsize] and [os_getfilesize]
    of [src/src/config/mingw/os_stubs_c.c].  The 64-bit offsets of the callers
    are split into the two 32-bit words of the system calls, which are
    parameters ([Win32]); what their documentation says of a disk file is in
    [WinFile].  A file read through these functions is [Readable]. *)

From Stdlib Require Import ZArith Lia.
From stdpp Require Import base option numbers list.
From S2P Require Import Prelude Os MerkleDamgard Md5 Md4 Sha1 HashFd FileSize.
Import FileSize.

Local Open Scope Z_scope.

Module WinOs.

(** ** The system calls *)

Definition FILE_BEGIN : Z := 0.
Definition FILE_CURRENT : Z := 1.
Definition NO_ERROR : Z := 0.
Definition INVALID_SET_FILE_POINTER : Z := 4294967295.

(** What [SetFilePointer] returns, what it leaves in the high word it was given,
    and what [GetLastError] says then. *)
Record seek (F : Type) := Seek { s_low : Z; s_high : Z; s_err : Z; s_fd : F }.
Arguments Seek {F} s_low s_high s_err s_fd.
Arguments s_low {F} s.
Arguments s_high {F} s.
Arguments s_err {F} s.
Arguments s_fd {F} s.

(** [F] is the state of an open file.  [ReadFile] gives [None] for [FALSE];
    [SetEndOfFile] gives its result and the last error; [GetFileSize] the two
    words; [CreateFile] a handle or the last error. *)
Class Win32 (F : Type) := {
  ReadFile : F -> Z -> option (list Z * F);
  SetFilePointer : F -> Z -> option Z -> Z -> seek F;
  SetEndOfFile : F -> bool * Z * F;
  GetFileSize : F -> Z * Z;
  CreateFile : list Z -> F + Z;
  FSCTL_SET_SPARSE : F -> F
}.

(** ** The functions *)

Section Functions.
Context {F : Type} `{!Win32 F}.

Definition UNIX_BUFFER_SIZE : Z := 16384.

Definition os_read (fd : F) (len : Z) : io (list Z * F) :=
  let len := if UNIX_BUFFER_SIZE <? len then UNIX_BUFFER_SIZE else len in
  match ReadFile fd len with None => Unix_error | Some r => Ret r end.

(** [(OFF_T) high << 32 | low] *)
Definition join (high low : Z) : Z := Z.lor (Z.shiftl high 32) low.

Definition os_lseek (fd : F) (ofs cmd : Z) : io (Z * F) :=
  let ofs_low := s32 ofs in
  let ofs_high := s32 (Z.shiftr ofs 32) in
  let s := SetFilePointer fd ofs_low (Some ofs_high) cmd in
  if (s_low s =? INVALID_SET_FILE_POINTER) && negb (s_err s =? NO_ERROR) then Unix_error
  else Ret (join (s_high s) (s_low s), s_fd s).

(** The block after the conditions of [os_ftruncate]. *)
Definition ftruncate_error (err : Z) (fd : F) : io F := if negb (err =? NO_ERROR) then Unix_error else Ret fd.

Definition os_ftruncate (fd : F) (size : Z) (sparse : bool) : io F :=
  let ofs_low := s32 size in
  let ofs_high := s32 (Z.shiftr size 32) in
  let fd := if sparse then FSCTL_SET_SPARSE fd else fd in
  let curpos := SetFilePointer fd 0 None FILE_CURRENT in
  if s_low curpos =? INVALID_SET_FILE_POINTER then ftruncate_error (s_err curpos) (s_fd curpos)
  else
    let s := SetFilePointer (s_fd curpos) ofs_low (Some ofs_high) FILE_BEGIN in
    if s_low s =? INVALID_SET_FILE_POINTER then ftruncate_error (s_err s) (s_fd s)
    else let '(done, err, fd) := SetEndOfFile (s_fd s) in if done then Ret fd else ftruncate_error err fd.

(** [ret] is an [int64_t]. *)
Definition os_getfdsize (fd : F) : Z := let '(ret, len_high) := GetFileSize fd in join (s32 len_high) ret.

(** [ret] is a [long], of 32 bits. *)
Definition os_getfilesize (path : list Z) : io Z :=
  match CreateFile path with
  | inl fd => let '(ret, len_high) := GetFileSize fd in Ret (join (s32 len_high) (s32 ret))
  | inr err => if negb (err =? NO_ERROR) then Unix_error else Ret 0
  end.
End Functions.

(** ** What the calls promise for a file on a disk *)

(** [a] and [b] agree as far as both go. *)
Definition common (a b : list Z) : Prop := take (length b) a = take (length a) b.

(** [win_at fd content p]: the file has these bytes and its pointer is [p].
    Without a high word, [SetFilePointer] fails when the pointer does not fit
    in 32 bits; with one, the last error tells the word [INVALID_SET_FILE_POINTER]
    from a failure.  What a longer file holds after its old end is not said. *)
Class WinFile {F} (W : Win32 F) := {
  win_at : F -> list Z -> nat -> Prop;
  win_bound fd content p : win_at fd content p -> Z.of_nat (length content) < 2 ^ 63;
  ReadFile_ok fd content p (n : nat) :
    win_at fd content p -> Z.of_nat n < 2 ^ 32 -> exists bs fd',
      ReadFile fd (Z.of_nat n) = Some (bs, fd') /\ win_at fd' content (p + length bs) /\
      bs = take (length bs) (drop p content) /\ (length bs <= n)%nat /\
      ((0 < n)%nat -> (p < length content)%nat -> bs <> []);
  seek_begin fd content q (p : Z) :
    win_at fd content q -> 0 <= p < 2 ^ 63 -> exists err fd',
      SetFilePointer fd (s32 p) (Some (s32 (Z.shiftr p 32))) FILE_BEGIN = Seek (u32 p) (p / 2 ^ 32) err fd' /\
      win_at fd' content (Z.to_nat p) /\ (u32 p = INVALID_SET_FILE_POINTER -> err = NO_ERROR);
  seek_query fd content p :
    win_at fd content p -> exists high err,
      (Z.of_nat p < 2 ^ 32 /\ SetFilePointer fd 0 None FILE_CURRENT = Seek (Z.of_nat p) high err fd /\
        (Z.of_nat p = INVALID_SET_FILE_POINTER -> err = NO_ERROR)) \/
      (2 ^ 32 <= Z.of_nat p /\ SetFilePointer fd 0 None FILE_CURRENT = Seek INVALID_SET_FILE_POINTER high err fd /\
        err <> NO_ERROR);
  SetEndOfFile_ok fd content p :
    win_at fd content p -> exists ok err fd', SetEndOfFile fd = (ok, err, fd') /\
      ((ok = true /\ exists content', length content' = p /\ common content content' /\ win_at fd' content' p) \/
       (ok = false /\ err <> NO_ERROR));
  GetFileSize_ok fd content p :
    win_at fd content p -> GetFileSize fd = (u32 (Z.of_nat (length content)), Z.of_nat (length content) / 2 ^ 32);
  sparse_ok fd content p : win_at fd content p -> win_at (FSCTL_SET_SPARSE fd) content p
}.

(** ** The two words of an offset *)

Lemma join_words p : 0 <= p -> join (p / 2 ^ 32) (u32 p) = p.
Proof.
  intros Hp. unfold join. rewrite Z.lor_comm, lor_shiftl_add by (lia || apply u32_range).
  unfold u32. pose proof (Z.div_mod p (2 ^ 32) ltac:(lia)). change 4294967296 with (2 ^ 32). lia.
Qed.

(** The sign of the low word fills the high one. *)
Lemma join_negative high low : - 2 ^ 32 <= low < 0 -> join high low = low.
Proof.
  intros Hl. unfold join. apply Z.bits_inj'. intros i Hi. rewrite Z.lor_spec.
  destruct (Z.ltb_spec i 32) as [Hlt|Hge]; [by rewrite Z.shiftl_spec_low|].
  rewrite (Z.bits_above_log2_neg low i), orb_true_r; [done|lia|].
  destruct (decide (low = -1)) as [->|Hne]; [simpl; lia|].
  apply Z.lt_le_trans with 32; [|lia]. apply Z.log2_lt_pow2; lia.
Qed.

Lemma high_word p : 0 <= p < 2 ^ 63 -> s32 (p / 2 ^ 32) = p / 2 ^ 32.
Proof.
  intros Hp. assert (0 <= p / 2 ^ 32 < 2 ^ 31) by (split; [apply Z.div_pos|apply Z.div_lt_upper_bound]; lia).
  unfold s32. rewrite Z.mod_small; lia.
Qed.

Lemma u32_s32 z : u32 (s32 z) = u32 z.
Proof. unfold u32, s32. rewrite Zminus_mod_idemp_l. f_equal. lia. Qed.

(** ** Reading *)

Section Promise.
Context {F : Type} {W : Win32 F} {R : WinFile W}.

Lemma os_lseek_ok fd content q (p : Z) :
  win_at fd content q -> 0 <= p < 2 ^ 63 ->
  exists fd', os_lseek fd p FILE_BEGIN = Ret (p, fd') /\ win_at fd' content (Z.to_nat p).
Proof.
  intros Hat Hp. destruct (seek_begin fd content q p Hat Hp) as (err & fd' & E & Hat' & Herr).
  exists fd'. split; [|done]. unfold os_lseek. rewrite E. cbn [s_low s_err s_high s_fd]. rewrite join_words by lia.
  destruct (Z.eqb_spec (u32 p) INVALID_SET_FILE_POINTER) as [H|H]; [|done]. by rewrite Herr.
Qed.

(** At most [UNIX_BUFFER_SIZE] bytes at a time. *)
Lemma os_read_ok fd content p (n : nat) :
  win_at fd content p -> exists bs fd', os_read fd (Z.of_nat n) = Ret (bs, fd') /\ win_at fd' content (p + length bs) /\
    bs = take (length bs) (drop p content) /\ (length bs <= n)%nat /\
    ((0 < n)%nat -> (p < length content)%nat -> bs <> []).
Proof.
  intros Hat. unfold os_read. set (k := if _ <? _ then _ else _).
  assert (Hk : exists m, k = Z.of_nat m /\ (m <= n)%nat /\ Z.of_nat m < 2 ^ 32 /\ ((0 < n)%nat -> (0 < m)%nat)).
  { exists (Z.to_nat k). unfold k, UNIX_BUFFER_SIZE. destruct (Z.ltb_spec 16384 (Z.of_nat n)); lia. }
  destruct Hk as (m & -> & Hm & Hm32 & Hpos).
  destruct (ReadFile_ok fd content p m Hat Hm32) as (bs & fd' & E & Hat' & Hbs & Hle & Hne).
  exists bs, fd'. rewrite E. split; [done|]. split; [done|]. split; [done|]. split; [lia|]. auto.
Qed.
End Promise.

(** The calls the hash entry points make, on Windows. *)
#[export] Instance WinSyscalls {F} (W : Win32 F) : Syscalls F := {
  lseek fd pos := match os_lseek fd pos FILE_BEGIN with Ret (_, fd) => Some fd | _ => None end;
  read fd len := match os_read fd len with Ret r => Some r | _ => None end
}.

(** A file that [win_at] describes is one the hash entry points can read. *)
#[export] Instance WinReadable {F} {W : Win32 F} {R : WinFile W} (content : list Z) : Readable (WinSyscalls W) content.
Proof.
  refine {| at_ fd p := win_at fd content p |}.
  - intros fd q p Hat Hp. assert (Hb : Z.of_nat p < 2 ^ 63).
    { pose proof (win_bound fd content q Hat). destruct Hp; lia. }
    destruct (os_lseek_ok fd content q (Z.of_nat p) Hat) as (fd' & E & Hat'); [lia|].
    exists fd'. unfold lseek, WinSyscalls. rewrite E. by rewrite Nat2Z.id in Hat'.
  - intros fd p n Hat. destruct (os_read_ok fd content p n Hat) as (bs & fd' & E & Hat' & Hbs & Hle & Hne).
    exists bs, fd'. unfold read, WinSyscalls. rewrite E. split; [done|]. split; [done|]. split; [done|]. split; [lia|done].
Defined.

#[local] Existing Instance Md4.Md4.
#[local] Existing Instance Md4.Md4Ok.
#[local] Existing Instance Sha1.Sha1.
#[local] Existing Instance Sha1.Sha1Ok.

(** ** Sizes *)

Section Sizes.
Context {F : Type} {W : Win32 F} {R : WinFile W}.

Lemma os_getfdsize_ok fd content p : win_at fd content p -> os_getfdsize fd = Z.of_nat (length content).
Proof.
  intros Hat. unfold os_getfdsize. rewrite (GetFileSize_ok fd content p Hat).
  pose proof (win_bound fd content p Hat). rewrite high_word by lia. apply join_words. lia.
Qed.

(** The size by the name of the file, when the bit 31 of the size is 0 and when it is 1. *)
Definition signed_size (n : Z) : Z := if u32 n <? 2 ^ 31 then n else u32 n - 2 ^ 32.

Lemma os_getfilesize_ok path fd content p :
  CreateFile path = inl fd -> win_at fd content p ->
  os_getfilesize path = Ret (signed_size (Z.of_nat (length content))).
Proof.
  intros E Hat. unfold os_getfilesize. rewrite E, (GetFileSize_ok fd content p Hat).
  pose proof (win_bound fd content p Hat). rewrite high_word by lia. f_equal. unfold signed_size.
  pose proof (u32_range (Z.of_nat (length content))) as Hw. unfold word in Hw. set (low := u32 _) in *.
  destruct (Z.ltb_spec low (2 ^ 31)) as [Hlt|Hge].
  - replace (s32 low) with low by (unfold s32; rewrite Z.mod_small; lia). apply join_words. lia.
  - replace (s32 low) with (low - 2 ^ 32); [apply join_negative; lia|].
    unfold s32. rewrite <- (Z.mod_add _ (-1)), Z.mod_small; lia.
Qed.

(** ** Cutting and extending *)

Lemma ftruncate_query fd content p (n : Z) sparse :
  win_at fd content p -> exists fd1, win_at fd1 content p /\
    os_ftruncate fd n sparse =
      if Z.of_nat p <? INVALID_SET_FILE_POINTER then
        let s := SetFilePointer fd1 (s32 n) (Some (s32 (Z.shiftr n 32))) FILE_BEGIN in
        if s_low s =? INVALID_SET_FILE_POINTER then ftruncate_error (s_err s) (s_fd s)
        else let '(done, err, fd) := SetEndOfFile (s_fd s) in if done then Ret fd else ftruncate_error err fd
      else if Z.of_nat p =? INVALID_SET_FILE_POINTER then Ret fd1 else Unix_error.
Proof.
  intros Hat. unfold os_ftruncate. set (fd1 := if sparse then _ else _).
  assert (Hat1 : win_at fd1 content p) by (unfold fd1; destruct sparse; [by apply sparse_ok|done]).
  exists fd1. split; [done|]. unfold ftruncate_error.
  destruct (seek_query fd1 content p Hat1) as (high & err & [(Hp & -> & He)|(Hp & -> & He)]);
    cbn [s_low s_err s_fd]; unfold INVALID_SET_FILE_POINTER in *.
  - destruct (Z.eqb_spec (Z.of_nat p) 4294967295) as [E|E].
    + rewrite (He E). destruct (Z.ltb_spec (Z.of_nat p) 4294967295); [lia|done].
    + destruct (Z.ltb_spec (Z.of_nat p) 4294967295); [done|lia].
  - destruct (Z.ltb_spec (Z.of_nat p) 4294967295); [lia|]. destruct (Z.eqb_spec (Z.of_nat p) 4294967295); [lia|].
    rewrite Z.eqb_refl. by destruct (Z.eqb_spec err NO_ERROR).
Qed.
End Sizes.

(** On Windows [os_ftruncate] cuts or extends a file to the length asked, or
    raises an error, when the file pointer fits in 32 bits.  But the word
    [0xFFFFFFFF] of a pointer or of a length is taken for a failure even when
    there is none: then nothing is raised and the file keeps its length.  With a
    file pointer of 4 GiB or more every length is refused. *)
Theorem windows_ftruncate {F} {W : Win32 F} {R : WinFile W} (fd : F) content (p n : nat) sparse :
  win_at fd content p -> Z.of_nat n < 2 ^ 63 ->
  let r := os_ftruncate fd (Z.of_nat n) sparse in
  if Z.of_nat p <? 2 ^ 32 - 1 then
    if Z.of_nat n mod 2 ^ 32 =? 2 ^ 32 - 1 then exists fd', r = Ret fd' /\ win_at fd' content n
    else r = Unix_error \/
      exists fd' content', r = Ret fd' /\ win_at fd' content' n /\ length content' = n /\ common content content'
  else if Z.of_nat p =? 2 ^ 32 - 1 then exists fd', r = Ret fd' /\ win_at fd' content p
  else r = Unix_error.
Proof.
  intros Hat Hn r. destruct (ftruncate_query fd content p (Z.of_nat n) sparse Hat) as (fd1 & Hat1 & E).
  unfold r. rewrite E. change (2 ^ 32 - 1) with INVALID_SET_FILE_POINTER.
  destruct (Z.of_nat p <? INVALID_SET_FILE_POINTER); [|destruct (Z.of_nat p =? INVALID_SET_FILE_POINTER); [by exists fd1|done]].
  destruct (seek_begin fd1 content p (Z.of_nat n) Hat1) as (err & fd2 & -> & Hat2 & He); [lia|].
  cbn [s_low s_err s_fd]. rewrite Nat2Z.id in Hat2. unfold ftruncate_error. change (2 ^ 32) with 4294967296. fold (u32 (Z.of_nat n)).
  destruct (Z.eqb_spec (u32 (Z.of_nat n)) INVALID_SET_FILE_POINTER) as [Hw|Hw].
  - rewrite (He Hw). by exists fd2.
  - destruct (SetEndOfFile_ok fd2 content n Hat2) as (ok & err2 & fd3 & -> & [(-> & c & Hl & Hc & Hat3)|(-> & Hne)]).
    + right. by exists fd3, c.
    + left. by destruct (Z.eqb_spec err2 NO_ERROR).
Qed.

(** The size of an open file is right on Windows whatever it is, the size of
    a file by its name only when its bit 31 is 0: from 2 GiB to 4 GiB, and in
    every second range of 2 GiB after that, it is negative. *)
Theorem windows_sizes {F} {W : Win32 F} {R : WinFile W} path (fd : F) content p :
  CreateFile path = inl fd -> win_at fd content p ->
  let size := Z.of_nat (length content) in
  os_getfdsize fd = size /\
  exists r, os_getfilesize path = Ret r /\ (r = size <-> Z.testbit size 31 = false) /\ (Z.testbit size 31 = true -> r < 0).
Proof.
  intros E Hat size. split; [by eapply os_getfdsize_ok|].
  eexists. split; [by eapply os_getfilesize_ok|]. fold size. assert (0 <= size) by lia.
  assert (Hbit : Z.testbit size 31 = (2 ^ 31 <=? u32 size)).
  { replace (Z.testbit size 31) with (Z.testbit (u32 size) 31) by (unfold u32; change 4294967296 with (2 ^ 32); by rewrite Z.mod_pow2_bits_low by lia).
    pose proof (u32_range size) as Hw. unfold word in Hw. set (low := u32 size) in *.
    rewrite Z.testbit_eqb by lia. assert (0 <= low / 2 ^ 31 < 2) by (split; [apply Z.div_pos|apply Z.div_lt_upper_bound]; lia).
    rewrite Z.mod_small by lia. pose proof (Z.div_mod low (2 ^ 31) ltac:(lia)). pose proof (Z.mod_pos_bound low (2 ^ 31) ltac:(lia)).
    destruct (Z.eqb_spec (low / 2 ^ 31) 1), (Z.leb_spec (2 ^ 31) low); try done; lia. }
  rewrite Hbit. unfold signed_size. pose proof (u32_range size) as Hw. unfold word in Hw.
  destruct (Z.ltb_spec (u32 size) (2 ^ 31)), (Z.leb_spec (2 ^ 31) (u32 size)); try lia; (split; [split|]; [lia|done || lia|done || lia]).
Qed.

(** C30: the digest of a range of a file is right on Windows, for the three hash
    functions: [os_lseek] goes to the offset although it is passed in two words,
    one of which may be the error code, and the entry points read on although
    [os_read] gives them at most 16 KiB of what they ask. *)
Theorem windows_range_hashed {F} {W : Win32 F} {R : WinFile W} (fd : F) content (q p n : nat) :
  win_at fd content q -> Forall (word 8) content -> Z.of_nat p < 2 ^ 63 -> Z.of_nat n < 2 ^ 63 ->
  let range := take n (drop p content) in
  os_read fd 131072 = os_read fd 16384 /\
  (exists fd', os_lseek fd (Z.of_nat p) FILE_BEGIN = Ret (Z.of_nat p, fd') /\ win_at fd' content p) /\
  (exists fd', unsafe64_fd (Ctx := Md4.MD4_CTX) fd (Z.of_nat p) (Z.of_nat n) = Ret (Md4.md4_spec range, fd')) /\
  (exists fd', unsafe64_fd (Ctx := md5_state) fd (Z.of_nat p) (Z.of_nat n) = Ret (md5_spec range, fd')) /\
  (exists fd', unsafe64_fd (Ctx := Sha1.sha1_context) fd (Z.of_nat p) (Z.of_nat n) = Ret (Sha1.sha1_spec range, fd')).
Proof.
  intros Hat Hc Hp Hn. split; [done|]. split; [|split; [|split]].
  - destruct (os_lseek_ok fd content q (Z.of_nat p) Hat) as (fd' & E & Hat'); [lia|]. exists fd'. by rewrite Nat2Z.id in Hat'.
  - apply (unsafe64_fd_ok (Readable0 := WinReadable content) (IncrementalHashOk0 := Md4.Md4Ok) (md4_buffer content) fd q p n Hat Hp Hn).
  - apply (unsafe64_fd_ok (Readable0 := WinReadable content) (IncrementalHashOk0 := Md5Ok) (md5_buffer content) fd q p n Hat Hp Hn).
  - apply (unsafe64_fd_ok (Readable0 := WinReadable content) (IncrementalHashOk0 := Sha1.Sha1Ok) (fun p n => sha1_buffer content p n Hc) fd q p n Hat Hp Hn).
Qed.

(** ** A disk with room for [w_room] bytes *)

Record volume := Volume { w_content : list Z; w_pos : Z; w_room : Z }.

Definition move (d : volume) (pos : Z) : volume := Volume (w_content d) pos (w_room d).

#[export] Instance VolumeCalls : Win32 volume := {
  ReadFile d n :=
    let bs := take (Z.to_nat n) (drop (Z.to_nat (w_pos d)) (w_content d)) in
    Some (bs, move d (w_pos d + Z.of_nat (length bs)));
  SetFilePointer d low high method :=
    let dist := match high with None => low | Some high => high * 2 ^ 32 + u32 low end in
    let pos := if method =? FILE_BEGIN then dist else w_pos d + dist in
    match high with
    | None => if pos <? 2 ^ 32 then Seek pos 0 NO_ERROR (move d pos) else Seek INVALID_SET_FILE_POINTER 0 87 d
    | Some _ => if pos <? 0 then Seek INVALID_SET_FILE_POINTER 0 131 d
                else Seek (u32 pos) (pos / 2 ^ 32) NO_ERROR (move d pos)
    end;
  SetEndOfFile d :=
    if w_pos d <=? w_room d then (true, NO_ERROR, Volume (resized (w_content d) (Z.to_nat (w_pos d))) (w_pos d) (w_room d))
    else (false, 112, d);
  GetFileSize d := let n := Z.of_nat (length (w_content d)) in (u32 n, n / 2 ^ 32);
  CreateFile path := if bool_decide (path = []) then inr 3 else inl (Volume path 0 100);
  FSCTL_SET_SPARSE d := d
}.

Definition volume_at (d : volume) (content : list Z) (p : nat) : Prop :=
  w_content d = content /\ w_pos d = Z.of_nat p /\ Z.of_nat (length content) < 2 ^ 63 /\ Z.of_nat p < 2 ^ 63.

Lemma common_resized content n : common content (resized content n).
Proof.
  unfold common. rewrite length_resized. unfold resized, extend. rewrite take_take.
  destruct (Nat.le_gt_cases n (length content)).
  - by rewrite Nat.min_r, take_app_le by lia.
  - by rewrite Nat.min_l, take_app_length, take_ge by lia.
Qed.

Lemma volume_read_ok d content p (n : nat) :
  volume_at d content p -> exists bs d', ReadFile d (Z.of_nat n) = Some (bs, d') /\ volume_at d' content (p + length bs) /\
    bs = take (length bs) (drop p content) /\ (length bs <= n)%nat /\ ((0 < n)%nat -> (p < length content)%nat -> bs <> []).
Proof.
  intros (<- & Hp & Hl & Hb). cbn. rewrite Hp, !Nat2Z.id. eexists _, _. split; [done|].
  pose proof (length_take (drop p (w_content d)) n) as Elen. rewrite length_drop in Elen. set (bs := take n _) in *.
  split; [|split; [|split]].
  - split; [done|]. cbn. split; [lia|]. split; [done|]. lia.
  - unfold bs in *. rewrite Elen. destruct (Nat.le_gt_cases n (length (w_content d) - p)).
    + by rewrite Nat.min_l by lia.
    + rewrite Nat.min_r by lia. rewrite !take_ge; [done| |]; rewrite length_drop; lia.
  - lia.
  - intros Hn Hlt E. rewrite E in Elen. simpl in Elen. lia.
Qed.

#[export] Instance VolumeFile : WinFile VolumeCalls.
Proof.
  refine {| win_at := volume_at |}.
  - by intros d content p (_ & _ & ? & _).
  - intros d content p n Hat _. by apply volume_read_ok.
  - intros d content q p (Hc & _ & Hl & _) Hp. cbn.
    assert (E : s32 (Z.shiftr p 32) * 2 ^ 32 + u32 (s32 p) = p).
    { rewrite Z.shiftr_div_pow2, high_word, u32_s32 by lia. pose proof (Z.div_mod p (2 ^ 32) ltac:(lia)).
      unfold u32. change 4294967296 with (2 ^ 32). lia. }
    change 4294967296 with (2 ^ 32). rewrite E. destruct (Z.ltb_spec p 0); [lia|]. eexists _, _. split; [done|]. split; [|done].
    split; [done|]. cbn. split; [lia|]. split; [done|lia].
  - intros d content p (Hc & Hp & Hl & Hb). cbn. rewrite Hp, Z.add_0_r. destruct (Z.ltb_spec (Z.of_nat p) (2 ^ 32)).
    + exists 0, NO_ERROR. left. split; [done|]. split; [|done]. unfold move. rewrite <- Hp. by destruct d.
    + exists 0, 87. right. split; [done|]. split; [done|done].
  - intros d content p (Hc & Hp & Hl & Hb). cbn. rewrite Hp. destruct (Z.leb_spec (Z.of_nat p) (w_room d)); eexists _, _, _; (split; [done|]).
    + left. split; [done|]. exists (resized content p). split; [apply length_resized|]. split; [apply common_resized|].
      rewrite Nat2Z.id, Hc. split; [done|]. split; [done|]. split; [by rewrite length_resized|done].
    + right. by split.
  - by intros d content p (<- & _).
  - done.
Defined.

(** Cut; extended; refused; left as it was; and with its pointer too far. *)
Lemma windows_ftruncate_witness :
  (os_ftruncate (Volume [1; 2; 3] 2 100) (Z.of_nat 2) false = Unix_error \/
    exists fd' content', os_ftruncate (Volume [1; 2; 3] 2 100) (Z.of_nat 2) false = Ret fd' /\ win_at fd' content' 2 /\
      length content' = 2%nat /\ common [1; 2; 3] content') /\
  os_ftruncate (Volume [1; 2; 3] 2 100) 2 false = Ret (Volume [1; 2] 2 100) /\
  os_ftruncate (Volume [1; 2; 3] 0 100) 5 true = Ret (Volume [1; 2; 3; 0; 0] 5 100) /\
  os_ftruncate (Volume [1; 2; 3] 0 100) 105 true = Unix_error /\
  os_ftruncate (Volume [1; 2; 3] 0 (2 ^ 40)) (2 ^ 32 - 1) false = Ret (Volume [1; 2; 3] (2 ^ 32 - 1) (2 ^ 40)) /\
  os_ftruncate (Volume [1; 2; 3] (2 ^ 32) 100) 2 false = Unix_error.
Proof.
  split; [|split_and!; vm_compute; reflexivity].
  apply (windows_ftruncate (Volume [1; 2; 3] 2 100) [1; 2; 3] 2 2 false); [|reflexivity].
  split; [reflexivity|]. split; [reflexivity|]. split; reflexivity.
Defined.

Lemma windows_sizes_witness :
  (os_getfdsize (Volume [7; 8] 0 100) = 2 /\ exists r, os_getfilesize [7; 8] = Ret r /\
    (r = 2 <-> Z.testbit 2 31 = false) /\ (Z.testbit 2 31 = true -> r < 0)) /\
  signed_size (2 ^ 31) = - 2 ^ 31 /\ signed_size (2 ^ 32 - 1) = -1 /\ signed_size (2 ^ 32) = 2 ^ 32.
Proof.
  split; [|split_and!; reflexivity]. apply (windows_sizes [7; 8] (Volume [7; 8] 0 100) [7; 8] 0); [reflexivity|].
  split; [reflexivity|]. split; [reflexivity|]. split; reflexivity.
Defined.

Lemma windows_range_hashed_witness :
  let fd := Volume (replicate 40 7) 0 100 in let range := replicate 20 7 in
  os_read fd 131072 = os_read fd 16384 /\
  (exists fd', os_lseek fd 10 FILE_BEGIN = Ret (10, fd') /\ win_at fd' (replicate 40 7) 10) /\
  (exists fd', unsafe64_fd (Ctx := Md4.MD4_CTX) fd 10 20 = Ret (Md4.md4_spec range, fd')) /\
  (exists fd', unsafe64_fd (Ctx := md5_state) fd 10 20 = Ret (md5_spec range, fd')) /\
  (exists fd', unsafe64_fd (Ctx := Sha1.sha1_context) fd 10 20 = Ret (Sha1.sha1_spec range, fd')).
Proof.
  apply (windows_range_hashed (Volume (replicate 40 7) 0 100) (replicate 40 7) 0 10 20).
  - split; [reflexivity|]. split; [reflexivity|]. split; reflexivity.
  - apply Forall_replicate. unfold word. lia.
  - reflexivity.
  - reflexivity.
Defined.
End WinOs.
