(* ===== verification/WinUname.v ===== *)
(** * The name of a Windows system

    [os_uname] and [os_os_supported] of [src/src/config/mingw/os_stubs_c.c] with
    their entry points in [src/src/utils/lib/stubs_c.c].  The system calls are
    parameters ([Windows]). *)

From Stdlib Require Import ZArith Lia String.
From stdpp Require Import base option numbers list.
From S2P Require Import Prelude CString.
Import CString.

Local Open Scope list_scope.
Local Open Scope Z_scope.

Module WinUname.

(** ** The system calls *)

(** [szCSDVersion] is the array of characters. *)
Record OSVERSIONINFOEX := OsVersion {
  dwMajorVersion : Z;
  dwMinorVersion : Z;
  dwBuildNumber : Z;
  dwPlatformId : Z;
  szCSDVersion : list Z;
  wSuiteMask : Z;
  wProductType : Z
}.

Record SYSTEM_INFO := SystemInfo { wProcessorArchitecture : Z; dwNumberOfProcessors : Z }.

Definition VER_PLATFORM_WIN32s : Z := 0.
Definition VER_PLATFORM_WIN32_WINDOWS : Z := 1.
Definition VER_PLATFORM_WIN32_NT : Z := 2.
Definition VER_NT_WORKSTATION : Z := 1.
Definition VER_NT_DOMAIN_CONTROLLER : Z := 2.
Definition VER_NT_SERVER : Z := 3.
Definition VER_SUITE_ENTERPRISE : Z := 2.
Definition VER_SUITE_DATACENTER : Z := 128.
Definition VER_SUITE_PERSONAL : Z := 512.
Definition VER_SUITE_BLADE : Z := 1024.
Definition PROCESSOR_ARCHITECTURE_IA64 : Z := 6.
Definition PROCESSOR_ARCHITECTURE_AMD64 : Z := 9.

(** [GetVersionEx] with the larger structure and with the smaller; the functions
    that may be missing and the calls that may fail give an option; [stack] is
    what [si] holds before anything is written to it. *)
Class Windows := {
  GetVersionEx_extended : option OSVERSIONINFOEX;
  GetVersionEx : option OSVERSIONINFOEX;
  GetNativeSystemInfo : option SYSTEM_INFO;
  GetSystemInfo : SYSTEM_INFO;
  GetSystemMetrics_SERVERR2 : bool;
  RegOpenKeyEx : string -> bool;
  RegQueryValueEx : option (list Z * Z);
  lstrcmpi : list Z -> list Z -> Z;
  stack : SYSTEM_INFO
}.

(** [sprintf] of a text into a buffer. *)
Definition sprintf (size : nat) (text : list Z) : option (list Z) := strcpy (replicate size 0) text.

(** ** [os_uname] *)

Section Uname.
Context {W : Windows}.

Definition BUFSIZE : Z := 80.

Definition cat (buf : list Z) (s : string) : option (list Z) := strcat buf (str s).

(** A text between double quotes. *)
Definition quoted (s : string) : list Z := [34] ++ str s ++ [34].

Definition version (v : OSVERSIONINFOEX) (major minor : Z) : bool :=
  (dwMajorVersion v =? major) && (dwMinorVersion v =? minor).

Definition suite (v : OSVERSIONINFOEX) (mask : Z) : bool := negb (Z.land (wSuiteMask v) mask =? 0).

(** The specific product; [GetNativeSystemInfo] fills [si]. *)
Definition nt_product (v : OSVERSIONINFOEX) (si : SYSTEM_INFO) (buf : list Z) : option (list Z * SYSTEM_INFO) :=
  buf ← (if version v 6 0 then
           if wProductType v =? VER_NT_WORKSTATION then cat buf "Microsoft Windows Vista "
           else strcat buf (str "Windows Server " ++ quoted "Longhorn" ++ str " ")
         else Some buf);
  '(buf, si) ← (if version v 5 2 then
           let si := default si GetNativeSystemInfo in
           buf ← (if GetSystemMetrics_SERVERR2 then strcat buf (str "Microsoft Windows Server 2003 " ++ quoted "R2" ++ str " ")
                  else if (wProductType v =? VER_NT_WORKSTATION) && (wProcessorArchitecture si =? PROCESSOR_ARCHITECTURE_AMD64)
                  then cat buf "Microsoft Windows XP Professional x64 Edition "
                  else cat buf "Microsoft Windows Server 2003, ");
           Some (buf, si)
         else Some (buf, si));
  buf ← (if version v 5 1 then cat buf "Microsoft Windows XP " else Some buf);
  buf ← (if version v 5 0 then cat buf "Microsoft Windows 2000 " else Some buf);
  buf ← (if dwMajorVersion v <=? 4 then cat buf "Microsoft Windows NT " else Some buf);
  Some (buf, si).

(** The specific product on Windows NT 4.0 SP6 and later. *)
Definition nt_edition (v : OSVERSIONINFOEX) (si : SYSTEM_INFO) (buf : list Z) : option (list Z) :=
  if (wProductType v =? VER_NT_WORKSTATION) && negb (wProcessorArchitecture si =? PROCESSOR_ARCHITECTURE_AMD64) then
    if dwMajorVersion v =? 4 then cat buf "Workstation 4.0 "
    else if suite v VER_SUITE_PERSONAL then cat buf "Home Edition "
    else cat buf "Professional "
  else if (wProductType v =? VER_NT_SERVER) || (wProductType v =? VER_NT_DOMAIN_CONTROLLER) then
    if version v 5 2 then
      if wProcessorArchitecture si =? PROCESSOR_ARCHITECTURE_IA64 then
        if suite v VER_SUITE_DATACENTER then cat buf "Datacenter Edition for Itanium-based Systems "
        else if suite v VER_SUITE_ENTERPRISE then cat buf "Enterprise Edition for Itanium-based Systems "
        else Some buf
      else if wProcessorArchitecture si =? PROCESSOR_ARCHITECTURE_AMD64 then
        if suite v VER_SUITE_DATACENTER then cat buf "Datacenter x64 Edition "
        else if suite v VER_SUITE_ENTERPRISE then cat buf "Enterprise x64 Edition "
        else cat buf "Standard x64 Edition "
      else
        if suite v VER_SUITE_DATACENTER then cat buf "Datacenter Edition "
        else if suite v VER_SUITE_ENTERPRISE then cat buf "Enterprise Edition "
        else if wSuiteMask v =? VER_SUITE_BLADE then cat buf "Web Edition "
        else cat buf "Standard Edition "
    else if version v 5 0 then
      if suite v VER_SUITE_DATACENTER then cat buf "Datacenter Server "
      else if suite v VER_SUITE_ENTERPRISE then cat buf "Advanced Server "
      else cat buf "Server "
    else
      if suite v VER_SUITE_ENTERPRISE then cat buf "Server 4.0, Enterprise Edition "
      else cat buf "Server 4.0 "
  else Some buf.

(** The specific product on Windows NT 4.0 SP5 and earlier: whether to go on,
    and the buffer. *)
Definition nt_registry (buf : list Z) : option (bool * list Z) :=
  if negb (RegOpenKeyEx "SYSTEM\CurrentControlSet\Control\ProductOptions") then Some (false, buf)
  else
    match RegQueryValueEx with
    | None => Some (false, buf)
    | Some (szProductType, dwBufLen) =>
        if BUFSIZE <? dwBufLen then Some (false, buf)
        else
          buf ← (if lstrcmpi (str "WINNT") szProductType =? 0 then cat buf "Workstation " else Some buf);
          buf ← (if lstrcmpi (str "LANMANNT") szProductType =? 0 then cat buf "Server " else Some buf);
          buf ← (if lstrcmpi (str "SERVERNT") szProductType =? 0 then cat buf "Advanced Server " else Some buf);
          Some (true, buf)
    end.

(** The service pack, the build number and the number of processors. *)
Definition nt_build (v : OSVERSIONINFOEX) (buf : list Z) : option (list Z) :=
  let si := GetSystemInfo in
  pbuf ← (if 1 <? dwNumberOfProcessors si then sprintf 32 (str "(CPUs: " ++ decimal (dwNumberOfProcessors si) ++ str ")" ++ [0])
          else Some (replicate 32 0));
  cpus ← strdup pbuf;
  pack ← strdup (szCSDVersion v);
  let build := decimal (Z.land (dwBuildNumber v) 65535) in
  tbuf ← (if (dwMajorVersion v =? 4) && (lstrcmpi pack (str "Service Pack 6") =? 0) then
            if RegOpenKeyEx "SOFTWARE\Microsoft\Windows NT\CurrentVersion\Hotfix\Q246009"
            then sprintf 4096 (str "Service Pack 6a (Build " ++ build ++ str ") " ++ cpus)
            else sprintf 4096 (pack ++ str " (Build " ++ build ++ str ") " ++ cpus)
          else sprintf 4096 (pack ++ str " (Build " ++ build ++ str ") " ++ cpus));
  text ← strdup tbuf;
  strcat buf text.

Definition nt_uname (extended : bool) (v : OSVERSIONINFOEX) (buf : list Z) : option (list Z) :=
  '(buf, si) ← nt_product v stack buf;
  if extended then buf ← nt_edition v si buf; nt_build v buf
  else
    '(go_on, buf) ← nt_registry buf;
    if (go_on : bool) then nt_build v buf else Some buf.

(** Windows 95, 98 and Me. *)
Definition windows_uname (v : OSVERSIONINFOEX) (buf : list Z) : option (list Z) :=
  buf ← (if version v 4 0 then
           buf ← cat buf "Microsoft Windows 95 ";
           c ← rd (szCSDVersion v) 1;
           if (c =? 67) || (c =? 66) then cat buf "OSR2 " else Some buf
         else Some buf);
  buf ← (if version v 4 10 then
           buf ← cat buf "Microsoft Windows 98 ";
           c ← rd (szCSDVersion v) 1;
           if c =? 65 then cat buf "SE " else Some buf
         else Some buf);
  if version v 4 90 then cat buf "Microsoft Windows Millennium Edition" else Some buf.

Definition os_uname (buf : list Z) : option (list Z) :=
  match (match GetVersionEx_extended with
         | Some v => Some (true, v)
         | None => (fun v => (false, v)) <$> GetVersionEx
         end) with
  | None => Some buf
  | Some (bOsVersionInfoEx, osvi) =>
      if dwPlatformId osvi =? VER_PLATFORM_WIN32_NT then nt_uname bOsVersionInfoEx osvi buf
      else if dwPlatformId osvi =? VER_PLATFORM_WIN32_WINDOWS then windows_uname osvi buf
      else if dwPlatformId osvi =? VER_PLATFORM_WIN32s then cat buf "Microsoft Win32s"
      else Some buf
  end.

(** The string that OCaml gets; [rest] is what the buffer holds after its first
    character. *)
Definition ml_uname (rest : list Z) : option (list Z) :=
  buf ← os_uname (0 :: rest);
  strdup buf.

Definition os_os_supported : bool :=
  match GetVersionEx with
  | Some v => dwPlatformId v =? VER_PLATFORM_WIN32_NT
  | None => true
  end.

Definition ml_os_supported : bool := os_os_supported.
End Uname.

(** ** The text *)

Definition nz (c : Z) : Prop := c <> 0.

Section Text.
Context {W : Windows}.

(** [t] under a condition. *)
Definition opt (c : bool) (t : list Z) : list Z := if c then t else [].

(** What [si] holds after [nt_product]. *)
Definition native_info (v : OSVERSIONINFOEX) (si : SYSTEM_INFO) : SYSTEM_INFO :=
  if version v 5 2 then default si GetNativeSystemInfo else si.

Definition product_text (v : OSVERSIONINFOEX) (si : SYSTEM_INFO) : list Z :=
  opt (version v 6 0) (if wProductType v =? VER_NT_WORKSTATION then str "Microsoft Windows Vista "
                       else str "Windows Server " ++ quoted "Longhorn" ++ str " ") ++
  opt (version v 5 2) (if GetSystemMetrics_SERVERR2 then str "Microsoft Windows Server 2003 " ++ quoted "R2" ++ str " "
     else if (wProductType v =? VER_NT_WORKSTATION) && (wProcessorArchitecture (default si GetNativeSystemInfo) =? PROCESSOR_ARCHITECTURE_AMD64)
     then str "Microsoft Windows XP Professional x64 Edition " else str "Microsoft Windows Server 2003, ") ++
  opt (version v 5 1) (str "Microsoft Windows XP ") ++
  opt (version v 5 0) (str "Microsoft Windows 2000 ") ++
  opt (dwMajorVersion v <=? 4) (str "Microsoft Windows NT ").

(** The edition of a server by its suite. *)
Definition server_text (v : OSVERSIONINFOEX) (data enterprise web standard : list Z) : list Z :=
  if suite v VER_SUITE_DATACENTER then data
  else if suite v VER_SUITE_ENTERPRISE then enterprise
  else if wSuiteMask v =? VER_SUITE_BLADE then web else standard.

Definition edition_text (v : OSVERSIONINFOEX) (si : SYSTEM_INFO) : list Z :=
  let arch := wProcessorArchitecture si in
  if (wProductType v =? VER_NT_WORKSTATION) && negb (arch =? PROCESSOR_ARCHITECTURE_AMD64) then
    if dwMajorVersion v =? 4 then str "Workstation 4.0 "
    else if suite v VER_SUITE_PERSONAL then str "Home Edition " else str "Professional "
  else if (wProductType v =? VER_NT_SERVER) || (wProductType v =? VER_NT_DOMAIN_CONTROLLER) then
    if version v 5 2 then
      if arch =? PROCESSOR_ARCHITECTURE_IA64 then
        server_text v (str "Datacenter Edition for Itanium-based Systems ") (str "Enterprise Edition for Itanium-based Systems ") [] []
      else if arch =? PROCESSOR_ARCHITECTURE_AMD64 then
        let std := str "Standard x64 Edition " in
        server_text v (str "Datacenter x64 Edition ") (str "Enterprise x64 Edition ") std std
      else server_text v (str "Datacenter Edition ") (str "Enterprise Edition ") (str "Web Edition ") (str "Standard Edition ")
    else if version v 5 0 then
      server_text v (str "Datacenter Server ") (str "Advanced Server ") (str "Server ") (str "Server ")
    else if suite v VER_SUITE_ENTERPRISE then str "Server 4.0, Enterprise Edition " else str "Server 4.0 "
  else [].

Definition registry_text (type : list Z) : list Z :=
  opt (lstrcmpi (str "WINNT") type =? 0) (str "Workstation ") ++
  opt (lstrcmpi (str "LANMANNT") type =? 0) (str "Server ") ++
  opt (lstrcmpi (str "SERVERNT") type =? 0) (str "Advanced Server ").

Definition build_text (v : OSVERSIONINFOEX) (pack : list Z) : list Z :=
  let cpus := dwNumberOfProcessors GetSystemInfo in
  let sp6a := (dwMajorVersion v =? 4) && (lstrcmpi pack (str "Service Pack 6") =? 0) &&
              RegOpenKeyEx "SOFTWARE\Microsoft\Windows NT\CurrentVersion\Hotfix\Q246009" in
  (if sp6a then str "Service Pack 6a" else pack) ++ str " (Build " ++ decimal (Z.land (dwBuildNumber v) 65535) ++ str ") " ++
  opt (1 <? cpus) (str "(CPUs: " ++ decimal cpus ++ str ")").

(** The product type in the registry. *)
Definition registry_type : option (list Z) :=
  if RegOpenKeyEx "SYSTEM\CurrentControlSet\Control\ProductOptions" then
    '(type, len) ← RegQueryValueEx;
    if BUFSIZE <? len then None else Some type
  else None.

Definition nt_text (extended : bool) (v : OSVERSIONINFOEX) (pack : list Z) : list Z :=
  product_text v stack ++
  if extended then edition_text v (native_info v stack) ++ build_text v pack
  else match registry_type with Some type => registry_text type ++ build_text v pack | None => [] end.

Definition windows_text (v : OSVERSIONINFOEX) : list Z :=
  let c := szCSDVersion v !! 1%nat in
  opt (version v 4 0) (str "Microsoft Windows 95 " ++ opt (bool_decide (c = Some 67 \/ c = Some 66)) (str "OSR2 ")) ++
  opt (version v 4 10) (str "Microsoft Windows 98 " ++ opt (bool_decide (c = Some 65)) (str "SE ")) ++
  opt (version v 4 90) (str "Microsoft Windows Millennium Edition").
End Text.

(** ** Functions that append to a string in a buffer *)

Definition appends (size : nat) (f : list Z -> option (list Z)) (t : list Z) : Prop :=
  forall buf a, holds buf a size -> (length a + length t < size)%nat ->
  exists buf', f buf = Some buf' /\ holds buf' (a ++ t) size.

Lemma appends_strcat size t : Forall nz t -> appends size (fun buf => strcat buf t) t.
Proof. intros Ht buf a Hb Hl. apply strcat_ok; [done|done|]. rewrite length_app. lia. Qed.

Lemma appends_id size : appends size Some [].
Proof. intros buf a Hb _. exists buf. by rewrite app_nil_r. Qed.

Lemma appends_bind size f g t u :
  appends size f t -> appends size g u -> appends size (fun buf => buf ← f buf; g buf) (t ++ u).
Proof.
  intros Hf Hg buf a Hb Hl. rewrite length_app in Hl. destruct (Hf buf a Hb) as (b1 & -> & H1); [lia|].
  destruct (Hg b1 (a ++ t) H1) as (b2 & E2 & H2); [rewrite length_app; lia|]. rewrite some_bind.
  exists b2. by rewrite app_assoc.
Qed.

Lemma appends_if size (c : bool) f g t u :
  appends size f t -> appends size g u -> appends size (fun buf => if c then f buf else g buf) (if c then t else u).
Proof. by destruct c. Qed.

Lemma appends_opt size (c : bool) f t :
  appends size f t -> appends size (fun buf => if c then f buf else Some buf) (opt c t).
Proof. intros Hf. destruct c; [exact Hf|apply appends_id]. Qed.

#[export] Instance nz_dec c : Decision (nz c) := decide (~ (c = 0)).

Lemma nz_app a b : Forall nz a -> Forall nz b -> Forall nz (a ++ b).
Proof. intros. by apply Forall_app. Qed.

Lemma nz_opt (c : bool) t : Forall nz t -> Forall nz (opt c t).
Proof. by destruct c. Qed.

Lemma nz_if (c : bool) t u : Forall nz t -> Forall nz u -> Forall nz (if c then t else u).
Proof. by destruct c. Qed.

Create HintDb uname.
#[export] Hint Resolve appends_strcat appends_id appends_if appends_opt nz_app nz_opt nz_if : uname.

#[export] Hint Extern 2 (Forall nz (str _)) => closed : uname.
#[export] Hint Extern 2 (Forall nz (quoted _)) => closed : uname.
#[export] Hint Extern 1 (appends _ (fun buf => cat buf _) _) => apply appends_strcat : uname.
#[export] Hint Extern 1 (appends _ (fun buf => strcat buf _) _) => apply appends_strcat : uname.
#[export] Hint Extern 1 (Forall nz []) => apply Forall_nil_2 : uname.

#[export] Hint Extern 1 (Forall nz (decimal _)) => apply digits_nz : uname.

(** ** The parts *)

(** Follows a sequence of steps that is known to succeed. *)
Ltac along E :=
  cbn [mbind option_bind] in E |- *;
  repeat match type of E with ?m ≫= _ = _ => destruct m; [|done]; cbn [mbind option_bind] in E |- * end.

Section Parts.
Context {W : Windows}.

Lemma nt_product_ok size v si buf a :
  holds buf a size -> (length a + length (product_text v si) < size)%nat ->
  exists buf', nt_product v si buf = Some (buf', native_info v si) /\ holds buf' (a ++ product_text v si) size.
Proof.
  intros Hb Hl. set (arch := wProcessorArchitecture (default si GetNativeSystemInfo)).
  assert (H : appends size (fun buf =>
    buf ← (if version v 6 0 then if wProductType v =? VER_NT_WORKSTATION then cat buf "Microsoft Windows Vista "
           else strcat buf (str "Windows Server " ++ quoted "Longhorn" ++ str " ") else Some buf);
    buf ← (if version v 5 2 then
             if GetSystemMetrics_SERVERR2 then strcat buf (str "Microsoft Windows Server 2003 " ++ quoted "R2" ++ str " ")
             else if (wProductType v =? VER_NT_WORKSTATION) && (arch =? PROCESSOR_ARCHITECTURE_AMD64)
             then cat buf "Microsoft Windows XP Professional x64 Edition " else cat buf "Microsoft Windows Server 2003, "
           else Some buf);
    buf ← (if version v 5 1 then cat buf "Microsoft Windows XP " else Some buf);
    buf ← (if version v 5 0 then cat buf "Microsoft Windows 2000 " else Some buf);
    (if dwMajorVersion v <=? 4 then cat buf "Microsoft Windows NT " else Some buf)) (product_text v si)).
  { unfold product_text. fold arch. repeat apply appends_bind; eauto 12 with uname. }
  destruct (H buf a Hb Hl) as (buf' & E & Hb'). exists buf'. split; [|done]. cbn beta in E. unfold nt_product, native_info.
  destruct (if version v 6 0 then _ else _) as [b1|]; [|done]. cbn [mbind option_bind] in E |- *.
  destruct (version v 5 2); fold arch; along E; by rewrite E.
Qed.

Lemma nt_edition_ok size v si : appends size (nt_edition v si) (edition_text v si).
Proof.
  unfold nt_edition, edition_text, server_text.
  repeat case_match; first [apply appends_id | apply appends_strcat; closed].
Qed.

Lemma nt_registry_none buf : registry_type = None -> nt_registry buf = Some (false, buf).
Proof.
  unfold registry_type, nt_registry. destruct (RegOpenKeyEx _); [|done]. destruct RegQueryValueEx as [[type len]|]; [|done].
  rewrite some_bind. by destruct (BUFSIZE <? len).
Qed.

Lemma nt_registry_ok size type (f : list Z -> option (list Z)) t :
  registry_type = Some type -> appends size f t ->
  appends size (fun buf => '(go_on, buf) ← nt_registry buf; if (go_on : bool) then f buf else Some buf) (registry_text type ++ t).
Proof.
  intros Ht Hf.
  assert (H : appends size (fun buf =>
    buf ← (if lstrcmpi (str "WINNT") type =? 0 then cat buf "Workstation " else Some buf);
    buf ← (if lstrcmpi (str "LANMANNT") type =? 0 then cat buf "Server " else Some buf);
    (if lstrcmpi (str "SERVERNT") type =? 0 then cat buf "Advanced Server " else Some buf)) (registry_text type))
    by (unfold registry_text; repeat apply appends_bind; eauto 12 with uname).
  intros buf a Hb Hl. destruct (appends_bind _ _ _ _ _ H Hf buf a Hb Hl) as (buf' & E & Hb'). exists buf'. split; [|done].
  revert Ht. unfold registry_type, nt_registry. destruct (RegOpenKeyEx _); [|done].
  destruct RegQueryValueEx as [[type' len]|]; [|done]. rewrite some_bind. cbn [negb]. destruct (BUFSIZE <? len); [done|].
  intros [= ->]. cbn beta in E. revert E. set (x := if lstrcmpi (str "WINNT") type =? 0 then _ else _).
  destruct x as [b1|]; [|done]. cbn [mbind option_bind]. set (y := if lstrcmpi (str "LANMANNT") type =? 0 then _ else _).
  destruct y as [b2|]; [|done]. cbn [mbind option_bind]. by destruct (if lstrcmpi (str "SERVERNT") type =? 0 then _ else _).
Qed.

(** [sprintf] then [%s], the text may end by a character 0 of its own. *)
Lemma sprintf_text size t z :
  Forall nz t -> z = [] \/ z = [0] -> (length t + length z < size)%nat -> (b ← sprintf size (t ++ z); strdup b) = Some t.
Proof.
  intros Ht Hz Hl. unfold sprintf, strcpy. change 0 with (Z.of_nat 0) at 2.
  rewrite blit_in by (rewrite !length_app, length_replicate; simpl; lia). rewrite some_bind. cbn [take app].
  rewrite <- !app_assoc. destruct Hz as [->| ->]; cbn [app]; apply (strdup_ok _ t _ (conj eq_refl (conj Ht (ex_intro _ _ eq_refl)))).
Qed.

Lemma printed t buf : Forall nz t -> (length t < 4096)%nat ->
  (tbuf ← sprintf 4096 t; text ← strdup tbuf; strcat buf text) = strcat buf t.
Proof.
  intros Ht Hl. pose proof (sprintf_text 4096 t [] Ht (or_introl eq_refl) ltac:(cbn [length]; lia)) as E.
  rewrite app_nil_r in E. destruct (sprintf 4096 t) as [b|]; [|done]. cbn [mbind option_bind] in E |- *. by rewrite E.
Qed.

(** What is said of the number of processors, and that it fits in [pbuf]. *)
Definition cpus_text (cpus : Z) : list Z := opt (1 <? cpus) (str "(CPUs: " ++ decimal cpus ++ str ")").

Lemma cpus_text_ok cpus : Forall nz (cpus_text cpus) /\ (length (cpus_text cpus) <= 18)%nat.
Proof.
  unfold cpus_text. destruct (1 <? cpus); [|by split; [constructor|cbn; lia]]. split; [cbn [opt]; eauto 8 with uname|].
  pose proof (digits_length 10 cpus). cbn [opt]. unfold decimal. rewrite !length_app. change (length (str "(CPUs: ")) with 7%nat.
  change (length (str ")")) with 1%nat. lia.
Qed.

Lemma pbuf_ok cpus (g : list Z -> option (list Z)) :
  (pbuf ← (if 1 <? cpus then sprintf 32 (str "(CPUs: " ++ decimal cpus ++ str ")" ++ [0]) else Some (replicate 32 0));
   cpus ← strdup pbuf; g cpus) = g (cpus_text cpus).
Proof.
  destruct (cpus_text_ok cpus) as [Hc Hl]. unfold cpus_text in *. destruct (1 <? cpus); [|done]. cbn [opt] in *.
  pose proof (sprintf_text 32 _ [0] Hc (or_intror eq_refl) ltac:(cbn [length]; lia)) as E.
  rewrite <- !app_assoc in E. destruct (sprintf 32 _) as [b|]; [|done]. cbn [mbind option_bind] in E |- *. by rewrite E.
Qed.

Lemma build_text_ok v pack :
  Forall nz pack -> (length pack < 128)%nat -> Forall nz (build_text v pack) /\ (length (build_text v pack) <= 165)%nat.
Proof.
  intros Hp Hl. destruct (cpus_text_ok (dwNumberOfProcessors GetSystemInfo)) as [Hc Hcl]. unfold build_text.
  fold (cpus_text (dwNumberOfProcessors GetSystemInfo)). split; [eauto 8 with uname|].
  pose proof (digits_length 10 (Z.land (dwBuildNumber v) 65535)). unfold decimal. rewrite !length_app.
  change (length (str " (Build ")) with 8%nat. change (length (str ") ")) with 2%nat.
  assert (forall c : bool, (length (if c then str "Service Pack 6a" else pack) <= 127)%nat) as H1
    by (intros []; [change (length (str "Service Pack 6a")) with 15%nat|]; lia).
  specialize (H1 ((dwMajorVersion v =? 4) && (lstrcmpi pack (str "Service Pack 6") =? 0) &&
    RegOpenKeyEx "SOFTWARE\Microsoft\Windows NT\CurrentVersion\Hotfix\Q246009")). lia.
Qed.

Lemma holds_length arr s n : holds arr s n -> (length s < n)%nat.
Proof. intros (Hl & _ & rest & E). rewrite E, length_app in Hl. simpl in Hl. lia. Qed.

Lemma nt_build_ok size v pack :
  holds (szCSDVersion v) pack 128 -> appends size (nt_build v) (build_text v pack).
Proof.
  intros Hp buf a Hb Hl. pose proof Hp as (_ & Hpz & _). pose proof (holds_length _ _ _ Hp) as Hpl.
  destruct (build_text_ok v pack Hpz Hpl) as [Htz Htl].
  unfold nt_build. rewrite pbuf_ok, (strdup_ok _ _ _ Hp), some_bind.
  set (sprintf6a := if _ && _ then _ else _).
  assert (E : sprintf6a = sprintf 4096 (build_text v pack)).
  { unfold sprintf6a, build_text. fold (cpus_text (dwNumberOfProcessors GetSystemInfo)).
    destruct (_ && (lstrcmpi _ _ =? 0)); [destruct (RegOpenKeyEx _)|]; done. }
  rewrite E, printed by (done || lia). by apply appends_strcat.
Qed.
End Parts.

(** ** The name *)

(** The version is an array of 128 characters that ends a string. *)
Class Documented (W : Windows) := {
  extended_ok v : GetVersionEx_extended = Some v -> exists pack, holds (szCSDVersion v) pack 128;
  version_ok v : GetVersionEx = Some v -> exists pack, holds (szCSDVersion v) pack 128
}.

Section Name.
Context {W : Windows} {D : Documented W}.

Definition queried : option (bool * OSVERSIONINFOEX) :=
  match GetVersionEx_extended with Some v => Some (true, v) | None => (fun v => (false, v)) <$> GetVersionEx end.

Definition platform_text (extended : bool) (v : OSVERSIONINFOEX) : list Z :=
  if dwPlatformId v =? VER_PLATFORM_WIN32_NT then nt_text extended v (default [] (strdup (szCSDVersion v)))
  else if dwPlatformId v =? VER_PLATFORM_WIN32_WINDOWS then windows_text v
  else opt (dwPlatformId v =? VER_PLATFORM_WIN32s) (str "Microsoft Win32s").

Definition uname_text : list Z := match queried with None => [] | Some (extended, v) => platform_text extended v end.

Lemma queried_ok extended v : queried = Some (extended, v) -> exists pack, holds (szCSDVersion v) pack 128.
Proof.
  unfold queried. destruct GetVersionEx_extended as [u|] eqn:E.
  - intros [= _ <-]. by apply extended_ok.
  - destruct GetVersionEx as [u|] eqn:E2; [|done]. intros [= _ <-]. by apply version_ok.
Qed.

Lemma product_length v si : (length (product_text v si) <= 180)%nat.
Proof.
  assert (H : forall c t n, (length t <= n)%nat -> (length (opt c t) <= n)%nat) by (intros [] ? ?; cbn; lia).
  unfold product_text. rewrite !length_app.
  match goal with |- (?a + (?b + (?c + (?d + ?e))) <= _)%nat =>
    assert (a <= 30 /\ b <= 60 /\ c <= 30 /\ d <= 30 /\ e <= 30)%nat; [|lia] end.
  repeat split; apply H; repeat case_match; vm_compute; lia.
Qed.

Lemma edition_length v si : (length (edition_text v si) <= 50)%nat.
Proof. unfold edition_text, server_text. repeat case_match; vm_compute; lia. Qed.

Lemma registry_length type : (length (registry_text type) <= 40)%nat.
Proof. unfold registry_text, opt. repeat case_match; vm_compute; lia. Qed.

Lemma nt_uname_ok extended v pack buf a :
  holds (szCSDVersion v) pack 128 -> holds buf a 4096 -> (length a <= 100)%nat ->
  exists buf', nt_uname extended v buf = Some buf' /\ holds buf' (a ++ nt_text extended v pack) 4096 /\
    (length (nt_text extended v pack) < 512)%nat.
Proof.
  intros Hp Hb Ha. pose proof (product_length v stack) as H1. pose proof Hp as (_ & Hpz & _).
  destruct (build_text_ok v pack Hpz (holds_length _ _ _ Hp)) as [_ H4].
  destruct (nt_product_ok 4096 v stack buf a Hb ltac:(lia)) as (b1 & E1 & Hb1). unfold nt_uname, nt_text. rewrite E1, some_bind.
  destruct extended.
  - pose proof (edition_length v (native_info v stack)) as H2.
    destruct (appends_bind _ _ _ _ _ (nt_edition_ok 4096 v (native_info v stack)) (nt_build_ok 4096 v pack Hp) _ _ Hb1)
      as (b2 & E2 & Hb2); [rewrite !length_app; lia|].
    exists b2. split; [exact E2|]. rewrite app_assoc. split; [exact Hb2|]. rewrite !length_app. lia.
  - destruct registry_type as [type|] eqn:Et.
    + pose proof (registry_length type) as H3.
      destruct (nt_registry_ok 4096 type _ _ Et (nt_build_ok 4096 v pack Hp) b1 _ Hb1) as (b2 & E2 & Hb2); [rewrite !length_app; lia|].
      exists b2. split; [exact E2|]. rewrite app_assoc. split; [exact Hb2|]. rewrite !length_app. lia.
    + rewrite (nt_registry_none _ Et), some_bind. exists b1. rewrite app_nil_r. split; [done|]. split; [done|lia].
Qed.

Lemma windows_uname_ok v pack :
  holds (szCSDVersion v) pack 128 -> appends 4096 (windows_uname v) (windows_text v) /\ (length (windows_text v) < 512)%nat.
Proof.
  intros (Hl & _). destruct (lookup_lt_is_Some_2 (szCSDVersion v) 1) as [c Hc]; [lia|]. split.
  - unfold windows_uname, windows_text. rewrite Hc. change 1 with (Z.of_nat 1) at 1 2. rewrite rd_nat, Hc.
    apply appends_bind; [|apply appends_bind; [|eauto 8 with uname]]; apply appends_opt, appends_bind; eauto 8 with uname; cbn [mbind option_bind].
    + replace (bool_decide _) with ((c =? 67) || (c =? 66)); [eauto 8 with uname|].
      destruct (Z.eqb_spec c 67), (Z.eqb_spec c 66); cbn; symmetry;
        first [apply bool_decide_true; (left; congruence) || (right; congruence)
              |apply bool_decide_false; intros [[= ?]|[= ?]]; congruence].
    + replace (bool_decide _) with (c =? 65); [eauto 8 with uname|].
      destruct (Z.eqb_spec c 65); symmetry; [apply bool_decide_true|apply bool_decide_false]; congruence.
  - assert (H : forall c t n, (length t <= n)%nat -> (length (opt c t) <= n)%nat) by (intros [] ? ?; cbn; lia).
    unfold windows_text. rewrite !length_app.
    match goal with |- (?a + (?b + ?c) < _)%nat => assert (a <= 40 /\ b <= 40 /\ c <= 40)%nat; [|lia] end.
    repeat split; apply H; unfold opt; repeat case_match; vm_compute; lia.
Qed.
End Name.

(** Whatever the system answers, its name is put together inside the buffers
    and ended: the product, the edition, the service pack, the build and the
    number of processors, fewer than 512 characters in all.  When the version
    cannot be had the name is empty.  On Windows NT nothing is said of the
    product when its version is 6.1 or more. *)
Theorem uname_ok {W : Windows} {D : Documented W} (rest : list Z) :
  length rest = 4095%nat ->
  ml_uname rest = Some uname_text /\ (length uname_text < 512)%nat /\
  (forall v si, (6 < dwMajorVersion v \/ (dwMajorVersion v = 6 /\ 0 < dwMinorVersion v)) -> product_text v si = []).
Proof.
  intros Hr. assert (Hb : holds (0 :: rest) [] 4096).
  { split; [cbn [length]; by rewrite Hr|]. split; [constructor|]. by exists rest. }
  assert (H : exists buf', os_uname (0 :: rest) = Some buf' /\ holds buf' uname_text 4096 /\ (length uname_text < 512)%nat).
  { pose proof queried_ok as Hq. unfold os_uname, uname_text. fold queried.
    destruct queried as [[extended v]|]; [|exists (0 :: rest); split; [done|split; [done|cbn; lia]]].
    destruct (Hq extended v eq_refl) as [pack Hp]. unfold platform_text. rewrite (strdup_ok _ _ _ Hp). cbn [default].
    destruct (dwPlatformId v =? VER_PLATFORM_WIN32_NT); [apply (nt_uname_ok extended v pack (0 :: rest) [] Hp Hb); cbn; lia|].
    destruct (windows_uname_ok v pack Hp) as [Hw Hwl].
    destruct (dwPlatformId v =? VER_PLATFORM_WIN32_WINDOWS).
    - destruct (Hw (0 :: rest) [] Hb) as (b & E & Hh); [cbn; lia|]. by exists b.
    - destruct (dwPlatformId v =? VER_PLATFORM_WIN32s); cbn [opt]; [|exists (0 :: rest); split; [done|split; [done|cbn; lia]]].
      assert (Hz : Forall nz (str "Microsoft Win32s")) by closed.
      destruct (appends_strcat 4096 _ Hz (0 :: rest) [] Hb) as (b & E & Hh); [vm_compute; lia|].
      exists b. split; [exact E|]. split; [exact Hh|vm_compute; lia]. }
  destruct H as (buf' & E & Hh & Hl). unfold ml_uname. rewrite E, some_bind. split; [by eapply strdup_ok|]. split; [done|].
  intros v si Hv. unfold product_text, version.
  destruct (Z.eqb_spec (dwMajorVersion v) 6), (Z.eqb_spec (dwMinorVersion v) 0), (Z.eqb_spec (dwMajorVersion v) 5),
    (Z.leb_spec (dwMajorVersion v) 4); try lia; done.
Qed.

(** ** A Windows 2000 workstation *)

Definition padded (s : list Z) : list Z := s ++ replicate (128 - length s) 0.

Definition nt5 (minor arch : Z) : Windows := {|
  GetVersionEx_extended := Some (OsVersion 5 minor 2195 2 (padded (str "Service Pack 4")) 0 VER_NT_WORKSTATION);
  GetVersionEx := None;
  GetNativeSystemInfo := None;
  GetSystemInfo := SystemInfo 0 2;
  GetSystemMetrics_SERVERR2 := false;
  RegOpenKeyEx _ := false;
  RegQueryValueEx := None;
  lstrcmpi a b := if bool_decide (a = b) then 0 else 1;
  stack := SystemInfo arch 0
|}.

Lemma nt5_ok minor arch : Documented (nt5 minor arch).
Proof.
  constructor; cbn; [|done]. intros v [= <-]. exists (str "Service Pack 4"). split; [reflexivity|].
  split; [closed|]. by eexists.
Defined.

(** The edition depends on what the stack held: it is read before anything is
    written there. *)
Lemma uname_ok_witness :
  (let W := nt5 0 0 in ml_uname (replicate (Z.to_nat 4095) 7) = Some uname_text /\ (length uname_text < 512)%nat /\
     (forall v si, (6 < dwMajorVersion v \/ (dwMajorVersion v = 6 /\ 0 < dwMinorVersion v)) -> product_text v si = [])) /\
  uname_text (W := nt5 0 0) = str "Microsoft Windows 2000 Professional Service Pack 4 (Build 2195) (CPUs: 2)" /\
  uname_text (W := nt5 0 PROCESSOR_ARCHITECTURE_AMD64) = str "Microsoft Windows 2000 Service Pack 4 (Build 2195) (CPUs: 2)".
Proof.
  split; [|split; vm_compute; reflexivity]. apply (uname_ok (D := nt5_ok 0 0)). by rewrite length_replicate.
Defined.
End WinUname.
