(* ===== verification/Statfs.v ===== *)
(** * The space on a disk

    [statfs_statfs] of [src/src/utils/lib/stubs_c.c] on the unix systems, and the
    figures that [src/src/utils/lib/unix32.ml] makes of its result.  The system
    call is a parameter ([Filesystems]).  An OCaml [int64] is its signed value. *)

From Stdlib Require Import ZArith Lia String.
From stdpp Require Import base option numbers list.
From S2P Require Import Prelude CString HashFd.
Import CString.

Local Open Scope Z_scope.

Module Statfs.

(** ** The stub *)

(** The systems the preprocessor tells apart, in their recent versions. *)
Inductive system := Linux | Sun | Hpux | Alpha | FreeBSD | OpenBSD | NetBSD | DragonFly | Apple.

Scheme Boolean Equality for system.

(** [struct statfs] or [struct statvfs]: the fields of either. *)
Record buffer := Buffer {
  b_type : Z;
  b_bsize : Z;
  b_frsize : Z;
  b_blocks : Z;
  b_bfree : Z;
  b_bavail : Z;
  b_files : Z;
  b_ffree : Z;
  b_namelen : Z;
  b_namemax : Z;
  b_basetype : list Z;
  b_fstypename : list Z
}.

(** [statfs_call]: [statvfs] where it is used, [statfs] elsewhere; [None] for -1. *)
Class Filesystems := {
  sys : system;
  NAME_MAX : Z;
  statfs_call : list Z -> option buffer
}.

(** What OCaml gets, [f_fsid] left out, which is of type [unit]. *)
Record statfs := Figures {
  f_type : Z;
  f_bsize : Z;
  f_blocks : Z;
  f_bfree : Z;
  f_bavail : Z;
  f_files : Z;
  f_ffree : Z;
  f_fnamelen : Z;
  f_basetype : list Z;
  f_frsize : Z
}.

Section Stub.
Context {FS : Filesystems}.

Definition one_of (l : list system) : bool := existsb (system_beq sys) l.

Definition uses_statvfs : bool := one_of [Sun; NetBSD; Hpux; Alpha].

Definition copy_statfs (buf : buffer) : statfs :=
  let v0 := if one_of [Sun; FreeBSD; OpenBSD; NetBSD; Alpha] then -1 else s64 (b_type buf) in
  let '(v8, v9, v10) :=
    if one_of [Sun; Hpux; Alpha] then
      (s64 (b_namemax buf), if one_of [Alpha] then str "-1" else b_basetype buf, s64 (b_frsize buf))
    else if one_of [FreeBSD; OpenBSD; NetBSD; Apple; DragonFly] then
      (if one_of [OpenBSD; NetBSD; DragonFly; Apple] then s64 NAME_MAX else s64 (b_namemax buf), b_fstypename buf, -1)
    else (s64 (b_namelen buf), str "-1", -1) in
  Figures v0 (s64 (b_bsize buf)) (s64 (b_blocks buf)) (s64 (b_bfree buf)) (s64 (b_bavail buf)) (s64 (b_files buf))
    (s64 (b_ffree buf)) v8 v9 v10.

(** An exception is [None]. *)
Definition statfs_statfs (path : list Z) : option statfs := copy_statfs <$> statfs_call path.

(** ** [unix32.ml] *)

Definition _bsize (sf : statfs) : option Z :=
  if (f_frsize sf =? 0) || (f_frsize sf =? -1) then Some (f_bsize sf) else Some (f_frsize sf).

Definition bsize (dir : list Z) : option Z := s ← statfs_statfs dir; _bsize s.
Definition blocks (dir : list Z) : option Z := f_blocks <$> statfs_statfs dir.
Definition bfree (dir : list Z) : option Z := f_bfree <$> statfs_statfs dir.
Definition bavail (dir : list Z) : option Z := f_bavail <$> statfs_statfs dir.

(** [**], [--] and [//] on [int64]; a division by zero is an exception. *)
Definition mul64 (a b : Z) : Z := s64 (a * b).
Definition sub64 (a b : Z) : Z := s64 (a - b).
Definition div64 (a b : Z) : option Z := if b =? 0 then None else Some (s64 (Z.quot a b)).

Definition disktotal (dir : list Z) : option Z :=
  s ← statfs_statfs dir; bsize ← _bsize s; Some (mul64 bsize (f_blocks s)).
Definition diskfree (dir : list Z) : option Z :=
  s ← statfs_statfs dir; bsize ← _bsize s; Some (mul64 bsize (f_bavail s)).
Definition diskused (dir : list Z) : option Z :=
  s ← statfs_statfs dir; bsize ← _bsize s; Some (mul64 bsize (sub64 (f_blocks s) (f_bavail s))).

Definition percentused (dir : list Z) : option Z :=
  match diskfree dir, disktotal dir with
  | Some dfree, Some dtotal => p ← div64 (mul64 dfree 100) dtotal; Some (sub64 100 p)
  | _, _ => None
  end.

Definition percentfree (dir : list Z) : option Z :=
  match diskfree dir, disktotal dir with
  | Some dfree, Some dtotal => div64 (mul64 dfree 100) dtotal
  | _, _ => None
  end.
End Stub.

(** ** The figures *)

Lemma s64_id z : - 2 ^ 63 <= z < 2 ^ 63 -> s64 z = z.
Proof. intros Hz. unfold s64. rewrite Z.mod_small; lia. Qed.

Section Figures.
Context {FS : Filesystems}.

(** The unit of the numbers of blocks, in the documentation of the two calls. *)
Definition block_unit (buf : buffer) : Z := if uses_statvfs then b_frsize buf else b_bsize buf.

(** The unit that OCaml takes. *)
Definition taken_unit (buf : buffer) : Z := if system_beq sys NetBSD then b_bsize buf else block_unit buf.

Lemma bsize_ok buf :
  0 < b_bsize buf < 2 ^ 63 -> 0 < b_frsize buf < 2 ^ 63 -> _bsize (copy_statfs buf) = Some (taken_unit buf).
Proof.
  intros Hb Hf. unfold _bsize, copy_statfs, taken_unit, block_unit, uses_statvfs, one_of.
  assert (Ef : s64 (b_frsize buf) = b_frsize buf) by (apply s64_id; lia).
  assert (Eb : s64 (b_bsize buf) = b_bsize buf) by (apply s64_id; lia).
  destruct sys; cbn -[s64 str]; rewrite ?Ef, ?Eb; try done;
    destruct (Z.eqb_spec (b_frsize buf) 0), (Z.eqb_spec (b_frsize buf) (-1)); try lia; done.
Qed.

(** A file system of which the byte counts fit in an [int64], times 100. *)
Definition moderate (buf : buffer) : Prop :=
  0 < b_bsize buf < 2 ^ 63 /\ 0 < b_frsize buf < 2 ^ 63 /\ 0 <= b_bavail buf <= b_blocks buf /\ 0 < b_blocks buf /\
  100 * (taken_unit buf * b_blocks buf) < 2 ^ 63.
End Figures.

(** On a file system whose size can be counted in bytes, 100 times over, the
    total, free and used space are exact and the percentages are those of the
    blocks and add up to 100: in the unit that the documentation of [statfs] or
    [statvfs] gives, but on NetBSD, where [statvfs] is called and its unit left
    out, in that of [f_bsize]. *)
Theorem disk_figures {FS : Filesystems} dir buf :
  statfs_call dir = Some buf -> moderate buf ->
  let unit := if system_beq sys NetBSD then b_bsize buf else block_unit buf in
  let p := b_bavail buf * 100 / b_blocks buf in
  disktotal dir = Some (unit * b_blocks buf) /\ diskfree dir = Some (unit * b_bavail buf) /\
  diskused dir = Some (unit * b_blocks buf - unit * b_bavail buf) /\
  percentfree dir = Some p /\ percentused dir = Some (100 - p) /\ 0 <= p <= 100.
Proof.
  intros E (Hb & Hf & Ha & Hn & Hm) unit p. change unit with (taken_unit buf). set (u := taken_unit buf) in *.
  assert (Hu : 0 < u) by (unfold u, taken_unit, block_unit; repeat case_match; lia).
  assert (Es : statfs_statfs dir = Some (copy_statfs buf)) by (unfold statfs_statfs; by rewrite E).
  assert (Hav : u * b_bavail buf <= u * b_blocks buf) by nia.
  assert (Hbl : b_blocks buf <= u * b_blocks buf) by nia.
  assert (Ebl : f_blocks (copy_statfs buf) = b_blocks buf)
    by (unfold copy_statfs; repeat case_match; apply s64_id; lia).
  assert (Eav : f_bavail (copy_statfs buf) = b_bavail buf)
    by (unfold copy_statfs; repeat case_match; apply s64_id; lia).
  assert (Et : disktotal dir = Some (u * b_blocks buf)).
  { unfold disktotal, mul64. rewrite Es, some_bind, bsize_ok, some_bind, Ebl by done. fold u. by rewrite s64_id by lia. }
  assert (Ed : diskfree dir = Some (u * b_bavail buf)).
  { unfold diskfree, mul64. rewrite Es, some_bind, bsize_ok, some_bind, Eav by done. fold u. by rewrite s64_id by nia. }
  assert (Hp : 0 <= p <= 100).
  { unfold p. split; [apply Z.div_pos; lia|]. apply Z.div_le_upper_bound; lia. }
  assert (Eq : div64 (mul64 (u * b_bavail buf) 100) (u * b_blocks buf) = Some p).
  { unfold div64, mul64. destruct (Z.eqb_spec (u * b_blocks buf) 0); [nia|]. rewrite (s64_id (_ * 100)) by nia.
    rewrite Z.quot_div_nonneg, <- Z.mul_assoc, Z.div_mul_cancel_l by nia. fold p. by rewrite s64_id by lia. }
  split; [done|]. split; [done|]. split.
  { unfold diskused, mul64, sub64. rewrite Es, some_bind, bsize_ok, some_bind, Ebl, Eav by done. fold u.
    rewrite (s64_id (b_blocks buf - _)) by lia. rewrite s64_id by nia. f_equal. lia. }
  unfold percentfree, percentused. rewrite Ed, Et, Eq, some_bind. split; [done|]. split; [|done].
  unfold sub64. by rewrite s64_id by lia.
Qed.

(** ** A disk of 1000 fragments *)

Definition thousand : buffer := Buffer 61267 4096 512 1000 300 250 100 50 255 255 [] [].

Definition one_disk (s : system) : Filesystems := {| sys := s; NAME_MAX := 255; statfs_call _ := Some thousand |}.

Lemma disk_figures_witness :
  (let FS := one_disk Sun in
   disktotal [] = Some 512000 /\ diskfree [] = Some 128000 /\ diskused [] = Some (512000 - 128000) /\
   percentfree [] = Some 25 /\ percentused [] = Some (100 - 25) /\ 0 <= 25 <= 100) /\
  disktotal (FS := one_disk NetBSD) [] = Some 4096000.
Proof.
  split; [|vm_compute; reflexivity]. apply (disk_figures (FS := one_disk Sun) [] thousand); [reflexivity|].
  unfold moderate. vm_compute. intuition discriminate.
Defined.
End Statfs.
