(* ===== verification/Zlib.v ===== *)
(** * Compressed strings

    The streams of [src/src/utils/cdk/zlibstubs.c] and the loops over them of
    [zlib.ml]: [compress_string], [uncompress_string2] and [uncompress_string].
    zlib is a parameter ([Zlib]); what is relied on of it is in [Deflating] and
    [Inflating].  A loop of OCaml is a step function and a number of steps. *)

From Stdlib Require Import ZArith Lia.
From stdpp Require Import base option numbers list.
From S2P Require Import Prelude Os.

Local Open Scope Z_scope.

Module Zlib.

(** ** zlib *)

Inductive flush := Z_NO_FLUSH | Z_SYNC_FLUSH | Z_FULL_FLUSH | Z_FINISH.

Definition Z_OK : Z := 0.
Definition Z_STREAM_END : Z := 1.
Definition Z_NEED_DICT : Z := 2.
Definition MAX_WBITS : Z := 15.

(** The result of a call on [avail_in] bytes and with room for [avail_out]: the
    return code, the number of bytes read, the bytes written, the stream. *)
Record zresult (D : Type) := Zresult { z_ret : Z; z_read : nat; z_out : list Z; z_stream : D }.

Arguments Zresult {D} _ _ _ _.
Arguments z_ret {D} _.
Arguments z_read {D} _.
Arguments z_out {D} _.
Arguments z_stream {D} _.

(** [D] and [I]: the streams of compression and of decompression.  An
    initialisation is [None] when it fails, an end is [false]. *)
Class Zlib (D I : Type) := {
  deflateInit2 : Z -> Z -> option D;
  deflate : D -> list Z -> Z -> flush -> zresult D;
  deflateEnd : D -> bool;
  inflateInit2 : Z -> option I;
  inflate : I -> list Z -> Z -> flush -> zresult I;
  inflateEnd : I -> bool
}.

(** ** The stubs; an OCaml exception is [Unix_error] *)

Section Stubs.
Context {D I : Type} `{!Zlib D I}.

Definition camlzip_flush_table : list flush := [Z_NO_FLUSH; Z_SYNC_FLUSH; Z_FULL_FLUSH; Z_FINISH].

Definition camlzip_deflateInit (vlevel : Z) (expect_header : bool) : io D :=
  match deflateInit2 vlevel (if expect_header then MAX_WBITS else - MAX_WBITS) with
  | None => Unix_error
  | Some zs => Ret zs
  end.

(** The segments are those of the source and destination strings; [avail_in]
    and [avail_out] have 32 bits.  Whether the end is reached, the bytes used
    on both sides, the destination, and the stream. *)
Definition stub {T} (call : T -> list Z -> Z -> flush -> zresult T) (failed : Z -> bool)
    (zs : T) (srcbuf : list Z) (srcpos srclen : Z) (dstbuf : list Z) (dstpos dstlen : Z) (vflush : nat)
    : io (bool * Z * Z * list Z * T) :=
  inp ← mem (sub_bytes srcbuf srcpos (u32 srclen));
  fl ← mem (camlzip_flush_table !! vflush);
  let r := call zs inp (u32 dstlen) fl in
  if failed (z_ret r) then Unix_error
  else
    dstbuf ← mem (blit dstbuf dstpos (z_out r));
    let used_in := srclen - (u32 srclen - Z.of_nat (z_read r)) in
    let used_out := dstlen - (u32 dstlen - Z.of_nat (length (z_out r))) in
    Ret (z_ret r =? Z_STREAM_END, used_in, used_out, dstbuf, z_stream r).

Definition camlzip_deflate := stub deflate (fun retcode => retcode <? 0).

Definition camlzip_deflateEnd (zs : D) : io unit := if deflateEnd zs then Ret () else Unix_error.

Definition camlzip_inflateInit (expect_header : bool) : io I :=
  match inflateInit2 (if expect_header then MAX_WBITS else - MAX_WBITS) with
  | None => Unix_error
  | Some zs => Ret zs
  end.

Definition camlzip_inflate := stub inflate (fun retcode => (retcode <? 0) || (retcode =? Z_NEED_DICT)).

Definition camlzip_inflateEnd (zs : I) : io unit := if inflateEnd zs then Ret () else Unix_error.

(** ** The loops of [zlib.ml] *)

(** A loop by its step: the next state or the result.  [None]: it has not ended
    after that many steps. *)
Fixpoint loop {S R} (step : S -> io (S + R)) (fuel : nat) (s : S) : option (io R) :=
  match fuel with
  | O => None
  | Datatypes.S fuel =>
      match step s with
      | Ret (inl s) => loop step fuel s
      | Ret (inr r) => Some (Ret r)
      | Unix_error => Some Unix_error
      | Undefined => Some Undefined
      end
  end.

(** [String.create]: the contents are whatever was there. *)
Context (junk : Z).

Definition String_create (n : Z) : list Z := replicate (Z.to_nat n) junk.

Definition grow_buffer (s : list Z) : io (list Z) :=
  let s' := String_create (2 * Z.of_nat (length s)) in mem (blit s' 0 s).

(** [String.sub s 0 n] *)
Definition String_sub (s : list Z) (n : Z) : io (list Z) :=
  match sub_bytes s 0 n with Some l => Ret l | None => Unix_error end.

Definition compr_step (inbuf : list Z) (st : D * Z * list Z * Z) : io (D * Z * list Z * Z + D * list Z) :=
  let '(zs, inpos, outbuf, outpos) := st in
  let inavail := Z.of_nat (length inbuf) - inpos in
  let outavail := Z.of_nat (length outbuf) - outpos in
  if outavail =? 0 then (outbuf ← grow_buffer outbuf; Ret (inl (zs, inpos, outbuf, outpos)))
  else
    '(finished, used_in, used_out, outbuf, zs) ←
      camlzip_deflate zs inbuf inpos inavail outbuf outpos outavail (if inavail =? 0 then 3%nat else 0%nat);
    if finished : bool then res ← String_sub outbuf (outpos + used_out); Ret (inr (zs, res))
    else Ret (inl (zs, inpos + used_in, outbuf, outpos + used_out)).

Definition compress_string (fuel : nat) (level : Z) (inbuf : list Z) : option (io (list Z)) :=
  match camlzip_deflateInit level true with
  | Ret zs =>
      r ← loop (compr_step inbuf) fuel (zs, 0, String_create (Z.of_nat (length inbuf)), 0);
      Some ('(zs, res) ← r; _ ← camlzip_deflateEnd zs; Ret res)
  | _ => Some Unix_error
  end.

Definition uncompr2_step (inbuf : list Z) (st : I * Z * list Z * Z) : io (I * Z * list Z * Z + I * list Z) :=
  let '(zs, inpos, outbuf, outpos) := st in
  let inavail := Z.of_nat (length inbuf) - inpos in
  let outavail := Z.of_nat (length outbuf) - outpos in
  if outavail =? 0 then (outbuf ← grow_buffer outbuf; Ret (inl (zs, inpos, outbuf, outpos)))
  else
    '(finished, used_in, used_out, outbuf, zs) ←
      camlzip_inflate zs inbuf inpos inavail outbuf outpos outavail 1%nat;
    if finished : bool then res ← String_sub outbuf (outpos + used_out); Ret (inr (zs, res))
    else Ret (inl (zs, inpos + used_in, outbuf, outpos + used_out)).

Definition uncompress_string2 (fuel : nat) (inbuf : list Z) : option (io (list Z)) :=
  match camlzip_inflateInit true with
  | Ret zs =>
      r ← loop (uncompr2_step inbuf) fuel (zs, 0, String_create (2 * Z.of_nat (length inbuf)), 0);
      Some ('(zs, res) ← r; _ ← camlzip_inflateEnd zs; Ret res)
  | _ => Some Unix_error
  end.

Definition buffer_size : Z := 1024.

(** [uncompress], for the [refill] and [flush] of [uncompress_string]: the
    stream, the position in the string, the input buffer and its segment, the
    output buffer, and the characters flushed; [Some first] in
    [uncompr_finish]. *)
Record refilled := Refilled {
  u_zs : I;
  u_pos : Z;
  u_inbuf : list Z;
  u_inpos : Z;
  u_inavail : Z;
  u_outbuf : list Z;
  u_buf : list Z;
  u_finish : option bool
}.

Definition refill (s : list Z) (pos : Z) (b : list Z) : io (Z * Z * list Z) :=
  let n := Z.min (Z.of_nat (length b)) (Z.of_nat (length s) - pos) in
  if n <? 1 then Ret (0, pos, b)
  else seg ← mem (sub_bytes s pos n); b ← mem (blit b 0 seg); Ret (n, pos + n, b).

Definition uncompr_step (header : bool) (s : list Z) (u : refilled) : io (refilled + I * list Z) :=
  match u_finish u with
  | None =>
      if u_inavail u =? 0 then
        '(incount, pos, inbuf) ← refill s (u_pos u) (u_inbuf u);
        Ret (inl (Refilled (u_zs u) pos inbuf 0 incount (u_outbuf u) (u_buf u)
          (if incount =? 0 then Some true else None)))
      else
        '(finished, used_in, used_out, outbuf, zs) ←
          camlzip_inflate (u_zs u) (u_inbuf u) (u_inpos u) (u_inavail u) (u_outbuf u) 0 buffer_size 1%nat;
        flushed ← String_sub outbuf used_out;
        if finished : bool then Ret (inr (zs, u_buf u ++ flushed))
        else Ret (inl (Refilled zs (u_pos u) (u_inbuf u) (u_inpos u + used_in) (u_inavail u - used_in) outbuf
          (u_buf u ++ flushed) None))
  | Some first_finish =>
      let dummy_byte := if first_finish && negb header then 1 else 0 in
      '(finished, _, used_out, outbuf, zs) ←
        camlzip_inflate (u_zs u) (u_inbuf u) 0 dummy_byte (u_outbuf u) 0 buffer_size 1%nat;
      flushed ← String_sub outbuf used_out;
      if finished : bool then Ret (inr (zs, u_buf u ++ flushed))
      else Ret (inl (Refilled zs (u_pos u) (u_inbuf u) 0 0 outbuf (u_buf u ++ flushed) (Some false)))
  end.

Definition uncompress_string (fuel : nat) (s : list Z) : option (io (list Z)) :=
  match camlzip_inflateInit true with
  | Ret zs =>
      r ← loop (uncompr_step true s) fuel
        (Refilled zs 0 (String_create buffer_size) 0 0 (String_create buffer_size) [] None);
      Some ('(zs, res) ← r; _ ← camlzip_inflateEnd zs; Ret res)
  | _ => Some Unix_error
  end.
End Stubs.

(** ** What zlib promises *)

(** [valid s d]: the stream [s], with a header or raw according to [wbits],
    encodes [d].  [deflating fin d c o]: the stream has read [c] and written [o];
    [fin] once it was asked to finish.  [bound]: [deflateBound]. *)
Class Deflating {D I} (ZL : Zlib D I) (wbits : Z) (valid : list Z -> list Z -> Prop) := {
  bound : nat -> nat;
  deflating : bool -> D -> list Z -> list Z -> Prop;
  deflateInit_ok level : -1 <= level <= 9 -> exists d, deflateInit2 level wbits = Some d /\ deflating false d [] [];
  bound_mono n m : (n <= m)%nat -> (bound n <= bound m)%nat;
  deflating_bound fin d c o : deflating fin d c o -> (length o <= bound (length c))%nat;
  deflate_run d c o inp room :
    deflating false d c o -> inp <> [] -> 0 < room ->
    let r := deflate d inp room Z_NO_FLUSH in
    z_ret r = Z_OK /\ (z_read r <= length inp)%nat /\ Z.of_nat (length (z_out r)) <= room /\
    deflating false (z_stream r) (c ++ take (z_read r) inp) (o ++ z_out r) /\
    (z_read r = length inp \/ Z.of_nat (length (z_out r)) = room);
  deflate_finish fin d c o room :
    deflating fin d c o -> 0 < room ->
    let r := deflate d [] room Z_FINISH in
    z_read r = 0%nat /\ Z.of_nat (length (z_out r)) <= room /\ deflating true (z_stream r) c (o ++ z_out r) /\
    ((z_ret r = Z_STREAM_END /\ valid (o ++ z_out r) c /\ deflateEnd (z_stream r) = true) \/
     (z_ret r = Z_OK /\ Z.of_nat (length (z_out r)) = room))
}.

(** [inflating e c o]: the stream has read [c] and written [o].  On a prefix of
    what is left of a valid stream, it stops at the end, with the output full,
    or with the input read when there is more to come. *)
Class Inflating {D I} (ZL : Zlib D I) (valid : list Z -> list Z -> Prop) := {
  inflating : I -> list Z -> list Z -> Prop;
  valid_not_empty s d : valid s d -> s <> [];
  inflateInit_ok : exists e, inflateInit2 MAX_WBITS = Some e /\ inflating e [] [];
  inflate_ok e c o inp more data room :
    inflating e c o -> valid (c ++ inp ++ more) data -> 0 < room -> inp <> [] \/ more = [] ->
    (exists rest, data = o ++ rest) ->
    let r := inflate e inp room Z_SYNC_FLUSH in
    (z_read r <= length inp)%nat /\ Z.of_nat (length (z_out r)) <= room /\
    inflating (z_stream r) (c ++ take (z_read r) inp) (o ++ z_out r) /\
    (exists rest, data = (o ++ z_out r) ++ rest) /\
    ((z_ret r = Z_STREAM_END /\ data = o ++ z_out r /\ inflateEnd (z_stream r) = true) \/
     (z_ret r = Z_OK /\ (Z.of_nat (length (z_out r)) = room \/ z_read r = length inp /\ more <> [])))
}.

(** ** Loops and stubs *)

(** A measure that decreases under an invariant ends the loop. *)
Lemma loop_total {S R} (step : S -> io (S + R)) (P : S -> Prop) (Q : R -> Prop) (m : S -> nat) :
  (forall s, P s -> (exists s', step s = Ret (inl s') /\ P s' /\ (m s' < m s)%nat) \/
                    (exists r, step s = Ret (inr r) /\ Q r)) ->
  forall s, P s -> exists fuel r, loop step fuel s = Some (Ret r) /\ Q r.
Proof.
  intros Hstep s. remember (m s) as k eqn:Hk. revert s Hk. induction k as [k IH] using lt_wf_ind. intros s -> Hs.
  destruct (Hstep s Hs) as [(s' & E & Hs' & Hm)|(r & E & Hr)].
  - destruct (IH _ Hm s' eq_refl Hs') as (fuel & r & H & Hr). exists (Datatypes.S fuel), r. cbn [loop]. by rewrite E.
  - exists 1%nat, r. cbn [loop]. by rewrite E.
Qed.

(** A state that steps to itself never ends. *)
Lemma loop_stuck {S R} (step : S -> io (S + R)) s : step s = Ret (inl s) -> forall fuel, loop step fuel s = None.
Proof. intros E. induction fuel as [|fuel IH]; [done|]. cbn [loop]. by rewrite E. Qed.

(** A call on segments of strings of less than 4 GB. *)
Lemma stub_ok {T} (call : T -> list Z -> Z -> flush -> zresult T) failed zs src (p n : nat) dst (q : nat) room v fl :
  (p + n <= length src)%nat -> Z.of_nat n < 2 ^ 32 -> 0 <= room < 2 ^ 32 -> Z.of_nat q + room <= Z.of_nat (length dst) ->
  camlzip_flush_table !! v = Some fl ->
  let r := call zs (take n (drop p src)) room fl in
  failed (z_ret r) = false -> Z.of_nat (length (z_out r)) <= room ->
  stub call failed zs src (Z.of_nat p) (Z.of_nat n) dst (Z.of_nat q) room v
  = Ret (z_ret r =? Z_STREAM_END, Z.of_nat (z_read r), Z.of_nat (length (z_out r)),
         take q dst ++ z_out r ++ drop (q + length (z_out r)) dst, z_stream r).
Proof.
  intros Hp Hn Hroom Hq Hfl r Hr Hout. unfold stub. rewrite (u32_id (Z.of_nat n)), (u32_id room) by (unfold word; lia).
  rewrite sub_bytes_in, mem_some, bind_ret, Hfl, mem_some, bind_ret by done. fold r. rewrite Hr.
  rewrite blit_in, mem_some, bind_ret by lia. repeat f_equal; lia.
Qed.

(** *** Output that grows at its end *)

(** [outbuf] starts with [o], and [outpos] is after it. *)
Definition written (o outbuf : list Z) (outpos : Z) : Prop :=
  outpos = Z.of_nat (length o) /\ exists free, outbuf = o ++ free.

Lemma written_app o outbuf outpos out :
  written o outbuf outpos -> (length o + length out <= length outbuf)%nat ->
  written (o ++ out) (take (length o) outbuf ++ out ++ drop (length o + length out) outbuf) (outpos + Z.of_nat (length out)).
Proof.
  intros [-> [free ->]] Hl. split; [rewrite length_app; lia|]. rewrite take_app_length, app_assoc. by eexists.
Qed.

Lemma written_sub o outbuf outpos : written o outbuf outpos -> String_sub outbuf outpos = Ret o.
Proof.
  intros [-> [free ->]]. unfold String_sub. rewrite sub_bytes_0, take_app_length by (rewrite length_app; lia). done.
Qed.

Lemma length_written dst q (out : list Z) :
  (q + length out <= length dst)%nat -> length (take q dst ++ out ++ drop (q + length out) dst) = length dst.
Proof. intros. rewrite !length_app, length_take, length_drop. lia. Qed.

Lemma grow_buffer_ok junk o outbuf outpos :
  written o outbuf outpos -> exists outbuf', grow_buffer junk outbuf = Ret outbuf' /\ written o outbuf' outpos /\
    length outbuf' = (2 * length outbuf)%nat.
Proof.
  intros [-> [free ->]]. unfold grow_buffer, String_create. set (l := o ++ free).
  replace (Z.to_nat (2 * Z.of_nat (length l))) with (2 * length l)%nat by lia.
  rewrite (blit_in _ 0), mem_some by (rewrite length_replicate; lia). eexists. split; [done|]. split.
  - split; [done|]. cbn [take app]. unfold l. rewrite <- app_assoc. by eexists.
  - rewrite length_written; [by rewrite length_replicate|rewrite length_replicate; lia].
Qed.

Lemma outavail_full (o outbuf : list Z) :
  (Z.of_nat (length outbuf) - Z.of_nat (length o) =? 0) = (length outbuf =? length o)%nat.
Proof. destruct (Z.eqb_spec (Z.of_nat (length outbuf) - Z.of_nat (length o)) 0), (Nat.eqb_spec (length outbuf) (length o)); lia || done. Qed.

(** ** Compression *)

Section Compress.
Context {D I : Type} {ZL : Zlib D I} {valid : list Z -> list Z -> Prop} {wbits : Z} {ZD : Deflating ZL wbits valid} (junk : Z).
Context (inbuf : list Z).
Context (Hsmall : Z.of_nat (length inbuf) < 2 ^ 31) (Hbound : Z.of_nat (bound (Deflating := ZD) (length inbuf)) < 2 ^ 31).

(** The [i] first bytes were read; [outbuf] starts with [o]. *)
Definition compr_at (i : nat) (o : list Z) (fin : bool) (zs : D) (outbuf : list Z) : Prop :=
  (i <= length inbuf)%nat /\ written o outbuf (Z.of_nat (length o)) /\ deflating fin zs (take i inbuf) o /\
  ((i < length inbuf)%nat -> fin = false) /\ (0 < length outbuf)%nat /\
  (length outbuf <= Nat.max (length inbuf) (2 * bound (Deflating := ZD) (length inbuf)))%nat.

(** What is left to read and to write, and whether the buffer is to grow. *)
Definition left_at (i : nat) (o outbuf : list Z) : nat :=
  (2 * ((length inbuf - i) + (bound (Deflating := ZD) (length inbuf) - length o)) +
   if (length outbuf =? length o)%nat then 1 else 0)%nat.

Lemma deflating_fits fin d i o :
  deflating fin d (take i inbuf) o -> (length o <= bound (Deflating := ZD) (length inbuf))%nat.
Proof.
  intros H. apply deflating_bound in H. etrans; [exact H|]. apply bound_mono. rewrite length_take. lia.
Qed.

(** The call of [deflate]: it finishes when all the input was read, or reads or
    writes something. *)
Lemma deflate_call i o fin zs outbuf :
  compr_at i o fin zs outbuf -> (length o < length outbuf)%nat ->
  let inavail := Z.of_nat (length inbuf) - Z.of_nat i in
  exists finished (k : nat) out outbuf' zs' fin',
    camlzip_deflate zs inbuf (Z.of_nat i) inavail outbuf (Z.of_nat (length o)) (Z.of_nat (length outbuf) - Z.of_nat (length o))
      (if inavail =? 0 then 3%nat else 0%nat) = Ret (finished, Z.of_nat k, Z.of_nat (length out), outbuf', zs') /\
    length outbuf' = length outbuf /\ (i + k <= length inbuf)%nat /\
    written (o ++ out) outbuf' (Z.of_nat (length o) + Z.of_nat (length out)) /\
    deflating fin' zs' (take (i + k) inbuf) (o ++ out) /\ ((i + k < length inbuf)%nat -> fin' = false) /\
    if finished : bool then (i + k)%nat = length inbuf /\ valid (o ++ out) inbuf /\ deflateEnd zs' = true
    else (0 < k + length out)%nat.
Proof.
  intros (Hi & Hw & Hd & Hfin & _ & Hlen) Hlt inavail. subst inavail. unfold camlzip_deflate.
  set (room := Z.of_nat (length outbuf) - Z.of_nat (length o)). assert (Hroom : 0 < room < 2 ^ 32) by lia.
  destruct (Z.eqb_spec (Z.of_nat (length inbuf) - Z.of_nat i) 0) as [Ei|Ei].
  - assert (Hall : take i inbuf = inbuf) by (apply take_ge; lia). rewrite Hall in Hd.
    destruct (deflate_finish _ _ _ _ _ Hd (proj1 Hroom)) as (Hr & Hl & Hd' & Hret).
    rewrite (Ei : _ = Z.of_nat 0).
    pose proof (stub_ok deflate (fun retcode => retcode <? 0) zs inbuf i 0 outbuf (length o) room 3 Z_FINISH) as Es.
    change (take 0 (drop i inbuf)) with (@nil Z) in Es. set (r := deflate zs [] room Z_FINISH) in *.
    rewrite Es by (done || lia || by destruct Hret as [[-> _]|[-> _]]). rewrite Hr.
    eexists _, 0%nat, (z_out r), _, (z_stream r), true. rewrite Nat.add_0_r, Hall. split; [done|].
    split; [apply length_written; lia|]. split; [done|]. split; [apply written_app; [done|lia]|]. split; [done|]. split; [lia|].
    destruct Hret as [(-> & Hv & He)|(-> & Hfull)]; cbn [Z.eqb Z_STREAM_END Z_OK]; [split; [lia|done]|lia].
  - assert (Hn : drop i inbuf <> []) by (intros E%(f_equal length); rewrite length_drop in E; simpl in E; lia).
    rewrite (Hfin ltac:(lia)) in Hd.
    destruct (deflate_run _ _ _ _ _ Hd Hn (proj1 Hroom)) as (Hret & Hr & Hl & Hd' & Hstop).
    rewrite length_drop in Hr, Hstop.
    replace (Z.of_nat (length inbuf) - Z.of_nat i) with (Z.of_nat (length inbuf - i)) in * by lia.
    pose proof (stub_ok deflate (fun retcode => retcode <? 0) zs inbuf i (length inbuf - i) outbuf (length o) room 0 Z_NO_FLUSH) as Es.
    rewrite (take_ge (drop i inbuf)) in Es by (rewrite length_drop; lia). set (r := deflate zs (drop i inbuf) room Z_NO_FLUSH) in *.
    rewrite Es by (done || lia || by rewrite Hret). rewrite Hret. rewrite take_take_drop in Hd'.
    eexists _, (z_read r), (z_out r), _, (z_stream r), false. split; [done|].
    split; [apply length_written; lia|]. split; [lia|]. split; [apply written_app; [done|lia]|]. split; [done|]. split; [done|].
    cbn [Z.eqb Z_STREAM_END Z_OK]. lia.
Qed.

(** A turn of the loops: the buffer grows, or [deflate] is called. *)
Lemma compr_turn i o fin zs outbuf :
  compr_at i o fin zs outbuf ->
  (length outbuf = length o /\ exists outbuf', grow_buffer junk outbuf = Ret outbuf' /\
    compr_at i o fin zs outbuf' /\ (left_at i o outbuf' < left_at i o outbuf)%nat) \/
  ((length o < length outbuf)%nat /\ exists finished (k : nat) out outbuf' zs' fin',
    camlzip_deflate zs inbuf (Z.of_nat i) (Z.of_nat (length inbuf) - Z.of_nat i) outbuf (Z.of_nat (length o))
      (Z.of_nat (length outbuf) - Z.of_nat (length o)) (if Z.of_nat (length inbuf) - Z.of_nat i =? 0 then 3%nat else 0%nat)
      = Ret (finished, Z.of_nat k, Z.of_nat (length out), outbuf', zs') /\ compr_at (i + k) (o ++ out) fin' zs' outbuf' /\
    if finished : bool then (i + k)%nat = length inbuf /\ valid (o ++ out) inbuf /\ deflateEnd zs' = true
    else (left_at (i + k) (o ++ out) outbuf' < left_at i o outbuf)%nat).
Proof.
  intros Hat. pose proof Hat as (Hi & Hw & Hd & Hfin & Hpos & Hlen). pose proof (deflating_fits _ _ _ _ Hd) as Ho.
  pose proof Hw as [_ [free Eb]]. assert (Hlo : length outbuf = (length o + length free)%nat) by (by rewrite Eb, length_app).
  destruct (decide (length outbuf = length o)) as [E0|E0]; [left|right].
  - split; [done|]. destruct (grow_buffer_ok junk _ _ _ Hw) as (outbuf' & E & Hw' & Hl'). exists outbuf'. split; [done|]. split.
    + do 4 (split; [done|]). lia.
    + unfold left_at. destruct (Nat.eqb_spec (length outbuf') (length o)), (Nat.eqb_spec (length outbuf) (length o)); lia.
  - split; [lia|]. destruct (deflate_call i o fin zs outbuf Hat ltac:(lia))
      as (finished & k & out & outbuf' & zs' & fin' & E & Hl' & Hk & Hw' & Hd' & Hfin' & Hend).
    pose proof (deflating_fits _ _ _ _ Hd') as Ho'. rewrite length_app in Ho'.
    exists finished, k, out, outbuf', zs', fin'. split; [done|]. split.
    + split; [done|]. split; [by rewrite length_app, Nat2Z.inj_add|]. do 2 (split; [done|]). lia.
    + destruct finished; [done|]. unfold left_at. rewrite length_app. clear - Hend Ho' Hk Hi.
      destruct (_ =? _)%nat, (_ =? _)%nat; lia.
Qed.

Definition compr_inv (st : D * Z * list Z * Z) : Prop :=
  let '(zs, inpos, outbuf, outpos) := st in
  exists i o fin, inpos = Z.of_nat i /\ outpos = Z.of_nat (length o) /\ compr_at i o fin zs outbuf.

Definition compr_left (st : D * Z * list Z * Z) : nat :=
  let '(_, inpos, outbuf, outpos) := st in left_at (Z.to_nat inpos) (take (Z.to_nat outpos) outbuf) outbuf.

Lemma left_written i o outbuf :
  written o outbuf (Z.of_nat (length o)) ->
  left_at (Z.to_nat (Z.of_nat i)) (take (Z.to_nat (Z.of_nat (length o))) outbuf) outbuf = left_at i o outbuf.
Proof. intros [_ [free ->]]. by rewrite !Nat2Z.id, take_app_length. Qed.

Lemma compr_step_ok st :
  compr_inv st ->
  (exists st', compr_step junk inbuf st = Ret (inl st') /\ compr_inv st' /\ (compr_left st' < compr_left st)%nat) \/
  (exists r, compr_step junk inbuf st = Ret (inr r) /\ (valid r.2 inbuf /\ (length r.2 <= bound (Deflating := ZD) (length inbuf))%nat /\ deflateEnd r.1 = true)).
Proof.
  destruct st as [[[zs inpos] outbuf] outpos]. intros (i & o & fin & -> & -> & Hat). unfold compr_step. rewrite outavail_full.
  unfold compr_left. rewrite left_written by apply Hat.
  destruct (compr_turn _ _ _ _ _ Hat) as [(-> & outbuf' & -> & Hat' & Hl)|(Hlt & finished & k & out & outbuf' & zs' & fin' & -> & Hat' & Hend)].
  - rewrite Nat.eqb_refl, bind_ret. left. eexists. split; [done|]. split; [by exists i, o, fin|]. by rewrite left_written by apply Hat'.
  - destruct (Nat.eqb_spec (length outbuf) (length o)); [lia|]. rewrite bind_ret, <- !Nat2Z.inj_add, <- length_app.
    pose proof Hat' as (_ & Hw' & Hd' & _). destruct finished; [right|left].
    + rewrite (written_sub _ _ _ Hw'), bind_ret. eexists. split; [done|]. destruct Hend as (_ & Hv & He).
      split; [done|]. split; [by eapply deflating_fits|done].
    + eexists. split; [done|]. split; [by eexists _, _, _|]. by rewrite left_written.
Qed.

Lemma compr_start zs :
  inbuf <> [] -> deflating false zs [] [] -> compr_at 0 [] false zs (String_create junk (Z.of_nat (length inbuf))).
Proof.
  intros Hne Hd. unfold String_create. rewrite Nat2Z.id. split; [lia|]. split; [by split; [|eexists]|]. split; [done|]. split; [done|].
  rewrite length_replicate. split; [destruct inbuf; [done|simpl; lia]|lia].
Qed.
End Compress.

Lemma compress_string_ok {D I} {ZL : Zlib D I} {valid} {ZD : Deflating ZL MAX_WBITS valid} junk inbuf level :
  inbuf <> [] -> Z.of_nat (length inbuf) < 2 ^ 31 -> Z.of_nat (bound (Deflating := ZD) (length inbuf)) < 2 ^ 31 ->
  -1 <= level <= 9 -> exists fuel z, compress_string junk fuel level inbuf = Some (Ret z) /\ valid z inbuf /\
    (length z <= bound (Deflating := ZD) (length inbuf))%nat.
Proof.
  intros Hne Hs Hb Hlevel. destruct (deflateInit_ok (Deflating := ZD) level Hlevel) as (zs & E & Hd).
  destruct (loop_total _ _ _ _ (compr_step_ok (ZD := ZD) junk inbuf Hs Hb) (zs, 0, String_create junk (Z.of_nat (length inbuf)), 0))
    as (fuel & [zs' z] & El & Hv & Hz & He).
  - exists 0%nat, [], false. split; [done|]. split; [done|]. by apply compr_start.
  - exists fuel, z. unfold compress_string, camlzip_deflateInit. rewrite E. cbv iota. rewrite El.
    split; [|done]. rewrite some_bind, bind_ret. unfold camlzip_deflateEnd. cbn in He. by rewrite He.
Qed.

(** ** Decompression *)

Section Uncompress.
Context {D I : Type} {ZL : Zlib D I} {valid : list Z -> list Z -> Prop} {ZI : Inflating ZL valid} (junk : Z).
Context (s data : list Z) (Hvalid : valid s data).
Context (Hs : Z.of_nat (length s) < 2 ^ 30) (Hdata : Z.of_nat (length data) < 2 ^ 31).

Lemma stream_not_empty : (0 < length s)%nat.
Proof. pose proof (valid_not_empty (Inflating := ZI) _ _ Hvalid). destruct s; [done|simpl; lia]. Qed.

Lemma failed_inflate ret :
  ret = Z_STREAM_END \/ ret = Z_OK -> (fun retcode => (retcode <? 0) || (retcode =? Z_NEED_DICT)) ret = false.
Proof. by intros [->| ->]. Qed.

(** A call on the [n] bytes at [p] of [src], which are those of the stream after
    the [i] already read; [n] is not 0 unless the stream is all read. *)
Lemma inflate_segment e (i : nat) o src (p n : nat) dst (q : nat) room :
  inflating e (take i s) o -> (exists rest, data = o ++ rest) -> (i + n <= length s)%nat -> (0 < n \/ i = length s)%nat ->
  (p + n <= length src)%nat -> take n (drop p src) = take n (drop i s) ->
  0 < room < 2 ^ 32 -> Z.of_nat q + room <= Z.of_nat (length dst) ->
  exists fin k out e', camlzip_inflate e src (Z.of_nat p) (Z.of_nat n) dst (Z.of_nat q) room 1
      = Ret (fin, Z.of_nat k, Z.of_nat (length out), take q dst ++ out ++ drop (q + length out) dst, e') /\
    (k <= n)%nat /\ Z.of_nat (length out) <= room /\ inflating e' (take (i + k) s) (o ++ out) /\
    (exists rest, data = (o ++ out) ++ rest) /\
    if fin : bool then data = o ++ out /\ inflateEnd e' = true
    else Z.of_nat (length out) = room \/ k = n /\ (i + n < length s)%nat.
Proof.
  intros He Ho Hi Hn Hp Eseg Hroom Hq. set (inp := take n (drop i s)).
  assert (Hinp : length inp = n) by (unfold inp; rewrite length_take, length_drop; lia).
  assert (Es : take i s ++ inp ++ drop (i + n) s = s).
  { unfold inp. by rewrite <- drop_drop, take_drop, take_drop. }
  destruct (inflate_ok (Inflating := ZI) e (take i s) o inp (drop (i + n) s) data room) as (Hr & Hl & He' & Ho' & Hret);
    [done|by rewrite Es|lia| |done|].
  { destruct Hn as [Hn|Hn]; [left; intros E; rewrite E in Hinp; simpl in Hinp; lia|right; apply drop_ge; lia]. }
  pose proof (stub_ok inflate (fun retcode => (retcode <? 0) || (retcode =? Z_NEED_DICT)) e src p n dst q room 1 Z_SYNC_FLUSH) as E.
  cbv zeta in E. rewrite Eseg in E. fold inp in E. set (r := inflate e inp room Z_SYNC_FLUSH) in *.
  unfold camlzip_inflate. rewrite E by (done || lia || apply failed_inflate; tauto).
  exists (z_ret r =? Z_STREAM_END), (z_read r), (z_out r), (z_stream r). split; [done|]. split; [lia|]. split; [done|].
  split; [|split; [done|]].
  - replace (take (i + z_read r) s) with (take i s ++ take (z_read r) inp); [done|].
    unfold inp. rewrite take_take, Nat.min_l by lia. apply take_take_drop.
  - destruct Hret as [(-> & Hd & Hend)|(-> & Hfull)]; [done|]. cbn [Z.eqb Z_OK Z_STREAM_END].
    destruct Hfull as [Hfull|[Hk Hmore]]; [by left|right; split; [lia|]].
    apply Nat.nle_gt. intros Hge. apply Hmore, drop_ge. done.
Qed.

Definition uncompr2_inv (st : I * Z * list Z * Z) : Prop :=
  let '(zs, inpos, outbuf, outpos) := st in
  exists (i : nat) o, inpos = Z.of_nat i /\ (i <= length s)%nat /\ written o outbuf outpos /\
    inflating zs (take i s) o /\ (exists rest, data = o ++ rest) /\ outbuf <> [] /\
    (length outbuf <= Nat.max (2 * length s) (2 * length data))%nat.

Definition uncompr2_left (st : I * Z * list Z * Z) : nat :=
  let '(_, _, outbuf, outpos) := st in
  (2 * (length data - Z.to_nat outpos) + if (Z.of_nat (length outbuf) =? outpos)%Z then 1 else 0)%nat.

Lemma uncompr2_step_ok st :
  uncompr2_inv st ->
  (exists st', uncompr2_step junk s st = Ret (inl st') /\ uncompr2_inv st' /\ (uncompr2_left st' < uncompr2_left st)%nat) \/
  (exists r, uncompr2_step junk s st = Ret (inr r) /\ (r.2 = data /\ inflateEnd r.1 = true)).
Proof.
  destruct st as [[[zs inpos] outbuf] outpos]. intros (i & o & -> & Hi & Hw & He & Ho & Hne & Hlen).
  pose proof Hw as [-> [free Eb]]. unfold uncompr2_step.
  assert (Hlo : length outbuf = (length o + length free)%nat) by (by rewrite Eb, length_app).
  assert (Hod : (length o <= length data)%nat) by (destruct Ho as [rest ->]; rewrite length_app; lia).
  assert (Hpos : (0 < length outbuf)%nat) by (destruct outbuf; [done|simpl; lia]).
  destruct (Z.eqb_spec (Z.of_nat (length outbuf) - Z.of_nat (length o)) 0) as [E0|E0].
  { destruct (grow_buffer_ok junk _ _ _ Hw) as (outbuf' & -> & Hw' & Hl'). rewrite bind_ret. left. eexists. split; [done|].
    split; [exists i, o; do 5 (split; [done|]); split; [intros ->; simpl in Hl'; lia|lia]|].
    unfold uncompr2_left. rewrite Hl'. clear - E0 Hpos.
    destruct (Z.eqb_spec (Z.of_nat (2 * length outbuf)) (Z.of_nat (length o))), (Z.eqb_spec (Z.of_nat (length outbuf)) (Z.of_nat (length o))); lia. }
  set (room := Z.of_nat (length outbuf) - Z.of_nat (length o)) in *. assert (Hroom : 0 < room < 2 ^ 32) by lia.
  replace (Z.of_nat (length s) - Z.of_nat i) with (Z.of_nat (length s - i)) by lia.
  destruct (inflate_segment zs i o s i (length s - i) outbuf (length o) room) as (fin & k & out & e' & -> & Hk & Hl & He' & Ho' & Hfin);
    [done|done|lia|lia|lia|done|done|lia|]. rewrite bind_ret.
  pose proof (written_app o outbuf _ out Hw ltac:(lia)) as Hw'. destruct fin.
  - right. rewrite (written_sub _ _ _ Hw'), bind_ret. eexists. split; [done|]. cbn. by destruct Hfin as [-> ?].
  - left. eexists. split; [done|]. destruct Hfin as [Hfull|[_ ?]]; [|lia]. split.
    + exists (i + k)%nat, (o ++ out). split; [lia|]. split; [lia|]. do 3 (split; [done|]).
      rewrite length_written by lia. split; [|done].
      intros E%(f_equal length). rewrite length_written in E by lia. simpl in E. lia.
    + destruct Ho' as [rest Er]. apply (f_equal length) in Er. rewrite !length_app in Er.
      clear - Er Hfull Hroom. unfold uncompr2_left. destruct (_ =? _), (_ =? _); lia.
Qed.

Lemma uncompress_string2_ok : exists fuel, uncompress_string2 junk fuel s = Some (Ret data).
Proof.
  destruct (inflateInit_ok (Inflating := ZI)) as (zs & E & He). pose proof stream_not_empty as Hl.
  destruct (loop_total _ uncompr2_inv _ uncompr2_left uncompr2_step_ok (zs, 0, String_create junk (2 * Z.of_nat (length s)), 0))
    as (fuel & [zs' d] & El & Ed & Hend).
  - exists 0%nat, []. unfold String_create. rewrite length_replicate.
    split; [done|]. split; [lia|]. split; [by split; [|eexists]|]. split; [exact He|]. split; [by eexists|]. split; [|lia].
    intros H%(f_equal length). rewrite length_replicate in H. simpl in H. lia.
  - exists fuel. unfold uncompress_string2, camlzip_inflateInit. rewrite E. cbv iota. rewrite El, some_bind, bind_ret.
    cbn [fst snd] in Ed, Hend. unfold camlzip_inflateEnd. by rewrite Hend, Ed.
Qed.

(** *** With two buffers of 1024 bytes *)

Definition uncompr_inv (u : refilled (I := I)) : Prop :=
  length (u_inbuf u) = 1024%nat /\ length (u_outbuf u) = 1024%nat /\
  exists i p n : nat, u_inpos u = Z.of_nat p /\ u_inavail u = Z.of_nat n /\ u_pos u = Z.of_nat (i + n) /\
    (i + n <= length s)%nat /\ (p + n <= 1024)%nat /\ take n (drop p (u_inbuf u)) = take n (drop i s) /\
    inflating (u_zs u) (take i s) (u_buf u) /\ (exists rest, data = u_buf u ++ rest) /\
    (is_Some (u_finish u) -> n = 0%nat /\ i = length s).

Definition uncompr_left (u : refilled (I := I)) : nat :=
  (2 * ((length data - length (u_buf u)) + (length s - Z.to_nat (u_pos u - u_inavail u))) +
   match u_finish u with Some _ => 0 | None => if (u_inavail u =? 0)%Z then 1 else 0 end)%nat.

(** What follows in two equal segments. *)
Lemma segment_rest {A} (a b : list A) n p i k :
  take n (drop p a) = take n (drop i b) -> take (n - k) (drop (p + k) a) = take (n - k) (drop (i + k) b).
Proof. intros E%(f_equal (drop k)). by rewrite !skipn_firstn_comm, !drop_drop in E. Qed.

Lemma refill_ok (i : nat) b :
  length b = 1024%nat -> (i <= length s)%nat ->
  exists n b', refill s (Z.of_nat i) b = Ret (Z.of_nat n, Z.of_nat (i + n), b') /\ length b' = 1024%nat /\ (n <= 1024)%nat /\
    (i + n <= length s)%nat /\ take n b' = take n (drop i s) /\ (n = 0%nat -> i = length s).
Proof.
  intros Hb Hi. unfold refill. rewrite Hb. remember (Nat.min 1024 (length s - i)) as n eqn:Hn.
  replace (Z.min (Z.of_nat 1024) (Z.of_nat (length s) - Z.of_nat i)) with (Z.of_nat n) by lia.
  destruct (Z.ltb_spec (Z.of_nat n) 1).
  - exists 0%nat, b. rewrite Nat.add_0_r. split; [done|]. split; [done|]. split; [lia|]. split; [lia|]. split; [done|]. lia.
  - set (seg := take n (drop i s)). assert (Hseg : length seg = n) by (unfold seg; rewrite length_take, length_drop; lia).
    rewrite sub_bytes_in, mem_some, bind_ret by lia. fold seg. rewrite (blit_in b 0), mem_some, bind_ret by lia.
    exists n, (take 0 b ++ seg ++ drop (0 + length seg) b). rewrite <- Nat2Z.inj_add. split; [done|].
    rewrite length_written by lia. split; [lia|]. split; [lia|]. split; [lia|]. split; [|lia].
    change (take n (seg ++ drop (0 + length seg) b) = seg). by apply take_app_length'.
Qed.

(** A call of [inflate] on a segment of the input buffer, into the output
    buffer, with what is flushed after it. *)
Lemma inflate_flush e (i : nat) o inbuf (p n : nat) outbuf :
  inflating e (take i s) o -> (exists rest, data = o ++ rest) -> (i + n <= length s)%nat -> (0 < n \/ i = length s)%nat ->
  (p + n <= length inbuf)%nat -> take n (drop p inbuf) = take n (drop i s) -> length outbuf = 1024%nat ->
  exists fin k out outbuf' e',
    camlzip_inflate e inbuf (Z.of_nat p) (Z.of_nat n) outbuf 0 buffer_size 1 = Ret (fin, Z.of_nat k, Z.of_nat (length out), outbuf', e') /\
    String_sub outbuf' (Z.of_nat (length out)) = Ret out /\ length outbuf' = 1024%nat /\
    (k <= n)%nat /\ inflating e' (take (i + k) s) (o ++ out) /\ (exists rest, data = (o ++ out) ++ rest) /\
    if fin : bool then data = o ++ out /\ inflateEnd e' = true else (0 < length out + k)%nat.
Proof.
  intros He Ho Hi Hn Hp Eseg Hout.
  destruct (inflate_segment e i o inbuf p n outbuf 0 buffer_size) as (fin & k & out & e' & E & Hk & Hl & He' & Ho' & Hfin);
    [done..|unfold buffer_size; lia|unfold buffer_size; lia|].
  unfold buffer_size in *. exists fin, k, out, (take 0 outbuf ++ out ++ drop (0 + length out) outbuf), e'.
  split; [exact E|]. split; [apply written_sub; split; [done|by eexists]|]. split; [by rewrite length_written by lia|].
  split; [done|]. split; [done|]. split; [done|]. destruct fin; [done|]. lia.
Qed.

Lemma uncompr_step_ok u :
  uncompr_inv u ->
  (exists u', uncompr_step true s u = Ret (inl u') /\ uncompr_inv u' /\ (uncompr_left u' < uncompr_left u)%nat) \/
  (exists r, uncompr_step true s u = Ret (inr r) /\ (r.2 = data /\ inflateEnd r.1 = true)).
Proof.
  destruct u as [zs pos inbuf inpos inavail outbuf o finish]. unfold uncompr_inv, uncompr_step.
  cbn [u_zs u_pos u_inbuf u_inpos u_inavail u_outbuf u_buf u_finish].
  intros (Hin & Hout & i & p & n & -> & -> & -> & Hi & Hp & Eseg & He & Ho & Hfinish).
  destruct finish as [first|].
  - destruct (Hfinish ltac:(by eexists)) as [-> ->]. cbn [negb]. rewrite andb_false_r.
    destruct (inflate_flush zs (length s) o inbuf 0 0 outbuf) as (fin & k & out & outbuf' & e' & Ei & Ef & Hout' & Hk & He' & Ho' & Hfin);
      [done|done|lia|lia|lia|done|done|]. change (Z.of_nat 0) with 0 in Ei. rewrite Ei, bind_ret, Ef, bind_ret.
    replace k with 0%nat in * by lia. destruct fin; [right; eexists; split; [done|]; cbn; by destruct Hfin as [-> ?]|].
    left. eexists. split; [done|]. split.
    + split; [done|]. split; [done|]. exists (length s), 0%nat, 0%nat. rewrite Nat.add_0_r in *. cbn [u_zs u_buf u_finish]. split_and!; try done; lia.
    + destruct Ho' as [rest Er]. apply (f_equal length) in Er. rewrite !length_app in Er.
      unfold uncompr_left. cbn [u_pos u_inavail u_buf u_finish]. rewrite !length_app. lia.
  - destruct (Z.eqb_spec (Z.of_nat n) 0) as [En|En].
    + replace n with 0%nat in * by lia. rewrite Nat.add_0_r.
      destruct (refill_ok i inbuf Hin) as (m & inbuf' & -> & Hin' & Hm & Him & Em & Hlast); [lia|]. rewrite bind_ret.
      left. eexists. split; [done|]. split.
      * split; [done|]. split; [done|]. exists i, 0%nat, m. cbn [u_zs u_pos u_inpos u_inavail u_inbuf u_buf u_finish].
        split_and!; try done. destruct (Z.eqb_spec (Z.of_nat m) 0); [|by intros [? ?]]. intros _. split; [lia|]. apply Hlast. lia.
      * unfold uncompr_left. cbn [u_pos u_inavail u_buf u_finish]. change (Z.of_nat 0 =? 0) with true. cbv iota.
        destruct (Z.eqb_spec (Z.of_nat m) 0); lia.
    + destruct (inflate_flush zs i o inbuf p n outbuf) as (fin & k & out & outbuf' & e' & -> & Ef & Hout' & Hk & He' & Ho' & Hfin);
        [done|done|lia|lia|lia|done|done|]. rewrite bind_ret, Ef, bind_ret.
      destruct fin; [right; eexists; split; [done|]; cbn; by destruct Hfin as [-> ?]|].
      left. eexists. split; [done|]. split.
      * split; [done|]. split; [done|]. exists (i + k)%nat, (p + k)%nat, (n - k)%nat.
        cbn [u_zs u_pos u_inpos u_inavail u_inbuf u_buf u_finish]. split; [lia|]. split; [lia|]. split; [lia|].
        split; [lia|]. split; [lia|]. split; [by apply segment_rest|]. split; [done|]. split; [done|]. by intros [? ?].
      * destruct Ho' as [rest Er]. apply (f_equal length) in Er. rewrite !length_app in Er.
        unfold uncompr_left. cbn [u_pos u_inavail u_buf u_finish]. rewrite !length_app.
        clear - Er Hfin En Hk Hi. destruct (_ =? 0), (_ =? 0); lia.
Qed.

Lemma uncompress_string_ok : exists fuel, uncompress_string junk fuel s = Some (Ret data).
Proof.
  destruct (inflateInit_ok (Inflating := ZI)) as (zs & E & He). pose proof stream_not_empty as Hl.
  set (b := String_create junk buffer_size). assert (Hb : length b = 1024%nat) by (unfold b, String_create; by rewrite length_replicate).
  destruct (loop_total _ uncompr_inv _ uncompr_left uncompr_step_ok (Refilled zs 0 b 0 0 b [] None)) as (fuel & [zs' d] & El & Ed & Hend).
  - split; [done|]. split; [done|]. exists 0%nat, 0%nat, 0%nat. cbn [u_zs u_pos u_inpos u_inavail u_inbuf u_buf u_finish].
    split_and!; try done; [lia|lia|by eexists|by intros [? ?]..].
  - exists fuel. unfold uncompress_string, camlzip_inflateInit. rewrite E. cbv iota. fold b. rewrite El, some_bind, bind_ret.
    cbn [fst snd] in Ed, Hend. unfold camlzip_inflateEnd. by rewrite Hend, Ed.
Qed.
End Uncompress.

(** ** An empty buffer does not grow *)

Lemma compress_string_empty {D I} {ZL : Zlib D I} junk level fuel zs :
  deflateInit2 level MAX_WBITS = Some zs -> compress_string junk fuel level [] = None.
Proof. intros E. unfold compress_string, camlzip_deflateInit. rewrite E. cbv iota. by rewrite loop_stuck. Qed.

Lemma uncompress_string2_empty {D I} {ZL : Zlib D I} junk fuel zs :
  inflateInit2 MAX_WBITS = Some zs -> uncompress_string2 junk fuel [] = None.
Proof. intros E. unfold uncompress_string2, camlzip_inflateInit. rewrite E. cbv iota. by rewrite loop_stuck. Qed.

(** ** A compression that escapes every byte: 1 before a byte, 0 at the end *)

Definition escape (d : list Z) : list Z := flat_map (fun b => [1; b]) d.

Record deflate_state := DeflateState { ds_pending : list Z; ds_ended : bool }.

(** After a byte 1; the output that waits; whether the end was read. *)
Record inflate_state := InflateState { is_escaped : bool; is_pending : list Z; is_ended : bool }.

(** The bytes decoded, the state of the escape, the end, and the bytes left. *)
Fixpoint unescape (escaped : bool) (l : list Z) : list Z * bool * bool * list Z :=
  match l with
  | [] => ([], escaped, false, [])
  | b :: l =>
      if escaped then let '(out, e, fin, rest) := unescape false l in (b :: out, e, fin, rest)
      else if b =? 1 then unescape true l
      else ([], false, true, l)
  end.

Definition esc_deflate (d : deflate_state) (inp : list Z) (room : Z) (fl : flush) : zresult deflate_state :=
  let fin := match fl with Z_FINISH => true | _ => false end in
  let enc := ds_pending d ++ escape inp ++ (if fin && negb (ds_ended d) then [0] else []) in
  let out := take (Z.to_nat room) enc in
  let pending := drop (Z.to_nat room) enc in
  Zresult (if fin && (length pending =? 0)%nat then Z_STREAM_END else Z_OK) (length inp) out
    (DeflateState pending (fin || ds_ended d)).

Definition esc_inflate (e : inflate_state) (inp : list Z) (room : Z) (fl : flush) : zresult inflate_state :=
  let '(decoded, escaped, fin, rest) := if is_ended e then ([], false, true, inp) else unescape (is_escaped e) inp in
  let dec := is_pending e ++ decoded in
  let out := take (Z.to_nat room) dec in
  let pending := drop (Z.to_nat room) dec in
  Zresult (if fin && (length pending =? 0)%nat then Z_STREAM_END
           else if (length inp =? length rest)%nat && (length out =? 0)%nat then -5 else Z_OK)
    (length inp - length rest) out (InflateState escaped pending fin).

#[export] Instance Escaping : Zlib deflate_state inflate_state := {
  deflateInit2 level wbits := Some (DeflateState [] false);
  deflate := esc_deflate;
  deflateEnd d := ds_ended d && (length (ds_pending d) =? 0)%nat;
  inflateInit2 wbits := Some (InflateState false [] false);
  inflate := esc_inflate;
  inflateEnd e := true
}.

Definition esc_valid (s d : list Z) : Prop := s = escape d ++ [0].

Definition esc_deflating (fin : bool) (d : deflate_state) (c o : list Z) : Prop :=
  ds_ended d = fin /\ o ++ ds_pending d = escape c ++ (if fin then [0] else []).

Lemma escape_app a b : escape (a ++ b) = escape a ++ escape b.
Proof. apply flat_map_app. Qed.

Lemma length_escape d : length (escape d) = (2 * length d)%nat.
Proof. induction d as [|b d IH]; [done|]. cbn. fold (escape d). lia. Qed.

Lemma esc_deflating_bound fin d c o : esc_deflating fin d c o -> (length o <= 2 * length c + 1)%nat.
Proof.
  intros [_ E%(f_equal length)]. rewrite !length_app, length_escape in E. destruct fin; simpl in E; lia.
Qed.

Lemma esc_deflate_run d c o inp room :
  esc_deflating false d c o -> inp <> [] -> 0 < room ->
  let r := esc_deflate d inp room Z_NO_FLUSH in
  z_ret r = Z_OK /\ (z_read r <= length inp)%nat /\ Z.of_nat (length (z_out r)) <= room /\
  esc_deflating false (z_stream r) (c ++ take (z_read r) inp) (o ++ z_out r) /\
  (z_read r = length inp \/ Z.of_nat (length (z_out r)) = room).
Proof.
  intros [Hd E] _ Hroom r. split; [done|]. split; [done|]. split; [cbn [r esc_deflate z_out]; rewrite length_take; lia|].
  split; [|by left]. split; [done|]. cbn [r esc_deflate z_out z_read z_stream ds_pending andb].
  by rewrite <- app_assoc, take_drop, take_ge, escape_app, !app_nil_r, app_assoc, E, app_nil_r by done.
Qed.

Lemma esc_deflate_finish fin d c o room :
  esc_deflating fin d c o -> 0 < room ->
  let r := esc_deflate d [] room Z_FINISH in
  z_read r = 0%nat /\ Z.of_nat (length (z_out r)) <= room /\ esc_deflating true (z_stream r) c (o ++ z_out r) /\
  ((z_ret r = Z_STREAM_END /\ esc_valid (o ++ z_out r) c /\ deflateEnd (z_stream r) = true) \/
   (z_ret r = Z_OK /\ Z.of_nat (length (z_out r)) = room)).
Proof.
  intros [Hd E] Hroom r. set (enc := ds_pending d ++ escape [] ++ (if true && negb (ds_ended d) then [0] else [])).
  assert (Eo : o ++ enc = escape c ++ [0]).
  { unfold enc. rewrite app_assoc, E, Hd. by destruct fin; cbn; rewrite ?app_nil_r. }
  assert (Hv : esc_deflating true (z_stream r) c (o ++ z_out r)).
  { split; [done|]. cbn [r esc_deflate z_stream z_out ds_pending]. fold enc. by rewrite <- app_assoc, take_drop. }
  split; [done|]. split; [cbn [r esc_deflate z_out]; rewrite length_take; lia|]. split; [done|].
  cbn [r esc_deflate z_ret z_out z_stream]. fold enc. cbn [andb].
  destruct (Nat.eqb_spec (length (drop (Z.to_nat room) enc)) 0) as [E0|E0].
  - left. split; [done|]. apply length_zero_iff_nil in E0. split.
    + unfold esc_valid. rewrite <- Eo. f_equal. rewrite <- (take_drop (Z.to_nat room) enc) at 2. by rewrite E0, app_nil_r.
    + cbn [deflateEnd Escaping ds_ended ds_pending]. by rewrite E0.
  - right. split; [done|]. rewrite length_drop in E0. rewrite length_take. lia.
Qed.

#[export] Instance EscapingDeflates wbits : Deflating Escaping wbits esc_valid.
Proof.
  refine {| bound n := (2 * n + 1)%nat; deflating := esc_deflating;
    deflate_run := esc_deflate_run; deflate_finish := esc_deflate_finish; deflating_bound := esc_deflating_bound |}.
  - intros level _. by exists (DeflateState [] false).
  - intros n m Hnm. lia.
Defined.

(** *** Decoding *)

Lemma unescape_end b l : let '(_, e, fin, rest) := unescape b l in if fin : bool then e = false else rest = [].
Proof.
  revert b. induction l as [|x l IH]; intros b; [done|]. cbn [unescape]. destruct b.
  - specialize (IH false). by destruct (unescape false l) as [[[? ?] ?] ?].
  - destruct (x =? 1); [apply IH|done].
Qed.

Lemma unescape_app b l1 l2 :
  unescape b (l1 ++ l2) =
    let '(d1, e1, fin1, r1) := unescape b l1 in
    if fin1 : bool then (d1, e1, true, r1 ++ l2)
    else let '(d2, e2, fin2, r2) := unescape e1 l2 in (d1 ++ d2, e2, fin2, r2).
Proof.
  revert b. induction l1 as [|x l1 IH]; intros b.
  - cbn. by destruct (unescape b l2) as [[[? ?] ?] ?].
  - cbn [unescape app]. destruct b; [|destruct (x =? 1); [apply IH|done]].
    rewrite IH. destruct (unescape false l1) as [[[d1 e1] []] r1]; [done|].
    by destruct (unescape e1 l2) as [[[? ?] ?] ?].
Qed.

Lemma unescape_valid s d : esc_valid s d -> unescape false s = (d, false, true, []).
Proof.
  intros ->. induction d as [|b d IH]; [done|]. change (escape (b :: d)) with (1 :: b :: escape d).
  cbn [app unescape Z.eqb]. by rewrite IH.
Qed.

Definition esc_inflating (e : inflate_state) (c o : list Z) : Prop :=
  unescape false c = (o ++ is_pending e, is_escaped e, is_ended e, []).

Lemma esc_inflate_ok e c o inp more data room :
  esc_inflating e c o -> esc_valid (c ++ inp ++ more) data -> 0 < room -> inp <> [] \/ more = [] ->
  (exists rest, data = o ++ rest) ->
  let r := esc_inflate e inp room Z_SYNC_FLUSH in
  (z_read r <= length inp)%nat /\ Z.of_nat (length (z_out r)) <= room /\
  esc_inflating (z_stream r) (c ++ take (z_read r) inp) (o ++ z_out r) /\
  (exists rest, data = (o ++ z_out r) ++ rest) /\
  ((z_ret r = Z_STREAM_END /\ data = o ++ z_out r /\ inflateEnd (z_stream r) = true) \/
   (z_ret r = Z_OK /\ (Z.of_nat (length (z_out r)) = room \/ z_read r = length inp /\ more <> []))).
Proof.
  intros He Hv%unescape_valid Hroom Hmore _ r. rewrite unescape_app, He in Hv.
  assert (H : exists decoded escaped fin,
    (if is_ended e then ([], false, true, inp) else unescape (is_escaped e) inp) = (decoded, escaped, fin, @nil Z) /\
    unescape false (c ++ inp) = (o ++ is_pending e ++ decoded, escaped, fin, []) /\
    (exists d3, data = o ++ is_pending e ++ decoded ++ d3 /\ (fin = true -> d3 = [])) /\ (fin = false -> more <> [])).
  { rewrite unescape_app, He. destruct (is_ended e) eqn:Hend.
    - injection Hv as <- Hesc E. apply app_eq_nil in E as [-> ->]. rewrite Hesc. exists [], false, true.
      split; [done|]. rewrite !app_nil_r. split; [done|]. split; [|done]. exists []. by rewrite !app_nil_r.
    - rewrite unescape_app in Hv. pose proof (unescape_end (is_escaped e) inp) as Hend1.
      destruct (unescape (is_escaped e) inp) as [[[decoded escaped] []] rest].
      + injection Hv as <- Hesc E. apply app_eq_nil in E as [-> ->]. exists decoded, escaped, true.
        split; [done|]. split; [by rewrite <- app_assoc|]. split; [|done]. exists []. by rewrite app_nil_r, <- app_assoc.
      + subst rest. exists decoded, escaped, false. split; [done|]. split; [by rewrite <- app_assoc|].
        destruct (unescape escaped more) as [[[d2 e2] fin2] r2] eqn:E2. injection Hv as <- _ E _. split.
        * exists d2. split; [|done]. by rewrite <- !app_assoc.
        * intros _ ->. cbn in E2. congruence. }
  destruct H as (decoded & escaped & fin & E & Hc & (d3 & Hd & Hd3) & Hfin).
  unfold r, esc_inflate. rewrite E. cbn [z_read z_out z_stream z_ret length]. rewrite Nat.sub_0_r.
  rewrite (app_assoc (is_pending e)) in Hd. set (dec := is_pending e ++ decoded) in *.
  split; [lia|]. split; [rewrite length_take; lia|]. split; [|split].
  - unfold esc_inflating. cbn [is_pending is_escaped is_ended]. by rewrite take_ge, <- app_assoc, take_drop by done.
  - exists (drop (Z.to_nat room) dec ++ d3). by rewrite Hd, <- app_assoc, (app_assoc (take _ _)), take_drop.
  - destruct fin, (Nat.eqb_spec (length (drop (Z.to_nat room) dec)) 0) as [E0|E0]; cbn [andb].
    + left. split; [done|]. split; [|done]. apply length_zero_iff_nil in E0.
      rewrite Hd, (Hd3 eq_refl), app_nil_r. f_equal. rewrite <- (take_drop (Z.to_nat room) dec) at 1. by rewrite E0, app_nil_r.
    + right. rewrite length_drop in E0. rewrite length_take. replace (Nat.min _ _ =? 0)%nat with false by (symmetry; apply Nat.eqb_neq; lia).
      rewrite andb_false_r. split; [done|]. left. lia.
    + right. destruct Hmore as [Hinp|Hm]; [|by destruct (Hfin eq_refl)]. destruct inp; [done|]. split; [done|]. right. by split; [|apply Hfin].
    + right. destruct Hmore as [Hinp|Hm]; [|by destruct (Hfin eq_refl)]. destruct inp; [done|]. split; [done|]. right. by split; [|apply Hfin].
Qed.

#[export] Instance EscapingInflates : Inflating Escaping esc_valid.
Proof.
  refine {| inflating := esc_inflating; inflate_ok := esc_inflate_ok |}.
  - intros s d -> E%(f_equal length). rewrite length_app in E. simpl in E. lia.
  - by exists (InflateState false [] false).
Defined.

(** ** Properties *)

(** C6: whatever zlib does with a string within its documentation,
    [compress_string] ends on every string but the empty one, and both
    [uncompress_string2] and [uncompress_string] end on its result and give the
    string back: however much is read and written at a time, and whatever the
    new buffers contained.  Strings are of less than half a gigabyte. *)
Theorem zlib_roundtrip {D I} {ZL : Zlib D I} {valid} {ZD : Deflating ZL MAX_WBITS valid} {ZI : Inflating ZL valid} junk level inbuf :
  inbuf <> [] -> Z.of_nat (length inbuf) < 2 ^ 29 -> Z.of_nat (bound (Deflating := ZD) (length inbuf)) < 2 ^ 30 -> -1 <= level <= 9 ->
  exists fuel s, compress_string junk fuel level inbuf = Some (Ret s) /\
    (exists fuel2, uncompress_string2 junk fuel2 s = Some (Ret inbuf)) /\
    (exists fuel3, uncompress_string junk fuel3 s = Some (Ret inbuf)).
Proof.
  intros Hne Hs Hb Hl. destruct (compress_string_ok (ZD := ZD) junk inbuf level Hne ltac:(lia) ltac:(lia) Hl) as (fuel & s & E & Hv & Hz).
  exists fuel, s. split; [done|]. split.
  - apply (uncompress_string2_ok (ZI := ZI)); [done|lia|lia].
  - apply (uncompress_string_ok (ZI := ZI)); [done|lia|lia].
Qed.

Lemma zlib_roundtrip_witness :
  compress_string 0 20 6 [7; 1; 0] = Some (Ret [1; 7; 1; 1; 1; 0; 0]) /\
  exists fuel s, compress_string 0 fuel 6 [7; 1; 0] = Some (Ret s) /\
    (exists fuel2, uncompress_string2 0 fuel2 s = Some (Ret [7; 1; 0])) /\
    (exists fuel3, uncompress_string 0 fuel3 s = Some (Ret [7; 1; 0])).
Proof.
  split; [vm_compute; reflexivity|].
  apply (zlib_roundtrip (ZD := EscapingDeflates MAX_WBITS) (ZI := EscapingInflates)); [discriminate|vm_compute; reflexivity|vm_compute; reflexivity|lia].
Defined.

(** C40: on the empty string [compress_string] and [uncompress_string2] never
    end: their buffer has no character, and [grow_buffer] doubles its length.
    (Packets of other clients whose compressed part is empty reach
    [uncompress_string2] with the empty string.) *)
Theorem empty_string_hangs {D I} {ZL : Zlib D I} junk level zd zi :
  deflateInit2 level MAX_WBITS = Some zd -> inflateInit2 MAX_WBITS = Some zi ->
  forall fuel, compress_string junk fuel level [] = None /\ uncompress_string2 junk fuel [] = None.
Proof. intros Hd Hi fuel. split; [by apply (compress_string_empty _ _ _ zd)|by apply (uncompress_string2_empty _ _ zi)]. Qed.

Lemma empty_string_hangs_witness :
  compress_string 0 1000 6 [] = None /\ uncompress_string2 0 1000 [] = None.
Proof. exact (empty_string_hangs 0 6 (DeflateState [] false) (InflateState false [] false) eq_refl eq_refl 1000). Defined.

End Zlib.
