(* ===== verification/Channels.v ===== *)
(** * OCaml channels read through a buffer

    What [bzip2.ml] and [gzip.ml] of [src/src/utils/cdk] share: a channel of OCaml
    is a parameter ([Channel], with what is relied on of it in [Delivers]); its
    bytes go through a buffer that is filled when it is empty.  [holds l iz]: the
    bytes not yet read, in the buffer and then in the channel, are [l]. *)

From Stdlib Require Import ZArith Lia.
From stdpp Require Import base option numbers list.
From S2P Require Import Prelude Os Zlib.
Import Zlib.

Local Open Scope Z_scope.

Module Channels.

(** [input] gives up to so many bytes, none at the end; [input_char] a byte, or
    [None] at the end. *)
Class Channel (C : Type) := {
  input_chan : C -> Z -> list Z * C;
  input_char : C -> option (Z * C)
}.

(** [delivers ic l]: [l] is left in the file. *)
Class Delivers {C} (CH : Channel C) := {
  delivers : C -> list Z -> Prop;
  input_chan_ok ic l (n : nat) :
    delivers ic l -> (0 < n)%nat -> exists bs ic', input_chan ic (Z.of_nat n) = (bs, ic') /\ delivers ic' (drop (length bs) l) /\
      bs = take (length bs) l /\ (length bs <= n)%nat /\ (l <> [] -> bs <> []);
  input_char_ok ic b l : delivers ic (b :: l) -> exists ic', input_char ic = Some (b, ic') /\ delivers ic' l
}.

(** A loop that ended is followed by [k]. *)
Definition after {A R} (m : option (io A)) (k : A -> option (io R)) : option (io R) :=
  match m with
  | None => None
  | Some (Ret a) => k a
  | Some Unix_error => Some Unix_error
  | Some Undefined => Some Undefined
  end.

Definition buffer_size : Z := 1024.

(** The fields [in_chan], [in_buffer], [in_pos] and [in_avail]. *)
Record buffered (C : Type) := Buffered {
  in_chan : C;
  in_buffer : list Z;
  in_pos : Z;
  in_avail : Z
}.
Arguments Buffered {C} _ _ _ _.
Arguments in_chan {C} _.
Arguments in_buffer {C} _.
Arguments in_pos {C} _.
Arguments in_avail {C} _.

Section Reading.
Context {C : Type} `{!Channel C}.

(** The buffer filled when it is empty; the end of the file is an exception. *)
Definition refill_in (iz : buffered C) : io (buffered C) :=
  if in_avail iz =? 0 then
    let '(bs, ic) := input_chan (in_chan iz) (Z.of_nat (length (in_buffer iz))) in
    if Z.of_nat (length bs) =? 0 then Unix_error
    else b ← mem (blit (in_buffer iz) 0 bs); Ret (Buffered ic b 0 (Z.of_nat (length bs)))
  else Ret iz.

Definition advance (k : Z) (iz : buffered C) : buffered C :=
  Buffered (in_chan iz) (in_buffer iz) (in_pos iz + k) (in_avail iz - k).

(** [read_byte] of both files; [String.get] raises out of the string. *)
Definition read_byte (iz : buffered C) : io (Z * buffered C) :=
  iz ← refill_in iz;
  match rd (in_buffer iz) (in_pos iz) with
  | Some c => Ret (c, advance 1 iz)
  | None => Unix_error
  end.

Definition read_int32 (iz : buffered C) : io (Z * buffered C) :=
  '(b1, iz) ← read_byte iz;
  '(b2, iz) ← read_byte iz;
  '(b3, iz) ← read_byte iz;
  '(b4, iz) ← read_byte iz;
  Ret (Z.lor (s32 b1) (Z.lor (s32 (Z.shiftl b2 8)) (Z.lor (s32 (Z.shiftl b3 16)) (s32 (Z.shiftl b4 24)))), iz).
End Reading.

(** ** What is left to read *)

Section ReadingOk.
Context {C : Type} {CH : Channel C} {DE : Delivers CH}.

Definition holds (l : list Z) (iz : buffered C) : Prop :=
  length (in_buffer iz) = Z.to_nat buffer_size /\
  exists p n : nat, in_pos iz = Z.of_nat p /\ in_avail iz = Z.of_nat n /\ (p + n <= length (in_buffer iz))%nat /\
    (n <= length l)%nat /\ take n (drop p (in_buffer iz)) = take n l /\ delivers (in_chan iz) (drop n l).

Lemma holds_open ic b l : delivers ic l -> length b = Z.to_nat buffer_size -> holds l (Buffered ic b 0 0).
Proof. intros Hd Hb. split; [done|]. exists 0%nat, 0%nat. split; [done|]. split; [done|]. split; [lia|]. split; [lia|]. by rewrite drop_0. Qed.

Lemma refill_in_ok l iz :
  holds l iz -> l <> [] -> exists iz', refill_in iz = Ret iz' /\ holds l iz' /\ 0 < in_avail iz'.
Proof.
  intros Hh Hl. pose proof Hh as (Hb & p & n & Hp & Hn & Hpn & Hnl & Hseg & Hdel). unfold refill_in. rewrite Hn.
  destruct (Z.eqb_spec (Z.of_nat n) 0) as [E0|E0]; [|exists iz; split; [done|split; [done|lia]]].
  assert (n = 0%nat) as -> by lia. rewrite drop_0 in Hdel.
  destruct (input_chan_ok (in_chan iz) l (length (in_buffer iz)) Hdel) as (bs & ic & -> & Hdel' & Hbs & Hle & Hne);
    [unfold buffer_size in Hb; lia|].
  specialize (Hne Hl). assert (0 < length bs)%nat by (destruct bs; [done|simpl; lia]).
  destruct (Z.eqb_spec (Z.of_nat (length bs)) 0); [lia|].
  rewrite (blit_in _ 0), mem_some, bind_ret by lia. eexists. split; [done|]. split; [|cbn; lia].
  change (take 0 (in_buffer iz)) with (@nil Z). cbn [app Nat.add].
  split; [cbn [in_buffer]; rewrite length_app, length_drop; lia|]. exists 0%nat, (length bs). split; [done|]. split; [done|].
  cbn [in_buffer in_chan Nat.add].
  split; [rewrite length_app, length_drop; lia|]. split; [rewrite Hbs, length_take; lia|].
  by rewrite drop_0, take_app_length.
Qed.

Lemma advance_ok l iz (k : nat) : holds l iz -> Z.of_nat k <= in_avail iz -> holds (drop k l) (advance (Z.of_nat k) iz).
Proof.
  intros (Hb & p & n & Hp & Hn & Hpn & Hnl & Hseg & Hdel) Hk. split; [done|]. exists (p + k)%nat, (n - k)%nat. cbn.
  split; [lia|]. split; [lia|]. split; [lia|]. rewrite length_drop. split; [lia|]. split.
  - rewrite <- drop_drop. apply (f_equal (drop k)) in Hseg. by rewrite !skipn_firstn_comm in Hseg.
  - rewrite drop_drop. by replace (k + (n - k))%nat with n by lia.
Qed.

Lemma read_byte_ok b l iz : holds (b :: l) iz -> exists iz', read_byte iz = Ret (b, iz') /\ holds l iz'.
Proof.
  intros Hh. unfold read_byte. destruct (refill_in_ok _ _ Hh) as (iz1 & -> & Hh1 & Hav); [done|]. rewrite bind_ret.
  pose proof Hh1 as (Hb & p & n & Hp & Hn & Hpn & _ & Hseg & _). exists (advance 1 iz1).
  split; [|apply (advance_ok (b :: l) iz1 1); [done|lia]].
  destruct n as [|n]; [lia|]. destruct (drop p (in_buffer iz1)) as [|b' l'] eqn:Ed; [done|]. injection Hseg as -> _.
  rewrite Hp, rd_nat, <- (Nat.add_0_r p), <- lookup_drop, Ed. done.
Qed.
End ReadingOk.

(** ** A file read in pieces *)

Record file := File { f_left : list Z; f_burst : nat }.

#[export] Instance FileChannel : Channel file := {
  input_chan f n :=
    let bs := take (Nat.min (Z.to_nat n) (S (f_burst f))) (f_left f) in (bs, File (drop (length bs) (f_left f)) (f_burst f));
  input_char f := match f_left f with [] => None | b :: l => Some (b, File l (f_burst f)) end
}.

#[export] Instance FileDelivers : Delivers FileChannel.
Proof.
  refine {| delivers f l := f_left f = l |}.
  - intros f l n <- Hn. cbn. rewrite Nat2Z.id. eexists _, _. split; [done|]. split; [done|].
    set (k := Nat.min n (S (f_burst f))). split; [|split].
    + destruct (Nat.le_gt_cases k (length (f_left f))).
      * by rewrite length_take, Nat.min_l by lia.
      * by rewrite !take_ge by lia.
    + rewrite length_take. unfold k. lia.
    + intros Hl. destruct (f_left f); [done|]. unfold k. destruct n; [lia|]. done.
  - intros f b l E. cbn. rewrite E. by eexists.
Defined.
End Channels.
