(* ===== verification/Bzip2.v ===== *)
(** * Compressed files

    The bzip2 streams of [src/src/utils/cdk/zlibstubs.c], the channels over them
    of [bzip2.ml], and the two functions of
    [src/src/networks/direct_connect/dcShared.ml] that write a text to a
    compressed file and read it back.  The library is a parameter ([Bzlib]), and
    what is relied on of it is in [Compressing] and [Decompressing]. *)

From Stdlib Require Import ZArith Lia.
From stdpp Require Import base option numbers list.
From S2P Require Import Prelude Os Zlib Channels.
Import Zlib Channels.

Local Open Scope Z_scope.

Module Bzip2.

(** ** The library *)

Inductive action := BZ_RUN | BZ_FLUSH | BZ_FINISH.

Definition BZ_OK : Z := 0.
Definition BZ_RUN_OK : Z := 1.
Definition BZ_FINISH_OK : Z := 3.
Definition BZ_STREAM_END : Z := 4.

(** [B] and [E]: the streams of compression and of decompression.  An
    initialisation gives a stream or an error; the calls are as in [Zlib]. *)
Class Bzlib (B E : Type) := {
  BZ2_bzCompressInit : Z -> Z -> Z -> B + Z;
  BZ2_bzCompress : B -> list Z -> Z -> action -> zresult B;
  BZ2_bzCompressEnd : B -> Z;
  BZ2_bzDecompressInit : Z -> bool -> E + Z;
  BZ2_bzDecompress : E -> list Z -> Z -> zresult E;
  BZ2_bzDecompressEnd : E -> Z
}.

(** ** The stubs; an OCaml exception is [Unix_error] *)

Section Stubs.
Context {B E : Type} `{!Bzlib B E}.

Definition camlzip_bzCompressInit (blockSize100k verbosity workFactor : Z) : io B :=
  match BZ2_bzCompressInit blockSize100k verbosity workFactor with inl zs => Ret zs | inr err => Unix_error end.

Definition camlzip_action_table : list action := [BZ_RUN; BZ_FLUSH; BZ_FINISH].

(** The segments are those of the two strings; whether the end is reached, the
    bytes used on both sides, the destination, and the stream. *)
Definition bz_stub {T} (call : T -> list Z -> Z -> zresult T)
    (zs : T) (srcbuf : list Z) (srcpos srclen : Z) (dstbuf : list Z) (dstpos dstlen : Z) : io (bool * Z * Z * list Z * T) :=
  inp ← mem (sub_bytes srcbuf srcpos (u32 srclen));
  let r := call zs inp (u32 dstlen) in
  if z_ret r <? 0 then Unix_error
  else
    dstbuf ← mem (blit dstbuf dstpos (z_out r));
    let used_in := srclen - (u32 srclen - Z.of_nat (z_read r)) in
    let used_out := dstlen - (u32 dstlen - Z.of_nat (length (z_out r))) in
    Ret (z_ret r =? BZ_STREAM_END, used_in, used_out, dstbuf, z_stream r).

Definition camlzip_bzCompress (zs : B) (srcbuf : list Z) (srcpos srclen : Z) (dstbuf : list Z) (dstpos dstlen : Z) (vflush : nat) :=
  a ← mem (camlzip_action_table !! vflush);
  bz_stub (fun zs inp room => BZ2_bzCompress zs inp room a) zs srcbuf srcpos srclen dstbuf dstpos dstlen.

Definition camlzip_bzCompressEnd (zs : B) : io unit := if BZ2_bzCompressEnd zs =? BZ_OK then Ret () else Unix_error.

Definition camlzip_bzDecompressInit (verbosity : Z) (small : bool) : io E :=
  match BZ2_bzDecompressInit verbosity small with inl zs => Ret zs | inr err => Unix_error end.

Definition camlzip_bzDecompress := bz_stub BZ2_bzDecompress.

Definition camlzip_bzDecompressEnd (zs : E) : io unit := if BZ2_bzDecompressEnd zs =? BZ_OK then Ret () else Unix_error.
End Stubs.

(** ** Writing: [bzip2.ml] *)

(** [out_chan] is what was written to the file. *)
Record out_channel (B : Type) := OutChannel {
  out_chan : list Z;
  out_buffer : list Z;
  out_pos : Z;
  out_avail : Z;
  out_stream : B;
  out_size : Z
}.
Arguments OutChannel {B} _ _ _ _ _ _.
Arguments out_chan {B} _.
Arguments out_buffer {B} _.
Arguments out_pos {B} _.
Arguments out_avail {B} _.
Arguments out_stream {B} _.
Arguments out_size {B} _.

Section Writing.
Context {B E : Type} `{!Bzlib B E} (junk : Z).

Definition open_out (level : Z) : io (out_channel B) :=
  if (level <? 1) || (9 <? level) then Unix_error
  else zs ← camlzip_bzCompressInit level 0 0; Ret (OutChannel [] (String_create junk buffer_size) 0 buffer_size zs 0).

(** If the output buffer is full, it is flushed. *)
Definition make_room (oz : out_channel B) : io (out_channel B) :=
  if out_avail oz =? 0 then
    s ← mem (sub_bytes (out_buffer oz) 0 (out_pos oz));
    Ret (OutChannel (out_chan oz ++ s) (out_buffer oz) 0 (Z.of_nat (length (out_buffer oz))) (out_stream oz) (out_size oz))
  else Ret oz.

(** The buffer after a call. *)
Definition produced (oz : out_channel B) (obuf : list Z) (zs : B) (used_in used_out : Z) : out_channel B :=
  OutChannel (out_chan oz) obuf (out_pos oz + used_out) (out_avail oz - used_out) zs (s32 (out_size oz + used_in)).

Definition output_step (buf : list Z) (st : out_channel B * Z * Z) : io (out_channel B * Z * Z + out_channel B) :=
  let '(oz, pos, len) := st in
  if (pos <? 0) || (len <? 0) || (Z.of_nat (length buf) <? pos + len) then Unix_error
  else
    oz ← make_room oz;
    '(_, used_in, used_out, obuf, zs) ←
      camlzip_bzCompress (out_stream oz) buf pos len (out_buffer oz) (out_pos oz) (out_avail oz) 0;
    let oz := produced oz obuf zs used_in used_out in
    if used_in <? len then Ret (inl (oz, pos + used_in, len - used_in)) else Ret (inr oz).

Definition output (fuel : nat) (oz : out_channel B) (buf : list Z) (pos len : Z) : option (io (out_channel B)) :=
  loop (output_step buf) fuel (oz, pos, len).

Definition do_flush (oz : out_channel B) : io (out_channel B + out_channel B) :=
  oz ← make_room oz;
  '(finished, _, used_out, obuf, zs) ←
    camlzip_bzCompress (out_stream oz) (out_buffer oz) 0 0 (out_buffer oz) (out_pos oz) (out_avail oz) 2;
  let oz := OutChannel (out_chan oz) obuf (out_pos oz + used_out) (out_avail oz - used_out) zs (out_size oz) in
  if finished : bool then Ret (inr oz) else Ret (inl oz).

(** What is in the file once it is closed. *)
Definition close_out (fuel : nat) (oz : out_channel B) : option (io (list Z)) :=
  after (loop do_flush fuel oz) (fun oz => Some (
    s ← (if 0 <? out_pos oz then mem (sub_bytes (out_buffer oz) 0 (out_pos oz)) else Ret []);
    _ ← camlzip_bzCompressEnd (out_stream oz);
    Ret (out_chan oz ++ s))).

(** *** [dcShared.ml] *)

(** [compress]; [Buffer.sub] refuses what is not in the buffer. *)
Fixpoint compress (fuel : nat) (buf : list Z) (oz : out_channel B) (pos : Z) : option (io (out_channel B)) :=
  match fuel with
  | O => None
  | S fuel' =>
      let blen := Z.of_nat (length buf) in
      let slen := 4096 in
      let len := if blen <? pos + slen then blen - pos else slen in
      let npos := pos + len in
      match sub_bytes buf pos len with
      | None => Some Unix_error
      | Some str => after (output fuel oz str 0 len) (fun oz => if npos <? blen then compress fuel' buf oz npos else Some (Ret oz))
      end
  end.

(** The contents of the file; an exception is caught by the function, and leaves
    the file as it is then. *)
Definition buffer_to_bz2_to_file (fuel : nat) (buf : list Z) : option (io (list Z)) :=
  match open_out 6 with
  | Ret oc => after (compress fuel buf oc 0) (close_out fuel)
  | _ => Some Unix_error
  end.
End Writing.

(** ** Reading *)

Record in_channel (C E : Type) := InChannel {
  in_buffered : buffered C;
  in_eof : bool;
  in_stream : E;
  in_size : Z
}.
Arguments InChannel {C E} _ _ _ _.
Arguments in_buffered {C E} _.
Arguments in_eof {C E} _.
Arguments in_stream {C E} _.
Arguments in_size {C E} _.

Section Reading.
Context {B E C : Type} `{!Bzlib B E} `{!Channel C} (junk : Z).

Definition open_in_chan (ic : C) : io (in_channel C E) :=
  zs ← camlzip_bzDecompressInit 0 false; Ret (InChannel (Buffered ic (String_create junk buffer_size) 0 0) false zs 0).

(** One turn of [input]: the channel and the string [buf], with the number of
    bytes when it returns. *)
Definition input_step (pos len : Z) (st : in_channel C E * list Z) : io (in_channel C E * list Z + Z * in_channel C E * list Z) :=
  let '(iz, buf) := st in
  if (pos <? 0) || (len <? 0) || (Z.of_nat (length buf) <? pos + len) then Unix_error
  else if in_eof iz then Ret (inr (0, iz, buf))
  else
    ib ← refill_in (in_buffered iz);
    '(finished, used_in, used_out, buf, zs) ← camlzip_bzDecompress (in_stream iz) (in_buffer ib) (in_pos ib) (in_avail ib) buf pos len;
    let iz := InChannel (advance used_in ib) (in_eof iz) zs (s32 (in_size iz + used_out)) in
    if finished : bool then Ret (inr (used_out, InChannel (in_buffered iz) true (in_stream iz) (in_size iz), buf))
    else if used_out =? 0 then Ret (inl (iz, buf))
    else Ret (inr (used_out, iz, buf)).

Definition input (fuel : nat) (iz : in_channel C E) (buf : list Z) (pos len : Z) : option (io (Z * in_channel C E * list Z)) :=
  loop (input_step pos len) fuel (iz, buf).

Definition close_in (iz : in_channel C E) : io unit := camlzip_bzDecompressEnd (in_stream iz).

(** [decompress] *)
Fixpoint decompress (fuel : nat) (iz : in_channel C E) (buf : list Z) : option (io (in_channel C E * list Z)) :=
  match fuel with
  | O => None
  | S fuel' =>
      after (input fuel iz (String_create junk 4096) 0 4096) (fun '(n, iz, str) =>
        if n =? 0 then Some (Ret (iz, buf))
        else match String_sub str n with
             | Ret s => decompress fuel' iz (buf ++ s)
             | Unix_error => Some Unix_error
             | Undefined => Some Undefined
             end)
  end.

Definition file_to_bz2_to_buffer (fuel : nat) (ic : C) : option (io (list Z)) :=
  match open_in_chan ic with
  | Ret iz => after (decompress fuel iz []) (fun '(iz, buf) => Some (_ ← close_in iz; Ret buf))
  | _ => Some Unix_error
  end.
End Reading.

(** ** What the library promises *)

(** [compressing fin b c o]: the stream has read [c] and written [o]; [fin] once
    it was asked to finish. *)
Class Compressing {B E} (BZ : Bzlib B E) (valid : list Z -> list Z -> Prop) := {
  cbound : nat -> nat;
  compressing : bool -> B -> list Z -> list Z -> Prop;
  compressInit_ok level : 1 <= level <= 9 -> exists b, BZ2_bzCompressInit level 0 0 = inl b /\ compressing false b [] [];
  cbound_mono n m : (n <= m)%nat -> (cbound n <= cbound m)%nat;
  compressing_bound fin b c o : compressing fin b c o -> (length o <= cbound (length c))%nat;
  compress_run b c o inp room :
    compressing false b c o -> inp <> [] -> 0 < room ->
    let r := BZ2_bzCompress b inp room BZ_RUN in
    z_ret r = BZ_RUN_OK /\ (z_read r <= length inp)%nat /\ Z.of_nat (length (z_out r)) <= room /\
    compressing false (z_stream r) (c ++ take (z_read r) inp) (o ++ z_out r) /\
    (z_read r = length inp \/ Z.of_nat (length (z_out r)) = room);
  compress_finish fin b c o room :
    compressing fin b c o -> 0 < room ->
    let r := BZ2_bzCompress b [] room BZ_FINISH in
    z_read r = 0%nat /\ Z.of_nat (length (z_out r)) <= room /\ compressing true (z_stream r) c (o ++ z_out r) /\
    ((z_ret r = BZ_STREAM_END /\ valid (o ++ z_out r) c /\ BZ2_bzCompressEnd (z_stream r) = BZ_OK) \/
     (z_ret r = BZ_FINISH_OK /\ Z.of_nat (length (z_out r)) = room))
}.

(** [decompressing e c o]: the stream has read [c] and written [o].  The last byte
    of a stream is read by the call that reports its end. *)
Class Decompressing {B E} (BZ : Bzlib B E) (valid : list Z -> list Z -> Prop) := {
  decompressing : E -> list Z -> list Z -> Prop;
  valid_bytes s d : valid s d -> s <> [];
  decompressInit_ok : exists e, BZ2_bzDecompressInit 0 false = inl e /\ decompressing e [] [];
  decompress_ok e c o inp more data room :
    decompressing e c o -> valid (c ++ inp ++ more) data -> inp <> [] -> 0 < room -> (exists rest, data = o ++ rest) ->
    let r := BZ2_bzDecompress e inp room in
    (z_read r <= length inp)%nat /\ Z.of_nat (length (z_out r)) <= room /\
    decompressing (z_stream r) (c ++ take (z_read r) inp) (o ++ z_out r) /\
    (exists rest, data = (o ++ z_out r) ++ rest) /\
    ((z_ret r = BZ_STREAM_END /\ data = o ++ z_out r /\ BZ2_bzDecompressEnd (z_stream r) = BZ_OK) \/
     (z_ret r = BZ_OK /\ (Z.of_nat (length (z_out r)) = room \/ z_read r = length inp) /\ drop (z_read r) inp ++ more <> []))
}.

(** ** Loops and stubs *)

Lemma loop_more {S R} (step : S -> io (S + R)) fuel fuel' s r :
  loop step fuel s = Some r -> (fuel <= fuel')%nat -> loop step fuel' s = Some r.
Proof.
  revert fuel' s. induction fuel as [|fuel IH]; intros [|fuel'] s E Hf; [done|done|lia|]. cbn [loop] in *.
  destruct (step s) as [[s'|r']| |]; [|done..]. apply IH; [done|lia].
Qed.

(** A call on a segment of at most 4 GB. *)
Lemma bz_stub_ok {T} (call : T -> list Z -> Z -> zresult T) zs src (p n : nat) dst (q : nat) room :
  (p + n <= length src)%nat -> Z.of_nat n < 2 ^ 32 -> 0 <= room < 2 ^ 32 -> Z.of_nat q + room <= Z.of_nat (length dst) ->
  let r := call zs (take n (drop p src)) room in
  0 <= z_ret r -> Z.of_nat (length (z_out r)) <= room ->
  bz_stub call zs src (Z.of_nat p) (Z.of_nat n) dst (Z.of_nat q) room
  = Ret (z_ret r =? BZ_STREAM_END, Z.of_nat (z_read r), Z.of_nat (length (z_out r)),
         take q dst ++ z_out r ++ drop (q + length (z_out r)) dst, z_stream r).
Proof.
  intros Hp Hn Hroom Hq r Hr Hout. unfold bz_stub. rewrite (u32_id (Z.of_nat n)), (u32_id room) by (unfold word; lia).
  rewrite sub_bytes_in, mem_some, bind_ret by done. fold r. destruct (Z.ltb_spec (z_ret r) 0); [lia|].
  rewrite blit_in, mem_some, bind_ret by lia. repeat f_equal; lia.
Qed.

(** ** Writing *)

Section WritingOk.
Context {B E : Type} {BZ : Bzlib B E} {valid : list Z -> list Z -> Prop} {BC : Compressing BZ valid}.

(** The channel has read [c]; [o] is in the file and in the buffer. *)
Definition writing (fin : bool) (c o : list Z) (oz : out_channel B) : Prop :=
  length (out_buffer oz) = Z.to_nat buffer_size /\
  exists p : nat, out_pos oz = Z.of_nat p /\ out_avail oz = buffer_size - Z.of_nat p /\ Z.of_nat p <= buffer_size /\
    o = out_chan oz ++ take p (out_buffer oz) /\ compressing fin (out_stream oz) c o.

Lemma make_room_ok fin c o oz :
  writing fin c o oz -> exists oz', make_room oz = Ret oz' /\ writing fin c o oz' /\ 0 < out_avail oz'.
Proof.
  intros (Hl & p & Hp & Ha & Hle & Ho & Hc). unfold make_room. destruct (Z.eqb_spec (out_avail oz) 0) as [E0|E0]; [|exists oz].
  - rewrite Hp, sub_bytes_0, mem_some, bind_ret by (unfold buffer_size in *; lia). eexists. split; [done|].
    split; [|cbn; unfold buffer_size in *; lia]. split; [done|]. exists 0%nat. cbn.
    split; [done|]. split; [unfold buffer_size in *; lia|]. split; [unfold buffer_size; lia|]. by rewrite app_nil_r, <- Ho.
  - split; [done|]. split; [|unfold buffer_size in *; lia]. split; [done|]. by exists p.
Qed.

(** A call of the library on a channel that has room. *)
Lemma produced_ok fin fin' c c' o oz k (out : list Z) zs used_in :
  writing fin c o oz -> Z.of_nat (length out) <= out_avail oz -> compressing fin' zs c' (o ++ out) ->
  k = Z.of_nat (length out) ->
  let obuf := take (Z.to_nat (out_pos oz)) (out_buffer oz) ++ out ++ drop (Z.to_nat (out_pos oz) + length out) (out_buffer oz) in
  writing fin' c' (o ++ out) (OutChannel (out_chan oz) obuf (out_pos oz + k) (out_avail oz - k) zs used_in).
Proof.
  intros (Hl & p & Hp & Ha & Hle & Ho & Hc) Hout Hc' -> obuf. unfold buffer_size in *. subst obuf. rewrite Hp, Nat2Z.id.
  assert (Etp : length (take p (out_buffer oz)) = p) by (rewrite length_take; lia).
  split; unfold buffer_size; cbn [out_buffer out_pos out_avail out_chan out_stream]; [rewrite !length_app, length_drop, Etp; lia|].
  exists (p + length out)%nat. split; [lia|]. split; [lia|]. split; [lia|]. split; [|done].
  rewrite Ho, (app_assoc (take p _)), take_app_length' by (rewrite length_app; lia). by rewrite <- app_assoc.
Qed.

(** What can still be written after [n] bytes were read, and the buffer. *)
Definition room_left (n : nat) (oz : out_channel B) : nat :=
  (cbound (Compressing := BC) n - (length (out_chan oz) + Z.to_nat (out_pos oz)))%nat.

Lemma room_less fin fin' n c c' o o' oz oz' :
  writing fin c o oz -> writing fin' c' o' oz' -> (length o < length o')%nat -> (length c' <= n)%nat ->
  (room_left n oz' < room_left n oz)%nat.
Proof.
  intros (Hl & p & Hp & _ & Hle & Ho & _) (Hl' & p' & Hp' & _ & Hle' & Ho' & Hc') Hlt Hn.
  apply (f_equal length) in Ho, Ho'. unfold buffer_size in *. rewrite length_app, length_take in Ho, Ho'.
  apply compressing_bound in Hc'. pose proof (cbound_mono (Compressing := BC) _ _ Hn). unfold room_left. lia.
Qed.

Lemma room_same fin c o oz oz' n : writing fin c o oz -> writing fin c o oz' -> room_left n oz' = room_left n oz.
Proof.
  intros (Hl & p & Hp & _ & Hle & Ho & _) (Hl' & p' & Hp' & _ & Hle' & Ho' & _).
  apply (f_equal length) in Ho, Ho'. unfold buffer_size in *. rewrite length_app, length_take in Ho, Ho'. unfold room_left. lia.
Qed.

Section Output.
Context (c buf : list Z) (Hsmall : Z.of_nat (length buf) < 2 ^ 32).

Definition output_inv (st : out_channel B * Z * Z) : Prop :=
  let '(oz, pos, len) := st in
  exists (i : nat) o, (i < length buf)%nat /\ pos = Z.of_nat i /\ len = Z.of_nat (length buf - i) /\
    writing false (c ++ take i buf) o oz.

Definition output_left (st : out_channel B * Z * Z) : nat := room_left (length (c ++ buf)) st.1.1.

Lemma output_step_ok st :
  output_inv st ->
  (exists st', output_step buf st = Ret (inl st') /\ output_inv st' /\ (output_left st' < output_left st)%nat) \/
  (exists oz', output_step buf st = Ret (inr oz') /\ exists o', writing false (c ++ buf) o' oz').
Proof.
  destruct st as [[oz pos] len]. intros (i & o & Hi & -> & -> & Hw). unfold output_step.
  destruct (Z.ltb_spec (Z.of_nat i) 0); [lia|]. destruct (Z.ltb_spec (Z.of_nat (length buf - i)) 0); [lia|].
  destruct (Z.ltb_spec (Z.of_nat (length buf)) (Z.of_nat i + Z.of_nat (length buf - i))); [lia|]. cbn [orb].
  destruct (make_room_ok _ _ _ _ Hw) as (oz1 & -> & Hw1 & Hroom). rewrite bind_ret.
  pose proof (room_same _ _ _ _ _ (length (c ++ buf)) Hw Hw1) as Hsame.
  pose proof Hw1 as (Hl & p & Hp & Ha & Hle & Ho & Hc). unfold buffer_size in *.
  assert (Hinp : drop i buf <> []) by (intros E0%(f_equal length); rewrite length_drop in E0; simpl in E0; lia).
  destruct (compress_run _ _ _ _ _ Hc Hinp Hroom) as (Hret & Hr & Hout & Hc' & Hstop).
  pose proof (bz_stub_ok (fun zs inp room => BZ2_bzCompress zs inp room BZ_RUN) (out_stream oz1) buf i (length buf - i)
    (out_buffer oz1) p (out_avail oz1)) as Es. cbv beta zeta in Es.
  rewrite (take_ge (drop i buf)) in Es by (rewrite length_drop; lia). unfold camlzip_bzCompress.
  cbn [camlzip_action_table lookup list_lookup]. rewrite mem_some, bind_ret, Hp.
  set (r := BZ2_bzCompress _ _ _ _) in *. rewrite Es by (rewrite ?Hret; unfold BZ_RUN_OK; lia). clear Es. rewrite bind_ret.
  rewrite <- app_assoc, take_take_drop in Hc'. rewrite length_drop in Hr, Hstop.
  pose proof (produced_ok false false (c ++ take i buf) (c ++ take (i + z_read r) buf) o oz1 _ (z_out r) (z_stream r)
    (s32 (out_size oz1 + Z.of_nat (z_read r))) Hw1 Hout Hc' eq_refl) as Hw'. cbv zeta in Hw'.
  rewrite Hp, Nat2Z.id in Hw'. unfold produced. rewrite Hp.
  destruct (Z.ltb_spec (Z.of_nat (z_read r)) (Z.of_nat (length buf - i))) as [Hlt|Hge].
  - left. eexists. split; [done|]. split.
    + exists (i + z_read r)%nat, (o ++ z_out r). split; [lia|]. split; [lia|]. split; [lia|]. exact Hw'.
    + unfold output_left. cbn [fst]. rewrite <- Hsame. eapply room_less; [exact Hw1|exact Hw'| |].
      * rewrite length_app. lia.
      * rewrite !length_app, length_take. lia.
  - right. eexists. split; [done|]. exists (o ++ z_out r).
    assert (Eall : take (i + z_read r) buf = buf) by (apply take_ge; lia). by rewrite Eall in Hw'.
Qed.
End Output.

(** [output] of a whole string. *)
Lemma output_ok c o oz buf :
  writing false c o oz -> buf <> [] -> Z.of_nat (length buf) < 2 ^ 32 ->
  exists fuel oz' o', (forall fuel', (fuel <= fuel')%nat -> output fuel' oz buf 0 (Z.of_nat (length buf)) = Some (Ret oz')) /\
    writing false (c ++ buf) o' oz'.
Proof.
  intros Hw Hne Hs.
  destruct (loop_total _ _ _ _ (output_step_ok c buf Hs) (oz, 0, Z.of_nat (length buf))) as (fuel & oz' & El & o' & Hw').
  - exists 0%nat, o. destruct buf; [done|]. split; [simpl; lia|]. split; [done|]. split; [by rewrite Nat.sub_0_r|].
    cbn [take]. by rewrite app_nil_r.
  - exists fuel, oz', o'. split; [|done]. intros fuel' Hf. by eapply loop_more.
Qed.

(** *** The end of the file *)

Lemma do_flush_ok c oz :
  (exists fin o, writing fin c o oz) ->
  (exists oz', do_flush oz = Ret (inl oz') /\ (exists fin o, writing fin c o oz') /\ (room_left (length c) oz' < room_left (length c) oz)%nat) \/
  (exists oz', do_flush oz = Ret (inr oz') /\ exists o, writing true c o oz' /\ valid o c /\ BZ2_bzCompressEnd (out_stream oz') = BZ_OK).
Proof.
  intros (fin & o & Hw). unfold do_flush.
  destruct (make_room_ok _ _ _ _ Hw) as (oz1 & -> & Hw1 & Hroom). rewrite bind_ret.
  pose proof (room_same _ _ _ _ _ (length c) Hw Hw1) as Hsame.
  pose proof Hw1 as (Hl & p & Hp & Ha & Hle & Ho & Hc). unfold buffer_size in *.
  destruct (compress_finish _ _ _ _ _ Hc Hroom) as (Hr & Hout & Hc' & Hret).
  pose proof (bz_stub_ok (fun zs inp room => BZ2_bzCompress zs inp room BZ_FINISH) (out_stream oz1) (out_buffer oz1) 0 0
    (out_buffer oz1) p (out_avail oz1)) as Es. cbv beta zeta in Es. cbn [take] in Es.
  change (Z.of_nat 0) with 0 in Es. unfold camlzip_bzCompress.
  cbn [camlzip_action_table lookup list_lookup]. rewrite mem_some, bind_ret, Hp.
  set (r := BZ2_bzCompress _ _ _ _) in *.
  rewrite Es by (lia || (destruct Hret as [[-> _]|[-> _]]; unfold BZ_STREAM_END, BZ_FINISH_OK; lia)). clear Es. rewrite bind_ret.
  pose proof (produced_ok fin true c c o oz1 _ (z_out r) (z_stream r) (out_size oz1) Hw1 Hout Hc' eq_refl) as Hw'. cbv zeta in Hw'.
  rewrite Hp, Nat2Z.id in Hw'.
  destruct Hret as [(-> & Hv & He)|(-> & Hfull)]; cbn [Z.eqb BZ_STREAM_END BZ_FINISH_OK].
  - right. eexists. split; [done|]. exists (o ++ z_out r). done.
  - left. eexists. split; [done|]. split; [by eexists _, _|]. rewrite <- Hsame. eapply room_less; [exact Hw1|exact Hw'| |done].
    rewrite length_app. lia.
Qed.

Lemma close_out_ok fin c o oz :
  writing fin c o oz -> exists fuel s, (forall fuel', (fuel <= fuel')%nat -> close_out fuel' oz = Some (Ret s)) /\ valid s c.
Proof.
  intros Hw. destruct (loop_total _ _ _ _ (do_flush_ok c) oz) as (fuel & oz' & El & o' & Hw' & Hv & He); [by eexists _, _|].
  exists fuel, o'. split; [|done]. intros fuel' Hf. unfold close_out. rewrite (loop_more _ _ _ _ _ El Hf). cbn [after].
  destruct Hw' as (Hl & p & Hp & Ha & Hle & Ho & _). unfold buffer_size in *. unfold camlzip_bzCompressEnd. rewrite He, Hp.
  destruct (Z.ltb_spec 0 (Z.of_nat p)).
  - rewrite sub_bytes_0, mem_some, bind_ret by lia. cbn. by rewrite Ho.
  - replace p with 0%nat in Ho by lia. cbn. by rewrite Ho.
Qed.
End WritingOk.

(** *** The whole text, by pieces *)

Section Text.
Context {B E : Type} {BZ : Bzlib B E} {valid : list Z -> list Z -> Prop} {BC : Compressing BZ valid} (junk : Z).

Lemma compress_text_ok text k i o oz :
  (i < length text)%nat -> (length text - i <= k)%nat -> writing false (take i text) o oz ->
  exists fuel oz' o', (forall fuel', (fuel <= fuel')%nat -> compress fuel' text oz (Z.of_nat i) = Some (Ret oz')) /\ writing false text o' oz'.
Proof.
  revert i o oz. induction k as [|k IH]; intros i o oz Hi Hk Hw; [lia|].
  set (n := Nat.min (length text - i) (Z.to_nat 4096)).
  assert (Hn : (0 < n)%nat) by (unfold n; lia).
  assert (Elen : (if Z.of_nat (length text) <? Z.of_nat i + 4096 then Z.of_nat (length text) - Z.of_nat i else 4096) = Z.of_nat n)
    by (unfold n; destruct (Z.ltb_spec (Z.of_nat (length text)) (Z.of_nat i + 4096)); lia).
  set (str := take n (drop i text)).
  assert (Hstr : length str = n) by (unfold str; rewrite length_take, length_drop; lia).
  destruct (output_ok (take i text) o oz str Hw) as (fuel1 & oz1 & o1 & E1 & Hw1); [by intros E0; rewrite E0 in Hstr; simpl in Hstr; lia|unfold n in Hstr; lia|].
  rewrite Hstr in E1. unfold str in Hw1. rewrite take_take_drop in Hw1.
  assert (Estep : forall fuel, compress (S fuel) text oz (Z.of_nat i) =
    after (output (S fuel) oz str 0 (Z.of_nat n)) (fun oz =>
      if Z.of_nat (i + n) <? Z.of_nat (length text) then compress fuel text oz (Z.of_nat (i + n)) else Some (Ret oz))).
  { intros fuel. cbn [compress]. rewrite Elen, sub_bytes_in by (unfold n; lia). fold str. by rewrite Nat2Z.inj_add. }
  destruct (Z.ltb_spec (Z.of_nat (i + n)) (Z.of_nat (length text))) as [Hlt|Hge].
  - destruct (IH (i + n)%nat o1 oz1) as (fuel2 & oz2 & o2 & E2 & Hw2); [lia|lia|done|].
    exists (S (Nat.max fuel1 fuel2)), oz2, o2. split; [|done]. intros [|fuel] Hf; [lia|].
    rewrite Estep, E1 by lia. cbn [after]. apply E2. lia.
  - exists (S fuel1), oz1, o1. split.
    + intros [|fuel] Hf; [lia|]. by rewrite Estep, E1 by lia.
    + rewrite take_ge in Hw1 by lia. exact Hw1.
Qed.

Lemma buffer_to_file_ok text :
  text <> [] -> exists fuel s, (forall fuel', (fuel <= fuel')%nat -> buffer_to_bz2_to_file junk fuel' text = Some (Ret s)) /\ valid s text.
Proof.
  intros Hne. destruct (compressInit_ok (Compressing := BC) 6 ltac:(lia)) as (b & Einit & Hb).
  set (oc := OutChannel [] (String_create junk buffer_size) 0 buffer_size b 0).
  destruct (compress_text_ok text (length text) 0 [] oc) as (fuel1 & oz & o & E1 & Hw); [destruct text; [done|simpl; lia]|lia| |].
  { split; [unfold oc, String_create; cbn [out_buffer]; by rewrite length_replicate|]. exists 0%nat. split; [done|].
    split; [done|]. split; [done|]. split; [done|]. exact Hb. }
  destruct (close_out_ok _ _ _ _ Hw) as (fuel2 & s & E2 & Hv). exists (Nat.max fuel1 fuel2), s. split; [|done].
  assert (Eo : open_out junk 6 = Ret oc).
  { unfold open_out. change ((6 <? 1) || (9 <? 6)) with false. cbv iota. unfold camlzip_bzCompressInit. by rewrite Einit. }
  change (Z.of_nat 0) with 0 in E1. intros fuel Hf. unfold buffer_to_bz2_to_file. rewrite Eo, E1 by lia. cbn [after]. apply E2. lia.
Qed.
End Text.

(** ** Reading *)

Section ReadingOk.
Context {B E C : Type} {BZ : Bzlib B E} {valid : list Z -> list Z -> Prop} {BD : Decompressing BZ valid}.
Context {CH : Channel C} {DE : Delivers CH} (junk : Z).
Context (s data : list Z) (Hvalid : valid s data).

(** [i] bytes of the stream were decompressed, to [o]; those that follow are in
    the buffer, then in the channel. *)
Definition reading (i : nat) (o : list Z) (iz : in_channel C E) : Prop :=
  in_eof iz = false /\ (i < length s)%nat /\ decompressing (in_stream iz) (take i s) o /\ (exists rest, data = o ++ rest) /\
  holds (drop i s) (in_buffered iz).

Definition ended (o : list Z) (iz : in_channel C E) : Prop :=
  in_eof iz = true /\ data = o /\ BZ2_bzDecompressEnd (in_stream iz) = BZ_OK.

Definition input_post (o : list Z) (r : Z * in_channel C E * list Z) : Prop :=
  let '(k, iz, buf) := r in
  exists out, k = Z.of_nat (length out) /\ String_sub buf k = Ret out /\
    ((out <> [] /\ exists i, reading i (o ++ out) iz) \/ ended (o ++ out) iz).

(** The end of the file is not met before the end of the stream. *)
Lemma input_step_ok i o iz buf :
  reading i o iz -> length buf = Z.to_nat 4096 ->
  (exists j iz' buf', input_step 0 4096 (iz, buf) = Ret (inl (iz', buf')) /\ (i < j)%nat /\ reading j o iz' /\ length buf' = Z.to_nat 4096) \/
  (exists r, input_step 0 4096 (iz, buf) = Ret (inr r) /\ input_post o r).
Proof.
  intros (He & Hi & Hd & Ho & Hh) Hbuf. unfold input_step. rewrite Hbuf, Z2Nat.id, He by lia.
  cbn [Z.ltb Z.compare orb Z.add Pos.compare Pos.compare_cont].
  assert (Hdrop : drop i s <> []) by (intros E1%(f_equal length); rewrite length_drop in E1; simpl in E1; lia).
  destruct (refill_in_ok _ _ Hh Hdrop) as (ib & -> & Hh1 & Hav). rewrite bind_ret. clear Hh.
  pose proof Hh1 as (Hl & p & n & Hp & Hn & Hpn & Hnl & Hseg & _). rewrite length_drop in Hnl. unfold buffer_size in Hl.
  set (inp := take n (drop i s)). assert (Hinp : length inp = n) by (unfold inp; rewrite length_take, length_drop; lia).
  assert (Es : take i s ++ inp ++ drop (i + n) s = s) by (unfold inp; by rewrite <- drop_drop, take_drop, take_drop).
  destruct (decompress_ok (Decompressing := BD) (in_stream iz) (take i s) o inp (drop (i + n) s) data 4096) as (Hk & Hout & Hd' & Ho' & Hret);
    [done|by rewrite Es|by intros E0; rewrite E0 in Hinp; simpl in Hinp; lia|lia|done|].
  pose proof (bz_stub_ok BZ2_bzDecompress (in_stream iz) (in_buffer ib) p n buf 0 4096) as Ec. cbv zeta in Ec.
  rewrite Hseg in Ec. fold inp in Ec. change (Z.of_nat 0) with 0 in Ec. unfold camlzip_bzDecompress. rewrite Hp, Hn.
  set (r := BZ2_bzDecompress _ _ _) in *.
  rewrite Ec by (lia || (destruct Hret as [[-> _]|[-> _]]; unfold BZ_STREAM_END, BZ_OK; lia)). clear Ec. rewrite bind_ret.
  cbn [Nat.add in_buffered in_eof in_stream in_size]. change (take 0 buf) with (@nil Z). cbn [app].
  assert (Hsub : String_sub (z_out r ++ drop (length (z_out r)) buf) (Z.of_nat (length (z_out r))) = Ret (z_out r)).
  { unfold String_sub. rewrite sub_bytes_0 by (rewrite length_app; lia). by rewrite take_app_length. }
  destruct Hret as [(-> & Hdata & Hend)|(-> & Hstop & Hmore)]; cbn [Z.eqb BZ_STREAM_END BZ_OK].
  { right. eexists. split; [done|]. exists (z_out r). split; [done|]. split; [exact Hsub|]. right. done. }
  assert (Ec : take i s ++ take (z_read r) inp = take (i + z_read r) s).
  { unfold inp. rewrite take_take, Nat.min_l by lia. apply take_take_drop. }
  rewrite Ec in Hd'.
  assert (Hlt : (i + z_read r < length s)%nat).
  { apply (f_equal length) in Es. assert (Hm : (0 < length (drop (z_read r) inp ++ drop (i + n) s))%nat)
      by (destruct (drop (z_read r) inp ++ drop (i + n) s); [done|simpl; lia]).
    rewrite length_app, !length_drop in Hm. lia. }
  pose proof (advance_ok _ _ (z_read r) Hh1 ltac:(lia)) as Hh2. rewrite drop_drop in Hh2.
  destruct (Z.eqb_spec (Z.of_nat (length (z_out r))) 0) as [E0|E0].
  - left. assert (Hnil : z_out r = []) by (apply length_zero_iff_nil; lia). rewrite Hnil, app_nil_r in Hd'.
    exists (i + z_read r)%nat. eexists _, _. split; [done|]. split; [lia|]. split; [done|].
    rewrite length_app, length_drop. lia.
  - right. eexists. split; [done|]. exists (z_out r). split; [done|]. split; [exact Hsub|]. left.
    split; [by intros E1; rewrite E1 in E0|]. by exists (i + z_read r)%nat.
Qed.

Lemma input_ok k i o iz buf :
  (length s - i <= k)%nat -> reading i o iz -> length buf = Z.to_nat 4096 ->
  exists fuel r, (forall fuel', (fuel <= fuel')%nat -> input fuel' iz buf 0 4096 = Some (Ret r)) /\ input_post o r.
Proof.
  revert i iz buf. induction k as [|k IH]; intros i iz buf Hk Hr Hb.
  { destruct Hr as (_ & Hi & _). lia. }
  destruct (input_step_ok i o iz buf Hr Hb) as [(j & iz' & buf' & Es & Hj & Hr' & Hb')|(r & Es & Hp)].
  - destruct (IH j iz' buf') as (fuel & r & El & Hp); [lia|done|done|]. exists (S fuel), r. split; [|done].
    intros [|fuel'] Hf; [lia|]. unfold input. cbn [loop]. rewrite Es. apply El. lia.
  - exists 1%nat, r. split; [|done]. intros [|fuel'] Hf; [lia|]. unfold input. cbn [loop]. by rewrite Es.
Qed.

Lemma bz_decompress_ended fuel o iz buf :
  ended o iz -> decompress junk (S fuel) iz buf = Some (Ret (iz, buf)).
Proof.
  intros (He & _). cbn [decompress]. unfold input. cbn [loop]. unfold input_step, String_create. rewrite length_replicate.
  cbn. by rewrite He.
Qed.

Lemma decompress_text k i o iz :
  (length data - length o <= k)%nat -> reading i o iz ->
  exists fuel iz', (forall fuel', (fuel <= fuel')%nat -> decompress junk fuel' iz o = Some (Ret (iz', data))) /\
    BZ2_bzDecompressEnd (in_stream iz') = BZ_OK.
Proof.
  revert i o iz. induction k as [|k IH]; intros i o iz Hk Hr;
    (destruct (input_ok _ i o iz (String_create junk 4096) (le_n _) Hr) as (fuel1 & [[n iz1] str] & E1 & out & -> & Hsub & Hpost);
      [unfold String_create; by rewrite length_replicate|]).
  - destruct Hpost as [[Hne (j & _ & _ & _ & (rest & Hd) & _)]|Hend].
    { apply (f_equal length) in Hd. rewrite !length_app in Hd. destruct out; [done|]. simpl in Hd. lia. }
    pose proof Hend as (_ & Hd & Hz). assert (out = []) as ->.
    { apply (f_equal length) in Hd. rewrite length_app in Hd. apply length_zero_iff_nil. lia. }
    exists (S fuel1), iz1. split; [|done]. intros [|fuel] Hf; [lia|]. cbn [decompress]. rewrite E1 by lia. cbn. by rewrite Hd, app_nil_r.
  - assert (Estep : forall fuel, (fuel1 <= fuel)%nat -> decompress junk (S fuel) iz o =
      if Z.of_nat (length out) =? 0 then Some (Ret (iz1, o)) else decompress junk fuel iz1 (o ++ out)).
    { intros fuel Hf. cbn [decompress]. rewrite E1 by lia. cbn [after]. by rewrite Hsub. }
    destruct Hpost as [[Hne (j & Hr1)]|Hend].
    + assert (0 < length out)%nat by (destruct out; [done|simpl; lia]).
      destruct (IH j (o ++ out) iz1) as (fuel2 & iz2 & E2 & Hz); [rewrite length_app; lia|done|].
      exists (S (Nat.max fuel1 fuel2)), iz2. split; [|done]. intros [|fuel] Hf; [lia|]. rewrite Estep by lia.
      destruct (Z.eqb_spec (Z.of_nat (length out)) 0); [lia|]. apply E2. lia.
    + pose proof Hend as (_ & Hd & Hz). exists (S (S fuel1)), iz1. split; [|done]. intros [|[|fuel]] Hf; [lia|lia|].
      rewrite Estep by lia. destruct (Z.eqb_spec (Z.of_nat (length out)) 0) as [E0|E0].
      * assert (out = []) as -> by (apply length_zero_iff_nil; lia). by rewrite Hd, app_nil_r.
      * rewrite (bz_decompress_ended _ _ _ _ Hend). by rewrite Hd.
Qed.

Lemma file_to_buffer_ok ic :
  delivers ic s -> exists fuel, forall fuel', (fuel <= fuel')%nat -> file_to_bz2_to_buffer (B := B) junk fuel' ic = Some (Ret data).
Proof.
  intros Hic. destruct (decompressInit_ok (Decompressing := BD)) as (e & Einit & He).
  set (iz := InChannel (Buffered ic (String_create junk buffer_size) 0 0) false e 0).
  destruct (decompress_text (length data) 0 [] iz) as (fuel & iz' & El & Hz); [lia| |].
  - split; [done|]. split; [pose proof (valid_bytes (Decompressing := BD) _ _ Hvalid); destruct s; [done|simpl; lia]|].
    split; [done|]. split; [by exists data|]. apply holds_open; [done|]. by unfold String_create; rewrite length_replicate.
  - exists fuel. intros fuel' Hf. unfold file_to_bz2_to_buffer, open_in_chan, camlzip_bzDecompressInit. rewrite Einit, bind_ret.
    cbv iota. fold iz. rewrite El by done. cbn [after]. unfold close_in, camlzip_bzDecompressEnd. by rewrite Hz.
Qed.
End ReadingOk.

(** ** The two functions *)

(** C37: a text that is not empty, written to a compressed file through buffers
    of 1024 bytes, is read back as it was: both functions end, the end of the
    file is not met before the end of the text, whatever the library reads and
    writes at a time, whatever the pieces that the file is read in, and whatever
    the new buffers contained. *)
Theorem bz2_roundtrip {B E C} {BZ : Bzlib B E} {valid} {BC : Compressing BZ valid} {BD : Decompressing BZ valid}
    {CH : Channel C} {DE : Delivers CH} junk text :
  text <> [] ->
  exists fuel file, buffer_to_bz2_to_file junk fuel text = Some (Ret file) /\
    forall ic, delivers ic file -> exists fuel', file_to_bz2_to_buffer (B := B) junk fuel' ic = Some (Ret text).
Proof.
  intros Hne. destruct (buffer_to_file_ok (BC := BC) junk text Hne) as (fuel & file & E1 & Hv).
  exists fuel, file. split; [by apply E1|]. intros ic Hic.
  destruct (file_to_buffer_ok (BD := BD) junk file text Hv ic Hic) as (fuel' & E2). exists fuel'. by apply E2.
Qed.

(** ** A library that escapes every byte, and a file read in pieces *)

Definition bz_result {T} (a : action) (r : zresult T) : zresult T :=
  Zresult (match a with BZ_FINISH => if z_ret r =? Z_STREAM_END then BZ_STREAM_END else BZ_FINISH_OK | _ => BZ_RUN_OK end)
    (z_read r) (z_out r) (z_stream r).

Record decoder := Decoder { d_escaped : bool; d_ended : bool }.

(** The bytes decoded, the number read, the escape, and the end, which is read
    only when it is reached. *)
Fixpoint undo (escaped : bool) (room : nat) (inp : list Z) : list Z * nat * bool * bool :=
  match inp with
  | [] => ([], O, escaped, false)
  | b :: inp =>
      if escaped then
        match room with
        | O => ([], O, true, false)
        | S room => let '(out, k, e, fin) := undo false room inp in (b :: out, S k, e, fin)
        end
      else if b =? 1 then let '(out, k, e, fin) := undo true room inp in (out, S k, e, fin)
      else ([], 1%nat, false, true)
  end.

Definition esc_decompress (d : decoder) (inp : list Z) (room : Z) : zresult decoder :=
  if d_ended d then Zresult (-1) 0 [] d
  else
    let '(out, k, e, fin) := undo (d_escaped d) (Z.to_nat room) inp in
    Zresult (if fin then BZ_STREAM_END else BZ_OK) k out (Decoder e fin).

#[export] Instance EscapingBz : Bzlib deflate_state decoder := {
  BZ2_bzCompressInit blockSize verbosity workFactor := inl (DeflateState [] false);
  BZ2_bzCompress b inp room a := bz_result a (esc_deflate b inp room (match a with BZ_FINISH => Z_FINISH | _ => Z_NO_FLUSH end));
  BZ2_bzCompressEnd b := if ds_ended b && (length (ds_pending b) =? 0)%nat then BZ_OK else -1;
  BZ2_bzDecompressInit verbosity small := inl (Decoder false false);
  BZ2_bzDecompress := esc_decompress;
  BZ2_bzDecompressEnd e := BZ_OK
}.

#[export] Instance EscapingCompresses : Compressing EscapingBz esc_valid.
Proof.
  refine {| cbound n := (2 * n + 1)%nat; compressing := esc_deflating; compressing_bound := esc_deflating_bound |}.
  - intros level _. by exists (DeflateState [] false).
  - intros n m Hnm. lia.
  - intros b c o inp room Hc Hne Hroom. destruct (esc_deflate_run b c o inp room Hc Hne Hroom) as (_ & H). exact (conj eq_refl H).
  - intros fin b c o room Hc Hroom. destruct (esc_deflate_finish fin b c o room Hc Hroom) as (H1 & H2 & H3 & H4).
    split; [exact H1|]. split; [exact H2|]. split; [exact H3|]. cbn [BZ2_bzCompress EscapingBz bz_result z_ret z_out z_stream].
    destruct H4 as [(-> & Hv & He)|(-> & Hfull)]; cbn [Z.eqb Z_STREAM_END Z_OK]; [left|by right].
    split; [done|]. split; [done|]. change (deflateEnd ?e) with (ds_ended e && (length (ds_pending e) =? 0)%nat) in He.
    change ((if ds_ended (z_stream (esc_deflate b [] room Z_FINISH)) &&
      (length (ds_pending (z_stream (esc_deflate b [] room Z_FINISH))) =? 0)%nat then BZ_OK else -1) = BZ_OK). by rewrite He.
Defined.

Lemma undo_ok escaped room inp :
  let '(out, k, e, fin) := undo escaped room inp in
  unescape escaped (take k inp) = (out, e, fin, []) /\ (k <= length inp)%nat /\ (length out <= room)%nat /\
  (fin = false -> length out = room \/ k = length inp).
Proof.
  revert escaped room. induction inp as [|b inp IH]; intros escaped room; [cbn; split; [done|split; [lia|split; [lia|auto]]]|].
  cbn [undo]. destruct escaped.
  - destruct room as [|room]; [cbn; split; [done|split; [lia|split; [lia|auto]]]|]. specialize (IH false room).
    destruct (undo false room inp) as [[[out k] e] fin]. destruct IH as (E & Hk & Hl & Hf). cbn [take unescape length].
    change (firstn k inp) with (take k inp). rewrite E. split; [done|]. split; [lia|]. split; [lia|].
    intros Hfin. destruct (Hf Hfin); lia.
  - destruct (Z.eqb_spec b 1) as [->|Hb].
    + specialize (IH true room). destruct (undo true room inp) as [[[out k] e] fin]. destruct IH as (E & Hk & Hl & Hf).
      cbn [take unescape length Z.eqb Pos.eqb]. split; [exact E|]. split; [lia|]. split; [lia|].
      intros Hfin. destruct (Hf Hfin); lia.
    + cbn. destruct (Z.eqb_spec b 1); [done|]. split; [done|]. split; [lia|]. split; [lia|done].
Qed.

Definition esc_decompressing (e : decoder) (c o : list Z) : Prop := unescape false c = (o, d_escaped e, d_ended e, []).

#[export] Instance EscapingDecompresses : Decompressing EscapingBz esc_valid.
Proof.
  refine {| decompressing := esc_decompressing |}.
  - intros s d -> E0%(f_equal length). rewrite length_app in E0. simpl in E0. lia.
  - by exists (Decoder false false).
  - intros e c o inp more data room He Hv%unescape_valid Hne Hroom _.
    rewrite unescape_app, He in Hv. destruct (d_ended e) eqn:Hend.
    { injection Hv as _ _ E0. by apply app_eq_nil in E0 as [-> _]. }
    cbn [BZ2_bzDecompress EscapingBz]. unfold esc_decompress. rewrite Hend.
    pose proof (undo_ok (d_escaped e) (Z.to_nat room) inp) as Hu.
    destruct (undo (d_escaped e) (Z.to_nat room) inp) as [[[out k] e'] fin]. destruct Hu as (Eu & Hk & Hl & Hf).
    cbn [z_read z_out z_stream z_ret d_escaped d_ended].
    rewrite <- (take_drop k inp), <- app_assoc, unescape_app, Eu in Hv.
    split; [done|]. split; [lia|]. split.
    { unfold esc_decompressing. cbn [d_escaped d_ended]. by rewrite unescape_app, He, Hend, Eu. }
    destruct fin.
    + cbn [app] in Hv. injection Hv as <- _ _. split; [exists []; by rewrite app_nil_r|]. by left.
    + destruct (unescape e' (drop k inp ++ more)) as [[[d3 e3] f3] r3] eqn:E3. injection Hv as <- _ -> _.
      split; [exists d3; by rewrite <- app_assoc|]. right. split; [done|]. split; [destruct (Hf eq_refl); [left; lia|by right]|].
      intros E0. by rewrite E0 in E3.
Defined.

Lemma bz2_roundtrip_witness :
  buffer_to_bz2_to_file 9 20 [7; 1; 0] = Some (Ret [1; 7; 1; 1; 1; 0; 0]) /\
  file_to_bz2_to_buffer (B := deflate_state) 9 20 (File [1; 7; 1; 1; 1; 0; 0] 1) = Some (Ret [7; 1; 0]) /\
  exists fuel file, buffer_to_bz2_to_file 9 fuel [7; 1; 0] = Some (Ret file) /\
    forall ic, f_left ic = file -> exists fuel', file_to_bz2_to_buffer (B := deflate_state) 9 fuel' ic = Some (Ret [7; 1; 0]).
Proof.
  split; [vm_compute; reflexivity|]. split; [vm_compute; reflexivity|].
  apply (bz2_roundtrip (BC := EscapingCompresses) (BD := EscapingDecompresses) (DE := FileDelivers)). discriminate.
Defined.
End Bzip2.
