(* ===== verification/Gzip.v ===== *)
(** * gzip

    [gzip_string] of [src/src/utils/cdk/zlib.ml], which compresses the pages of the
    web interface; the readers of [gzip.ml]; and [gz_extract] of
    [src/src/utils/lib/misc.ml], which unpacks the lists that are downloaded.
    zlib and its checksum are parameters ([Zlib.Zlib], [Crc]). *)

From Stdlib Require Import ZArith Lia.
From stdpp Require Import base option numbers list.
From S2P Require Import Prelude Os Zlib Channels.
From S2P Require FstHash.
Import Zlib Channels.

Local Open Scope Z_scope.

Module Gzip.

(** The checksum of zlib: of a prefix and of the bytes that follow. *)
Class Crc := crc32 : Z -> list Z -> Z.

(** [camlzip_update_crc32] *)
Definition update_crc `{!Crc} (crc : Z) (buf : list Z) (pos len : Z) : io Z :=
  seg ← mem (sub_bytes buf pos (u32 len)); Ret (s32 (crc32 (u32 crc) seg)).

(** ** Writing: [zlib.ml] *)

Section Writing.
Context {D I : Type} `{!Zlib D I} `{!Crc} (junk : Z).

(** The state of [compr] and [out_crc]. *)
Definition gzip_step (inbuf : list Z) (st : D * Z * list Z * Z * Z) : io (D * Z * list Z * Z * Z + D * list Z * Z) :=
  let '(zs, inpos, outbuf, outpos, out_crc) := st in
  let inavail := Z.of_nat (length inbuf) - inpos in
  let outavail := Z.of_nat (length outbuf) - outpos in
  if outavail =? 0 then (outbuf ← grow_buffer junk outbuf; Ret (inl (zs, inpos, outbuf, outpos, out_crc)))
  else
    '(finished, used_in, used_out, outbuf, zs) ←
      camlzip_deflate zs inbuf inpos inavail outbuf outpos outavail (if inavail =? 0 then 3%nat else 0%nat);
    out_crc ← update_crc out_crc inbuf inpos used_in;
    if finished : bool then res ← String_sub outbuf (outpos + used_out); Ret (inr (zs, res, out_crc))
    else Ret (inl (zs, inpos + used_in, outbuf, outpos + used_out, out_crc)).

Fixpoint write_int32 (k : nat) (r : Z) : list Z :=
  match k with O => [] | S k => Z.land r 0xff :: write_int32 k (s32 (Z.shiftr (u32 r) 8)) end.

Definition gzip_string (fuel : nat) (level : Z) (inbuf : list Z) : option (io (list Z)) :=
  if Z.of_nat (length inbuf) <=? 0 then Some (Ret [])
  else
    match camlzip_deflateInit level false with
    | Ret zs =>
        after (loop (gzip_step inbuf) fuel (zs, 0, String_create junk (Z.of_nat (length inbuf)), 0, 0)) (fun '(zs, res, out_crc) =>
          Some (_ ← camlzip_deflateEnd zs;
            Ret ([0x1F; 0x8B; 8; 0] ++ replicate 4 0 ++ [0; 0xFF] ++ res ++ write_int32 4 out_crc ++
                 write_int32 4 (s32 (Z.of_nat (length inbuf))))))
    | _ => Some Unix_error
    end.
End Writing.

(** ** Reading: [gzip.ml] *)

Record in_channel (C I : Type) := InChannel {
  in_buffered : buffered C;
  in_eof : bool;
  in_stream : I;
  in_size : Z;
  in_crc : Z
}.
Arguments InChannel {C I} _ _ _ _ _.
Arguments in_buffered {C I} _.
Arguments in_eof {C I} _.
Arguments in_stream {C I} _.
Arguments in_size {C I} _.
Arguments in_crc {C I} _.

Section Reading.
Context {D I C : Type} `{!Zlib D I} `{!Crc} `{!Channel C} (junk : Z).

(** [IO.read_byte] on a channel; [No_more_input] at its end. *)
Definition IO_read_byte (ic : C) : io (Z * C) := match input_char ic with Some r => Ret r | None => Unix_error end.

Fixpoint skip_bytes (n : nat) (ic : C) : io C :=
  match n with O => Ret ic | S n => '(_, ic) ← IO_read_byte ic; skip_bytes n ic end.

(** Up to a null byte. *)
Fixpoint skip_string (fuel : nat) (ic : C) : option (io C) :=
  match fuel with
  | O => None
  | S fuel => after (Some (IO_read_byte ic)) (fun '(b, ic) => if b =? 0 then Some (Ret ic) else skip_string fuel ic)
  end.

Definition has (flags bit : Z) : bool := negb (Z.land flags bit =? 0).

Definition read_header (ic : C) : io (Z * C) :=
  '(id1, ic) ← IO_read_byte ic;
  '(id2, ic) ← IO_read_byte ic;
  if negb (id1 =? 0x1F) || negb (id2 =? 0x8B) then Unix_error
  else
    '(cm, ic) ← IO_read_byte ic;
    if negb (cm =? 8) then Unix_error
    else
      '(flags, ic) ← IO_read_byte ic;
      if has flags 0xE0 then Unix_error
      else
        ic ← skip_bytes 6 ic;
        if has flags 0x04 then
          '(len1, ic) ← IO_read_byte ic;
          '(len2, ic) ← IO_read_byte ic;
          ic ← skip_bytes (Z.to_nat (len1 + Z.shiftl len2 8)) ic; Ret (flags, ic)
        else Ret (flags, ic).

Definition skip_string_if (b : bool) (fuel : nat) (ic : C) : option (io C) := if b then skip_string fuel ic else Some (Ret ic).

Definition open_in (fuel : nat) (ic : C) : option (io (in_channel C I)) :=
  after (Some (read_header ic)) (fun '(flags, ic) =>
  after (skip_string_if (has flags 0x08) fuel ic) (fun ic =>
  after (skip_string_if (has flags 0x10) fuel ic) (fun ic => Some (
    ic ← (if has flags 0x02 then skip_bytes 2 ic else Ret ic);
    zs ← camlzip_inflateInit false;
    Ret (InChannel (Buffered ic (String_create junk buffer_size) 0 0) false zs 0 0))))).

Definition input_step (pos len : Z) (st : in_channel C I * list Z) : io (in_channel C I * list Z + Z * in_channel C I * list Z) :=
  let '(iz, buf) := st in
  if (pos <? 0) || (len <? 0) || (Z.of_nat (length buf) <? pos + len) then Unix_error
  else if in_eof iz then Ret (inr (0, iz, buf))
  else
    ib ← refill_in (in_buffered iz);
    '(finished, used_in, used_out, buf, zs) ← camlzip_inflate (in_stream iz) (in_buffer ib) (in_pos ib) (in_avail ib) buf pos len 1;
    crc ← update_crc (in_crc iz) buf pos used_out;
    let iz := InChannel (advance used_in ib) (in_eof iz) zs (s32 (in_size iz + s32 used_out)) crc in
    if finished : bool then
      '(crc, ib) ← read_int32 (in_buffered iz);
      '(size, ib) ← read_int32 ib;
      if negb (in_crc iz =? crc) then Unix_error
      else if negb (in_size iz =? size) then Unix_error
      else Ret (inr (used_out, InChannel ib true (in_stream iz) (in_size iz) (in_crc iz), buf))
    else if used_out =? 0 then Ret (inl (iz, buf))
    else Ret (inr (used_out, iz, buf)).

Definition input (fuel : nat) (iz : in_channel C I) (buf : list Z) (pos len : Z) : option (io (Z * in_channel C I * list Z)) :=
  loop (input_step pos len) fuel (iz, buf).

Definition close_in (iz : in_channel C I) : io unit := camlzip_inflateEnd (in_stream iz).

(** [decompress] of [gz_extract]: its [buffer], and the file that it writes. *)
Fixpoint decompress (fuel : nat) (iz : in_channel C I) (buffer file_out : list Z) : option (io (in_channel C I * list Z)) :=
  match fuel with
  | O => None
  | S fuel' =>
      after (input fuel iz buffer 0 (Z.of_nat (length buffer))) (fun '(n, iz, buffer) =>
        if n =? 0 then Some (Ret (iz, file_out))
        else after (Some (String_sub buffer n)) (fun s => decompress fuel' iz buffer (file_out ++ s)))
  end.

Definition gz_extract (fuel : nat) (ic : C) : option (io (list Z)) :=
  after (open_in fuel ic) (fun iz =>
  after (decompress fuel iz (String_create junk 4096) []) (fun '(iz, file_out) => Some (_ ← close_in iz; Ret file_out))).
End Reading.

(** ** What is relied on *)

Class Crcs (CR : Crc) := {
  crc32_app c a b : crc32 (crc32 c a) b = crc32 c (a ++ b);
  crc32_nil c : crc32 c [] = c;
  crc32_word c l : word 32 c -> Forall (word 8) l -> word 32 (crc32 c l)
}.

(** [raw_inflating e c o]: the stream, without header, has read [c] and written
    [o]; [s] is what is left of it, with [tail] after it.  Nothing is read of the
    tail, but the end may be noticed only when there is some of it. *)
Class RawInflating {D I} (ZL : Zlib D I) (valid : list Z -> list Z -> Prop) := {
  raw_inflating : I -> list Z -> list Z -> Prop;
  rawInit_ok : exists e, inflateInit2 (- MAX_WBITS) = Some e /\ raw_inflating e [] [];
  raw_inflate_ok e c o inp more s tail data room :
    raw_inflating e c o -> valid (c ++ s) data -> inp ++ more = s ++ tail -> inp <> [] -> 0 < room ->
    (exists rest, data = o ++ rest) ->
    let r := inflate e inp room Z_SYNC_FLUSH in
    (z_read r <= length inp)%nat /\ (z_read r <= length s)%nat /\ Z.of_nat (length (z_out r)) <= room /\
    raw_inflating (z_stream r) (c ++ take (z_read r) s) (o ++ z_out r) /\ (exists rest, data = (o ++ z_out r) ++ rest) /\
    ((z_ret r = Z_STREAM_END /\ z_read r = length s /\ data = o ++ z_out r /\ inflateEnd (z_stream r) = true) \/
     (z_ret r = Z_OK /\ (Z.of_nat (length (z_out r)) = room \/ z_read r = length inp)))
}.

(** ** Words of 32 bits *)

Lemma word_s32 v : word 32 v -> u32 (s32 v) = v.
Proof. unfold word, u32, s32. intros. dlia. Qed.

Lemma s32_add a b : s32 (s32 a + s32 b) = s32 (a + b).
Proof. unfold s32. dlia. Qed.

Lemma write_int32_le k v : word 32 v -> write_int32 k (s32 v) = le_bytes k v.
Proof.
  revert v. induction k as [|k IH]; intros v Hv; [done|]. cbn [write_int32 le_bytes]. rewrite word_s32 by done. f_equal.
  - change 0xff with (Z.ones 8). rewrite !Z.land_ones by lia. change (2 ^ 8) with 256. unfold s32. dlia.
  - apply IH. by apply word_shiftr.
Qed.

Lemma int32_of_bytes a b c d :
  word 8 a -> word 8 b -> word 8 c -> word 8 d ->
  Z.lor (s32 a) (Z.lor (s32 (Z.shiftl b 8)) (Z.lor (s32 (Z.shiftl c 16)) (s32 (Z.shiftl d 24)))) = s32 (le_word [a; b; c; d]).
Proof.
  intros Ha Hb Hc Hd.
  pose proof Ha as Ha'. pose proof Hb as Hb'. pose proof Hc as Hc'. pose proof Hd as Hd'.
  unfold word in Ha', Hb', Hc', Hd'. change (2 ^ 8) with 256 in *.
  assert (E1 : s32 a = a) by (unfold s32; dlia).
  assert (E2 : s32 (Z.shiftl b 8) = Z.shiftl b 8) by (rewrite Z.shiftl_mul_pow2 by lia; change (2 ^ 8) with 256; unfold s32; dlia).
  assert (E3 : s32 (Z.shiftl c 16) = Z.shiftl (Z.shiftl c 8) 8)
    by (rewrite Z.shiftl_shiftl, !Z.shiftl_mul_pow2 by lia; change (2 ^ 16) with 65536; change (2 ^ (8 + 8)) with 65536; unfold s32; dlia).
  assert (E4 : s32 (Z.shiftl d 24) = Z.shiftl (Z.shiftl (Z.shiftl (s8 d) 8) 8) 8)
    by (rewrite !Z.shiftl_shiftl, !Z.shiftl_mul_pow2 by lia; change (2 ^ 24) with 16777216;
        change (2 ^ (8 + (8 + 8))) with 16777216; unfold s32, s8; dlia).
  rewrite E1, E2, E3, E4, <- !Z.shiftl_lor, !lor_shiftl_add by done.
  rewrite !le_word_cons by done. cbn [le_word]. change (2 ^ 8) with 256. unfold s32, s8. dlia.
Qed.

Lemma update_crc_ok `{!Crc} c buf (i k : nat) :
  word 32 c -> (i + k <= length buf)%nat -> Z.of_nat k < 2 ^ 32 ->
  update_crc (s32 c) buf (Z.of_nat i) (Z.of_nat k) = Ret (s32 (crc32 c (take k (drop i buf)))).
Proof.
  intros Hc Hi Hk. unfold update_crc. by rewrite (u32_id (Z.of_nat k)), sub_bytes_in, word_s32 by (done || unfold word; lia).
Qed.

(** A file of RFC 1952 without optional fields. *)
Definition gz_file `{!Crc} (raw data : list Z) : list Z :=
  [0x1F; 0x8B; 8; 0; 0; 0; 0; 0; 0; 0xFF] ++ raw ++ le_bytes 4 (crc32 0 data) ++ le_bytes 4 (Z.of_nat (length data)).

(** ** Writing *)

Section WritingOk.
Context {D I : Type} {ZL : Zlib D I} {valid : list Z -> list Z -> Prop} {ZD : Deflating ZL (- MAX_WBITS) valid}.
Context `{CR : Crc} {CO : Crcs CR} (junk : Z).
Context (inbuf : list Z) (Hsmall : Z.of_nat (length inbuf) < 2 ^ 31) (Hbound : Z.of_nat (bound (Deflating := ZD) (length inbuf)) < 2 ^ 31).
Context (Hbytes : Forall (word 8) inbuf).

Definition gzip_inv (st : D * Z * list Z * Z * Z) : Prop :=
  let '(zs, inpos, outbuf, outpos, crc) := st in
  exists i o fin, inpos = Z.of_nat i /\ outpos = Z.of_nat (length o) /\ crc = s32 (crc32 0 (take i inbuf)) /\
    compr_at (ZD := ZD) inbuf i o fin zs outbuf.

Lemma crc_prefix n : word 32 (crc32 0 (take n inbuf)).
Proof. apply crc32_word; [done|]. by apply Forall_take. Qed.

Lemma gzip_step_ok st :
  gzip_inv st ->
  (exists st', gzip_step junk inbuf st = Ret (inl st') /\ gzip_inv st' /\
    (compr_left (ZD := ZD) inbuf st'.1 < compr_left (ZD := ZD) inbuf st.1)%nat) \/
  (exists r, gzip_step junk inbuf st = Ret (inr r) /\ valid r.1.2 inbuf /\ deflateEnd r.1.1 = true /\ r.2 = s32 (crc32 0 inbuf)).
Proof.
  destruct st as [[[[zs inpos] outbuf] outpos] crc]. intros (i & o & fin & -> & -> & -> & Hat). unfold gzip_step.
  rewrite outavail_full. cbn [fst]. unfold compr_left. rewrite (left_written _ _ o) by apply Hat.
  destruct (compr_turn junk _ Hsmall Hbound _ _ _ _ _ Hat)
    as [(-> & outbuf' & -> & Hat' & Hl)|(Hlt & finished & k & out & outbuf' & zs' & fin' & -> & Hat' & Hend)].
  - rewrite Nat.eqb_refl, bind_ret. left. eexists. split; [done|]. split; [by exists i, o, fin|]. cbn [fst].
    by rewrite (left_written _ _ o) by apply Hat'.
  - destruct (Nat.eqb_spec (length outbuf) (length o)); [lia|]. rewrite bind_ret.
    pose proof Hat' as (Hi & Hw' & _). rewrite update_crc_ok by (apply crc_prefix || lia).
    rewrite crc32_app, take_take_drop, bind_ret, <- !Nat2Z.inj_add, <- length_app.
    destruct finished; [right|left].
    + rewrite (written_sub _ _ _ Hw'), bind_ret. eexists. split; [done|]. destruct Hend as (Hall & Hv & He).
      split; [done|]. split; [done|]. cbn [snd]. by rewrite take_ge by lia.
    + eexists. split; [done|]. split; [by exists (i + k)%nat, (o ++ out), fin'|]. cbn [fst]. by rewrite left_written.
Qed.

(** The result is a file of RFC 1952. *)
Lemma gzip_string_ok level :
  inbuf <> [] -> -1 <= level <= 9 ->
  exists fuel raw, gzip_string junk fuel level inbuf = Some (Ret (gz_file raw inbuf)) /\ valid raw inbuf.
Proof.
  intros Hne Hlevel. destruct (deflateInit_ok (Deflating := ZD) level Hlevel) as (zs & E & Hd).
  destruct (loop_total _ _ _ _ gzip_step_ok (zs, 0, String_create junk (Z.of_nat (length inbuf)), 0, 0))
    as (fuel & [[zs' raw] crc] & El & Hv & He & Hcrc).
  - exists 0%nat, [], false. split; [done|]. split; [done|]. split; [change (take 0 inbuf) with (@nil Z); by rewrite crc32_nil|].
    by apply compr_start.
  - exists fuel, raw. split; [|done]. unfold gzip_string. destruct (Z.leb_spec (Z.of_nat (length inbuf)) 0); [destruct inbuf; [done|simpl in *; lia]|].
    unfold camlzip_deflateInit. rewrite E. cbv iota. rewrite El. cbn [after]. unfold camlzip_deflateEnd. cbn in He, Hcrc. rewrite He, bind_ret, Hcrc.
    pose proof (crc_prefix (length inbuf)) as Hc. rewrite take_ge in Hc by lia.
    rewrite !write_int32_le by (done || unfold word; lia). done.
Qed.
End WritingOk.

(** ** Reading *)

Section Bytes.
Context {C : Type} {CH : Channel C} {DE : Delivers CH}.

Lemma IO_read_byte_ok ic b l : delivers ic (b :: l) -> exists ic', IO_read_byte ic = Ret (b, ic') /\ delivers ic' l.
Proof. intros Hd. unfold IO_read_byte. by destruct (input_char_ok _ _ _ Hd) as (ic' & -> & Hd'); exists ic'. Qed.

Lemma skip_bytes_ok a ic l : delivers ic (a ++ l) -> exists ic', skip_bytes (length a) ic = Ret ic' /\ delivers ic' l.
Proof.
  revert ic. induction a as [|b a IH]; intros ic Hd; [by exists ic|]. cbn [length skip_bytes].
  destruct (IO_read_byte_ok _ _ _ Hd) as (ic1 & -> & Hd1). rewrite bind_ret. by apply IH.
Qed.

Lemma read_header_ok ic l :
  delivers ic ([0x1F; 0x8B; 8; 0; 0; 0; 0; 0; 0; 0xFF] ++ l) -> exists ic', read_header ic = Ret (0, ic') /\ delivers ic' l.
Proof.
  intros Hd. unfold read_header.
  destruct (IO_read_byte_ok _ _ _ Hd) as (ic1 & -> & Hd1). rewrite bind_ret.
  destruct (IO_read_byte_ok _ _ _ Hd1) as (ic2 & -> & Hd2). rewrite bind_ret. cbn [Z.eqb Pos.eqb negb orb].
  destruct (IO_read_byte_ok _ _ _ Hd2) as (ic3 & -> & Hd3). rewrite bind_ret. cbn [Z.eqb Pos.eqb negb].
  destruct (IO_read_byte_ok _ _ _ Hd3) as (ic4 & -> & Hd4). rewrite bind_ret. change (has 0 0xE0) with false. cbv iota.
  destruct (skip_bytes_ok [0; 0; 0; 0; 0; 0xFF] ic4 l Hd4) as (ic5 & E & Hd5). cbn [length] in E. rewrite E, bind_ret.
  change (has 0 0x04) with false. by exists ic5.
Qed.

Lemma read_int32_ok v l iz :
  word 32 v -> holds (le_bytes 4 v ++ l) iz -> exists iz', read_int32 iz = Ret (s32 v, iz') /\ holds l iz'.
Proof.
  intros Hv Hh. pose proof (le_bytes_word 4 v) as Hw. pose proof (le_word_bytes 4 v) as Ev.
  rewrite Z.mod_small in Ev by exact Hv. unfold read_int32.
  destruct (le_bytes 4 v) as [|a [|b [|c [|d [|? ?]]]]] eqn:El; try discriminate El. clear El.
  apply Forall_cons in Hw as [Ha Hw]. apply Forall_cons in Hw as [Hb Hw]. apply Forall_cons in Hw as [Hc Hw]. apply Forall_cons in Hw as [Hd _].
  destruct (read_byte_ok _ _ _ Hh) as (iz1 & -> & Hh1). rewrite bind_ret.
  destruct (read_byte_ok _ _ _ Hh1) as (iz2 & -> & Hh2). rewrite bind_ret.
  destruct (read_byte_ok _ _ _ Hh2) as (iz3 & -> & Hh3). rewrite bind_ret.
  destruct (read_byte_ok _ _ _ Hh3) as (iz4 & -> & Hh4). rewrite bind_ret.
  exists iz4. by rewrite int32_of_bytes, Ev by done.
Qed.
End Bytes.

Section ReadingOk.
Context {D I C : Type} {ZL : Zlib D I} {valid : list Z -> list Z -> Prop} {ZI : RawInflating ZL valid}.
Context {CR : Crc} {CO : Crcs CR} {CH : Channel C} {DE : Delivers CH} (junk : Z).
Context (s data : list Z) (Hvalid : valid s data) (Hbytes : Forall (word 8) data) (Hdata : Z.of_nat (length data) < 2 ^ 32).

Definition trailer : list Z := le_bytes 4 (crc32 0 data) ++ le_bytes 4 (Z.of_nat (length data)).

(** [i] bytes of the stream were decompressed, to [o]. *)
Definition reading (i : nat) (o : list Z) (iz : in_channel C I) : Prop :=
  in_eof iz = false /\ (i <= length s)%nat /\ raw_inflating (in_stream iz) (take i s) o /\ (exists rest, data = o ++ rest) /\
  holds (drop i s ++ trailer) (in_buffered iz) /\ in_size iz = s32 (Z.of_nat (length o)) /\ in_crc iz = s32 (crc32 0 o).

Definition ended (o : list Z) (iz : in_channel C I) : Prop := in_eof iz = true /\ data = o /\ inflateEnd (in_stream iz) = true.

Definition input_post (o : list Z) (r : Z * in_channel C I * list Z) : Prop :=
  let '(k, iz, buf) := r in
  exists out, k = Z.of_nat (length out) /\ String_sub buf k = Ret out /\ length buf = Z.to_nat 4096 /\
    ((out <> [] /\ exists i, reading i (o ++ out) iz) \/ ended (o ++ out) iz).

Lemma crc_part o rest : data = o ++ rest -> word 32 (crc32 0 o).
Proof. intros E. apply crc32_word; [done|]. rewrite E in Hbytes. by apply Forall_app in Hbytes as [? _]. Qed.

(** The sums kept by [input] are those of what was decompressed. *)
Lemma sums_ok o out (rest buf : list Z) :
  data = (o ++ out) ++ rest -> (length out <= length buf)%nat ->
  update_crc (s32 (crc32 0 o)) (out ++ drop (length out) buf) 0 (Z.of_nat (length out)) = Ret (s32 (crc32 0 (o ++ out))) /\
  s32 (s32 (Z.of_nat (length o)) + s32 (Z.of_nat (length out))) = s32 (Z.of_nat (length (o ++ out))).
Proof.
  intros E Hl. pose proof E as E'. rewrite <- app_assoc in E'. apply (f_equal length) in E. rewrite !length_app in E. split.
  - rewrite (update_crc_ok _ _ 0) by (eapply crc_part, E' || rewrite ?length_app; lia).
    by rewrite drop_0, take_app_length, crc32_app.
  - by rewrite s32_add, length_app, Nat2Z.inj_add.
Qed.

Lemma gz_input_step_ok i o iz buf :
  reading i o iz -> length buf = Z.to_nat 4096 ->
  (exists j iz' buf', input_step 0 4096 (iz, buf) = Ret (inl (iz', buf')) /\ (i < j)%nat /\ reading j o iz' /\ length buf' = Z.to_nat 4096) \/
  (exists r, input_step 0 4096 (iz, buf) = Ret (inr r) /\ input_post o r).
Proof.
  intros (He & Hi & Hd & Ho & Hh & Hsize & Hcrc) Hbuf. unfold input_step. rewrite Hbuf, Z2Nat.id, He by lia.
  cbn [Z.ltb Z.compare orb Z.add Pos.compare Pos.compare_cont].
  assert (Htr : length trailer = 8%nat) by (unfold trailer; by rewrite length_app, !le_bytes_length).
  destruct (refill_in_ok _ _ Hh) as (ib & -> & Hh1 & Hav).
  { intros E%(f_equal length). rewrite length_app, Htr in E. simpl in E. lia. }
  rewrite bind_ret. clear Hh. pose proof Hh1 as (Hl & p & n & Hp & Hn & Hpn & Hnl & Hseg & _). unfold buffer_size in Hl.
  set (l := drop i s ++ trailer) in *. set (inp := take n l).
  assert (Hinp : length inp = n) by (unfold inp; rewrite length_take; lia).
  destruct (raw_inflate_ok (RawInflating := ZI) (in_stream iz) (take i s) o inp (drop n l) (drop i s) trailer data 4096)
    as (Hk & Hk' & Hout & Hd' & [rest Ho'] & Hret);
    [done|by rewrite take_drop|by unfold inp; rewrite take_drop|by intros E0; rewrite E0 in Hinp; simpl in Hinp; lia|lia|done|].
  pose proof (stub_ok inflate (fun retcode => (retcode <? 0) || (retcode =? Z_NEED_DICT)) (in_stream iz) (in_buffer ib) p n buf 0 4096 1 Z_SYNC_FLUSH) as Ec.
  cbv zeta in Ec. rewrite Hseg in Ec. fold inp in Ec. change (Z.of_nat 0) with 0 in Ec. unfold camlzip_inflate. rewrite Hp, Hn.
  set (r := inflate _ _ _ _) in *. rewrite length_drop in Hk'. rewrite take_take_drop in Hd'.
  rewrite Ec by (done || lia || by destruct Hret as [[-> _]|[-> _]]). clear Ec. rewrite bind_ret. cbn [Nat.add]. change (take 0 buf) with (@nil Z).
  cbn [app]. rewrite Hcrc, Hsize. destruct (sums_ok o (z_out r) rest buf Ho') as [-> ->]; [lia|]. rewrite bind_ret.
  cbn [in_buffered in_eof in_stream in_size in_crc].
  set (buf' := z_out r ++ drop (length (z_out r)) buf).
  assert (Hbuf' : length buf' = Z.to_nat 4096) by (unfold buf'; rewrite length_app, length_drop; lia).
  assert (Hsub : String_sub buf' (Z.of_nat (length (z_out r))) = Ret (z_out r)).
  { unfold String_sub, buf'. rewrite sub_bytes_0 by (rewrite length_app; lia). by rewrite take_app_length. }
  pose proof (advance_ok _ _ (z_read r) Hh1 ltac:(lia)) as Hh2. unfold l in Hh2.
  rewrite drop_app_le, drop_drop in Hh2 by (rewrite length_drop; lia).
  destruct Hret as [(-> & Hrest & Hall & Hend)|(-> & Hstop)]; cbn [Z.eqb Z_STREAM_END Z_OK].
  - right. rewrite length_drop in Hrest. rewrite drop_ge in Hh2 by lia. cbn [app] in Hh2. rewrite <- Hall.
    destruct (read_int32_ok _ _ _ (crc_part data [] (eq_sym (app_nil_r data))) Hh2) as (ib1 & -> & Hh3). rewrite bind_ret.
    rewrite <- (app_nil_r (le_bytes 4 _)) in Hh3.
    destruct (read_int32_ok (Z.of_nat (length data)) _ _ ltac:(unfold word; lia) Hh3) as (ib2 & -> & _). rewrite bind_ret, !Z.eqb_refl. cbn [negb].
    eexists. split; [done|]. exists (z_out r). split; [done|]. split; [done|]. split; [done|]. right. done.
  - assert (Hread : forall size crc, size = s32 (Z.of_nat (length (o ++ z_out r))) -> crc = s32 (crc32 0 (o ++ z_out r)) ->
      reading (i + z_read r) (o ++ z_out r) (InChannel (advance (Z.of_nat (z_read r)) ib) (in_eof iz) (z_stream r) size crc)).
    { intros size crc -> ->. split; [done|]. split; [lia|]. split; [done|]. split; [by exists rest|]. by split. }
    rewrite He in Hread. destruct (Z.eqb_spec (Z.of_nat (length (z_out r))) 0) as [E0|E0].
    + left. assert (Hnil : z_out r = []) by (apply length_zero_iff_nil; lia). specialize (Hread _ _ eq_refl eq_refl).
      rewrite Hnil, app_nil_r in Hread. rewrite Hnil, app_nil_r.
      exists (i + z_read r)%nat. eexists _, _. split; [done|]. split; [|by split]. simpl in *. lia.
    + right. eexists. split; [done|]. exists (z_out r). split; [done|]. split; [done|]. split; [done|]. left.
      split; [by intros E1; rewrite E1 in E0|]. exists (i + z_read r)%nat. by apply Hread.
Qed.
Lemma gz_input_ok k i o iz buf :
  (length s - i <= k)%nat -> reading i o iz -> length buf = Z.to_nat 4096 ->
  exists fuel r, (forall fuel', (fuel <= fuel')%nat -> input fuel' iz buf 0 4096 = Some (Ret r)) /\ input_post o r.
Proof.
  revert i iz buf. induction k as [|k IH]; intros i iz buf Hk Hr Hb;
    (destruct (gz_input_step_ok i o iz buf Hr Hb) as [(j & iz' & buf' & Es & Hj & Hr' & Hb')|(r & Es & Hp)];
      [|exists 1%nat, r; split; [|done]; intros [|fuel'] Hf; [lia|]; unfold input; cbn [loop]; by rewrite Es]).
  - destruct Hr' as (_ & Hi & _). lia.
  - destruct (IH j iz' buf') as (fuel & r & El & Hp); [lia|done|done|]. exists (S fuel), r. split; [|done].
    intros [|fuel'] Hf; [lia|]. unfold input. cbn [loop]. rewrite Es. apply El. lia.
Qed.

Lemma gz_decompress_ended fuel o iz buf :
  length buf = Z.to_nat 4096 -> ended o iz -> decompress (S fuel) iz buf o = Some (Ret (iz, data)).
Proof.
  intros Hb (He & -> & _). cbn [decompress]. unfold input. cbn [loop]. unfold input_step. rewrite Hb, He. done.
Qed.

Lemma decompress_ok k i o iz buf :
  (length data - length o <= k)%nat -> reading i o iz -> length buf = Z.to_nat 4096 ->
  exists fuel iz', (forall fuel', (fuel <= fuel')%nat -> decompress fuel' iz buf o = Some (Ret (iz', data))) /\
    inflateEnd (in_stream iz') = true.
Proof.
  revert i o iz buf. induction k as [|k IH]; intros i o iz buf Hk Hr Hb;
    (destruct (gz_input_ok _ i o iz buf (le_n _) Hr Hb) as (fuel1 & [[n iz1] buf1] & E1 & out & -> & Hsub & Hb1 & Hpost));
    assert (Estep : forall fuel, (fuel1 <= S fuel)%nat -> decompress (S fuel) iz buf o =
      if Z.of_nat (length out) =? 0 then Some (Ret (iz1, o)) else decompress fuel iz1 buf1 (o ++ out))
      by (intros fuel Hf; cbn [decompress]; rewrite Hb, Z2Nat.id, E1 by lia; cbn [after]; by rewrite Hsub);
    (destruct Hpost as [[Hne (j & Hr1)]|Hend];
      [assert (Hlen : (0 < length out)%nat) by (destruct out; [done|simpl; lia])|]).
  - destruct Hr1 as (_ & _ & _ & (rest & Hd) & _). apply (f_equal length) in Hd. rewrite !length_app in Hd. lia.
  - pose proof Hend as (_ & Hd & Hz). assert (out = []) as ->.
    { apply (f_equal length) in Hd. rewrite length_app in Hd. apply length_zero_iff_nil. lia. }
    exists (S fuel1), iz1. split; [|done]. intros [|fuel] Hf; [lia|]. rewrite Estep by lia. cbn. by rewrite Hd, app_nil_r.
  - destruct (IH j (o ++ out) iz1 buf1) as (fuel2 & iz2 & E2 & Hz); [rewrite length_app; lia|done|done|].
    exists (S (Nat.max fuel1 fuel2)), iz2. split; [|done]. intros [|fuel] Hf; [lia|]. rewrite Estep by lia.
    destruct (Z.eqb_spec (Z.of_nat (length out)) 0); [lia|]. apply E2. lia.
  - pose proof Hend as (_ & Hd & Hz). exists (S (S fuel1)), iz1. split; [|done]. intros [|[|fuel]] Hf; [lia|lia|].
    rewrite Estep by lia. destruct (Z.eqb_spec (Z.of_nat (length out)) 0) as [E0|E0].
    + assert (out = []) as -> by (apply length_zero_iff_nil; lia). by rewrite Hd, app_nil_r.
    + by apply gz_decompress_ended.
Qed.

Lemma gz_extract_ok ic :
  delivers ic (gz_file s data) -> exists fuel, forall fuel', (fuel <= fuel')%nat -> gz_extract (D := D) junk fuel' ic = Some (Ret data).
Proof.
  intros Hic. destruct (read_header_ok _ _ Hic) as (ic1 & Eh & Hic1). destruct (rawInit_ok (RawInflating := ZI)) as (e & Einit & He).
  set (iz := InChannel (Buffered ic1 (String_create junk buffer_size) 0 0) false e 0 0).
  destruct (decompress_ok (length data) 0 [] iz (String_create junk 4096)) as (fuel & iz' & El & Hz);
    [lia| |unfold String_create; by rewrite length_replicate|].
  { split; [done|]. split; [lia|]. split; [done|]. split; [by exists data|]. rewrite crc32_nil. split; [|done].
    apply holds_open; [done|]. unfold String_create. by rewrite length_replicate. }
  exists fuel. intros fuel' Hf. unfold gz_extract, open_in. rewrite Eh. cbn [after].
  change (has 0 0x08) with false. change (has 0 0x10) with false. change (has 0 0x02) with false. cbn [skip_string_if after].
  unfold camlzip_inflateInit. rewrite Einit, !bind_ret. cbn [after]. fold iz. rewrite El by done. cbn [after].
  unfold close_in, camlzip_inflateEnd. by rewrite Hz.
Qed.
End ReadingOk.

(** ** Round trip *)

(** C7: what [gzip_string] makes of a string of bytes that is not empty, written
    to a file, is unpacked by [gz_extract] to the same bytes: both end, the header
    and the end of the raw stream are found, and the checksum and the size agree,
    whatever zlib reads and writes at a time, whatever the pieces that the file is
    read in, and whatever the new buffers contained. *)
Theorem gzip_roundtrip {D I C} {ZL : Zlib D I} {valid} {ZD : Deflating ZL (- MAX_WBITS) valid} {ZI : RawInflating ZL valid}
    {CR : Crc} {CO : Crcs CR} {CH : Channel C} {DE : Delivers CH} junk level text :
  text <> [] -> Forall (word 8) text -> Z.of_nat (length text) < 2 ^ 31 -> Z.of_nat (bound (Deflating := ZD) (length text)) < 2 ^ 31 ->
  -1 <= level <= 9 ->
  exists fuel z, gzip_string junk fuel level text = Some (Ret z) /\
    forall ic, delivers ic z -> exists fuel', gz_extract (D := D) junk fuel' ic = Some (Ret text).
Proof.
  intros Hne Hb Hs Hbound Hl. destruct (gzip_string_ok (ZD := ZD) junk text Hs Hbound Hb level Hne Hl) as (fuel & raw & E & Hv).
  exists fuel, (gz_file raw text). split; [done|]. intros ic Hic.
  destruct (gz_extract_ok (ZI := ZI) junk raw text Hv Hb ltac:(lia) ic Hic) as (fuel' & E'). exists fuel'. by apply E'.
Qed.

(** *** The library that escapes every byte, with the checksum of zlib *)

#[export] Instance Crc32 : Crc := fun c l => Z.lxor 0xffffffff (FstHash.FstHash.crc32 (Z.lxor 0xffffffff c) l).

Lemma crc_bit_word x : word 32 x -> word 32 (FstHash.FstHash.crc_bit x).
Proof.
  intros Hx. unfold FstHash.FstHash.crc_bit. apply word_lxor; [done|by apply word_shiftr|]. by destruct (Z.odd x).
Qed.

#[export] Instance Crc32Sums : Crcs Crc32.
Proof.
  constructor.
  - intros c a b. unfold crc32, Crc32. rewrite <- Z.lxor_assoc, Z.lxor_nilpotent, Z.lxor_0_l. by rewrite FstHash.FstHash.crc32_app.
  - intros c. unfold crc32, Crc32. cbn. by rewrite <- Z.lxor_assoc, Z.lxor_nilpotent, Z.lxor_0_l.
  - intros c l Hc Hl. unfold crc32, Crc32. apply word_lxor; [done|done|].
    assert (Hw : word 32 (Z.lxor 0xffffffff c)) by (by apply word_lxor). clear Hc. revert Hw. generalize (Z.lxor 0xffffffff c).
    induction Hl as [|b l Hb Hl IH]; intros h Hh; [done|]. cbn. apply IH. unfold FstHash.FstHash.crc_byte.
    do 8 apply crc_bit_word. apply word_lxor; [done|done|by apply (word_mono 8)].
Qed.

#[export] Instance EscapingRaw : RawInflating Escaping esc_valid.
Proof.
  refine {| raw_inflating := esc_inflating |}; [by exists (InflateState false [] false)|].
  intros e c o inp more s tail data room He Hv%unescape_valid Happ Hinp Hroom _ r. rewrite unescape_app, He in Hv.
  assert (H : exists decoded escaped fin rest (k : nat),
    (if is_ended e then ([], false, true, inp) else unescape (is_escaped e) inp) = (decoded, escaped, fin, rest) /\
    length inp = (k + length rest)%nat /\ (k <= length s)%nat /\
    unescape false (c ++ take k s) = (o ++ is_pending e ++ decoded, escaped, fin, []) /\
    (exists d3, data = o ++ is_pending e ++ decoded ++ d3 /\ (fin = true -> d3 = [] /\ k = length s)) /\ (fin = false -> rest = [])).
  { destruct (is_ended e) eqn:Hend.
    - injection Hv as <- Hesc ->. exists [], false, true, inp, 0%nat. split; [done|]. split; [done|]. split; [simpl; lia|].
      change (take 0 (@nil Z)) with (@nil Z). rewrite !app_nil_r, He, Hesc, Hend. split; [done|]. split; [|done]. exists []. by rewrite !app_nil_r.
    - destruct (app_eq_inv _ _ _ _ Happ) as [(y & -> & _)|(x & -> & _)].
      + pose proof (unescape_app (is_escaped e) s y) as Ey. destruct (unescape (is_escaped e) s) as [[[d2 e2] f2] r2] eqn:E2.
        injection Hv as <- -> -> ->. cbn [app] in Ey. exists d2, false, true, y, (length s). split; [done|].
        split; [by rewrite length_app|]. split; [done|]. rewrite take_ge, unescape_app, He, Hend, E2 by done.
        split; [by rewrite <- app_assoc|]. split; [|done]. exists []. by rewrite app_nil_r, <- app_assoc.
      + rewrite unescape_app in Hv. pose proof (unescape_end (is_escaped e) inp) as Hend1.
        destruct (unescape (is_escaped e) inp) as [[[d1 e1] []] r1] eqn:E1.
        * injection Hv as <- _ Er. apply app_eq_nil in Er as [-> ->]. exists d1, e1, true, [], (length inp).
          rewrite !app_nil_r. split; [done|]. split; [simpl; lia|]. split; [done|]. rewrite take_ge, unescape_app, He, Hend, E1 by done.
          split; [by rewrite <- app_assoc|]. split; [|done]. exists []. by rewrite app_nil_r, <- app_assoc.
        * subst r1. destruct (unescape e1 x) as [[[d2 e2] f2] r2]. injection Hv as <- _ _ _. exists d1, e1, false, [], (length inp).
          split; [done|]. split; [simpl; lia|]. split; [rewrite length_app; lia|]. rewrite take_app_length, unescape_app, He, Hend, E1.
          split; [by rewrite <- app_assoc|]. split; [|done]. exists d2. by rewrite <- !app_assoc. }
  destruct H as (decoded & escaped & fin & rest & k & E & Hlen & Hk & Hc & (d3 & Hd & Hd3) & Hfin).
  unfold r. cbn [inflate Escaping]. unfold esc_inflate. rewrite E. cbn [z_read z_out z_stream z_ret].
  rewrite (app_assoc (is_pending e)) in Hd. set (dec := is_pending e ++ decoded) in *. replace (length inp - length rest)%nat with k by lia.
  split; [lia|]. split; [done|]. split; [rewrite length_take; lia|]. split; [|split].
  - unfold esc_inflating. cbn [is_pending is_escaped is_ended]. by rewrite <- app_assoc, take_drop.
  - exists (drop (Z.to_nat room) dec ++ d3). by rewrite Hd, <- app_assoc, (app_assoc (take _ _)), take_drop.
  - destruct (Nat.eqb_spec (length (drop (Z.to_nat room) dec)) 0) as [E0|E0], fin; cbn [andb].
    + left. destruct (Hd3 eq_refl) as [-> ->]. split; [done|]. split; [done|]. split; [|done]. apply length_zero_iff_nil in E0.
      rewrite Hd, app_nil_r. f_equal. rewrite <- (take_drop (Z.to_nat room) dec) at 1. by rewrite E0, app_nil_r.
    + right. rewrite (Hfin eq_refl) in *. cbn [length] in *. destruct inp; [done|]. split; [done|]. right. simpl in *. lia.
    + right. rewrite length_drop in E0. rewrite length_take. replace (Nat.min _ _ =? 0)%nat with false by (symmetry; apply Nat.eqb_neq; lia).
      rewrite andb_false_r. split; [done|]. left. lia.
    + right. rewrite length_drop in E0. rewrite length_take. replace (Nat.min _ _ =? 0)%nat with false by (symmetry; apply Nat.eqb_neq; lia).
      rewrite andb_false_r. split; [done|]. left. lia.
Defined.

Lemma gzip_roundtrip_witness :
  gzip_string 9 20 6 [104; 105] = Some (Ret ([0x1F; 0x8B; 8; 0; 0; 0; 0; 0; 0; 0xFF] ++ [1; 104; 1; 105; 0] ++ [172; 42; 147; 216] ++ [2; 0; 0; 0])) /\
  exists fuel z, gzip_string 9 fuel 6 [104; 105] = Some (Ret z) /\
    forall ic, f_left ic = z -> exists fuel', gz_extract (D := deflate_state) 9 fuel' ic = Some (Ret [104; 105]).
Proof.
  split; [vm_compute; reflexivity|].
  apply (gzip_roundtrip (ZD := EscapingDeflates (- MAX_WBITS)) (ZI := EscapingRaw) (CO := Crc32Sums) (DE := FileDelivers));
    [discriminate|repeat constructor; unfold word; lia|vm_compute; reflexivity|vm_compute; reflexivity|lia].
Defined.

(** A file whose checksum was changed is refused. *)
Example corrupted_refused :
  gz_extract (D := deflate_state) 9 30 (File ([0x1F; 0x8B; 8; 0; 0; 0; 0; 0; 0; 0xFF] ++ [1; 104; 1; 105; 0] ++ [172; 42; 147; 217] ++ [2; 0; 0; 0]) 2)
  = Some Unix_error.
Proof. vm_compute. reflexivity. Qed.

End Gzip.
