(* ===== verification/MagicLib.v ===== *)
(** * File types by libmagic

    The cookies and the errors of [src/src/utils/lib/magiclib_stub.c].  libmagic
    is a function of the calls made so far ([Libmagic]), of which only the
    freshness of the cookies it opens is relied on ([Fresh]); of the system's
    [strerror_r], that it stays in the room it is given ([Messages]). *)

From Stdlib Require Import ZArith Lia String.
From stdpp Require Import base option numbers gmap list.
From S2P Require Import Prelude CString.
Import CString.

Local Open Scope list_scope.
Local Open Scope Z_scope.

Module MagicLib.

(** ** libmagic *)

(** The calls on a cookie; a file name is [None] for NULL. *)
Inductive libcall :=
  | magic_file (fname : list Z)
  | magic_buffer (buf : list Z) (len : Z)
  | magic_setflags (flags : Z)
  | magic_check (fname : option (list Z))
  | magic_compile (fname : option (list Z))
  | magic_load (fname : option (list Z))
  | magic_error
  | magic_errno.

(** What was called, the last call first. *)
Inductive event := EOpen (cookie : Z) | EClose (cookie : Z) | ECall (cookie : Z) (call : libcall).

(** Two functions are called [strerror_r].  That of POSIX, of an error and of
    the room in the buffer, gives an [int]; with it, [errno] afterwards and the
    bytes written at the start of the buffer.  That of GNU gives a [char *]; with
    it, the bytes written, if any: its result may be a constant string. *)
Inductive reentrant :=
  | XSI (f : Z -> Z -> Z * Z * list Z)
  | GNU (f : Z -> Z -> list Z).

(** [magic_open] gives a cookie, or [errno]; the other calls give a string or
    NULL, or an integer.  [alloc]: [malloc] and [realloc] find so many bytes.
    [strerror_r] is there when [HAVE_STRERROR_R] is defined. *)
Class Libmagic := {
  MAGIC_ERROR : Z;
  EINVAL : Z;
  magic_open : list event -> Z -> Z + Z;
  string_call : list event -> Z -> libcall -> option (list Z);
  int_call : list event -> Z -> libcall -> Z;
  alloc : list event -> Z -> bool;
  strerror : Z -> list Z;
  strerror_r : option reentrant
}.

Definition nonzero (s : list Z) : Prop := Forall (fun c => c <> 0) s.

Definition terminated (w : list Z) : Prop := exists text, nonzero text /\ w = text ++ [0].

(** What the manuals say: a message is a C string; [strerror_r] writes in the
    room it is given, and terminates the text that it writes, cut or not.  The
    [int] is 0 or, in POSIX, a positive error number; older systems gave -1 when
    there was not enough room, and 2 ^ 29 bytes are taken to be enough room. *)
Class Messages (L : Libmagic) := {
  strerror_nz e : nonzero (strerror e);
  xsi_writes f err room : strerror_r = Some (XSI f) -> 0 < room -> Z.of_nat (length (f err room).2) <= room;
  xsi_terminates f err room : strerror_r = Some (XSI f) -> 0 < room -> 0 <= (f err room).1.1 -> terminated (f err room).2;
  xsi_room f err room : strerror_r = Some (XSI f) -> 0 < room -> (f err room).1.1 < 0 -> room < 2 ^ 29;
  gnu_writes f err room : strerror_r = Some (GNU f) -> 0 < room -> Z.of_nat (length (f err room)) <= room;
  gnu_terminates f err room : strerror_r = Some (GNU f) -> 0 < room -> f err room = [] \/ terminated (f err room)
}.

(** The cookies open after some calls. *)
Fixpoint opened (log : list event) : gset Z :=
  match log with
  | [] => ∅
  | EOpen c :: log => {[c]} ∪ opened log
  | EClose c :: log => opened log ∖ {[c]}
  | ECall _ _ :: log => opened log
  end.

Class Fresh (L : Libmagic) := fresh_cookie log flags c : magic_open log flags = inl c -> c ∉ opened log.

(** ** The stubs *)

Inductive outcome :=
  | Unit
  | Block (b : nat)
  | Bool (b : bool)
  | Str (s : list Z)
  | Failure (msg : list Z)
  | Invalid_argument (msg : string)
  | Sys_error (msg : list Z)
  | Out_of_memory.

(** [cookies]: the custom blocks, [None] for a NULL cookie. *)
Record state := State { cookies : list (option Z); log : list event }.

Section Stubs.
Context {L : Libmagic}.

(** [strerror_r (err, buf, room) < 0], [errno] afterwards, and what is written in
    [buf]; a pointer is not less than 0. *)
Definition call_strerror_r (k : reentrant) (err room : Z) : bool * Z * list Z :=
  match k with
  | XSI f => let '(r, errno, w) := f err room in (r <? 0, errno, w)
  | GNU f => (false, err, f err room)
  end.

(** The loop over [strerror_r], with [off] characters in front of the message.
    [len] is an [int]: doubling it past [INT_MAX] is undefined.  [reread]: the
    error is [errno] itself, and not a variable. *)
Fixpoint errno_loop (fuel : nat) (junk : Z) (mem : Z -> bool) (k : reentrant) (reread : bool)
    (errmsg : list Z) (err : Z) (off : nat) (len : Z) : option outcome :=
  let '(negative, errno, w) := call_strerror_r k err (u64 (len - Z.of_nat off)) in
  errmsg ← blit errmsg (Z.of_nat off) w;
  if negative : bool then
    match fuel with
    | O => None
    | S fuel =>
        let len := len * 2 in
        if 2 ^ 31 <=? len then None
        else if mem len then
          errno_loop fuel junk mem k reread (errmsg ++ replicate (length errmsg) junk) (if reread then errno else err) off len
        else Some Out_of_memory
    end
  else msg ← strdup errmsg; Some (Sys_error msg).

Definition errno_message (junk : Z) (mem : Z -> bool) (reread : bool) (prefix : list Z) (off : nat) (err : Z) : option outcome :=
  let len := 80 in
  if negb (mem len) then Some Out_of_memory
  else
    errmsg ← strcpy (replicate 80 junk) prefix;
    match strerror_r with
    | Some k => errno_loop 32 junk mem k reread errmsg err off len
    | None => errmsg ← strcat errmsg (strerror err); msg ← strdup errmsg; Some (Sys_error msg)
    end.

Definition call_string (st : state) (c : Z) (f : libcall) : option (list Z) * state :=
  (string_call (log st) c f, State (cookies st) (ECall c f :: log st)).

Definition call_int (st : state) (c : Z) (f : libcall) : Z * state :=
  (int_call (log st) c f, State (cookies st) (ECall c f :: log st)).

Definition raise_on_error (junk : Z) (fname : string) (c : Z) (st : state) : option (outcome * state) :=
  let '(err_magic, st) := call_string st c magic_error in
  match err_magic with
  | Some msg =>
      if alloc (log st) (Z.of_nat (length (str fname) + length msg + 1)) then Some (Failure (str fname ++ msg), st)
      else Some (Out_of_memory, st)
  | None =>
      let '(err, st) := call_int st c magic_errno in
      r ← errno_message junk (alloc (log st)) false (str fname) (length (str fname)) err;
      Some (r, st)
  end.

Definition ocaml_magic_open (junk : Z) (flags : Z) (st : state) : option (outcome * state) :=
  match magic_open (log st) (Z.lor (s32 flags) MAGIC_ERROR) with
  | inl c => Some (Block (length (cookies st)), State (cookies st ++ [Some c]) (EOpen c :: log st))
  | inr err =>
      let st := State (cookies st ++ [None]) (log st) in
      if err =? EINVAL then Some (Failure (str "Magiclib.create: Preserve_atime not supported"), st)
      else r ← errno_message junk (alloc (log st)) true (str "Magiclib.create: ") 14 err; Some (r, st)
  end.

(** [COOKIE_VAL] *)
Definition COOKIE_VAL (st : state) (b : nat) : option (option Z) := cookies st !! b.

(** Both the finalizer [free_cookie] and [ocaml_magic_close]. *)
Definition free_cookie (b : nat) (st : state) : option (outcome * state) :=
  cookie ← COOKIE_VAL st b;
  let calls := match cookie with Some c => EClose c :: log st | None => log st end in
  Some (Unit, State (<[b := None]> (cookies st)) calls).

Definition ocaml_magic_close (b : nat) (st : state) : option (outcome * state) := free_cookie b st.

(** The guard of the other stubs. *)
Definition with_cookie (name : string) (b : nat) (st : state) (k : Z -> option (outcome * state)) : option (outcome * state) :=
  cookie ← COOKIE_VAL st b;
  match cookie with None => Some (Invalid_argument name, st) | Some c => k c end.

Definition string_stub (junk : Z) (name : string) (b : nat) (f : libcall) (st : state) : option (outcome * state) :=
  with_cookie name b st (fun c =>
    let '(ans, st) := call_string st c f in
    match ans with Some s => Some (Str s, st) | None => raise_on_error junk (name ++ ": ") c st end).

Definition ocaml_magic_file (junk : Z) (b : nat) (fname : list Z) := string_stub junk "Magiclib.file" b (magic_file fname).
Definition ocaml_magic_buffer (junk : Z) (b : nat) (buf : list Z) (len : Z) := string_stub junk "Magiclib.buffer" b (magic_buffer buf (s32 len)).

Definition ocaml_magic_setflags (b : nat) (flags : Z) (st : state) : option (outcome * state) :=
  with_cookie "Magiclib.setflags" b st (fun c =>
    let '(r, st) := call_int st c (magic_setflags (s32 flags)) in
    if r <? 0 then Some (Failure (str "Magiclib.setflags: Preserve_atime not supported"), st) else Some (Unit, st)).

Definition CHECK (b : nat) (fname : option (list Z)) (st : state) : option (outcome * state) :=
  with_cookie "Magiclib.check" b st (fun c =>
    let '(r, st) := call_int st c (magic_check fname) in Some (Bool (negb (r <? 0)), st)).

Definition int_stub (junk : Z) (name : string) (b : nat) (f : libcall) (st : state) : option (outcome * state) :=
  with_cookie name b st (fun c =>
    let '(r, st) := call_int st c f in
    if r <? 0 then raise_on_error junk (name ++ ": ") c st else Some (Unit, st)).

Definition COMPILE (junk : Z) (b : nat) (fname : option (list Z)) := int_stub junk "Magiclib.compile" b (magic_compile fname).
Definition LOAD (junk : Z) (b : nat) (fname : option (list Z)) := int_stub junk "Magiclib.load" b (magic_load fname).

(** Calls from OCaml, and finalizations by its collector. *)
Inductive op :=
  | Open (flags : Z)
  | Close (b : nat)
  | Finalize (b : nat)
  | File (b : nat) (fname : list Z)
  | Buffer (b : nat) (buf : list Z) (len : Z)
  | Setflags (b : nat) (flags : Z)
  | Check_db (b : nat) (fname : option (list Z))
  | Compile_db (b : nat) (fname : option (list Z))
  | Load_db (b : nat) (fname : option (list Z)).

Definition exec (junk : Z) (o : op) (st : state) : option (outcome * state) :=
  match o with
  | Open flags => ocaml_magic_open junk flags st
  | Close b => ocaml_magic_close b st
  | Finalize b => free_cookie b st
  | File b fname => ocaml_magic_file junk b fname st
  | Buffer b buf len => ocaml_magic_buffer junk b buf len st
  | Setflags b flags => ocaml_magic_setflags b flags st
  | Check_db b fname => CHECK b fname st
  | Compile_db b fname => COMPILE junk b fname st
  | Load_db b fname => LOAD junk b fname st
  end.

Fixpoint run (junk : Z) (ops : list op) (st : state) : option (list outcome * state) :=
  match ops with
  | [] => Some ([], st)
  | o :: ops => '(r, st) ← exec junk o st; '(rs, st) ← run junk ops st; Some (r :: rs, st)
  end.
End Stubs.

(** ** The discipline of cookies *)

(** Every call is on an open cookie, and no cookie is opened twice. *)
Fixpoint disciplined (log : list event) : Prop :=
  match log with
  | [] => True
  | EOpen c :: log => (c ∉ opened log) /\ disciplined log
  | EClose c :: log => c ∈ opened log /\ disciplined log
  | ECall c _ :: log => c ∈ opened log /\ disciplined log
  end.

(** The blocks hold the open cookies, one each. *)
Definition inv (st : state) : Prop :=
  disciplined (log st) /\ (forall c, c ∈ opened (log st) <-> exists b, cookies st !! b = Some (Some c)) /\
  (forall b1 b2 c, cookies st !! b1 = Some (Some c) -> cookies st !! b2 = Some (Some c) -> b1 = b2).

(** [n] blocks exist: which sequences OCaml can make. *)
Fixpoint valid (n : nat) (ops : list op) : bool :=
  match ops with
  | [] => true
  | Open _ :: ops => valid (S n) ops
  | (Close b | Finalize b | File b _ | Buffer b _ _ | Setflags b _ | Check_db b _ | Compile_db b _ | Load_db b _) :: ops =>
      (b <? n)%nat && valid n ops
  end.

Section Discipline.
Context {L : Libmagic} {LF : Fresh L} {LM : Messages L}.

(** *** Messages *)

(** A message after [off] characters of the buffer is found by [strdup]. *)
Lemma strdup_text errmsg text (off : nat) :
  nonzero (take off errmsg) -> nonzero text -> (off + length text < length errmsg)%nat ->
  exists errmsg', blit errmsg (Z.of_nat off) (text ++ [0]) = Some errmsg' /\ strdup errmsg' = Some (take off errmsg ++ text).
Proof.
  intros Hp Ht Hl. rewrite blit_in by (rewrite length_app; simpl; lia). eexists. split; [done|].
  rewrite <- (app_assoc text), (app_assoc (take off errmsg)). eapply (strdup_ok _ _ (length _)). split; [done|].
  split; [by apply Forall_app_2|by eexists].
Qed.

(** What a call of [strerror_r] leaves: a message; or, when it is to be called
    again, the same prefix in a buffer that was not large. *)
Lemma strerror_r_ok k err (off : nat) errmsg :
  strerror_r = Some k -> (off < length errmsg)%nat -> nonzero (take off errmsg) -> Z.of_nat (length errmsg) < 2 ^ 31 ->
  (is_Some (strdup errmsg) \/ exists f, k = XSI f) ->
  let '(negative, _, w) := call_strerror_r k err (u64 (Z.of_nat (length errmsg) - Z.of_nat off)) in
  exists errmsg', blit errmsg (Z.of_nat off) w = Some errmsg' /\ length errmsg' = length errmsg /\
    take off errmsg' = take off errmsg /\
    if negative : bool then (exists f, k = XSI f) /\ Z.of_nat (length errmsg) - Z.of_nat off < 2 ^ 29
    else is_Some (strdup errmsg').
Proof.
  intros Hk Hoff Hp Hlen Hd. rewrite u64_id by (unfold word; change (2 ^ 64) with 18446744073709551616; lia).
  set (room := Z.of_nat (length errmsg) - Z.of_nat off). assert (Hroom : 0 < room) by lia.
  assert (Hin : forall w, Z.of_nat (length w) <= room -> exists errmsg', blit errmsg (Z.of_nat off) w = Some errmsg' /\
    length errmsg' = length errmsg /\ take off errmsg' = take off errmsg).
  { intros w Hw. rewrite blit_in by lia. eexists. split; [done|]. split.
    - rewrite !length_app, length_take, length_drop. lia.
    - rewrite take_app_le by (rewrite length_take; lia). by rewrite take_take, Nat.min_id. }
  assert (Hend : forall w errmsg', Z.of_nat (length w) <= room -> terminated w -> blit errmsg (Z.of_nat off) w = Some errmsg' ->
    is_Some (strdup errmsg')).
  { intros w errmsg' Hw (text & Ht & ->) E. rewrite length_app in Hw. simpl in Hw.
    destruct (strdup_text errmsg text off) as (e & E' & Hs); [done|done|lia|]. rewrite E in E'. injection E' as <-. by rewrite Hs. }
  destruct k as [f|f]; cbn [call_strerror_r].
  - pose proof (xsi_writes f err room Hk Hroom) as H1. pose proof (xsi_terminates f err room Hk Hroom) as H2.
    pose proof (xsi_room f err room Hk Hroom) as H3. destruct (f err room) as [[r errno] w]. cbn [fst snd] in *.
    destruct (Hin w H1) as (errmsg' & E & Hl & Ht). exists errmsg'. repeat (split; [done|]).
    destruct (Z.ltb_spec r 0) as [Hr|Hr]; [split; [by eexists|by apply H3]|]. apply (Hend w); [done|by apply H2|done].
  - pose proof (gnu_writes f err room Hk Hroom) as H1. destruct (Hin _ H1) as (errmsg' & E & Hl & Ht).
    exists errmsg'. repeat (split; [done|]).
    destruct (gnu_terminates f err room Hk Hroom) as [H2|H2]; [|by apply (Hend (f err room))].
    destruct Hd as [Hd|[? ?]]; [|done]. rewrite H2, blit_in in E by (simpl; lia). injection E as <-.
    cbn [length app]. by rewrite Nat.add_0_r, take_drop.
Qed.

Lemma errno_loop_total fuel junk mem k reread errmsg err off len :
  strerror_r = Some k -> (off < 20)%nat -> nonzero (take off errmsg) -> len = Z.of_nat (length errmsg) -> 80 <= len < 2 ^ 31 ->
  2 ^ 29 + 20 <= 2 ^ Z.of_nat fuel * len -> (is_Some (strdup errmsg) \/ exists f, k = XSI f) ->
  is_Some (errno_loop fuel junk mem k reread errmsg err off len).
Proof.
  intros Hk Hoff. revert errmsg err len.
  induction fuel as [|fuel IH]; intros errmsg err len Hp -> Hlen Hfuel Hd; cbn [errno_loop];
    pose proof (strerror_r_ok k err off errmsg Hk ltac:(lia) Hp ltac:(lia) Hd) as H;
    destruct (call_strerror_r _ _ _) as [[[] errno] w] eqn:Ew; destruct H as (errmsg' & E & Hl & Ht & H); rewrite E, some_bind.
  2, 4: destruct H as [msg ->]; by rewrite some_bind.
  all: destruct H as [Hx Hroom].
  - change (2 ^ Z.of_nat 0) with 1 in Hfuel. lia.
  - cbv zeta. destruct (Z.leb_spec (2 ^ 31) (Z.of_nat (length errmsg) * 2)); [lia|]. destruct (mem _); [|done].
    rewrite Nat2Z.inj_succ, Z.pow_succ_r in Hfuel by lia.
    apply IH; [by rewrite take_app_le, Ht by lia|rewrite length_app, length_replicate; lia|lia|lia|by right].
Qed.

(** Without [strerror_r], a message of [strerror] that is too long for the 80
    bytes. *)
Definition too_long : Prop := strerror_r = None /\ exists err, (61 < length (strerror err))%nat.

Lemma errno_message_total junk mem reread prefix off err :
  nonzero prefix -> (length prefix <= 18)%nat -> (off <= length prefix)%nat ->
  is_Some (errno_message junk mem reread prefix off err) \/ too_long.
Proof.
  intros Hp Hl Hoff. unfold errno_message. cbv zeta. destruct (mem 80); [|by left]. cbn [negb].
  destruct (strcpy_ok (replicate 80 junk) prefix 80) as (b1 & -> & H1); [apply length_replicate|done|lia|]. rewrite some_bind.
  pose proof H1 as (Hb & _ & rest & Hrest). destruct strerror_r as [k|] eqn:Hk.
  - left. apply errno_loop_total; [done|lia| |lia|lia| |].
    + rewrite Hrest, take_app_le by lia. by apply Forall_take.
    + change (2 ^ Z.of_nat 32) with 4294967296. lia.
    + left. by rewrite (strdup_ok _ _ _ H1).
  - destruct (decide (length (strerror err) <= 61)%nat) as [Hs|Hs]; [left|right; split; [done|exists err; lia]].
    destruct (strcat_ok b1 prefix (strerror err) 80) as (b2 & -> & H2); [done|apply strerror_nz|rewrite length_app; lia|].
    rewrite some_bind, (strdup_ok _ _ _ H2), some_bind. done.
Qed.

(** The text of the error replaces the prefix from [off] on. *)
Lemma errno_message_ok junk mem reread prefix off err f r errno text :
  nonzero prefix -> (length prefix <= 18)%nat -> (off <= length prefix)%nat -> mem 80 = true ->
  strerror_r = Some (XSI f) -> f err (80 - Z.of_nat off) = (r, errno, text ++ [0]) -> 0 <= r -> nonzero text ->
  errno_message junk mem reread prefix off err = Some (Sys_error (take off prefix ++ text)).
Proof.
  intros Hp Hl Hoff Hmem Hk Ef Hr Ht. unfold errno_message. cbv zeta. rewrite Hmem, Hk. cbn [negb].
  destruct (strcpy_ok (replicate 80 junk) prefix 80) as (b1 & -> & Hb & _ & rest & Hrest); [apply length_replicate|done|lia|].
  rewrite some_bind. pose proof (xsi_writes f err (80 - Z.of_nat off) Hk ltac:(lia)) as Hw. rewrite Ef in Hw. cbn [snd] in Hw.
  rewrite length_app in Hw. simpl in Hw.
  assert (Htake : take off b1 = take off prefix) by (rewrite Hrest, take_app_le by lia; done).
  destruct (strdup_text b1 text off) as (b2 & E & Hd); [rewrite Htake; by apply Forall_take|done|lia|].
  change 32%nat with (S 31). cbn [errno_loop call_strerror_r]. rewrite u64_id by (unfold word; change (2 ^ 64) with 18446744073709551616; lia).
  rewrite Ef. destruct (Z.ltb_spec r 0); [lia|]. rewrite E, some_bind, Hd, some_bind. by rewrite Htake.
Qed.

(** *** The invariant *)

(** What every stub gives: a result, the invariant, and as many blocks. *)
Definition keeps (n : nat) (r : option (outcome * state)) : Prop :=
  (exists v st, r = Some (v, st) /\ inv st /\ length (cookies st) = n) \/ too_long.

Lemma keeps_some v st : inv st -> keeps (length (cookies st)) (Some (v, st)).
Proof. intros Hi. left. by exists v, st. Qed.

Lemma call_inv st b c f :
  inv st -> cookies st !! b = Some (Some c) -> inv (State (cookies st) (ECall c f :: log st)).
Proof. intros (Hd & Ho & Hu) Hb. split; [|by split]. split; [|done]. apply Ho. by exists b. Qed.

Lemma message_keeps junk mem reread prefix off err st :
  inv st -> nonzero prefix -> (length prefix <= 18)%nat -> (off <= length prefix)%nat ->
  keeps (length (cookies st)) (r ← errno_message junk mem reread prefix off err; Some (r, st)).
Proof.
  intros Hi Hp Hl Hoff. destruct (errno_message_total junk mem reread prefix off err Hp Hl Hoff) as [[r ->]|]; [|by right].
  rewrite some_bind. by apply keeps_some.
Qed.

Lemma raise_keeps junk fname c b st :
  inv st -> cookies st !! b = Some (Some c) -> (length (str fname) <= 18)%nat -> nonzero (str fname) ->
  keeps (length (cookies st)) (raise_on_error junk fname c st).
Proof.
  intros Hi Hb Hl Hnz. unfold raise_on_error, call_string, call_int. pose proof (call_inv st b c magic_error Hi Hb) as Hi1.
  destruct (string_call _ _ _); [destruct (alloc _ _); by apply (keeps_some _ (State _ _))|].
  apply (message_keeps _ _ _ _ _ _ (State _ _)); [|done..]. by apply (call_inv (State _ _) b).
Qed.

Lemma guard_keeps name b st k :
  inv st -> (b < length (cookies st))%nat -> (forall c, cookies st !! b = Some (Some c) -> keeps (length (cookies st)) (k c)) ->
  keeps (length (cookies st)) (with_cookie name b st k).
Proof.
  intros Hi Hb Hk. unfold with_cookie, COOKIE_VAL. destruct (lookup_lt_is_Some_2 _ _ Hb) as [cookie E]. rewrite E, some_bind.
  destruct cookie as [c|]; [by apply Hk|by apply keeps_some].
Qed.

Lemma string_stub_keeps junk name b f st :
  inv st -> (b < length (cookies st))%nat -> (length (str (name ++ ": ")) <= 18)%nat -> nonzero (str (name ++ ": ")) ->
  keeps (length (cookies st)) (string_stub junk name b f st).
Proof.
  intros Hi Hb Hl Hnz. apply guard_keeps; [done..|]. intros c Hc. unfold call_string. pose proof (call_inv st b c f Hi Hc) as Hi1.
  destruct (string_call _ _ _); [by apply (keeps_some _ (State _ _))|]. by apply (raise_keeps _ _ _ b (State _ _)).
Qed.

Lemma int_stub_keeps junk name b f st :
  inv st -> (b < length (cookies st))%nat -> (length (str (name ++ ": ")) <= 18)%nat -> nonzero (str (name ++ ": ")) ->
  keeps (length (cookies st)) (int_stub junk name b f st).
Proof.
  intros Hi Hb Hl Hnz. apply guard_keeps; [done..|]. intros c Hc. unfold call_int. pose proof (call_inv st b c f Hi Hc) as Hi1.
  destruct (_ <? 0); [|by apply (keeps_some _ (State _ _))]. by apply (raise_keeps _ _ _ b (State _ _)).
Qed.

Lemma open_keeps junk flags st : inv st -> keeps (S (length (cookies st))) (ocaml_magic_open junk flags st).
Proof.
  intros (Hd & Ho & Hu). unfold ocaml_magic_open. destruct (magic_open _ _) as [c|err] eqn:E.
  - apply fresh_cookie in E. left. eexists _, _. split; [done|]. split; [|cbn; rewrite length_app; simpl; lia].
    assert (Hnew : forall b, cookies st !! b = Some (Some c) -> False) by (intros b Hb; apply E, Ho; by exists b).
    split; [done|]. cbn [log cookies opened]. split.
    + intros c'. rewrite elem_of_union, elem_of_singleton, Ho. split.
      * intros [->|[b Hb]]; [exists (length (cookies st)); by rewrite lookup_app_r, Nat.sub_diag|exists b].
        rewrite lookup_app_l; [done|by eapply lookup_lt_Some].
      * intros [b [[_ Hb]|[_ [= ->]]]%lookup_snoc_Some]; [right; by exists b|by left].
    + intros b1 b2 c' [[_ H1]|[-> E1]]%lookup_snoc_Some [[_ H2]|[-> E2]]%lookup_snoc_Some; [by eapply Hu| |..|done].
      * injection E2 as ->. by destruct (Hnew b1).
      * injection E1 as ->. by destruct (Hnew b2).
  - assert (Hi : inv (State (cookies st ++ [None]) (log st))).
    { split; [done|]. cbn [log cookies]. split.
      - intros c. rewrite Ho. split.
        + intros [b Hb]. exists b. rewrite lookup_app_l; [done|by eapply lookup_lt_Some].
        + intros [b [[_ Hb]|[_ ?]]%lookup_snoc_Some]; [by exists b|done].
      - intros b1 b2 c [[_ H1]|[_ ?]]%lookup_snoc_Some [[_ H2]|[_ ?]]%lookup_snoc_Some; [by eapply Hu|done..]. }
    assert (Hl : length (cookies st ++ [None]) = S (length (cookies st))) by (rewrite length_app; simpl; lia).
    rewrite <- Hl. destruct (err =? EINVAL); [by apply (keeps_some _ (State _ _))|].
    apply (message_keeps _ _ _ _ _ _ (State _ _)); [done|by repeat constructor|simpl; lia|simpl; lia].
Qed.

Lemma free_keeps b st : inv st -> (b < length (cookies st))%nat -> keeps (length (cookies st)) (free_cookie b st).
Proof.
  intros (Hd & Ho & Hu) Hb. unfold free_cookie, COOKIE_VAL. destruct (lookup_lt_is_Some_2 _ _ Hb) as [cookie E].
  rewrite E, some_bind. left. eexists _, _. split; [done|]. split; [|apply length_insert]. split; [|split]; cbn [log cookies].
  - destruct cookie as [c|]; [|done]. split; [apply Ho; by exists b|done].
  - intros c'. destruct cookie as [c|]; cbn [opened]; rewrite ?elem_of_difference, ?elem_of_singleton, Ho; split.
    + intros [[b' Hb'] Hne]. exists b'. rewrite list_lookup_insert_ne by (intros ->; congruence). done.
    + intros [b' Hb']. destruct (decide (b = b')) as [<-|Hne]; [by rewrite list_lookup_insert_eq in Hb' by done|].
      rewrite list_lookup_insert_ne in Hb' by done. split; [by exists b'|]. intros ->. by apply Hne, (Hu _ _ c).
    + intros [b' Hb']. exists b'. rewrite list_lookup_insert_ne by (intros ->; congruence). done.
    + intros [b' Hb']. destruct (decide (b = b')) as [<-|Hne]; [by rewrite list_lookup_insert_eq in Hb' by done|].
      rewrite list_lookup_insert_ne in Hb' by done. by exists b'.
  - intros b1 b2 c H1 H2. destruct (decide (b = b1)) as [<-|N1]; [by rewrite list_lookup_insert_eq in H1 by done|].
    destruct (decide (b = b2)) as [<-|N2]; [by rewrite list_lookup_insert_eq in H2 by done|].
    rewrite list_lookup_insert_ne in H1, H2 by done. by eapply Hu.
Qed.

Lemma exec_keeps junk o ops st :
  inv st -> valid (length (cookies st)) (o :: ops) = true -> exists n, keeps n (exec junk o st) /\ valid n ops = true.
Proof.
  intros Hi Hv.
  assert (H : (exists flags, o = Open flags) \/
    keeps (length (cookies st)) (exec junk o st) /\ valid (length (cookies st)) ops = true).
  { destruct o; [left; by eexists|right..]; cbn [valid] in Hv; apply andb_true_iff in Hv as [Hb%Nat.ltb_lt Hv]; (split; [|done]); cbn [exec].
    1, 2: by apply free_keeps.
    1, 2: apply string_stub_keeps; [done|done|simpl; lia|by repeat constructor].
    - apply guard_keeps; [done..|]. intros c Hc. unfold call_int. destruct (_ <? 0); apply (keeps_some _ (State _ _)); by apply (call_inv _ b).
    - apply guard_keeps; [done..|]. intros c Hc. apply (keeps_some _ (State _ _)). by apply (call_inv _ b).
    - apply int_stub_keeps; [done|done|simpl; lia|by repeat constructor].
    - apply int_stub_keeps; [done|done|simpl; lia|by repeat constructor]. }
  destruct H as [[flags ->]|[Hk Hv']]; [|by eexists]. exists (S (length (cookies st))). split; [by apply open_keeps|done].
Qed.

(** C14: whatever OCaml calls and its collector finalizes, in any order and any
    number of times, whatever libmagic answers and whether or not there is
    memory: the stubs run to their end inside their buffers, libmagic is only
    called on cookies that it opened and that are not closed, none is closed
    twice, and those still open are exactly those of the blocks not closed or
    finalized.  The one exception is a build without [strerror_r] on a system
    where a message of [strerror] has more than 61 characters. *)
Theorem cookies_disciplined junk ops :
  valid 0 ops = true ->
  (exists rs st, run junk ops (State [] []) = Some (rs, st) /\ disciplined (log st) /\
    (forall c, c ∈ opened (log st) <-> exists b, cookies st !! b = Some (Some c))) \/
  (strerror_r = None /\ exists err, (61 < length (strerror err))%nat).
Proof.
  assert (H : forall ops st, inv st -> valid (length (cookies st)) ops = true ->
    (exists rs st', run junk ops st = Some (rs, st') /\ inv st') \/ too_long).
  { clear ops. induction ops as [|o ops IH]; intros st Hi Hv; [left; by exists [], st|].
    destruct (exec_keeps junk o ops st Hi Hv) as (n & [(v & st1 & E & Hi1 & Hn)|Hlong] & Hv1); [|by right].
    cbn [run]. rewrite E, some_bind. destruct (IH st1 Hi1) as [(rs & st2 & -> & Hi2)|]; [by rewrite Hn| |by right].
    left. rewrite some_bind. by eexists _, _. }
  intros Hv. destruct (H ops (State [] [])) as [(rs & st & E & Hd & Ho & _)|]; [|done|left; by eauto|by right].
  split; [done|]. split; [|by intros b1 b2 c H1].
  intros c. cbn [opened log cookies]. rewrite elem_of_empty. split; [done|]. by intros [b Hb].
Qed.

(** In the other build the buffer has its 80 bytes, whatever the message. *)
Lemma strerror_message junk mem reread prefix off err :
  strerror_r = None -> mem 80 = true -> nonzero prefix -> (length prefix <= 18)%nat ->
  errno_message junk mem reread prefix off err =
    if (length prefix + length (strerror err) <? 80)%nat then Some (Sys_error (prefix ++ strerror err)) else None.
Proof.
  intros Hk Hmem Hp Hl. unfold errno_message. cbv zeta. rewrite Hmem, Hk. cbn [negb].
  destruct (strcpy_ok (replicate 80 junk) prefix 80) as (b1 & -> & H1); [apply length_replicate|done|lia|]. rewrite some_bind.
  destruct (Nat.ltb_spec (length prefix + length (strerror err)) 80).
  - destruct (strcat_ok b1 prefix (strerror err) 80) as (b2 & -> & H2); [done|apply strerror_nz|rewrite length_app; lia|].
    by rewrite some_bind, (strdup_ok _ _ _ H2).
  - destruct H1 as (Hb & _ & rest & ->). unfold strcat. rewrite strlen_app, some_bind by done.
    unfold blit. rewrite length_app. simpl length. destruct (Z.leb_spec (Z.of_nat (length prefix) + Z.of_nat (length (strerror err) + 1)) (Z.of_nat (length (prefix ++ 0 :: rest)))); [lia|].
    by rewrite andb_false_r.
Qed.

(** The error of [magic_open] is written over the end of its prefix. *)
Lemma open_error_message junk flags st err f r errno text :
  strerror_r = Some (XSI f) -> f err 66 = (r, errno, text ++ [0]) -> 0 <= r -> nonzero text -> alloc (log st) 80 = true ->
  magic_open (log st) (Z.lor (s32 flags) MAGIC_ERROR) = inr err -> err <> EINVAL ->
  fst <$> ocaml_magic_open junk flags st = Some (Sys_error (str "Magiclib.creat" ++ text)).
Proof.
  intros Hk Ef Hr Ht Hmem E He. unfold ocaml_magic_open. rewrite E. destruct (Z.eqb_spec err EINVAL); [done|]. cbn [log].
  rewrite (errno_message_ok _ _ _ _ 14 err f r errno text) by (done || (simpl; lia) || by repeat constructor). done.
Qed.

(** A positive answer, that of POSIX for a message that does not fit, ends the
    loop: the message stays cut to the 80 bytes of the first buffer. *)
Lemma errno_message_cut junk mem reread prefix off err f r errno text :
  nonzero prefix -> (length prefix <= 18)%nat -> (off <= length prefix)%nat -> mem 80 = true ->
  strerror_r = Some (XSI f) -> f err (80 - Z.of_nat off) = (r, errno, text ++ [0]) -> 0 < r -> nonzero text ->
  errno_message junk mem reread prefix off err = Some (Sys_error (take off prefix ++ text)) /\ (length text < 80 - off)%nat.
Proof.
  intros Hp Hl Hoff Hmem Hk Ef Hr Ht. split; [by apply (errno_message_ok _ _ _ _ _ _ f r errno); [..|lia|]|].
  pose proof (xsi_writes f err (80 - Z.of_nat off) Hk ltac:(lia)) as Hw. rewrite Ef in Hw. cbn [snd] in Hw.
  rewrite length_app in Hw. simpl in Hw. lia.
Qed.
End Discipline.

(** ** A libmagic that numbers its cookies *)

Definition next_cookie (log : list event) : Z := fold_right (fun e m => match e with EOpen c => Z.max m (c + 1) | _ => m end) 1 log.

(** The message of an error number, and a [strerror_r] that gives -1 when the
    room is too small for it. *)
Definition message (err : Z) : list Z := if err =? 12 then replicate 70 120 else str "No such file or directory".

Definition old_strerror_r (err room : Z) : Z * Z * list Z :=
  if Z.of_nat (length (message err)) <? room then (0, err, message err ++ [0]) else (-1, 34, []).

Definition Counting (text : option (list Z)) : Libmagic := {|
  MAGIC_ERROR := 0x200;
  EINVAL := 22;
  magic_open log flags := if flags =? 0x280 then inr 22 else if flags =? 0x201 then inr 12 else inl (next_cookie log);
  string_call log c f := match f with magic_error => None | _ => text end;
  int_call log c f := match f with magic_errno => if (length log <? 4)%nat then 12 else 2 | _ => 0 end;
  alloc log n := n <? 1000000;
  strerror := message;
  strerror_r := Some (XSI old_strerror_r)
|}.

Lemma message_nz err : nonzero (message err).
Proof. unfold message. destruct (err =? 12); repeat constructor; discriminate. Qed.

Lemma message_length err : (length (message err) < 100)%nat.
Proof. unfold message. destruct (err =? 12); simpl; lia. Qed.

Lemma counting_messages text : Messages (Counting text).
Proof.
  assert (Hx : forall f, @strerror_r (Counting text) = Some (XSI f) -> f = old_strerror_r) by (intros f [= <-]; done).
  split; [apply message_nz| | | |done|done]; intros f err room ->%Hx Hroom; unfold old_strerror_r;
    destruct (Z.ltb_spec (Z.of_nat (length (message err))) room) as [Hl|Hl]; cbn [fst snd]; try (intros; lia).
  - rewrite length_app. simpl. lia.
  - simpl. lia.
  - intros _. exists (message err). split; [apply message_nz|done].
  - intros _. pose proof (message_length err). lia.
Qed.

Lemma next_cookie_fresh text : Fresh (Counting text).
Proof.
  intros log flags c H. assert (Hc : forall c', c' ∈ opened log -> c' < next_cookie log).
  { clear H. induction log as [|[c'|c'|c' f] log IH]; intros x; cbn [opened].
    - by rewrite elem_of_empty.
    - change (next_cookie (EOpen c' :: log)) with (Z.max (next_cookie log) (c' + 1)).
      rewrite elem_of_union, elem_of_singleton. intros [->|Hx%IH]; lia.
    - rewrite elem_of_difference. intros [Hx%IH _]. done.
    - apply IH. }
  cbn in H. destruct (flags =? 640); [done|]. destruct (flags =? 513); [done|]. injection H as <-. intros Hin%Hc. lia.
Qed.

Lemma cookies_disciplined_witness :
  let L := Counting None in
  let ops := [Open 0; File 0 [97]; File 0 [97]; Close 0; Close 0; File 0 [97]; Open 0; Open 0x80; Open 1; Load_db 1 None; Finalize 0] in
  ((exists rs st, run 0 ops (State [] []) = Some (rs, st) /\ disciplined (log st) /\
    (forall c, c ∈ opened (log st) <-> exists b, cookies st !! b = Some (Some c))) \/
   (strerror_r = None /\ exists err, (61 < length (strerror err))%nat)) /\
  (fst <$> run 0 ops (State [] [])) = Some [Block 0; Sys_error (str "Magiclib.file: " ++ replicate 70 120);
    Sys_error (str "Magiclib.file: No such file or directory"); Unit; Unit;
    Invalid_argument "Magiclib.file"; Block 1; Failure (str "Magiclib.create: Preserve_atime not supported");
    Sys_error (str "Magiclib.creatNo such file or directory"); Unit; Unit].
Proof.
  intros L ops. split; [|vm_compute; reflexivity].
  apply (cookies_disciplined (LF := next_cookie_fresh None) (LM := counting_messages None)). reflexivity.
Defined.
End MagicLib.
