(* ===== verification/Wget.v ===== *)
(** * The downloader of the build

    [src/config/wget.c], which fetches a file over HTTP when the program is
    configured: [parse_url] and [main].  The network is a parameter ([Network]);
    what is relied on of a connection is in [Serves]. *)

From Stdlib Require Import ZArith Lia String.
From stdpp Require Import base option numbers list.
From S2P Require Import Prelude CString.
Import CString.

Local Open Scope list_scope.
Local Open Scope Z_scope.

Module Wget.

(** ** Strings *)

(** [strchr] and [strrchr]: the index of the first and of the last occurrence. *)
Fixpoint strchr (s : list Z) (c : Z) : option nat :=
  match s with
  | [] => None
  | d :: s => if d =? c then Some O else S <$> strchr s c
  end.

Fixpoint strrchr (s : list Z) (c : Z) : option nat :=
  match s with
  | [] => None
  | d :: s => match strrchr s c with Some i => Some (S i) | None => if d =? c then Some O else None end
  end.

(** [!strncmp(s, p, strlen(p))] *)
Definition starts (s p : list Z) : bool := bool_decide (take (length p) s = p).

Fixpoint atoi_digits (acc : Z) (s : list Z) : Z :=
  match s with
  | c :: s => if (48 <=? c) && (c <=? 57) then atoi_digits (10 * acc + (c - 48)) s else acc
  | [] => acc
  end.

Definition isspace (c : Z) : bool := (c =? 32) || ((9 <=? c) && (c <=? 13)).

Fixpoint skip_spaces (s : list Z) : list Z :=
  match s with c :: s' => if isspace c then skip_spaces s' else s | [] => [] end.

(** Undefined outside of an [int]. *)
Definition atoi (s : list Z) : option Z :=
  let n := match skip_spaces s with
           | 45 :: s => - atoi_digits 0 s
           | 43 :: s => atoi_digits 0 s
           | s => atoi_digits 0 s
           end in
  if (- 2 ^ 31 <=? n) && (n <? 2 ^ 31) then Some n else None.

(** ** [parse_url] *)

(** The buffers and the port it leaves. *)
Record url := Url { u_input : list Z; u_host : list Z; u_port : Z; u_pathname : list Z; u_outfile : list Z }.

(** [input] moves in the array by the offset [off]; without a character [/],
    [outfile] is copied from the address 1. *)
Definition parse_url (input host pathname outfile : list Z) : option url :=
  s ← strdup input;
  p ← strrchr s 47;
  outfile ← strcpy outfile (drop (S p) s);
  let off := if starts s (str "http://") then 7%nat else if starts s (str "http:") then 5%nat else 0%nat in
  '(pathname, input) ← (match strchr (drop off s) 47 with
    | Some p => pathname ← strcpy pathname (drop (off + p) s); input ← wr input (Z.of_nat (off + p)) 0; Some (pathname, input)
    | None => pathname ← strcpy pathname (str "/"); Some (pathname, input)
    end);
  s ← strdup (drop off input);
  '(port, input) ← (match strchr s 58 with
    | Some p => input ← wr input (Z.of_nat (off + p)) 0; port ← atoi (drop (S p) s); Some (port, input)
    | None => Some (80, input)
    end);
  s ← strdup (drop off input);
  host ← strcpy host s;
  Some (Url input host port pathname outfile).

(** ** The network *)

(** [C] is the state of a connection.  An address is a number of 32 bits;
    [inet_addr] gives [INADDR_NONE] for what is not one; [gethostbyname] the
    bytes of the first address; [recv] gives [None] for a negative result. *)
Class Network (C : Type) := {
  inet_addr : list Z -> Z;
  gethostbyname : list Z -> option (list Z);
  connect : Z -> Z -> option C;
  send : C -> list Z -> C;
  recv : C -> Z -> option (list Z) * C
}.

Definition INADDR_NONE : Z := 2 ^ 32 - 1.

(** The exit code, the name of the file, and what was written to it. *)
Record result := Result { code : Z; saved_name : list Z; saved : list Z }.

(** ** [main] *)

Section Main.
Context {C : Type} `{!Network C}.

(** The loop that reads the header, byte by byte. *)
Fixpoint skip_header (fuel : nat) (fd : C) (c : Z) : option C :=
  match fuel with
  | O => None
  | S fuel =>
      match recv fd 1 with
      | (Some (b :: _), fd) =>
          if (b =? 10) && (c =? 10) then Some fd
          else if b =? 13 then skip_header fuel fd c
          else skip_header fuel fd b
      | (_, fd) => Some fd
      end
  end.

(** The loop that copies the rest; the results of [write] are dropped. *)
Fixpoint copy (fuel : nat) (fd : C) (file : list Z) : option (list Z) :=
  match fuel with
  | O => None
  | S fuel =>
      match recv fd 2000 with
      | (Some (b :: bs), fd) => copy fuel fd (file ++ b :: bs)
      | (_, fd) => Some file
      end
  end.

(** [ha] has the width of [unsigned long]. *)
Definition resolve (long_bits : Z) (host : list Z) : option (option Z) :=
  let ha := inet_addr host in
  if ha =? 2 ^ long_bits - 1 then
    match gethostbyname host with
    | None => Some None
    | Some addr => bs ← sub_bytes addr 0 (long_bits / 8); Some (Some (u32 (le_word bs)))
    end
  else Some (Some (u32 ha)).

Definition request (pathname host : list Z) : list Z :=
  str "GET " ++ pathname ++ str " HTTP/1.0" ++ [13; 10] ++ str "Host: " ++ host ++ [13; 10; 13; 10].

(** [long_bits]: the width of [long]; [arg]: the optional second argument;
    [host], [pathname], [outfile], [buf]: what the buffers hold.  A file that is
    opened and not written is empty. *)
Definition main (long_bits : Z) (fuel : nat) (arg_url : list Z) (arg : option (list Z)) (host pathname outfile buf : list Z) : option result :=
  u ← parse_url arg_url host pathname outfile;
  outfile ← strdup (default (u_outfile u) arg);
  host ← strdup (u_host u);
  pathname ← strdup (u_pathname u);
  ha ← resolve long_bits host;
  match ha with
  | None => Some (Result 0 outfile [])
  | Some s_addr =>
      match connect s_addr (u16 (u_port u)) with
      | None => Some (Result (-1) outfile [])
      | Some fd =>
          buf ← strcpy buf (request pathname host);
          req ← strdup buf;
          fd ← skip_header fuel (send fd req) 0;
          file ← copy fuel fd [];
          Some (Result 0 outfile file)
      end
  end.
End Main.

(** ** What a connection promises *)

(** [serves fd l]: the peer has [l] left to send, then closes. *)
Class Serves {C} (N : Network C) := {
  serves : C -> list Z -> Prop;
  recv_ok fd l (n : nat) :
    serves fd l -> (0 < n)%nat -> exists bs fd', recv fd (Z.of_nat n) = (Some bs, fd') /\ serves fd' (drop (length bs) l) /\
      bs = take (length bs) l /\ (length bs <= n)%nat /\ (l <> [] -> bs <> [])
}.

(** ** Searching and reading numbers *)

Lemma strchr_app a c l : Forall (fun d => d <> c) a -> strchr (a ++ c :: l) c = Some (length a).
Proof.
  induction 1 as [|d a Hd Ha IH]; cbn [app strchr]; [by rewrite Z.eqb_refl|]. destruct (Z.eqb_spec d c); [done|]. by rewrite IH.
Qed.

Lemma strchr_none a c : Forall (fun d => d <> c) a -> strchr a c = None.
Proof. induction 1 as [|d a Hd Ha IH]; cbn [strchr]; [done|]. destruct (Z.eqb_spec d c); [done|]. by rewrite IH. Qed.

Lemma strrchr_none a c : Forall (fun d => d <> c) a -> strrchr a c = None.
Proof. induction 1 as [|d a Hd Ha IH]; cbn [strrchr]; [done|]. rewrite IH. by destruct (Z.eqb_spec d c). Qed.

Lemma strrchr_app a c l : Forall (fun d => d <> c) l -> strrchr (a ++ c :: l) c = Some (length a).
Proof.
  intros Hl. induction a as [|d a IH]; cbn [app strrchr]; [by rewrite strrchr_none, Z.eqb_refl|]. by rewrite IH.
Qed.

Lemma starts_app p s : starts (p ++ s) p = true.
Proof. apply bool_decide_true. apply take_app_length. Qed.

Lemma atoi_digits_foldl l acc :
  Forall (fun c => 48 <= c <= 57) l -> atoi_digits acc l = foldl (fun a c => 10 * a + (c - 48)) acc l.
Proof.
  intros Hl. revert acc. induction Hl as [|c l Hc Hl IH]; intros acc; [done|]. cbn [atoi_digits foldl].
  destruct (Z.leb_spec 48 c), (Z.leb_spec c 57); try lia. apply IH.
Qed.

Lemma atoi_number l : l <> [] -> Forall (fun c => 48 <= c <= 57) l -> 0 <= undecimal l < 2 ^ 31 -> atoi l = Some (undecimal l).
Proof.
  intros Hne Hl Hu. destruct l as [|c l]; [done|]. unfold atoi.
  assert (E : atoi_digits 0 (c :: l) = undecimal (c :: l)) by (by apply atoi_digits_foldl).
  assert (Hc : 48 <= c <= 57) by (by apply Forall_cons in Hl as [? _]). cbn [skip_spaces].
  replace (isspace c) with false
    by (unfold isspace; destruct (Z.eqb_spec c 32), (Z.leb_spec 9 c), (Z.leb_spec c 13); done || lia).
  assert (Em : match c :: l with 45 :: s => - atoi_digits 0 s | 43 :: s => atoi_digits 0 s | s => atoi_digits 0 s end
    = undecimal (c :: l)).
  { assert (H : c = 48 \/ c = 49 \/ c = 50 \/ c = 51 \/ c = 52 \/ c = 53 \/ c = 54 \/ c = 55 \/ c = 56 \/ c = 57) by lia.
    rewrite <- E. by repeat destruct H as [->|H]; [..|subst c]. }
  rewrite Em. destruct (Z.leb_spec (- 2 ^ 31) (undecimal (c :: l))), (Z.ltb_spec (undecimal (c :: l)) (2 ^ 31)); done || lia.
Qed.

Lemma digits_cons fuel n : digits (S fuel) n <> [].
Proof. cbn [digits]. intros E. apply app_eq_nil in E as [_ ?]. done. Qed.

(** ** URLs *)

(** [:port], unless it is left out. *)
Definition port_text (port : option Z) : list Z := match port with None => [] | Some n => 58 :: decimal n end.

Definition print_url (host : list Z) (port : option Z) (path : list Z) : list Z := str "http://" ++ host ++ port_text port ++ path.

Lemma strdup_at pre s rest : Forall (fun c => c <> 0) s -> strdup (drop (length pre) (pre ++ s ++ 0 :: rest)) = Some s.
Proof. intros Hs. rewrite drop_app_length. unfold strdup. by rewrite strlen_app, some_bind, take_app_length. Qed.

Lemma wr_at (a r : list Z) v x n : length a = n -> wr (a ++ v :: r) (Z.of_nat n) x = Some (a ++ x :: r).
Proof. intros <-. apply wr_mid. Qed.

(** A character of a host name. *)
Definition host_char (c : Z) : Prop := c <> 0 /\ c <> 47 /\ c <> 58.

Lemma port_chars port : Forall (fun c => c <> 0 /\ c <> 47) (port_text port).
Proof.
  destruct port as [n|]; [|constructor]. constructor; [lia|]. eapply Forall_impl; [apply digits_range|]. simpl. lia.
Qed.

(** What [parse_url] does once the path is cut off. *)
Lemma parse_port_ok (pre host rest : list Z) port :
  Forall host_char host -> (forall n, port = Some n -> 0 <= n < 2 ^ 31) ->
  let input := pre ++ (host ++ port_text port) ++ 0 :: rest in
  exists input',
    (match strchr (host ++ port_text port) 58 with
     | Some p => input ← wr input (Z.of_nat (length pre + p)) 0; port ← atoi (drop (S p) (host ++ port_text port)); Some (port, input)
     | None => Some (80, input)
     end) = Some (default 80 port, input') /\ strdup (drop (length pre) input') = Some host.
Proof.
  intros Hh Hp input.
  assert (Hh0 : Forall (fun c => c <> 0) host) by (eapply Forall_impl; [exact Hh|]; unfold host_char; tauto).
  assert (Hh58 : Forall (fun c => c <> 58) host) by (eapply Forall_impl; [exact Hh|]; unfold host_char; tauto).
  destruct port as [n|]; cbn [port_text default] in *.
  - rewrite strchr_app by done. exists (pre ++ host ++ 0 :: decimal n ++ 0 :: rest).
    unfold input. rewrite <- app_assoc. cbn [app]. rewrite app_assoc, wr_at by (rewrite length_app; lia). rewrite some_bind.
    rewrite (cons_middle 58), app_assoc, drop_app_length' by (rewrite length_app; simpl; lia).
    specialize (Hp n eq_refl). assert (Hv : undecimal (decimal n) = n) by (apply decimal_value; unfold word; lia).
    rewrite atoi_number, some_bind, Hv, <- app_assoc by (apply digits_cons || apply digits_range || lia). split; [done|].
    by apply strdup_at.
  - unfold input. rewrite !app_nil_r, strchr_none by done. eexists. split; [done|]. by apply strdup_at.
Qed.

Lemma parse_url_ok host port path pre_path seg (bh bp bo : list Z) :
  Forall host_char host -> (forall n, port = Some n -> 0 <= n < 2 ^ 31) ->
  path = pre_path ++ 47 :: seg -> head path = Some 47 -> Forall (fun c => c <> 0) path -> Forall (fun c => c <> 47) seg ->
  (length host < length bh)%nat -> (length path < length bp)%nat -> (length seg < length bo)%nat ->
  exists u, parse_url (print_url host port path ++ [0]) bh bp bo = Some u /\ u_port u = default 80 port /\
    holds (u_host u) host (length bh) /\ holds (u_pathname u) path (length bp) /\ holds (u_outfile u) seg (length bo).
Proof.
  intros Hh Hp Epath Hhead Hz Hseg Lh Lp Lo. set (pre := str "http://").
  assert (Hh0 : Forall (fun c => c <> 0) (host ++ port_text port)).
  { apply Forall_app. split; [eapply Forall_impl; [exact Hh|]|eapply Forall_impl; [apply port_chars|]]; unfold host_char; tauto. }
  assert (Hh47 : Forall (fun c => c <> 47) (host ++ port_text port)).
  { apply Forall_app. split; [eapply Forall_impl; [exact Hh|]|eapply Forall_impl; [apply port_chars|]]; unfold host_char; tauto. }
  assert (Hpre : Forall (fun c => c <> 0) pre) by (apply (bool_decide_unpack _); vm_compute; exact I).
  set (s := print_url host port path).
  assert (Es : s = pre ++ (host ++ port_text port) ++ path) by (unfold s, print_url; by rewrite <- app_assoc).
  assert (Hs : strdup (s ++ [0]) = Some s).
  { apply (strdup_at [] s []). rewrite Es. apply Forall_app. split; [done|]. by apply Forall_app. }
  unfold parse_url. fold s. rewrite Hs, some_bind.
  assert (E1 : strrchr s 47 = Some (length (pre ++ (host ++ port_text port) ++ pre_path))).
  { rewrite Es, Epath, !app_assoc. by apply strrchr_app. }
  rewrite E1, some_bind.
  assert (E2 : drop (S (length (pre ++ (host ++ port_text port) ++ pre_path))) s = seg).
  { rewrite Es, Epath, !app_assoc, (cons_middle 47), app_assoc. apply drop_app_length'. rewrite !length_app. simpl. lia. }
  rewrite E2. assert (Hseg0 : Forall (fun c => c <> 0) seg) by (rewrite Epath in Hz; by apply Forall_app in Hz as [_ [_ ?]%Forall_cons]).
  destruct (strcpy_ok bo seg (length bo) eq_refl Hseg0 Lo) as (bo' & -> & Ho). rewrite some_bind.
  assert (E3 : starts s (str "http://") = true) by (rewrite Es; apply starts_app). rewrite E3.
  change 7%nat with (length pre).
  assert (E4 : drop (length pre) s = (host ++ port_text port) ++ path) by (rewrite Es; apply drop_app_length). rewrite E4.
  destruct path as [|c q]; [done|]. injection Hhead as ->. rewrite strchr_app by done.
  assert (E5 : drop (length pre + length (host ++ port_text port)) s = 47 :: q).
  { rewrite Es, app_assoc. apply drop_app_length'. rewrite !length_app. lia. }
  rewrite E5. destruct (strcpy_ok bp (47 :: q) (length bp) eq_refl Hz Lp) as (bp' & -> & Hbp). rewrite some_bind.
  assert (E6 : wr (s ++ [0]) (Z.of_nat (length pre + length (host ++ port_text port))) 0
    = Some (pre ++ (host ++ port_text port) ++ 0 :: q ++ [0])).
  { replace (s ++ [0]) with ((pre ++ (host ++ port_text port)) ++ 47 :: q ++ [0]) by (by rewrite Es, <- !app_assoc).
    rewrite (app_assoc pre). apply wr_at. rewrite !length_app. lia. }
  rewrite E6, !some_bind, strdup_at, some_bind by done.
  destruct (parse_port_ok pre host (q ++ [0]) port Hh Hp) as (input' & -> & E7). rewrite some_bind, E7, some_bind.
  assert (Hh1 : Forall (fun c => c <> 0) host) by (by apply Forall_app in Hh0 as [? _]).
  destruct (strcpy_ok bh host (length bh) eq_refl Hh1 Lh) as (bh' & -> & Hbh).
  eexists. split; [reflexivity|]. split; [done|]. split; [done|]. by split.
Qed.

(** ** The transfer *)

(** What follows the first line end that directly follows a line end, carriage
    returns aside, when [c] was read last. *)
Fixpoint after_header (c : Z) (l : list Z) : list Z :=
  match l with
  | [] => []
  | b :: l => if (b =? 10) && (c =? 10) then l else if b =? 13 then after_header c l else after_header b l
  end.

(** A line of a header. *)
Definition line_ok (line : list Z) : Prop := line <> [] /\ Forall (fun c => c <> 10 /\ c <> 13) line.

Definition header (lines : list (list Z)) : list Z := concat ((fun line => line ++ [13; 10]) <$> lines).

Lemma after_line c line l : line_ok line -> after_header c (line ++ [13; 10] ++ l) = after_header 10 l.
Proof.
  intros [Hne Hl]. revert c Hne. induction Hl as [|b line [Hb Hb'] Hl IH]; intros c Hne; [done|]. cbn [app after_header].
  destruct (Z.eqb_spec b 10), (Z.eqb_spec b 13); try done. cbn [andb].
  destruct line as [|b2 line]; [|by apply IH]. cbn. by destruct (Z.eqb_spec b 10).
Qed.

Lemma after_lines line lines body :
  Forall line_ok (line :: lines) -> after_header 0 (header (line :: lines) ++ [13; 10] ++ body) = body.
Proof.
  assert (H : forall ls, Forall line_ok ls -> after_header 10 (header ls ++ [13; 10] ++ body) = body).
  { induction 1 as [|l ls Hl Hls IH]; [done|]. unfold header. cbn [fmap list_fmap concat]. fold (header ls).
    rewrite <- !app_assoc, after_line by done. exact IH. }
  intros [Hl Hls]%Forall_cons. unfold header. cbn [fmap list_fmap concat]. fold (header lines).
  rewrite <- !app_assoc, after_line by done. by apply H.
Qed.

Section Transfer.
Context {C : Type} {N : Network C} {R : Serves N}.

Lemma skip_header_ok fuel fd l c :
  serves fd l -> (length l < fuel)%nat -> exists fd', skip_header fuel fd c = Some fd' /\ serves fd' (after_header c l).
Proof.
  revert fd l c. induction fuel as [|fuel IH]; intros fd l c Hs Hf; [lia|]. cbn [skip_header].
  destruct (recv_ok fd l 1 Hs ltac:(lia)) as (bs & fd' & E & Hs' & Hbs & Hle & Hne).
  change (Z.of_nat 1) with 1 in E. rewrite E. clear E.
  destruct l as [|b l]; [rewrite take_nil in Hbs; subst bs; exists fd'; by rewrite drop_nil in Hs'|].
  destruct bs as [|b' [|? ?]]; [by specialize (Hne ltac:(done))| |simpl in Hle; lia].
  cbn in Hbs, Hs'. rewrite take_0 in Hbs. injection Hbs as ->. rewrite drop_0 in Hs'. cbn [after_header].
  simpl in Hf. destruct (_ && _); [by exists fd'|]. destruct (b =? 13); apply IH; done || lia.
Qed.

Lemma copy_ok fuel fd l file : serves fd l -> (length l < fuel)%nat -> copy fuel fd file = Some (file ++ l).
Proof.
  revert fd l file. induction fuel as [|fuel IH]; intros fd l file Hs Hf; [lia|]. cbn [copy].
  destruct (recv_ok fd l (Z.to_nat 2000) Hs ltac:(lia)) as (bs & fd' & E & Hs' & Hbs & Hle & Hne).
  rewrite Z2Nat.id in E by lia. rewrite E. destruct bs as [|b bs].
  - destruct l; [by rewrite app_nil_r|]. by specialize (Hne ltac:(done)).
  - rewrite (IH _ _ _ Hs').
    + rewrite <- app_assoc. do 2 f_equal. rewrite Hbs at 1. apply take_drop.
    + rewrite length_drop. simpl in *. destruct l; [by rewrite take_nil in Hbs|simpl in *; lia].
Qed.

Lemma after_header_length c l : (length (after_header c l) <= length l)%nat.
Proof.
  revert c. induction l as [|b l IH]; intros c; [done|]. cbn [after_header length].
  pose proof (IH c). pose proof (IH b). repeat case_match; lia.
Qed.

Lemma transfer_ok fuel fd l :
  serves fd l -> (length l < fuel)%nat -> (fd ← skip_header fuel fd 0; copy fuel fd []) = Some (after_header 0 l).
Proof.
  intros Hs Hf. destruct (skip_header_ok fuel fd l 0 Hs Hf) as (fd' & -> & Hs'). rewrite some_bind.
  pose proof (after_header_length 0 l). by rewrite (copy_ok _ _ _ _ Hs') by lia.
Qed.
End Transfer.

(** ** The program *)

Section Program.
Context {C : Type} {N : Network C}.

(** The buffers of [main], and a URL whose parts fit in them. *)
Definition fits (host : list Z) (port : option Z) (path seg bh bp bo : list Z) : Prop :=
  Forall host_char host /\ (forall n, port = Some n -> 0 <= n < 2 ^ 31) /\
  (exists pre_path, path = pre_path ++ 47 :: seg) /\ head path = Some 47 /\ Forall (fun c => c <> 0) path /\
  Forall (fun c => c <> 47) seg /\
  (length host < length bh)%nat /\ (length path < length bp)%nat /\ (length seg < length bo)%nat.

Lemma main_parsed long_bits fuel host port path seg bh bp bo buf :
  fits host port path seg bh bp bo ->
  main long_bits fuel (print_url host port path ++ [0]) None bh bp bo buf =
    (ha ← resolve long_bits host;
     match ha with
     | None => Some (Result 0 seg [])
     | Some s_addr =>
         match connect s_addr (u16 (default 80 port)) with
         | None => Some (Result (-1) seg [])
         | Some fd =>
             buf ← strcpy buf (request path host);
             req ← strdup buf;
             fd ← skip_header fuel (send fd req) 0;
             file ← copy fuel fd [];
             Some (Result 0 seg file)
         end
     end).
Proof.
  intros (Hh & Hp & (pre_path & Epath) & Hhead & Hz & Hseg & Lh & Lp & Lo). unfold main.
  destruct (parse_url_ok host port path pre_path seg bh bp bo) as (u & -> & Ep & H1 & H2 & H3); try done.
  rewrite some_bind. cbn [default]. by rewrite (strdup_ok _ _ _ H3), (strdup_ok _ _ _ H1), (strdup_ok _ _ _ H2), !some_bind, Ep.
Qed.

Lemma request_nz host path :
  Forall host_char host -> Forall (fun c => c <> 0) path -> Forall (fun c => c <> 0) (request path host).
Proof.
  intros Hh Hp. assert (Hh0 : Forall (fun c => c <> 0) host) by (eapply Forall_impl; [exact Hh|]; unfold host_char; tauto).
  unfold request.
  assert (Hc : forall s, bool_decide (Forall (fun c => c <> 0) s) = true -> Forall (fun c => c <> 0) s) by (intros s; apply bool_decide_eq_true_1).
  repeat (apply Forall_app; split); try done; apply Hc; vm_compute; reflexivity.
Qed.

(** Where [long] has 64 bits, a host that is not an address in numbers is not
    looked up: the connection is made to the address 255.255.255.255. *)
Lemma names_not_resolved fuel host port path seg bh bp bo buf :
  fits host port path seg bh bp bo -> inet_addr host = INADDR_NONE -> connect INADDR_NONE (u16 (default 80 port)) = None ->
  main 64 fuel (print_url host port path ++ [0]) None bh bp bo buf = Some (Result (-1) seg []).
Proof.
  intros Hf Ha Hc. rewrite (main_parsed _ _ _ _ _ seg) by done. unfold resolve. rewrite Ha. change (INADDR_NONE =? 2 ^ 64 - 1) with false.
  cbv iota. rewrite some_bind. change (u32 INADDR_NONE) with INADDR_NONE. by rewrite Hc.
Qed.
End Program.

(** A URL without the character [/] is read through a null pointer. *)
Lemma no_slash s bh bp bo : Forall (fun c => c <> 0 /\ c <> 47) s -> parse_url (s ++ [0]) bh bp bo = None.
Proof.
  intros Hs. unfold parse_url.
  assert (E : strdup (s ++ [0]) = Some s) by (apply (strdup_at [] s []); eapply Forall_impl; [exact Hs|]; simpl; tauto).
  rewrite E, some_bind.
  by rewrite strrchr_none by (eapply Forall_impl; [exact Hs|]; simpl; tauto).
Qed.

(** The downloader given a URL whose host is an address in numbers connects
    to that address and port, and whatever the pieces that the answer comes in,
    it saves what follows the header of the answer under the last name of the
    path, as long as host, path, name and request fit in their buffers. *)
Theorem wget_saves {C} {N : Network C} {R : Serves N} long_bits fuel host port path seg bh bp bo buf fd line lines body :
  fits host port path seg bh bp bo -> word 32 (inet_addr host) -> inet_addr host <> 2 ^ long_bits - 1 ->
  (length (request path host) < length buf)%nat ->
  connect (inet_addr host) (u16 (default 80 port)) = Some fd ->
  let answer := header (line :: lines) ++ [13; 10] ++ body in
  Forall line_ok (line :: lines) -> serves (send fd (request path host)) answer -> (length answer < fuel)%nat ->
  main long_bits fuel (print_url host port path ++ [0]) None bh bp bo buf = Some (Result 0 seg body).
Proof.
  intros Hf Hw Hn Hb Hc answer Hl Hs Hfuel. rewrite (main_parsed _ _ _ _ _ seg) by done. unfold resolve.
  destruct (Z.eqb_spec (inet_addr host) (2 ^ long_bits - 1)); [done|]. rewrite some_bind, u32_id, Hc by done.
  destruct Hf as (Hh & _ & _ & _ & Hz & _).
  destruct (strcpy_ok buf (request path host) (length buf) eq_refl (request_nz host path Hh Hz) Hb) as (buf' & -> & Hbuf).
  rewrite some_bind, (strdup_ok _ _ _ Hbuf), some_bind.
  pose proof (transfer_ok fuel _ _ Hs Hfuel) as E. destruct (skip_header _ _ _) as [fd'|]; [|done].
  cbn [mbind option_bind] in E |- *. rewrite E. unfold answer. by rewrite after_lines.
Qed.

(** ** A server that answers in pieces of at most [burst + 1] bytes *)

Record site := Site { left : list Z; burst : nat }.

Definition answer : list Z := header [str "HTTP/1.0 200 OK"; str "Server: x"] ++ [13; 10] ++ str "data".

#[export] Instance SiteNetwork : Network site := {
  inet_addr host := if bool_decide (host = str "10.0.0.1") then 16777226 else INADDR_NONE;
  gethostbyname host := Some [10; 0; 0; 1];
  connect addr port := if (addr =? 16777226) && (port =? 8080) then Some (Site [] 2) else None;
  send fd req := if bool_decide (req = request (str "/a/b.txt") (str "10.0.0.1")) then Site answer 2 else fd;
  recv fd n :=
    let bs := take (Nat.min (Z.to_nat n) (S (burst fd))) (left fd) in
    (Some bs, Site (drop (length bs) (left fd)) (burst fd))
}.

#[export] Instance SiteServes : Serves SiteNetwork.
Proof.
  refine {| serves fd l := left fd = l |}. intros fd l n <- Hn. cbn. rewrite Nat2Z.id. eexists _, _. split; [done|]. split; [done|].
  set (k := Nat.min n (S (burst fd))). split; [|split].
  - destruct (Nat.le_gt_cases k (length (left fd))).
    + by rewrite length_take, Nat.min_l by lia.
    + by rewrite !take_ge by lia.
  - rewrite length_take. unfold k. lia.
  - intros Hl. destruct (left fd); [done|]. unfold k. destruct n; [lia|]. done.
Defined.

Lemma wget_saves_witness :
  main 64 200 (str "http://10.0.0.1:8080/a/b.txt" ++ [0]) None (replicate 256 0) (replicate 4096 0) (replicate 256 0) (replicate 2000 0)
  = Some (Result 0 (str "b.txt") (str "data")).
Proof.
  apply (wget_saves 64 200 (str "10.0.0.1") (Some 8080) (str "/a/b.txt") (str "b.txt") (replicate 256 0) (replicate 4096 0)
    (replicate 256 0) (replicate 2000 0) (Site [] 2) (str "HTTP/1.0 200 OK") [str "Server: x"] (str "data")).
  - split; [apply (Forall_impl (fun c => 1 <= c < 47 \/ 48 <= c < 58)); [closed|unfold host_char; lia]|].
    split; [intros n [= <-]; lia|]. split; [by exists (str "/a")|]. split; [reflexivity|].
    split; [closed|]. split; [closed|].
    split; [|split]; apply Nat.ltb_lt; vm_compute; reflexivity.
  - split; [discriminate|reflexivity].
  - discriminate.
  - apply Nat.ltb_lt. vm_compute. reflexivity.
  - reflexivity.
  - constructor; [|constructor; [|constructor]]; (split; [discriminate|closed]).
  - vm_compute. reflexivity.
  - apply Nat.ltb_lt. vm_compute. reflexivity.
Defined.
End Wget.
