(* ===== verification/Sui.v ===== *)
(** * Secure identification: signatures

    The functions of mldonkey at the end of [src/src/utils/lib/CryptoPP.cc], which
    sign and check the messages by which two eDonkey clients identify each other,
    and their stubs in [CryptoPP_stubs.c].  The library that the rest of the file
    contains is a parameter ([CryptoPP]); what is relied on of it is in [Signs]
    and [Quiet]. *)

From Stdlib Require Import ZArith Lia String.
From stdpp Require Import base option numbers list.
From S2P Require Import Prelude Os CString.
Import CString.

Local Open Scope Z_scope.

Module Sui.

(** ** The library *)

(** [K]: private keys, as signers; [P]: public keys, as verifiers.  [inl] is an
    exception, with the text of its [what]. *)
Class CryptoPP (K P : Type) := {
  generate_key : Z -> list Z + list Z;
  new_signer : list Z -> list Z + K;
  public_der : K -> list Z;
  sign_message : K -> list Z -> list Z + list Z;
  new_verifier : list Z -> list Z + P;
  verify_message : P -> list Z -> list Z -> list Z + bool
}.

(** ** The state: the static variables *)

(** [s_signer]: null, a signer, or a pointer to a signer that was deleted. *)
Inductive signer (K : Type) := Null | Live (k : K) | Deleted.
Arguments Null {K}.
Arguments Live {K} k.
Arguments Deleted {K}.

Definition MAXPUBKEYSIZE : Z := 80.
Definition PRIVKEYSIZE : Z := 384.

Record crypto (K : Type) := Crypto { s_signer : signer K; m_publicKey : list Z; m_publicKeyLen : Z }.
Arguments Crypto {K} _ _ _.
Arguments s_signer {K} _.
Arguments m_publicKey {K} _.
Arguments m_publicKeyLen {K} _.

Definition crypto_init {K} : crypto K := Crypto Null (replicate (Z.to_nat (MAXPUBKEYSIZE + 1)) 0) 0.

(** A string of OCaml, passed where C takes a text: its bytes up to the first 0. *)
Definition String_val (s : list Z) : list Z := s ++ [0].
Definition c_text (s : list Z) : list Z := default [] (strdup (String_val s)).

(** [char buf[256] = prefix; strcat(buf, e.what())] *)
Definition report (prefix : string) (what : list Z) : io unit :=
  _ ← mem (strcat (str prefix ++ replicate (256 - length (str prefix)) 0) what); Ret ().

(** An [ArraySink] of [size] bytes at the start of [dst]: it writes what fits, and
    counts everything. *)
Definition array_sink (dst : list Z) (size : Z) (bytes : list Z) : io (list Z * Z) :=
  dst ← mem (blit dst 0 (take (Z.to_nat size) bytes)); Ret (dst, Z.of_nat (length bytes)).

(** Whatever the macro [ENDIAN_SWAP_32] is, the bytes are written from the lowest. *)
Definition PokeUInt32 (p : list Z) (off nVal : Z) : io (list Z) := mem (blit p off (le_bytes 4 nVal)).
Definition PokeUInt8 (p : list Z) (off nVal : Z) : io (list Z) := mem (blit p off [nVal]).

Section Functions.
Context {K P : Type} `{!CryptoPP K P} (junk : Z).

(** A local array. *)
Definition uninit (n : Z) : list Z := replicate (Z.to_nat n) junk.

(** The buffer of the caller holds the text of the key; or what it held before,
    after an exception. *)
Definition createKey (buf : list Z) : io (list Z) :=
  match generate_key PRIVKEYSIZE with
  | inr myString => mem (blit buf 0 (myString ++ [0]))
  | inl what => _ ← report "[CryptoPP] createKey: " what; Ret buf
  end.

Definition ml_createKey : io (list Z) := buf ← createKey (uninit 4096); mem (strdup buf).

(** [delete s_signer] *)
Definition delete_signer (s : signer K) : io (signer K) :=
  match s with Null => Ret Null | Live _ => Ret Deleted | Deleted => Undefined end.

(** Nothing calls it. *)
Definition crypto_exit (c : crypto K) : io (crypto K) :=
  s ← delete_signer (s_signer c); Ret (Crypto s (m_publicKey c) (m_publicKeyLen c)).

(** The state, the buffer of the caller, and the length of the key. *)
Definition loadKey (c : crypto K) (privateKeyBase64 buf : list Z) : io (crypto K * list Z * Z) :=
  text ← mem (strdup privateKeyBase64);
  s ← delete_signer (s_signer c);
  match new_signer text with
  | inl what => _ ← report "[CryptoPP] loadKey: " what; Ret (Crypto s (m_publicKey c) (m_publicKeyLen c), buf, 0)
  | inr k =>
      '(pub, len) ← array_sink (m_publicKey c) 80 (public_der k);
      key ← mem (sub_bytes pub 0 len);
      buf ← mem (blit buf 0 (key ++ [0]));
      Ret (Crypto (Live k) pub len, buf, len)
  end.

Definition ml_loadKey (c : crypto K) (privatekey : list Z) : io (crypto K * list Z) :=
  '(c, buf, len) ← loadKey c (String_val privatekey) (uninit 4096);
  res ← mem (sub_bytes buf 0 len);
  Ret (c, res).

(** What is signed, put together in [bArray]. *)
Definition fill_array (key : list Z) (keyLen cInt ipType ip : Z) : io (list Z) :=
  seg ← mem (sub_bytes key 0 keyLen);
  bArray ← mem (blit (uninit (MAXPUBKEYSIZE + 9)) 0 seg);
  bArray ← PokeUInt32 bArray keyLen cInt;
  '(bArray, extra) ← (
    if negb (ipType =? 0) then
      bArray ← PokeUInt32 bArray (keyLen + 4) ip;
      bArray ← PokeUInt8 bArray (keyLen + 4 + 4) ipType;
      Ret (bArray, 5)
    else Ret (bArray, 0));
  mem (sub_bytes bArray 0 (keyLen + 4 + extra)).

Definition createSignature (c : crypto K) (buf : list Z) (maxLen : Z) (key : list Z) (keyLen cInt ipType ip : Z) : io (list Z * Z) :=
  match s_signer c with
  | Null => Ret (buf, 0)
  | Deleted => Undefined
  | Live k =>
      m ← fill_array key keyLen cInt ipType ip;
      match sign_message k m with
      | inl what => _ ← report "[CryptoPP] createSignature: " what; Ret (buf, 0)
      | inr sBB => array_sink buf maxLen sBB
      end
  end.

(** [Int_val], [Int64_val] and the parameters of C cut the numbers. *)
Definition ml_createSignature (c : crypto K) (m_key : list Z) (m_keyLen m_cInt m_ipType m_ip : Z) : io (list Z) :=
  '(buf, len) ← createSignature c (uninit 4096) 200 m_key (s32 m_keyLen) (u32 m_cInt) (u8 m_ipType) (u32 m_ip);
  mem (sub_bytes buf 0 len).

Definition verifySignature (c : crypto K) (key sig : list Z) (cInt ipType ip : Z) : io bool :=
  match new_verifier key with
  | inl what => _ ← report "[CryptoPP] verifySignature: " what; Ret false
  | inr pubKey =>
      m ← fill_array (m_publicKey c) (m_publicKeyLen c) cInt ipType ip;
      match verify_message pubKey m sig with
      | inl what => _ ← report "[CryptoPP] verifySignature: " what; Ret false
      | inr result => Ret result
      end
  end.

Definition ml_verifySignature (c : crypto K) (m_key : list Z) (m_keyLen : Z) (m_sig : list Z) (m_sigLen m_cInt m_ipType m_ip : Z) : io bool :=
  key ← mem (sub_bytes m_key 0 (s32 m_keyLen));
  sig ← mem (sub_bytes m_sig 0 (s32 m_sigLen));
  verifySignature c key sig (u32 m_cInt) (u8 m_ipType) (u32 m_ip).
End Functions.

(** ** What is relied on *)

(** A signature of a key is accepted under its public key. *)
Class Signs {K P} (CP : CryptoPP K P) := {
  verify_signed k m sig : sign_message k m = inr sig ->
    exists p, new_verifier (public_der k) = inr p /\ verify_message p m sig = inr true
}.

(** The texts of exceptions, and signatures, are not long. *)
Class Quiet {K P} (CP : CryptoPP K P) := {
  what_sign k m w : sign_message k m = inl w -> (length w < 200)%nat;
  what_verifier key w : new_verifier key = inl w -> (length w < 200)%nat;
  what_verify p m sig w : verify_message p m sig = inl w -> (length w < 200)%nat;
  signature_length k m sig : sign_message k m = inr sig -> (length sig <= 200)%nat
}.

(** ** What is signed *)

(** The key, the challenge, and the address when there is one. *)
Definition message (key : list Z) (cInt ipType ip : Z) : list Z :=
  key ++ le_bytes 4 cInt ++ (if ipType =? 0 then [] else le_bytes 4 ip ++ [ipType]).

(** For one key, the message tells the challenge and the address. *)
Lemma message_inj key c t ip c' t' ip' :
  word 32 c -> word 32 c' -> word 32 ip -> word 32 ip' ->
  message key c t ip = message key c' t' ip' -> c = c' /\ t = t' /\ (t <> 0 -> ip = ip').
Proof.
  intros Hc Hc' Hi Hi' E%app_inv_head.
  assert (Hle : forall v v', word 32 v -> word 32 v' -> le_bytes 4 v = le_bytes 4 v' -> v = v').
  { intros v v' Hv Hv' Ev%(f_equal le_word). rewrite !le_word_bytes in Ev. unfold word in *.
    change (8 * Z.of_nat 4) with 32 in Ev. by rewrite !Z.mod_small in Ev. }
  apply app_inj_1 in E as [Ec E]; [|done]. split; [by apply Hle|].
  destruct (Z.eqb_spec t 0) as [->|Ht], (Z.eqb_spec t' 0) as [->|Ht']; try done.
  apply app_inj_1 in E as [Ei E]; [|done]. injection E as <-. split; [done|]. intros _. by apply Hle.
Qed.

Lemma blit_end (a r b : list Z) :
  (length b <= length r)%nat -> blit (a ++ r) (Z.of_nat (length a)) b = Some (a ++ b ++ drop (length b) r).
Proof.
  intros H. rewrite blit_in by (rewrite length_app; lia). by rewrite take_app_length, drop_app_add.
Qed.

Lemma blit_start (r b : list Z) : (length b <= length r)%nat -> blit r 0 b = Some (b ++ drop (length b) r).
Proof. exact (blit_end [] r b). Qed.

Lemma blit_over (dst b : list Z) off : Z.of_nat (length dst) < off + Z.of_nat (length b) -> blit dst off b = None.
Proof. intros H. unfold blit. destruct (_ && _) eqn:E; [|done]. apply andb_prop in E as [_ E]. apply Z.leb_le in E. lia. Qed.

Section Facts.
Context {K P : Type} {CP : CryptoPP K P} (junk : Z).

Definition extra (ipType : Z) : nat := if ipType =? 0 then 0%nat else 5%nat.

Lemma extra_le ipType : (extra ipType <= 5)%nat.
Proof. unfold extra. destruct (_ =? _); lia. Qed.

Lemma fill_array_ok key (n : nat) cInt ipType ip :
  (n <= length key)%nat -> (n + 4 + extra ipType <= 89)%nat ->
  fill_array junk key (Z.of_nat n) cInt ipType ip = Ret (message (take n key) cInt ipType ip).
Proof.
  intros Hn Hle. unfold fill_array, PokeUInt32, PokeUInt8, message. rewrite sub_bytes_0, mem_some, bind_ret by done.
  set (seg := take n key). assert (Hs : length seg = n) by (unfold seg; rewrite length_take; lia). rewrite <- Hs.
  set (u := uninit junk (MAXPUBKEYSIZE + 9)). assert (Hu : length u = 89%nat) by (unfold u, uninit; by rewrite length_replicate).
  rewrite blit_start, mem_some, bind_ret by lia.
  rewrite blit_end, mem_some, bind_ret by (rewrite !le_bytes_length, !length_drop; lia). rewrite le_bytes_length, drop_drop.
  unfold extra in Hle. destruct (Z.eqb_spec ipType 0) as [->|Ht]; cbn [negb].
  - rewrite bind_ret. replace (Z.of_nat (length seg) + 4 + 0) with (Z.of_nat (length (seg ++ le_bytes 4 cInt)))
      by (rewrite length_app, le_bytes_length; lia).
    rewrite app_assoc, sub_bytes_0, take_app_length, mem_some by (rewrite !length_app; lia). by rewrite app_nil_r.
  - rewrite app_assoc. replace (Z.of_nat (length seg) + 4) with (Z.of_nat (length (seg ++ le_bytes 4 cInt)))
      by (rewrite length_app, le_bytes_length; lia).
    rewrite blit_end, mem_some, bind_ret by (rewrite !le_bytes_length, !length_drop; lia). rewrite le_bytes_length, drop_drop.
    rewrite app_assoc. replace (Z.of_nat (length (seg ++ le_bytes 4 cInt)) + 4) with (Z.of_nat (length ((seg ++ le_bytes 4 cInt) ++ le_bytes 4 ip)))
      by (rewrite !length_app, !le_bytes_length; lia).
    rewrite blit_end, mem_some, bind_ret by (rewrite length_drop; cbn [length]; lia). rewrite bind_ret. cbn [length].
    rewrite app_assoc. replace (Z.of_nat (length (seg ++ le_bytes 4 cInt)) + 5)
      with (Z.of_nat (length (((seg ++ le_bytes 4 cInt) ++ le_bytes 4 ip) ++ [ipType]))) by (rewrite !length_app, !le_bytes_length; cbn [length]; lia).
    rewrite sub_bytes_0, take_app_length, mem_some by (rewrite !length_app; lia). by rewrite <- !app_assoc.
Qed.

(** A longer key is written past the end of [bArray]. *)
Lemma fill_array_over key (n : nat) cInt ipType ip :
  (n <= length key)%nat -> (89 < n + 4 + extra ipType)%nat -> fill_array junk key (Z.of_nat n) cInt ipType ip = Undefined.
Proof.
  intros Hn Hgt. unfold fill_array, PokeUInt32, PokeUInt8. rewrite sub_bytes_0, mem_some, bind_ret by done.
  set (seg := take n key). assert (Hs : length seg = n) by (unfold seg; rewrite length_take; lia).
  set (u := uninit junk (MAXPUBKEYSIZE + 9)). assert (Hu : length u = 89%nat) by (unfold u, uninit; by rewrite length_replicate).
  destruct (decide (n <= 89)%nat) as [H1|H1]; [|by rewrite blit_over by lia].
  rewrite blit_start, mem_some, bind_ret by lia. rewrite <- Hs.
  destruct (decide (n <= 85)%nat) as [H2|H2];
    [|rewrite blit_over; [done|rewrite !length_app, length_drop, le_bytes_length; lia]].
  rewrite blit_end, mem_some, bind_ret by (rewrite le_bytes_length, length_drop; lia).
  unfold extra in Hgt. destruct (Z.eqb_spec ipType 0) as [->|Ht]; [lia|]. cbn [negb].
  destruct (decide (n <= 81)%nat) as [H3|H3].
  - rewrite app_assoc. replace (Z.of_nat (length seg) + 4) with (Z.of_nat (length (seg ++ le_bytes 4 cInt)))
      by (rewrite length_app, le_bytes_length; lia).
    rewrite blit_end, mem_some, bind_ret by (rewrite !le_bytes_length, !length_drop; lia).
    rewrite blit_over; [done|]. rewrite !length_app, !length_drop, !le_bytes_length. cbn [length]. lia.
  - rewrite blit_over; [done|]. rewrite !length_app, !length_drop, !le_bytes_length. cbn [length]. lia.
Qed.
Lemma report_ok prefix what :
  Forall (fun c => c <> 0) (str prefix) -> (length (str prefix) + length what < 256)%nat -> report prefix what = Ret ().
Proof.
  intros Hp Hl. unfold report, strcat. destruct (256 - length (str prefix))%nat as [|n] eqn:En; [lia|]. cbn [replicate].
  rewrite strlen_app, some_bind, blit_end, mem_some by (done || rewrite ?length_app; cbn [length]; rewrite ?length_replicate; lia). done.
Qed.

Lemma s32_length {A} (l : list A) : Z.of_nat (length l) < 2 ^ 31 -> s32 (Z.of_nat (length l)) = Z.of_nat (length l).
Proof. intros H. unfold s32. rewrite Z.mod_small by lia. lia. Qed.

(** The key [k] is loaded. *)
Definition loaded (k : K) (c : crypto K) : Prop :=
  s_signer c = Live k /\ (length (public_der k) <= 80)%nat /\ m_publicKeyLen c = Z.of_nat (length (public_der k)) /\
  exists rest, m_publicKey c = public_der k ++ rest /\ length (m_publicKey c) = 81%nat.

Lemma strdup_String_val s : strdup (String_val s) = Some (c_text s).
Proof. unfold c_text, String_val. by destruct (strdup_total s) as [t ->]. Qed.

Lemma ml_loadKey_ok c text k :
  s_signer c <> Deleted -> length (m_publicKey c) = 81%nat -> new_signer (c_text text) = inr k -> (length (public_der k) <= 80)%nat ->
  exists c', ml_loadKey junk c text = Ret (c', public_der k) /\ loaded k c'.
Proof.
  intros Hs Hm Hk Hl. unfold ml_loadKey, loadKey, array_sink. rewrite strdup_String_val, mem_some, bind_ret. set (pub := public_der k) in *.
  assert (Hdel : exists s, delete_signer (s_signer c) = Ret s) by (destruct (s_signer c); [by eexists..|done]).
  destruct Hdel as [s ->]. rewrite bind_ret, Hk. fold pub. rewrite take_ge by lia.
  rewrite blit_start, mem_some, !bind_ret, sub_bytes_0, take_app_length, mem_some, bind_ret by (rewrite ?length_app; lia).
  assert (Hu : length (uninit junk 4096) = Z.to_nat 4096) by (unfold uninit; by rewrite length_replicate).
  rewrite blit_start, mem_some, !bind_ret by (rewrite length_app; cbn [length]; lia). rewrite <- app_assoc.
  rewrite sub_bytes_0, take_app_length, mem_some, bind_ret by (rewrite !length_app; lia).
  eexists. split; [done|]. split; [done|]. split; [done|]. split; [done|]. eexists. split; [done|].
  cbn [m_publicKey]. rewrite length_app, length_drop. lia.
Qed.

(** A text that is not a key: the state keeps the signer that was deleted. *)
Lemma ml_loadKey_bad c text what :
  s_signer c <> Deleted -> new_signer (c_text text) = inl what -> (length what < 200)%nat ->
  ml_loadKey junk c text = Ret (Crypto (match s_signer c with Null => Null | _ => Deleted end) (m_publicKey c) (m_publicKeyLen c), []).
Proof.
  intros Hs Hk Hl. unfold ml_loadKey, loadKey. rewrite strdup_String_val, mem_some, bind_ret, Hk.
  destruct (s_signer c); [| |done]; cbn [delete_signer]; rewrite bind_ret, report_ok by (closed || (cbn; lia)); done.
Qed.

Lemma createSignature_ok `{!Quiet CP} k c key cInt ipType ip :
  loaded k c -> (length key + 4 + extra (u8 ipType) <= 89)%nat ->
  ml_createSignature junk c key (Z.of_nat (length key)) cInt ipType ip =
    Ret (match sign_message k (message key (u32 cInt) (u8 ipType) (u32 ip)) with inr sig => sig | inl _ => [] end).
Proof.
  intros (Hk & _) Hl. unfold ml_createSignature, createSignature. rewrite s32_length, Hk by lia.
  rewrite fill_array_ok, take_ge, bind_ret by lia. set (m := message _ _ _ _).
  assert (Hu : length (uninit junk 4096) = Z.to_nat 4096) by (unfold uninit; by rewrite length_replicate).
  destruct (sign_message k m) as [w|sig] eqn:Es.
  - apply what_sign in Es. rewrite report_ok by (closed || (cbn; lia)). done.
  - apply signature_length in Es. unfold array_sink. rewrite take_ge by lia.
    rewrite blit_start, mem_some, !bind_ret, sub_bytes_0, take_app_length, mem_some by (rewrite ?length_app; lia). done.
Qed.

Lemma createSignature_over k c key cInt ipType ip :
  s_signer c = Live k -> Z.of_nat (length key) < 2 ^ 31 -> (89 < length key + 4 + extra (u8 ipType))%nat ->
  ml_createSignature junk c key (Z.of_nat (length key)) cInt ipType ip = Undefined.
Proof.
  intros Hk Hs Hl. unfold ml_createSignature, createSignature. rewrite s32_length, Hk by done. by rewrite fill_array_over by lia.
Qed.

(** Whether the library accepts the signature of this message. *)
Definition accepts (key m sig : list Z) : bool :=
  match new_verifier key with
  | inl _ => false
  | inr p => match verify_message p m sig with inl _ => false | inr b => b end
  end.

Lemma verifySignature_ok `{!Quiet CP} k c key sig cInt ipType ip :
  loaded k c -> Z.of_nat (length key) < 2 ^ 31 -> Z.of_nat (length sig) < 2 ^ 31 ->
  ml_verifySignature junk c key (Z.of_nat (length key)) sig (Z.of_nat (length sig)) cInt ipType ip =
    Ret (accepts key (message (public_der k) (u32 cInt) (u8 ipType) (u32 ip)) sig).
Proof.
  intros (_ & Hl & Hlen & rest & Hm & _) Hk Hs. unfold ml_verifySignature, verifySignature, accepts.
  rewrite !s32_length, !sub_bytes_0, !mem_some, !bind_ret, !take_ge by done.
  destruct (new_verifier key) as [w|p] eqn:Ep; [apply what_verifier in Ep; rewrite report_ok by (closed || (cbn; lia)); done|].
  rewrite Hm, Hlen, fill_array_ok, take_app_length, bind_ret
    by (pose proof (extra_le (u8 ipType)); rewrite ?length_app; lia).
  destruct (verify_message p (message (public_der k) (u32 cInt) (u8 ipType) (u32 ip)) sig) as [w|b] eqn:Ev; [apply what_verify in Ev; rewrite report_ok by (closed || (cbn; lia)); done|done].
Qed.
End Facts.

(** ** Properties *)

(** C10: for clients whose keys are loaded, what [createSignature] signs for the
    key of the other one, a challenge and an address, [verifySignature] accepts
    there with the key of the signer; and under one key no other challenge or
    address gives the same message. *)
Theorem signature_accepted {K P} {CP : CryptoPP K P} `{!Signs CP, !Quiet CP} junk k k' c c' cInt ipType ip sig :
  loaded k c -> loaded k' c' -> sign_message k (message (public_der k') (u32 cInt) (u8 ipType) (u32 ip)) = inr sig ->
  ml_createSignature junk c (public_der k') (Z.of_nat (length (public_der k'))) cInt ipType ip = Ret sig /\
  ml_verifySignature junk c' (public_der k) (Z.of_nat (length (public_der k))) sig (Z.of_nat (length sig)) cInt ipType ip = Ret true /\
  forall cInt2 ipType2 ip2, message (public_der k') (u32 cInt2) (u8 ipType2) (u32 ip2) = message (public_der k') (u32 cInt) (u8 ipType) (u32 ip) ->
    u32 cInt2 = u32 cInt /\ u8 ipType2 = u8 ipType /\ (u8 ipType <> 0 -> u32 ip2 = u32 ip).
Proof.
  intros Hc Hc' Hsig. pose proof Hc as (_ & Hl & _). pose proof Hc' as (_ & Hl' & _). pose proof (signature_length _ _ _ Hsig) as Hls.
  split; [|split].
  - rewrite (createSignature_ok junk k) by (done || pose proof (extra_le (u8 ipType)); lia). by rewrite Hsig.
  - rewrite (verifySignature_ok junk k') by (done || lia). unfold accepts.
    destruct (verify_signed k _ sig Hsig) as (p & -> & ->). done.
  - intros c2 t2 i2 E. destruct (message_inj _ _ _ _ _ _ _ (u32_range c2) (u32_range cInt) (u32_range i2) (u32_range ip) E) as (E1 & E2 & E3).
    split; [done|]. split; [done|]. intros Ht. apply E3. congruence.
Qed.

(** A text that is not a key, loaded after a key, leaves a pointer to the
    deleted signer: the next signature, and the next key to be loaded, use it. *)
Theorem bad_key_dangles {K P} {CP : CryptoPP K P} junk k c text what :
  loaded k c -> new_signer (c_text text) = inl what -> (length what < 200)%nat ->
  exists c', ml_loadKey junk c text = Ret (c', []) /\
    (forall key keyLen cInt ipType ip, ml_createSignature junk c' key keyLen cInt ipType ip = Undefined) /\
    (forall text', ml_loadKey junk c' text' = Undefined).
Proof.
  intros (Hk & _) Hb Hl. eexists. split; [rewrite (ml_loadKey_bad junk c text what) by (done || rewrite Hk; done); rewrite Hk; done|].
  split; [done|]. intros text'. unfold ml_loadKey, loadKey. by rewrite strdup_String_val.
Qed.

(** *** A library: a key is its text, and a signature a checksum *)

Definition checksum (key m : list Z) : Z := foldl (fun h b => (31 * h + b) mod 65521) 1 (key ++ m).

#[export] Instance Toy : CryptoPP (list Z) (list Z) := {
  generate_key bits := inr [77; 73; 73; 66];
  new_signer text := match text with 77 :: 73 :: 73 :: 66 :: 33 :: _ => inl (str "BER decode error") | 77 :: k => inr k | _ => inl (str "BER decode error") end;
  public_der k := 48 :: k;
  sign_message k m := inr (le_bytes 2 (checksum (48 :: k) m));
  new_verifier key := match key with 48 :: k => inr (48 :: k) | _ => inl (str "BER decode error") end;
  verify_message p m sig := inr (bool_decide (sig = le_bytes 2 (checksum p m)))
}.

#[export] Instance ToySigns : Signs Toy.
Proof. constructor. intros k m sig [= <-]. eexists. split; [reflexivity|]. cbn. by rewrite bool_decide_true. Defined.

#[export] Instance ToyQuiet : Quiet Toy.
Proof.
  constructor.
  - done.
  - intros key w E. assert (w = str "BER decode error") as ->.
    { destruct key as [|b key]; [by injection E as <-|]. cbn in E. repeat (case_match; try discriminate E; try by injection E as <-). }
    closed.
  - done.
  - intros k m sig [= <-]. cbn [length]. lia.
Defined.

Definition toy_loaded (k : list Z) : crypto (list Z) :=
  Crypto (Live k) (48 :: k ++ replicate (80 - length k) 0) (Z.of_nat (S (length k))).

Lemma toy_loaded_ok k : (length k <= 79)%nat -> loaded k (toy_loaded k).
Proof.
  intros Hk. split; [done|]. split; [cbn; lia|]. split; [done|]. eexists. split; [done|]. cbn. rewrite length_app, length_replicate. lia.
Qed.

Lemma signature_accepted_witness :
  let key := public_der (CryptoPP := Toy) [3; 4] in
  let peer := public_der (CryptoPP := Toy) [1; 2] in
  let sig := le_bytes 2 (checksum peer (message key (u32 7) (u8 10) (u32 0x0100007F))) in
  ml_createSignature 9 (toy_loaded [1; 2]) key (Z.of_nat (length key)) 7 10 0x0100007F = Ret sig /\
  ml_verifySignature 9 (toy_loaded [3; 4]) peer (Z.of_nat (length peer)) sig (Z.of_nat (length sig)) 7 10 0x0100007F = Ret true /\
  forall cInt2 ipType2 ip2, message key (u32 cInt2) (u8 ipType2) (u32 ip2) = message key (u32 7) (u8 10) (u32 0x0100007F) ->
    u32 cInt2 = u32 7 /\ u8 ipType2 = u8 10 /\ (u8 10 <> 0 -> u32 ip2 = u32 0x0100007F).
Proof.
  intros key peer sig.
  exact (signature_accepted 9 [1; 2] [3; 4] (toy_loaded [1; 2]) (toy_loaded [3; 4]) 7 10 0x0100007F sig
    (toy_loaded_ok [1; 2] ltac:(simpl; lia)) (toy_loaded_ok [3; 4] ltac:(simpl; lia)) eq_refl).
Defined.

Lemma bad_key_dangles_witness :
  exists c', ml_loadKey 9 (toy_loaded [1; 2]) [0] = Ret (c', []) /\
    (forall key keyLen cInt ipType ip, ml_createSignature 9 c' key keyLen cInt ipType ip = Undefined) /\
    (forall text', ml_loadKey 9 c' text' = Undefined).
Proof.
  apply (bad_key_dangles 9 [1; 2] (toy_loaded [1; 2]) [0] (str "BER decode error")); [|reflexivity|closed].
  apply toy_loaded_ok. simpl. lia.
Defined.

End Sui.
