(* ===== verification/SuiClient.v ===== *)
(** * Secure identification: the exchange

    The packets of [src/src/networks/donkey/donkeyProtoClient.ml] by which two
    eDonkey clients identify each other, their handlers in [donkeyClient.ml], and
    the system of two clients and two connections.  The signatures are those of
    [Sui]. *)

From Stdlib Require Import ZArith Lia.
From stdpp Require Import base option numbers list relations.
From S2P Require Import Prelude Os Sui.
Import Sui.

Local Open Scope Z_scope.

Module SuiClient.

(** ** Packets *)

Inductive msg :=
| EmuleSecIdentStateReq (state challenge : Z)
| EmulePublicKeyReq (key : list Z)
| EmuleSignatureReq (signature : list Z) (ip_type : Z).

Definition buf_int8 (i : Z) : list Z := [Z.land i 255].
Definition buf_int64_8 (i : Z) : list Z := [Z.land i 0xff].
Definition buf_int64_32 (i : Z) : list Z :=
  buf_int64_8 i ++ buf_int64_8 (Z.shiftr i 8) ++ buf_int64_8 (Z.shiftr i 16) ++ buf_int64_8 (Z.shiftr i 24).
Definition buf_estring (s : list Z) : list Z := buf_int8 (Z.of_nat (length s)) ++ s.

Definition write (m : msg) : list Z :=
  match m with
  | EmuleSecIdentStateReq state challenge => buf_int8 0x87 ++ buf_int8 state ++ buf_int64_32 challenge
  | EmuleSignatureReq signature ip_type =>
      buf_int8 0x86 ++ buf_estring signature ++ (if negb (ip_type =? 0) then buf_int8 ip_type else [])
  | EmulePublicKeyReq key => buf_int8 0x85 ++ buf_estring key
  end.

(** [check_string] and [String.sub] raise out of the string. *)
Definition get_uint8 (s : list Z) (pos : Z) : io Z := match rd s pos with Some c => Ret c | None => Unix_error end.
Definition string_sub (s : list Z) (pos len : Z) : io (list Z) := match sub_bytes s pos len with Some l => Ret l | None => Unix_error end.

Definition get_uint64_32 (s : list Z) (pos : Z) : io Z :=
  c1 ← get_uint8 s pos;
  c2 ← get_uint8 s (pos + 1);
  c3 ← get_uint8 s (pos + 2);
  c4 ← get_uint8 s (pos + 3);
  Ret (Z.shiftl c4 24 + (c1 + Z.shiftl c2 8 + Z.shiftl c3 16)).

(** [None]: a packet of another kind. *)
Definition parse (s : list Z) : io (option msg) :=
  opcode ← get_uint8 s 0;
  if opcode =? 0x85 then
    len ← get_uint8 s 1; key ← string_sub s 2 len; Ret (Some (EmulePublicKeyReq key))
  else if opcode =? 0x86 then
    mlen ← get_uint8 s 1;
    signature ← string_sub s 2 mlen;
    ip_type ← (if mlen =? Z.of_nat (length s) - 2 then Ret 0 else get_uint8 s (2 + mlen));
    Ret (Some (EmuleSignatureReq signature ip_type))
  else if opcode =? 0x87 then
    state ← get_uint8 s 1; challenge ← get_uint64_32 s 2; Ret (Some (EmuleSecIdentStateReq state challenge))
  else Ret None.

(** The packets of the exchange; of the packets that carry the extended protocol
    only the version of secure identification that they announce. *)
Inductive packet := Packet (s : list Z) | EmuleClientInfoReq (secident : Z) | EmuleClientInfoReplyReq (secident : Z).

(** ** The other client, as seen by a client *)

(** Numbers of [Int64] are boxed, and [==] compares the boxes: of the challenge that
    was sent, [None] is the constant [Int64.zero] and [Some v] another box. *)

Record client := Client {
  client_public_key : option (list Z);
  client_req_challenge : Z;
  client_sent_challenge : option Z;
  client_sui_verified : option bool;
  emule_secident : Z;
  has_md4 : bool
}.

Definition fresh : client := Client None 0 None None 0 true.

Definition sent_value (c : client) : Z := default 0 (client_sent_challenge c).

(** What the handlers read: the option, the version announced, the own high
    identifier or 0, the addresses of the connection, and whether the source of
    the client is connected. *)
Record env := Env {
  sec_ident_enabled : bool;
  own_secident : Z;
  high_id : Z;
  peer_ip : Z;
  my_ip : Z;
  connected : bool
}.

Record host (K : Type) := Host { h_crypto : crypto K; own_public_key : list Z; h_client : client }.
Arguments Host {K} _ _ _.
Arguments h_crypto {K} _.
Arguments own_public_key {K} _.
Arguments h_client {K} _.

(** The identifier 0 is the constant [Int64.zero]; no high identifier is 0. *)
Definition get_ip_and_type (e : env) : Z * Z :=
  let ip := high_id e in
  let ip_type := if ip =? 0 then 0 else 20 in
  if ip_type =? 0 then if connected e then (peer_ip e, 10) else (ip, ip_type) else (ip, ip_type).

Definition has_pubkey (c : client) : bool := match client_public_key c with None => false | Some _ => true end.
Definition get_pubkey (c : client) : list Z := match client_public_key c with None => [] | Some s => s end.

(** [challenge] is what [Random.int64] gives. *)
Definition verify_ident (challenge : Z) (c : client) : client * list packet :=
  let state := if has_pubkey c then 1 else 2 in
  (Client (client_public_key c) (client_req_challenge c) (Some challenge) (client_sui_verified c) (emule_secident c) (has_md4 c),
   [Packet (write (EmuleSecIdentStateReq state challenge))]).

Section Handlers.
Context {K P : Type} `{!CryptoPP K P} (junk : Z).

Definition send_signature (e : env) (h : host K) : io (list packet) :=
  let c := h_client h in
  if has_pubkey c then
    let '(ip, ip_type) := if emule_secident c =? 2 then get_ip_and_type e else (0, 0) in
    let pubkey := get_pubkey c in
    signature ← ml_createSignature junk (h_crypto h) pubkey (Z.of_nat (length pubkey)) (client_req_challenge c) ip_type ip;
    Ret [Packet (write (EmuleSignatureReq signature ip_type))]
  else Ret [].

Definition send_public_key (h : host K) : list packet := [Packet (write (EmulePublicKeyReq (own_public_key h)))].

Definition set_client (h : host K) (c : client) : host K := Host (h_crypto h) (own_public_key h) c.

(** [secident]: what [update_emule_proto_from_tags] finds. *)
Definition process_mule_info (e : env) (challenge : Z) (h : host K) (secident : Z) : host K * list packet :=
  let c := h_client h in
  let c := Client (client_public_key c) (client_req_challenge c) (client_sent_challenge c) (client_sui_verified c) secident (has_md4 c) in
  if sec_ident_enabled e && has_md4 c && bool_decide (client_sent_challenge c = None) && (0 <? emule_secident c) then
    let '(c, out) := verify_ident challenge c in (set_client h c, out)
  else (set_client h c, []).

(** The address that a signature is checked against. *)
Definition check_address (e : env) (c : client) (ip_type : Z) : Z * Z :=
  if (1 <? emule_secident c) && negb (ip_type =? 0) then
    (if ip_type =? 20 then peer_ip e else if high_id e =? 0 then my_ip e else high_id e, ip_type)
  else (0, 0).

Definition signature_req (e : env) (h : host K) (signature : list Z) (t_ip_type : Z) : io (host K * list packet) :=
  if sec_ident_enabled e then
    let c := h_client h in
    let '(id, ip_type) := check_address e c t_ip_type in
    let pubKey := get_pubkey c in
    verified ← ml_verifySignature junk (h_crypto h) pubKey (Z.of_nat (length pubKey)) signature (Z.of_nat (length signature))
      (sent_value c) ip_type id;
    Ret (set_client h (Client (client_public_key c) (client_req_challenge c) None (Some verified) (emule_secident c) (has_md4 c)), [])
  else Ret (h, []).

Definition set_key (c : client) (key : option (list Z)) : client :=
  Client key (client_req_challenge c) (client_sent_challenge c) (client_sui_verified c) (emule_secident c) (has_md4 c).

Definition public_key_req (e : env) (h : host K) (t : list Z) : io (host K * list packet) :=
  if sec_ident_enabled e then
    let c := h_client h in
    match client_public_key c with
    | Some s => Ret (if negb (bool_decide (s = t)) then set_client h (set_key c None) else h, [])
    | None =>
        let h := set_client h (set_key c (Some t)) in
        out ← (if negb (client_req_challenge c =? 0) then send_signature e h else Ret []);
        Ret (h, out)
    end
  else Ret (h, []).

Definition sec_ident_state_req (e : env) (rnd : Z) (h : host K) (state challenge : Z) : io (host K * list packet) :=
  if sec_ident_enabled e then
    let c := h_client h in
    let c := Client (client_public_key c) challenge (client_sent_challenge c) (client_sui_verified c) (emule_secident c) (has_md4 c) in
    let '(c, out1) := if negb (has_pubkey c) && (sent_value c =? 0) then verify_ident rnd c else (c, []) in
    let h := set_client h c in
    let out2 := if state =? 2 then send_public_key h else [] in
    out3 ← (if has_pubkey c then send_signature e h else Ret []);
    Ret (h, out1 ++ out2 ++ out3)
  else Ret (h, []).

(** [client_to_client], for these packets. *)
Definition handle (e : env) (rnd : Z) (h : host K) (p : packet) : io (host K * list packet) :=
  match p with
  | EmuleClientInfoReq secident =>
      let '(h, out) := process_mule_info e rnd h secident in Ret (h, out ++ [EmuleClientInfoReplyReq (own_secident e)])
  | EmuleClientInfoReplyReq secident => Ret (process_mule_info e rnd h secident)
  | Packet s =>
      m ← parse s;
      match m with
      | Some (EmuleSignatureReq signature ip_type) => signature_req e h signature ip_type
      | Some (EmulePublicKeyReq key) => public_key_req e h key
      | Some (EmuleSecIdentStateReq state challenge) => sec_ident_state_req e rnd h state challenge
      | None => Ret (h, [])
      end
  end.

(** A client and whatever is sent to it, with the random number of each turn; an
    exception, which only [parse] raises, leaves it as it was. *)
Fixpoint run (e : env) (h : host K) (ps : list (Z * packet)) : io (host K) :=
  match ps with
  | [] => Ret h
  | (rnd, p) :: ps =>
      match handle e rnd h p with
      | Ret (h, _) => run e h ps
      | Unix_error => run e h ps
      | Undefined => Undefined
      end
  end.

(** *** Two clients *)

Record sys := Sys { host_a : host K; host_b : host K; to_a : list packet; to_b : list packet }.

Inductive step (ea eb : env) (ra rb : Z) : sys -> sys -> Prop :=
| deliver_a ha hb p qa qb ha' out :
    handle ea ra ha p = Ret (ha', out) -> step ea eb ra rb (Sys ha hb (p :: qa) qb) (Sys ha' hb qa (qb ++ out))
| deliver_b ha hb p qa qb hb' out :
    handle eb rb hb p = Ret (hb', out) -> step ea eb ra rb (Sys ha hb qa (p :: qb)) (Sys ha hb' (qa ++ out) qb).
End Handlers.

(** ** Packets *)

Definition msg_ok (m : msg) : Prop :=
  match m with
  | EmuleSecIdentStateReq state challenge => word 8 state /\ word 32 challenge
  | EmulePublicKeyReq key => (length key < 256)%nat
  | EmuleSignatureReq signature ip_type => (length signature < 256)%nat /\ word 8 ip_type
  end.

Lemma land_255 b : word 8 b -> Z.land b 255 = b.
Proof. intros Hb. change 255 with (Z.ones 8). rewrite Z.land_ones by lia. by apply Z.mod_small. Qed.

Lemma get_uint8_at a b l : get_uint8 (a ++ b :: l) (Z.of_nat (length a)) = Ret b.
Proof. unfold get_uint8. by rewrite rd_mid. Qed.

Lemma get_uint8_0 b l : get_uint8 (b :: l) 0 = Ret b.
Proof. exact (get_uint8_at [] b l). Qed.

Lemma get_uint8_1 a b l : get_uint8 (a :: b :: l) 1 = Ret b.
Proof. exact (get_uint8_at [a] b l). Qed.

Lemma string_sub_at a s l : string_sub (a ++ s ++ l) (Z.of_nat (length a)) (Z.of_nat (length s)) = Ret s.
Proof. unfold string_sub. rewrite sub_bytes_in by (rewrite !length_app; lia). by rewrite drop_app_length, take_app_length. Qed.

Lemma buf_int64_32_le i : buf_int64_32 i = le_bytes 4 i.
Proof. unfold buf_int64_32, buf_int64_8. cbn [le_bytes app]. by rewrite !Z.shiftr_shiftr by lia. Qed.

Lemma get_uint64_32_ok a v : word 32 v -> get_uint64_32 (a ++ le_bytes 4 v) (Z.of_nat (length a)) = Ret v.
Proof.
  intros Hv. pose proof (le_word_bytes 4 v) as Ev. pose proof (le_bytes_word 4 v) as Hw. rewrite Z.mod_small in Ev by exact Hv.
  destruct (le_bytes 4 v) as [|c1 [|c2 [|c3 [|c4 [|? ?]]]]] eqn:El; try discriminate El. clear El.
  apply Forall_cons in Hw as [H1 Hw]. apply Forall_cons in Hw as [H2 Hw]. apply Forall_cons in Hw as [H3 Hw]. apply Forall_cons in Hw as [H4 _].
  unfold get_uint64_32. rewrite get_uint8_at, bind_ret.
  assert (Hnext : forall x y (l : list Z), get_uint8 (x ++ y ++ l) (Z.of_nat (length x) + Z.of_nat (length y)) = get_uint8 ((x ++ y) ++ l) (Z.of_nat (length (x ++ y)))).
  { intros x y l. by rewrite app_assoc, length_app, Nat2Z.inj_add. }
  pose proof (Hnext a [c1] [c2; c3; c4]) as E1. pose proof (Hnext a [c1; c2] [c3; c4]) as E2. pose proof (Hnext a [c1; c2; c3] [c4]) as E3.
  cbn [length app] in E1, E2, E3. rewrite get_uint8_at in E1, E2, E3.
  change (Z.of_nat 1) with 1 in E1. change (Z.of_nat 2) with 2 in E2. change (Z.of_nat 3) with 3 in E3.
  rewrite E1, bind_ret, E2, bind_ret, E3, bind_ret, !Z.shiftl_mul_pow2 by lia. f_equal. rewrite <- Ev, !le_word_cons by done.
  cbn [le_word]. change (2 ^ 8) with 256. change (2 ^ 16) with 65536. change (2 ^ 24) with 16777216. lia.
Qed.

Lemma string_sub_2 a b s l : string_sub (a :: b :: s ++ l) 2 (Z.of_nat (length s)) = Ret s.
Proof. exact (string_sub_at [a; b] s l). Qed.

(** What is written is read back. *)
Lemma parse_write m : msg_ok m -> parse (write m) = Ret (Some m).
Proof.
  assert (Hlen : forall l : list Z, (length l < 256)%nat -> Z.land (Z.of_nat (length l)) 255 = Z.of_nat (length l)).
  { intros l Hl. apply land_255. unfold word. lia. }
  destruct m as [state challenge|key|signature ip_type]; unfold parse, write, buf_estring, buf_int8; cbn [app];
    [intros [Hs Hc]; rewrite (land_255 state) by done|intros Hk; rewrite Hlen by done|intros [Hs Ht]; rewrite Hlen by done];
    rewrite get_uint8_0, bind_ret;
    change (Z.land 135 255) with 135; change (Z.land 133 255) with 133; change (Z.land 134 255) with 134;
    cbn [Z.eqb Pos.eqb]; rewrite get_uint8_1, bind_ret.
  - rewrite buf_int64_32_le. change (Z.land 135 255) with 135. pose proof (get_uint64_32_ok [135; state] challenge Hc) as E. cbn [length app] in E.
    change (Z.of_nat 2) with 2 in E. by rewrite E.
  - pose proof (string_sub_2 133 (Z.of_nat (length key)) key []) as E. rewrite app_nil_r in E. by rewrite E.
  - rewrite string_sub_2, bind_ret. destruct (Z.eqb_spec ip_type 0) as [->|Hne]; cbn [negb length]; rewrite length_app; cbn [length].
    + rewrite (proj2 (Z.eqb_eq _ _)) by lia. done.
    + rewrite (proj2 (Z.eqb_neq _ _)) by lia. rewrite (land_255 ip_type) by done.
      pose proof (get_uint8_at (134 :: Z.of_nat (length signature) :: signature) ip_type []) as E1. cbn [app length] in E1.
      replace (Z.of_nat (S (S (length signature)))) with (2 + Z.of_nat (length signature)) in E1 by lia. by rewrite E1.
Qed.

(** Texts that are read are shorter than 256 bytes. *)
Lemma parse_short s m : Forall (word 8) s -> parse s = Ret (Some m) ->
  match m with EmulePublicKeyReq l | EmuleSignatureReq l _ => (length l < 256)%nat | _ => True end.
Proof.
  intros Hs E. assert (Hrd : forall pos b, get_uint8 s pos = Ret b -> word 8 b).
  { unfold get_uint8. intros pos b E1. destruct (rd s pos) as [c|] eqn:Er; [|done]. injection E1 as <-. by eapply rd_Forall. }
  assert (Hsub : forall n l, word 8 n -> string_sub s 2 n = Ret l -> (length l < 256)%nat).
  { unfold string_sub. intros n l Hn E1. destruct (sub_bytes s 2 n) as [l'|] eqn:Er; [|done]. injection E1 as <-.
    apply sub_bytes_length in Er. unfold word in Hn. change (2 ^ 8) with 256 in Hn. lia. }
  unfold parse in E. destruct (get_uint8 s 0) as [op| |]; [|done..]. cbn [mbind io_bind] in E.
  destruct (op =? 0x85); [|destruct (op =? 0x86); [|destruct (op =? 0x87); [|done]]].
  - destruct (get_uint8 s 1) as [n| |] eqn:En; [|done..]. cbn [mbind io_bind] in E.
    destruct (string_sub s 2 n) as [l| |] eqn:El; [|done..]. injection E as <-. eauto.
  - destruct (get_uint8 s 1) as [n| |] eqn:En; [|done..]. cbn [mbind io_bind] in E.
    destruct (string_sub s 2 n) as [l| |] eqn:El; [|done..]. cbn [mbind io_bind] in E.
    destruct (if n =? _ then _ else _) as [t| |]; [|done..]. injection E as <-. eauto.
  - destruct (get_uint8 s 1) as [n| |] eqn:En; [|done..]. cbn [mbind io_bind] in E.
    destruct (get_uint64_32 s 2) as [n2| |]; [|done..]. by injection E as <-.
Qed.

(** ** A client and an arbitrary peer *)

Definition bytes_packet (p : packet) : Prop := match p with Packet s => Forall (word 8) s | _ => True end.

(** The keys that a packet announces are of at most [n] bytes. *)
Definition keys_within (n : nat) (p : packet) : Prop :=
  match p with Packet s => forall key, parse s = Ret (Some (EmulePublicKeyReq key)) -> (length key <= n)%nat | _ => True end.

Definition key_within (n : nat) (c : client) : Prop := forall s, client_public_key c = Some s -> (length s <= n)%nat.

Lemma get_pubkey_within n c : key_within n c -> (length (get_pubkey c) <= n)%nat.
Proof. unfold key_within, get_pubkey. destruct (client_public_key c) as [s|]; [auto|cbn; lia]. Qed.

(** A challenge that was sent is a random number of an earlier turn. *)
Definition sent_within (rnds : list Z) (c : client) : Prop := forall v, client_sent_challenge c = Some v -> v ∈ rnds.

Section Facts.
Context {K P : Type} {CP : CryptoPP K P} `{!Quiet CP} (junk : Z).
Implicit Types h : host K.

(** The signature of a short key is made; only that of a long one is not. *)
Lemma send_signature_cases k n e h :
  loaded k (h_crypto h) -> (n <= 255)%nat -> key_within n (h_client h) ->
  (exists out, send_signature junk e h = Ret out) \/ (send_signature junk e h = Undefined /\ (80 < n)%nat).
Proof.
  intros Hk Hn Hl%get_pubkey_within. unfold send_signature. destruct (has_pubkey (h_client h)); [|left; by eexists].
  destruct (if emule_secident _ =? 2 then _ else _) as [ip t]. pose proof (extra_le (u8 t)).
  destruct (decide (length (get_pubkey (h_client h)) + 4 + extra (u8 t) <= 89)%nat).
  - rewrite (createSignature_ok junk k) by done. left. by eexists.
  - destruct Hk as (Hk & _). rewrite (createSignature_over junk k) by (done || lia). right. split; [done|lia].
Qed.

(** A handler is defined while the recorded key is short, and keeps the keys. *)
Definition keeps (n : nat) (rnds : list Z) h (r : io (host K * list packet)) : Prop :=
  match r with
  | Ret (h', _) => h_crypto h' = h_crypto h /\ own_public_key h' = own_public_key h /\
      key_within n (h_client h') /\ sent_within rnds (h_client h')
  | Unix_error => True
  | Undefined => (80 < n)%nat
  end.

Lemma process_mule_info_keeps n rnds e rnd h secident :
  key_within n (h_client h) -> sent_within rnds (h_client h) ->
  keeps n (rnd :: rnds) h (Ret (process_mule_info e rnd h secident)).
Proof.
  intros Hk Hr. unfold process_mule_info, set_client, verify_ident. destruct (_ && _ && _ && _); cbn; repeat split; try done.
  - intros v [= <-]. left.
  - intros v Hv. right. by apply Hr.
Qed.

Lemma signature_req_eq k e h sig t :
  loaded k (h_crypto h) -> key_within 255 (h_client h) -> (length sig < 256)%nat -> sec_ident_enabled e = true ->
  signature_req junk e h sig t =
    let c := h_client h in
    let '(id, ip_type) := check_address e c t in
    let verified := accepts (get_pubkey c) (message (public_der k) (u32 (sent_value c)) (u8 ip_type) (u32 id)) sig in
    Ret (set_client h (Client (client_public_key c) (client_req_challenge c) None (Some verified) (emule_secident c) (has_md4 c)), []).
Proof.
  intros Hk Hl%get_pubkey_within Hs He. unfold signature_req. rewrite He. cbn zeta. destruct (check_address e (h_client h) t) as [id ty].
  by rewrite (verifySignature_ok junk k), bind_ret by (done || lia).
Qed.

Lemma key_within_le n n' c : (n <= n')%nat -> key_within n c -> key_within n' c.
Proof. intros Hn H s Hs. specialize (H s Hs). lia. Qed.

(** An exception of [parse] is one of OCaml, never undefined. *)
Lemma parse_defined s : parse s <> Undefined.
Proof.
  assert (Hbind : forall A B (x : io A) (f : A -> io B), x <> Undefined -> (forall a, f a <> Undefined) -> (x ≫= f) <> Undefined).
  { intros A B x f Hx Hf. destruct x; [by apply Hf|done..]. }
  assert (Hget : forall pos, get_uint8 s pos <> Undefined) by (intros pos; unfold get_uint8; by destruct (rd s pos)).
  assert (Hsub : forall n, string_sub s 2 n <> Undefined) by (intros n; unfold string_sub; by destruct (sub_bytes s 2 n)).
  unfold parse, get_uint64_32.
  repeat first [done | apply Hget | apply Hsub | apply Hbind; [|intros ?] | case_match].
Qed.

Lemma set_client_keeps n rnds h c out :
  key_within n c -> sent_within rnds c -> keeps n rnds h (Ret (set_client h c, out)).
Proof. done. Qed.

Lemma public_key_req_keeps k n e rnds h key :
  loaded k (h_crypto h) -> (n <= 255)%nat -> key_within n (h_client h) -> sent_within rnds (h_client h) -> (length key <= n)%nat ->
  keeps n rnds h (public_key_req junk e h key).
Proof.
  intros Hk Hn Hl Hr Hkey. unfold public_key_req. destruct (sec_ident_enabled e); [|done].
  destruct (client_public_key (h_client h)) as [s|] eqn:Es; [case_match; [by apply set_client_keeps|done]|].
  set (h' := set_client h (set_key (h_client h) (Some key))).
  assert (Hl' : key_within n (h_client h')) by (intros s [= <-]; done).
  case_match; [|by apply set_client_keeps].
  destruct (send_signature_cases k n e h') as [[out Hout]|[Hout Hgt]]; [done..| |]; rewrite Hout; [by apply set_client_keeps|done].
Qed.

Lemma sec_ident_state_req_keeps k n e rnd rnds h state challenge :
  loaded k (h_crypto h) -> (n <= 255)%nat -> key_within n (h_client h) -> sent_within rnds (h_client h) ->
  keeps n (rnd :: rnds) h (sec_ident_state_req junk e rnd h state challenge).
Proof.
  intros Hk Hn Hl Hr. assert (Hr' : sent_within (rnd :: rnds) (h_client h)) by (intros v Hv; right; by apply Hr).
  unfold sec_ident_state_req. destruct (sec_ident_enabled e); [|done]. cbv zeta. set (c1 := Client _ challenge _ _ _ _).
  assert (H : exists c out, (if negb (has_pubkey c1) && (sent_value c1 =? 0) then verify_ident rnd c1 else (c1, [])) = (c, out) /\
    key_within n c /\ sent_within (rnd :: rnds) c).
  { case_match; [|by eexists _, _]. unfold verify_ident. eexists _, _. split; [done|]. split; [done|]. intros v [= <-]. left. }
  destruct H as (c & out & -> & Hkc & Hrc). cbv beta iota.
  destruct (has_pubkey c); [|by apply set_client_keeps].
  destruct (send_signature_cases k n e (set_client h c)) as [[out' Hout]|[Hout Hgt]]; [done..| |]; rewrite Hout; [by apply set_client_keeps|done].
Qed.

Lemma handle_keeps k n e rnd rnds h p :
  loaded k (h_crypto h) -> (n <= 255)%nat -> key_within n (h_client h) -> sent_within rnds (h_client h) ->
  bytes_packet p -> keys_within n p -> keeps n (rnd :: rnds) h (handle junk e rnd h p).
Proof.
  intros Hk Hn Hl Hr Hb Hp. assert (Hr' : sent_within (rnd :: rnds) (h_client h)) by (intros v Hv; right; by apply Hr).
  destruct p as [s|secident|secident]; unfold handle.
  - pose proof (parse_defined s) as Hdef. destruct (parse s) as [[m|]| |] eqn:Em; [|done..]. rewrite bind_ret.
    pose proof (parse_short s m Hb Em) as Hshort. destruct m as [state challenge|key|sig t].
    + by apply (sec_ident_state_req_keeps k).
    + apply (public_key_req_keeps k); [done..|]. by apply Hp.
    + destruct (sec_ident_enabled e) eqn:He; [|unfold signature_req; by rewrite He].
      rewrite (signature_req_eq k) by (done || by eapply key_within_le; [|done]; lia). cbn zeta.
      destruct (check_address e (h_client h) t) as [id ty]. by apply set_client_keeps.
  - pose proof (process_mule_info_keeps n rnds e rnd h secident Hl Hr) as H.
    destruct (process_mule_info e rnd h secident) as [h' out]. exact H.
  - by apply process_mule_info_keeps.
Qed.

Lemma run_cons e h rnd p ps :
  run junk e h ((rnd, p) :: ps) =
    match handle junk e rnd h p with Ret (h', _) => run junk e h' ps | Unix_error => run junk e h ps | Undefined => Undefined end.
Proof. done. Qed.

Lemma run_app e h ps qs :
  run junk e h (ps ++ qs) = match run junk e h ps with Ret h' => run junk e h' qs | Unix_error => Unix_error | Undefined => Undefined end.
Proof.
  revert h. induction ps as [|[rnd p] ps IH]; intros h; [done|]. cbn [app]. rewrite !run_cons.
  destruct (handle junk e rnd h p) as [[h' out]| |]; auto.
Qed.

Lemma sent_within_mono rnds rnds' c : (forall v, v ∈ rnds -> v ∈ rnds') -> sent_within rnds c -> sent_within rnds' c.
Proof. intros Hsub H v Hv. apply Hsub. by apply H. Qed.

(** A run of packets whose keys are within [n] bytes. *)
Lemma run_keeps k n e : (n <= 255)%nat -> forall ps rnds h,
  loaded k (h_crypto h) -> key_within n (h_client h) -> sent_within rnds (h_client h) ->
  Forall (fun rp => bytes_packet rp.2 /\ keys_within n rp.2) ps ->
  match run junk e h ps with
  | Ret h' => h_crypto h' = h_crypto h /\ key_within n (h_client h') /\ sent_within (rnds ++ map fst ps) (h_client h')
  | Unix_error => False
  | Undefined => (80 < n)%nat
  end.
Proof.
  intros Hn. induction ps as [|[rnd p] ps IH]; intros rnds h Hk Hl Hr Hps; [cbn [run map]; by rewrite app_nil_r|].
  apply Forall_cons in Hps as [[Hb Hp] Hps]. rewrite run_cons.
  pose proof (handle_keeps k n e rnd rnds h p Hk Hn Hl Hr Hb Hp) as H.
  assert (Hall : forall h', h_crypto h' = h_crypto h -> key_within n (h_client h') -> sent_within (rnd :: rnds) (h_client h') ->
    match run junk e h' ps with
    | Ret h'' => h_crypto h'' = h_crypto h /\ key_within n (h_client h'') /\ sent_within (rnds ++ rnd :: map fst ps) (h_client h'')
    | Unix_error => False
    | Undefined => (80 < n)%nat
    end).
  { intros h' E Hl' Hr'. assert (Hk' : loaded k (h_crypto h')) by by rewrite E. specialize (IH (rnd :: rnds) h' Hk' Hl' Hr' Hps).
    destruct (run junk e h' ps) as [h''| |]; [|done..]. rewrite <- E. destruct IH as (E2 & Hl2 & Hr2). split; [done|]. split; [done|].
    eapply sent_within_mono; [|exact Hr2]. intros v. rewrite !elem_of_app, !elem_of_cons. tauto. }
  destruct (handle junk e rnd h p) as [[h' out]| |]; [|apply Hall; [done..|]|exact H].
  - destruct H as (E & _ & Hl' & Hr'). by apply Hall.
  - eapply sent_within_mono; [|exact Hr]. intros v Hv. by right.
Qed.

(** A packet with a signature, which the library accepts under the recorded key, of
    the own key, the challenge that was sent and the address. *)
Definition signs_challenge (k : K) (e : env) (c : client) (p : packet) : Prop :=
  exists s sig t, p = Packet s /\ parse s = Ret (Some (EmuleSignatureReq sig t)) /\
    let '(id, ip_type) := check_address e c t in
    accepts (get_pubkey c) (message (public_der k) (u32 (sent_value c)) (u8 ip_type) (u32 id)) sig = true.

Lemma handle_verified k e rnd h p h' out :
  loaded k (h_crypto h) -> key_within 255 (h_client h) -> bytes_packet p ->
  handle junk e rnd h p = Ret (h', out) -> client_sui_verified (h_client h') = Some true ->
  client_sui_verified (h_client h) = Some true \/ signs_challenge k e (h_client h) p.
Proof.
  intros Hk Hl Hb E Hv. destruct p as [s|secident|secident]; unfold handle in E.
  - destruct (parse s) as [[m|]| |] eqn:Em; [rewrite bind_ret in E|by injection E as <- <-; left|done..].
    pose proof (parse_short s m Hb Em) as Hshort. destruct m as [state challenge|key|sig t].
    + left. unfold sec_ident_state_req in E. destruct (sec_ident_enabled e); [|by injection E as <- <-]. cbv zeta in E.
      assert (Hc : forall (b : bool) c c' o, (if b then verify_ident rnd c else (c, [])) = (c', o) -> client_sui_verified c' = client_sui_verified c).
      { intros b c c' o Eb. destruct b; by injection Eb as <- <-. }
      destruct (if _ && _ then _ else _) as [c o] eqn:Ec. apply Hc in Ec.
      destruct (if has_pubkey c then _ else _) as [o'| |]; [|done..]. injection E as <- <-. by rewrite <- Hv.
    + left. unfold public_key_req in E. destruct (sec_ident_enabled e); [|by injection E as <- <-].
      destruct (client_public_key (h_client h)); [injection E as <- <-; by case_match|].
      destruct (if negb _ then _ else _) as [o'| |]; [|done..]. by injection E as <- <-.
    + destruct (sec_ident_enabled e) eqn:He; [|left; unfold signature_req in E; rewrite He in E; by injection E as <- <-].
      rewrite (signature_req_eq k) in E by done. cbn zeta in E. right. exists s, sig, t. split; [done|]. split; [done|].
      destruct (check_address e (h_client h) t) as [id ty]. injection E as <- <-. cbn in Hv. by injection Hv.
  - left. unfold process_mule_info, set_client, verify_ident in E. destruct (_ && _ && _ && _); by injection E as <- <-.
  - left. unfold process_mule_info, set_client, verify_ident in E. destruct (_ && _ && _ && _); by injection E as <- <-.
Qed.
Lemma bytes_keys p : bytes_packet p -> keys_within 255 p.
Proof. destruct p as [s| |]; [|done..]. intros Hb key E. pose proof (parse_short s _ Hb E). cbn in *. lia. Qed.

Lemma run_bytes k e ps h :
  loaded k (h_crypto h) -> key_within 255 (h_client h) -> sent_within [] (h_client h) -> Forall (fun rp => bytes_packet rp.2) ps ->
  match run junk e h ps with
  | Ret h' => h_crypto h' = h_crypto h /\ key_within 255 (h_client h') /\ sent_within (map fst ps) (h_client h')
  | Unix_error => False
  | Undefined => True
  end.
Proof.
  intros Hk Hl Hr Hps. assert (Hall : Forall (fun rp => bytes_packet rp.2 /\ keys_within 255 rp.2) ps).
  { eapply Forall_impl; [exact Hps|]. intros rp Hb. split; [done|]. by apply bytes_keys. }
  pose proof (run_keeps k 255 e ltac:(lia) ps [] h Hk Hl Hr Hall) as H. by destruct (run junk e h ps).
Qed.

Lemma fresh_within n : key_within n fresh /\ sent_within [] fresh.
Proof. done. Qed.
End Facts.

(** ** Properties *)

(** C9: whatever bytes a peer sends, a client is verified only after a packet with a
    signature that the library accepts, under the key recorded for that client at
    that moment, of the own public key, the challenge and the address; and the
    challenge is 0, when none is outstanding, or a random number drawn before. *)
Theorem verified_by_signature {K P} {CP : CryptoPP K P} `{!Quiet CP} junk k e (h h' : host K) ps :
  loaded k (h_crypto h) -> h_client h = fresh -> Forall (fun rp => bytes_packet rp.2) ps ->
  run junk e h ps = Ret h' -> client_sui_verified (h_client h') = Some true ->
  exists ps1 rnd p ps2 h1, ps = ps1 ++ (rnd, p) :: ps2 /\ run junk e h ps1 = Ret h1 /\ signs_challenge k e (h_client h1) p /\
    (client_sent_challenge (h_client h1) = None \/ exists v, client_sent_challenge (h_client h1) = Some v /\ v ∈ map fst ps1).
Proof.
  intros Hk Hf. revert h'. induction ps as [|[rnd p] ps IH] using rev_ind; intros h' Hps E Hv.
  - injection E as <-. by rewrite Hf in Hv.
  - apply Forall_app in Hps as [Hps [Hp _]%Forall_cons]. rewrite run_app in E.
    assert (Hfw : key_within 255 (h_client h) /\ sent_within [] (h_client h)) by (rewrite Hf; apply fresh_within).
    pose proof (run_bytes junk k e ps h Hk (proj1 Hfw) (proj2 Hfw) Hps) as H.
    destruct (run junk e h ps) as [h1| |] eqn:E1; [|done..]. destruct H as (Hc & Hl1 & Hr1). rewrite run_cons in E.
    assert (Hold : client_sui_verified (h_client h1) = Some true -> exists ps1 rnd' p' ps2 h1', ps ++ [(rnd, p)] = ps1 ++ (rnd', p') :: ps2 /\
      run junk e h ps1 = Ret h1' /\ signs_challenge k e (h_client h1') p' /\
      (client_sent_challenge (h_client h1') = None \/ exists v, client_sent_challenge (h_client h1') = Some v /\ v ∈ map fst ps1)).
    { intros Hv1. destruct (IH h1 Hps eq_refl Hv1) as (ps1 & r1 & p1 & ps2 & h2 & -> & H2). exists ps1, r1, p1, (ps2 ++ [(rnd, p)]), h2.
      split; [by rewrite <- app_assoc|done]. }
    destruct (handle junk e rnd h1 p) as [[h2 out]| |] eqn:Eh; [|injection E as <-; by apply Hold|done]. injection E as <-.
    assert (Hk1 : loaded k (h_crypto h1)) by by rewrite Hc.
    destruct (handle_verified junk k e rnd h1 p h2 out Hk1 Hl1 Hp Eh Hv) as [Hv1|Hsig]; [by apply Hold|].
    exists ps, rnd, p, [], h1. split; [done|]. split; [done|]. split; [done|].
    destruct (client_sent_challenge (h_client h1)) as [v|] eqn:Es; [right|by left]. exists v. split; [done|]. by apply Hr1.
Qed.

(** C11: a peer whose announced keys have at most 80 bytes cannot make an access out
    of an array happen, whatever else it sends; a peer that announces a key of 86
    bytes or more and then asks for a signature writes past the end of an array on
    the stack. *)
Theorem peer_overflows {K P} {CP : CryptoPP K P} `{!Quiet CP} junk k e (h : host K) :
  loaded k (h_crypto h) -> h_client h = fresh ->
  (forall ps, Forall (fun rp => bytes_packet rp.2 /\ keys_within 80 rp.2) ps -> exists h', run junk e h ps = Ret h' /\ h_crypto h' = h_crypto h) /\
  (sec_ident_enabled e = true -> forall key rnd rnd' challenge, (86 <= length key < 256)%nat -> word 32 challenge ->
    run junk e h [(rnd, Packet (write (EmulePublicKeyReq key))); (rnd', Packet (write (EmuleSecIdentStateReq 1 challenge)))] = Undefined).
Proof.
  intros Hk Hf. split.
  - intros ps Hps. assert (Hfw : key_within 80 (h_client h) /\ sent_within [] (h_client h)) by (rewrite Hf; apply fresh_within).
    pose proof (run_keeps junk k 80 e ltac:(lia) ps [] h Hk (proj1 Hfw) (proj2 Hfw) Hps) as H.
    destruct (run junk e h ps) as [h'| |]; [|done|lia]. exists h'. split; [done|]. apply H.
  - intros He key rnd rnd' challenge Hkey Hw. destruct h as [c own cl]. cbn [h_client] in Hf. subst cl.
    rewrite run_cons. unfold handle at 1. rewrite parse_write, bind_ret by (cbn; lia).
    unfold public_key_req. rewrite He. cbn -[run length write].
    rewrite run_cons. unfold handle. rewrite parse_write, bind_ret by (split; [by unfold word; lia|done]).
    unfold sec_ident_state_req. rewrite He. cbn -[run length write ml_createSignature Z.of_nat].
    unfold send_signature. cbn -[run length write ml_createSignature Z.of_nat]. destruct Hk as (Hk & _). cbn [h_crypto] in Hk.
    by rewrite (createSignature_over junk k) by (done || lia).
Qed.

(** ** The exchange between two clients *)

(** The peer that signs an address knows it as the other one does; it signs one only
    for a client that announces version 2. *)
Definition address_agrees (ea eb : env) : Prop :=
  own_secident eb = 2 ->
  1 < own_secident ea /\ (high_id ea <> 0 -> peer_ip eb = high_id ea) /\
  (high_id ea = 0 -> connected ea = true -> (if high_id eb =? 0 then my_ip eb else high_id eb) = peer_ip ea).

Definition signed_address (ea eb : env) : Z * Z := if own_secident eb =? 2 then get_ip_and_type ea else (0, 0).

Lemma signed_address_type ea eb : (signed_address ea eb).2 ∈ [0; 10; 20].
Proof.
  unfold signed_address, get_ip_and_type. destruct (own_secident eb =? 2); [|left].
  destruct (Z.eqb_spec (high_id ea) 0) as [->|Hne]; cbn [Z.eqb]; [|right; right; left].
  destruct (connected ea); [right; left|left].
Qed.

Lemma signed_address_checked ea eb c :
  address_agrees ea eb -> emule_secident c = own_secident ea ->
  check_address eb c (signed_address ea eb).2 = signed_address ea eb.
Proof.
  intros Ha Hc. unfold check_address, signed_address, get_ip_and_type. rewrite Hc.
  destruct (Z.eqb_spec (own_secident eb) 2) as [E|_]; [|by rewrite andb_false_r].
  destruct (Ha E) as (Hv & Hhigh & Hlow). rewrite (proj2 (Z.ltb_lt _ _) Hv).
  destruct (Z.eqb_spec (high_id ea) 0) as [E0|Hne]; cbn -[Z.eqb].
  - destruct (connected ea); cbn; [by rewrite Hlow|by rewrite E0].
  - by rewrite Hhigh.
Qed.

Section Exchange.
Context {K P : Type} {CP : CryptoPP K P} `{!Signs CP, !Quiet CP} (junk : Z).

(** One side: its key, its environment, the other's, its challenge and signature. *)
Record side := Side { s_key : K; s_env : env; s_challenge : Z; s_sig : list Z }.

Definition pub (x : side) : list Z := public_der (s_key x).

(** [y] identifies itself to [x]. *)
Definition side_ok (x y : side) : Prop :=
  sec_ident_enabled (s_env x) = true /\ 0 < own_secident (s_env x) /\ word 32 (s_challenge x) /\ s_challenge x <> 0 /\
  (length (pub x) <= 80)%nat /\
  let '(ip, ip_type) := signed_address (s_env x) (s_env y) in
  sign_message (s_key x) (message (pub y) (u32 (s_challenge y)) (u8 ip_type) (u32 ip)) = inr (s_sig x).

(** The client after so many packets, the initiator's and the other's. *)
Definition client_at (init : bool) (x y : side) (n : nat) : client :=
  match n with
  | 0 => fresh
  | 1 => if init then Client None (s_challenge y) (Some (s_challenge x)) None 0 true
         else Client None 0 (Some (s_challenge x)) None (own_secident (s_env y)) true
  | 2 => Client None (s_challenge y) (Some (s_challenge x)) None (own_secident (s_env y)) true
  | 3 => Client (Some (pub y)) (s_challenge y) (Some (s_challenge x)) None (own_secident (s_env y)) true
  | _ => Client (Some (pub y)) (s_challenge y) None (Some true) (own_secident (s_env y)) true
  end%nat.

Definition packets (init : bool) (x y : side) : list packet :=
  let state := Packet (write (EmuleSecIdentStateReq 2 (s_challenge x))) in
  (if init then [EmuleClientInfoReq (own_secident (s_env x)); state]
   else [state; EmuleClientInfoReplyReq (own_secident (s_env x))]) ++
  [Packet (write (EmulePublicKeyReq (pub x)));
   Packet (write (EmuleSignatureReq (s_sig x) (signed_address (s_env x) (s_env y)).2))].

(** How many have been sent after so many packets. *)
Definition sent (init : bool) (n : nat) : nat :=
  match n with 0 => if init then 1 else 0 | 1 => if init then 3 else 2 | 2 => 3 | _ => 4 end%nat.

Definition host_at (init : bool) (x y : side) (c : crypto K) (n : nat) : host K := Host c (pub x) (client_at init x y n).

Lemma send_signature_at e x y c cl :
  loaded (s_key x) c -> side_ok x y -> (length (pub y) <= 80)%nat ->
  e = s_env x -> client_public_key cl = Some (pub y) -> client_req_challenge cl = s_challenge y -> emule_secident cl = own_secident (s_env y) ->
  send_signature junk e (Host c (pub x) cl) =
    Ret [Packet (write (EmuleSignatureReq (s_sig x) (signed_address (s_env x) (s_env y)).2))].
Proof.
  intros Hk (_ & _ & _ & _ & _ & Hsig) Hl -> Hpk Hreq Hsec. unfold send_signature, has_pubkey, get_pubkey.
  cbn [h_client h_crypto]. rewrite Hpk, Hreq, Hsec. fold (signed_address (s_env x) (s_env y)).
  destruct (signed_address (s_env x) (s_env y)) as [ip t]. cbn [snd].
  rewrite (createSignature_ok junk (s_key x)) by (done || pose proof (extra_le (u8 t)); lia). by rewrite Hsig.
Qed.

Lemma handle_packet e rnd h m : msg_ok m -> handle junk e rnd h (Packet (write m)) =
  match m with
  | EmuleSignatureReq signature ip_type => signature_req junk e h signature ip_type
  | EmulePublicKeyReq key => public_key_req junk e h key
  | EmuleSecIdentStateReq state challenge => sec_ident_state_req junk e rnd h state challenge
  end.
Proof. intros Hm. unfold handle. by rewrite parse_write. Qed.

(** The signature of the other side is accepted. *)
Lemma handle_signature x y c cl :
  loaded (s_key x) c -> side_ok x y -> side_ok y x -> address_agrees (s_env y) (s_env x) ->
  client_public_key cl = Some (pub y) -> sent_value cl = s_challenge x -> emule_secident cl = own_secident (s_env y) ->
  handle junk (s_env x) (s_challenge x) (Host c (pub x) cl) (Packet (write (EmuleSignatureReq (s_sig y) (signed_address (s_env y) (s_env x)).2))) =
    Ret (Host c (pub x) (Client (Some (pub y)) (client_req_challenge cl) None (Some true) (emule_secident cl) (has_md4 cl)), []).
Proof.
  intros Hk (Hen & _) Hy Ha Hpk Hc Hsec. pose proof Hy as (_ & _ & _ & _ & Hl & Hsig).
  pose proof (signed_address_type (s_env y) (s_env x)) as Ht.
  pose proof (signed_address_checked (s_env y) (s_env x) cl Ha Hsec) as Hck.
  destruct (signed_address (s_env y) (s_env x)) as [ip t]. cbn [snd] in *. pose proof (signature_length _ _ _ Hsig) as Hls.
  rewrite handle_packet by (split; [lia|]; rewrite !elem_of_cons, elem_of_nil in Ht; unfold word; lia).
  rewrite (signature_req_eq junk (s_key x)) by (done || (intros s; cbn; rewrite Hpk; intros [= <-]; lia) || lia).
  cbn zeta. cbn [h_client]. rewrite Hck, Hc. unfold get_pubkey. rewrite Hpk. unfold accepts.
  destruct (verify_signed _ _ _ Hsig) as (p & Hp & Hv). unfold pub in *. by rewrite Hp, Hv.
Qed.

(** The key of the other side, once it has asked, is answered by a signature. *)
Lemma handle_key x y c cl :
  loaded (s_key x) c -> side_ok x y -> side_ok y x ->
  client_public_key cl = None -> client_req_challenge cl = s_challenge y -> emule_secident cl = own_secident (s_env y) ->
  handle junk (s_env x) (s_challenge x) (Host c (pub x) cl) (Packet (write (EmulePublicKeyReq (pub y)))) =
    Ret (Host c (pub x) (set_key cl (Some (pub y))), [Packet (write (EmuleSignatureReq (s_sig x) (signed_address (s_env x) (s_env y)).2))]).
Proof.
  intros Hk Hx Hy Hpk Hc Hsec. pose proof Hx as (Hen & _). pose proof Hy as (_ & _ & _ & Hnz & Hl & _).
  rewrite handle_packet by (cbn; lia). unfold public_key_req. rewrite Hen. cbn [h_client]. rewrite Hpk, Hc, (proj2 (Z.eqb_neq _ _) Hnz).
  cbn [negb]. unfold set_client. cbn [h_crypto own_public_key]. by rewrite (send_signature_at _ x y).
Qed.

(** A challenge, while the key of the other side is not known. *)
Lemma handle_state x y c cl :
  side_ok x y -> side_ok y x -> client_public_key cl = None -> client_sent_challenge cl = None \/ client_sent_challenge cl = Some (s_challenge x) ->
  handle junk (s_env x) (s_challenge x) (Host c (pub x) cl) (Packet (write (EmuleSecIdentStateReq 2 (s_challenge y)))) =
    Ret (Host c (pub x) (Client None (s_challenge y) (Some (s_challenge x)) (client_sui_verified cl) (emule_secident cl) (has_md4 cl)),
         (match client_sent_challenge cl with None => [Packet (write (EmuleSecIdentStateReq 2 (s_challenge x)))] | Some _ => [] end) ++
         [Packet (write (EmulePublicKeyReq (pub x)))]).
Proof.
  intros Hx Hy Hpk Hs. pose proof Hx as (Hen & _ & _ & Hnz & _). pose proof Hy as (_ & _ & Hw & _).
  rewrite handle_packet by (split; [by unfold word; lia|done]). unfold sec_ident_state_req. rewrite Hen. cbn [h_client].
  unfold has_pubkey, sent_value, verify_ident, has_pubkey. cbn [client_public_key client_sent_challenge]. rewrite Hpk.
  destruct Hs as [-> | ->]; cbn [from_option id Z.eqb negb andb]; [done|]. unfold id. by rewrite (proj2 (Z.eqb_neq _ _) Hnz).
Qed.

(** Each packet takes a client from one phase to the next, and has it send what
    comes next. *)
Lemma handle_at init x y c n :
  loaded (s_key x) c -> side_ok x y -> side_ok y x -> address_agrees (s_env y) (s_env x) ->
  (n < 4)%nat ->
  exists p, packets (negb init) y x !! n = Some p /\
    handle junk (s_env x) (s_challenge x) (host_at init x y c n) p =
      Ret (host_at init x y c (S n), take (sent init (S n) - sent init n) (drop (sent init n) (packets init x y))).
Proof.
  intros Hk Hx Hy Ha Hn. pose proof Hx as (Hen & Hs & _). pose proof Hy as (_ & Hs' & _).
  destruct n as [|[|[|[|n]]]]; [| | | |lia]; destruct init; (eexists; split; [reflexivity|]); unfold host_at, client_at.
  - rewrite (handle_state x y) by (done || by left). done.
  - unfold handle, process_mule_info. cbn [h_client fresh client_public_key client_req_challenge client_sent_challenge client_sui_verified has_md4 emule_secident].
    rewrite Hen, (proj2 (Z.ltb_lt _ _) Hs'). done.
  - unfold handle, process_mule_info. cbn [h_client client_sent_challenge]. rewrite bool_decide_false, andb_false_r by done. done.
  - rewrite (handle_state x y) by (done || by right). done.
  - by rewrite (handle_key x y).
  - by rewrite (handle_key x y).
  - by rewrite (handle_signature x y).
  - by rewrite (handle_signature x y).
Qed.
(** *** The two clients together *)

Context (a b : side) (ca cb : crypto K).

(** After so many deliveries to each. *)
Definition state_at (n m : nat) : sys :=
  Sys (host_at true a b ca n) (host_at false b a cb m)
      (drop n (take (sent false m) (packets false b a))) (drop m (take (sent true n) (packets true a b))).

Lemma sent_le init n : (sent init n <= 4)%nat.
Proof. destruct init, n as [|[|[|n]]]; cbn; lia. Qed.

Lemma sent_S init n : (sent init n <= sent init (S n))%nat.
Proof. destruct init, n as [|[|[|n]]]; cbn; lia. Qed.

Lemma packets_length init x y : length (packets init x y) = 4%nat.
Proof. by destruct init. Qed.

(** What is on the way, after a delivery and after a sending. *)
Lemma queue_head {A} (l : list A) n k p : l !! n = Some p -> (n < k)%nat -> drop n (take k l) = p :: drop (S n) (take k l).
Proof. intros Hp Hk. apply drop_S. by rewrite lookup_take_lt. Qed.

Lemma queue_sent {A} (l : list A) n k k' :
  (n <= k)%nat -> (k <= k')%nat -> (k <= length l)%nat -> drop n (take k l) ++ take (k' - k) (drop k l) = drop n (take k' l).
Proof.
  intros Hn Hk Hl. rewrite <- drop_app_le by (rewrite length_take; lia). f_equal.
  rewrite take_take_drop. f_equal. lia.
Qed.

Lemma queue_nil {A} (l : list A) n k : (k <= n)%nat -> drop n (take k l) = [].
Proof. intros H. apply drop_ge. rewrite length_take. lia. Qed.

Hypotheses (Hca : loaded (s_key a) ca) (Hcb : loaded (s_key b) cb) (Ha : side_ok a b) (Hb : side_ok b a)
  (Hab : address_agrees (s_env a) (s_env b)) (Hba : address_agrees (s_env b) (s_env a)).

(** A delivery that the state allows; its head packet. *)
Lemma deliver_a_at n m : (n < sent false m)%nat -> (m <= sent true n)%nat ->
  exists p out, to_a (state_at n m) = p :: drop (S n) (take (sent false m) (packets false b a)) /\
    handle junk (s_env a) (s_challenge a) (host_a (state_at n m)) p = Ret (host_at true a b ca (S n), out) /\
    to_b (state_at n m) ++ out = to_b (state_at (S n) m).
Proof.
  intros Hn Hm. pose proof (sent_le false m). destruct (handle_at true a b ca n Hca Ha Hb Hba ltac:(lia)) as (p & Hp & E).
  exists p. eexists. cbn [state_at to_a to_b host_a]. split; [by apply queue_head|]. split; [exact E|].
  apply queue_sent; [done|apply sent_S|]. rewrite packets_length. apply sent_le.
Qed.

Lemma deliver_b_at n m : (m < sent true n)%nat -> (n <= sent false m)%nat ->
  exists p out, to_b (state_at n m) = p :: drop (S m) (take (sent true n) (packets true a b)) /\
    handle junk (s_env b) (s_challenge b) (host_b (state_at n m)) p = Ret (host_at false b a cb (S m), out) /\
    to_a (state_at n m) ++ out = to_a (state_at n (S m)).
Proof.
  intros Hn Hm. pose proof (sent_le true n). destruct (handle_at false b a cb m Hcb Hb Ha Hab ltac:(lia)) as (p & Hp & E).
  exists p. eexists. cbn [state_at to_a to_b host_b]. split; [by apply queue_head|]. split; [exact E|].
  apply queue_sent; [done|apply sent_S|]. rewrite packets_length. apply sent_le.
Qed.

Definition exchange_step : sys -> sys -> Prop := step junk (s_env a) (s_env b) (s_challenge a) (s_challenge b).

Lemma step_at n m s' : (n <= sent false m)%nat -> (m <= sent true n)%nat -> exchange_step (state_at n m) s' ->
  ((n < sent false m)%nat /\ s' = state_at (S n) m) \/ ((m < sent true n)%nat /\ s' = state_at n (S m)).
Proof.
  unfold exchange_step. intros Hn Hm Hs. remember (state_at n m) as s eqn:Es. destruct Hs as [ha hb p qa qb ha' out E|ha hb p qa qb hb' out E].
  - injection Es as -> -> Eq ->. left. destruct (decide (n < sent false m)%nat) as [Hlt|Hge]; [|rewrite queue_nil in Eq by lia; done].
    split; [done|]. destruct (deliver_a_at n m Hlt Hm) as (p' & out' & E1 & E2 & E3). cbn [state_at to_a to_b host_a] in *.
    rewrite E1 in Eq. injection Eq as -> ->. rewrite E2 in E. injection E as <- <-. unfold state_at. by rewrite E3.
  - injection Es as -> -> -> Eq. right. destruct (decide (m < sent true n)%nat) as [Hlt|Hge]; [|rewrite queue_nil in Eq by lia; done].
    split; [done|]. destruct (deliver_b_at n m Hlt Hn) as (p' & out' & E1 & E2 & E3). cbn [state_at to_a to_b host_b] in *.
    rewrite E1 in Eq. injection Eq as -> ->. rewrite E2 in E. injection E as <- <-. unfold state_at. by rewrite E3.
Qed.

Lemma can_step_at n m : (n <= sent false m)%nat -> (m <= sent true n)%nat -> (n + m < 8)%nat -> exists s', exchange_step (state_at n m) s'.
Proof.
  intros Hn Hm Hlt. unfold exchange_step. destruct (decide (n < sent false m)%nat) as [H1|H1].
  - destruct (deliver_a_at n m H1 Hm) as (p & out & E1 & E2 & _). cbn [state_at to_a host_a] in *. unfold state_at. rewrite E1.
    eexists. by apply deliver_a.
  - destruct (decide (m < sent true n)%nat) as [H2|H2].
    + destruct (deliver_b_at n m H2 Hn) as (p & out & E1 & E2 & _). cbn [state_at to_b host_b] in *. unfold state_at. rewrite E1.
      eexists. by apply deliver_b.
    + exfalso. clear - H1 H2 Hlt. destruct n as [|[|[|[|n]]]], m as [|[|[|[|m]]]]; cbn in *; lia.
Qed.

(** Where a run is after so many steps. *)
Lemma steps_at k s : nsteps exchange_step k (state_at 0 0) s ->
  exists n m, k = (n + m)%nat /\ (n <= sent false m)%nat /\ (m <= sent true n)%nat /\ s = state_at n m.
Proof.
  revert s. induction k as [|k IH]; intros s Hs.
  - inversion Hs; subst. exists 0%nat, 0%nat. cbn. repeat split; lia.
  - apply nsteps_inv_r in Hs as (s1 & Hs1 & Hst). destruct (IH s1 Hs1) as (n & m & -> & Hn & Hm & ->).
    pose proof (sent_S true n). pose proof (sent_S false m).
    destruct (step_at n m s Hn Hm Hst) as [[Hlt ->]|[Hlt ->]]; [exists (S n), m|exists n, (S m)]; repeat split; lia.
Qed.

Lemma steps_exist k : (k <= 8)%nat -> exists s, nsteps exchange_step k (state_at 0 0) s.
Proof.
  induction k as [|k IH]; intros Hk; [by eexists; constructor|]. destruct IH as [s Hs]; [lia|].
  destruct (steps_at k s Hs) as (n & m & E & Hn & Hm & ->). destruct (can_step_at n m Hn Hm) as [s' Hs']; [lia|].
  exists s'. by eapply nsteps_r.
Qed.

(** No delivery is undefined, or raises an exception. *)
Lemma heads_at n m : (n <= sent false m)%nat -> (m <= sent true n)%nat ->
  (forall p q, to_a (state_at n m) = p :: q -> exists r, handle junk (s_env a) (s_challenge a) (host_a (state_at n m)) p = Ret r) /\
  (forall p q, to_b (state_at n m) = p :: q -> exists r, handle junk (s_env b) (s_challenge b) (host_b (state_at n m)) p = Ret r).
Proof.
  intros Hn Hm. split; intros p q E.
  - destruct (decide (n < sent false m)%nat) as [H1|H1]; [|cbn [state_at to_a] in E; rewrite queue_nil in E by lia; done].
    destruct (deliver_a_at n m H1 Hm) as (p' & out & E1 & E2 & _). rewrite E1 in E. injection E as <- _. rewrite E2. by eexists.
  - destruct (decide (m < sent true n)%nat) as [H1|H1]; [|cbn [state_at to_b] in E; rewrite queue_nil in E by lia; done].
    destruct (deliver_b_at n m H1 Hn) as (p' & out & E1 & E2 & _). rewrite E1 in E. injection E as <- _. rewrite E2. by eexists.
Qed.

Lemma verified_at : client_sui_verified (h_client (host_a (state_at 4 4))) = Some true /\
  client_sui_verified (h_client (host_b (state_at 4 4))) = Some true /\ to_a (state_at 4 4) = [] /\ to_b (state_at 4 4) = [].
Proof. done. Qed.

Lemma steps_end n m : (n <= sent false m)%nat -> (m <= sent true n)%nat -> (n + m <= 8)%nat /\ ((n + m = 8)%nat -> n = 4%nat /\ m = 4%nat).
Proof. intros. pose proof (sent_le false m). pose proof (sent_le true n). lia. Qed.
End Exchange.

(** C8: two clients with keys, the first of which announces that it identifies
    itself, verify each other: however the packets of the two connections interleave,
    no delivery fails, each of the first eight leaves another to be made, and after
    eight nothing is on the way and both have verified the other one. *)
Theorem identification_completes {K P} {CP : CryptoPP K P} `{!Signs CP, !Quiet CP} junk (a b : side) ca cb :
  loaded (s_key a) ca -> loaded (s_key b) cb -> side_ok a b -> side_ok b a ->
  address_agrees (s_env a) (s_env b) -> address_agrees (s_env b) (s_env a) ->
  let start := Sys (Host ca (pub a) fresh) (Host cb (pub b) fresh) [] [EmuleClientInfoReq (own_secident (s_env a))] in
  (exists s, nsteps (exchange_step junk a b) 8 start s) /\
  forall n s, nsteps (exchange_step junk a b) n start s ->
    (n <= 8)%nat /\ ((n < 8)%nat -> exists s', exchange_step junk a b s s') /\
    (forall p q, to_a s = p :: q -> exists r, handle junk (s_env a) (s_challenge a) (host_a s) p = Ret r) /\
    (forall p q, to_b s = p :: q -> exists r, handle junk (s_env b) (s_challenge b) (host_b s) p = Ret r) /\
    (n = 8%nat -> client_sui_verified (h_client (host_a s)) = Some true /\ client_sui_verified (h_client (host_b s)) = Some true /\
       to_a s = [] /\ to_b s = []).
Proof.
  intros Hca Hcb Ha Hb Hab Hba start. change start with (state_at a b ca cb 0 0). split; [by apply steps_exist|].
  intros n s Hs. apply steps_at in Hs as (i & j & -> & Hi & Hj & ->); [|done..]. destruct (steps_end i j Hi Hj) as [Hle H8].
  destruct (heads_at junk a b ca cb Hca Hcb Ha Hb Hab Hba i j Hi Hj) as [Hta Htb].
  split; [done|]. split; [by apply can_step_at|]. split; [done|]. split; [done|].
  intros E. destruct (H8 E) as [-> ->]. apply verified_at.
Qed.

(** *** Behaviour that is worth knowing *)

Section Remarks.
Context {K P : Type} {CP : CryptoPP K P} `{!Quiet CP} (junk : Z).

(** With no challenge outstanding a signature is checked all the same, over the
    challenge 0: one that is accepted then is accepted again whenever it is sent. *)
Lemma zero_challenge_replays k e rnd h sig t :
  loaded k (h_crypto h) -> key_within 255 (h_client h) -> sec_ident_enabled e = true ->
  client_sent_challenge (h_client h) = None -> msg_ok (EmuleSignatureReq sig t) ->
  (let '(id, ip_type) := check_address e (h_client h) t in
   accepts (get_pubkey (h_client h)) (message (public_der k) 0 (u8 ip_type) (u32 id)) sig = true) ->
  let h' := set_client h (Client (client_public_key (h_client h)) (client_req_challenge (h_client h)) None (Some true)
    (emule_secident (h_client h)) (has_md4 (h_client h))) in
  handle junk e rnd h (Packet (write (EmuleSignatureReq sig t))) = Ret (h', []) /\
  handle junk e rnd h' (Packet (write (EmuleSignatureReq sig t))) = Ret (h', []).
Proof.
  intros Hk Hl He Hs Hm Ha h'. pose proof Hm as [Hsig _]. rewrite !handle_packet by done.
  assert (Hstep : forall v, signature_req junk e (set_client h (Client (client_public_key (h_client h)) (client_req_challenge (h_client h)) None v
      (emule_secident (h_client h)) (has_md4 (h_client h)))) sig t = Ret (h', [])).
  { intros v. rewrite (signature_req_eq junk k) by done. cbn zeta. cbn [h_client set_client]. unfold check_address in *.
    cbn [emule_secident]. unfold get_pubkey, sent_value in *. cbn [client_public_key client_sent_challenge from_option id].
    destruct (if (1 <? emule_secident (h_client h)) && _ then _ else _) as [ip ty]. change (u32 0) with 0. by rewrite Ha. }
  split; [|apply Hstep]. rewrite <- (Hstep (client_sui_verified (h_client h))). f_equal.
  destruct h as [c own cl]. destruct cl as [pk req st v sec md]. cbn in *. by subst.
Qed.

(** A client that announces another key stays verified. *)
Lemma changed_key_verified e rnd h s key :
  sec_ident_enabled e = true -> client_public_key (h_client h) = Some s -> s <> key -> (length key < 256)%nat ->
  exists h', handle junk e rnd h (Packet (write (EmulePublicKeyReq key))) = Ret (h', []) /\
    client_public_key (h_client h') = None /\ client_sui_verified (h_client h') = client_sui_verified (h_client h).
Proof.
  intros He Hs Hne Hk. rewrite handle_packet by done. unfold public_key_req. rewrite He. rewrite Hs, bool_decide_false by done.
  eexists. split; [done|]. by destruct h as [c own []].
Qed.
End Remarks.

(** ** Two clients with the library of [Sui.Toy] *)

Definition toy_env (secident peer : Z) : env := Env true secident 0x0100007F peer 0x0200007F true.
Definition toy_side (key : list Z) (e : env) (challenge : Z) (peer : list Z) (peer_challenge ip_type ip : Z) : side :=
  Side key e challenge (le_bytes 2 (checksum (48 :: key) (message (48 :: peer) (u32 peer_challenge) (u8 ip_type) (u32 ip)))).

Definition toy_a : side (K := list Z) := toy_side [1; 2] (toy_env 3 0x0200007F) 1234 [3; 4] 0x7FFFFFFE 20 0x0100007F.
Definition toy_b : side (K := list Z) := toy_side [3; 4] (Env true 2 0x0200007F 0x0100007F 0 true) 0x7FFFFFFE [1; 2] 1234 0 0.

Lemma identification_completes_witness :
  let start := Sys (Host (toy_loaded [1; 2]) (pub toy_a) fresh) (Host (toy_loaded [3; 4]) (pub toy_b) fresh) []
    [EmuleClientInfoReq (own_secident (s_env toy_a))] in
  (exists s, nsteps (exchange_step 9 toy_a toy_b) 8 start s) /\
  forall n s, nsteps (exchange_step 9 toy_a toy_b) n start s ->
    (n <= 8)%nat /\ ((n < 8)%nat -> exists s', exchange_step 9 toy_a toy_b s s') /\
    (forall p q, to_a s = p :: q -> exists r, handle 9 (s_env toy_a) (s_challenge toy_a) (host_a s) p = Ret r) /\
    (forall p q, to_b s = p :: q -> exists r, handle 9 (s_env toy_b) (s_challenge toy_b) (host_b s) p = Ret r) /\
    (n = 8%nat -> client_sui_verified (h_client (host_a s)) = Some true /\ client_sui_verified (h_client (host_b s)) = Some true /\
       to_a s = [] /\ to_b s = []).
Proof.
  apply (identification_completes 9 toy_a toy_b (toy_loaded [1; 2]) (toy_loaded [3; 4])).
  - apply toy_loaded_ok. simpl. lia.
  - apply toy_loaded_ok. simpl. lia.
  - repeat split; try discriminate; simpl; lia.
  - repeat split; try discriminate; simpl; lia.
  - intros _. split; [reflexivity|]. split; [reflexivity|discriminate].
  - intros E. discriminate E.
Defined.

(** A peer that announces itself, its key, and signs the challenge that it is sent. *)
Definition toy_host : host (list Z) := Host (toy_loaded [3; 4]) (pub toy_b) fresh.
Definition toy_packets : list (Z * packet) :=
  [(0x7FFFFFFE, EmuleClientInfoReq 3); (5, Packet (write (EmulePublicKeyReq (pub toy_a))));
   (6, Packet (write (EmuleSignatureReq (s_sig toy_a) 20))); (7, Packet [0x10])].

Lemma toy_packets_bytes : Forall (fun rp => bytes_packet rp.2) toy_packets.
Proof.
  assert (H : forall s, bool_decide (Forall (word 8) s) = true -> bytes_packet (Packet s)) by (intros s Hs; exact (bool_decide_eq_true_1 _ Hs)).
  constructor; [exact I|]. repeat (constructor; [apply H; vm_compute; reflexivity|]). constructor.
Defined.

Lemma verified_by_signature_witness :
  exists ps1 rnd p ps2 h1, toy_packets = ps1 ++ (rnd, p) :: ps2 /\ run 9 (s_env toy_b) toy_host ps1 = Ret h1 /\
    signs_challenge [3; 4] (s_env toy_b) (h_client h1) p /\
    (client_sent_challenge (h_client h1) = None \/ exists v, client_sent_challenge (h_client h1) = Some v /\ v ∈ map fst ps1).
Proof.
  apply (verified_by_signature 9 [3; 4] (s_env toy_b) toy_host
    (set_client toy_host (Client (Some (pub toy_a)) 0 None (Some true) 3 true)) toy_packets).
  - apply toy_loaded_ok. simpl. lia.
  - reflexivity.
  - exact toy_packets_bytes.
  - vm_compute. reflexivity.
  - reflexivity.
Defined.

Lemma peer_overflows_witness :
  (forall ps, Forall (fun rp => bytes_packet rp.2 /\ keys_within 80 rp.2) ps ->
    exists h', run 9 (s_env toy_b) toy_host ps = Ret h' /\ h_crypto h' = h_crypto toy_host) /\
  (sec_ident_enabled (s_env toy_b) = true -> forall key rnd rnd' challenge, (86 <= length key < 256)%nat -> word 32 challenge ->
    run 9 (s_env toy_b) toy_host [(rnd, Packet (write (EmulePublicKeyReq key))); (rnd', Packet (write (EmuleSecIdentStateReq 1 challenge)))] = Undefined).
Proof. apply (peer_overflows 9 [3; 4] (s_env toy_b) toy_host); [|reflexivity]. apply toy_loaded_ok. simpl. lia. Defined.

End SuiClient.
