(* ===== verification/SuiKey.v ===== *)
(** * Secure identification: the private key of the options

    The hook of the option [client_private_key] in
    [src/src/networks/donkey/donkeyGlobals.ml], and the two other places that set
    the option or load the key: the command [reset_md4] of [donkeyInteractive.ml]
    and the start of the network in [donkeyMain.ml].  The functions that they call
    are those of [Sui]. *)

From Stdlib Require Import ZArith Lia String.
From stdpp Require Import base option numbers list.
From S2P Require Import Prelude Os CString Sui.
Import CString Sui.

Local Open Scope Z_scope.

Module SuiKey.

(** ** The state *)

Record keys (K : Type) := Keys {
  client_private_key : list Z;
  client_public_key : list Z;
  key_check_started : bool;
  k_crypto : crypto K
}.
Arguments Keys {K} _ _ _ _.
Arguments client_private_key {K} _.
Arguments client_public_key {K} _.
Arguments key_check_started {K} _.
Arguments k_crypto {K} _.

(** [Exit]: the end of the process, with status 70. *)
Inductive outcome (K : Type) := Running (s : keys K) | Exit | NoFuel.
Arguments Running {K} s.
Arguments Exit {K}.
Arguments NoFuel {K}.

(** [String.sub] raises on a shorter text, which is then not a key. *)
Definition has_prefix (v : list Z) : bool := bool_decide (take 4 v = str "MIIB").

Section Functions.
Context {K P : Type} `{!CryptoPP K P} (junk : Z) (donkey_sui_works : bool).

Definition load_key (s : keys K) : io (keys K) :=
  '(c, pub) ← ml_loadKey junk (k_crypto s) (client_private_key s);
  Ret (Keys (client_private_key s) pub (key_check_started s) c).

(** The hook of the option, which the setting of the option calls. *)
Fixpoint option_hook (fuel : nat) (s : keys K) : io (outcome K) :=
  match fuel with
  | O => Ret NoFuel
  | Datatypes.S fuel =>
      if donkey_sui_works then
        if negb (has_prefix (client_private_key s)) then
          if key_check_started s then Ret Exit
          else
            key ← ml_createKey junk;
            option_hook fuel (Keys key (client_public_key s) true (k_crypto s))
        else
          s ← load_key s; Ret (Running s)
      else Ret (Running s)
  end.

(** [client_private_key =:= v] *)
Definition set_option (v : list Z) (s : keys K) : io (outcome K) :=
  option_hook 2 (Keys v (client_public_key s) (key_check_started s) (k_crypto s)).

Definition reset_md4 (s : keys K) : io (outcome K) :=
  if donkey_sui_works then key ← ml_createKey junk; set_option key s else Ret (Running s).

Definition enable (s : keys K) : io (outcome K) :=
  if donkey_sui_works then s ← load_key s; Ret (Running s) else Ret (Running s).

Inductive op := SetOption (v : list Z) | ResetMd4 | Enable.

Definition step (o : op) : keys K -> io (outcome K) :=
  match o with SetOption v => set_option v | ResetMd4 => reset_md4 | Enable => enable end.

Fixpoint run (ops : list op) (s : keys K) : io (outcome K) :=
  match ops with
  | [] => Ret (Running s)
  | o :: ops => r ← step o s; match r with Running s => run ops s | r => Ret r end
  end.
End Functions.

(** ** What is relied on *)

(** A text that the library takes for a key, whose public key fits. *)
Definition is_key {K P} `{!CryptoPP K P} (v : list Z) : Prop :=
  exists k, new_signer (c_text v) = inr k /\ (length (public_der k) <= 80)%nat.

(** The generator works, and the text of a key starts as it should. *)
Class Generates {K P} (CP : CryptoPP K P) := {
  generated : exists text, generate_key PRIVKEYSIZE = inr text /\ Forall (fun c => c <> 0) text /\
    (length text < 4096)%nat /\ has_prefix text = true /\ is_key text
}.

Section Facts.
Context {K P : Type} {CP : CryptoPP K P} (junk : Z).
Implicit Types s : keys K.

Lemma c_text_nz v : Forall (fun c => c <> 0) v -> c_text v = v.
Proof.
  intros Hv. pose proof (strdup_String_val v) as E. unfold String_val, strdup in E. rewrite strlen_app in E by done.
  rewrite some_bind, take_app_length in E. by injection E as <-.
Qed.

Lemma ml_createKey_ok `{!Generates CP} : exists text, ml_createKey junk = Ret text /\ has_prefix text = true /\ is_key text.
Proof.
  destruct generated as (text & Hg & Hnz & Hl & Hp & Hk). exists text. split; [|done]. unfold ml_createKey, createKey. rewrite Hg.
  assert (Hu : length (uninit junk 4096) = Z.to_nat 4096) by (unfold uninit; by rewrite length_replicate).
  rewrite blit_start, mem_some, bind_ret by (rewrite length_app; cbn [length]; lia). unfold strdup.
  rewrite <- app_assoc. cbn [app]. by rewrite strlen_app, some_bind, take_app_length.
Qed.

(** When the generator throws, the text that is returned is whatever the array held. *)
Lemma ml_createKey_throws what :
  generate_key PRIVKEYSIZE = inl what -> (length what < 200)%nat -> ml_createKey junk = mem (strdup (uninit junk 4096)).
Proof. intros Hg Hl. unfold ml_createKey, createKey. rewrite Hg, report_ok by (closed || (cbn; lia)). done. Qed.

(** The option holds a key, and nothing dangles. *)
Definition ready s : Prop :=
  has_prefix (client_private_key s) = true /\ is_key (client_private_key s) /\
  s_signer (k_crypto s) <> Deleted /\ length (m_publicKey (k_crypto s)) = 81%nat.

(** The key of the option is loaded, and announced to the other clients. *)
Definition in_use s : Prop :=
  exists k, new_signer (c_text (client_private_key s)) = inr k /\ loaded k (k_crypto s) /\ client_public_key s = public_der k.

Lemma load_key_ok s : ready s ->
  exists s', load_key junk s = Ret s' /\ ready s' /\ in_use s' /\ key_check_started s' = key_check_started s.
Proof.
  intros (Hp & (k & Hk & Hl) & Hs & Hm). destruct (ml_loadKey_ok junk (k_crypto s) (client_private_key s) k Hs Hm Hk Hl) as (c & E & Hc).
  unfold load_key. rewrite E, bind_ret. eexists. split; [done|]. split; [|split; [|done]].
  - split; [done|]. split; [by exists k|]. destruct Hc as (Hsig & _ & _ & rest & _ & Hlen). cbn [k_crypto]. by rewrite Hsig.
  - by exists k.
Qed.

Lemma load_hook s fuel : ready s ->
  exists s', option_hook junk true (S fuel) s = Ret (Running s') /\ ready s' /\ in_use s' /\ key_check_started s' = key_check_started s.
Proof.
  intros Hr. destruct (load_key_ok s Hr) as (s' & E & H). exists s'. split; [|done]. cbn [option_hook]. destruct Hr as [-> _]. cbn [negb].
  by rewrite E.
Qed.

(** A value of the option that is a key, or does not look like one. *)
Definition sane (o : op) : Prop := match o with SetOption v => has_prefix v = true -> is_key v | _ => True end.
Definition bad (o : op) : nat := match o with SetOption v => if has_prefix v then 0 else 1 | _ => 0 end.
Definition started s : nat := if key_check_started s then 1 else 0.

Lemma with_value s v : s_signer (k_crypto s) <> Deleted -> length (m_publicKey (k_crypto s)) = 81%nat ->
  has_prefix v = true -> is_key v -> ready (Keys v (client_public_key s) (key_check_started s) (k_crypto s)).
Proof. done. Qed.

Lemma step_sane `{!Generates CP} o s : ready s -> sane o ->
  (exists s', step junk true o s = Ret (Running s') /\ ready s' /\ in_use s' /\ (started s' = started s + bad o)%nat) \/
  (step junk true o s = Ret Exit /\ bad o = 1%nat /\ started s = 1%nat).
Proof.
  intros Hr Ho. pose proof Hr as (_ & _ & Hs & Hm). destruct ml_createKey_ok as (text & Hc & Hp & Hk). destruct o as [v| |]; cbn [step bad].
  - unfold set_option. destruct (has_prefix v) eqn:Hv.
    + left. destruct (load_hook (Keys v (client_public_key s) (key_check_started s) (k_crypto s)) 1) as (s' & E & H1 & H2 & H3).
      { by apply with_value; [..|apply Ho]. }
      exists s'. split; [done|]. split; [done|]. split; [done|]. unfold started. rewrite H3. cbn [key_check_started]. lia.
    + cbn [option_hook client_private_key key_check_started]. rewrite Hv. cbn [negb]. unfold started.
      destruct (key_check_started s); [by right|left]. rewrite Hc, bind_ret.
      destruct (load_hook (Keys text (client_public_key s) true (k_crypto s)) 0) as (s' & E & H1 & H2 & H3); [done|].
      exists s'. split; [exact E|]. split; [done|]. split; [done|]. by rewrite H3.
  - left. unfold reset_md4. rewrite Hc, bind_ret. unfold set_option.
    destruct (load_hook (Keys text (client_public_key s) (key_check_started s) (k_crypto s)) 1) as (s' & E & H1 & H2 & H3); [done|].
    exists s'. split; [exact E|]. split; [done|]. split; [done|]. unfold started. rewrite H3. cbn [key_check_started]. lia.
  - left. unfold enable. destruct (load_key_ok s Hr) as (s' & E & H1 & H2 & H3). rewrite E. exists s'.
    split; [done|]. split; [done|]. split; [done|]. unfold started. rewrite H3. lia.
Qed.

Lemma run_running o ops s s' : step junk true o s = Ret (Running s') -> run junk true (o :: ops) s = run junk true ops s'.
Proof. intros E. cbn [run]. by rewrite E. Qed.

(** A value that looks like a key and is none. *)
Lemma set_fake s v what : in_use s -> has_prefix v = true -> new_signer (c_text v) = inl what -> (length what < 200)%nat ->
  exists s', step junk true (SetOption v) s = Ret (Running s') /\ client_public_key s' = [] /\
    (forall key keyLen cInt ipType ip, ml_createSignature junk (k_crypto s') key keyLen cInt ipType ip = Undefined) /\
    (forall v', has_prefix v' = true -> set_option junk true v' s' = Undefined).
Proof.
  intros (k & _ & (Hsig & _) & _) Hv Hnew Hwhat. cbn [step]. unfold set_option at 1. cbn [option_hook client_private_key].
  rewrite Hv. cbn [negb]. unfold load_key. cbn [k_crypto client_private_key client_public_key key_check_started].
  rewrite (ml_loadKey_bad junk (k_crypto s) v what) by (done || by rewrite Hsig). rewrite Hsig. eexists. split; [reflexivity|].
  split; [done|]. split; [done|]. intros v' Hv'. unfold set_option. cbn [option_hook client_private_key]. rewrite Hv'. cbn [negb].
  unfold load_key, ml_loadKey, loadKey. cbn [k_crypto client_private_key]. by rewrite strdup_String_val.
Qed.
End Facts.

#[export] Instance ToyGenerates : Generates Toy.
Proof.
  constructor. exists [77; 73; 73; 66]. split; [reflexivity|]. split; [closed|]. split; [simpl; lia|]. split; [reflexivity|].
  exists [73; 73; 66]. split; [reflexivity|simpl; lia].
Defined.

(** ** Properties *)

(** C12: from a key in the option, whatever is set in it that is a key or does not
    look like one, at any time: the key of the option is the one that signs and its
    public key the one announced; the process ends only at a second value that does
    not look like a key.  A value that looks like a key and is none leaves nothing to
    announce and a deleted signer: the next signature and the next setting use it. *)
Theorem option_key_in_use {K P} {CP : CryptoPP K P} `{!Generates CP} junk (s : keys K) ops :
  ready s -> Forall sane ops ->
  ((exists s', run junk true (ops ++ [Enable]) s = Ret (Running s') /\ ready s' /\ in_use s' /\
      forall v what, has_prefix v = true -> new_signer (c_text v) = inl what -> (length what < 200)%nat ->
        exists s'', run junk true (ops ++ [Enable; SetOption v]) s = Ret (Running s'') /\ client_public_key s'' = [] /\
          (forall key keyLen cInt ipType ip, ml_createSignature junk (k_crypto s'') key keyLen cInt ipType ip = Undefined) /\
          (forall v', has_prefix v' = true -> set_option junk true v' s'' = Undefined)) \/
   (run junk true (ops ++ [Enable]) s = Ret Exit /\ (2 <= started s + sum_list (map bad ops))%nat)).
Proof.
  intros Hr Hops. revert s Hr. induction Hops as [|o ops Ho Hops IH]; intros s Hr; cbn [app].
  - left. destruct (step_sane junk Enable s Hr I) as [(s' & E & H1 & H2 & _)|[_ [Hb _]]]; [|done].
    exists s'. rewrite (run_running junk Enable [] s s' E). split; [done|]. split; [done|]. split; [done|].
    intros v what Hv Hnew Hwhat. destruct (set_fake junk s' v what H2 Hv Hnew Hwhat) as (s'' & E2 & H3). exists s''.
    by rewrite (run_running junk Enable _ s s' E), (run_running junk (SetOption v) [] s' s'' E2).
  - destruct (step_sane junk o s Hr Ho) as [(s' & E & H1 & _ & H3)|(E & Hb & Hst)].
    + rewrite (run_running junk o _ s s' E). destruct (IH s' H1) as [(s'' & Hrun & H4 & H5 & H6)|[Hx Hle]].
      * left. exists s''. split; [done|]. split; [done|]. split; [done|]. intros v what Hv Hnew Hwhat.
        rewrite (run_running junk o _ s s' E). by eapply H6.
      * right. split; [done|]. cbn in *. lia.
    + right. cbn [run]. rewrite E. split; [done|]. cbn. lia.
Qed.

Lemma option_key_in_use_witness :
  let s := Keys (K := list Z) (str "MIIB") [] false crypto_init in
  let ops := [SetOption (str "none"); ResetMd4; SetOption (str "MIIBa")] in
  ((exists s', run 9 true (ops ++ [Enable]) s = Ret (Running s') /\ ready s' /\ in_use s' /\
      forall v what, has_prefix v = true -> new_signer (c_text v) = inl what -> (length what < 200)%nat ->
        exists s'', run 9 true (ops ++ [Enable; SetOption v]) s = Ret (Running s'') /\ client_public_key s'' = [] /\
          (forall key keyLen cInt ipType ip, ml_createSignature 9 (k_crypto s'') key keyLen cInt ipType ip = Undefined) /\
          (forall v', has_prefix v' = true -> set_option 9 true v' s'' = Undefined)) \/
   (run 9 true (ops ++ [Enable]) s = Ret Exit /\ (2 <= started s + sum_list (map bad ops))%nat)).
Proof.
  intros s ops. apply (option_key_in_use 9 s ops).
  - split; [reflexivity|]. split; [exists [73; 73; 66]; split; [reflexivity|simpl; lia]|]. split; [discriminate|reflexivity].
  - constructor; [intros E; discriminate E|]. constructor; [exact I|]. constructor; [|constructor].
    intros _. exists [73; 73; 66; 97]. split; [reflexivity|simpl; lia].
Defined.

End SuiKey.
