(* ===== verification/Gd.v ===== *)
(** * Images

    [src/src/utils/cdk/gdstubs.c], the bindings to the library gd, with the two
    ways in which OCaml calls them, and the classes of [gd.ml] on top of them.  The
    library is a parameter ([GdLib]); what is relied on of its colours is in
    [Palette]. *)

From Stdlib Require Import ZArith Lia.
From stdpp Require Import base option numbers list gmap.
From S2P Require Import Prelude CString.
Import CString.

Local Open Scope Z_scope.

Module Gd.

(** ** Calls that keep a state *)

Inductive exn := Not_found | Image_creation_failed | Not_supported | Too_many_colors | Color_not_found.

Inductive res (S A : Type) := Done (a : A) (s : S) | Raised (e : exn) (s : S) | Undefined.
Arguments Done {S A} a s.
Arguments Raised {S A} e s.
Arguments Undefined {S A}.

Definition M (S A : Type) : Type := S -> res S A.

#[export] Instance m_ret {S} : MRet (M S) := fun A a s => Done a s.
#[export] Instance m_bind {S} : MBind (M S) := fun A B f m s =>
  match m s with Done a s => f a s | Raised e s => Raised e s | Undefined => Undefined end.

Definition raise {S A} (e : exn) : M S A := fun s => Raised e s.
Definition undefined {S A} : M S A := fun _ => Undefined.
Definition of_option {S A} (o : option A) : M S A := match o with Some a => mret a | None => undefined end.
Definition get {S} : M S S := fun s => Done s s.
Definition put {S} (s : S) : M S unit := fun _ => Done tt s.

(** ** The library *)

(** [I]: what an image holds; [F]: fonts.  A colour that there is none of is -1. *)
Class GdLib (I F : Type) := {
  gdImageCreate : Z -> Z -> option I;
  gdImageCreateFromPng : list Z -> option I;
  gdImageCreateFromJpeg : list Z -> option I;
  gdImageSX : I -> Z;
  gdImageSY : I -> Z;
  gdImageLine : I -> Z -> Z -> Z -> Z -> Z -> I;
  gdImageDashedLine : I -> Z -> Z -> Z -> Z -> Z -> I;
  gdImageRectangle : I -> Z -> Z -> Z -> Z -> Z -> I;
  gdImageFilledRectangle : I -> Z -> Z -> Z -> Z -> Z -> I;
  gdImageArc : I -> Z -> Z -> Z -> Z -> Z -> Z -> Z -> I;
  gdImageFilledArc : I -> Z -> Z -> Z -> Z -> Z -> Z -> Z -> Z -> I;
  gdImageFillToBorder : I -> Z -> Z -> Z -> Z -> I;
  gdImageFill : I -> Z -> Z -> Z -> I;
  gdImageChar : I -> F -> Z -> Z -> Z -> Z -> I;
  gdImageCharUp : I -> F -> Z -> Z -> Z -> Z -> I;
  gdImageString : I -> F -> Z -> Z -> list Z -> Z -> I;
  gdImageStringUp : I -> F -> Z -> Z -> list Z -> Z -> I;
  gdImageSetPixel : I -> Z -> Z -> Z -> I;
  gdImageGetPixel : I -> Z -> Z -> Z;
  gdImagePng : I -> list Z;
  gdImageJpeg : I -> Z -> list Z;
  gdImagePngPtr : I -> option (list Z);
  gdImageJpegPtr : I -> Z -> option (list Z);
  gdImageColorAllocate : I -> Z -> Z -> Z -> I * Z;
  gdImageColorClosest : I -> Z -> Z -> Z -> Z;
  gdImageColorClosestHWB : I -> Z -> Z -> Z -> Z;
  gdImageColorExact : I -> Z -> Z -> Z -> Z;
  gdImageColorResolve : I -> Z -> Z -> Z -> I * Z;
  gdImageRed : I -> Z -> Z;
  gdImageGreen : I -> Z -> Z;
  gdImageBlue : I -> Z -> Z;
  gdImageGetTransparent : I -> Z;
  gdImageColorTransparent : I -> Z -> I;
  gdFontTiny : F;
  gdFontSmall : F;
  gdFontMediumBold : F;
  gdFontLarge : F;
  gdFontGiant : F;
  font_address : F -> Z;
  png_access_version_number : Z
}.

(** ** The state *)

(** Custom blocks of OCaml, and boxed integers, at their addresses. *)
Inductive block (I F : Type) := Image (im : I) | Font (f : F) | Int32 (n : Z).
Arguments Image {I F} im.
Arguments Font {I F} f.
Arguments Int32 {I F} n.

(** [next]: the address of the next block; [files], [channels]: what was written. *)
Record world (I F : Type) := World {
  blocks : gmap Z (block I F);
  next : Z;
  fonts : list (option F);
  fonts_init : bool;
  files : gmap (list Z) (list Z);
  channels : gmap Z (list Z)
}.
Arguments World {I F} _ _ _ _ _ _.
Arguments blocks {I F} _.
Arguments next {I F} _.
Arguments fonts {I F} _.
Arguments fonts_init {I F} _.
Arguments files {I F} _.
Arguments channels {I F} _.

(** Nothing has been called. *)
Definition world_init {I F} (next : Z) : world I F := World ∅ next (replicate 5 None) false ∅ ∅.

Inductive value := Int (n : Z) | Block (b : Z) | Str (s : list Z) | Chan (c : Z).

Definition Val_unit : value := Int 0.
Definition Val_int (n : Z) : value := Int n.

Section Stubs.
Context {I F : Type} `{!GdLib I F}.
(** The configuration, and the files that can be opened for writing. *)
Context (HAVE_GD_PNG HAVE_GD_JPG HAVE_PNGVERSION : bool) (writable : list Z -> bool).
Abbreviation stub := (M (world I F) value).

(** *** Values *)

Definition IM_VAL (v : value) : M (world I F) I :=
  w ← get; match v with Block b => match blocks w !! b with Some (Image im) => mret im | _ => undefined end | _ => undefined end.
Definition FONT_VAL (v : value) : M (world I F) F :=
  w ← get; match v with Block b => match blocks w !! b with Some (Font f) => mret f | _ => undefined end | _ => undefined end.
Definition Int_val (v : value) : M (world I F) Z := match v with Int n => mret (s32 n) | _ => undefined end.
Definition String_val (v : value) : M (world I F) (list Z) := match v with Str s => of_option (strdup (s ++ [0])) | _ => undefined end.
Definition Channel (v : value) : M (world I F) Z := match v with Chan c => mret c | _ => undefined end.

Definition with_blocks (f : gmap Z (block I F) -> gmap Z (block I F)) : M (world I F) unit :=
  w ← get; put (World (f (blocks w)) (next w) (fonts w) (fonts_init w) (files w) (channels w)).

Definition alloc_custom (x : block I F) : stub :=
  w ← get;
  _ ← put (World (<[next w := x]> (blocks w)) (next w + 1) (fonts w) (fonts_init w) (files w) (channels w));
  mret (Block (next w)).

(** The library changes the image behind the pointer. *)
Definition IM_SET (v : value) (im : I) : M (world I F) unit :=
  match v with Block b => with_blocks (insert b (Image im)) | _ => undefined end.

(** *** Custom operations *)

Definition ml_gd_finalize (v : value) : M (world I F) unit :=
  _ ← IM_VAL v; match v with Block b => with_blocks (delete b) | _ => undefined end.
Definition ml_gd_hash (v : value) : M (world I F) Z := im ← IM_VAL v; mret (gdImageSX im).
Definition ml_font_cmp (v1 v2 : value) : M (world I F) Z :=
  f1 ← FONT_VAL v1; f2 ← FONT_VAL v2;
  let d := s32 (font_address f1) - s32 (font_address f2) in
  if (- 2 ^ 31 <=? d) && (d <? 2 ^ 31) then mret d else undefined.
Definition ml_font_hash (v : value) : M (world I F) Z := f ← FONT_VAL v; mret (font_address f).

(** *** Fonts, images, files *)

Definition ml_get_font (i : value) : stub :=
  w ← get;
  _ ← (if fonts_init w then mret tt else
    put (World (blocks w) (next w) [Some gdFontTiny; Some gdFontSmall; Some gdFontMediumBold; Some gdFontLarge; Some gdFontGiant]
      true (files w) (channels w)));
  n ← Int_val i;
  w ← get;
  match (if n <? 0 then None else fonts w !! Z.to_nat n) with Some (Some f) => alloc_custom (Font f) | _ => undefined end.

Definition new_image (im : option I) : stub :=
  match im with None => raise Image_creation_failed | Some im => alloc_custom (Image im) end.

Definition ml_image_create (sx sy : value) : stub := x ← Int_val sx; y ← Int_val sy; new_image (gdImageCreate x y).

Definition open_image (have : bool) (read : list Z -> option I) (filename : value) : stub :=
  if have then
    name ← String_val filename;
    w ← get;
    match files w !! name with None => raise Not_found | Some contents => new_image (read contents) end
  else raise Not_supported.

Definition ml_image_open_png : value -> stub := open_image HAVE_GD_PNG gdImageCreateFromPng.
Definition ml_image_open_jpeg : value -> stub := open_image HAVE_GD_JPG gdImageCreateFromJpeg.

(** [fopen] is not checked, and the library writes to a null file. *)
Definition save_image (have : bool) (save : I -> list Z) (gdw filename : value) : stub :=
  if have then
    name ← String_val filename;
    im ← IM_VAL gdw;
    if writable name then
      w ← get;
      _ ← put (World (blocks w) (next w) (fonts w) (fonts_init w) (<[name := save im]> (files w)) (channels w));
      mret Val_unit
    else undefined
  else raise Not_supported.

Definition ml_save_png (gdw filename : value) : stub := save_image HAVE_GD_PNG gdImagePng gdw filename.
Definition ml_save_jpeg (gdw filename quality : value) : stub :=
  q ← (if HAVE_GD_JPG then Int_val quality else mret 0); save_image HAVE_GD_JPG (fun im => gdImageJpeg im q) gdw filename.

Definition dump_image (have : bool) (dump : I -> option (list Z)) (gdw chan : value) : stub :=
  if have then
    im ← IM_VAL gdw;
    c ← Channel chan;
    dat ← of_option (dump im);
    w ← get;
    _ ← put (World (blocks w) (next w) (fonts w) (fonts_init w) (files w) (<[c := default [] (channels w !! c) ++ dat]> (channels w)));
    mret Val_unit
  else raise Not_supported.

Definition ml_dump_png (gdw chan : value) : stub := dump_image HAVE_GD_PNG gdImagePngPtr gdw chan.
Definition ml_dump_jpeg (gdw chan quality : value) : stub :=
  q ← (if HAVE_GD_JPG then Int_val quality else mret 0); dump_image HAVE_GD_JPG (fun im => gdImageJpegPtr im q) gdw chan.

(** The result is declared as an [int], which cuts the address of the block. *)
Definition ml_image_pngversion : stub :=
  if HAVE_PNGVERSION then
    v ← alloc_custom (Int32 (s32 png_access_version_number));
    mret (match v with Block b => Block (s32 b) | v => v end)
  else raise Not_supported.

(** *** Drawing, in native code *)

Definition draw_shape (f : I -> Z -> Z -> Z -> Z -> Z -> I) (gdw x1 y1 x2 y2 c : value) : stub :=
  im ← IM_VAL gdw; x1 ← Int_val x1; y1 ← Int_val y1; x2 ← Int_val x2; y2 ← Int_val y2; c ← Int_val c;
  _ ← IM_SET gdw (f im x1 y1 x2 y2 c); mret Val_unit.

Definition ml_image_line_native : value -> value -> value -> value -> value -> value -> stub := draw_shape gdImageLine.
Definition ml_image_dline_native : value -> value -> value -> value -> value -> value -> stub := draw_shape gdImageDashedLine.
Definition ml_image_rect_native : value -> value -> value -> value -> value -> value -> stub := draw_shape gdImageRectangle.
Definition ml_image_frect_native : value -> value -> value -> value -> value -> value -> stub := draw_shape gdImageFilledRectangle.

Definition ml_image_arc_native (gdw cx cy w h s e c : value) : stub :=
  im ← IM_VAL gdw; cx ← Int_val cx; cy ← Int_val cy; w ← Int_val w; h ← Int_val h; s ← Int_val s; e ← Int_val e; c ← Int_val c;
  _ ← IM_SET gdw (gdImageArc im cx cy w h s e c); mret Val_unit.

Definition ml_image_arc_fill_native (gdw cx cy w h s e c style : value) : stub :=
  im ← IM_VAL gdw; cx ← Int_val cx; cy ← Int_val cy; w ← Int_val w; h ← Int_val h; s ← Int_val s; e ← Int_val e; c ← Int_val c;
  style ← Int_val style;
  _ ← IM_SET gdw (gdImageFilledArc im cx cy w h s e c style); mret Val_unit.

Definition ml_image_border_fill_native (gdw x y b c : value) : stub :=
  im ← IM_VAL gdw; x ← Int_val x; y ← Int_val y; b ← Int_val b; c ← Int_val c;
  _ ← IM_SET gdw (gdImageFillToBorder im x y b c); mret Val_unit.

Definition ml_image_fill (gdw x y c : value) : stub :=
  im ← IM_VAL gdw; x ← Int_val x; y ← Int_val y; c ← Int_val c; _ ← IM_SET gdw (gdImageFill im x y c); mret Val_unit.

Definition draw_char (f : I -> F -> Z -> Z -> Z -> Z -> I) (gdw font x y c color : value) : stub :=
  im ← IM_VAL gdw; font ← FONT_VAL font; x ← Int_val x; y ← Int_val y; c ← Int_val c; color ← Int_val color;
  _ ← IM_SET gdw (f im font x y c color); mret Val_unit.

Definition ml_image_char_native : value -> value -> value -> value -> value -> value -> stub := draw_char gdImageChar.
Definition ml_image_charu_native : value -> value -> value -> value -> value -> value -> stub := draw_char gdImageCharUp.

Definition draw_string (f : I -> F -> Z -> Z -> list Z -> Z -> I) (gdw font x y s color : value) : stub :=
  im ← IM_VAL gdw; font ← FONT_VAL font; x ← Int_val x; y ← Int_val y; s ← String_val s; color ← Int_val color;
  _ ← IM_SET gdw (f im font x y s color); mret Val_unit.

Definition ml_image_str_native : value -> value -> value -> value -> value -> value -> stub := draw_string gdImageString.
Definition ml_image_stru_native : value -> value -> value -> value -> value -> value -> stub := draw_string gdImageStringUp.

Definition ml_set_pixel (gdw x y c : value) : stub :=
  im ← IM_VAL gdw; x ← Int_val x; y ← Int_val y; c ← Int_val c; _ ← IM_SET gdw (gdImageSetPixel im x y c); mret Val_unit.

(** *** Drawing, in bytecode: [argv] points to the arguments, or should *)

Inductive pointer := Argv (l : list value) | Not_argv (v : value).

(** A custom block read as an array of arguments: the bytes of its pointers. *)
Definition at_ (argv : pointer) (i : nat) : stub :=
  match argv with Argv l => of_option (l !! i) | Not_argv _ => undefined end.

Definition with6 (f : value -> value -> value -> value -> value -> value -> stub) (argv : pointer) : stub :=
  a0 ← at_ argv 0; a1 ← at_ argv 1; a2 ← at_ argv 2; a3 ← at_ argv 3; a4 ← at_ argv 4; a5 ← at_ argv 5; f a0 a1 a2 a3 a4 a5.

Definition ml_image_line (argv : pointer) (argn : Z) : stub := with6 ml_image_line_native argv.
Definition ml_image_dline (argv : pointer) (argn : Z) : stub := with6 ml_image_dline_native argv.
Definition ml_image_rect (argv : pointer) (argn : Z) : stub := with6 ml_image_line_native argv.
Definition ml_image_frect (argv : pointer) (argn : Z) : stub := with6 ml_image_line_native argv.

Definition ml_image_arc (argv : pointer) (argn : Z) : stub :=
  a0 ← at_ argv 0; a1 ← at_ argv 1; a2 ← at_ argv 2; a3 ← at_ argv 3; a4 ← at_ argv 4; a5 ← at_ argv 5;
  a6 ← at_ argv 6; a7 ← at_ argv 7;
  ml_image_arc_native a0 a1 a2 a3 a4 a5 a6 a7.

Definition ml_image_arc_fill (argv : pointer) (argn : Z) : stub :=
  a0 ← at_ argv 0; a1 ← at_ argv 1; a2 ← at_ argv 2; a3 ← at_ argv 3; a4 ← at_ argv 4; a5 ← at_ argv 5;
  a6 ← at_ argv 6; a7 ← at_ argv 7; a8 ← at_ argv 8;
  ml_image_arc_fill_native a0 a1 a2 a3 a4 a5 a6 a7 a8.

Definition ml_image_border_fill (argv : pointer) (argn : Z) : stub :=
  a0 ← at_ argv 0; a1 ← at_ argv 1; a2 ← at_ argv 2; a3 ← at_ argv 3; a4 ← at_ argv 4;
  ml_image_border_fill_native a0 a1 a2 a3 a4.

Definition ml_image_char (argv : pointer) (argc : Z) : stub := with6 ml_image_char_native argv.
Definition ml_image_charu (argv : pointer) (argc : Z) : stub := with6 ml_image_charu_native argv.
Definition ml_image_str (argv : pointer) (argc : Z) : stub := with6 ml_image_str_native argv.
Definition ml_image_stru (argv : pointer) (argc : Z) : stub := with6 ml_image_stru_native argv.

(** *** Reading *)

Definition ml_get_pixel (gdw x y : value) : stub :=
  im ← IM_VAL gdw; x ← Int_val x; y ← Int_val y; mret (Val_int (gdImageGetPixel im x y)).
Definition ml_get_width (gdw : value) : stub := im ← IM_VAL gdw; mret (Val_int (gdImageSX im)).
Definition ml_get_height (gdw : value) : stub := im ← IM_VAL gdw; mret (Val_int (gdImageSY im)).

(** *** Colours *)

Definition search_color (f : I -> Z -> Z -> Z -> Z) (gdw r g b : value) : stub :=
  im ← IM_VAL gdw; r ← Int_val r; g ← Int_val g; b ← Int_val b; mret (Val_int (f im r g b)).
Definition add_color (f : I -> Z -> Z -> Z -> I * Z) (gdw r g b : value) : stub :=
  im ← IM_VAL gdw; r ← Int_val r; g ← Int_val g; b ← Int_val b;
  let '(im, color) := f im r g b in _ ← IM_SET gdw im; mret (Val_int color).

Definition ml_image_color_alloc : value -> value -> value -> value -> stub := add_color gdImageColorAllocate.
Definition ml_image_color_closest : value -> value -> value -> value -> stub := search_color gdImageColorClosest.
Definition ml_image_color_closest_hwb : value -> value -> value -> value -> stub := search_color gdImageColorClosestHWB.
Definition ml_image_color_exact : value -> value -> value -> value -> stub := search_color gdImageColorExact.
Definition ml_image_color_resolve : value -> value -> value -> value -> stub := add_color gdImageColorResolve.

Definition ml_image_red_part (gdw c : value) : stub := im ← IM_VAL gdw; c ← Int_val c; mret (Val_int (gdImageRed im c)).
Definition ml_image_green_part (gdw c : value) : stub := im ← IM_VAL gdw; c ← Int_val c; mret (Val_int (gdImageGreen im c)).
Definition ml_image_blue_part (gdw c : value) : stub := im ← IM_VAL gdw; c ← Int_val c; mret (Val_int (gdImageBlue im c)).
Definition ml_image_get_transparent (gdw : value) : stub := im ← IM_VAL gdw; mret (Val_int (gdImageGetTransparent im)).
Definition ml_image_set_transparent (gdw c : value) : stub :=
  im ← IM_VAL gdw; c ← Int_val c; _ ← IM_SET gdw (gdImageColorTransparent im c); mret Val_unit.

(** ** The external functions of [gd.ml] *)

Inductive prim :=
| do_image_create | do_image_open_png | do_image_open_jpeg | do_set_pixel | do_get_pixel | do_get_width | do_get_height
| do_draw_line | do_draw_dline | do_draw_rect | do_draw_frect | do_draw_arc | do_draw_arc_fill | do_border_fill | do_fill
| do_save_png | do_save_jpeg | do_dump_png | do_dump_jpeg
| do_color_create | do_find_closest | do_find_closest_hwb | do_find_exact | do_resolve
| do_green_part | do_red_part | do_blue_part | do_get_transparent | do_set_transparent
| do_get_font | do_draw_char | do_draw_charu | do_draw_str | do_draw_stru | png_version.

(** The function that native code calls, with all the arguments. *)
Definition native (p : prim) (args : list value) : stub :=
  match p, args with
  | do_image_create, [a; b] => ml_image_create a b
  | do_image_open_png, [a] => ml_image_open_png a
  | do_image_open_jpeg, [a] => ml_image_open_jpeg a
  | do_set_pixel, [a; b; c; d] => ml_set_pixel a b c d
  | do_get_pixel, [a; b; c] => ml_get_pixel a b c
  | do_get_width, [a] => ml_get_width a
  | do_get_height, [a] => ml_get_height a
  | do_draw_line, [a; b; c; d; e; f] => ml_image_line_native a b c d e f
  | do_draw_dline, [a; b; c; d; e; f] => ml_image_dline_native a b c d e f
  | do_draw_rect, [a; b; c; d; e; f] => ml_image_rect_native a b c d e f
  | do_draw_frect, [a; b; c; d; e; f] => ml_image_frect_native a b c d e f
  | do_draw_arc, [a; b; c; d; e; f; g; h] => ml_image_arc_native a b c d e f g h
  | do_draw_arc_fill, [a; b; c; d; e; f; g; h; i] => ml_image_arc_fill_native a b c d e f g h i
  | do_border_fill, [a; b; c; d; e] => ml_image_border_fill_native a b c d e
  | do_fill, [a; b; c; d] => ml_image_fill a b c d
  | do_save_png, [a; b] => ml_save_png a b
  | do_save_jpeg, [a; b; c] => ml_save_jpeg a b c
  | do_dump_png, [a; b] => ml_dump_png a b
  | do_dump_jpeg, [a; b; c] => ml_dump_jpeg a b c
  | do_color_create, [a; b; c; d] => ml_image_color_alloc a b c d
  | do_find_closest, [a; b; c; d] => ml_image_color_closest a b c d
  | do_find_closest_hwb, [a; b; c; d] => ml_image_color_closest_hwb a b c d
  | do_find_exact, [a; b; c; d] => ml_image_color_exact a b c d
  | do_resolve, [a; b; c; d] => ml_image_color_resolve a b c d
  | do_green_part, [a; b] => ml_image_green_part a b
  | do_red_part, [a; b] => ml_image_red_part a b
  | do_blue_part, [a; b] => ml_image_blue_part a b
  | do_get_transparent, [a] => ml_image_get_transparent a
  | do_set_transparent, [a; b] => ml_image_set_transparent a b
  | do_get_font, [a] => ml_get_font a
  | do_draw_char, [a; b; c; d; e; f] => ml_image_char_native a b c d e f
  | do_draw_charu, [a; b; c; d; e; f] => ml_image_charu_native a b c d e f
  | do_draw_str, [a; b; c; d; e; f] => ml_image_str_native a b c d e f
  | do_draw_stru, [a; b; c; d; e; f] => ml_image_stru_native a b c d e f
  | png_version, [_] => ml_image_pngversion
  | _, _ => undefined
  end.

(** The function that is named first, where there are two. *)
Definition two_names (p : prim) : option (pointer -> Z -> stub) :=
  match p with
  | do_draw_line => Some ml_image_line
  | do_draw_dline => Some ml_image_dline
  | do_draw_rect => Some ml_image_rect
  | do_draw_frect => Some ml_image_frect
  | do_draw_arc => Some ml_image_arc
  | do_draw_arc_fill => Some ml_image_arc_fill
  | do_border_fill => Some ml_image_border_fill
  | do_draw_char => Some ml_image_char
  | do_draw_charu => Some ml_image_charu
  | do_draw_str => Some ml_image_str
  | do_draw_stru => Some ml_image_stru
  | _ => None
  end.

(** Bytecode passes up to five arguments as such, and more in an array, with their
    number: a function that expects the array takes the first two of five for it. *)
Definition bytecode (p : prim) (args : list value) : stub :=
  match two_names p with
  | None => native p args
  | Some f =>
      if (length args <=? 5)%nat then
        match args with a :: Int n :: _ => f (Not_argv a) n | _ => undefined end
      else f (Argv args) (Z.of_nat (length args))
  end.

(** How the program was compiled. *)
Definition call (native_code : bool) (p : prim) (args : list value) : stub :=
  if native_code then native p args else bytecode p args.
End Stubs.

(** ** The classes of [gd.ml] *)

Section Classes.
Context {I F : Type} `{!GdLib I F}.
Context (HAVE_GD_PNG HAVE_GD_JPG HAVE_PNGVERSION : bool) (writable : list Z -> bool) (native_code : bool).
Abbreviation ext := (call HAVE_GD_PNG HAVE_GD_JPG HAVE_PNGVERSION writable native_code).
Abbreviation method := (M (world I F)).

Definition as_int (v : value) : method Z := match v with Int n => mret n | _ => undefined end.
Definition as_unit (v : value) : method unit := mret tt.

(** A colour is its code in an image. *)
Definition color_or (e : exn) (p : prim) (im : value) (red green blue : Z) : method Z :=
  v ← ext p [im; Int red; Int green; Int blue]; color ← as_int v;
  if color =? -1 then raise e else mret color.

Definition create (im : value) : Z -> Z -> Z -> method Z := color_or Too_many_colors do_color_create im.
Definition closest (im : value) : Z -> Z -> Z -> method Z := color_or Color_not_found do_find_closest im.
Definition closest_hwb (im : value) : Z -> Z -> Z -> method Z := color_or Color_not_found do_find_closest_hwb im.
Definition exact (im : value) : Z -> Z -> Z -> method Z := color_or Color_not_found do_find_exact im.
Definition resolve (im : value) : Z -> Z -> Z -> method Z := color_or Color_not_found do_resolve im.

Definition find (im : value) (red green blue : Z) : method Z :=
  v ← ext do_find_exact [im; Int red; Int green; Int blue]; color ← as_int v;
  if negb (color =? -1) then mret color else create im red green blue.

Definition black (im : value) : method Z := find im 0 0 0.
Definition white (im : value) : method Z := find im 255 255 255.
Definition blue (im : value) : method Z := find im 0 0 255.
Definition green (im : value) : method Z := find im 0 255 0.
Definition red (im : value) : method Z := find im 255 0 0.
(** [transparent_pcolor] is never changed. *)
Definition transparent : method Z := mret 5.

Definition red_part (im : value) (code : Z) : method Z := v ← ext do_red_part [im; Int code]; as_int v.
Definition green_part (im : value) (code : Z) : method Z := v ← ext do_green_part [im; Int code]; as_int v.
Definition blue_part (im : value) (code : Z) : method Z := v ← ext do_blue_part [im; Int code]; as_int v.

Definition get_transparent (im : value) : method Z :=
  v ← ext do_get_transparent [im]; cindex ← as_int v; if cindex =? -1 then raise Color_not_found else mret cindex.
Definition set_transparent (im : value) (code : Z) : method unit := v ← ext do_set_transparent [im; Int code]; as_unit v.

(** The drawing methods of an image, with their arguments. *)
Inductive drawing :=
| line (x1 y1 x2 y2 color : Z)
| dashed_line (x1 y1 x2 y2 color : Z)
| rectangle (x1 y1 x2 y2 color : Z)
| filled_rectangle (x1 y1 x2 y2 color : Z)
| arc (cx cy w h s e color : Z)
| arc_fill (cx cy w h s e color style : Z)
| border_fill (x y border color : Z)
| fill (x y color : Z)
| letter (font : Z) (x y c color : Z)
| letter_up (font : Z) (x y c color : Z)
| string (font : Z) (x y : Z) (s : list Z) (color : Z)
| string_up (font : Z) (x y : Z) (s : list Z) (color : Z)
| set_pixel (x y color : Z).

Definition draw (im : value) (d : drawing) : method unit :=
  v ← match d with
      | line x1 y1 x2 y2 color => ext do_draw_line [im; Int x1; Int y1; Int x2; Int y2; Int color]
      | dashed_line x1 y1 x2 y2 color => ext do_draw_dline [im; Int x1; Int y1; Int x2; Int y2; Int color]
      | rectangle x1 y1 x2 y2 color => ext do_draw_rect [im; Int x1; Int y1; Int x2; Int y2; Int color]
      | filled_rectangle x1 y1 x2 y2 color => ext do_draw_frect [im; Int x1; Int y1; Int x2; Int y2; Int color]
      | arc cx cy w h s e color => ext do_draw_arc [im; Int cx; Int cy; Int w; Int h; Int s; Int e; Int color]
      | arc_fill cx cy w h s e color style => ext do_draw_arc_fill [im; Int cx; Int cy; Int w; Int h; Int s; Int e; Int color; Int style]
      | border_fill x y border c => ext do_border_fill [im; Int x; Int y; Int border; Int c]
      | fill x y color => ext do_fill [im; Int x; Int y; Int color]
      | letter font x y c color => ext do_draw_char [im; Block font; Int x; Int y; Int c; Int color]
      | letter_up font x y c color => ext do_draw_charu [im; Block font; Int x; Int y; Int c; Int color]
      | string font x y s color => ext do_draw_str [im; Block font; Int x; Int y; Str s; Int color]
      | string_up font x y s color => ext do_draw_stru [im; Block font; Int x; Int y; Str s; Int color]
      | set_pixel x y color => ext do_set_pixel [im; Int x; Int y; Int color]
      end;
  as_unit v.

Fixpoint draw_all (im : value) (ds : list drawing) : method unit :=
  match ds with [] => mret tt | d :: ds => _ ← draw im d; draw_all im ds end.

Definition get_pixel (im : value) (x y : Z) : method Z := v ← ext do_get_pixel [im; Int x; Int y]; as_int v.
Definition width (im : value) : method Z := v ← ext do_get_width [im]; as_int v.
Definition height (im : value) : method Z := v ← ext do_get_height [im]; as_int v.
Definition in_range (im : value) (x y : Z) : method bool :=
  w ← width im; h ← height im; mret ((0 <=? x) && (x <=? w) && (0 <=? y) && (y <=? h)).

Definition new_gdImage (x y : Z) : method value := ext do_image_create [Int x; Int y].
Definition save_as_png (im : value) (filename : list Z) : method unit := v ← ext do_save_png [im; Str filename]; as_unit v.
Definition save_as_jpeg (im : value) (quality : option Z) (filename : list Z) : method unit :=
  v ← ext do_save_jpeg [im; Str filename; Int (default (-1) quality)]; as_unit v.
Definition out_as_png (im : value) (channel : Z) : method unit := v ← ext do_dump_png [im; Chan channel]; as_unit v.
Definition out_as_jpeg (im : value) (quality : option Z) (channel : Z) : method unit :=
  v ← ext do_dump_jpeg [im; Chan channel; Int (default (-1) quality)]; as_unit v.
Definition open_png (filename : list Z) : method value := ext do_image_open_png [Str filename].
Definition open_jpeg (filename : list Z) : method value := ext do_image_open_jpeg [Str filename].
End Classes.

(** ** Facts *)

Section Facts.
Context {I F : Type} `{!GdLib I F}.
Context (png jpg pngversion : bool) (writable : list Z -> bool).
Implicit Types w : world I F.

Lemma bind_done {S A B} (m : M S A) (f : A -> M S B) s a s' : m s = Done a s' -> (m ≫= f) s = f a s'.
Proof. intros E. unfold mbind, m_bind. by rewrite E. Qed.

Lemma IM_VAL_ok w b im : blocks w !! b = Some (Image im) -> IM_VAL (Block b) w = Done im w.
Proof. intros E. unfold IM_VAL. rewrite (bind_done get _ w w w) by done. by rewrite E. Qed.

Lemma FONT_VAL_ok w b f : blocks w !! b = Some (Font f) -> FONT_VAL (Block b) w = Done f w.
Proof. intros E. unfold FONT_VAL. rewrite (bind_done get _ w w w) by done. by rewrite E. Qed.

Lemma String_val_ok w s : Forall (fun c => c <> 0) s -> String_val (Str s) w = Done s w.
Proof. intros Hs. unfold String_val, strdup. by rewrite strlen_app, some_bind, take_app_length. Qed.

Definition with_image w (b : Z) (im : I) : world I F :=
  World (<[b := Image im]> (blocks w)) (next w) (fonts w) (fonts_init w) (files w) (channels w).

Lemma IM_SET_ok w b im : IM_SET (Block b) im w = Done tt (with_image w b im).
Proof. done. Qed.

(** ** What a drawing is *)

(** The font in a block. *)
Definition font_at w (b : Z) : option F := match blocks w !! b with Some (Font f) => Some f | _ => None end.

Definition drawn w (im : I) (d : drawing) : option I :=
  match d with
  | line x1 y1 x2 y2 c => Some (gdImageLine im (s32 x1) (s32 y1) (s32 x2) (s32 y2) (s32 c))
  | dashed_line x1 y1 x2 y2 c => Some (gdImageDashedLine im (s32 x1) (s32 y1) (s32 x2) (s32 y2) (s32 c))
  | rectangle x1 y1 x2 y2 c => Some (gdImageRectangle im (s32 x1) (s32 y1) (s32 x2) (s32 y2) (s32 c))
  | filled_rectangle x1 y1 x2 y2 c => Some (gdImageFilledRectangle im (s32 x1) (s32 y1) (s32 x2) (s32 y2) (s32 c))
  | arc cx cy w h s e c => Some (gdImageArc im (s32 cx) (s32 cy) (s32 w) (s32 h) (s32 s) (s32 e) (s32 c))
  | arc_fill cx cy w h s e c st => Some (gdImageFilledArc im (s32 cx) (s32 cy) (s32 w) (s32 h) (s32 s) (s32 e) (s32 c) (s32 st))
  | border_fill x y b c => Some (gdImageFillToBorder im (s32 x) (s32 y) (s32 b) (s32 c))
  | fill x y c => Some (gdImageFill im (s32 x) (s32 y) (s32 c))
  | letter b x y c col => f ← font_at w b; Some (gdImageChar im f (s32 x) (s32 y) (s32 c) (s32 col))
  | letter_up b x y c col => f ← font_at w b; Some (gdImageCharUp im f (s32 x) (s32 y) (s32 c) (s32 col))
  | string b x y s col => f ← font_at w b; t ← strdup (s ++ [0]); Some (gdImageString im f (s32 x) (s32 y) t (s32 col))
  | string_up b x y s col => f ← font_at w b; t ← strdup (s ++ [0]); Some (gdImageStringUp im f (s32 x) (s32 y) t (s32 col))
  | set_pixel x y c => Some (gdImageSetPixel im (s32 x) (s32 y) (s32 c))
  end.

(** In bytecode these three do something else. *)
Definition sound (native_code : bool) (d : drawing) : Prop :=
  native_code = true \/ match d with rectangle _ _ _ _ _ | filled_rectangle _ _ _ _ _ | border_fill _ _ _ _ => False | _ => True end.

Lemma font_at_ok w b f : font_at w b = Some f -> FONT_VAL (Block b) w = Done f w.
Proof. intros E. apply FONT_VAL_ok. unfold font_at in E. case_match; [|done]. case_match; try done. by injection E as ->. Qed.

(** The kinds of drawing functions. *)
Lemma draw_shape_ok w b im f x1 y1 x2 y2 c : blocks w !! b = Some (Image im) ->
  draw_shape f (Block b) (Int x1) (Int y1) (Int x2) (Int y2) (Int c) w =
    Done Val_unit (with_image w b (f im (s32 x1) (s32 y1) (s32 x2) (s32 y2) (s32 c))).
Proof. intros Hb. unfold draw_shape. by rewrite (bind_done _ _ w im w) by by apply IM_VAL_ok. Qed.

Lemma draw_char_ok w b im f ft ftb x y c col : blocks w !! b = Some (Image im) -> font_at w ftb = Some ft ->
  draw_char f (Block b) (Block ftb) (Int x) (Int y) (Int c) (Int col) w =
    Done Val_unit (with_image w b (f im ft (s32 x) (s32 y) (s32 c) (s32 col))).
Proof.
  intros Hb Hf. unfold draw_char. rewrite (bind_done _ _ w im w) by by apply IM_VAL_ok.
  by rewrite (bind_done _ _ w ft w) by by apply font_at_ok.
Qed.

Lemma draw_string_ok w b im f ft ftb x y s t col :
  blocks w !! b = Some (Image im) -> font_at w ftb = Some ft -> strdup (s ++ [0]) = Some t ->
  draw_string f (Block b) (Block ftb) (Int x) (Int y) (Str s) (Int col) w =
    Done Val_unit (with_image w b (f im ft (s32 x) (s32 y) t (s32 col))).
Proof.
  intros Hb Hf Hs. unfold draw_string. rewrite (bind_done _ _ w im w) by by apply IM_VAL_ok.
  rewrite (bind_done _ _ w ft w) by by apply font_at_ok. unfold String_val. by rewrite Hs.
Qed.

(** In native code every drawing is the one of the library. *)
Lemma draw_native w b im im' d : blocks w !! b = Some (Image im) -> drawn w im d = Some im' ->
  draw png jpg pngversion writable true (Block b) d w = Done tt (with_image w b im').
Proof.
  intros Hb Hd.
  assert (Hu : forall m : M (world I F) value, m w = Done Val_unit (with_image w b im') -> (m ≫= as_unit) w = Done tt (with_image w b im')).
  { intros m E. by rewrite (bind_done m _ w _ _ E). }
  unfold draw, call. apply Hu. destruct d; cbn [drawn native] in *.
  1-4: injection Hd as <-; by apply draw_shape_ok.
  1-4, 9: injection Hd as <-; unfold ml_image_arc_native, ml_image_arc_fill_native, ml_image_border_fill_native, ml_image_fill, ml_set_pixel;
    by rewrite (bind_done _ _ w im w) by by apply IM_VAL_ok.
  1-2: destruct (font_at w font) as [ft|] eqn:Hf; [|done]; injection Hd as <-; by apply draw_char_ok.
  all: destruct (font_at w font) as [ft|] eqn:Hf; [|done]; destruct (strdup (s ++ [0])) as [t|] eqn:Ht; [|done]; injection Hd as <-;
    by apply draw_string_ok.
Qed.

Lemma draw_ok native_code w b im im' d :
  sound native_code d -> blocks w !! b = Some (Image im) -> drawn w im d = Some im' ->
  draw png jpg pngversion writable native_code (Block b) d w = Done tt (with_image w b im').
Proof.
  intros Hs Hb Hd. pose proof (draw_native w b im im' d Hb Hd) as Hn.
  destruct native_code; [done|]. destruct Hs as [Hs|Hs]; [done|]. rewrite <- Hn. by destruct d.
Qed.
End Facts.

Section Drawings.
Context {I F : Type} `{!GdLib I F}.
Context (png jpg pngversion : bool) (writable : list Z -> bool).
Implicit Types w : world I F.

Fixpoint drawn_all w (im : I) (ds : list drawing) : option I :=
  match ds with [] => Some im | d :: ds => im ← drawn w im d; drawn_all w im ds end.

(** The fonts of a drawing are fonts. *)
Definition fonts_known w (d : drawing) : Prop :=
  match d with
  | letter f _ _ _ _ | letter_up f _ _ _ _ | string f _ _ _ _ | string_up f _ _ _ _ => is_Some (font_at w f)
  | _ => True
  end.

Lemma drawn_total w im d : fonts_known w d -> is_Some (drawn w im d).
Proof.
  destruct d; cbn [fonts_known drawn]; try by eexists.
  1-2: intros [f ->]; by eexists.
  all: intros [f ->]; rewrite some_bind; destruct (strdup_total s) as [t ->]; by eexists.
Qed.

Lemma font_at_with w b im im' f : blocks w !! b = Some (Image im) -> font_at (with_image w b im') f = font_at w f.
Proof.
  intros Hb. unfold font_at, with_image. cbn [blocks]. destruct (decide (f = b)) as [->|Hne]; [by rewrite lookup_insert_eq, Hb|].
  by rewrite lookup_insert_ne.
Qed.

Lemma drawn_with w b im im' im2 d : blocks w !! b = Some (Image im) -> drawn (with_image w b im') im2 d = drawn w im2 d.
Proof. intros Hb. destruct d; cbn [drawn]; try done; by rewrite (font_at_with w b im). Qed.

Lemma drawn_all_with w b im im' ds im2 : blocks w !! b = Some (Image im) -> drawn_all (with_image w b im') im2 ds = drawn_all w im2 ds.
Proof.
  intros Hb. revert im2. induction ds as [|d ds IH]; intros im2; [done|]. cbn [drawn_all]. rewrite (drawn_with w b im) by done.
  destruct (drawn w im2 d); [apply IH|done].
Qed.

Lemma with_image_same w b im : blocks w !! b = Some (Image im) -> with_image w b im = w.
Proof. intros Hb. destruct w. unfold with_image. cbn in *. by rewrite insert_id. Qed.

Lemma with_image_twice w b im im' : with_image (with_image w b im) b im' = with_image w b im'.
Proof. unfold with_image. cbn [blocks next fonts fonts_init files channels]. by rewrite insert_insert_eq. Qed.

Lemma draw_all_ok native_code b ds : forall w im im',
  Forall (sound native_code) ds -> blocks w !! b = Some (Image im) -> drawn_all w im ds = Some im' ->
  draw_all png jpg pngversion writable native_code (Block b) ds w = Done tt (with_image w b im').
Proof.
  induction ds as [|d ds IH]; intros w im im' Hs Hb Hd.
  - injection Hd as <-. by rewrite with_image_same.
  - apply Forall_cons in Hs as [Hs1 Hs]. cbn [drawn_all] in Hd. destruct (drawn w im d) as [im1|] eqn:E1; [|done].
    rewrite some_bind in Hd. cbn [draw_all]. rewrite (bind_done _ _ w tt (with_image w b im1)) by by apply (draw_ok _ _ _ _ _ _ _ im).
    rewrite (IH (with_image w b im1) im1 im'); [by rewrite with_image_twice|done| |].
    + unfold with_image. cbn [blocks]. by rewrite lookup_insert_eq.
    + by rewrite (drawn_all_with w b im).
Qed.

Definition arity (p : prim) : nat :=
  match p with
  | do_image_open_png | do_image_open_jpeg | do_get_width | do_get_height | do_get_transparent | do_get_font | png_version => 1
  | do_image_create | do_save_png | do_dump_png | do_green_part | do_red_part | do_blue_part | do_set_transparent => 2
  | do_get_pixel | do_save_jpeg | do_dump_jpeg => 3
  | do_set_pixel | do_fill | do_color_create | do_find_closest | do_find_closest_hwb | do_find_exact | do_resolve => 4
  | do_border_fill => 5
  | do_draw_arc => 8
  | do_draw_arc_fill => 9
  | _ => 6
  end%nat.

Lemma bytecode_native p args w :
  length args = arity p -> p ∉ [do_draw_rect; do_draw_frect; do_border_fill] ->
  bytecode png jpg pngversion writable p args w = native png jpg pngversion writable p args w.
Proof.
  intros Hl Hp. destruct p; try done; try (exfalso; apply Hp; rewrite !elem_of_cons; tauto); cbn [arity] in Hl;
    do 9 (destruct args as [|? args]; [discriminate Hl|cbn [length] in Hl; try (apply (f_equal pred) in Hl; cbn [pred] in Hl); try (destruct args; [|discriminate Hl]; reflexivity)]).
Qed.
End Drawings.

(** ** Colours *)

Definition byte_parts (r g b : Z) : Prop := 0 <= r < 256 /\ 0 <= g < 256 /\ 0 <= b < 256.

(** Of colours of byte parts.  One that is found, the first in the palette with these
    parts (or the colour of these parts in an image without palette), has them.
    [gdImageColorAllocate] does not look for the colour: it adds one, which is then the
    one found when there was none before.  In a full palette nothing is added. *)
Class Palette {I F} (GL : GdLib I F) := {
  exact_parts im r g b c : byte_parts r g b -> gdImageColorExact im r g b = c -> c <> -1 ->
    gdImageRed im c = r /\ gdImageGreen im c = g /\ gdImageBlue im c = b;
  allocate_new im r g b im' c : byte_parts r g b -> gdImageColorExact im r g b = -1 ->
    gdImageColorAllocate im r g b = (im', c) -> c <> -1 -> gdImageColorExact im' r g b = c;
  allocate_full im r g b im' : gdImageColorAllocate im r g b = (im', -1) -> im' = im
}.

Section Colours.
Context {I F : Type} {GL : GdLib I F} `{!Palette GL}.
Context (png jpg pngversion : bool) (writable : list Z -> bool) (native_code : bool).
Implicit Types w : world I F.
Abbreviation find_ := (find png jpg pngversion writable native_code).

Lemma Int_val_ok w n : - 2 ^ 31 <= n < 2 ^ 31 -> Int_val (Int n) w = Done n w.
Proof. intros H. unfold Int_val. by rewrite s32_small. Qed.

Lemma bind_Int_val {A} (f : Z -> M (world I F) A) w n : - 2 ^ 31 <= n < 2 ^ 31 -> (Int_val (Int n) ≫= f) w = f n w.
Proof. intros H. by apply bind_done, Int_val_ok. Qed.

Lemma bind_IM_VAL {A} (f : I -> M (world I F) A) w b im : blocks w !! b = Some (Image im) -> (IM_VAL (Block b) ≫= f) w = f im w.
Proof. intros H. by apply bind_done, IM_VAL_ok. Qed.

Lemma call_exact w b im r g bl : blocks w !! b = Some (Image im) -> 0 <= r < 256 -> 0 <= g < 256 -> 0 <= bl < 256 ->
  call png jpg pngversion writable native_code do_find_exact [Block b; Int r; Int g; Int bl] w = Done (Int (gdImageColorExact im r g bl)) w.
Proof.
  intros Hb Hr Hg Hbl.
  assert (E : native png jpg pngversion writable do_find_exact [Block b; Int r; Int g; Int bl] w = Done (Int (gdImageColorExact im r g bl)) w).
  { cbn [native]. unfold ml_image_color_exact, search_color. rewrite (bind_IM_VAL _ w b im) by done. by rewrite !bind_Int_val by lia. }
  by destruct native_code.
Qed.

Lemma call_alloc w b im r g bl : blocks w !! b = Some (Image im) -> 0 <= r < 256 -> 0 <= g < 256 -> 0 <= bl < 256 ->
  call png jpg pngversion writable native_code do_color_create [Block b; Int r; Int g; Int bl] w =
    Done (Int (gdImageColorAllocate im r g bl).2) (with_image w b (gdImageColorAllocate im r g bl).1).
Proof.
  intros Hb Hr Hg Hbl.
  assert (E : native png jpg pngversion writable do_color_create [Block b; Int r; Int g; Int bl] w =
    Done (Int (gdImageColorAllocate im r g bl).2) (with_image w b (gdImageColorAllocate im r g bl).1)).
  { cbn [native]. unfold ml_image_color_alloc, add_color. rewrite (bind_IM_VAL _ w b im) by done. rewrite !bind_Int_val by lia.
    by destruct (gdImageColorAllocate im r g bl). }
  by destruct native_code.
Qed.

Lemma find_exact_ok w b im r g bl : blocks w !! b = Some (Image im) -> 0 <= r < 256 -> 0 <= g < 256 -> 0 <= bl < 256 ->
  gdImageColorExact im r g bl <> -1 -> find_ (Block b) r g bl w = Done (gdImageColorExact im r g bl) w.
Proof.
  intros Hb Hr Hg Hbl Hc. unfold find. rewrite (bind_done _ _ w _ w (call_exact w b im r g bl Hb Hr Hg Hbl)).
  cbn [as_int]. rewrite (bind_done _ _ w (gdImageColorExact im r g bl) w) by done. by rewrite (proj2 (Z.eqb_neq _ _) Hc).
Qed.

Lemma find_missing w b im r g bl : blocks w !! b = Some (Image im) -> 0 <= r < 256 -> 0 <= g < 256 -> 0 <= bl < 256 ->
  gdImageColorExact im r g bl = -1 ->
  find_ (Block b) r g bl w =
    let '(im', c) := gdImageColorAllocate im r g bl in
    if c =? -1 then Raised Too_many_colors (with_image w b im') else Done c (with_image w b im').
Proof.
  intros Hb Hr Hg Hbl Hc. unfold find. rewrite (bind_done _ _ w _ w (call_exact w b im r g bl Hb Hr Hg Hbl)), Hc.
  cbn [as_int]. rewrite (bind_done _ _ w (-1) w) by done. cbn [Z.eqb Pos.eqb negb]. unfold create, color_or.
  rewrite (bind_done _ _ w _ _ (call_alloc w b im r g bl Hb Hr Hg Hbl)). destruct (gdImageColorAllocate im r g bl) as [im' c].
  cbn [fst snd as_int]. rewrite (bind_done _ _ _ c (with_image w b im')) by done. by destruct (c =? -1).
Qed.
End Colours.

(** ** Properties *)

(** C33: in native code, and in bytecode for drawings without rectangles and fills up
    to a border, the methods of an image apply the functions of the library to it in
    their order, and change no other block, font or file; in bytecode a rectangle,
    filled or not, is drawn as a line, and a fill up to a border takes the image for
    the array of its arguments. *)
Theorem drawing_refines {I F} `{!GdLib I F} png jpg pngversion writable native_code (w : world I F) b im ds :
  blocks w !! b = Some (Image im) -> Forall (sound native_code) ds -> Forall (fonts_known w) ds ->
  (exists im', drawn_all w im ds = Some im' /\
     draw_all png jpg pngversion writable native_code (Block b) ds w = Done tt (with_image w b im')) /\
  (forall x1 y1 x2 y2 c,
     draw png jpg pngversion writable false (Block b) (rectangle x1 y1 x2 y2 c) w =
       draw png jpg pngversion writable false (Block b) (line x1 y1 x2 y2 c) w /\
     draw png jpg pngversion writable false (Block b) (filled_rectangle x1 y1 x2 y2 c) w =
       draw png jpg pngversion writable false (Block b) (line x1 y1 x2 y2 c) w) /\
  (forall x y border c, draw png jpg pngversion writable false (Block b) (border_fill x y border c) w = Undefined).
Proof.
  intros Hb Hs Hf. split; [|done].
  assert (Hd : exists im', drawn_all w im ds = Some im').
  { clear Hs Hb. revert im. induction Hf as [|d ds Hd Hf IH]; intros im; [by eexists|]. cbn [drawn_all].
    destruct (drawn_total w im d Hd) as [im1 ->]. rewrite some_bind. apply IH. }
  destruct Hd as [im' Hd]. exists im'. split; [done|]. by apply (draw_all_ok _ _ _ _ _ _ _ _ im).
Qed.

(** C34: [find] gives a colour with the parts asked for, and the same colour when it is
    asked again; it changes nothing but the palette of the image, and only when the
    colour is not there; it fails only when there is no place for it. *)
Theorem find_color {I F} {GL : GdLib I F} `{!Palette GL} png jpg pngversion writable native_code (w : world I F) b im r g bl :
  blocks w !! b = Some (Image im) -> 0 <= r < 256 -> 0 <= g < 256 -> 0 <= bl < 256 ->
  let find := find png jpg pngversion writable native_code (Block b) r g bl in
  (find w = Raised Too_many_colors w /\ gdImageColorExact im r g bl = -1) \/
  (exists c im', find w = Done c (with_image w b im') /\ c <> -1 /\
     gdImageRed im' c = r /\ gdImageGreen im' c = g /\ gdImageBlue im' c = bl /\
     (gdImageColorExact im r g bl <> -1 -> im' = im) /\ find (with_image w b im') = Done c (with_image w b im')).
Proof.
  intros Hb Hr Hg Hbl find. assert (Hp : byte_parts r g bl) by done. subst find.
  destruct (decide (gdImageColorExact im r g bl = -1)) as [Hc|Hc].
  - rewrite (find_missing png jpg pngversion writable native_code w b im) by done.
    destruct (gdImageColorAllocate im r g bl) as [im' c] eqn:Ha. destruct (Z.eqb_spec c (-1)) as [->|Hne].
    + left. apply allocate_full in Ha as ->. by rewrite with_image_same.
    + right. pose proof (allocate_new im r g bl im' c Hp Hc Ha Hne) as He. destruct (exact_parts im' r g bl c Hp He Hne) as (H1 & H2 & H3).
      exists c, im'. split; [done|]. split; [done|]. split; [done|]. split; [done|]. split; [done|]. split; [done|].
      rewrite (find_exact_ok png jpg pngversion writable native_code _ b im'); [by rewrite He| |done..|by rewrite He].
      unfold with_image. cbn [blocks]. by rewrite lookup_insert_eq.
  - right. pose proof (find_exact_ok png jpg pngversion writable native_code w b im r g bl Hb Hr Hg Hbl Hc) as E.
    destruct (exact_parts im r g bl _ Hp eq_refl Hc) as (H1 & H2 & H3). exists (gdImageColorExact im r g bl), im.
    rewrite with_image_same by done. done.
Qed.

(** *** What else the code does *)

Section Remarks.
Context {I F : Type} `{!GdLib I F}.
Implicit Types w : world I F.

(** The fonts of [gd.ml] are fonts. *)
Definition fonts_ok w : Prop :=
  fonts_init w = true -> fonts w = [Some gdFontTiny; Some gdFontSmall; Some gdFontMediumBold; Some gdFontLarge; Some gdFontGiant].

Lemma get_font_ok w i : fonts_ok w -> 0 <= i < 5 ->
  exists f w', ml_get_font (Int i) w = Done (Block (next w)) w' /\ font_at w' (next w) = Some f /\ fonts_ok w' /\
    forall b, b <> next w -> blocks w' !! b = blocks w !! b.
Proof.
  intros Hw Hi. set (five := [Some gdFontTiny; Some gdFontSmall; Some gdFontMediumBold; Some gdFontLarge; Some gdFontGiant] : list (option F)).
  assert (Hs : exists w1, (if fonts_init w then mret tt else put (World (blocks w) (next w) five true (files w) (channels w))) w = Done tt w1 /\
    blocks w1 = blocks w /\ next w1 = next w /\ fonts w1 = five /\ fonts_init w1 = true).
  { destruct (fonts_init w) eqn:E; eexists; (split; [reflexivity|]); [|done]. by rewrite (Hw E). }
  destruct Hs as (w1 & E1 & Hb & Hn & Hf & Hinit). unfold ml_get_font. rewrite (bind_done get _ w w w) by done. fold five.
  rewrite (bind_done _ _ w tt w1 E1). assert (Hi32 : s32 i = i) by (unfold s32; rewrite Z.mod_small by lia; lia).
  rewrite (bind_done (Int_val (Int i)) _ w1 i w1) by (unfold Int_val; by rewrite Hi32). rewrite (bind_done get _ w1 w1 w1) by done.
  rewrite Hf, (proj2 (Z.ltb_ge i 0)) by lia.
  assert (Hk : exists f, five !! Z.to_nat i = Some (Some f)).
  { assert (Hc : i = 0 \/ i = 1 \/ i = 2 \/ i = 3 \/ i = 4) by lia. repeat destruct Hc as [->|Hc]; [by eexists..|]. subst i. by eexists. }
  destruct Hk as [f ->]. exists f. eexists. split; [by rewrite <- Hn|]. unfold font_at. cbn [blocks]. rewrite Hn, lookup_insert_eq.
  split; [done|]. split; [by intros _|]. intros b Hne. rewrite lookup_insert_ne by done. by rewrite Hb.
Qed.

(** The address of the version is cut to 32 bits. *)
Lemma png_version_cut w : 2 ^ 31 <= next w -> exists b w', ml_image_pngversion true w = Done (Block b) w' /\ b <> next w.
Proof.
  intros Hn. exists (s32 (next w)). eexists. split; [done|]. unfold s32. pose proof (Z.mod_pos_bound (next w + 2147483648) 4294967296 ltac:(lia)). lia.
Qed.

(** A file that cannot be written. *)
Lemma save_unwritable jpg v writable native_code w b im name : blocks w !! b = Some (Image im) ->
  Forall (fun c => c <> 0) name -> writable name = false ->
  save_as_png true jpg v writable native_code (Block b) name w = Undefined.
Proof.
  intros Hb Hn Hw. assert (E : native true jpg v writable do_save_png [Block b; Str name] w = Undefined).
  { cbn [native]. unfold ml_save_png, save_image. rewrite (bind_done _ _ w name w) by by apply String_val_ok.
    rewrite (bind_done _ _ w im w) by by apply IM_VAL_ok. by rewrite Hw. }
  unfold save_as_png, call. assert (E2 : bytecode true jpg v writable do_save_png [Block b; Str name] w = Undefined) by exact E.
  unfold mbind, m_bind. destruct native_code; [by rewrite E|by rewrite E2].
Qed.

(** [in_range] accepts the positions just outside of the image. *)
Lemma in_range_edge png jpg v writable native_code w b im : blocks w !! b = Some (Image im) ->
  0 <= gdImageSX im -> 0 <= gdImageSY im ->
  in_range png jpg v writable native_code (Block b) (gdImageSX im) (gdImageSY im) w = Done true w.
Proof.
  intros Hb Hx Hy. unfold in_range.
  assert (Ew : width png jpg v writable native_code (Block b) w = Done (gdImageSX im) w).
  { assert (E : native png jpg v writable do_get_width [Block b] w = Done (Int (gdImageSX im)) w).
    { cbn [native]. unfold ml_get_width. by rewrite (bind_done _ _ w im w) by by apply IM_VAL_ok. }
    unfold width. by rewrite (bind_done _ _ w (Int (gdImageSX im)) w) by by destruct native_code. }
  assert (Eh : height png jpg v writable native_code (Block b) w = Done (gdImageSY im) w).
  { assert (E : native png jpg v writable do_get_height [Block b] w = Done (Int (gdImageSY im)) w).
    { cbn [native]. unfold ml_get_height. by rewrite (bind_done _ _ w im w) by by apply IM_VAL_ok. }
    unfold height. by rewrite (bind_done _ _ w (Int (gdImageSY im)) w) by by destruct native_code. }
  rewrite (bind_done _ _ w _ w Ew), (bind_done _ _ w _ w Eh). unfold mret, m_ret. f_equal.
  rewrite !Z.leb_refl, !andb_true_r. rewrite (proj2 (Z.leb_le _ _) Hx), (proj2 (Z.leb_le _ _) Hy). done.
Qed.
End Remarks.

(** ** A library: an image keeps its palette and what was drawn, in numbers *)

Definition picture : Type := list (Z * Z * Z) * list (list Z).

Fixpoint index_of (x : Z * Z * Z) (l : list (Z * Z * Z)) : Z :=
  match l with [] => -1 | y :: l => if decide (x = y) then 0 else let i := index_of x l in if i =? -1 then -1 else i + 1 end.

Definition log (im : picture) (op : list Z) : picture := (im.1, im.2 ++ [op]).
Definition part (f : Z * Z * Z -> Z) (im : picture) (c : Z) : Z := if c <? 0 then -1 else default (-1) (f <$> im.1 !! Z.to_nat c).
Definition allocate (im : picture) (r g b : Z) : picture * Z :=
  if (length im.1 <? 4)%nat then ((im.1 ++ [(r, g, b)], im.2), Z.of_nat (length im.1)) else (im, -1).

#[export] Instance Pictures : GdLib picture Z := {
  gdImageCreate sx sy := if (0 <? sx) && (0 <? sy) then Some ([], [[sx; sy]]) else None;
  gdImageCreateFromPng _ := None;
  gdImageCreateFromJpeg _ := None;
  gdImageSX im := default 0 (im.2 !! 0%nat ≫= fun l => l !! 0%nat);
  gdImageSY im := default 0 (im.2 !! 0%nat ≫= fun l => l !! 1%nat);
  gdImageLine im x1 y1 x2 y2 c := log im [1; x1; y1; x2; y2; c];
  gdImageDashedLine im x1 y1 x2 y2 c := log im [2; x1; y1; x2; y2; c];
  gdImageRectangle im x1 y1 x2 y2 c := log im [3; x1; y1; x2; y2; c];
  gdImageFilledRectangle im x1 y1 x2 y2 c := log im [4; x1; y1; x2; y2; c];
  gdImageArc im cx cy w h s e c := log im [5; cx; cy; w; h; s; e; c];
  gdImageFilledArc im cx cy w h s e c st := log im [6; cx; cy; w; h; s; e; c; st];
  gdImageFillToBorder im x y b c := log im [7; x; y; b; c];
  gdImageFill im x y c := log im [8; x; y; c];
  gdImageChar im f x y c col := log im [9; f; x; y; c; col];
  gdImageCharUp im f x y c col := log im [10; f; x; y; c; col];
  gdImageString im f x y s col := log im ([11; f; x; y; col] ++ s);
  gdImageStringUp im f x y s col := log im ([12; f; x; y; col] ++ s);
  gdImageSetPixel im x y c := log im [13; x; y; c];
  gdImageGetPixel im x y := 0;
  gdImagePng im := concat im.2;
  gdImageJpeg im q := q :: concat im.2;
  gdImagePngPtr im := Some (concat im.2);
  gdImageJpegPtr im q := Some (q :: concat im.2);
  gdImageColorAllocate := allocate;
  gdImageColorClosest im r g b := index_of (r, g, b) im.1;
  gdImageColorClosestHWB im r g b := index_of (r, g, b) im.1;
  gdImageColorExact im r g b := index_of (r, g, b) (take 4 im.1);
  gdImageColorResolve im r g b := if index_of (r, g, b) im.1 =? -1 then allocate im r g b else (im, index_of (r, g, b) im.1);
  gdImageRed := part (fun c => c.1.1);
  gdImageGreen := part (fun c => c.1.2);
  gdImageBlue := part snd;
  gdImageGetTransparent _ := -1;
  gdImageColorTransparent im _ := im;
  gdFontTiny := 1;
  gdFontSmall := 2;
  gdFontMediumBold := 3;
  gdFontLarge := 4;
  gdFontGiant := 5;
  font_address f := 4096 * f;
  png_access_version_number := 10637
}.

Lemma index_of_range x l : -1 <= index_of x l < Z.of_nat (length l) /\ (index_of x l <> -1 -> l !! Z.to_nat (index_of x l) = Some x).
Proof.
  induction l as [|y l [IH IHx]]; [cbn; lia|]. cbn [index_of length]. destruct (decide (x = y)) as [->|Hne]; [split; [lia|done]|].
  cbv zeta. destruct (Z.eqb_spec (index_of x l) (-1)) as [E|E]; [lia|]. split; [lia|]. intros _.
  replace (Z.to_nat (index_of x l + 1)) with (S (Z.to_nat (index_of x l))) by lia. by apply IHx.
Qed.

Lemma index_of_new x l : index_of x l = -1 -> index_of x (l ++ [x]) = Z.of_nat (length l).
Proof.
  induction l as [|y l IH]; cbn [app index_of length]; [by rewrite decide_True|]. destruct (decide (x = y)); [done|].
  cbv zeta. destruct (index_of_range x l) as [H _]. destruct (Z.eqb_spec (index_of x l) (-1)) as [E|E]; [|lia].
  intros _. rewrite (IH E), (proj2 (Z.eqb_neq _ _)) by lia. lia.
Qed.

#[export] Instance PicturesPalette : Palette Pictures.
Proof.
  constructor.
  - intros im r g b c _ E Hc. cbn in *. destruct (index_of_range (r, g, b) (take 4 im.1)) as [H Hx]. rewrite E in *. specialize (Hx Hc).
    apply lookup_take_Some in Hx as [Hx _]. unfold part. rewrite (proj2 (Z.ltb_ge c 0)) by lia. by rewrite Hx.
  - intros im r g b im' c _ E Ha Hc. cbn in *. unfold allocate in Ha.
    destruct (Nat.ltb_spec (length im.1) 4); [|by injection Ha as _ <-].
    injection Ha as <- <-. cbn [fst]. rewrite take_ge in E by lia.
    rewrite take_ge by (rewrite length_app; cbn [length]; lia). by apply index_of_new.
  - intros im r g b im' E. cbn in *. unfold allocate in E. destruct (Nat.ltb_spec (length im.1) 4); [|by injection E as <-].
    injection E as _ E. lia.
Defined.

Definition toy_world : world picture Z :=
  World {[ 100 := Image ([], [[8; 8]]); 101 := Font 2 ]} 102 [Some 1; Some 2; Some 3; Some 4; Some 5] true ∅ ∅.

Definition toy_drawings : list drawing := [line 0 0 7 7 1; string 101 2 2 [72; 105] 1; set_pixel 3 (2 ^ 32) 0].

Lemma drawing_refines_witness :
  (exists im', drawn_all toy_world ([], [[8; 8]]) toy_drawings = Some im' /\
     draw_all true true true (fun _ => true) false (Block 100) toy_drawings toy_world = Done tt (with_image toy_world 100 im')) /\
  (forall x1 y1 x2 y2 c,
     draw true true true (fun _ => true) false (Block 100) (rectangle x1 y1 x2 y2 c) toy_world =
       draw true true true (fun _ => true) false (Block 100) (line x1 y1 x2 y2 c) toy_world /\
     draw true true true (fun _ => true) false (Block 100) (filled_rectangle x1 y1 x2 y2 c) toy_world =
       draw true true true (fun _ => true) false (Block 100) (line x1 y1 x2 y2 c) toy_world) /\
  (forall x y border c, draw true true true (fun _ => true) false (Block 100) (border_fill x y border c) toy_world = Undefined).
Proof.
  apply (drawing_refines true true true (fun _ => true) false toy_world 100 ([], [[8; 8]]) toy_drawings).
  - reflexivity.
  - repeat constructor; right; exact I.
  - repeat constructor. exists 2. reflexivity.
Defined.

Lemma find_color_witness :
  let find := find true true true (fun _ => true) true (Block 100) 255 0 9 in
  (find toy_world = Raised Too_many_colors toy_world /\ gdImageColorExact (([], [[8; 8]]) : picture) 255 0 9 = -1) \/
  (exists c im', find toy_world = Done c (with_image toy_world 100 im') /\ c <> -1 /\
     gdImageRed im' c = 255 /\ gdImageGreen im' c = 0 /\ gdImageBlue im' c = 9 /\
     (gdImageColorExact (([], [[8; 8]]) : picture) 255 0 9 <> -1 -> im' = ([], [[8; 8]])) /\
     find (with_image toy_world 100 im') = Done c (with_image toy_world 100 im')).
Proof. apply (find_color true true true (fun _ => true) true toy_world 100 ([], [[8; 8]]) 255 0 9); [reflexivity|lia..]. Defined.

End Gd.
